(* ===== verification/_CoqProject ===== *)
-Q . S2P
Prelude.v
Packet.v
Checksum.v
TcpOptions.v
PacketBuild.v
Tls.v
Reassembly.v
B4Set.v
Strategies.v
Geosite.v
B4Engine.v
F64.v
Health.v
VpnPool.v
Ota.v
Types.v
IpText.v
Text.v
VpnImport.v
Errors.v
Nftables.v
Plan.v
Control.v
Reconciler.v
ExecutorService.v
Gateway.v
B4Adapt.v
B4Control.v
PathDecision.v
DnsFlow.v
DnsPlane.v
DnsForwarder.v
NetTypes.v
Ipc.v
Dispatch.v
Nfqueue.v
Qdisc.v
QosManager.v
IfaceFields.v
Interface.v
NetworkConfig.v
L2Probe.v
VpnManager.v
Xray.v
XrayRecovery.v
XrayManager.v
VpnRuntime.v
Upnp.v
ConfigPlane.v
Api.v
NetTools.v
Discovery.v
DpiManager.v
SystemStats.v
Subsystems.v
