(* ===== verification/Prelude.v ===== *)
(** * Verification of BalanSir

    BalanSir is a router appliance.  An unprivileged daemon decides what the network should
    look like and a privileged executor makes the kernel look like that; beside them run a
    DPI-bypass packet engine, a DNS forwarder, a pool of VPN profiles with the Xray process
    it drives, and an A/B updater.  This library is a shallow embedding of that code: pure
    functions are Rocq functions, stateful code passes its state, fallible code returns a
    sum, an option or the [exec] monad of this file, whose [Panic] is a Rust panic.
    Everything is executable; integers keep their width where it matters.

    ** Parts of the program and the files that model them (sources under src/crates)

    - Packets.  [Packet], [Checksum], [TcpOptions], [PacketBuild], [Tls] (balansir-b4
      packet.rs), [Reassembly] (reassembly.rs), [B4Set], [Strategies] (set.rs, config.rs,
      strategies.rs, set_apply.rs), [Geosite] (geosite.rs), [B4Engine] (engine.rs) and
      [Nfqueue] (nfqueue.rs, nfq.rs): from the datagrams of the kernel queue to the verdict
      datagrams.
    - Reconciliation.  [Types], [Errors], [Plan] (balansir-common types.rs, error.rs, plan.rs,
      diff.rs), [Control] (balansir-control coordinator.rs), [Reconciler] (balansir-daemon
      reconciliation/), [DnsFlow] (dns_flow.rs): desired state, diff, plan, transaction.
    - The executor.  [Nftables], [ExecutorService], [Gateway], [Qdisc], [Interface] with
      [IfaceFields] (balansir-executor nftables.rs, service.rs, gateway.rs, qdisc.rs,
      interface.rs); [NetTypes] holds the types both sides share.
    - The boundary.  [Ipc] (balansir-common ipc.rs) and [Dispatch] (the dispatch of
      service.rs and reconciliation/executor_client.rs): the daemon's calls as frames.
    - Managers of the daemon.  [Health] over [F64] (balansir-health), [B4Adapt], [B4Control]
      (b4_engine/, b4_manager.rs, executor path_mtu.rs), [PathDecision], [QosManager]
      (subsystems.rs), [NetworkConfig] (network_config.rs and its use in main.rs).
    - DNS.  [DnsPlane] (dns_plane.rs) reads messages, [DnsForwarder] (dns.rs) answers them.
    - VPN.  [VpnImport] (balansir-vpn uri.rs, importer.rs), [VpnPool] (pool.rs), [L2Probe],
      [VpnManager] (vpn_manager.rs, balansir-vpn lib.rs), [Xray] (xray.rs, secrets.rs),
      [XrayRecovery], [XrayManager] (xray_manager.rs) and [VpnRuntime] (their wiring in
      main.rs): from a subscription line to the process that runs.
    - Configuration and management.  [ConfigPlane] (balansir-control provider.rs, daemon
      startup.rs, cli.rs, the start and control socket of main.rs), [Api] (balansir-api lib.rs,
      auth.rs, webui.rs, control.rs, handlers.rs): from the configuration text, the command
      line and HTTP requests to the reconciler.
    - Strategy search and engine life cycle.  [Discovery] (b4_discovery.rs), [DpiManager]
      (b4_dpi.rs, the threads of engine.rs).
    - Devices.  [Upnp] (upnp.rs), [NetTools] (executor tailscale.rs, wifi.rs, mptcp.rs and
      the daemon's wifi_manager.rs, mptcp_manager.rs).
    - Observation.  [SystemStats] (system_stats.rs, capability.rs) and [Subsystems]
      (subsystems.rs of the daemon and of balansir-api, wan_identity.rs): the pass that
      collects all views into one snapshot, and the operations that requests invoke on it.
    - Updates.  [Ota] (balansir-ota).
    - [IpText] and [Text] model the parts of [std] used on numbers, addresses and UTF-8
      text; this file holds notations, integers, bytes, lists and the hint databases.

    Each file has the data of its component as records and inductive types with the names
    of the source, one definition per function, its invariant, and its theorems; where the
    source has a large function, its parts are definitions of their own and the function
    composes them.

    ** Interfaces

    What a component needs of another is a class whose laws the other one's theorems
    discharge: [Control.ports] (a record) and [Reconciler.Mechanism] for the executor as the
    daemon sees it, implemented locally ([ExecutorService]) and over IPC ([Dispatch]);
    [Nftables.Nft] for the nft command; [XrayManager.ComponentDriver] for a driver,
    implemented by [Xray]; [NetworkConfig.GatewayExecutor] for the re-check.  Code outside
    the repository is a parameter with documented behaviour as its laws: the kernel's
    netlink ([Qdisc.TcKernel], [Interface.LinkKernel], the datagrams of [Nfqueue]), files
    ([Interface.Files], [VpnManager.ManualFile], the file system of [Ota]), processes
    ([Xray.XrayHost]), the ip, tc, nft and curl commands, the TOML, JSON and postcard codecs,
    SHA-256, clocks and the network.  Each class has an instance in memory, with which the
    witnesses evaluate.

    ** What the theorems show

    - Enforcement: a reconcile cycle that reports success has made the kernel enforce
      exactly the compiled desired rules, step by step ([Plan], [Control], [Reconciler]),
      through nftables ([ExecutorService]) and through the wire ([Dispatch]); the gateway,
      QoS, MTU and DNS-driven parts have the like.
    - Packets: every queued packet gets exactly one verdict, ACCEPT; mutations keep flow and
      payload; a fragmented ClientHello is recognised; memory stays bounded.
    - Codecs: round trips of ClientHello and server name, DNS responses, IPC frames, netlink
      messages, subscriptions, the Xray configuration; totality of the parsers.
    - VPN: only validated and chosen profiles run, under every interleaving; the pool
      chooses the best; restarts are bounded.
    - Configuration: a start or a reload that reports success has its configuration
      enforced, and a broken connection leaves either the old or the new one; a token guards
      every route of the API; the file handler stays in its directory.
    - Requests: a shaping request over HTTP becomes the qdiscs of the kernel; port mappings
      reach private addresses of the LAN only; requests cannot change which external
      commands run.
    - Engine control: the strategy search probes a bounded number of times; there is never a
      second worker of the packet engine.
    - Updates: no failure and no power cut makes an unverified image boot.
    - Refinement and equivalence of incremental code with a specification over the history
      ([Health], [B4Adapt]).
    - Divergences: where the code does something else than its comments or itself intends,
      a theorem or lemma states what it does.

    ** Bounds and fuel

    Loops over bytes take as fuel the number of bytes, which decreases in every turn (IPC
    frames, netlink attributes, CAKE options, TLS extensions, UTF-8).  A DNS name takes
    [name_fuel] = 400 turns: 255 bytes and 64 pointer jumps bound it, and
    [observe_response] is proved total.  A CNAME chain takes the 8 steps of the code and two
    to stop.  Removal loops of the gateway take the number of rules plus one, the loading of
    geosite files the number of files, the walk to a USB device the 4 levels of the code.

    ** Not modelled

    HTTP handlers that only encode a snapshot or forward one call, the event stream, process
    start and task wiring beyond what [ConfigPlane], [NetworkConfig] and [VpnRuntime] compose,
    logging and metrics, the host observer and the interface probe, the image builder, and
    test code. *)

From Stdlib Require Export ZArith Lia ZifyBool Ascii.
From Stdlib Require String.
From stdpp Require Export base list strings gmap.

#[global] Open Scope Z_scope.

Create HintDb balansir.
Create Rewrite HintDb balansir.

(** ** Panics

    Rust indexing, slicing and [copy_from_slice] panic when they are out of
    range.  [exec A] is the result of running such code: a value, or the
    panic.  It is a monad for stdpp's [x ← m; k] notation. *)

Inductive exec (A : Type) : Type :=
| Val (a : A)
| Panic.
Arguments Val {A} a.
Arguments Panic {A}.

#[export] Instance exec_ret : MRet exec := fun A a => Val a.
#[export] Instance exec_bind : MBind exec :=
  fun A B f m => match m with Val a => f a | Panic => Panic end.

(** The code ran to completion. *)
Definition returns {A} (m : exec A) : Prop := exists a, m = Val a.

Lemma bind_Val {A B} (m : exec A) (f : A -> exec B) b :
  (m ≫= f) = Val b <-> exists a, m = Val a /\ f a = Val b.
Proof.
  destruct m as [a|]; cbn; split; intros H.
  - eauto.
  - destruct H as (a' & [= ->] & H). exact H.
  - discriminate.
  - destruct H as (a' & [=] & _).
Qed.

Lemma bind_Val_l {A B} (a : A) (f : A -> exec B) : (Val a ≫= f) = f a.
Proof. reflexivity. Qed.

Lemma exec_bind_assoc {A B C} (m : exec A) (f : A -> exec B) (g : B -> exec C) :
  ((m ≫= f) ≫= g) = (m ≫= fun a => f a ≫= g).
Proof. by destruct m. Qed.

Lemma returns_bind {A B} (m : exec A) (f : A -> exec B) :
  returns m -> (forall a, m = Val a -> returns (f a)) -> returns (m ≫= f).
Proof. intros [a ->] Hf. cbn. by apply Hf. Qed.

Lemma returns_Val {A} (a : A) : returns (Val a).
Proof. by exists a. Qed.

#[export] Hint Resolve returns_Val : balansir.

(** Invert an equation [m = Val _] through the binds of [m]. *)
Ltac exec_inv :=
  repeat match goal with
  | H : (_ ≫= _) = Val _ |- _ =>
      apply bind_Val in H; destruct H as (? & ? & ?)
  | H : Val _ = Val _ |- _ => injection H as H; try subst
  | H : Panic = Val _ |- _ => discriminate H
  | H : Val _ = Panic |- _ => discriminate H
  | H : mret _ = Val _ |- _ => unfold mret, exec_ret in H
  end.

(** ** Machine integers *)

Definition wrap (w z : Z) : Z := z mod 2 ^ w.
Abbreviation u8 := (wrap 8).
Abbreviation u16 := (wrap 16).
Abbreviation u32 := (wrap 32).
Abbreviation u64 := (wrap 64).

Definition u32_max : Z := 2 ^ 32 - 1.
Definition u64_max : Z := 2 ^ 64 - 1.

(** Two's complement [i64], as wrapping arithmetic and [as i64] give it. *)
Definition i64 (z : Z) : Z :=
  let m := wrap 64 z in if m <? 2 ^ 63 then m else m - 2 ^ 64.

(** [saturating_add] / [saturating_sub] on the given width. *)
Definition sat_add (max a b : Z) : Z := Z.min (a + b) max.
Definition sat_sub (a b : Z) : Z := Z.max (a - b) 0.

Definition is_byte (z : Z) : Prop := 0 <= z < 256.

Lemma wrap_range w z : 0 <= w -> 0 <= wrap w z < 2 ^ w.
Proof. intros. apply Z.mod_pos_bound. by apply Z.pow_pos_nonneg. Qed.

Lemma wrap_small w z : 0 <= z < 2 ^ w -> wrap w z = z.
Proof. intros. by apply Z.mod_small. Qed.

Lemma wrap_wrap w z : 0 <= w -> wrap w (wrap w z) = wrap w z.
Proof. intros. apply wrap_small. by apply wrap_range. Qed.

Lemma wrap_add_l w a b : 0 <= w -> wrap w (wrap w a + b) = wrap w (a + b).
Proof.
  intros. unfold wrap. apply Z.add_mod_idemp_l. pose proof (Z.pow_pos_nonneg 2 w). lia.
Qed.

Lemma u8_byte z : is_byte (u8 z).
Proof. unfold is_byte. pose proof (wrap_range 8 z). lia. Qed.

#[export] Hint Resolve u8_byte : balansir.

(** [(a << n) | b] of a [b] below [2^n]. *)
Lemma lor_shiftl n a b :
  0 <= n -> 0 <= b < 2 ^ n -> Z.lor (Z.shiftl a n) b = a * 2 ^ n + b.
Proof.
  intros Hn Hb.
  assert (Hl : Z.land (Z.shiftl a n) b = 0).
  { apply Z.bits_inj'. intros m Hm. rewrite Z.land_spec, Z.bits_0.
    destruct (Z.lt_ge_cases m n).
    - by rewrite Z.shiftl_spec_low by lia.
    - replace b with (b mod 2 ^ n) by (by apply Z.mod_small).
      rewrite Z.mod_pow2_bits_high by lia. apply andb_false_r. }
  rewrite <- (Z.lxor_lor _ _ Hl), <- (Z.add_nocarry_lxor _ _ Hl).
  by rewrite Z.shiftl_mul_pow2 by lia.
Qed.

(** [x & !3] *)
Lemma land_lnot3 x : Z.land x (Z.lnot 3) = x - x mod 4.
Proof.
  rewrite <- Z.ldiff_land. change 3 with (Z.ones 2).
  rewrite Z.ldiff_ones_r, Z.shiftl_mul_pow2, Z.shiftr_div_pow2 by lia.
  change (2 ^ 2) with 4. Z.div_mod_to_equations. lia.
Qed.

(** Big-endian and little-endian (the host order of every supported board)
    conversions of [u16]/[u32]. *)
Definition from_be16 (b0 b1 : Z) : Z := 256 * b0 + b1.
Definition from_be32 (b0 b1 b2 b3 : Z) : Z :=
  16777216 * b0 + 65536 * b1 + 256 * b2 + b3.
Definition to_be16 (v : Z) : list Z := [u8 (v / 256); u8 v].
Definition to_be32 (v : Z) : list Z :=
  [u8 (v / 16777216); u8 (v / 65536); u8 (v / 256); u8 v].
Definition to_le16 (v : Z) : list Z := [u8 v; u8 (v / 256)].
Definition to_le32 (v : Z) : list Z :=
  [u8 v; u8 (v / 256); u8 (v / 65536); u8 (v / 16777216)].

(** [lia] with division and modulo by constants. *)
Ltac zmod_lia := unfold wrap, is_byte, from_be16, from_be32 in *;
  change (2 ^ 8) with 256 in *; change (2 ^ 16) with 65536 in *;
  change (2 ^ 32) with 4294967296 in *;
  change (2 ^ 64) with 18446744073709551616 in *;
  Z.div_mod_to_equations; lia.

Lemma from_to_be16 v : 0 <= v < 65536 -> from_be16 (u8 (v / 256)) (u8 v) = v.
Proof. intros. zmod_lia. Qed.

Lemma from_to_be32 v :
  0 <= v < 2 ^ 32 ->
  from_be32 (u8 (v / 16777216)) (u8 (v / 65536)) (u8 (v / 256)) (u8 v) = v.
Proof. intros. zmod_lia. Qed.

Lemma from_be16_range a b : is_byte a -> is_byte b -> 0 <= from_be16 a b < 65536.
Proof. zmod_lia. Qed.

Lemma from_be32_range a b c d :
  is_byte a -> is_byte b -> is_byte c -> is_byte d ->
  0 <= from_be32 a b c d < 2 ^ 32.
Proof. zmod_lia. Qed.

Lemma to_be16_from a b : is_byte a -> is_byte b -> to_be16 (from_be16 a b) = [a; b].
Proof. intros. unfold to_be16. repeat f_equal; zmod_lia. Qed.

Lemma to_be16_bytes v : Forall is_byte (to_be16 v).
Proof. unfold to_be16. auto with balansir. Qed.

Lemma to_be32_bytes v : Forall is_byte (to_be32 v).
Proof. unfold to_be32. auto 10 with balansir. Qed.

#[export] Hint Resolve to_be16_bytes to_be32_bytes : balansir.

(** ** Byte vectors: [Vec<u8>] and [&[u8]] with their [usize] indices *)

Section Vectors.
Context {A : Type}.
Implicit Types (l : list A) (i a b : Z).

Definition len l : Z := Z.of_nat (length l).

(** [l[i]] *)
Definition idx l i : exec A :=
  if i <? 0 then Panic
  else match l !! Z.to_nat i with Some x => Val x | None => Panic end.

(** [&l[a..b]] *)
Definition slice l a b : exec (list A) :=
  if (0 <=? a) && (a <=? b) && (b <=? len l)
  then Val (take (Z.to_nat (b - a)) (drop (Z.to_nat a) l))
  else Panic.

(** [l[i] = x] *)
Definition set_idx l i (x : A) : exec (list A) :=
  if (0 <=? i) && (i <? len l) then Val (<[Z.to_nat i := x]> l) else Panic.

(** [l[a..b].copy_from_slice(src)]; it also panics when the lengths differ. *)
Definition copy_from_slice l a b (src : list A) : exec (list A) :=
  if (0 <=? a) && (a <=? b) && (b <=? len l) && (len src =? b - a)
  then Val (take (Z.to_nat a) l ++ src ++ drop (Z.to_nat b) l)
  else Panic.

Lemma len_nonneg l : 0 <= len l.
Proof. unfold len. lia. Qed.

Lemma len_app l1 l2 : len (l1 ++ l2) = len l1 + len l2.
Proof. unfold len. rewrite length_app. lia. Qed.

Lemma len_cons x l : len (x :: l) = 1 + len l.
Proof. unfold len. cbn. lia. Qed.

Lemma len_nil : len (@nil A) = 0.
Proof. reflexivity. Qed.

Lemma len_zero l : len l = 0 -> l = [].
Proof. destruct l; [done|]. rewrite len_cons. pose proof (len_nonneg l). lia. Qed.

Lemma len_replicate n (x : A) : len (replicate n x) = Z.of_nat n.
Proof. unfold len. by rewrite length_replicate. Qed.

Lemma len_insert l (i : nat) (x : A) : len (<[i := x]> l) = len l.
Proof. unfold len. by rewrite length_insert. Qed.

Lemma idx_returns l i : returns (idx l i) <-> 0 <= i < len l.
Proof.
  unfold returns, idx, len. split.
  - intros [a H]. destruct (i <? 0) eqn:Ei; [discriminate|].
    destruct (l !! Z.to_nat i) eqn:El; [|discriminate].
    apply lookup_lt_Some in El. lia.
  - intros H. destruct (i <? 0) eqn:Ei; [lia|].
    destruct (lookup_lt_is_Some_2 l (Z.to_nat i)) as [x Hx]; [lia|].
    rewrite Hx. eauto.
Qed.

Lemma idx_Val l i x :
  idx l i = Val x <-> 0 <= i /\ l !! Z.to_nat i = Some x.
Proof.
  unfold idx. destruct (i <? 0) eqn:Ei.
  - split; [discriminate|lia].
  - destruct (l !! Z.to_nat i); split; intros H; try discriminate.
    + injection H as <-. split; [lia|done].
    + destruct H as [_ [= <-]]. done.
    + destruct H as [_ [=]].
Qed.

Lemma idx_Panic l i : i < 0 \/ len l <= i -> idx l i = Panic.
Proof.
  unfold idx, len. intros H. destruct (i <? 0) eqn:E; [done|].
  by rewrite lookup_ge_None_2 by lia.
Qed.

Lemma idx_Val_range l i x : idx l i = Val x -> 0 <= i < len l.
Proof. intros H. apply idx_returns. by exists x. Qed.

Lemma slice_Val l a b s :
  slice l a b = Val s <->
  (0 <= a <= b /\ b <= len l) /\ s = take (Z.to_nat (b - a)) (drop (Z.to_nat a) l).
Proof.
  unfold slice. destruct ((0 <=? a) && (a <=? b) && (b <=? len l)) eqn:E.
  - split; [intros [= <-]|intros [_ ->]]; [split; [lia|done]|done].
  - split; [discriminate|lia].
Qed.

Lemma slice_len l a b s : slice l a b = Val s -> len s = b - a.
Proof.
  intros ((H1 & H2) & ->)%slice_Val. unfold len in *.
  rewrite length_take, length_drop. lia.
Qed.

Lemma slice_returns l a b : 0 <= a <= b -> b <= len l -> returns (slice l a b).
Proof.
  intros. eexists. apply slice_Val. split; [lia|reflexivity].
Qed.

Lemma set_idx_Val l i x l' :
  set_idx l i x = Val l' <-> 0 <= i < len l /\ l' = <[Z.to_nat i := x]> l.
Proof.
  unfold set_idx. destruct ((0 <=? i) && (i <? len l)) eqn:E.
  - split; [intros [= <-]|intros [_ ->]]; [split; [lia|done]|done].
  - split; [discriminate|lia].
Qed.

Lemma set_idx_len l i x l' : set_idx l i x = Val l' -> len l' = len l.
Proof. intros (_ & ->)%set_idx_Val. unfold len. by rewrite length_insert. Qed.

Lemma copy_from_slice_Val l a b src l' :
  copy_from_slice l a b src = Val l' <->
  (0 <= a <= b /\ b <= len l /\ len src = b - a) /\
  l' = take (Z.to_nat a) l ++ src ++ drop (Z.to_nat b) l.
Proof.
  unfold copy_from_slice.
  destruct ((0 <=? a) && (a <=? b) && (b <=? len l) && (len src =? b - a)) eqn:E.
  - split; [intros [= <-]|intros [_ ->]]; [split; [lia|done]|done].
  - split; [discriminate|lia].
Qed.

Lemma slice_eq l a b :
  0 <= a <= b -> b <= len l ->
  slice l a b = Val (take (Z.to_nat (b - a)) (drop (Z.to_nat a) l)).
Proof. intros. apply slice_Val. split; [lia|done]. Qed.

Lemma set_idx_eq l i x : 0 <= i < len l -> set_idx l i x = Val (<[Z.to_nat i := x]> l).
Proof. intros. by apply set_idx_Val. Qed.

Lemma copy_from_slice_eq l a b src :
  0 <= a <= b -> b <= len l -> len src = b - a ->
  copy_from_slice l a b src = Val (take (Z.to_nat a) l ++ src ++ drop (Z.to_nat b) l).
Proof. intros. apply copy_from_slice_Val. split; [lia|done]. Qed.

Lemma copy_from_slice_len l a b src l' :
  copy_from_slice l a b src = Val l' -> len l' = len l.
Proof.
  intros ((? & ? & ?) & ->)%copy_from_slice_Val. unfold len in *.
  rewrite !length_app, length_take, length_drop. lia.
Qed.
End Vectors.

#[export] Hint Resolve len_nonneg : balansir.

(** Overwriting bytes [a..b] leaves what is after and before them. *)
Lemma drop_patch {A} (r src : list A) a b n :
  (length src = b - a)%nat -> (a <= b <= length r)%nat -> (b <= n)%nat ->
  drop n (take a r ++ src ++ drop b r) = drop n r.
Proof.
  intros Hs Hb Hn. rewrite !drop_app, length_take.
  rewrite drop_ge by (rewrite length_take; lia).
  rewrite drop_ge by lia. rewrite drop_drop. cbn. f_equal. lia.
Qed.

Lemma take_patch {A} (r src : list A) a b n :
  (a <= length r)%nat -> (n <= a)%nat ->
  take n (take a r ++ src ++ drop b r) = take n r.
Proof.
  intros Ha Hn. rewrite take_app_le by (rewrite length_take; lia).
  rewrite take_take. f_equal. lia.
Qed.
Lemma slice_mid {A} (P M Q : list A) a b :
  a = len P -> b = a + len M -> slice (P ++ M ++ Q) a b = Val M.
Proof.
  intros -> ->. pose proof (len_nonneg P). pose proof (len_nonneg M).
  pose proof (len_nonneg Q). rewrite slice_eq by (rewrite ?len_app; lia).
  f_equal. unfold len. rewrite Nat2Z.id, drop_app_length.
  by rewrite take_app_length' by lia.
Qed.

Lemma len_to_be16 v : len (to_be16 v) = 2.
Proof. done. Qed.

Lemma len_to_be32 v : len (to_be32 v) = 4.
Proof. done. Qed.

#[export] Hint Rewrite len_to_be16 len_to_be32 : balansir.
#[export] Hint Rewrite @len_app @len_cons @len_nil : balansir.

(** Reading with a default, for statements: [byte_at l i] is [l[i]] wherever
    that does not panic. *)
Definition byte_at (l : list Z) (i : Z) : Z := default 0 (l !! Z.to_nat i).

Lemma idx_byte_at (l : list Z) i : 0 <= i < len l -> idx l i = Val (byte_at l i).
Proof.
  intros H. destruct (proj2 (idx_returns l i) H) as [x Hx]. rewrite Hx.
  apply idx_Val in Hx as [_ Hx]. unfold byte_at. by rewrite Hx.
Qed.

Lemma idx_byte_at_inv (l : list Z) i x : idx l i = Val x -> x = byte_at l i.
Proof.
  intros H. pose proof (idx_Val_range _ _ _ H) as Hr.
  rewrite idx_byte_at in H by done. by injection H.
Qed.

Lemma byte_at_is_byte l i : Forall is_byte l -> is_byte (byte_at l i).
Proof.
  intros H. unfold byte_at. destruct (l !! Z.to_nat i) eqn:E; cbn.
  - by eapply Forall_lookup_1.
  - unfold is_byte. lia.
Qed.

#[export] Hint Resolve byte_at_is_byte : balansir.

Lemma byte_at_app_l l1 l2 i : 0 <= i < len l1 -> byte_at (l1 ++ l2) i = byte_at l1 i.
Proof. intros. unfold byte_at, len in *. by rewrite lookup_app_l by lia. Qed.

Lemma byte_at_app_r l1 l2 i :
  len l1 <= i -> byte_at (l1 ++ l2) i = byte_at l2 (i - len l1).
Proof.
  intros. unfold byte_at, len in *. rewrite lookup_app_r by lia.
  do 2 f_equal. lia.
Qed.

Lemma byte_at_cons_0 x l : byte_at (x :: l) 0 = x.
Proof. reflexivity. Qed.

Lemma byte_at_cons_S x l i : 0 < i -> byte_at (x :: l) i = byte_at l (i - 1).
Proof.
  intros. unfold byte_at. replace (Z.to_nat i) with (S (Z.to_nat (i - 1))) by lia.
  reflexivity.
Qed.

Lemma byte_at_take n l i :
  0 <= i < Z.of_nat n -> byte_at (take n l) i = byte_at l i.
Proof. intros. unfold byte_at. by rewrite lookup_take_lt by lia. Qed.

Lemma byte_at_drop n l i :
  0 <= i -> byte_at (drop n l) i = byte_at l (Z.of_nat n + i).
Proof.
  intros. unfold byte_at. rewrite lookup_drop. do 2 f_equal. lia.
Qed.

Lemma byte_at_insert_eq l i x :
  0 <= i < len l -> byte_at (<[Z.to_nat i := x]> l) i = x.
Proof. intros. unfold byte_at, len in *. by rewrite list_lookup_insert_eq by lia. Qed.

Lemma byte_at_insert_ne l i j x :
  0 <= i -> 0 <= j -> i <> j -> byte_at (<[Z.to_nat i := x]> l) j = byte_at l j.
Proof. intros. unfold byte_at. by rewrite list_lookup_insert_ne by lia. Qed.

(** Writing a run of bytes changes exactly that run. *)
Lemma copy_from_slice_byte_at l a b src l' i :
  copy_from_slice l a b src = Val l' -> 0 <= i ->
  byte_at l' i = if (a <=? i) && (i <? b) then byte_at src (i - a) else byte_at l i.
Proof.
  intros ((? & ? & ?) & ->)%copy_from_slice_Val Hi.
  assert (Hlt : len (take (Z.to_nat a) l) = a).
  { unfold len in *. rewrite length_take. lia. }
  destruct ((a <=? i) && (i <? b)) eqn:E.
  - rewrite byte_at_app_r, Hlt, byte_at_app_l by lia. done.
  - destruct (Z.lt_ge_cases i a).
    + rewrite byte_at_app_l, byte_at_take by lia. done.
    + rewrite byte_at_app_r, Hlt, byte_at_app_r, byte_at_drop by lia.
      f_equal. lia.
Qed.

Lemma byte_at_patch_ge (r src : list Z) a b i :
  (length src = b - a)%nat -> (a <= b <= length r)%nat -> Z.of_nat b <= i ->
  byte_at (take a r ++ src ++ drop b r) i = byte_at r i.
Proof.
  intros Hs Hb Hi. pose proof (byte_at_drop b) as Hd.
  replace i with (Z.of_nat b + (i - Z.of_nat b)) by lia.
  rewrite <- !Hd by lia. by rewrite drop_patch.
Qed.

Lemma byte_at_patch_out (r src : list Z) a b i :
  (length src = b - a)%nat -> (a <= b <= length r)%nat -> 0 <= i ->
  i < Z.of_nat a \/ Z.of_nat b <= i ->
  byte_at (take a r ++ src ++ drop b r) i = byte_at r i.
Proof.
  intros Hs Hb Hi [Ha|Hge]; [|by apply byte_at_patch_ge].
  rewrite byte_at_app_l, byte_at_take; [done|lia|]. unfold len. rewrite length_take. lia.
Qed.

Lemma byte_list_ext l1 l2 :
  len l1 = len l2 -> (forall i, 0 <= i < len l1 -> byte_at l1 i = byte_at l2 i) ->
  l1 = l2.
Proof.
  intros Hl H. apply list_eq_same_length with (n := length l1).
  all: [> unfold len in Hl; lia | done | ].
  intros i x y Hi Hx Hy. specialize (H (Z.of_nat i)).
  unfold byte_at, len in *. rewrite Nat2Z.id, Hx, Hy in H. cbn in H. apply H. lia.
Qed.

Lemma Forall_copy_from_slice (P : Z -> Prop) l a b src l' :
  copy_from_slice l a b src = Val l' -> Forall P l -> Forall P src -> Forall P l'.
Proof.
  intros (_ & ->)%copy_from_slice_Val Hl Hs.
  apply Forall_app. split; [by apply Forall_take|].
  apply Forall_app. split; [done|by apply Forall_drop].
Qed.

Lemma Forall_slice (P : Z -> Prop) l a b s :
  slice l a b = Val s -> Forall P l -> Forall P s.
Proof. intros (_ & ->)%slice_Val Hl. by apply Forall_take, Forall_drop. Qed.

(** Run one bounds-checked read or write whose bounds [lia] can show. *)
Ltac exec_reads :=
  repeat match goal with
  | |- context [idx ?l ?i] => rewrite (idx_byte_at l i) by lia; rewrite ?bind_Val_l
  end.

(** ** Strings

    A Rust [String]/[&str] is its UTF-8 byte sequence, one [ascii] per byte. *)

Fixpoint string_map (f : ascii -> ascii) (s : string) : string :=
  match s with
  | EmptyString => EmptyString
  | String c s' => String (f c) (string_map f s')
  end.

Definition lower_ascii (c : ascii) : ascii :=
  let n := N_of_ascii c in
  if ((65 <=? n) && (n <=? 90))%N then ascii_of_N (n + 32) else c.

(** [str::to_ascii_lowercase] *)
Definition to_ascii_lowercase : string -> string := string_map lower_ascii.

(** [str::ends_with] *)
Fixpoint ends_with (s suf : string) : bool :=
  String.eqb s suf ||
  match s with EmptyString => false | String _ s' => ends_with s' suf end.

(** [str::contains] of a string pattern *)
Fixpoint contains (s pat : string) : bool :=
  String.prefix pat s ||
  match s with EmptyString => false | String _ s' => contains s' pat end.

(** [str::trim_end_matches] of a character *)
Fixpoint trim_end_matches (c : ascii) (s : string) : string :=
  match s with
  | EmptyString => EmptyString
  | String a s' =>
      match trim_end_matches c s' with
      | EmptyString => if Ascii.eqb a c then EmptyString else String a EmptyString
      | t => String a t
      end
  end.

(** The suffix test every domain list of the program uses:
    [h == d || h.ends_with(&format!(".{d}"))]. *)
Definition domain_match (h d : string) : bool :=
  String.eqb h d || ends_with h ("." +:+ d).

(** [str::from_utf8(..).to_string()] of bytes already known to be UTF-8. *)
Fixpoint string_of_bytes (l : list Z) : string :=
  match l with
  | [] => EmptyString
  | b :: l' => String (ascii_of_N (Z.to_N b)) (string_of_bytes l')
  end.

Fixpoint bytes_of_string (s : string) : list Z :=
  match s with
  | EmptyString => []
  | String c s' => Z.of_N (N_of_ascii c) :: bytes_of_string s'
  end.

(** [char::is_whitespace] on ASCII: the files the program trims are ASCII. *)
Definition is_space (c : ascii) : bool :=
  let n := N_of_ascii c in ((n =? 32) || ((9 <=? n) && (n <=? 13)))%N.

Fixpoint trim_start (s : string) : string :=
  match s with
  | String c s' => if is_space c then trim_start s' else s
  | EmptyString => EmptyString
  end.

Fixpoint trim_end (s : string) : string :=
  match s with
  | EmptyString => EmptyString
  | String c s' =>
      match trim_end s' with
      | EmptyString => if is_space c then EmptyString else String c EmptyString
      | t => String c t
      end
  end.

Definition trim (s : string) : string := trim_start (trim_end s).

(** [str::lines]; the line terminators it strips are white space, which the
    callers trim anyway. *)
Fixpoint lines_aux (cur : string) (s : string) : list string :=
  match s with
  | EmptyString => match cur with EmptyString => [] | _ => [cur] end
  | String c s' =>
      if Ascii.eqb c "010" then cur :: lines_aux EmptyString s'
      else lines_aux (cur +:+ String c EmptyString) s'
  end.
Definition lines (s : string) : list string := lines_aux EmptyString s.

(** [str::strip_prefix] *)
Fixpoint strip_prefix (pre s : string) : option string :=
  match pre, s with
  | EmptyString, _ => Some s
  | String a pre', String b s' => if Ascii.eqb a b then strip_prefix pre' s' else None
  | _, _ => None
  end.

Definition starts_with (s pre : string) : bool :=
  match strip_prefix pre s with Some _ => true | None => false end.

Lemma ends_with_spec s suf :
  ends_with s suf = true <-> exists p, s = p +:+ suf.
Proof.
  induction s as [|c s IH]; cbn [ends_with]; rewrite ?orb_true_iff, ?String.eqb_eq.
  - split.
    + intros [<-|[=]]. by exists EmptyString.
    + intros ([|] & Hp); [by left|discriminate].
  - rewrite IH. split.
    + intros [<-|(p & ->)]; [by exists EmptyString|by exists (String c p)].
    + intros ([|c' p] & Hp); [by left|]. right. exists p. by injection Hp.
Qed.

Lemma domain_match_spec h d :
  domain_match h d = true <-> h = d \/ exists p, h = p +:+ "." +:+ d.
Proof.
  unfold domain_match. by rewrite orb_true_iff, String.eqb_eq, ends_with_spec.
Qed.

Lemma string_app_cons c s t : String c s +:+ t = String c (s +:+ t).
Proof. reflexivity. Qed.

Lemma string_map_app f s t : string_map f (s +:+ t) = string_map f s +:+ string_map f t.
Proof.
  induction s as [|c s IH]; [done|].
  rewrite string_app_cons. cbn. by rewrite IH.
Qed.

Lemma lower_ascii_idemp c : lower_ascii (lower_ascii c) = lower_ascii c.
Proof. destruct c as [[] [] [] [] [] [] [] []]; reflexivity. Qed.

Lemma to_ascii_lowercase_idemp s :
  to_ascii_lowercase (to_ascii_lowercase s) = to_ascii_lowercase s.
Proof.
  unfold to_ascii_lowercase. induction s; cbn; [done|].
  by rewrite lower_ascii_idemp, IHs.
Qed.

Lemma bytes_of_string_of_bytes l :
  Forall is_byte l -> bytes_of_string (string_of_bytes l) = l.
Proof.
  induction 1 as [|b l Hb _ IH]; cbn; [done|]. rewrite IH. f_equal.
  rewrite N_ascii_embedding; unfold is_byte in Hb; lia.
Qed.

Lemma string_of_bytes_of_string s : string_of_bytes (bytes_of_string s) = s.
Proof.
  induction s; cbn; [done|]. by rewrite N2Z.id, ascii_N_embedding, IHs.
Qed.

Lemma bytes_of_string_bytes s : Forall is_byte (bytes_of_string s).
Proof.
  induction s; cbn; constructor; [|done].
  pose proof (N_ascii_bounded a). unfold is_byte. lia.
Qed.

#[export] Hint Resolve bytes_of_string_bytes : balansir.

(** *** Searching *)

(** The rest after the first occurrence: [s.find(pat)] followed by the slice behind it. *)
Fixpoint find_after (pat s : string) : option string :=
  match strip_prefix pat s with
  | Some r => Some r
  | None => match s with EmptyString => None | String _ s' => find_after pat s' end
  end.

(** The rest after the last occurrence, as [s.rfind(pat)]. *)
Fixpoint rfind_after (pat s : string) : option string :=
  match s with
  | EmptyString => strip_prefix pat s
  | String _ s' =>
      match rfind_after pat s' with Some r => Some r | None => strip_prefix pat s end
  end.

Fixpoint no_char (x : ascii) (s : string) : bool :=
  match s with EmptyString => true | String c s' => negb (Ascii.eqb c x) && no_char x s' end.

Lemma string_app_assoc (a b c : string) : (a +:+ b) +:+ c = a +:+ b +:+ c.
Proof. induction a as [|x a IH]; [done|]. rewrite !string_app_cons. by rewrite IH. Qed.

Lemma string_app_nil_r (s : string) : s +:+ EmptyString = s.
Proof. induction s as [|x s IH]; [done|]. rewrite string_app_cons. by rewrite IH. Qed.

Lemma filter_none {A} (f : A -> bool) l : Forall (fun x => f x = false) l -> List.filter f l = [].
Proof. induction 1 as [|x l Hx _ IH]; [done|]. cbn. by rewrite Hx. Qed.

Lemma filter_all {A} (f : A -> bool) l : Forall (fun x => f x = true) l -> List.filter f l = l.
Proof. induction 1 as [|x l Hx _ IH]; [done|]. cbn. by rewrite Hx, IH. Qed.

Lemma string_length_app (s t : string) :
  String.length (s +:+ t) = (String.length s + String.length t)%nat.
Proof. induction s as [|c s IH]; [done|]. rewrite string_app_cons. cbn. by rewrite IH. Qed.

Lemma no_char_app x s t : no_char x (s +:+ t) = no_char x s && no_char x t.
Proof.
  induction s as [|c s IH]; [done|]. rewrite string_app_cons. cbn [no_char].
  by rewrite IH, andb_assoc.
Qed.

Lemma strip_prefix_app p s : strip_prefix p (p +:+ s) = Some s.
Proof.
  induction p as [|c p IH]; [by destruct s|]. rewrite string_app_cons. cbn [strip_prefix].
  by rewrite Ascii.eqb_refl.
Qed.

Lemma prefix_strip p s : String.prefix p s = match strip_prefix p s with Some _ => true | None => false end.
Proof.
  revert s. induction p as [|a p IH]; intros [|b s]; cbn; try done.
  destruct (ascii_dec a b) as [->|H]; [by rewrite Ascii.eqb_refl, IH|].
  by rewrite (proj2 (Ascii.eqb_neq a b) H).
Qed.

(** A character the pattern does not have separates the occurrences. *)
Lemma strip_prefix_sep x pat u t :
  no_char x pat = true ->
  strip_prefix pat (u +:+ String x t) = (fun r => r +:+ String x t) <$> strip_prefix pat u.
Proof.
  revert u. induction pat as [|a pat IH]; intros u H; [by destruct u|].
  cbn [no_char] in H. apply andb_true_iff in H as [Ha H].
  destruct u as [|b u].
  - change (EmptyString +:+ String x t) with (String x t). cbn [strip_prefix].
    by destruct (Ascii.eqb a x).
  - rewrite string_app_cons. cbn [strip_prefix]. destruct (Ascii.eqb a b); [by apply IH|done].
Qed.

Lemma contains_sep x pat u t :
  no_char x pat = true -> contains (u +:+ String x t) pat = contains u pat || contains t pat.
Proof.
  intros H. induction u as [|b u IH].
  - change (EmptyString +:+ String x t) with (String x t). cbn [contains].
    rewrite !prefix_strip, orb_false_r. destruct pat as [|a pat]; [by destruct t|].
    cbn [strip_prefix no_char] in *. by destruct (Ascii.eqb a x).
  - rewrite string_app_cons. cbn [contains]. rewrite IH, orb_assoc. f_equal. f_equal.
    rewrite <- string_app_cons, !prefix_strip, strip_prefix_sep by done.
    by destruct (strip_prefix pat (String b u)).
Qed.

Lemma contains_find pat s : contains s pat = match find_after pat s with Some _ => true | None => false end.
Proof.
  induction s as [|c s IH]; cbn [contains find_after]; rewrite prefix_strip.
  - by destruct (strip_prefix pat EmptyString).
  - destruct (strip_prefix pat (String c s)); [done|exact IH].
Qed.

Lemma find_after_sep x pat u t :
  no_char x pat = true -> pat <> EmptyString -> contains u pat = false ->
  find_after pat (u +:+ String x t) = find_after pat t.
Proof.
  intros H Hne. induction u as [|b u IH]; intros Hu.
  - change (EmptyString +:+ String x t) with (String x t).
    destruct pat as [|a pat]; [done|]. cbn [find_after strip_prefix no_char] in *.
    by destruct (Ascii.eqb a x).
  - cbn [contains] in Hu. apply orb_false_iff in Hu as [Hp Hu]. rewrite prefix_strip in Hp.
    rewrite string_app_cons. cbn [find_after].
    rewrite <- (string_app_cons b u (String x t)), strip_prefix_sep by done.
    destruct (strip_prefix pat (String b u)); [done|]. by apply IH.
Qed.

Lemma rfind_after_none x p s : no_char x s = true -> rfind_after (String x p) s = None.
Proof.
  induction s as [|c s IH]; intros H; [done|]. cbn [no_char] in H.
  apply andb_true_iff in H as [Hc H]. cbn [rfind_after strip_prefix]. rewrite IH by done.
  rewrite Ascii.eqb_sym. by destruct (Ascii.eqb c x).
Qed.

Lemma rfind_after_last x p u v :
  no_char x (p +:+ v) = true -> rfind_after (String x p) (u +:+ String x p +:+ v) = Some v.
Proof.
  intros H. induction u as [|b u IH].
  - change (EmptyString +:+ ?s) with s. rewrite string_app_cons. cbn [rfind_after].
    rewrite rfind_after_none by done. rewrite <- string_app_cons. apply strip_prefix_app.
  - rewrite string_app_cons. cbn [rfind_after]. by rewrite IH.
Qed.

(** Text up to a separator it does not have is determined. *)
Lemma app_sep_inj x s s' t t' :
  no_char x s = true -> no_char x s' = true ->
  s +:+ String x t = s' +:+ String x t' -> s = s' /\ t = t'.
Proof.
  revert s'. induction s as [|a s IH]; intros [|b s'] Hs Hs' E; cbn [no_char] in *;
    rewrite ?string_app_cons in E.
  - by injection E as ->.
  - injection E as -> _. by rewrite Ascii.eqb_refl in Hs'.
  - injection E as -> _. by rewrite Ascii.eqb_refl in Hs.
  - injection E as -> E. apply andb_true_iff in Hs as [_ Hs], Hs' as [_ Hs'].
    destruct (IH s' Hs Hs' E) as [-> ->]. done.
Qed.

Lemma strip_prefix_spec p s r : strip_prefix p s = Some r -> s = p +:+ r.
Proof.
  revert s. induction p as [|a p IH]; intros [|b s] H; cbn in H; try done; try by injection H as <-.
  destruct (Ascii.eqb a b) eqn:E; [|done]. apply Ascii.eqb_eq in E as ->.
  rewrite string_app_cons. by rewrite <- (IH s H).
Qed.

Lemma contains_spec s pat : contains s pat = true <-> exists a b, s = a +:+ pat +:+ b.
Proof.
  split.
  - induction s as [|c s IH]; cbn [contains]; rewrite orb_true_iff, prefix_strip; intros [H|H];
      try discriminate.
    1, 2: destruct (strip_prefix pat _) as [r|] eqn:E; [|done]; exists EmptyString, r;
      exact (strip_prefix_spec _ _ _ E).
    destruct (IH H) as (a & b & ->). by exists (String c a), b.
  - intros (a & b & ->). induction a as [|c a IH].
    + change (EmptyString +:+ ?s) with s. rewrite contains_find.
      destruct (pat +:+ b) as [|x t] eqn:E; cbn [find_after]; rewrite <- E, strip_prefix_app; done.
    + rewrite string_app_cons. cbn [contains]. by rewrite IH, orb_true_r.
Qed.

Lemma contains_mono s a p b : contains s p = false -> contains s (a +:+ p +:+ b) = false.
Proof.
  intros H. apply not_true_is_false. intros (u & v & ->)%contains_spec.
  apply not_true_iff_false in H. apply H, contains_spec.
  exists (u +:+ a), (b +:+ v). by rewrite !string_app_assoc.
Qed.

Lemma contains_first x p s : no_char x s = true -> contains s (String x p) = false.
Proof.
  intros H. apply not_true_is_false. intros (u & v & ->)%contains_spec.
  rewrite no_char_app, string_app_cons in H. cbn [no_char] in H.
  by rewrite Ascii.eqb_refl, andb_false_r in H.
Qed.

(** A separator that ends a text and does not occur before is its only one. *)
Lemma last_sep_only x s u t :
  no_char x s = true -> s +:+ String x EmptyString = u +:+ String x t -> u = s /\ t = EmptyString.
Proof.
  revert u. induction s as [|a s IH]; intros [|b u] H E; cbn [no_char] in *;
    rewrite ?string_app_cons in E.
  - by injection E as <-.
  - injection E as _ E. by destruct u.
  - injection E as -> _. by rewrite Ascii.eqb_refl in H.
  - injection E as -> E. apply andb_true_iff in H as [_ H]. by destruct (IH u H E) as [-> ->].
Qed.

(** *** Commands *)

(** [str::split] of a character *)
Fixpoint split_on (x : ascii) (s : string) : list string :=
  match s with
  | EmptyString => [EmptyString]
  | String c s' =>
      if Ascii.eqb c x then EmptyString :: split_on x s'
      else match split_on x s' with
           | [] => [String c EmptyString]
           | w :: ws => String c w :: ws
           end
  end.

Definition is_empty_str (s : string) : bool := match s with EmptyString => true | _ => false end.

(** [std::process::Output] *)
Record output := mkOutput { out_success : bool; out_stdout : string; out_stderr : string }.

(** ** Sorting *)

(** Stable sort by a comparator, as [slice::sort_by]. *)
Section SortBy.
Context {A : Type} (cmp : A -> A -> comparison).

Fixpoint insert_by (x : A) (l : list A) : list A :=
  match l with
  | [] => [x]
  | y :: l => match cmp x y with Gt => y :: insert_by x l | _ => x :: y :: l end
  end.

Fixpoint sort_by (l : list A) : list A :=
  match l with
  | [] => []
  | x :: l => insert_by x (sort_by l)
  end.

Lemma insert_by_in x l y : In y (insert_by x l) <-> y = x \/ In y l.
Proof.
  induction l as [|z l IH]; cbn; [intuition|].
  destruct (cmp x z); cbn; rewrite ?IH; intuition.
Qed.

Lemma sort_by_in l y : In y (sort_by l) <-> In y l.
Proof. induction l as [|x l IH]; cbn; [done|]. rewrite insert_by_in, IH. intuition. Qed.

Lemma sort_by_nil l : sort_by l = [] <-> l = [].
Proof.
  destruct l as [|x l]; [done|]. cbn. split; [|discriminate]. intros H.
  assert (Hi : In x (insert_by x (sort_by l))) by (apply insert_by_in; auto).
  rewrite H in Hi. destruct Hi.
Qed.

(** The head of the sorted list is a minimum, when [cmp] is a total preorder on the
    elements that satisfy [P]. *)
Context (P : A -> Prop).
Hypothesis cmp_trans : forall x y z, P x -> P y -> P z ->
  cmp x y <> Gt -> cmp y z <> Gt -> cmp x z <> Gt.
Hypothesis cmp_total : forall x y, P x -> P y -> cmp x y = Gt -> cmp y x <> Gt.
Hypothesis cmp_refl : forall x, P x -> cmp x x <> Gt.

Lemma sort_by_head l x r :
  Forall P l -> sort_by l = x :: r -> forall y, In y l -> cmp x y <> Gt.
Proof.
  intros HP. revert x r. induction l as [|z l IH]; [discriminate|].
  inversion_clear HP as [|? ? Hz Hl]. cbn [sort_by]. intros x r.
  destruct (sort_by l) as [|w s] eqn:E.
  - apply sort_by_nil in E as ->. intros [= <- <-] y [->|[]]. auto.
  - assert (Hw : P w).
    { eapply List.Forall_forall; [exact Hl|]. apply sort_by_in. rewrite E. by left. }
    cbn [insert_by]. destruct (cmp z w) eqn:Ec; intros [= <- _] y [->|Hy];
      pose proof (IH Hl w s eq_refl) as Hmin; auto.
    1, 2: assert (P y) by (by eapply List.Forall_forall);
      apply (cmp_trans z w y); auto; congruence.
Qed.
End SortBy.
