(* ===== verification/Packet.v ===== *)
(** * IPv4/TCP/UDP packets of the DPI-bypass engine

    [crates/balansir-b4/src/packet.rs]: parsing of raw packets delivered by
    NFQUEUE, the field accessors, TCP option rewriting, the Internet
    checksums, IP fragmentation and the fake QUIC packet.  (The TLS SNI parser
    of the same file is in [Tls.v].)  A raw packet is a list of bytes; every
    indexing operation of the source is [idx]/[slice]/[set_idx]/
    [copy_from_slice] and panics exactly where the source panics. *)

From S2P Require Import Prelude.

(** ** Data *)

Record TcpPacket := mkTcp {
  raw : list Z;
  ip_header_len : Z;
  ip_total_len : Z;
  tcp_offset : Z;
  tcp_header_len : Z;
  tcp_doff_field : Z;
  checksum_offsets : Z * Z
}.

Record UdpPacket := mkUdp {
  udp_raw : list Z;
  udp_ip_header_len : Z;
  udp_offset : Z;
  udp_len : Z
}.

Definition with_raw (p : TcpPacket) (r : list Z) : TcpPacket :=
  mkTcp r (ip_header_len p) (ip_total_len p) (tcp_offset p) (tcp_header_len p)
        (tcp_doff_field p) (checksum_offsets p).

(** ** Parsing *)

Definition TcpPacket_parse (r : list Z) : exec (option TcpPacket) :=
  if len r <? 20 then Val None else
  ver_ihl ← idx r 0;
  if negb (Z.shiftr ver_ihl 4 =? 4) then Val None else
  let ip_header_len := Z.land ver_ihl 0x0f * 4 in
  if (ip_header_len <? 20) || (len r <? ip_header_len) then Val None else
  proto ← idx r 9;
  if negb (proto =? 6) then Val None else
  b2 ← idx r 2;
  b3 ← idx r 3;
  let ip_total_len := from_be16 b2 b3 in
  if (ip_total_len <? ip_header_len) || (len r <? ip_total_len) then Val None else
  let tcp_offset := ip_header_len in
  if len r <? tcp_offset + 20 then Val None else
  let tcp_doff_field := tcp_offset + 12 in
  doff ← idx r tcp_doff_field;
  let tcp_header_len := Z.shiftr doff 4 * 4 in
  if (tcp_header_len <? 20) || (len r <? tcp_offset + tcp_header_len)
  then Val None
  else Val (Some (mkTcp r ip_header_len ip_total_len tcp_offset tcp_header_len
                        tcp_doff_field (10, tcp_offset + 16))).

Definition UdpPacket_parse (r : list Z) : exec (option UdpPacket) :=
  if len r <? 20 then Val None else
  ver_ihl ← idx r 0;
  if negb (Z.shiftr ver_ihl 4 =? 4) then Val None else
  let ip_header_len := Z.land ver_ihl 0x0f * 4 in
  if (ip_header_len <? 20) || (len r <? ip_header_len) then Val None else
  proto ← idx r 9;
  if negb (proto =? 17) then Val None else
  b2 ← idx r 2;
  b3 ← idx r 3;
  let ip_total_len := from_be16 b2 b3 in
  if (ip_total_len <? ip_header_len) || (len r <? ip_total_len) then Val None else
  let udp_offset := ip_header_len in
  if len r <? udp_offset + 8 then Val None else
  l0 ← idx r (udp_offset + 4);
  l1 ← idx r (udp_offset + 5);
  let udp_len := from_be16 l0 l1 in
  if (udp_len <? 8) || (len r <? udp_offset + udp_len) then Val None
  else Val (Some (mkUdp r ip_header_len udp_offset udp_len)).

(** ** Accessors *)

Definition read_be16 (r : list Z) (i : Z) : exec Z :=
  b0 ← idx r i; b1 ← idx r (i + 1); Val (from_be16 b0 b1).

Definition read_be32 (r : list Z) (i : Z) : exec Z :=
  b0 ← idx r i; b1 ← idx r (i + 1); b2 ← idx r (i + 2); b3 ← idx r (i + 3);
  Val (from_be32 b0 b1 b2 b3).

(** A four-octet address field, [[raw[i], raw[i+1], raw[i+2], raw[i+3]]]. *)
Definition read_ip (r : list Z) (i : Z) : exec (list Z) :=
  b0 ← idx r i; b1 ← idx r (i + 1); b2 ← idx r (i + 2); b3 ← idx r (i + 3);
  Val [b0; b1; b2; b3].

Definition dst_port (p : TcpPacket) : exec Z := read_be16 (raw p) (tcp_offset p + 2).
Definition src_port (p : TcpPacket) : exec Z := read_be16 (raw p) (tcp_offset p).
Definition pkt_len (p : TcpPacket) : Z := len (raw p).
Definition is_empty (p : TcpPacket) : bool := len (raw p) =? 0.
Definition src_ip (p : TcpPacket) : exec (list Z) := read_ip (raw p) 12.
Definition dst_ip (p : TcpPacket) : exec (list Z) := read_ip (raw p) 16.
Definition tcp_seq (p : TcpPacket) : exec Z := read_be32 (raw p) (tcp_offset p + 4).
Definition set_tcp_seq (p : TcpPacket) (seq : Z) : exec TcpPacket :=
  r ← copy_from_slice (raw p) (tcp_offset p + 4) (tcp_offset p + 8) (to_be32 seq);
  Val (with_raw p r).
Definition tcp_flags (p : TcpPacket) : exec Z := idx (raw p) (tcp_offset p + 13).
Definition tcp_payload (p : TcpPacket) : exec (list Z) :=
  slice (raw p) (tcp_offset p + tcp_header_len p) (len (raw p)).

Definition udp_dst_port (p : UdpPacket) : exec Z :=
  read_be16 (udp_raw p) (udp_offset p + 2).
Definition udp_src_port (p : UdpPacket) : exec Z :=
  read_be16 (udp_raw p) (udp_offset p).
Definition udp_src_ip (p : UdpPacket) : exec (list Z) := read_ip (udp_raw p) 12.
Definition udp_dst_ip (p : UdpPacket) : exec (list Z) := read_ip (udp_raw p) 16.
Definition udp_payload (p : UdpPacket) : exec (list Z) :=
  slice (udp_raw p) (udp_offset p + 8) (udp_offset p + udp_len p).

(** ** TCP options *)

Definition MSS : Z := 2.
Definition SACK_PERMITTED : Z := 4.

(** The [while i + 1 < end] loop of [tcp_opt::set_mss]; [Val None] is its
    [false] result, [Val (Some r)] the rewritten bytes with result [true].
    Running out of fuel is [Panic], so that returning implies enough fuel. *)
Fixpoint set_mss_loop (fuel : nat) (r : list Z) (stop mss i : Z)
  : exec (option (list Z)) :=
  match fuel with
  | O => Panic
  | S fuel' =>
      if negb (i + 1 <? stop) then Val None else
      kind ← idx r i;
      if kind =? 0 then Val None else
      if kind =? 1 then set_mss_loop fuel' r stop mss (i + 1) else
      l ← idx r (i + 1);
      if (l <? 2) || (stop <? i + l) then Val None else
      if (kind =? MSS) && (4 <=? l) then
        r' ← copy_from_slice r (i + 2) (i + 4) (to_be16 mss);
        Val (Some r')
      else set_mss_loop fuel' r stop mss (i + l)
  end.

Definition set_mss (p : TcpPacket) (mss : Z) : exec (TcpPacket * bool) :=
  let start := tcp_offset p + 20 in
  let stop := tcp_offset p + tcp_header_len p in
  res ← set_mss_loop (S (length (raw p))) (raw p) stop mss start;
  match res with
  | Some r' => Val (with_raw p r', true)
  | None => Val (p, false)
  end.

(** The [while i < end] loop of [tcp_opt::strip_option]: the kept option bytes
    and whether anything was removed. *)
Fixpoint strip_loop (fuel : nat) (r : list Z) (stop kind i : Z)
    (kept : list Z) (changed : bool) : exec (list Z * bool) :=
  match fuel with
  | O => Panic
  | S fuel' =>
      if negb (i <? stop) then Val (kept, changed) else
      k ← idx r i;
      if k =? 0 then
        rest ← slice r i stop; Val (kept ++ rest, changed)
      else if k =? 1 then
        strip_loop fuel' r stop kind (i + 1) (kept ++ [1]) changed
      else
        l ← idx r (i + 1);
        if (l <? 2) || (stop <? i + l) then
          rest ← slice r i stop; Val (kept ++ rest, changed)
        else if k =? kind then
          strip_loop fuel' r stop kind (i + l) kept true
        else
          opt ← slice r i (i + l);
          strip_loop fuel' r stop kind (i + l) (kept ++ opt) changed
  end.

(** [while kept.len() % 4 != 0 { kept.push(1) }] *)
Definition pad4 (kept : list Z) : list Z :=
  kept ++ replicate (Z.to_nat ((- len kept) mod 4)) 1.

Definition strip_option (p : TcpPacket) (kind : Z) : exec (TcpPacket * bool) :=
  let start := tcp_offset p + 20 in
  let stop := tcp_offset p + tcp_header_len p in
  '(kept0, changed) ← strip_loop (S (length (raw p))) (raw p) stop kind start [] false;
  if negb changed then Val (p, false) else
  let kept := pad4 kept0 in
  let tcp_start := tcp_offset p in
  payload ← slice (raw p) (tcp_start + tcp_header_len p) (len (raw p));
  head ← slice (raw p) 0 tcp_start;
  fixed ← slice (raw p) tcp_start (tcp_start + 20);
  let out := head ++ fixed ++ kept ++ payload in
  let new_tcp_header_len := Z.land (20 + len kept + 3) (Z.lnot 3) in
  let dof := u8 (new_tcp_header_len / 4) in
  old ← idx out (tcp_start + 12);
  out ← set_idx out (tcp_start + 12)
          (Z.lor (u8 (Z.shiftl dof 4)) (Z.land old 0x0f));
  let new_total := len out in
  out ← copy_from_slice out 2 4 (to_be16 (u16 new_total));
  Val (mkTcp out (ip_header_len p) (ip_total_len p) (tcp_offset p)
             new_tcp_header_len (tcp_doff_field p) (checksum_offsets p), true).

(** ** Checksums *)

(** [while sum >> 16 != 0 { sum = (sum & 0xffff) + (sum >> 16) }].  A [u32]
    needs at most two rounds ([fold_carries_lt] below). *)
Fixpoint fold_carries_n (fuel : nat) (sum : Z) : Z :=
  match fuel with
  | O => sum
  | S fuel' =>
      if Z.shiftr sum 16 =? 0 then sum
      else fold_carries_n fuel' (Z.land sum 0xffff + Z.shiftr sum 16)
  end.
Definition fold_carries : Z -> Z := fold_carries_n 3.

(** [!(sum as u16)] *)
Definition not16 (sum : Z) : Z := 65535 - u16 sum.

(** The header sum of [fix_ipv4_checksum]: bytes [0..n] except 10 and 11. *)
Fixpoint ipv4_sum (r : list Z) (n : nat) : exec Z :=
  match n with
  | O => Val 0
  | S n' =>
      acc ← ipv4_sum r n';
      let i := Z.of_nat n' in
      if (i =? 10) || (i =? 11) then Val acc else
      b ← idx r i;
      Val (u32 (acc + (if i mod 2 =? 0 then Z.shiftl b 8 else b)))
  end.

Definition fix_ipv4_checksum (p : TcpPacket) : exec TcpPacket :=
  sum ← ipv4_sum (raw p) (Z.to_nat (ip_header_len p));
  let csum := not16 (fold_carries sum) in
  r ← copy_from_slice (raw p) 10 12 (to_be16 csum);
  Val (with_raw p r).

(** [for i in (0..n).step_by(2)]: the 16-bit words of [n] bytes at [off], an
    odd last byte padded with zero, added to [acc]. *)
Fixpoint words_sum (fuel : nat) (r : list Z) (off n i acc : Z) : exec Z :=
  match fuel with
  | O => Panic
  | S fuel' =>
      if negb (i <? n) then Val acc else
      hi ← idx r (off + i);
      lo ← (if i + 1 <? n then idx r (off + i + 1) else Val 0);
      words_sum fuel' r off n (i + 2) (u32 (acc + Z.lor (Z.shiftl hi 8) lo))
  end.

Definition pseudo_sum (src dst : list Z) (proto n : Z) : exec Z :=
  acc ← words_sum 3 src 0 4 0 0;
  acc ← words_sum 3 dst 0 4 0 acc;
  Val (u32 (u32 (acc + proto) + n)).

Definition fix_tcp_checksum (p : TcpPacket) : exec TcpPacket :=
  src ← read_ip (raw p) 12;
  dst ← read_ip (raw p) 16;
  (* [usize] subtraction *)
  if pkt_len p <? tcp_offset p then Panic else
  let tcp_len := pkt_len p - tcp_offset p in
  acc ← pseudo_sum src dst 6 tcp_len;
  sum ← words_sum (S (length (raw p))) (raw p) (tcp_offset p) tcp_len 0 acc;
  let csum := not16 (fold_carries sum) in
  let cs_hi := (checksum_offsets p).2 in
  r ← copy_from_slice (raw p) cs_hi (cs_hi + 2) (to_be16 csum);
  fix_ipv4_checksum (with_raw p r).

Definition fix_udp_checksum (pkt src dst : list Z) (udp_offset udp_len : Z)
  : exec (list Z) :=
  pkt ← copy_from_slice pkt (udp_offset + 6) (udp_offset + 8) [0; 0];
  acc ← pseudo_sum src dst 17 udp_len;
  sum ← words_sum (S (length pkt)) pkt udp_offset udp_len 0 acc;
  let csum := not16 (fold_carries sum) in
  copy_from_slice pkt (udp_offset + 6) (udp_offset + 8) (to_be16 csum).

(** ** Fake QUIC packet *)

(** [nanos] is the sub-second part of the wall clock at the call. *)
Definition fastrand_byte (nanos : Z) : Z :=
  Z.lxor (u8 (Z.shiftr nanos 3)) (u8 (Z.shiftr nanos 11)).

(** [for b in &mut pkt[from..] { *b = fastrand_byte() }]: [clock i] is the clock
    read by the [i]-th iteration. *)
Definition fill_random (clock : nat -> Z) (pkt : list Z) (from : Z) : exec (list Z) :=
  head ← slice pkt 0 from;
  rest ← slice pkt from (len pkt);
  Val (head ++ imap (fun i _ => fastrand_byte (clock i)) rest).

Definition build_fake_quic_packet (clock : nat -> Z) (src dst : list Z)
    (src_port dst_port payload_len : Z) : exec (list Z) :=
  let n := 20 + 8 + Z.max payload_len 1 in
  let pkt := replicate (Z.to_nat n) 0 in
  pkt ← set_idx pkt 0 0x45;
  pkt ← copy_from_slice pkt 2 4 (to_be16 (u16 n));
  pkt ← set_idx pkt 8 64;
  pkt ← set_idx pkt 9 17;
  pkt ← copy_from_slice pkt 12 16 src;
  pkt ← copy_from_slice pkt 16 20 dst;
  let u := 20 in
  pkt ← copy_from_slice pkt u (u + 2) (to_be16 src_port);
  pkt ← copy_from_slice pkt (u + 2) (u + 4) (to_be16 dst_port);
  let udp_len := 8 + Z.max payload_len 1 in
  pkt ← copy_from_slice pkt (u + 4) (u + 6) (to_be16 (u16 udp_len));
  let p := u + 8 in
  pkt ← set_idx pkt p 0xC3;
  pkt ← (if 1 <? payload_len then
           pkt ← copy_from_slice pkt (p + 1) (p + 5) (to_be32 1);
           if 5 <? payload_len then
             pkt ← set_idx pkt (p + 5) 0;
             fill_random clock pkt (p + 6)
           else Val pkt
         else Val pkt);
  let tmp := mkTcp pkt 20 n u 8 0 (10, u + 6) in
  _ ← fix_ipv4_checksum tmp;
  fix_udp_checksum pkt src dst u udp_len.

(** ** IP fragmentation *)

Definition fragment_tcp_payload (p : TcpPacket) (split_at : Z)
  : exec (option (list Z * list Z)) :=
  payload ← tcp_payload p;
  if (split_at =? 0) || (len payload <=? split_at) then Val None else
  let total := pkt_len p in
  let tcp_header := tcp_offset p + tcp_header_len p in
  frag1 ← slice (raw p) 0 (tcp_header + split_at);
  let f1_len := u16 (len frag1) in
  frag1 ← copy_from_slice frag1 2 4 (to_be16 f1_len);
  frag1 ← set_idx frag1 6 0x40;
  frag1 ← set_idx frag1 7 0x00;
  let offset := u16 (tcp_header / 8) in
  frag2 ← slice (raw p) 0 (ip_header_len p);
  let f2_len := u16 (ip_header_len p + (total - tcp_header - split_at)) in
  frag2 ← copy_from_slice frag2 2 4 (to_be16 f2_len);
  frag2 ← set_idx frag2 6 0x40;
  frag2 ← set_idx frag2 7 (u8 (Z.land (Z.shiftr offset 8) 0xff));
  rest ← slice (raw p) (tcp_header + split_at) (len (raw p));
  let frag2 := frag2 ++ rest in
  f1 ← fix_ipv4_checksum
         (mkTcp frag1 (ip_header_len p) (len frag1) (tcp_offset p)
                (tcp_header_len p) 0 (10, tcp_offset p + 16));
  f1 ← fix_tcp_checksum f1;
  f2 ← fix_ipv4_checksum
         (mkTcp frag2 (ip_header_len p) (len frag2) 0 0 0 (10, 0));
  Val (Some (raw f1, raw f2)).

(** ** Well-formed packets *)

(** The shape every packet the parser accepts has; the routines that rewrite a
    packet rely on it. *)
Record tcp_wf (p : TcpPacket) : Prop := {
  wf_bytes : Forall is_byte (raw p);
  wf_ihl : 20 <= ip_header_len p <= 60;
  wf_ihl4 : ip_header_len p mod 4 = 0;
  wf_off : tcp_offset p = ip_header_len p;
  wf_thl : 20 <= tcp_header_len p <= 60;
  wf_len : tcp_offset p + tcp_header_len p <= len (raw p);
  wf_csum : checksum_offsets p = (10, tcp_offset p + 16)
}.

(** The header fields agree with the offsets of the parsed packet. *)
Record tcp_hdr (p : TcpPacket) : Prop := {
  hdr_ver : byte_at (raw p) 0 = 64 + ip_header_len p / 4;
  hdr_proto : byte_at (raw p) 9 = 6;
  hdr_doff : byte_at (raw p) (tcp_offset p + 12) / 16 = tcp_header_len p / 4;
  hdr_thl4 : tcp_header_len p mod 4 = 0;
  hdr_doff_field : tcp_doff_field p = tcp_offset p + 12
}.

(** The [total length] field. *)
Definition total_field (p : TcpPacket) : Z :=
  from_be16 (byte_at (raw p) 2) (byte_at (raw p) 3).

(** A packet the UDP parser accepts. *)
Record udp_wf (p : UdpPacket) : Prop := {
  uwf_bytes : Forall is_byte (udp_raw p);
  uwf_ihl : 20 <= udp_ip_header_len p <= 60;
  uwf_off : udp_offset p = udp_ip_header_len p;
  uwf_ulen : 8 <= udp_len p < 65536;
  uwf_len : udp_offset p + udp_len p <= len (udp_raw p)
}.

Lemma nibble_div b : Z.shiftr b 4 = b / 16.
Proof. by rewrite Z.shiftr_div_pow2 by lia. Qed.

Lemma nibble_lo b : Z.land b 0x0f = b mod 16.
Proof. change 0x0f with (Z.ones 4). by rewrite Z.land_ones by lia. Qed.

(** Walk through a parser: decide each guard, run each read. *)
Ltac parse_steps :=
  repeat match goal with
  | |- (if ?b then _ else _) = _ \/ _ => destruct b eqn:?; [by left|]
  | |- (idx ?l ?i ≫= _) = _ \/ _ =>
      rewrite (idx_byte_at l i) by lia; rewrite bind_Val_l; cbv beta zeta;
      rewrite ?nibble_lo
  end.

Lemma TcpPacket_parse_cases r :
  Forall is_byte r ->
  TcpPacket_parse r = Val None \/
  exists p, TcpPacket_parse r = Val (Some p) /\ tcp_wf p /\ tcp_hdr p /\ raw p = r.
Proof.
  intros Hb. unfold TcpPacket_parse.
  pose proof (byte_at_is_byte r 0 Hb). parse_steps. right. eexists. split; [done|].
  pose proof (byte_at_is_byte r (byte_at r 0 mod 16 * 4 + 12) Hb) as Hd.
  rewrite nibble_div in *.
  split; [|split; [|done]]; split; cbn; try done; zmod_lia.
Qed.

(** A well-formed packet whose fields agree parses back. *)
Lemma TcpPacket_parse_hdr p :
  tcp_wf p -> tcp_hdr p -> ip_header_len p <= total_field p <= len (raw p) ->
  TcpPacket_parse (raw p) =
    Val (Some (mkTcp (raw p) (ip_header_len p) (total_field p) (tcp_offset p)
                     (tcp_header_len p) (tcp_doff_field p) (checksum_offsets p))).
Proof.
  intros [Hb Hi Hi4 Ho Hh Hl Hc] [Hv Hp Hd Hd4 Hf] Ht. unfold TcpPacket_parse.
  pose proof (byte_at_is_byte (raw p) (tcp_offset p + 12) Hb).
  assert (H0 : Z.shiftr (byte_at (raw p) 0) 4 = 4) by (rewrite nibble_div; zmod_lia).
  assert (H1 : Z.land (byte_at (raw p) 0) 0x0f * 4 = ip_header_len p)
    by (rewrite nibble_lo; zmod_lia).
  assert (H2 : Z.shiftr (byte_at (raw p) (tcp_offset p + 12)) 4 * 4 = tcp_header_len p)
    by (rewrite nibble_div; zmod_lia).
  replace (len (raw p) <? 20) with false by lia.
  rewrite (idx_byte_at _ 0), bind_Val_l by lia. rewrite H0, H1. cbn [negb Z.eqb Pos.eqb].
  replace ((ip_header_len p <? 20) || _) with false by lia.
  rewrite !(idx_byte_at (raw p)), !bind_Val_l, Hp by lia. cbn [negb Z.eqb Pos.eqb].
  fold (total_field p).
  replace ((total_field p <? _) || _) with false by lia.
  replace (len (raw p) <? _) with false by lia.
  rewrite <- Ho, H2.
  replace ((tcp_header_len p <? 20) || _) with false by lia.
  by rewrite Hf, Hc.
Qed.

Lemma UdpPacket_parse_cases r :
  Forall is_byte r ->
  UdpPacket_parse r = Val None \/
  exists p, UdpPacket_parse r = Val (Some p) /\ udp_wf p /\ udp_raw p = r.
Proof.
  intros Hb. unfold UdpPacket_parse.
  pose proof (byte_at_is_byte r 0 Hb). parse_steps. right. eexists. split; [done|]. split; [|done].
  pose proof (byte_at_is_byte r (byte_at r 0 mod 16 * 4 + 4) Hb).
  pose proof (byte_at_is_byte r (byte_at r 0 mod 16 * 4 + 5) Hb).
  split; cbn; try done; zmod_lia.
Qed.

Lemma TcpPacket_parse_Some r p :
  Forall is_byte r -> TcpPacket_parse r = Val (Some p) -> tcp_wf p /\ tcp_hdr p /\ raw p = r.
Proof.
  intros Hb Hp. destruct (TcpPacket_parse_cases r Hb) as [Hn|(q & Hq & H)]; [congruence|].
  rewrite Hq in Hp. by injection Hp as <-.
Qed.

Lemma UdpPacket_parse_Some r p :
  Forall is_byte r -> UdpPacket_parse r = Val (Some p) -> udp_wf p /\ udp_raw p = r.
Proof.
  intros Hb Hp. destruct (UdpPacket_parse_cases r Hb) as [Hn|(q & Hq & H)]; [congruence|].
  rewrite Hq in Hp. by injection Hp as <-.
Qed.

Lemma read_be16_returns r i : 0 <= i -> i + 2 <= len r -> returns (read_be16 r i).
Proof. intros. unfold read_be16. exec_reads. auto with balansir. Qed.

Lemma read_be32_returns r i : 0 <= i -> i + 4 <= len r -> returns (read_be32 r i).
Proof. intros. unfold read_be32. exec_reads. auto with balansir. Qed.

Lemma read_ip_returns r i : 0 <= i -> i + 4 <= len r -> returns (read_ip r i).
Proof. intros. unfold read_ip. exec_reads. auto with balansir. Qed.

Ltac accessor_returns :=
  first [ apply read_be16_returns | apply read_be32_returns | apply read_ip_returns
        | apply slice_returns | apply idx_returns ]; lia.

(** C39.  [TcpPacket::parse] and [UdpPacket::parse] never panic, whatever bytes the
    queue delivers; a packet they accept keeps the bytes, its header offsets lie
    inside the buffer and agree with the header fields, and none of the accessors
    panics on it. *)
Theorem parse_never_panics r :
  Forall is_byte r ->
  (exists o, TcpPacket_parse r = Val o /\
     forall p, o = Some p ->
       raw p = r /\ tcp_wf p /\ tcp_hdr p /\ returns (src_port p) /\ returns (dst_port p) /\
       returns (src_ip p) /\ returns (dst_ip p) /\ returns (tcp_seq p) /\
       returns (tcp_flags p) /\ returns (tcp_payload p) /\
       forall seq, returns (set_tcp_seq p seq)) /\
  (exists o, UdpPacket_parse r = Val o /\
     forall p, o = Some p ->
       udp_raw p = r /\ udp_wf p /\ returns (udp_src_port p) /\ returns (udp_dst_port p) /\
       returns (udp_src_ip p) /\ returns (udp_dst_ip p) /\ returns (udp_payload p)).
Proof.
  intros Hb. split.
  - destruct (TcpPacket_parse_cases r Hb) as [->|(q & -> & W & H & Hr)].
    { exists None. split; [done|]. discriminate. }
    exists (Some q). split; [done|]. intros p [= <-]. pose proof W as [].
    do 3 (split; [done|]). repeat (split; [by accessor_returns|]).
    intros seq. unfold set_tcp_seq.
    rewrite copy_from_slice_eq by (rewrite ?len_to_be32; lia). rewrite bind_Val_l.
    auto with balansir.
  - destruct (UdpPacket_parse_cases r Hb) as [->|(q & -> & W & Hr)].
    { exists None. split; [done|]. discriminate. }
    exists (Some q). split; [done|]. intros p [= <-]. pose proof W as [].
    do 2 (split; [done|]). repeat (split; [by accessor_returns|]). by accessor_returns.
Qed.

Lemma parse_never_panics_witness :
  exists o, TcpPacket_parse [0x45; 0; 0] = Val o.
Proof.
  destruct (parse_never_panics [0x45; 0; 0]) as [(o & Ho & _) _].
  - vm_compute. repeat constructor; intros [=].
  - exists o. exact Ho.
Defined.
