(* ===== verification/Checksum.v ===== *)
(** * Correctness of the checksum routines

    A list-level specification of the Internet checksum (RFC 1071) and the
    effect of [fix_ipv4_checksum], [fix_tcp_checksum] and [fix_udp_checksum] of
    [crates/balansir-b4/src/packet.rs] against it. *)

From S2P Require Import Prelude Packet.

(** ** Specification *)

(** Sum of the big-endian 16-bit words, an odd last byte padded with zero. *)
Fixpoint be_words (l : list Z) : Z :=
  match l with
  | [] => 0
  | [a] => 256 * a
  | a :: b :: l' => 256 * a + b + be_words l'
  end.

(** A receiver accepts [l] when its one's-complement sum is all ones: the sum is
    a positive multiple of [0xffff]. *)
Definition checksum_valid (l : list Z) : Prop :=
  0 < be_words l /\ be_words l mod 65535 = 0.

#[export] Instance checksum_valid_dec l : Decision (checksum_valid l).
Proof. unfold checksum_valid. apply _. Defined.

(** The TCP/UDP pseudo-header of [src], [dst], protocol and segment length. *)
Definition pseudo_header (src dst : list Z) (proto n : Z) : list Z :=
  src ++ dst ++ [0; proto] ++ to_be16 n.

Definition ipv4_checksum_valid (p : TcpPacket) : Prop :=
  checksum_valid (take (Z.to_nat (ip_header_len p)) (raw p)).

Definition tcp_checksum_valid (p : TcpPacket) : Prop :=
  let seg := drop (Z.to_nat (tcp_offset p)) (raw p) in
  checksum_valid
    (pseudo_header (take 4 (drop 12 (raw p))) (take 4 (drop 16 (raw p))) 6 (len seg)
     ++ seg).

(** The stored TCP checksum field. *)
Definition tcp_checksum_field (p : TcpPacket) : Z :=
  from_be16 (byte_at (raw p) (tcp_offset p + 16)) (byte_at (raw p) (tcp_offset p + 17)).

(** ** Word sums *)

(** Induction over a list two elements at a time. *)
Lemma list_pair_ind {A} (P : list A -> Prop) :
  P [] -> (forall a, P [a]) -> (forall a b l, P l -> P (a :: b :: l)) -> forall l, P l.
Proof.
  intros H0 H1 H2. fix IH 1. intros [|a [|b l]]; [done|done|]. apply H2, IH.
Qed.

Lemma be_words_app l1 l2 :
  Nat.Even (length l1) -> be_words (l1 ++ l2) = be_words l1 + be_words l2.
Proof.
  induction l1 as [|a|a b l1 IH] using list_pair_ind; intros He.
  - done.
  - by apply Nat.even_spec in He.
  - cbn [be_words app]. rewrite IH; [lia|].
    apply Nat.even_spec. by apply Nat.even_spec in He.
Qed.

Lemma be_words_bounds l :
  Forall is_byte l -> 0 <= be_words l <= 65535 * ((len l + 1) / 2).
Proof.
  induction l as [|a|a b l IH] using list_pair_ind; intros Hb.
  - done.
  - inversion_clear Hb. cbn. unfold len; cbn. zmod_lia.
  - inversion_clear Hb as [|? ? Ha Hb']. inversion_clear Hb' as [|? ? Hb Hl].
    specialize (IH Hl). cbn [be_words]. autorewrite with balansir.
    replace (1 + (1 + len l) + 1) with (len l + 1 + 1 * 2) by lia.
    rewrite Z.div_add by lia. unfold is_byte in *. lia.
Qed.

Lemma lor_shiftl8 a b : is_byte b -> Z.lor (Z.shiftl a 8) b = 256 * a + b.
Proof. intros. rewrite lor_shiftl by (unfold is_byte in *; lia). lia. Qed.

Lemma shiftl8 a : Z.shiftl a 8 = 256 * a.
Proof. rewrite Z.shiftl_mul_pow2 by lia. lia. Qed.

Lemma drop_byte (r : list Z) i :
  0 <= i < len r ->
  drop (Z.to_nat i) r = byte_at r i :: drop (Z.to_nat (i + 1)) r.
Proof.
  intros H. unfold byte_at, len in *.
  destruct (lookup_lt_is_Some_2 r (Z.to_nat i)) as [x Hx]; [lia|].
  rewrite Hx. cbn. erewrite drop_S by done.
  by replace (Z.to_nat (i + 1)) with (S (Z.to_nat i)) by lia.
Qed.

(** The word loop adds the words of the [n - i] bytes at [off + i]. *)
Lemma words_sum_spec fuel r off n i acc :
  Forall is_byte r -> 0 <= off -> 0 <= i <= n + 1 -> off + n <= len r ->
  n - i + 2 <= 2 * Z.of_nat fuel -> acc = u32 acc ->
  words_sum fuel r off n i acc =
    Val (u32 (acc + be_words (take (Z.to_nat (n - i)) (drop (Z.to_nat (off + i)) r)))).
Proof.
  intros Hb Ho. revert i acc.
  induction fuel as [|fuel IH]; intros i acc Hi Hl Hf Hacc.
  { lia. }
  cbn [words_sum]. destruct (i <? n) eqn:Ei; cbn [negb].
  2:{ replace (Z.to_nat (n - i)) with 0%nat by lia. cbn. rewrite Z.add_0_r. by f_equal. }
  rewrite (idx_byte_at r (off + i)) by lia. rewrite bind_Val_l.
  rewrite (drop_byte r (off + i)) by lia.
  destruct (i + 1 <? n) eqn:Ei'.
  - rewrite idx_byte_at, bind_Val_l by lia.
    rewrite lor_shiftl8 by auto with balansir.
    rewrite IH by (lia || by rewrite wrap_wrap).
    replace (off + i + 1) with (off + (i + 1)) by lia.
    rewrite (drop_byte r (off + (i + 1))) by lia.
    replace (Z.to_nat (n - i)) with (S (S (Z.to_nat (n - (i + 2))))) by lia.
    replace (off + (i + 1) + 1) with (off + (i + 2)) by lia.
    cbn [take be_words]. rewrite wrap_add_l by lia. do 2 f_equal. lia.
  - rewrite bind_Val_l, lor_shiftl8 by (unfold is_byte; lia).
    rewrite IH by (lia || by rewrite wrap_wrap).
    replace (Z.to_nat (n - (i + 2))) with 0%nat by lia.
    replace (Z.to_nat (n - i)) with 1%nat by lia.
    cbn [take be_words]. rewrite wrap_add_l by lia. do 2 f_equal. rewrite !take_0. cbn [be_words]. lia.
Qed.

(** ** Carry folding *)

Lemma shiftr16 s : Z.shiftr s 16 = s / 65536.
Proof. rewrite Z.shiftr_div_pow2 by lia. done. Qed.

Lemma land_ffff s : Z.land s 0xffff = s mod 65536.
Proof. change 0xffff with (Z.ones 16). rewrite Z.land_ones by lia. done. Qed.

(** Three rounds of the fuel reach the exit test for every [u32], and folding
    keeps the value modulo [0xffff] and its being zero. *)
Lemma fold_carries_lt s :
  0 <= s < 2 ^ 32 -> 0 <= fold_carries s < 65536.
Proof.
  intros H. unfold fold_carries. cbn [fold_carries_n]. rewrite !shiftr16, !land_ffff.
  repeat case_match; zmod_lia.
Qed.

Lemma fold_carries_mod s : fold_carries s mod 65535 = s mod 65535.
Proof.
  unfold fold_carries.
  assert (Hstep : forall t, (Z.land t 0xffff + Z.shiftr t 16) mod 65535 = t mod 65535).
  { intros t. rewrite shiftr16, land_ffff.
    replace t with (t mod 65536 + t / 65536 + (t / 65536) * 65535) at 3 by zmod_lia.
    by rewrite Z.mod_add by lia. }
  cbn [fold_carries_n]. repeat case_match; by rewrite ?Hstep.
Qed.

Lemma fold_carries_pos s : 0 < s -> 0 < fold_carries s.
Proof.
  intros H. unfold fold_carries. cbn [fold_carries_n]. rewrite !shiftr16, !land_ffff.
  repeat case_match; zmod_lia.
Qed.

(** The complement of the folded sum is what makes the total all ones. *)
Lemma checksum_completes s :
  0 <= s < 2 ^ 32 -> exists c, not16 (fold_carries s) = c /\ 0 <= c < 65536 /\
  0 < s + c /\ (s + c) mod 65535 = 0.
Proof.
  intros Hs. pose proof (fold_carries_lt s Hs) as Hf.
  pose proof (fold_carries_mod s) as Hm. pose proof (fold_carries_pos s) as Hp.
  eexists. split; [done|]. unfold not16. rewrite wrap_small by lia.
  split; [lia|]. split.
  - destruct (Z.eq_dec s 0) as [->|]; [done|lia].
  - zmod_lia.
Qed.

(** ** The IPv4 header checksum *)

Lemma take_byte (r : list Z) i :
  0 <= i < len r ->
  take (Z.to_nat (i + 1)) r = take (Z.to_nat i) r ++ [byte_at r i].
Proof.
  intros H. unfold byte_at, len in *.
  destruct (lookup_lt_is_Some_2 r (Z.to_nat i)) as [x Hx]; [lia|].
  rewrite Hx. cbn. replace (Z.to_nat (i + 1)) with (S (Z.to_nat i)) by lia.
  by apply take_S_r.
Qed.

(** The words of the first [2k] bytes, leaving out the checksum word. *)
Definition header_words (r : list Z) (k : nat) : Z :=
  be_words (take (2 * k) r) -
  (if (5 <? k)%nat then from_be16 (byte_at r 10) (byte_at r 11) else 0).

Lemma header_words_S r k :
  2 * Z.of_nat (S k) <= len r ->
  header_words r (S k) = header_words r k +
    (if (k =? 5)%nat then 0
     else 256 * byte_at r (2 * Z.of_nat k) + byte_at r (2 * Z.of_nat k + 1)).
Proof.
  intros H. unfold header_words.
  replace (2 * S k)%nat with (Z.to_nat (2 * Z.of_nat k + 1 + 1)) by lia.
  rewrite !take_byte by lia. rewrite <- app_assoc, be_words_app.
  2:{ exists k. rewrite length_take. unfold len in H. lia. }
  replace (Z.to_nat (2 * Z.of_nat k)) with (2 * k)%nat by lia.
  cbn [app be_words]. destruct (k =? 5)%nat eqn:E5.
  - apply Nat.eqb_eq in E5 as ->. cbn [Nat.ltb Nat.leb]. unfold from_be16.
    change (2 * Z.of_nat 5 + 1) with 11. change (2 * Z.of_nat 5) with 10. lia.
  - apply Nat.eqb_neq in E5.
    destruct (Nat.ltb_spec 5 (S k)), (Nat.ltb_spec 5 k); lia.
Qed.

Lemma header_words_bounds r k :
  Forall is_byte r -> 2 * Z.of_nat k <= len r ->
  0 <= header_words r k <= 65535 * Z.of_nat k.
Proof.
  intros Hb. induction k as [|k IH]; intros Hk; [done|].
  rewrite header_words_S by done.
  pose proof (byte_at_is_byte r (2 * Z.of_nat k) Hb).
  pose proof (byte_at_is_byte r (2 * Z.of_nat k + 1) Hb).
  unfold is_byte in *. specialize (IH ltac:(lia)). case_match; lia.
Qed.

Lemma ipv4_sum_spec r k :
  Forall is_byte r -> 2 * Z.of_nat k <= len r -> Z.of_nat k < 65536 ->
  ipv4_sum r (2 * k) = Val (header_words r k).
Proof.
  intros Hb. induction k as [|k IH]; intros Hk Hs; [done|].
  replace (2 * S k)%nat with (S (S (2 * k))) by lia. cbn [ipv4_sum].
  rewrite IH by lia. rewrite bind_Val_l.
  pose proof (header_words_bounds r (S k) Hb Hk) as HB.
  pose proof (header_words_bounds r k Hb ltac:(lia)) as HB'.
  pose proof (byte_at_is_byte r (2 * Z.of_nat k) Hb) as H0.
  pose proof (byte_at_is_byte r (2 * Z.of_nat k + 1) Hb) as H1. unfold is_byte in *.
  rewrite header_words_S in HB |- * by done.
  replace (Z.of_nat (2 * k)) with (2 * Z.of_nat k) by lia.
  replace (Z.of_nat (S (2 * k))) with (2 * Z.of_nat k + 1) by lia.
  destruct (Nat.eqb_spec k 5) as [->|E5].
  { cbn. by rewrite Z.add_0_r. }
  destruct ((2 * Z.of_nat k =? 10) || (2 * Z.of_nat k =? 11)) eqn:Ea; [lia|].
  rewrite (idx_byte_at r (2 * Z.of_nat k)), bind_Val_l by lia.
  replace (2 * Z.of_nat k mod 2 =? 0) with true by (symmetry; apply Z.eqb_eq; zmod_lia).
  rewrite bind_Val_l.
  destruct ((2 * Z.of_nat k + 1 =? 10) || (2 * Z.of_nat k + 1 =? 11)) eqn:Eb; [lia|].
  rewrite (idx_byte_at r (2 * Z.of_nat k + 1)), bind_Val_l by lia.
  replace ((2 * Z.of_nat k + 1) mod 2 =? 0) with false by (symmetry; apply Z.eqb_neq; zmod_lia).
  rewrite shiftl8, wrap_add_l, wrap_small by lia. f_equal. lia.
Qed.

(** Replacing the checksum word of a header: what the total becomes. *)
Lemma be_words_header_patch r k c :
  2 * Z.of_nat k <= len r -> (6 <= k)%nat -> 0 <= c < 65536 ->
  be_words (take (2 * k) (take 10 r ++ to_be16 c ++ drop 12 r)) = header_words r k + c.
Proof.
  intros Hl Hk Hc.
  assert (Ht : length (take 10 r) = 10%nat) by (rewrite length_take; unfold len in Hl; lia).
  assert (He : Nat.Even (length (take 10 r))) by (rewrite Ht; by exists 5%nat).
  rewrite take_app_ge, Ht by lia.
  replace (2 * k - 10)%nat with (S (S (2 * k - 12))) by lia. unfold to_be16.
  cbn [app take]. rewrite be_words_app by done. cbn [be_words].
  change (256 * u8 (c / 256) + u8 c) with (from_be16 (u8 (c / 256)) (u8 c)).
  rewrite from_to_be16 by done. unfold header_words.
  assert (Hd : take (2 * k) r = take 10 r ++ [byte_at r 10; byte_at r 11]
                                ++ take (2 * k - 12) (drop 12 r)).
  { rewrite <- (take_drop 10 r) at 1. rewrite take_app_ge, Ht by lia. f_equal.
    change (drop 10 r) with (drop (Z.to_nat 10) r). rewrite !drop_byte by lia.
    by replace (2 * k - 10)%nat with (S (S (2 * k - 12))) by lia. }
  rewrite Hd, be_words_app by done. cbn [app be_words]. unfold from_be16.
  destruct (Nat.ltb_spec 5 k); lia.
Qed.

(** [fix_ipv4_checksum] writes only the checksum field and makes the header
    valid. *)
Lemma fix_ipv4_checksum_spec p :
  Forall is_byte (raw p) -> 20 <= ip_header_len p <= 60 -> ip_header_len p mod 4 = 0 ->
  ip_header_len p <= len (raw p) ->
  exists c, 0 <= c < 65536 /\
    fix_ipv4_checksum p =
      Val (with_raw p (take 10 (raw p) ++ to_be16 c ++ drop 12 (raw p))) /\
    ipv4_checksum_valid (with_raw p (take 10 (raw p) ++ to_be16 c ++ drop 12 (raw p))).
Proof.
  intros Hb Hi H4 Hl. set (k := Z.to_nat (ip_header_len p / 2)).
  assert (Hk : Z.to_nat (ip_header_len p) = (2 * k)%nat) by (subst k; zmod_lia).
  unfold fix_ipv4_checksum. rewrite Hk, ipv4_sum_spec, bind_Val_l by (done || lia).
  pose proof (header_words_bounds (raw p) k Hb ltac:(lia)) as HB.
  destruct (checksum_completes (header_words (raw p) k)) as (c & -> & Hc & Hp & Hm); [lia|].
  exists c. split; [done|]. split.
  - by rewrite copy_from_slice_eq by (done || lia).
  - unfold ipv4_checksum_valid, checksum_valid. cbn [with_raw raw ip_header_len].
    rewrite Hk, be_words_header_patch by lia. done.
Qed.

(** ** The TCP checksum *)

Lemma list_4 {A} (l : list A) : length l = 4%nat -> exists a b c d, l = [a; b; c; d].
Proof. destruct l as [|a [|b [|c [|d [|]]]]]; try discriminate. eauto. Qed.

Lemma pseudo_sum_spec src dst proto n :
  length src = 4%nat -> length dst = 4%nat -> Forall is_byte src -> Forall is_byte dst ->
  pseudo_sum src dst proto n = Val (u32 (be_words src + be_words dst + proto + n)).
Proof.
  intros H1 H2 Hs Hd. unfold pseudo_sum.
  rewrite (words_sum_spec 3 src) by (done || unfold len; lia). rewrite bind_Val_l.
  rewrite (words_sum_spec 3 dst)
    by (done || (unfold len; lia) || by rewrite wrap_wrap). rewrite bind_Val_l.
  change (Z.to_nat (4 - 0)) with 4%nat. change (Z.to_nat (0 + 0)) with 0%nat.
  rewrite !drop_0, !take_ge by lia.
  do 3 (rewrite <- ?Z.add_assoc, ?wrap_add_l by lia). done.
Qed.

Lemma read_ip_spec r i :
  0 <= i -> i + 4 <= len r -> read_ip r i = Val (take 4 (drop (Z.to_nat i) r)).
Proof.
  intros Hi Hl. unfold read_ip.
  rewrite (drop_byte r i), (drop_byte r (i + 1)), (drop_byte r (i + 1 + 1)),
    (drop_byte r (i + 1 + 1 + 1)) by lia.
  replace (i + 1 + 1 + 1) with (i + 3) by lia. replace (i + 1 + 1) with (i + 2) by lia.
  cbn [take]. rewrite !idx_byte_at by lia. by rewrite take_0.
Qed.

Lemma be_words_pseudo src dst proto n :
  length src = 4%nat -> length dst = 4%nat -> 0 <= n < 65536 ->
  be_words (pseudo_header src dst proto n) = be_words src + be_words dst + proto + n.
Proof.
  intros H1 H2 Hn. unfold pseudo_header, to_be16.
  rewrite !be_words_app by (rewrite ?H1, ?H2; by exists 2%nat).
  cbn [app be_words]. pose proof (from_to_be16 n Hn). unfold from_be16 in *. lia.
Qed.

(** The segment around its checksum word. *)
Lemma seg_split (seg : list Z) :
  18 <= len seg ->
  be_words seg = be_words (take 16 seg) +
    from_be16 (byte_at seg 16) (byte_at seg 17) + be_words (drop 18 seg).
Proof.
  intros H. rewrite <- (take_drop 16 seg) at 1.
  rewrite be_words_app
    by (exists 8%nat; rewrite length_take; unfold len in H; lia).
  change (drop 16 seg) with (drop (Z.to_nat 16) seg). rewrite !drop_byte by lia.
  change (16 + 1) with 17. change (Z.to_nat (17 + 1)) with 18%nat.
  cbn [be_words]. unfold from_be16. lia.
Qed.

Lemma seg_patch (seg : list Z) h c :
  Nat.Even h -> (h <= length seg)%nat -> 0 <= c < 65536 ->
  be_words (take h seg ++ to_be16 c ++ drop (h + 2) seg) =
    be_words (take h seg) + c + be_words (drop (h + 2) seg).
Proof.
  intros He H Hc.
  rewrite be_words_app by (by rewrite length_take, Nat.min_l).
  unfold to_be16. cbn [app be_words].
  pose proof (from_to_be16 c Hc). unfold from_be16 in *. lia.
Qed.

Lemma with_raw_wf p r :
  tcp_wf p -> Forall is_byte r -> len r = len (raw p) -> tcp_wf (with_raw p r).
Proof. intros [] ? ?. split; cbn; try done; lia. Qed.

Lemma patch_bytes (r src : list Z) a b :
  Forall is_byte r -> Forall is_byte src -> Forall is_byte (take a r ++ src ++ drop b r).
Proof.
  intros. rewrite !Forall_app. auto using Forall_take, Forall_drop.
Qed.

Lemma patch_len (r : list Z) v a :
  (a + 2 <= length r)%nat -> len (take a r ++ to_be16 v ++ drop (a + 2) r) = len r.
Proof.
  intros. unfold len. rewrite !length_app, length_take, length_drop. cbn. lia.
Qed.

(** The words the TCP checksum covers, without the checksum word itself. *)
Definition tcp_cover (p : TcpPacket) : Z :=
  let seg := drop (Z.to_nat (tcp_offset p)) (raw p) in
  be_words (take 4 (drop 12 (raw p))) + be_words (take 4 (drop 16 (raw p))) + 6 + len seg
  + be_words (take 16 seg) + be_words (drop 18 seg).

Lemma tcp_checksum_valid_cover p :
  tcp_wf p -> len (raw p) < 65536 ->
  tcp_checksum_valid p <->
    0 < tcp_cover p + tcp_checksum_field p /\
    (tcp_cover p + tcp_checksum_field p) mod 65535 = 0.
Proof.
  intros W Hl. destruct W. unfold tcp_checksum_valid, checksum_valid, tcp_cover.
  set (seg := drop (Z.to_nat (tcp_offset p)) (raw p)).
  assert (Hs : len seg = len (raw p) - tcp_offset p)
    by (subst seg; unfold len in *; rewrite length_drop; lia).
  assert (Hip : forall n, (n <= 16)%nat -> length (take 4 (drop n (raw p))) = 4%nat)
    by (intros; rewrite length_take, length_drop; unfold len in *; lia).
  rewrite be_words_app.
  2:{ exists 6%nat. unfold pseudo_header. rewrite !length_app, !Hip by lia. done. }
  rewrite be_words_pseudo by (rewrite ?Hip by lia; (done || lia)).
  rewrite (seg_split seg) by lia.
  assert (Hf : from_be16 (byte_at seg 16) (byte_at seg 17) = tcp_checksum_field p).
  { unfold tcp_checksum_field. subst seg. rewrite !byte_at_drop by lia.
    rewrite Z2Nat.id by lia. done. }
  rewrite Hf. by replace (_ + (_ + tcp_checksum_field p + _)) with
    (be_words (take 4 (drop 12 (raw p))) + be_words (take 4 (drop 16 (raw p))) + 6
     + len seg + be_words (take 16 seg) + be_words (drop 18 seg) + tcp_checksum_field p)
    by lia.
Qed.

(** Rewriting the checksum words leaves what the TCP checksum covers. *)
Lemma tcp_cover_patch_ip p c :
  tcp_wf p -> tcp_cover (with_raw p (take 10 (raw p) ++ to_be16 c ++ drop 12 (raw p)))
  = tcp_cover p.
Proof.
  intros []. unfold tcp_cover; cbn [with_raw raw tcp_offset]. unfold len in *.
  rewrite !drop_patch by (cbn; lia). done.
Qed.

Lemma drop_patch_in (r src : list Z) (o a b : nat) :
  (o <= a <= length r)%nat -> (a <= b)%nat ->
  drop o (take a r ++ src ++ drop b r) =
  take (a - o) (drop o r) ++ src ++ drop (b - o) (drop o r).
Proof.
  intros H Hb. rewrite drop_app_le by (rewrite length_take; lia).
  rewrite skipn_firstn_comm, drop_drop. by replace (o + (b - o))%nat with b by lia.
Qed.

Lemma tcp_patch_own p c :
  tcp_wf p -> 0 <= c < 65536 ->
  let p' := with_raw p (take (Z.to_nat (tcp_offset p + 16)) (raw p) ++ to_be16 c
                        ++ drop (Z.to_nat (tcp_offset p + 18)) (raw p)) in
  tcp_cover p' = tcp_cover p /\ tcp_checksum_field p' = c.
Proof.
  intros [] Hc p'. set (o := Z.to_nat (tcp_offset p)).
  assert (Hlen : (o + 20 <= length (raw p))%nat) by (unfold len in *; lia).
  assert (Hseg : drop o (raw p') =
    take 16 (drop o (raw p)) ++ to_be16 c ++ drop 18 (drop o (raw p))).
  { cbn [raw with_raw p']. rewrite drop_patch_in by lia.
    replace (Z.to_nat (tcp_offset p + 16) - o)%nat with 16%nat by lia.
    by replace (Z.to_nat (tcp_offset p + 18) - o)%nat with 18%nat by lia. }
  assert (Hip : forall n, (n <= 16)%nat ->
    take 4 (drop n (raw p')) = take 4 (drop n (raw p))).
  { intros n Hn. cbn [raw with_raw p']. rewrite !firstn_skipn_comm.
    by rewrite take_patch by lia. }
  set (seg := drop o (raw p)) in *.
  assert (Hsl : (20 <= length seg)%nat) by (subst seg; rewrite length_drop; lia).
  assert (Ht : length (take 16 seg) = 16%nat) by (rewrite length_take; lia).
  split.
  - unfold tcp_cover. rewrite !Hip by lia. fold o. change (tcp_offset p') with (tcp_offset p).
    fold o. rewrite Hseg. fold seg.
    rewrite (take_app_le (take 16 seg)), (take_ge (take 16 seg)) by lia.
    rewrite drop_patch by (cbn; lia).
    unfold len. rewrite !length_app, Ht, length_drop. cbn [length to_be16]. lia.
  - unfold tcp_checksum_field. change (tcp_offset p') with (tcp_offset p).
    assert (Hb : forall i, 0 <= i -> byte_at (raw p') (tcp_offset p + i) = byte_at (drop o (raw p')) i)
      by (intros; rewrite byte_at_drop by lia; f_equal; lia).
    rewrite !Hb, Hseg by lia.
    rewrite (byte_at_app_r _ _ 16), (byte_at_app_r _ _ 17)
      by (unfold len; rewrite Ht; lia).
    unfold len; rewrite Ht. by apply from_to_be16.
Qed.

(** The accumulator at the end of the loops of [fix_tcp_checksum]. *)
Lemma tcp_cover_sum p :
  tcp_wf p -> len (raw p) < 65536 ->
  let seg := drop (Z.to_nat (tcp_offset p)) (raw p) in
  tcp_cover p + tcp_checksum_field p =
    be_words (take 4 (drop 12 (raw p))) + be_words (take 4 (drop 16 (raw p))) + 6
    + len seg + be_words seg /\
  0 < tcp_cover p + tcp_checksum_field p < 2 ^ 32.
Proof.
  intros [] Hl seg.
  assert (Hs : len seg = len (raw p) - tcp_offset p)
    by (subst seg; unfold len in *; rewrite length_drop; lia).
  assert (Hib : forall n, Forall is_byte (take 4 (drop n (raw p))))
    by auto using Forall_take, Forall_drop.
  assert (HT : tcp_cover p + tcp_checksum_field p =
    be_words (take 4 (drop 12 (raw p))) + be_words (take 4 (drop 16 (raw p))) + 6
    + len seg + be_words seg).
  { unfold tcp_cover, tcp_checksum_field. fold seg. rewrite (seg_split seg) by lia.
    subst seg. rewrite !byte_at_drop, Z2Nat.id by lia. lia. }
  split; [done|]. rewrite HT.
  pose proof (be_words_bounds seg ltac:(by apply Forall_drop)).
  pose proof (be_words_bounds _ (Hib 12%nat)). pose proof (be_words_bounds _ (Hib 16%nat)).
  assert (forall n, len (take 4 (drop n (raw p))) <= 4)
    by (intros; unfold len; rewrite length_take; lia).
  pose proof (H2 12%nat). pose proof (H2 16%nat). zmod_lia.
Qed.

(** The TCP half of [fix_tcp_checksum]: the field is overwritten with the
    complement of the sum of the covered words and of the {e old} field. *)
Lemma fix_tcp_checksum_eq p :
  tcp_wf p -> len (raw p) < 65536 ->
  fix_tcp_checksum p = fix_ipv4_checksum
    (with_raw p
       (take (Z.to_nat (tcp_offset p + 16)) (raw p)
        ++ to_be16 (not16 (fold_carries (tcp_cover p + tcp_checksum_field p)))
        ++ drop (Z.to_nat (tcp_offset p + 18)) (raw p))).
Proof.
  intros W Hl. destruct (tcp_cover_sum p W Hl) as [HT HR]. pose proof W as [].
  set (seg := drop (Z.to_nat (tcp_offset p)) (raw p)) in *.
  assert (Hs : len seg = len (raw p) - tcp_offset p)
    by (subst seg; unfold len in *; rewrite length_drop; lia).
  unfold fix_tcp_checksum. rewrite !read_ip_spec by lia. rewrite !bind_Val_l.
  replace (pkt_len p <? tcp_offset p) with false by (unfold pkt_len; lia).
  rewrite pseudo_sum_spec, bind_Val_l
    by (auto using Forall_take, Forall_drop;
        rewrite length_take, length_drop; unfold len in *; lia).
  unfold pkt_len. rewrite words_sum_spec; try lia; try done.
  2:{ unfold len; lia. } 2:{ by rewrite wrap_wrap. }
  rewrite bind_Val_l, wrap_add_l by lia.
  rewrite Z.sub_0_r, Z.add_0_r. fold seg.
  rewrite (take_ge seg) by (unfold len in *; lia).
  change (Z.to_nat 12) with 12%nat. change (Z.to_nat 16) with 16%nat.
  rewrite <- Hs, <- HT, wrap_small, wf_csum by lia. cbn [snd].
  rewrite copy_from_slice_eq, bind_Val_l by (rewrite ?len_to_be16; lia).
  by replace (tcp_offset p + 16 + 2) with (tcp_offset p + 18) by lia.
Qed.

(** The whole effect of [fix_tcp_checksum] on a parsed packet of IPv4 size. *)
Lemma fix_tcp_checksum_spec p :
  tcp_wf p -> len (raw p) < 65536 ->
  exists p', fix_tcp_checksum p = Val p' /\ p' = with_raw p (raw p') /\
    tcp_wf p' /\ len (raw p') = len (raw p) /\
    ipv4_checksum_valid p' /\ tcp_cover p' = tcp_cover p /\
    tcp_checksum_field p' = not16 (fold_carries (tcp_cover p + tcp_checksum_field p)) /\
    (forall i, 0 <= i -> i <> 10 -> i <> 11 -> i <> tcp_offset p + 16 ->
       i <> tcp_offset p + 17 -> byte_at (raw p') i = byte_at (raw p) i).
Proof.
  intros W Hl. destruct (tcp_cover_sum p W Hl) as [_ HR]. pose proof W as [].
  destruct (checksum_completes (tcp_cover p + tcp_checksum_field p))
    as (c & Hc & Hcr & _); [lia|].
  rewrite fix_tcp_checksum_eq, Hc by done.
  destruct (tcp_patch_own p c W Hcr) as [Hcov Hfld]. set (q := with_raw p _) in *.
  assert (Hq : len (raw q) = len (raw p)).
  { subst q. cbn [raw with_raw].
    replace (Z.to_nat (tcp_offset p + 18)) with (Z.to_nat (tcp_offset p + 16) + 2)%nat by lia.
    apply patch_len. unfold len in *. lia. }
  assert (Wq : tcp_wf q)
    by (apply with_raw_wf; [done|apply patch_bytes; auto with balansir|done]).
  pose proof Wq as [].
  destruct (fix_ipv4_checksum_spec q) as (d & Hd & -> & Hv); try done; try lia.
  assert (Hq' : len (take 10 (raw q) ++ to_be16 d ++ drop 12 (raw q)) = len (raw q))
    by (apply (patch_len _ _ 10); unfold len in *; lia).
  eexists. split; [done|]. split; [done|].
  split; [apply with_raw_wf; [done|apply patch_bytes; auto with balansir|done]|].
  split; [cbn [raw with_raw]; lia|]. split; [done|].
  rewrite tcp_cover_patch_ip by done. split; [done|]. split.
  - rewrite <- Hfld. unfold tcp_checksum_field. cbn [raw with_raw tcp_offset].
    rewrite !byte_at_patch_ge by (done || (unfold len in *; lia)). done.
  - intros i Hi H10 H11 H16 H17. cbn [raw with_raw].
    rewrite (byte_at_patch_out (raw q) (to_be16 d) 10 12) by (done || unfold len in *; lia).
    subst q. cbn [raw with_raw]. apply byte_at_patch_out; unfold len in *; cbn [length to_be16]; lia.
Qed.

(** ** The UDP checksum *)

Lemma take_patch_in (s src : list Z) (a b n : nat) :
  (length src = b - a)%nat -> (a <= b)%nat -> (b <= n <= length s)%nat ->
  take n (take a s ++ src ++ drop b s) =
  take a (take n s) ++ src ++ drop b (take n s).
Proof.
  intros Hs Hab Hn. rewrite take_app_ge by (rewrite length_take; lia).
  rewrite length_take, take_app_ge by lia.
  rewrite take_take, skipn_firstn_comm. do 3 f_equal; lia.
Qed.

(** The datagram after its checksum word was overwritten. *)
Lemma udp_patch pkt off n c :
  0 <= off -> 8 <= n -> off + n <= len pkt ->
  let seg := take (Z.to_nat n) (drop (Z.to_nat off) pkt) in
  take (Z.to_nat n) (drop (Z.to_nat off)
    (take (Z.to_nat (off + 6)) pkt ++ to_be16 c ++ drop (Z.to_nat (off + 8)) pkt)) =
  take 6 seg ++ to_be16 c ++ drop 8 seg.
Proof.
  intros Ho Hn Hl seg. unfold len in Hl.
  rewrite drop_patch_in by lia.
  replace (Z.to_nat (off + 6) - Z.to_nat off)%nat with 6%nat by lia.
  replace (Z.to_nat (off + 8) - Z.to_nat off)%nat with 8%nat by lia.
  rewrite take_patch_in by (cbn [length to_be16]; rewrite ?length_drop; lia). done.
Qed.

Lemma fix_udp_checksum_spec pkt src dst off n :
  Forall is_byte pkt -> Forall is_byte src -> Forall is_byte dst ->
  length src = 4%nat -> length dst = 4%nat ->
  0 <= off -> 8 <= n < 65536 -> off + n <= len pkt ->
  exists c, 0 <= c < 65536 /\
    fix_udp_checksum pkt src dst off n =
      Val (take (Z.to_nat (off + 6)) pkt ++ to_be16 c ++ drop (Z.to_nat (off + 8)) pkt) /\
    checksum_valid (pseudo_header src dst 17 n ++
      take (Z.to_nat n) (drop (Z.to_nat off)
        (take (Z.to_nat (off + 6)) pkt ++ to_be16 c ++ drop (Z.to_nat (off + 8)) pkt))).
Proof.
  intros Hb Hsb Hdb Hs Hd Ho Hn Hl. unfold fix_udp_checksum.
  change [0; 0] with (to_be16 0).
  rewrite copy_from_slice_eq, bind_Val_l by (rewrite ?len_to_be16; lia).
  set (seg := take (Z.to_nat n) (drop (Z.to_nat off) pkt)).
  assert (Hseg : Forall is_byte seg) by (by apply Forall_take, Forall_drop).
  assert (Hsl : Z.of_nat (length seg) = n)
    by (subst seg; unfold len in *; rewrite length_take, length_drop; lia).
  set (pkt0 := take (Z.to_nat (off + 6)) pkt ++ to_be16 0 ++ _).
  assert (Hl0 : len pkt0 = len pkt).
  { subst pkt0. replace (Z.to_nat (off + 8)) with (Z.to_nat (off + 6) + 2)%nat by lia.
    apply patch_len. unfold len in *. lia. }
  rewrite pseudo_sum_spec, bind_Val_l by done.
  rewrite words_sum_spec; try lia.
  2:{ apply patch_bytes; auto with balansir. } 2:{ unfold len in *; lia. }
  2:{ by rewrite wrap_wrap. }
  rewrite bind_Val_l, wrap_add_l, Z.sub_0_r, Z.add_0_r by lia.
  subst pkt0. rewrite udp_patch by lia. fold seg.
  change 8%nat with (6 + 2)%nat. rewrite seg_patch by (by exists 3%nat || lia).
  set (A := be_words src + be_words dst + 17 + n + _).
  assert (HA : 0 <= A < 2 ^ 32).
  { subst A. pose proof (be_words_bounds src Hsb). pose proof (be_words_bounds dst Hdb).
    pose proof (be_words_bounds (take 6 seg) ltac:(by apply Forall_take)).
    pose proof (be_words_bounds (drop (6 + 2) seg) ltac:(by apply Forall_drop)).
    unfold len in *. rewrite ?length_take, ?length_drop, ?Hs, ?Hd in *. zmod_lia. }
  rewrite wrap_small by done.
  destruct (checksum_completes A HA) as (c & -> & Hc & Hp & Hm).
  exists c. split; [done|]. rewrite copy_from_slice_eq by (rewrite ?len_to_be16; lia).
  rewrite take_patch, drop_patch by (cbn [length to_be16]; unfold len in *; lia).
  split; [done|]. rewrite udp_patch by lia. fold seg. unfold checksum_valid.
  rewrite be_words_app
    by (exists 6%nat; unfold pseudo_header; rewrite !length_app, Hs, Hd; done).
  rewrite be_words_pseudo by (done || lia). change 8%nat with (6 + 2)%nat.
  rewrite seg_patch by (by exists 3%nat || lia).
  by replace (_ + (_ + c + _)) with (A + c) by (subst A; lia).
Qed.

(** The written TCP checksum is valid exactly when the old field was [0] or
    [0xffff]. *)
Lemma fix_tcp_checksum_iff p :
  tcp_wf p -> len (raw p) < 65536 ->
  exists p', fix_tcp_checksum p = Val p' /\ p' = with_raw p (raw p') /\ tcp_wf p' /\
    ipv4_checksum_valid p' /\
    (tcp_checksum_valid p' <->
       tcp_checksum_field p = 0 \/ tcp_checksum_field p = 0xffff).
Proof.
  intros W Hl.
  destruct (fix_tcp_checksum_spec p W Hl) as (p' & Hf & Hp' & W' & Hl' & Hv & Hcov & Hfld & _).
  exists p'. do 4 (split; [done|]).
  rewrite tcp_checksum_valid_cover, Hcov, Hfld by (done || lia).
  destruct (tcp_cover_sum p W Hl) as [_ HR].
  destruct (checksum_completes (tcp_cover p + tcp_checksum_field p))
    as (c & -> & Hc & _ & Hm); [lia|].
  assert (Hfr : 0 <= tcp_checksum_field p < 65536)
    by (apply from_be16_range; apply byte_at_is_byte, W).
  assert (0 < tcp_cover p).
  { unfold tcp_cover. pose proof (wf_bytes p W) as Hb'.
    pose proof (fun n m => be_words_bounds (take n (drop m (raw p)))
      ltac:(by apply Forall_take, Forall_drop)) as Hw.
    pose proof (Hw 4%nat 12%nat). pose proof (Hw 4%nat 16%nat).
    pose proof (Hw 16%nat (Z.to_nat (tcp_offset p))).
    pose proof (be_words_bounds (drop 18 (drop (Z.to_nat (tcp_offset p)) (raw p)))
      ltac:(by apply Forall_drop, Forall_drop)).
    pose proof (len_nonneg (drop (Z.to_nat (tcp_offset p)) (raw p))). lia. }
  split; [intros [_ Hm']|intros HF; split; [lia|]]; zmod_lia.
Qed.

(** ** Claims *)

(** [fix_ipv4_checksum] on any parsed packet returns, changes only the two
    checksum bytes, and leaves a header every receiver accepts: the
    one's-complement sum of its words is all ones. *)
Theorem fix_ipv4_checksum_makes_header_valid r p :
  Forall is_byte r -> TcpPacket_parse r = Val (Some p) ->
  exists p', fix_ipv4_checksum p = Val p' /\ ipv4_checksum_valid p' /\
    len (raw p') = len r /\
    (forall i, 0 <= i -> i <> 10 -> i <> 11 -> byte_at (raw p') i = byte_at r i).
Proof.
  intros Hb Hp. destruct (TcpPacket_parse_Some r p Hb Hp) as (W & _ & <-). destruct W.
  destruct (fix_ipv4_checksum_spec p) as (c & Hc & Hf & Hv); try done; [lia|].
  eexists. split; [exact Hf|]. split; [done|]. cbn [with_raw raw]. split.
  - apply (patch_len _ _ 10). unfold len in *. lia.
  - intros i Hi H10 H11. apply byte_at_patch_out; [done|unfold len in *; lia..].
Qed.

(** A 40-byte TCP segment (ACK, no payload) with all checksum bytes zero. *)
Definition ack_segment : list Z :=
  [0x45; 0; 0; 40; 0; 1; 0x40; 0; 64; 6; 0; 0; 10; 0; 0; 1; 10; 0; 0; 2;
   0; 80; 1; 187; 0; 0; 0; 7; 0; 0; 0; 9; 0x50; 0x10; 1; 0; 0; 0; 0; 0].

Lemma fix_ipv4_checksum_makes_header_valid_witness :
  exists p', fix_ipv4_checksum (mkTcp ack_segment 20 40 20 20 32 (10, 36)) = Val p' /\
    ipv4_checksum_valid p'.
Proof.
  destruct (fix_ipv4_checksum_makes_header_valid ack_segment
    (mkTcp ack_segment 20 40 20 20 32 (10, 36))) as (p' & H1 & H2 & _).
  - vm_compute. repeat constructor; intros [=].
  - reflexivity.
  - exists p'. split; [exact H1|exact H2].
Defined.

(** [fix_tcp_checksum] does not clear the checksum field before summing: on
    a parsed packet it returns and leaves a valid IPv4 header, but the TCP
    checksum it writes is valid exactly when the field held [0] or [0xffff]
    before the call. *)
Theorem fix_tcp_checksum_valid_iff r p :
  Forall is_byte r -> len r < 65536 -> TcpPacket_parse r = Val (Some p) ->
  exists p', fix_tcp_checksum p = Val p' /\ ipv4_checksum_valid p' /\
    (tcp_checksum_valid p' <->
       tcp_checksum_field p = 0 \/ tcp_checksum_field p = 0xffff).
Proof.
  intros Hb Hl Hp. destruct (TcpPacket_parse_Some r p Hb Hp) as (W & _ & <-).
  destruct (fix_tcp_checksum_iff p W Hl) as (p' & Hf & _ & _ & Hv & Hiff). by exists p'.
Qed.

Lemma fix_tcp_checksum_valid_iff_witness :
  exists p', fix_tcp_checksum (mkTcp ack_segment 20 40 20 20 32 (10, 36)) = Val p' /\
    tcp_checksum_valid p'.
Proof.
  destruct (fix_tcp_checksum_valid_iff ack_segment
    (mkTcp ack_segment 20 40 20 20 32 (10, 36))) as (p' & H1 & _ & H2).
  - vm_compute. repeat constructor; intros [=].
  - reflexivity.
  - reflexivity.
  - exists p'. split; [exact H1|]. apply H2. left. reflexivity.
Defined.
