(* ===== verification/TcpOptions.v ===== *)
(** * TCP option rewriting

    The options of a TCP header as RFC 793 lists them, and the effect of
    [tcp_opt::set_mss] and [tcp_opt::strip_option]
    ([crates/balansir-b4/src/packet.rs]) on that list. *)

From S2P Require Import Prelude Packet Checksum.

(** ** Specification: the option list of a header *)

(** The options of an option area: NOPs skipped, stopping at EOL or at an option
    whose length does not fit.  [length l] is enough fuel. *)
Fixpoint opts_n (fuel : nat) (l : list Z) : list (Z * list Z) :=
  match fuel, l with
  | S f, k :: l1 =>
      if k =? 0 then []
      else if k =? 1 then opts_n f l1
      else match l1 with
           | [] => []
           | n :: l2 =>
               if (n <? 2) || (len l2 <? n - 2) then []
               else (k, take (Z.to_nat (n - 2)) l2)
                      :: opts_n f (drop (Z.to_nat (n - 2)) l2)
           end
  | _, _ => []
  end.
Definition opts (l : list Z) : list (Z * list Z) := opts_n (length l) l.

(** Every option of the area up to EOL fits. *)
Fixpoint opts_ok_n (fuel : nat) (l : list Z) : bool :=
  match fuel, l with
  | S f, k :: l1 =>
      if k =? 0 then true
      else if k =? 1 then opts_ok_n f l1
      else match l1 with
           | [] => false
           | n :: l2 =>
               if (n <? 2) || (len l2 <? n - 2) then false
               else opts_ok_n f (drop (Z.to_nat (n - 2)) l2)
           end
  | _, _ => true
  end.
Definition opts_ok (l : list Z) : bool := opts_ok_n (length l) l.

(** The option area of a packet from index [i] on. *)
Definition area (r : list Z) (stop i : Z) : list Z :=
  take (Z.to_nat (stop - i)) (drop (Z.to_nat i) r).

Definition option_area (p : TcpPacket) : list Z :=
  area (raw p) (tcp_offset p + tcp_header_len p) (tcp_offset p + 20).
Definition tcp_options (p : TcpPacket) : list (Z * list Z) := opts (option_area p).

Definition is_mss (o : Z * list Z) : bool := (o.1 =? MSS) && (2 <=? len o.2).

(** Replace the value of the first MSS option. *)
Fixpoint put_mss (mss : Z) (os : list (Z * list Z)) : list (Z * list Z) :=
  match os with
  | [] => []
  | o :: os' =>
      if is_mss o then (o.1, to_be16 mss ++ drop 2 o.2) :: os'
      else o :: put_mss mss os'
  end.

(** Drop every option of a kind from an option area. *)
Fixpoint strip_n (fuel : nat) (kind : Z) (l : list Z) : list Z :=
  match fuel, l with
  | S f, k :: l1 =>
      if k =? 0 then l
      else if k =? 1 then 1 :: strip_n f kind l1
      else match l1 with
           | [] => l
           | n :: l2 =>
               if (n <? 2) || (len l2 <? n - 2) then l
               else if k =? kind then strip_n f kind (drop (Z.to_nat (n - 2)) l2)
               else k :: n :: take (Z.to_nat (n - 2)) l2
                      ++ strip_n f kind (drop (Z.to_nat (n - 2)) l2)
           end
  | _, _ => []
  end.
Definition strip (kind : Z) (l : list Z) : list Z := strip_n (length l) kind l.

(** ** Fuel *)

Lemma opts_n_enough f l : (length l <= f)%nat -> opts_n f l = opts l.
Proof.
  unfold opts. revert l. induction f as [f IH] using lt_wf_ind; intros l Hf.
  destruct l as [|k l1]; [by destruct f|]. destruct f as [|f]; cbn in Hf; [lia|].
  cbn [opts_n length]. repeat case_match; try done; subst; cbn [length] in *.
  - by rewrite IH by lia.
  - f_equal. etransitivity; [|symmetry]; apply IH; rewrite ?length_drop; lia.
Qed.

Lemma opts_ok_n_enough f l : (length l <= f)%nat -> opts_ok_n f l = opts_ok l.
Proof.
  unfold opts_ok. revert l. induction f as [f IH] using lt_wf_ind; intros l Hf.
  destruct l as [|k l1]; [by destruct f|]. destruct f as [|f]; cbn in Hf; [lia|].
  cbn [opts_ok_n length]. repeat case_match; try done; subst; cbn [length] in *.
  - by rewrite IH by lia.
  - etransitivity; [|symmetry]; apply IH; rewrite ?length_drop; lia.
Qed.

Lemma strip_n_enough f kind l : (length l <= f)%nat -> strip_n f kind l = strip kind l.
Proof.
  unfold strip. revert l. induction f as [f IH] using lt_wf_ind; intros l Hf.
  destruct l as [|k l1]; [by destruct f|]. destruct f as [|f]; cbn in Hf; [lia|].
  cbn [strip_n length]. repeat case_match; try done; subst; cbn [length] in *.
  - by rewrite IH by lia.
  - etransitivity; [|symmetry]; apply IH; rewrite ?length_drop; lia.
  - do 3 f_equal. etransitivity; [|symmetry]; apply IH; rewrite ?length_drop; lia.
Qed.

(** Unfolding equations, free of fuel. *)
Lemma opts_nil : opts [] = [].
Proof. done. Qed.
Lemma opts_eol l : opts (0 :: l) = [].
Proof. done. Qed.
Lemma opts_nop l : opts (1 :: l) = opts l.
Proof. done. Qed.
Lemma opts_bad k n l :
  (n <? 2) || (len l <? n - 2) = true -> k <> 1 -> opts (k :: n :: l) = [].
Proof. intros H Hk. unfold opts. cbn. rewrite H. repeat case_match; (done || lia). Qed.
Lemma opts_opt k n l :
  k <> 0 -> k <> 1 -> (n <? 2) || (len l <? n - 2) = false ->
  opts (k :: n :: l) = (k, take (Z.to_nat (n - 2)) l) :: opts (drop (Z.to_nat (n - 2)) l).
Proof.
  intros H0 H1 Hn. unfold opts at 1. cbn [length].
  assert (Hm : (length l <= S (length l))%nat) by lia. revert Hm.
  generalize (S (length l)). intros m Hm. cbn [opts_n].
  destruct (Z.eqb_spec k 0), (Z.eqb_spec k 1); try done. rewrite Hn.
  f_equal. apply opts_n_enough. rewrite length_drop. lia.
Qed.

Lemma opts_ok_nop l : opts_ok (1 :: l) = opts_ok l.
Proof. done. Qed.
Lemma opts_ok_eq k n l :
  k <> 0 -> k <> 1 ->
  opts_ok (k :: n :: l) =
    if (n <? 2) || (len l <? n - 2) then false else opts_ok (drop (Z.to_nat (n - 2)) l).
Proof.
  intros H0 H1. unfold opts_ok at 1. cbn [length].
  assert (Hm : (length l <= S (length l))%nat) by lia. revert Hm.
  generalize (S (length l)). intros m Hm. cbn [opts_ok_n].
  destruct (Z.eqb_spec k 0), (Z.eqb_spec k 1); try done. case_match; [done|].
  apply opts_ok_n_enough. rewrite length_drop. lia.
Qed.

Lemma opts_ok_opt k n l :
  k <> 0 -> k <> 1 -> opts_ok (k :: n :: l) = true ->
  (n <? 2) || (len l <? n - 2) = false /\ opts_ok (drop (Z.to_nat (n - 2)) l) = true.
Proof. intros H0 H1. rewrite opts_ok_eq by done. by case_match. Qed.

Lemma strip_nop kind l : strip kind (1 :: l) = 1 :: strip kind l.
Proof. done. Qed.
Lemma strip_opt kind k n l :
  k <> 0 -> k <> 1 -> (n <? 2) || (len l <? n - 2) = false ->
  strip kind (k :: n :: l) =
    if k =? kind then strip kind (drop (Z.to_nat (n - 2)) l)
    else k :: n :: take (Z.to_nat (n - 2)) l ++ strip kind (drop (Z.to_nat (n - 2)) l).
Proof.
  intros H0 H1 Hn. unfold strip at 1. cbn [length].
  assert (Hm : (length l <= S (length l))%nat) by lia. revert Hm.
  generalize (S (length l)). intros m Hm. cbn [strip_n].
  destruct (Z.eqb_spec k 0), (Z.eqb_spec k 1); try done. rewrite Hn.
  by rewrite strip_n_enough by (rewrite length_drop; lia).
Qed.

(** Induction over a well-formed option area. *)
Lemma opts_ok_ind (P : list Z -> Prop) :
  P [] -> (forall l, P (0 :: l)) -> (forall l, opts_ok l = true -> P l -> P (1 :: l)) ->
  (forall k n l, k <> 0 -> k <> 1 -> (n <? 2) || (len l <? n - 2) = false ->
     opts_ok (drop (Z.to_nat (n - 2)) l) = true ->
     P (drop (Z.to_nat (n - 2)) l) -> P (k :: n :: l)) ->
  forall l, opts_ok l = true -> P l.
Proof.
  intros Hnil Heol Hnop Hopt l. induction l as [l IH] using (induction_ltof1 _ length).
  unfold ltof in IH. intros Hok. destruct l as [|k l1]; [done|].
  destruct (Z.eq_dec k 0) as [->|]; [done|]. destruct (Z.eq_dec k 1) as [->|].
  { rewrite opts_ok_nop in Hok. apply Hnop; [done|]. apply IH; [cbn; lia|done]. }
  destruct l1 as [|n2 l2].
  { unfold opts_ok in Hok. cbn in Hok. repeat case_match; (done || lia). }
  apply opts_ok_opt in Hok as [Hn Hd]; [|done|done].
  apply Hopt; try done. apply IH; [|done]. rewrite length_drop. cbn. lia.
Qed.

(** Stripping removes exactly the options of that kind, also when the area is
    followed by NOP padding. *)
Lemma opts_strip kind l m :
  opts_ok l = true -> 2 <= kind ->
  opts (strip kind l ++ replicate m 1) = filter (fun o => o.1 <> kind) (opts l).
Proof.
  intros Hok Hk. revert l Hok. apply opts_ok_ind.
  - change (strip kind [] ++ replicate m 1) with (replicate m 1).
    induction m as [|m IH]; [done|]. cbn [replicate]. by rewrite opts_nop.
  - intros l. unfold strip. cbn [length strip_n]. by rewrite Z.eqb_refl.
  - intros l Hok IH. by rewrite strip_nop, <- app_comm_cons, !opts_nop.
  - intros k n l H0 H1 Hn Hok IH. rewrite strip_opt, opts_opt by done.
    rewrite filter_cons. cbn [fst]. destruct (Z.eqb_spec k kind) as [->|Hne].
    { rewrite decide_False by tauto. done. }
    rewrite decide_True by done. rewrite <- !app_comm_cons, <- app_assoc.
    rewrite orb_false_iff in Hn.
    assert (Ht : length (take (Z.to_nat (n - 2)) l) = Z.to_nat (n - 2))
      by (rewrite length_take; unfold len in Hn; lia).
    rewrite opts_opt; [|done|done|].
    2:{ unfold len in *. rewrite length_app, Ht. apply orb_false_iff. split; [lia|]. apply Z.ltb_ge. lia. }
    rewrite take_app_length', drop_app_length' by done. by rewrite IH.
Qed.

Lemma opts_ok_strip kind l m :
  opts_ok l = true -> opts_ok (strip kind l ++ replicate m 1) = true.
Proof.
  revert l. apply opts_ok_ind.
  - change (strip kind [] ++ replicate m 1) with (replicate m 1).
    induction m as [|m IH]; [done|]. cbn [replicate]. by rewrite opts_ok_nop.
  - intros l. unfold strip. cbn [length strip_n]. by rewrite Z.eqb_refl.
  - intros l _ IH. by rewrite strip_nop, <- app_comm_cons, opts_ok_nop.
  - intros k n l H0 H1 Hn _ IH. rewrite strip_opt by done. case_match; [done|].
    rewrite <- !app_comm_cons, <- app_assoc, opts_ok_eq by done.
    rewrite orb_false_iff in Hn.
    assert (Ht : length (take (Z.to_nat (n - 2)) l) = Z.to_nat (n - 2))
      by (rewrite length_take; unfold len in Hn; lia).
    rewrite drop_app_length', IH by done.
    unfold len in *. rewrite length_app, Ht. case_match; [lia|done].
Qed.

(** ** The index loops against the option area *)

Lemma area_nil r stop i : stop <= i -> area r stop i = [].
Proof. intros. unfold area. by replace (Z.to_nat (stop - i)) with 0%nat by lia. Qed.

Lemma area_cons r stop i :
  0 <= i < stop -> stop <= len r -> area r stop i = byte_at r i :: area r stop (i + 1).
Proof.
  intros Hi Hs. unfold area. rewrite drop_byte by lia.
  by replace (Z.to_nat (stop - i)) with (S (Z.to_nat (stop - (i + 1)))) by lia.
Qed.

Lemma area_len r stop i : 0 <= i <= stop -> stop <= len r -> len (area r stop i) = stop - i.
Proof. intros. unfold area, len in *. rewrite length_take, length_drop. lia. Qed.

Lemma area_drop r stop i n :
  0 <= i -> 0 <= n -> drop (Z.to_nat n) (area r stop i) = area r stop (i + n).
Proof.
  intros. unfold area. rewrite skipn_firstn_comm, drop_drop. f_equal; [|f_equal]; lia.
Qed.

Lemma area_take r stop i n :
  0 <= n <= stop - i -> take (Z.to_nat n) (area r stop i) = area r (i + n) i.
Proof. intros. unfold area. rewrite take_take. f_equal. lia. Qed.

Lemma slice_area r a b : 0 <= a <= b -> b <= len r -> slice r a b = Val (area r b a).
Proof. apply slice_eq. Qed.

(** Two buffers agreeing on [i..stop] have the same area. *)
Lemma area_ext r r' stop i :
  len r = len r' -> 0 <= i -> stop <= len r ->
  (forall j, i <= j < stop -> byte_at r j = byte_at r' j) ->
  area r stop i = area r' stop i.
Proof.
  intros Hl Hi Hs Hj. destruct (Z.le_ge_cases stop i); [by rewrite !area_nil|].
  apply byte_list_ext; rewrite !area_len by lia; [done|].
  intros j Hj'. unfold area. rewrite !byte_at_take, !byte_at_drop by lia. apply Hj. lia.
Qed.

(** One unrolled step of a walk from [i]. *)
Lemma area_opt r stop i :
  0 <= i -> i + 1 < stop -> stop <= len r ->
  area r stop i = byte_at r i :: byte_at r (i + 1) :: area r stop (i + 2).
Proof.
  intros. rewrite area_cons, (area_cons _ _ (i + 1)) by lia. by rewrite <- Z.add_assoc.
Qed.

(** The guard of the loops is the guard of the list walk. *)
Lemma area_guard r stop i l :
  0 <= i -> i + 1 < stop -> stop <= len r ->
  (l <? 2) || (len (area r stop (i + 2)) <? l - 2) = (l <? 2) || (stop <? i + l).
Proof. intros. rewrite area_len by lia. f_equal. lia. Qed.

(** [strip_loop] computes [strip] of the rest of the area. *)
Lemma strip_loop_spec fuel r stop kind i kept changed :
  Forall is_byte r -> 0 <= i <= stop -> stop <= len r -> stop - i < Z.of_nat fuel ->
  2 <= kind -> opts_ok (area r stop i) = true ->
  strip_loop fuel r stop kind i kept changed =
    Val (kept ++ strip kind (area r stop i),
         changed || existsb (fun o => o.1 =? kind) (opts (area r stop i))).
Proof.
  intros Hb. revert i kept changed.
  induction fuel as [|fuel IH]; intros i kept changed Hi Hs Hf Hk Hok; [lia|].
  cbn [strip_loop]. destruct (i <? stop) eqn:Ei; cbn [negb].
  2:{ rewrite area_nil by lia. by rewrite opts_nil, app_nil_r, orb_false_r. }
  rewrite (idx_byte_at r i), bind_Val_l by lia.
  destruct (byte_at r i =? 0) eqn:E0.
  { rewrite slice_area, bind_Val_l by lia. rewrite area_cons by lia.
    apply Z.eqb_eq in E0 as ->. rewrite opts_eol, orb_false_r.
    unfold strip. cbn [length strip_n]. done. }
  destruct (byte_at r i =? 1) eqn:E1.
  { rewrite area_cons in Hok |- * by lia. apply Z.eqb_eq in E1. rewrite E1 in *.
    rewrite IH by (lia || done). by rewrite strip_nop, opts_nop, <- app_assoc. }
  destruct (Z.eq_dec (i + 1) stop) as [He|He].
  { rewrite area_cons, (area_nil _ _ (i + 1)) in Hok by lia.
    unfold opts_ok in Hok. cbn in Hok. by rewrite E0, E1 in Hok. }
  rewrite (idx_byte_at r (i + 1)), bind_Val_l by lia.
  rewrite area_opt in Hok |- * by lia.
  apply opts_ok_opt in Hok as [Hg Hd]; [|lia|lia].
  pose proof (byte_at_is_byte r (i + 1) Hb) as Hl. unfold is_byte in Hl.
  rewrite strip_opt, opts_opt by (lia || done). rewrite area_guard in Hg by lia.
  rewrite Hg. rewrite area_drop in Hd |- * by lia. rewrite area_take by lia.
  replace (i + 2 + (byte_at r (i + 1) - 2)) with (i + byte_at r (i + 1)) in * by lia.
  cbn [existsb fst]. destruct (byte_at r i =? kind) eqn:Ek.
  { rewrite IH by (lia || done). by rewrite orb_true_r. }
  rewrite slice_area, bind_Val_l, IH by (lia || done).
  rewrite (area_opt r (i + byte_at r (i + 1))), <- app_assoc by lia. done.
Qed.

(** ** [strip_option] on a whole packet *)

Lemma strip_len kind l : opts_ok l = true -> len (strip kind l) <= len l.
Proof.
  revert l. apply opts_ok_ind.
  - done.
  - intros l. unfold strip. cbn [length strip_n]. rewrite Z.eqb_refl. lia.
  - intros l _ IH. rewrite strip_nop, !len_cons. lia.
  - intros k n l H0 H1 Hn _ IH. rewrite strip_opt by done.
    unfold len in *. rewrite length_drop in IH.
    case_match; cbn [length]; rewrite ?length_app, ?length_take; lia.
Qed.

Lemma pad4_len l : len (pad4 l) mod 4 = 0 /\ len l <= len (pad4 l) < len l + 4.
Proof.
  unfold pad4. rewrite len_app, len_replicate. pose proof (len_nonneg l). zmod_lia.
Qed.

Lemma existsb_filter_all (kind : Z) (os : list (Z * list Z)) :
  existsb (fun o => o.1 =? kind) os = false -> filter (fun o => o.1 <> kind) os = os.
Proof.
  induction os as [|o os IH]; [done|]. cbn [existsb]. rewrite orb_false_iff.
  intros [Ho Hos]. rewrite filter_cons, decide_True, IH by (done || lia). done.
Qed.

(** The packet [strip_option] rebuilds around the new option area [kept]. *)
Definition rebuilt (p : TcpPacket) (kept payload : list Z) : list Z :=
  let h := take (Z.to_nat (tcp_offset p + 20)) (raw p) in
  let out := h ++ kept ++ payload in
  let d := <[Z.to_nat (tcp_offset p + 12) :=
              (20 + len kept) / 4 * 16 + byte_at (raw p) (tcp_offset p + 12) mod 16]> out in
  take 2 d ++ to_be16 (u16 (len out)) ++ drop 4 d.

Lemma strip_option_eq p kind :
  tcp_wf p -> tcp_hdr p -> opts_ok (option_area p) = true -> 2 <= kind ->
  strip_option p kind =
    if existsb (fun o => o.1 =? kind) (tcp_options p) then
      let kept := pad4 (strip kind (option_area p)) in
      let payload := area (raw p) (len (raw p)) (tcp_offset p + tcp_header_len p) in
      Val (mkTcp (rebuilt p kept payload) (ip_header_len p) (ip_total_len p) (tcp_offset p)
             (20 + len kept) (tcp_doff_field p) (checksum_offsets p), true)
    else Val (p, false).
Proof.
  intros [Hb Hi Hi4 Ho Hh Hl Hc] [Hv Hp Hd Hd4 Hf] Hok Hk. unfold strip_option.
  pose proof (len_nonneg (raw p)).
  rewrite strip_loop_spec by (done || unfold len in *; lia). rewrite bind_Val_l.
  unfold option_area, tcp_options in *. cbn [orb app]. destruct (existsb _ _); cbn [negb]; [|done].
  set (stop := tcp_offset p + tcp_header_len p) in *.
  set (K := strip kind _). pose proof (pad4_len K) as [HK4 HKl].
  pose proof (strip_len kind _ Hok) as Hsl. fold K in Hsl. rewrite area_len in Hsl by lia.
  rewrite !slice_area by lia. rewrite !bind_Val_l.
  set (P := area (raw p) (len (raw p)) stop).
  replace (area (raw p) (tcp_offset p) 0 ++ area (raw p) (tcp_offset p + 20) (tcp_offset p)
           ++ pad4 K ++ P)
    with (take (Z.to_nat (tcp_offset p + 20)) (raw p) ++ pad4 K ++ P).
  2:{ rewrite (app_assoc (area (raw p) (tcp_offset p) 0)). f_equal. unfold area.
      rewrite drop_0, Z.sub_0_r.
      rewrite <- (take_drop (Z.to_nat (tcp_offset p)) (take _ (raw p))).
      rewrite take_take, skipn_firstn_comm. f_equal; f_equal; lia. }
  set (out := take _ _ ++ _).
  assert (Hol : len out = tcp_offset p + 20 + len (pad4 K) + len P)
    by (subst out; rewrite !len_app; unfold len in *; rewrite length_take; lia).
  pose proof (len_nonneg P). pose proof (len_nonneg K).
  rewrite (idx_byte_at out), bind_Val_l by lia.
  assert (Hob : byte_at out (tcp_offset p + 12) = byte_at (raw p) (tcp_offset p + 12)).
  { subst out. rewrite byte_at_app_l, byte_at_take; try lia.
    unfold len in *. rewrite length_take. lia. }
  rewrite land_lnot3, nibble_lo, Hob.
  replace (20 + len (pad4 K) + 3 - _) with (20 + len (pad4 K)) by zmod_lia.
  assert (Hlt : 0 <= (20 + len (pad4 K)) / 4 < 16) by zmod_lia.
  rewrite (wrap_small 8 (_ / 4)) by lia.
  rewrite (wrap_small 8 (Z.shiftl _ _)) by (rewrite Z.shiftl_mul_pow2 by lia; lia).
  rewrite lor_shiftl by (change (2 ^ 4) with 16; zmod_lia). change (2 ^ 4) with 16.
  rewrite set_idx_eq, bind_Val_l by lia.
  rewrite copy_from_slice_eq, bind_Val_l
    by (rewrite ?len_to_be16; unfold len in *; rewrite ?length_insert; lia).
  unfold rebuilt. fold out. by rewrite len_insert.
Qed.

Lemma rebuilt_head p kept payload j :
  0 <= tcp_offset p -> tcp_offset p + 20 <= len (raw p) -> 0 <= j < tcp_offset p + 20 ->
  j <> 2 -> j <> 3 -> j <> tcp_offset p + 12 ->
  byte_at (rebuilt p kept payload) j = byte_at (raw p) j.
Proof.
  intros Ho Hl Hj H2 H3 Hd. unfold rebuilt. cbv zeta. set (d := <[_ := _]> _).
  assert (Hdl : (4 <= length d)%nat).
  { subst d. rewrite length_insert, !length_app, length_take. unfold len in Hl. lia. }
  assert (Hdj : byte_at d j = byte_at (raw p) j).
  { subst d. rewrite byte_at_insert_ne by lia. rewrite byte_at_app_l, byte_at_take; try lia.
    unfold len in *. rewrite length_take. lia. }
  rewrite <- Hdj. destruct (Z.lt_ge_cases j 2).
  - rewrite byte_at_app_l, byte_at_take; try lia. unfold len. rewrite length_take. lia.
  - apply byte_at_patch_ge; cbn; lia.
Qed.

Lemma rebuilt_fields p kept payload :
  20 <= tcp_offset p -> tcp_offset p + 20 <= len (raw p) ->
  let r := rebuilt p kept payload in
  len r = tcp_offset p + 20 + len kept + len payload /\
  drop (Z.to_nat (tcp_offset p + 20)) r = kept ++ payload /\
  byte_at r (tcp_offset p + 12) =
    (20 + len kept) / 4 * 16 + byte_at (raw p) (tcp_offset p + 12) mod 16 /\
  from_be16 (byte_at r 2) (byte_at r 3) = u16 (len r).
Proof.
  intros Ho Hl r. subst r. unfold rebuilt. cbv zeta. set (h := take _ (raw p)).
  assert (Hh : length h = Z.to_nat (tcp_offset p + 20))
    by (subst h; rewrite length_take; unfold len in Hl; lia).
  set (out := h ++ _). set (d := <[_ := _]> out).
  assert (Hdl : len d = len out) by apply len_insert.
  assert (Hol : len out = tcp_offset p + 20 + len kept + len payload)
    by (subst out; rewrite !len_app; unfold len at 1; lia).
  pose proof (len_nonneg kept). pose proof (len_nonneg payload).
  assert (Hlen : len (take 2 d ++ to_be16 (u16 (len out)) ++ drop 4 d) = len d)
    by (apply (patch_len d _ 2); unfold len in *; lia).
  rewrite Hlen, Hdl, Hol. split; [done|]. split; [|split].
  - rewrite drop_patch by (cbn; unfold len in *; lia). subst d.
    rewrite drop_insert_lt by lia. subst out. by rewrite drop_app_length' by lia.
  - rewrite byte_at_patch_ge by (cbn; unfold len in *; lia).
    subst d. by rewrite byte_at_insert_eq by lia.
  - assert (Ht : len (take 2 d) = 2) by (unfold len in *; rewrite length_take; lia).
    rewrite (byte_at_app_r _ _ 2), (byte_at_app_r _ _ 3), Ht by lia.
    rewrite <- Hol at 1 2. pose proof (wrap_range 16 (len out) ltac:(lia)).
    transitivity (u16 (len out)); [by apply from_to_be16|by rewrite Hol].
Qed.

Lemma area_all r i : 0 <= i <= len r -> area r (len r) i = drop (Z.to_nat i) r.
Proof. intros. unfold area. rewrite take_ge; [done|]. rewrite length_drop. unfold len in *. lia. Qed.

Lemma tcp_payload_eq p :
  tcp_wf p -> tcp_payload p = Val (drop (Z.to_nat (tcp_offset p + tcp_header_len p)) (raw p)).
Proof.
  intros []. unfold tcp_payload. rewrite slice_area by lia. by rewrite area_all by lia.
Qed.

Lemma Forall_strip kind l : opts_ok l = true -> Forall is_byte l -> Forall is_byte (strip kind l).
Proof.
  revert l. apply (opts_ok_ind (fun l => Forall is_byte l -> Forall is_byte (strip kind l))).
  - done.
  - intros l H. unfold strip. cbn [length strip_n]. by rewrite Z.eqb_refl.
  - intros l _ IH. rewrite strip_nop. inversion_clear 1. constructor; [|auto].
    unfold is_byte. lia.
  - intros k n l H0 H1 Hn _ IH HF. rewrite strip_opt by done.
    inversion_clear HF as [|? ? Hk HF']. inversion_clear HF' as [|? ? Hn' HF].
    specialize (IH ltac:(by apply Forall_drop)). case_match; [done|].
    rewrite !Forall_cons, Forall_app. auto using Forall_take.
Qed.

Lemma rebuilt_bytes p kept payload :
  Forall is_byte (raw p) -> Forall is_byte kept -> Forall is_byte payload ->
  20 + len kept <= 60 -> Forall is_byte (rebuilt p kept payload).
Proof.
  intros Hr Hk Hp Hl. pose proof (len_nonneg kept). unfold rebuilt. cbv zeta.
  apply patch_bytes; [|auto with balansir]. apply Forall_insert.
  - rewrite !Forall_app. auto using Forall_take.
  - zmod_lia.
Qed.

(** The rebuilt packet is well formed and its length fields agree. *)
Lemma rebuilt_wf p kept payload :
  tcp_wf p -> tcp_hdr p -> Forall is_byte kept -> Forall is_byte payload ->
  len kept mod 4 = 0 -> 20 + len kept <= 60 ->
  let p' := mkTcp (rebuilt p kept payload) (ip_header_len p) (ip_total_len p) (tcp_offset p)
              (20 + len kept) (tcp_doff_field p) (checksum_offsets p) in
  tcp_wf p' /\ tcp_hdr p' /\ total_field p' = u16 (len (raw p')) /\
  option_area p' = kept /\ tcp_payload p' = Val payload.
Proof.
  intros W H Hk Hp Hk4 Hkl p'.
  pose proof W as [Hb Hi Hi4 Ho Hh Hl Hc]. destruct H as [Hv Hpr Hd Hd4 Hf].
  pose proof (rebuilt_bytes p kept payload Hb Hk Hp Hkl) as Hrb.
  destruct (rebuilt_fields p kept payload) as (Rl & Rd & Rf & Rt); try lia. cbv zeta in *.
  pose proof (len_nonneg kept). pose proof (len_nonneg payload).
  pose proof (byte_at_is_byte (raw p) (tcp_offset p + 12) Hb).
  assert (W' : tcp_wf p') by (split; cbn [p' raw ip_header_len tcp_offset tcp_header_len
    checksum_offsets]; try done; lia).
  split; [done|]. split; [|split; [exact Rt|]].
  - split; cbn [p' raw ip_header_len tcp_offset tcp_header_len tcp_doff_field];
      rewrite ?Rf, ?rebuilt_head by lia; (done || zmod_lia).
  - unfold option_area. rewrite tcp_payload_eq by done.
    cbn [p' raw tcp_offset tcp_header_len]. unfold area. rewrite Rd.
    replace (Z.to_nat (tcp_offset p + (20 + len kept)))
      with (Z.to_nat (tcp_offset p + 20) + length kept)%nat by (unfold len; lia).
    rewrite <- drop_drop, Rd. split; [|by rewrite drop_app_length].
    rewrite take_app_length'; [done|]. unfold len. lia.
Qed.

(** What [strip_option] does to a well-formed packet with well-formed options:
    the options of that kind are gone, the others and the payload are kept, and
    the result is a well-formed packet whose length fields agree. *)
Lemma strip_option_ok p kind :
  tcp_wf p -> tcp_hdr p -> opts_ok (option_area p) = true -> 2 <= kind ->
  exists p' b, strip_option p kind = Val (p', b) /\
    b = existsb (fun o => o.1 =? kind) (tcp_options p) /\
    tcp_wf p' /\ tcp_hdr p' /\ len (raw p') <= len (raw p) /\
    tcp_offset p' = tcp_offset p /\
    (forall j, 0 <= j < tcp_offset p + 12 -> j <> 2 -> j <> 3 ->
       byte_at (raw p') j = byte_at (raw p) j) /\
    (if b then total_field p' = u16 (len (raw p')) else p' = p) /\
    opts_ok (option_area p') = true /\
    tcp_options p' = filter (fun o => o.1 <> kind) (tcp_options p) /\
    tcp_payload p' = tcp_payload p.
Proof.
  intros W H Hok Hk. rewrite strip_option_eq by done.
  destruct (existsb _ (tcp_options p)) eqn:Ex.
  2:{ exists p, false. by rewrite existsb_filter_all by done. }
  cbv zeta. set (A := option_area p) in *.
  pose proof W as [Hb Hi Hi4 Ho Hh Hl Hc]. pose proof (hdr_thl4 p H).
  assert (HA : len A = tcp_header_len p - 20)
    by (subst A; unfold option_area; rewrite area_len; lia).
  pose proof (pad4_len (strip kind A)) as [HK4 HKl]. pose proof (strip_len kind A Hok).
  assert (HAb : Forall is_byte A) by (by apply Forall_take, Forall_drop).
  set (stop := tcp_offset p + tcp_header_len p).
  destruct (rebuilt_wf p (pad4 (strip kind A)) (area (raw p) (len (raw p)) stop))
    as (W' & H' & Ht & Ho' & Hp'); try done.
  { unfold pad4. apply Forall_app. split; [by apply Forall_strip|].
    apply Forall_replicate. unfold is_byte. lia. }
  { by apply Forall_take, Forall_drop. }
  { zmod_lia. }
  eexists _, true. split; [done|]. split; [done|]. split; [done|]. split; [done|].
  split; [|split; [done|split; [|split; [done|split; [|split]]]]].
  - cbn [raw]. destruct (rebuilt_fields p (pad4 (strip kind A))
      (area (raw p) (len (raw p)) stop)) as [-> _]; try lia.
    rewrite area_len by lia. zmod_lia.
  - intros j Hj H2 H3. cbn [raw]. apply rebuilt_head; lia.
  - rewrite Ho'. by apply opts_ok_strip.
  - unfold tcp_options. rewrite Ho'. by apply opts_strip.
  - rewrite Hp', tcp_payload_eq, area_all by (done || lia). done.
Qed.

(** ** [set_mss] *)

(** Overwriting the two value bytes of the option at [i]. *)
Lemma opts_write_mss r stop i mss :
  0 <= i -> i + 4 <= stop -> stop <= len r -> byte_at r i = MSS -> 4 <= byte_at r (i + 1) ->
  i + byte_at r (i + 1) <= stop ->
  let r' := take (Z.to_nat (i + 2)) r ++ to_be16 mss ++ drop (Z.to_nat (i + 4)) r in
  opts (area r' stop i) = put_mss mss (opts (area r stop i)) /\
  existsb is_mss (opts (area r stop i)) = true /\
  opts_ok (area r' stop i) = opts_ok (area r stop i).
Proof.
  intros Hi Hs Hl Hk Hn Hst r'. set (n := byte_at r (i + 1)) in *.
  assert (Hl' : len r' = len r).
  { subst r'. replace (Z.to_nat (i + 4)) with (Z.to_nat (i + 2) + 2)%nat by lia.
    apply patch_len. unfold len in *. lia. }
  assert (Hlow : forall j, 0 <= j < i + 2 -> byte_at r' j = byte_at r j).
  { intros j Hj. subst r'. rewrite byte_at_app_l, byte_at_take; try lia.
    unfold len in *. rewrite length_take. lia. }
  assert (Har : area r' stop (i + 2) = to_be16 mss ++ area r stop (i + 4)).
  { unfold area at 1. subst r'. rewrite drop_patch_in by (unfold len in *; lia).
    rewrite Nat.sub_diag, take_0. cbn [app to_be16].
    replace (Z.to_nat (stop - (i + 2))) with (S (S (Z.to_nat (stop - (i + 4))))) by lia.
    cbn [take]. rewrite drop_drop. unfold area. repeat f_equal. lia. }
  rewrite (area_opt r), (area_opt r') by lia. rewrite !Hlow, Hk by lia. fold n. rewrite Har.
  assert (Hg : forall l : list Z, len l = stop - (i + 2) -> (n <? 2) || (len l <? n - 2) = false)
    by (intros; lia).
  assert (Hg1 : (n <? 2) || (len (area r stop (i + 2)) <? n - 2) = false)
    by (apply Hg; rewrite area_len; lia).
  assert (Hg2 : (n <? 2) || (len (to_be16 mss ++ area r stop (i + 4)) <? n - 2) = false)
    by (apply Hg; rewrite len_app, len_to_be16, area_len; lia).
  rewrite !opts_opt, !opts_ok_eq, Hg1, Hg2 by done.
  cbn [put_mss existsb]. unfold is_mss. cbn [fst snd].
  assert (Ht : len (take (Z.to_nat (n - 2)) (area r stop (i + 2))) = n - 2)
    by (rewrite area_take by lia; rewrite area_len; lia).
  rewrite Ht. replace (2 <=? n - 2) with true by lia. rewrite Z.eqb_refl. cbn [andb orb].
  assert (H2 : drop 2 (area r stop (i + 2)) = area r stop (i + 4))
    by (change 2%nat with (Z.to_nat 2); rewrite area_drop by lia; f_equal; lia).
  replace (Z.to_nat (n - 2)) with (S (S (Z.to_nat (n - 4)))) by lia.
  unfold to_be16. cbn [app take drop]. rewrite skipn_firstn_comm, H2. cbn [Nat.sub].
  change (S (S (Z.to_nat (n - 4)))) with (2 + Z.to_nat (n - 4))%nat.
  rewrite <- drop_drop, H2. by rewrite Nat.sub_0_r.
Qed.

Lemma set_mss_loop_spec fuel r stop mss i :
  Forall is_byte r -> 0 <= i <= stop -> stop <= len r -> stop - i < Z.of_nat fuel ->
  exists res, set_mss_loop fuel r stop mss i = Val res /\
    match res with
    | None => existsb is_mss (opts (area r stop i)) = false
    | Some r' =>
        existsb is_mss (opts (area r stop i)) = true /\
        opts (area r' stop i) = put_mss mss (opts (area r stop i)) /\
        opts_ok (area r' stop i) = opts_ok (area r stop i) /\
        Forall is_byte r' /\ len r' = len r /\
        forall j, 0 <= j -> j < i \/ stop <= j -> byte_at r' j = byte_at r j
    end.
Proof.
  intros Hb. revert i. induction fuel as [|fuel IH]; intros i Hi Hs Hf; [lia|].
  cbn [set_mss_loop]. destruct (i + 1 <? stop) eqn:Ei; cbn [negb].
  2:{ exists None. split; [done|]. destruct (Z.eq_dec i stop) as [->|].
      - by rewrite area_nil by lia.
      - rewrite area_cons, area_nil by lia. unfold opts. cbn. by repeat case_match. }
  rewrite (idx_byte_at r i), bind_Val_l by lia.
  destruct (Z.eqb_spec (byte_at r i) 0) as [E0|E0].
  { exists None. split; [done|]. rewrite area_cons, E0 by lia. done. }
  destruct (Z.eqb_spec (byte_at r i) 1) as [E1|E1].
  { destruct (IH (i + 1)) as (res & -> & Hres); [lia|lia|lia|]. exists res. split; [done|].
    rewrite (area_cons r), E1, opts_nop by lia. destruct res as [r'|]; [|done].
    destruct Hres as (Hx & Ho & Hok & Hb' & Hl & Hj). split; [done|].
    rewrite (area_cons r'), Hj, E1, opts_nop, !opts_ok_nop by lia.
    do 4 (split; [done|]). intros. apply Hj; lia. }
  rewrite (idx_byte_at r (i + 1)), bind_Val_l by lia.
  pose proof (area_guard r stop i (byte_at r (i + 1)) ltac:(lia) ltac:(lia) Hs) as Hg.
  destruct ((byte_at r (i + 1) <? 2) || (stop <? i + byte_at r (i + 1))) eqn:Ev.
  { exists None. split; [done|]. by rewrite area_opt, opts_bad by (done || lia). }
  set (n := byte_at r (i + 1)) in *. destruct ((byte_at r i =? MSS) && (4 <=? n)) eqn:Em.
  { rewrite copy_from_slice_eq, bind_Val_l by (rewrite ?len_to_be16; lia).
    eexists. split; [done|]. unfold MSS in Em.
    destruct (opts_write_mss r stop i mss) as (Ho & Hx & Hok); try (unfold MSS; fold n; lia).
    do 3 (split; [done|]).
    split; [apply patch_bytes; auto with balansir|]. split.
    { replace (Z.to_nat (i + 4)) with (Z.to_nat (i + 2) + 2)%nat by lia.
      apply patch_len. unfold len in *. lia. }
    intros j Hj Hor. destruct (Z.lt_ge_cases j i).
    - rewrite byte_at_app_l, byte_at_take; try lia. unfold len in *. rewrite length_take. lia.
    - apply byte_at_patch_ge; [cbn; lia|unfold len in *; lia|lia]. }
  destruct (IH (i + n)) as (res & -> & Hres); [lia|lia|lia|]. exists res. split; [done|].
  assert (Htake : forall r0, len r0 = len r ->
    drop (Z.to_nat (n - 2)) (area r0 stop (i + 2)) = area r0 stop (i + n))
    by (intros; rewrite area_drop by lia; f_equal; lia).
  rewrite (area_opt r), opts_opt, Htake by (done || lia). fold n.
  cbn [existsb put_mss]. set (o := (byte_at r i, _)).
  assert (Hno : is_mss o = false).
  { unfold is_mss, o. cbn [fst snd]. rewrite area_take, area_len by lia. lia. }
  rewrite Hno. cbn [orb]. destruct res as [r'|]; [|done].
  destruct Hres as (Hx & Ho & Hok & Hb' & Hl & Hj). split; [done|].
  rewrite (area_opt r') by lia. rewrite !Hj by lia. fold n.
  rewrite !opts_ok_eq, !area_guard, Ev, !Htake, Hok by (done || lia).
  split; [|split; [done|]].
  { rewrite opts_opt; [|done|done|rewrite area_guard by lia; done].
    rewrite Htake, Ho by lia. f_equal. subst o. f_equal. rewrite !area_take by lia.
    apply area_ext; try lia. intros. apply Hj; lia. }
  split; [done|]. split; [done|]. intros. apply Hj; lia.
Qed.

Lemma put_mss_none mss os : existsb is_mss os = false -> put_mss mss os = os.
Proof.
  induction os as [|o os IH]; [done|]. cbn [existsb put_mss].
  rewrite orb_false_iff. intros [-> Hos]. by rewrite IH.
Qed.

Lemma drop_ext (r r' : list Z) i :
  len r' = len r -> 0 <= i -> (forall j, i <= j -> byte_at r' j = byte_at r j) ->
  drop (Z.to_nat i) r' = drop (Z.to_nat i) r.
Proof.
  intros Hl Hi Hj. apply byte_list_ext.
  - unfold len in *. rewrite !length_drop. lia.
  - intros j Hr. rewrite !byte_at_drop by lia. apply Hj. lia.
Qed.

Lemma set_mss_ok p mss :
  tcp_wf p ->
  exists p' b, set_mss p mss = Val (p', b) /\
    b = existsb is_mss (tcp_options p) /\ p' = with_raw p (raw p') /\ tcp_wf p' /\
    opts_ok (option_area p') = opts_ok (option_area p) /\
    tcp_options p' = put_mss mss (tcp_options p) /\
    tcp_payload p' = tcp_payload p /\ len (raw p') = len (raw p) /\
    (forall j, 0 <= j < tcp_offset p + 20 -> byte_at (raw p') j = byte_at (raw p) j).
Proof.
  intros W. pose proof W as [Hb Hi Hi4 Ho Hh Hl Hc]. unfold set_mss.
  destruct (set_mss_loop_spec (S (length (raw p))) (raw p)
    (tcp_offset p + tcp_header_len p) mss (tcp_offset p + 20)) as (res & -> & Hres);
    [done|lia|lia|unfold len in *; lia|].
  rewrite bind_Val_l. fold (option_area p) (tcp_options p) in Hres.
  destruct res as [r'|].
  - destruct Hres as (Hx & Hos & Hok & Hb' & Hl' & Hj). exists (with_raw p r'), true.
    pose proof (with_raw_wf p r' W Hb' Hl') as W'.
    do 6 (split; [done|]). split; [|split; [done|]].
    + rewrite !tcp_payload_eq by done. cbn [with_raw raw tcp_offset tcp_header_len]. f_equal.
      apply drop_ext; [done|lia|]. intros. apply Hj; lia.
    + intros. apply Hj; lia.
  - exists p, false. rewrite put_mss_none by done. do 2 (split; [done|]).
    split; [by destruct p|done].
Qed.

(** ** Claims *)

(** [tcp_opt::set_mss] on any parsed packet returns, reports whether the
    header has an MSS option, and rewrites the value of the first one: every other
    option, the fixed header and the payload stay as they were, so the options
    read back with the new value. *)
Theorem set_mss_rewrites_first_mss r p mss :
  Forall is_byte r -> TcpPacket_parse r = Val (Some p) ->
  exists p' b, set_mss p mss = Val (p', b) /\
    b = existsb is_mss (tcp_options p) /\
    tcp_options p' = put_mss mss (tcp_options p) /\
    tcp_payload p' = tcp_payload p /\ len (raw p') = len r /\
    (forall j, 0 <= j < tcp_offset p + 20 -> byte_at (raw p') j = byte_at r j).
Proof.
  intros Hb Hp. destruct (TcpPacket_parse_Some r p Hb Hp) as (W & _ & <-).
  destruct (set_mss_ok p mss W) as (p' & b & H1 & H2 & _ & _ & _ & H3).
  by exists p', b.
Qed.

(** A SYN to port 443 with MSS 1460, a SACK-permitted option and two NOPs. *)
Definition syn_sack : list Z :=
  [0x45; 0; 0; 48; 0; 0; 0; 0; 64; 6; 0; 0; 10; 0; 0; 1; 10; 0; 0; 2;
   0; 80; 1; 187; 0; 0; 0; 0; 0; 0; 0; 0; 0x70; 2; 0; 0; 0; 0; 0; 0;
   2; 4; 5; 180; 4; 2; 1; 1].

Lemma set_mss_rewrites_first_mss_witness :
  exists p p' b, TcpPacket_parse syn_sack = Val (Some p) /\
    set_mss p 88 = Val (p', b) /\ b = true /\ tcp_options p' = [(2, [0; 88]); (4, [])].
Proof.
  destruct (set_mss_rewrites_first_mss syn_sack
    (mkTcp syn_sack 20 48 20 28 32 (10, 36)) 88) as (p' & b & H1 & H2 & H3 & _).
  - vm_compute. repeat constructor; intros [=].
  - reflexivity.
  - eexists _, p', b. split; [reflexivity|]. split; [exact H1|].
    rewrite H2, H3. split; reflexivity.
Defined.

(** [tcp_opt::strip_option] on a parsed packet whose options are well formed
    returns, removes exactly the options of that kind and keeps the payload; when
    it changed something the result is again a packet the parser accepts, with the
    same payload and the filtered options. *)
Theorem strip_option_filters r p kind :
  Forall is_byte r -> len r < 65536 -> TcpPacket_parse r = Val (Some p) ->
  opts_ok (option_area p) = true -> 2 <= kind ->
  exists p' b, strip_option p kind = Val (p', b) /\
    b = existsb (fun o => o.1 =? kind) (tcp_options p) /\
    tcp_options p' = filter (fun o => o.1 <> kind) (tcp_options p) /\
    tcp_payload p' = tcp_payload p /\
    exists q, TcpPacket_parse (raw p') = Val (Some q) /\
      tcp_payload q = tcp_payload p /\ tcp_options q = tcp_options p'.
Proof.
  intros Hb Hl Hp Hok Hk. destruct (TcpPacket_parse_Some r p Hb Hp) as (W & H & Hr).
  destruct (strip_option_ok p kind W H Hok Hk)
    as (p' & b & Hs & Hx & W' & H' & Hl' & _ & _ & Hc & _ & Ho & Hpay).
  exists p', b. do 4 (split; [done|]). destruct b.
  - eexists. split; [apply TcpPacket_parse_hdr; try done|].
    + pose proof W' as []. rewrite Hc, wrap_small; unfold len in *; subst r; lia.
    + split; [rewrite <- Hpay; done|done].
  - subst p'. rewrite Hr. eauto.
Qed.

Lemma strip_option_filters_witness :
  exists p p' b, TcpPacket_parse syn_sack = Val (Some p) /\
    strip_option p SACK_PERMITTED = Val (p', b) /\ b = true /\
    tcp_options p' = [(2, [5; 180])].
Proof.
  destruct (strip_option_filters syn_sack
    (mkTcp syn_sack 20 48 20 28 32 (10, 36)) 4) as (p' & b & H1 & H2 & H3 & _).
  - vm_compute. repeat constructor; intros [=].
  - reflexivity.
  - reflexivity.
  - reflexivity.
  - lia.
  - eexists _, p', b. split; [reflexivity|]. split; [exact H1|].
    rewrite H2, H3. split; reflexivity.
Defined.

(** [strip_option] reads the length byte of an option whose kind is the very
    last byte of the header: a bare segment (no payload) with a dangling option
    kind makes it panic, although the parser accepted the packet. *)
Theorem strip_option_dangling_kind_panics r p k kind :
  Forall is_byte r -> TcpPacket_parse r = Val (Some p) -> tcp_payload p = Val [] ->
  option_area p = [1; 1; 1; k] -> k <> 0 -> k <> 1 ->
  strip_option p kind = Panic.
Proof.
  intros Hb Hp Hpay Ha H0 H1. destruct (TcpPacket_parse_Some r p Hb Hp) as (W & _ & Hr).
  rewrite tcp_payload_eq in Hpay by done. destruct W as [_ Hi Hi4 Ho Hh Hl Hc].
  injection Hpay as Hpay. apply (f_equal len) in Hpay.
  assert (Hstop : tcp_offset p + tcp_header_len p = len (raw p)).
  { unfold len in *. rewrite length_drop in Hpay. cbn in Hpay. lia. }
  set (o := tcp_offset p) in *. unfold option_area in Ha. fold o in Ha.
  pose proof (f_equal len Ha) as Hal. rewrite area_len in Hal by (fold o; lia).
  change (len [1; 1; 1; k]) with 4 in Hal.
  rewrite !area_cons, area_nil in Ha by (fold o; lia). injection Ha as Ha1 Ha2 Ha3 Ha4.
  unfold strip_option. fold o. rewrite Hstop.
  destruct (length (raw p)) as [|[|[|[|m]]]] eqn:Em; [unfold len in *; lia..|].
  assert (Hnop : forall f i kept, 0 <= i < len (raw p) -> byte_at (raw p) i = 1 ->
    strip_loop (S f) (raw p) (len (raw p)) kind i kept false =
    strip_loop f (raw p) (len (raw p)) kind (i + 1) (kept ++ [1]) false).
  { intros f i kept Hi' Hb'. cbn [strip_loop]. rewrite (idx_byte_at (raw p) i), Hb' by lia.
    by replace (i <? len (raw p)) with true by lia. }
  rewrite !Hnop by (done || lia). cbn [strip_loop].
  replace (_ <? _) with true by lia. rewrite (idx_byte_at (raw p) (o + 20 + 1 + 1 + 1)) by lia.
  rewrite bind_Val_l, Ha4. cbn [negb].
  replace (k =? 0) with false by lia. replace (k =? 1) with false by lia.
  by rewrite (idx_Panic (raw p) (o + 20 + 1 + 1 + 1 + 1)) by lia.
Qed.

Definition dangling_syn : list Z :=
  [0x45; 0; 0; 44; 0; 0; 0; 0; 64; 6; 0; 0; 10; 0; 0; 1; 10; 0; 0; 2;
   0; 80; 1; 187; 0; 0; 0; 0; 0; 0; 0; 0; 0x60; 2; 0; 0; 0; 0; 0; 0; 1; 1; 1; 5].

Lemma strip_option_dangling_kind_panics_witness :
  exists p, TcpPacket_parse dangling_syn = Val (Some p) /\
    strip_option p SACK_PERMITTED = Panic.
Proof.
  exists (mkTcp dangling_syn 20 44 20 24 32 (10, 36)). split; [reflexivity|].
  apply (strip_option_dangling_kind_panics dangling_syn _ 5);
    [|reflexivity|reflexivity|reflexivity|lia|lia].
  vm_compute. repeat constructor; intros [=].
Defined.
