(* ===== verification/PacketBuild.v ===== *)
(** * Packets the engine builds: IP fragments and fake QUIC datagrams

    What [fragment_tcp_payload] and [build_fake_quic_packet]
    ([crates/balansir-b4/src/packet.rs]) produce. *)

From S2P Require Import Prelude Packet Checksum TcpOptions.

(** ** Fragments *)

(** A data segment with eight payload bytes. *)
Definition ack_data : list Z :=
  [0x45; 0; 0; 48; 0; 1; 0x40; 0; 64; 6; 0; 0; 10; 0; 0; 1; 10; 0; 0; 2;
   0; 80; 1; 187; 0; 0; 0; 7; 0; 0; 0; 9; 0x50; 0x10; 1; 0; 0; 0; 0; 0;
   1; 2; 3; 4; 5; 6; 7; 8].

(** The length and flags/offset fields both fragments get. *)
Definition frag_fields (l : list Z) (total b7 : Z) : list Z :=
  <[7%nat := b7]> (<[6%nat := 0x40]> (take 2 l ++ to_be16 total ++ drop 4 l)).

Lemma frag_fields_len l total b7 : 8 <= len l -> len (frag_fields l total b7) = len l.
Proof.
  intros. unfold frag_fields. rewrite !len_insert. apply (patch_len _ _ 2).
  unfold len in *. lia.
Qed.

Lemma frag_fields_bytes l total b7 :
  Forall is_byte l -> is_byte b7 -> Forall is_byte (frag_fields l total b7).
Proof.
  intros Hl H7. unfold frag_fields.
  apply Forall_insert; [apply Forall_insert|done].
  - apply patch_bytes; auto with balansir.
  - unfold is_byte. lia.
Qed.

Lemma frag_fields_rest l total b7 i :
  8 <= len l -> 8 <= i -> byte_at (frag_fields l total b7) i = byte_at l i.
Proof.
  intros Hl Hi. unfold frag_fields, byte_at.
  rewrite !list_lookup_insert_ne by lia. fold (byte_at l i).
  apply (byte_at_patch_ge l (to_be16 total) 2 4); [done|unfold len in *; lia|lia].
Qed.

Lemma frag_fields_head l total b7 :
  8 <= len l -> 0 <= total < 65536 ->
  let f := frag_fields l total b7 in
  from_be16 (byte_at f 2) (byte_at f 3) = total /\ byte_at f 6 = 0x40 /\ byte_at f 7 = b7.
Proof.
  intros Hl Ht f. subst f. unfold frag_fields, byte_at.
  change (Z.to_nat 2) with 2%nat. change (Z.to_nat 3) with 3%nat.
  change (Z.to_nat 6) with 6%nat. change (Z.to_nat 7) with 7%nat.
  assert (Hp : length (take 2 l ++ to_be16 total ++ drop 4 l) = length l).
  { apply Nat2Z.inj, (patch_len l total 2). unfold len in *. lia. }
  assert (H2 : length (take 2 l) = 2%nat) by (rewrite length_take; unfold len in *; lia).
  split; [|split].
  - rewrite !list_lookup_insert_ne by lia.
    rewrite (lookup_app_r _ _ 2), (lookup_app_r _ _ 3), H2 by lia. by apply from_to_be16.
  - rewrite list_lookup_insert_ne by lia.
    rewrite list_lookup_insert_eq by (rewrite Hp; unfold len in *; lia). done.
  - rewrite list_lookup_insert_eq; [done|]. rewrite length_insert, Hp. unfold len in *. lia.
Qed.

Lemma frag_fields_exec {B} l total b7 (k : list Z -> exec B) :
  8 <= len l ->
  (x ← copy_from_slice l 2 4 (to_be16 total);
   y ← set_idx x 6 0x40; z ← set_idx y 7 b7; k z) = k (frag_fields l total b7).
Proof.
  intros Hl. rewrite copy_from_slice_eq, bind_Val_l by (rewrite ?len_to_be16; lia).
  assert (Hp : len (take 2 l ++ to_be16 total ++ drop 4 l) = len l)
    by (apply (patch_len _ _ 2); unfold len in *; lia).
  change (Z.to_nat 2) with 2%nat. change (Z.to_nat 4) with 4%nat.
  rewrite set_idx_eq, bind_Val_l by lia.
  by rewrite set_idx_eq, bind_Val_l by (rewrite len_insert; lia).
Qed.

(** [fragment_tcp_payload] up to the checksum passes. *)
Lemma fragment_eq p s :
  tcp_wf p -> len (raw p) < 65536 ->
  0 < s < len (raw p) - (tcp_offset p + tcp_header_len p) ->
  let th := tcp_offset p + tcp_header_len p in
  let f1 := frag_fields (take (Z.to_nat (th + s)) (raw p)) (th + s) 0 in
  let f2 := frag_fields (take (Z.to_nat (ip_header_len p)) (raw p))
              (ip_header_len p + (len (raw p) - th - s)) 0
            ++ drop (Z.to_nat (th + s)) (raw p) in
  fragment_tcp_payload p s =
    (q1 ← fix_ipv4_checksum (mkTcp f1 (ip_header_len p) (len f1) (tcp_offset p)
            (tcp_header_len p) 0 (10, tcp_offset p + 16));
     q1 ← fix_tcp_checksum q1;
     q2 ← fix_ipv4_checksum (mkTcp f2 (ip_header_len p) (len f2) 0 0 0 (10, 0));
     Val (Some (raw q1, raw q2))).
Proof.
  intros W Hl Hs th f1 f2. pose proof W as [Hb Hi Hi4 Ho Hh Hln Hc].
  assert (Htl : forall n, 0 <= n <= len (raw p) -> len (take (Z.to_nat n) (raw p)) = n)
    by (intros; unfold len in *; rewrite length_take; lia).
  unfold fragment_tcp_payload. rewrite tcp_payload_eq, bind_Val_l by done.
  replace ((s =? 0) || _) with false
    by (unfold len in *; rewrite length_drop; lia).
  fold th. unfold pkt_len. rewrite (slice_eq (raw p) 0 (th + s)), bind_Val_l by lia.
  rewrite drop_0, Z.sub_0_r. rewrite frag_fields_exec by (rewrite Htl; lia).
  rewrite Htl, wrap_small by lia. fold f1.
  rewrite (slice_eq (raw p) 0 (ip_header_len p)), bind_Val_l by lia.
  rewrite drop_0, Z.sub_0_r. rewrite frag_fields_exec by (rewrite Htl; lia).
  rewrite (slice_area _ (th + s)), area_all, bind_Val_l by lia.
  rewrite wrap_small by lia.
  replace (u8 (Z.land (Z.shiftr (u16 (th / 8)) 8) 0xff)) with 0; [done|].
  rewrite Z.shiftr_div_pow2, (wrap_small 16) by (try lia; zmod_lia).
  replace (th / 8 / 2 ^ 8) with 0 by (change (2 ^ 8) with 256; zmod_lia). done.
Qed.

(** A header field read as [u16]. *)
Definition field16 (l : list Z) (i : Z) : Z := from_be16 (byte_at l i) (byte_at l (i + 1)).

(** The first fragment: a well-formed TCP packet again, then both checksum
    passes, which touch only the checksum fields. *)
Lemma first_fragment p s :
  tcp_wf p -> len (raw p) < 65536 ->
  0 < s < len (raw p) - (tcp_offset p + tcp_header_len p) ->
  let th := tcp_offset p + tcp_header_len p in
  let f1 := frag_fields (take (Z.to_nat (th + s)) (raw p)) (th + s) 0 in
  exists q,
    (q1 ← fix_ipv4_checksum (mkTcp f1 (ip_header_len p) (len f1) (tcp_offset p)
            (tcp_header_len p) 0 (10, tcp_offset p + 16));
     fix_tcp_checksum q1) = Val q /\
    len (raw q) = th + s /\ field16 (raw q) 2 = th + s /\ field16 (raw q) 6 = 0x4000 /\
    drop (Z.to_nat th) (raw q) = take (Z.to_nat s) (drop (Z.to_nat th) (raw p)) /\
    checksum_valid (take (Z.to_nat (ip_header_len p)) (raw q)).
Proof.
  intros [Hb Hi Hi4 Ho Hh Hln Hc] Hl Hs th f1.
  assert (Htl : len (take (Z.to_nat (th + s)) (raw p)) = th + s)
    by (unfold len in *; rewrite length_take; lia).
  assert (Hf1 : len f1 = th + s) by (subst f1; rewrite frag_fields_len; lia).
  assert (Hb1 : Forall is_byte f1)
    by (apply frag_fields_bytes; [by apply Forall_take|unfold is_byte; lia]).
  set (q0 := mkTcp f1 _ _ _ _ _ _).
  destruct (fix_ipv4_checksum_spec q0) as (c & Hcr & -> & _);
    [done|done|done|cbn [raw ip_header_len q0]; lia|]. rewrite bind_Val_l.
  set (q1 := with_raw q0 _).
  assert (Hq1 : len (raw q1) = th + s)
    by (rewrite <- Hf1; apply (patch_len f1 _ 10); unfold len in *; lia).
  assert (W1 : tcp_wf q1).
  { split; cbn [q1 q0 with_raw ip_header_len tcp_offset tcp_header_len checksum_offsets];
      try done; [|lia]. apply patch_bytes; auto with balansir. }
  destruct (fix_tcp_checksum_spec q1 W1) as (q & -> & Hq & Wq & Hlq & Hv & _ & _ & Hj); [lia|].
  exists q. split; [done|].
  assert (Hsame : forall i, 0 <= i -> i < 10 \/ th <= i -> byte_at (raw q) i = byte_at f1 i).
  { intros i Hi0 Hor. change (tcp_offset q1) with (tcp_offset p) in Hj.
    rewrite Hj by lia. cbn [q1 q0 with_raw raw].
    apply byte_at_patch_out; [done|unfold len in *; lia..]. }
  destruct (frag_fields_head (take (Z.to_nat (th + s)) (raw p)) (th + s) 0)
    as (H2 & H6 & H7); [lia|lia|]. fold f1 in H2, H6, H7.
  split; [lia|]. unfold field16. change (2 + 1) with 3. change (6 + 1) with 7.
  rewrite !Hsame, H6, H7 by lia. split; [done|]. split; [done|]. split.
  - apply byte_list_ext.
    + unfold len in *. rewrite length_take, !length_drop. lia.
    + intros i Hir. rewrite byte_at_drop by lia.
      assert (i < s) by (unfold len in *; rewrite length_drop in Hir; lia).
      rewrite byte_at_take, byte_at_drop, Hsame by lia.
      subst f1. rewrite frag_fields_rest by lia. apply byte_at_take. lia.
  - unfold ipv4_checksum_valid in Hv.
    by replace (ip_header_len q) with (ip_header_len p) in Hv by (by rewrite Hq).
Qed.

(** The second fragment: the IP header and the rest of the payload. *)
Lemma second_fragment p s :
  tcp_wf p -> len (raw p) < 65536 ->
  0 < s < len (raw p) - (tcp_offset p + tcp_header_len p) ->
  let th := tcp_offset p + tcp_header_len p in
  let n := ip_header_len p + (len (raw p) - th - s) in
  let f2 := frag_fields (take (Z.to_nat (ip_header_len p)) (raw p)) n 0
            ++ drop (Z.to_nat (th + s)) (raw p) in
  exists q,
    fix_ipv4_checksum (mkTcp f2 (ip_header_len p) (len f2) 0 0 0 (10, 0)) = Val q /\
    len (raw q) = n /\ field16 (raw q) 2 = n /\ field16 (raw q) 6 = 0x4000 /\
    drop (Z.to_nat (ip_header_len p)) (raw q) = drop (Z.to_nat (th + s)) (raw p) /\
    checksum_valid (take (Z.to_nat (ip_header_len p)) (raw q)).
Proof.
  intros [Hb Hi Hi4 Ho Hh Hln Hc] Hl Hs th n f2.
  set (h := take (Z.to_nat (ip_header_len p)) (raw p)) in *.
  assert (Hhl : len h = ip_header_len p) by (unfold len, h in *; rewrite length_take; lia).
  assert (Hf : len (frag_fields h n 0) = ip_header_len p) by (rewrite frag_fields_len; lia).
  assert (Hf2 : len f2 = n)
    by (subst f2; rewrite len_app, Hf; unfold len in *; rewrite length_drop; lia).
  assert (Hb2 : Forall is_byte f2).
  { apply Forall_app. split; [|by apply Forall_drop].
    apply frag_fields_bytes; [by apply Forall_take|unfold is_byte; lia]. }
  destruct (fix_ipv4_checksum_spec (mkTcp f2 (ip_header_len p) (len f2) 0 0 0 (10, 0)))
    as (c & Hcr & -> & Hv); [done|done|done|cbn [raw ip_header_len]; lia|].
  eexists. split; [done|]. cbn [with_raw raw].
  assert (Hl2 : (20 <= length f2)%nat) by (unfold len in *; lia).
  split; [rewrite <- Hf2; apply (patch_len f2 _ 10); lia|].
  destruct (frag_fields_head h n 0) as (H2 & H6 & H7); [lia|lia|].
  assert (Hsame : forall i, 0 <= i < 10 ->
    byte_at (take 10 f2 ++ to_be16 c ++ drop 12 f2) i = byte_at (frag_fields h n 0) i).
  { intros i Hi0. rewrite byte_at_patch_out by (done || lia). apply byte_at_app_l. lia. }
  unfold field16. change (2 + 1) with 3. change (6 + 1) with 7.
  rewrite !Hsame, H6, H7 by lia. split; [done|]. split; [done|]. split; [|exact Hv].
  rewrite drop_patch by (done || lia). subst f2.
  rewrite drop_app_length'; [done|]. unfold len in Hf. lia.
Qed.

(** Both fragments of a well-formed packet. *)
Lemma fragment_ok p s :
  tcp_wf p -> len (raw p) < 65536 ->
  0 < s < len (raw p) - (tcp_offset p + tcp_header_len p) ->
  let th := tcp_offset p + tcp_header_len p in
  exists f1 f2, fragment_tcp_payload p s = Val (Some (f1, f2)) /\
    drop (Z.to_nat th) f1 = take (Z.to_nat s) (drop (Z.to_nat th) (raw p)) /\
    drop (Z.to_nat (ip_header_len p)) f2 = drop (Z.to_nat (th + s)) (raw p) /\
    field16 f1 2 = len f1 /\ field16 f2 2 = len f2 /\
    checksum_valid (take (Z.to_nat (ip_header_len p)) f1) /\
    checksum_valid (take (Z.to_nat (ip_header_len p)) f2) /\
    field16 f1 6 = 0x4000 /\ field16 f2 6 = 0x4000.
Proof.
  intros W Hl Hs th. rewrite fragment_eq by done.
  destruct (first_fragment p s W Hl Hs) as (q1 & Hq1 & L1 & T1 & F1 & D1 & V1).
  destruct (second_fragment p s W Hl Hs) as (q2 & Hq2 & L2 & T2 & F2 & D2 & V2).
  cbv zeta in *. apply bind_Val in Hq1 as (q0 & Hq0 & Hq1).
  rewrite Hq0, bind_Val_l, Hq1, bind_Val_l, Hq2, bind_Val_l.
  eexists _, _. split; [done|]. by rewrite L1, L2.
Qed.

(** [fragment_tcp_payload] on a parsed packet and a split point inside its
    payload returns two packets that together carry the payload unchanged, with
    correct length fields and valid IPv4 header checksums.  Both, however, carry
    the flags/offset field [0x4000]: don't-fragment set, more-fragments clear and
    offset zero, so a receiver cannot put them together. *)
Theorem fragment_splits_payload_but_not_as_fragments r p s pay :
  Forall is_byte r -> len r < 65536 -> TcpPacket_parse r = Val (Some p) ->
  tcp_payload p = Val pay -> 0 < s < len pay ->
  exists f1 f2, fragment_tcp_payload p s = Val (Some (f1, f2)) /\
    drop (Z.to_nat (tcp_offset p + tcp_header_len p)) f1 = take (Z.to_nat s) pay /\
    drop (Z.to_nat (ip_header_len p)) f2 = drop (Z.to_nat s) pay /\
    field16 f1 2 = len f1 /\ field16 f2 2 = len f2 /\
    checksum_valid (take (Z.to_nat (ip_header_len p)) f1) /\
    checksum_valid (take (Z.to_nat (ip_header_len p)) f2) /\
    field16 f1 6 = 0x4000 /\ field16 f2 6 = 0x4000.
Proof.
  intros Hb Hl Hp Hpay Hs. destruct (TcpPacket_parse_Some r p Hb Hp) as (W & _ & <-).
  rewrite tcp_payload_eq in Hpay by done. injection Hpay as <-. pose proof W as [].
  destruct (fragment_ok p s W Hl) as (f1 & f2 & H1 & H2 & H3 & H4);
    [unfold len in *; rewrite length_drop in Hs; lia|].
  exists f1, f2. split; [done|]. split; [done|]. split; [|done].
  rewrite H3, drop_drop. f_equal. lia.
Qed.

Lemma fragment_splits_payload_but_not_as_fragments_witness :
  exists p f1 f2, TcpPacket_parse (ack_data) = Val (Some p) /\
    fragment_tcp_payload p 3 = Val (Some (f1, f2)) /\ field16 f2 6 = 0x4000.
Proof.
  destruct (fragment_splits_payload_but_not_as_fragments ack_data
    (mkTcp ack_data 20 48 20 20 32 (10, 36)) 3 [1; 2; 3; 4; 5; 6; 7; 8])
    as (f1 & f2 & H1 & _ & _ & _ & _ & _ & _ & _ & H2).
  - vm_compute. repeat constructor; intros [=].
  - reflexivity.
  - reflexivity.
  - reflexivity.
  - vm_compute. split; reflexivity.
  - eexists _, f1, f2. split; [reflexivity|]. split; [exact H1|exact H2].
Defined.
