(* ===== verification/Tls.v ===== *)
(** * TLS ClientHello: the server name

    [extract_tls_sni] and [parse_sni_list] of
    [crates/balansir-b4/src/packet.rs], [str::from_utf8] as far as they use it,
    and a ClientHello encoder as the specification they are checked against. *)

From S2P Require Import Prelude Packet.

(** ** [str::from_utf8] *)

Definition in_range (lo hi b : Z) : bool := (lo <=? b) && (b <=? hi).
Definition cont (b : Z) : bool := in_range 0x80 0xBF b.

(** Second byte of a three- and of a four-byte sequence, by lead byte. *)
Definition second3 (b0 b1 : Z) : bool :=
  if b0 =? 0xE0 then in_range 0xA0 0xBF b1
  else if b0 =? 0xED then in_range 0x80 0x9F b1 else cont b1.
Definition second4 (b0 b1 : Z) : bool :=
  if b0 =? 0xF0 then in_range 0x90 0xBF b1
  else if b0 =? 0xF4 then in_range 0x80 0x8F b1 else cont b1.

Fixpoint utf8_valid (l : list Z) : bool :=
  match l with
  | [] => true
  | b0 :: l1 =>
      if b0 <? 0x80 then utf8_valid l1
      else match l1 with
           | [] => false
           | b1 :: l2 =>
               if in_range 0xC2 0xDF b0 then cont b1 && utf8_valid l2
               else match l2 with
                    | [] => false
                    | b2 :: l3 =>
                        if in_range 0xE0 0xEF b0
                        then second3 b0 b1 && cont b2 && utf8_valid l3
                        else match l3 with
                             | [] => false
                             | b3 :: l4 =>
                                 in_range 0xF0 0xF4 b0 && second4 b0 b1 && cont b2
                                 && cont b3 && utf8_valid l4
                             end
                    end
           end
  end.

(** [std::str::from_utf8(..).ok().map(|s| s.to_string())] *)
Definition from_utf8 (l : list Z) : option string :=
  if utf8_valid l then Some (string_of_bytes l) else None.

(** ** The parser *)

Fixpoint sni_name_loop (fuel : nat) (l : list Z) (off : Z) : exec (option string) :=
  match fuel with
  | O => Panic
  | S fuel' =>
      if negb (off + 3 <=? len l) then Val None else
      name_type ← idx l off;
      name_len ← read_be16 l (off + 1);
      if len l <? off + 3 + name_len then Val None else
      if name_type =? 0 then
        name ← slice l (off + 3) (off + 3 + name_len);
        Val (from_utf8 name)
      else sni_name_loop fuel' l (off + (3 + name_len))
  end.

Definition parse_sni_list (data : list Z) : exec (option string) :=
  if len data <? 2 then Val None else
  list_len ← read_be16 data 0;
  l ← slice data 2 (len data);
  if len l <? list_len then Val None
  else sni_name_loop (S (length l)) l 0.

Fixpoint ext_loop (fuel : nat) (exts : list Z) (e : Z) : exec (option string) :=
  match fuel with
  | O => Panic
  | S fuel' =>
      if negb (e + 4 <=? len exts) then Val None else
      ext_type ← read_be16 exts e;
      ext_len ← read_be16 exts (e + 2);
      if len exts <? e + 4 + ext_len then Val None else
      if ext_type =? 0 then
        data ← slice exts (e + 4) (e + 4 + ext_len);
        parse_sni_list data
      else ext_loop fuel' exts (e + (4 + ext_len))
  end.

Definition extract_tls_sni (tcp_payload : list Z) : exec (option string) :=
  if len tcp_payload <? 5 then Val None else
  ty ← idx tcp_payload 0;
  if negb (ty =? 0x16) then Val None else
  rec_len ← read_be16 tcp_payload 3;
  let hs := 5 in
  if len tcp_payload <? hs + 4 then Val None else
  hs_ty ← idx tcp_payload hs;
  if negb (hs_ty =? 0x01) then Val None else
  l0 ← idx tcp_payload (hs + 1);
  l1 ← idx tcp_payload (hs + 2);
  l2 ← idx tcp_payload (hs + 3);
  let hs_len := Z.lor (Z.lor (Z.shiftl l0 16) (Z.shiftl l1 8)) l2 in
  let hello := hs + 4 in
  if (len tcp_payload <? hello + hs_len) || (5 + rec_len <? hello + hs_len)
  then Val None else
  body ← slice tcp_payload hello (hello + hs_len);
  if len body <? 2 + 32 + 1 then Val None else
  let off := 2 + 32 in
  sid_len ← idx body off;
  let off := off + (1 + sid_len) in
  if len body <? off + 2 then Val None else
  cs_len ← read_be16 body off;
  let off := off + (2 + cs_len) in
  if len body <? off + 1 then Val None else
  comp_len ← idx body off;
  let off := off + (1 + comp_len) in
  if len body <? off + 2 then Val None else
  ext_total ← read_be16 body off;
  let off := off + 2 in
  if len body <? off + ext_total then Val None else
  exts ← slice body off (off + ext_total);
  ext_loop (S (length exts)) exts 0.

(** ** Specification: a ClientHello encoder *)

Definition enc_ext (e : Z * list Z) : list Z :=
  to_be16 e.1 ++ to_be16 (len e.2) ++ e.2.
Definition enc_exts (es : list (Z * list Z)) : list Z := mjoin (map enc_ext es).

(** The server_name extension with one host name. *)
Definition sni_ext (host : list Z) : Z * list Z :=
  (0, to_be16 (3 + len host) ++ 0 :: to_be16 (len host) ++ host).

Record hello_params := mkHello {
  version_random : list Z;     (* 34 bytes *)
  session_id : list Z;
  ciphers : list Z;
  compressions : list Z;
  exts_before : list (Z * list Z);
  server_name : list Z;
  exts_after : list (Z * list Z)
}.

Definition hello_exts (h : hello_params) : list Z :=
  enc_exts (exts_before h) ++ enc_ext (sni_ext (server_name h)) ++ enc_exts (exts_after h).

Definition hello_body (h : hello_params) : list Z :=
  version_random h ++ len (session_id h) :: session_id h
  ++ to_be16 (len (ciphers h)) ++ ciphers h
  ++ len (compressions h) :: compressions h
  ++ to_be16 (len (hello_exts h)) ++ hello_exts h.

(** A handshake record holding exactly the ClientHello. *)
Definition client_hello (h : hello_params) : list Z :=
  let n := len (hello_body h) in
  0x16 :: 3 :: 1 :: to_be16 (4 + n) ++ 0x01 :: u8 (n / 65536) :: to_be16 n ++ hello_body h.

Record hello_wf (h : hello_params) : Prop := {
  hw_vr : len (version_random h) = 34;
  hw_sid : len (session_id h) < 256;
  hw_cs : len (ciphers h) < 65536;
  hw_comp : len (compressions h) < 256;
  hw_body : 4 + len (hello_body h) < 65536;
  hw_before : Forall (fun e => 0 < e.1 < 65536) (exts_before h);
  hw_name : utf8_valid (server_name h) = true
}.

(** ** Totality *)

Lemma read_be16_byte_at r i :
  0 <= i -> i + 2 <= len r -> read_be16 r i = Val (from_be16 (byte_at r i) (byte_at r (i + 1))).
Proof. intros. unfold read_be16. by exec_reads. Qed.

Lemma read_be16_range r i v :
  Forall is_byte r -> read_be16 r i = Val v -> 0 <= v < 65536.
Proof.
  intros Hb H. unfold read_be16 in H. exec_inv.
  apply idx_byte_at_inv in H as ->. apply idx_byte_at_inv in H0 as ->.
  apply from_be16_range; auto with balansir.
Qed.

(** Advance a goal [returns m] over one guard or one in-range read. *)
Ltac returns_step :=
  match goal with
  | |- returns (if ?b then _ else _) => destruct b eqn:?; [try apply returns_Val|]
  | |- returns (Val _) => apply returns_Val
  | Hb : Forall is_byte ?l |- returns (idx ?l ?i ≫= _) =>
      let Hv := fresh "Hv" in
      pose proof (byte_at_is_byte l i Hb : 0 <= byte_at l i < 256) as Hv;
      rewrite (idx_byte_at l i) by lia; rewrite bind_Val_l;
      revert Hv; generalize (byte_at l i); intros ? Hv; cbv beta zeta
  | Hb : Forall is_byte ?l |- returns (read_be16 ?l ?i ≫= _) =>
      let Hv := fresh "Hv" in
      pose proof (from_be16_range _ _ (byte_at_is_byte l i Hb)
        (byte_at_is_byte l (i + 1) Hb)) as Hv;
      rewrite (read_be16_byte_at l i) by lia; rewrite bind_Val_l;
      revert Hv; generalize (from_be16 (byte_at l i) (byte_at l (i + 1))); intros ? Hv
  | Hb : Forall is_byte ?l |- returns (slice ?l ?a ?b ≫= _) =>
      apply returns_bind; [apply slice_returns; lia|];
      let s := fresh "s" in let Hs := fresh "Hs" in
      intros s Hs; pose proof (Forall_slice is_byte l a b s Hs Hb);
      apply slice_len in Hs
  end.

Lemma sni_name_loop_returns fuel l off :
  Forall is_byte l -> 0 <= off <= len l -> len l - off < Z.of_nat fuel ->
  returns (sni_name_loop fuel l off).
Proof.
  intros Hb. revert off. induction fuel as [|fuel IH]; intros off Ho Hf; [lia|].
  cbn [sni_name_loop]. repeat returns_step. apply IH; lia.
Qed.

Lemma parse_sni_list_returns data : Forall is_byte data -> returns (parse_sni_list data).
Proof.
  intros Hb. unfold parse_sni_list. repeat returns_step.
  pose proof (len_nonneg s). apply sni_name_loop_returns; [done|lia|unfold len; lia].
Qed.

Lemma ext_loop_returns fuel exts e :
  Forall is_byte exts -> 0 <= e <= len exts -> len exts - e < Z.of_nat fuel ->
  returns (ext_loop fuel exts e).
Proof.
  intros Hb. revert e. induction fuel as [|fuel IH]; intros e He Hf; [lia|].
  cbn [ext_loop]. repeat returns_step.
  - by apply parse_sni_list_returns.
  - apply IH; lia.
Qed.

Lemma be24_lor l0 l1 l2 :
  is_byte l1 -> is_byte l2 ->
  Z.lor (Z.lor (Z.shiftl l0 16) (Z.shiftl l1 8)) l2 = 65536 * l0 + 256 * l1 + l2.
Proof.
  intros H1 H2. unfold is_byte in *.
  assert (Z.shiftl l1 8 = 256 * l1) as E by (rewrite Z.shiftl_mul_pow2 by lia; lia).
  rewrite (lor_shiftl 16) by lia. rewrite E.
  replace (l0 * 2 ^ 16 + 256 * l1) with (Z.shiftl (256 * l0 + l1) 8)
    by (rewrite Z.shiftl_mul_pow2 by lia; lia).
  rewrite lor_shiftl by lia. lia.
Qed.

Lemma extract_tls_sni_returns payload :
  Forall is_byte payload -> returns (extract_tls_sni payload).
Proof.
  intros Hb. unfold extract_tls_sni. cbv zeta. do 10 returns_step.
  rewrite be24_lor by done. repeat returns_step.
  apply ext_loop_returns; [done| |unfold len; lia]. pose proof (len_nonneg s0). lia.
Qed.

(** ** Reading an encoded ClientHello *)

Lemma idx_mid {A} (P Q : list A) x i : i = len P -> idx (P ++ x :: Q) i = Val x.
Proof.
  intros ->. apply idx_Val. split; [apply len_nonneg|].
  unfold len. rewrite Nat2Z.id. by rewrite list_lookup_middle.
Qed.

Lemma read_be16_mid P Q v i :
  i = len P -> 0 <= v < 65536 -> read_be16 (P ++ to_be16 v ++ Q) i = Val v.
Proof.
  intros -> Hv. unfold read_be16, to_be16. cbn [app].
  rewrite (idx_mid P _ _ (len P)), bind_Val_l by done.
  rewrite cons_middle, app_assoc, idx_mid, bind_Val_l by (by rewrite len_app).
  by rewrite from_to_be16.
Qed.

Lemma read_be16_0 Q v : 0 <= v < 65536 -> read_be16 (to_be16 v ++ Q) 0 = Val v.
Proof. intros. by apply (read_be16_mid [] Q v). Qed.

Lemma len_enc_ext e : len (enc_ext e) = 4 + len e.2.
Proof. unfold enc_ext. rewrite !len_app, !len_to_be16. lia. Qed.

Lemma enc_exts_cons e es : enc_exts (e :: es) = enc_ext e ++ enc_exts es.
Proof. done. Qed.

Lemma sni_name_loop_first fuel host :
  len host < 65536 ->
  sni_name_loop (S fuel) (0 :: to_be16 (len host) ++ host) 0 = Val (from_utf8 host).
Proof.
  intros Hl. pose proof (len_nonneg host). cbn [sni_name_loop].
  set (l := 0 :: _).
  assert (Hll : len l = 3 + len host)
    by (subst l; rewrite len_cons, !len_app, len_to_be16; lia).
  replace (negb (0 + 3 <=? len l)) with false by lia.
  change (idx l 0) with (Val 0). rewrite bind_Val_l.
  change (read_be16 l) with (read_be16 ([0] ++ to_be16 (len host) ++ host)).
  rewrite read_be16_mid, bind_Val_l by (done || lia).
  replace (_ <? 0 + 3 + len host) with false by lia. cbn [Z.eqb].
  replace l with ((0 :: to_be16 (len host)) ++ host ++ []) by (by rewrite app_nil_r).
  by rewrite slice_mid, bind_Val_l by (done || lia).
Qed.

Lemma parse_sni_list_host host :
  3 + len host < 65536 ->
  parse_sni_list (to_be16 (3 + len host) ++ 0 :: to_be16 (len host) ++ host)
    = Val (from_utf8 host).
Proof.
  intros Hl. pose proof (len_nonneg host). unfold parse_sni_list. set (l := 0 :: _).
  assert (Hll : len l = 3 + len host)
    by (subst l; rewrite len_cons, !len_app, len_to_be16; lia).
  rewrite len_app, len_to_be16, Hll. replace (2 + (3 + len host) <? 2) with false by lia.
  rewrite read_be16_0, bind_Val_l by lia.
  rewrite <- (app_nil_r l) at 1. rewrite slice_mid, bind_Val_l by (rewrite ?len_to_be16; lia).
  replace (len l <? _) with false by lia. subst l.
  apply sni_name_loop_first. lia.
Qed.

(** One round of the extension loop on an encoded extension. *)
Lemma ext_loop_step fuel P t d Q :
  0 <= t < 65536 -> len d < 65536 ->
  ext_loop (S fuel) (P ++ enc_ext (t, d) ++ Q) (len P) =
    if t =? 0 then parse_sni_list d
    else ext_loop fuel (P ++ enc_ext (t, d) ++ Q) (len P + (4 + len d)).
Proof.
  intros Ht Hd. pose proof (len_nonneg d). pose proof (len_nonneg Q). pose proof (len_nonneg P).
  cbn [ext_loop]. set (l := P ++ enc_ext (t, d) ++ Q).
  assert (Hl : len l = len P + 4 + len d + len Q)
    by (subst l; rewrite !len_app, len_enc_ext; cbn [snd]; lia).
  replace (negb (len P + 4 <=? len l)) with false by lia.
  assert (E1 : l = P ++ to_be16 t ++ to_be16 (len d) ++ d ++ Q)
    by (subst l; unfold enc_ext; cbn [fst snd]; by rewrite <- !app_assoc).
  assert (E2 : l = (P ++ to_be16 t) ++ to_be16 (len d) ++ d ++ Q)
    by (by rewrite <- app_assoc).
  assert (E3 : l = ((P ++ to_be16 t) ++ to_be16 (len d)) ++ d ++ Q)
    by (by rewrite <- app_assoc).
  rewrite E1 at 1. rewrite read_be16_mid, bind_Val_l by done.
  rewrite E2 at 1. rewrite read_be16_mid, bind_Val_l
    by (rewrite ?len_app, ?len_to_be16; lia).
  replace (len l <? _) with false by lia. case_match; [|done].
  rewrite E3. by rewrite slice_mid, bind_Val_l by (rewrite ?len_app, ?len_to_be16; lia).
Qed.

(** The extension loop skips the extensions before server_name. *)
Lemma ext_loop_sni fuel P before host after :
  Forall (fun e => 0 < e.1 < 65536) before ->
  let exts := P ++ enc_exts before ++ enc_ext (sni_ext host) ++ enc_exts after in
  len exts < 65536 -> (length before < fuel)%nat ->
  ext_loop fuel exts (len P) = Val (from_utf8 host).
Proof.
  intros Hb. revert fuel P.
  induction Hb as [|[t d] before Ht _ IH]; intros [|fuel] P exts Hl Hf;
    cbn [length] in Hf; try lia; subst exts; rewrite !len_app, len_enc_ext in Hl;
    pose proof (len_nonneg P); pose proof (len_nonneg (enc_exts after)).
  - change (enc_exts [] ++ ?x) with x. unfold sni_ext in *. cbn [snd] in Hl.
    rewrite len_app, len_cons, len_app, !len_to_be16 in Hl.
    pose proof (len_nonneg host). pose proof (len_nonneg (enc_exts [])).
    rewrite ext_loop_step by (rewrite ?len_app, ?len_cons, ?len_app, ?len_to_be16; lia).
    apply parse_sni_list_host. lia.
  - rewrite enc_exts_cons, <- app_assoc in *. rewrite len_app, len_enc_ext in Hl.
    cbn [fst snd] in *. pose proof (len_nonneg (enc_exts before)).
    pose proof (len_nonneg (sni_ext host).2).
    rewrite ext_loop_step by lia. replace (t =? 0) with false by lia.
    rewrite app_assoc. replace (len P + (4 + len d)) with (len (P ++ enc_ext (t, d)))
      by (rewrite len_app, len_enc_ext; done).
    apply IH; [|lia]. rewrite !len_app, !len_enc_ext. cbn [snd]. lia.
Qed.

Lemma len_hello_body h :
  len (hello_body h) = len (version_random h) + 1 + len (session_id h) + 2
    + len (ciphers h) + 1 + len (compressions h) + 2 + len (hello_exts h).
Proof.
  unfold hello_body. rewrite len_app, len_cons, !len_app, len_cons, !len_app, !len_to_be16.
  lia.
Qed.

(** From the handshake header on: what remains is the body parse. *)
Lemma extract_header h trail :
  4 + len (hello_body h) < 65536 ->
  let t := client_hello h ++ trail in
  let n := len (hello_body h) in
  idx t 0 = Val 0x16 /\ read_be16 t 3 = Val (4 + n) /\ idx t 5 = Val 1 /\
  idx t (5 + 1) = Val 0 /\ idx t (5 + 2) = Val (u8 (n / 256)) /\ idx t (5 + 3) = Val (u8 n) /\
  slice t 9 (9 + n) = Val (hello_body h) /\ len t = 9 + n + len trail.
Proof.
  intros Hn t n. pose proof (len_nonneg (hello_body h)).
  assert (Hz : u8 (n / 65536) = 0) by (replace (n / 65536) with 0 by zmod_lia; done).
  set (P := [0x16; 3; 1; u8 ((4 + n) / 256); u8 (4 + n); 1; 0; u8 (n / 256); u8 n]).
  assert (Et : t = P ++ hello_body h ++ trail).
  { subst t. unfold client_hello. fold n. rewrite Hz. done. }
  rewrite Et. split; [done|]. split.
  { change (P ++ hello_body h ++ trail)
      with ([0x16; 3; 1] ++ to_be16 (4 + n) ++ [1; 0; u8 (n / 256); u8 n] ++ hello_body h ++ trail).
    apply read_be16_mid; [done|lia]. }
  do 4 (split; [done|]). split; [by apply slice_mid|]. rewrite !len_app. fold n.
  change (len P) with 9. lia.
Qed.

(** The length-prefixed fields of the body, at the offsets the parser computes. *)
Lemma extract_body h :
  len (version_random h) = 34 -> len (ciphers h) < 65536 -> len (hello_exts h) < 65536 ->
  let b := hello_body h in
  let o1 := 34 + (1 + len (session_id h)) in
  let o2 := o1 + (2 + len (ciphers h)) in
  let o3 := o2 + (1 + len (compressions h)) in
  idx b 34 = Val (len (session_id h)) /\ read_be16 b o1 = Val (len (ciphers h)) /\
  idx b o2 = Val (len (compressions h)) /\ read_be16 b o3 = Val (len (hello_exts h)) /\
  slice b (o3 + 2) (o3 + 2 + len (hello_exts h)) = Val (hello_exts h).
Proof.
  intros Hvr Hcs Hex b o1 o2 o3.
  pose proof (len_nonneg (ciphers h)). pose proof (len_nonneg (hello_exts h)).
  assert (A1 : forall (P X Y : list Z) x, (P ++ x :: X) ++ Y = P ++ x :: X ++ Y)
    by (intros; by rewrite <- app_assoc).
  set (P1 := version_random h ++ len (session_id h) :: session_id h).
  set (P2 := P1 ++ to_be16 (len (ciphers h)) ++ ciphers h).
  set (P3 := P2 ++ len (compressions h) :: compressions h).
  assert (E1 : b = P1 ++ to_be16 (len (ciphers h)) ++ ciphers h
    ++ len (compressions h) :: compressions h ++ to_be16 (len (hello_exts h)) ++ hello_exts h)
    by (subst b P1; unfold hello_body; by rewrite A1).
  assert (E2 : b = P2 ++ len (compressions h) :: compressions h
    ++ to_be16 (len (hello_exts h)) ++ hello_exts h)
    by (rewrite E1; subst P2; by rewrite <- !app_assoc).
  assert (E3 : b = P3 ++ to_be16 (len (hello_exts h)) ++ hello_exts h)
    by (rewrite E2; subst P3; by rewrite A1).
  assert (L1 : len P1 = o1) by (subst P1; rewrite len_app, len_cons; lia).
  assert (L2 : len P2 = o2) by (subst P2; rewrite !len_app, len_to_be16; lia).
  assert (L3 : len P3 = o3) by (subst P3; rewrite !len_app, len_cons; lia).
  split; [by apply idx_mid|]. split; [rewrite E1; by apply read_be16_mid|].
  split; [rewrite E2; by apply idx_mid|]. split; [rewrite E3; by apply read_be16_mid|].
  assert (E4 : b = (P3 ++ to_be16 (len (hello_exts h))) ++ hello_exts h ++ [])
    by (by rewrite app_nil_r, <- app_assoc).
  rewrite E4. apply slice_mid; [rewrite len_app, len_to_be16; lia|done].
Qed.

Lemma exts_fuel es : (length es <= length (enc_exts es))%nat.
Proof.
  induction es as [|e es IH]; [done|]. rewrite enc_exts_cons, length_app. cbn [length].
  pose proof (len_enc_ext e). pose proof (len_nonneg e.2). unfold len in *. lia.
Qed.

Lemma extract_client_hello h trail :
  hello_wf h -> extract_tls_sni (client_hello h ++ trail) = Val (from_utf8 (server_name h)).
Proof.
  intros [Hvr Hsid Hcs Hcomp Hbody Hbef Hname].
  destruct (extract_header h trail Hbody) as (E0 & E3 & E5 & E6 & E7 & E8 & Es & El).
  pose proof (len_hello_body h) as Hn. pose proof (len_nonneg trail).
  pose proof (len_nonneg (session_id h)). pose proof (len_nonneg (ciphers h)).
  pose proof (len_nonneg (compressions h)). pose proof (len_nonneg (hello_exts h)).
  destruct (extract_body h Hvr Hcs ltac:(lia)) as (B1 & B2 & B3 & B4 & B5). cbv zeta in *.
  set (t := client_hello h ++ trail) in *. set (n := len (hello_body h)) in *.
  unfold extract_tls_sni. replace (len t <? 5) with false by lia.
  rewrite E0, bind_Val_l. cbn [negb Z.eqb Pos.eqb]. rewrite E3, bind_Val_l.
  replace (len t <? 5 + 4) with false by lia.
  rewrite E5, bind_Val_l. cbn [negb Z.eqb Pos.eqb].
  rewrite E6, E7, E8, !bind_Val_l, be24_lor by apply u8_byte.
  replace (65536 * 0 + 256 * u8 (n / 256) + u8 n) with n
    by (pose proof (from_to_be16 n ltac:(lia)); unfold from_be16 in *; lia).
  change (5 + 4) with 9. replace (_ || _) with false by lia. rewrite Es, bind_Val_l.
  fold n. replace (n <? 2 + 32 + 1) with false by lia. change (2 + 32) with 34.
  rewrite B1, bind_Val_l. replace (n <? 34 + (1 + len (session_id h)) + 2) with false by lia.
  rewrite B2, bind_Val_l. replace (n <? _ + (2 + len (ciphers h)) + 1) with false by lia.
  rewrite B3, bind_Val_l. replace (n <? _ + (1 + len (compressions h)) + 2) with false by lia.
  rewrite B4, bind_Val_l. replace (n <? _) with false by lia. rewrite B5, bind_Val_l.
  apply (ext_loop_sni _ []); [done|change (len (hello_exts h) < 65536); lia|].
  unfold hello_exts. rewrite length_app. pose proof (exts_fuel (exts_before h)). lia.
Qed.

(** A record cut short anywhere has no server name yet. *)
Lemma extract_prefix h m :
  4 + len (hello_body h) < 65536 -> (m < length (client_hello h))%nat ->
  extract_tls_sni (take m (client_hello h)) = Val None.
Proof.
  intros Hbody Hm. destruct (extract_header h [] Hbody)
    as (E0 & E3 & E5 & E6 & E7 & E8 & _ & El). cbv zeta in *. rewrite app_nil_r in *.
  set (t := client_hello h) in *. set (n := len (hello_body h)) in *.
  assert (Hr : forall i, 0 <= i < Z.of_nat m -> idx (take m t) i = idx t i).
  { intros i Hi. unfold idx. replace (i <? 0) with false by lia. by rewrite lookup_take_lt by lia. }
  assert (Hlen : len (take m t) = Z.of_nat m) by (unfold len; rewrite length_take; lia).
  change (len []) with 0 in El. pose proof (len_nonneg (hello_body h)).
  unfold extract_tls_sni. rewrite Hlen. destruct (Z.of_nat m <? 5) eqn:Hm5; [done|].
  rewrite (Hr 0), E0, bind_Val_l by lia. cbn [negb Z.eqb Pos.eqb].
  assert (read_be16 (take m t) 3 = read_be16 t 3) as ->
    by (unfold read_be16; by rewrite !Hr by lia).
  rewrite E3, bind_Val_l. destruct (Z.of_nat m <? 5 + 4) eqn:Hm9; [done|].
  rewrite !Hr by lia. rewrite E5, bind_Val_l. cbn [negb Z.eqb Pos.eqb].
  rewrite E6, E7, E8, !bind_Val_l, be24_lor by apply u8_byte.
  replace (65536 * 0 + 256 * u8 (n / 256) + u8 n) with n
    by (pose proof (from_to_be16 n ltac:(lia)); unfold from_be16 in *; lia).
  by replace (_ || _) with true by (unfold len in El; lia).
Qed.

(** ** Claims *)

(** [extract_tls_sni] is total: on every byte string it returns, without
    panicking and with the fuel of both loops sufficient. *)
Theorem extract_tls_sni_total payload :
  Forall is_byte payload -> exists o, extract_tls_sni payload = Val o.
Proof. apply extract_tls_sni_returns. Qed.

Lemma extract_tls_sni_total_witness :
  exists o, extract_tls_sni [0x16; 3; 1; 255; 255; 1; 0; 0; 2; 3; 3] = Val o.
Proof.
  apply extract_tls_sni_total. vm_compute. repeat constructor; intros [=].
Defined.

(** C19.  Round trip with a ClientHello encoder: for every session id, cipher
    list, compression list, UTF-8 server name and surrounding extensions (no
    other server_name before it), and whatever follows the record in the stream,
    the parser returns exactly the server name; and on every proper prefix of the
    record it returns [None], never a wrong name. *)
Theorem extract_tls_sni_roundtrip h trail :
  hello_wf h ->
  extract_tls_sni (client_hello h ++ trail) = Val (Some (string_of_bytes (server_name h))) /\
  forall m, (m < length (client_hello h))%nat ->
    extract_tls_sni (take m (client_hello h)) = Val None.
Proof.
  intros W. split.
  - rewrite extract_client_hello by done. unfold from_utf8. by rewrite (hw_name h W).
  - intros m Hm. apply extract_prefix; [apply W|done].
Qed.

(** A ClientHello for [a.b] with one extension on either side. *)
Definition example_hello : hello_params :=
  mkHello (replicate 34 7) [1; 2] [0x13; 1; 0x13; 2] [0] [(10, [0; 2; 0; 29])]
    [97; 46; 98] [(43, [3; 4])].

Lemma example_hello_wf : hello_wf example_hello.
Proof. split; try (vm_compute; reflexivity). repeat constructor. Qed.

Lemma extract_tls_sni_roundtrip_witness :
  extract_tls_sni (client_hello example_hello) = Val (Some "a.b") /\
  extract_tls_sni (take 60 (client_hello example_hello)) = Val None.
Proof.
  destruct (extract_tls_sni_roundtrip example_hello []) as [H1 H2].
  - split; try (vm_compute; reflexivity). repeat constructor.
  - rewrite app_nil_r in H1. split; [exact H1|]. apply H2. vm_compute. lia.
Defined.
