(* ===== verification/Reassembly.v ===== *)
(** * TCP stream reassembly

    [crates/balansir-b4/src/reassembly.rs]: the per-flow buffers that collect the
    head of a TCP stream until a whole ClientHello is there.  The flow table is a
    [gmap]; [Instant::now()] is an argument, one clock reading per call. *)

From S2P Require Import Prelude Packet Tls.

(** ** Data *)

(** [Ipv4Addr]s are their 32-bit values. *)
Record FlowKey := mkKey {
  key_src_ip : Z;
  key_dst_ip : Z;
  key_src_port : Z;
  key_dst_port : Z
}.

#[export] Instance FlowKey_eq_dec : EqDecision FlowKey.
Proof. solve_decision. Defined.
#[export] Instance FlowKey_countable : Countable FlowKey :=
  inj_countable'
    (fun k => (key_src_ip k, key_dst_ip k, key_src_port k, key_dst_port k))
    (fun '(a, b, c, d) => mkKey a b c d)
    (fun k => match k with mkKey a b c d => eq_refl end).

Definition ipv4_of (o : list Z) : Z := from_be32 (byte_at o 0) (byte_at o 1) (byte_at o 2) (byte_at o 3).

Definition FlowKey_for_packet (pkt : TcpPacket) : exec FlowKey :=
  s ← src_ip pkt; d ← dst_ip pkt; sp ← src_port pkt; dp ← dst_port pkt;
  Val (mkKey (ipv4_of s) (ipv4_of d) sp dp).

Record Flow := mkFlow {
  base_seq : Z;
  buffer : list Z;
  decided : option string;
  last_seen : Z
}.

Definition Flow_new (seq now : Z) : Flow := mkFlow seq [] None now.

Record TcpReassembler := mkReasm {
  flows : gmap FlowKey Flow;
  max_bytes : Z;
  max_flows : Z;
  idle_timeout : Z;          (* nanoseconds *)
  since_evict : Z;
  evict_every : Z
}.

Definition TcpReassembler_new : TcpReassembler :=
  mkReasm ∅ (16 * 1024) 4096 (30 * 1000000000) 0 256.

Definition with_flows (s : TcpReassembler) (m : gmap FlowKey Flow) : TcpReassembler :=
  mkReasm m (max_bytes s) (max_flows s) (idle_timeout s) (since_evict s) (evict_every s).

(** ** Operations *)

Definition evict_expired (now : Z) (s : TcpReassembler) : TcpReassembler :=
  let cutoff := now - idle_timeout s in
  with_flows s (filter (fun kf => cutoff <= last_seen kf.2) (flows s)).

Definition flow_count (s : TcpReassembler) : Z := Z.of_nat (size (flows s)).
Definition reasm_is_empty (s : TcpReassembler) : bool := flow_count s =? 0.

(** [u64::is_multiple_of] *)
Definition is_multiple_of (a b : Z) : bool := if b =? 0 then a =? 0 else a mod b =? 0.

Definition append (flow : Flow) (tail : list Z) : Flow :=
  mkFlow (base_seq flow) (buffer flow ++ tail) (decided flow) (last_seen flow).

(** The buffering half of the segment closure of [feed].  [inl] is an early
    return (the flow, the result, whether to drop the flow); [inr] the flow with
    the new bytes appended. *)
Definition buffer_segment (max_bytes seq : Z) (payload : list Z) (flow : Flow)
  : exec ((Flow * option string * bool) + Flow) :=
  if len (buffer flow) =? 0 then
    b ← idx payload 0;
    if negb (b =? 0x16) then Val (inl (flow, None, true))
    else Val (inr (append flow payload))
  else
    let expected_seq := u32 (base_seq flow + len (buffer flow)) in
    if negb (seq =? expected_seq) then
      if (seq <? expected_seq) && (expected_seq <? u32 (seq + len payload)) then
        let covered := expected_seq - seq in
        new_tail ← slice payload covered (len payload);
        let room := sat_sub max_bytes (len (buffer flow)) in
        if room <? len new_tail then Val (inl (flow, None, true))
        else Val (inr (append flow new_tail))
      else if seq <? expected_seq then Val (inl (flow, decided flow, false))
      else Val (inl (flow, None, true))
    else
      let room := sat_sub max_bytes (len (buffer flow)) in
      if room <? len payload then Val (inl (flow, None, true))
      else Val (inr (append flow payload)).

(** The classifying half: run the parser on what is buffered. *)
Definition classify_flow (max_bytes : Z) (flow : Flow)
  : exec (Flow * option string * bool) :=
  if max_bytes <? len (buffer flow) then Val (flow, None, true) else
  let snapshot := buffer flow in
  host ← extract_tls_sni snapshot;
  let flow :=
    match host with
    | Some h => mkFlow (base_seq flow) [] (Some h) (last_seen flow)
    | None => mkFlow (base_seq flow) snapshot (decided flow) (last_seen flow)
    end in
  Val (flow, decided flow, false).

(** The segment closure of [feed]. *)
Definition process_segment (max_bytes now seq : Z) (payload : list Z) (flow : Flow)
  : exec (Flow * option string * bool) :=
  let flow := mkFlow (base_seq flow) (buffer flow) (decided flow) now in
  match decided flow with
  | Some d => Val (flow, Some d, false)
  | None =>
      step ← buffer_segment max_bytes seq payload flow;
      match step with
      | inl early => Val early
      | inr flow => classify_flow max_bytes flow
      end
  end.

(** The packet counter and the periodic eviction sweep at the head of [feed]. *)
Definition count_packet (now : Z) (s : TcpReassembler) : TcpReassembler :=
  let s := mkReasm (flows s) (max_bytes s) (max_flows s) (idle_timeout s)
             (u64 (since_evict s + 1)) (evict_every s) in
  if is_multiple_of (since_evict s) (evict_every s) then evict_expired now s else s.

Definition feed (now : Z) (s : TcpReassembler) (key : FlowKey) (seq : Z)
    (payload : list Z) (fin_rst : bool) : exec (TcpReassembler * option string) :=
  let s := count_packet now s in
  if len payload =? 0 then Val (s, None) else
  if fin_rst then Val (with_flows s (delete key (flows s)), None) else
  let present := bool_decide (is_Some (flows s !! key)) in
  let s := if negb present && (max_flows s <=? flow_count s)
           then evict_expired now s else s in
  if negb present && (max_flows s <=? flow_count s) then Val (s, None) else
  let s := if present then s
           else with_flows s (<[key := Flow_new seq now]> (flows s)) in
  match flows s !! key with
  | None => Panic  (* the [unwrap] *)
  | Some flow =>
      '(flow', result, drop_flow) ← process_segment (max_bytes s) now seq payload flow;
      if drop_flow : bool then Val (with_flows s (delete key (flows s)), result)
      else Val (with_flows s (<[key := flow']> (flows s)), result)
  end.

(** ** Invariant

    What a tracked flow looks like between two calls: at most [max_bytes]
    buffered bytes; either classified with nothing buffered, or the head of what
    may become a TLS handshake record with no server name in it yet. *)
Definition flow_ok (max_bytes : Z) (f : Flow) : Prop :=
  Forall is_byte (buffer f) /\ len (buffer f) <= max_bytes /\
  match decided f with
  | Some _ => buffer f = []
  | None => head (buffer f) = Some 0x16 /\ extract_tls_sni (buffer f) = Val None
  end.

Record reasm_inv (s : TcpReassembler) : Prop := {
  inv_flows : map_Forall (fun _ f => flow_ok (max_bytes s) f) (flows s);
  inv_count : flow_count s <= max_flows s
}.

(** A segment as the packet layer delivers it. *)
Record segment_ok (seq : Z) (payload : list Z) : Prop := {
  seg_seq : 0 <= seq < 2 ^ 32;
  seg_bytes : Forall is_byte payload;
  seg_len : 0 < len payload < 65536
}.

Lemma classify_flow_ok mb f :
  Forall is_byte (buffer f) -> decided f = None -> head (buffer f) = Some 0x16 ->
  exists f' r d, classify_flow mb f = Val (f', r, d) /\ (d = false -> flow_ok mb f').
Proof.
  intros Hb Hd Hh. unfold classify_flow. destruct (mb <? len (buffer f)) eqn:El.
  { eexists _, _, _. split; [done|discriminate]. }
  destruct (extract_tls_sni_returns (buffer f) Hb) as [host Hx].
  rewrite Hx, bind_Val_l. eexists _, _, _. split; [done|]. intros _.
  pose proof (len_nonneg (buffer f)).
  destruct host; unfold flow_ok; cbn [buffer decided]; [|rewrite Hd].
  - split; [constructor|]. split; [change (len []) with 0; lia|done].
  - split; [done|]. split; [lia|done].
Qed.

(** The new bytes of a segment never panic and keep the head of the stream. *)
Lemma buffer_segment_ok mb seq payload f :
  segment_ok seq payload -> decided f = None ->
  flow_ok mb f \/ buffer f = [] ->
  exists step, buffer_segment mb seq payload f = Val step /\
    match step with
    | inl (f', r, d) => d = false -> f' = f /\ flow_ok mb f
    | inr f' => exists tail, f' = append f tail /\ Forall is_byte tail /\
                  head (buffer f') = Some 0x16
    end.
Proof.
  intros [Hs Hpb Hpl] Hd Hf. unfold buffer_segment.
  pose proof (len_nonneg (buffer f)).
  destruct (len (buffer f) =? 0) eqn:E0.
  { assert (buffer f = []) as Hn by (apply len_zero; lia).
    rewrite idx_byte_at, bind_Val_l by lia. destruct (byte_at payload 0 =? 0x16) eqn:Eb; cbn [negb].
    - eexists. split; [done|]. exists payload. split; [done|]. split; [done|].
      unfold append. cbn [buffer]. rewrite Hn. cbn [app].
      destruct payload as [|b0 pl]; [by destruct Hpl|]. rewrite byte_at_cons_0 in Eb. cbn [head]. f_equal. lia.
    - eexists. split; [done|]. discriminate. }
  assert (Hok : flow_ok mb f) by (destruct Hf as [|Hn]; [done|by rewrite Hn in E0]).
  assert (Hh : forall tail, head (buffer (append f tail)) = Some 0x16).
  { intros tail. destruct Hok as (_ & _ & Hd'). rewrite Hd in Hd'. destruct Hd' as [Hh _].
    unfold append. cbn [buffer]. by destruct (buffer f). }
  set (ex := u32 (base_seq f + len (buffer f))).
  destruct (seq =? ex); cbn [negb].
  { case_match; eexists; (split; [done|]); [discriminate|]. by exists payload. }
  destruct ((seq <? ex) && (ex <? u32 (seq + len payload))) eqn:Eo.
  2:{ case_match; eexists; (split; [done|]); [done|discriminate]. }
  assert (Hcov : 0 <= ex - seq <= len payload) by zmod_lia.
  rewrite slice_eq, bind_Val_l by lia.
  case_match; eexists; (split; [done|]); [discriminate|]. eexists. split; [done|].
  split; [by apply Forall_take, Forall_drop|done].
Qed.

Lemma process_segment_ok mb now seq payload f :
  segment_ok seq payload -> flow_ok mb f \/ buffer f = [] /\ decided f = None ->
  exists f' r d, process_segment mb now seq payload f = Val (f', r, d) /\
    (d = false -> flow_ok mb f').
Proof.
  intros Hs Hf. unfold process_segment. set (g := mkFlow _ _ _ _).
  assert (Hg : flow_ok mb g \/ buffer g = [] /\ decided g = None) by exact Hf.
  destruct (decided g) as [h|] eqn:Hd.
  { eexists _, _, _. split; [done|]. intros _. by destruct Hg as [|[_ [=]]]. }
  destruct (buffer_segment_ok mb seq payload g) as (step & -> & Hstep); [done|done|tauto|].
  rewrite bind_Val_l. destruct step as [[[f' r] d]|f'].
  - eexists _, _, _. split; [done|]. intros Hd'. by destruct (Hstep Hd') as [-> ?].
  - destruct Hstep as (tail & -> & Ht & Hh). apply classify_flow_ok; [|done|done].
    apply Forall_app. split; [|done].
    destruct Hg as [(Hb & _)|[Hb _]]; [done|]. cbn in Hb |- *. by rewrite Hb.
Qed.

(** ** The flow table *)

Lemma evict_inv now s : reasm_inv s -> reasm_inv (evict_expired now s).
Proof.
  intros [Hf Hc]. split; cbn [evict_expired with_flows flows max_bytes max_flows].
  - intros k f Hk. apply map_lookup_filter_Some in Hk as [Hk _]. by apply (Hf k).
  - unfold flow_count in *. cbn.
    pose proof (map_size_filter (fun kf : FlowKey * Flow => now - idle_timeout s <= last_seen kf.2)
      (flows s)). lia.
Qed.

Lemma evict_lookup now s k f :
  flows s !! k = Some f -> now - idle_timeout s <= last_seen f ->
  flows (evict_expired now s) !! k = Some f.
Proof. intros Hk Hl. cbn. by apply map_lookup_filter_Some. Qed.

Lemma count_packet_inv now s : reasm_inv s -> reasm_inv (count_packet now s).
Proof.
  intros [Hf Hc]. unfold count_packet. case_match; [apply evict_inv|]; by split.
Qed.

Lemma count_packet_lookup now s k f :
  flows s !! k = Some f -> now - idle_timeout s <= last_seen f ->
  flows (count_packet now s) !! k = Some f.
Proof. intros Hk Hl. unfold count_packet. case_match; [by apply evict_lookup|done]. Qed.

Lemma count_packet_config now s :
  max_bytes (count_packet now s) = max_bytes s /\
  max_flows (count_packet now s) = max_flows s /\
  idle_timeout (count_packet now s) = idle_timeout s.
Proof. unfold count_packet. by case_match. Qed.

Lemma with_flows_inv s m :
  map_Forall (fun _ f => flow_ok (max_bytes s) f) m ->
  Z.of_nat (size m) <= max_flows s -> reasm_inv (with_flows s m).
Proof. intros. by split. Qed.

Lemma delete_inv s k : reasm_inv s -> reasm_inv (with_flows s (delete k (flows s))).
Proof.
  intros [Hf Hc]. apply with_flows_inv; [by apply map_Forall_delete|].
  unfold flow_count in Hc. rewrite map_size_delete. case_match; unfold id; lia.
Qed.

Lemma feed_ok now s key seq payload fin :
  reasm_inv s -> 0 <= seq < 2 ^ 32 -> Forall is_byte payload -> len payload < 65536 ->
  exists s' r, feed now s key seq payload fin = Val (s', r) /\ reasm_inv s' /\
    max_bytes s' = max_bytes s /\ max_flows s' = max_flows s /\
    idle_timeout s' = idle_timeout s.
Proof.
  intros Hinv Hs Hb Hl. unfold feed.
  destruct (count_packet_config now s) as (<- & <- & <-).
  apply (count_packet_inv now) in Hinv. generalize dependent (count_packet now s).
  clear s. intros s Hinv. pose proof (len_nonneg payload).
  destruct (len payload =? 0) eqn:E0; [by eexists _, _|].
  destruct fin; [eexists _, _; split; [done|]; split; [by apply delete_inv|done]|].
  assert (Hseg : segment_ok seq payload) by (split; (done || lia)).
  case_bool_decide as Hp; cbn [negb andb].
  - destruct Hp as [f Hf]. rewrite Hf. pose proof Hinv as [Hfl Hc].
    destruct (process_segment_ok (max_bytes s) now seq payload f Hseg)
      as (f' & r & d & -> & Hd); [left; by apply (Hfl key)|]. rewrite bind_Val_l.
    destruct d; eexists _, _; (split; [done|]); (split; [|done]); [by apply delete_inv|].
    apply with_flows_inv; [apply map_Forall_insert_2; [by apply Hd|done]|].
    rewrite map_size_insert, Hf. exact Hc.
  - set (s1 := if max_flows s <=? flow_count s then evict_expired now s else s).
    assert (Hinv1 : reasm_inv s1) by (subst s1; case_match; [by apply evict_inv|done]).
    assert (Hn1 : flows s1 !! key = None).
    { apply eq_None_not_Some in Hp. subst s1. case_match; [|done].
      cbn. apply map_lookup_filter_None. by left. }
    assert (Hcfg : max_bytes s1 = max_bytes s /\ max_flows s1 = max_flows s /\
      idle_timeout s1 = idle_timeout s) by (subst s1; by case_match).
    destruct Hcfg as (<- & <- & <-). clearbody s1. clear s Hp Hinv.
    destruct (max_flows s1 <=? flow_count s1) eqn:Efull; [by eexists _, _|].
    cbn [with_flows flows max_bytes]. rewrite lookup_insert_eq. destruct Hinv1 as [Hfl Hc].
    destruct (process_segment_ok (max_bytes s1) now seq payload (Flow_new seq now) Hseg)
      as (f' & r & d & -> & Hd); [by right|]. rewrite bind_Val_l.
    unfold flow_count in *.
    destruct d; eexists _, _; (split; [done|]); (split; [|done]); cbn [flows with_flows].
    + rewrite delete_insert_id by done. by split.
    + rewrite insert_insert_eq.
      apply with_flows_inv; cbn [max_bytes max_flows with_flows].
      * apply map_Forall_insert_2; [by apply Hd|done].
      * rewrite map_size_insert, Hn1. lia.
Qed.

(** ** In-order reassembly, interleaved with other flows *)

Lemma count_packet_count now s : flow_count (count_packet now s) <= flow_count s.
Proof.
  unfold count_packet, flow_count. case_match; cbn; [|lia].
  pose proof (map_size_filter
    (fun kf : FlowKey * Flow => now - idle_timeout s <= last_seen kf.2) (flows s)). lia.
Qed.

(** A segment of one flow leaves every other live flow as it is. *)
Lemma feed_other now s key seq payload fin s' r k f :
  feed now s key seq payload fin = Val (s', r) -> k <> key ->
  flows s !! k = Some f -> now - idle_timeout s <= last_seen f ->
  flows s' !! k = Some f.
Proof.
  intros Hfeed Hne Hk Hl. unfold feed in Hfeed.
  destruct (count_packet_config now s) as (_ & _ & Hi). rewrite <- Hi in Hl.
  apply (count_packet_lookup now) in Hk; [|lia].
  remember (count_packet now s) as s1 eqn:E1; clear E1.
  destruct (len payload =? 0); [by injection Hfeed as <- _|].
  destruct fin; [injection Hfeed as <- _; cbn; by rewrite lookup_delete_ne|].
  set (s2 := if negb _ && _ then evict_expired now s1 else s1) in *.
  assert (Hk2 : flows s2 !! k = Some f).
  { clear Hfeed. subst s2. case_match; [by apply evict_lookup|done]. }
  clearbody s2. destruct (negb _ && _); [by injection Hfeed as <- _|].
  set (s3 := if bool_decide _ then s2 else _) in *.
  assert (Hk3 : flows s3 !! k = Some f).
  { clear Hfeed. subst s3. case_match; [done|]. cbn. by rewrite lookup_insert_ne. }
  clearbody s3. destruct (flows s3 !! key); [|done].
  apply bind_Val in Hfeed as ([[f' r'] d] & _ & Hfeed).
  destruct d; injection Hfeed as <- _; cbn; by rewrite ?lookup_delete_ne, ?lookup_insert_ne.
Qed.

(** The flow after the classifying step of an unclassified stream. *)
Definition classified (base now : Z) (snap : list Z) (host : option string) : Flow :=
  match host with
  | Some h => mkFlow base [] (Some h) now
  | None => mkFlow base snap None now
  end.

Lemma classify_eq mb base now snap host :
  extract_tls_sni snap = Val host -> len snap <= mb ->
  classify_flow mb (mkFlow base snap None now)
    = Val (classified base now snap host, host, false).
Proof.
  intros Hx Hl. unfold classify_flow. cbn [buffer base_seq last_seen decided].
  replace (mb <? len snap) with false by lia. rewrite Hx, bind_Val_l. by destruct host.
Qed.

Lemma feed_next now s key seq payload f host :
  flows s !! key = Some f -> now - idle_timeout s <= last_seen f ->
  decided f = None -> buffer f <> [] -> len payload <> 0 ->
  seq = u32 (base_seq f + len (buffer f)) -> len (buffer f ++ payload) <= max_bytes s ->
  extract_tls_sni (buffer f ++ payload) = Val host ->
  exists s', feed now s key seq payload false = Val (s', host) /\
    flows s' !! key = Some (classified (base_seq f) now (buffer f ++ payload) host).
Proof.
  intros Hk Hl Hd Hbuf Hp Hseq Hmb Hx. unfold feed.
  destruct (count_packet_config now s) as (Hm & _ & _).
  apply (count_packet_lookup now) in Hk; [|done]. rewrite <- Hm in Hmb.
  remember (count_packet now s) as s1 eqn:E1; clear E1.
  replace (len payload =? 0) with false by lia.
  rewrite bool_decide_true by eauto. cbn [negb andb]. rewrite Hk.
  unfold process_segment, buffer_segment. cbn [decided buffer base_seq]. rewrite Hd.
  replace (len (buffer f) =? 0) with false
    by (symmetry; apply Z.eqb_neq; intros He; by apply Hbuf, len_zero).
  rewrite <- Hseq, Z.eqb_refl. cbn [negb]. rewrite len_app in Hmb.
  replace (sat_sub _ _ <? len payload) with false by (unfold sat_sub; lia).
  rewrite bind_Val_l. unfold append. cbn [buffer base_seq decided last_seen].
  rewrite (classify_eq _ _ _ _ host), bind_Val_l by (rewrite ?len_app; done).
  eexists. split; [done|]. cbn. by rewrite lookup_insert_eq.
Qed.

Lemma feed_first now s key seq payload host :
  flows s !! key = None -> flow_count s < max_flows s ->
  head payload = Some 0x16 -> len payload <= max_bytes s ->
  extract_tls_sni payload = Val host ->
  exists s', feed now s key seq payload false = Val (s', host) /\
    flows s' !! key = Some (classified seq now payload host).
Proof.
  intros Hk Hc Hh Hmb Hx. unfold feed.
  destruct (count_packet_config now s) as (Hm & Hf & _).
  pose proof (count_packet_count now s) as Hcc. rewrite <- Hm in Hmb. rewrite <- Hf in Hc.
  assert (Hk1 : flows (count_packet now s) !! key = None).
  { unfold count_packet. case_match; [|done]. cbn. apply map_lookup_filter_None. by left. }
  remember (count_packet now s) as s1 eqn:E1; clear E1.
  destruct payload as [|b pl]; [done|]. injection Hh as ->.
  pose proof (len_nonneg pl). rewrite len_cons in *.
  replace (1 + len pl =? 0) with false by lia.
  rewrite bool_decide_false by (rewrite Hk1; intros [? [=]]). cbn [negb andb].
  replace (max_flows s1 <=? flow_count s1) with false by lia.
  replace (max_flows s1 <=? flow_count s1) with false by lia.
  cbn [with_flows flows max_bytes]. rewrite lookup_insert_eq.
  unfold process_segment, buffer_segment, append, Flow_new.
  cbn [decided buffer base_seq last_seen app]. change (len [] =? 0) with true.
  change (idx (0x16 :: pl) 0) with (Val 0x16). cbn [negb Z.eqb Pos.eqb].
  rewrite !bind_Val_l. cbn [negb Z.eqb Pos.eqb]. rewrite bind_Val_l.
  rewrite (classify_eq _ _ _ _ host), bind_Val_l by (rewrite ?len_cons; done).
  eexists. split; [done|]. cbn. by rewrite lookup_insert_eq.
Qed.

(** A segment arriving at the reassembler. *)
Record event := mkEvent {
  ev_time : Z;
  ev_key : FlowKey;
  ev_seq : Z;
  ev_payload : list Z;
  ev_fin : bool
}.

(** Feed a sequence of segments; the result of each is paired with its flow. *)
Fixpoint run_feed (s : TcpReassembler) (evs : list event)
  : exec (TcpReassembler * list (FlowKey * option string)) :=
  match evs with
  | [] => Val (s, [])
  | e :: evs' =>
      '(s1, r) ← feed (ev_time e) s (ev_key e) (ev_seq e) (ev_payload e) (ev_fin e);
      '(s2, rs) ← run_feed s1 evs';
      Val (s2, (ev_key e, r) :: rs)
  end.

(** The results of one flow, and its segments. *)
Definition results_of (k : FlowKey) (rs : list (FlowKey * option string))
  : list (option string) := map snd (filter (fun kr => kr.1 = k) rs).
Definition segments_of (k : FlowKey) (evs : list event) : list (Z * list Z * bool) :=
  map (fun e => (ev_seq e, ev_payload e, ev_fin e)) (filter (fun e => ev_key e = k) evs).

(** [segs] sent in order from stream offset [off]. *)
Fixpoint in_order (base off : Z) (segs : list (list Z)) : list (Z * list Z * bool) :=
  match segs with
  | [] => []
  | s :: segs' => (u32 (base + off), s, false) :: in_order base (off + len s) segs'
  end.

(** Nothing until the last segment, then the server name. *)
Fixpoint name_at_end (name : string) (segs : list (list Z)) : list (option string) :=
  match segs with
  | [] => []
  | [_] => [Some name]
  | _ :: segs' => None :: name_at_end name segs'
  end.

(** Every segment is one a packet can carry, and all arrive within one idle
    timeout. *)
Definition event_ok (t0 idle : Z) (e : event) : Prop :=
  t0 <= ev_time e <= t0 + idle /\ 0 <= ev_seq e < 2 ^ 32 /\
  Forall is_byte (ev_payload e) /\ len (ev_payload e) < 65536.

Lemma nonempty_mjoin {B} (segs : list (list Z)) (a b : B) :
  Forall (fun seg => seg <> []) segs ->
  match mjoin segs with [] => a | _ => b end = match segs with [] => a | _ => b end.
Proof. intros Hne. destruct segs as [|[|]]; [done| |done]. by inversion_clear Hne. Qed.

Section InOrder.
Context (h : hello_params) (Hh : hello_wf h).
Context (k : FlowKey) (base t0 : Z).

Let hello := client_hello h.
Let name := string_of_bytes (server_name h).

Lemma hello_prefix pre rest :
  pre ++ rest = hello ->
  extract_tls_sni pre = Val (match rest with [] => Some name | _ => None end).
Proof.
  intros He. destruct rest as [|b rest].
  - rewrite app_nil_r in He. subst pre. unfold hello. rewrite <- (app_nil_r (client_hello h)).
    rewrite extract_client_hello by done. unfold from_utf8. by rewrite (hw_name h Hh).
  - replace pre with (take (length pre) hello) by (rewrite <- He; by rewrite take_app_length).
    apply extract_prefix; [apply Hh|]. fold hello. rewrite <- He, length_app. cbn. lia.
Qed.

(** The stream of flow [k] is buffered up to [pre], or already classified. *)
Definition at_offset (s : TcpReassembler) (pre : list Z) (segs : list (list Z)) : Prop :=
  segs = [] \/
  exists f, flows s !! k = Some f /\ base_seq f = base /\ buffer f = pre /\
    decided f = None /\ pre <> [] /\ t0 <= last_seen f.

Lemma run_feed_in_order evs s pre segs :
  reasm_inv s -> at_offset s pre segs -> pre ++ mjoin segs = hello ->
  len hello <= max_bytes s -> Forall (fun seg => seg <> []) segs ->
  segments_of k evs = in_order base (len pre) segs ->
  Forall (event_ok t0 (idle_timeout s)) evs ->
  exists s' rs, run_feed s evs = Val (s', rs) /\ results_of k rs = name_at_end name segs.
Proof.
  revert s pre segs. induction evs as [|e evs IH]; intros s pre segs Hinv Hat Hcat Hmb Hne Hseg Hev.
  { eexists _, _. split; [done|]. by destruct segs. }
  inversion_clear Hev as [|? ? He Hev']. destruct He as (Ht & Hs & Hb & Hl).
  destruct (feed_ok (ev_time e) s (ev_key e) (ev_seq e) (ev_payload e) (ev_fin e) Hinv Hs Hb Hl)
    as (s1 & r & Hfeed & Hinv1 & Hmb1 & _ & Hid1).
  cbn [run_feed]. unfold segments_of in Hseg. rewrite filter_cons in Hseg.
  destruct (decide (ev_key e = k)) as [Hk|Hk].
  - destruct segs as [|seg segs]; [discriminate Hseg|]. cbn [map in_order] in Hseg.
    injection Hseg as Hs1 Hs2 Hs3 Hseg. inversion_clear Hne as [|? ? Hn Hne'].
    destruct Hat as [Hat|(f & Hf & Hfb & Hfbuf & Hfd & Hpre & Hfl)]; [discriminate Hat|].
    change (mjoin (seg :: segs)) with (seg ++ mjoin segs) in Hcat.
    assert (Hcat' : (pre ++ seg) ++ mjoin segs = hello) by (by rewrite <- app_assoc).
    pose proof (hello_prefix _ _ Hcat') as Hx.
    assert (Hlen : len (pre ++ seg) <= len hello)
      by (rewrite <- Hcat', (len_app _ (mjoin segs)); pose proof (len_nonneg (mjoin segs)); lia).
    rewrite nonempty_mjoin in Hx by done.
    destruct (feed_next (ev_time e) s k (ev_seq e) seg f
      (match segs with [] => Some name | _ => None end)) as (s2 & Hf2 & Hlk); try done.
    { lia. } { by rewrite Hfbuf. }
    { intros Hz. by apply Hn, len_zero. } { by rewrite Hfb, Hfbuf. }
    { rewrite Hfbuf. lia. } { by rewrite Hfbuf. }
    rewrite Hk, Hs2, Hs3 in Hfeed. rewrite Hf2 in Hfeed. injection Hfeed as <- <-.
    rewrite Hk, Hs2, Hs3, Hf2, bind_Val_l.
    destruct (IH s2 (pre ++ seg) segs) as (s' & rs & -> & Hrs); try done.
    { destruct segs as [|]; [by left|right]. rewrite Hlk. eexists. split; [done|]. cbn.
      split; [done|]. split; [by rewrite Hfbuf|]. split; [done|]. split; [by destruct pre|lia]. }
    { lia. } { unfold segments_of. rewrite Hseg, len_app. done. } { by rewrite Hid1. }
    rewrite bind_Val_l. eexists _, _. split; [done|].
    unfold results_of in *. rewrite filter_cons, decide_True by done. cbn [map snd].
    rewrite Hrs. by destruct segs.
  - rewrite Hfeed, bind_Val_l.
    destruct (IH s1 pre segs) as (s' & rs & -> & Hrs); try done.
    { destruct Hat as [|(f & Hf & Hfr)]; [by left|right]. exists f. split; [|done].
      eapply feed_other; [done|congruence|done|]. destruct Hfr as (_ & _ & _ & _ & ?). lia. }
    { lia. } { by rewrite Hid1. }
    rewrite bind_Val_l. eexists _, _. split; [done|].
    unfold results_of in *. by rewrite filter_cons, decide_False by done.
Qed.
End InOrder.

Lemma run_feed_inv evs t0 idle s :
  reasm_inv s -> Forall (event_ok t0 idle) evs ->
  exists s' rs, run_feed s evs = Val (s', rs) /\ reasm_inv s' /\
    max_bytes s' = max_bytes s /\ max_flows s' = max_flows s /\ length rs = length evs.
Proof.
  intros Hinv Hev. revert s Hinv. induction Hev as [|e evs (_ & Hs & Hb & Hl) _ IH]; intros s Hinv.
  { eexists _, _. done. }
  destruct (feed_ok (ev_time e) s (ev_key e) (ev_seq e) (ev_payload e) (ev_fin e) Hinv Hs Hb Hl)
    as (s1 & r & Hf & Hinv1 & Hm1 & Hc1 & _).
  destruct (IH s1 Hinv1) as (s' & rs & Hr & Hinv' & Hm' & Hc' & Hlen).
  cbn [run_feed]. rewrite Hf, bind_Val_l, Hr, bind_Val_l. eexists _, _. split; [done|].
  split; [done|]. split; [lia|]. split; [lia|]. cbn. lia.
Qed.

Lemma TcpReassembler_new_inv : reasm_inv TcpReassembler_new.
Proof.
  split; [apply map_Forall_empty|]. unfold flow_count, TcpReassembler_new.
  cbn [flows max_flows]. rewrite map_size_empty. lia.
Qed.

(** ** Claims *)

(** Bounded memory: whatever segments of whatever flows arrive in whatever
    order (overlaps, gaps, duplicates, wrap-around, FINs), the reassembler started
    by [TcpReassembler::new] never panics, answers every segment, never tracks
    more than 4096 flows and never holds more than 16 KiB of a flow; a classified
    flow holds nothing, an unclassified one holds the head of a handshake record. *)
Theorem reassembler_stays_bounded t0 idle evs :
  Forall (event_ok t0 idle) evs ->
  exists s rs, run_feed TcpReassembler_new evs = Val (s, rs) /\ length rs = length evs /\
    flow_count s <= 4096 /\
    forall k f, flows s !! k = Some f ->
      len (buffer f) <= 16384 /\
      match decided f with
      | Some _ => buffer f = []
      | None => head (buffer f) = Some 0x16 /\ extract_tls_sni (buffer f) = Val None
      end.
Proof.
  intros Hev.
  destruct (run_feed_inv evs t0 idle _ TcpReassembler_new_inv Hev)
    as (s & rs & Hr & [Hf Hc] & Hm & Hc' & Hlen).
  exists s, rs. split; [done|]. split; [done|]. rewrite Hm, Hc' in *. split; [done|].
  intros k f Hk. by destruct (Hf k f Hk) as (_ & ? & ?).
Qed.

Definition example_key : FlowKey := mkKey 0x0A000001 0x0A000002 50000 443.

Lemma reassembler_stays_bounded_witness :
  exists s rs, run_feed TcpReassembler_new
    [mkEvent 5 example_key 4294967295 [0x16; 3; 1] false;
     mkEvent 6 example_key 7 [9; 9] false] = Val (s, rs) /\ flow_count s <= 4096.
Proof.
  destruct (reassembler_stays_bounded 0 10
    [mkEvent 5 example_key 4294967295 [0x16; 3; 1] false;
     mkEvent 6 example_key 7 [9; 9] false]) as (s & rs & H1 & _ & H2 & _).
  - repeat constructor; vm_compute; congruence.
  - exists s, rs. split; [exact H1|exact H2].
Defined.

(** C18.  A ClientHello cut into segments at arbitrary points, arriving in order
    (sequence numbers may wrap), interleaved with arbitrary segments of other
    flows, is recognised: every segment before the last yields no name, the last
    yields exactly the server name.  Hypotheses: the table has room when the first
    segment arrives, the record fits the per-flow bound, and the segments arrive
    within one idle timeout. *)
Theorem fragmented_hello_recognised h k base t0 s e evs segs :
  hello_wf h -> Forall is_byte (client_hello h) ->
  reasm_inv s -> flows s !! k = None -> flow_count s < max_flows s ->
  len (client_hello h) <= max_bytes s -> 0 <= base < 2 ^ 32 ->
  mjoin segs = client_hello h -> Forall (fun seg => seg <> []) segs ->
  ev_key e = k -> segments_of k (e :: evs) = in_order base 0 segs ->
  Forall (event_ok t0 (idle_timeout s)) (e :: evs) ->
  exists s' rs, run_feed s (e :: evs) = Val (s', rs) /\
    results_of k rs = name_at_end (string_of_bytes (server_name h)) segs.
Proof.
  intros Hh Hbytes Hinv Hk Hroom Hmb Hbase Hcat Hne Hek Hseg Hev.
  inversion_clear Hev as [|? ? He Hev']. destruct He as (Ht & Hs & Hb & Hl).
  unfold segments_of in Hseg. rewrite filter_cons, decide_True in Hseg by done.
  destruct segs as [|seg segs]; [discriminate Hseg|]. cbn [map in_order] in Hseg.
  injection Hseg as Hs1 Hs2 Hs3 Hseg. inversion_clear Hne as [|? ? Hn Hne'].
  rewrite Z.add_0_r, wrap_small in Hs1 by lia.
  change (mjoin (seg :: segs)) with (seg ++ mjoin segs) in Hcat.
  pose proof (hello_prefix h Hh _ _ Hcat) as Hx.
  rewrite nonempty_mjoin in Hx by done.
  assert (Hhead : head seg = Some 0x16).
  { destruct seg as [|b seg]; [done|]. unfold client_hello in Hcat. by injection Hcat as -> _. }
  assert (Hlen : len seg <= max_bytes s).
  { rewrite <- Hcat, len_app in Hmb. pose proof (len_nonneg (mjoin segs)). lia. }
  destruct (feed_ok (ev_time e) s (ev_key e) (ev_seq e) (ev_payload e) (ev_fin e) Hinv Hs Hb Hl)
    as (s1 & r & Hfeed & Hinv1 & Hmb1 & _ & Hid1).
  destruct (feed_first (ev_time e) s k base seg _ Hk Hroom Hhead Hlen Hx) as (s2 & Hf2 & Hlk).
  cbn [run_feed]. rewrite Hek, Hs1, Hs2, Hs3 in *. rewrite Hf2 in Hfeed.
  injection Hfeed as <- <-. rewrite Hf2, bind_Val_l.
  destruct (run_feed_in_order h Hh k base t0 evs s2 seg segs) as (s' & rs & -> & Hrs); try done.
  { destruct segs as [|]; [by left|right]. rewrite Hlk. eexists. split; [done|]. cbn.
    repeat (split; [done|]). lia. }
  { lia. } { by rewrite Hid1. }
  rewrite bind_Val_l. eexists _, _. split; [done|].
  unfold results_of in *. rewrite filter_cons, decide_True by done. cbn [map snd].
  rewrite Hrs. by destruct segs.
Qed.

(** The ClientHello of [Tls.v] in three segments around the wrap of the sequence
    space, with a segment of another flow in between. *)
Lemma fragmented_hello_recognised_witness :
  let h := client_hello example_hello in
  exists s' rs,
    run_feed TcpReassembler_new
      [mkEvent 1 example_key 4294967290 (take 20 h) false;
       mkEvent 2 example_key 14 (take 30 (drop 20 h)) false;
       mkEvent 3 (mkKey 1 2 3 4) 0 [0x16; 3] false;
       mkEvent 4 example_key 44 (drop 50 h) false] = Val (s', rs) /\
    results_of example_key rs = [None; None; Some "a.b"].
Proof.
  apply (fragmented_hello_recognised example_hello example_key 4294967290 0 TcpReassembler_new _ _
    [take 20 (client_hello example_hello);
     take 30 (drop 20 (client_hello example_hello)); drop 50 (client_hello example_hello)]).
  - split; try (vm_compute; reflexivity). repeat constructor.
  - vm_compute. repeat constructor; intros [=].
  - split; [apply map_Forall_empty|vm_compute; intros [=]].
  - reflexivity.
  - reflexivity.
  - vm_compute. intros [=].
  - lia.
  - reflexivity.
  - repeat constructor; intros [=].
  - reflexivity.
  - reflexivity.
  - repeat constructor; vm_compute; try (intros [=]; fail); repeat constructor; intros [=].
Defined.

(** A retransmission of bytes that are already buffered leaves the flow
    tracked exactly when the buffered stream has not crossed the wrap of the
    sequence space: [feed] compares sequence numbers without wrap-around, so past
    the wrap it takes the duplicate for a gap and drops the flow. *)
Theorem retransmission_kept_iff_no_wrap now s key f payload :
  reasm_inv s -> flows s !! key = Some f -> decided f = None ->
  0 <= base_seq f < 2 ^ 32 -> max_bytes s < 2 ^ 31 ->
  now - idle_timeout s <= last_seen f ->
  0 < len payload <= len (buffer f) ->
  exists s', feed now s key (base_seq f) payload false = Val (s', None) /\
    (is_Some (flows s' !! key) <-> base_seq f + len (buffer f) < 2 ^ 32).
Proof.
  intros Hinv Hk Hd Hbase Hmb Hl Hp. destruct (inv_flows s Hinv key f Hk) as (_ & Hbuf & _).
  unfold feed. replace (len payload =? 0) with false by lia.
  apply (count_packet_lookup now) in Hk; [|done].
  rewrite bool_decide_true by eauto. cbn [negb andb]. rewrite Hk.
  unfold process_segment, buffer_segment. cbn [decided buffer base_seq]. rewrite Hd.
  replace (len (buffer f) =? 0) with false by lia.
  set (ex := u32 (base_seq f + len (buffer f))).
  destruct (Z.lt_ge_cases (base_seq f + len (buffer f)) (2 ^ 32)) as [Hw|Hw].
  - assert (Hex : ex = base_seq f + len (buffer f)) by (apply wrap_small; lia).
    replace (base_seq f =? ex) with false by lia. cbn [negb].
    replace ((base_seq f <? ex) && _) with false
      by (rewrite (wrap_small 32 (base_seq f + len payload)) by lia; lia).
    replace (base_seq f <? ex) with true by lia. rewrite !bind_Val_l.
    eexists. split; [done|]. cbn. rewrite lookup_insert_eq. split; [done|eauto].
  - assert (Hex : ex = base_seq f + len (buffer f) - 2 ^ 32) by (subst ex; change (2 ^ 31) with 2147483648 in *; zmod_lia).
    replace (base_seq f =? ex) with false by lia. cbn [negb].
    replace (base_seq f <? ex) with false by lia. cbn [andb].
    rewrite !bind_Val_l. eexists. split; [done|]. cbn. rewrite lookup_delete_eq.
    split; [by intros []|lia].
Qed.

Lemma retransmission_kept_iff_no_wrap_witness :
  let f := mkFlow 4294967294 [0x16; 3; 1] None 0 in
  exists s', feed 1 (with_flows TcpReassembler_new {[ example_key := f ]}) example_key
    4294967294 [0x16; 3] false = Val (s', None) /\ ~ is_Some (flows s' !! example_key).
Proof.
  destruct (retransmission_kept_iff_no_wrap 1
    (with_flows TcpReassembler_new {[ example_key := mkFlow 4294967294 [0x16; 3; 1] None 0 ]})
    example_key (mkFlow 4294967294 [0x16; 3; 1] None 0) [0x16; 3]) as (s' & H1 & H2).
  - split; [|vm_compute; intros [=]]. apply map_Forall_singleton.
    repeat split; vm_compute; repeat constructor; intros [=].
  - reflexivity.
  - reflexivity.
  - vm_compute. split; [intros [=]|reflexivity].
  - reflexivity.
  - vm_compute. intros [=].
  - vm_compute. split; [reflexivity|intros [=]].
  - exists s'. split; [exact H1|]. rewrite H2. vm_compute. intros [=].
Defined.
