(* ===== verification/B4Set.v ===== *)
(** * Strategy sets and configuration of the DPI-bypass engine

    The strategy-set schema ([crates/balansir-b4/src/set.rs]), the profiles and
    their host matching ([strategies.rs]) and the engine configuration with its
    validation ([config.rs]).  The TOML parser is a parameter of
    [B4Config_parse]. *)

From S2P Require Import Prelude.
From stdpp Require Import pretty.
#[local] Open Scope Z_scope.

(** ** [set.rs] *)

Record IncomingPlane := mkIncoming {
  inc_mode : string; inc_min : Z; inc_max : Z; inc_fake_ttl : Z;
  inc_fake_count : Z; inc_strategy : string
}.

Record DesyncPlane := mkDesync {
  des_mode : string; des_ttl : Z; des_count : Z; post_desync : bool
}.

Record WinPlane := mkWin { win_mode : string; win_values : list Z }.

Record DuplicatePlane := mkDuplicate { dup_enabled : bool; dup_count : Z }.

Record TcpPlane := mkTcpPlane {
  tcp_conn_bytes_limit : Z; tcp_seg2delay : Z; tcp_seg2delay_max : Z;
  syn_fake : bool; syn_fake_len : Z; syn_ttl : Z; drop_sack : bool;
  incoming : IncomingPlane; desync : DesyncPlane; win : WinPlane;
  duplicate : DuplicatePlane
}.

Record UdpPlane := mkUdpPlane {
  udp_mode : string; fake_seq_length : Z; fake_len : Z; faking_strategy : string;
  dport_filter : string; filter_quic : string; filter_stun : bool;
  udp_conn_bytes_limit : Z; udp_seg2delay : Z; udp_seg2delay_max : Z
}.

Record ComboPlane := mkCombo {
  first_byte_split : bool; extension_split : bool; combo_shuffle_mode : string;
  first_delay_ms : Z; jitter_max_us : Z; decoy_enabled : bool;
  decoy_snis : list string
}.

Record DisorderPlane := mkDisorder {
  dis_shuffle_mode : string; min_jitter_us : Z; max_jitter_us : Z
}.

Record FragmentationPlane := mkFragmentation {
  frag_strategy : string; reverse_order : bool; tlsrec_pos : Z; middle_sni : bool;
  sni_position : Z; oob_position : Z; oob_char : Z; seq_overlap_pattern : list Z;
  combo : ComboPlane; disorder : DisorderPlane
}.

Record SniMutationPlane := mkSniMutation {
  sm_mode : string; grease_count : Z; padding_size : Z; fake_ext_count : Z;
  fake_snis : list string
}.

Record FakingPlane := mkFaking {
  faking_sni : bool; faking_ttl : Z; fak_strategy : string; seq_offset : Z;
  sni_seq_length : Z; sni_type : Z; custom_payload : string; payload_file : string;
  tls_mod : list Z; timestamp_decrease : Z; sni_mutation : SniMutationPlane;
  tcp_md5 : bool
}.

Record Targets := mkTargets {
  sni_domains : list string; target_ip : list string;
  geosite_categories : list string; geoip_categories : list string
}.

Record DnsPlane := mkDnsPlane {
  dns_enabled : bool; target_dns : string; fragment_query : bool
}.

Record B4Set := mkB4Set {
  set_id : option string; set_name : string; set_tcp : TcpPlane; set_udp : UdpPlane;
  set_fragmentation : FragmentationPlane; set_faking : FakingPlane;
  set_targets : Targets; set_enabled : bool; set_dns : DnsPlane
}.

Definition wants_udp (s : B4Set) : bool :=
  set_enabled s && String.eqb (udp_mode (set_udp s)) "fake".
Definition wants_tcp (s : B4Set) : bool := set_enabled s.
Definition literal_domains (s : B4Set) : list string := sni_domains (set_targets s).
Definition literal_ips (s : B4Set) : list string := target_ip (set_targets s).
Definition has_geosite (s : B4Set) : bool :=
  match geosite_categories (set_targets s) with [] => false | _ => true end.
Definition has_geoip (s : B4Set) : bool :=
  match geoip_categories (set_targets s) with [] => false | _ => true end.

(** ** [strategies.rs]: strategies and profiles *)

Inductive Strategy :=
| Mss (mss : Z)
| StripSack
| Ttl (ttl : Z)
| Noop.

Record Profile := mkProfile {
  prof_name : string;
  domains : list string;
  strategies : list Strategy
}.

(** [host.trim_end_matches('.').to_ascii_lowercase()] *)
Definition norm_host (host : string) : string :=
  to_ascii_lowercase (trim_end_matches "." host).

Definition matches_host (p : Profile) (host : string) : bool :=
  let h := norm_host host in
  existsb (fun d => domain_match h (norm_host d)) (domains p).

Record EngineConfig := mkEngineConfig { profiles : list Profile }.

Definition no_domains (p : Profile) : bool :=
  match domains p with [] => true | _ => false end.

Definition profile_for (c : EngineConfig) (host : string) : option Profile :=
  match List.find (fun p => negb (no_domains p) && matches_host p host) (profiles c) with
  | Some p => Some p
  | None => List.find no_domains (profiles c)
  end.

(** ** [config.rs] *)

Inductive StrategyToml :=
| MssToml (mss : Z)
| StripSackToml
| TtlToml (ttl : Z)
| NoopToml.

Record ProfileToml := mkProfileToml {
  pt_name : string;
  pt_domains : list string;
  pt_strategies : list StrategyToml;
  pt_set : option B4Set
}.

Record B4Config := mkB4Config {
  queue_num : Z;
  cfg_ports : list Z;
  cfg_udp_ports : list Z;
  cfg_profiles : list ProfileToml;
  cfg_sets : list B4Set
}.

Definition mss_error (name : string) (mss : Z) : string :=
  "b4 config: profile '" +:+ name +:+ "': mss must be in [100, 1460), got " +:+ pretty mss.

(** The validation loops of [B4Config::parse]: the first offending MSS. *)
Fixpoint check_strategies (name : string) (l : list StrategyToml) : option string :=
  match l with
  | [] => None
  | MssToml mss :: l' =>
      if (mss <? 100) || (1460 <=? mss) then Some (mss_error name mss)
      else check_strategies name l'
  | _ :: l' => check_strategies name l'
  end.

Fixpoint check_profiles (l : list ProfileToml) : option string :=
  match l with
  | [] => None
  | p :: l' =>
      match check_strategies (pt_name p) (pt_strategies p) with
      | Some e => Some e
      | None => check_profiles l'
      end
  end.

Definition B4Config_parse (toml_from_str : string -> string + B4Config) (raw : string)
  : string + B4Config :=
  match toml_from_str raw with
  | inl e => inl ("b4 config parse error: " +:+ e)
  | inr cfg =>
      match check_profiles (cfg_profiles cfg) with
      | Some e => inl e
      | None => inr cfg
      end
  end.

Definition strategy_of_toml (s : StrategyToml) : Strategy :=
  match s with
  | MssToml mss => Mss mss
  | StripSackToml => StripSack
  | TtlToml ttl => Ttl ttl
  | NoopToml => Noop
  end.

Definition into_engine (c : B4Config) : EngineConfig :=
  mkEngineConfig
    (map (fun p => mkProfile (pt_name p) (pt_domains p)
                     (map strategy_of_toml (pt_strategies p))) (cfg_profiles c)).

Definition ports (c : B4Config) : list Z :=
  match cfg_ports c with [] => [443] | l => l end.
Definition udp_ports (c : B4Config) : list Z :=
  match cfg_udp_ports c with [] => [443] | l => l end.

Definition all_sets (c : B4Config) : list B4Set :=
  cfg_sets c ++ omap pt_set (cfg_profiles c).

Definition config_wants_udp (c : B4Config) : bool := existsb wants_udp (all_sets c).

(** ** Host matching *)

Lemma trim_end_dot s : trim_end_matches "." (s +:+ ".") = trim_end_matches "." s.
Proof.
  induction s as [|c s IH]; [done|]. rewrite string_app_cons. cbn [trim_end_matches].
  by rewrite IH.
Qed.

Lemma lower_ascii_dot c : Ascii.eqb (lower_ascii c) "." = Ascii.eqb c ".".
Proof. destruct c as [[] [] [] [] [] [] [] []]; reflexivity. Qed.

Lemma trim_end_lower s :
  trim_end_matches "." (to_ascii_lowercase s) = to_ascii_lowercase (trim_end_matches "." s).
Proof.
  unfold to_ascii_lowercase. induction s as [|c s IH]; [done|].
  cbn [string_map trim_end_matches]. rewrite IH, lower_ascii_dot.
  destruct (trim_end_matches "." s); cbn [string_map]; [|done]. by destruct (Ascii.eqb c ".").
Qed.

Lemma norm_host_lower s : norm_host (to_ascii_lowercase s) = norm_host s.
Proof. unfold norm_host. by rewrite trim_end_lower, to_ascii_lowercase_idemp. Qed.

Lemma norm_host_dot s : norm_host (s +:+ ".") = norm_host s.
Proof. unfold norm_host. by rewrite trim_end_dot. Qed.

Lemma find_spec {A} (f : A -> bool) l x :
  List.find f l = Some x <->
  exists l1 l2, l = l1 ++ x :: l2 /\ f x = true /\ Forall (fun y => f y = false) l1.
Proof.
  induction l as [|a l IH]; cbn.
  - split; [done|]. intros ([|] & l2 & [=] & _).
  - destruct (f a) eqn:Fa.
    + split.
      * intros [= <-]. exists [], l. by split; [|split; [|constructor]].
      * intros ([|b l1] & l2 & [= -> ->] & Hx & Hl); [done|].
        inversion_clear Hl. congruence.
    + rewrite IH. split.
      * intros (l1 & l2 & -> & Hx & Hl). exists (a :: l1), l2.
        by split; [|split; [|constructor]].
      * intros ([|b l1] & l2 & [= -> ->] & Hx & Hl); [congruence|].
        inversion_clear Hl. by exists l1, l2.
Qed.

Lemma find_none {A} (f : A -> bool) l :
  List.find f l = None <-> Forall (fun y => f y = false) l.
Proof.
  induction l as [|a l IH]; cbn; [by split; [constructor|]|].
  rewrite Forall_cons. destruct (f a); rewrite ?IH; split; (intros; try tauto; try discriminate).
  by destruct H.
Qed.

Lemma check_strategies_ok name l :
  check_strategies name l = None ->
  Forall (fun s => forall m, s = MssToml m -> 100 <= m < 1460) l.
Proof.
  induction l as [|[m| |t|] l IH]; cbn [check_strategies]; [constructor|..];
    try (intros H; constructor; [discriminate|auto]).
  case_match; [done|]. intros H'. constructor; [|auto]. intros ? [= <-]. lia.
Qed.

Lemma check_profiles_ok l :
  check_profiles l = None ->
  Forall (fun p => check_strategies (pt_name p) (pt_strategies p) = None) l.
Proof.
  induction l as [|p l IH]; cbn [check_profiles]; [constructor|].
  case_match; [done|]. intros H'. constructor; auto.
Qed.

Lemma check_strategies_err name l e :
  check_strategies name l = Some e ->
  exists m, MssToml m ∈ l /\ ~ 100 <= m < 1460 /\ e = mss_error name m.
Proof.
  assert (Hl : forall s l', (exists m, MssToml m ∈ l' /\ ~ 100 <= m < 1460 /\ e = mss_error name m) ->
    exists m, MssToml m ∈ s :: l' /\ ~ 100 <= m < 1460 /\ e = mss_error name m).
  { intros s l' (m & Hm & H). exists m. split; [by right|done]. }
  induction l as [|[m| |t|] l IH]; cbn [check_strategies]; [done|..]; auto.
  case_match; [|auto]. intros [= <-]. exists m. split; [by left|]. split; [lia|done].
Qed.

Lemma check_profiles_err l e :
  check_profiles l = Some e ->
  exists p, p ∈ l /\ check_strategies (pt_name p) (pt_strategies p) = Some e.
Proof.
  induction l as [|p l IH]; cbn [check_profiles]; [done|]. case_match eqn:E.
  - intros [= <-]. exists p. split; [by left|done].
  - intros (p' & Hp & H)%IH. exists p'. split; [by right|done].
Qed.

(** What it means for a host to belong to a profile: equal to one of its domains
    or below it at a label boundary, ignoring case and trailing dots. *)
Definition belongs (p : Profile) (host : string) : Prop :=
  exists d, d ∈ domains p /\
    (norm_host host = norm_host d \/
     exists pre, norm_host host = pre +:+ "." +:+ norm_host d).

Lemma matches_host_belongs p host : matches_host p host = true <-> belongs p host.
Proof.
  unfold matches_host, belongs. rewrite existsb_exists.
  split; intros (d & Hd & Hm); exists d; rewrite list_elem_of_In in *;
    by rewrite domain_match_spec in *.
Qed.

Lemma specific_spec p host :
  negb (no_domains p) && matches_host p host = true <-> belongs p host.
Proof.
  rewrite andb_true_iff, matches_host_belongs. split; [tauto|]. intros H. split; [|done].
  destruct H as (d & Hd & _). unfold no_domains. by destruct (domains p); [inversion Hd|].
Qed.

(** ** Claims *)

(** [profile_for] picks the first profile whose domains cover the host
    (case- and trailing-dot-insensitive, label-wise suffix), and only when no
    profile covers it the first catch-all; a catch-all never shadows a covering
    profile, wherever it stands in the list. *)
Theorem profile_for_specific_wins c host p :
  profile_for c host = Some p <->
  (exists l1 l2, profiles c = l1 ++ p :: l2 /\ belongs p host /\
     Forall (fun q => ~ belongs q host) l1) \/
  (Forall (fun q => ~ belongs q host) (profiles c) /\
   exists l1 l2, profiles c = l1 ++ p :: l2 /\ domains p = [] /\
     Forall (fun q => domains q <> []) l1).
Proof.
  assert (Hn : forall l, Forall (fun q => negb (no_domains q) && matches_host q host = false) l
    <-> Forall (fun q => ~ belongs q host) l).
  { intros l. apply Forall_iff. intros q. rewrite <- specific_spec. by destruct (_ && _). }
  assert (Hd : forall q, no_domains q = true <-> domains q = [])
    by (intros q; unfold no_domains; by destruct (domains q)).
  assert (Hd' : forall l, Forall (fun q => no_domains q = false) l
    <-> Forall (fun q => domains q <> []) l)
    by (intros l; apply Forall_iff; intros q; rewrite <- Hd; by destruct (no_domains q)).
  unfold profile_for. destruct (List.find _ (profiles c)) as [q|] eqn:Ef.
  - apply find_spec in Ef as (l1 & l2 & El & Hq & Hl1). rewrite specific_spec in Hq.
    rewrite Hn in Hl1. split.
    + intros [= <-]. left. by exists l1, l2.
    + intros [(k1 & k2 & Ek & Hp & Hk1)|(Hall & _)].
      * f_equal. assert (Hfp : List.find (fun p => negb (no_domains p) && matches_host p host)
          (profiles c) = Some p) by (apply find_spec; exists k1, k2;
          by rewrite specific_spec, Hn).
        assert (Hfq : List.find (fun p => negb (no_domains p) && matches_host p host)
          (profiles c) = Some q) by (apply find_spec; exists l1, l2;
          by rewrite specific_spec, Hn).
        congruence.
      * rewrite El, Forall_app, Forall_cons in Hall. tauto.
  - apply find_none in Ef. rewrite Hn in Ef. rewrite find_spec.
    split.
    + intros (l1 & l2 & El & Hp & Hl1). right. split; [done|]. exists l1, l2.
      by rewrite <- Hd, <- Hd'.
    + intros [(k1 & k2 & Ek & Hp & _)|(_ & l1 & l2 & El & Hp & Hl1)].
      * rewrite Ek, Forall_app, Forall_cons in Ef. tauto.
      * exists l1, l2. by rewrite Hd, Hd'.
Qed.

(** A configuration that [B4Config::parse] accepts only holds MSS strategies
    in [[100, 1460)], and so does the engine configuration built from it; a
    rejected one is either a TOML error or names an out-of-range MSS. *)
Theorem parsed_config_mss_in_range toml_from_str raw :
  match B4Config_parse toml_from_str raw with
  | inr cfg =>
      toml_from_str raw = inr cfg /\
      forall p m, p ∈ profiles (into_engine cfg) -> Mss m ∈ strategies p -> 100 <= m < 1460
  | inl e =>
      (exists t, toml_from_str raw = inl t /\ e = "b4 config parse error: " +:+ t) \/
      exists cfg p m, toml_from_str raw = inr cfg /\ p ∈ cfg_profiles cfg /\
        MssToml m ∈ pt_strategies p /\ ~ 100 <= m < 1460 /\ e = mss_error (pt_name p) m
  end.
Proof.
  unfold B4Config_parse. destruct (toml_from_str raw) as [t|c] eqn:Et; [left; eauto|].
  destruct (check_profiles (cfg_profiles c)) as [e|] eqn:Ec.
  { right. apply check_profiles_err in Ec as (p & Hp & Ec).
    apply check_strategies_err in Ec as (m & Hm & Hr & ->). by exists c, p, m. }
  split; [done|].
  intros p m Hp Hm. apply check_profiles_ok in Ec. unfold into_engine in Hp. cbn in Hp.
  apply list_elem_of_fmap in Hp as (pt & -> & Hpt). cbn in Hm.
  apply list_elem_of_fmap in Hm as (st & Hst & Hin).
  rewrite Forall_forall in Ec. specialize (Ec pt Hpt).
  apply check_strategies_ok in Ec. rewrite Forall_forall in Ec. apply (Ec st Hin).
  destruct st; cbn in Hst; try discriminate. by injection Hst as ->.
Qed.
