(* ===== verification/Strategies.v ===== *)
(** * Applying strategies to packets

    [Strategy::apply]/[mutate] ([crates/balansir-b4/src/strategies.rs]) and the
    strategy-set planes [apply_tcp], [fragment_for], [apply_udp] and
    [fake_quic_packet_for] ([set_apply.rs]). *)

From S2P Require Import Prelude Packet Checksum TcpOptions B4Set.

(** ** [strategies.rs] *)

(** [pkt.raw[8] = ttl] when it differs. *)
Definition set_ttl (p : TcpPacket) (ttl : Z) : exec (TcpPacket * bool) :=
  old ← idx (raw p) 8;
  if negb (old =? ttl) then
    r ← set_idx (raw p) 8 ttl; Val (with_raw p r, true)
  else Val (p, false).

Definition Strategy_apply (s : Strategy) (p : TcpPacket) : exec (TcpPacket * bool) :=
  match s with
  | Mss mss => set_mss p mss
  | StripSack => strip_option p SACK_PERMITTED
  | Ttl ttl => set_ttl p ttl
  | Noop => Val (p, false)
  end.

Definition Strategy_mutate (s : Strategy) (p : TcpPacket) : exec (option (list Z)) :=
  '(copy, changed) ← Strategy_apply s p;
  if changed : bool then
    copy ← fix_ipv4_checksum copy;
    copy ← fix_tcp_checksum copy;
    Val (Some (raw copy))
  else Val None.

(** ** [set_apply.rs] *)

Inductive ApplyOutcome :=
| Pass
| Mutated (r : list Z)
| Fragment (f1 f2 : list Z)
| Drop.

Definition tcp_in_scope (s : B4Set) (_ : TcpPacket) : bool := wants_tcp s.

Definition default_mss_for (plan : FragmentationPlane) : option Z :=
  if String.eqb (frag_strategy plan) EmptyString || String.eqb (frag_strategy plan) "none"
  then None else Some 1200.

(** The SYN plane of [apply_tcp]. *)
Definition apply_syn (s : B4Set) (p : TcpPacket) : exec (TcpPacket * bool) :=
  '(p, c1) ← (match default_mss_for (set_fragmentation s) with
              | Some mss => set_mss p mss
              | None => Val (p, false)
              end);
  '(p, c2) ← (if drop_sack (set_tcp s) then strip_option p SACK_PERMITTED
              else Val (p, false));
  '(p, c3) ← (if negb (syn_ttl (set_tcp s) =? 0) then set_ttl p (syn_ttl (set_tcp s))
              else Val (p, false));
  Val (p, c1 || c2 || c3).

(** The faking plane of [apply_tcp]: the past-sequence offset. *)
Definition apply_pastseq (s : B4Set) (p : TcpPacket) : exec (TcpPacket * bool) :=
  seq ← tcp_seq p;
  let offset := seq_offset (set_faking s) in
  if 0 <? offset then p ← set_tcp_seq p (u32 (seq + offset)); Val (p, true)
  else Val (p, false).

Definition apply_tcp (s : B4Set) (p : TcpPacket) (is_syn is_first_seg : bool)
  : exec ApplyOutcome :=
  if negb (wants_tcp s) then Val Pass else
  '(m, changed) ← (if is_syn then apply_syn s p else Val (p, false));
  '(m, changed') ← (if is_first_seg && faking_sni (set_faking s)
                       && String.eqb (fak_strategy (set_faking s)) "pastseq"
                    then apply_pastseq s m else Val (m, false));
  if changed || changed' then
    m ← fix_ipv4_checksum m;
    m ← fix_tcp_checksum m;
    Val (Mutated (raw m))
  else Val Pass.

Definition combo_split_point (c : ComboPlane) (payload_len : Z) : Z :=
  if first_byte_split c then Z.min 1 (sat_sub payload_len 1)
  else if extension_split c && (2 <=? payload_len)
  then Z.min (Z.max (payload_len / 3) 1) (sat_sub payload_len 1)
  else payload_len / 2.

Definition fragment_for (s : B4Set) (p : TcpPacket) : exec (option (list Z * list Z)) :=
  if negb (wants_tcp s) then Val None else
  let plan := set_fragmentation s in
  if negb (String.eqb (frag_strategy plan) "combo")
     && negb (String.eqb (frag_strategy plan) "disorder") then Val None else
  payload ← tcp_payload p;
  if (len payload =? 0) || (len payload <? 2) then Val None else
  let split_at := combo_split_point (combo plan) (len payload) in
  if (split_at =? 0) || (len payload <=? split_at) then Val None
  else fragment_tcp_payload p split_at.

Definition apply_udp (s : B4Set) (p : UdpPacket) : exec ApplyOutcome :=
  if negb (wants_udp s) then Val Pass else
  port ← udp_dst_port p;
  if negb (port =? 443) then Val Pass else Val (Mutated []).

Definition fake_quic_packet_for (clock : nat -> Z) (s : B4Set) (p : UdpPacket)
  : exec (option (list Z)) :=
  if negb (wants_udp s) then Val None else
  port ← udp_dst_port p;
  if negb (port =? 443) then Val None else
  let payload_len := Z.max (fake_len (set_udp s)) 1 in
  src ← udp_src_ip p; dst ← udp_dst_ip p; sp ← udp_src_port p; dp ← udp_dst_port p;
  pkt ← build_fake_quic_packet clock src dst sp dp payload_len;
  Val (Some pkt).

(** ** What a mutation preserves *)

(** [q] still parses, with the addresses, ports and payload of [p]. *)
Record preserved (p q : TcpPacket) : Prop := {
  pv_wf : tcp_wf q;
  pv_hdr : tcp_hdr q;
  pv_off : tcp_offset q = tcp_offset p;
  pv_len : len (raw q) <= len (raw p) < 65536;
  pv_total : ip_header_len q <= total_field q <= len (raw q);
  pv_bytes : forall j, 12 <= j < tcp_offset p + 4 -> byte_at (raw q) j = byte_at (raw p) j;
  pv_payload : tcp_payload q = tcp_payload p
}.

Lemma preserved_trans p q r : preserved p q -> preserved q r -> preserved p r.
Proof.
  intros [] []. split; try done; try lia; try congruence.
  intros j Hj. rewrite pv_bytes1 by lia. by apply pv_bytes0.
Qed.

Lemma parsed_total r p :
  Forall is_byte r -> TcpPacket_parse r = Val (Some p) ->
  ip_header_len p <= total_field p <= len (raw p).
Proof.
  intros Hb Hp. unfold TcpPacket_parse in Hp.
  repeat (case_match; [done|]; exec_inv).
  repeat match goal with H : idx _ _ = Val _ |- _ => apply idx_byte_at_inv in H; subst end.
  cbn [raw ip_header_len]. unfold total_field. cbn [raw]. lia.
Qed.

Lemma preserved_refl r p :
  Forall is_byte r -> len r < 65536 -> TcpPacket_parse r = Val (Some p) -> preserved p p.
Proof.
  intros Hb Hl Hp. pose proof (parsed_total r p Hb Hp).
  destruct (TcpPacket_parse_Some r p Hb Hp) as (W & H' & <-). by split.
Qed.

(** Rewriting bytes outside the fields [preserved] speaks about. *)
Lemma preserved_with_raw p r' :
  preserved p p -> Forall is_byte r' -> len r' = len (raw p) ->
  (forall j, 0 <= j < tcp_offset p + 13 -> j <> 8 -> j <> 10 -> j <> 11 ->
     ~ (tcp_offset p + 4 <= j < tcp_offset p + 12) -> byte_at r' j = byte_at (raw p) j) ->
  drop (Z.to_nat (tcp_offset p + tcp_header_len p)) r'
    = drop (Z.to_nat (tcp_offset p + tcp_header_len p)) (raw p) ->
  preserved p (with_raw p r').
Proof.
  intros [W H _ Hs Ht _ _] Hb Hl Hj Hd. pose proof W as [_ Hi _ Ho Hh _ _].
  pose proof (with_raw_wf p r' W Hb Hl) as W'. destruct H as [Hv Hp Hdo Hd4 Hf].
  unfold total_field in Ht.
  split; try done; cbn [with_raw raw ip_header_len tcp_offset tcp_header_len].
  - split; cbn [with_raw raw ip_header_len tcp_offset tcp_header_len tcp_doff_field];
      rewrite ?Hj by lia; done.
  - lia.
  - unfold total_field. cbn [raw with_raw]. rewrite !Hj by lia. by rewrite Hl.
  - intros j Hr. apply Hj; lia.
  - rewrite !tcp_payload_eq by done. cbn [with_raw raw tcp_offset tcp_header_len].
    by rewrite Hd.
Qed.

(** The same, for a rewrite that leaves every byte from the payload on. *)
Lemma preserved_bytes p r' :
  preserved p p -> Forall is_byte r' -> len r' = len (raw p) ->
  (forall j, 0 <= j -> j <> 8 -> j <> 10 -> j <> 11 ->
     ~ (tcp_offset p + 4 <= j < tcp_offset p + 12) ->
     ~ (tcp_offset p + 16 <= j < tcp_offset p + 18) -> byte_at r' j = byte_at (raw p) j) ->
  preserved p (with_raw p r').
Proof.
  intros Hp Hb Hl Hj. pose proof (pv_wf p p Hp) as [].
  apply preserved_with_raw; try done.
  - intros. apply Hj; lia.
  - apply drop_ext; [done|lia|]. intros. apply Hj; lia.
Qed.

Lemma preserved_self p q : preserved p q -> preserved q q.
Proof. intros []. split; try done; lia. Qed.

Lemma set_ttl_preserves p ttl :
  preserved p p -> is_byte ttl ->
  exists q b, set_ttl p ttl = Val (q, b) /\ preserved p q /\
    option_area q = option_area p.
Proof.
  intros Hp Ht. pose proof (pv_wf p p Hp) as []. unfold set_ttl.
  rewrite idx_byte_at, bind_Val_l by lia. case_match; [|by eexists _, _].
  rewrite set_idx_eq, bind_Val_l by lia. eexists _, _. split; [done|].
  split; [|unfold option_area, area; cbn [with_raw raw tcp_offset tcp_header_len];
           by rewrite drop_insert_lt by lia].
  apply preserved_bytes; [done|by apply Forall_insert|apply len_insert|].
  intros. apply byte_at_insert_ne; lia.
Qed.

Lemma set_mss_preserves p mss :
  preserved p p ->
  exists q b, set_mss p mss = Val (q, b) /\ preserved p q /\
    opts_ok (option_area q) = opts_ok (option_area p).
Proof.
  intros Hp. pose proof (pv_wf p p Hp) as W.
  destruct (set_mss_ok p mss W) as (q & b & -> & _ & Hq & Wq & Hok & _ & Hpay & Hl & Hj).
  eexists _, _. split; [done|]. split; [|done]. pose proof W as []. rewrite Hq.
  apply preserved_with_raw; [done|apply Wq|done|intros; apply Hj; lia|].
  rewrite Hq in Hpay, Wq. rewrite !tcp_payload_eq in Hpay by done. by injection Hpay.
Qed.

Lemma strip_sack_preserves p :
  preserved p p -> opts_ok (option_area p) = true ->
  exists q b, strip_option p SACK_PERMITTED = Val (q, b) /\ preserved p q /\
    opts_ok (option_area q) = true.
Proof.
  intros Hp Hok. pose proof Hp as [W H _ Hs Ht _ _].
  destruct (strip_option_ok p SACK_PERMITTED W H Hok)
    as (q & b & -> & _ & Wq & Hq & Hl & Ho & Hj & Hb & Hok' & _ & Hpay);
    [unfold SACK_PERMITTED; lia|].
  eexists _, _. split; [done|]. split; [|done]. pose proof W as []. pose proof Wq as [].
  destruct b; [|by subst q]. split; try done.
  - lia.
  - rewrite Hb, wrap_small by (pose proof (len_nonneg (raw q)); lia). lia.
  - intros j Hj'. apply Hj; lia.
Qed.

Lemma set_tcp_seq_preserves p seq :
  preserved p p -> exists q, set_tcp_seq p seq = Val q /\ preserved p q.
Proof.
  intros Hp. pose proof (pv_wf p p Hp) as []. unfold set_tcp_seq.
  rewrite copy_from_slice_eq, bind_Val_l by (rewrite ?len_to_be32; lia).
  eexists. split; [done|]. apply preserved_bytes; [done|apply patch_bytes; auto with balansir| |].
  - unfold len in *. rewrite !length_app, length_take, length_drop. cbn [length to_be32]. lia.
  - intros. apply byte_at_patch_out; unfold len in *; cbn [length to_be32]; lia.
Qed.

Lemma checksums_preserve p :
  preserved p p ->
  exists q, (m ← fix_ipv4_checksum p; fix_tcp_checksum m) = Val q /\ preserved p q /\
    ipv4_checksum_valid q.
Proof.
  intros Hp. pose proof Hp as [W _ _ Hs _ _ _]. pose proof W as [Hb Hi Hi4 Ho Hh Hl Hc].
  destruct (fix_ipv4_checksum_spec p) as (c & Hcr & -> & _); try done; [lia|].
  rewrite bind_Val_l. set (m := with_raw p _).
  assert (Hm : preserved p m).
  { apply preserved_bytes; [done|apply patch_bytes; auto with balansir| |].
    - apply (patch_len _ _ 10). unfold len in *. lia.
    - intros. apply byte_at_patch_out; [done|unfold len in *; lia..]. }
  pose proof (preserved_self p m Hm) as Hmm. pose proof (pv_len p m Hm).
  destruct (fix_tcp_checksum_spec m (pv_wf p m Hm)) as (q & -> & Hq & Wq & Hlq & Hv & _ & _ & Hj);
    [lia|].
  exists q. split; [done|]. split; [|done]. apply (preserved_trans p m); [done|].
  rewrite Hq. apply preserved_bytes; [done|apply Wq|done|]. intros. apply Hj; lia.
Qed.

(** Sets as deserialised: the byte and word fields are in range. *)
Record set_wf (s : B4Set) : Prop := {
  sw_ttl : is_byte (syn_ttl (set_tcp s));
  sw_offset : 0 <= seq_offset (set_faking s) < 2 ^ 32
}.

Lemma apply_syn_preserves s p :
  set_wf s -> preserved p p -> opts_ok (option_area p) = true ->
  exists q b, apply_syn s p = Val (q, b) /\ preserved p q.
Proof.
  intros Hs Hp Hok. unfold apply_syn.
  assert (H1 : exists q b, (match default_mss_for (set_fragmentation s) with
      | Some mss => set_mss p mss | None => Val (p, false) end) = Val (q, b) /\
      preserved p q /\ opts_ok (option_area q) = true).
  { case_match; [|by eexists _, _].
    destruct (set_mss_preserves p z Hp) as (q & b & H1 & H2 & H3). exists q, b. by rewrite H3. }
  destruct H1 as (q1 & b1 & -> & P1 & Ok1). rewrite bind_Val_l.
  pose proof (preserved_self _ _ P1) as S1.
  assert (H2 : exists q b, (if drop_sack (set_tcp s) then strip_option q1 SACK_PERMITTED
      else Val (q1, false)) = Val (q, b) /\ preserved q1 q).
  { case_match; [|by eexists _, _].
    destruct (strip_sack_preserves q1) as (q & b & ? & ? & _); [done..|by exists q, b]. }
  destruct H2 as (q2 & b2 & -> & P2). rewrite bind_Val_l.
  pose proof (preserved_self _ _ P2) as S2.
  assert (H3 : exists q b, (if negb (syn_ttl (set_tcp s) =? 0)
      then set_ttl q2 (syn_ttl (set_tcp s)) else Val (q2, false)) = Val (q, b) /\ preserved q2 q).
  { case_match; [|by eexists _, _].
    destruct (set_ttl_preserves q2 (syn_ttl (set_tcp s)) S2 (sw_ttl s Hs)) as (q & b & ? & ? & _).
    by exists q, b. }
  destruct H3 as (q3 & b3 & -> & P3). rewrite bind_Val_l.
  eexists _, _. split; [done|]. by apply (preserved_trans _ q1), (preserved_trans _ q2).
Qed.

Lemma apply_pastseq_preserves s p :
  preserved p p -> exists q b, apply_pastseq s p = Val (q, b) /\ preserved p q.
Proof.
  intros Hp. pose proof (pv_wf p p Hp) as []. unfold apply_pastseq, tcp_seq, read_be32.
  exec_reads. case_match; [|by eexists _, _].
  edestruct set_tcp_seq_preserves as (q & -> & Hq); [done|]. rewrite bind_Val_l.
  by eexists _, _.
Qed.

(** [apply_tcp] passes the packet or returns a mutation of it. *)
Lemma apply_tcp_outcome s p is_syn is_first :
  set_wf s -> preserved p p -> opts_ok (option_area p) = true ->
  exists o, apply_tcp s p is_syn is_first = Val o /\
    (o = Pass \/ exists q, o = Mutated (raw q) /\ preserved p q /\ ipv4_checksum_valid q).
Proof.
  intros Hs Hp Hok. unfold apply_tcp. case_match; [by eexists; split; [|left]|].
  assert (H1 : exists q b, (if is_syn then apply_syn s p else Val (p, false)) = Val (q, b) /\
    preserved p q) by (case_match; [by apply apply_syn_preserves|by eexists _, _]).
  destruct H1 as (q1 & b1 & -> & P1). rewrite bind_Val_l.
  pose proof (preserved_self _ _ P1) as S1.
  assert (H2 : exists q b, (if is_first && faking_sni (set_faking s)
      && String.eqb (fak_strategy (set_faking s)) "pastseq"
      then apply_pastseq s q1 else Val (q1, false)) = Val (q, b) /\ preserved q1 q)
    by (case_match; [by apply apply_pastseq_preserves|by eexists _, _]).
  destruct H2 as (q2 & b2 & -> & P2). rewrite bind_Val_l. case_match; [|by eexists; split; [|left]].
  destruct (checksums_preserve q2 (preserved_self _ _ P2)) as (q3 & Hq3 & P3 & V3).
  apply bind_Val in Hq3 as (m & Hm & Hq3). rewrite Hm, bind_Val_l, Hq3, bind_Val_l.
  eexists. split; [done|]. right. exists q3. split; [done|]. split; [|done].
  by apply (preserved_trans _ q1), (preserved_trans _ q2).
Qed.


(** The parse of a preserved packet. *)
Lemma preserved_parses p q :
  preserved p q ->
  exists q', TcpPacket_parse (raw q) = Val (Some q') /\ raw q' = raw q /\
    tcp_offset q' = tcp_offset q /\ ip_header_len q' = ip_header_len q /\
    src_ip q' = src_ip p /\ dst_ip q' = dst_ip p /\
    src_port q' = src_port p /\ dst_port q' = dst_port p /\ tcp_payload q' = tcp_payload p.
Proof.
  intros [W H Ho Hl Ht Hj Hpay]. eexists. split; [by apply TcpPacket_parse_hdr|].
  pose proof W as []. do 3 (split; [done|]).
  unfold src_ip, dst_ip, src_port, dst_port, read_ip, read_be16. cbn [raw tcp_offset].
  exec_reads. rewrite Ho, !Hj by lia. rewrite <- Hpay. do 4 (split; [done|]).
  unfold tcp_payload. cbn [raw tcp_offset tcp_header_len]. by rewrite Ho.
Qed.

(** ** Claims *)

(** C20.  [apply_tcp] on any parsed packet with well-formed options and any set
    returns; it either passes the packet or replaces it by one that parses again,
    belongs to the same connection (addresses and ports), carries the same payload
    and has a valid IPv4 header checksum.  It never drops or fragments. *)
Theorem apply_tcp_keeps_flow_and_payload s r p is_syn is_first :
  set_wf s -> Forall is_byte r -> len r < 65536 -> TcpPacket_parse r = Val (Some p) ->
  opts_ok (option_area p) = true ->
  exists o, apply_tcp s p is_syn is_first = Val o /\
    (o = Pass \/
     exists r' q, o = Mutated r' /\ TcpPacket_parse r' = Val (Some q) /\
       src_ip q = src_ip p /\ dst_ip q = dst_ip p /\
       src_port q = src_port p /\ dst_port q = dst_port p /\
       tcp_payload q = tcp_payload p /\ ipv4_checksum_valid q).
Proof.
  intros Hs Hb Hl Hp Hok.
  destruct (apply_tcp_outcome s p is_syn is_first Hs (preserved_refl r p Hb Hl Hp) Hok)
    as (o & Ho & [->|(q & -> & Hq & Hv)]); eexists; (split; [done|]); [by left|right].
  destruct (preserved_parses p q Hq) as (q' & Hq' & Hr & _ & Hi & Hrest).
  exists (raw q), q'. split; [done|]. split; [done|]. unfold ipv4_checksum_valid in *.
  rewrite Hr, Hi. by destruct Hrest as (-> & -> & -> & -> & ->).
Qed.

Definition example_set : B4Set :=
  mkB4Set None "yt"
    (mkTcpPlane 0 0 0 false 0 7 true (mkIncoming "off" 0 0 0 0 "badsum")
       (mkDesync "off" 0 0 false) (mkWin "off" []) (mkDuplicate false 0))
    (mkUdpPlane "fake" 6 64 "none" EmptyString "parse" true 0 0 0)
    (mkFragmentation "combo" true 0 true 1 0 120 []
       (mkCombo true true "full" 30 1000 false []) (mkDisorder "full" 0 0))
    (mkFaking true 8 "pastseq" 10000 1 3 EmptyString EmptyString [] 0
       (mkSniMutation "off" 0 0 0 []) true)
    (mkTargets [] [] ["youtube"%string] []) true (mkDnsPlane false EmptyString false).

Lemma apply_tcp_keeps_flow_and_payload_witness :
  exists r' q, apply_tcp example_set (mkTcp syn_sack 20 48 20 28 32 (10, 36)) true false
    = Val (Mutated r') /\ TcpPacket_parse r' = Val (Some q) /\ ipv4_checksum_valid q.
Proof.
  destruct (apply_tcp_keeps_flow_and_payload example_set syn_sack
    (mkTcp syn_sack 20 48 20 28 32 (10, 36)) true false) as (o & Ho & [->|H]).
  - split; vm_compute; repeat split; intros [=].
  - vm_compute. repeat constructor; intros [=].
  - reflexivity.
  - reflexivity.
  - reflexivity.
  - vm_compute in Ho. discriminate Ho.
  - destruct H as (r' & q & -> & H1 & _ & _ & _ & _ & _ & H2). exists r', q.
    split; [exact Ho|]. split; [exact H1|exact H2].
Defined.

(** The TTL strategy rewrites a byte the TCP checksum does not cover, yet
    the replacement's TCP checksum is valid only when the original field was [0]
    or [0xffff]: every ordinary segment with a correct checksum leaves the engine
    with a wrong one. *)
Theorem ttl_strategy_breaks_tcp_checksum r p ttl :
  Forall is_byte r -> len r < 65536 -> TcpPacket_parse r = Val (Some p) ->
  is_byte ttl -> byte_at r 8 <> ttl ->
  exists q, Strategy_mutate (Ttl ttl) p = Val (Some (raw q)) /\ tcp_wf q /\
    (tcp_checksum_valid q <-> tcp_checksum_field p = 0 \/ tcp_checksum_field p = 0xffff).
Proof.
  intros Hb Hl Hp Ht Hne. pose proof (preserved_refl r p Hb Hl Hp) as Pp.
  destruct (TcpPacket_parse_Some r p Hb Hp) as (W & _ & <-). pose proof W as [Hb' Hi Hi4 Ho Hh Hln Hc].
  unfold Strategy_mutate, Strategy_apply, set_ttl. rewrite idx_byte_at, bind_Val_l by lia.
  replace (byte_at (raw p) 8 =? ttl) with false by lia. cbn [negb].
  rewrite set_idx_eq, !bind_Val_l by lia. set (m := with_raw p _).
  assert (Hlm : len (raw m) = len (raw p)) by apply len_insert.
  assert (Wm : tcp_wf m) by (apply with_raw_wf; [done|by apply Forall_insert|done]).
  destruct (fix_ipv4_checksum_spec m) as (c & Hcr & -> & _); try done; [apply Wm|rewrite Hlm; change (ip_header_len m) with (ip_header_len p); lia|].
  rewrite bind_Val_l. set (m' := with_raw m _).
  assert (Hlm' : len (raw m') = len (raw m)) by (apply (patch_len (raw m) c 10); unfold len in *; lia).
  assert (Wm' : tcp_wf m')
    by (apply with_raw_wf; [done|apply patch_bytes; [apply Wm|auto with balansir]|done]).
  destruct (fix_tcp_checksum_iff m' Wm') as (q & -> & _ & Wq & _ & Hiff); [lia|].
  rewrite bind_Val_l. exists q. split; [done|]. split; [done|]. rewrite Hiff.
  assert (Hf : tcp_checksum_field m' = tcp_checksum_field p); [|by rewrite Hf].
  unfold tcp_checksum_field. cbn [m' m with_raw raw tcp_offset].
  rewrite !byte_at_patch_ge by (rewrite ?length_insert; done || unfold len in *; lia).
  by rewrite !byte_at_insert_ne by lia.
Qed.

Definition ack_with_checksum : list Z :=
  [0x45; 0; 0; 40; 0; 1; 0x40; 0; 64; 6; 38; 205; 10; 0; 0; 1; 10; 0; 0; 2;
   0; 80; 1; 187; 0; 0; 0; 7; 0; 0; 0; 9; 0x50; 0x10; 1; 0; 152; 183; 0; 0].

Lemma ttl_strategy_breaks_tcp_checksum_witness :
  let p := mkTcp ack_with_checksum 20 40 20 20 32 (10, 36) in
  tcp_checksum_valid p /\
  exists q, Strategy_mutate (Ttl 7) p = Val (Some (raw q)) /\ ~ tcp_checksum_valid q.
Proof.
  cbv zeta. split; [vm_compute; split; reflexivity|].
  destruct (ttl_strategy_breaks_tcp_checksum ack_with_checksum
    (mkTcp ack_with_checksum 20 40 20 20 32 (10, 36)) 7) as (q & H1 & _ & H2).
  - vm_compute. repeat constructor; intros [=].
  - reflexivity.
  - reflexivity.
  - vm_compute. split; [intros [=]|reflexivity].
  - vm_compute. intros [=].
  - exists q. split; [exact H1|]. rewrite H2. vm_compute. intros [[=]|[=]].
Defined.
