(* ===== verification/Geosite.v ===== *)
(** * Geosite categories

    [crates/balansir-b4/src/geosite.rs]: the category store, its text format and
    the [include:] resolution.  The category directory is a finite map from
    category name to file contents; [BTreeSet]/[BTreeMap] are [gset]/[gmap]. *)

From S2P Require Import Prelude B4Set.
#[local] Open Scope Z_scope.

(** ** Categories *)

Record GeositeCategory := mkCat {
  cat_name : string;
  exact : gset string;
  suffixes : gset string;
  keywords : gset string;
  loaded : bool
}.

Definition empty_cat (name : string) : GeositeCategory := mkCat name ∅ ∅ ∅ true.

Definition cat_matches (c : GeositeCategory) (host : string) : bool :=
  let h := norm_host host in
  if bool_decide (h ∈ exact c) then true
  else if existsb (fun s => domain_match h s) (elements (suffixes c)) then true
  else existsb (fun k => contains h k) (elements (keywords c)).

Definition domain_count (c : GeositeCategory) : Z :=
  Z.of_nat (size (exact c)) + Z.of_nat (size (suffixes c)).

Record GeositeStore := mkStore {
  categories : gmap string GeositeCategory;
  store_dir : string
}.

Definition empty_store : GeositeStore := mkStore ∅ EmptyString.

Definition builtin_rules (name : string) : option (list string) :=
  if String.eqb name "youtube" then
    Some ["youtube.com"; "youtube-nocookie.com"; "googlevideo.com"; "ytimg.com";
          "youtu.be"; "ggpht.com"; "youtubei.googleapis.com"; "youtube.googleapis.com";
          "googlesyndication.com"]%string
  else if String.eqb name "discord" then
    Some ["discord.com"; "discordapp.com"; "discord.gg"; "discord.media";
          "discordapp.net"; "discordstatus.com"; "discord.co"; "discord.gifts";
          "discordmerch.com"]%string
  else if String.eqb name "google" then
    Some ["google.com"; "googleapis.com"; "googleusercontent.com"; "gstatic.com";
          "google.ru"; "google.de"; "ggpht.com"; "google-analytics.com";
          "googletagmanager.com"; "1e100.net"]%string
  else if String.eqb name "cloudflare" then
    Some ["cloudflare.com"; "cloudflare-dns.com"; "cloudflareclient.com";
          "cloudflareinsights.com"; "workers.dev"; "cf-ipfs.com"]%string
  else if String.eqb name "twitter" then
    Some ["twitter.com"; "x.com"; "twimg.com"; "t.co"; "twittervid.com"]%string
  else None.

Definition add_builtin (name : string) (s : GeositeStore) : GeositeStore :=
  match builtin_rules name with
  | None => s
  | Some rules =>
      mkStore (<[name := mkCat name ∅ (list_to_set rules) ∅ true]> (categories s)) (store_dir s)
  end.

(** One rule line of a category file, other than an include. *)
Definition add_rule (line : string) (c : GeositeCategory) : GeositeCategory :=
  match strip_prefix "+." line with
  | Some suffix =>
      mkCat (cat_name c) (exact c) ({[ to_ascii_lowercase suffix ]} ∪ suffixes c)
            (keywords c) (loaded c)
  | None =>
  match strip_prefix "full:" line with
  | Some full =>
      mkCat (cat_name c) ({[ to_ascii_lowercase full ]} ∪ exact c) (suffixes c)
            (keywords c) (loaded c)
  | None =>
  match strip_prefix "keyword:" line with
  | Some kw =>
      mkCat (cat_name c) (exact c) (suffixes c)
            ({[ to_ascii_lowercase kw ]} ∪ keywords c) (loaded c)
  | None =>
      if starts_with line "regexp:" || starts_with line "domain:" then
        match strip_prefix "domain:" line with
        | Some d =>
            mkCat (cat_name c) (exact c) ({[ to_ascii_lowercase d ]} ∪ suffixes c)
                  (keywords c) (loaded c)
        | None => c
        end
      else if negb (starts_with line "+") then
        mkCat (cat_name c) ({[ to_ascii_lowercase line ]} ∪ exact c) (suffixes c)
              (keywords c) (loaded c)
      else c
  end end end.

(** The line loop of [parse_category_source]; [rec] parses an included file. *)
Fixpoint parse_lines (rec : string -> string -> GeositeStore -> option GeositeStore)
    (fs : gmap string string) (ls : list string) (s : GeositeStore) (cat : GeositeCategory)
  : option (GeositeStore * GeositeCategory) :=
  match ls with
  | [] => Some (s, cat)
  | line :: ls' =>
      let line := trim line in
      if String.eqb line EmptyString || starts_with line "#" then parse_lines rec fs ls' s cat
      else match strip_prefix "include:" line with
           | Some included =>
               match fs !! included with
               | Some inc_raw =>
                   s ← rec included inc_raw s;
                   parse_lines rec fs ls' s cat
               | None => parse_lines rec fs ls' s cat
               end
           | None => parse_lines rec fs ls' s (add_rule line cat)
           end
  end.

(** [parse_category_source].  [fs] is the category directory; the result is
    [None] only when the fuel runs out ([parse_source_enough_fuel]). *)
Fixpoint parse_category_source (fuel : nat) (fs : gmap string string) (name source : string)
    (seen : gset string) (s : GeositeStore) : option GeositeStore :=
  match fuel with
  | O => None
  | S fuel' =>
      if bool_decide (name ∈ seen) then Some s else
      let seen := {[ name ]} ∪ seen in
      let cat := default (empty_cat name) (categories s !! name) in
      '(s, cat) ← parse_lines
                    (fun inc raw s => parse_category_source fuel' fs inc raw seen s)
                    fs (lines source) s cat;
      Some (mkStore (<[name := cat]> (categories s)) (store_dir s))
  end.

(** [load_dir]: every file of the directory, in directory order. *)
Fixpoint load_files (fuel : nat) (fs : gmap string string) (pending : list (string * string))
    (s : GeositeStore) : option GeositeStore :=
  match pending with
  | [] => Some s
  | (name, raw) :: pending' =>
      s ← parse_category_source fuel fs name raw ∅ s;
      load_files fuel fs pending' s
  end.

Definition load_dir (fs : gmap string string) (order : list (string * string))
  : GeositeStore -> option GeositeStore := load_files (S (S (size fs))) fs order.

Definition load (fs : gmap string string) (order : list (string * string)) (dir : string)
  : option GeositeStore :=
  let s := mkStore ∅ dir in
  let s := add_builtin "youtube" s in
  let s := add_builtin "discord" s in
  let s := add_builtin "google" s in
  let s := add_builtin "cloudflare" s in
  let s := add_builtin "twitter" s in
  load_dir fs order s.

Definition store_get (s : GeositeStore) (name : string) : option GeositeCategory :=
  categories s !! name.
Definition store_has (s : GeositeStore) (name : string) : bool :=
  bool_decide (is_Some (categories s !! name)).

(** ** Termination of include resolution *)

Lemma parse_lines_some rec fs ls s cat :
  (forall inc raw s, fs !! inc = Some raw -> is_Some (rec inc raw s)) ->
  is_Some (parse_lines rec fs ls s cat).
Proof.
  intros Hrec. revert s cat. induction ls as [|line ls IH]; intros s cat; cbn [parse_lines];
    [eauto|].
  case_match; [apply IH|]. case_match; [|apply IH].
  destruct (fs !! s0) as [raw|] eqn:Ef; [|apply IH].
  destruct (Hrec s0 raw s Ef) as [s' ->]. cbn. apply IH.
Qed.

Lemma parse_source_included fuel fs name source seen s :
  name ∈ dom fs -> (size (dom fs ∖ seen) < fuel)%nat ->
  is_Some (parse_category_source fuel fs name source seen s).
Proof.
  revert name source seen s. induction fuel as [|fuel IH]; intros name source seen s Hn Hf; [lia|].
  cbn. case_bool_decide as Hs; [done|].
  destruct (parse_lines_some
    (fun inc raw s => parse_category_source fuel fs inc raw ({[name]} ∪ seen) s) fs
    (lines source) s (default (empty_cat name) (categories s !! name))) as [[s' c'] ->]; [|done].
  intros inc raw s0 Hi. apply IH; [by apply elem_of_dom|].
  assert (size (dom fs ∖ ({[name]} ∪ seen)) < size (dom fs ∖ seen))%nat; [|lia].
  apply subset_size. set_solver.
Qed.

Lemma parse_source_enough_fuel fs name source s :
  is_Some (parse_category_source (S (S (size fs))) fs name source ∅ s).
Proof.
  cbn. destruct (parse_lines_some
    (fun inc raw s => parse_category_source (S (size fs)) fs inc raw ({[name]} ∪ ∅) s) fs
    (lines source) s (default (empty_cat name) (categories s !! name))) as [[s' c'] Hp];
    [|cbn in Hp; by rewrite Hp].
  intros inc raw s0 Hi. apply parse_source_included; [by apply elem_of_dom|].
  pose proof (subseteq_size (dom fs ∖ ({[name]} ∪ ∅)) (dom fs) ltac:(set_solver)) as Hsz.
  rewrite size_dom in Hsz. lia.
Qed.

(** ** Rules only grow *)

Definition cat_le (c d : GeositeCategory) : Prop :=
  exact c ⊆ exact d /\ suffixes c ⊆ suffixes d /\ keywords c ⊆ keywords d.

#[export] Instance cat_le_preorder : PreOrder cat_le.
Proof. split; [done|]. intros a b c (? & ? & ?) (? & ? & ?). split_and!; set_solver. Qed.

Lemma add_rule_le line c : cat_le c (add_rule line c).
Proof. unfold add_rule, cat_le. repeat case_match; cbn; split_and!; set_solver. Qed.

(** [s'] extends [s], and leaves the categories of [seen] alone. *)
Definition store_ext (seen : gset string) (s s' : GeositeStore) : Prop :=
  forall n c, categories s !! n = Some c ->
    exists c', categories s' !! n = Some c' /\ cat_le c c' /\ (n ∈ seen -> c' = c).

Lemma store_ext_refl seen s : store_ext seen s s.
Proof. intros n c H. by exists c. Qed.

Lemma store_ext_trans seen s1 s2 s3 :
  store_ext seen s1 s2 -> store_ext seen s2 s3 -> store_ext seen s1 s3.
Proof.
  intros H1 H2 n c H. destruct (H1 n c H) as (c' & H' & Hle & Hs).
  destruct (H2 n c' H') as (c'' & H'' & Hle' & Hs'). exists c''.
  split; [done|]. split; [by etransitivity|]. intros Hn. rewrite Hs', Hs; done.
Qed.

Lemma parse_lines_ext rec fs ls s cat s' cat' seen :
  (forall inc raw s s', rec inc raw s = Some s' -> store_ext seen s s') ->
  parse_lines rec fs ls s cat = Some (s', cat') -> store_ext seen s s' /\ cat_le cat cat'.
Proof.
  intros Hrec. revert s cat. induction ls as [|line ls IH]; intros s cat; cbn [parse_lines].
  { intros [= <- <-]. split; [apply store_ext_refl|done]. }
  case_match; [apply IH|]. case_match.
  - destruct (fs !! _) as [raw|]; [|apply IH].
    destruct (rec _ raw s) as [s1|] eqn:Er; [|done]. cbn. intros H'.
    destruct (IH _ _ H') as [H1 H2]. split; [|done]. eapply store_ext_trans; eauto.
  - intros H'. destruct (IH _ _ H') as [H1 H2]. split; [done|].
    etransitivity; [apply add_rule_le|done].
Qed.

Lemma parse_source_ext fuel fs name source seen s s' :
  parse_category_source fuel fs name source seen s = Some s' -> store_ext seen s s'.
Proof.
  revert name source seen s s'. induction fuel as [|fuel IH]; intros name source seen s s'; [done|].
  cbn. case_bool_decide as Hs; [intros [= <-]; apply store_ext_refl|].
  destruct (parse_lines _ _ _ _ _) as [[s1 c1]|] eqn:Ep; [|done]. cbn. intros [= <-].
  apply (parse_lines_ext _ _ _ _ _ _ _ ({[name]} ∪ seen)) in Ep as [Hx Hc].
  2:{ intros inc raw a b. apply IH. }
  intros n c Hn. destruct (Hx n c Hn) as (c' & H' & Hle & Hsame). cbn.
  destruct (decide (n = name)) as [->|Hne].
  - exists c1. rewrite lookup_insert_eq. split; [done|]. rewrite Hn in Hc. cbn in Hc.
    split; [done|]. intros. done.
  - exists c'. rewrite lookup_insert_ne by done. split; [done|]. split; [done|].
    intros. apply Hsame. set_solver.
Qed.

Lemma load_files_ext fuel fs order s s' :
  load_files fuel fs order s = Some s' -> store_ext ∅ s s'.
Proof.
  revert s. induction order as [|[n raw] order IH]; intros s; cbn.
  { intros [= <-]. apply store_ext_refl. }
  destruct (parse_category_source _ _ _ _ _ _) as [s1|] eqn:Ep; [|done]. cbn. intros H.
  eapply store_ext_trans; [by eapply parse_source_ext|by apply IH].
Qed.

Lemma cat_matches_suffix c host r :
  r ∈ suffixes c -> domain_match (norm_host host) r = true -> cat_matches c host = true.
Proof.
  intros Hr Hm. unfold cat_matches. case_bool_decide; [done|].
  replace (existsb _ (elements (suffixes c))) with true; [done|]. symmetry.
  apply existsb_exists. exists r. split; [|done]. by apply list_elem_of_In, elem_of_elements.
Qed.

(** The store [load] starts from. *)
Definition builtin_store (dir : string) : GeositeStore :=
  add_builtin "twitter" (add_builtin "cloudflare" (add_builtin "google"
    (add_builtin "discord" (add_builtin "youtube" (mkStore ∅ dir))))).

Lemma builtin_lookup dir name rules :
  builtin_rules name = Some rules ->
  categories (builtin_store dir) !! name = Some (mkCat name ∅ (list_to_set rules) ∅ true).
Proof.
  intros H. unfold builtin_rules in H.
  repeat case_match; simplify_eq;
    match goal with He : String.eqb _ _ = true |- _ => apply String.eqb_eq in He; subst end;
    reflexivity.
Qed.

(** Lines of a category file that hold no rule of their own. *)
Definition no_rule (line : string) : bool :=
  let line := trim line in
  String.eqb line EmptyString || starts_with line "#" || starts_with line "include:".

Lemma parse_lines_no_rule rec fs ls s cat s' cat' :
  forallb no_rule ls = true -> parse_lines rec fs ls s cat = Some (s', cat') -> cat' = cat.
Proof.
  revert s. induction ls as [|line ls IH]; intros s; cbn [parse_lines forallb];
    [by intros _ [= _ <-]|].
  rewrite andb_true_iff. intros [Hn Hl]. unfold no_rule in Hn.
  destruct (String.eqb (trim line) EmptyString || starts_with (trim line) "#"); [by apply IH|].
  unfold starts_with in Hn. cbn [orb] in Hn.
  destruct (strip_prefix "include:" (trim line)) as [inc|]; [|done].
  destruct (fs !! inc) as [raw|]; [|by apply IH].
  destruct (rec inc raw s); [|done]. cbn. by apply IH.
Qed.

(** ** Claims *)

(** C40.  Loading the geosite store terminates for every category directory,
    include cycles included, and whatever the files contain the five built-in
    categories stay in force: every host equal to or below one of their domains
    still matches. *)
Theorem load_terminates_and_keeps_builtins fs order dir :
  exists s, load fs order dir = Some s /\
    forall name rules r host,
      builtin_rules name = Some rules -> r ∈ rules ->
      domain_match (norm_host host) r = true ->
      exists c, store_get s name = Some c /\ cat_matches c host = true.
Proof.
  assert (Hs : forall l s, is_Some (load_files (S (S (size fs))) fs l s)).
  { induction l as [|[n raw] l IH]; intros s; [eauto|]. cbn [load_files].
    destruct (parse_source_enough_fuel fs n raw s) as [s1 ->]. apply IH. }
  destruct (Hs order (builtin_store dir)) as [s Hload]. exists s. split; [exact Hload|].
  intros name rules r host Hb Hr Hm.
  apply load_files_ext in Hload.
  destruct (Hload name _ (builtin_lookup dir name rules Hb)) as (c & Hc & (_ & Hle & _) & _).
  exists c. split; [done|]. eapply cat_matches_suffix; [|done]. apply Hle. cbn. set_solver.
Qed.

(** An [include:] line adds no rule to the category that includes: parsing a
    file of includes, comments and blank lines leaves the category with exactly
    the rules it had, so a new category made of includes matches no host. *)
Theorem include_adds_no_rule fuel fs name source s s' :
  forallb no_rule (lines source) = true ->
  parse_category_source fuel fs name source ∅ s = Some s' ->
  store_get s' name = Some (default (empty_cat name) (store_get s name)) /\
  (store_get s name = None ->
     exists c, store_get s' name = Some c /\ forall host, cat_matches c host = false).
Proof.
  intros Hn Hp. destruct fuel as [|fuel]; [done|]. cbn [parse_category_source] in Hp.
  rewrite bool_decide_false in Hp by set_solver.
  destruct (parse_lines _ _ _ _ _) as [[s1 c1]|] eqn:Ep; [|done]. injection Hp as <-.
  apply parse_lines_no_rule in Ep as ->; [|done]. unfold store_get. cbn [categories].
  rewrite lookup_insert_eq. split; [done|]. intros ->. cbn [default].
  eexists. split; [done|]. intros host. unfold cat_matches, empty_cat.
  cbn [exact suffixes keywords]. by rewrite bool_decide_false, elements_empty by set_solver.
Qed.

Lemma include_adds_no_rule_witness :
  exists s', parse_category_source 4
      {[ "google"%string := "google.com"%string ]} "all" "include:google" ∅ empty_store = Some s' /\
    store_get s' "all" = Some (empty_cat "all") /\
    (exists c, store_get s' "google" = Some c /\ cat_matches c "google.com" = true).
Proof.
  eexists. split; [vm_compute; reflexivity|]. split.
  - apply (include_adds_no_rule 4 {[ "google"%string := "google.com"%string ]} "all"
      "include:google" empty_store _ eq_refl). vm_compute. reflexivity.
  - eexists. split; vm_compute; reflexivity.
Defined.
