(* ===== verification/B4Engine.v ===== *)
(** * The interception loop of the DPI-bypass engine

    [crates/balansir-b4/src/engine.rs]: what happens to one packet delivered by
    the kernel queue, and the loop over packets.  The state is the counters, the
    reassembler and the log of verdicts sent; whether the kernel accepted a
    verdict message, the clock and the strategy sets in force come with each
    input, since other tasks change them between packets. *)

From S2P Require Import Prelude Packet Checksum TcpOptions PacketBuild Tls Reassembly.
From S2P Require Import B4Set Strategies Geosite.

(** ** Data *)

Definition NF_DROP : Z := 0.
Definition NF_ACCEPT : Z := 1.

Record B4Stats := mkStats {
  packets_seen : Z;
  tls_packets : Z;
  mutated : Z;
  dropped : Z;
  accepted : Z;
  errors : Z
}.

(** [AtomicU64::fetch_add(1)] on each counter. *)
Definition add_seen (s : B4Stats) : B4Stats :=
  mkStats (u64 (packets_seen s + 1)) (tls_packets s) (mutated s) (dropped s) (accepted s) (errors s).
Definition add_tls (s : B4Stats) : B4Stats :=
  mkStats (packets_seen s) (u64 (tls_packets s + 1)) (mutated s) (dropped s) (accepted s) (errors s).
Definition add_mutated (s : B4Stats) : B4Stats :=
  mkStats (packets_seen s) (tls_packets s) (u64 (mutated s + 1)) (dropped s) (accepted s) (errors s).
Definition add_dropped (s : B4Stats) : B4Stats :=
  mkStats (packets_seen s) (tls_packets s) (mutated s) (u64 (dropped s + 1)) (accepted s) (errors s).
Definition add_accepted (s : B4Stats) : B4Stats :=
  mkStats (packets_seen s) (tls_packets s) (mutated s) (dropped s) (u64 (accepted s + 1)) (errors s).
Definition add_errors (s : B4Stats) : B4Stats :=
  mkStats (packets_seen s) (tls_packets s) (mutated s) (dropped s) (accepted s) (u64 (errors s + 1)).

(** One verdict message: packet id, verdict, replacement payload. *)
Record verdict := mkVerdict { v_id : Z; v_verdict : Z; v_payload : option (list Z) }.

Record engine_state := mkEngine {
  stats : B4Stats;
  reassembler : TcpReassembler;
  verdicts : list verdict
}.

(** A packet as [NfQueue::recv_packet] delivers it. *)
Record NfPacket := mkNfPacket { packet_id : Z; payload : option (list Z) }.

Inductive recv_result :=
| RecvPacket (p : NfPacket)
| RecvUnrecognized
| RecvErr.

Record engine_env := mkEnv {
  env_config : EngineConfig;
  env_ports : list Z;
  env_udp_ports : list Z;
  env_store : GeositeStore
}.

(** One turn of the loop: what was received, when, the sets in force, and whether
    the kernel takes the verdict message. *)
Record turn := mkTurn {
  t_recv : recv_result;
  t_now : Z;
  t_sets : list B4Set;
  t_verdict_ok : bool
}.

Definition on_stats (f : B4Stats -> B4Stats) (st : engine_state) : engine_state :=
  mkEngine (f (stats st)) (reassembler st) (verdicts st).

(** [if queue.verdict(..).is_err() { errors += 1 }] *)
Definition send_verdict (ok : bool) (id v : Z) (pl : option (list Z)) (st : engine_state)
  : engine_state :=
  let st := mkEngine (stats st) (reassembler st) (verdicts st ++ [mkVerdict id v pl]) in
  if ok then st else on_stats add_errors st.

(** [let _ = queue.verdict(..)] *)
Definition send_verdict_quiet (id v : Z) (pl : option (list Z)) (st : engine_state)
  : engine_state := mkEngine (stats st) (reassembler st) (verdicts st ++ [mkVerdict id v pl]).

Definition accept_untouched (ok : bool) (id : Z) (st : engine_state) : engine_state :=
  send_verdict ok id NF_ACCEPT None (on_stats add_accepted st).

(** ** Operations *)

Definition set_matches_host (store : GeositeStore) (s : B4Set) (host : string) : bool :=
  if negb (set_enabled s) then false else
  let h := norm_host host in
  if existsb (fun d => domain_match h (norm_host d)) (sni_domains (set_targets s)) then true
  else if has_geosite s then
    existsb (fun cat => match store_get store cat with
                        | Some c => cat_matches c h
                        | None => false
                        end) (geosite_categories (set_targets s))
  else false.

Definition apply_to (p : TcpPacket) (s : Strategy) : exec (TcpPacket * bool) :=
  match s with
  | Mss mss => set_mss p mss
  | StripSack => strip_option p SACK_PERMITTED
  | Ttl ttl => set_ttl p ttl
  | Noop => Val (p, false)
  end.

(** [for strat in &profile.strategies { if apply_to(..) { changed = true } }] *)
Fixpoint apply_all (l : list Strategy) (p : TcpPacket) (changed : bool)
  : exec (TcpPacket * bool) :=
  match l with
  | [] => Val (p, changed)
  | s :: l' => '(p, c) ← apply_to p s; apply_all l' p (changed || c)
  end.

(** [apply_set_to_tcp]; [None] when the caller is to accept the packet. *)
Definition apply_set_to_tcp (ok : bool) (s : B4Set) (tcp : TcpPacket) (id : Z)
    (st : engine_state) : exec (option engine_state) :=
  frags ← fragment_for s tcp;
  match frags with
  | Some (frag1, _) =>
      Val (Some (send_verdict ok id NF_ACCEPT (Some frag1) (on_stats add_mutated st)))
  | None =>
      flags ← tcp_flags tcp;
      pl ← tcp_payload tcp;
      let is_syn := negb (Z.land flags 0x02 =? 0) in
      let is_first := 0 <? len pl in
      outcome ← apply_tcp s tcp is_syn is_first;
      match outcome with
      | Mutated bytes =>
          Val (Some (send_verdict ok id NF_ACCEPT (Some bytes) (on_stats add_mutated st)))
      | Drop => Val (Some (send_verdict_quiet id NF_DROP None (on_stats add_dropped st)))
      | _ => Val None
      end
  end.

Definition udp_interested (s : B4Set) : bool :=
  set_enabled s && String.eqb (udp_mode (set_udp s)) "fake"
  && String.eqb (dport_filter (set_udp s)) EmptyString.

Definition handle_udp_packet (env : engine_env) (sets : list B4Set) (pl : list Z) (id : Z)
    (st : engine_state) : exec engine_state :=
  let accept st := send_verdict_quiet id NF_ACCEPT None (on_stats add_accepted st) in
  udp ← UdpPacket_parse pl;
  match udp with
  | None => Val (accept st)
  | Some udp =>
      port ← udp_dst_port udp;
      if negb (existsb (Z.eqb port) (env_udp_ports env)) then Val (accept st) else
      let st := if existsb udp_interested sets then on_stats add_mutated st else st in
      Val (accept st)
  end.

(** The protocol byte, by IP version. *)
Definition packet_proto (pl : list Z) : exec Z :=
  v4 ← (if 9 <=? len pl then b ← idx pl 0; Val (Z.shiftr b 4 =? 4) else Val false);
  if v4 : bool then idx pl 9 else
  v6 ← (if 8 <=? len pl then b ← idx pl 0; Val (Z.shiftr b 4 =? 6) else Val false);
  if v6 : bool then idx pl 7 else Val 0.

(** The profile for a packet: by host, else the catch-all for a SYN. *)
Definition choose_profile (cfg : EngineConfig) (host : option string) (flags : Z)
  : option Profile :=
  match host ≫= profile_for cfg with
  | Some p => Some p
  | None =>
      if negb (Z.land flags 0x02 =? 0) then
        List.find (fun p => no_domains p && match strategies p with [] => false | _ => true end)
          (profiles cfg)
      else None
  end.

(** The second half of the TCP path, once the host is known: a matching set, else
    a profile. *)
Definition finish_tcp (env : engine_env) (t : turn) (tcp : TcpPacket) (flags : Z)
    (host : option string) (id : Z) (st : engine_state) : exec engine_state :=
  let ok := t_verdict_ok t in
  let st := match host with Some _ => on_stats add_tls st | None => st end in
  let set := h ← host; List.find (fun s => set_matches_host (env_store env) s h) (t_sets t) in
  match set with
  | Some s =>
      handled ← apply_set_to_tcp ok s tcp id st;
      match handled with
      | Some st => Val st
      | None => Val (accept_untouched ok id st)
      end
  | None =>
      match choose_profile (env_config env) host flags with
      | None => Val (accept_untouched ok id st)
      | Some profile =>
          '(m, changed) ← apply_all (strategies profile) tcp false;
          if changed : bool then
            m ← fix_ipv4_checksum m;
            m ← fix_tcp_checksum m;
            Val (send_verdict ok id NF_ACCEPT (Some (raw m)) (on_stats add_mutated st))
          else Val (accept_untouched ok id st)
      end
  end.

(** A TCP packet to an intercepted port: feed the reassembler, identify the host,
    then apply what is configured for it. *)
Definition handle_tcp_packet (env : engine_env) (t : turn) (tcp : TcpPacket) (id : Z)
    (st : engine_state) : exec engine_state :=
  tcp_pl ← tcp_payload tcp;
  key ← FlowKey_for_packet tcp;
  seq ← tcp_seq tcp;
  flags ← tcp_flags tcp;
  '(r, reassembled) ← feed (t_now t) (reassembler st) key seq tcp_pl
                        (negb (Z.land flags 0x11 =? 0));
  let st := mkEngine (stats st) r (verdicts st) in
  host ← (match reassembled with
          | Some h => Val (Some h)
          | None => extract_tls_sni tcp_pl
          end);
  finish_tcp env t tcp flags host id st.

(** The body of the loop for a received packet. *)
Definition handle_packet (env : engine_env) (t : turn) (p : NfPacket) (st : engine_state)
  : exec engine_state :=
  let st := on_stats add_seen st in
  match payload p with
  | None => Val (accept_untouched (t_verdict_ok t) (packet_id p) st)
  | Some pl =>
      proto ← packet_proto pl;
      if proto =? 17 then handle_udp_packet env (t_sets t) pl (packet_id p) st else
      tcp ← TcpPacket_parse pl;
      match tcp with
      | None => Val (accept_untouched (t_verdict_ok t) (packet_id p) st)
      | Some tcp =>
          port ← dst_port tcp;
          if negb (existsb (Z.eqb port) (env_ports env))
          then Val (accept_untouched (t_verdict_ok t) (packet_id p) st)
          else handle_tcp_packet env t tcp (packet_id p) st
      end
  end.

Definition loop_body (env : engine_env) (t : turn) (st : engine_state) : exec engine_state :=
  match t_recv t with
  | RecvPacket p => handle_packet env t p st
  | RecvUnrecognized => Val (on_stats add_errors st)
  | RecvErr => Val (on_stats add_errors st)
  end.

(** [interception_loop] over the turns until [running] is cleared. *)
Fixpoint interception_loop (env : engine_env) (ts : list turn) (st : engine_state)
  : exec engine_state :=
  match ts with
  | [] => Val st
  | t :: ts' => st ← loop_body env t st; interception_loop env ts' st
  end.

(** ** Every packet gets one verdict *)

(** Strategies as deserialised. *)
Definition strategy_wf (s : Strategy) : Prop :=
  match s with Ttl ttl => is_byte ttl | _ => True end.

Definition env_wf (env : engine_env) : Prop :=
  Forall (fun p => Forall strategy_wf (strategies p)) (profiles (env_config env)).

(** Packets on which no code path indexes out of range: not a nine-byte
    IPv4-looking runt, and TCP options that fit the header. *)
Record payload_safe (pl : list Z) : Prop := {
  ps_bytes : Forall is_byte pl;
  ps_len : len pl < 65536;
  ps_runt : len pl = 9 -> Z.shiftr (byte_at pl 0) 4 <> 4;
  ps_opts : forall p, TcpPacket_parse pl = Val (Some p) -> opts_ok (option_area p) = true
}.

Definition packet_safe (p : NfPacket) : Prop :=
  match payload p with Some pl => payload_safe pl | None => True end.

(** What answering packet [id] does to the state: one more verdict, an ACCEPT for
    that packet; nothing is counted as dropped. *)
Definition answered (id : Z) (st st' : engine_state) : Prop :=
  reassembler st' = reassembler st /\
  packets_seen (stats st') = packets_seen (stats st) /\
  dropped (stats st') = dropped (stats st) /\
  exists pl, verdicts st' = verdicts st ++ [mkVerdict id NF_ACCEPT pl].

Lemma send_answered ok id pl f st :
  (forall s, packets_seen (f s) = packets_seen s /\ dropped (f s) = dropped s) ->
  answered id st (send_verdict ok id NF_ACCEPT pl (on_stats f st)).
Proof.
  intros Hf. destruct (Hf (stats st)) as [H1 H2].
  unfold send_verdict, answered. destruct ok; cbn; eauto.
Qed.

Lemma accept_answered ok id st : answered id st (accept_untouched ok id st).
Proof. by apply send_answered. Qed.

Lemma apply_to_preserves p s :
  strategy_wf s -> preserved p p -> opts_ok (option_area p) = true ->
  exists q b, apply_to p s = Val (q, b) /\ preserved p q /\ opts_ok (option_area q) = true.
Proof.
  intros Hs Hp Hok. destruct s as [mss| |ttl|]; cbn [apply_to].
  - destruct (set_mss_preserves p mss Hp) as (q & b & H1 & H2 & H3). exists q, b. by rewrite H3.
  - by apply strip_sack_preserves.
  - destruct (set_ttl_preserves p ttl Hp Hs) as (q & b & H1 & H2 & H3). exists q, b. by rewrite H3.
  - by exists p, false.
Qed.

Lemma apply_all_preserves l p c :
  Forall strategy_wf l -> preserved p p -> opts_ok (option_area p) = true ->
  exists q b, apply_all l p c = Val (q, b) /\ preserved p q.
Proof.
  intros Hl. revert p c. induction Hl as [|s l Hs _ IH]; intros p c Hp Hok; [by exists p, c|].
  cbn [apply_all]. destruct (apply_to_preserves p s Hs Hp Hok) as (q & b & -> & Hq & Hokq).
  rewrite bind_Val_l.
  destruct (IH q (c || b) (preserved_self p q Hq) Hokq) as (q' & b' & -> & Hq').
  exists q', b'. split; [done|]. by apply (preserved_trans p q).
Qed.

Lemma fragment_for_returns s p :
  preserved p p -> exists o, fragment_for s p = Val o.
Proof.
  intros Hp. pose proof Hp as [W _ _ Hl _ _ _]. pose proof W as []. unfold fragment_for.
  case_match; [eauto|]. case_match; [eauto|]. rewrite tcp_payload_eq, bind_Val_l by done.
  case_match; [eauto|]. set (pay := drop _ (raw p)) in *.
  case_match eqn:Hc; [eauto|]. set (n := combo_split_point _ _) in *.
  assert (0 <= n).
  { subst n. unfold combo_split_point, sat_sub. pose proof (len_nonneg pay).
    repeat case_match; try lia. apply Z.div_pos; lia. }
  destruct (fragment_ok p n W) as (f1 & f2 & -> & _); [lia| |eauto].
  subst pay. unfold len in *. rewrite length_drop in Hc. lia.
Qed.

Lemma apply_set_to_tcp_answered ok s tcp id st :
  set_wf s -> preserved tcp tcp -> opts_ok (option_area tcp) = true ->
  exists o, apply_set_to_tcp ok s tcp id st = Val o /\
    match o with Some st' => answered id st st' | None => True end.
Proof.
  intros Hs Hp Hok. unfold apply_set_to_tcp.
  destruct (fragment_for_returns s tcp Hp) as [[[f1 f2]|] ->]; rewrite bind_Val_l.
  { eexists. split; [done|]. by apply send_answered. }
  pose proof (pv_wf _ _ Hp) as W. pose proof W as []. unfold tcp_flags.
  rewrite idx_byte_at, bind_Val_l, tcp_payload_eq, bind_Val_l by (done || lia).
  match goal with |- context [apply_tcp s tcp ?a ?b] =>
    destruct (apply_tcp_outcome s tcp a b Hs Hp Hok) as (o & -> & Ho) end.
  rewrite bind_Val_l. destruct Ho as [->|(q & -> & _)]; eexists; (split; [done|]); [done|].
  by apply send_answered.
Qed.

Lemma handle_udp_answered env sets pl id st :
  Forall is_byte pl ->
  exists st', handle_udp_packet env sets pl id st = Val st' /\ answered id st st'.
Proof.
  intros Hb. unfold handle_udp_packet.
  assert (Ha : answered id st
    (send_verdict_quiet id NF_ACCEPT None (on_stats add_accepted st)))
    by (unfold answered; cbn; eauto).
  destruct (UdpPacket_parse_cases pl Hb) as [->|(p & -> & W & _)]; rewrite bind_Val_l;
    [by eexists|].
  pose proof W as []. unfold udp_dst_port, read_be16. exec_reads.
  case_match; [by eexists|]. case_match; [|by eexists].
  eexists. split; [done|]. unfold answered. cbn. eauto.
Qed.

Lemma packet_proto_returns pl :
  payload_safe pl -> exists v, packet_proto pl = Val v.
Proof.
  intros [Hb _ Hr _]. unfold packet_proto. destruct (9 <=? len pl) eqn:E9.
  - rewrite !(idx_byte_at pl 0), !bind_Val_l by lia.
    destruct (Z.shiftr (byte_at pl 0) 4 =? 4) eqn:E4.
    + destruct (Z.eq_dec (len pl) 9) as [H9|]; [specialize (Hr H9); lia|].
      rewrite idx_byte_at by lia. eauto.
    + replace (8 <=? len pl) with true by lia. rewrite !bind_Val_l.
      case_match; [|eauto]. rewrite idx_byte_at by lia. eauto.
  - rewrite bind_Val_l. destruct (8 <=? len pl) eqn:E8.
    + rewrite !(idx_byte_at pl 0), !bind_Val_l by lia.
      case_match; [|eauto]. rewrite idx_byte_at by lia. eauto.
    + rewrite bind_Val_l. eauto.
Qed.

(** Everything [handle_tcp_packet] reads from a parsed packet. *)
Lemma tcp_reads p :
  tcp_wf p -> len (raw p) < 65536 ->
  exists key seq flags pl, FlowKey_for_packet p = Val key /\ tcp_seq p = Val seq /\
    tcp_flags p = Val flags /\ tcp_payload p = Val pl /\
    0 <= seq < 2 ^ 32 /\ Forall is_byte pl /\ len pl < 65536.
Proof.
  intros W Hl. pose proof W as [].
  unfold FlowKey_for_packet, src_ip, dst_ip, src_port, dst_port, read_ip, read_be16,
    tcp_seq, read_be32, tcp_flags.
  exec_reads. rewrite tcp_payload_eq by done. eexists _, _, _, _. do 4 (split; [done|]).
  split; [apply from_be32_range; auto with balansir|].
  split; [by apply Forall_drop|]. unfold len in *. rewrite length_drop. lia.
Qed.

Lemma find_In {A} (f : A -> bool) l x : List.find f l = Some x -> x ∈ l.
Proof. intros H. apply List.find_some in H as [H _]. by apply list_elem_of_In. Qed.

Lemma choose_profile_wf env host flags p :
  env_wf env -> choose_profile (env_config env) host flags = Some p ->
  Forall strategy_wf (strategies p).
Proof.
  intros Hw Hc. unfold env_wf in Hw. rewrite Forall_forall in Hw. apply Hw.
  unfold choose_profile in Hc. destruct (host ≫= _) as [q|] eqn:Eh.
  - injection Hc as <-. destruct host as [h|]; [|done]. cbn in Eh. unfold profile_for in Eh.
    case_match eqn:Ef; [injection Eh as <-|]; by eapply find_In.
  - case_match; [|done]. by eapply find_In.
Qed.

Lemma finish_tcp_answered env t tcp flags host id st :
  env_wf env -> Forall set_wf (t_sets t) ->
  preserved tcp tcp -> opts_ok (option_area tcp) = true ->
  exists st', finish_tcp env t tcp flags host id st = Val st' /\ answered id st st'.
Proof.
  intros He Hs Hp Hok. unfold finish_tcp.
  set (st1 := match host with Some _ => _ | None => _ end).
  assert (Hlift : forall st', answered id st1 st' -> answered id st st').
  { intros st' H. subst st1. by destruct host. }
  clearbody st1. destruct (host ≫= _) as [s|] eqn:Ef.
  - destruct host as [h|]; [|done]. cbn in Ef. apply find_In in Ef.
    rewrite Forall_forall in Hs. specialize (Hs s Ef).
    destruct (apply_set_to_tcp_answered (t_verdict_ok t) s tcp id st1 Hs Hp Hok)
      as (o & -> & Ho). rewrite bind_Val_l.
    destruct o as [st'|]; eexists; (split; [done|]); [by apply Hlift|].
    by apply Hlift, accept_answered.
  - destruct (choose_profile _ host flags) as [prof|] eqn:Ec.
    2:{ eexists. split; [done|]. by apply Hlift, accept_answered. }
    apply choose_profile_wf in Ec; [|done].
    destruct (apply_all_preserves (strategies prof) tcp false Ec Hp Hok) as (m & c & -> & Hm).
    rewrite bind_Val_l. destruct c.
    2:{ eexists. split; [done|]. by apply Hlift, accept_answered. }
    destruct (checksums_preserve m (preserved_self _ _ Hm)) as (q & Hq & _).
    apply bind_Val in Hq as (m' & Hm' & Hq). rewrite Hm', bind_Val_l, Hq, bind_Val_l.
    eexists. split; [done|]. by apply Hlift, send_answered.
Qed.

Lemma handle_tcp_answered env t tcp id st :
  env_wf env -> Forall set_wf (t_sets t) ->
  preserved tcp tcp -> opts_ok (option_area tcp) = true -> reasm_inv (reassembler st) ->
  exists key seq flags pl r res st',
    FlowKey_for_packet tcp = Val key /\ tcp_seq tcp = Val seq /\ tcp_flags tcp = Val flags /\
    tcp_payload tcp = Val pl /\
    feed (t_now t) (reassembler st) key seq pl (negb (Z.land flags 0x11 =? 0)) = Val (r, res) /\
    reasm_inv r /\ handle_tcp_packet env t tcp id st = Val st' /\
    answered id (mkEngine (stats st) r (verdicts st)) st'.
Proof.
  intros He Hs Hp Hok Hi. pose proof (pv_wf _ _ Hp) as W.
  destruct (tcp_reads tcp W) as (key & seq & flags & pl & Ek & Eq & Ef & El & Hseq & Hb & Hl);
    [apply (pv_len _ _ Hp)|].
  destruct (feed_ok (t_now t) (reassembler st) key seq pl (negb (Z.land flags 0x11 =? 0))
    Hi Hseq Hb Hl) as (r & res & Hfeed & Hir & _).
  exists key, seq, flags, pl, r, res. unfold handle_tcp_packet.
  rewrite Ek, Eq, Ef, El, !bind_Val_l, Hfeed, bind_Val_l.
  cut (exists st', (host ← (match res with Some h => Val (Some h) | None => extract_tls_sni pl end);
    finish_tcp env t tcp flags host id (mkEngine (stats st) r (verdicts st))) = Val st' /\
    answered id (mkEngine (stats st) r (verdicts st)) st').
  { intros (st' & H1 & H2). exists st'. done. }
  assert (Hh : exists host, (match res with Some h => Val (Some h) | None => extract_tls_sni pl end)
    = Val host) by (destruct res; [eauto|by apply extract_tls_sni_returns]).
  destruct Hh as [host ->]. rewrite bind_Val_l. by apply finish_tcp_answered.
Qed.

(** Handling a safe packet: answered once, with the packet counted. *)
Lemma handle_packet_answered env t p st :
  env_wf env -> Forall set_wf (t_sets t) -> packet_safe p -> reasm_inv (reassembler st) ->
  exists st' r, handle_packet env t p st = Val st' /\ reasm_inv r /\
    answered (packet_id p) (mkEngine (add_seen (stats st)) r (verdicts st)) st'.
Proof.
  intros He Hs Hp Hi. unfold handle_packet, packet_safe in *.
  destruct (payload p) as [pl|].
  2:{ eexists _, (reassembler st). split; [done|]. split; [done|]. apply accept_answered. }
  destruct (packet_proto_returns pl Hp) as [proto ->]. rewrite bind_Val_l.
  destruct Hp as [Hb Hl _ Hok]. case_match.
  { destruct (handle_udp_answered env (t_sets t) pl (packet_id p) (on_stats add_seen st) Hb)
      as (st' & -> & Ha). by exists st', (reassembler st). }
  destruct (TcpPacket_parse_cases pl Hb) as [Hn|(q & Hq & W & _ & Hr)].
  { rewrite Hn, bind_Val_l. eexists _, (reassembler st). split; [done|]. split; [done|].
    apply accept_answered. }
  rewrite Hq, bind_Val_l. pose proof W as []. unfold dst_port, read_be16. exec_reads.
  case_match.
  { eexists _, (reassembler st). split; [done|]. split; [done|]. apply accept_answered. }
  destruct (handle_tcp_answered env t q (packet_id p) (on_stats add_seen st))
    as (key & seq & flags & pay & r & res & st' & _ & _ & _ & _ & _ & Hr' & Hst & Ha);
    try done; [by apply (preserved_refl pl)|by apply Hok|]. by exists st', r.
Qed.

(** The packets received during the loop. *)
Definition received (ts : list turn) : list NfPacket :=
  omap (fun t => match t_recv t with RecvPacket p => Some p | _ => None end) ts.

Definition turn_safe (t : turn) : Prop :=
  Forall set_wf (t_sets t) /\
  match t_recv t with RecvPacket p => packet_safe p | _ => True end.

Lemma loop_answers env ts st :
  env_wf env -> reasm_inv (reassembler st) -> Forall turn_safe ts ->
  exists st' new, interception_loop env ts st = Val st' /\ reasm_inv (reassembler st') /\
    verdicts st' = verdicts st ++ new /\
    map v_id new = map packet_id (received ts) /\
    Forall (fun v => v_verdict v = NF_ACCEPT) new /\
    dropped (stats st') = dropped (stats st) /\
    u64 (packets_seen (stats st')) =
      u64 (packets_seen (stats st) + Z.of_nat (length (received ts))).
Proof.
  intros He Hi Hts. revert st Hi. induction Hts as [|t ts [Hs Hp] _ IH]; intros st Hi.
  { exists st, []. rewrite app_nil_r. cbn. rewrite Z.add_0_r. done. }
  cbn [interception_loop]. unfold loop_body.
  assert (Herr : exists st' new,
    interception_loop env ts (on_stats add_errors st) = Val st' /\ reasm_inv (reassembler st') /\
    verdicts st' = verdicts st ++ new /\ map v_id new = map packet_id (received ts) /\
    Forall (fun v => v_verdict v = NF_ACCEPT) new /\ dropped (stats st') = dropped (stats st) /\
    u64 (packets_seen (stats st')) =
      u64 (packets_seen (stats st) + Z.of_nat (length (received ts))))
    by exact (IH (on_stats add_errors st) Hi).
  unfold received. cbn [omap list_omap]. destruct (t_recv t) as [p| |]; [|exact Herr..].
  destruct (handle_packet_answered env t p st He Hs Hp Hi)
    as (st1 & r & -> & Hr & Hrs & Hseen & Hdrop & pl & Hv). rewrite bind_Val_l.
  destruct (IH st1) as (st' & new & Hl & Hi' & Hv' & Hid & Hacc & Hd & Hn); [by rewrite Hrs|].
  cbn in Hv, Hseen, Hdrop. exists st', (mkVerdict (packet_id p) NF_ACCEPT pl :: new).
  split; [done|]. split; [done|]. split; [by rewrite Hv', Hv, <- app_assoc|].
  split; [cbn; by f_equal|]. split; [by constructor|]. split; [congruence|].
  rewrite Hn, Hseen. cbn [length].
  rewrite wrap_add_l by lia. f_equal. unfold received. lia.
Qed.

Definition zero_stats : B4Stats := mkStats 0 0 0 0 0 0.
Definition engine_start : engine_state := mkEngine zero_stats TcpReassembler_new [].

(** ** Claims *)

(** C1.  Every packet is answered: over any sequence of turns (packets of any
    protocol, receive errors, failing verdict messages, strategy sets changing in
    between) the loop sends exactly one verdict per received packet, in order,
    for that packet's id, and every verdict is ACCEPT: the engine never drops and
    never leaves a packet waiting.  Hypotheses: the packets are not nine-byte
    IPv4-looking runts and TCP options fit their header, the two shapes on which
    the code indexes out of range. *)
Theorem loop_accepts_every_packet_once env ts :
  env_wf env -> Forall turn_safe ts ->
  exists st, interception_loop env ts engine_start = Val st /\
    map v_id (verdicts st) = map packet_id (received ts) /\
    Forall (fun v => v_verdict v = NF_ACCEPT) (verdicts st) /\
    dropped (stats st) = 0 /\
    u64 (packets_seen (stats st)) = u64 (Z.of_nat (length (received ts))).
Proof.
  intros He Hts.
  destruct (loop_answers env ts engine_start He TcpReassembler_new_inv Hts)
    as (st & new & Hl & _ & Hv & Hid & Hacc & Hd & Hn).
  exists st. cbn in Hv, Hd, Hn. rewrite Hv. by do 3 (split; [done|]).
Qed.

Definition example_env : engine_env :=
  mkEnv (mkEngineConfig [mkProfile "all" [] [Mss 88; StripSack; Ttl 7]]) [443] [443] empty_store.

Lemma loop_accepts_every_packet_once_witness :
  exists st, interception_loop example_env
    [mkTurn RecvErr 0 [] true;
     mkTurn (RecvPacket (mkNfPacket 7 (Some syn_sack))) 1 [example_set] false;
     mkTurn (RecvPacket (mkNfPacket 8 None)) 2 [] true] engine_start = Val st /\
    map v_id (verdicts st) = [7; 8].
Proof.
  destruct (loop_accepts_every_packet_once example_env
    [mkTurn RecvErr 0 [] true;
     mkTurn (RecvPacket (mkNfPacket 7 (Some syn_sack))) 1 [example_set] false;
     mkTurn (RecvPacket (mkNfPacket 8 None)) 2 [] true]) as (st & H1 & H2 & _).
  - repeat constructor; vm_compute; intros [=].
  - constructor; [split; [constructor|exact I]|]. constructor; [|constructor; [|constructor]].
    + split; [constructor; [split; vm_compute; split; (reflexivity || intros [=])|constructor]|].
      split; [vm_compute; repeat constructor; intros [=]|reflexivity|vm_compute; intros [=]|].
      intros p Hp. vm_compute in Hp. injection Hp as <-. reflexivity.
    + split; [constructor|exact I].
  - exists st. split; [exact H1|exact H2].
Defined.

(** The loop tests [tcp_flags & 0x11], FIN or ACK, where its comment says FIN
    or RST: every segment with data and the ACK bit - every data segment of an
    established connection - deletes its flow from the reassembler instead of
    being buffered, so a ClientHello in two segments is never put together. *)
Theorem ack_segment_is_never_buffered env t tcp id st st' flags key pl r :
  env_wf env -> Forall set_wf (t_sets t) -> reasm_inv (reassembler st) ->
  Forall is_byte r -> len r < 65536 -> TcpPacket_parse r = Val (Some tcp) ->
  opts_ok (option_area tcp) = true ->
  tcp_flags tcp = Val flags -> Z.land flags 0x10 <> 0 ->
  tcp_payload tcp = Val pl -> pl <> [] -> FlowKey_for_packet tcp = Val key ->
  handle_tcp_packet env t tcp id st = Val st' ->
  flows (reassembler st') !! key = None.
Proof.
  intros He Hs Hi Hb Hl Hp Hok Hf Hack Hpl Hne Hk Hh.
  destruct (handle_tcp_answered env t tcp id st He Hs (preserved_refl r tcp Hb Hl Hp) Hok Hi)
    as (key' & seq & flags' & pl' & rs & res & st1 & Ek & _ & Ef & Ep & Hfeed & _ & Hst & Hr & _).
  rewrite Hk in Ek. rewrite Hf in Ef. rewrite Hpl in Ep. rewrite Hh in Hst.
  injection Ek as <-. injection Ef as <-. injection Ep as <-. injection Hst as <-.
  rewrite Hr. cbn [reassembler].
  assert (Hflag : negb (Z.land flags 0x11 =? 0) = true).
  { apply negb_true_iff, Z.eqb_neq. intros H0. apply Hack.
    assert (H1 : Z.land (Z.land flags 0x11) 0x10 = 0) by (by rewrite H0).
    rewrite <- Z.land_assoc in H1. exact H1. }
  rewrite Hflag in Hfeed. unfold feed in Hfeed.
  replace (len pl =? 0) with false in Hfeed
    by (symmetry; apply Z.eqb_neq; intros Hz; by apply Hne, len_zero).
  injection Hfeed as <- _. cbn. apply lookup_delete_eq.
Qed.

(** The first half of a ClientHello in a PSH|ACK segment, with the flow already
    tracked. *)
Definition hello_half : list Z :=
  [0x45; 0; 0; 60; 0; 1; 0x40; 0; 64; 6; 0; 0; 10; 0; 0; 1; 10; 0; 0; 2;
   195; 80; 1; 187; 0; 0; 0; 7; 0; 0; 0; 9; 0x50; 0x18; 1; 0; 0; 0; 0; 0]
  ++ take 20 (client_hello example_hello).

Lemma ack_segment_is_never_buffered_witness :
  exists st', handle_tcp_packet example_env (mkTurn RecvErr 5 [] true)
      (mkTcp hello_half 20 60 20 20 32 (10, 36)) 1 engine_start = Val st' /\
    flows (reassembler st') !! mkKey 0x0A000001 0x0A000002 50000 443 = None.
Proof.
  eexists. split; [vm_compute; reflexivity|].
  apply (ack_segment_is_never_buffered example_env (mkTurn RecvErr 5 [] true)
    (mkTcp hello_half 20 60 20 20 32 (10, 36)) 1 engine_start _ 0x18 _
    (take 20 (client_hello example_hello)) hello_half).
  - repeat constructor; vm_compute; intros [=].
  - constructor.
  - split; [apply map_Forall_empty|vm_compute; intros [=]].
  - vm_compute. repeat constructor; intros [=].
  - reflexivity.
  - reflexivity.
  - reflexivity.
  - reflexivity.
  - vm_compute. intros [=].
  - reflexivity.
  - vm_compute. intros [=].
  - reflexivity.
  - vm_compute. reflexivity.
Defined.

(** A nine-byte payload that looks like IPv4 makes the loop panic (the guard
    is [len >= 9], the read is [payload[9]]), which marks the engine dead. *)
Theorem nine_byte_runt_panics env t id pl st ts :
  Forall is_byte pl -> len pl = 9 -> Z.shiftr (byte_at pl 0) 4 = 4 ->
  t_recv t = RecvPacket (mkNfPacket id (Some pl)) ->
  interception_loop env (t :: ts) st = Panic.
Proof.
  intros Hb H9 H4 Ht.
  assert (Hp : packet_proto pl = Panic).
  { unfold packet_proto. rewrite H9, (idx_byte_at pl 0) by lia.
    change (9 <=? 9) with true. cbv [mbind exec_bind]. rewrite !H4.
    change (4 =? 4) with true. cbv iota. apply idx_Panic. lia. }
  cbn [interception_loop]. unfold loop_body, handle_packet. rewrite Ht. cbn [payload].
  by rewrite Hp.
Qed.

Lemma nine_byte_runt_panics_witness :
  interception_loop example_env
    [mkTurn (RecvPacket (mkNfPacket 1 (Some [0x45; 0; 0; 9; 0; 0; 0; 0; 64]))) 0 [] true]
    engine_start = Panic.
Proof.
  apply (nine_byte_runt_panics example_env _ 1 [0x45; 0; 0; 9; 0; 0; 0; 0; 64]).
  - vm_compute. repeat constructor; intros [=].
  - reflexivity.
  - reflexivity.
  - reflexivity.
Defined.
