(* ===== verification/F64.v ===== *)
(** * IEEE-754 binary64

    The [f64] of Rust as the Standard Library's [SpecFloat] at precision 53 and
    exponent bound 1024, rounding to nearest even, with the methods the health
    tracker and the VPN pool call ([clamp], [max], [abs], [is_finite],
    [partial_cmp]).  No primitive float and no axiom is involved.  The lemmas
    say when an operation cannot produce NaN and that the order is total away
    from NaN. *)

From Stdlib Require Import SpecFloat.
From S2P Require Import Prelude.

Definition f64 : Type := spec_float.

Definition fadd : f64 -> f64 -> f64 := SFadd 53 1024.
Definition fsub : f64 -> f64 -> f64 := SFsub 53 1024.
Definition fmul : f64 -> f64 -> f64 := SFmul 53 1024.
Definition fdiv : f64 -> f64 -> f64 := SFdiv 53 1024.
Definition fabs : f64 -> f64 := SFabs.

(** [x as f64] of an integer. *)
Definition f64_of (z : Z) : f64 := binary_normalize 53 1024 z 0 false.

(** A decimal literal [n / d] with both numbers below [2^53]: the division of
    two exact numbers is the correctly rounded literal. *)
Definition f64_lit (n d : Z) : f64 := fdiv (f64_of n) (f64_of d).

Definition f0 : f64 := S754_zero false.
Definition f1 : f64 := Eval vm_compute in f64_of 1.

(** Comparisons; every one is [false] on NaN. *)
Definition flt : f64 -> f64 -> bool := SFltb.
Definition fle : f64 -> f64 -> bool := SFleb.
Definition feq : f64 -> f64 -> bool := SFeqb.
Definition partial_cmp : f64 -> f64 -> option comparison := SFcompare.

Definition is_nan (x : f64) : bool :=
  match x with S754_nan => true | _ => false end.

Definition is_finite (x : f64) : bool :=
  match x with S754_nan | S754_infinity _ => false | _ => true end.

(** [f64::clamp]: NaN stays NaN. *)
Definition clamp (x lo hi : f64) : f64 :=
  let x := if flt x lo then lo else x in
  if flt hi x then hi else x.

(** [f64::max]: a NaN operand is ignored. *)
Definition fmax (x y : f64) : f64 :=
  if is_nan x then y else if is_nan y then x else if flt x y then y else x.

(** ** Rounding keeps the sign and never makes a NaN *)

(** [x >= 0.0], which is false on NaN. *)
Definition fnonneg (x : f64) : Prop := fle f0 x = true.

Lemma fnonneg_not_nan x : fnonneg x -> is_nan x = false.
Proof. by destruct x. Qed.

Lemma shr_1_nonneg mrs : 0 <= shr_m mrs -> 0 <= shr_m (shr_1 mrs).
Proof. destruct mrs as [[|[p|p|]|p] r s]; cbn; lia. Qed.

Lemma iter_pos_invariant {A} (P : A -> Prop) (f : A -> A) n x :
  (forall y, P y -> P (f y)) -> P x -> P (SpecFloat.iter_pos f n x).
Proof. intros Hf. revert x. induction n; intros x Hx; cbn; auto. Qed.

Lemma shr_fexp_nonneg m e l : 0 <= m -> 0 <= shr_m (shr_fexp 53 1024 m e l).1.
Proof.
  intros Hm. unfold shr_fexp, shr.
  assert (H : 0 <= shr_m (shr_record_of_loc m l)) by (by destruct l as [|[]]).
  case_match; cbn; auto.
  apply (iter_pos_invariant (fun r => 0 <= shr_m r)); auto using shr_1_nonneg.
Qed.

Lemma round_nearest_even_nonneg m l : 0 <= m -> 0 <= round_nearest_even m l.
Proof. destruct l as [|[]]; cbn; try lia. case_match; lia. Qed.

(** The sign of a float that is not NaN. *)
Definition has_sign (s : bool) (x : f64) : Prop :=
  match x with
  | S754_zero s' | S754_infinity s' | S754_finite s' _ _ => s' = s
  | S754_nan => False
  end.

Lemma has_sign_nonneg x : has_sign false x -> fnonneg x.
Proof. by destruct x as [[]|[]| |[] m e]. Qed.

Lemma has_sign_not_nan s x : has_sign s x -> is_nan x = false.
Proof. by destruct x. Qed.

Lemma binary_round_aux_sign s m e l :
  0 <= m -> has_sign s (binary_round_aux 53 1024 s m e l).
Proof.
  intros Hm. unfold binary_round_aux.
  pose proof (shr_fexp_nonneg m e l Hm) as H1.
  destruct (shr_fexp 53 1024 m e l) as [r1 e1]. cbn in H1.
  pose proof (shr_fexp_nonneg _ e1 loc_Exact
    (round_nearest_even_nonneg _ (loc_of_shr_record r1) H1)) as H2.
  destruct (shr_fexp 53 1024 _ e1 loc_Exact) as [r2 e2]. cbn in H2.
  destruct (shr_m r2) as [|p|p]; cbn; [done| |lia].
  by case_match.
Qed.

Lemma binary_round_sign s m e : has_sign s (binary_round 53 1024 s m e).
Proof.
  unfold binary_round. destruct (shl_align _ _ _). by apply binary_round_aux_sign.
Qed.

Lemma binary_normalize_not_nan m e s : is_nan (binary_normalize 53 1024 m e s) = false.
Proof.
  destruct m; cbn [binary_normalize]; [done|..];
    eapply has_sign_not_nan, binary_round_sign.
Qed.

Lemma binary_normalize_nonneg m e s :
  0 <= m -> fnonneg (binary_normalize 53 1024 m e s).
Proof.
  intros Hm. destruct m; cbn [binary_normalize]; [done| |lia].
  apply has_sign_nonneg, binary_round_sign.
Qed.

Lemma f64_of_nonneg z : 0 <= z -> fnonneg (f64_of z).
Proof. apply binary_normalize_nonneg. Qed.

(** A positive finite factor cannot meet [0 * inf]. *)
Lemma fmul_nonneg a x :
  is_finite a = true -> flt f0 a = true -> fnonneg x -> fnonneg (fmul a x).
Proof.
  destruct a as [sa|sa| |[] ma ea]; try discriminate; intros _ _.
  destruct x as [[]|[]| |[] mx ex]; try discriminate; intros _; try reflexivity.
  apply has_sign_nonneg, binary_round_aux_sign. lia.
Qed.

Lemma fadd_nonneg x y : fnonneg x -> fnonneg y -> fnonneg (fadd x y).
Proof.
  destruct x as [[]|[]| |[] mx ex]; try discriminate;
    destruct y as [[]|[]| |[] my ey]; try discriminate; intros _ _; try reflexivity.
  unfold fadd, SFadd. apply binary_normalize_nonneg. cbn [cond_Zopp]. lia.
Qed.

(** The distance to a finite number is not NaN. *)
Lemma fabs_fsub_nonneg x y :
  is_finite x = true -> is_nan y = false -> fnonneg (fabs (fsub x y)).
Proof.
  intros Hx Hy.
  assert (Hn : is_nan (fsub x y) = false).
  { destruct x as [[]|[]| |[] mx ex]; try discriminate;
      destruct y as [[]|[]| |[] my ey]; try discriminate; auto;
      apply binary_normalize_not_nan. }
  by destruct (fsub x y) as [| | |].
Qed.

Lemma fmax_0_nonneg x : fnonneg (fmax x f0).
Proof. by destruct x as [[]|[]| |[] m e]. Qed.

(** ** The order is total away from NaN *)

Lemma Pcc_compare m n : Pos.compare_cont Eq m n = Pos.compare m n.
Proof. reflexivity. Qed.

Lemma partial_cmp_total x y :
  is_nan x = false -> is_nan y = false -> exists c, partial_cmp x y = Some c.
Proof. by destruct x as [[]|[]| |[] m e], y as [[]|[]| |[] n d]; eauto. Qed.

Lemma partial_cmp_antisym x y : partial_cmp y x = CompOpp <$> partial_cmp x y.
Proof.
  destruct x as [[]|[]| |[] m e], y as [[]|[]| |[] n d]; try reflexivity;
    cbn; rewrite (Z.compare_antisym e d); destruct (e ?= d); cbn; try done;
    by rewrite !Pcc_compare, (Pos.compare_antisym m n), ?CompOpp_involutive.
Qed.

(** A lexicographic key on which the order is the one of the integers. *)
Definition fkey (x : f64) : Z * Z * Z :=
  match x with
  | S754_nan => (0, 0, 0)
  | S754_infinity true => (-2, 0, 0)
  | S754_infinity false => (2, 0, 0)
  | S754_zero _ => (0, 0, 0)
  | S754_finite true m e => (-1, - e, - Z.pos m)
  | S754_finite false m e => (1, e, Z.pos m)
  end.

Definition key_le (a b : Z * Z * Z) : Prop :=
  a.1.1 < b.1.1 \/ a.1.1 = b.1.1 /\
    (a.1.2 < b.1.2 \/ a.1.2 = b.1.2 /\ a.2 <= b.2).

Lemma fle_key x y :
  is_nan x = false -> is_nan y = false -> fle x y = true <-> key_le (fkey x) (fkey y).
Proof.
  intros Hx Hy. unfold fle, SFleb, key_le.
  destruct x as [[]|[]| |[] m e]; try discriminate;
    destruct y as [[]|[]| |[] n d]; try discriminate; cbn; try lia;
    rewrite ?Pcc_compare;
    destruct (Z.compare_spec e d); subst; cbn; try lia;
    destruct (Pos.compare_spec m n); subst; cbn; lia.
Qed.

Lemma fle_trans x y z :
  is_nan y = false -> fle x y = true -> fle y z = true -> fle x z = true.
Proof.
  intros Hy Hxy Hyz.
  assert (Hx : is_nan x = false) by (by destruct x).
  assert (Hz : is_nan z = false) by (by destruct y as [[]|[]| |[] ? ?], z).
  apply fle_key in Hxy, Hyz; auto. apply fle_key; auto. unfold key_le in *. lia.
Qed.

Lemma fle_refl x : is_nan x = false -> fle x x = true.
Proof. intros H. apply fle_key; auto. unfold key_le. lia. Qed.

Lemma partial_cmp_fle x y c :
  partial_cmp x y = Some c -> fle x y = match c with Gt => false | _ => true end.
Proof. unfold partial_cmp, fle, SFleb. intros ->. by destruct c. Qed.
