(* ===== verification/Health.v ===== *)
(** * The path health tracker (balansir-health/src/lib.rs)

    [PathHealth] smooths probe results with an EMA and drives a four-state
    machine with hysteresis counters and a cooldown.  [observe] reads the clock
    twice (once for [elapsed], once for the new [last_transition]); both
    readings are arguments, in nanoseconds.  The human-readable lines of
    [reasons] are kept as their template and arguments ([reason]).

    The theorems relate the counters to the history of samples: the state after
    any history is the one a specification that looks at the last samples
    computes, the smoothing factor has no influence on it, and the smoothed
    numbers never become NaN or negative. *)

From Stdlib Require Import SpecFloat.
From S2P Require Import Prelude F64.

Inductive PathState := Unknown | Healthy | Degraded | Failing.

#[export] Instance PathState_eq_dec : EqDecision PathState.
Proof. solve_decision. Defined.

Definition label (s : PathState) : string :=
  match s with
  | Unknown => "Unknown"%string
  | Healthy => "Healthy"%string
  | Degraded => "Degraded"%string
  | Failing => "Failing"%string
  end.

Record PathHealthConfig := mkHealthConfig {
  latency_threshold_ms : f64;
  loss_threshold_pct : f64;
  enter_degraded : Z;
  exit_degraded : Z;
  cooldown : Z;
  alpha : f64;
}.

Definition PathHealthConfig_default : PathHealthConfig :=
  mkHealthConfig (f64_of 150) (f64_of 5) 2 3 10000000000 (f64_lit 3 10).

Record PathSample := mkSample {
  s_latency_ms : option f64;
  s_loss_pct : option f64;
  reachable : bool;
  degraded_evidence : bool;
}.

Definition PathSample_healthy : PathSample := mkSample None None true false.
Definition PathSample_failure : PathSample := mkSample None None false false.

Inductive PathTransition := EnteredDegraded | EnteredFailing | Recovered.

Record PathHealth := mkHealth {
  h_config : PathHealthConfig;
  h_state : PathState;
  h_latency_ms : f64;
  h_variance_ms : f64;
  h_loss_pct : f64;
  h_samples : Z;
  consecutive_bad : Z;
  consecutive_good : Z;
  h_failures : Z;
  last_transition : option Z;
}.

Definition PathHealth_new (config : PathHealthConfig) : PathHealth :=
  mkHealth config Unknown f0 f0 f0 0 0 0 0 None.

Definition reset (h : PathHealth) : PathHealth := PathHealth_new (h_config h).

(** ** Smoothing *)

(** [a * x + (1.0 - a) * prev] *)
Definition ema (a x prev : f64) : f64 := fadd (fmul a x) (fmul (fsub f1 a) prev).

(** The [is_finite() && >= 0.0] guard on a measurement. *)
Definition measurable (x : f64) : bool := is_finite x && fle f0 x.

Definition smoothing (config : PathHealthConfig) : f64 :=
  clamp (alpha config) (f64_lit 1 1000) f1.

Definition update_ema (h : PathHealth) (sample : PathSample) : PathHealth :=
  let a := smoothing (h_config h) in
  let h :=
    match s_latency_ms sample with
    | Some lat =>
        if measurable lat then
          let latency := if h_samples h <=? 1 then lat else ema a lat (h_latency_ms h) in
          let variance :=
            if h_samples h <=? 1 then f0
            else ema a (fabs (fsub lat latency)) (h_variance_ms h) in
          mkHealth (h_config h) (h_state h) latency variance (h_loss_pct h) (h_samples h)
            (consecutive_bad h) (consecutive_good h) (h_failures h) (last_transition h)
        else h
    | None => h
    end in
  match s_loss_pct sample with
  | Some loss =>
      if measurable loss then
        let loss' := if h_samples h <=? 1 then loss else ema a loss (h_loss_pct h) in
        mkHealth (h_config h) (h_state h) (h_latency_ms h) (h_variance_ms h) loss'
          (h_samples h) (consecutive_bad h) (consecutive_good h) (h_failures h)
          (last_transition h)
      else h
  | None => h
  end.

(** ** The state machine *)

(** The sample counts as degraded. *)
Definition degraded (config : PathHealthConfig) (sample : PathSample) : bool :=
  negb (reachable sample) || degraded_evidence sample
  || is_finite (latency_threshold_ms config)
     && match s_latency_ms sample with
        | Some l => flt (latency_threshold_ms config) l
        | None => false
        end
  || is_finite (loss_threshold_pct config)
     && match s_loss_pct sample with
        | Some l => flt (loss_threshold_pct config) l
        | None => false
        end.

Definition count_sample (h : PathHealth) (sample : PathSample) : PathHealth :=
  let bad := degraded (h_config h) sample in
  mkHealth (h_config h) (h_state h) (h_latency_ms h) (h_variance_ms h) (h_loss_pct h)
    (h_samples h)
    (if bad then sat_add u32_max (consecutive_bad h) 1 else 0)
    (if bad then 0 else sat_add u32_max (consecutive_good h) 1)
    (if reachable sample then h_failures h else sat_add u64_max (h_failures h) 1)
    (last_transition h).

Definition target_state (h : PathHealth) (sample : PathSample) : PathState :=
  if enter_degraded (h_config h) <=? consecutive_bad h
  then if reachable sample then Degraded else Failing
  else Healthy.

Definition rank (s : PathState) : Z :=
  match s with Unknown => 0 | Healthy => 1 | Degraded => 2 | Failing => 3 end.

(** An improving transition that has to wait. *)
Definition held (h : PathHealth) (target : PathState) (now : Z) : bool :=
  (rank target <? rank (h_state h))
  && ((consecutive_good h <? exit_degraded (h_config h))
      || match last_transition h with
         | Some last => sat_sub now last <? cooldown (h_config h)
         | None => false
         end).

Definition transition (prev target : PathState) : option PathTransition :=
  match prev, target with
  | Healthy, Degraded => Some EnteredDegraded
  | (Healthy | Degraded), Failing => Some EnteredFailing
  | (Failing | Degraded), Healthy => Some Recovered
  | _, _ => None
  end.

Definition observe (h : PathHealth) (sample : PathSample) (now now' : Z) :
    PathHealth * option PathTransition :=
  let h := mkHealth (h_config h) (h_state h) (h_latency_ms h) (h_variance_ms h)
    (h_loss_pct h) (sat_add u64_max (h_samples h) 1) (consecutive_bad h)
    (consecutive_good h) (h_failures h) (last_transition h) in
  let h := update_ema h sample in
  let h := count_sample h sample in
  let target := target_state h sample in
  if bool_decide (target = h_state h) then (h, None)
  else if held h target now then (h, None)
  else
    (mkHealth (h_config h) target (h_latency_ms h) (h_variance_ms h) (h_loss_pct h)
       (h_samples h) (consecutive_bad h) (consecutive_good h) (h_failures h) (Some now'),
     transition (h_state h) target).

(** ** The serialised view *)

Inductive reason :=
| CollectingSamples
| PathIsHealthy (rtt : option f64)
| RttExceeds (rtt threshold : f64)
| LossExceeds (loss threshold : f64)
| DegradedBelowThresholds
| ConsecutiveFailures (n threshold : Z)
| TotalFailures (n : Z)
| ProbeFailed.

Definition reasons (h : PathHealth) : list reason :=
  let th := latency_threshold_ms (h_config h) in
  let loss_th := loss_threshold_pct (h_config h) in
  let r :=
    match h_state h with
    | Unknown => [CollectingSamples]
    | Healthy => [PathIsHealthy (if 0 <? h_samples h then Some (h_latency_ms h) else None)]
    | Degraded =>
        let r :=
          (if is_finite th && flt th (h_latency_ms h)
           then [RttExceeds (h_latency_ms h) th] else [])
          ++ (if is_finite loss_th && flt loss_th (h_loss_pct h)
              then [LossExceeds (h_loss_pct h) loss_th] else []) in
        match r with [] => [DegradedBelowThresholds] | _ => r end
    | Failing =>
        [ConsecutiveFailures (consecutive_bad h) (enter_degraded (h_config h))]
        ++ (if 0 <? h_failures h then [TotalFailures (h_failures h)] else [])
    end in
  if negb (is_finite th) && bool_decide (h_state h = Failing) && (consecutive_bad h =? 0)
  then r ++ [ProbeFailed] else r.

Record PathHealthView := mkHealthView {
  v_state : string;
  v_latency_ms : option f64;
  v_variance_ms : option f64;
  v_loss_pct : option f64;
  v_samples : Z;
  v_failures : Z;
  v_consecutive_failures : Z;
  v_reasons : list reason;
}.

(** [PathHealthView::default()] *)
Definition PathHealthView_default : PathHealthView :=
  mkHealthView EmptyString None None None 0 0 0 [].

Definition view (h : PathHealth) : PathHealthView :=
  let sampled x := if 0 <? h_samples h then Some x else None in
  mkHealthView (to_ascii_lowercase (label (h_state h))) (sampled (h_latency_ms h))
    (sampled (h_variance_ms h)) (sampled (h_loss_pct h)) (h_samples h) (h_failures h)
    (consecutive_bad h) (reasons h).

(** ** What the tracker promises, over the history of samples

    The history lists the samples newest first. *)

(** One observation: the sample and the two clock readings. *)
Record observation := mkObs { o_sample : PathSample; o_now : Z; o_now' : Z }.

Definition observe_obs (h : PathHealth) (o : observation) : PathHealth :=
  (observe h (o_sample o) (o_now o) (o_now' o)).1.

(** The tracker after a history. *)
Fixpoint after (config : PathHealthConfig) (hist : list observation) : PathHealth :=
  match hist with
  | [] => PathHealth_new config
  | o :: hist => observe_obs (after config hist) o
  end.

(** The last [n] samples exist and all satisfy [p]. *)
Definition last_all (n : Z) (p : PathSample -> bool) (hist : list observation) : bool :=
  (n <=? len hist) && forallb (fun o => p (o_sample o)) (take (Z.to_nat n) hist).

(** The cooldown has run out. *)
Definition cooled (config : PathHealthConfig) (last : option Z) (now : Z) : bool :=
  match last with
  | Some t => cooldown config <=? sat_sub now t
  | None => true
  end.

(** The next state, from the previous one and the samples alone. *)
Definition spec_next (config : PathHealthConfig) (prev : PathState) (last : option Z)
    (o : observation) (hist : list observation) : PathState :=
  if last_all (enter_degraded config) (degraded config) (o :: hist) then
    if reachable (o_sample o)
    then match prev with Failing => Failing | _ => Degraded end
    else Failing
  else
    match prev with
    | Unknown | Healthy => Healthy
    | Degraded | Failing =>
        if last_all (exit_degraded config) (fun s => negb (degraded config s)) (o :: hist)
           && cooled config last (o_now o)
        then Healthy else prev
    end.

(** The thresholds are positive [u32]s. *)
Definition thresholds_ok (config : PathHealthConfig) : Prop :=
  1 <= enter_degraded config <= u32_max /\ 1 <= exit_degraded config <= u32_max.

(** *** The counters count the streak at the head of the history *)

Fixpoint streak (p : PathSample -> bool) (hist : list observation) : Z :=
  match hist with
  | [] => 0
  | o :: hist => if p (o_sample o) then streak p hist + 1 else 0
  end.

Lemma streak_range p hist : 0 <= streak p hist <= len hist.
Proof.
  unfold len. induction hist as [|o hist IH]; cbn [streak length]; [lia|]. case_match; lia.
Qed.

Lemma last_all_streak n p hist : 0 <= n -> last_all n p hist = (n <=? streak p hist).
Proof.
  unfold last_all, len. revert n. induction hist as [|o hist IH]; intros n Hn.
  - cbn. destruct n; try reflexivity; lia.
  - destruct (Z.eq_dec n 0) as [->|Hn0].
    + pose proof (streak_range p (o :: hist)).
      change (take (Z.to_nat 0) (o :: hist)) with (@nil observation). cbn [forallb]. lia.
    + replace (Z.to_nat n) with (S (Z.to_nat (n - 1))) by lia.
      cbn [take forallb streak length]. specialize (IH (n - 1) ltac:(lia)).
      destruct (p (o_sample o)); lia.
Qed.

Lemma update_ema_frame h sample :
  let h' := update_ema h sample in
  h_config h' = h_config h /\ h_state h' = h_state h /\
  consecutive_bad h' = consecutive_bad h /\ consecutive_good h' = consecutive_good h /\
  last_transition h' = last_transition h /\ h_samples h' = h_samples h /\
  h_failures h' = h_failures h.
Proof. unfold update_ema. repeat case_match; cbn; repeat split. Qed.

(** One observation on the parts that matter for the state. *)
Lemma observe_obs_step h o :
  let cfg := h_config h in
  let bad := degraded cfg (o_sample o) in
  let h' := observe_obs h o in
  let nbad := if bad then sat_add u32_max (consecutive_bad h) 1 else 0 in
  let ngood := if bad then 0 else sat_add u32_max (consecutive_good h) 1 in
  let target :=
    if enter_degraded cfg <=? nbad
    then if reachable (o_sample o) then Degraded else Failing else Healthy in
  h_config h' = cfg /\ consecutive_bad h' = nbad /\ consecutive_good h' = ngood /\
  h_state h' =
    (if (rank target <? rank (h_state h))
        && ((ngood <? exit_degraded cfg) || negb (cooled cfg (last_transition h) (o_now o)))
     then h_state h else target) /\
  last_transition h' =
    if bool_decide (h_state h' = h_state h) then last_transition h else Some (o_now' o).
Proof.
  unfold observe_obs, observe.
  set (h1 := mkHealth _ _ _ _ _ _ _ _ _ _).
  pose proof (update_ema_frame h1 (o_sample o)) as (E1 & E2 & E3 & E4 & E5 & _).
  remember (update_ema h1 (o_sample o)) as h2 eqn:Eh; clear Eh.
  cbn in E1, E2, E3, E4, E5. cbn zeta.
  assert (Hheld : forall t, held (count_sample h2 (o_sample o)) t (o_now o) =
    (rank t <? rank (h_state h))
    && (((if degraded (h_config h) (o_sample o) then 0
          else sat_add u32_max (consecutive_good h) 1) <? exit_degraded (h_config h))
        || negb (cooled (h_config h) (last_transition h) (o_now o)))).
  { intros t. unfold held, count_sample, cooled. cbn. rewrite E1, E2, E4, E5.
    do 2 f_equal. destruct (last_transition h); [|done]. lia. }
  rewrite Hheld. unfold target_state.
  unfold count_sample. cbn [h_config h_state consecutive_bad consecutive_good].
  rewrite E1, E2, E3, E4.
  set (t := if _ <=? _ then _ else _).
  destruct ((rank t <? rank (h_state h)) && _);
    case_bool_decide as Ht; cbn; rewrite ?bool_decide_eq_true_2 by done;
    rewrite ?bool_decide_eq_false_2 by done; repeat split; auto.
Qed.

Lemma after_counters config hist :
  let h := after config hist in
  h_config h = config /\
  consecutive_bad h = Z.min (streak (degraded config) hist) u32_max /\
  consecutive_good h = Z.min (streak (fun s => negb (degraded config s)) hist) u32_max.
Proof.
  induction hist as [|o hist (IHc & IHb & IHg)]; [by cbn|].
  cbn [after]. pose proof (observe_obs_step (after config hist) o) as (Hc & Hb & Hg & _).
  rewrite IHc in Hc, Hb, Hg. rewrite Hc, Hb, Hg, IHb, IHg. cbn [streak].
  pose proof (streak_range (degraded config) hist).
  pose proof (streak_range (fun s => negb (degraded config s)) hist).
  split; [done|]. unfold sat_add, u32_max.
  destruct (degraded config (o_sample o)); cbn [negb]; lia.
Qed.

(** C38.  The state machine, over whole histories: for every configuration with
    positive thresholds, after every history, the next state is the one the
    specification computes from the last samples.  A path becomes bad exactly when
    the last [enter_degraded] samples are all degraded (at once, and [Failing] iff
    the newest one is unreachable); it becomes healthy again exactly when the last
    [exit_degraded] samples are all good and the cooldown has run out; a failing
    path is never promoted to degraded. *)
Theorem path_state_follows_history config o hist :
  thresholds_ok config ->
  h_state (after config (o :: hist)) =
    spec_next config (h_state (after config hist)) (last_transition (after config hist))
      o hist.
Proof.
  intros [He Hx]. cbn [after].
  pose proof (after_counters config hist) as (Hc & Hb & Hg).
  pose proof (observe_obs_step (after config hist) o) as (_ & _ & _ & -> & _).
  rewrite Hc, Hb, Hg. unfold spec_next. rewrite !last_all_streak by lia. cbn [streak].
  pose proof (streak_range (degraded config) hist).
  pose proof (streak_range (fun s => negb (degraded config s)) hist).
  assert (Hr : reachable (o_sample o) = false -> degraded config (o_sample o) = true).
  { unfold degraded. by intros ->. }
  remember (streak (degraded config) hist) as sb eqn:Eb; clear Eb.
  remember (streak (fun s => negb (degraded config s)) hist) as sg eqn:Eg; clear Eg.
  unfold sat_add. destruct (degraded config (o_sample o)); cbn [negb].
  - replace (enter_degraded config <=? Z.min (Z.min sb u32_max + 1) u32_max)
      with (enter_degraded config <=? sb + 1) by lia.
    replace (0 <? exit_degraded config) with true by lia.
    replace (exit_degraded config <=? 0) with false by lia. cbn [orb andb].
    destruct (enter_degraded config <=? sb + 1), (reachable (o_sample o)),
      (h_state (after config hist)); reflexivity.
  - replace (enter_degraded config <=? 0) with false by lia.
    replace (Z.min (Z.min sg u32_max + 1) u32_max <? exit_degraded config)
      with (negb (exit_degraded config <=? sg + 1)) by lia.
    destruct (exit_degraded config <=? sg + 1), (cooled _ _ _),
      (h_state (after config hist)); reflexivity.
Qed.

Lemma path_state_follows_history_witness :
  thresholds_ok PathHealthConfig_default /\
  h_state (after PathHealthConfig_default
    [mkObs PathSample_failure 20 21; mkObs PathSample_failure 10 11;
     mkObs PathSample_healthy 0 1]) = Failing.
Proof.
  assert (H : thresholds_ok PathHealthConfig_default)
    by (vm_compute; repeat split; intros [=]).
  split; [exact H|].
  rewrite (path_state_follows_history PathHealthConfig_default _ _ H).
  vm_compute. reflexivity.
Defined.

(** ** The smoothed numbers *)

Definition with_alpha (config : PathHealthConfig) (a : f64) : PathHealthConfig :=
  mkHealthConfig (latency_threshold_ms config) (loss_threshold_pct config)
    (enter_degraded config) (exit_degraded config) (cooldown config) a.

Lemma after_with_alpha config a hist :
  let h := after config hist in
  let h' := after (with_alpha config a) hist in
  h_state h' = h_state h /\ last_transition h' = last_transition h.
Proof.
  induction hist as [|o hist (IHs & IHt)]; [done|]. cbn [after].
  pose proof (after_counters config hist) as (Hc & Hb & Hg).
  pose proof (after_counters (with_alpha config a) hist) as (Hc' & Hb' & Hg').
  pose proof (observe_obs_step (after config hist) o) as (_ & _ & _ & Hs & Ht).
  pose proof (observe_obs_step (after (with_alpha config a) hist) o)
    as (_ & _ & _ & Hs' & Ht').
  assert (E : h_state (observe_obs (after (with_alpha config a) hist) o) =
    h_state (observe_obs (after config hist) o)).
  { rewrite Hs, Hs', Hc, Hc', Hb, Hb', Hg, Hg', IHs, IHt. reflexivity. }
  split; [exact E|]. by rewrite Ht, Ht', E, IHs, IHt.
Qed.

(** The smoothing factor never influences the state: two trackers that differ
    only in [alpha] go through the same states on every history.  The thresholds are
    compared with the raw sample, not with the EMA. *)
Theorem state_ignores_smoothing config a hist :
  h_state (after (with_alpha config a) hist) = h_state (after config hist).
Proof. apply after_with_alpha. Qed.

(** The clamped smoothing factor leaves a weight in (0, 1] for the past. *)
Definition smoothing_ok (config : PathHealthConfig) : Prop :=
  is_nan (alpha config) = false /\
  flt f0 (fsub f1 (smoothing config)) = true /\
  fle (fsub f1 (smoothing config)) f1 = true.

Lemma below_one_finite x : flt f0 x = true -> fle x f1 = true -> is_finite x = true.
Proof. by destruct x as [[]|[]| |[] m e]. Qed.

Lemma smoothing_range config :
  is_nan (alpha config) = false ->
  is_finite (smoothing config) = true /\ flt f0 (smoothing config) = true.
Proof.
  unfold smoothing, clamp. set (lo := f64_lit 1 1000). set (x := alpha config). intros Hx.
  assert (Hlo : is_nan lo = false) by reflexivity.
  assert (Hlo0 : is_finite lo = true /\ flt f0 lo = true) by (split; reflexivity).
  destruct (flt x lo) eqn:E1; [by destruct (flt f1 lo) eqn:E2|].
  destruct (flt f1 x) eqn:E2; [done|].
  destruct x as [[]|[]| |[] m e]; try discriminate; done.
Qed.

Lemma ema_nonneg config x prev :
  smoothing_ok config -> fnonneg x -> fnonneg prev ->
  fnonneg (ema (smoothing config) x prev).
Proof.
  intros (Hn & H0 & H1) Hx Hp. destruct (smoothing_range config Hn).
  apply fadd_nonneg; apply fmul_nonneg; auto using below_one_finite.
Qed.

Definition numbers_ok (h : PathHealth) : Prop :=
  fnonneg (h_latency_ms h) /\ fnonneg (h_variance_ms h) /\ fnonneg (h_loss_pct h).

Lemma update_ema_numbers_ok h sample :
  smoothing_ok (h_config h) -> numbers_ok h -> numbers_ok (update_ema h sample).
Proof.
  intros Ha (Hl & Hv & Hp). unfold update_ema.
  set (h1 := match s_latency_ms sample with Some _ => _ | None => _ end).
  assert (H1 : numbers_ok h1 /\ h_config h1 = h_config h /\ h_samples h1 = h_samples h).
  { unfold h1. destruct (s_latency_ms sample) as [lat|]; [|by repeat split].
    unfold measurable. destruct (is_finite lat) eqn:Ef; [|by repeat split].
    destruct (fle f0 lat) eqn:El; [|by repeat split]. cbn [andb].
    destruct (h_samples h <=? 1); repeat split; cbn; auto using ema_nonneg.
    apply ema_nonneg, Hv; auto. apply fabs_fsub_nonneg; auto.
    by apply fnonneg_not_nan, ema_nonneg. }
  remember h1 as k eqn:Ek; clear Ek h1. destruct H1 as ((Kl & Kv & Kp) & Kc & Ks).
  destruct (s_loss_pct sample) as [loss|]; [|by repeat split].
  unfold measurable. destruct (is_finite loss); [|by repeat split].
  destruct (fle f0 loss) eqn:El; [|by repeat split]. cbn [andb].
  destruct (h_samples k <=? 1); repeat split; cbn; auto using ema_nonneg.
Qed.

Lemma observe_config h sample now now' : h_config (observe h sample now now').1 = h_config h.
Proof. apply (observe_obs_step h (mkObs sample now now')). Qed.

Lemma observe_numbers_ok h sample now now' :
  smoothing_ok (h_config h) -> numbers_ok h -> numbers_ok (observe h sample now now').1.
Proof.
  intros Ha Hn. unfold observe. set (h1 := mkHealth _ _ _ _ _ _ _ _ _ _).
  assert (H2 : numbers_ok (update_ema h1 sample)) by (by apply update_ema_numbers_ok).
  repeat case_match; exact H2.
Qed.

(** On every history, whatever the probes report (infinite, negative or NaN
    readings included), the smoothed latency, variance and loss are numbers and are
    not negative. *)
Theorem smoothed_numbers_stay_sane config hist :
  smoothing_ok config -> numbers_ok (after config hist).
Proof.
  intros Ha. induction hist as [|o hist IH]; [by cbn|]. cbn [after].
  pose proof (after_counters config hist) as (Hc & _ & _).
  apply observe_numbers_ok; [by rewrite Hc|exact IH].
Qed.

Lemma smoothed_numbers_stay_sane_witness :
  smoothing_ok PathHealthConfig_default /\
  numbers_ok (after PathHealthConfig_default
    [mkObs (mkSample (Some (f64_of 30)) (Some S754_nan) true false) 10 11;
     mkObs (mkSample (Some (S754_infinity false)) None true false) 0 1]).
Proof.
  assert (H : smoothing_ok PathHealthConfig_default) by (vm_compute; repeat split).
  split; [exact H|]. apply smoothed_numbers_stay_sane. exact H.
Defined.

(** One sample is enough to leave [Unknown], and the path is then called healthy
    whatever the sample was: with [enter_degraded >= 2] even an unreachable first
    probe gives [Healthy]. *)
Theorem first_failure_reports_healthy config o :
  2 <= enter_degraded config ->
  h_state (after config [o]) = Healthy /\
  (observe (PathHealth_new config) (o_sample o) (o_now o) (o_now' o)).2 = None.
Proof.
  intros He. split.
  - cbn [after]. pose proof (observe_obs_step (PathHealth_new config) o) as (_ & _ & _ & -> & _).
    cbn [PathHealth_new h_config h_state consecutive_bad consecutive_good].
    change (sat_add u32_max 0 1) with 1.
    replace (enter_degraded config <=? _) with false by (case_match; lia). reflexivity.
  - unfold observe. set (h1 := mkHealth _ _ _ _ _ _ _ _ _ _).
    pose proof (update_ema_frame h1 (o_sample o)) as (_ & E & _).
    destruct (bool_decide _); [done|]. destruct (held _ _ _); [done|].
    unfold count_sample. cbn. by rewrite E.
Qed.

Lemma first_failure_reports_healthy_witness :
  h_state (after PathHealthConfig_default [mkObs PathSample_failure 0 1]) = Healthy.
Proof.
  apply (first_failure_reports_healthy PathHealthConfig_default (mkObs PathSample_failure 0 1)).
  vm_compute. intros [=].
Defined.
