(* ===== verification/VpnPool.v ===== *)
(** * The VPN pool (balansir-vpn/src/pool.rs, profile.rs)

    The profile store with health-aware selection, planned and forced rotation
    and recovery.  Every profile owns a [PathHealth] tracker, so [observe_health]
    takes the two monotonic clock readings of [Health.observe] besides the wall
    clock [now_ms].  Wall-clock differences are wrapping [i64] subtractions.
    Rust's [sort_by] is a stable sort, modelled by stable insertion; explanatory
    texts built by [format!] are kept as their arguments. *)

From Stdlib Require Import SpecFloat.
From S2P Require Import Prelude F64 Health.

(** ** Profiles *)

Inductive Protocol := Vless.

Inductive Transport :=
| Tcp
| WebSocket (path : string) (host : option string)
| Grpc (service_name : string)
| HttpUpgrade (path : string) (host : option string)
| Xhttp (path : string) (host mode extra : option string).

Inductive Security := SecurityNone | Tls | Reality.

Record VpnProfile := mkProfile {
  profile_id : string;
  protocol : Protocol;
  server : string;
  port : Z;
  transport : Transport;
  security : Security;
  sni : option string;
  reality_pbk : option string;
  reality_sid : option string;
  flow : option string;
  uuid : string;
  fingerprint : option string;
  pinned_peer_cert_sha256 : option string;
  p_label : string;
  source : string;
  source_ts_ms : Z;
}.

Inductive ProfileState := PUnknown | PHealthy | PDegraded | PCooldown | PFailed | PRecovering.

#[export] Instance ProfileState_eq_dec : EqDecision ProfileState.
Proof. solve_decision. Defined.

Record ProfileHealth := mkPH {
  ph_profile_id : string;
  ph_label : string;
  ph_state : ProfileState;
  ph_latency_ms : option f64;
  ph_loss_pct : option f64;
  ph_availability : option f64;
  consecutive_successes : Z;
  consecutive_failures : Z;
  failure_count : Z;
  sample_count : Z;
  ph_weight : Z;
  ph_reasons : list reason;
}.

Definition ProfileHealth_default : ProfileHealth :=
  mkPH EmptyString EmptyString PUnknown None None None 0 0 0 0 0 [].

(** ** The pool *)

(** Durations are in nanoseconds. *)
Record PoolConfig := mkPoolConfig {
  min_dwell : Z;
  failure_cooldown : Z;
  health_cooldown : Z;
  rotation_interval : Z;
  better_threshold : f64;
  ramp_steps : list Z;
}.

Definition PoolConfig_default : PoolConfig :=
  mkPoolConfig 120000000000 60000000000 10000000000 0 (f64_of 25) [10; 25; 50; 100].

(** [Duration::as_millis] and the cast to [i64]. *)
Definition as_millis (d : Z) : Z := d / 1000000.
Definition millis_i64 (d : Z) : Z := i64 (as_millis d).

Record PooledProfile := mkPooled {
  profile : VpnProfile;
  health : ProfileHealth;
  tracker : PathHealth;
  last_failure_ms : Z;
  last_selected_ms : Z;
}.

Definition pid (p : PooledProfile) : string := profile_id (profile p).

(** The [format!] texts of [last_rotation_reason]. *)
Inductive rotation_reason :=
| PlannedRotation (next active : string) (best_score active_score : f64)
| ForcedRotation (reason : string) (prev : option string).

Record VpnPool := mkPool {
  p_config : PoolConfig;
  profiles : list PooledProfile;
  active : option string;
  last_rotation_ms : Z;
  last_rotation_reason : option rotation_reason;
}.

Record Exclusion := mkExclusion { ex_profile_id : string; ex_reason : string }.

(** The reason of a decision: the parts [explain_score] prints. *)
Inductive decision_reason :=
| NoEligible
| Explained (score : f64) (state : ProfileState) (latency availability : option f64)
    (weight : option Z).

Record SelectionDecision := mkDecision {
  d_profile_id : string;
  d_score : f64;
  d_reason : decision_reason;
  d_excluded : list Exclusion;
  d_candidates : Z;
}.

Definition path_config (config : PoolConfig) : PathHealthConfig :=
  mkHealthConfig (f64_of 400) (f64_of 10) 2 3 (health_cooldown config)
    (alpha PathHealthConfig_default).

Definition VpnPool_new (config : PoolConfig) : VpnPool := mkPool config [] None 0 None.

Definition has_profile (l : list PooledProfile) (id : string) : bool :=
  existsb (fun p => String.eqb (pid p) id) l.

Definition atomic_replace (pool : VpnPool) (ps : list VpnProfile) : VpnPool * (string + Z) :=
  match ps with
  | [] => (pool, inl "refusing to replace pool with an empty set"%string)
  | _ =>
      let l := map (fun p => mkPooled p ProfileHealth_default
        (PathHealth_new (path_config (p_config pool))) 0 0) ps in
      let a :=
        match active pool with
        | Some a => if has_profile l a then Some a else None
        | None => None
        end in
      (mkPool (p_config pool) l a (last_rotation_ms pool) (last_rotation_reason pool),
       inr (len l))
  end.

(** [self.profiles.iter().find(|p| p.profile.profile_id == id)] *)
Definition find_profile (l : list PooledProfile) (id : string) : option PooledProfile :=
  List.find (fun p => String.eqb (pid p) id) l.

(** Run [f] on the first profile with that id. *)
Fixpoint update_profile (l : list PooledProfile) (id : string)
    (f : PooledProfile -> PooledProfile) : list PooledProfile :=
  match l with
  | [] => []
  | p :: l => if String.eqb (pid p) id then f p :: l else p :: update_profile l id f
  end.

Definition set_profiles (pool : VpnPool) (l : list PooledProfile) : VpnPool :=
  mkPool (p_config pool) l (active pool) (last_rotation_ms pool) (last_rotation_reason pool).

(** ** Lifecycle state, weight and score *)

Definition in_cooldown (config : PoolConfig) (p : PooledProfile) (now_ms : Z) : bool :=
  (0 <? last_failure_ms p)
  && (i64 (now_ms - last_failure_ms p) <? millis_i64 (failure_cooldown config)).

Definition was_bad (s : ProfileState) : bool :=
  match s with PFailed | PCooldown | PRecovering => true | _ => false end.

Definition derive_state (config : PoolConfig) (p : PooledProfile) (now_ms : Z) : ProfileState :=
  let cooling := in_cooldown config p now_ms in
  match h_state (tracker p) with
  | Failing => PFailed
  | Degraded => if cooling then PCooldown else PDegraded
  | Unknown => if cooling then PCooldown else PUnknown
  | Healthy =>
      if cooling then PCooldown
      else if was_bad (ph_state (health p)) then PRecovering
      else PHealthy
  end.

(** The step read is always in range: see [ramp_index_in_range]. *)
Definition ramp_index (steps : list Z) (successes : Z) : Z :=
  Z.max (Z.min successes (u32 (len steps))) 1 - 1.

Definition ramp_weight (config : PoolConfig) (p : PooledProfile) : Z :=
  let steps := ramp_steps config in
  match steps with
  | [] => 100
  | _ =>
      let i := ramp_index steps (consecutive_successes (health p)) in
      let step := default 0 (steps !! Z.to_nat i) in
      Z.min (Z.max step 1) 100
  end.

Definition weight (config : PoolConfig) (p : PooledProfile) (now_ms : Z) : Z :=
  match derive_state config p now_ms with
  | PUnknown => 10
  | PHealthy => 100
  | PDegraded => 40
  | PRecovering => ramp_weight config p
  | PCooldown | PFailed => 0
  end.

Definition score (config : PoolConfig) (p : PooledProfile) (now_ms : Z) : f64 :=
  let w := f64_of (weight config p now_ms) in
  if feq w f0 then f0
  else
    let latency_penalty :=
      match ph_latency_ms (health p) with
      | Some lat =>
          if flt f0 lat
          then fmul (clamp (fdiv lat (f64_of 1000)) f0 f1) (f64_of 15) else f0
      | None => f0
      end in
    let avail_bonus :=
      match ph_availability (health p) with
      | Some a => clamp (fmul a (f64_of 10)) f0 (f64_of 10)
      | None => f64_of 5
      end in
    fmax (fsub (fadd w avail_bonus) latency_penalty) f0.

(** ** Health samples *)

(** The bookkeeping on the observed profile, before the state is derived. *)
Definition record_sample (p : PooledProfile) (sample : PathSample) (now_ms now now' : Z) :
    PooledProfile :=
  let t := (observe (tracker p) sample now now').1 in
  let h := health p in
  let successes :=
    if reachable sample then sat_add u32_max (consecutive_successes h) 1 else 0 in
  let failures := if reachable sample then failure_count h else u64 (failure_count h + 1) in
  let count := h_samples t in
  let availability :=
    if 0 <? count then Some (fsub f1 (fdiv (f64_of failures) (f64_of count))) else None in
  mkPooled (profile p)
    (mkPH (ph_profile_id h) (ph_label h) (ph_state h) (v_latency_ms (view t))
      (v_loss_pct (view t)) availability successes (consecutive_bad t) failures count
      (ph_weight h) (ph_reasons h))
    t (if reachable sample then last_failure_ms p else now_ms) (last_selected_ms p).

Definition set_lifecycle (p : PooledProfile) (next : ProfileState) : PooledProfile :=
  let h := health p in
  mkPooled (profile p)
    (mkPH (pid p) (p_label (profile p)) next (ph_latency_ms h) (ph_loss_pct h)
      (ph_availability h) (consecutive_successes h) (consecutive_failures h)
      (failure_count h) (sample_count h) (ph_weight h) (v_reasons (view (tracker p))))
    (tracker p) (last_failure_ms p) (last_selected_ms p).

Definition set_weight (p : PooledProfile) (w : Z) : PooledProfile :=
  let h := health p in
  mkPooled (profile p)
    (mkPH (ph_profile_id h) (ph_label h) (ph_state h) (ph_latency_ms h) (ph_loss_pct h)
      (ph_availability h) (consecutive_successes h) (consecutive_failures h)
      (failure_count h) (sample_count h) w (ph_reasons h))
    (tracker p) (last_failure_ms p) (last_selected_ms p).

Definition observe_profile (config : PoolConfig) (p : PooledProfile) (sample : PathSample)
    (now_ms now now' : Z) : PooledProfile :=
  let p := record_sample p sample now_ms now now' in
  let p := set_lifecycle p (derive_state config p now_ms) in
  set_weight p (weight config p now_ms).

Definition observe_health (pool : VpnPool) (id : string) (sample : PathSample)
    (now_ms now now' : Z) : VpnPool * ProfileState :=
  match find_profile (profiles pool) id with
  | None => (pool, PUnknown)
  | Some p =>
      let step q := observe_profile (p_config pool) q sample now_ms now now' in
      (set_profiles pool (update_profile (profiles pool) id step), ph_state (health (step p)))
  end.

(** ** Selection *)

Definition explain_score (state : ProfileState) (h : ProfileHealth) (s : f64) :
    decision_reason :=
  Explained s state (ph_latency_ms h)
    ((fun a => fmul a (f64_of 100)) <$> ph_availability h)
    (if 0 <? ph_weight h then Some (ph_weight h) else None).

Definition exclusion (config : PoolConfig) (now_ms : Z) (p : PooledProfile) : Exclusion :=
  mkExclusion (pid p)
    match derive_state config p now_ms with
    | PCooldown => "in cooldown after failure"
    | PFailed => "failed health probes"
    | _ => "weight zero"
    end%string.

Definition candidate : Type := string * f64 * decision_reason.

(** The selection loop: the exclusions and the candidates, each in pool order. *)
Fixpoint scan_candidates (config : PoolConfig) (now_ms : Z) (l : list PooledProfile) :
    list Exclusion * list candidate :=
  match l with
  | [] => ([], [])
  | p :: l =>
      let '(ex, cs) := scan_candidates config now_ms l in
      if weight config p now_ms =? 0 then (exclusion config now_ms p :: ex, cs)
      else
        let s := score config p now_ms in
        (ex, (pid p, s, explain_score (derive_state config p now_ms) (health p) s) :: cs)
  end.

(** Score descending, then profile id ascending. *)
Definition cmp_candidate (a b : candidate) : comparison :=
  match default Eq (partial_cmp b.1.2 a.1.2) with
  | Eq => String.compare a.1.1 b.1.1
  | c => c
  end.

Definition select_for (pool : VpnPool) (now_ms : Z) : VpnPool * SelectionDecision :=
  let '(excluded, candidates) := scan_candidates (p_config pool) now_ms (profiles pool) in
  match sort_by cmp_candidate candidates with
  | (id, s, why) :: _ =>
      let l := update_profile (profiles pool) id (fun p =>
        mkPooled (profile p) (health p) (tracker p) (last_failure_ms p) now_ms) in
      (mkPool (p_config pool) l (Some id) (last_rotation_ms pool) (last_rotation_reason pool),
       mkDecision id s why excluded (len candidates))
  | [] =>
      (mkPool (p_config pool) (profiles pool) None (last_rotation_ms pool)
         (last_rotation_reason pool),
       mkDecision EmptyString f0 NoEligible excluded 0)
  end.

(** ** Rotation *)

Definition ranked (pool : VpnPool) (now_ms : Z) : list (string * f64) :=
  sort_by (fun a b => default Eq (partial_cmp b.2 a.2))
    (map (fun p => (pid p, score (p_config pool) p now_ms))
      (List.filter (fun p => 0 <? weight (p_config pool) p now_ms) (profiles pool))).

Definition dwell (pool : VpnPool) (id : string) (now_ms : Z) : Z :=
  match find_profile (profiles pool) id with
  | Some p => i64 (now_ms - last_selected_ms p)
  | None => 0
  end.

Definition maybe_planned_rotate (pool : VpnPool) (now_ms : Z) : VpnPool * option string :=
  if as_millis (rotation_interval (p_config pool)) =? 0 then (pool, None)
  else
    match active pool with
    | None => (pool, None)
    | Some active_id =>
        if dwell pool active_id now_ms <? millis_i64 (min_dwell (p_config pool))
        then (pool, None)
        else
          let r := ranked pool now_ms in
          match List.find (fun c => negb (String.eqb c.1 active_id)) r with
          | None => (pool, None)
          | Some (next, best) =>
              let active_score :=
                match List.find (fun c => String.eqb c.1 active_id) r with
                | Some (_, s) => s
                | None => f0
                end in
              if flt best active_score
                 && fle (better_threshold (p_config pool)) (fsub active_score best)
              then (pool, None)
              else
                (mkPool (p_config pool) (profiles pool) (Some next) now_ms
                   (Some (PlannedRotation next active_id best active_score)),
                 Some next)
          end
    end.

Definition force_rotate_to (pool : VpnPool) (id why : string) (now_ms : Z) :
    VpnPool * (string + string) :=
  if has_profile (profiles pool) id then
    (mkPool (p_config pool)
       (update_profile (profiles pool) id (fun p =>
          mkPooled (profile p) (health p) (tracker p) (last_failure_ms p) now_ms))
       (Some id) now_ms (Some (ForcedRotation why (active pool))),
     inr id)
  else (pool, inl ("no profile '" ++ id ++ "'")%string).

(** ** The snapshot *)

Record PoolSnapshot := mkSnapshot {
  sn_profiles : list ProfileHealth;
  sn_active : option string;
  sn_excluded : list Exclusion;
  sn_last_rotation_ms : Z;
  sn_last_rotation_reason : option rotation_reason;
  sn_updated_ms : Z;
}.

Definition snapshot_health (p : PooledProfile) : ProfileHealth :=
  let h := health p in
  mkPH (pid p) (p_label (profile p)) (ph_state h) (ph_latency_ms h) (ph_loss_pct h)
    (ph_availability h) (consecutive_successes h) (consecutive_failures h)
    (failure_count h) (sample_count h) (ph_weight h) (ph_reasons h).

Definition snapshot (pool : VpnPool) (now_ms : Z) : PoolSnapshot :=
  mkSnapshot (map snapshot_health (profiles pool)) (active pool) []
    (last_rotation_ms pool) (last_rotation_reason pool) now_ms.

(** ** Weights, scores and the candidate order *)

Lemma ramp_index_in_range steps successes :
  steps <> [] -> 0 <= successes -> 0 <= ramp_index steps successes < len steps.
Proof.
  intros Hn Hs. unfold ramp_index, wrap.
  assert (1 <= len steps) by (destruct steps; [done|unfold len; cbn [length]; lia]).
  assert (u32 (len steps) <= len steps) by (apply Z.mod_le; lia).
  pose proof (wrap_range 32 (len steps)). unfold wrap in *. lia.
Qed.

Lemma weight_range config p now_ms : 0 <= weight config p now_ms <= 100.
Proof. unfold weight, ramp_weight. repeat case_match; lia. Qed.

(** A profile can be selected exactly when it is neither failed nor cooling down. *)
Lemma weight_zero config p now_ms :
  weight config p now_ms = 0 <->
  derive_state config p now_ms = PCooldown \/ derive_state config p now_ms = PFailed.
Proof.
  unfold weight. destruct (derive_state config p now_ms) eqn:E;
    split; try lia; try (intros [[=]|[=]]); auto.
  unfold ramp_weight. case_match; lia.
Qed.

Lemma score_nonneg config p now_ms : fnonneg (score config p now_ms).
Proof. unfold score. case_match; [done|]. apply fmax_0_nonneg. Qed.

Lemma string_le_trans (a b c : string) :
  String.compare a b <> Gt -> String.compare b c <> Gt -> String.compare a c <> Gt.
Proof.
  revert b c. induction a as [|x a IH]; intros [|y b] [|z c]; cbn; try done.
  unfold Ascii.compare.
  destruct (N.compare_spec (N_of_ascii x) (N_of_ascii y)) as [E1|E1|E1]; try done;
    destruct (N.compare_spec (N_of_ascii y) (N_of_ascii z)) as [E2|E2|E2]; try done;
    destruct (N.compare_spec (N_of_ascii x) (N_of_ascii z)) as [E3|E3|E3]; try lia; try done.
  apply IH.
Qed.

Lemma string_le_refl (a : string) : String.compare a a <> Gt.
Proof.
  pose proof (String.compare_antisym a a). destruct (String.compare a a); done.
Qed.

Lemma string_le_total (a b : string) :
  String.compare a b = Gt -> String.compare b a <> Gt.
Proof. rewrite String.compare_antisym. by destruct (String.compare b a). Qed.

(** [a] is ranked no later than [b]. *)
Lemma cmp_candidate_le a b :
  fnonneg a.1.2 -> fnonneg b.1.2 ->
  cmp_candidate a b <> Gt <->
  fle b.1.2 a.1.2 = true /\
  (fle a.1.2 b.1.2 = true -> String.compare a.1.1 b.1.1 <> Gt).
Proof.
  intros Ha%fnonneg_not_nan Hb%fnonneg_not_nan.
  destruct (partial_cmp_total _ _ Hb Ha) as [c Hc].
  pose proof (partial_cmp_antisym b.1.2 a.1.2) as Hc'. rewrite Hc in Hc'.
  unfold cmp_candidate. rewrite Hc, (partial_cmp_fle _ _ _ Hc), (partial_cmp_fle _ _ _ Hc').
  destruct c; cbn; intuition congruence.
Qed.

Lemma cmp_candidate_antisym a b : cmp_candidate b a = CompOpp (cmp_candidate a b).
Proof.
  unfold cmp_candidate. rewrite (partial_cmp_antisym b.1.2 a.1.2).
  destruct (partial_cmp b.1.2 a.1.2) as [[]|]; cbn; auto using String.compare_antisym.
Qed.

Lemma sort_candidates_head l x r :
  Forall (fun c : candidate => fnonneg c.1.2) l ->
  sort_by cmp_candidate l = x :: r -> forall y, In y l -> cmp_candidate x y <> Gt.
Proof.
  apply (sort_by_head cmp_candidate (fun c => fnonneg c.1.2)).
  - intros a b c Ha Hb Hc. rewrite !cmp_candidate_le by auto. intros [H1 H2] [H3 H4].
    apply fnonneg_not_nan in Ha, Hb, Hc. split; [by apply (fle_trans _ b.1.2)|].
    intros H5. apply (string_le_trans _ b.1.1); [apply H2|apply H4].
    + by apply (fle_trans _ c.1.2).
    + by apply (fle_trans _ a.1.2).
  - intros a b _ _ H. rewrite cmp_candidate_antisym, H. discriminate.
  - intros a Ha. apply cmp_candidate_le; auto. split; auto using fle_refl, fnonneg_not_nan.
    intros _. apply string_le_refl.
Qed.

(** The scan keeps the profiles with a weight as candidates, in pool order. *)
Definition eligible (config : PoolConfig) (now_ms : Z) (p : PooledProfile) : bool :=
  0 <? weight config p now_ms.

Definition candidate_of (config : PoolConfig) (now_ms : Z) (p : PooledProfile) : candidate :=
  (pid p, score config p now_ms,
   explain_score (derive_state config p now_ms) (health p) (score config p now_ms)).

Lemma scan_candidates_eq config now_ms l :
  scan_candidates config now_ms l =
  (map (exclusion config now_ms) (List.filter (fun p => negb (eligible config now_ms p)) l),
   map (candidate_of config now_ms) (List.filter (eligible config now_ms) l)).
Proof.
  induction l as [|p l IH]; [done|]. cbn [scan_candidates List.filter]. rewrite IH.
  assert (He : eligible config now_ms p = negb (weight config p now_ms =? 0)).
  { unfold eligible. pose proof (weight_range config p now_ms). lia. }
  rewrite He. by destruct (weight config p now_ms =? 0).
Qed.

Definition unusable (config : PoolConfig) (now_ms : Z) (p : PooledProfile) : bool :=
  match derive_state config p now_ms with PCooldown | PFailed => true | _ => false end.

Lemma unusable_eligible config now_ms p :
  unusable config now_ms p = negb (eligible config now_ms p).
Proof.
  unfold unusable, eligible. pose proof (weight_zero config p now_ms) as Hz.
  pose proof (weight_range config p now_ms).
  destruct (derive_state config p now_ms); destruct (0 <? weight config p now_ms) eqn:E;
    try done; exfalso; destruct Hz as [Hz1 Hz2];
    first [destruct (Hz1 ltac:(lia)) as [[=]|[=]] | specialize (Hz2 ltac:(auto)); lia].
Qed.

Lemma no_candidate config now_ms l :
  List.filter (eligible config now_ms) l = [] <-> forallb (unusable config now_ms) l = true.
Proof.
  induction l as [|p l IH]; [done|]. cbn [List.filter forallb]. rewrite unusable_eligible.
  destruct (eligible config now_ms p); cbn; [done|exact IH].
Qed.

(** What the best eligible profile means: no eligible profile scores higher, and
    among equal scores the id is the least. *)
Definition best_of (config : PoolConfig) (now_ms : Z) (l : list PooledProfile)
    (p : PooledProfile) : Prop :=
  In p l /\ eligible config now_ms p = true /\
  forall q, In q l -> eligible config now_ms q = true ->
    fle (score config q now_ms) (score config p now_ms) = true /\
    (fle (score config p now_ms) (score config q now_ms) = true ->
     String.compare (pid p) (pid q) <> Gt).

(** The argmax: what [select_for] computes. *)
Lemma select_for_spec pool now_ms :
  let '(pool', dec) := select_for pool now_ms in
  let bad := unusable (p_config pool) now_ms in
  map ex_profile_id (d_excluded dec) = map pid (List.filter bad (profiles pool)) /\
  (if forallb bad (profiles pool)
   then active pool' = None /\ d_candidates dec = 0
   else exists p, best_of (p_config pool) now_ms (profiles pool) p /\
     active pool' = Some (pid p) /\ d_profile_id dec = pid p /\
     d_score dec = score (p_config pool) p now_ms).
Proof.
  unfold select_for. rewrite scan_candidates_eq.
  set (cfg := p_config pool). set (l := profiles pool). cbv zeta.
  assert (Hex : map ex_profile_id (map (exclusion cfg now_ms)
      (List.filter (fun p => negb (eligible cfg now_ms p)) l)) =
    map pid (List.filter (unusable cfg now_ms) l)).
  { rewrite List.map_map. f_equal. apply List.filter_ext. intros p.
    by rewrite unusable_eligible. }
  destruct (sort_by cmp_candidate _) as [|[[id s] why] r] eqn:E; split; try exact Hex.
  - apply sort_by_nil, List.map_eq_nil, no_candidate in E. by rewrite E.
  - assert (Hin : In (id, s, why) (map (candidate_of cfg now_ms)
      (List.filter (eligible cfg now_ms) l)))
      by (apply (sort_by_in cmp_candidate); rewrite E; by left).
    apply in_map_iff in Hin as (p & [= <- <- <-] & Hf).
    destruct (forallb (unusable cfg now_ms) l) eqn:Hall.
    { apply no_candidate in Hall. by rewrite Hall in Hf. }
    apply filter_In in Hf as [Hl He]. exists p. split; [|done]. split; [done|]. split; [done|].
    intros q Hq Hqe.
    assert (Hs : forall x, fnonneg (candidate_of cfg now_ms x).1.2)
      by (intros; apply score_nonneg).
    apply (cmp_candidate_le (candidate_of cfg now_ms p) (candidate_of cfg now_ms q)); auto.
    eapply sort_candidates_head; [|exact E|].
    + apply List.Forall_forall. intros c (x & <- & _)%in_map_iff. apply Hs.
    + apply in_map, filter_In. auto.
Qed.

(** [select_for] is a correct argmax: when some profile is neither failed nor in
    cooldown it activates an eligible profile whose score is maximal (ties broken by
    the least id), and otherwise it clears the active profile; in both cases the
    decision lists as excluded exactly the failed and cooling profiles, in order. *)
Theorem select_for_picks_best pool now_ms :
  let '(pool', dec) := select_for pool now_ms in
  let bad := unusable (p_config pool) now_ms in
  map ex_profile_id (d_excluded dec) = map pid (List.filter bad (profiles pool)) /\
  (if forallb bad (profiles pool)
   then active pool' = None /\ d_candidates dec = 0
   else exists p, best_of (p_config pool) now_ms (profiles pool) p /\
     active pool' = Some (pid p) /\ d_profile_id dec = pid p /\
     d_score dec = score (p_config pool) p now_ms).
Proof. exact (select_for_spec pool now_ms). Qed.

(** ** The pool stays consistent over every sequence of operations *)

Inductive pool_op :=
| OpReplace (ps : list VpnProfile)
| OpObserve (id : string) (sample : PathSample) (now_ms now now' : Z)
| OpSelect (now_ms : Z)
| OpRotate (now_ms : Z)
| OpForce (id why : string) (now_ms : Z).

Definition pool_step (pool : VpnPool) (op : pool_op) : VpnPool :=
  match op with
  | OpReplace ps => (atomic_replace pool ps).1
  | OpObserve id sample now_ms now now' => (observe_health pool id sample now_ms now now').1
  | OpSelect now_ms => (select_for pool now_ms).1
  | OpRotate now_ms => (maybe_planned_rotate pool now_ms).1
  | OpForce id why now_ms => (force_rotate_to pool id why now_ms).1
  end.

Definition profile_ok (config : PoolConfig) (p : PooledProfile) : Prop :=
  h_config (tracker p) = path_config config /\ numbers_ok (tracker p) /\
  0 <= ph_weight (health p) <= 100 /\ 0 <= consecutive_successes (health p) <= u32_max.

Record pool_ok (config : PoolConfig) (pool : VpnPool) : Prop := {
  pool_ok_config : p_config pool = config;
  pool_ok_active : forall a, active pool = Some a -> has_profile (profiles pool) a = true;
  pool_ok_profiles : Forall (profile_ok config) (profiles pool);
}.

Lemma update_profile_ids l id f :
  (forall p, pid (f p) = pid p) -> map pid (update_profile l id f) = map pid l.
Proof.
  intros Hf. induction l as [|p l IH]; [done|]. cbn. case_match; cbn; congruence.
Qed.

Lemma has_profile_ids l l' id : map pid l = map pid l' -> has_profile l id = has_profile l' id.
Proof.
  unfold has_profile. revert l'. induction l as [|p l IH]; intros [|q l'] [=]; [done|].
  cbn. by rewrite H0, (IH l').
Qed.

Lemma has_profile_in l p : In p l -> has_profile l (pid p) = true.
Proof. intros Hp. apply existsb_exists. exists p. by rewrite String.eqb_refl. Qed.

Lemma update_profile_Forall (P : PooledProfile -> Prop) l id f :
  (forall p, P p -> P (f p)) -> Forall P l -> Forall P (update_profile l id f).
Proof. intros Hf. induction 1 as [|p l Hp Hl IH]; cbn; [done|]. case_match; auto. Qed.

Lemma path_config_smoothing config : smoothing_ok (path_config config).
Proof. vm_compute. repeat split. Qed.

Lemma observe_profile_ok config p sample now_ms now now' :
  profile_ok config p -> profile_ok config (observe_profile config p sample now_ms now now').
Proof.
  intros (Hc & Hn & _ & Hs). unfold observe_profile. repeat split; cbn.
  1: by rewrite observe_config.
  1, 2, 3: apply observe_numbers_ok; [rewrite Hc; apply path_config_smoothing|done].
  - apply weight_range.
  - apply weight_range.
  - unfold sat_add, u32_max. case_match; lia.
  - unfold sat_add, u32_max in *. case_match; lia.
Qed.

Lemma fresh_profile_ok config p :
  profile_ok config (mkPooled p ProfileHealth_default (PathHealth_new (path_config config)) 0 0).
Proof. repeat split; vm_compute; done. Qed.

Lemma select_for_active pool now_ms a :
  active (select_for pool now_ms).1 = Some a -> has_profile (profiles pool) a = true.
Proof.
  unfold select_for. rewrite scan_candidates_eq.
  destruct (sort_by _ _) as [|[[id s] why] r] eqn:E; [done|]. intros [= <-].
  assert (Hin : In (id, s, why) (sort_by cmp_candidate (map (candidate_of (p_config pool) now_ms)
    (List.filter (eligible (p_config pool) now_ms) (profiles pool))))) by (rewrite E; by left).
  apply sort_by_in, in_map_iff in Hin as (p & [= <- _ _] & [Hp _]%filter_In).
  by apply has_profile_in.
Qed.

Lemma ranked_in pool now_ms c :
  In c (ranked pool now_ms) ->
  exists p, In p (profiles pool) /\ eligible (p_config pool) now_ms p = true /\
    c = (pid p, score (p_config pool) p now_ms).
Proof.
  unfold ranked. rewrite sort_by_in. intros (p & <- & [Hp He]%filter_In)%in_map_iff. eauto.
Qed.

Lemma reselected_ok config p now_ms :
  profile_ok config p ->
  profile_ok config (mkPooled (profile p) (health p) (tracker p) (last_failure_ms p) now_ms).
Proof. done. Qed.

(** The shape of a rotation. *)
Lemma maybe_planned_rotate_inv pool now_ms :
  (maybe_planned_rotate pool now_ms).1 = pool /\ (maybe_planned_rotate pool now_ms).2 = None
  \/ exists cur p cur_score,
    active pool = Some cur /\ In p (profiles pool) /\ pid p <> cur /\
    eligible (p_config pool) now_ms p = true /\
    millis_i64 (min_dwell (p_config pool)) <= dwell pool cur now_ms /\
    (flt (score (p_config pool) p now_ms) cur_score
     && fle (better_threshold (p_config pool))
          (fsub cur_score (score (p_config pool) p now_ms))) = false /\
    maybe_planned_rotate pool now_ms =
      (mkPool (p_config pool) (profiles pool) (Some (pid p)) now_ms
         (Some (PlannedRotation (pid p) cur (score (p_config pool) p now_ms) cur_score)),
       Some (pid p)).
Proof.
  unfold maybe_planned_rotate. case_match; [by left|].
  destruct (active pool) as [cur|]; [|by left].
  destruct (dwell pool cur now_ms <? _) eqn:Ed; [by left|].
  destruct (List.find _ (ranked pool now_ms)) as [[next best]|] eqn:Ef; [|by left].
  set (s := match List.find (fun c => String.eqb c.1 cur) _ with Some _ => _ | None => _ end).
  destruct (_ && _) eqn:Eb; [by left|]. right.
  apply find_some in Ef as [Hin Hne]. apply ranked_in in Hin as (p & Hp & He & [= -> ->]).
  exists cur, p, s. repeat split; auto; [|lia].
  cbn in Hne. by apply String.eqb_neq, negb_true_iff.
Qed.

Lemma pool_step_ok config pool op : pool_ok config pool -> pool_ok config (pool_step pool op).
Proof.
  intros [Hc Ha Hp].
  destruct op as [ps|id sample now_ms now now'|now_ms|now_ms|id why now_ms]; cbn [pool_step].
  - unfold atomic_replace. destruct ps as [|q ps]; [done|]. rewrite Hc.
    remember (q :: ps) as l eqn:El; clear El. split; cbn; [done|..].
    + intros a. destruct (active pool); [|done]. case_match; [|done]. by intros [= <-].
    + apply List.Forall_forall. intros p (v & <- & _)%in_map_iff. apply fresh_profile_ok.
  - unfold observe_health. destruct (find_profile _ _); [|done]. split; cbn; [done|..].
    + intros a H. rewrite <- (Ha a H). apply has_profile_ids, update_profile_ids. done.
    + apply update_profile_Forall; [|done]. rewrite Hc. auto using observe_profile_ok.
  - pose proof (select_for_active pool now_ms) as Hs. unfold select_for in *.
    destruct (scan_candidates _ _ _) as [ex cs].
    destruct (sort_by _ _) as [|[[id s] why] r]; split; cbn in *; auto; try done.
    + intros a H. rewrite <- (Hs a H). by apply has_profile_ids, update_profile_ids.
    + by apply update_profile_Forall.
  - destruct (maybe_planned_rotate_inv pool now_ms) as [[-> _]|(cur & p & s & H)]; [done|].
    destruct H as (_ & Hin & _ & _ & _ & _ & ->). split; cbn; auto.
    intros a [= <-]. by apply has_profile_in.
  - unfold force_rotate_to. destruct (has_profile _ id) eqn:E; [|done]. split; cbn; [done|..].
    + intros a [= <-]. rewrite <- E. by apply has_profile_ids, update_profile_ids.
    + by apply update_profile_Forall.
Qed.

(** Everything but a replacement keeps the profiles themselves. *)
Lemma step_profiles pool op :
  match op with OpReplace _ => False | _ => True end ->
  map profile (profiles (pool_step pool op)) = map profile (profiles pool).
Proof.
  assert (Hu : forall l id f, (forall p, profile (f p) = profile p) ->
    map profile (update_profile l id f) = map profile l).
  { intros l id f Hf. induction l as [|p l IH]; [done|]. cbn. case_match; cbn; congruence. }
  destruct op as [ps|id sample now_ms now now'|now_ms|now_ms|id why now_ms]; cbn [pool_step]; intros Ho.
  - done.
  - unfold observe_health. destruct (find_profile _ _); [|done]. by apply Hu.
  - unfold select_for. destruct (scan_candidates _ _ _) as [ex cs].
    destruct (sort_by _ _) as [|[[id s] why] r]; [done|]. by apply Hu.
  - destruct (maybe_planned_rotate_inv pool now_ms) as [[-> _]|(cur & p & s & H)]; [done|].
    by destruct H as (_ & _ & _ & _ & _ & _ & ->).
  - unfold force_rotate_to. destruct (has_profile _ id); [|done]. by apply Hu.
Qed.

(** Selection looks at the profiles without the time of their last selection. *)
Definition same_but_selected (p q : PooledProfile) : Prop :=
  profile p = profile q /\ health p = health q /\ tracker p = tracker q /\
  last_failure_ms p = last_failure_ms q.

Lemma select_for_same pool pool' now_ms :
  p_config pool = p_config pool' -> Forall2 same_but_selected (profiles pool) (profiles pool') ->
  active (select_for pool now_ms).1 = active (select_for pool' now_ms).1.
Proof.
  intros Hc Hl. unfold select_for. rewrite Hc.
  assert (E : scan_candidates (p_config pool') now_ms (profiles pool) =
              scan_candidates (p_config pool') now_ms (profiles pool')).
  { clear Hc. induction Hl as [|p q l k (H1 & H2 & H3 & H4) _ IH]; [done|]. cbn [scan_candidates].
    rewrite IH. destruct (scan_candidates _ _ k).
    destruct p as [pp ph pt pf ps], q as [qp qh qt qf qs]. cbn in H1, H2, H3, H4. by subst. }
  rewrite E. destruct (scan_candidates (p_config pool') now_ms (profiles pool')) as [ex cs].
  destruct (sort_by cmp_candidate cs) as [|[[id s] why] r]; reflexivity.
Qed.

Lemma same_but_selected_refl l : Forall2 same_but_selected l l.
Proof. induction l; constructor; [|done]. by repeat split. Qed.

Lemma same_but_selected_trans l1 l2 l3 :
  Forall2 same_but_selected l1 l2 -> Forall2 same_but_selected l2 l3 ->
  Forall2 same_but_selected l1 l3.
Proof.
  intros H. revert l3. induction H as [|p q l k (H1 & H2 & H3 & H4) _ IH]; intros l3 H'; inversion_clear H'; [done|].
  constructor; [|by apply IH]. destruct H as (? & ? & ? & ?). repeat split; congruence.
Qed.

Lemma force_rotate_same pool id why now_ms :
  p_config (force_rotate_to pool id why now_ms).1 = p_config pool /\
  Forall2 same_but_selected (profiles (force_rotate_to pool id why now_ms).1) (profiles pool).
Proof.
  unfold force_rotate_to. destruct (has_profile _ id); [|split; [done|apply same_but_selected_refl]].
  split; [done|]. cbn. induction (profiles pool) as [|p l IH]; [done|]. cbn.
  case_match; constructor; try done. apply same_but_selected_refl.
Qed.

Lemma select_for_keeps pool now_ms :
  Forall2 same_but_selected (profiles (select_for pool now_ms).1) (profiles pool).
Proof.
  unfold select_for. destruct (scan_candidates _ _ _) as [ex cs].
  destruct (sort_by _ cs) as [|[[id s] why] r]; [apply same_but_selected_refl|]. cbn.
  induction (profiles pool) as [|p l IH]; [done|]. cbn.
  case_match; constructor; try done. apply same_but_selected_refl.
Qed.

Lemma pool_step_nonempty pool op : profiles pool <> [] -> profiles (pool_step pool op) <> [].
Proof.
  assert (Hu : forall l id f, l <> [] -> update_profile l id f <> []).
  { intros [|p l] id f; [done|]. cbn. by case_match. }
  intros Hn. destruct op as [ps|id sample now_ms now now'|now_ms|now_ms|id why now_ms];
    cbn [pool_step].
  - by destruct ps.
  - unfold observe_health. case_match; cbn; auto.
  - unfold select_for. destruct (scan_candidates _ _ _). case_match; [done|].
    repeat case_match; cbn; auto.
  - destruct (maybe_planned_rotate_inv pool now_ms) as [[-> _]|(cur & p & s & H)]; [done|].
    by destruct H as (_ & _ & _ & _ & _ & _ & ->).
  - unfold force_rotate_to. case_match; cbn; auto.
Qed.

(** Over every sequence of replacements, health samples, selections and rotations
    from an empty pool, the active profile is a profile of the pool, every stored
    weight is at most 100, no tracker number is NaN or negative, and a pool that has
    profiles never becomes empty. *)
Theorem pool_stays_consistent config ops :
  let pool := fold_left pool_step ops (VpnPool_new config) in
  pool_ok config pool /\
  forall op, profiles pool <> [] -> profiles (pool_step pool op) <> [].
Proof.
  intros pool. split; [|intros; by apply pool_step_nonempty].
  assert (H : pool_ok config (VpnPool_new config)) by (by split).
  unfold pool. remember (VpnPool_new config) as p0 eqn:E; clear E pool.
  revert p0 H. induction ops as [|op ops IH]; cbn; auto using pool_step_ok.
Qed.

(** A planned rotation moves to another eligible profile, only after the active
    one has been active for [min_dwell] and is not better by the threshold.  It does
    not touch the profiles, so the dwell time of the newly activated profile still
    counts from its last explicit selection: the gate does not hold for it. *)
Theorem planned_rotation_keeps_old_dwell pool now_ms pool' next :
  maybe_planned_rotate pool now_ms = (pool', Some next) ->
  active pool' = Some next /\
  (exists cur, active pool = Some cur /\ cur <> next /\
     millis_i64 (min_dwell (p_config pool)) <= dwell pool cur now_ms) /\
  (exists p, In p (profiles pool) /\ pid p = next /\ unusable (p_config pool) now_ms p = false) /\
  profiles pool' = profiles pool /\
  forall id t, dwell pool' id t = dwell pool id t.
Proof.
  intros E. destruct (maybe_planned_rotate_inv pool now_ms) as [[_ H]|(cur & p & s & H)].
  { by rewrite E in H. }
  destruct H as (Ha & Hin & Hne & He & Hd & _ & E'). rewrite E in E'.
  injection E' as -> ->. repeat split; eauto.
  exists p. rewrite unusable_eligible, He. eauto.
Qed.

Definition example_profile (id : string) : VpnProfile :=
  mkProfile id Vless id 443 Tcp SecurityNone None None None None EmptyString None None id
    EmptyString 0.

(** Rotation enabled, two fresh profiles, one selected. *)
Definition example_pool : VpnPool :=
  fold_left pool_step
    [OpReplace [example_profile "a"; example_profile "b"]; OpSelect 1700000000000]
    (VpnPool_new (mkPoolConfig 120000000000 60000000000 0 60000000000 (f64_of 25)
      [10; 25; 50; 100])).

(** Two minutes after the selection the pool rotates, and one millisecond later it
    rotates back. *)
Lemma planned_rotation_keeps_old_dwell_witness :
  exists pool',
    maybe_planned_rotate example_pool 1700000120000 = (pool', Some "b"%string) /\
    profiles pool' = profiles example_pool /\
    (maybe_planned_rotate pool' 1700000120001).2 = Some "a"%string.
Proof.
  destruct (maybe_planned_rotate example_pool 1700000120000) as [pool' o] eqn:E.
  exists pool'. assert (Eo : o = Some "b"%string).
  { change o with (pool', o).2. rewrite <- E. vm_compute. reflexivity. }
  split; [by rewrite Eo|]. rewrite Eo in E. split.
  - exact (proj1 (proj2 (proj2 (proj2 (planned_rotation_keeps_old_dwell _ _ _ _ E))))).
  - change pool' with (pool', Some "b"%string).1. rewrite <- E. vm_compute. reflexivity.
Defined.

(** Recovery never completes on its own: no health sample takes a profile that is
    failed, in cooldown or recovering to [Healthy]; it can only become healthy again
    after passing through [Degraded] or [Unknown]. *)
Theorem recovering_profile_never_healthy pool id p sample now_ms now now' :
  find_profile (profiles pool) id = Some p -> was_bad (ph_state (health p)) = true ->
  (observe_health pool id sample now_ms now now').2 <> PHealthy.
Proof.
  intros Hf Hb. unfold observe_health. rewrite Hf. cbn. unfold derive_state.
  cbn [health ph_state record_sample]. rewrite Hb. repeat case_match; discriminate.
Qed.

(** Ten good samples after the cooldown of a failed profile leave it recovering. *)
Definition recovering_pool : VpnPool :=
  fold_left pool_step
    ([OpObserve "a" PathSample_failure 1700000000000 0 0;
      OpObserve "a" PathSample_failure 1700000000001 0 0]
     ++ List.repeat (OpObserve "a" PathSample_healthy 1700000060002 1 1) 10)
    example_pool.

Lemma recovering_profile_never_healthy_witness :
  exists p, find_profile (profiles recovering_pool) "a" = Some p /\
    ph_state (health p) = PRecovering /\
    (observe_health recovering_pool "a" PathSample_healthy 1700000060003 2 2).2 <> PHealthy.
Proof.
  destruct (find_profile (profiles recovering_pool) "a") as [p|] eqn:E.
  2: { vm_compute in E. discriminate. }
  assert (Hp : ph_state (health p) = PRecovering).
  { vm_compute in E. injection E as <-. reflexivity. }
  exists p. repeat split; [exact Hp|].
  apply (recovering_profile_never_healthy recovering_pool "a" p); [exact E|].
  by rewrite Hp.
Defined.
