(* ===== verification/Ota.v ===== *)
(** * A/B updates (balansir-ota: slot.rs, daemon.rs, bin/balansir-ota.rs)

    The boot metadata, the boot partition and the four CLI commands as programs of
    a small I/O monad over a [world]: the files, the block devices, the slot whose
    kernel is running, and an oracle that decides, for every I/O operation in turn,
    whether it succeeds, fails or is interrupted by a power cut (a torn [fs::write]
    leaves arbitrary contents, [dd] may leave anything on the partition).  The
    theorems quantify over the oracle, so they hold for every failure and every
    point of interruption.  A file that was written, renamed or removed since the last
    [sync] is dirty: the running system sees its new contents, a power cut may leave
    anything.  [dd] runs with [oflag=sync], so what it wrote is on the device.

    The [toml] crate is the class [TomlCodec]; SHA-256 is a parameter.  The
    test-only field [test_save_path] is left out. *)

From S2P Require Import Prelude.

(** ** Slots *)

Inductive Slot := SlotA | SlotB.

#[export] Instance Slot_eq_dec : EqDecision Slot.
Proof. solve_decision. Defined.

Definition other (s : Slot) : Slot := match s with SlotA => SlotB | SlotB => SlotA end.

Definition slot_str (s : Slot) : string :=
  match s with SlotA => "A" | SlotB => "B" end%string.

(** [format!("/dev/mmcblk0p{}", slot.partition_number())] *)
Definition target_partition (s : Slot) : string :=
  match s with SlotA => "/dev/mmcblk0p2" | SlotB => "/dev/mmcblk0p3" end%string.

Definition cmdline_filename (s : Slot) : string := "cmdline-" +:+ slot_str s +:+ ".txt".

(** ** Boot metadata *)

Inductive BootState := Confirmed | Pending | Trying | RollingBack.

#[export] Instance BootState_eq_dec : EqDecision BootState.
Proof. solve_decision. Defined.

Record BootMetadata := mkMeta {
  active_slot : Slot;
  next_slot : Slot;
  tries_remaining : Z;
  boot_state : BootState;
  active_version : string;
  next_version : string;
  last_successful_boot : Z;
  rollback_count : Z;
  last_rollback_reason : string;
}.

Definition BootMetadata_default : BootMetadata :=
  mkMeta SlotA SlotA 3 Confirmed "unknown" EmptyString 0 0 EmptyString.

(** What the program relies on of the [toml] crate. *)
Class TomlCodec := {
  to_toml : BootMetadata -> option string;
  from_toml : string -> option BootMetadata;
  from_to_toml m s : to_toml m = Some s -> from_toml s = Some m;
}.

(** ** The world and the I/O monad *)

Inductive event :=
| Good
| Fault (torn : option string)
| PowerCut (torn : option string)
| DdRun (content : list Z) (success : bool)
| DdCut (content : list Z).

(** The files as the running system sees them, and those a power cut may change. *)
Record disk := mkDisk {
  files : gmap string string;
  dirty : gset string;
}.

#[export] Instance disk_lookup : Lookup string string disk := fun p k => files k !! p.

Definition put (p s : string) (k : disk) : disk := mkDisk (<[p := s]> (files k)) ({[p]} ∪ dirty k).
Definition del (p : string) (k : disk) : disk := mkDisk (delete p (files k)) ({[p]} ∪ dirty k).
Definition flush (k : disk) : disk := mkDisk (files k) ∅.

(** What the file [p] may be after a power cut. *)
Definition after_cut (k : disk) (p : string) (o : option string) : Prop := p ∈ dirty k \/ k !! p = o.

Record world := mkWorld {
  fs : disk;
  devs : gmap string (list Z);
  running : Slot;
  oracle : list event;
}.

Inductive ota_error := Io | Misconfiguration | Fatal (msg : string).

Inductive outcome (A : Type) : Type :=
| Done (a : A)
| Failed (e : ota_error)
| Cut.
Arguments Done {A} a.
Arguments Failed {A} e.
Arguments Cut {A}.

Definition M (A : Type) : Type := world -> outcome A * world.

#[export] Instance M_ret : MRet M := fun A a w => (Done a, w).
#[export] Instance M_bind : MBind M := fun A B f m w =>
  match m w with
  | (Done a, w') => f a w'
  | (Failed e, w') => (Failed e, w')
  | (Cut, w') => (Cut, w')
  end.

Definition fail {A} (e : ota_error) : M A := fun w => (Failed e, w).

(** [r.or_else(|_| alternative)] *)
Definition or_else {A} (m alt : M A) : M A := fun w =>
  match m w with
  | (Failed _, w') => alt w'
  | r => r
  end.

Definition set_fs (w : world) (f : disk) : world :=
  mkWorld f (devs w) (running w) (oracle w).
Definition set_devs (w : world) (d : gmap string (list Z)) : world :=
  mkWorld (fs w) d (running w) (oracle w).

(** The event of the next operation; an exhausted oracle means success. *)
Definition next_event (w : world) : event * world :=
  match oracle w with
  | [] => (Good, w)
  | e :: o => (e, mkWorld (fs w) (devs w) (running w) o)
  end.

(** An operation with its effect and the effect of tearing it. *)
Definition io {A} (ok : world -> outcome A * world) (tear : option string -> world -> world) :
    M A := fun w =>
  let '(e, w) := next_event w in
  match e with
  | Fault t => (Failed Io, tear t w)
  | PowerCut t => (Cut, tear t w)
  | _ => ok w
  end.

Definition untouched (_ : option string) (w : world) : world := w.

Definition path_exists (p : string) : M bool := fun w =>
  (Done (bool_decide (is_Some (fs w !! p))), w).

Definition read_to_string (p : string) : M string :=
  io (fun w => match fs w !! p with
               | Some s => (Done s, w)
               | None => (Failed Io, w)
               end) untouched.

(** [fs::write] truncates and writes: interrupted, it leaves anything. *)
Definition write (p s : string) : M () :=
  io (fun w => (Done (), set_fs w (put p s (fs w))))
     (fun t w => match t with Some j => set_fs w (put p j (fs w)) | None => w end).

(** [fs::rename] is atomic for the running system. *)
Definition rename (a b : string) : M () :=
  io (fun w => match fs w !! a with
               | Some s => (Done (), set_fs w (put b s (del a (fs w))))
               | None => (Failed Io, w)
               end) untouched.

(** [libc::sync], which cannot fail. *)
Definition sync_all : M () := fun w =>
  let '(e, w) := next_event w in
  match e with
  | PowerCut _ => (Cut, w)
  | _ => (Done (), set_fs w (flush (fs w)))
  end.

Definition create_dir_all : M () := io (fun w => (Done (), w)) untouched.

(** ** Metadata operations (slot.rs) *)

Definition METADATA_PATH : string := "/persistent/ota/boot-metadata.toml".
Definition METADATA_TMP : string := "/persistent/ota/boot-metadata.toml.tmp".

Section Ota.
Context {toml : TomlCodec}.

Definition save (m : BootMetadata) : M () :=
  _ ← create_dir_all;
  match to_toml m with
  | None => fail Misconfiguration
  | Some content =>
      _ ← write METADATA_TMP content;
      rename METADATA_TMP METADATA_PATH
  end.

Definition load : M BootMetadata :=
  present ← path_exists METADATA_PATH;
  if (present : bool) then
    content ← read_to_string METADATA_PATH;
    match from_toml content with
    | Some m => mret m
    | None => fail Misconfiguration
    end
  else
    _ ← save BootMetadata_default;
    mret BootMetadata_default.

(** [current_timestamp()] is the argument [now]. *)
Definition confirm_boot (m : BootMetadata) (version : string) (now : Z) : M BootMetadata :=
  match boot_state m with
  | Trying =>
      let m := mkMeta (next_slot m) (next_slot m) 3 Confirmed version EmptyString now
        (rollback_count m) (last_rollback_reason m) in
      _ ← save m; mret m
  | Pending =>
      let m := mkMeta (next_slot m) (next_slot m) 3 Confirmed version (next_version m) now
        (rollback_count m) (last_rollback_reason m) in
      _ ← save m; mret m
  | _ => mret m
  end.

Definition force_rollback (m : BootMetadata) (why : string) : M BootMetadata :=
  let m := mkMeta (active_slot m) (active_slot m) 3 RollingBack (active_version m)
    (active_version m) (last_successful_boot m) (u32 (rollback_count m + 1)) why in
  _ ← save m; mret m.

(** ** The boot partition *)

Definition cmdline_path (mount : string) : string := mount +:+ "/cmdline.txt".
Definition cmdline_tmp (mount : string) : string := mount +:+ "/cmdline.txt.tmp".
Definition slot_cmdline_path (mount : string) (s : Slot) : string :=
  mount +:+ "/" +:+ cmdline_filename s.

Definition read_cmdline (mount : string) : M string :=
  content ← read_to_string (cmdline_path mount); mret (trim content).

Definition write_cmdline (mount content : string) : M () :=
  _ ← write (cmdline_tmp mount) content;
  _ ← rename (cmdline_tmp mount) (cmdline_path mount);
  sync_all.

Definition switch_to_slot (mount : string) (s : Slot) : M () :=
  content ← read_to_string (slot_cmdline_path mount s);
  write_cmdline mount content.

Definition ensure_slot_cmdline (mount : string) (s : Slot) (template : string) : M () :=
  present ← path_exists (slot_cmdline_path mount s);
  if (present : bool) then mret () else write (slot_cmdline_path mount s) template.

Definition ensure_slot_cmdlines (mount template_a template_b : string) : M () :=
  _ ← ensure_slot_cmdline mount SlotA template_a;
  ensure_slot_cmdline mount SlotB template_b.

Definition slot_of_cmdline (cmdline : string) : Slot :=
  if contains cmdline "balansir_slot=B" || contains cmdline "root=/dev/mmcblk0p3"
  then SlotB else SlotA.

Definition detect_current_slot (mount : string) : M Slot :=
  cmdline ← read_cmdline mount; mret (slot_of_cmdline cmdline).

(** ** The installer (daemon.rs) *)

Definition default_cmdline (s : Slot) : string :=
  match s with
  | SlotA => "root=/dev/mmcblk0p2 rootwait console=tty1 console=serial0,115200 loglevel=8 consoleblank=0 systemd.log_level=debug net.ifnames=0 biosdevname=0 balansir_slot=A"
  | SlotB => "root=/dev/mmcblk0p3 rootwait console=tty1 console=serial0,115200 loglevel=8 consoleblank=0 systemd.log_level=debug net.ifnames=0 biosdevname=0 balansir_slot=B"
  end%string.

Definition cmdline_template (mount : string) (s : Slot) : M string :=
  or_else (read_to_string ("/etc/balansir/" +:+ cmdline_filename s))
    (or_else (read_to_string (slot_cmdline_path mount s)) (mret (default_cmdline s))).

Definition OtaDaemon_new (mount : string) : M () :=
  a ← cmdline_template mount SlotA;
  b ← cmdline_template mount SlotB;
  ensure_slot_cmdlines mount a b.

(** [dd] onto the partition, with synchronous writes. *)
Definition dd (part : string) (image : list Z) : M () := fun w =>
  let '(e, w) := next_event w in
  match e with
  | Good =>
      let old := default [] (devs w !! part) in
      (Done (), set_devs w (<[part := image ++ drop (length image) old]> (devs w)))
  | Fault _ => (Failed (Fatal "spawn dd"), w)
  | PowerCut _ => (Cut, w)
  | DdRun content ok =>
      ((if ok then Done () else Failed (Fatal "dd failed")),
       set_devs w (<[part := content]> (devs w)))
  | DdCut content => (Cut, set_devs w (<[part := content]> (devs w)))
  end.

Context (sha256_hex : list Z -> string).

(** The read-back loop: [read] returns between one and [chunk] bytes, the sizes being
    the environment's; an exhausted list of sizes means full chunks.  The hasher is the
    bytes fed to it.  Every round consumes at least one byte, so [length content + 1]
    rounds reach the end of the file. *)
Fixpoint hash_loop (fuel : nat) (sizes : list Z) (remaining : Z) (content hashed : list Z) :
    option (Z * list Z) :=
  if remaining <=? 0 then Some (remaining, hashed)
  else
    match fuel with
    | O => None
    | S fuel =>
        let chunk := Z.min remaining 65536 in
        let size := match sizes with [] => chunk | z :: _ => Z.max 1 (Z.min z chunk) end in
        match content with
        | [] => Some (remaining, hashed)
        | _ =>
            let got := take (Z.to_nat size) content in
            hash_loop fuel (tail sizes) (remaining - len got) (drop (length got) content)
              (hashed ++ got)
        end
    end.

Definition hash_partition_prefix (part : string) (n : Z) (sizes : list Z) : M string :=
  io (fun w => match devs w !! part with
               | None => (Failed Io, w)
               | Some content =>
                   match hash_loop (S (length content)) sizes n content [] with
                   | None => (Cut, w)
                   | Some (remaining, hashed) =>
                       if 0 <? remaining
                       then (Failed (Fatal "partition shorter than image"), w)
                       else (Done (sha256_hex hashed), w)
                   end
               end) untouched.

Definition install (image : list Z) (target : Slot) (sizes : list Z) : M () := fun w =>
  if bool_decide (is_Some (devs w !! target_partition target)) then
    (_ ← dd (target_partition target) image;
     written ← hash_partition_prefix (target_partition target) (len image) sizes;
     if String.eqb written (sha256_hex image) then mret ()
     else fail (Fatal "image verification failed")) w
  else (Failed (Fatal "target partition not found"), w).

(** ** The commands (bin/balansir-ota.rs) *)

Definition cmd_status : M BootMetadata := load.

Definition cmd_boot_confirm (mount version : string) (now : Z) : M () :=
  m ← load;
  booted ← or_else (detect_current_slot mount) (mret (active_slot m));
  if decide (booted = active_slot m) then
    m ← confirm_boot m version now;
    save m
  else
    save (mkMeta booted (next_slot m) 3 Confirmed version (next_version m)
      (last_successful_boot m) (rollback_count m) (last_rollback_reason m)).

Definition cmd_rollback (mount : string) : M () :=
  m ← load;
  let target := active_slot m in
  m ← force_rollback m "manual rollback via CLI";
  _ ← switch_to_slot mount target;
  save m.

(** [mount] is [config.boot_mount]. *)
Definition cmd_update (mount image_path : string) (sizes : list Z) : M () :=
  image ← read_to_string image_path;
  m ← load;
  let inactive := other (active_slot m) in
  _ ← OtaDaemon_new mount;
  _ ← install (bytes_of_string image) inactive sizes;
  _ ← switch_to_slot mount inactive;
  save (mkMeta (active_slot m) inactive 3 Pending (active_version m) (next_version m)
    (last_successful_boot m) (rollback_count m) (last_rollback_reason m)).
End Ota.

(** ** A program logic

    [triple P m Q E]: from files and devices satisfying [P], [m] ends in [Q] when it
    completes and in [E] when it fails or power is cut, whatever the oracle. *)

Definition assertion : Type := disk -> gmap string (list Z) -> Prop.

Definition triple {A} (P : assertion) (m : M A) (Q : A -> assertion) (E : assertion) : Prop :=
  forall w, P (fs w) (devs w) ->
    match m w with
    | (Done a, w') => Q a (fs w') (devs w')
    | (_, w') => E (fs w') (devs w')
    end.

(** The assertion survives any change of the file [p]. *)
Definition stable (p : string) (P : assertion) : Prop :=
  forall f d, P f d -> (forall s, P (put p s f) d) /\ P (del p f) d.

Lemma lookup_put k p s : put p s k !! p = Some s.
Proof. apply lookup_insert_eq. Qed.

Lemma lookup_put_ne k p q s : q <> p -> put p s k !! q = k !! q.
Proof. intros H. apply lookup_insert_ne. congruence. Qed.

Lemma lookup_del_ne k p q : q <> p -> del p k !! q = k !! q.
Proof. intros H. apply lookup_delete_ne. congruence. Qed.

Lemma next_event_same w :
  fs (next_event w).2 = fs w /\ devs (next_event w).2 = devs w /\
  running (next_event w).2 = running w.
Proof. unfold next_event. by destruct (oracle w). Qed.

Section Triples.
Context {A B : Type}.

Lemma triple_bind P (m : M A) R (k : A -> M B) Q E :
  triple P m R E -> (forall a, triple (R a) (k a) Q E) -> triple P (m ≫= k) Q E.
Proof.
  intros Hm Hk w Hw. specialize (Hm w Hw). unfold mbind, M_bind.
  destruct (m w) as [[a|e|] w']; auto. by apply Hk.
Qed.

Lemma triple_ret P (a : A) (Q : A -> assertion) E :
  (forall f d, P f d -> Q a f d) -> triple P (mret a) Q E.
Proof. intros H w Hw. cbn. auto. Qed.

Lemma triple_fail P e (Q : A -> assertion) E :
  (forall f d, P f d -> E f d : Prop) -> triple P (fail e) Q E.
Proof. intros H w Hw. cbn. auto. Qed.

Lemma triple_weaken P P' (m : M A) Q Q' E E' :
  triple P m Q E -> (forall f d, P' f d -> P f d : Prop) ->
  (forall a f d, Q a f d -> Q' a f d) -> (forall f d, E f d -> E' f d : Prop) ->
  triple P' m Q' E'.
Proof.
  intros H HP HQ HE w Hw. specialize (H w (HP _ _ Hw)).
  destruct (m w) as [[a|e|] w']; auto.
Qed.

(** A fact that the precondition gives. *)
Lemma triple_pre (F : Prop) (P P' : assertion) (m : M A) Q E :
  (forall f d, P f d -> F /\ P' f d) -> (F -> triple P' m Q E) -> triple P m Q E.
Proof. intros HF Hm w Hw. destruct (HF _ _ Hw) as [H Hw']. exact (Hm H w Hw'). Qed.

Lemma triple_or_else P (m alt : M A) Q E :
  triple P m Q P -> triple P m Q E -> triple P alt Q E -> triple P (or_else m alt) Q E.
Proof.
  intros H1 H2 H3 w Hw. specialize (H1 w Hw). specialize (H2 w Hw). unfold or_else.
  destruct (m w) as [[a|e|] w']; auto. by apply H3.
Qed.

Lemma triple_io P (ok : world -> outcome A * world) tear Q E :
  (forall w, P (fs w) (devs w) ->
     match ok w with
     | (Done a, w') => Q a (fs w') (devs w')
     | (_, w') => E (fs w') (devs w')
     end) ->
  (forall t w, P (fs w) (devs w) -> E (fs (tear t w)) (devs (tear t w))) ->
  triple P (io ok tear) Q E.
Proof.
  intros Hok Ht w Hw. unfold io.
  destruct (next_event_same w) as (Hf & Hd & _). rewrite <- Hf, <- Hd in Hw.
  destruct (next_event w) as [e w1]. destruct e; cbn in Hw; auto; by apply Hok.
Qed.
End Triples.

Lemma triple_read P p E :
  (forall f d, P f d -> E f d : Prop) ->
  triple P (read_to_string p) (fun s f d => P f d /\ f !! p = Some s) E.
Proof.
  intros HE. apply triple_io; [|intros t w Hw; by apply HE].
  intros w Hw. destruct (fs w !! p) eqn:Ef; cbn; auto.
Qed.

Lemma triple_exists P p E :
  triple P (path_exists p) (fun b f d => P f d /\ (b = true <-> is_Some (f !! p))) E.
Proof. intros w Hw. cbn. split; [done|]. apply bool_decide_eq_true. Qed.

Lemma triple_write P p s Q E :
  (forall f d, P f d -> Q (put p s f) d /\ E f d /\ forall j, E (put p j f) d) ->
  triple P (write p s) (fun _ => Q) E.
Proof.
  intros H. apply triple_io.
  - intros w Hw. cbn. by apply H.
  - intros [j|] w Hw; cbn; by apply H.
Qed.

Lemma triple_rename P a b Q E :
  (forall f d, P f d -> E f d /\ forall s, f !! a = Some s -> Q (put b s (del a f)) d) ->
  triple P (rename a b) (fun _ => Q) E.
Proof.
  intros H. apply triple_io; [|intros t w Hw; by apply H].
  intros w Hw. destruct (H _ _ Hw) as [HE HQ]. destruct (fs w !! a) eqn:Ef; cbn; auto.
Qed.

Lemma triple_create_dir P E :
  (forall f d, P f d -> E f d : Prop) -> triple P create_dir_all (fun _ => P) E.
Proof. intros H. apply triple_io; intros; cbn; auto. Qed.

(** Write to a temporary and rename it over [b]: nothing but the two files moves, and
    [b] is either untouched or holds all of [s]. *)
Lemma triple_replace P K a b s :
  a <> b -> stable a P -> (forall f d j, P f d -> K (put b j f) d : Prop) ->
  triple P (write a s ≫= fun _ => rename a b) (fun _ f d => K f d /\ f !! b = Some s) P.
Proof.
  intros Hab Ha Hb.
  apply (triple_bind _ _ (fun _ f d => P f d /\ f !! a = Some s)).
  - apply triple_write. intros f d HP. destruct (Ha f d HP). repeat split; auto.
    apply lookup_put.
  - intros _. apply triple_rename. intros f d [HP Hs]. split; [auto|].
    intros s' Hs'. split; [by apply Hb, Ha|].
    rewrite lookup_put. congruence.
Qed.

Lemma triple_assoc {A B C} P (m : M A) (k : A -> M B) (j : B -> M C) Q E :
  triple P ((m ≫= k) ≫= j) Q E -> triple P (m ≫= fun a => k a ≫= j) Q E.
Proof.
  intros H w Hw. specialize (H w Hw). unfold mbind, M_bind in *.
  destruct (m w) as [[a|e|] w1]; done.
Qed.

Lemma triple_sync P (Q E : assertion) :
  (forall f d, P f d -> E f d /\ Q (flush f) d) -> triple P sync_all (fun _ => Q) E.
Proof.
  intros H w Hw. unfold sync_all. destruct (next_event_same w) as (Hf & Hd & _).
  rewrite <- Hf, <- Hd in Hw. destruct (next_event w) as [e w1]. cbn [snd] in *.
  destruct e; by apply H.
Qed.

(** *** The paths are distinct *)

Fixpoint last_char (d : ascii) (s : string) : ascii :=
  match s with EmptyString => d | String c s => last_char c s end.

Lemma last_char_app d s t : last_char d (s +:+ t) = last_char (last_char d s) t.
Proof. revert d. induction s as [|c s IH]; intros d; [done|]. apply IH. Qed.

Lemma paths_differ a b : last_char "000" a <> last_char "000" b -> a <> b.
Proof. congruence. Qed.

Ltac distinct_paths :=
  unfold cmdline_path, cmdline_tmp, slot_cmdline_path, cmdline_filename, METADATA_PATH,
    METADATA_TMP;
  apply paths_differ; rewrite ?last_char_app; by repeat case_match.

Lemma cmdline_not_metadata mount : cmdline_path mount <> METADATA_PATH.
Proof. distinct_paths. Qed.
Lemma cmdline_not_metadata_tmp mount : cmdline_path mount <> METADATA_TMP.
Proof. distinct_paths. Qed.
Lemma cmdline_not_tmp mount : cmdline_path mount <> cmdline_tmp mount.
Proof. distinct_paths. Qed.
Lemma slot_cmdline_not_tmp mount s : slot_cmdline_path mount s <> cmdline_tmp mount.
Proof. destruct s; distinct_paths. Qed.
Lemma slot_cmdline_not_metadata mount s : slot_cmdline_path mount s <> METADATA_PATH.
Proof. destruct s; distinct_paths. Qed.
Lemma slot_cmdline_not_metadata_tmp mount s : slot_cmdline_path mount s <> METADATA_TMP.
Proof. destruct s; distinct_paths. Qed.
Lemma cmdline_not_slot_cmdline mount s : cmdline_path mount <> slot_cmdline_path mount s.
Proof. unfold cmdline_path, slot_cmdline_path. intros H%(inj _). by destruct s. Qed.
Lemma metadata_not_tmp : METADATA_TMP <> METADATA_PATH.
Proof. discriminate. Qed.
Lemma cmdline_tmp_not_metadata mount : cmdline_tmp mount <> METADATA_PATH.
Proof. distinct_paths. Qed.

Create HintDb ota_paths.
#[export] Hint Resolve cmdline_not_metadata cmdline_not_metadata_tmp cmdline_not_tmp
  slot_cmdline_not_tmp slot_cmdline_not_metadata slot_cmdline_not_metadata_tmp
  cmdline_not_slot_cmdline metadata_not_tmp cmdline_tmp_not_metadata : ota_paths.

Lemma stable_lookup p q (R : option string -> Prop) :
  q <> p -> stable p (fun f _ => R (f !! q)).
Proof.
  intros Hne f d H. split; [intros s; by rewrite lookup_put_ne|by rewrite lookup_del_ne].
Qed.

(** A change of another file does not put [q] at risk. *)
Lemma stable_clean p q (R : Prop) : q <> p -> stable p (fun f _ => q ∈ dirty f -> R).
Proof. intros Hne f d H. split; [intros s|]; cbn [put del dirty]; set_solver. Qed.

Lemma stable_and p (P Q : assertion) :
  stable p P -> stable p Q -> stable p (fun f d => P f d /\ Q f d).
Proof.
  intros HP HQ f d [Hp Hq]. destruct (HP _ _ Hp), (HQ _ _ Hq). split; auto.
Qed.

(** ** The read-back *)

(** The loop hashes exactly the requested prefix, or reports what is missing, whatever
    the sizes of the reads; the fuel is enough. *)
Lemma hash_loop_spec fuel sizes remaining content hashed :
  (length content < fuel)%nat -> 0 <= remaining ->
  hash_loop fuel sizes remaining content hashed =
    Some (remaining - Z.min remaining (len content),
          hashed ++ take (Z.to_nat remaining) content).
Proof.
  revert sizes remaining content hashed.
  induction fuel as [|fuel IH]; intros sizes remaining content hashed Hf Hr; [lia|].
  cbn [hash_loop]. destruct (remaining <=? 0) eqn:E.
  { replace remaining with 0 by lia. cbn. rewrite app_nil_r. do 2 f_equal.
    unfold len. lia. }
  destruct content as [|b content]; [|].
  { rewrite take_nil, app_nil_r. change (len (@nil Z)) with 0. do 2 f_equal. lia. }
  set (size := match sizes with [] => _ | _ :: _ => _ end).
  assert (Hs : 1 <= size <= remaining) by (unfold size; case_match; lia).
  remember (b :: content) as c eqn:Ec.
  assert (Hc : (0 < length c)%nat) by (subst; cbn; lia). clear Ec b content.
  assert (Hg : len (take (Z.to_nat size) c) = Z.min size (len c))
    by (unfold len; rewrite length_take; lia).
  unfold len in Hg.
  rewrite IH; unfold len; rewrite ?length_drop, ?length_take; [|lia..].
  f_equal. f_equal; [lia|]. rewrite <- app_assoc. f_equal.
  replace (drop (Z.to_nat size `min` length c) c) with (drop (Z.to_nat size) c).
  2: { destruct (Nat.le_ge_cases (Z.to_nat size) (length c)).
       - f_equal. lia.
       - rewrite !drop_ge by lia. done. }
  rewrite <- (take_drop (Z.to_nat size) (take (Z.to_nat remaining) c)).
  f_equal; [by rewrite take_take, Nat.min_l by lia|].
  rewrite skipn_firstn_comm. destruct (Nat.le_ge_cases (Z.to_nat size) (length c)).
  - f_equal. lia.
  - by rewrite drop_ge, !take_nil by lia.
Qed.

(** The partition starts with bytes that hash like the image. *)
Definition verified (sha256_hex : list Z -> string) (part : string) (image : list Z) :
    assertion := fun _ d =>
  exists c, d !! part = Some c /\ len image <= len c /\
    sha256_hex (take (length image) c) = sha256_hex image.

Section UpdateSafety.
Context {toml : TomlCodec} (sha256_hex : list Z -> string).

Lemma triple_save P m :
  stable METADATA_TMP P -> stable METADATA_PATH P ->
  triple P (save m) (fun _ f d => P f d /\ from_toml <$> f !! METADATA_PATH = Some (Some m)) P.
Proof.
  intros Ht Hp. apply (triple_bind _ _ (fun _ => P)); [by apply triple_create_dir|].
  intros _. destruct (to_toml m) as [content|] eqn:E; [|by apply triple_fail].
  eapply triple_weaken.
  - apply (triple_replace P P METADATA_TMP METADATA_PATH content); auto with ota_paths.
    intros f d j HP. by apply Hp.
  - done.
  - intros _ f d [HP ->]. split; [done|]. cbn. by rewrite (from_to_toml m content E).
  - done.
Qed.

(** [cmdline.txt] boots the slot. *)
Definition boots (mount : string) (s : Slot) : assertion := fun f _ =>
  f !! cmdline_path mount = f !! slot_cmdline_path mount s.

(** Between the rename and the sync, [cmdline.txt] is replaced but at risk. *)
Lemma triple_switch (P K E : assertion) mount s :
  stable (cmdline_tmp mount) P ->
  (forall f d j, P f d -> K (put (cmdline_path mount) j f) d) ->
  (forall f d, K f d -> K (flush f) d) -> (forall f d, P f d -> E f d) ->
  (forall f d, K f d -> boots mount s f d -> E f d) ->
  triple P (switch_to_slot mount s)
    (fun _ f d => K f d /\ boots mount s f d /\ cmdline_path mount ∉ dirty f) E.
Proof.
  intros Ht Hk Hf HE HE'. eapply triple_bind; [by apply triple_read|]. intros content. cbn beta.
  assert (Hn : cmdline_tmp mount <> cmdline_path mount)
    by (intros H; by apply (cmdline_not_tmp mount)).
  set (R := fun (f : disk) (d : gmap string (list Z)) =>
    (K f d /\ f !! slot_cmdline_path mount s = Some content) /\ f !! cmdline_path mount = Some content).
  apply triple_assoc, (triple_bind _ _ (fun _ => R)).
  - eapply triple_weaken; [apply (triple_replace
      (fun f d => P f d /\ f !! slot_cmdline_path mount s = Some content)
      (fun f d => K f d /\ f !! slot_cmdline_path mount s = Some content) _ _ content Hn)|..].
    + apply stable_and; [done|].
      apply (stable_lookup _ _ (fun o => o = Some content)); auto with ota_paths.
    + intros f d j [HP Hs]. split; [auto|]. rewrite lookup_put_ne; auto with ota_paths.
    + done.
    + done.
    + intros f d [HP _]. auto.
  - intros _. apply triple_sync. intros f d [[HK Hs] Hc].
    assert (Hb : boots mount s f d) by (unfold boots; congruence).
    split; [auto|]. split; [auto|]. split; [exact Hb|apply not_elem_of_empty].
Qed.

Lemma triple_dd (P : assertion) part image E :
  (forall f d c, P f d -> P f (<[part := c]> d)) -> (forall f d, P f d -> E f d : Prop) ->
  triple P (dd part image) (fun _ => P) E.
Proof.
  intros Hd HE w Hw. unfold dd.
  destruct (next_event_same w) as (Hf & Hv & _). rewrite <- Hf, <- Hv in Hw.
  destruct (next_event w) as [[| | |content []|] w1]; cbn in *; auto.
Qed.

(** Installation writes the target partition only, and reports success only for an
    image that reads back. *)
Lemma triple_install (P : assertion) image target sizes :
  (forall f d c, P f d -> P f (<[target_partition target := c]> d)) ->
  triple P (install sha256_hex image target sizes)
    (fun _ f d => P f d /\ verified sha256_hex (target_partition target) image f d) P.
Proof.
  intros Hd.
  assert (Ht : triple P
    (dd (target_partition target) image ≫= fun _ =>
      hash_partition_prefix sha256_hex (target_partition target) (len image) sizes ≫=
      fun written => if String.eqb written (sha256_hex image) then mret ()
                     else fail (Fatal "image verification failed"))
    (fun _ f d => P f d /\ verified sha256_hex (target_partition target) image f d) P).
  2: { intros w Hw. unfold install. case_bool_decide; [by apply (Ht w Hw)|exact Hw]. }
  apply (triple_bind _ _ (fun _ => P)); [by apply triple_dd|]. intros _.
  apply (triple_bind _ _ (fun written f d => P f d /\
    (written = sha256_hex image -> verified sha256_hex (target_partition target) image f d))).
  - apply triple_io; [|done]. intros w Hw.
    destruct (devs w !! target_partition target) as [content|] eqn:Ec; [|done].
    rewrite hash_loop_spec by (unfold len; lia). cbn [app].
    destruct (0 <? _) eqn:Er; [done|]. cbn. split; [done|]. intros Hh.
    exists content. split; [done|]. unfold len in *. split; [lia|]. by rewrite Nat2Z.id in Hh.
  - intros written. destruct (String.eqb written (sha256_hex image)) eqn:Eh.
    + apply triple_ret. intros f d [HP Hv]. apply String.eqb_eq in Eh. auto.
    + apply triple_fail. by intros f d [].
Qed.

Lemma triple_ensure P mount s template :
  stable (slot_cmdline_path mount s) P ->
  triple P (ensure_slot_cmdline mount s template) (fun _ => P) P.
Proof.
  intros Hs. eapply triple_bind; [apply triple_exists|]. intros [].
  - apply triple_ret. by intros f d [].
  - eapply triple_weaken; [apply (triple_write P _ template P P)|..]; try done.
    + intros f d HP. destruct (Hs f d HP). auto.
    + by intros f d [].
Qed.

Lemma triple_new P mount :
  (forall s, stable (slot_cmdline_path mount s) P) ->
  triple P (OtaDaemon_new mount) (fun _ => P) P.
Proof.
  intros Hs.
  assert (Hr : forall p, triple P (read_to_string p) (fun _ => P) P).
  { intros p. eapply triple_weaken; [by apply (triple_read P p P)|..]; try done.
    by intros a f d []. }
  assert (Ht : forall s, triple P (cmdline_template mount s) (fun _ => P) P).
  { intros s. apply triple_or_else; auto. apply triple_or_else; auto. by apply triple_ret. }
  apply (triple_bind _ _ (fun _ => P)); [apply Ht|]. intros a.
  apply (triple_bind _ _ (fun _ => P)); [apply Ht|]. intros b.
  apply (triple_bind _ _ (fun _ => P)); [by apply triple_ensure|]. intros _.
  by apply triple_ensure.
Qed.

(** The metadata file holds [m]. *)
Definition has_metadata (m : BootMetadata) : assertion := fun f _ =>
  exists s, f !! METADATA_PATH = Some s /\ from_toml s = Some m.

(** What [load] makes of the metadata file; without one it is the default. *)
Definition meta_of (f : disk) : option BootMetadata :=
  match f !! METADATA_PATH with Some s => from_toml s | None => Some BootMetadata_default end.

(** Loading reads the metadata, or writes the default and nothing else. *)
Lemma triple_load f0 d0 (P : assertion) :
  P f0 d0 -> stable METADATA_TMP P -> stable METADATA_PATH P ->
  triple (fun f d => f = f0 /\ d = d0) load (fun m f d => meta_of f0 = Some m /\ P f d)
    (fun f d => P f d /\ (meta_of f0 = None -> f = f0 /\ d = d0)).
Proof.
  intros HP Ht Hp. eapply triple_bind; [apply triple_exists|]. intros [].
  - eapply triple_bind.
    { eapply triple_weaken; [by apply (triple_read (fun f d => f = f0 /\ d = d0) METADATA_PATH (fun f d => f = f0 /\ d = d0))|..].
      - by intros f d [].
      - done.
      - by intros f d [-> ->]. }
    intros content w [[Hf Hd] Hc]. cbn beta in *. rewrite Hf in Hc. unfold meta_of. rewrite Hc.
    destruct (from_toml content); cbn; rewrite Hf, Hd; auto.
  - apply (triple_pre (f0 !! METADATA_PATH = None) _ P).
    { intros f d [[-> ->] He]. split; [|done]. destruct (f0 !! METADATA_PATH); [|done].
      destruct He as [_ He]. specialize (He (ex_intro _ _ eq_refl)). discriminate. }
    intros Hn. unfold meta_of. rewrite Hn. apply (triple_bind _ _ (fun _ => P)).
    + apply (triple_weaken P P _ _ _ P _ (triple_save P BootMetadata_default Ht Hp)).
      * intros f d H. exact H.
      * intros a f d [H _]. exact H.
      * intros f d H. split; [exact H|intros H'; discriminate H'].
    + intros _. apply triple_ret. intros f d H. split; [reflexivity|exact H].
Qed.

Lemma stable_boots p mount s :
  cmdline_path mount <> p -> slot_cmdline_path mount s <> p -> stable p (boots mount s).
Proof.
  intros H1 H2 f d H. unfold boots in *.
  split; [intros j; by rewrite !lookup_put_ne|by rewrite !lookup_del_ne].
Qed.

Definition pending_meta (m : BootMetadata) : BootMetadata :=
  mkMeta (active_slot m) (other (active_slot m)) 3 Pending (active_version m)
    (next_version m) (last_successful_boot m) (rollback_count m) (last_rollback_reason m).

(** The state an interrupted update can leave: the active slot's partition is as it was,
    and either [cmdline.txt] is too, with nothing new that a power cut could make of it, or
    the other slot's partition is verified and [cmdline.txt] is that slot's command line. *)
Definition update_safe (mount image_path : string) (m : BootMetadata)
    (f0 : disk) (d0 : gmap string (list Z)) : assertion := fun f d =>
  let b := other (active_slot m) in
  d !! target_partition (active_slot m) = d0 !! target_partition (active_slot m) /\
  ((f !! cmdline_path mount = f0 !! cmdline_path mount /\
    forall o, after_cut f (cmdline_path mount) o -> after_cut f0 (cmdline_path mount) o) \/
   exists image, f0 !! image_path = Some image /\
     verified sha256_hex (target_partition b) (bytes_of_string image) f d /\
     boots mount b f d).

(** Nothing about booting has changed. *)
Definition unswitched (mount : string) (f0 : disk) (d0 : gmap string (list Z)) (a : Slot) : assertion :=
  fun f d => d !! target_partition a = d0 !! target_partition a /\
    f !! cmdline_path mount = f0 !! cmdline_path mount /\
    (cmdline_path mount ∈ dirty f -> cmdline_path mount ∈ dirty f0).

Lemma unswitched_safe mount image_path m f0 d0 f d :
  unswitched mount f0 d0 (active_slot m) f d -> update_safe mount image_path m f0 d0 f d.
Proof.
  intros (H1 & H2 & H3). split; [done|]. left. split; [done|]. unfold after_cut. rewrite H2. naive_solver.
Qed.

Lemma stable_unswitched p mount f0 d0 a :
  cmdline_path mount <> p -> stable p (unswitched mount f0 d0 a).
Proof.
  intros Hne. apply stable_and; [by intros f d H|]. apply stable_and; [|by apply stable_clean].
  by apply (stable_lookup _ _ (fun o => o = f0 !! cmdline_path mount)).
Qed.

(** The part of the update after the metadata is loaded. *)
Lemma install_triple mount image_path image sizes m f0 d0 :
  f0 !! image_path = Some image ->
  let b := other (active_slot m) in
  triple (unswitched mount f0 d0 (active_slot m))
    (_ ← OtaDaemon_new mount; _ ← install sha256_hex (bytes_of_string image) b sizes;
     _ ← switch_to_slot mount b; save (pending_meta m))
    (fun _ f d => update_safe mount image_path m f0 d0 f d /\ boots mount b f d /\
       (cmdline_path mount ∉ dirty f) /\ has_metadata (pending_meta m) f d)
    (update_safe mount image_path m f0 d0).
Proof.
  intros Hi b. set (a := active_slot m). set (J := unswitched mount f0 d0 a).
  assert (Hab : target_partition a <> target_partition b) by (by unfold b, a; destruct (active_slot m)).
  pose proof (unswitched_safe mount image_path m f0 d0) as HJ.
  apply (triple_bind _ _ (fun _ => J)).
  { eapply triple_weaken; [apply (triple_new J mount)|..]; try done.
    intros s. apply stable_unswitched. auto with ota_paths. }
  intros _. set (V := verified sha256_hex (target_partition b) (bytes_of_string image)).
  apply (triple_bind _ _ (fun _ f d => J f d /\ V f d)).
  { eapply triple_weaken; [apply (triple_install J)|..]; try done.
    intros f d c [H1 H2]. split; [|done]. by rewrite lookup_insert_ne. }
  intros _. set (K := fun (f : disk) (d : gmap string (list Z)) =>
    d !! target_partition a = d0 !! target_partition a /\ V f d).
  set (R := fun (f : disk) (d : gmap string (list Z)) =>
    K f d /\ boots mount b f d /\ cmdline_path mount ∉ dirty f).
  assert (HK : forall f d, K f d -> boots mount b f d -> update_safe mount image_path m f0 d0 f d)
    by (intros f d [H1 H2] H3; split; [done|right; eauto]).
  apply (triple_bind _ _ (fun _ => R)).
  { apply (triple_switch (fun f d => J f d /\ V f d) K).
    - apply stable_and; [|by intros f d H]. apply stable_unswitched. auto with ota_paths.
    - by intros f d j [[H1 H2] H3].
    - done.
    - intros f d [H _]. auto.
    - exact HK. }
  assert (HR : forall p, cmdline_path mount <> p -> slot_cmdline_path mount b <> p -> stable p R).
  { intros p H1 H2. apply stable_and; [by intros f d H|].
    apply stable_and; [by apply stable_boots|by apply (stable_clean p _ False)]. }
  intros _. eapply triple_weaken; [apply (triple_save R (pending_meta m)); apply HR; auto with ota_paths|..].
  - done.
  - intros _ f d [(H1 & H2 & H3) H4]. do 3 (split; [by auto|]). unfold has_metadata.
    destruct (f !! METADATA_PATH) as [c|]; [|discriminate H4]. injection H4 as H4. eauto.
  - intros f d (H1 & H2 & _). auto.
Qed.

Lemma update_triple mount image_path sizes f0 d0 :
  triple (fun f d => f = f0 /\ d = d0) (cmd_update sha256_hex mount image_path sizes)
    (fun _ f d => exists m, meta_of f0 = Some m /\ update_safe mount image_path m f0 d0 f d /\
       boots mount (other (active_slot m)) f d /\
       (cmdline_path mount ∉ dirty f) /\ has_metadata (pending_meta m) f d)
    (fun f d => match meta_of f0 with
                | None => f = f0 /\ d = d0
                | Some m => update_safe mount image_path m f0 d0 f d end).
Proof.
  set (J := fun (f : disk) (d : gmap string (list Z)) => forall a, unswitched mount f0 d0 a f d).
  assert (HJ : forall p, cmdline_path mount <> p -> stable p J).
  { intros p Hp f d H. split; [intros s a|intros a]; by apply (stable_unswitched p mount f0 d0 a Hp). }
  assert (HS : forall f d, J f d /\ (meta_of f0 = None -> f = f0 /\ d = d0) ->
    match meta_of f0 with None => f = f0 /\ d = d0 | Some m => update_safe mount image_path m f0 d0 f d end).
  { intros f d [H1 H2]. destruct (meta_of f0); [by apply unswitched_safe|auto]. }
  assert (HJ0 : J f0 d0) by (by intros a).
  apply (triple_bind _ _ (fun s f d => (f = f0 /\ d = d0) /\ f !! image_path = Some s)).
  { apply triple_read. intros f d [Hf Hd]. apply HS. subst f d. auto. }
  intros image. apply (triple_pre (f0 !! image_path = Some image) _ (fun f d => f = f0 /\ d = d0)).
  { intros f d [[Hf Hd] H]. subst f d. auto. }
  intros Hi. apply (triple_bind _ _ (fun m f d => meta_of f0 = Some m /\ J f d)).
  { eapply triple_weaken; [apply (triple_load f0 d0 J HJ0); apply HJ; auto with ota_paths|..].
    - intros f d H. exact H.
    - intros a f d H. exact H.
    - exact HS. }
  intros m. apply (triple_pre (meta_of f0 = Some m) _ (unswitched mount f0 d0 (active_slot m))).
  { intros f d [H1 H2]. auto. }
  intros Hm. rewrite Hm. eapply triple_weaken; [apply (install_triple mount image_path image sizes m f0 d0 Hi)|..].
  - intros f d H. exact H.
  - intros u f d H. by exists m.
  - intros f d H. exact H.
Qed.

End UpdateSafety.

(** ** Boot attempts *)

Section BootAttempts.
Context {toml : TomlCodec} (sha256_hex : list Z -> string).

Inductive ota_cmd :=
| Status
| BootConfirm (mount version : string) (now : Z)
| Rollback (mount : string)
| Update (mount image_path : string) (sizes : list Z).

Definition run_cmd (c : ota_cmd) : M () :=
  match c with
  | Status => _ ← cmd_status; mret ()
  | BootConfirm mount version now => cmd_boot_confirm mount version now
  | Rollback mount => cmd_rollback mount
  | Update mount image_path sizes => cmd_update sha256_hex mount image_path sizes
  end.

(** The worlds the tool can produce: a device without metadata, any command (failed
    and interrupted ones included), and anything the rest of the system does,
    reboots included, as long as it leaves the metadata file alone.  A power cut that
    destroys the metadata file is left out. *)
Inductive reachable : world -> Prop :=
| reachable_fresh w : fs w !! METADATA_PATH = None -> reachable w
| reachable_cmd w c : reachable w -> reachable (run_cmd c w).2
| reachable_env w w' :
    reachable w -> fs w' !! METADATA_PATH = fs w !! METADATA_PATH -> reachable w'.

Definition uncounted (m : BootMetadata) : Prop :=
  tries_remaining m = 3 /\ boot_state m <> Trying.

Definition meta_inv : assertion := fun f _ =>
  forall s, f !! METADATA_PATH = Some s -> exists m, from_toml s = Some m /\ uncounted m.

Lemma stable_meta_inv p : METADATA_PATH <> p -> stable p meta_inv.
Proof.
  intros Hne. apply (stable_lookup p METADATA_PATH (fun o => forall s, o = Some s ->
    exists m, from_toml s = Some m /\ uncounted m) Hne).
Qed.

(** Every operation keeps the invariant. *)
Definition keeps {A} (m : M A) : Prop := triple meta_inv m (fun _ => meta_inv) meta_inv.

Lemma keeps_bind {A B} (m : M A) (k : A -> M B) :
  keeps m -> (forall a, keeps (k a)) -> keeps (m ≫= k).
Proof. apply triple_bind. Qed.

Lemma keeps_read p : keeps (read_to_string p).
Proof.
  eapply triple_weaken; [by apply (triple_read meta_inv p meta_inv)|..]; try done.
  by intros a f d [].
Qed.

Lemma keeps_save m : uncounted m -> keeps (save m).
Proof.
  intros Hm. apply keeps_bind; [by apply triple_create_dir|]. intros _.
  destruct (to_toml m) as [c|] eqn:E; [|by apply triple_fail].
  apply (triple_bind _ _ (fun _ f d => meta_inv f d /\ f !! METADATA_TMP = Some c)).
  - apply triple_write. intros f d HP.
    destruct (stable_meta_inv METADATA_TMP ltac:(discriminate) f d HP).
    repeat split; auto. apply lookup_put.
  - intros _. apply triple_rename. intros f d [HP Hc]. split; [done|].
    intros s Hs s'. rewrite lookup_put. intros [= <-].
    exists m. split; [|done]. apply from_to_toml. congruence.
Qed.

Lemma triple_load_uncounted :
  triple meta_inv load (fun m f d => meta_inv f d /\ uncounted m) meta_inv.
Proof.
  eapply triple_bind; [apply triple_exists|]. intros [].
  - eapply triple_bind; [eapply triple_weaken;
      [by apply (triple_read meta_inv METADATA_PATH meta_inv)|by intros f d []|..]|]; try done.
    intros content w [HP Hc]. destruct (HP _ Hc) as (m & Hf & Hm). rewrite Hf. cbn. auto.
  - apply (triple_bind _ _ (fun _ => meta_inv)).
    + eapply triple_weaken; [apply (keeps_save BootMetadata_default)|..]; try done.
      by intros f d [].
    + intros _. apply triple_ret. intros f d H. by repeat split.
Qed.

Lemma keeps_load_bind {B} (k : BootMetadata -> M B) :
  (forall m, uncounted m -> keeps (k m)) -> keeps (load ≫= k).
Proof.
  intros Hk. eapply triple_bind; [apply triple_load_uncounted|]. intros m.
  apply (triple_pre (uncounted m) _ meta_inv); [by intros f d []|apply Hk].
Qed.

Lemma keeps_switch mount s : keeps (switch_to_slot mount s).
Proof.
  eapply triple_weaken; [apply (triple_switch meta_inv meta_inv meta_inv mount s)|..]; try done.
  - apply stable_meta_inv. intros H. by apply (cmdline_tmp_not_metadata mount).
  - intros f d j HP. apply stable_meta_inv; [|done].
    intros H. by apply (cmdline_not_metadata mount).
  - by intros a f d [].
Qed.

Lemma keeps_detect mount alt : keeps (or_else (detect_current_slot mount) (mret alt)).
Proof.
  assert (H : keeps (detect_current_slot mount)).
  { apply keeps_bind; [|by intros; apply triple_ret].
    apply keeps_bind; [apply keeps_read|]. by intros; apply triple_ret. }
  apply triple_or_else; auto. by apply triple_ret.
Qed.

Lemma triple_confirm m version now :
  uncounted m ->
  triple meta_inv (confirm_boot m version now) (fun m' f d => meta_inv f d /\ uncounted m')
    meta_inv.
Proof.
  intros [Ht Hs]. unfold confirm_boot. destruct (boot_state m) eqn:E; try done.
  1, 3: apply triple_ret; intros f d H; repeat split; [done..|by rewrite E].
  apply (triple_bind _ _ (fun _ => meta_inv)); [by apply keeps_save|].
  intros _. apply triple_ret. by intros f d H.
Qed.

Lemma keeps_run c : keeps (run_cmd c).
Proof.
  destruct c as [|mount version now|mount|mount image_path sizes]; cbn [run_cmd].
  - apply keeps_load_bind. intros m _. by apply triple_ret.
  - apply keeps_load_bind. intros m Hm. apply keeps_bind; [apply keeps_detect|].
    intros booted. destruct (decide _).
    + eapply triple_bind; [by apply triple_confirm|]. intros m'.
      apply (triple_pre (uncounted m') _ meta_inv); [by intros f d []|apply keeps_save].
    + by apply keeps_save.
  - apply keeps_load_bind. intros m Hm.
    apply (triple_bind _ _ (fun m' f d => meta_inv f d /\ uncounted m')).
    + apply (triple_bind _ _ (fun _ => meta_inv)); [by apply keeps_save|].
      intros _. apply triple_ret. by intros f d H.
    + intros m'. apply (triple_pre (uncounted m') _ meta_inv); [by intros f d []|].
      intros Hm'. apply keeps_bind; [apply keeps_switch|]. intros _. by apply keeps_save.
  - apply keeps_bind; [apply keeps_read|]. intros image. apply keeps_load_bind. intros m Hm.
    apply keeps_bind.
    { apply triple_new. intros s. apply stable_meta_inv.
      intros H. by apply (slot_cmdline_not_metadata mount s). }
    intros _. apply keeps_bind.
    { eapply triple_weaken; [by apply (triple_install sha256_hex meta_inv)|..]; try done.
      by intros a f d []. }
    intros _. apply keeps_bind; [apply keeps_switch|]. intros _. by apply keeps_save.
Qed.

(** Boot attempts are never counted: in every state the tool can reach, the
    metadata still grants all three tries and is not in the [Trying] state, so the
    documented attempt counter and automatic rollback do not exist. *)
Theorem boot_attempts_never_counted w s :
  reachable w -> fs w !! METADATA_PATH = Some s ->
  exists m, from_toml s = Some m /\ tries_remaining m = 3 /\ boot_state m <> Trying.
Proof.
  intros Hr. assert (H : meta_inv (fs w) (devs w)); [|by apply H]. clear s.
  induction Hr as [w Hf|w c Hr IH|w w' Hr IH He].
  - intros s. by rewrite Hf.
  - pose proof (keeps_run c w IH) as H. by destruct (run_cmd c w) as [[| |] w'].
  - intros s. rewrite He. apply IH.
Qed.
End BootAttempts.

(** ** A codec, for the witnesses

    A metadata record as the binary digits of its stdpp encoding. *)

Fixpoint bits (p : positive) : string :=
  match p with
  | xH => EmptyString
  | xO p => String "0" (bits p)
  | xI p => String "1" (bits p)
  end.

Fixpoint unbits (s : string) : positive :=
  match s with
  | EmptyString => xH
  | String c s => if Ascii.eqb c "1" then xI (unbits s) else xO (unbits s)
  end.

Lemma unbits_bits p : unbits (bits p) = p.
Proof. induction p; cbn; congruence. Qed.

#[export] Instance Slot_countable : Countable Slot.
Proof.
  refine (inj_countable' (fun s => match s with SlotA => true | SlotB => false end)
    (fun b : bool => if b then SlotA else SlotB) _). by intros [].
Defined.

#[export] Instance BootState_countable : Countable BootState.
Proof.
  refine (inj_countable'
    (fun s => match s with Confirmed => 0 | Pending => 1 | Trying => 2 | RollingBack => 3 end%nat)
    (fun n => match n with 0 => Confirmed | 1 => Pending | 2 => Trying | _ => RollingBack end%nat)
    _). by intros [].
Defined.

#[export] Instance BootMetadata_eq_dec : EqDecision BootMetadata.
Proof. solve_decision. Defined.

#[export] Instance BootMetadata_countable : Countable BootMetadata.
Proof.
  refine (inj_countable'
    (fun m => (active_slot m, next_slot m, tries_remaining m, boot_state m, active_version m,
      next_version m, last_successful_boot m, rollback_count m, last_rollback_reason m))
    (fun '(a, b, c, d, e, f, g, h, i) => mkMeta a b c d e f g h i) _).
  by intros [].
Defined.

Definition binary_codec : TomlCodec.
Proof.
  refine {| to_toml := fun m => Some (bits (encode m));
            from_toml := fun s => decode (unbits s) |}.
  intros m s [= <-]. by rewrite unbits_bits, decode_encode.
Defined.

(** A device with both partitions and an image to install; the "hash" is the bytes. *)
Definition example_world (o : list event) : world :=
  mkWorld
    (mkDisk (<[METADATA_PATH := bits (encode BootMetadata_default)]>
     (<["/tmp/image"%string := "xyz"%string]>
      (<["/boot/cmdline.txt"%string := default_cmdline SlotA]> ∅))) ∅)
    (<["/dev/mmcblk0p2"%string := [1; 2; 3; 4]]>
     (<["/dev/mmcblk0p3"%string := [5; 6; 7; 8]]> ∅))
    SlotA o.

(** A run where [dd] reports success but wrote something else: nothing is switched. *)
Definition bad_dd : world :=
  example_world [Good; Good; Good; Good; Good; Good; Good; Good; DdRun [9; 9; 9; 9] true].


(** ** What a power cut can still destroy *)

Definition update_example (o : list event) : outcome () * world :=
  cmd_update (toml := binary_codec) string_of_bytes "/boot" "/tmp/image" [] (example_world o).

(** Power cut right after the rename: [cmdline.txt] was replaced without an earlier sync of
    its new contents, so that any text, or none, may be left of it. *)
Lemma cut_before_sync_may_tear_cmdline :
  let r := update_example (replicate 13 Good ++ [PowerCut None]) in
  r.1 = Cut /\ fs r.2 !! "/boot/cmdline.txt"%string = Some (default_cmdline SlotB) /\
  forall o, after_cut (fs r.2) "/boot/cmdline.txt" o.
Proof.
  intros r. split; [vm_compute; reflexivity|]. split; [vm_compute; reflexivity|].
  intros o. left. apply (bool_decide_eq_true_1 _). vm_compute. reflexivity.
Qed.

(** The metadata of an update that reported success is not on the disk yet. *)
Lemma pending_not_durable :
  let r := update_example [] in
  r.1 = Done () /\ forall o, after_cut (fs r.2) METADATA_PATH o.
Proof.
  intros r. split; [vm_compute; reflexivity|].
  intros o. left. apply (bool_decide_eq_true_1 _). vm_compute. reflexivity.
Qed.

(** A command-line file of a slot that a power cut tore is taken for complete by the next
    update, which switches the boot to it. *)
Lemma torn_slot_cmdline_booted :
  let '(r1, w1) := update_example (replicate 7 Good ++ [PowerCut (Some "root=/dev/mm"%string)]) in
  let '(r2, w2) := cmd_update (toml := binary_codec) string_of_bytes "/boot" "/tmp/image" [] w1 in
  r1 = Cut /\ r2 = Done () /\ fs w2 !! "/boot/cmdline.txt"%string = Some "root=/dev/mm"%string.
Proof. vm_compute. done. Qed.

Lemma boot_attempts_never_counted_witness :
  exists s m,
    fs (run_cmd (toml := binary_codec) string_of_bytes (Update "/boot" "/tmp/image" [])
      (mkWorld (del METADATA_PATH (fs (example_world []))) (devs (example_world [])) SlotA
        [])).2 !! METADATA_PATH = Some s /\
    from_toml (TomlCodec := binary_codec) s = Some m /\
    tries_remaining m = 3 /\ boot_state m <> Trying.
Proof.
  set (w0 := mkWorld (del METADATA_PATH (fs (example_world []))) (devs (example_world []))
    SlotA []).
  set (c := Update "/boot" "/tmp/image" []).
  destruct (fs (run_cmd (toml := binary_codec) string_of_bytes c w0).2 !! METADATA_PATH)
    as [s|] eqn:E; [|vm_compute in E; discriminate].
  exists s.
  destruct (boot_attempts_never_counted (toml := binary_codec) string_of_bytes
    (run_cmd (toml := binary_codec) string_of_bytes c w0).2 s) as (m & Hm);
    [apply reachable_cmd, reachable_fresh; vm_compute; reflexivity|exact E|].
  exists m. split; [reflexivity|exact Hm].
Defined.

(** ** Confirmation without a reboot *)

Section Confirm.
Context {toml : TomlCodec} (sha256_hex : list Z -> string).

(** Without faults, the operations compute. *)
Lemma read_calm p s w :
  oracle w = [] -> fs w !! p = Some s -> read_to_string p w = (Done s, w).
Proof. intros Ho Hs. unfold read_to_string, io, next_event. by rewrite Ho, Hs. Qed.

Lemma replace_calm a b s w :
  oracle w = [] ->
  (write a s ≫= fun _ => rename a b) w =
    (Done (), set_fs w (put b s (del a (put a s (fs w))))).
Proof.
  intros Ho. unfold mbind, M_bind, write, rename, io, next_event. rewrite Ho.
  cbn [set_fs oracle fs]. rewrite Ho. cbn [set_fs oracle fs].
  by rewrite lookup_put.
Qed.

Lemma save_calm m c w :
  oracle w = [] -> to_toml m = Some c ->
  exists w', save m w = (Done (), w') /\ oracle w' = [] /\ running w' = running w /\
    has_metadata m (fs w') (devs w') /\
    forall p, p <> METADATA_PATH -> p <> METADATA_TMP -> fs w' !! p = fs w !! p.
Proof.
  intros Ho Hc.
  assert (E : save m w = (write METADATA_TMP c ≫= fun _ => rename METADATA_TMP METADATA_PATH) w).
  { unfold save, create_dir_all, io, next_event, mbind, M_bind. by rewrite Ho, Hc. }
  rewrite E, replace_calm by done. eexists. split; [done|]. cbn. repeat split; auto.
  - exists c. rewrite lookup_put. split; [done|]. by apply from_to_toml.
  - intros p H1 H2. by rewrite lookup_put_ne, lookup_del_ne, lookup_put_ne by done.
Qed.

Lemma load_calm m w :
  oracle w = [] -> has_metadata m (fs w) (devs w) -> load w = (Done m, w).
Proof.
  intros Ho (s & Hs & Hf). unfold load, path_exists, mbind, M_bind.
  rewrite bool_decide_eq_true_2 by eauto. rewrite (read_calm METADATA_PATH s w Ho Hs).
  by rewrite Hf.
Qed.

Lemma switch_calm mount s c w :
  oracle w = [] -> fs w !! slot_cmdline_path mount s = Some c ->
  exists w', switch_to_slot mount s w = (Done (), w') /\ oracle w' = [] /\
    running w' = running w /\ fs w' !! cmdline_path mount = Some c.
Proof.
  intros Ho Hc. unfold switch_to_slot, write_cmdline.
  unfold mbind at 1, M_bind at 1. rewrite (read_calm _ _ _ Ho Hc).
  pose proof (replace_calm (cmdline_tmp mount) (cmdline_path mount) c w Ho) as Hr.
  unfold mbind, M_bind in *. destruct (write (cmdline_tmp mount) c w) as [[[]|e|] w1]; [|done..].
  rewrite Hr. unfold sync_all, next_event. cbn [oracle set_fs]. rewrite Ho. eexists. split; [done|].
  cbn [oracle running fs set_fs]. repeat split; auto. apply lookup_put.
Qed.

(** [boot-confirm] reads the slot from the [cmdline.txt] that [update] has just
    switched.  Run before the reboot, it therefore promotes the slot that has never
    booted; from then on [rollback] re-selects that slot, and the one that is running
    cannot be returned to. *)
Theorem confirm_before_reboot_promotes mount version now m w c :
  oracle w = [] -> (forall m, is_Some (to_toml m)) ->
  has_metadata (pending_meta m) (fs w) (devs w) ->
  boots mount (other (active_slot m)) (fs w) (devs w) ->
  fs w !! slot_cmdline_path mount (other (active_slot m)) = Some c ->
  slot_of_cmdline (trim c) = other (active_slot m) ->
  exists w1 m1 w2,
    cmd_boot_confirm mount version now w = (Done (), w1) /\
    running w1 = running w /\ has_metadata m1 (fs w1) (devs w1) /\
    active_slot m1 = other (active_slot m) /\ boot_state m1 = Confirmed /\
    cmd_rollback mount w1 = (Done (), w2) /\ fs w2 !! cmdline_path mount = Some c.
Proof.
  intros Ho Htoml Hm Hb Hc Hs. set (b := other (active_slot m)) in *.
  set (m1 := mkMeta b (next_slot (pending_meta m)) 3 Confirmed version
    (next_version (pending_meta m)) (last_successful_boot (pending_meta m))
    (rollback_count (pending_meta m)) (last_rollback_reason (pending_meta m))).
  destruct (Htoml m1) as [c1 Hc1].
  destruct (save_calm m1 c1 w Ho Hc1) as (w1 & E1 & Ho1 & Hr1 & Hm1 & Hf1).
  assert (Hcmd : fs w !! cmdline_path mount = Some c) by (unfold boots in Hb; congruence).
  assert (E : cmd_boot_confirm mount version now w = (Done (), w1)).
  { unfold cmd_boot_confirm. unfold mbind at 1, M_bind at 1.
    rewrite (load_calm _ _ Ho Hm). unfold mbind, M_bind, or_else, detect_current_slot,
      read_cmdline. unfold mbind, M_bind.
    rewrite (read_calm _ _ _ Ho Hcmd). cbn [mret M_ret]. rewrite Hs.
    destruct (decide _) as [Hd|_]; [|exact E1].
    exfalso. cbn in Hd. unfold b in Hd. by destruct (active_slot m). }
  set (m2 := mkMeta (active_slot m1) (active_slot m1) 3 RollingBack (active_version m1)
    (active_version m1) (last_successful_boot m1) (u32 (rollback_count m1 + 1))
    "manual rollback via CLI").
  destruct (Htoml m2) as [c2 Hc2].
  destruct (save_calm m2 c2 w1 Ho1 Hc2) as (w2 & E2 & Ho2 & Hr2 & Hm2 & Hf2).
  assert (Hslot : fs w2 !! slot_cmdline_path mount b = Some c).
  { rewrite Hf2, Hf1; auto with ota_paths. }
  destruct (switch_calm mount b c w2 Ho2 Hslot) as (w3 & E3 & Ho3 & Hr3 & Hc3).
  destruct (save_calm m2 c2 w3 Ho3 Hc2) as (w4 & E4 & Ho4 & Hr4 & Hm4 & Hf4).
  exists w1, m1, w4. repeat split; auto.
  - unfold cmd_rollback. unfold mbind at 1, M_bind at 1. rewrite (load_calm _ _ Ho1 Hm1).
    unfold force_rollback, mbind, M_bind. fold m2. rewrite E2. cbn [mret M_ret].
    change (active_slot m1) with b. rewrite E3. exact E4.
  - rewrite Hf4; auto with ota_paths.
Qed.
End Confirm.

(** The state after an update of the example device. *)
Definition updated_world : world :=
  (cmd_update (toml := binary_codec) string_of_bytes "/boot" "/tmp/image" []
    (example_world [])).2.

Lemma confirm_before_reboot_promotes_witness :
  running updated_world = SlotA /\
  exists w1 m1 w2,
    cmd_boot_confirm (toml := binary_codec) "/boot" "0.4" 7 updated_world = (Done (), w1) /\
    running w1 = running updated_world /\
    has_metadata (toml := binary_codec) m1 (fs w1) (devs w1) /\
    active_slot m1 = other (active_slot BootMetadata_default) /\ boot_state m1 = Confirmed /\
    cmd_rollback (toml := binary_codec) "/boot" w1 = (Done (), w2) /\
    fs w2 !! cmdline_path "/boot" = Some (default_cmdline SlotB).
Proof.
  split; [vm_compute; reflexivity|].
  apply (confirm_before_reboot_promotes (toml := binary_codec) "/boot" "0.4" 7
    BootMetadata_default updated_world (default_cmdline SlotB)).
  - vm_compute. reflexivity.
  - intros m. eexists. reflexivity.
  - exists (bits (encode (pending_meta BootMetadata_default))).
    split; vm_compute; reflexivity.
  - vm_compute. reflexivity.
  - vm_compute. reflexivity.
  - vm_compute. reflexivity.
Defined.
