(* ===== verification/Types.v ===== *)
(** * Shared domain types (balansir-common/src/types.rs)

    Drivers, health vocabulary, actions, the requests and results exchanged with
    the executor, and the desired and actual states the control plane works on. *)

From S2P Require Import Prelude.

(** ** Drivers *)

Inductive DriverId := WireGuard | AmneziaWG | Xray | Hysteria | B4 | DnsForwarder | Custom (id : Z).

#[export] Instance DriverId_eq_dec : EqDecision DriverId.
Proof. solve_decision. Defined.

#[export] Instance DriverId_countable : Countable DriverId.
Proof.
  refine (inj_countable'
    (fun d => match d with
              | WireGuard => inl 1%nat | AmneziaWG => inl 2%nat | Xray => inl 3%nat
              | Hysteria => inl 4%nat | B4 => inl 5%nat | DnsForwarder => inl 6%nat
              | Custom n => inr n end)
    (fun c : nat + Z =>
       match c with
       | inl 1%nat => WireGuard | inl 2%nat => AmneziaWG | inl 3%nat => Xray
       | inl 4%nat => Hysteria | inl 5%nat => B4 | inl _ => DnsForwarder
       | inr n => Custom n end) _).
  by intros [].
Defined.

Definition as_u32 (d : DriverId) : Z :=
  match d with
  | WireGuard => 1 | AmneziaWG => 2 | Xray => 3 | Hysteria => 4 | B4 => 5
  | DnsForwarder => 6 | Custom id => id
  end.

Definition from_u32 (id : Z) : DriverId :=
  if id =? 1 then WireGuard else if id =? 2 then AmneziaWG else if id =? 3 then Xray
  else if id =? 4 then Hysteria else if id =? 5 then B4 else if id =? 6 then DnsForwarder
  else Custom id.

(** FNV-1a over the bytes of the name. *)
Definition fnv32_step (hash byte : Z) : Z := u32 (Z.lxor hash byte * 0x01000193).
Definition hash_name (name : string) : Z :=
  fold_left fnv32_step (bytes_of_string name) 0x811c9dc5.

Definition from_name (name : string) : DriverId :=
  let n := to_ascii_lowercase name in
  let same s := String.eqb n s in
  if same "wireguard" || same "wg" then WireGuard
  else if same "amneziawg" || same "awg" then AmneziaWG
  else if same "xray" || same "xray-core" then Xray
  else if same "hysteria" || same "hysteria2" then Hysteria
  else if same "b4" then B4
  else if same "dnsforwarder" || same "dns" then DnsForwarder
  else Custom (hash_name name).

Definition canonical_name (d : DriverId) : string :=
  match d with
  | WireGuard => "wireguard" | AmneziaWG => "amneziawg" | Xray => "xray"
  | Hysteria => "hysteria" | B4 => "b4" | DnsForwarder => "dnsforwarder" | Custom _ => "custom"
  end%string.

Inductive DriverAction := Start | Stop | Restart | DriverStatus.

(** ** Health *)

Inductive HealthStatus :=
| HsHealthy
| HsDegraded (reason : Z)
| HsUnhealthy (reason : Z)
| HsUnknown.

Inductive HealthTier := TierHealthy | TierDegraded | TierFailing | TierDisabled.

Definition tier_as_u8 (t : HealthTier) : Z :=
  match t with TierHealthy => 0 | TierDegraded => 1 | TierFailing => 2 | TierDisabled => 3 end.

Definition tier_from_u8 (v : Z) : option HealthTier :=
  if v =? 0 then Some TierHealthy else if v =? 1 then Some TierDegraded
  else if v =? 2 then Some TierFailing else if v =? 3 then Some TierDisabled else None.

Definition from_health_status (s : HealthStatus) : HealthTier :=
  match s with
  | HsHealthy => TierHealthy
  | HsDegraded _ => TierDegraded
  | HsUnhealthy _ => TierFailing
  | HsUnknown => TierDisabled
  end.

Definition HealthView : Type := gmap DriverId HealthStatus.

Definition hv_set (v : HealthView) (d : DriverId) (h : HealthStatus) : HealthView := <[d := h]> v.

Definition hv_extend (v : HealthView) (l : list (DriverId * HealthStatus)) : HealthView :=
  fold_left (fun v '(d, h) => <[d := h]> v) l v.

Definition hv_status (v : HealthView) (d : DriverId) : HealthStatus := default HsUnknown (v !! d).

Definition is_routable (v : HealthView) (d : DriverId) : bool :=
  match hv_status v d with HsHealthy | HsUnknown => true | _ => false end.

(** ** Actions *)

Inductive Action :=
| Route (table : Z)
| Mark (fwmark : Z)
| Forward (driver : DriverId)
| Block
| Reject
| Allow
| Shape (class : Z)
| Log
| Queue (num : Z).

#[export] Instance Action_eq_dec : EqDecision Action.
Proof. solve_decision. Defined.

Inductive ActionType :=
  TRoute | TMark | TForward | TBlock | TReject | TAllow | TShape | TLog | TQueue.

Definition action_type (a : Action) : ActionType :=
  match a with
  | Route _ => TRoute | Mark _ => TMark | Forward _ => TForward | Block => TBlock
  | Reject => TReject | Allow => TAllow | Shape _ => TShape | Log => TLog | Queue _ => TQueue
  end.

(** [std::net::IpAddr] as its 32- or 128-bit number. *)
Inductive IpAddr := V4 (addr : Z) | V6 (addr : Z).

#[export] Instance IpAddr_eq_dec : EqDecision IpAddr.
Proof. solve_decision. Defined.

Record MatcherStep := mkMatcherStep { ms_rule_id : Z; ms_matched : bool; ms_reason : Z }.

Record DecisionTrace := mkTrace {
  policy_id : Z;
  steps : list MatcherStep;
  tr_action : Action;
  execution_time_us : Z;
  correlation_id : Z;
}.

Record ActionRequest := mkRequest {
  rq_action : Action;
  rq_src_ip : IpAddr;
  rq_dst_ip : IpAddr;
  rq_src_port : Z;
  rq_dst_port : Z;
  rq_protocol : Z;
  rq_interface : Z;
  rq_trace : DecisionTrace;
}.

#[export] Instance MatcherStep_eq_dec : EqDecision MatcherStep.
Proof. solve_decision. Defined.
#[export] Instance DecisionTrace_eq_dec : EqDecision DecisionTrace.
Proof. solve_decision. Defined.
#[export] Instance ActionRequest_eq_dec : EqDecision ActionRequest.
Proof. solve_decision. Defined.

Inductive ActionError :=
| PermissionDenied | ResourceExhausted | InvalidArgument | KernelError (code : Z)
| DriverNotAvailable (d : DriverId) | Timeout | UnknownError.

Inductive ActionResult :=
| Applied (execution_time_us : Z) (rule_id : option Z)
| AlreadyApplied
| ActionFailed (error : ActionError) (message : option string)
| Retry (after_ms : Z) (reason : string)
| Unsupported (t : ActionType).

(** ** Desired and actual state *)

Definition FAIL_CLOSED_RULE_ID : Z := u32_max.

Record FlowCriteria := mkFlowCriteria {
  fc_src_ip : option IpAddr;
  fc_dst_ip : option IpAddr;
  fc_src_port : option Z;
  fc_dst_port : option Z;
  fc_protocol : option Z;
  fc_dst_domain : option string;
}.

#[export] Instance FlowCriteria_eq_dec : EqDecision FlowCriteria.
Proof. solve_decision. Defined.

Record DesiredRule := mkRule {
  dr_id : Z;
  dr_action : Action;
  dr_priority : Z;
  dr_flow : option FlowCriteria;
}.

#[export] Instance DesiredRule_eq_dec : EqDecision DesiredRule.
Proof. solve_decision. Defined.

Record DesiredDriver := mkDriver { dd_id : DriverId; dd_action : DriverAction }.

#[export] Instance DriverAction_eq_dec : EqDecision DriverAction.
Proof. solve_decision. Defined.
#[export] Instance DesiredDriver_eq_dec : EqDecision DesiredDriver.
Proof. solve_decision. Defined.

Record DesiredState := mkDesired { rules : list DesiredRule; drivers : list DesiredDriver }.

#[export] Instance DesiredState_eq_dec : EqDecision DesiredState.
Proof. solve_decision. Defined.

Record ActualRule := mkActualRule {
  ar_id : Z;
  ar_action : Action;
  ar_rule_id : option Z;
  ar_flow : option FlowCriteria;
}.

Record ActualState := mkActual { active_rules : list ActualRule }.

(** FNV-1a 64 over the [postcard] encoding; the encoder is a parameter, [None] when it
    fails. *)
Definition fnv64_step (hash byte : Z) : Z := u64 (Z.lxor hash byte * 0x100000001b3).
Definition config_fingerprint (to_allocvec : DesiredState -> option (list Z))
    (state : DesiredState) : Z :=
  fold_left fnv64_step (default [] (to_allocvec state)) 0xcbf29ce484222325.

(** ** Numbers and names of drivers *)

(** Driver numbers and names round-trip: every number is the number of the driver
    it decodes to; a driver is recovered from its number unless it is a [Custom] driver
    numbered like a built-in one, and from its canonical name unless it is [Custom]. *)
Theorem driver_id_roundtrips d n :
  as_u32 (from_u32 n) = n /\
  (from_u32 (as_u32 d) = d <-> forall id, d = Custom id -> ~ 1 <= id <= 6) /\
  (from_name (canonical_name d) = d <-> forall id, d = Custom id -> id = hash_name "custom").
Proof.
  split; [unfold from_u32; repeat case_match; cbn; lia|]. split.
  - destruct d as [| | | | | |id]; try (by split; intros; [discriminate|reflexivity]).
    cbn [as_u32]. unfold from_u32. split.
    + intros H id' [= <-] Hr. repeat case_match; try discriminate. lia.
    + intros H. specialize (H id eq_refl). repeat case_match; auto; lia.
  - destruct d as [| | | | | |id]; try (by split; intros; [discriminate|reflexivity]).
    change (from_name (canonical_name (Custom id))) with (Custom (hash_name "custom")).
    split; [by intros [= <-] ? [= <-]|]. intros H. by rewrite (H id eq_refl).
Qed.
