(* ===== verification/IpText.v ===== *)
(** * Numbers and IP addresses as text (the parts of [std] the program formats and parses)

    Decimal [Display] and [FromStr] of unsigned integers, hexadecimal digits, and
    [Display]/[FromStr] of [std::net::IpAddr] with the address parser's rules: no leading
    zeros in dotted quads, at most four hexadecimal digits per group, one [::], an
    embedded dotted quad only at the end. *)

From stdpp Require Import pretty.
From S2P Require Import Prelude Types.
#[local] Open Scope Z_scope.

(** ** Digits *)

Definition digit_val (radix : Z) (c : ascii) : option Z :=
  let n := Z.of_N (N_of_ascii c) in
  let v :=
    if (48 <=? n) && (n <=? 57) then n - 48
    else if (97 <=? n) && (n <=? 122) then n - 87
    else if (65 <=? n) && (n <=? 90) then n - 55
    else radix in
  if v <? radix then Some v else None.

Definition is_digit (c : ascii) : bool :=
  match digit_val 10 c with Some _ => true | None => false end.

(** All characters are digits of the radix: the accumulated value. *)
Fixpoint digits_value (radix acc : Z) (s : string) : option Z :=
  match s with
  | EmptyString => Some acc
  | String c s =>
      match digit_val radix c with
      | Some d => digits_value radix (acc * radix + d) s
      | None => None
      end
  end.

(** [from_str_radix] of an unsigned type with the given maximum: an optional [+], at
    least one digit, no overflow. *)
Definition parse_radix (radix max : Z) (s : string) : option Z :=
  let digits s :=
    match s with
    | EmptyString => None
    | _ => match digits_value radix 0 s with
           | Some v => if v <=? max then Some v else None
           | None => None
           end
    end in
  match s with
  | String "+" s' => digits s'
  | _ => digits s
  end.

Definition parse_u16 : string -> option Z := parse_radix 10 (2 ^ 16 - 1).
Definition parse_u32 : string -> option Z := parse_radix 10 u32_max.

Lemma digit_val_pretty d : (d < 10)%N -> digit_val 10 (pretty_N_char d) = Some (Z.of_N d).
Proof.
  intros H. assert (d = 0 \/ d = 1 \/ d = 2 \/ d = 3 \/ d = 4 \/ d = 5 \/ d = 6 \/ d = 7 \/
    d = 8 \/ d = 9)%N as Hd by lia.
  repeat destruct Hd as [->|Hd]; try subst d; reflexivity.
Qed.

Lemma pretty_go_value x s :
  digits_value 10 0 (pretty_N_go x s) = digits_value 10 (Z.of_N x) s.
Proof.
  revert s. induction (N.lt_wf_0 x) as [x _ IH]; intros s.
  destruct (decide (x = 0)%N) as [->|Hx]; [by rewrite pretty_N_go_0|].
  rewrite pretty_N_go_step by lia. rewrite IH by (apply N.div_lt; lia).
  cbn [digits_value]. rewrite digit_val_pretty by (apply N.mod_lt; lia). f_equal.
  rewrite N2Z.inj_div, N2Z.inj_mod. pose proof (Z.div_mod (Z.of_N x) 10). lia.
Qed.

Lemma pretty_go_nonempty x s : s <> EmptyString -> pretty_N_go x s <> EmptyString.
Proof.
  revert s. induction (N.lt_wf_0 x) as [x _ IH]; intros s Hs.
  destruct (decide (x = 0)%N) as [->|Hx]; [by rewrite pretty_N_go_0|].
  rewrite pretty_N_go_step by lia. apply IH; [apply N.div_lt; lia|done].
Qed.

(** Every character that [pretty] writes for a number is a digit. *)
Fixpoint all_digits (s : string) : bool :=
  match s with EmptyString => true | String c s => is_digit c && all_digits s end.

Lemma digits_value_all_digits s acc : is_Some (digits_value 10 acc s) -> all_digits s = true.
Proof.
  revert acc. induction s as [|c s IH]; intros acc H; [done|]. cbn [digits_value all_digits] in *.
  unfold is_digit. destruct (digit_val 10 c); [by apply (IH (acc * 10 + z))|by destruct H].
Qed.

Lemma pretty_value z : 0 <= z -> digits_value 10 0 (pretty z) = Some z.
Proof.
  intros Hz. destruct z as [|p|p]; [reflexivity| |lia].
  change (pretty (Z.pos p)) with (pretty (N.pos p)). unfold pretty, pretty_N.
  rewrite decide_False by done. rewrite pretty_go_value. reflexivity.
Qed.

Lemma pretty_nonempty z : 0 <= z -> pretty z <> EmptyString.
Proof.
  intros Hz. destruct z as [|p|p]; [done| |lia].
  change (pretty (Z.pos p)) with (pretty (N.pos p)). unfold pretty, pretty_N.
  rewrite decide_False by done. rewrite pretty_N_go_step by lia. by apply pretty_go_nonempty.
Qed.

Lemma pretty_all_digits z : 0 <= z -> all_digits (pretty z) = true.
Proof. intros H. apply (digits_value_all_digits _ 0). rewrite pretty_value by done. eauto. Qed.

Lemma pretty_inj a b : 0 <= a -> 0 <= b -> pretty a = pretty b -> a = b.
Proof.
  intros Ha Hb H. pose proof (pretty_value a Ha) as Ea. rewrite H, pretty_value in Ea by done.
  congruence.
Qed.

Lemma parse_radix_pretty max z : 0 <= z <= max -> parse_radix 10 max (pretty z) = Some z.
Proof.
  intros Hz. pose proof (pretty_value z ltac:(lia)) as Hv.
  pose proof (pretty_nonempty z ltac:(lia)) as Hn. pose proof (pretty_all_digits z ltac:(lia)) as Hd.
  unfold parse_radix. destruct (pretty z) as [|c s]; [done|].
  assert (Hc : c <> "+"%char) by (intros ->; discriminate).
  rewrite Hv. replace (z <=? max) with true by lia.
  destruct c as [[] [] [] [] [] [] [] []]; try reflexivity; by destruct Hc.
Qed.

(** ** Printing addresses *)

Definition octets4 (a : Z) : list Z :=
  [a / 2 ^ 24 mod 256; a / 2 ^ 16 mod 256; a / 2 ^ 8 mod 256; a mod 256].
Definition segments6 (a : Z) : list Z :=
  map (fun i => a / 2 ^ (16 * (7 - i)) mod 65536) [0; 1; 2; 3; 4; 5; 6; 7].

Fixpoint join_with (sep : string) (l : list string) : string :=
  match l with
  | [] => EmptyString
  | [s] => s
  | s :: l => s +:+ sep +:+ join_with sep l
  end.

Definition show_v4 (a : Z) : string := join_with "." (map pretty (octets4 a)).

Definition hex_char (d : Z) : ascii := ascii_of_N (Z.to_N (if d <? 10 then 48 + d else 87 + d)).

(** [{:x}] of a [u16] *)
Definition show_hex16 (n : Z) : string :=
  let ds := [n / 4096 mod 16; n / 256 mod 16; n / 16 mod 16; n mod 16] in
  let fix strip (l : list Z) : list Z :=
    match l with
    | [d] => [d]
    | d :: l => if d =? 0 then strip l else d :: l
    | [] => []
    end in
  fold_right (fun d s => String (hex_char d) s) EmptyString (strip ds).

(** The first longest run of zero segments: start and length. *)
Fixpoint zero_run (l : list Z) (i cur_start cur_len best_start best_len : Z) : Z * Z :=
  match l with
  | [] => (best_start, best_len)
  | s :: l =>
      if s =? 0 then
        let cur_start := if cur_len =? 0 then i else cur_start in
        let cur_len := cur_len + 1 in
        if best_len <? cur_len then zero_run l (i + 1) cur_start cur_len cur_start cur_len
        else zero_run l (i + 1) cur_start cur_len best_start best_len
      else zero_run l (i + 1) 0 0 best_start best_len
  end.

Definition show_v6 (a : Z) : string :=
  let segs := segments6 a in
  if a / 2 ^ 32 =? 0xffff then "::ffff:" +:+ show_v4 (a mod 2 ^ 32)
  else
    let '(start, n) := zero_run segs 0 0 0 0 0 in
    let show l := join_with ":" (map show_hex16 l) in
    if 1 <? n then
      show (take (Z.to_nat start) segs) +:+ "::" +:+ show (drop (Z.to_nat (start + n)) segs)
    else show segs.

(** [IpAddr::to_string] *)
Definition show_ip (ip : IpAddr) : string :=
  match ip with V4 a => show_v4 a | V6 a => show_v6 a end.

(** ** Parsing addresses *)

(** [read_number] with a digit limit: the value, the number of digits and the rest. *)
Fixpoint take_digits (radix acc n : Z) (s : string) : Z * Z * string :=
  match s with
  | String c s' =>
      match digit_val radix c with
      | Some d => take_digits radix (acc * radix + d) (n + 1) s'
      | None => (acc, n, s)
      end
  | EmptyString => (acc, n, s)
  end.

Definition read_number (radix max_digits max : Z) (allow_zero_prefix : bool) (s : string) :
    option (Z * string) :=
  let leading := match s with String "0" _ => true | _ => false end in
  let '(v, n, rest) := take_digits radix 0 0 s in
  if (max_digits <? n) || (n =? 0) || negb allow_zero_prefix && leading && (1 <? n) || (max <? v)
  then None else Some (v, rest).

(** [read_separator]: the separator comes before every element but the first. *)
Definition read_sep (sep : ascii) (first : bool) (s : string) : option string :=
  if first then Some s
  else match s with String c s' => if Ascii.eqb c sep then Some s' else None | EmptyString => None end.

Fixpoint read_octets (k : nat) (first : bool) (acc : Z) (s : string) : option (Z * string) :=
  match k with
  | O => Some (acc, s)
  | S k =>
      s ← read_sep "." first s;
      '(v, s) ← read_number 10 3 255 false s;
      read_octets k false (acc * 256 + v) s
  end.

Definition read_ipv4 (s : string) : option (Z * string) := read_octets 4 true 0 s.

(** [read_groups] with room for [limit] groups: the groups read, whether the last two
    came from a dotted quad, and the rest. *)
Fixpoint read_groups (limit : nat) (first : bool) (s : string) : list Z * bool * string :=
  match limit with
  | O => ([], false, s)
  | S k =>
      let v4 :=
        match k with
        | O => None
        | S _ => read_sep ":" first s ≫= read_ipv4
        end in
      match v4 with
      | Some (a, rest) => ([a / 65536; a mod 65536], true, rest)
      | None =>
          match read_sep ":" first s ≫= read_number 16 4 65535 true with
          | Some (g, rest) =>
              let '(gs, b, rest) := read_groups k false rest in (g :: gs, b, rest)
          | None => ([], false, s)
          end
      end
  end.

Definition of_segments (l : list Z) : Z := fold_left (fun a s => a * 65536 + s) l 0.

Definition read_ipv6 (s : string) : option (Z * string) :=
  let '(head, v4, rest) := read_groups 8 true s in
  let n := length head in
  if (n =? 8)%nat then Some (of_segments head, rest)
  else if v4 : bool then None
  else
    match strip_prefix "::" rest with
    | None => None
    | Some rest =>
        let '(tail, _, rest) := read_groups (7 - n) true rest in
        Some (of_segments (head ++ replicate (8 - n - length tail) 0 ++ tail), rest)
    end.

(** [str::parse::<IpAddr>], [str::parse::<Ipv4Addr>] *)
Definition parse_ip (s : string) : option IpAddr :=
  match read_ipv4 s with
  | Some (a, EmptyString) => Some (V4 a)
  | Some _ => None
  | None => match read_ipv6 s with Some (a, EmptyString) => Some (V6 a) | _ => None end
  end.

Definition parse_ipv4 (s : string) : option Z :=
  match read_ipv4 s with Some (a, EmptyString) => Some a | _ => None end.

(** Known vectors. *)
Example show_ip_vectors :
  show_ip (V4 0xcb007105) = "203.0.113.5"%string /\
  show_ip (V6 1) = "::1"%string /\
  show_ip (V6 0x20010db8000000000000000000000001) = "2001:db8::1"%string /\
  show_ip (V6 0x20010db8000000010000000000000001) = "2001:db8:0:1::1"%string /\
  show_ip (V6 0xffffc0a80001) = "::ffff:192.168.0.1"%string.
Proof. repeat split; vm_compute; reflexivity. Qed.

Example parse_ip_vectors :
  parse_ip "203.0.113.5" = Some (V4 0xcb007105) /\ parse_ip "203.0.113.05" = None /\
  parse_ip "2001:db8::1" = Some (V6 0x20010db8000000000000000000000001) /\
  parse_ip "::ffff:192.168.0.1" = Some (V6 0xffffc0a80001) /\ parse_ip "1:2:3" = None /\
  parse_ip "::" = Some (V6 0) /\ parse_ip "256.0.0.1" = None.
Proof. repeat split; vm_compute; reflexivity. Qed.

(** An address text has digits, dots and colons only. *)
Section AddressChars.
Context (x : ascii).
Hypotheses (not_digit : digit_val 16 x = None) (not_dot : x <> "."%char) (not_colon : x <> ":"%char).

Lemma not_digit_10 : digit_val 10 x = None.
Proof. revert not_digit. unfold digit_val. repeat case_match; lia || done. Qed.

Lemma take_digits_rest radix acc n s v k rest :
  digit_val radix x = None -> take_digits radix acc n s = (v, k, rest) ->
  no_char x rest = no_char x s.
Proof.
  intros Hx. revert acc n. induction s as [|c s IH]; intros acc n E; cbn [take_digits] in E.
  - by injection E as _ _ <-.
  - destruct (digit_val radix c) eqn:Ec; [|by injection E as _ _ <-].
    rewrite (IH _ _ E). cbn [no_char]. destruct (Ascii.eqb_spec c x) as [->|]; [congruence|done].
Qed.

Lemma read_number_rest radix d m z s v rest :
  digit_val radix x = None -> read_number radix d m z s = Some (v, rest) ->
  no_char x rest = no_char x s.
Proof.
  intros Hx. unfold read_number. destruct (take_digits _ _ _ _) as [[v' k] r] eqn:E.
  case_match; [done|]. intros [= _ <-]. by eapply take_digits_rest.
Qed.

Lemma read_sep_rest sep first s rest :
  x <> sep -> read_sep sep first s = Some rest -> no_char x rest = no_char x s.
Proof.
  intros Hne. unfold read_sep. destruct first; [by intros [= <-]|].
  destruct s as [|c s]; [done|]. destruct (Ascii.eqb_spec c sep) as [->|]; [|done].
  intros [= <-]. cbn [no_char]. by destruct (Ascii.eqb_spec sep x) as [<-|].
Qed.

Lemma read_octets_rest k first acc s v rest :
  read_octets k first acc s = Some (v, rest) -> no_char x rest = no_char x s.
Proof.
  revert first acc s. induction k as [|k IH]; intros first acc s; cbn [read_octets].
  - by intros [= _ <-].
  - destruct (read_sep _ first s) as [s1|] eqn:E1; [|done]. cbn [mbind option_bind].
    destruct (read_number _ _ _ _ s1) as [[v1 s2]|] eqn:E2; [|done]. cbn [mbind option_bind].
    intros ->%IH. rewrite (read_number_rest _ _ _ _ _ _ _ not_digit_10 E2).
    by apply (read_sep_rest _ _ _ _ not_dot E1).
Qed.

Lemma read_groups_rest k first s l b rest :
  read_groups k first s = (l, b, rest) -> no_char x rest = no_char x s.
Proof.
  revert first s l b. induction k as [|k IH]; intros first s l b; cbn [read_groups].
  - by intros [= _ _ <-].
  - destruct (match k with O => None | S _ => read_sep ":" first s ≫= read_ipv4 end)
      as [[a r]|] eqn:E4.
    + intros [= _ _ <-]. destruct k as [|k']; [done|].
      destruct (read_sep ":" first s) as [s1|] eqn:E1; [|done]. cbn [mbind option_bind] in E4.
      rewrite (read_octets_rest _ _ _ _ _ _ E4). by apply (read_sep_rest _ _ _ _ not_colon E1).
    + clear E4. destruct (read_sep ":" first s) as [s1|] eqn:E1; cbn [mbind option_bind];
        [|by intros [= _ _ <-]].
      destruct (read_number _ _ _ _ s1) as [[g r]|] eqn:E2; [|by intros [= _ _ <-]].
      destruct (read_groups k false r) as [[gs b'] r'] eqn:E3. intros [= _ _ <-].
      rewrite (IH _ _ _ _ E3), (read_number_rest _ _ _ _ _ _ _ not_digit E2).
      by apply (read_sep_rest _ _ _ _ not_colon E1).
Qed.

Lemma parse_ip_chars s ip : parse_ip s = Some ip -> no_char x s = true.
Proof.
  unfold parse_ip. destruct (read_ipv4 s) as [[a r]|] eqn:E4.
  - destruct r; [|done]. intros _. by rewrite <- (read_octets_rest _ _ _ _ _ _ E4).
  - unfold read_ipv6. destruct (read_groups 8 true s) as [[h b] r] eqn:E1.
    apply read_groups_rest in E1. destruct (length h =? 8)%nat.
    + destruct r; [|done]. intros _. by rewrite <- E1.
    + destruct b; [done|]. destruct r as [|c1 [|c2 r1]]; [done|cbn [strip_prefix]; by destruct (Ascii.eqb ":" c1)|].
      cbn [strip_prefix]. destruct (Ascii.eqb_spec ":" c1) as [<-|]; [|done].
      destruct (Ascii.eqb_spec ":" c2) as [<-|]; [|done].
      destruct (read_groups _ true r1) as [[tl b'] r2] eqn:E2. apply read_groups_rest in E2.
      destruct r2; [|done]. intros _. rewrite <- E1. cbn [no_char].
      destruct (Ascii.eqb_spec ":" x) as [<-|]; [done|]. by rewrite <- E2.
Qed.
End AddressChars.

(** ** IPv4 round trip *)

Lemma take_digits_app acc n s v rest :
  digits_value 10 acc s = Some v ->
  match rest with String c _ => digit_val 10 c = None | EmptyString => True end ->
  take_digits 10 acc n (s +:+ rest) = (v, n + Z.of_nat (String.length s), rest).
Proof.
  intros Hv Hr. revert acc n Hv. induction s as [|c s IH]; intros acc n Hv.
  - injection Hv as <-. change (EmptyString +:+ rest) with rest. cbn [String.length].
    destruct rest as [|c r]; cbn [take_digits]; [|rewrite Hr]; by rewrite Z.add_0_r.
  - rewrite string_app_cons. cbn [digits_value take_digits] in *.
    destruct (digit_val 10 c); [|done]. rewrite (IH _ _ Hv). cbn [String.length].
    f_equal. f_equal. lia.
Qed.

Definition octet_text (v : nat) : bool :=
  (String.length (pretty (Z.of_nat v)) <=? 3)%nat &&
  match pretty (Z.of_nat v) with String "0" (String _ _) | EmptyString => false | _ => true end.

Lemma octet_texts v : 0 <= v <= 255 -> octet_text (Z.to_nat v) = true.
Proof.
  intros H. assert (Hall : forallb octet_text (seq 0 256) = true) by (vm_compute; reflexivity).
  rewrite forallb_forall in Hall. apply Hall, in_seq. lia.
Qed.

Lemma read_octet v rest :
  0 <= v <= 255 -> match rest with String c _ => digit_val 10 c = None | EmptyString => True end ->
  read_number 10 3 255 false (pretty v +:+ rest) = Some (v, rest).
Proof.
  intros Hv Hr. pose proof (octet_texts v Hv) as Ho. unfold octet_text in Ho.
  rewrite Z2Nat.id in Ho by lia. apply andb_true_iff in Ho as [Hl Hz]. apply Nat.leb_le in Hl.
  unfold read_number. rewrite (take_digits_app 0 0 _ v) by (done || apply pretty_value; lia).
  destruct (pretty v) as [|c s]; [done|]. rewrite string_app_cons.
  replace (255 <? v) with false by lia. rewrite Z.add_0_l.
  replace (3 <? Z.of_nat (String.length (String c s))) with false by lia.
  replace (Z.of_nat (String.length (String c s)) =? 0) with false by (cbn [String.length]; lia).
  destruct s as [|c' s]; [by rewrite andb_false_r|].
  destruct c as [[] [] [] [] [] [] [] []]; done.
Qed.

Lemma read_octets_step k (first : bool) acc v rest :
  0 <= v <= 255 -> match rest with String c _ => digit_val 10 c = None | EmptyString => True end ->
  read_octets (S k) first acc ((if first then EmptyString else "."%string) +:+ pretty v +:+ rest) =
    read_octets k false (acc * 256 + v) rest.
Proof.
  intros Hv Hr. cbn [read_octets]. destruct first.
  - change (EmptyString +:+ ?s) with s. cbn [read_sep mbind option_bind]. by rewrite read_octet.
  - change ("." +:+ ?s) with (String "." s). unfold read_sep. rewrite Ascii.eqb_refl.
    cbn [mbind option_bind]. by rewrite read_octet.
Qed.

Lemma parse_ipv4_show a : 0 <= a < 2 ^ 32 -> read_ipv4 (show_v4 a) = Some (a, EmptyString).
Proof.
  intros Ha.
  assert (Hm : forall z, 0 <= z mod 256 <= 255) by (intros z; pose proof (Z.mod_pos_bound z 256); lia).
  unfold read_ipv4, show_v4, octets4. cbn [map join_with].
  match goal with |- read_octets 4 true 0 ?s = _ => change s with (EmptyString +:+ s) end.
  rewrite (read_octets_step 3 true), (read_octets_step 2 false), (read_octets_step 1 false)
    by (done || apply Hm).
  rewrite <- (string_app_nil_r (pretty (a mod 256))).
  rewrite (read_octets_step 0 false) by (done || apply Hm). cbn [read_octets]. f_equal. f_equal.
  change (2 ^ 24) with (256 * 256 * 256). change (2 ^ 16) with (256 * 256). change (2 ^ 8) with 256.
  rewrite <- !Z.div_div by lia.
  assert (Hd : a / 256 / 256 / 256 < 256) by (repeat (apply Z.div_lt_upper_bound; [lia|]); lia).
  assert (0 <= a / 256 / 256 / 256) by (repeat apply Z.div_pos; lia).
  rewrite (Z.mod_small (a / 256 / 256 / 256)) by lia.
  pose proof (Z.div_mod a 256). pose proof (Z.div_mod (a / 256) 256).
  pose proof (Z.div_mod (a / 256 / 256) 256). lia.
Qed.

Lemma parse_show_v4 a : 0 <= a < 2 ^ 32 ->
  parse_ip (show_v4 a) = Some (V4 a) /\ parse_ipv4 (show_v4 a) = Some a.
Proof. intros Ha. unfold parse_ip, parse_ipv4. by rewrite parse_ipv4_show. Qed.

Lemma take_digits_nonneg radix acc n s v k rest :
  0 <= radix -> 0 <= acc -> take_digits radix acc n s = (v, k, rest) -> 0 <= v.
Proof.
  intros Hr. revert acc n. induction s as [|c s IH]; intros acc n Ha E; cbn [take_digits] in E.
  - by injection E as <- _ _.
  - destruct (digit_val radix c) as [d|] eqn:Ed; [|by injection E as <- _ _].
    apply (IH (acc * radix + d) (n + 1)); [|done].
    unfold digit_val in Ed. repeat case_match; simplify_eq; nia.
Qed.

Lemma read_octets_range k first acc s v rest :
  0 <= acc -> read_octets k first acc s = Some (v, rest) ->
  acc * 256 ^ Z.of_nat k <= v < (acc + 1) * 256 ^ Z.of_nat k.
Proof.
  revert first acc s. induction k as [|k IH]; intros first acc s Ha; cbn [read_octets].
  - intros [= <- _]. lia.
  - destruct (read_sep _ first s) as [s1|]; [|done]. cbn [mbind option_bind].
    destruct (read_number _ _ _ _ s1) as [[d s2]|] eqn:E2; [|done]. cbn [mbind option_bind].
    unfold read_number in E2. destruct (take_digits _ _ _ _) as [[v' k'] r] eqn:Et.
    apply take_digits_nonneg in Et; [|lia..].
    destruct (_ || _) eqn:Eb; [done|]. injection E2 as -> ->. apply orb_false_iff in Eb as [_ Eb].
    intros H. apply IH in H; [|lia]. rewrite Nat2Z.inj_succ, Z.pow_succ_r by lia. nia.
Qed.

Lemma parse_ip_v4_range s a : parse_ip s = Some (V4 a) -> 0 <= a < 2 ^ 32.
Proof.
  unfold parse_ip. destruct (read_ipv4 s) as [[v r]|] eqn:E.
  - destruct r; [|done]. intros [= <-]. apply read_octets_range in E; [|lia]. lia.
  - destruct (read_ipv6 s) as [[? []]|]; done.
Qed.

Lemma digits_value_nonneg radix acc s v :
  0 <= radix -> 0 <= acc -> digits_value radix acc s = Some v -> 0 <= v.
Proof.
  intros Hr. revert acc. induction s as [|c s IH]; intros acc Ha; cbn [digits_value].
  - by intros [= <-].
  - destruct (digit_val radix c) as [d|] eqn:Ed; [|done]. apply IH.
    unfold digit_val in Ed. repeat case_match; simplify_eq; nia.
Qed.

Lemma parse_radix_range radix max s v :
  0 <= radix -> parse_radix radix max s = Some v -> 0 <= v <= max.
Proof.
  intros Hr H. unfold parse_radix in H.
  assert (Hd : forall t, match t with EmptyString => None | _ =>
    match digits_value radix 0 t with Some v => if v <=? max then Some v else None | None => None end
    end = Some v -> 0 <= v <= max).
  { intros [|c t]; [done|]. destruct (digits_value radix 0 (String c t)) as [w|] eqn:E; [|done].
    destruct (Z.leb_spec w max); [|done]. intros [= ->].
    apply digits_value_nonneg in E; lia. }
  destruct s as [|c s]; [done|]. destruct c as [[] [] [] [] [] [] [] []]; first [exact (Hd s H) | exact (Hd (String _ s) H)].
Qed.
