(* ===== verification/Text.v ===== *)
(** * Text as the standard library handles it

    UTF-8 decoding with replacement ([String::from_utf8_lossy]), Unicode white space
    ([str::trim]), splitting and hexadecimal formatting.  A string is its UTF-8
    bytes, as in [Prelude]. *)

From stdpp Require Import pretty.
From S2P Require Import Prelude Types IpText.

(** ** UTF-8 *)

Definition in_range (a b x : Z) : bool := (a <=? x) && (x <=? b).

(** A continuation byte; beyond the end the library reads a zero. *)
Definition cont (l : list Z) (i : nat) : bool :=
  match l !! i with Some b => in_range 0x80 0xbf b | None => false end.

(** The second byte that the first one allows in a sequence of three or four. *)
Definition second_ok (b0 b1 : Z) : bool :=
  if b0 =? 0xe0 then in_range 0xa0 0xbf b1
  else if b0 =? 0xed then in_range 0x80 0x9f b1
  else if b0 =? 0xf0 then in_range 0x90 0xbf b1
  else if b0 =? 0xf4 then in_range 0x80 0x8f b1
  else in_range 0x80 0xbf b1.

Definition second (l : list Z) : bool :=
  match l with b0 :: b1 :: _ => second_ok b0 b1 | _ => false end.

(** One step of the decoder: how many bytes it consumes and whether they are a
    character.  An incomplete sequence is consumed up to the offending byte. *)
Definition decode1 (l : list Z) : nat * bool :=
  match l with
  | [] => (0%nat, true)
  | b :: _ =>
      if in_range 0 0x7f b then (1%nat, true)
      else if in_range 0xc2 0xdf b then
        if cont l 1 then (2%nat, true) else (1%nat, false)
      else if in_range 0xe0 0xef b then
        if second l then if cont l 2 then (3%nat, true) else (2%nat, false) else (1%nat, false)
      else if in_range 0xf0 0xf4 b then
        if second l then
          if cont l 2 then if cont l 3 then (4%nat, true) else (3%nat, false)
          else (2%nat, false)
        else (1%nat, false)
      else (1%nat, false)
  end.

(** U+FFFD *)
Definition replacement_char : list Z := [0xef; 0xbf; 0xbd].

Fixpoint utf8_lossy_n (fuel : nat) (l : list Z) : list Z :=
  match fuel, l with
  | O, _ | _, [] => []
  | S fuel, _ =>
      let '(n, ok) := decode1 l in
      (if ok then take n l else replacement_char) ++ utf8_lossy_n fuel (drop n l)
  end.

(** [String::from_utf8_lossy] *)
Definition utf8_lossy (l : list Z) : list Z := utf8_lossy_n (length l) l.

Fixpoint utf8_valid_n (fuel : nat) (l : list Z) : bool :=
  match fuel, l with
  | O, _ | _, [] => true
  | S fuel, _ => let '(n, ok) := decode1 l in ok && utf8_valid_n fuel (drop n l)
  end.

(** [str::from_utf8(..).is_ok()] *)
Definition utf8_valid (l : list Z) : bool := utf8_valid_n (length l) l.

Lemma decode1_pos l : l <> [] -> (0 < (decode1 l).1)%nat.
Proof. destruct l; [done|]. intros _. unfold decode1. repeat case_match; cbn; lia. Qed.

Lemma utf8_lossy_n_valid fuel l :
  (length l <= fuel)%nat -> utf8_valid_n fuel l = true -> utf8_lossy_n fuel l = l.
Proof.
  revert l. induction fuel as [|fuel IH]; intros l Hl Hv.
  { by destruct l; [|cbn in Hl; lia]. }
  destruct l as [|b l]; [done|]. cbn [utf8_lossy_n utf8_valid_n] in *.
  pose proof (decode1_pos (b :: l)) as Hp. destruct (decode1 (b :: l)) as [n ok]. cbn in Hp.
  apply andb_true_iff in Hv as [-> Hv]. rewrite IH; [apply take_drop| |done].
  rewrite length_drop. cbn [length] in *. specialize (Hp ltac:(done)). lia.
Qed.

Lemma utf8_lossy_valid l : utf8_valid l = true -> utf8_lossy l = l.
Proof. by apply utf8_lossy_n_valid. Qed.

(** A Rust [String]. *)
Definition is_text (s : string) : bool := utf8_valid (bytes_of_string s).

(** Characters: the bytes that are not continuation bytes. *)
Definition is_cont (c : ascii) : bool := in_range 0x80 0xbf (Z.of_N (N_of_ascii c)).

Fixpoint char_count (s : string) : Z :=
  match s with
  | EmptyString => 0
  | String c s => (if is_cont c then 0 else 1) + char_count s
  end.

(** [s.chars().take(n).collect()] *)
Fixpoint take_chars (n : Z) (s : string) : string :=
  match s with
  | EmptyString => EmptyString
  | String c s =>
      if is_cont c then String c (take_chars n s)
      else if n <=? 0 then EmptyString else String c (take_chars (n - 1) s)
  end.

(** ** White space *)

Definition byte_of (c : ascii) : Z := Z.of_N (N_of_ascii c).

(** The rest after one leading [char::is_whitespace] character. *)
Definition skip_ws (s : string) : option string :=
  match s with
  | EmptyString => None
  | String c1 r1 =>
      if is_space c1 then Some r1 else
      match r1 with
      | EmptyString => None
      | String c2 r2 =>
          if (byte_of c1 =? 0xc2) && ((byte_of c2 =? 0x85) || (byte_of c2 =? 0xa0)) then Some r2 else
          match r2 with
          | EmptyString => None
          | String c3 r3 =>
              let b3 := byte_of c3 in
              if ((byte_of c1 =? 0xe1) && (byte_of c2 =? 0x9a) && (b3 =? 0x80))
                 || ((byte_of c1 =? 0xe2) && (byte_of c2 =? 0x80) &&
                     (in_range 0x80 0x8a b3 || (b3 =? 0xa8) || (b3 =? 0xa9) || (b3 =? 0xaf)))
                 || ((byte_of c1 =? 0xe2) && (byte_of c2 =? 0x81) && (b3 =? 0x9f))
                 || ((byte_of c1 =? 0xe3) && (byte_of c2 =? 0x80) && (b3 =? 0x80))
              then Some r3 else None
          end
      end
  end.

Fixpoint trim_start_n (fuel : nat) (s : string) : string :=
  match fuel with
  | O => s
  | S fuel => match skip_ws s with Some r => trim_start_n fuel r | None => s end
  end.

(** [str::trim_start] *)
Definition utrim_start (s : string) : string := trim_start_n (String.length s) s.

Definition all_ws (s : string) : bool := is_empty_str (utrim_start s).

(** [str::trim_end]: cut before the longest suffix of white space. *)
Fixpoint utrim_end (s : string) : string :=
  if all_ws s then EmptyString
  else match s with
       | EmptyString => EmptyString
       | String c s' => String c (utrim_end s')
       end.

(** [str::trim] *)
Definition utrim (s : string) : string := utrim_end (utrim_start s).

(** ** Splitting *)

(** [str::split_once] *)
Fixpoint split_once (pat s : string) : option (string * string) :=
  match strip_prefix pat s with
  | Some r => Some (EmptyString, r)
  | None =>
      match s with
      | EmptyString => None
      | String c s' =>
          match split_once pat s' with
          | Some (a, b) => Some (String c a, b)
          | None => None
          end
      end
  end.

(** [str::rsplit_once] of a character *)
Fixpoint rsplit_once (x : ascii) (s : string) : option (string * string) :=
  match s with
  | EmptyString => None
  | String c s' =>
      match rsplit_once x s' with
      | Some (a, b) => Some (String c a, b)
      | None => if Ascii.eqb c x then Some (EmptyString, s') else None
      end
  end.

(** [s.chars().all(..)] of a test on ASCII *)
Fixpoint all_chars (p : ascii -> bool) (s : string) : bool :=
  match s with EmptyString => true | String c s => p c && all_chars p s end.

Definition is_alnum (c : ascii) : bool :=
  let b := byte_of c in
  in_range 48 57 b || in_range 65 90 b || in_range 97 122 b.

Definition is_hexdigit (c : ascii) : bool :=
  match digit_val 16 c with Some _ => true | None => false end.

(** [format!("{v:0nx}")] for a value of at most [n] digits *)
Fixpoint show_hex_n (n : nat) (v : Z) : string :=
  match n with
  | O => EmptyString
  | S n => show_hex_n n (v / 16) +:+ String (hex_char (v mod 16)) EmptyString
  end.

(** [str::split_whitespace] *)
Fixpoint words_n (fuel : nat) (cur s : string) : list string :=
  let flush := match cur with EmptyString => [] | _ => [cur] end in
  match fuel, s with
  | O, _ | _, EmptyString => flush
  | S fuel, String c s' =>
      match skip_ws s with
      | Some r => flush ++ words_n fuel EmptyString r
      | None => words_n fuel (cur +:+ String c EmptyString) s'
      end
  end.

Definition split_whitespace (s : string) : list string := words_n (String.length s) EmptyString s.

(** ** Facts *)

Lemma split_once_cons x c s :
  split_once (String x EmptyString) (String c s) =
  if Ascii.eqb x c then Some (EmptyString, s)
  else match split_once (String x EmptyString) s with
       | Some (a, b) => Some (String c a, b)
       | None => None
       end.
Proof. cbn [split_once strip_prefix]. by destruct (Ascii.eqb x c), s. Qed.

Lemma no_char_cons x c s :
  no_char x (String c s) = true -> Ascii.eqb c x = false /\ no_char x s = true.
Proof. cbn [no_char]. rewrite andb_true_iff, negb_true_iff. done. Qed.

Lemma split_once_sep x a b :
  no_char x a = true -> split_once (String x EmptyString) (a +:+ String x b) = Some (a, b).
Proof.
  induction a as [|c a IH]; intros H.
  - change (EmptyString +:+ String x b) with (String x b).
    by rewrite split_once_cons, Ascii.eqb_refl.
  - apply no_char_cons in H as [Hc H]. rewrite string_app_cons, split_once_cons.
    by rewrite Ascii.eqb_sym, Hc, IH.
Qed.

Lemma split_once_none x s :
  no_char x s = true -> split_once (String x EmptyString) s = None.
Proof.
  induction s as [|c s IH]; intros H; [done|].
  apply no_char_cons in H as [Hc H]. by rewrite split_once_cons, Ascii.eqb_sym, Hc, IH.
Qed.

Lemma rsplit_once_none x s : no_char x s = true -> rsplit_once x s = None.
Proof.
  induction s as [|c s IH]; intros H; [done|]. apply no_char_cons in H as [Hc H].
  cbn [rsplit_once]. by rewrite IH, Hc.
Qed.

Lemma rsplit_once_sep x a b :
  no_char x b = true -> rsplit_once x (a +:+ String x b) = Some (a, b).
Proof.
  intros H. induction a as [|c a IH].
  - change (EmptyString +:+ String x b) with (String x b). cbn [rsplit_once].
    by rewrite rsplit_once_none, Ascii.eqb_refl.
  - rewrite string_app_cons. cbn [rsplit_once]. by rewrite IH.
Qed.

Lemma all_chars_app p s t : all_chars p (s +:+ t) = all_chars p s && all_chars p t.
Proof.
  induction s as [|c s IH]; [done|]. rewrite string_app_cons. cbn [all_chars].
  by rewrite IH, andb_assoc.
Qed.

Lemma all_chars_impl (p q : ascii -> bool) s :
  (forall c, p c = true -> q c = true) -> all_chars p s = true -> all_chars q s = true.
Proof.
  intros H. induction s as [|c s IH]; [done|]. cbn. intros [Hc Hs]%andb_true_iff.
  by rewrite H, IH.
Qed.

Lemma all_chars_no_char p x s : p x = false -> all_chars p s = true -> no_char x s = true.
Proof.
  intros Hx. induction s as [|c s IH]; [done|]. cbn -[Ascii.eqb]. intros [Hc Hs]%andb_true_iff.
  rewrite IH by done. destruct (Ascii.eqb_spec c x) as [->|]; [congruence|done].
Qed.

(** ** Lines *)

Definition newline : ascii := "010".

(** Lines, each ended by a newline. *)
Fixpoint unlines (ls : list string) : string :=
  match ls with [] => EmptyString | l :: ls => l +:+ String newline (unlines ls) end.

Lemma lines_aux_unlines cur ls :
  Forall (fun l => no_char newline l = true) ls ->
  lines_aux cur (unlines ls) =
    match ls with
    | [] => match cur with EmptyString => [] | _ => [cur] end
    | l :: ls => (cur +:+ l) :: ls
    end.
Proof.
  intros H. revert cur. induction H as [|l ls Hl _ IH]; intros cur; [done|]. cbn [unlines].
  revert cur. induction l as [|c l IHl]; intros cur.
  - change (EmptyString +:+ ?s) with s. cbn [lines_aux]. rewrite IH, string_app_nil_r.
    cbn [Ascii.eqb]. by destruct ls.
  - cbn [no_char] in Hl. apply andb_true_iff in Hl as [Hc Hl]. rewrite string_app_cons.
    cbn [lines_aux]. change "010"%char with newline. destruct (Ascii.eqb c newline); [done|].
    rewrite IHl by done. by rewrite string_app_assoc.
Qed.

Lemma lines_unlines ls :
  Forall (fun l => no_char newline l = true) ls -> lines (unlines ls) = ls.
Proof. intros H. unfold lines. rewrite lines_aux_unlines by done. by destruct ls. Qed.

Lemma split_on_join x l :
  l <> [] -> Forall (fun s => no_char x s = true) l ->
  split_on x (join_with (String x EmptyString) l) = l.
Proof.
  intros Hne H. induction H as [|s l Hs Hl IH]; [done|]. destruct l as [|t l].
  - cbn [join_with]. clear -Hs. induction s as [|c s IH]; [done|].
    apply no_char_cons in Hs as [Hc Hs]. cbn [split_on]. by rewrite Hc, IH.
  - change (join_with (String x EmptyString) (s :: t :: l))
      with (s +:+ String x (join_with (String x EmptyString) (t :: l))).
    revert IH. generalize (join_with (String x EmptyString) (t :: l)). intros r IH.
    clear Hne. induction s as [|c s IHs].
    + change (EmptyString +:+ ?t) with t. cbn [split_on]. rewrite Ascii.eqb_refl, IH; done.
    + apply no_char_cons in Hs as [Hc Hs]. rewrite string_app_cons. cbn [split_on].
      by rewrite Hc, IHs.
Qed.

Lemma all_chars_join p sep l :
  all_chars p sep = true -> Forall (fun s => all_chars p s = true) l ->
  all_chars p (join_with sep l) = true.
Proof.
  intros Hs H. induction H as [|s l Hx Hl IH]; [done|]. destruct l as [|t l]; [done|].
  change (join_with sep (s :: t :: l)) with (s +:+ sep +:+ join_with sep (t :: l)).
  by rewrite !all_chars_app, Hx, Hs, IH.
Qed.

(** [str::lines] with the carriage return of a terminated line stripped. *)
Fixpoint strip_cr (s : string) : string :=
  match s with
  | EmptyString => EmptyString
  | String c EmptyString => if Ascii.eqb c "013" then EmptyString else s
  | String c s' => String c (strip_cr s')
  end.

Fixpoint str_lines_aux (cur : string) (s : string) : list string :=
  match s with
  | EmptyString => match cur with EmptyString => [] | _ => [cur] end
  | String c s' =>
      if Ascii.eqb c newline then strip_cr cur :: str_lines_aux EmptyString s'
      else str_lines_aux (cur +:+ String c EmptyString) s'
  end.
Definition str_lines (s : string) : list string := str_lines_aux EmptyString s.

(** A text of whole lines. *)
Definition well_ended (s : string) : bool :=
  is_empty_str s || ends_with s (String newline EmptyString).

Lemma lines_aux_sep cur a b :
  exists l, lines_aux cur (a +:+ String newline b) = l ++ lines b.
Proof.
  revert cur. induction a as [|c a IH]; intros cur.
  - by exists [cur].
  - rewrite string_app_cons. cbn [lines_aux]. case_match; [|by apply IH].
    destruct (IH EmptyString) as [l ->]. by exists (cur :: l).
Qed.

Lemma well_ended_lines s b : well_ended s = true -> exists l, lines (s +:+ b) = l ++ lines b.
Proof.
  unfold well_ended. rewrite orb_true_iff. intros [H|(p & ->)%ends_with_spec].
  - destruct s; [by exists []|done].
  - rewrite string_app_assoc. change (String newline EmptyString +:+ b) with (String newline b).
    apply lines_aux_sep.
Qed.

Lemma lines_newline_in x cur s :
  In x (lines_aux cur s) -> In x (lines_aux cur (s +:+ String newline EmptyString)).
Proof.
  revert cur. induction s as [|c s IH]; intros cur; [by destruct cur|].
  rewrite string_app_cons. cbn [lines_aux]. case_match; [|apply IH].
  intros [->|Hx]; [by left|right; by apply IH].
Qed.

Lemma well_ended_newline s : well_ended (s +:+ String newline EmptyString) = true.
Proof. unfold well_ended. rewrite orb_true_iff. right. apply ends_with_spec. by exists s. Qed.
