(* ===== verification/VpnImport.v ===== *)
(** * Subscription import (balansir-vpn/src/uri.rs, importer.rs, profile.rs)

    The URI parser, the share-link importer and the import of a whole subscription
    body: every line becomes a profile of the pool, a duplicate or a rejection with
    its reason.  Strings are UTF-8 bytes; [Text] models the library's lossy decoding
    and Unicode trimming. *)

From Stdlib Require Import Sorted.
From stdpp Require Import pretty.
From S2P Require Import Prelude F64 Health VpnPool Types IpText Text.

(** ** URIs *)

Record ParsedUri := mkUri {
  u_scheme : string;
  u_userinfo : string;
  u_host : string;
  u_port : option Z;
  u_query : list (string * string);
  u_fragment : option string
}.

(** [ParsedUri::get] *)
Definition uri_get (u : ParsedUri) (key : string) : option string :=
  snd <$> List.find (fun kv => String.eqb kv.1 key) (u_query u).

Definition hex_val (b : Z) : option Z :=
  if in_range 48 57 b then Some (b - 48)
  else if in_range 97 102 b then Some (b - 97 + 10)
  else if in_range 65 70 b then Some (b - 65 + 10)
  else None.

(** The loop of [percent_decode]. *)
Fixpoint percent_bytes (l : list Z) : list Z :=
  match l with
  | [] => []
  | b :: t =>
      match t with
      | h :: lo :: rest =>
          if b =? 37 then
            match hex_val h, hex_val lo with
            | Some hi, Some l' => Z.lor (Z.shiftl hi 4) l' :: percent_bytes rest
            | _, _ => b :: percent_bytes t
            end
          else b :: percent_bytes t
      | _ => b :: percent_bytes t
      end
  end.

Definition percent_decode (s : string) : string :=
  string_of_bytes (utf8_lossy (percent_bytes (bytes_of_string s))).

Definition parse_pair (pair : string) : string * string :=
  match split_once "=" pair with
  | Some (k, v) => (k, percent_decode v)
  | None => (pair, EmptyString)
  end.

Definition parse_query (q : string) : list (string * string) :=
  if is_empty_str q then []
  else map parse_pair (List.filter (fun p => negb (is_empty_str p)) (split_on "&" q)).

Definition split_host_port (hostport : string) : option (string * option Z) :=
  if is_empty_str hostport then None else
  match strip_prefix "[" hostport with
  | Some rest =>
      '(host, tail) ← split_once "]" rest;
      match strip_prefix ":" tail with
      | Some p => port ← parse_u16 p; Some (host, Some port)
      | None => if is_empty_str tail then Some (host, None) else None
      end
  | None =>
      match rsplit_once ":" hostport with
      | Some (h, p) =>
          if is_empty_str h || is_empty_str p then None
          else if contains h ":" then None
          else port ← parse_u16 p; Some (h, Some port)
      | None => Some (hostport, None)
      end
  end.

(** [uri::parse] *)
Definition parse_uri (uri : string) : option ParsedUri :=
  if (4096 <? Z.of_nat (String.length uri)) || is_empty_str uri then None else
  '(scheme, rest) ← split_once "://" uri;
  if is_empty_str scheme || negb (all_chars (fun c => is_alnum c || Ascii.eqb c "-") scheme) then None
  else
  let '(before_frag, fragment) :=
    match split_once "#" rest with
    | Some (b, f) => (b, Some (percent_decode f))
    | None => (rest, None)
    end in
  let '(before_query, query) :=
    match split_once "?" before_frag with
    | Some (b, q) => (b, parse_query q)
    | None => (before_frag, [])
    end in
  let '(userinfo, hostport) :=
    match split_once "@" before_query with
    | Some (u, h) => (percent_decode u, h)
    | None => (EmptyString, before_query)
    end in
  '(host, port) ← split_host_port hostport;
  if is_empty_str host then None
  else Some (mkUri (to_ascii_lowercase scheme) userinfo host port query fragment).

(** ** Profiles *)

Definition protocol_name (p : Protocol) : string := match p with Vless => "vless" end.

Definition protocol_from_scheme (scheme : string) : option Protocol :=
  if String.eqb (to_ascii_lowercase (utrim scheme)) "vless" then Some Vless else None.

Definition transport_name (t : Transport) : string :=
  match t with
  | Tcp => "tcp"
  | WebSocket _ _ => "ws"
  | Grpc _ => "grpc"
  | HttpUpgrade _ _ => "httpupgrade"
  | Xhttp _ _ _ _ => "xhttp"
  end.

Definition security_name (s : Security) : string :=
  match s with SecurityNone => "none" | Tls => "tls" | Reality => "reality" end.

(** [VpnProfile::endpoint] *)
Definition endpoint (p : VpnProfile) : string :=
  if contains (server p) ":" && negb (starts_with (server p) "[")
  then "[" +:+ server p +:+ "]:" +:+ pretty (port p)
  else server p +:+ ":" +:+ pretty (port p).

(** FNV-1a on 64 bits *)
Definition stable_id (protocol : Protocol) (server : string) (port : Z) (transport : Transport)
    (security : Security) : string :=
  let canonical :=
    protocol_name protocol +:+ "|" +:+ to_ascii_lowercase (utrim server) +:+ "|" +:+
    pretty port +:+ "|" +:+ transport_name transport +:+ "|" +:+ security_name security in
  show_hex_n 16 (fold_left fnv64_step (bytes_of_string canonical) 0xcbf29ce484222325).

(** ** Lines *)

Definition valid_label (l : string) : bool :=
  (Z.of_nat (String.length l) <=? 63) && negb (starts_with l "-") && negb (ends_with l "-").

Definition valid_host (host : string) : bool :=
  let h := utrim host in
  if is_empty_str h || (253 <? Z.of_nat (String.length h)) then false else
  match parse_ip h with
  | Some _ => true
  | None =>
      let lower := to_ascii_lowercase h in
      if negb (all_chars (fun c => is_alnum c || Ascii.eqb c "." || Ascii.eqb c "-") lower) then false
      else
      let labels := List.filter (fun l => negb (is_empty_str l)) (split_on "." lower) in
      match labels with
      | [] => false
      | _ => (len labels <=? 4) && forallb valid_label labels
      end
  end.

(** [uri.get(k).filter(|s| !s.is_empty())] *)
Definition nonempty (o : option string) : option string :=
  match o with Some s => if is_empty_str s then None else Some s | None => None end.

(** The path of a transport that has one. *)
Definition transport_path (u : ParsedUri) (kind : string) : string + string :=
  let path := default "/"%string (uri_get u "path") in
  if starts_with path "/" then inr path else inl (kind +:+ " path must start with '/'").

Definition is_one_of (s : string) (l : list string) : bool := existsb (String.eqb s) l.

(** The [match uri.get("type")] of [parse_line]. *)
Definition parse_transport (u : ParsedUri) : string + Transport :=
  let ty := default "tcp"%string (uri_get u "type") in
  let host := nonempty (uri_get u "host") in
  if is_one_of ty ["tcp"; EmptyString]%string then inr Tcp
  else if is_one_of ty ["ws"; "websocket"]%string then
    match transport_path u "ws" with inl e => inl e | inr path => inr (WebSocket path host) end
  else if is_one_of ty ["grpc"]%string then
    inr (Grpc (default EmptyString (uri_get u "serviceName")))
  else if is_one_of ty ["httpupgrade"; "http_upgrade"]%string then
    match transport_path u "httpupgrade" with
    | inl e => inl e
    | inr path => inr (HttpUpgrade path host)
    end
  else if is_one_of ty ["xhttp"; "splithttp"; "split_http"]%string then
    match transport_path u "xhttp" with
    | inl e => inl e
    | inr path => inr (Xhttp path host (nonempty (uri_get u "mode")) (nonempty (uri_get u "extra")))
    end
  else inl ("unsupported transport type '" +:+ ty +:+ "'").

Definition parse_security (u : ParsedUri) : string + Security :=
  let s := default "none"%string (uri_get u "security") in
  if is_one_of s ["none"; EmptyString; "false"]%string then inr SecurityNone
  else if is_one_of s ["tls"]%string then inr Tls
  else if is_one_of s ["reality"]%string then inr Reality
  else inl ("unsupported security '" +:+ s +:+ "'").

(** The host header of a transport. *)
Definition transport_host (t : Transport) : option string :=
  match t with
  | WebSocket _ host | HttpUpgrade _ host | Xhttp _ host _ _ => nonempty host
  | _ => None
  end.

Definition parse_sni (u : ParsedUri) (t : Transport) : option string :=
  match nonempty (uri_get u "sni") with Some s => Some s | None => transport_host t end.

(** The certificate pins, rejected as a whole when one is malformed. *)
Definition parse_pins (u : ParsedUri) : string + option string :=
  let raw := match uri_get u "pinSHA256" with
             | Some s => Some s
             | None => uri_get u "pinnedPeerCertSha256"
             end in
  match nonempty raw with
  | None => inr None
  | Some s =>
      let parts := map utrim (split_on "," s) in
      if forallb (fun p => (Z.of_nat (String.length p) =? 64) && all_chars is_hexdigit p) parts
      then inr (Some (join_with "," parts))
      else inl ("invalid certificate pin sha256: " +:+ s)
  end.

Definition is_content (line : string) : bool :=
  negb (is_empty_str line) && negb (starts_with line "#").

Definition sum_bind {E A B} (m : E + A) (k : A -> E + B) : E + B :=
  match m with inl e => inl e | inr a => k a end.
#[local] Notation "'let?' x ':=' m 'in' k" := (sum_bind m (fun x => k))
  (at level 10, x name, m at level 100, k at level 200).

(** [opt.ok_or_else(|| e)?] *)
Definition ok_or {E A} (o : option A) (e : E) : E + A :=
  match o with Some a => inr a | None => inl e end.

Definition guard_or {E} (b : bool) (e : E) : E + () := if b then inr () else inl e.

Definition parse_line (line source : string) (source_ts_ms : Z) : string + VpnProfile :=
  let line := utrim line in
  let? _ := guard_or (is_content line) "empty or comment"%string in
  let? uri := ok_or (parse_uri line) "malformed URI"%string in
  let? protocol := ok_or (protocol_from_scheme (u_scheme uri))
                     ("unsupported scheme '" +:+ u_scheme uri +:+ "'") in
  let? _ := guard_or (valid_host (u_host uri)) ("invalid host '" +:+ u_host uri +:+ "'") in
  let? port := ok_or (match u_port uri with
                      | Some p => if 0 <? p then Some p else None
                      | None => None
                      end) "missing or invalid port"%string in
  let uuid := utrim (u_userinfo uri) in
  let? _ := guard_or (negb (is_empty_str uuid || (Z.of_nat (String.length uuid) <? 8)))
              "missing or too-short credential"%string in
  let? transport := parse_transport uri in
  let? security := parse_security uri in
  let sni := parse_sni uri transport in
  let? _ := guard_or (match security, sni with
                      | SecurityNone, _ | _, Some _ => true
                      | _, None => false
                      end) "TLS/reality requires a non-empty sni"%string in
  let? pins := parse_pins uri in
  let label := default EmptyString (u_fragment uri) in
  let label := if is_empty_str (utrim label) then u_host uri else label in
  inr (mkProfile (stable_id protocol (u_host uri) port transport security) protocol (u_host uri)
         port transport security sni (nonempty (uri_get uri "pbk")) (nonempty (uri_get uri "sid"))
         (nonempty (uri_get uri "flow")) uuid (nonempty (uri_get uri "fp")) pins label source
         source_ts_ms).

(** ** Subscriptions *)

Record RejectedProfile := mkRejected { rj_line : string; rj_reason : string }.

Record ImportResult := mkImport {
  im_profiles : list VpnProfile;
  im_rejected : list RejectedProfile;
  im_duplicates_skipped : Z
}.

(** U+2026 *)
Definition ellipsis : string := string_of_bytes [0xe2; 0x80; 0xa6].

Definition truncate (s : string) (n : Z) : string :=
  let out := take_chars n s in
  if n <? char_count s then out +:+ ellipsis else out.

(** One turn of the import loop; the set of seen ids is that of the profiles kept. *)
Definition import_line (source : string) (ts : Z) (r : ImportResult) (line : string) : ImportResult :=
  let line := utrim line in
  if negb (is_content line) then r else
  match parse_line line source ts with
  | inr p =>
      if existsb (fun q => String.eqb (profile_id q) (profile_id p)) (im_profiles r)
      then mkImport (im_profiles r) (im_rejected r) (im_duplicates_skipped r + 1)
      else mkImport (im_profiles r ++ [p]) (im_rejected r) (im_duplicates_skipped r)
  | inl reason =>
      mkImport (im_profiles r) (im_rejected r ++ [mkRejected (truncate line 120) reason])
        (im_duplicates_skipped r)
  end.

Definition by_id (a b : VpnProfile) : comparison := String.compare (profile_id a) (profile_id b).

Definition import_subscription (body source : string) (ts : Z) : ImportResult :=
  let r := fold_left (import_line source ts) (lines body) (mkImport [] [] 0) in
  mkImport (sort_by by_id (im_profiles r)) (im_rejected r) (im_duplicates_skipped r).

(** ** Percent-encoding *)

Definition unreserved (c : ascii) : bool :=
  is_alnum c || Ascii.eqb c "-" || Ascii.eqb c "." || Ascii.eqb c "_" || Ascii.eqb c "~".

Definition url_char (c : ascii) : bool := unreserved c || Ascii.eqb c "%".

Definition encode_char (c : ascii) : string :=
  if unreserved c then String c EmptyString
  else String "%" (show_hex_n 2 (byte_of c)).

Fixpoint percent_encode (s : string) : string :=
  match s with
  | EmptyString => EmptyString
  | String c s => encode_char c +:+ percent_encode s
  end.

Lemma bytes_of_string_app s t :
  bytes_of_string (s +:+ t) = bytes_of_string s ++ bytes_of_string t.
Proof. induction s as [|c s IH]; [done|]. rewrite string_app_cons. cbn. by rewrite IH. Qed.

Lemma percent_bytes_plain b t : b <> 37 -> percent_bytes (b :: t) = b :: percent_bytes t.
Proof.
  intros Hb%Z.eqb_neq. cbn [percent_bytes]. destruct t as [|h [|lo rest]]; [done..|].
  by rewrite Hb.
Qed.

Lemma percent_bytes_encoded c t :
  percent_bytes (bytes_of_string (encode_char c) ++ t) = byte_of c :: percent_bytes t.
Proof.
  unfold encode_char. destruct (unreserved c) eqn:E.
  - cbn [bytes_of_string app]. apply percent_bytes_plain.
    destruct c as [[] [] [] [] [] [] [] []]; try done; discriminate.
  - destruct c as [[] [] [] [] [] [] [] []]; first [discriminate E | reflexivity].
Qed.

Lemma percent_bytes_encode s :
  percent_bytes (bytes_of_string (percent_encode s)) = bytes_of_string s.
Proof.
  induction s as [|c s IH]; [done|]. cbn [percent_encode].
  by rewrite bytes_of_string_app, percent_bytes_encoded, IH.
Qed.

Lemma percent_decode_encode s : is_text s = true -> percent_decode (percent_encode s) = s.
Proof.
  intros H. unfold percent_decode.
  by rewrite percent_bytes_encode, utf8_lossy_valid, string_of_bytes_of_string.
Qed.

Lemma encode_char_url c : all_chars url_char (encode_char c) = true.
Proof. by destruct c as [[] [] [] [] [] [] [] []]. Qed.

Lemma percent_encode_url s : all_chars url_char (percent_encode s) = true.
Proof.
  induction s as [|c s IH]; [done|]. cbn [percent_encode].
  by rewrite all_chars_app, encode_char_url, IH.
Qed.

(** ** Printed URIs *)

Definition print_pair (kv : string * string) : string := kv.1 +:+ "=" +:+ percent_encode kv.2.

Definition print_host (host : string) : string :=
  if no_char ":" host then host else "[" +:+ host +:+ "]".

Definition print_port (port : option Z) : string :=
  match port with Some p => ":" +:+ pretty p | None => EmptyString end.

Definition print_query (q : list (string * string)) : string :=
  match q with [] => EmptyString | _ => "?" +:+ join_with "&" (map print_pair q) end.

Definition print_fragment (f : option string) : string :=
  match f with Some f => "#" +:+ percent_encode f | None => EmptyString end.

Definition print_uri (u : ParsedUri) : string :=
  u_scheme u +:+ "://" +:+ percent_encode (u_userinfo u) +:+ "@" +:+ print_host (u_host u) +:+
  print_port (u_port u) +:+ print_query (u_query u) +:+ print_fragment (u_fragment u).

Definition scheme_char (c : ascii) : bool :=
  (is_alnum c || Ascii.eqb c "-") && Ascii.eqb (lower_ascii c) c.

Definition host_char (c : ascii) : bool :=
  is_alnum c || Ascii.eqb c "." || Ascii.eqb c "-" || Ascii.eqb c ":".

(** URIs that can be printed: everything that is not percent-encoded is written with
    characters that need no encoding. *)
Record uri_wf (u : ParsedUri) : Prop := {
  uw_scheme : u_scheme u <> EmptyString /\ all_chars scheme_char (u_scheme u) = true;
  uw_userinfo : is_text (u_userinfo u) = true;
  uw_host : u_host u <> EmptyString /\ all_chars host_char (u_host u) = true;
  uw_port : from_option (fun p => 0 <= p < 65536) True (u_port u);
  uw_query : Forall (fun kv => all_chars url_char kv.1 = true /\ is_text kv.2 = true) (u_query u);
  uw_fragment : from_option (fun f => is_text f = true) True (u_fragment u)
}.

Lemma split_once_pat x p a b :
  no_char x a = true -> split_once (String x p) (a +:+ String x p +:+ b) = Some (a, b).
Proof.
  induction a as [|c a IH]; intros H.
  - change (EmptyString +:+ ?t) with t. cbn [split_once].
    assert (E : strip_prefix (String x p) (String x p +:+ b) = Some b) by apply strip_prefix_app.
    rewrite string_app_cons in *. cbn [split_once]. by rewrite E.
  - apply no_char_cons in H as [Hc H]. rewrite string_app_cons. cbn [split_once strip_prefix].
    by rewrite Ascii.eqb_sym, Hc, IH.
Qed.

Lemma url_no x s : url_char x = false -> all_chars url_char s = true -> no_char x s = true.
Proof. apply all_chars_no_char. Qed.

Lemma print_pair_chars kv :
  all_chars url_char kv.1 = true ->
  no_char "&" (print_pair kv) = true /\ no_char "#" (print_pair kv) = true.
Proof.
  intros H. unfold print_pair. pose proof (percent_encode_url kv.2).
  split; rewrite !no_char_app, (url_no _ kv.1), (url_no _ (percent_encode kv.2)); done.
Qed.

Lemma parse_print_pair kv :
  all_chars url_char kv.1 = true -> is_text kv.2 = true -> parse_pair (print_pair kv) = kv.
Proof.
  intros Hk Hv. unfold parse_pair, print_pair.
  change (kv.1 +:+ "=" +:+ ?t) with (kv.1 +:+ String "=" t).
  rewrite split_once_sep by (by apply url_no). rewrite percent_decode_encode by done.
  by destruct kv.
Qed.

Definition query_wf (q : list (string * string)) : Prop :=
  Forall (fun kv => all_chars url_char kv.1 = true /\ is_text kv.2 = true) q.

Lemma print_pair_nonempty kv : is_empty_str (print_pair kv) = false.
Proof. unfold print_pair. by destruct kv.1. Qed.

Lemma parse_print_query q :
  q <> [] -> query_wf q -> parse_query (join_with "&" (map print_pair q)) = q.
Proof.
  intros Hne H. unfold parse_query.
  replace (is_empty_str (join_with "&" (map print_pair q))) with false.
  2: { destruct q as [|kv [|kv' q]]; [done|symmetry; apply print_pair_nonempty|].
       cbn [map join_with]. unfold print_pair. by destruct kv as [[] ?]. }
  rewrite split_on_join.
  - induction H as [|kv q [Hk Hv] _ IH]; [done|]. cbn [map List.filter].
    rewrite print_pair_nonempty. cbn [negb map]. rewrite parse_print_pair by done. f_equal.
    destruct q; [done|]. by apply IH.
  - by destruct q.
  - apply Forall_map. eapply Forall_impl; [exact H|]. intros kv [Hk _]. by apply print_pair_chars.
Qed.

Lemma host_no x s : host_char x = false -> all_chars host_char s = true -> no_char x s = true.
Proof. apply all_chars_no_char. Qed.

Lemma pretty_no_char x p : 0 <= p -> is_digit x = false -> no_char x (pretty p) = true.
Proof.
  intros Hp Hx. pose proof (pretty_all_digits p Hp) as H. revert H.
  induction (pretty p) as [|c s IH]; [done|]. cbn [all_digits no_char].
  intros [Hc Hs]%andb_true_iff. rewrite IH by done.
  destruct (Ascii.eqb_spec c x) as [->|]; [congruence|done].
Qed.

Lemma strip_prefix_other x s : no_char x s = true -> strip_prefix (String x EmptyString) s = None.
Proof.
  destruct s as [|c s]; [done|]. intros [Hc _]%no_char_cons. cbn [strip_prefix].
  by rewrite Ascii.eqb_sym, Hc.
Qed.

Lemma parse_print_port p : 0 <= p < 65536 -> parse_u16 (pretty p) = Some p.
Proof. intros. apply parse_radix_pretty. lia. Qed.

(** A host and port are read back, with brackets around hosts that contain a colon. *)
Lemma split_print_host host port :
  host <> EmptyString -> all_chars host_char host = true ->
  from_option (fun p => 0 <= p < 65536) True port ->
  split_host_port (print_host host +:+ print_port port) = Some (host, port).
Proof.
  intros Hne Hh Hp. unfold print_host. destruct (no_char ":" host) eqn:Hc.
  - assert (Hb : strip_prefix "[" (host +:+ print_port port) = None).
    { destruct host as [|c host]; [done|]. apply andb_true_iff in Hh as [Hc' _].
      rewrite string_app_cons. cbn [strip_prefix].
      destruct (Ascii.eqb_spec "[" c) as [<-|]; [discriminate|done]. }
    unfold split_host_port. rewrite Hb.
    replace (is_empty_str (host +:+ print_port port)) with false by (by destruct host).
    destruct port as [p|]; cbn [from_option print_port] in *.
    + change (":" +:+ pretty p) with (String ":" (pretty p)).
      rewrite rsplit_once_sep by (apply pretty_no_char; [lia|done]).
      replace (is_empty_str host) with false by (by destruct host).
      assert (is_empty_str (pretty p) = false) as ->
        by (pose proof (pretty_nonempty p ltac:(lia)); by destruct (pretty p)).
      cbn [orb]. rewrite contains_first by done. by rewrite parse_print_port.
    + rewrite string_app_nil_r. by rewrite rsplit_once_none.
  - rewrite !string_app_assoc. unfold split_host_port.
    change (is_empty_str ("[" +:+ ?t)) with false. cbv iota.
    change (strip_prefix "[" ("[" +:+ ?t)) with (Some t). cbv iota.
    change ("]" +:+ ?t) with (String "]" t).
    rewrite split_once_sep by (by apply host_no). cbn [mbind option_bind].
    destruct port as [p|]; cbn [from_option print_port] in *; [|done].
    change (strip_prefix ":" (":" +:+ ?t)) with (Some t). cbv iota.
    by rewrite parse_print_port.
Qed.

Lemma no_char_join x sep l :
  no_char x sep = true -> Forall (fun s => no_char x s = true) l ->
  no_char x (join_with sep l) = true.
Proof.
  intros Hs H. induction H as [|s l Hx Hl IH]; [done|]. destruct l as [|t l]; [done|].
  change (join_with sep (s :: t :: l)) with (s +:+ sep +:+ join_with sep (t :: l)).
  by rewrite !no_char_app, Hx, Hs, IH.
Qed.

Lemma no_hash_query q : query_wf q -> no_char "#" (print_query q) = true.
Proof.
  intros H. destruct q as [|kv q]; [done|]. unfold print_query. rewrite no_char_app.
  apply no_char_join; [done|]. apply Forall_map. eapply Forall_impl; [exact H|].
  intros kv' [Hk _]. by apply print_pair_chars.
Qed.

(** Characters of the part before the query. *)
Lemma no_char_authority u x :
  uri_wf u -> url_char x = false -> host_char x = false -> is_digit x = false ->
  no_char x "@[]:" = true ->
  no_char x (percent_encode (u_userinfo u) +:+ "@" +:+ print_host (u_host u) +:+
             print_port (u_port u)) = true.
Proof.
  intros [_ _ [_ Hh] Hp _ _] Hu Hx Hd Hb. pose proof (percent_encode_url (u_userinfo u)).
  apply no_char_cons in Hb as [B1 Hb]. apply no_char_cons in Hb as [B2 Hb].
  apply no_char_cons in Hb as [B3 Hb]. apply no_char_cons in Hb as [B4 _].
  assert (Hph : no_char x (print_host (u_host u)) = true).
  { unfold print_host. destruct (no_char ":" (u_host u)); [by apply host_no|].
    rewrite !no_char_app. cbn [no_char]. by rewrite B2, B3, host_no. }
  rewrite !no_char_app, (url_no x), Hph by done. cbn [no_char]. rewrite B1. cbn [andb negb].
  destruct (u_port u) as [p|]; [|done]. cbn [print_port from_option] in *.
  rewrite no_char_app. cbn [no_char]. rewrite B4, pretty_no_char; [done|lia|done].
Qed.

Lemma lower_id s : all_chars scheme_char s = true -> to_ascii_lowercase s = s.
Proof.
  unfold to_ascii_lowercase. induction s as [|c s IH]; [done|]. cbn [all_chars string_map].
  intros [Hc Hs]%andb_true_iff. unfold scheme_char in Hc. apply andb_true_iff in Hc as [_ Hc].
  apply Ascii.eqb_eq in Hc. by rewrite Hc, IH.
Qed.

Lemma split_fragment a f :
  no_char "#" a = true -> from_option (fun f => is_text f = true) True f ->
  match split_once "#" (a +:+ print_fragment f) with
  | Some (b, f) => (b, Some (percent_decode f))
  | None => (a +:+ print_fragment f, None)
  end = (a, f).
Proof.
  intros Ha Hf. destruct f as [f|]; cbn [print_fragment from_option] in *.
  - change ("#" +:+ ?t) with (String "#" t). rewrite split_once_sep by done.
    by rewrite percent_decode_encode.
  - rewrite string_app_nil_r. by rewrite split_once_none.
Qed.

Lemma split_query a q :
  no_char "?" a = true -> query_wf q ->
  match split_once "?" (a +:+ print_query q) with
  | Some (b, q) => (b, parse_query q)
  | None => (a +:+ print_query q, [])
  end = (a, q).
Proof.
  intros Ha Hq. destruct q as [|kv q]; cbn [print_query].
  - rewrite string_app_nil_r. by rewrite split_once_none.
  - change ("?" +:+ ?t) with (String "?" t). rewrite split_once_sep by done.
    by rewrite parse_print_query.
Qed.

(** Parsing inverts printing. *)
Lemma parse_print_uri u :
  uri_wf u -> Z.of_nat (String.length (print_uri u)) <= 4096 -> parse_uri (print_uri u) = Some u.
Proof.
  intros W Hlen. pose proof W as [[Hs0 Hs] Hu [Hh0 Hh] Hp Hq Hf]. unfold parse_uri.
  replace (4096 <? _) with false by (symmetry; apply Z.ltb_ge; lia).
  assert (is_empty_str (print_uri u) = false) as ->
    by (unfold print_uri; destruct (u_scheme u); done).
  cbn [orb]. unfold print_uri. set (auth := percent_encode (u_userinfo u) +:+ "@" +:+
    print_host (u_host u) +:+ print_port (u_port u)).
  replace (u_scheme u +:+ _) with (u_scheme u +:+ "://" +:+ (auth +:+ print_query (u_query u)) +:+
    print_fragment (u_fragment u)) by (unfold auth; by rewrite !string_app_assoc).
  rewrite (split_once_pat ":" "//") by (eapply all_chars_no_char; [|exact Hs]; done).
  cbn [mbind option_bind].
  replace (is_empty_str (u_scheme u)) with false by (by destruct (u_scheme u)).
  rewrite (all_chars_impl scheme_char) by (done || (by intros c [? _]%andb_true_iff)).
  cbn [orb negb].
  rewrite split_fragment, split_query; [|by apply no_char_authority|done| |done].
  2: { rewrite no_char_app, no_hash_query by done. unfold auth. by rewrite no_char_authority. }
  unfold auth. change ("@" +:+ ?t) with (String "@" t).
  rewrite split_once_sep by (apply url_no; [done|apply percent_encode_url]).
  rewrite percent_decode_encode, split_print_host by done. cbn [mbind option_bind].
  replace (is_empty_str (u_host u)) with false by (by destruct (u_host u)).
  rewrite lower_id by done. by destruct u.
Qed.

(** ** Share links *)

Definition graph (c : ascii) : bool := in_range 33 126 (byte_of c).

Lemma skip_ws_graph c s : graph c = true -> skip_ws (String c s) = None.
Proof.
  destruct c as [[] [] [] [] [] [] [] []]; intros H; first [discriminate H|clear H];
    by destruct s as [|c2 [|c3 s]].
Qed.

Lemma utrim_graph s : all_chars graph s = true -> utrim s = s.
Proof.
  intros H.
  assert (Hstart : forall s, all_chars graph s = true -> utrim_start s = s).
  { intros [|c t]; [done|]. intros [Hc _]%andb_true_iff. unfold utrim_start.
    cbn [String.length trim_start_n]. by rewrite skip_ws_graph. }
  unfold utrim. rewrite Hstart by done. induction s as [|c s IH]; [done|]. cbn [utrim_end].
  unfold all_ws. rewrite Hstart by done. cbn [is_empty_str].
  apply andb_true_iff in H as [_ H]. by rewrite IH.
Qed.

(** The parameters of a link, absent ones included. *)
Definition link_params (p : VpnProfile) : list (string * option string) :=
  let path := match transport p with
              | WebSocket path _ | HttpUpgrade path _ | Xhttp path _ _ _ => Some path
              | _ => None
              end in
  let host := match transport p with
              | WebSocket _ host | HttpUpgrade _ host | Xhttp _ host _ _ => host
              | _ => None
              end in
  let mode := match transport p with Xhttp _ _ mode _ => mode | _ => None end in
  let extra := match transport p with Xhttp _ _ _ extra => extra | _ => None end in
  let service := match transport p with Grpc s => Some s | _ => None end in
  [("type"%string, Some (transport_name (transport p))); ("path"%string, path);
   ("host"%string, host); ("mode"%string, mode); ("extra"%string, extra);
   ("serviceName"%string, service); ("security"%string, Some (security_name (security p)));
   ("sni"%string, sni p); ("flow"%string, flow p); ("pbk"%string, reality_pbk p);
   ("sid"%string, reality_sid p); ("fp"%string, fingerprint p);
   ("pinSHA256"%string, pinned_peer_cert_sha256 p)].

Definition present (l : list (string * option string)) : list (string * string) :=
  omap (fun kv => (pair kv.1) <$> kv.2) l.

Definition link_uri (p : VpnProfile) : ParsedUri :=
  mkUri "vless" (uuid p) (server p) (Some (port p)) (present (link_params p)) (Some (p_label p)).

Definition share_link (p : VpnProfile) : string := print_uri (link_uri p).

Definition param (l : list (string * option string)) (k : string) : option string :=
  match List.find (fun kv => String.eqb kv.1 k) l with Some kv => kv.2 | None => None end.

Lemma present_absent l k :
  Forall (fun kv => kv.1 <> k) l -> List.find (fun kv => String.eqb kv.1 k) (present l) = None.
Proof.
  induction 1 as [|[a o] l Ha _ IH]; [done|]. cbn [present omap list_omap fst snd] in *.
  destruct o as [v|]; [|done]. cbn. apply String.eqb_neq in Ha. by rewrite Ha.
Qed.

Lemma present_find l k :
  NoDup (map fst l) ->
  snd <$> List.find (fun kv => String.eqb kv.1 k) (present l) = param l k.
Proof.
  induction l as [|[a o] l IH]; [done|]. cbn [map fst]. intros [Ha Hl]%NoDup_cons.
  unfold param. cbn [List.find fst]. destruct (String.eqb_spec a k) as [->|Hne].
  - cbn [present omap list_omap fst snd]. destruct o as [v|]; cbn.
    + by rewrite String.eqb_refl.
    + rewrite present_absent; [done|]. apply List.Forall_forall. intros kv Hkv E.
      apply Ha. rewrite <- E. apply list_elem_of_In. by apply in_map.
  - cbn [present omap list_omap fst snd]. apply String.eqb_neq in Hne.
    destruct o as [v|]; cbn; rewrite ?Hne; by apply IH.
Qed.

Lemma link_get p k : uri_get (link_uri p) k = param (link_params p) k.
Proof.
  apply present_find. apply (bool_decide_unpack _). by vm_compute.
Qed.

(** A text parameter that is there is not empty. *)
Definition opt_text (o : option string) : Prop :=
  from_option (fun s => is_text s = true /\ s <> EmptyString) True o.

Definition path_ok (path : string) : Prop := is_text path = true /\ starts_with path "/" = true.

Definition transport_ok (t : Transport) : Prop :=
  match t with
  | Tcp => True
  | WebSocket path host | HttpUpgrade path host => path_ok path /\ opt_text host
  | Grpc s => is_text s = true
  | Xhttp path host mode extra => path_ok path /\ opt_text host /\ opt_text mode /\ opt_text extra
  end.

Definition pin_ok (s : string) : Prop := String.length s = 64%nat /\ all_chars is_hexdigit s = true.

(** A profile the runtime can use, written in normal form. *)
Record runnable (p : VpnProfile) : Prop := {
  rn_id : profile_id p =
    stable_id (protocol p) (server p) (port p) (transport p) (security p);
  rn_server : all_chars host_char (server p) = true /\ valid_host (server p) = true;
  rn_port : 0 < port p < 65536;
  rn_uuid : is_text (uuid p) = true /\ utrim (uuid p) = uuid p /\ (8 <= String.length (uuid p))%nat;
  rn_transport : transport_ok (transport p);
  rn_sni : opt_text (sni p) /\
    (sni p = None -> security p = SecurityNone /\ transport_host (transport p) = None);
  rn_texts : Forall opt_text [flow p; reality_pbk p; reality_sid p; fingerprint p];
  rn_pins : from_option (fun s => exists l, l <> [] /\ Forall pin_ok l /\ s = join_with "," l) True
              (pinned_peer_cert_sha256 p);
  rn_label : is_text (p_label p) = true /\ utrim (p_label p) <> EmptyString;
  rn_length : Z.of_nat (String.length (share_link p)) <= 4096
}.

Lemma nonempty_text o : opt_text o -> nonempty o = o.
Proof. destruct o as [s|]; [|done]. intros [_ Hs]. cbn. by destruct s. Qed.

(** Decide [is_one_of] on literals. *)
Ltac decide_names :=
  repeat match goal with
  | |- context [is_one_of ?a ?l] =>
      let b := eval vm_compute in (is_one_of a l) in change (is_one_of a l) with b
  end; cbv iota.

Lemma parse_link_transport p :
  transport_ok (transport p) -> parse_transport (link_uri p) = inr (transport p).
Proof.
  intros H. unfold parse_transport, transport_path. rewrite !link_get.
  change (param (link_params p) "type") with (Some (transport_name (transport p))).
  change (param (link_params p) "path") with
    (match transport p with
     | WebSocket path _ | HttpUpgrade path _ | Xhttp path _ _ _ => Some path
     | _ => None
     end).
  change (param (link_params p) "host") with
    (match transport p with
     | WebSocket _ host | HttpUpgrade _ host | Xhttp _ host _ _ => host
     | _ => None
     end).
  change (param (link_params p) "mode")
    with (match transport p with Xhttp _ _ mode _ => mode | _ => None end).
  change (param (link_params p) "extra")
    with (match transport p with Xhttp _ _ _ extra => extra | _ => None end).
  change (param (link_params p) "serviceName")
    with (match transport p with Grpc s => Some s | _ => None end).
  destruct (transport p); cbn [transport_ok transport_name from_option id] in *; decide_names.
  - done.
  - destruct H as [[_ Hp] Hh]. by rewrite Hp, nonempty_text.
  - done.
  - destruct H as [[_ Hp] Hh]. by rewrite Hp, nonempty_text.
  - destruct H as [[_ Hp] (Hh & Hm & He)]. by rewrite Hp, !nonempty_text.
Qed.

Lemma parse_link_security p : parse_security (link_uri p) = inr (security p).
Proof.
  unfold parse_security. rewrite link_get.
  change (param (link_params p) "security") with (Some (security_name (security p))).
  by destruct (security p).
Qed.

Lemma parse_link_sni p : runnable p -> parse_sni (link_uri p) (transport p) = sni p.
Proof.
  intros [_ _ _ _ _ [Hs Hn] _ _ _ _]. unfold parse_sni. rewrite link_get.
  change (param (link_params p) "sni") with (sni p). rewrite nonempty_text by done.
  destruct (sni p); [done|]. by apply Hn.
Qed.

Lemma hexdigit_graph c : is_hexdigit c = true -> graph c = true.
Proof. by destruct c as [[] [] [] [] [] [] [] []]. Qed.

Lemma parse_link_pins p : runnable p -> parse_pins (link_uri p) = inr (pinned_peer_cert_sha256 p).
Proof.
  intros [_ _ _ _ _ _ _ Hp _ _]. unfold parse_pins. rewrite !link_get.
  change (param (link_params p) "pinSHA256") with (pinned_peer_cert_sha256 p).
  change (param (link_params p) "pinnedPeerCertSha256") with (@None string).
  destruct (pinned_peer_cert_sha256 p) as [s|]; [|done]. destruct Hp as (l & Hne & Hl & ->).
  assert (Hx : Forall (fun s => no_char "," s = true) l).
  { eapply Forall_impl; [exact Hl|]. intros s [_ H].
    exact (all_chars_no_char is_hexdigit "," s eq_refl H). }
  assert (Ht : map utrim l = l).
  { clear -Hl. induction Hl as [|s l [_ Hs] _ IH]; [done|]. cbn. rewrite IH, utrim_graph; [done|].
    eapply all_chars_impl; [apply hexdigit_graph|done]. }
  cbn [nonempty]. assert (is_empty_str (join_with "," l) = false) as ->.
  { destruct l as [|a l]; [done|]. inversion Hl as [|? ? [Ha _] _]; subst.
    destruct a; [done|]. by destruct l. }
  rewrite (split_on_join ",") by done. rewrite Ht.
  assert (forallb (fun p => (Z.of_nat (String.length p) =? 64) && all_chars is_hexdigit p) l = true)
    as ->; [|done].
  apply forallb_forall. intros s Hs. rewrite List.Forall_forall in Hl.
  destruct (Hl s Hs) as [-> ->]. done.
Qed.

Lemma graph_is_text s : all_chars graph s = true -> is_text s = true.
Proof.
  intros H. unfold is_text, utf8_valid.
  assert (Hf : forall fuel, utf8_valid_n fuel (bytes_of_string s) = true); [|done].
  induction s as [|c s IH]; intros fuel; [by destruct fuel|].
  apply andb_true_iff in H as [Hc H]. destruct fuel as [|fuel]; [done|].
  cbn [bytes_of_string utf8_valid_n]. change (Z.of_N (N_of_ascii c)) with (byte_of c).
  assert (decode1 (byte_of c :: bytes_of_string s) = (1%nat, true)) as ->.
  { unfold decode1. unfold graph, in_range in *. by replace ((0 <=? byte_of c) && _) with true by lia. }
  cbn [andb drop]. by apply IH.
Qed.

Lemma present_wf l :
  Forall (fun kv => all_chars url_char kv.1 = true) l ->
  Forall (fun kv => from_option (fun s => is_text s = true) True kv.2) l ->
  query_wf (present l).
Proof.
  intros Hk Hv. induction l as [|[k o] l IH]; [constructor|].
  inversion_clear Hk as [|? ? Hk0 Hk']. inversion_clear Hv as [|? ? Hv0 Hv'].
  specialize (IH Hk' Hv'). cbn [present omap list_omap fst snd] in *.
  destruct o as [v|]; [by constructor|done].
Qed.

Lemma opt_text_text o : opt_text o -> from_option (fun s => is_text s = true) True o.
Proof. destruct o as [s|]; [by intros [? _]|done]. Qed.

#[local] Hint Resolve opt_text_text : balansir.

Lemma pins_text o :
  from_option (fun s => exists l, l <> [] /\ Forall pin_ok l /\ s = join_with "," l) True o ->
  from_option (fun s => is_text s = true) True o.
Proof.
  destruct o as [s|]; [|done]. intros (l & _ & Hl & ->). apply graph_is_text.
  apply all_chars_join; [done|]. eapply Forall_impl; [exact Hl|]. intros s [_ Hs].
  eapply all_chars_impl; [apply hexdigit_graph|done].
Qed.

Lemma link_query_wf p : runnable p -> query_wf (u_query (link_uri p)).
Proof.
  intros [_ _ _ _ Ht [Hs _] Htx Hp _ _]. apply present_wf; [by repeat constructor|].
  inversion_clear Htx as [|? ? T1 Htx1]. inversion_clear Htx1 as [|? ? T2 Htx2].
  inversion_clear Htx2 as [|? ? T3 Htx3]. inversion_clear Htx3 as [|? ? T4 _].
  apply pins_text in Hp. unfold link_params.
  destruct (transport p) as [|path host|svc|path host|path host mode extra];
    cbn [transport_ok path_ok] in Ht; unfold path_ok in Ht;
    repeat match goal with H : _ /\ _ |- _ => destruct H end;
    repeat constructor; cbn [snd from_option transport_name]; auto with balansir;
    by destruct (security p).
Qed.

Lemma valid_host_nonempty h : valid_host h = true -> h <> EmptyString.
Proof. by intros H ->. Qed.

Lemma link_uri_wf p : runnable p -> uri_wf (link_uri p).
Proof.
  intros R. pose proof R as [_ [Hs Hv] Hp (Hu & _) _ _ _ _ [Hl _] _]. split; cbn.
  - done.
  - done.
  - split; [by apply valid_host_nonempty|done].
  - lia.
  - by apply link_query_wf.
  - done.
Qed.

Lemma url_graph c : url_char c = true -> graph c = true.
Proof. by destruct c as [[] [] [] [] [] [] [] []]. Qed.

Lemma host_graph c : host_char c = true -> graph c = true.
Proof. by destruct c as [[] [] [] [] [] [] [] []]. Qed.

Lemma pretty_graph z : 0 <= z -> all_chars graph (pretty z) = true.
Proof.
  intros Hz. pose proof (pretty_all_digits z Hz) as H. revert H.
  induction (pretty z) as [|c s IH]; [done|]. cbn [all_digits all_chars].
  intros [Hc Hs]%andb_true_iff. rewrite IH by done.
  by destruct c as [[] [] [] [] [] [] [] []].
Qed.

Lemma print_pair_graph kv : all_chars url_char kv.1 = true -> all_chars graph (print_pair kv) = true.
Proof.
  intros H. unfold print_pair. rewrite !all_chars_app.
  rewrite (all_chars_impl url_char graph kv.1 url_graph H).
  by rewrite (all_chars_impl url_char graph _ url_graph (percent_encode_url kv.2)).
Qed.

(** A printed URI has no white space. *)
Lemma print_uri_graph u : uri_wf u -> all_chars graph (print_uri u) = true.
Proof.
  intros [[_ Hs] _ [_ Hh] Hp Hq _]. unfold print_uri, print_host.
  assert (Hsc : all_chars graph (u_scheme u) = true).
  { eapply all_chars_impl; [|exact Hs]. by intros [[] [] [] [] [] [] [] []]. }
  assert (Hho : all_chars graph (u_host u) = true)
    by (eapply all_chars_impl; [apply host_graph|done]).
  assert (Henc : forall s, all_chars graph (percent_encode s) = true)
    by (intros; eapply all_chars_impl; [apply url_graph|apply percent_encode_url]).
  assert (Hpo : all_chars graph (print_port (u_port u)) = true).
  { destruct (u_port u) as [p|]; [|done]. cbn in Hp |- *. apply pretty_graph. lia. }
  assert (Hqu : all_chars graph (print_query (u_query u)) = true).
  { destruct (u_query u) as [|kv q]; [done|]. unfold print_query. rewrite all_chars_app.
    apply all_chars_join; [done|]. apply Forall_map. eapply Forall_impl; [exact Hq|].
    intros kv' [Hk _]. by apply print_pair_graph. }
  rewrite !all_chars_app, Hsc, Henc, Hpo, Hqu. cbn [andb].
  assert (all_chars graph (print_fragment (u_fragment u)) = true) as ->
    by (destruct (u_fragment u); [apply Henc|done]).
  destruct (no_char ":" (u_host u)); rewrite ?all_chars_app, Hho; done.
Qed.

(** Import inverts export: the link of a runnable profile is read back as that
    profile. *)
Lemma parse_share_link p source ts :
  runnable p ->
  parse_line (share_link p) source ts =
  inr (mkProfile (profile_id p) (protocol p) (server p) (port p) (transport p) (security p) (sni p)
         (reality_pbk p) (reality_sid p) (flow p) (uuid p) (fingerprint p)
         (pinned_peer_cert_sha256 p) (p_label p) source ts).
Proof.
  intros R. pose proof R as [Hid [_ Hv] Hp (_ & Hut & Hul) Ht Hsni Htx _ [_ Hl] Hlen].
  pose proof (link_uri_wf p R) as W. unfold parse_line.
  rewrite utrim_graph by (by apply print_uri_graph).
  change (is_content (share_link p)) with true. cbn [guard_or sum_bind].
  unfold share_link. rewrite parse_print_uri by done. cbn [ok_or sum_bind].
  change (protocol_from_scheme (u_scheme (link_uri p))) with (Some Vless). cbn [ok_or sum_bind].
  change (u_host (link_uri p)) with (server p). rewrite Hv. cbn [guard_or sum_bind].
  change (u_port (link_uri p)) with (Some (port p)). cbv iota.
  replace (0 <? port p) with true by (symmetry; apply Z.ltb_lt; lia). cbn [ok_or sum_bind].
  change (u_userinfo (link_uri p)) with (uuid p). rewrite Hut.
  replace (negb _) with true.
  2: { symmetry. apply negb_true_iff, orb_false_iff. destruct (uuid p); [cbn in Hul; lia|].
       split; [done|]. apply Z.ltb_ge. lia. }
  cbn [guard_or sum_bind]. rewrite parse_link_transport, parse_link_security by done.
  cbn [sum_bind]. rewrite parse_link_sni, parse_link_pins by done. cbn [sum_bind].
  replace (match security p, sni p with SecurityNone, _ | _, Some _ => true | _, None => false end)
    with true.
  2: { destruct Hsni as [_ Hn]. destruct (sni p); [by destruct (security p)|].
       by destruct Hn as [-> _]. }
  cbn [guard_or sum_bind]. change (u_fragment (link_uri p)) with (Some (p_label p)).
  cbn [from_option id]. replace (is_empty_str (utrim (p_label p))) with false
    by (by destruct (utrim (p_label p))).
  rewrite !link_get. change (param (link_params p) "pbk") with (reality_pbk p).
  change (param (link_params p) "sid") with (reality_sid p).
  change (param (link_params p) "flow") with (flow p).
  change (param (link_params p) "fp") with (fingerprint p).
  inversion_clear Htx as [|? ? T1 Htx1]. inversion_clear Htx1 as [|? ? T2 Htx2].
  inversion_clear Htx2 as [|? ? T3 Htx3]. inversion_clear Htx3 as [|? ? T4 _].
  rewrite !nonempty_text by done. rewrite Hid. by destruct (protocol p).
Qed.

(** ** Subscriptions *)

Definition ids (l : list VpnProfile) : list string := map profile_id l.

(** The lines of a body that are neither empty nor comments. *)
Definition content_lines (body : string) : list string :=
  List.filter is_content (map utrim (lines body)).

Lemma known_id l id :
  existsb (fun q => String.eqb (profile_id q) id) l = true <-> In id (ids l).
Proof.
  unfold ids. rewrite existsb_exists, in_map_iff. split.
  - intros (q & Hq & E%String.eqb_eq). eauto.
  - intros (q & E & Hq). exists q. by rewrite String.eqb_eq.
Qed.

(** The state of the import after some content lines. *)
Record imported (source : string) (ts : Z) (ls : list string) (r : ImportResult) : Prop := {
  ii_ids : List.NoDup (ids (im_profiles r));
  ii_lines : forall p, In p (im_profiles r) -> exists l, In l ls /\ parse_line l source ts = inr p;
  ii_kept : forall l p, In l ls -> parse_line l source ts = inr p ->
    In (profile_id p) (ids (im_profiles r));
  ii_refused : forall l e, In l ls -> parse_line l source ts = inl e ->
    In (mkRejected (truncate l 120) e) (im_rejected r);
  ii_count : len (im_profiles r) + len (im_rejected r) + im_duplicates_skipped r = len ls
}.

Lemma ids_app l p : ids (l ++ [p]) = ids l ++ [profile_id p].
Proof. unfold ids. by rewrite map_app. Qed.

Lemma import_line_ok source ts ls r l :
  imported source ts ls r -> is_content (utrim l) = true ->
  imported source ts (ls ++ [utrim l]) (import_line source ts r l).
Proof.
  intros [H1 H2 H3 H4 H5] Hc. unfold import_line. rewrite Hc. cbn [negb].
  destruct (parse_line (utrim l) source ts) as [e|p] eqn:E.
  - split; cbn [im_profiles im_rejected im_duplicates_skipped].
    + done.
    + intros p Hp. destruct (H2 p Hp) as (l' & Hl' & ?). exists l'. split; [|done].
      apply in_app_iff. auto.
    + intros l' p [Hl'|[<-|[]]]%in_app_iff Hp; [eauto|congruence].
    + intros l' e' [Hl'|[<-|[]]]%in_app_iff He; apply in_app_iff; [eauto|].
      right. left. congruence.
    + rewrite !len_app. unfold len in *. cbn [length]. lia.
  - destruct (existsb _ _) eqn:K; split; cbn [im_profiles im_rejected im_duplicates_skipped].
    + done.
    + intros q Hq. destruct (H2 q Hq) as (l' & Hl' & ?). exists l'. split; [|done].
      apply in_app_iff. auto.
    + intros l' q [Hl'|[<-|[]]]%in_app_iff Hq; [eauto|]. apply known_id in K. congruence.
    + intros l' e' [Hl'|[<-|[]]]%in_app_iff He; [eauto|congruence].
    + rewrite len_app. unfold len in *. cbn [length]. lia.
    + rewrite ids_app. apply List.NoDup_app; [done|repeat constructor; auto|].
      intros x Hx [<-|[]]. apply known_id in Hx. congruence.
    + intros q [Hq|[<-|[]]]%in_app_iff.
      * destruct (H2 q Hq) as (l' & Hl' & ?). exists l'. split; [|done]. apply in_app_iff. auto.
      * exists (utrim l). split; [|done]. apply in_app_iff. right. by left.
    + intros l' q [Hl'|[<-|[]]]%in_app_iff Hq; rewrite ids_app; apply in_app_iff; [eauto|].
      right. left. congruence.
    + intros l' e' [Hl'|[<-|[]]]%in_app_iff He; [eauto|congruence].
    + rewrite !len_app. unfold len in *. cbn [length]. lia.
Qed.

Lemma import_lines_ok source ts ls done_ r :
  imported source ts done_ r ->
  imported source ts (done_ ++ List.filter is_content (map utrim ls))
    (fold_left (import_line source ts) ls r).
Proof.
  revert done_ r. induction ls as [|l ls IH]; intros done_ r H; cbn [map List.filter fold_left].
  { by rewrite app_nil_r. }
  destruct (is_content (utrim l)) eqn:E.
  - rewrite (cons_middle (utrim l)), app_assoc. apply IH. by apply import_line_ok.
  - replace (import_line source ts r l) with r; [by apply IH|].
    unfold import_line. by rewrite E.
Qed.

Lemma import_start source ts : imported source ts [] (mkImport [] [] 0).
Proof. split; try done. constructor. Qed.

(** Sorting keeps the profiles and orders the ids. *)
Definition ordered (l : list VpnProfile) : Prop :=
  Sorted.StronglySorted (fun a b => by_id a b <> Gt) l.

Lemma insert_by_id_ordered p l : ordered l -> ordered (insert_by by_id p l).
Proof.
  unfold ordered, by_id. induction 1 as [|q l Hl IH Hq]; cbn [insert_by]; [by repeat constructor|].
  destruct (String.compare (profile_id p) (profile_id q)) eqn:E.
  1, 2: constructor; [by constructor|]; constructor; [congruence|];
    eapply Forall_impl; [exact Hq|]; intros x Hx;
    apply (string_le_trans _ (profile_id q)); congruence.
  constructor; [done|]. apply List.Forall_forall. intros x Hx%insert_by_in.
  destruct Hx as [->|Hx]; [by apply string_le_total|]. by eapply List.Forall_forall in Hq.
Qed.

Lemma sort_by_id_ordered l : ordered (sort_by by_id l).
Proof. induction l as [|p l IH]; cbn; [constructor|]. by apply insert_by_id_ordered. Qed.

Lemma insert_by_perm {A} (cmp : A -> A -> comparison) x l : insert_by cmp x l ≡ₚ x :: l.
Proof.
  induction l as [|y l IH]; [done|]. cbn. destruct (cmp x y); [done..|]. rewrite IH. constructor.
Qed.

Lemma sort_by_perm {A} (cmp : A -> A -> comparison) l : sort_by cmp l ≡ₚ l.
Proof. induction l as [|x l IH]; [done|]. cbn. by rewrite insert_by_perm, IH. Qed.

(** What a profile needs to run. *)
Definition usable (p : VpnProfile) : Prop :=
  profile_id p = stable_id (protocol p) (server p) (port p) (transport p) (security p) /\
  valid_host (server p) = true /\ 0 < port p /\ (8 <= String.length (uuid p))%nat /\
  (security p <> SecurityNone -> is_Some (sni p)) /\
  match transport p with
  | WebSocket path _ | HttpUpgrade path _ | Xhttp path _ _ _ => starts_with path "/" = true
  | _ => True
  end.

Lemma transport_path_ok u kind path : transport_path u kind = inr path -> starts_with path "/" = true.
Proof. unfold transport_path. case_match eqn:E; [|done]. by intros [= <-]. Qed.

Lemma parse_transport_ok u t :
  parse_transport u = inr t ->
  match t with
  | WebSocket path _ | HttpUpgrade path _ | Xhttp path _ _ _ => starts_with path "/" = true
  | _ => True
  end.
Proof.
  unfold parse_transport. repeat (destruct (is_one_of _ _)); try done; try (by intros [= <-]);
    destruct (transport_path u _) eqn:E; try done; intros [= <-];
    by apply (transport_path_ok u _ _ E).
Qed.

Lemma sum_bind_inr {E A B} (m : E + A) (k : A -> E + B) b :
  sum_bind m k = inr b <-> exists a, m = inr a /\ k a = inr b.
Proof. destruct m; cbn; split; [done|by intros (? & [=] & _)|eauto|by intros (? & [= <-] & ?)]. Qed.

Lemma guard_or_inr {E} b (e : E) u : guard_or b e = inr u <-> b = true.
Proof. destruct b, u; cbn; done. Qed.

(** What the importer accepts is usable. *)
Lemma parse_line_usable l source ts p : parse_line l source ts = inr p -> usable p.
Proof.
  unfold parse_line. intros (_ & _ & H)%sum_bind_inr.
  apply sum_bind_inr in H as (u & _ & H). apply sum_bind_inr in H as (pr & _ & H).
  apply sum_bind_inr in H as (? & Hhost%guard_or_inr & H).
  apply sum_bind_inr in H as (po & Hport & H).
  apply sum_bind_inr in H as (? & Huuid%guard_or_inr & H).
  apply sum_bind_inr in H as (t & Ht & H). apply sum_bind_inr in H as (s & _ & H).
  apply sum_bind_inr in H as (? & Hsni%guard_or_inr & H).
  apply sum_bind_inr in H as (pins & _ & H). injection H as <-.
  apply negb_true_iff, orb_false_iff in Huuid as [_ Huuid%Z.ltb_ge].
  split; [done|]. cbn [server port uuid security sni transport]. split; [done|].
  split. { destruct (u_port u) as [q|]; cbn in Hport; [|done].
           destruct (0 <? q) eqn:E; [|done]. injection Hport as <-. by apply Z.ltb_lt. }
  split; [lia|]. split; [|by eapply parse_transport_ok].
  intros Hs. destruct s; [done|..]; by destruct (parse_sni u t).
Qed.

Lemma graph_no_newline s : all_chars graph s = true -> no_char newline s = true.
Proof. exact (all_chars_no_char graph newline s eq_refl). Qed.

Lemma import_links source ts ps r :
  Forall (fun p => runnable p /\ VpnPool.source p = source /\ source_ts_ms p = ts) ps ->
  List.NoDup (ids (im_profiles r) ++ ids ps) ->
  fold_left (import_line source ts) (map share_link ps) r =
  mkImport (im_profiles r ++ ps) (im_rejected r) (im_duplicates_skipped r).
Proof.
  intros H. revert r. induction H as [|p ps (R & Hs & Ht) _ IH]; intros r Hn; cbn [map fold_left].
  { rewrite app_nil_r. by destruct r. }
  assert (Hl : import_line source ts r (share_link p) =
               mkImport (im_profiles r ++ [p]) (im_rejected r) (im_duplicates_skipped r)).
  { unfold import_line. rewrite utrim_graph by (by apply print_uri_graph, link_uri_wf).
    change (is_content (share_link p)) with true. cbn [negb].
    rewrite parse_share_link by done. cbn [profile_id].
    destruct (existsb _ _) eqn:K.
    - apply known_id in K. cbn [ids map] in Hn. apply List.NoDup_remove_2 in Hn.
      exfalso. apply Hn, in_app_iff. by left.
    - do 2 f_equal. destruct p. cbn in *. congruence. }
  rewrite Hl, IH; cbn [im_profiles im_rejected im_duplicates_skipped].
  - by rewrite <- app_assoc.
  - rewrite ids_app, <- app_assoc. done.
Qed.

(** C35.  Export and import are inverse: a subscription that lists the share links of
    any runnable profiles with distinct identities - every transport and security
    layer, any UTF-8 text in credentials, paths and labels - imports to exactly those
    profiles, in the order of their ids, with nothing rejected or skipped. *)
Theorem subscription_roundtrip ps source ts :
  Forall (fun p => runnable p /\ VpnPool.source p = source /\ source_ts_ms p = ts) ps ->
  List.NoDup (ids ps) ->
  import_subscription (unlines (map share_link ps)) source ts = mkImport (sort_by by_id ps) [] 0.
Proof.
  intros H Hn. unfold import_subscription. rewrite lines_unlines.
  - by rewrite import_links.
  - apply Forall_map. eapply Forall_impl; [exact H|]. intros p (R & _).
    by apply graph_no_newline, print_uri_graph, link_uri_wf.
Qed.

(** The profiles of an import are usable and have distinct ids. *)
Lemma import_usable body source ts :
  let r := import_subscription body source ts in
  Forall usable (im_profiles r) /\ List.NoDup (ids (im_profiles r)).
Proof.
  intros r. pose proof (import_lines_ok source ts (lines body) [] _ (import_start source ts)) as H.
  unfold r, import_subscription. set (r0 := fold_left _ _ _) in *. cbn [im_profiles].
  destruct H as [H1 H2 _ _ _]. split.
  - apply List.Forall_forall. intros p Hpin%sort_by_in.
    destruct (H2 p Hpin) as (l & _ & Hl). by eapply parse_line_usable.
  - unfold ids. by rewrite sort_by_perm.
Qed.

(** Every line of a subscription is accounted for, whatever the body: the profiles
    kept are usable, distinct and sorted by id, each comes from a line, every other
    line that parses has the id of a kept one, every line that does not is among the
    rejected with its reason, and the three counts add up; the pool then takes
    exactly the kept profiles. *)
Theorem subscription_accounted body source ts pool :
  let r := import_subscription body source ts in
  let ls := content_lines body in
  Forall usable (im_profiles r) /\ List.NoDup (ids (im_profiles r)) /\ ordered (im_profiles r) /\
  (forall p, In p (im_profiles r) -> exists l, In l ls /\ parse_line l source ts = inr p) /\
  (forall l p, In l ls -> parse_line l source ts = inr p ->
     In (profile_id p) (ids (im_profiles r))) /\
  (forall l e, In l ls -> parse_line l source ts = inl e ->
     In (mkRejected (truncate l 120) e) (im_rejected r)) /\
  len (im_profiles r) + len (im_rejected r) + im_duplicates_skipped r = len ls /\
  (im_profiles r <> [] ->
     map profile (profiles (atomic_replace pool (im_profiles r)).1) = im_profiles r).
Proof.
  intros r ls. pose proof (import_lines_ok source ts (lines body) [] _ (import_start source ts)) as H.
  cbn [app] in H. fold (content_lines body) ls in H.
  unfold r, import_subscription. set (r0 := fold_left _ _ _) in *. cbn [im_profiles im_rejected
    im_duplicates_skipped]. destruct H as [H1 H2 H3 H4 H5].
  pose proof (sort_by_perm by_id (im_profiles r0)) as Hp.
  assert (Hids : ids (sort_by by_id (im_profiles r0)) ≡ₚ ids (im_profiles r0))
    by (unfold ids; by rewrite Hp).
  split; [apply (import_usable body source ts)|].
  split; [by rewrite Hids|]. split; [apply sort_by_id_ordered|].
  split; [intros p Hpin%sort_by_in; by apply H2|].
  split; [intros l p Hl Hpl; rewrite Hids; by eapply H3|]. split; [done|].
  split; [unfold len in *; by rewrite Hp|].
  intros Hne. destruct (sort_by by_id (im_profiles r0)) as [|p ps]; [done|].
  cbn [atomic_replace fst profiles]. rewrite map_map. cbn [profile]. apply map_id.
Qed.

(** The grammar of the documentation has an optional path after the port; with one, also
    the bare slash that many exporters write, the port is not a number and the URI is
    malformed. *)
Lemma path_after_port_rejected host p path :
  all_chars host_char host = true -> 0 <= p -> no_char ":" path = true ->
  split_host_port (host +:+ String ":" (pretty p +:+ String "/" path)) = None.
Proof.
  intros Hh Hp Hpath. unfold split_host_port.
  assert (Hb : strip_prefix "[" (host +:+ String ":" (pretty p +:+ String "/" path)) = None).
  { destruct host as [|c host]; [done|]. apply andb_true_iff in Hh as [Hc' _].
    rewrite string_app_cons. cbn [strip_prefix].
    destruct (Ascii.eqb_spec "[" c) as [<-|]; [discriminate|done]. }
  rewrite Hb. case_match; [done|]. rewrite rsplit_once_sep.
  2: { rewrite no_char_app, pretty_no_char by done. done. }
  repeat (case_match; [done|]). unfold parse_u16, parse_radix.
  assert (Hd : forall s acc, digits_value 10 acc (s +:+ String "/" path) = None).
  { induction s as [|c s IH]; intros acc; [done|]. rewrite string_app_cons. cbn [digits_value].
    by destruct (digit_val 10 c). }
  pose proof (pretty_nonempty p Hp) as Hn. pose proof (pretty_all_digits p Hp) as Ha.
  destruct (pretty p) as [|c s]; [done|]. rewrite string_app_cons in *.
  specialize (Hd (String c s) 0). rewrite string_app_cons in Hd. rewrite Hd.
  assert (Hc : c <> "+"%char) by (intros ->; discriminate).
  destruct c as [[] [] [] [] [] [] [] []]; try reflexivity; by destruct Hc.
Qed.

(** The host is validated without its surrounding white space and stored with it. *)
Lemma untrimmed_host_kept :
  exists p, parse_line "vless://12345678@ proxy.example :443" "s" 0 = inr p /\
            server p = " proxy.example "%string.
Proof. eexists. split; [vm_compute; reflexivity|reflexivity]. Qed.

(** Names of more than four labels are refused. *)
Lemma five_labels_rejected : valid_host "a.b.c.example.com" = false.
Proof. vm_compute. reflexivity. Qed.

Definition reality_profile : VpnProfile :=
  mkProfile (stable_id Vless "82.40.62.4" 443 Tcp Reality) Vless "82.40.62.4" 443 Tcp Reality
    (Some "www.intel.com"%string) (Some "hgQ3Wa09"%string) None (Some "xtls-rprx-vision"%string)
    "194302fe-9c53" None None "Node 1" "src" 7.

Definition ws_profile : VpnProfile :=
  let t := WebSocket "/a b?c" (Some "cdn.example"%string) in
  mkProfile (stable_id Vless "2001:db8::1" 8443 t Tls) Vless "2001:db8::1" 8443 t Tls
    (Some "cdn.example"%string) None None None "p@ss:word" (Some "chrome"%string) None "50%" "src" 7.

(** Discharge the fields of [runnable] on a concrete profile. *)
Ltac run_fields :=
  split; [reflexivity|split; reflexivity|vm_compute; split; reflexivity
         |split; [reflexivity|split; [reflexivity|apply Nat.leb_le; reflexivity]]
         |repeat (split || constructor || discriminate || (vm_compute; reflexivity))
         |split; [split; [reflexivity|discriminate]|discriminate]
         |repeat constructor; discriminate
         |repeat constructor
         |split; [reflexivity|vm_compute; discriminate]
         |vm_compute; discriminate].

Lemma subscription_roundtrip_witness :
  import_subscription (unlines (map share_link [reality_profile; ws_profile])) "src" 7 =
  mkImport (sort_by by_id [reality_profile; ws_profile]) [] 0.
Proof.
  apply (subscription_roundtrip [reality_profile; ws_profile] "src" 7).
  - constructor; [split; [run_fields|split; reflexivity]|].
    constructor; [split; [run_fields|split; reflexivity]|constructor].
  - apply (List.NoDup_cons (A := string)); [vm_compute; intros [H|[]]; discriminate H|].
    repeat constructor. intros [].
Defined.
