(* ===== verification/Errors.v ===== *)
(** * The shared error type and fallible operations on a host
      (balansir-common/src/error.rs)

    [Error] with its [Display] text, and [cmd]: an operation that runs on a host state and
    returns [Result], the state threaded through failures as well as successes. *)

From stdpp Require Import pretty.
From S2P Require Import Prelude.
#[local] Open Scope Z_scope.

Inductive DriverError :=
| ConfigInvalid (msg : string)
| StartFailed (msg : string)
| StopFailed (msg : string)
| BinaryNotFound (msg : string)
| InterfaceError (msg : string).

Inductive Error :=
| Temporary (msg : string)
| Fatal (msg : string)
| Misconfiguration (msg : string)
| UnsupportedError (msg : string)
| IpcViolation (msg : string)
| Unauthorized (uid : Z) (allowed : list Z)
| VersionMismatch (remote local : Z)
| Io (msg : string)
| Serialization (msg : string)
| PayloadTooLarge (size max : Z)
| Driver (e : DriverError).

Definition driver_error_to_string (e : DriverError) : string :=
  match e with
  | ConfigInvalid m => "Config invalid: " +:+ m
  | StartFailed m => "Start failed: " +:+ m
  | StopFailed m => "Stop failed: " +:+ m
  | BinaryNotFound m => "Binary not found: " +:+ m
  | InterfaceError m => "Interface error: " +:+ m
  end.

(** [{:?}] of a list of numbers *)
Fixpoint debug_list (l : list Z) : string :=
  match l with
  | [] => EmptyString
  | [x] => pretty x
  | x :: l => pretty x +:+ ", " +:+ debug_list l
  end.

Definition error_to_string (e : Error) : string :=
  match e with
  | Temporary m => "Temporary failure: " +:+ m
  | Fatal m => "Fatal error: " +:+ m
  | Misconfiguration m => "Invalid configuration: " +:+ m
  | UnsupportedError m => "Unsupported on this hardware: " +:+ m
  | IpcViolation m => "IPC violation: " +:+ m
  | Unauthorized uid allowed =>
      "Unauthorized: UID " +:+ pretty uid +:+ " not in allowed list [" +:+ debug_list allowed +:+ "]"
  | VersionMismatch remote local =>
      "IPC version mismatch: remote=" +:+ pretty remote +:+ ", local=" +:+ pretty local
  | Io m => "IO error: " +:+ m
  | Serialization m => "Serialization error: " +:+ m
  | PayloadTooLarge size max =>
      "Payload too large: " +:+ pretty size +:+ " bytes (max " +:+ pretty max +:+ ")"
  | Driver d => "Driver error: " +:+ driver_error_to_string d
  end.

(** ** Operations on a host *)

Definition cmd (N A : Type) : Type := N -> N * (Error + A).

#[export] Instance cmd_ret {N} : MRet (cmd N) := fun A a n => (n, inr a).
#[export] Instance cmd_bind {N} : MBind (cmd N) := fun A B f m n =>
  match m n with (n, inl e) => (n, inl e) | (n, inr a) => f a n end.

Definition throw {N A} (e : Error) : cmd N A := fun n => (n, inl e).

(** [map_err] *)
Definition map_err {N A} (f : Error -> Error) (m : cmd N A) : cmd N A := fun n =>
  match m n with (n, inl e) => (n, inl (f e)) | r => r end.

(** [.ok()] *)
Definition try_ok {N A} (m : cmd N A) : cmd N (option A) := fun n =>
  match m n with (n, inl _) => (n, inr None) | (n, inr a) => (n, inr (Some a)) end.

Lemma cmd_bind_ok {N A B} (f : A -> cmd N B) (m : cmd N A) n n' b :
  (m ≫= f) n = (n', inr b) -> exists n1 a, m n = (n1, inr a) /\ f a n1 = (n', inr b).
Proof.
  unfold mbind, cmd_bind. destruct (m n) as [n1 [e|a]] eqn:E; [discriminate|]. eauto.
Qed.

Lemma cmd_bind_err {N A B} (f : A -> cmd N B) (m : cmd N A) n n' e :
  (m ≫= f) n = (n', inl e) ->
  m n = (n', inl e) \/ exists n1 a, m n = (n1, inr a) /\ f a n1 = (n', inl e).
Proof.
  unfold mbind, cmd_bind. destruct (m n) as [n1 [e1|a]] eqn:E; [|eauto].
  intros [= -> ->]. by left.
Qed.

(** What an operation preserves, whatever it answers. *)
Definition preserves {N A} (P : N -> Prop) (m : cmd N A) : Prop :=
  forall n, P n -> P (m n).1.

Lemma preserves_bind {N A B} (P : N -> Prop) (m : cmd N A) (f : A -> cmd N B) :
  preserves P m -> (forall a, preserves P (f a)) -> preserves P (m ≫= f).
Proof.
  intros Hm Hf n Hn. specialize (Hm n Hn). unfold mbind, cmd_bind.
  destruct (m n) as [n1 [e|a]]; [done|]. by apply Hf.
Qed.

Lemma preserves_map_err {N A} (P : N -> Prop) g (m : cmd N A) :
  preserves P m -> preserves P (map_err g m).
Proof. intros Hm n Hn. specialize (Hm n Hn). unfold map_err. by destruct (m n) as [? []]. Qed.
