(* ===== verification/Nftables.v ===== *)
(** * The nftables backend (balansir-executor/src/nftables.rs)

    Rule specifications and their rendering, the commands the backend sends to [nft], and
    how it reads listings back: handles found by comment, rule ids found by tag.

    The [nft] program is the class [Nft]: what its commands do to the chains of a table and
    how it prints them.  The lemmas show that the backend's text matching is exact on
    tagged rules, so adding and removing by comment are operations on the list of rules. *)

From stdpp Require Import pretty.
From S2P Require Import Prelude Types IpText Text Errors.
#[local] Open Scope Z_scope.

(** ** Rule specifications *)

Inductive NftProto := PTcp | PUdp.

Definition proto_to_string (p : NftProto) : string :=
  match p with PTcp => "tcp" | PUdp => "udp" end.

Inductive NftVerdict :=
| VAccept
| VDrop
| VReject
| VQueue (num : Z)
| VMasquerade
| VDnat (addr port : Z).

Definition verdict_to_string (v : NftVerdict) : string :=
  match v with
  | VAccept => "accept"
  | VDrop => "drop"
  | VReject => "reject"
  | VQueue num => "queue num " +:+ pretty num +:+ " bypass"
  | VMasquerade => "masquerade"
  | VDnat addr port => "dnat to " +:+ show_v4 addr +:+ ":" +:+ pretty port
  end.

Record NftRuleSpec := mkSpec {
  ns_proto : option NftProto;
  ns_src_cidr : option string;
  ns_dst_cidr : option string;
  ns_sport : option Z;
  ns_dport : option Z;
  ns_ct_state : option string;
  ns_iifname : option string;
  ns_oifname : option string;
  ns_verdict : NftVerdict;
  ns_mark : option Z;
  ns_comment : option string;
}.

Definition NftRuleSpec_new (v : NftVerdict) : NftRuleSpec :=
  mkSpec None None None None None None None None v None None.

(** A double quote, and [format!] of a quoted string. *)
Definition dquote : ascii := "034".
Definition quoted (s : string) : string := String dquote (s +:+ String dquote EmptyString).

Definition push_addr_matcher (keyword cidr : string) : list string :=
  [if contains cidr ":" then "ip6" else "ip"; keyword; cidr]%string.

(** The arguments pushed for an optional field. *)
Definition push_opt {A} (f : A -> list string) (o : option A) : list string :=
  match o with Some a => f a | None => [] end.

Definition render (s : NftRuleSpec) : list string :=
  push_opt (fun p => ["meta"; "l4proto"; proto_to_string p]%string) (ns_proto s) ++
  push_opt (push_addr_matcher "saddr") (ns_src_cidr s) ++
  push_opt (push_addr_matcher "daddr") (ns_dst_cidr s) ++
  push_opt (fun i => ["iifname"; quoted i]%string) (ns_iifname s) ++
  push_opt (fun i => ["oifname"; quoted i]%string) (ns_oifname s) ++
  push_opt (fun p => ["th"; "sport"; pretty p]%string) (ns_sport s) ++
  push_opt (fun p => ["th"; "dport"; pretty p]%string) (ns_dport s) ++
  push_opt (fun c => ["ct"; "state"; c]%string) (ns_ct_state s) ++
  push_opt (fun m => ["meta"; "mark"; "set"; pretty m]%string) (ns_mark s) ++
  match ns_verdict s with
  | VDnat addr port => ["dnat"; "to"; show_v4 addr +:+ ":" +:+ pretty port]%string
  | v => [verdict_to_string v]
  end ++
  push_opt (fun c => ["comment"; quoted c]%string) (ns_comment s).

(** ** Reading listings *)

Definition parse_handle_for_comment (line comment : string) : option string :=
  if negb (contains line (quoted comment)) then None
  else
    match rfind_after "# handle " line with
    | Some rest =>
        let handle := trim rest in
        match handle with
        | EmptyString => None
        | _ => if all_digits handle then Some handle else None
        end
    | None => None
    end.

Fixpoint first_some {A B} (f : A -> option B) (l : list A) : option B :=
  match l with
  | [] => None
  | x :: l => match f x with Some b => Some b | None => first_some f l end
  end.

Fixpoint take_while_digits (s : string) : string :=
  match s with
  | String c s' => if is_digit c then String c (take_while_digits s') else EmptyString
  | EmptyString => EmptyString
  end.

(** The id of a listed line, if it has one. *)
Definition line_rule_id (line : string) : option Z :=
  match find_after "balansir:" line with
  | Some rest =>
      match take_while_digits rest with
      | EmptyString => None
      | digits => parse_u32 digits
      end
  | None => None
  end.

Definition is_identifier_char (c : ascii) : bool :=
  is_digit c || (let n := N_of_ascii (lower_ascii c) in (97 <=? n) && (n <=? 122))%N
  || Ascii.eqb c "_" || Ascii.eqb c "-".

Fixpoint all_chars (f : ascii -> bool) (s : string) : bool :=
  match s with EmptyString => true | String c s => f c && all_chars f s end.

(** [{:?}] of a string; the escapes of control characters are left out, the text only
    reaches a log. *)
Fixpoint debug_chars (s : string) : string :=
  match s with
  | EmptyString => EmptyString
  | String c s =>
      if Ascii.eqb c dquote || Ascii.eqb c "\" then String "\" (String c (debug_chars s))
      else String c (debug_chars s)
  end.

Definition debug_str (s : string) : string := quoted (debug_chars s).
Definition debug_opt (o : option string) : string :=
  match o with Some s => "Some(" +:+ debug_str s +:+ ")" | None => "None" end.

Definition valid_identifier (name : string) : bool :=
  match name with EmptyString => false | _ => true end &&
  (Z.of_nat (String.length name) <=? 64) && all_chars is_identifier_char name.

Definition validate_identifier {N} (name : string) : cmd N () :=
  if valid_identifier name then mret ()
  else throw (Misconfiguration ("invalid nftables identifier: " +:+ quoted (debug_chars name))).

Record NftablesBackend := mkBackend { table_name : string; chain_name : string }.

Definition NftablesBackend_new {N} (table chain : string) : cmd N NftablesBackend :=
  _ ← validate_identifier table;
  _ ← validate_identifier chain;
  mret (mkBackend table chain).

(** ** The backend's commands *)

Section Backend.
(** Running [nft]: an error when the binary is missing or cannot be started. *)
Context {N : Type} (nft : N -> list string -> N * (Error + output)) (b : NftablesBackend).

Definition run_nft (args : list string) : cmd N output := fun n => nft n args.

(** Run, and turn a failed status into the error [what: stderr]. *)
Definition nft_checked (args : list string) (what : string) : cmd N output :=
  out ← run_nft args;
  if out_success out then mret out else throw (Fatal (what +:+ ": " +:+ out_stderr out)).

Definition rule_args (spec : NftRuleSpec) : list string :=
  ["add"; "rule"; "inet"; table_name b; chain_name b]%string ++ render spec.

Definition create_if_absent (args : list string) (what : string) : cmd N () :=
  out ← run_nft args;
  if out_success out then mret ()
  else if contains (out_stderr out) "File exists" then mret ()
  else throw (Fatal ("nft create " +:+ what +:+ " failed: " +:+ out_stderr out)).

Definition policy_args (name policy : string) : list string :=
  ["chain"; "inet"; table_name b; name; "{"; "policy"; policy; ";"; "}"]%string.

Definition init : cmd N () :=
  _ ← create_if_absent ["add"; "table"; "inet"; table_name b]%string "table";
  _ ← create_if_absent
        (["add"; "chain"; "inet"; table_name b; chain_name b; "{"; "type"; "filter"; "hook";
          "forward"; "priority"; "0"; ";"; "}"]%string) "chain";
  _ ← try_ok (run_nft (policy_args (chain_name b) "accept"));
  mret ().

(** The policy is taken out of the hook arguments: the last one given, and the rest. *)
Fixpoint split_policy (args : list string) (policy : option string) (parts : list string) :
    option string * list string :=
  match args with
  | [] => (policy, parts)
  | a :: rest =>
      match rest with
      | p :: rest' =>
          if String.eqb a "policy" then split_policy rest' (Some p) parts
          else split_policy rest policy (parts ++ [a])
      | [] => (policy, parts ++ [a])
      end
  end.

Definition hook_spec (parts : list string) : string :=
  fold_left (fun spec part => spec +:+ " " +:+ part) parts "{"%string +:+ " }".

Definition ensure_hooked_chain (name : string) (hook_args : list string) : cmd N () :=
  _ ← validate_identifier name;
  let '(policy, parts) := split_policy hook_args None [] in
  _ ← create_if_absent ["add"; "chain"; "inet"; table_name b; name; hook_spec parts]%string
        "chain";
  match policy with
  | None => mret ()
  | Some pol =>
      out ← run_nft (policy_args name pol);
      if out_success out then mret ()
      else
        let e := out_stderr out in
        if negb (contains e "File exists") && negb (contains e "already has policy")
           && negb (contains e "same policy")
        then throw (Fatal ("nft chain " +:+ name +:+ " policy " +:+ pol +:+ " failed: " +:+ e))
        else mret ()
  end.

Definition add_rule_to_chain (chain : string) (spec : NftRuleSpec) : cmd N () :=
  _ ← validate_identifier chain;
  _ ← nft_checked (["add"; "rule"; "inet"; table_name b; chain]%string ++ render spec)
        ("nft add rule to " +:+ chain +:+ " failed");
  mret ().

Definition find_handle_by_comment_in_chain (chain comment : string) : cmd N (option string) :=
  _ ← validate_identifier chain;
  out ← run_nft ["-a"; "list"; "chain"; "inet"; table_name b; chain]%string;
  if out_success out then
    mret (first_some (fun line => parse_handle_for_comment line comment)
            (lines (out_stdout out)))
  else if contains (out_stderr out) "No such file or directory" then mret None
  else throw (Fatal ("nft list chain " +:+ chain +:+ " failed: " +:+ out_stderr out)).

Definition delete_args (chain handle : string) : list string :=
  ["delete"; "rule"; "inet"; table_name b; chain; "handle"; handle]%string.

Definition remove_rule_by_comment_in_chain (chain comment : string) : cmd N () :=
  _ ← validate_identifier chain;
  handle ← find_handle_by_comment_in_chain chain comment;
  match handle with
  | None => mret ()
  | Some handle =>
      _ ← nft_checked (delete_args chain handle)
            ("nft delete rule in " +:+ chain +:+ " failed");
      mret ()
  end.

Definition list_chain (chain : string) : cmd N (list string) :=
  _ ← validate_identifier chain;
  out ← nft_checked ["list"; "chain"; "inet"; table_name b; chain]%string
          ("nft list chain " +:+ chain +:+ " failed");
  mret (map trim (lines (out_stdout out))).

Definition has_comment_in_chain (chain comment : string) : cmd N bool :=
  r ← try_ok (find_handle_by_comment_in_chain chain comment);
  mret (match r with Some (Some _) => true | _ => false end).

Definition add_rule (spec : NftRuleSpec) : cmd N () :=
  _ ← nft_checked (rule_args spec) "nft add rule failed"; mret ().

Definition flush : cmd N () :=
  _ ← nft_checked ["flush"; "chain"; "inet"; table_name b; chain_name b]%string
        "nft flush failed";
  mret ().

Definition find_handle_by_comment (comment : string) : cmd N (option string) :=
  out ← nft_checked ["-a"; "list"; "chain"; "inet"; table_name b; chain_name b]%string
          "nft list failed";
  mret (first_some (fun line => parse_handle_for_comment line comment) (lines (out_stdout out))).

Definition remove_rule_by_comment (comment : string) : cmd N () :=
  handle ← find_handle_by_comment comment;
  match handle with
  | None => mret ()
  | Some handle =>
      _ ← nft_checked (delete_args (chain_name b) handle) "nft delete rule failed"; mret ()
  end.

Definition list_rules : cmd N (list string) :=
  out ← nft_checked ["list"; "chain"; "inet"; table_name b; chain_name b]%string
          "nft list failed";
  mret (map trim (List.filter (fun l => contains l "accept" || contains l "drop")
          (lines (out_stdout out)))).

Definition list_rule_ids : cmd N (list Z) :=
  out ← nft_checked ["list"; "chain"; "inet"; table_name b; chain_name b]%string
          "nft list failed";
  mret (omap line_rule_id (lines (out_stdout out))).
End Backend.

(** ** The [nft] program

    The chains of one table: the rules of a chain in order, each a handle and the arguments
    it was added with, and the policy set on it. *)

Definition nft_rule : Type := Z * list string.

Definition done (r : Error + output) : bool :=
  match r with inr out => out_success out | inl _ => false end.

(** Text that does not look like a tag of this program. *)
Definition untagged (s : string) : Prop := contains s "balansir:" = false.

Section NftSpec.
Context {N : Type} (chain_rules : N -> string -> option (list nft_rule))
  (chain_policy : N -> string -> option string) (nft_line : list string -> string).

(** [n'] is [n] with the rules of chain [c] replaced. *)
Record rules_set (c : string) (n n' : N) (rs : option (list nft_rule)) : Prop := {
  set_here : chain_rules n' c = rs;
  set_others : forall c', c' <> c -> chain_rules n' c' = chain_rules n c';
  set_policy : forall c', chain_policy n' c' = chain_policy n c';
}.

(** A line of a listing, with handles when asked for ([-a]). *)
Definition print_rule (a : bool) (r : nft_rule) : string :=
  nft_line r.2 +:+ (if a then " # handle " +:+ pretty r.1 else EmptyString).

Definition listing (a : bool) (rs : list nft_rule) (ls : list string) : Prop :=
  exists header footer,
    ls = header ++ map (print_rule a) rs ++ footer /\ Forall untagged header /\ Forall untagged footer.
End NftSpec.

(** What the program relies on: rules are appended under fresh handles and deleted by
    handle, a failed command changes nothing, an existing chain can be listed, a listing
    prints one line per rule with its comment last before the handle, and a missing chain is
    reported as such. *)
Class Nft (table : string) {N : Type} (nft : N -> list string -> N * (Error + output)) := {
  chain_rules : N -> string -> option (list nft_rule);
  chain_policy : N -> string -> option string;
  nft_line : list string -> string;
  nft_line_comment pre c :
    Forall untagged pre -> exists body, untagged body /\
      nft_line (pre ++ ["comment"; quoted c]%string) = body +:+ " comment " +:+ quoted c;
  nft_add n c spec n' r :
    nft n (["add"; "rule"; "inet"; table; c]%string ++ render spec) = (n', r) ->
    exists rs', rules_set chain_rules chain_policy c n n' rs' /\
      if done r then
        exists rs h, chain_rules n c = Some rs /\ 0 <= h /\ ~ In h (map fst rs) /\
          rs' = Some (rs ++ [(h, render spec)])
      else rs' = chain_rules n c;
  nft_delete n c h n' r :
    0 <= h -> nft n ["delete"; "rule"; "inet"; table; c; "handle"; pretty h]%string = (n', r) ->
    rules_set chain_rules chain_policy c n n'
      (if done r then List.filter (fun x => negb (x.1 =? h)) <$> chain_rules n c
       else chain_rules n c);
  nft_flush n c n' r :
    nft n ["flush"; "chain"; "inet"; table; c]%string = (n', r) ->
    rules_set chain_rules chain_policy c n n'
      (if done r then (fun _ => []) <$> chain_rules n c else chain_rules n c);
  nft_list (a : bool) n c n' r :
    nft n ((if a then ["-a"]%string else []) ++ ["list"; "chain"; "inet"; table; c]%string)
      = (n', r) ->
    n' = n /\
    match chain_rules n c with
    | Some rs => exists out, r = inr out /\ out_success out = true /\
        listing nft_line a rs (lines (out_stdout out))
    | None => exists out, r = inr out /\ out_success out = false /\
        contains (out_stderr out) "No such file or directory" = true
    end;
  nft_add_table n n' r :
    nft n ["add"; "table"; "inet"; table]%string = (n', r) ->
    forall c, chain_rules n' c = chain_rules n c /\ chain_policy n' c = chain_policy n c;
  nft_add_chain n c spec n' r :
    nft n (["add"; "chain"; "inet"; table; c]%string ++ spec) = (n', r) ->
    rules_set chain_rules chain_policy c n n'
      (if done r then Some (default [] (chain_rules n c)) else chain_rules n c) /\
    (forall out, r = inr out -> contains (out_stderr out) "File exists" = true ->
       is_Some (chain_rules n c));
  nft_set_policy n c p n' r :
    nft n ["chain"; "inet"; table; c; "{"; "policy"; p; ";"; "}"]%string = (n', r) ->
    (forall c', chain_rules n' c' = chain_rules n c') /\
    forall c', chain_policy n' c' =
      if done r && String.eqb c' c then Some p else chain_policy n c';
}.

(** ** Tagged rules *)

(** Tags are written without spaces and quotes. *)
Definition plain (t : string) : bool := no_char dquote t && no_char " " t.

(** A rule that carries the comment [balansir:<t>]. *)
Definition tagged (args : list string) (t : string) : Prop :=
  plain t = true /\
  exists pre, args = pre ++ ["comment"; quoted ("balansir:" +:+ t)]%string /\ Forall untagged pre.

(** The rule's comment, as its last argument. *)
Definition has_tag (comment : string) (r : nft_rule) : bool :=
  match rev r.2 with
  | q :: k :: _ => String.eqb k "comment" && String.eqb q (quoted comment)
  | _ => false
  end.

(** The id a tag stands for. *)
Definition tag_id (t : string) : option Z :=
  match take_while_digits t with EmptyString => None | digits => parse_u32 digits end.

Lemma quoted_inj s t : quoted s = quoted t -> s = t.
Proof.
  unfold quoted. intros [= H]. revert t H. induction s as [|a s IH]; intros [|b t] H; try done.
  - injection H as _ H. by destruct t.
  - injection H as _ H. by destruct s.
  - rewrite !string_app_cons in H. injection H as -> H. by rewrite (IH t H).
Qed.

Lemma append_inj_l (p s t : string) : p +:+ s = p +:+ t -> s = t.
Proof.
  induction p as [|a p IH]; [done|]. rewrite !string_app_cons. intros [= H]. by apply IH.
Qed.

Lemma has_tag_tagged h args t t' :
  tagged args t -> has_tag ("balansir:" +:+ t') (h, args) = String.eqb t t'.
Proof.
  intros [_ (pre & -> & _)]. unfold has_tag. cbn [snd]. rewrite rev_app_distr. cbn [rev app].
  rewrite String.eqb_refl. cbn [andb].
  destruct (String.eqb t t') eqn:E.
  - apply String.eqb_eq in E as ->. by rewrite String.eqb_refl.
  - apply String.eqb_neq in E. apply String.eqb_neq. intros H. apply E.
    by apply quoted_inj, append_inj_l in H.
Qed.

Lemma no_char_digits x s : is_digit x = false -> all_digits s = true -> no_char x s = true.
Proof.
  intros Hx. induction s as [|c s IH]; intros H; [done|]. cbn [all_digits no_char] in *.
  apply andb_true_iff in H as [Hc H]. rewrite (IH H), andb_true_r.
  destruct (Ascii.eqb c x) eqn:E; [|done]. apply Ascii.eqb_eq in E as ->. congruence.
Qed.

Lemma digit_not_space c : is_digit c = true -> is_space c = false.
Proof. by destruct c as [[] [] [] [] [] [] [] []]. Qed.

Lemma trim_end_digits s : all_digits s = true -> trim_end s = s.
Proof.
  induction s as [|c s IH]; intros H; [done|]. cbn [all_digits trim_end] in *.
  apply andb_true_iff in H as [Hc H]. rewrite (IH H).
  destruct s; [by rewrite (digit_not_space c Hc)|done].
Qed.

Lemma trim_digits s : all_digits s = true -> trim s = s.
Proof.
  intros H. unfold trim. rewrite trim_end_digits by done. destruct s as [|c s]; [done|].
  cbn [all_digits trim_start] in *. apply andb_true_iff in H as [Hc _].
  by rewrite (digit_not_space c Hc).
Qed.

(** A separator that occurs once splits a text in one way. *)
Lemma only_sep x s r u t :
  no_char x s = true -> no_char x r = true ->
  s +:+ String x r = u +:+ String x t -> u = s /\ t = r.
Proof.
  revert u. induction s as [|a s IH]; intros [|b u] Hs Hr E; cbn [no_char] in *;
    rewrite ?string_app_cons in E.
  - by injection E as <-.
  - injection E as _ ->. by rewrite no_char_app in Hr; cbn [no_char] in Hr;
      rewrite Ascii.eqb_refl, andb_false_r in Hr.
  - injection E as -> _. by rewrite Ascii.eqb_refl in Hs.
  - injection E as -> E. apply andb_true_iff in Hs as [_ Hs]. by destruct (IH u Hs Hr E) as [-> ->].
Qed.

Lemma contains_quoted_then c c' rest :
  no_char dquote c = true -> no_char dquote rest = true ->
  contains (quoted c +:+ rest) (quoted c') = String.eqb c c'.
Proof.
  intros Hc Hr. destruct (String.eqb c c') eqn:E.
  - apply String.eqb_eq in E as ->. apply contains_spec. by exists EmptyString, rest.
  - apply String.eqb_neq in E. apply not_true_is_false. intros (a & b & H)%contains_spec.
    unfold quoted in H. rewrite !string_app_cons, string_app_assoc in H. destruct a as [|x a].
    + injection H as H. rewrite string_app_assoc in H.
      by destruct (only_sep _ _ _ _ _ Hc Hr H) as [-> _].
    + rewrite string_app_cons in H. injection H as _ H.
      destruct (only_sep _ _ _ _ _ Hc Hr H) as [_ <-].
      rewrite string_app_assoc, no_char_app in Hr. apply andb_true_iff in Hr as [_ Hr]. done.
Qed.

(** A pattern whose head occurs neither before a separator nor across it. *)
Lemma contains_head x p p' u w :
  no_char x p = true -> p <> EmptyString -> contains u p = false ->
  contains (u +:+ String x w) (p +:+ p') = contains w (p +:+ p').
Proof.
  intros Hx Hp. assert (Hs : forall v, strip_prefix p v = None -> strip_prefix (p +:+ p') v = None).
  { intros v Hv. destruct (strip_prefix (p +:+ p') v) as [r|] eqn:E; [|done].
    apply strip_prefix_spec in E as ->. by rewrite string_app_assoc, strip_prefix_app in Hv. }
  induction u as [|c u IH]; intros Hu.
  - change (EmptyString +:+ ?s) with s. cbn [contains]. rewrite prefix_strip, Hs; [done|].
    destruct p as [|a p]; [done|]. cbn [strip_prefix no_char] in *. by destruct (Ascii.eqb a x).
  - cbn [contains] in Hu. apply orb_false_iff in Hu as [Hc Hu]. rewrite prefix_strip in Hc.
    rewrite string_app_cons. cbn [contains].
    rewrite IH, <- (string_app_cons c u), prefix_strip, Hs; [done| |done].
    rewrite strip_prefix_sep by done. by destruct (strip_prefix p _).
Qed.

Lemma untagged_not_tagged line t : untagged line -> contains line (quoted ("balansir:" +:+ t)) = false.
Proof.
  intros H. unfold quoted. rewrite string_app_assoc.
  exact (contains_mono line (String dquote EmptyString) "balansir:" _ H).
Qed.

Section Listing.
Context {table : string} {N : Type} {nft : N -> list string -> N * (Error + output)}
  {spec : Nft table nft}.

Lemma tag_no_quote t : plain t = true -> no_char dquote ("balansir:" +:+ t) = true.
Proof. intros [H _]%andb_true_iff. by rewrite no_char_app, H. Qed.

Lemma tagged_line args t :
  tagged args t ->
  exists body, untagged body /\
    nft_line args = body +:+ String " " ("comment" +:+ String " " (quoted ("balansir:" +:+ t))).
Proof.
  intros [_ (pre & -> & Hpre)]. destruct (nft_line_comment pre ("balansir:" +:+ t) Hpre)
    as (body & Hb & ->). by exists body.
Qed.

Lemma contains_line args t t' h :
  tagged args t -> 0 <= h ->
  contains (print_rule nft_line true (h, args)) (quoted ("balansir:" +:+ t')) = String.eqb t t'.
Proof.
  intros Ht Hh. destruct (tagged_line args t Ht) as (body & Hb & E). destruct Ht as [Hp _].
  unfold print_rule. cbn [fst snd]. rewrite E.
  assert (El : forall x, (body +:+ String " " ("comment" +:+ String " " x)) +:+
      " # handle " +:+ pretty h = body +:+ String " " ("comment" +:+ String " " (x +:+
      " # handle " +:+ pretty h))) by (intros x; by rewrite string_app_assoc).
  rewrite El.
  assert (Hq : quoted ("balansir:" +:+ t') =
    String dquote "balansir:" +:+ t' +:+ String dquote EmptyString)
    by (unfold quoted; by rewrite string_app_assoc).
  rewrite Hq, (contains_head " " _ _ body) by
    (done || exact (contains_mono body (String dquote EmptyString) "balansir:" EmptyString Hb)).
  rewrite (contains_head " " _ _ "comment"), <- Hq by done.
  rewrite contains_quoted_then; [|by apply tag_no_quote|].
  - destruct (String.eqb t t') eqn:Et.
    + apply String.eqb_eq in Et as ->. by rewrite String.eqb_refl.
    + apply String.eqb_neq in Et. apply String.eqb_neq. by intros ?%append_inj_l.
  - rewrite no_char_app. by apply no_char_digits, pretty_all_digits.
Qed.

Lemma parse_handle_tagged args t t' h :
  tagged args t -> 0 <= h ->
  parse_handle_for_comment (print_rule nft_line true (h, args)) ("balansir:" +:+ t') =
    if String.eqb t t' then Some (pretty h) else None.
Proof.
  intros Ht Hh. unfold parse_handle_for_comment. rewrite (contains_line _ t) by done.
  destruct (String.eqb t t'); [|done]. cbn [negb]. unfold print_rule. cbn [fst snd].
  pose proof (pretty_all_digits h Hh) as Hd. pose proof (pretty_nonempty h Hh) as Hne.
  change (" # handle " +:+ pretty h) with (String " " (String "#" " handle " +:+ pretty h)).
  assert (El : forall x, x +:+ String " " (String "#" " handle " +:+ pretty h) =
    (x +:+ " ") +:+ String "#" " handle " +:+ pretty h) by (intros x; by rewrite string_app_assoc).
  rewrite El, rfind_after_last by (rewrite no_char_app; by apply no_char_digits).
  rewrite trim_digits by done. rewrite Hd. by destruct (pretty h).
Qed.

Lemma parse_handle_untagged line t :
  untagged line -> parse_handle_for_comment line ("balansir:" +:+ t) = None.
Proof.
  intros H. unfold parse_handle_for_comment. by rewrite (untagged_not_tagged line t H).
Qed.

Lemma take_while_digits_quote t :
  take_while_digits (t +:+ String dquote EmptyString) = take_while_digits t.
Proof.
  induction t as [|c t IH]; [done|]. rewrite string_app_cons. cbn [take_while_digits].
  by rewrite IH.
Qed.

Lemma line_rule_id_tagged h args t :
  tagged args t -> line_rule_id (print_rule nft_line false (h, args)) = tag_id t.
Proof.
  intros Ht. destruct (tagged_line args t Ht) as (body & Hb & E).
  unfold print_rule, line_rule_id. cbn [fst snd]. rewrite E, string_app_nil_r.
  rewrite find_after_sep by done. rewrite find_after_sep by done.
  change (quoted ("balansir:" +:+ t)) with
    (EmptyString +:+ String dquote (("balansir:" +:+ t) +:+ String dquote EmptyString)).
  rewrite find_after_sep by done. rewrite string_app_assoc.
  set (r := t +:+ String dquote EmptyString).
  assert (Ef : find_after "balansir:" ("balansir:" +:+ r) = Some r) by reflexivity.
  rewrite Ef. unfold r. by rewrite take_while_digits_quote.
Qed.

Lemma line_rule_id_untagged line : untagged line -> line_rule_id line = None.
Proof.
  unfold untagged, line_rule_id. rewrite contains_find. by destruct (find_after _ _).
Qed.

Lemma first_some_app {A B} (f : A -> option B) l1 l2 :
  first_some f (l1 ++ l2) =
    match first_some f l1 with Some b => Some b | None => first_some f l2 end.
Proof. induction l1 as [|x l1 IH]; [done|]. cbn. by destruct (f x). Qed.

Lemma first_some_none {A B} (f : A -> option B) l :
  Forall (fun x => f x = None) l -> first_some f l = None.
Proof. induction 1 as [|x l Hx _ IH]; [done|]. cbn. by rewrite Hx. Qed.

(** Every rule of the chain carries a tag, under handles that are numbers. *)
Definition all_tagged (rs : list nft_rule) : Prop :=
  Forall (fun r => 0 <= r.1 /\ exists t, tagged r.2 t) rs.

Lemma find_handle_listing rs ls t :
  listing nft_line true rs ls -> all_tagged rs ->
  first_some (fun line => parse_handle_for_comment line ("balansir:" +:+ t)) ls =
    (fun r => pretty r.1) <$> List.find (has_tag ("balansir:" +:+ t)) rs.
Proof.
  intros (hd & ft & -> & Hh & Hf) Hrs. rewrite first_some_app, first_some_none.
  2: { eapply Forall_impl; [exact Hh|]. intros l. apply parse_handle_untagged. }
  rewrite first_some_app, (first_some_none _ ft).
  2: { eapply Forall_impl; [exact Hf|]. intros l. apply parse_handle_untagged. }
  induction Hrs as [|[h args] rs [Hn [t' Ht']] _ IH]; [done|]. cbn [map first_some List.find].
  rewrite (parse_handle_tagged args t') by done. rewrite (has_tag_tagged h args t') by done.
  destruct (String.eqb t' t); [done|]. exact IH.
Qed.

Lemma rule_ids_listing rs ls :
  listing nft_line false rs ls -> all_tagged rs ->
  omap line_rule_id ls = omap (fun r => line_rule_id (print_rule nft_line false r)) rs.
Proof.
  intros (hd & ft & -> & Hh & Hf) _.
  assert (Hq : forall l, Forall untagged l -> omap line_rule_id l = []).
  { induction 1 as [|x l Hx _ IH]; [done|]. cbn. by rewrite (line_rule_id_untagged x Hx). }
  rewrite !omap_app, (Hq hd Hh), (Hq ft Hf), app_nil_r. cbn [app].
  induction rs as [|r rs IH]; [done|]. cbn. destruct (line_rule_id _); [by f_equal|exact IH].
Qed.
End Listing.

(** ** What the backend's operations do to the chains *)

(** Removing by comment drops the rule whose handle is found first. *)
Definition drop_tag (comment : string) (rs : list nft_rule) : list nft_rule :=
  match List.find (has_tag comment) rs with
  | Some r => List.filter (fun x => negb (x.1 =? r.1)) rs
  | None => rs
  end.

Section BackendSpec.
Context {N : Type} {nft : N -> list string -> N * (Error + output)} {b : NftablesBackend}
  {spec : Nft (table_name b) nft}.

(** The rules of chain [c] became [rs]. *)
Definition became (c : string) (n n' : N) (rs : list nft_rule) : Prop :=
  rules_set chain_rules chain_policy c n n' (Some rs).

Lemma became_same c n rs : chain_rules n c = Some rs -> became c n n rs.
Proof. by split. Qed.

Lemma nft_checked_inv args what (n n' : N) r :
  nft_checked nft args what n = (n', r) ->
  exists r0, nft n args = (n', r0) /\
    (if done r0 then exists out, r0 = inr out /\ r = inr out else exists e, r = inl e).
Proof.
  unfold nft_checked, run_nft, mbind, cmd_bind. destruct (nft n args) as [n1 [e|out]].
  - intros [= <- <-]. exists (inl e). cbn. eauto.
  - destruct (out_success out) eqn:E; intros [= <- <-]; exists (inr out); cbn; rewrite E; eauto.
Qed.

Lemma find_handle_spec n rs t :
  chain_rules n (chain_name b) = Some rs -> all_tagged rs ->
  find_handle_by_comment nft b ("balansir:" +:+ t) n =
    (n, inr ((fun r => pretty r.1) <$> List.find (has_tag ("balansir:" +:+ t)) rs)).
Proof.
  intros E Hrs. unfold find_handle_by_comment, nft_checked, run_nft, mbind, cmd_bind.
  destruct (nft n _) as [n' r] eqn:Er. pose proof (nft_list true n (chain_name b) n' r Er) as [-> H].
  rewrite E in H. destruct H as (out & -> & Hs & Hl). rewrite Hs. unfold mret, cmd_ret.
  by rewrite (find_handle_listing rs _ t Hl Hrs).
Qed.

Lemma find_handle_in_chain_spec n c rs t :
  valid_identifier c = true -> chain_rules n c = Some rs -> all_tagged rs ->
  find_handle_by_comment_in_chain nft b c ("balansir:" +:+ t) n =
    (n, inr ((fun r => pretty r.1) <$> List.find (has_tag ("balansir:" +:+ t)) rs)).
Proof.
  intros Hc E Hrs. unfold find_handle_by_comment_in_chain, validate_identifier, run_nft.
  rewrite Hc. unfold mbind, cmd_bind, mret at 1, cmd_ret at 1.
  destruct (nft n _) as [n' r] eqn:Er. pose proof (nft_list true n c n' r Er) as [-> H].
  rewrite E in H. destruct H as (out & -> & Hs & Hl). rewrite Hs. unfold mret, cmd_ret.
  by rewrite (find_handle_listing rs _ t Hl Hrs).
Qed.

(** A chain that does not exist is an empty one. *)
Lemma find_handle_no_chain n c comment :
  valid_identifier c = true -> chain_rules n c = None ->
  find_handle_by_comment_in_chain nft b c comment n = (n, inr None).
Proof.
  intros Hc E. unfold find_handle_by_comment_in_chain, validate_identifier, run_nft.
  rewrite Hc. unfold mbind, cmd_bind, mret at 1, cmd_ret at 1.
  destruct (nft n _) as [n' r] eqn:Er. pose proof (nft_list true n c n' r Er) as [-> H].
  rewrite E in H. destruct H as (out & -> & Hs & Hl). by rewrite Hs, Hl.
Qed.

Lemma delete_spec c what n n' r rs x :
  chain_rules n c = Some rs -> In x rs -> 0 <= x.1 ->
  (_ ← nft_checked nft (delete_args b c (pretty x.1)) what; mret ()) n = (n', r) ->
  became c n n'
    (match r with inr _ => List.filter (fun y => negb (y.1 =? x.1)) rs | inl _ => rs end).
Proof.
  intros E Hin Hx H. unfold mbind, cmd_bind in H.
  destruct (nft_checked _ _ _ n) as [n1 r1] eqn:Er.
  apply nft_checked_inv in Er as (r0 & Er & Hr0).
  pose proof (nft_delete n c x.1 n1 r0 Hx Er) as Hd. rewrite E in Hd. unfold became.
  destruct (done r0).
  - destruct Hr0 as (out & -> & ->). by injection H as <- <-.
  - destruct Hr0 as (e & ->). by injection H as <- <-.
Qed.

Lemma remove_in_chain_spec n c rs t n' r :
  valid_identifier c = true -> chain_rules n c = Some rs -> all_tagged rs ->
  remove_rule_by_comment_in_chain nft b c ("balansir:" +:+ t) n = (n', r) ->
  became c n n' (match r with inr _ => drop_tag ("balansir:" +:+ t) rs | inl _ => rs end) /\
  (List.find (has_tag ("balansir:" +:+ t)) rs = None -> r = inr ()).
Proof.
  intros Hc E Hrs. unfold remove_rule_by_comment_in_chain, validate_identifier. rewrite Hc.
  unfold mbind, cmd_bind, mret at 1, cmd_ret at 1.
  rewrite (find_handle_in_chain_spec n c rs t) by done. unfold drop_tag.
  destruct (List.find _ rs) as [x|] eqn:Ef; cbn [fmap option_fmap option_map].
  - intros H. split; [|done]. apply find_some in Ef as [Hin _].
    apply (delete_spec c ("nft delete rule in " +:+ c +:+ " failed")); try done.
    by eapply List.Forall_forall in Hrs as [? _].
  - intros [= <- <-]. split; [by apply became_same|done].
Qed.

Lemma remove_spec n rs t n' r :
  chain_rules n (chain_name b) = Some rs -> all_tagged rs ->
  remove_rule_by_comment nft b ("balansir:" +:+ t) n = (n', r) ->
  became (chain_name b) n n'
    (match r with inr _ => drop_tag ("balansir:" +:+ t) rs | inl _ => rs end) /\
  (List.find (has_tag ("balansir:" +:+ t)) rs = None -> r = inr ()).
Proof.
  intros E Hrs. unfold remove_rule_by_comment.
  unfold mbind, cmd_bind. rewrite (find_handle_spec n rs t) by done. unfold drop_tag.
  destruct (List.find _ rs) as [x|] eqn:Ef; cbn [fmap option_fmap option_map].
  - intros H. split; [|done]. apply find_some in Ef as [Hin _].
    apply (delete_spec (chain_name b) "nft delete rule failed"); try done.
    by eapply List.Forall_forall in Hrs as [? _].
  - intros [= <- <-]. split; [by apply became_same|done].
Qed.

(** A rule is appended under a fresh handle, or nothing happens. *)
Definition appended (rs : list nft_rule) (args : list string) (rs' : list nft_rule) : Prop :=
  exists h, 0 <= h /\ ~ In h (map fst rs) /\ rs' = rs ++ [(h, args)].

Lemma add_args_spec c sp what n n' r rs :
  chain_rules n c = Some rs ->
  (_ ← nft_checked nft (["add"; "rule"; "inet"; table_name b; c]%string ++ render sp) what;
   mret ()) n = (n', r) ->
  exists rs', became c n n' rs' /\
    match r with inr _ => appended rs (render sp) rs' | inl _ => rs' = rs end.
Proof.
  intros E H. unfold mbind, cmd_bind in H.
  destruct (nft_checked _ _ _ n) as [n1 r1] eqn:Er.
  apply nft_checked_inv in Er as (r0 & Er & Hr0).
  destruct (nft_add n c sp n1 r0 Er) as (rs' & Hset & Hrs'). destruct (done r0).
  - destruct Hr0 as (out & -> & ->). injection H as <- <-.
    destruct Hrs' as (rs0 & h & E0 & Hh & Hn & ->). rewrite E in E0. injection E0 as <-.
    eexists. split; [exact Hset|]. by exists h.
  - destruct Hr0 as (e & ->). injection H as <- <-. rewrite E in Hrs'. subst rs'.
    by exists rs.
Qed.

Lemma add_rule_spec sp n n' r rs :
  chain_rules n (chain_name b) = Some rs -> add_rule nft b sp n = (n', r) ->
  exists rs', became (chain_name b) n n' rs' /\
    match r with inr _ => appended rs (render sp) rs' | inl _ => rs' = rs end.
Proof. apply add_args_spec. Qed.

Lemma add_rule_to_chain_spec c sp n n' r rs :
  valid_identifier c = true -> chain_rules n c = Some rs ->
  add_rule_to_chain nft b c sp n = (n', r) ->
  exists rs', became c n n' rs' /\
    match r with inr _ => appended rs (render sp) rs' | inl _ => rs' = rs end.
Proof.
  intros Hc E H. unfold add_rule_to_chain, validate_identifier in H. rewrite Hc in H.
  by apply (add_args_spec c sp _ n n' r rs E H).
Qed.

Lemma list_rule_ids_spec n rs :
  chain_rules n (chain_name b) = Some rs -> all_tagged rs ->
  list_rule_ids nft b n =
    (n, inr (omap (fun r => line_rule_id (print_rule nft_line false r)) rs)).
Proof.
  intros E Hrs. unfold list_rule_ids, nft_checked, run_nft, mbind, cmd_bind.
  destruct (nft n _) as [n' r] eqn:Er.
  pose proof (nft_list false n (chain_name b) n' r Er) as [-> H].
  rewrite E in H. destruct H as (out & -> & Hs & Hl). rewrite Hs. unfold mret, cmd_ret.
  by rewrite (rule_ids_listing rs _ Hl Hrs).
Qed.

Lemma flush_spec n rs n' r :
  chain_rules n (chain_name b) = Some rs -> flush nft b n = (n', r) ->
  became (chain_name b) n n' (match r with inr _ => [] | inl _ => rs end).
Proof.
  intros E H. unfold flush, mbind, cmd_bind in H.
  destruct (nft_checked _ _ _ n) as [n1 r1] eqn:Er.
  apply nft_checked_inv in Er as (r0 & Er & Hr0).
  pose proof (nft_flush n _ n1 r0 Er) as Hd. rewrite E in Hd. unfold became.
  destruct (done r0).
  - destruct Hr0 as (out & -> & ->). by injection H as <- <-.
  - destruct Hr0 as (e & ->). by injection H as <- <-.
Qed.
End BackendSpec.

(** ** A table in memory *)

Fixpoint strip_list (p l : list string) : option (list string) :=
  match p, l with
  | [], _ => Some l
  | a :: p, x :: l => if String.eqb a x then strip_list p l else None
  | _, _ => None
  end.

Fixpoint mem_line (args : list string) : string :=
  match args with [] => EmptyString | a :: args => " " +:+ a +:+ mem_line args end.

Definition printable (r : nft_rule) : bool := (0 <=? r.1) && no_char newline (mem_line r.2).

Record mem_table := mkMem {
  mem_chains : gmap string (list nft_rule);
  mem_policies : gmap string string;
}.

Definition mem_rules (n : mem_table) (c : string) : option (list nft_rule) :=
  List.filter printable <$> mem_chains n !! c.

Definition fresh_handle (rs : list nft_rule) : Z := 1 + fold_right (fun r => Z.max r.1) 0 rs.

Definition ok_output (stdout : string) : Error + output :=
  inr (mkOutput true stdout EmptyString).
Definition failed_output (stderr : string) : Error + output :=
  inr (mkOutput false EmptyString stderr).
Definition no_such_chain : Error + output := failed_output "Error: No such file or directory".

Definition mem_set (n : mem_table) (c : string) (rs : list nft_rule) : mem_table :=
  mkMem (<[c := rs]> (mem_chains n)) (mem_policies n).

Definition mem_list (a : bool) (n : mem_table) (c : string) : Error + output :=
  match mem_rules n c with
  | None => no_such_chain
  | Some rs => ok_output (unlines ("table {"%string :: map (print_rule mem_line a) rs ++ ["}"%string]))
  end.

Definition mem_add (n : mem_table) (c : string) (args : list string) :
    mem_table * (Error + output) :=
  match mem_rules n c with
  | None => (n, no_such_chain)
  | Some rs =>
      if no_char newline (mem_line args)
      then (mem_set n c (rs ++ [(fresh_handle rs, args)]), ok_output EmptyString)
      else (n, failed_output "syntax error")
  end.

Definition mem_on (n : mem_table) (c : string) (f : list nft_rule -> list nft_rule) :
    mem_table * (Error + output) :=
  match mem_rules n c with
  | None => (n, no_such_chain)
  | Some rs => (mem_set n c (f rs), ok_output EmptyString)
  end.

(** The chain a command ends with, or is followed by. *)
Definition chain_arg (p args : list string) : option string :=
  match strip_list p args with Some [c] => Some c | _ => None end.
Definition chain_args (p args : list string) : option (string * list string) :=
  match strip_list p args with Some (c :: l) => Some (c, l) | _ => None end.

Definition mem_nft (table : string) (n : mem_table) (args : list string) :
    mem_table * (Error + output) :=
  match chain_args ["add"; "rule"; "inet"; table]%string args with
  | Some (c, rule) => mem_add n c rule
  | None =>
  match chain_args ["delete"; "rule"; "inet"; table]%string args with
  | Some (c, h) =>
      mem_on n c (List.filter (fun x => negb (String.eqb (pretty x.1) (List.last h EmptyString))))
  | None =>
  match chain_arg ["flush"; "chain"; "inet"; table]%string args with
  | Some c => mem_on n c (fun _ => [])
  | None =>
  match chain_arg ["-a"; "list"; "chain"; "inet"; table]%string args with
  | Some c => (n, mem_list true n c)
  | None =>
  match chain_arg ["list"; "chain"; "inet"; table]%string args with
  | Some c => (n, mem_list false n c)
  | None =>
  match chain_args ["add"; "chain"; "inet"; table]%string args with
  | Some (c, _) => (mem_set n c (default [] (mem_rules n c)), ok_output EmptyString)
  | None =>
  match chain_args ["chain"; "inet"; table]%string args with
  | Some (c, l) =>
      (mkMem (mem_chains n) (<[c := nth 2 l EmptyString]> (mem_policies n)), ok_output EmptyString)
  | None => (n, ok_output EmptyString)
  end end end end end end end.

Lemma mem_line_app a b : mem_line (a ++ b) = mem_line a +:+ mem_line b.
Proof.
  induction a as [|x a IH]; [done|]. cbn [mem_line app]. by rewrite IH, !string_app_assoc.
Qed.

Lemma mem_line_untagged pre : Forall untagged pre -> untagged (mem_line pre).
Proof.
  induction 1 as [|a pre Ha _ IH]; [done|]. unfold untagged in *. cbn [mem_line].
  change (" " +:+ a +:+ mem_line pre) with (EmptyString +:+ String " " (a +:+ mem_line pre)).
  rewrite contains_sep by done. change (contains EmptyString "balansir:") with false. cbn [orb].
  destruct pre as [|x pre]; cbn [mem_line] in *; [by rewrite string_app_nil_r|].
  change (" " +:+ x +:+ mem_line pre) with (String " " (x +:+ mem_line pre)) in *.
  rewrite contains_sep, Ha by done. cbn [orb].
  change (String " " (x +:+ mem_line pre)) with (EmptyString +:+ String " " (x +:+ mem_line pre)) in IH.
  rewrite contains_sep in IH by done. exact IH.
Qed.

Lemma fresh_handle_fresh rs : 0 <= fresh_handle rs /\ ~ In (fresh_handle rs) (map fst rs).
Proof.
  assert (H : forall r, In r rs -> r.1 < fresh_handle rs).
  { unfold fresh_handle. induction rs as [|x rs IH]; intros r Hr; [done|].
    destruct Hr as [<-|Hr]; cbn [fold_right]; [lia|].
    specialize (IH r Hr). lia. }
  assert (H0 : 0 <= fresh_handle rs).
  { unfold fresh_handle. clear H. induction rs as [|x rs IH]; cbn [fold_right]; lia. }
  split; [done|]. intros (r & E & Hr)%in_map_iff. specialize (H r Hr). lia.
Qed.

Lemma print_printable a r : printable r = true -> no_char newline (print_rule mem_line a r) = true.
Proof.
  unfold printable, print_rule. intros [Hh Hl]%andb_true_iff. rewrite no_char_app, Hl.
  destruct a; [|done]. rewrite no_char_app. apply no_char_digits; [done|].
  apply pretty_all_digits. lia.
Qed.

Lemma mem_rules_printable n c rs : mem_rules n c = Some rs -> Forall (fun r => printable r = true) rs.
Proof.
  unfold mem_rules. destruct (mem_chains n !! c) as [l|]; [|done]. intros [= <-].
  apply List.Forall_forall. by intros r [_ H]%filter_In.
Qed.


Lemma mem_set_rules n c rs :
  Forall (fun r => printable r = true) rs ->
  rules_set mem_rules (fun n c => mem_policies n !! c) c n (mem_set n c rs) (Some rs).
Proof.
  intros H. split; [| |done].
  - unfold mem_rules. cbn [mem_set mem_chains]. rewrite lookup_insert, decide_True by done.
    cbn. by rewrite filter_all.
  - intros c' Hc. unfold mem_rules. cbn [mem_set mem_chains]. by rewrite lookup_insert_ne.
Qed.

Lemma mem_same n c : rules_set mem_rules (fun n c => mem_policies n !! c) c n n (mem_rules n c).
Proof. by split. Qed.

Lemma mem_list_spec a n c rs :
  mem_rules n c = Some rs ->
  exists out, mem_list a n c = inr out /\ out_success out = true /\
    listing mem_line a rs (lines (out_stdout out)).
Proof.
  intros E. unfold mem_list. rewrite E. eexists. split; [reflexivity|]. split; [done|].
  cbn [out_stdout]. rewrite lines_unlines.
  - exists ["table {"%string], ["}"%string]. split; [done|]. by split; repeat constructor.
  - constructor; [done|]. apply Forall_app. split; [|by repeat constructor].
    apply mem_rules_printable in E. apply Forall_map. eapply Forall_impl; [exact E|].
    apply print_printable.
Qed.

Lemma mem_on_spec n c f r n' :
  (forall rs, Forall (fun r => printable r = true) rs ->
     Forall (fun r => printable r = true) (f rs)) ->
  mem_on n c f = (n', r) ->
  rules_set mem_rules (fun n c => mem_policies n !! c) c n n'
    (if done r then f <$> mem_rules n c else mem_rules n c).
Proof.
  intros Hf. unfold mem_on. destruct (mem_rules n c) as [rs|] eqn:E; intros [= <- <-]; cbn.
  - apply mem_set_rules, Hf. by apply (mem_rules_printable n c).
  - rewrite <- E. apply mem_same.
Qed.

Lemma filter_printable f rs :
  Forall (fun r => printable r = true) rs -> Forall (fun r => printable r = true) (List.filter f rs).
Proof.
  rewrite !List.Forall_forall. intros H r [Hr _]%filter_In. by apply H.
Qed.

Ltac mem_step :=
  cbn [app mem_nft chain_arg chain_args strip_list String.eqb Ascii.eqb Bool.eqb List.last nth];
  rewrite ?String.eqb_refl.

#[export] Instance mem_Nft table : Nft table (mem_nft table).
Proof.
  refine {| chain_rules := mem_rules; chain_policy := fun n c => mem_policies n !! c;
            nft_line := mem_line |}.
  - intros pre c Hpre. exists (mem_line pre). split; [by apply mem_line_untagged|].
    rewrite mem_line_app. cbn [mem_line]. by rewrite string_app_nil_r.
  - intros n c spec n' r. unfold mem_nft, chain_args, chain_arg. mem_step. unfold mem_add.
    destruct (mem_rules n c) as [rs|] eqn:E.
    2: { intros [= <- <-]. eexists. split; [|reflexivity]. rewrite <- E. apply mem_same. }
    destruct (no_char newline _) eqn:Hn; intros [= <- <-]; cbn [done ok_output failed_output out_success].
    2: { eexists. split; [|reflexivity]. rewrite <- E. apply mem_same. }
    destruct (fresh_handle_fresh rs) as [Hf1 Hf2].
    eexists. split; [|by exists rs, (fresh_handle rs)].
    apply mem_set_rules, Forall_app. split; [by apply (mem_rules_printable n c)|].
    constructor; [|constructor]. unfold printable. cbn [fst snd]. rewrite Hn. lia.
  - intros n c h n' r Hh. unfold mem_nft, chain_args, chain_arg. mem_step. intros H.
    apply mem_on_spec in H; [|by apply filter_printable].
    destruct (done r); [|done]. destruct (mem_rules n c) as [rs|] eqn:E; [|done].
    assert (Ef : List.filter (fun x => negb (x.1 =? h)) rs =
      List.filter (fun x => negb (String.eqb (pretty x.1) (pretty h))) rs);
      [|cbn [fmap option_fmap option_map] in *; by rewrite Ef].
    symmetry. apply filter_ext_in. intros x Hx. apply mem_rules_printable in E.
    eapply List.Forall_forall in E; [|exact Hx]. apply andb_true_iff in E as [E _]. f_equal.
    destruct (x.1 =? h) eqn:Eh.
    + replace x.1 with h by lia. apply String.eqb_refl.
    + apply String.eqb_neq. intros ?%pretty_inj; lia.
  - intros n c n' r. unfold mem_nft, chain_args, chain_arg. mem_step. intros H.
    apply mem_on_spec in H; [done|]. constructor.
  - intros a n c n' r. unfold mem_nft, chain_args, chain_arg.
    destruct a; mem_step; intros [= <- <-]; (split; [done|]);
      (destruct (mem_rules n c) as [rs|] eqn:E; [by apply mem_list_spec|]);
      unfold mem_list; rewrite E; eexists; (split; [reflexivity|by split]).
  - intros n n' r. unfold mem_nft, chain_args, chain_arg. mem_step. by intros [= <- <-].
  - intros n c spec n' r. unfold mem_nft, chain_args, chain_arg. mem_step. intros [= <- <-]. split.
    + apply mem_set_rules. destruct (mem_rules n c) as [rs|] eqn:E; [|constructor].
      by apply (mem_rules_printable n c).
    + by intros out [= <-].
  - intros n c p n' r. unfold mem_nft, chain_args, chain_arg. mem_step. intros [= <- <-]. split; [done|].
    intros c'. cbn. destruct (String.eqb c' c) eqn:E.
    + apply String.eqb_eq in E as ->. by rewrite lookup_insert, decide_True.
    + apply String.eqb_neq in E. by rewrite lookup_insert_ne.
Defined.

(** ** Creating chains *)

Section ChainSpec.
Context {N : Type} {nft : N -> list string -> N * (Error + output)} {b : NftablesBackend}
  {spec : Nft (table_name b) nft}.

(** The rules of a chain after it was made sure to exist. *)
Definition ensured (c : string) (n n' : N) : Prop :=
  rules_set chain_rules chain_policy c n n' (Some (default [] (chain_rules n c))).

Lemma create_chain_spec c rest what n n' r :
  create_if_absent nft (["add"; "chain"; "inet"; table_name b; c]%string ++ rest) what n = (n', r) ->
  match r with
  | inr _ => ensured c n n'
  | inl _ => rules_set chain_rules chain_policy c n n' (chain_rules n c)
  end.
Proof.
  unfold create_if_absent, run_nft, mbind, cmd_bind.
  destruct (nft n _) as [n1 r1] eqn:E. destruct (nft_add_chain n c rest n1 r1 E) as [Hs He].
  destruct r1 as [e|out]; [by intros [= <- <-]|]. cbn [done] in Hs.
  destruct (out_success out); [by intros [= <- <-]|].
  destruct (contains (out_stderr out) "File exists") eqn:Ef; intros [= <- <-]; [|done].
  destruct (He out eq_refl Ef) as [rs Ers]. unfold ensured. rewrite Ers in *. exact Hs.
Qed.

(** The policy an answer of [ensure_hooked_chain] stands for. *)
Definition policy_or (p : option string) (old new : option string) : Prop :=
  match p with None => new = old | Some pol => new = Some pol \/ new = old end.

Lemma ensure_hooked_spec c args n n' r :
  valid_identifier c = true -> ensure_hooked_chain nft b c args n = (n', r) ->
  (forall c', c' <> c -> chain_rules n' c' = chain_rules n c' /\ chain_policy n' c' = chain_policy n c') /\
  (chain_rules n' c = chain_rules n c \/ chain_rules n' c = Some (default [] (chain_rules n c))) /\
  (r = inr () -> chain_rules n' c = Some (default [] (chain_rules n c))) /\
  policy_or (split_policy args None []).1 (chain_policy n c) (chain_policy n' c).
Proof.
  intros Hc. unfold ensure_hooked_chain, validate_identifier. rewrite Hc.
  destruct (split_policy args None []) as [policy parts]. cbn [fst].
  unfold mbind, cmd_bind, mret at 1, cmd_ret at 1.
  destruct (create_if_absent _ _ _ n) as [n1 r1] eqn:E.
  apply (create_chain_spec c [hook_spec parts]) in E. destruct r1 as [e|[]].
  { intros [= <- <-]. destruct E as [H1 H2 H3]. split; [by split; auto|]. split; [by left|].
    split; [done|]. destruct policy; cbn; auto. }
  destruct E as [H1 H2 H3]. destruct policy as [pol|].
  2: { intros [= <- <-]. split; [by split; auto|]. split; [by right|]. split; [done|]. apply H3. }
  unfold run_nft. destruct (nft n1 _) as [n2 r2] eqn:Er.
  destruct (nft_set_policy n1 c pol n2 r2 Er) as [Hp1 Hp2]. intros H.
  assert (n' = n2) as ->.
  { destruct r2 as [e|out]; [by injection H|]. destruct (out_success out); [by injection H|].
    destruct (_ && _); by injection H. }
  split.
  { intros c' Hne. rewrite Hp1, Hp2, H2, H3 by done.
    by rewrite (proj2 (String.eqb_neq c' c) Hne), andb_false_r. }
  rewrite Hp1, H1. split; [by right|]. split; [done|]. cbn. rewrite Hp2, String.eqb_refl, H3.
  destruct (done r2); cbn; auto.
Qed.
End ChainSpec.
