(* ===== verification/Plan.v ===== *)
(** * Plans and the state diff (balansir-common: plan.rs, diff.rs, snapshot.rs)

    [StateDiff_build] compares the desired rules with the rules believed to be active
    and returns the operations that converge the one to the other.  The reference
    semantics of a plan is [apply_ops]; the theorems say when the plan is empty and
    that applying it converges.  The driver list of the desired state plays no part,
    as in the source. *)

From S2P Require Import Prelude Types.

Inductive ReconciliationOperation :=
| CreateDriver (d : DriverId)
| RemoveDriver (d : DriverId)
| RestartDriver (d : DriverId)
| UpdatePolicy (r : DesiredRule)
| RemovePolicy (id : Z)
| NoOp.

Definition is_noop (op : ReconciliationOperation) : bool :=
  match op with NoOp => true | _ => false end.

Record ReconciliationPlan := mkPlan {
  generation_before : Z;
  generation_after : Z;
  operations : list ReconciliationOperation;
}.

Definition ReconciliationPlan_new (gen_before : Z) (ops : list ReconciliationOperation) :
    ReconciliationPlan :=
  mkPlan gen_before
    (if existsb (fun op => negb (is_noop op)) ops then u64 (gen_before + 1) else gen_before) ops.

Definition plan_is_empty (p : ReconciliationPlan) : bool :=
  match operations p with
  | [] => true
  | ops => forallb is_noop ops
  end.

(** [uuid] and [created_at] are given. *)
Record PlanMetadata := mkMetadata { plan_id : Z; m_generation : Z; created_at : Z }.

Record Snapshot := mkSnap {
  s_desired : DesiredState;
  s_actual : ActualState;
  s_metadata : PlanMetadata;
}.

(** ** The diff *)

Definition find_rule (id : Z) (l : list ActualRule) : option ActualRule :=
  List.find (fun r => ar_id r =? id) l.

(** The active rule already is what is wanted. *)
Definition rule_matches (ar : ActualRule) (rule : DesiredRule) : bool :=
  bool_decide (ar_action ar = dr_action rule) && bool_decide (ar_flow ar = dr_flow rule).

Definition rule_ops (actual : list ActualRule) (rule : DesiredRule) :
    list ReconciliationOperation :=
  match find_rule (dr_id rule) actual with
  | Some ar => if rule_matches ar rule then [] else [UpdatePolicy rule]
  | None => [UpdatePolicy rule]
  end.

Definition removal_ops (desired : list DesiredRule) (ar : ActualRule) :
    list ReconciliationOperation :=
  if existsb (fun r => dr_id r =? ar_id ar) desired then [] else [RemovePolicy (ar_id ar)].

Definition StateDiff_build (desired : DesiredState) (actual : ActualState)
    (current_generation : Z) : ReconciliationPlan :=
  let ops := flat_map (rule_ops (active_rules actual)) (rules desired)
    ++ flat_map (removal_ops (rules desired)) (active_rules actual) in
  ReconciliationPlan_new current_generation (match ops with [] => [NoOp] | _ => ops end).

(** [BasicPlanner] *)
Definition build_plan : DesiredState -> ActualState -> Z -> ReconciliationPlan := StateDiff_build.

(** ** What a plan does when every step succeeds

    The mirror of an applied rule replaces every entry with its id. *)

Definition mirror_update (rule_id : option Z) (rule : DesiredRule) (l : list ActualRule) :
    list ActualRule :=
  List.filter (fun r => negb (ar_id r =? dr_id rule)) l
  ++ [mkActualRule (dr_id rule) (dr_action rule) rule_id (dr_flow rule)].

Definition mirror_remove (id : Z) (l : list ActualRule) : list ActualRule :=
  List.filter (fun r => negb (ar_id r =? id)) l.

(** [rid] gives the mechanism's handle of each installed rule. *)
Definition apply_op (rid : DesiredRule -> option Z) (l : list ActualRule)
    (op : ReconciliationOperation) : list ActualRule :=
  match op with
  | UpdatePolicy r => mirror_update (rid r) r l
  | RemovePolicy id => mirror_remove id l
  | _ => l
  end.

Definition apply_ops (rid : DesiredRule -> option Z) (ops : list ReconciliationOperation)
    (l : list ActualRule) : list ActualRule :=
  fold_left (apply_op rid) ops l.

(** ** Convergence *)

Definition converged (desired : list DesiredRule) (actual : list ActualRule) : Prop :=
  (forall r, In r desired -> exists a,
     find_rule (dr_id r) actual = Some a /\ rule_matches a r = true) /\
  (forall a, In a actual -> exists r, In r desired /\ dr_id r = ar_id a).

(** Rules that share an id ask for the same thing. *)
Definition consistent (desired : list DesiredRule) : Prop :=
  forall r r', In r desired -> In r' desired -> dr_id r = dr_id r' ->
    dr_action r = dr_action r' /\ dr_flow r = dr_flow r'.

Lemma rule_matches_iff a r :
  rule_matches a r = true <-> ar_action a = dr_action r /\ ar_flow a = dr_flow r.
Proof. unfold rule_matches. by rewrite andb_true_iff, !bool_decide_eq_true. Qed.

Lemma find_rule_filter_ne id id' l :
  id <> id' ->
  find_rule id (List.filter (fun r => negb (ar_id r =? id')) l) = find_rule id l.
Proof.
  intros Hne. unfold find_rule. induction l as [|a l IH]; [done|]. cbn [List.filter List.find].
  destruct (ar_id a =? id') eqn:E; cbn [negb List.find].
  - rewrite IH. replace (ar_id a =? id) with false by lia. reflexivity.
  - by rewrite IH.
Qed.

Lemma find_rule_filter_eq id l :
  find_rule id (List.filter (fun r => negb (ar_id r =? id)) l) = None.
Proof.
  induction l as [|a l IH]; [done|]. cbn. destruct (ar_id a =? id) eqn:E; cbn; [done|].
  by rewrite E.
Qed.

Lemma find_rule_app id l l' :
  find_rule id (l ++ l') =
    match find_rule id l with Some a => Some a | None => find_rule id l' end.
Proof.
  unfold find_rule. induction l as [|a l IH]; [done|]. cbn.
  destruct (ar_id a =? id); [done|apply IH].
Qed.

Lemma find_mirror_update id rid r l :
  find_rule id (mirror_update rid r l) =
    if id =? dr_id r then Some (mkActualRule (dr_id r) (dr_action r) rid (dr_flow r))
    else find_rule id l.
Proof.
  unfold mirror_update. rewrite find_rule_app. destruct (id =? dr_id r) eqn:E.
  - replace id with (dr_id r) by lia. rewrite find_rule_filter_eq. cbn. by rewrite Z.eqb_refl.
  - rewrite find_rule_filter_ne by lia. destruct (find_rule id l); [done|].
    cbn. by replace (dr_id r =? id) with false by lia.
Qed.

(** The two halves of the plan. *)
Definition outdated (actual : list ActualRule) (rule : DesiredRule) : bool :=
  match find_rule (dr_id rule) actual with
  | Some ar => negb (rule_matches ar rule)
  | None => true
  end.

Definition unwanted (desired : list DesiredRule) (ar : ActualRule) : bool :=
  negb (existsb (fun r => dr_id r =? ar_id ar) desired).

Lemma diff_updates actual desired :
  flat_map (rule_ops actual) desired =
    map UpdatePolicy (List.filter (outdated actual) desired).
Proof.
  induction desired as [|r l IH]; [done|]. cbn [flat_map List.filter]. rewrite IH.
  unfold rule_ops, outdated. by repeat case_match.
Qed.

Lemma diff_removals actual desired :
  flat_map (removal_ops desired) actual =
    map RemovePolicy (map ar_id (List.filter (unwanted desired) actual)).
Proof.
  induction actual as [|a l IH]; [done|]. cbn [flat_map List.filter]. rewrite IH.
  unfold removal_ops, unwanted. by case_match.
Qed.

Lemma filter_nil {A} (p : A -> bool) l :
  List.filter p l = [] <-> forall x, In x l -> p x = false.
Proof.
  induction l as [|x l IH]; cbn; [naive_solver|]. destruct (p x) eqn:E; split.
  - discriminate.
  - intros H. specialize (H x (or_introl eq_refl)). congruence.
  - rewrite IH. intros H y [->|Hy]; auto.
  - intros H. apply IH. auto.
Qed.

Lemma unwanted_false desired a :
  unwanted desired a = false <-> exists r, In r desired /\ dr_id r = ar_id a.
Proof.
  unfold unwanted. rewrite negb_false_iff, existsb_exists.
  split; intros (r & H & E); exists r; split; auto; lia.
Qed.

Lemma plan_empty_updates desired actual gen :
  plan_is_empty (StateDiff_build desired actual gen) = true <->
  List.filter (outdated (active_rules actual)) (rules desired) = [] /\
  List.filter (unwanted (rules desired)) (active_rules actual) = [].
Proof.
  unfold StateDiff_build, plan_is_empty. rewrite diff_updates, diff_removals. cbn.
  destruct (List.filter (outdated _) _); cbn; [|by split; [|intros []]].
  destruct (List.filter (unwanted _) _); cbn; [done|by split; [|intros []]].
Qed.

(** Updates leave the last rule of each id. *)
Lemma find_apply_updates rid us l id :
  (find_rule id (apply_ops rid (map UpdatePolicy us) l) = find_rule id l /\
     forall u, In u us -> dr_id u <> id) \/
  (exists u, In u us /\ dr_id u = id /\
     find_rule id (apply_ops rid (map UpdatePolicy us) l) =
       Some (mkActualRule (dr_id u) (dr_action u) (rid u) (dr_flow u))).
Proof.
  revert l. induction us as [|u us IH]; intros l; [left; by split|].
  cbn [map]. change (apply_ops rid (UpdatePolicy u :: map UpdatePolicy us) l) with
    (apply_ops rid (map UpdatePolicy us) (mirror_update (rid u) u l)).
  destruct (IH (mirror_update (rid u) u l)) as [[E H]|(v & Hv & Hid & E)].
  - rewrite E, find_mirror_update. destruct (id =? dr_id u) eqn:Eu.
    + right. exists u. repeat split; [by left|lia].
    + left. split; [done|]. intros v [<-|Hv]; [lia|auto].
  - right. exists v. repeat split; auto. by right.
Qed.

Lemma apply_updates_in rid us l a :
  In a (apply_ops rid (map UpdatePolicy us) l) ->
  In a l \/ exists u, In u us /\ dr_id u = ar_id a.
Proof.
  revert l. induction us as [|u us IH]; intros l; [by left|]. cbn [map].
  change (apply_ops rid (UpdatePolicy u :: map UpdatePolicy us) l) with
    (apply_ops rid (map UpdatePolicy us) (mirror_update (rid u) u l)).
  intros [H|(v & Hv & E)]%IH; [|right; exists v; split; [by right|done]].
  apply in_app_or in H as [H%filter_In|[<-|[]]]; [left; apply H|].
  right. exists u. split; [by left|done].
Qed.

Lemma apply_removes_eq rid ids l :
  apply_ops rid (map RemovePolicy ids) l =
    List.filter (fun a => negb (existsb (fun id => ar_id a =? id) ids)) l.
Proof.
  revert l. induction ids as [|id ids IH]; intros l.
  - cbn. induction l as [|a l IHl]; cbn; congruence.
  - cbn [map existsb]. change (apply_ops rid (RemovePolicy id :: map RemovePolicy ids) l) with
      (apply_ops rid (map RemovePolicy ids) (mirror_remove id l)).
    rewrite IH. unfold mirror_remove. induction l as [|a l IHl]; [done|]. cbn [List.filter].
    destruct (ar_id a =? id); cbn [negb orb List.filter]; rewrite <- IHl; by repeat case_match.
Qed.

Lemma find_apply_removes rid ids l id :
  ~ In id ids -> find_rule id (apply_ops rid (map RemovePolicy ids) l) = find_rule id l.
Proof.
  revert l. induction ids as [|id' ids IH]; intros l Hn; [done|]. cbn [map].
  change (apply_ops rid (RemovePolicy id' :: map RemovePolicy ids) l) with
    (apply_ops rid (map RemovePolicy ids) (mirror_remove id' l)).
  rewrite IH by (intros H; apply Hn; by right).
  apply find_rule_filter_ne. intros ->. apply Hn. by left.
Qed.

Lemma apply_ops_app rid ops ops' l :
  apply_ops rid (ops ++ ops') l = apply_ops rid ops' (apply_ops rid ops l).
Proof. apply fold_left_app. Qed.

Lemma apply_plan_halves rid desired actual gen :
  apply_ops rid (operations (StateDiff_build desired actual gen)) (active_rules actual) =
  apply_ops rid
    (map RemovePolicy (map ar_id (List.filter (unwanted (rules desired)) (active_rules actual))))
    (apply_ops rid
      (map UpdatePolicy (List.filter (outdated (active_rules actual)) (rules desired)))
      (active_rules actual)).
Proof.
  unfold StateDiff_build. cbn [operations ReconciliationPlan_new].
  rewrite diff_updates, diff_removals, <- apply_ops_app.
  set (ops := _ ++ _). by destruct ops.
Qed.

Lemma outdated_false actual r :
  outdated actual r = false <->
  exists a, find_rule (dr_id r) actual = Some a /\ rule_matches a r = true.
Proof.
  unfold outdated. destruct (find_rule (dr_id r) actual) as [a|].
  - rewrite negb_false_iff. split; [eauto|]. by intros (b & [= <-] & H).
  - split; [done|]. by intros (b & [=] & _).
Qed.

Lemma plan_empty_converged desired actual gen :
  plan_is_empty (StateDiff_build desired actual gen) = true <->
  converged (rules desired) (active_rules actual).
Proof.
  rewrite plan_empty_updates, !filter_nil. unfold converged.
  split; intros [H1 H2]; split; intros x Hx.
  - by apply outdated_false, H1.
  - by apply unwanted_false, H2.
  - by apply outdated_false, H1.
  - by apply unwanted_false, H2.
Qed.

Lemma converged_consistent desired actual : converged desired actual -> consistent desired.
Proof.
  intros [H _] r r' Hr Hr' E.
  destruct (H r Hr) as (a & Ha & Hm), (H r' Hr') as (b & Hb & Hm').
  rewrite E in Ha. rewrite Ha in Hb. injection Hb as ->.
  apply rule_matches_iff in Hm as [<- <-], Hm' as [<- <-]. done.
Qed.

(** After the updates, a wanted rule is in place. *)
Lemma updates_install rid desired actual r :
  consistent desired -> In r desired ->
  exists a,
    find_rule (dr_id r)
      (apply_ops rid (map UpdatePolicy (List.filter (outdated actual) desired)) actual) = Some a
    /\ rule_matches a r = true.
Proof.
  intros Hc Hr.
  destruct (find_apply_updates rid (List.filter (outdated actual) desired) actual (dr_id r))
    as [[E H]|(u & Hu & Hid & E)].
  - rewrite E. apply outdated_false. destruct (outdated actual r) eqn:Eo; [|done].
    exfalso. apply (H r); [by apply filter_In|done].
  - exists (mkActualRule (dr_id u) (dr_action u) (rid u) (dr_flow u)). split; [done|].
    apply filter_In in Hu as [Hu _]. apply rule_matches_iff. cbn. by apply Hc.
Qed.

(** The diff is right.  The plan is empty exactly when the actual state has
    converged; and applying the plan makes it converge exactly when the desired rules
    are consistent, that is, rules with one id agree on action and flow. *)
Theorem diff_converges desired actual gen rid :
  let plan := StateDiff_build desired actual gen in
  (plan_is_empty plan = true <-> converged (rules desired) (active_rules actual)) /\
  (converged (rules desired) (apply_ops rid (operations plan) (active_rules actual)) <->
   consistent (rules desired)).
Proof.
  intros plan. split; [apply plan_empty_converged|].
  split; [apply converged_consistent|]. intros Hc.
  unfold plan. rewrite apply_plan_halves. split.
  - intros r Hr. rewrite find_apply_removes; [by apply updates_install|].
    intros (a & E & [_ Hu]%filter_In)%in_map_iff.
    assert (Hw : unwanted (rules desired) a = false) by (apply unwanted_false; eauto).
    congruence.
  - intros a. rewrite apply_removes_eq. intros [Ha Hn]%filter_In.
    apply apply_updates_in in Ha as [Ha|(u & Hu & E)].
    + apply unwanted_false. destruct (unwanted (rules desired) a) eqn:E; [|done].
      apply negb_true_iff in Hn. rewrite <- Hn. symmetry. apply existsb_exists.
      exists (ar_id a). split; [|by apply Z.eqb_refl]. by apply in_map, filter_In.
    + apply filter_In in Hu as [Hu _]. eauto.
Qed.
