(* ===== verification/Control.v ===== *)
(** * The reconcile coordinator (balansir-control: coordinator.rs, state.rs, events.rs,
      error.rs, traits.rs)

    The coordinator drives one reconcile cycle through its ports, which are the
    source's traits as operations on a shared world [W].  Its log is ghost state: the
    calls made through the ports with their answers and the events emitted, each event with
    the FSM state at that moment, which is what an observer of [progress()] sees.  The cycle holds
    the [busy] lock throughout, so a cycle is one uninterrupted function; [c_busy]
    says that another cycle holds it. *)

From stdpp Require Import pretty.
From S2P Require Import Prelude Types Plan.
#[local] Open Scope Z_scope.

Inductive ControlError :=
| EDesiredProvider (msg : string)
| EStateProvider (msg : string)
| EPlanner (msg : string)
| EExecutor (msg : string)
| ESnapshotStore (msg : string)
| EReconcileInProgress
| ERollback (msg : string)
| ESerialization (msg : string)
| EInvalidState (state what : string).

Inductive ReconcileReason :=
| Startup | ConfigReload | DriverFailure | HealthChanged | Manual | Scheduled | ApiRequest
| Plugin (name : string).

(** Events carry the error itself where the source carries its text. *)
Inductive ControlEvent :=
| ReconciliationRequested (reason : ReconcileReason)
| StateEntered (name : string)
| DesiredReadStarted
| DesiredReadFinished (revision : Z)
| ActualReadStarted
| ActualReadFinished (rule_count : Z)
| PlanningStarted
| PlanningFinished (generation operation_count : Z) (empty : bool)
| ExecutionStarted
| StepCompleted (index : Z)
| StepFailed (index : Z) (error : ControlError)
| CommitCompleted
| Reconciled (plan_id : Z)
| RollbackStarted
| RollbackCompleted
| ReconcileFailed (error : ControlError)
| DriverHealthTierChanged (id : DriverId) (tier : HealthTier).

(** [CoordinatorState] and [ReconcileState] have the same variants, and [From] maps each
    to its namesake. *)
Inductive CoordinatorState :=
  Idle | ReadDesired | ReadActual | BuildPlan | ExecutePlan | CommitSnapshot | CDone
| CRollback | CFailed.

Inductive ReconcileTransition :=
| IdleToReadDesired | ReadDesiredToReadActual | ReadActualToBuildPlan
| BuildPlanToExecutePlan | ExecutePlanToExecutePlan | ExecutePlanToCommitSnapshot
| CommitSnapshotToDone | ExecutePlanToRollback | RollbackToFailed.

Definition fsm_transition (s : CoordinatorState) (e : ControlEvent) :
    option (CoordinatorState * ReconcileTransition) :=
  match s, e with
  | Idle, ReconciliationRequested _ => Some (ReadDesired, IdleToReadDesired)
  | ReadDesired, DesiredReadFinished _ => Some (ReadActual, ReadDesiredToReadActual)
  | ReadActual, ActualReadFinished _ => Some (BuildPlan, ReadActualToBuildPlan)
  | BuildPlan, PlanningFinished _ _ _ => Some (ExecutePlan, BuildPlanToExecutePlan)
  | ExecutePlan, ExecutionStarted => Some (ExecutePlan, ExecutePlanToExecutePlan)
  | ExecutePlan, StepCompleted _ => Some (ExecutePlan, ExecutePlanToExecutePlan)
  | ExecutePlan, StepFailed _ _ => Some (CRollback, ExecutePlanToRollback)
  | ExecutePlan, CommitCompleted => Some (CommitSnapshot, ExecutePlanToCommitSnapshot)
  | CommitSnapshot, Reconciled _ => Some (CDone, CommitSnapshotToDone)
  | CRollback, RollbackCompleted => Some (CFailed, RollbackToFailed)
  | _, _ => None
  end.

Record ExecutionReport := mkReport {
  execution_id : Z;
  succeeded : Z;
  failed : Z;
  total : Z;
  report_operations : list ReconciliationOperation;
  success : bool;
}.

Definition ExecutionReport_new (id : Z) (ops : list ReconciliationOperation)
    (succeeded failed : Z) : ExecutionReport :=
  mkReport id succeeded failed (len ops) ops (failed =? 0).

Record ReconcileProgress := mkProgress { rp_state : CoordinatorState; step_index : Z }.

(** ** The ports *)

Definition control_result (A : Type) : Type := ControlError + A.

Record ports (W : Type) := mkPorts {
  p_desired : W -> W * control_result DesiredState;
  p_actual : W -> W * control_result ActualState;
  p_build_plan : DesiredState -> ActualState -> Z -> ReconciliationPlan;
  p_execute : W -> ReconciliationPlan -> W * control_result ExecutionReport;
  p_save : W -> Snapshot -> W * control_result ();
  p_emit : W -> ControlEvent -> W;
  p_rollback : W -> Snapshot -> W * control_result ();
}.
Arguments p_desired {W}. Arguments p_actual {W}. Arguments p_build_plan {W}.
Arguments p_execute {W}. Arguments p_save {W}. Arguments p_emit {W}. Arguments p_rollback {W}.

Inductive entry :=
| Event (e : ControlEvent) (at_state : CoordinatorState)
| CallDesired (r : control_result DesiredState)
| CallActual (r : control_result ActualState)
| CallSave (s : Snapshot) (r : control_result ())
| CallExecute (p : ReconciliationPlan) (r : control_result ExecutionReport)
| CallRollback (s : Snapshot) (r : control_result ()).

Record Coordinator := mkCoord {
  c_state : CoordinatorState;
  c_progress : ReconcileProgress;
  c_generation : Z;
  c_busy : bool;
  c_log : list entry;
}.

Definition Coordinator_new : Coordinator := mkCoord Idle (mkProgress Idle 0) 1 false [].

Definition enter (s : CoordinatorState) (c : Coordinator) : Coordinator :=
  mkCoord s (mkProgress s 0) (c_generation c) (c_busy c) (c_log c).

Definition advance (e : ControlEvent) (c : Coordinator) : Coordinator :=
  match fsm_transition (c_state c) e with
  | Some (next, _) => enter next c
  | None => c
  end.

Definition note (x : entry) (c : Coordinator) : Coordinator :=
  mkCoord (c_state c) (c_progress c) (c_generation c) (c_busy c) (c_log c ++ [x]).

Definition store_generation (g : Z) (c : Coordinator) : Coordinator :=
  mkCoord (c_state c) (c_progress c) g (c_busy c) (c_log c).

(** ** One cycle *)

(** The fresh identifiers and the clock a cycle draws. *)
Record draws := mkDraws { noop_uuid : Z; snapshot_uuid : Z; snapshot_time : Z }.

Section Reconcile.
Context {W : Type} (P : ports W).

Definition cw : Type := Coordinator * W.

Definition emit (e : ControlEvent) (s : cw) : cw :=
  (note (Event e (c_state s.1)) s.1, p_emit P s.2 e).

(** Emit an event and tick the FSM with it. *)
Definition emit_advance (e : ControlEvent) (s : cw) : cw :=
  let s := emit e s in (advance e s.1, s.2).

Definition on_coord (f : Coordinator -> Coordinator) (s : cw) : cw := (f s.1, s.2).

Definition fail_with (err : ControlError) (s : cw) : cw * control_result () :=
  let s := emit (ReconcileFailed err) s in (on_coord (enter CFailed) s, inl err).

Definition run (plan : ReconciliationPlan) (s : cw) : cw * control_result ExecutionReport :=
  let s := emit_advance ExecutionStarted s in
  let '(w, r) := p_execute P s.2 plan in
  ((note (CallExecute plan r) s.1, w), r).

Definition rollback_and_fail (snapshot : Snapshot) (err : ControlError) (s : cw) :
    cw * control_result () :=
  let s := on_coord (advance (StepFailed 0 err)) s in
  let s := emit RollbackStarted s in
  let '(w, r) := p_rollback P s.2 snapshot in
  let s := (note (CallRollback snapshot r) s.1, w) in
  match r with
  | inl rb_err => fail_with rb_err (emit (StepFailed 0 rb_err) s)
  | inr _ => fail_with err (emit_advance RollbackCompleted s)
  end.

Definition steps_failed (r : ExecutionReport) : ControlError :=
  EExecutor ("execution failed: " +:+ pretty (failed r) +:+ "/" +:+ pretty (total r)
    +:+ " steps failed").

(** The snapshot a cycle saves and rolls back to. *)
Definition snapshot_of (d : draws) (desired : DesiredState) (actual : ActualState) (plan : ReconciliationPlan) :
    Snapshot :=
  mkSnap desired actual (mkMetadata (snapshot_uuid d) (generation_before plan) (snapshot_time d)).

(** From the plan on. *)
Definition commit_plan (d : draws) (desired : DesiredState) (actual : ActualState)
    (plan : ReconciliationPlan) (s : cw) : cw * control_result () :=
  let snapshot := snapshot_of d desired actual plan in
  let '(w, saved) := p_save P s.2 snapshot in
  let s := (note (CallSave snapshot saved) s.1, w) in
  match saved with
  | inl e => fail_with e s
  | inr _ =>
      let '(s, r) := run plan s in
      match r with
      | inl e => rollback_and_fail snapshot e s
      | inr report =>
          if negb (success report) then rollback_and_fail snapshot (steps_failed report) s
          else
            let s := emit_advance CommitCompleted s in
            let s := on_coord (store_generation (generation_after plan)) s in
            let s := emit_advance (Reconciled (execution_id report)) s in
            (on_coord (enter CDone) s, inr ())
      end
  end.

Definition plan_and_commit (d : draws) (desired : DesiredState) (actual : ActualState)
    (s : cw) : cw * control_result () :=
  let s := emit PlanningStarted s in
  let plan := p_build_plan P desired actual (c_generation s.1) in
  let s := emit_advance
    (PlanningFinished (generation_after plan) (len (operations plan)) (plan_is_empty plan)) s in
  if plan_is_empty plan then
    let s := emit_advance CommitCompleted s in
    let s := emit_advance (Reconciled (noop_uuid d)) s in
    (on_coord (enter CDone) s, inr ())
  else commit_plan d desired actual plan s.

(** Up to reading the desired state, and up to reading the actual state. *)
Definition read_desired (reason : ReconcileReason) (s : cw) : cw * control_result DesiredState :=
  let s := emit_advance (ReconciliationRequested reason) s in
  let s := emit DesiredReadStarted s in
  let '(w, r) := p_desired P s.2 in
  ((note (CallDesired r) s.1, w), r).

Definition read_actual (desired : DesiredState) (s : cw) : cw * control_result ActualState :=
  let s := emit_advance (DesiredReadFinished (len (rules desired))) s in
  let s := emit ActualReadStarted s in
  let '(w, r) := p_actual P s.2 in
  ((note (CallActual r) s.1, w), r).

Definition reconcile (d : draws) (reason : ReconcileReason) (s : cw) :
    cw * control_result () :=
  if c_busy s.1 then (s, inl EReconcileInProgress)
  else
    match read_desired reason s with
    | (s, inl e) => fail_with e s
    | (s, inr desired) =>
        match read_actual desired s with
        | (s, inl e) => fail_with e s
        | (s, inr actual) =>
            plan_and_commit d desired actual
              (emit_advance (ActualReadFinished (len (active_rules actual))) s)
        end
    end.
End Reconcile.

(** ** The protocol of a cycle *)

Definition is_call (x : entry) : bool := match x with Event _ _ => false | _ => true end.
Definition calls (l : list entry) : list entry := List.filter is_call l.

(** The error of an execution: its own, or that some step failed. *)
Definition execution_error (r : control_result ExecutionReport) : option ControlError :=
  match r with
  | inl e => Some e
  | inr report => if success report then None else Some (steps_failed report)
  end.

(** The calls of a complete cycle from generation [g] with the answers they got, the result
    it returns and the generation it leaves.  The plan is built from the two states that
    were read, the snapshot holds both. *)
Inductive cycle (build : DesiredState -> ActualState -> Z -> ReconciliationPlan) (d : draws) (g : Z) :
    list entry -> control_result () -> Z -> Prop :=
| cycle_no_desired e : cycle build d g [CallDesired (inl e)] (inl e) g
| cycle_no_actual ds e : cycle build d g [CallDesired (inr ds); CallActual (inl e)] (inl e) g
| cycle_nothing_to_do ds a :
    plan_is_empty (build ds a g) = true ->
    cycle build d g [CallDesired (inr ds); CallActual (inr a)] (inr ()) g
| cycle_not_saved ds a e :
    plan_is_empty (build ds a g) = false ->
    cycle build d g [CallDesired (inr ds); CallActual (inr a); CallSave (snapshot_of d ds a (build ds a g)) (inl e)]
      (inl e) g
| cycle_committed ds a r :
    plan_is_empty (build ds a g) = false -> execution_error r = None ->
    cycle build d g [CallDesired (inr ds); CallActual (inr a); CallSave (snapshot_of d ds a (build ds a g)) (inr ());
      CallExecute (build ds a g) r] (inr ()) (generation_after (build ds a g))
| cycle_rolled_back ds a r e rb :
    plan_is_empty (build ds a g) = false -> execution_error r = Some e ->
    cycle build d g [CallDesired (inr ds); CallActual (inr a); CallSave (snapshot_of d ds a (build ds a g)) (inr ());
      CallExecute (build ds a g) r; CallRollback (snapshot_of d ds a (build ds a g)) rb]
      (inl (match rb with inl e' => e' | inr _ => e end)) g.

Lemma calls_app l l' : calls (l ++ l') = calls l ++ calls l'.
Proof. apply List.filter_app. Qed.

Section Protocol.
Context {W : Type} (P : ports W).

(** Events and FSM ticks make no call and keep the generation. *)
Definition quiet (s s' : cw (W := W)) : Prop :=
  calls (c_log s'.1) = calls (c_log s.1) /\ c_generation s'.1 = c_generation s.1.

Lemma advance_log e c : c_log (advance e c) = c_log c /\ c_generation (advance e c) = c_generation c.
Proof. unfold advance. destruct (fsm_transition _ _) as [[]|]; done. Qed.

Lemma quiet_trans a b c : quiet a b -> quiet b c -> quiet a c.
Proof. intros [] []. split; congruence. Qed.

Lemma quiet_emit e s : quiet s (emit P e s).
Proof. split; [|done]. cbn. by rewrite calls_app, app_nil_r. Qed.

Lemma quiet_emit_advance e s : quiet s (emit_advance P e s).
Proof.
  unfold emit_advance. destruct (advance_log e (emit P e s).1) as [E1 E2].
  destruct (quiet_emit e s) as [E3 E4]. split; cbn [fst]; congruence.
Qed.

Lemma quiet_advance e s : quiet s (on_coord (advance e) s).
Proof. destruct (advance_log e s.1) as [E1 E2]. split; cbn; by rewrite ?E1, ?E2. Qed.

(** The outcome of the part of a cycle from [s] on: the calls [cs] it makes, its result, the
    final generation, and the terminal FSM state. *)
Definition ends (s : cw (W := W)) (r : cw (W := W) * control_result ()) (cs : list entry)
    (res : control_result ()) (g : Z) : Prop :=
  let final := match res with inr _ => CDone | inl _ => CFailed end in
  calls (c_log r.1.1) = calls (c_log s.1) ++ cs /\ c_generation r.1.1 = g /\
  r.2 = res /\ c_progress r.1.1 = mkProgress final 0 /\ c_state r.1.1 = final.

Lemma ends_quiet s s' r cs ok g : quiet s s' -> ends s' r cs ok g -> ends s r cs ok g.
Proof. intros [E1 _] (H1 & H). split; [by rewrite H1, E1|exact H]. Qed.

Lemma ends_call s x w r cs ok g :
  is_call x = true -> ends (note x s.1, w) r cs ok g -> ends s r (x :: cs) ok g.
Proof.
  intros Hx (H1 & H). split; [|exact H]. rewrite H1. cbn [c_log note fst].
  rewrite calls_app, <- app_assoc. cbn. by rewrite Hx.
Qed.

Lemma fail_ends e s : ends s (fail_with P e s) [] (inl e) (c_generation s.1).
Proof.
  unfold fail_with. destruct (quiet_emit (ReconcileFailed e) s) as [E1 E2].
  repeat split; cbn; try done. by rewrite app_nil_r, calls_app, app_nil_r.
Qed.

Lemma rollback_ends snapshot e s :
  exists rb, ends s (rollback_and_fail P snapshot e s) [CallRollback snapshot rb]
    (inl (match rb with inl e' => e' | inr _ => e end)) (c_generation s.1).
Proof.
  unfold rollback_and_fail.
  set (s1 := emit P RollbackStarted (on_coord (advance (StepFailed 0 e)) s)).
  assert (Hq : quiet s s1) by (eapply quiet_trans; [apply quiet_advance|apply quiet_emit]).
  destruct (p_rollback P s1.2 snapshot) as [w rb]. exists rb.
  apply (ends_quiet _ _ _ _ _ _ Hq). destruct Hq as [_ Hg]. rewrite <- Hg.
  destruct rb as [rb|u]; apply (ends_call _ _ w); try done.
  - eapply ends_quiet; [apply quiet_emit|].
    apply (fail_ends rb (emit P (StepFailed 0 rb) (note (CallRollback snapshot (inl rb)) s1.1, w))).
  - set (s2 := (note (CallRollback snapshot (inr u)) s1.1, w)).
    destruct (quiet_emit_advance RollbackCompleted s2) as [E1 E2].
    eapply ends_quiet; [by split|]. change (c_generation s1.1) with (c_generation s2.1).
    rewrite <- E2. apply fail_ends.
Qed.

Lemma done_ends s : ends s (on_coord (enter CDone) s, inr ()) [] (inr ()) (c_generation s.1).
Proof. repeat split; cbn; try done. by rewrite app_nil_r. Qed.

(** The calls from a plan on, and how they end the cycle. *)
Definition commits (d : draws) (desired : DesiredState) (actual : ActualState) (g : Z) (cs : list entry)
    (res : control_result ()) (g' : Z) : Prop :=
  cycle (p_build_plan P) d g (CallDesired (inr desired) :: CallActual (inr actual) :: cs) res g'.

Lemma commit_ends d desired actual s :
  let plan := p_build_plan P desired actual (c_generation s.1) in
  plan_is_empty plan = false ->
  exists cs res g, ends s (commit_plan P d desired actual plan s) cs res g /\
    commits d desired actual (c_generation s.1) cs res g.
Proof.
  intros plan Hp. unfold commit_plan. set (snap := snapshot_of _ _ _ _).
  destruct (p_save P s.2 snap) as [w [e|[]]].
  { eexists _, _, _. split; [|by apply cycle_not_saved].
    apply (ends_call _ _ w); [done|]. exact (fail_ends e (note (CallSave snap (inl e)) s.1, w)). }
  unfold run. set (s1 := (note (CallSave snap (inr ())) s.1, w)).
  set (s2 := emit_advance P ExecutionStarted s1).
  destruct (quiet_emit_advance ExecutionStarted s1) as [E1 E2]. fold s2 in E1, E2.
  destruct (p_execute P s2.2 plan) as [w' r].
  set (s3 := (note (CallExecute plan r) s2.1, w')).
  assert (Hcalls : forall r' cs res g, ends s3 r' cs res g ->
    ends s r' (CallSave snap (inr ()) :: CallExecute plan r :: cs) res g).
  { intros r' cs res g H. apply (ends_call _ _ w); [done|]. fold s1.
    apply (ends_quiet s1 s2); [by split|]. by apply (ends_call _ _ w'). }
  assert (Hrb : forall e, execution_error r = Some e ->
    exists cs res g, ends s (rollback_and_fail P snap e s3) cs res g /\
      commits d desired actual (c_generation s.1) cs res g).
  { intros e He. destruct (rollback_ends snap e s3) as [rb Hrb]. eexists _, _, _. split; [by apply Hcalls|].
    change (c_generation s3.1) with (c_generation s2.1). rewrite E2.
    by apply cycle_rolled_back. }
  assert (Hcm : execution_error r = None -> commits d desired actual (c_generation s.1)
    [CallSave snap (inr ()); CallExecute plan r] (inr ()) (generation_after plan))
    by (intros; by apply cycle_committed).
  destruct r as [e|report]; [by apply Hrb|]. cbn [execution_error] in Hrb, Hcm.
  destruct (success report); [|by apply Hrb]. cbn [negb].
  eexists _, _, _. split; [|by apply Hcm]. apply Hcalls.
  set (s4 := on_coord (store_generation (generation_after plan))
    (emit_advance P CommitCompleted s3)).
  destruct (quiet_emit_advance CommitCompleted s3) as [E3 E4].
  destruct (quiet_emit_advance (Reconciled (execution_id report)) s4) as [E5 E6].
  assert (E7 : calls (c_log s4.1) = calls (c_log s3.1)) by exact E3.
  destruct (done_ends (emit_advance P (Reconciled (execution_id report)) s4))
    as (H1 & H2 & H3 & H4 & H5).
  split; [by rewrite H1, E5, E7|]. split; [by rewrite H2, E6|]. done.
Qed.

Lemma plan_and_commit_ends d desired actual s :
  exists cs res g, ends s (plan_and_commit P d desired actual s) cs res g /\
    commits d desired actual (c_generation s.1) cs res g.
Proof.
  unfold plan_and_commit. change (c_generation (emit P PlanningStarted s).1) with (c_generation s.1).
  set (plan := p_build_plan P desired actual (c_generation s.1)).
  set (s1 := emit_advance P (PlanningFinished _ _ _) _).
  assert (Hq : quiet s s1)
    by (eapply quiet_trans; [apply quiet_emit|apply quiet_emit_advance]).
  destruct (plan_is_empty plan) eqn:Hp.
  - set (s2 := emit_advance P (Reconciled (noop_uuid d)) (emit_advance P CommitCompleted s1)).
    assert (Hq2 : quiet s s2).
    { eapply quiet_trans; [exact Hq|].
      eapply quiet_trans; apply quiet_emit_advance. }
    eexists _, _, _. split; [apply (ends_quiet _ _ _ _ _ _ Hq2), done_ends|].
    destruct Hq2 as [_ ->]. by apply cycle_nothing_to_do.
  - destruct Hq as [Hc Hg]. unfold plan in Hp |- *. rewrite <- Hg in Hp |- *.
    destruct (commit_ends d desired actual s1 Hp) as (cs & res & g & H & Hcm).
    exists cs, res, g. split; [by apply (ends_quiet _ s1)|done].
Qed.

Lemma read_desired_calls reason s :
  (forall r cs res g, ends (read_desired P reason s).1 r cs res g ->
     ends s r (CallDesired (read_desired P reason s).2 :: cs) res g) /\
  c_generation (read_desired P reason s).1.1 = c_generation s.1.
Proof.
  unfold read_desired. set (s1 := emit P DesiredReadStarted _).
  assert (Hq : quiet s s1)
    by (eapply quiet_trans; [apply quiet_emit_advance|apply quiet_emit]).
  destruct (p_desired P s1.2) as [w r]. cbn [fst snd]. split; [|apply Hq].
  intros r' cs res g H. apply (ends_quiet _ s1 _ _ _ _ Hq). by apply (ends_call _ _ w).
Qed.

Lemma read_actual_calls desired s :
  (forall r cs res g, ends (read_actual P desired s).1 r cs res g ->
     ends s r (CallActual (read_actual P desired s).2 :: cs) res g) /\
  c_generation (read_actual P desired s).1.1 = c_generation s.1.
Proof.
  unfold read_actual. set (s1 := emit P ActualReadStarted _).
  assert (Hq : quiet s s1)
    by (eapply quiet_trans; [apply quiet_emit_advance|apply quiet_emit]).
  destruct (p_actual P s1.2) as [w r]. cbn [fst snd]. split; [|apply Hq].
  intros r' cs res g H. apply (ends_quiet _ s1 _ _ _ _ Hq). by apply (ends_call _ _ w).
Qed.

(** C21.  Every cycle follows the protocol, whatever the ports answer: desired and actual
    state are read in that order and the plan is built from exactly these; when it is not
    empty, a snapshot of both is saved before anything is executed.  The cycle succeeds
    exactly when there was nothing to do or the execution reported every step a success; an
    execution that fails or reports a failed step is rolled back once, to that snapshot, and
    nothing is rolled back otherwise.  The error returned is the one of the call that
    failed, with a failed rollback taking precedence.  The FSM ends in [Done] on success and
    in [Failed] otherwise, and the generation moves to the plan's exactly when a non-empty
    plan was committed. *)
Theorem reconcile_protocol d reason s :
  c_busy s.1 = false ->
  let '((c', _), res) := reconcile P d reason s in
  let final := match res with inr _ => CDone | inl _ => CFailed end in
  exists cs,
    calls (c_log c') = calls (c_log s.1) ++ cs /\
    cycle (p_build_plan P) d (c_generation s.1) cs res (c_generation c') /\
    c_progress c' = mkProgress final 0 /\ c_state c' = final.
Proof.
  intros Hb.
  enough (exists cs res g, ends s (reconcile P d reason s) cs res g /\
    cycle (p_build_plan P) d (c_generation s.1) cs res g) as (cs & res & g & (H1 & H2 & H3 & H4) & H5).
  { destruct (reconcile P d reason s) as [[c' w'] r']. cbn [fst snd] in *. subst r' g. by exists cs. }
  unfold reconcile. rewrite Hb.
  destruct (read_desired_calls reason s) as [Hd Hg].
  destruct (read_desired P reason s) as [s1 [e|desired]]; cbn [fst snd] in Hd, Hg.
  { eexists _, _, _. split; [apply Hd, fail_ends|]. rewrite Hg. apply cycle_no_desired. }
  destruct (read_actual_calls desired s1) as [Ha Hg'].
  destruct (read_actual P desired s1) as [s2 [e|actual]]; cbn [fst snd] in Ha, Hg'.
  { eexists _, _, _. split; [apply Hd, Ha, fail_ends|]. rewrite Hg', Hg. apply cycle_no_actual. }
  set (ev := ActualReadFinished _).
  destruct (plan_and_commit_ends d desired actual (emit_advance P ev s2))
    as (cs & res & g & H & Hc).
  eexists _, res, g. split.
  - apply Hd, Ha. by apply (ends_quiet _ (emit_advance P ev s2)); [apply quiet_emit_advance|].
  - rewrite (proj2 (quiet_emit_advance ev s2)), Hg', Hg in Hc. exact Hc.
Qed.
End Protocol.

(** ** Progress after the first cycle *)

Section Frozen.
Context {W : Type} (P : ports W) (s0 : CoordinatorState).
Hypothesis terminal : s0 = CDone \/ s0 = CFailed.

Definition seen_at (x : entry) : Prop :=
  match x with Event _ st => st = s0 | _ => True end.

Definition logged (c c' : Coordinator) : Prop :=
  exists new, c_log c' = c_log c ++ new /\ Forall seen_at new.

(** Still in [s0], having emitted events only there. *)
Definition frozen (c : Coordinator) (s : cw (W := W)) : Prop :=
  c_state s.1 = s0 /\ logged c s.1.

Lemma logged_note c c' x : logged c c' -> seen_at x -> logged c (note x c').
Proof.
  intros (new & E & H) Hx. exists (new ++ [x]). cbn. rewrite E, app_assoc.
  split; [done|]. by apply Forall_app_2; [|constructor].
Qed.

Lemma frozen_emit c e s : frozen c s -> frozen c (emit P e s).
Proof. intros [Hs Hl]. split; [done|]. by apply logged_note. Qed.

Lemma frozen_advance c e s : frozen c s -> frozen c (on_coord (advance e) s).
Proof.
  intros [Hs Hl]. assert (E : advance e s.1 = s.1).
  { unfold advance. rewrite Hs. by destruct terminal as [-> | ->], e. }
  unfold on_coord. rewrite E. by split.
Qed.

Lemma frozen_emit_advance c e s : frozen c s -> frozen c (emit_advance P e s).
Proof. intros H. apply (frozen_advance c e (emit P e s)). by apply frozen_emit. Qed.

Lemma frozen_call c x s w : is_call x = true -> frozen c s -> frozen c (note x s.1, w).
Proof. intros Hx [Hs Hl]. split; [done|]. apply logged_note; [done|]. by destruct x. Qed.

Lemma frozen_generation c g s : frozen c s -> frozen c (on_coord (store_generation g) s).
Proof. done. Qed.

Lemma frozen_fail c e s : frozen c s -> logged c (fail_with P e s).1.1.
Proof. intros H. apply (frozen_emit c (ReconcileFailed e) s H). Qed.

Hint Resolve frozen_emit frozen_advance frozen_emit_advance frozen_generation frozen_fail
  : balansir.

Lemma frozen_rollback c snap e s :
  frozen c s -> logged c (rollback_and_fail P snap e s).1.1.
Proof.
  intros H. unfold rollback_and_fail. destruct (p_rollback _ _ _) as [w [rb|]];
    apply frozen_fail; auto using frozen_call with balansir.
Qed.

Lemma frozen_commit c d desired actual plan s :
  frozen c s -> logged c (commit_plan P d desired actual plan s).1.1.
Proof.
  intros H. unfold commit_plan. destruct (p_save _ _ _) as [w [e|[]]].
  { apply frozen_fail, frozen_call; auto. }
  unfold run. destruct (p_execute _ _ _) as [w' r].
  assert (H3 : forall snap, frozen c (note (CallExecute plan r)
    (emit_advance P ExecutionStarted (note (CallSave snap (inr ())) s.1, w)).1, w')).
  { intros snap. apply frozen_call; [done|]. apply frozen_emit_advance, frozen_call; auto. }
  destruct r as [e|report]; [by apply frozen_rollback|].
  destruct (success report); [|by apply frozen_rollback]. cbn [negb fst on_coord].
  match goal with |- logged c (enter CDone (emit_advance P ?e ?x).1) =>
    apply (frozen_emit_advance c e x) end.
  apply frozen_generation, frozen_emit_advance, H3.
Qed.

Lemma frozen_done c s : frozen c s -> logged c (on_coord (enter CDone) s).1.
Proof. intros [_ H]. exact H. Qed.

Lemma frozen_plan_and_commit c d desired actual s :
  frozen c s -> logged c (plan_and_commit P d desired actual s).1.1.
Proof.
  intros H. unfold plan_and_commit. set (s4 := emit_advance P (PlanningFinished _ _ _) _).
  assert (H4 : frozen c s4) by (by apply frozen_emit_advance, frozen_emit).
  destruct (plan_is_empty _); [|by apply frozen_commit].
  apply (frozen_done c (emit_advance P (Reconciled (noop_uuid d))
    (emit_advance P CommitCompleted s4))).
  by do 2 apply frozen_emit_advance.
Qed.

Lemma frozen_read_desired c reason s : frozen c s -> frozen c (read_desired P reason s).1.
Proof.
  intros H. unfold read_desired. destruct (p_desired _ _) as [w r].
  apply frozen_call; auto with balansir.
Qed.

Lemma frozen_read_actual c desired s : frozen c s -> frozen c (read_actual P desired s).1.
Proof.
  intros H. unfold read_actual. destruct (p_actual _ _) as [w r].
  apply frozen_call; auto with balansir.
Qed.

Lemma frozen_reconcile d reason s :
  c_state s.1 = s0 -> logged s.1 (reconcile P d reason s).1.1.
Proof.
  intros Hs. assert (H0 : frozen s.1 s) by (split; [done|]; exists []; by rewrite app_nil_r).
  unfold reconcile. destruct (c_busy s.1); [apply H0|].
  apply (frozen_read_desired _ reason) in H0.
  destruct (read_desired P reason s) as [s1 [e|desired]]; cbn [fst] in H0.
  { by apply frozen_fail. }
  apply (frozen_read_actual _ desired) in H0.
  destruct (read_actual P desired s1) as [s2 [e|actual]]; cbn [fst] in H0.
  { by apply frozen_fail. }
  by apply frozen_plan_and_commit, frozen_emit_advance.
Qed.
End Frozen.

(** The FSM never returns to [Idle]: a cycle that starts in the [Done] or [Failed]
    state the previous one left ignores every tick, so that whoever observes the
    progress sees that old terminal state at every event of the new cycle. *)
Theorem later_cycles_show_no_progress {W} (P : ports W) d reason s :
  c_state s.1 = CDone \/ c_state s.1 = CFailed ->
  exists new,
    c_log (reconcile P d reason s).1.1 = c_log s.1 ++ new /\
    Forall (fun x => match x with Event _ st => st = c_state s.1 | _ => True end) new.
Proof. intros H. exact (frozen_reconcile P (c_state s.1) H d reason s eq_refl). Qed.

(** Ports over an in-memory actual state, with a mechanism that accepts everything. *)
Definition memory_ports : ports ActualState :=
  mkPorts ActualState
    (fun w => (w, inr (mkDesired [mkRule 1 Block 10 None] [])))
    (fun w => (w, inr w))
    build_plan
    (fun w plan =>
      (mkActual (apply_ops (fun r => Some (dr_id r)) (operations plan) (active_rules w)),
       inr (ExecutionReport_new 7 (operations plan) (len (operations plan)) 0)))
    (fun w _ => (w, inr ()))
    (fun w _ => w)
    (fun w _ => (w, inr ())).

Lemma reconcile_protocol_witness :
  exists ds a r,
    calls (c_log (reconcile memory_ports (mkDraws 1 2 3) Startup
      (Coordinator_new, mkActual [])).1.1) =
      [CallDesired (inr ds); CallActual (inr a); CallSave (snapshot_of (mkDraws 1 2 3) ds a (build_plan ds a 1)) (inr ());
       CallExecute (build_plan ds a 1) r] /\
    execution_error r = None /\
    c_generation (reconcile memory_ports (mkDraws 1 2 3) Startup (Coordinator_new, mkActual [])).1.1 = 2.
Proof.
  pose proof (reconcile_protocol memory_ports (mkDraws 1 2 3) Startup
    (Coordinator_new, mkActual []) eq_refl) as H.
  set (x := reconcile memory_ports (mkDraws 1 2 3) Startup (Coordinator_new, mkActual [])) in *.
  assert (Hr : x.2 = inr ()) by (vm_compute; reflexivity).
  assert (Hg : c_generation x.1.1 = 2) by (vm_compute; reflexivity).
  destruct x as [[c w] res]. cbn [fst snd] in *. subst res.
  destruct H as (cs & H1 & H2 & _). rewrite Hg in H2. cbn in H1. rewrite H1.
  change (c_generation (Coordinator_new, mkActual []).1) with 1 in H2. cbn [p_build_plan memory_ports] in H2.
  inversion H2 as [| | | |ds a r _ Hx|]; subst. by exists ds, a, r.
Defined.

Definition after_first_cycle : cw (W := ActualState) :=
  (reconcile memory_ports (mkDraws 1 2 3) Startup (Coordinator_new, mkActual [])).1.

Lemma later_cycles_show_no_progress_witness :
  exists new,
    c_log (reconcile memory_ports (mkDraws 4 5 6) Scheduled after_first_cycle).1.1 =
      c_log after_first_cycle.1 ++ new /\
    Forall (fun x => match x with Event _ st => st = c_state after_first_cycle.1
                     | _ => True end) new /\ new <> [].
Proof.
  destruct (later_cycles_show_no_progress memory_ports (mkDraws 4 5 6) Scheduled
    after_first_cycle) as (new & E & H); [left; vm_compute; reflexivity|].
  exists new. repeat split; [exact E|exact H|]. intros ->.
  assert (El : length (c_log (reconcile memory_ports (mkDraws 4 5 6) Scheduled
    after_first_cycle).1.1) = length (c_log after_first_cycle.1 ++ [])) by (by rewrite E).
  vm_compute in El. discriminate.
Defined.
