(* ===== verification/Reconciler.v ===== *)
(** * The daemon side of reconciliation (balansir-daemon: reconciliation/adapters.rs,
      reconciliation/reconciler.rs, policy/compiler.rs)

    The adapters that connect the daemon's state and the privileged executor to the
    coordinator's ports, the policy compiler, and the reconciler's own operations.
    The executor is the class [Mechanism]: its answers, and what they promise about
    the rules installed in the kernel.

    Locks are held for single reads and writes only, so a reconcile cycle is the
    sequence of these operations; metrics and tracing are left out. *)

From S2P Require Import Prelude Types Plan Control.

(** ** The policy compiler *)

Definition unspecified : IpAddr := V4 0.

Definition compile (rule : DesiredRule) : ActionRequest :=
  let field {A} (f : FlowCriteria -> option A) (d : A) : A := default d (dr_flow rule ≫= f) in
  mkRequest (dr_action rule)
    (field fc_src_ip unspecified) (field fc_dst_ip unspecified)
    (field fc_src_port 0) (field fc_dst_port 0) (field fc_protocol 0) 0
    (mkTrace (dr_id rule) [] (dr_action rule) 0 0).

Lemma compile_ext r r' :
  dr_id r = dr_id r' -> dr_action r = dr_action r' -> dr_flow r = dr_flow r' ->
  compile r = compile r'.
Proof. unfold compile. by intros -> -> ->. Qed.

(** ** The executor boundary ([ExecutorAdapter])

    [installed] is the view of the kernel: the rule held under each rule id, in the
    mechanism's own form; [m_rule] is the form a request takes there.  The promises hold
    while the mechanism's bookkeeping agrees with the kernel ([m_wf]), for the requests it
    can tell apart ([m_known]); ExecutorService.v gives the nftables executor as an
    instance. *)

Class Mechanism (K : Type) := {
  kernel_rule : Type;
  m_rule : ActionRequest -> kernel_rule;
  m_known : ActionRequest -> Prop;
  m_wf : K -> Prop;
  m_execute : K -> ActionRequest -> K * ActionResult;
  m_remove_rule : K -> Z -> K * ActionResult;
  m_actual_rule_ids : K -> list Z;
  installed : K -> Z -> option kernel_rule;
  execute_wf k rq k' res :
    m_wf k -> m_known rq -> m_execute k rq = (k', res) -> m_wf k';
  execute_applied k rq k' t rid :
    m_wf k -> m_known rq -> m_execute k rq = (k', Applied t rid) ->
    installed k' (policy_id (rq_trace rq)) = Some (m_rule rq);
  execute_already k rq k' :
    m_wf k -> m_known rq -> m_execute k rq = (k', AlreadyApplied) ->
    installed k' (policy_id (rq_trace rq)) = Some (m_rule rq);
  execute_already_same k rq k' :
    m_wf k -> m_known rq -> m_execute k rq = (k', AlreadyApplied) ->
    installed k' (policy_id (rq_trace rq)) = installed k (policy_id (rq_trace rq));
  execute_frame k rq k' res id :
    m_wf k -> m_known rq -> m_execute k rq = (k', res) -> id <> policy_id (rq_trace rq) ->
    installed k' id = installed k id;
  remove_wf k id k' res : m_wf k -> m_remove_rule k id = (k', res) -> m_wf k';
  remove_done k id k' res :
    m_wf k -> m_remove_rule k id = (k', res) ->
    match res with Applied _ _ | AlreadyApplied => installed k' id = None | _ => True end;
  remove_frame k id k' res id' :
    m_wf k -> m_remove_rule k id = (k', res) -> id' <> id -> installed k' id' = installed k id';
}.

Section Reconciler.
Context {K : Type} {mech : Mechanism K}.

(** The state the adapters share. *)
Record daemon := mkDaemon {
  d_desired : DesiredState;
  d_actual : ActualState;
  d_kernel : K;
  d_snapshots : gmap Z Snapshot;
}.

Definition set_actual (w : daemon) (l : list ActualRule) : daemon :=
  mkDaemon (d_desired w) (mkActual l) (d_kernel w) (d_snapshots w).
Definition set_kernel (w : daemon) (k : K) : daemon :=
  mkDaemon (d_desired w) (d_actual w) k (d_snapshots w).

(** [DaemonExecutorAdapter::apply_rule]: [false] is an error. *)
Definition apply_rule (w : daemon) (rule : DesiredRule) : daemon * bool :=
  let '(k, res) := m_execute (d_kernel w) (compile rule) in
  let w := set_kernel w k in
  match res with
  | Applied _ rid => (set_actual w (mirror_update rid rule (active_rules (d_actual w))), true)
  | AlreadyApplied => (w, true)
  | _ => (w, false)
  end.

(** One operation of the plan; [None] is a step that counts neither way. *)
Definition exec_op (w : daemon) (op : ReconciliationOperation) : daemon * option bool :=
  match op with
  | UpdatePolicy rule => let '(w, ok) := apply_rule w rule in (w, Some ok)
  | RemovePolicy id =>
      let '(k, res) := m_remove_rule (d_kernel w) id in
      let w := set_kernel w k in
      match res with
      | Applied _ _ | AlreadyApplied =>
          (set_actual w (mirror_remove id (active_rules (d_actual w))), Some true)
      | _ => (w, Some false)
      end
  | CreateDriver _ | RemoveDriver _ | RestartDriver _ | NoOp => (w, None)
  end.

Fixpoint exec_ops (ops : list ReconciliationOperation) (w : daemon) (good bad : Z) :
    daemon * Z * Z :=
  match ops with
  | [] => (w, good, bad)
  | op :: ops =>
      match exec_op w op with
      | (w, Some true) => exec_ops ops w (good + 1) bad
      | (w, Some false) => exec_ops ops w good (bad + 1)
      | (w, None) => exec_ops ops w good bad
      end
  end.

(** [DaemonExecutorAdapter::execute] *)
Definition daemon_execute (uuid : Z) (w : daemon) (plan : ReconciliationPlan) :
    daemon * control_result ExecutionReport :=
  let '(w, good, bad) := exec_ops (operations plan) w 0 0 in
  (w, inr (ExecutionReport_new uuid (operations plan) good bad)).

(** [DaemonRollback::rollback] *)
Fixpoint revert_rules (ids : list Z) (k : K) : K :=
  match ids with
  | [] => k
  | id :: ids => revert_rules ids (m_remove_rule k id).1
  end.

Definition daemon_rollback (w : daemon) (s : Snapshot) : daemon * control_result () :=
  let snapshot_ids := map ar_id (active_rules (s_actual s)) in
  let to_revert := List.filter (fun id => negb (existsb (Z.eqb id) snapshot_ids))
    (map ar_id (active_rules (d_actual w))) in
  (mkDaemon (d_desired w) (s_actual s) (revert_rules to_revert (d_kernel w)) (d_snapshots w),
   inr ()).

(** [MemorySnapshotStore::save] *)
Definition snapshot_save (w : daemon) (s : Snapshot) : daemon * control_result () :=
  (mkDaemon (d_desired w) (d_actual w) (d_kernel w)
     (<[m_generation (s_metadata s) := s]> (d_snapshots w)), inr ()).

(** The wiring of [Reconciler::new]. *)
Definition daemon_ports (uuid : Z) : ports daemon :=
  mkPorts daemon
    (fun w => (w, inr (d_desired w)))
    (fun w => (w, inr (d_actual w)))
    build_plan
    (daemon_execute uuid)
    snapshot_save
    (fun w _ => w)
    daemon_rollback.

(** ** The reconciler *)

(** The re-seeded entries carry a placeholder action and no flow. *)
Definition placeholder (id : Z) : ActualRule := mkActualRule id Allow None None.

Definition sync_actual_from_executor (w : daemon) : daemon :=
  set_actual w (map placeholder (m_actual_rule_ids (d_kernel w))).

Record Reconciler := mkReconciler {
  r_coord : Coordinator;
  r_daemon : daemon;
  r_raw : option DesiredState;
  r_fingerprint : option Z;
}.

Definition with_desired (w : daemon) (d : DesiredState) : daemon :=
  mkDaemon d (d_actual w) (d_kernel w) (d_snapshots w).

(** The flow compiler and the [postcard] encoder are given. *)
Context (flow_compile : option (DesiredState -> DesiredState))
  (to_allocvec : DesiredState -> option (list Z)).

Definition compiled (d : DesiredState) : DesiredState :=
  match flow_compile with Some f => f d | None => d end.

Definition set_desired (r : Reconciler) (state : DesiredState) : Reconciler :=
  let c := compiled state in
  mkReconciler (r_coord r) (with_desired (r_daemon r) c) (Some state)
    (Some (config_fingerprint to_allocvec c)).

Definition add_desired_rule (r : Reconciler) (rule : DesiredRule) : Reconciler :=
  let d := d_desired (r_daemon r) in
  mkReconciler (r_coord r)
    (with_desired (r_daemon r) (mkDesired (rules d ++ [rule]) (drivers d)))
    (r_raw r) (r_fingerprint r).

Definition remove_desired_rule (r : Reconciler) (id : Z) : Reconciler :=
  let d := d_desired (r_daemon r) in
  mkReconciler (r_coord r)
    (with_desired (r_daemon r)
      (mkDesired (List.filter (fun x => negb (dr_id x =? id)) (rules d)) (drivers d)))
    (r_raw r) (r_fingerprint r).

Definition run_coordinator (uuid : Z) (d : draws) (reason : ReconcileReason) (r : Reconciler) :
    Reconciler * control_result () :=
  let '((c, w), res) := reconcile (daemon_ports uuid) d reason (r_coord r, r_daemon r) in
  (mkReconciler c w (r_raw r) (r_fingerprint r), res).

Definition reload (uuid : Z) (d : draws) (candidate : DesiredState) (reason : ReconcileReason)
    (r : Reconciler) : Reconciler * control_result () :=
  let c := compiled candidate in
  let prev := d_desired (r_daemon r) in
  let r := mkReconciler (r_coord r) (with_desired (r_daemon r) c) (r_raw r) (r_fingerprint r) in
  match run_coordinator uuid d reason r with
  | (r, inr _) =>
      (mkReconciler (r_coord r) (r_daemon r) (Some candidate)
         (Some (config_fingerprint to_allocvec c)), inr ())
  | (r, inl e) =>
      (mkReconciler (r_coord r) (with_desired (r_daemon r) prev) (r_raw r) (r_fingerprint r),
       inl e)
  end.

(** One step of the ownership loop. *)
Definition loop_step (resync_every : Z) (uuid : Z) (d : draws) (n : Z) (r : Reconciler) :
    Reconciler :=
  let r :=
    if (0 <? resync_every) && (n mod resync_every =? 0)
    then mkReconciler (r_coord r) (sync_actual_from_executor (r_daemon r)) (r_raw r)
           (r_fingerprint r)
    else r in
  (run_coordinator uuid d Scheduled r).1.

(** The loop itself, for the first [length ds] cycles. *)
Fixpoint run_loop (resync_every : Z) (ds : list (Z * draws)) (n : Z) (r : Reconciler) :
    Reconciler :=
  match ds with
  | [] => r
  | (uuid, d) :: ds => run_loop resync_every ds (u32 (n + 1)) (loop_step resync_every uuid d n r)
  end.

(** Re-compile the authored state; [true] when the desired state changed. *)
Definition dns_resync (uuid : Z) (d : draws) (r : Reconciler) : Reconciler * bool :=
  match flow_compile, r_raw r with
  | Some f, Some raw =>
      let recompiled := f raw in
      if decide (d_desired (r_daemon r) = recompiled) then (r, false)
      else
        let r := mkReconciler (r_coord r) (with_desired (r_daemon r) recompiled) (r_raw r)
          (Some (config_fingerprint to_allocvec recompiled)) in
        ((run_coordinator uuid d Scheduled r).1, true)
  | _, _ => (r, false)
  end.

Definition dry_run (r : Reconciler) : ReconciliationPlan :=
  build_plan (d_desired (r_daemon r)) (d_actual (r_daemon r)) (c_generation (r_coord r)).
End Reconciler.
Arguments daemon K : clear implicits.
Arguments Reconciler K : clear implicits.

(** ** A successful cycle enforces the desired state *)

Section Enforcement.
Context {K : Type} {mech : Mechanism K}.

Definition request_of (a : ActualRule) : ActionRequest :=
  compile (mkRule (ar_id a) (ar_action a) 0 (ar_flow a)).

(** The rules are ones the mechanism can tell apart. *)
Definition known_rules (l : list DesiredRule) : Prop :=
  forall r, In r l -> m_known (compile r).

(** The mirror is right about the kernel. *)
Definition in_sync (w : daemon K) : Prop :=
  m_wf (d_kernel w) /\
  forall id, installed (d_kernel w) id =
    (m_rule ∘ request_of) <$> find_rule id (active_rules (d_actual w)).

(** The kernel holds the desired rules and nothing else. *)
Definition enforced (w : daemon K) (desired : list DesiredRule) : Prop :=
  m_wf (d_kernel w) /\
  (forall r, In r desired -> installed (d_kernel w) (dr_id r) = Some (m_rule (compile r))) /\
  (forall id, (forall r, In r desired -> dr_id r <> id) -> installed (d_kernel w) id = None).

(** The run of a list of operations without a failed step. *)
Inductive ran : list ReconciliationOperation -> daemon K -> daemon K -> Prop :=
| ran_nil w : ran [] w w
| ran_cons op ops w w1 w2 ok :
    exec_op w op = (w1, ok) -> ok <> Some false -> ran ops w1 w2 -> ran (op :: ops) w w2.

Lemma exec_ops_bad ops w g b : b <= (exec_ops ops w g b).2.
Proof.
  revert w g b. induction ops as [|op ops IH]; intros w g b; cbn [exec_ops]; [cbn; lia|].
  destruct (exec_op w op) as [w1 [[]|]]; auto. specialize (IH w1 g (b + 1)). lia.
Qed.

Lemma exec_ops_ran ops w g w' g' : exec_ops ops w g 0 = (w', g', 0) -> ran ops w w'.
Proof.
  revert w g. induction ops as [|op ops IH]; intros w g; cbn [exec_ops].
  { intros [= -> _]. constructor. }
  destruct (exec_op w op) as [w1 [[]|]] eqn:E; intros H.
  - econstructor; [exact E|discriminate|eauto].
  - pose proof (exec_ops_bad ops w1 g (0 + 1)) as Hb. rewrite H in Hb. cbn in Hb. lia.
  - econstructor; [exact E|discriminate|eauto].
Qed.

Lemma ran_app ops ops' w w' :
  ran (ops ++ ops') w w' -> exists w1, ran ops w w1 /\ ran ops' w1 w'.
Proof.
  revert w. induction ops as [|op ops IH]; intros w H; [exists w; split; [constructor|done]|].
  inversion_clear H as [|? ? ? w1 ? ok E Hok Hr]. destruct (IH _ Hr) as (w2 & H1 & H2).
  exists w2. split; [by econstructor|done].
Qed.

(** A rule that was applied is what the kernel holds. *)
Lemma apply_rule_wf w r w1 b :
  m_wf (d_kernel w) -> m_known (compile r) -> apply_rule w r = (w1, b) -> m_wf (d_kernel w1).
Proof.
  unfold apply_rule. destruct (m_execute (d_kernel w) (compile r)) as [k res] eqn:E.
  intros Hwf Hkn H. pose proof (execute_wf _ _ _ _ Hwf Hkn E).
  destruct res; by injection H as <- _.
Qed.

Lemma apply_rule_kernel w r w1 :
  m_wf (d_kernel w) -> m_known (compile r) -> apply_rule w r = (w1, true) ->
  installed (d_kernel w1) (dr_id r) = Some (m_rule (compile r)) /\
  forall id, id <> dr_id r -> installed (d_kernel w1) id = installed (d_kernel w) id.
Proof.
  unfold apply_rule. destruct (m_execute (d_kernel w) (compile r)) as [k res] eqn:E.
  intros Hwf Hkn H. split.
  - destruct res; try discriminate; injection H as <-.
    + exact (execute_applied _ _ _ _ _ Hwf Hkn E).
    + exact (execute_already _ _ _ Hwf Hkn E).
  - intros id Hid. rewrite <- (execute_frame _ _ _ _ id Hwf Hkn E Hid).
    destruct res; try discriminate; by injection H as <-.
Qed.

Lemma exec_op_wf w op w1 ok :
  m_wf (d_kernel w) -> (forall r, op = UpdatePolicy r -> m_known (compile r)) ->
  exec_op w op = (w1, ok) -> m_wf (d_kernel w1).
Proof.
  intros Hwf Hkn E. destruct op as [r|id| | | |]; cbn [exec_op] in E; try by injection E as <- _.
  - destruct (apply_rule w r) as [w2 b] eqn:Ea. injection E as <- _.
    exact (apply_rule_wf _ _ _ _ Hwf (Hkn r eq_refl) Ea).
  - destruct (m_remove_rule (d_kernel w) id) as [k res] eqn:Em.
    pose proof (remove_wf _ _ _ _ Hwf Em). destruct res; by injection E as <- _.
Qed.

Lemma exec_ops_wf ops w good bad :
  m_wf (d_kernel w) -> (forall r, In (UpdatePolicy r) ops -> m_known (compile r)) ->
  m_wf (d_kernel (exec_ops ops w good bad).1.1).
Proof.
  revert w good bad. induction ops as [|op ops IH]; intros w good bad Hwf Hkn; [done|].
  cbn [exec_ops]. destruct (exec_op w op) as [w1 ok] eqn:E.
  assert (Hw1 : m_wf (d_kernel w1)).
  { apply (exec_op_wf _ _ _ _ Hwf) with (2 := E). intros r ->. apply Hkn. by left. }
  destruct ok as [[]|]; apply IH; auto; intros r Hr; apply Hkn; by right.
Qed.

Lemma ran_updates us w w' :
  m_wf (d_kernel w) -> known_rules us -> ran (map UpdatePolicy us) w w' ->
  m_wf (d_kernel w') /\ forall id,
  (installed (d_kernel w') id = installed (d_kernel w) id /\ forall u, In u us -> dr_id u <> id)
  \/ exists u, In u us /\ dr_id u = id /\ installed (d_kernel w') id = Some (m_rule (compile u)).
Proof.
  revert w. induction us as [|u us IH]; intros w Hwf Hkn H;
    inversion H as [|? ? ? w1 ? ok E Hok Hr]; subst; clear H.
  { split; [done|]. intros id. left. split; [done|]. by intros u []. }
  cbn [exec_op] in E. destruct (apply_rule w u) as [w2 b] eqn:Ea. injection E as -> <-.
  destruct b; [|done]. pose proof (Hkn u (or_introl eq_refl)) as Hku.
  destruct (apply_rule_kernel _ _ _ Hwf Hku Ea) as [Hi Hf].
  pose proof (apply_rule_wf _ _ _ _ Hwf Hku Ea) as Hw1.
  destruct (IH _ Hw1 (fun v Hv => Hkn v (or_intror Hv)) Hr) as [Hw' IH']. split; [done|].
  intros id. destruct (IH' id) as [[E H]|(v & Hv & Hid & E)].
  - destruct (Z.eq_dec id (dr_id u)) as [->|Hne].
    + right. exists u. repeat split; [by left|]. by rewrite E.
    + left. split; [by rewrite E, Hf|]. intros v [<-|Hv]; auto.
  - right. exists v. repeat split; auto. by right.
Qed.

Lemma ran_removes ids w w' :
  m_wf (d_kernel w) -> ran (map RemovePolicy ids) w w' ->
  m_wf (d_kernel w') /\ forall id,
  (In id ids -> installed (d_kernel w') id = None) /\
  (~ In id ids -> installed (d_kernel w') id = installed (d_kernel w) id).
Proof.
  revert w. induction ids as [|i ids IH]; intros w Hwf H;
    inversion H as [|? ? ? w1 ? ok E Hok Hr]; subst; clear H; [by split|].
  cbn [exec_op] in E. destruct (m_remove_rule (d_kernel w) i) as [k res] eqn:Em.
  assert (Hk : d_kernel w1 = k /\ match res with Applied _ _ | AlreadyApplied => True | _ => False end).
  { destruct res; injection E as <- <-; try done; by destruct Hok. }
  destruct Hk as [<- Hres]. pose proof (remove_wf _ _ _ _ Hwf Em) as Hw1.
  destruct (IH _ Hw1 Hr) as [Hw' IH']. split; [done|]. intros id. destruct (IH' id) as [H1 H2].
  pose proof (remove_done _ _ _ _ Hwf Em) as Hd. pose proof (remove_frame _ _ _ _ id Hwf Em) as Hf.
  split; intros Hi; destruct (in_dec Z.eq_dec id ids) as [Hin|Hn]; auto.
  - rewrite H2 by done. destruct Hi as [->|Hi]; [|done]. by destruct res.
  - destruct Hi. by right.
  - rewrite H2 by done. apply Hf. intros ->. apply Hi. by left.
Qed.

Lemma ran_plan desired actual gen w w' :
  ran (operations (StateDiff_build desired actual gen)) w w' ->
  exists w1,
    ran (map UpdatePolicy (List.filter (outdated (active_rules actual)) (rules desired))) w w1 /\
    ran (map RemovePolicy (map ar_id
      (List.filter (unwanted (rules desired)) (active_rules actual)))) w1 w'.
Proof.
  unfold StateDiff_build. cbn [operations ReconciliationPlan_new].
  rewrite diff_updates, diff_removals. intros H. apply ran_app.
  set (ops := _ ++ _) in *. destruct ops; [|exact H].
  inversion_clear H as [|? ? ? w2 ? ok E Hok Hr]. injection E as <- _. exact Hr.
Qed.

Lemma find_rule_id id l a : find_rule id l = Some a -> ar_id a = id /\ In a l.
Proof. intros [Hin E]%find_some. split; [lia|done]. Qed.

(** What a plan needs of the mirror: a desired rule it takes for present is installed, and
    what is installed without being desired is in the mirror. *)
Definition covers (w : daemon K) (desired : list DesiredRule) : Prop :=
  (forall id, find_rule id (active_rules (d_actual w)) = None ->
     (forall r, In r desired -> dr_id r <> id) -> installed (d_kernel w) id = None) /\
  forall r, In r desired -> outdated (active_rules (d_actual w)) r = false ->
    installed (d_kernel w) (dr_id r) = Some (m_rule (compile r)).

Lemma in_sync_covers w desired : in_sync w -> covers w desired.
Proof.
  intros [Hwf Hs]. split.
  - intros id E _. by rewrite Hs, E.
  - intros r _ (a & Hf & [Ha Hfl]%rule_matches_iff)%outdated_false.
    rewrite Hs, Hf. cbn. f_equal. f_equal. apply find_rule_id in Hf as [Hid _].
    by apply compile_ext.
Qed.

(** The desired rules under the id of a rule agree with it. *)
Definition undisputed (l : list DesiredRule) (r : DesiredRule) : Prop :=
  forall u, In u l -> dr_id u = dr_id r -> dr_action u = dr_action r /\ dr_flow u = dr_flow r.

Lemma consistent_undisputed l r : consistent l -> In r l -> undisputed l r.
Proof. intros Hc Hr u Hu E. by apply Hc. Qed.

Lemma outdated_undisputed l actual u r :
  undisputed l r -> In u l -> dr_id u = dr_id r -> outdated actual u = outdated actual r.
Proof.
  intros Hc Hu E. destruct (Hc u Hu E) as [Ea Ef]. unfold outdated. rewrite E.
  destruct (find_rule _ _) as [a|]; [|done]. f_equal. apply eq_true_iff_eq.
  by rewrite !rule_matches_iff, Ea, Ef.
Qed.

(** What the operations of a plan do to one desired rule when none fails: it is installed
    when the mirror takes it for outdated, and left alone otherwise. *)
Lemma plan_rule_effect desired gen w w' r :
  m_wf (d_kernel w) -> known_rules (rules desired) ->
  ran (operations (StateDiff_build desired (d_actual w) gen)) w w' ->
  In r (rules desired) -> undisputed (rules desired) r ->
  installed (d_kernel w') (dr_id r) =
    if outdated (active_rules (d_actual w)) r then Some (m_rule (compile r))
    else installed (d_kernel w) (dr_id r).
Proof.
  intros Hwf Hkn (w1 & Hu & Hr)%ran_plan Hin Hc.
  apply ran_updates in Hu as [Hw1 Hu]; [|done|by intros u [Hi _]%filter_In; apply Hkn].
  apply ran_removes in Hr as [_ Hr]; [|done]. destruct (Hr (dr_id r)) as [_ ->].
  2: { intros (a & E & [_ Ha]%filter_In)%in_map_iff.
       assert (unwanted (rules desired) a = false) by (apply unwanted_false; eauto).
       congruence. }
  destruct (Hu (dr_id r)) as [[-> Hn]|(u & [Huin Hout]%filter_In & E & ->)].
  - destruct (outdated _ r) eqn:Hor; [|done]. destruct (Hn r); [by apply filter_In|done].
  - rewrite <- (outdated_undisputed _ _ u r Hc Huin E), Hout. f_equal. f_equal.
    destruct (Hc u Huin E). by apply compile_ext.
Qed.

(** What the operations of a plan do to the kernel when none fails: desired rules the mirror
    takes for outdated are installed, mirrored rules that are not desired are removed, and
    nothing else is touched. *)
Lemma plan_effect desired gen w w' :
  m_wf (d_kernel w) -> known_rules (rules desired) -> consistent (rules desired) ->
  ran (operations (StateDiff_build desired (d_actual w) gen)) w w' ->
  m_wf (d_kernel w') /\
  (forall r, In r (rules desired) ->
     installed (d_kernel w') (dr_id r) =
       if outdated (active_rules (d_actual w)) r then Some (m_rule (compile r))
       else installed (d_kernel w) (dr_id r)) /\
  (forall id, (forall r, In r (rules desired) -> dr_id r <> id) ->
     installed (d_kernel w') id =
       match find_rule id (active_rules (d_actual w)) with
       | Some _ => None
       | None => installed (d_kernel w) id
       end).
Proof.
  intros Hwf Hkn Hc Hran.
  pose proof (fun r Hr => plan_rule_effect desired gen w w' r Hwf Hkn Hran Hr
    (consistent_undisputed _ r Hc Hr)) as Hone.
  destruct (ran_plan _ _ _ _ _ Hran) as (w1 & Hu & Hr).
  apply ran_updates in Hu as [Hw1 Hu]; [|done|by intros u [Hin _]%filter_In; apply Hkn].
  apply ran_removes in Hr as [Hw' Hr]; [|done]. split; [done|]. split; [exact Hone|].
  intros id Hn. destruct (Hu id) as [[E _]|(u & [Huin _]%filter_In & Eid & _)];
      [|by destruct (Hn u Huin)].
    destruct (Hr id) as [H1 H2].
    destruct (find_rule id (active_rules (d_actual w))) as [a|] eqn:Ef.
    + apply find_rule_id in Ef as [<- Ha]. apply H1, in_map, filter_In. split; [done|].
      apply not_false_is_true. intros (r & Hin & Er)%unwanted_false. by apply (Hn r).
    + rewrite H2, E; [done|].
      intros (a & Ea & [Ha _]%filter_In)%in_map_iff.
      apply find_none with (x := a) in Ef; [lia|done].
Qed.

(** The kernel ends with exactly the desired rules precisely when the mirror covered it. *)
Lemma plan_enforces desired gen w w' :
  m_wf (d_kernel w) -> known_rules (rules desired) -> consistent (rules desired) ->
  ran (operations (StateDiff_build desired (d_actual w) gen)) w w' ->
  enforced w' (rules desired) <-> covers w (rules desired).
Proof.
  intros Hwf Hkn Hc Hr. destruct (plan_effect _ _ _ _ Hwf Hkn Hc Hr) as (Hw' & H1 & H2).
  unfold enforced, covers. split.
  - intros (_ & E1 & E2). split.
    + intros id Ef Hn. specialize (E2 id Hn). by rewrite (H2 id Hn), Ef in E2.
    + intros r Hin Ho. specialize (E1 r Hin). by rewrite (H1 r Hin), Ho in E1.
  - intros [E2 E1]. split; [done|]. split.
    + intros r Hin. rewrite (H1 r Hin). destruct (outdated _ r) eqn:Ho; [done|]. by apply E1.
    + intros id Hn. rewrite (H2 id Hn). destruct (find_rule id _) eqn:Ef; [done|]. by apply E2.
Qed.

(** A mirror that agrees with the kernel keeps agreeing over operations that succeed. *)
Lemma ran_in_sync ops w w' :
  (forall r, In (UpdatePolicy r) ops -> m_known (compile r)) -> ran ops w w' -> in_sync w -> in_sync w'.
Proof.
  intros Hkn H. induction H as [w|op ops w w1 w2 ok E Hok _ IH]; [done|].
  intros [Hwf Hs]. apply IH; [intros r Hr; apply Hkn; by right|].
  assert (Hwf1 : m_wf (d_kernel w1))
    by (apply (exec_op_wf _ _ _ _ Hwf) with (2 := E); intros r ->; apply Hkn; by left).
  split; [done|]. intros id. destruct op as [| | |r|i|]; cbn [exec_op] in E; try (by injection E as <- _).
  - pose proof (Hkn r (or_introl eq_refl)) as Hkr. unfold apply_rule in E.
    destruct (m_execute (d_kernel w) (compile r)) as [k res] eqn:Ex.
    pose proof (fun Hne => execute_frame _ _ _ _ id Hwf Hkr Ex Hne) as Hf.
    change (policy_id (rq_trace (compile r))) with (dr_id r) in Hf.
    destruct res; injection E as <- <-; try (by destruct Hok); cbn [d_kernel set_actual set_kernel d_actual active_rules].
    + rewrite find_mirror_update. destruct (Z.eqb_spec id (dr_id r)) as [->|Hne].
      * pose proof (execute_applied _ _ _ _ _ Hwf Hkr Ex) as Ha.
        change (policy_id (rq_trace (compile r))) with (dr_id r) in Ha. by rewrite Ha.
      * by rewrite Hf, Hs.
    + rewrite <- Hs. destruct (Z.eq_dec id (dr_id r)) as [->|Hne]; [|by apply Hf].
      exact (execute_already_same _ _ _ Hwf Hkr Ex).
  - destruct (m_remove_rule (d_kernel w) i) as [k res] eqn:Em.
    pose proof (remove_done _ _ _ _ Hwf Em) as Hd. pose proof (remove_frame _ _ _ _ id Hwf Em) as Hf.
    assert (Hk : match res with Applied _ _ | AlreadyApplied => True | _ => False end /\
      w1 = set_actual (set_kernel w k) (mirror_remove i (active_rules (d_actual w)))).
    { destruct res; injection E as <- <-; try done; by destruct Hok. }
    destruct Hk as [Hres ->]. cbn [d_kernel set_actual set_kernel d_actual active_rules].
    unfold mirror_remove. destruct (Z.eq_dec id i) as [->|Hne].
    + rewrite find_rule_filter_eq. by destruct res.
    + rewrite find_rule_filter_ne by done. by rewrite Hf, Hs.
Qed.

Lemma empty_plan_ran desired gen w :
  plan_is_empty (StateDiff_build desired (d_actual w) gen) = true ->
  ran (operations (StateDiff_build desired (d_actual w) gen)) w w.
Proof.
  unfold StateDiff_build. cbn [operations ReconciliationPlan_new]. intros He.
  apply plan_empty_updates in He as [E1 E2]. rewrite diff_updates, diff_removals, E1, E2. cbn.
  econstructor; [reflexivity|discriminate|constructor].
Qed.

(** What a successful cycle over the daemon's ports did. *)
Lemma rollback_and_fail_err {W} (P : ports W) snap e s : (rollback_and_fail P snap e s).2 <> inr ().
Proof. unfold rollback_and_fail. by destruct (p_rollback _ _ _) as [w [|]]. Qed.

Lemma commit_plan_eq uuid d desired actual plan s :
  let P := daemon_ports uuid in
  let snap := snapshot_of d desired actual plan in
  let w1 := (snapshot_save s.2 snap).1 in
  let s2 := emit_advance P ExecutionStarted (note (CallSave snap (inr ())) s.1, w1) in
  commit_plan P d desired actual plan s =
    let s3 := (note (CallExecute plan (daemon_execute uuid w1 plan).2) s2.1, (daemon_execute uuid w1 plan).1) in
    match (daemon_execute uuid w1 plan).2 with
    | inl e => rollback_and_fail P snap e s3
    | inr report =>
        if negb (success report) then rollback_and_fail P snap (steps_failed report) s3
        else
          (on_coord (enter CDone) (emit_advance P (Reconciled (execution_id report))
             (on_coord (store_generation (generation_after plan))
                (emit_advance P CommitCompleted s3))), inr ())
    end.
Proof.
  cbv zeta. unfold commit_plan, run. cbn [p_save p_execute daemon_ports].
  unfold snapshot_save at 1. cbn [fst snd].
  set (snap := snapshot_of _ _ _ _). set (w1 := mkDaemon _ _ _ _).
  change (snapshot_save s.2 snap).1 with w1.
  change (emit_advance (daemon_ports uuid) ExecutionStarted (note (CallSave snap (inr ())) s.1, w1)).2
    with w1.
  by destruct (daemon_execute uuid w1 plan) as [w2 [e|report]].
Qed.

Lemma commit_ok uuid d desired actual plan s :
  (commit_plan (daemon_ports uuid) d desired actual plan s).2 = inr () ->
  exists snap report,
    daemon_execute uuid (snapshot_save s.2 snap).1 plan =
      ((commit_plan (daemon_ports uuid) d desired actual plan s).1.2, inr report) /\
    success report = true.
Proof.
  rewrite commit_plan_eq. cbv zeta. set (snap := snapshot_of _ _ _ _). intros H. exists snap.
  remember (snapshot_save s.2 snap).1 as w1 eqn:Ew; clear Ew.
  destruct (daemon_execute uuid w1 plan) as [w2 [e|report]]; cbn [fst snd] in *.
  { exfalso. exact (rollback_and_fail_err _ _ _ _ H). }
  exists report. destruct (success report); cbn [negb] in *; [done|].
  exfalso. exact (rollback_and_fail_err _ _ _ _ H).
Qed.

Lemma advance_busy e c : c_busy (advance e c) = c_busy c.
Proof. unfold advance. by destruct (fsm_transition _ _) as [[]|]. Qed.

Lemma emit_advance_frame {W} (P : ports W) e s :
  c_busy (emit_advance P e s).1 = c_busy s.1 /\
  c_generation (emit_advance P e s).1 = c_generation s.1.
Proof.
  unfold emit_advance. cbn [fst]. by rewrite advance_busy, (proj2 (advance_log _ _)).
Qed.

Lemma read_desired_daemon uuid reason s :
  exists s', read_desired (daemon_ports uuid) reason s = (s', inr (d_desired s.2)) /\
    s'.2 = s.2 /\ c_generation s'.1 = c_generation s.1 /\ c_busy s'.1 = c_busy s.1.
Proof.
  destruct (emit_advance_frame (daemon_ports uuid) (ReconciliationRequested reason) s)
    as [E1 E2].
  eexists. split; [reflexivity|]. split; [reflexivity|]. by split.
Qed.

Lemma read_actual_daemon uuid desired s :
  exists s', read_actual (daemon_ports uuid) desired s = (s', inr (d_actual s.2)) /\
    s'.2 = s.2 /\ c_generation s'.1 = c_generation s.1 /\ c_busy s'.1 = c_busy s.1.
Proof.
  destruct (emit_advance_frame (daemon_ports uuid) (DesiredReadFinished (len (rules desired))) s)
    as [E1 E2].
  eexists. split; [reflexivity|]. split; [reflexivity|]. by split.
Qed.

(** A cycle over the daemon's ports: the providers never fail and events leave the daemon
    alone, so everything is decided by the plan. *)
Lemma reconcile_daemon_eq uuid d reason c w :
  c_busy c = false ->
  exists s, s.2 = w /\ c_generation s.1 = c_generation c /\ c_busy s.1 = false /\
    reconcile (daemon_ports uuid) d reason (c, w) =
      let plan := StateDiff_build (d_desired w) (d_actual w) (c_generation c) in
      if plan_is_empty plan then
        (on_coord (enter CDone) (emit_advance (daemon_ports uuid) (Reconciled (noop_uuid d))
           (emit_advance (daemon_ports uuid) CommitCompleted s)), inr ())
      else commit_plan (daemon_ports uuid) d (d_desired w) (d_actual w) plan s.
Proof.
  intros Hb. unfold reconcile. cbn [fst]. rewrite Hb.
  destruct (read_desired_daemon uuid reason (c, w)) as (s1 & -> & Hw1 & Hg1 & Hb1).
  cbn [fst snd] in *. set (P := daemon_ports uuid).
  destruct (read_actual_daemon uuid (d_desired w) s1) as (s2 & E2 & Hw2 & Hg2 & Hb2).
  fold P in E2. rewrite E2, Hw1. unfold plan_and_commit.
  set (ev := ActualReadFinished _).
  destruct (emit_advance_frame P ev s2) as [E3 E4].
  set (s3 := emit P PlanningStarted (emit_advance P ev s2)).
  assert (Hg3 : c_generation s3.1 = c_generation c)
    by (etransitivity; [exact E4|by rewrite Hg2, Hg1]).
  assert (Hb3 : c_busy s3.1 = false) by (etransitivity; [exact E3|by rewrite Hb2, Hb1]).
  assert (Hw3 : s3.2 = w) by (etransitivity; [exact Hw2|exact Hw1]).
  clearbody s3. rewrite Hg3. change (p_build_plan P) with StateDiff_build.
  set (plan := StateDiff_build _ _ _). set (ev2 := PlanningFinished _ _ _).
  destruct (emit_advance_frame P ev2 s3) as [E5 E6].
  exists (emit_advance P ev2 s3). repeat split; [exact Hw3|congruence|congruence].
Qed.

Lemma reconcile_ok_world uuid d reason c w :
  c_busy c = false -> (reconcile (daemon_ports uuid) d reason (c, w)).2 = inr () ->
  let w' := (reconcile (daemon_ports uuid) d reason (c, w)).1.2 in
  let plan := StateDiff_build (d_desired w) (d_actual w) (c_generation c) in
    (plan_is_empty plan = true /\ w' = w) \/
    (exists snap report, daemon_execute uuid (snapshot_save w snap).1 plan = (w', inr report) /\
       success report = true).
Proof.
  intros Hb. destruct (reconcile_daemon_eq uuid d reason c w Hb) as (s & <- & _ & _ & ->).
  set (plan := StateDiff_build _ _ _). cbv zeta.
  destruct (plan_is_empty plan) eqn:Ep; intros H; [left; by split|right].
  exact (commit_ok _ _ _ _ _ _ H).
Qed.

Lemma plan_updates_known desired actual gen r :
  known_rules (rules desired) ->
  In (UpdatePolicy r) (operations (StateDiff_build desired actual gen)) -> m_known (compile r).
Proof.
  intros Hkn. unfold StateDiff_build. cbn [operations ReconciliationPlan_new].
  rewrite diff_updates, diff_removals. set (ops := _ ++ _). intros Hin.
  assert (H : In (UpdatePolicy r) ops) by (destruct ops; [by destruct Hin as [|[]]|done]).
  unfold ops in H. apply in_app_iff in H as [(u & [= ->] & [Hu _]%filter_In)%in_map_iff|H].
  - by apply Hkn.
  - by apply in_map_iff in H as (id & ? & _).
Qed.

(** A successful cycle ran the operations of its plan. *)
Lemma reconcile_ran uuid d reason c w :
  (reconcile (daemon_ports uuid) d reason (c, w)).2 = inr () ->
  exists snapshots,
    let w0 := mkDaemon (d_desired w) (d_actual w) (d_kernel w) snapshots in
    ran (operations (StateDiff_build (d_desired w) (d_actual w) (c_generation c))) w0
      (reconcile (daemon_ports uuid) d reason (c, w)).1.2.
Proof.
  intros Hok. assert (Hb : c_busy c = false).
  { destruct (c_busy c) eqn:Hb; [|done]. unfold reconcile in Hok. cbn [fst] in Hok. by rewrite Hb in Hok. }
  destruct (reconcile_ok_world uuid d reason c w Hb Hok) as [[He ->]|(snap & r & E & Hr)].
  - exists (d_snapshots w). destruct w. by apply empty_plan_ran.
  - eexists. unfold daemon_execute in E. destruct (exec_ops _ _ 0 0) as [[w' good] bad] eqn:Ex.
    injection E as <- <-. cbn in Hr. replace bad with 0 in Ex by lia.
    exact (exec_ops_ran _ _ _ _ _ Ex).
Qed.

Lemma ran_wf ops w w' :
  (forall r, In (UpdatePolicy r) ops -> m_known (compile r)) -> ran ops w w' ->
  m_wf (d_kernel w) -> m_wf (d_kernel w').
Proof.
  intros Hkn H. induction H as [w|op ops w w1 w2 ok E Hok _ IH]; [done|]. intros Hwf.
  apply IH; [intros r Hr; apply Hkn; by right|].
  apply (exec_op_wf _ _ _ _ Hwf) with (2 := E). intros r ->. apply Hkn. by left.
Qed.

Lemma reconcile_wf uuid d reason c w :
  m_wf (d_kernel w) -> known_rules (rules (d_desired w)) ->
  (reconcile (daemon_ports uuid) d reason (c, w)).2 = inr () ->
  m_wf (d_kernel (reconcile (daemon_ports uuid) d reason (c, w)).1.2).
Proof.
  intros Hwf Hkn Hok. destruct (reconcile_ran uuid d reason c w Hok) as [snaps Hr].
  exact (ran_wf _ _ _ (fun r => plan_updates_known _ _ _ r Hkn) Hr Hwf).
Qed.

Lemma reconcile_enforces uuid d reason c w :
  m_wf (d_kernel w) -> known_rules (rules (d_desired w)) -> consistent (rules (d_desired w)) ->
  (reconcile (daemon_ports uuid) d reason (c, w)).2 = inr () ->
  enforced (reconcile (daemon_ports uuid) d reason (c, w)).1.2 (rules (d_desired w)) <->
  covers w (rules (d_desired w)).
Proof.
  intros Hwf Hkn Hc Hok. destruct (reconcile_ran uuid d reason c w Hok) as [snaps Hr].
  exact (plan_enforces (d_desired w) (c_generation c)
    (mkDaemon (d_desired w) (d_actual w) (d_kernel w) snaps) _ Hwf Hkn Hc Hr).
Qed.

Lemma reconcile_rule_effect uuid d reason c w r :
  m_wf (d_kernel w) -> known_rules (rules (d_desired w)) ->
  In r (rules (d_desired w)) -> undisputed (rules (d_desired w)) r ->
  (reconcile (daemon_ports uuid) d reason (c, w)).2 = inr () ->
  installed (d_kernel (reconcile (daemon_ports uuid) d reason (c, w)).1.2) (dr_id r) =
    if outdated (active_rules (d_actual w)) r then Some (m_rule (compile r))
    else installed (d_kernel w) (dr_id r).
Proof.
  intros Hwf Hkn Hin Hc Hok. destruct (reconcile_ran uuid d reason c w Hok) as [snaps Hr].
  exact (plan_rule_effect (d_desired w) (c_generation c)
    (mkDaemon (d_desired w) (d_actual w) (d_kernel w) snaps) _ r Hwf Hkn Hr Hin Hc).
Qed.

Lemma reconcile_in_sync uuid d reason c w :
  known_rules (rules (d_desired w)) ->
  (reconcile (daemon_ports uuid) d reason (c, w)).2 = inr () ->
  in_sync w -> in_sync (reconcile (daemon_ports uuid) d reason (c, w)).1.2.
Proof.
  intros Hkn Hok Hs. destruct (reconcile_ran uuid d reason c w Hok) as [snaps Hr].
  apply (ran_in_sync _ _ _ (fun r => plan_updates_known _ _ _ r Hkn) Hr Hs).
Qed.

(** End to end: a reconcile cycle that reports success leaves the kernel holding exactly
    the compiled desired rules precisely when the mirror covered the kernel before, as a
    mirror that agrees with it does; and such a mirror agrees afterwards too. *)
Theorem successful_reconcile_enforces uuid d reason c w :
  m_wf (d_kernel w) -> known_rules (rules (d_desired w)) -> consistent (rules (d_desired w)) ->
  (reconcile (daemon_ports uuid) d reason (c, w)).2 = inr () ->
  let w' := (reconcile (daemon_ports uuid) d reason (c, w)).1.2 in
  (enforced w' (rules (d_desired w)) <-> covers w (rules (d_desired w))) /\
  (in_sync w -> covers w (rules (d_desired w)) /\ in_sync w').
Proof.
  intros Hwf Hkn Hc Hok w'. split; [by apply reconcile_enforces|].
  intros Hs. split; [by apply in_sync_covers|by apply reconcile_in_sync].
Qed.

(** ** What a failed cycle leaves behind *)

Lemma revert_rules_frame ids k id :
  m_wf k -> ~ In id ids -> installed (revert_rules ids k) id = installed k id.
Proof.
  revert k. induction ids as [|i ids IH]; intros k Hwf Hn; [done|]. cbn [revert_rules].
  destruct (m_remove_rule k i) as [k' res] eqn:E. cbn.
  rewrite IH; [|exact (remove_wf _ _ _ _ Hwf E)|intros H; apply Hn; by right].
  apply (remove_frame _ _ _ _ _ Hwf E). intros ->. apply Hn. by left.
Qed.

Lemma rollback_frame w snap id :
  m_wf (d_kernel w) -> In id (map ar_id (active_rules (s_actual snap))) ->
  installed (d_kernel (daemon_rollback w snap).1) id = installed (d_kernel w) id.
Proof.
  intros Hwf Hin. unfold daemon_rollback. cbn [fst d_kernel]. apply revert_rules_frame; [done|].
  intros [_ Hn]%filter_In. apply negb_true_iff in Hn.
  assert (He : existsb (Z.eqb id) (map ar_id (active_rules (s_actual snap))) = true)
    by (apply existsb_exists; exists id; by rewrite Z.eqb_refl).
  congruence.
Qed.

Lemma daemon_execute_wf uuid w plan :
  m_wf (d_kernel w) -> (forall r, In (UpdatePolicy r) (operations plan) -> m_known (compile r)) ->
  m_wf (d_kernel (daemon_execute uuid w plan).1).
Proof.
  intros Hwf Hkn. unfold daemon_execute. pose proof (exec_ops_wf _ w 0 0 Hwf Hkn) as H.
  by destruct (exec_ops _ w 0 0) as [[w' good] bad].
Qed.

(** A rollback over the daemon's ports is [daemon_rollback]. *)
Lemma rollback_and_fail_world uuid snap e s :
  (rollback_and_fail (daemon_ports uuid) snap e s).1.2 = (daemon_rollback s.2 snap).1.
Proof. reflexivity. Qed.

Lemma commit_err uuid d desired actual plan s :
  (commit_plan (daemon_ports uuid) d desired actual plan s).2 <> inr () ->
  exists snap, s_actual snap = actual /\
    (commit_plan (daemon_ports uuid) d desired actual plan s).1.2 =
      (daemon_rollback (daemon_execute uuid (snapshot_save s.2 snap).1 plan).1 snap).1.
Proof.
  rewrite commit_plan_eq. cbv zeta. set (snap := snapshot_of _ _ _ _). intros H. exists snap.
  split; [done|]. remember (snapshot_save s.2 snap).1 as w1 eqn:Ew; clear Ew.
  destruct (daemon_execute uuid w1 plan) as [w2 [e|report]]; cbn [fst snd] in *.
  { apply rollback_and_fail_world. }
  destruct (success report); cbn [negb] in *; [by destruct H|].
  apply rollback_and_fail_world.
Qed.

(** The desired state is the configuration's: a cycle never writes it. *)
Lemma exec_op_desired w op : d_desired (exec_op w op).1 = d_desired w.
Proof.
  destruct op as [r|id| | | |]; cbn [exec_op]; try done.
  - unfold apply_rule. destruct (m_execute _ _) as [k []]; done.
  - destruct (m_remove_rule _ _) as [k []]; done.
Qed.

Lemma exec_ops_desired ops w good bad : d_desired (exec_ops ops w good bad).1.1 = d_desired w.
Proof.
  revert w good bad. induction ops as [|op ops IH]; intros w good bad; [done|]. cbn [exec_ops].
  pose proof (exec_op_desired w op) as H. destruct (exec_op w op) as [w1 [[]|]]; by rewrite IH.
Qed.

Lemma commit_keeps_desired uuid d desired actual plan s :
  d_desired (commit_plan (daemon_ports uuid) d desired actual plan s).1.2 = d_desired s.2.
Proof.
  rewrite commit_plan_eq. cbv zeta. set (snap := snapshot_of _ _ _ _).
  pose proof (exec_ops_desired (operations plan) (snapshot_save s.2 snap).1 0 0) as H.
  unfold daemon_execute. destruct (exec_ops _ _ 0 0) as [[w2 good] bad]. cbn [fst snd] in *.
  destruct (success _); cbn [negb]; [exact H|]. rewrite rollback_and_fail_world. exact H.
Qed.

Lemma reconcile_keeps_desired uuid d reason c w :
  d_desired (reconcile (daemon_ports uuid) d reason (c, w)).1.2 = d_desired w.
Proof.
  destruct (c_busy c) eqn:Hb; [unfold reconcile; cbn [fst]; by rewrite Hb|].
  destruct (reconcile_daemon_eq uuid d reason c w Hb) as (s & <- & _ & _ & ->). cbv zeta.
  destruct (plan_is_empty _); [done|]. apply commit_keeps_desired.
Qed.

(** A rule the mirror takes for present is not touched by a successful cycle. *)
Lemma reconcile_skips uuid d reason c w r :
  c_busy c = false -> m_wf (d_kernel w) -> known_rules (rules (d_desired w)) ->
  consistent (rules (d_desired w)) -> In r (rules (d_desired w)) ->
  outdated (active_rules (d_actual w)) r = false ->
  (reconcile (daemon_ports uuid) d reason (c, w)).2 = inr () ->
  installed (d_kernel (reconcile (daemon_ports uuid) d reason (c, w)).1.2) (dr_id r) =
    installed (d_kernel w) (dr_id r).
Proof.
  intros Hb Hwf Hkn Hc Hin Ho Hok.
  destruct (reconcile_ok_world uuid d reason c w Hb Hok) as [[_ ->]|(snap & rep & E & Hr)]; [done|].
  set (w' := (reconcile _ _ _ _).1.2) in *. clearbody w'. unfold daemon_execute in E.
  destruct (exec_ops _ _ 0 0) as [[w2 good] bad] eqn:Ex. injection E as -> <-. cbn in Hr.
  replace bad with 0 in Ex by lia. apply exec_ops_ran, ran_plan in Ex as (w1 & Hu & Hrm).
  apply ran_updates in Hu as [Hw1 Hu]; [|done|by intros u [Hi _]%filter_In; apply Hkn].
  apply ran_removes in Hrm as [_ Hrm]; [|done]. destruct (Hrm (dr_id r)) as [_ ->].
  - destruct (Hu (dr_id r)) as [[-> _]|(u & [Hui Huo]%filter_In & Eid & _)]; [done|].
    exfalso. destruct (Hc u r Hui Hin Eid) as [Ea Ef].
    apply outdated_false in Ho as (a & Hf & Hm). rewrite <- Eid in Hf.
    unfold outdated in Huo. rewrite Hf in Huo. apply negb_true_iff in Huo.
    apply rule_matches_iff in Hm. rewrite <- Ea, <- Ef in Hm. apply rule_matches_iff in Hm. congruence.
  - intros (a & E & [_ Ha]%filter_In)%in_map_iff.
    assert (unwanted (rules (d_desired w)) a = false) by (apply unwanted_false; eauto).
    congruence.
Qed.

(** A failed cycle restores the daemon's mirror but not the kernel: every rule of the
    pre-execution mirror is left in the kernel as the failed execution left it, updated
    or removed rules included, while the mirror claims the old state again. *)
Theorem failed_reconcile_keeps_kernel_changes uuid d reason c w :
  c_busy c = false -> m_wf (d_kernel w) -> known_rules (rules (d_desired w)) ->
  (reconcile (daemon_ports uuid) d reason (c, w)).2 <> inr () ->
  let w' := (reconcile (daemon_ports uuid) d reason (c, w)).1.2 in
  let plan := StateDiff_build (d_desired w) (d_actual w) (c_generation c) in
  d_actual w' = d_actual w /\
  exists snap, forall id, In id (map ar_id (active_rules (d_actual w))) ->
    installed (d_kernel w') id =
    installed (d_kernel (daemon_execute uuid (snapshot_save w snap).1 plan).1) id.
Proof.
  intros Hb Hwf Hkn.
  destruct (reconcile_daemon_eq uuid d reason c w Hb) as (s & <- & _ & _ & ->).
  set (plan := StateDiff_build _ _ _). cbv zeta.
  destruct (plan_is_empty plan); [by intros []|]. intros H.
  destruct (commit_err _ _ _ _ _ _ H) as (snap & Ea & ->). split.
  - unfold daemon_rollback. cbn [fst d_actual]. exact Ea.
  - exists snap. intros id Hin. apply rollback_frame; [|by rewrite Ea].
    apply daemon_execute_wf; [exact Hwf|]. intros r. by apply plan_updates_known.
Qed.
End Enforcement.

(** ** The ownership loop after a resync *)

(** The executor answers [AlreadyApplied] to a request that is installed (service.rs). *)
Class Idempotent (K : Type) {mech : Mechanism K} :=
  execute_idempotent (k : K) (rq : ActionRequest) :
    m_wf k -> m_known rq -> installed k (policy_id (rq_trace rq)) = Some (m_rule rq) ->
    m_execute k rq = (k, AlreadyApplied).

(** The reported inventory is the kernel's. *)
Class Inventory (K : Type) {mech : Mechanism K} :=
  actual_rule_ids_spec (k : K) id :
    m_wf k -> In id (m_actual_rule_ids k) <-> is_Some (installed k id).

Section Resync.
Context {K : Type} {mech : Mechanism K} {idem : Idempotent K} {inventory : Inventory K}.

Lemma apply_installed (w : daemon K) r :
  m_wf (d_kernel w) -> m_known (compile r) ->
  installed (d_kernel w) (dr_id r) = Some (m_rule (compile r)) -> apply_rule w r = (w, true).
Proof.
  intros Hwf Hkn H. unfold apply_rule.
  rewrite (execute_idempotent (d_kernel w) (compile r) Hwf Hkn H).
  by destruct w.
Qed.

Lemma exec_installed us (w : daemon K) good :
  m_wf (d_kernel w) -> known_rules us ->
  Forall (fun u => installed (d_kernel w) (dr_id u) = Some (m_rule (compile u))) us ->
  exec_ops (map UpdatePolicy us) w good 0 = (w, good + len us, 0).
Proof.
  intros Hwf. revert good. induction us as [|u us IH]; intros good Hkn H.
  - cbn. by rewrite Z.add_0_r.
  - inversion_clear H as [|? ? Hu Hus]. cbn [map exec_ops exec_op].
    rewrite (apply_installed w u Hwf (Hkn u (or_introl eq_refl)) Hu).
    rewrite (IH _ (fun v Hv => Hkn v (or_intror Hv)) Hus). f_equal. f_equal. unfold len.
    cbn [length]. lia.
Qed.

(** The state a resync leaves: the kernel is right, the mirror holds placeholders, and
    some desired rule is not a plain [Allow]. *)
Record resynced (w : daemon K) : Prop := {
  rs_enforced : enforced w (rules (d_desired w));
  rs_known : known_rules (rules (d_desired w));
  rs_mirror : d_actual w = d_actual (sync_actual_from_executor w);
  rs_rule : exists r, In r (rules (d_desired w)) /\ rule_matches (placeholder (dr_id r)) r = false;
}.

Lemma find_placeholder ids id :
  In id ids -> find_rule id (map placeholder ids) = Some (placeholder id).
Proof.
  unfold find_rule. induction ids as [|i ids IH]; [done|]. intros Hin. cbn.
  destruct (i =? id) eqn:E; [by replace i with id by lia|].
  apply IH. destruct Hin as [->|Hin]; [lia|done].
Qed.

(** The plan re-issues rules the kernel already has, and nothing else. *)
Lemma resynced_plan w gen :
  resynced w ->
  let us := List.filter (outdated (active_rules (d_actual w))) (rules (d_desired w)) in
  us <> [] /\ operations (StateDiff_build (d_desired w) (d_actual w) gen) = map UpdatePolicy us /\
  known_rules us /\
  Forall (fun u => installed (d_kernel w) (dr_id u) = Some (m_rule (compile u))) us.
Proof.
  intros [(Hwf & He1 & He2) Hkn Hm (r & Hr & Hne)] us.
  assert (Hus : us <> []).
  { intros E. assert (Hin : In r us); [|by rewrite E in Hin].
    apply filter_In. split; [done|]. rewrite Hm. unfold outdated.
    cbn [sync_actual_from_executor set_actual d_actual active_rules].
    rewrite find_placeholder, Hne; [done|]. apply actual_rule_ids_spec; [done|]. rewrite He1; eauto. }
  split; [done|]. split; [|split].
  - unfold StateDiff_build. cbn [operations ReconciliationPlan_new].
    rewrite diff_updates, diff_removals. fold us.
    replace (List.filter (unwanted (rules (d_desired w))) (active_rules (d_actual w)))
      with (@nil ActualRule); [cbn; rewrite app_nil_r; by destruct us|].
    symmetry. apply filter_nil. rewrite Hm.
    cbn [sync_actual_from_executor set_actual d_actual active_rules]. intros a (id & <- & Hid)%in_map_iff.
    apply unwanted_false. apply actual_rule_ids_spec in Hid; [|done]. cbn.
    destruct (existsb (fun r => dr_id r =? id) (rules (d_desired w))) eqn:Ex.
    + apply existsb_exists in Ex as (r' & Hr' & E'). exists r'. split; [done|lia].
    + exfalso. rewrite He2 in Hid; [by destruct Hid|]. intros r' Hr' E'.
      assert (existsb (fun r => dr_id r =? id) (rules (d_desired w)) = true); [|congruence].
      apply existsb_exists. exists r'. split; [done|lia].
  - intros u [Hu _]%filter_In. by apply Hkn.
  - apply List.Forall_forall. intros u [Hu _]%filter_In. by apply He1.
Qed.

Lemma updates_not_empty gen us :
  us <> [] ->
  plan_is_empty (ReconciliationPlan_new gen (map UpdatePolicy us)) = false /\
  generation_after (ReconciliationPlan_new gen (map UpdatePolicy us)) = u64 (gen + 1).
Proof. by destruct us as [|u us]. Qed.

(** One cycle from there. *)
Lemma resynced_cycle uuid d reason c w :
  c_busy c = false -> resynced w ->
  let r := reconcile (daemon_ports uuid) d reason (c, w) in
  r.2 = inr () /\ resynced r.1.2 /\ c_busy r.1.1 = false /\
  c_generation r.1.1 = u64 (c_generation c + 1) /\
  exists snap, r.1.2 = (snapshot_save w snap).1 /\ m_generation (s_metadata snap) = c_generation c.
Proof.
  intros Hb Hw.
  destruct (reconcile_daemon_eq uuid d reason c w Hb) as (s & Hs & Hg & Hbs & ->).
  pose proof (resynced_plan w (c_generation c) Hw) as (Hus & Hops & Hkn & Hin).
  set (us := List.filter _ _) in *. set (plan := StateDiff_build _ _ _) in *. cbv zeta.
  assert (Hplan : plan = ReconciliationPlan_new (c_generation c) (map UpdatePolicy us)).
  { unfold plan, StateDiff_build in *. cbn [operations ReconciliationPlan_new] in Hops.
    by rewrite Hops. }
  destruct (updates_not_empty (c_generation c) us Hus) as [He Hga].
  rewrite <- Hplan in He, Hga. rewrite He, commit_plan_eq. cbv zeta.
  set (snap := snapshot_of _ _ _ _). set (w1 := (snapshot_save s.2 snap).1).
  assert (Hk : d_kernel w1 = d_kernel w) by (by unfold w1; rewrite Hs).
  assert (Ex : daemon_execute uuid w1 plan =
    (w1, inr (ExecutionReport_new uuid (operations plan) (0 + len us) 0))).
  { unfold daemon_execute. rewrite Hops, exec_installed; try done; rewrite Hk; [|done].
    apply Hw. }
  rewrite Ex. cbn [fst snd ExecutionReport_new success Z.eqb negb on_coord].
  assert (Hw1 : resynced w1).
  { destruct Hw as [H1 H2 Hm Hr]. unfold w1. rewrite Hs. by split. }
  split; [done|]. split; [exact Hw1|]. cbn [enter c_busy c_generation fst].
  set (P := daemon_ports uuid). set (s3 := (note (CallExecute plan _) _, w1)).
  destruct (emit_advance_frame P (Reconciled uuid) (store_generation (generation_after plan)
    (emit_advance P CommitCompleted s3).1, (emit_advance P CommitCompleted s3).2)) as [E1 E2].
  split; [|split; [by rewrite <- Hga|]].
  2: { exists snap. split.
       - transitivity w1; [reflexivity|]. unfold w1. by rewrite Hs.
       - unfold snap. by rewrite Hplan. }
  etransitivity; [exact E1|]. cbn [fst store_generation c_busy].
  rewrite (proj1 (emit_advance_frame P CommitCompleted s3)). unfold s3. cbn [fst note c_busy].
  by rewrite (proj1 (emit_advance_frame _ _ _)).
Qed.

(** Another resync changes nothing. *)
Lemma resynced_sync w : resynced w -> resynced (sync_actual_from_executor w).
Proof. intros [H Hk Hm Hr]. by split. Qed.

(** [r'] is [r] after a cycle that re-applied installed rules. *)
Definition churned (r r' : Reconciler K) : Prop :=
  c_busy (r_coord r') = false /\ resynced (r_daemon r') /\
  c_generation (r_coord r') = u64 (c_generation (r_coord r) + 1) /\
  d_desired (r_daemon r') = d_desired (r_daemon r) /\
  forall g, g = c_generation (r_coord r) \/ is_Some (d_snapshots (r_daemon r) !! g) ->
    is_Some (d_snapshots (r_daemon r') !! g).

Lemma resynced_step every uuid d n r :
  c_busy (r_coord r) = false ->
  resynced (r_daemon r) \/ (0 <? every) && (n mod every =? 0) = true /\
    resynced (sync_actual_from_executor (r_daemon r)) ->
  churned r (loop_step every uuid d n r).
Proof.
  intros Hb Hw. unfold loop_step. set (r1 := if _ && _ then _ else r).
  assert (H1 : r_coord r1 = r_coord r /\ resynced (r_daemon r1) /\
    d_desired (r_daemon r1) = d_desired (r_daemon r) /\
    d_snapshots (r_daemon r1) = d_snapshots (r_daemon r)).
  { unfold r1. destruct Hw as [Hw|[-> Hw]]; [|done].
    destruct (_ && _); [|done]. repeat split; by apply resynced_sync. }
  clearbody r1. destruct H1 as (Hc & Hw1 & Hd & Hs). unfold run_coordinator. rewrite Hc.
  destruct (resynced_cycle uuid d Scheduled (r_coord r) (r_daemon r1) Hb Hw1)
    as (_ & H2 & H3 & H4 & snap & H5 & H6).
  destruct (reconcile _ _ _ _) as [[c w] res]. cbn [fst snd] in *. subst w.
  repeat split; try done; try apply H2. intros g Hg. cbn [d_snapshots snapshot_save fst r_daemon].
  rewrite Hs, H6. destruct (Z.eq_dec g (c_generation (r_coord r))) as [->|Hne].
  - rewrite lookup_insert, decide_True; eauto.
  - rewrite lookup_insert_ne by congruence. by destruct Hg.
Qed.

Lemma run_loop_churns every ds n r :
  c_busy (r_coord r) = false -> 0 <= c_generation (r_coord r) <= u64_max ->
  resynced (r_daemon r) ->
  let r' := run_loop every ds n r in
  resynced (r_daemon r') /\ d_desired (r_daemon r') = d_desired (r_daemon r) /\
  c_generation (r_coord r') = u64 (c_generation (r_coord r) + len ds) /\
  (forall g, is_Some (d_snapshots (r_daemon r) !! g) -> is_Some (d_snapshots (r_daemon r') !! g)) /\
  forall i, 0 <= i < len ds ->
    is_Some (d_snapshots (r_daemon r') !! u64 (c_generation (r_coord r) + i)).
Proof.
  revert n r. induction ds as [|[uuid d] ds IH]; intros n r Hb Hg Hw; cbn [run_loop].
  { unfold len. cbn [length]. repeat split; auto; try apply Hw; [|lia].
    unfold u64_max in Hg. unfold wrap. rewrite Z.mod_small; lia. }
  destruct (resynced_step every uuid d n r Hb (or_introl Hw)) as (Hb1 & Hw1 & Hg1 & Hd1 & Hs1).
  set (r1 := loop_step _ _ _ _ _) in *. clearbody r1.
  assert (Hr1 : 0 <= c_generation (r_coord r1) <= u64_max)
    by (rewrite Hg1; unfold wrap, u64_max; pose proof (Z.mod_pos_bound
          (c_generation (r_coord r) + 1) (2 ^ 64) ltac:(lia)); lia).
  destruct (IH (u32 (n + 1)) r1 Hb1 Hr1 Hw1) as (H1 & H2 & H3 & H4 & H5).
  assert (Hu : forall i, u64 (c_generation (r_coord r1) + i) = u64 (c_generation (r_coord r) + (1 + i))).
  { intros i. rewrite Hg1. unfold wrap. rewrite Zplus_mod_idemp_l. f_equal. lia. }
  assert (El : len ((uuid, d) :: ds) = 1 + len ds) by (unfold len; cbn [length]; lia).
  rewrite El. split; [done|]. split; [congruence|]. split; [by rewrite H3, Hu|].
  split; [auto|]. intros i Hi. destruct (Z.eq_dec i 0) as [->|Hne].
  - apply H4, Hs1. left. rewrite Z.add_0_r. unfold u64_max in Hg. unfold wrap.
    rewrite Z.mod_small; lia.
  - replace i with (1 + (i - 1)) by lia. rewrite <- Hu. apply H5. lia.
Qed.

(** With the periodic inventory resync on, the ownership loop never settles.  Once the
    kernel holds exactly the desired rules, one of which is not a plain [Allow], the
    resync replaces the mirror by placeholders, the executor answers [AlreadyApplied] to
    the rules the planner re-issues, the mirror is therefore never repaired, and every
    later cycle plans, snapshots, executes and commits the same rules again: after [n]
    cycles the generation is [n] higher and [n] more snapshots are kept, with nothing
    changed in the kernel's rules. *)
Theorem resync_never_settles every ds r :
  0 < every -> ds <> [] -> c_busy (r_coord r) = false ->
  0 <= c_generation (r_coord r) <= u64_max ->
  enforced (r_daemon r) (rules (d_desired (r_daemon r))) ->
  known_rules (rules (d_desired (r_daemon r))) ->
  (exists x, In x (rules (d_desired (r_daemon r))) /\
     rule_matches (placeholder (dr_id x)) x = false) ->
  let r' := run_loop every ds 0 r in
  enforced (r_daemon r') (rules (d_desired (r_daemon r))) /\
  c_generation (r_coord r') = u64 (c_generation (r_coord r) + len ds) /\
  (forall i, 0 <= i < len ds ->
     is_Some (d_snapshots (r_daemon r') !! u64 (c_generation (r_coord r) + i))) /\
  plan_is_empty (dry_run r') = false.
Proof.
  intros He Hds Hb Hg Hk Hkn Hx. cbv zeta. set (r0 := mkReconciler (r_coord r)
    (sync_actual_from_executor (r_daemon r)) (r_raw r) (r_fingerprint r)).
  assert (Hw : resynced (r_daemon r0)) by (by split).
  assert (E : run_loop every ds 0 r = run_loop every ds 0 r0).
  { destruct ds as [|[uuid d] ds]; [done|]. cbn [run_loop]. unfold loop_step.
    replace ((0 <? every) && (0 mod every =? 0)) with true; [done|].
    symmetry. rewrite Z.mod_0_l by lia. lia. }
  rewrite E. destruct (run_loop_churns every ds 0 r0 Hb Hg Hw) as (H1 & H2 & H3 & _ & H5).
  split; [|split; [done|split; [done|]]].
  - rewrite <- (eq_refl : d_desired (r_daemon r0) = d_desired (r_daemon r)), <- H2. apply H1.
  - set (r' := run_loop _ _ _ _) in *. clearbody r'. unfold dry_run, build_plan.
    destruct (resynced_plan _ (c_generation (r_coord r')) H1) as (Hus & Hops & _ & _).
    unfold StateDiff_build in *. cbn [operations ReconciliationPlan_new] in Hops. rewrite Hops.
    by apply updates_not_empty.
Qed.
End Resync.

(** ** A mechanism in memory

    It keeps the last request of each rule id, and refuses the actions the nftables
    executor has no rule for. *)

Definition nft_supported (a : Action) : bool :=
  match a with Block | Allow | Reject | Queue _ | Mark _ => true | _ => false end.

Definition mem_execute (k : gmap Z ActionRequest) (rq : ActionRequest) :
    gmap Z ActionRequest * ActionResult :=
  let id := policy_id (rq_trace rq) in
  if decide (k !! id = Some rq) then (k, AlreadyApplied)
  else if nft_supported (rq_action rq) then (<[id := rq]> k, Applied 0 (Some id))
  else (k, Unsupported (action_type (rq_action rq))).

#[export] Instance mem_mechanism : Mechanism (gmap Z ActionRequest).
Proof.
  refine {| kernel_rule := ActionRequest; m_rule := id;
            m_known := fun _ => True; m_wf := fun _ => True;
            m_execute := mem_execute;
            m_remove_rule := fun k id => (delete id k, Applied 0 (Some id));
            m_actual_rule_ids := fun k => map fst (map_to_list k);
            installed := fun k id => k !! id |}; try done.
  - intros k rq k' t rid _ _. unfold mem_execute. case_decide; [done|].
    destruct (nft_supported _); [|done]. intros [= <- _ _]. by rewrite lookup_insert, decide_True.
  - intros k rq k' _ _. unfold mem_execute. case_decide as H; [by intros [= <-]|].
    by destruct (nft_supported _).
  - intros k rq k' _ _. unfold mem_execute. case_decide as H; [by intros [= <-]|].
    by destruct (nft_supported _).
  - intros k rq k' res id _ _. unfold mem_execute. case_decide; [by intros [= <- _]|].
    destruct (nft_supported _); intros [= <- _] Hne; [|done]. by rewrite lookup_insert_ne.
  - intros k id k' res _ [= <- <-]. by rewrite lookup_delete, decide_True.
  - intros k id k' res id' _ [= <- _] Hne. by rewrite lookup_delete_ne.
Defined.

#[export] Instance mem_inventory : Inventory (gmap Z ActionRequest).
Proof.
  intros k id _. cbn [m_actual_rule_ids installed mem_mechanism]. rewrite in_map_iff. split.
  - intros ([i v] & <- & H). exists v. by apply elem_of_map_to_list, list_elem_of_In.
  - intros [v H]. exists (id, v). split; [done|]. by apply list_elem_of_In, elem_of_map_to_list.
Qed.

#[export] Instance mem_idempotent : Idempotent (gmap Z ActionRequest).
Proof. intros k rq _ _ H. cbn. unfold mem_execute. by rewrite decide_True. Qed.

Definition block1 : DesiredRule := mkRule 1 Block 10 None.
Definition allow2 : DesiredRule := mkRule 2 Allow 10 None.
Definition reject1 : DesiredRule := mkRule 1 Reject 10 None.
Definition log3 : DesiredRule := mkRule 3 Log 10 None.

(** Rules 1 and 2 are installed and mirrored. *)
Definition running (desired : list DesiredRule) : daemon (gmap Z ActionRequest) :=
  mkDaemon (mkDesired desired [])
    (mkActual [mkActualRule 1 Block (Some 1) None; mkActualRule 2 Allow (Some 2) None])
    (<[1 := compile block1]> (<[2 := compile allow2]> ∅)) ∅.

Lemma running_in_sync desired : in_sync (running desired).
Proof.
  split; [done|]. intros id. destruct (decide (id = 1)) as [->|H1]; [vm_compute; reflexivity|].
  destruct (decide (id = 2)) as [->|H2]; [vm_compute; reflexivity|].
  cbn [running d_kernel d_actual active_rules installed mem_mechanism].
  rewrite !lookup_insert_ne, lookup_empty by congruence.
  unfold find_rule. cbn [List.find ar_id].
  by replace (1 =? id) with false by lia; replace (2 =? id) with false by lia.
Qed.

Lemma successful_reconcile_enforces_witness :
  enforced (reconcile (daemon_ports 7) (mkDraws 1 2 3) Scheduled
    (Coordinator_new, running [reject1])).1.2 [reject1].
Proof.
  destruct (successful_reconcile_enforces 7 (mkDraws 1 2 3) Scheduled Coordinator_new
    (running [reject1])) as [H Hs].
  - done.
  - done.
  - by intros r r' [<-|[]] [<-|[]] _.
  - vm_compute. reflexivity.
  - apply H, Hs, running_in_sync.
Defined.

(** Rule 3 is refused; the mirror is restored while the kernel keeps the changed rule 1
    and has lost rule 2. *)
Lemma failed_reconcile_keeps_kernel_changes_witness :
  let w' := (reconcile (daemon_ports 7) (mkDraws 1 2 3) Scheduled
    (Coordinator_new, running [reject1; log3])).1.2 in
  d_actual w' = d_actual (running []) /\
  installed (d_kernel w') 1 = Some (compile reject1) /\ installed (d_kernel w') 2 = None.
Proof.
  destruct (failed_reconcile_keeps_kernel_changes 7 (mkDraws 1 2 3) Scheduled Coordinator_new
    (running [reject1; log3])) as (Ha & snap & Hk).
  - reflexivity.
  - done.
  - done.
  - vm_compute. discriminate.
  - split; [exact Ha|]. rewrite (Hk 1), (Hk 2) by (vm_compute; tauto).
    split; vm_compute; reflexivity.
Defined.

(** Block rule 1 and plain [Allow] rule 2 are in force; the loop resyncs every third cycle. *)
Definition settled : Reconciler (gmap Z ActionRequest) :=
  mkReconciler Coordinator_new (running [block1; allow2]) None None.

Lemma resync_never_settles_witness :
  let r' := run_loop 3 (replicate 5 (7, mkDraws 1 2 3)) 0 settled in
  enforced (r_daemon r') [block1; allow2] /\ c_generation (r_coord r') = 6 /\
  plan_is_empty (dry_run r') = false.
Proof.
  destruct (resync_never_settles 3 (replicate 5 (7, mkDraws 1 2 3)) settled)
    as (H1 & H2 & _ & H4).
  - lia.
  - discriminate.
  - reflexivity.
  - vm_compute. split; discriminate.
  - apply (plan_enforces (mkDesired [block1; allow2] []) 1 (running [block1; allow2])); try done.
    + intros x y [<-|[<-|[]]] [<-|[<-|[]]]; done.
    + apply (empty_plan_ran (mkDesired [block1; allow2] []) 1 (running [block1; allow2])). vm_compute. reflexivity.
    + apply in_sync_covers, running_in_sync.
  - done.
  - exists block1. split; [by left|]. vm_compute. reflexivity.
  - split; [exact H1|]. split; [exact H2|exact H4].
Defined.
