(* ===== verification/ExecutorService.v ===== *)
(** * The nftables executor (balansir-executor/src/service.rs)

    Requests become rule specifications tagged with the rule id; a cache of fingerprints by
    rule id decides between "already applied", "replace" and "add".  The NFQUEUE rules of the
    DPI engine and the UPnP port mappings are kept in the same table under their own tags.

    The executor is shown to be a [Mechanism] on top of any [nft] that behaves as documented
    ([Nft]), so what the reconciler guarantees holds for the rules in the chain.  The rest
    are the operations whose tags do not identify the rules they are meant to remove. *)

From stdpp Require Import pretty.
From S2P Require Import Prelude Types IpText Errors Nftables Plan Control Reconciler.
#[local] Open Scope Z_scope.

(** ** From requests to specifications *)

Definition to_nft_verdict (a : Action) : option NftVerdict :=
  match a with
  | Allow => Some VAccept
  | Block => Some VDrop
  | Reject => Some VReject
  | Queue num => Some (VQueue num)
  | _ => None
  end.

Definition rule_comment (policy_id : Z) : string := "balansir:" +:+ pretty policy_id.

Definition cidr_for_addr (addr : IpAddr) : option string :=
  match addr with
  | V4 a => if a =? 0 then None else Some (show_v4 a +:+ "/32")
  | V6 a => if a =? 0 then None else Some (show_v6 a +:+ "/128")
  end.

Definition nft_proto (protocol : Z) : option NftProto :=
  if protocol =? 6 then Some PTcp else if protocol =? 17 then Some PUdp else None.

Definition nonzero_port (p : Z) : option Z := if p =? 0 then None else Some p.

Definition to_nft_spec (rq : ActionRequest) : option NftRuleSpec :=
  verdict ← to_nft_verdict (rq_action rq);
  Some (mkSpec (nft_proto (rq_protocol rq)) (cidr_for_addr (rq_src_ip rq))
          (cidr_for_addr (rq_dst_ip rq)) (nonzero_port (rq_src_port rq))
          (nonzero_port (rq_dst_port rq)) None None None verdict None
          (Some (rule_comment (policy_id (rq_trace rq))))).

Definition to_mark_spec (rq : ActionRequest) (fwmark : Z) : NftRuleSpec :=
  mkSpec (nft_proto (rq_protocol rq)) (cidr_for_addr (rq_src_ip rq))
    (cidr_for_addr (rq_dst_ip rq)) (nonzero_port (rq_src_port rq))
    (nonzero_port (rq_dst_port rq)) None None None VAccept (Some fwmark)
    (Some (rule_comment (policy_id (rq_trace rq)))).

(** The specification [execute] chooses. *)
Definition spec_for (rq : ActionRequest) : option NftRuleSpec :=
  match rq_action rq with
  | Mark fwmark => Some (to_mark_spec rq fwmark)
  | _ => to_nft_spec rq
  end.

(** [ExecutorCapabilities] of the executor *)
Definition supported_actions : list ActionType := [TBlock; TAllow; TReject; TMark].

(** ** Tags of the other mechanisms *)

Definition DPI_RULE_TAG : string := "balansir:dpi".
Definition UPNP_RULE_TAG : string := "balansir:upnp".
Definition UPNP_PREROUTING_CHAIN : string := "prerouting".

Inductive DpiOp := InstallQueue (queue_num : Z) (ports : list Z) | RemoveQueue.
Record DpiOpResult := mkDpiOpResult { dpi_installed : Z; dpi_detail : string }.

Inductive UpnpOp :=
| AddPortMapping (external_port : Z) (proto internal_ip : string) (internal_port : Z)
    (wan_interface : string)
| RemovePortMapping (external_port : Z) (proto wan_interface : string)
| RemoveAll.
Record UpnpOpResult := mkUpnpOpResult { upnp_installed : Z; upnp_detail : string }.

Definition dpi_spec (queue_num port : Z) : NftRuleSpec :=
  mkSpec (Some PTcp) None None None (Some port) None None None (VQueue queue_num) None
    (Some DPI_RULE_TAG).

Definition is_loopback (ip : IpAddr) : bool :=
  match ip with V4 a => a / 2 ^ 24 =? 127 | V6 a => a =? 1 end.
Definition is_multicast (ip : IpAddr) : bool :=
  match ip with V4 a => a / 2 ^ 28 =? 14 | V6 a => a / 2 ^ 120 =? 255 end.
Definition is_unspecified (ip : IpAddr) : bool := match ip with V4 a | V6 a => a =? 0 end.

Definition validate_upnp_mapping {N} (external_port : Z) (proto internal_ip : string)
    (internal_port : Z) : cmd N () :=
  if (external_port =? 0) || (internal_port =? 0)
  then throw (Misconfiguration "UPnP: port 0 is not a valid mapping")
  else
    match parse_ip internal_ip with
    | None => throw (Misconfiguration ("UPnP: invalid internal IP " +:+ internal_ip))
    | Some addr =>
        if is_loopback addr || is_multicast addr || is_unspecified addr
        then throw (Misconfiguration
                      ("UPnP: refused mapping to unusable internal IP " +:+ internal_ip))
        else
          let proto := to_ascii_lowercase proto in
          if String.eqb proto "tcp" || String.eqb proto "udp" then mret ()
          else throw (Misconfiguration ("UPnP: unsupported proto " +:+ proto))
    end.

Definition upnp_comment (external_port : Z) (proto : string) : string :=
  UPNP_RULE_TAG +:+ ":" +:+ pretty external_port +:+ ":" +:+ proto.

Definition upnp_spec (external_port : Z) (proto : string) (addr internal_port : Z)
    (wan_interface : string) : NftRuleSpec :=
  mkSpec (Some (if String.eqb proto "tcp" then PTcp else PUdp)) None None None
    (Some external_port) None (Some wan_interface) None (VDnat addr internal_port) None
    (Some (upnp_comment external_port proto)).

(** ** The executor *)

Section Executor.
Context {N : Type} (nft : N -> list string -> N * (Error + output)) (b : NftablesBackend).
(** The [postcard] encoding of a request. *)
Context (to_allocvec : ActionRequest -> option (list Z)).

(** The host and the fingerprints by rule id. *)
Record nft_executor := mkExec { x_host : N; x_installed : gmap Z Z }.

Definition rule_fingerprint (rq : ActionRequest) : Z :=
  fold_left fnv64_step (default [] (to_allocvec rq)) 0xcbf29ce484222325.

Definition fingerprint_of (x : nft_executor) (id : Z) : option Z := x_installed x !! id.
Definition remember (x : nft_executor) (id fp : Z) : nft_executor :=
  mkExec (x_host x) (<[id := fp]> (x_installed x)).
Definition forget (x : nft_executor) (id : Z) : nft_executor :=
  mkExec (x_host x) (delete id (x_installed x)).

(** Run a backend operation. *)
Definition on_host {A} (m : cmd N A) (x : nft_executor) : nft_executor * (Error + A) :=
  let '(n, r) := m (x_host x) in (mkExec n (x_installed x), r).

(** The idempotency check: the fingerprint is cached and the rule is in the kernel. *)
Definition already_there (x : nft_executor) (rq : ActionRequest) : nft_executor * bool :=
  let id := policy_id (rq_trace rq) in
  if decide (fingerprint_of x id = Some (rule_fingerprint rq)) then
    let '(x, r) := on_host (find_handle_by_comment nft b (rule_comment id)) x in
    (x, match r with inr (Some _) => true | _ => false end)
  else (x, false).

Definition add_spec (x : nft_executor) (id fp : Z) (spec : NftRuleSpec) :
    nft_executor * ActionResult :=
  match on_host (add_rule nft b spec) x with
  | (x, inr _) => (remember x id fp, Applied 0 (Some id))
  | (x, inl e) => (x, ActionFailed (KernelError 0) (Some (error_to_string e)))
  end.

Definition execute (x : nft_executor) (rq : ActionRequest) : nft_executor * ActionResult :=
  let id := policy_id (rq_trace rq) in
  let fp := rule_fingerprint rq in
  let '(x, there) := already_there x rq in
  if there then (x, AlreadyApplied)
  else
    match spec_for rq with
    | None => (x, Unsupported (action_type (rq_action rq)))
    | Some spec =>
        match fingerprint_of x id with
        | Some _ =>
            match on_host (remove_rule_by_comment nft b (rule_comment id)) x with
            | (x, inl e) =>
                (x, ActionFailed (KernelError 0) (Some ("replace: " +:+ error_to_string e)))
            | (x, inr _) => add_spec x id fp spec
            end
        | None => add_spec x id fp spec
        end
    end.

Definition flush_rules (x : nft_executor) : nft_executor * (Error + ()) :=
  match on_host (flush nft b) x with
  | (x, inr _) => (mkExec (x_host x) ∅, inr ())
  | (x, inl e) => (x, inl e)
  end.

Definition remove_rule (x : nft_executor) (id : Z) : nft_executor * (Error + ()) :=
  match on_host (remove_rule_by_comment nft b (rule_comment id)) x with
  | (x, inr _) => (forget x id, inr ())
  | (x, inl e) => (x, inl e)
  end.

(** [unwrap_or_default]: an inventory that fails is an empty one. *)
Definition actual_rule_ids (x : nft_executor) : list Z :=
  match (list_rule_ids nft b (x_host x)).2 with inr ids => ids | inl _ => [] end.

(** [ExecutorClient::remove_rule] on the executor's answer. *)
Definition client_remove_rule (x : nft_executor) (id : Z) : nft_executor * ActionResult :=
  match remove_rule x id with
  | (x, inr _) => (x, Applied 0 (Some id))
  | (x, inl e) => (x, ActionFailed UnknownError (Some (error_to_string e)))
  end.

(** A restarted executor process has an empty cache. *)
Definition restart (x : nft_executor) : nft_executor := mkExec (x_host x) ∅.

(** *** DPI queue rules *)

Definition remove_dpi_rules_impl : cmd N () :=
  map_err (fun e => Fatal ("remove DPI rules: " +:+ error_to_string e))
    (remove_rule_by_comment nft b DPI_RULE_TAG).

Definition dpi_output_hook : list string :=
  ["type"; "filter"; "hook"; "output"; "priority"; "0"; "policy"; "accept;"]%string.

Fixpoint install_ports (queue_num : Z) (ports : list Z) (installed : Z) : cmd N Z :=
  match ports with
  | [] => mret installed
  | port :: ports =>
      _ ← ensure_hooked_chain nft b "output" dpi_output_hook;
      _ ← add_rule_to_chain nft b "output" (dpi_spec queue_num port);
      _ ← add_rule_to_chain nft b "forward" (dpi_spec queue_num port);
      install_ports queue_num ports (u32 (installed + 1))
  end.

Definition dpi_op (op : DpiOp) : cmd N DpiOpResult :=
  match op with
  | InstallQueue queue_num ports =>
      match ports with
      | [] => throw (Misconfiguration "DPI InstallQueue requires at least one port")
      | _ =>
          _ ← remove_dpi_rules_impl;
          installed ← install_ports queue_num ports 0;
          mret (mkDpiOpResult installed
                  ("intercepted TCP " +:+ join_with "," (map pretty ports)))
      end
  | RemoveQueue =>
      _ ← remove_dpi_rules_impl;
      mret (mkDpiOpResult 0 "DPI queue rules removed")
  end.

(** *** UPnP port mappings *)

Definition count_upnp_rules : cmd N Z :=
  rules ← map_err (fun e => Fatal ("UPnP chain list: " +:+ error_to_string e))
            (list_chain nft b UPNP_PREROUTING_CHAIN);
  mret (u32 (len (List.filter (fun line => contains line UPNP_RULE_TAG) rules))).

Definition upnp_nat_hook : list string :=
  ["type"; "nat"; "hook"; "prerouting"; "priority"; "0"; ";"]%string.

Definition add_mapping (external_port : Z) (proto internal_ip : string) (internal_port : Z)
    (wan_interface : string) : cmd N UpnpOpResult :=
  _ ← validate_upnp_mapping external_port proto internal_ip internal_port;
  let proto := to_ascii_lowercase proto in
  _ ← ensure_hooked_chain nft b UPNP_PREROUTING_CHAIN upnp_nat_hook;
  _ ← remove_rule_by_comment_in_chain nft b UPNP_PREROUTING_CHAIN
        (upnp_comment external_port proto);
  match parse_ipv4 internal_ip with
  | None =>
      throw (Misconfiguration ("UPnP: internal IP " +:+ internal_ip +:+
               " is not IPv4: invalid IPv4 address syntax"))
  | Some addr =>
      _ ← add_rule_to_chain nft b UPNP_PREROUTING_CHAIN
            (upnp_spec external_port proto addr internal_port wan_interface);
      installed ← count_upnp_rules;
      mret (mkUpnpOpResult installed
              (proto +:+ " " +:+ wan_interface +:+ ":" +:+ pretty external_port +:+ " -> " +:+
               internal_ip +:+ ":" +:+ pretty internal_port))
  end.

Definition upnp_op (op : UpnpOp) : cmd N UpnpOpResult :=
  match op with
  | AddPortMapping external_port proto internal_ip internal_port wan_interface =>
      add_mapping external_port proto internal_ip internal_port wan_interface
  | RemovePortMapping external_port proto _ =>
      let proto := to_ascii_lowercase proto in
      _ ← remove_rule_by_comment_in_chain nft b UPNP_PREROUTING_CHAIN
            (upnp_comment external_port proto);
      installed ← count_upnp_rules;
      mret (mkUpnpOpResult installed
              ("removed " +:+ proto +:+ ":" +:+ pretty external_port))
  | RemoveAll =>
      _ ← remove_rule_by_comment_in_chain nft b UPNP_PREROUTING_CHAIN UPNP_RULE_TAG;
      mret (mkUpnpOpResult 0 "all UPnP mappings removed")
  end.
End Executor.
Arguments nft_executor N : clear implicits.

(** ** Rendered rules carry their tag *)

Lemma untagged_no_l s : no_char "l" s = true -> untagged s.
Proof.
  intros H. apply not_true_is_false. intros (u & v & ->)%contains_spec.
  rewrite !no_char_app in H. by rewrite andb_false_r in H.
Qed.

Lemma pretty_no_l (z : Z) : no_char "l" (pretty z) = true.
Proof.
  destruct z as [|p|p]; [done|by apply no_char_digits, pretty_all_digits|].
  change (pretty (Z.neg p)) with ("-" +:+ pretty (Z.pos p)). rewrite no_char_app.
  by apply no_char_digits, pretty_all_digits.
Qed.

Lemma join_no_char x sep l :
  no_char x sep = true -> Forall (fun s => no_char x s = true) l ->
  no_char x (join_with sep l) = true.
Proof.
  intros Hs. induction 1 as [|s l Hx Hl IH]; [done|]. destruct l; [done|].
  change (join_with sep (s :: s0 :: l)) with (s +:+ sep +:+ join_with sep (s0 :: l)).
  by rewrite !no_char_app, Hx, Hs, IH.
Qed.

Lemma show_v4_no_l a : no_char "l" (show_v4 a) = true.
Proof.
  apply join_no_char; [done|]. apply Forall_map, Forall_true. intros z. apply pretty_no_l.
Qed.

Lemma hex_char_not_l d : 0 <= d < 16 -> Ascii.eqb (hex_char d) "l" = false.
Proof.
  intros H. apply Ascii.eqb_neq. unfold hex_char. intros E.
  apply (f_equal N_of_ascii) in E. rewrite N_ascii_embedding in E by (case_match; lia).
  change (N_of_ascii "l") with 108%N in E. case_match; lia.
Qed.

Lemma show_hex16_no_l n : no_char "l" (show_hex16 n) = true.
Proof.
  assert (H : forall x, Ascii.eqb (hex_char (x mod 16)) "l" = false)
    by (intros x; apply hex_char_not_l, Z.mod_pos_bound; lia).
  unfold show_hex16. repeat case_match; cbn [fold_right no_char]; by rewrite !H.
Qed.

Lemma show_v6_no_l a : no_char "l" (show_v6 a) = true.
Proof.
  assert (Hj : forall l, no_char "l" (join_with ":" (map show_hex16 l)) = true).
  { intros l. apply join_no_char; [done|]. apply Forall_map, Forall_true, show_hex16_no_l. }
  unfold show_v6. destruct (_ =? 0xffff); [by rewrite no_char_app, show_v4_no_l|].
  destruct (zero_run _ _ _ _ _ _) as [start n]. destruct (1 <? n); [|apply Hj].
  by rewrite !no_char_app, !Hj.
Qed.

Definition untagged_opt (o : option string) : Prop := forall s, o = Some s -> untagged s.

Lemma cidr_untagged addr : untagged_opt (cidr_for_addr addr).
Proof.
  intros s. destruct addr as [a|a]; cbn [cidr_for_addr]; destruct (a =? 0); try done;
    intros [= <-]; apply untagged_no_l; rewrite no_char_app.
  - by rewrite show_v4_no_l.
  - by rewrite show_v6_no_l.
Qed.

Lemma quoted_untagged s : untagged s -> untagged (quoted s).
Proof.
  unfold untagged, quoted. intros H.
  change (String dquote (s +:+ String dquote EmptyString))
    with (EmptyString +:+ String dquote (s +:+ String dquote EmptyString)).
  by rewrite !contains_sep, H by done.
Qed.

Lemma push_opt_untagged {A} (f : A -> list string) o :
  (forall a, o = Some a -> Forall untagged (f a)) -> Forall untagged (push_opt f o).
Proof. destruct o as [a|]; cbn; [auto|constructor]. Qed.

Ltac each_arg := repeat first [apply Forall_nil_2 | apply Forall_cons_2]; try reflexivity.

(** Everything a specification renders besides the comment is free of tags. *)
Lemma render_tagged s t :
  ns_comment s = Some ("balansir:" +:+ t) -> plain t = true ->
  untagged_opt (ns_src_cidr s) -> untagged_opt (ns_dst_cidr s) -> untagged_opt (ns_iifname s) ->
  untagged_opt (ns_oifname s) -> untagged_opt (ns_ct_state s) -> tagged (render s) t.
Proof.
  intros Hc Ht H1 H2 H3 H4 H5. split; [done|]. unfold render. rewrite Hc. cbn [push_opt].
  rewrite !app_assoc. eexists. split; [reflexivity|].
  assert (Hp : forall z : Z, untagged (pretty z)) by (intros z; apply untagged_no_l, pretty_no_l).
  repeat (apply Forall_app; split); try apply push_opt_untagged.
  - intros p _. destruct p; each_arg.
  - intros c E. each_arg; [by case_match|by apply H1].
  - intros c E. each_arg; [by case_match|by apply H2].
  - intros c E. each_arg. by apply quoted_untagged, H3.
  - intros c E. each_arg. by apply quoted_untagged, H4.
  - intros p _. each_arg. apply Hp.
  - intros p _. each_arg. apply Hp.
  - intros c E. each_arg. by apply H5.
  - intros m _. each_arg. apply Hp.
  - destruct (ns_verdict s) as [| | |num| |addr port]; each_arg.
    + apply untagged_no_l. cbn [verdict_to_string]. by rewrite !no_char_app, pretty_no_l.
    + apply untagged_no_l. by rewrite !no_char_app, show_v4_no_l, pretty_no_l.
Qed.

Lemma pretty_plain (z : Z) : plain (pretty z) = true.
Proof.
  assert (H : forall p, plain (pretty (Z.pos p)) = true).
  { intros p. unfold plain. by rewrite !no_char_digits by (done || by apply pretty_all_digits). }
  destruct z as [|p|p]; [done|apply H|].
  change (pretty (Z.neg p)) with ("-" +:+ pretty (Z.pos p)). specialize (H p). unfold plain in *.
  apply andb_true_iff in H as [H1 H2]. by rewrite !no_char_app, H1, H2.
Qed.

Lemma spec_for_tagged rq s :
  spec_for rq = Some s -> tagged (render s) (pretty (policy_id (rq_trace rq))).
Proof.
  intros E.
  assert (H : ns_comment s = Some (rule_comment (policy_id (rq_trace rq))) /\
    ns_src_cidr s = cidr_for_addr (rq_src_ip rq) /\ ns_dst_cidr s = cidr_for_addr (rq_dst_ip rq) /\
    ns_iifname s = None /\ ns_oifname s = None /\ ns_ct_state s = None).
  { unfold spec_for, to_nft_spec in E. destruct (rq_action rq); cbn in E; try done;
      injection E as <-; done. }
  destruct H as (H1 & H2 & H3 & H4 & H5 & H6).
  apply render_tagged; try done; rewrite ?H2, ?H3, ?H4, ?H5, ?H6; try apply cidr_untagged; try done.
  apply pretty_plain.
Qed.

(** The id read back from a policy tag is the rule id. *)
Lemma take_while_all s : all_digits s = true -> take_while_digits s = s.
Proof.
  induction s as [|c s IH]; [done|]. cbn [all_digits take_while_digits].
  intros [-> H]%andb_true_iff. by rewrite IH.
Qed.

Lemma tag_id_pretty id : 0 <= id <= u32_max -> tag_id (pretty id) = Some id.
Proof.
  intros H. unfold tag_id. rewrite take_while_all by (apply pretty_all_digits; lia).
  pose proof (parse_radix_pretty u32_max id H) as Hp. pose proof (pretty_nonempty id ltac:(lia)).
  unfold parse_u32. by destruct (pretty id).
Qed.

(** ** The executor as a mechanism *)

Lemma has_tag_inj c c' r : has_tag c r = true -> has_tag c' r = true -> c = c'.
Proof.
  unfold has_tag. destruct (rev r.2) as [|q [|k l]]; try done.
  intros [_ H1]%andb_true_iff [_ H2]%andb_true_iff.
  apply String.eqb_eq in H1, H2. apply quoted_inj. congruence.
Qed.

Lemma rule_comment_inj id id' : rule_comment id = rule_comment id' -> id = id'.
Proof. intros H%append_inj_l. by apply (inj pretty). Qed.

Lemma find_app {A} (p : A -> bool) l1 l2 :
  List.find p (l1 ++ l2) = match List.find p l1 with Some x => Some x | None => List.find p l2 end.
Proof. induction l1 as [|y l IH]; [done|]. cbn. by destruct (p y). Qed.

Lemma find_app_none {A} (p : A -> bool) l x :
  p x = false -> List.find p (l ++ [x]) = List.find p l.
Proof. intros H. rewrite find_app. cbn. rewrite H. by destruct (List.find p l). Qed.

Lemma find_filter {A} (p f : A -> bool) l :
  (forall x, In x l -> f x = false -> p x = false) -> List.find p (List.filter f l) = List.find p l.
Proof.
  induction l as [|x l IH]; intros H; [done|]. cbn.
  specialize (IH (fun y Hy => H y (or_intror Hy))). destruct (f x) eqn:Ef; cbn.
  - by destruct (p x).
  - by rewrite (H x (or_introl eq_refl) Ef).
Qed.

Lemma NoDup_map_filter {A B} (g : A -> B) (f : A -> bool) l :
  List.NoDup (map g l) -> List.NoDup (map g (List.filter f l)).
Proof.
  induction l as [|x l IH]; [done|]. cbn [map List.filter]. intros Hd.
  inversion_clear Hd as [|? ? Hn Hd']. destruct (f x); [|by apply IH].
  cbn [map]. apply List.NoDup_cons; [|by apply IH].
  intros (y & E & [Hy _]%filter_In)%in_map_iff. apply Hn, in_map_iff. by exists y.
Qed.

Lemma Forall_list_filter {A} (P : A -> Prop) (f : A -> bool) l :
  Forall P l -> Forall P (List.filter f l).
Proof. rewrite !List.Forall_forall. intros H x [Hx _]%filter_In. by apply H. Qed.

Section NftMechanism.
Context {N : Type} {nft : N -> list string -> N * (Error + output)} {b : NftablesBackend}
  {nft_spec : Nft (table_name b) nft}.
Context (to_allocvec : ActionRequest -> option (list Z)).
#[local] Abbreviation fp := (rule_fingerprint to_allocvec).
#[local] Abbreviation pid rq := (policy_id (rq_trace rq)).

Definition nft_rule_of (rq : ActionRequest) : list string :=
  match spec_for rq with Some s => render s | None => [] end.

(** The requests of a run: their ids are [u32]s, and two of them under one id have the same
    fingerprint exactly when they render to the same rule. *)
Record universe (U : list ActionRequest) : Prop := {
  u_ids : forall rq, In rq U -> 0 <= pid rq <= u32_max;
  u_fp : forall rq rq', In rq U -> In rq' U -> pid rq = pid rq' ->
    fp rq = fp rq' <-> nft_rule_of rq = nft_rule_of rq';
}.

Context (U : list ActionRequest) (HU : universe U).

(** The chain and the cache agree: every rule is tagged, the numeric tags are rule ids, each
    rule id has at most one rule, which renders the request whose fingerprint is cached. *)
Record chain_ok (cache : gmap Z Z) (rs : list nft_rule) : Prop := {
  ck_tagged : all_tagged rs;
  ck_handles : List.NoDup (map fst rs);
  ck_ids : forall r t id, In r rs -> tagged r.2 t -> tag_id t = Some id -> t = pretty id;
  ck_ours : forall r id, In r rs -> has_tag (rule_comment id) r = true ->
    exists rq, In rq U /\ pid rq = id /\ r.2 = nft_rule_of rq /\ cache !! id = Some (fp rq);
  ck_one : forall r r' id, In r rs -> In r' rs -> has_tag (rule_comment id) r = true ->
    has_tag (rule_comment id) r' = true -> r = r';
}.

Definition exec_wf (x : nft_executor N) : Prop :=
  exists rs, chain_rules (x_host x) (chain_name b) = Some rs /\ chain_ok (x_installed x) rs.

Definition rule_under (rs : list nft_rule) (id : Z) : option (list string) :=
  snd <$> List.find (has_tag (rule_comment id)) rs.

(** The rule the chain has under an id. *)
Definition exec_installed (x : nft_executor N) (id : Z) : option (list string) :=
  chain_rules (x_host x) (chain_name b) ≫= fun rs => rule_under rs id.

Lemma chain_ok_filter cache rs f : chain_ok cache rs -> chain_ok cache (List.filter f rs).
Proof.
  intros [H1 H2 H3 H4 H5]. split.
  - by apply Forall_list_filter.
  - by apply NoDup_map_filter.
  - intros r t id [Hr _]%filter_In. by apply H3.
  - intros r id [Hr _]%filter_In. by apply H4.
  - intros r r' id [Hr _]%filter_In [Hr' _]%filter_In. by apply (H5 r r' id).
Qed.

(** Only the cache entries of rules that are there matter. *)
Lemma chain_ok_cache cache cache' rs :
  chain_ok cache rs ->
  (forall r id, In r rs -> has_tag (rule_comment id) r = true -> cache' !! id = cache !! id) ->
  chain_ok cache' rs.
Proof.
  intros [H1 H2 H3 H4 H5] Hc. split; auto. intros r id Hr Ht.
  destruct (H4 r id Hr Ht) as (rq & ? & ? & ? & E). exists rq. by rewrite (Hc r id Hr Ht).
Qed.

Lemma find_tag cache rs r id :
  chain_ok cache rs -> In r rs -> has_tag (rule_comment id) r = true ->
  List.find (has_tag (rule_comment id)) rs = Some r.
Proof.
  intros H Hr Ht. destruct (List.find _ rs) as [r'|] eqn:E.
  - apply find_some in E as [Hr' Ht']. by rewrite (ck_one _ _ H r r' id).
  - by apply (find_none _ _ E) in Hr; rewrite Ht in Hr.
Qed.

Lemma drop_tag_ok cache rs id :
  chain_ok cache rs ->
  let rs' := drop_tag (rule_comment id) rs in
  chain_ok cache rs' /\ (forall r, In r rs' -> has_tag (rule_comment id) r = false) /\
  forall id', id' <> id -> rule_under rs' id' = rule_under rs id'.
Proof.
  intros H. unfold drop_tag, rule_under. destruct (List.find _ rs) as [x|] eqn:Ef.
  - split; [by apply chain_ok_filter|]. apply find_some in Ef as [Hx Htx]. split.
    + intros r [Hr Hne]%filter_In. apply not_true_is_false. intros Ht.
      rewrite (ck_one _ _ H r x id) in Hne by done. lia.
    + intros id' Hne. f_equal. apply find_filter. intros r Hr Eh. apply not_true_is_false.
      intros Ht. assert (r = x) as ->.
      { apply negb_false_iff, Z.eqb_eq in Eh. pose proof (ck_handles _ _ H) as Hd.
        clear -Hr Hx Eh Hd. induction rs as [|y rs IH]; [done|]. cbn in Hd.
        inversion_clear Hd as [|? ? Hn Hd']. destruct Hr as [<-|Hr], Hx as [<-|Hx]; auto.
        - destruct Hn. rewrite Eh. by apply in_map.
        - destruct Hn. rewrite <- Eh. by apply in_map. }
      by apply Hne, rule_comment_inj, (has_tag_inj _ _ x).
  - split; [done|]. split; [|done]. intros r Hr. exact (find_none _ _ Ef r Hr).
Qed.

Lemma nft_rule_tag rq s h :
  spec_for rq = Some s -> forall id,
  has_tag (rule_comment id) (h, render s) = bool_decide (id = pid rq).
Proof.
  intros E id. unfold rule_comment.
  rewrite (has_tag_tagged h (render s) (pretty (pid rq))) by by apply spec_for_tagged.
  destruct (decide (id = pid rq)) as [->|Hne].
  - by rewrite String.eqb_refl, bool_decide_eq_true_2.
  - rewrite bool_decide_eq_false_2 by done. apply String.eqb_neq. intros H.
    by apply Hne, (inj pretty).
Qed.

Lemma tagged_unique args t t' : tagged args t -> tagged args t' -> t = t'.
Proof.
  intros [_ (pre & -> & _)] [_ (pre' & E & _)].
  apply (f_equal (@rev string)) in E. rewrite !rev_app_distr in E. cbn [rev app] in E.
  apply (f_equal (hd EmptyString)) in E. cbn [hd] in E. by apply quoted_inj, append_inj_l in E.
Qed.

Lemma appended_ok cache rs rs' rq s :
  chain_ok cache rs -> In rq U -> spec_for rq = Some s ->
  (forall r, In r rs -> has_tag (rule_comment (pid rq)) r = false) ->
  appended rs (render s) rs' ->
  chain_ok (<[pid rq := fp rq]> cache) rs' /\
  rule_under rs' (pid rq) = Some (nft_rule_of rq) /\
  forall id, id <> pid rq -> rule_under rs' id = rule_under rs id.
Proof.
  intros H HinU Hs Hno (h & Hh & Hf & ->).
  pose proof (nft_rule_tag rq s h Hs) as Htag. pose proof (u_ids U HU rq HinU) as Hid.
  assert (Hrule : render s = nft_rule_of rq) by (unfold nft_rule_of; by rewrite Hs).
  assert (Hok : chain_ok (<[pid rq := fp rq]> cache) (rs ++ [(h, render s)])).
  { destruct H as [H1 H2 H3 H4 H5]. split.
    - apply Forall_app. split; [done|]. constructor; [|constructor]. split; [done|].
      eexists. by apply spec_for_tagged.
    - rewrite map_app. cbn [map fst]. apply List.NoDup_app; [done| |].
      + apply List.NoDup_cons; [by intros []|apply List.NoDup_nil].
      + by intros i Hi [<-|[]].
    - intros r t id [Hr|[<-|[]]]%in_app_iff; [by apply H3|]. intros Ht Ei.
      rewrite (tagged_unique _ _ _ Ht (spec_for_tagged rq s Hs)) in *.
      rewrite tag_id_pretty in Ei by done. by injection Ei as <-.
    - intros r id [Hr|[<-|[]]]%in_app_iff Ht.
      + destruct (H4 r id Hr Ht) as (rq' & ? & ? & ? & ?). exists rq'.
        rewrite lookup_insert_ne; [done|]. intros <-. by rewrite Hno in Ht.
      + rewrite Htag in Ht. apply bool_decide_eq_true in Ht as ->. exists rq.
        by rewrite lookup_insert, decide_True.
    - intros r r' id Hr Hr' Ht Ht'.
      apply in_app_iff in Hr as [Hr|[<-|[]]], Hr' as [Hr'|[<-|[]]]; auto.
      + by apply (H5 r r' id).
      + rewrite Htag in Ht'. apply bool_decide_eq_true in Ht' as ->. by rewrite Hno in Ht.
      + rewrite Htag in Ht. apply bool_decide_eq_true in Ht as ->. by rewrite Hno in Ht'. }
  split; [done|]. unfold rule_under. split.
  - rewrite (find_tag _ _ (h, render s) (pid rq) Hok); [by rewrite <- Hrule| |].
    + apply in_app_iff. right. by left.
    + rewrite Htag. by apply bool_decide_eq_true_2.
  - intros id Hne. f_equal. apply find_app_none. rewrite Htag. by apply bool_decide_eq_false_2.
Qed.

(** The outcome of an operation on rule id [id]: the invariant holds again and the other
    rules are as they were. *)
Definition touched (id : Z) (x x' : nft_executor N) : Prop :=
  exec_wf x' /\ forall id', id' <> id -> exec_installed x' id' = exec_installed x id'.

Lemma add_spec_correct x rs rq s x' res :
  chain_rules (x_host x) (chain_name b) = Some rs -> chain_ok (x_installed x) rs ->
  In rq U -> spec_for rq = Some s ->
  (forall r, In r rs -> has_tag (rule_comment (pid rq)) r = false) ->
  add_spec nft b x (pid rq) (fp rq) s = (x', res) ->
  touched (pid rq) x x' /\
  match res with
  | Applied _ _ | AlreadyApplied => exec_installed x' (pid rq) = Some (nft_rule_of rq)
  | _ => True
  end.
Proof.
  intros E Hok HinU Hs Hno. unfold add_spec, on_host.
  destruct (add_rule nft b s (x_host x)) as [n' r] eqn:Ea.
  destruct (add_rule_spec s _ _ _ rs E Ea) as (rs' & Hb & Hr). apply set_here in Hb.
  destruct r as [e|[]]; intros [= <- <-]; cbn [remember x_host x_installed].
  - subst rs'. split; [|done]. split; [by exists rs|]. intros id' _. unfold exec_installed.
    cbn [x_host]. by rewrite Hb, E.
  - destruct (appended_ok _ rs rs' rq s Hok HinU Hs Hno Hr) as (Hok' & Hu & Hf).
    unfold touched, exec_installed, exec_wf. cbn [remember x_host x_installed].
    rewrite Hb, E. cbn [mbind option_bind]. split; [|done]. split; [by exists rs'|done].
Qed.

Lemma already_there_correct x rq rs :
  chain_rules (x_host x) (chain_name b) = Some rs -> chain_ok (x_installed x) rs -> In rq U ->
  already_there nft b to_allocvec x rq =
    (x, bool_decide (x_installed x !! pid rq = Some (fp rq)) &&
        match rule_under rs (pid rq) with Some _ => true | None => false end).
Proof.
  intros E Hok HinU. unfold already_there, fingerprint_of, on_host.
  destruct (decide _) as [Hd|Hd].
  - rewrite bool_decide_eq_true_2 by done. unfold rule_comment.
    rewrite (find_handle_spec _ rs) by (done || apply Hok || apply pretty_plain).
    unfold rule_under, rule_comment. destruct x. by destruct (List.find _ rs).
  - by rewrite bool_decide_eq_false_2.
Qed.

(** A rule under a cached fingerprint renders the request it was computed from. *)
Lemma cached_rule (x : nft_executor N) rs rq args :
  chain_ok (x_installed x) rs -> In rq U -> x_installed x !! pid rq = Some (fp rq) ->
  rule_under rs (pid rq) = Some args -> args = nft_rule_of rq.
Proof.
  intros Hok HinU Hc Hr. unfold rule_under in Hr.
  destruct (List.find _ rs) as [r|] eqn:Ef; [|done]. injection Hr as <-.
  apply find_some in Ef as [Hr Ht].
  destruct (ck_ours _ _ Hok r (pid rq) Hr Ht) as (rq' & HinU' & Hid & -> & Hc').
  rewrite Hc in Hc'. injection Hc' as Hc'. symmetry. by apply (u_fp U HU rq rq').
Qed.

Lemma execute_correct x rq x' res :
  exec_wf x -> In rq U -> execute nft b to_allocvec x rq = (x', res) ->
  touched (pid rq) x x' /\
  match res with
  | Applied _ _ | AlreadyApplied => exec_installed x' (pid rq) = Some (nft_rule_of rq)
  | _ => True
  end.
Proof.
  intros (rs & E & Hok) HinU. unfold execute.
  rewrite (already_there_correct x rq rs E Hok HinU).
  assert (Hself : touched (pid rq) x x) by (split; [by exists rs|done]).
  destruct (bool_decide _) eqn:Hc; cbn [andb].
  1: destruct (rule_under rs (pid rq)) as [args|] eqn:Hr.
  1: { intros [= <- <-]. split; [done|]. apply bool_decide_eq_true in Hc.
       unfold exec_installed. rewrite E. cbn [mbind option_bind]. rewrite Hr. f_equal.
       by apply (cached_rule x rs). }
  all: destruct (spec_for rq) as [s|] eqn:Hs; [|by intros [= <- <-]].
  all: unfold fingerprint_of; destruct (x_installed x !! pid rq) as [f|] eqn:Hf.
  2, 4: intros H; apply (add_spec_correct x rs rq s) in H; try done;
    intros r Hr'; apply not_true_is_false; intros Ht;
    destruct (ck_ours _ _ Hok r (pid rq) Hr' Ht) as (? & _ & _ & _ & Hc'); congruence.
  all: unfold on_host; destruct (remove_rule_by_comment _ _ _ _) as [n' r] eqn:Er;
    destruct (remove_spec _ rs _ _ _ E (ck_tagged _ _ Hok) Er) as [Hb _];
    apply set_here in Hb; destruct (drop_tag_ok _ rs (pid rq) Hok) as (Hok' & Hno & Hfr);
    destruct r as [e|[]].
  1, 3: intros [= <- <-]; split; [|done]; split;
    [by exists rs|intros id' _; unfold exec_installed; cbn [x_host]; by rewrite Hb, E].
  all: intros H; apply (add_spec_correct (mkExec n' (x_installed x)) _ rq s _ _ Hb Hok' HinU Hs Hno) in H as [[H1 H2] H3];
    (split; [split; [done|]|done]);
    intros id' Hne; rewrite (H2 id' Hne); unfold exec_installed; cbn [x_host]; rewrite Hb, E;
    cbn [mbind option_bind]; by apply Hfr.
Qed.

Lemma client_remove_correct x id x' res :
  exec_wf x -> client_remove_rule nft b x id = (x', res) ->
  touched id x x' /\
  match res with Applied _ _ | AlreadyApplied => exec_installed x' id = None | _ => True end.
Proof.
  intros (rs & E & Hok). unfold client_remove_rule, remove_rule, on_host.
  destruct (remove_rule_by_comment _ _ _ _) as [n' r] eqn:Er.
  destruct (remove_spec _ rs _ _ _ E (ck_tagged _ _ Hok) Er) as [Hb _].
  apply set_here in Hb. destruct (drop_tag_ok _ rs id Hok) as (Hok' & Hno & Hfr).
  unfold touched, exec_installed, exec_wf. rewrite E. cbn [mbind option_bind].
  destruct r as [e|[]]; intros [= <- <-]; cbn [forget x_host x_installed]; rewrite Hb;
    cbn [mbind option_bind].
  - split; [|done]. split; [by exists rs|done].
  - split; [split; [|done]|].
    + eexists. split; [reflexivity|]. apply (chain_ok_cache (x_installed x)); [done|].
      intros r id' Hr Ht. apply lookup_delete_ne. intros <-. change (has_tag ("balansir:" +:+ pretty id) r)
        with (has_tag (rule_comment id) r) in Ht. rewrite Hno in Ht; [done|exact Hr].
    + unfold rule_under. destruct (List.find _ _) as [r|] eqn:Ef; [|done].
      apply find_some in Ef as [Hr Ht]. rewrite Hno in Ht; [done|exact Hr].
Qed.

Lemma actual_rule_ids_correct x id :
  exec_wf x -> In id (actual_rule_ids nft b x) <-> is_Some (exec_installed x id).
Proof.
  intros (rs & E & Hok). unfold actual_rule_ids.
  rewrite (list_rule_ids_spec _ rs E (ck_tagged _ _ Hok)). cbn [snd].
  unfold exec_installed, rule_under. rewrite E. cbn [mbind option_bind].
  rewrite <- list_elem_of_In, list_elem_of_omap. split.
  - intros ([h args] & Hr%list_elem_of_In & Hl).
    pose proof (proj1 (List.Forall_forall _ _) (ck_tagged _ _ Hok) _ Hr) as [_ [t Ht]].
    rewrite (line_rule_id_tagged h args t Ht) in Hl.
    assert (Htag : has_tag (rule_comment id) (h, args) = true).
    { unfold rule_comment. rewrite (has_tag_tagged h args t) by done.
      apply String.eqb_eq. by apply (ck_ids _ _ Hok (h, args) t id). }
    rewrite (find_tag _ _ _ _ Hok Hr Htag). by eexists.
  - intros [args Ha]. destruct (List.find _ rs) as [r|] eqn:Ef; [|done].
    apply find_some in Ef as [Hr Ht]. exists r. split; [by apply list_elem_of_In|].
    pose proof (proj1 (List.Forall_forall _ _) (ck_tagged _ _ Hok) _ Hr) as [_ [t Htt]].
    destruct r as [h args']. cbn [snd] in *. rewrite (line_rule_id_tagged h args' t Htt).
    unfold rule_comment in Ht. rewrite (has_tag_tagged h args' t) in Ht by done.
    apply String.eqb_eq in Ht as ->. apply tag_id_pretty.
    destruct (ck_ours _ _ Hok _ id Hr) as (rq & HinU & <- & _); [|by apply (u_ids U HU)].
    unfold rule_comment. rewrite (has_tag_tagged h args' _ _ Htt). apply String.eqb_refl.
Qed.

(** A request that is already applied changes nothing. *)
Lemma execute_already_noop x rq x' :
  exec_wf x -> In rq U -> execute nft b to_allocvec x rq = (x', AlreadyApplied) -> x' = x.
Proof.
  intros (rs & E & Hok) HinU. unfold execute. rewrite (already_there_correct x rq rs E Hok HinU).
  destruct (_ && _); [by intros [= <-]|]. destruct (spec_for rq) as [s|]; [|done].
  assert (Ha : forall y fp, (add_spec nft b y (pid rq) fp s).2 <> AlreadyApplied)
    by (intros y fp; unfold add_spec; by destruct (on_host _ y) as [? [?|?]]).
  destruct (fingerprint_of x _); [destruct (on_host _ x) as [y [e|[]]]; [done|]|]; intros H;
    exfalso; eapply Ha; rewrite H; reflexivity.
Qed.

#[export] Instance nft_mechanism : Mechanism (nft_executor N).
Proof.
  refine {| kernel_rule := list string; m_rule := nft_rule_of; m_known := fun rq => In rq U;
            m_wf := exec_wf; m_execute := execute nft b to_allocvec;
            m_remove_rule := client_remove_rule nft b;
            m_actual_rule_ids := actual_rule_ids nft b; installed := exec_installed |}.
  - intros k rq k' res Hwf Hkn H. by apply (execute_correct k rq k' res Hwf Hkn H).
  - intros k rq k' t rid Hwf Hkn H. by apply (execute_correct k rq k' _ Hwf Hkn H).
  - intros k rq k' Hwf Hkn H. by apply (execute_correct k rq k' _ Hwf Hkn H).
  - intros k rq k' Hwf Hkn H. by rewrite (execute_already_noop k rq k' Hwf Hkn H).
  - intros k rq k' res id Hwf Hkn H. by apply (execute_correct k rq k' res Hwf Hkn H).
  - intros k id k' res Hwf H. by apply (client_remove_correct k id k' res Hwf H).
  - intros k id k' res Hwf H. by apply (client_remove_correct k id k' res Hwf H).
  - intros k id k' res id' Hwf H. by apply (client_remove_correct k id k' res Hwf H).
Defined.

#[export] Instance nft_inventory : Inventory (nft_executor N).
Proof. intros k id Hwf. by apply actual_rule_ids_correct. Qed.

#[export] Instance nft_idempotent : Idempotent (nft_executor N).
Proof.
  intros x rq (rs & E & Hok) HinU Hi. cbn in Hi |- *. unfold exec_installed in Hi.
  rewrite E in Hi. cbn [mbind option_bind] in Hi. unfold execute.
  rewrite (already_there_correct x rq rs E Hok HinU), Hi.
  rewrite bool_decide_eq_true_2; [done|]. unfold rule_under in Hi.
  destruct (List.find _ rs) as [r|] eqn:Ef; [|done]. injection Hi as Hi.
  apply find_some in Ef as [Hr Ht].
  destruct (ck_ours _ _ Hok r _ Hr Ht) as (rq' & HinU' & Hid & Hr' & ->). f_equal.
  apply (u_fp U HU); [done..|]. by rewrite <- Hr'.
Qed.
End NftMechanism.

(** ** Reconciliation down to the chain *)

Lemma all_eq_singleton {A} (l : list A) a :
  List.NoDup l -> In a l -> (forall x, In x l -> x = a) -> l = [a].
Proof.
  intros Hd Ha H. destruct l as [|x [|y l]]; [done|by rewrite (H x (or_introl eq_refl))|].
  exfalso. inversion_clear Hd as [|? ? Hn _]. apply Hn. left.
  rewrite (H x (or_introl eq_refl)). apply H. right. by left.
Qed.

Section NftReconcile.
Context {N : Type} {nft : N -> list string -> N * (Error + output)} {b : NftablesBackend}
  {nft_spec : Nft (table_name b) nft}.
Context (to_allocvec : ActionRequest -> option (list Z)).
Context (U : list ActionRequest) (HU : universe to_allocvec U).
#[local] Existing Instance nft_mechanism.
#[local] Abbreviation pid rq := (policy_id (rq_trace rq)).

Lemma filter_tag cache rs r id :
  chain_ok to_allocvec U cache rs -> List.find (has_tag (rule_comment id)) rs = Some r ->
  List.filter (has_tag (rule_comment id)) rs = [r].
Proof.
  intros Hok Hf. apply find_some in Hf as [Hr Ht]. apply all_eq_singleton.
  - apply List.NoDup_filter. apply (List.NoDup_map_inv fst). apply Hok.
  - by apply filter_In.
  - intros x [Hx Hx']%filter_In. by apply (ck_one _ _ _ _ Hok x r id).
Qed.

(** The chain holds exactly one rule under the tag of every rule of the list, rendered from
    it, and no other rule under a numeric tag. *)
Definition chain_holds (x : nft_executor N) (desired : list DesiredRule) : Prop :=
  exists rs, chain_rules (x_host x) (chain_name b) = Some rs /\
    (forall r, In r desired ->
       exists h, List.filter (has_tag (rule_comment (dr_id r))) rs = [(h, nft_rule_of (compile r))]) /\
    (forall y id, In y rs -> has_tag (rule_comment id) y = true ->
       exists r, In r desired /\ dr_id r = id).

Lemma enforced_chain (w : daemon (nft_executor N)) desired :
  m_wf (Mechanism := nft_mechanism to_allocvec U HU) (d_kernel w) ->
  enforced (mech := nft_mechanism to_allocvec U HU) w desired <-> chain_holds (d_kernel w) desired.
Proof.
  intros Hwf. pose proof Hwf as (rs & E & Hck). unfold enforced, chain_holds.
  cbn [installed nft_mechanism]. unfold exec_installed. rewrite E. cbn [mbind option_bind]. unfold rule_under.
  split.
  - intros (_ & H1 & H2). exists rs. split; [done|]. split.
    + intros r Hr. specialize (H1 r Hr).
      destruct (List.find _ rs) as [[h args]|] eqn:Ef; [|done]. injection H1 as ->.
      exists h. by apply (filter_tag (x_installed (d_kernel w))).
    + intros x id Hx Ht. destruct (existsb (fun r => dr_id r =? id) desired) eqn:Ex.
      * apply existsb_exists in Ex as (r & Hr & Er). exists r. split; [done|lia].
      * exfalso. specialize (H2 id). destruct (List.find (has_tag (rule_comment id)) rs) eqn:Ef.
        -- discriminate H2. intros r Hr Er. apply not_true_iff_false in Ex. apply Ex.
           apply existsb_exists. exists r. split; [done|lia].
        -- apply (find_none _ _ Ef) in Hx. congruence.
  - intros (rs' & [= <-] & H1 & H2). split; [done|]. split.
    + intros r Hr. destruct (H1 r Hr) as [h Hf].
      destruct (List.find (has_tag (rule_comment (dr_id r))) rs) as [y|] eqn:Ef.
      * rewrite (filter_tag _ _ _ _ Hck Ef) in Hf. by injection Hf as ->.
      * assert (Hin : In (h, nft_rule_of (compile r)) (List.filter (has_tag (rule_comment (dr_id r))) rs))
          by (rewrite Hf; by left).
        apply filter_In in Hin as [Hin Ht]. apply (find_none _ _ Ef) in Hin. congruence.
    + intros id Hn. destruct (List.find (has_tag (rule_comment id)) rs) as [y|] eqn:Ef; [|done].
      apply find_some in Ef as [Hy Ht]. destruct (H2 y id Hy Ht) as (r & Hr & Er). by destruct (Hn r Hr).
Qed.


(** Removing by tag when there are two copies deletes the older one. *)
Lemma drop_duplicate cache rs id old h args :
  chain_ok to_allocvec U cache rs -> List.find (has_tag (rule_comment id)) rs = Some old ->
  ~ In h (map fst rs) -> has_tag (rule_comment id) (h, args) = true ->
  rule_under (drop_tag (rule_comment id) (rs ++ [(h, args)])) id = Some args.
Proof.
  intros Hok Ef Hf Ht.
  pose proof (drop_tag_ok to_allocvec U _ rs id Hok) as (_ & Hno & _).
  unfold drop_tag in *. rewrite Ef in Hno. rewrite find_app, Ef, List.filter_app.
  cbn [List.filter fst]. apply find_some in Ef as [Ho _].
  destruct (h =? old.1) eqn:Eh; cbn [negb].
  { destruct Hf. replace h with old.1 by lia. by apply in_map. }
  unfold rule_under. rewrite find_app. destruct (List.find _ (List.filter _ rs)) as [z|] eqn:Ez.
  - apply find_some in Ez as [Hz Hzt]. by rewrite Hno in Hzt.
  - cbn [List.find]. by rewrite Ht.
Qed.

(** The first request under an id after a restart is added without looking for a rule. *)
Lemma execute_restarted x rs rq x1 t i :
  chain_rules (x_host x) (chain_name b) = Some rs ->
  execute nft b to_allocvec (restart x) rq = (x1, Applied t i) ->
  exists s h, spec_for rq = Some s /\ 0 <= h /\ ~ In h (map fst rs) /\
    chain_rules (x_host x1) (chain_name b) = Some (rs ++ [(h, render s)]).
Proof.
  intros E He. unfold execute, already_there, fingerprint_of in He.
  cbn [restart x_installed] in He. rewrite lookup_empty, decide_False in He by done.
  destruct (spec_for rq) as [s|] eqn:Hs; [|done]. cbn [x_installed restart] in He.
  rewrite lookup_empty in He. unfold add_spec, on_host in He. cbn [restart x_host] in He.
  destruct (add_rule nft b s (x_host x)) as [n1 r1] eqn:Ea.
  destruct (add_rule_spec s _ _ _ rs E Ea) as (rs1 & Hb1 & Hr1).
  destruct r1 as [e|[]]; [done|]. injection He as <- _ _. apply set_here in Hb1.
  destruct Hr1 as (h & Hh & Hf & ->). by exists s, h.
Qed.

(** A restarted executor loses track of its rules: it adds a rule it had installed
    before the restart a second time, so that a later removal it reports as applied
    deletes one copy and leaves the rule in force. *)
Theorem restart_breaks_removal x rq x1 t1 i1 x2 t2 i2 args :
  exec_wf to_allocvec U x -> exec_installed x (pid rq) = Some args ->
  execute nft b to_allocvec (restart x) rq = (x1, Applied t1 i1) ->
  client_remove_rule nft b x1 (pid rq) = (x2, Applied t2 i2) ->
  exec_installed x2 (pid rq) = Some (nft_rule_of rq).
Proof.
  intros (rs & E & Hok) Hi He Hr.
  destruct (execute_restarted x rs rq x1 t1 i1 E He) as (s & h & Hs & Hh & Hf & E1).
  pose proof (spec_for_tagged rq s Hs) as Htag.
  assert (Hall : all_tagged (rs ++ [(h, render s)])).
  { apply Forall_app. split; [apply Hok|]. constructor; [|constructor]. eauto. }
  unfold client_remove_rule, remove_rule, on_host in Hr.
  destruct (remove_rule_by_comment _ _ _ _) as [n2 r2] eqn:Er.
  destruct (remove_spec _ _ _ _ _ E1 Hall Er) as [Hb2 _].
  apply set_here in Hb2. destruct r2 as [e|[]]; [done|]. injection Hr as <- _ _.
  unfold exec_installed in *. cbn [forget x_host]. rewrite Hb2. rewrite E in Hi.
  cbn [mbind option_bind] in *. unfold rule_under in Hi.
  destruct (List.find _ rs) as [old|] eqn:Ef; [|done].
  unfold nft_rule_of. rewrite Hs. apply (drop_duplicate (x_installed x) rs _ old); try done.
  unfold rule_comment. rewrite (has_tag_tagged _ _ _ _ Htag). apply String.eqb_refl.
Qed.
End NftReconcile.

(** ** The DPI queue rules *)

Definition count_tag (comment : string) (rs : list nft_rule) : Z :=
  len (List.filter (has_tag comment) rs).

Lemma count_tag_app comment rs rs' :
  count_tag comment (rs ++ rs') = count_tag comment rs + count_tag comment rs'.
Proof. unfold count_tag. by rewrite List.filter_app, len_app. Qed.

(** Removing by comment takes away one rule, however many carry it. *)
Lemma count_drop_tag comment rs :
  List.NoDup (map fst rs) -> count_tag comment (drop_tag comment rs) = Z.max 0 (count_tag comment rs - 1).
Proof.
  unfold drop_tag, count_tag. induction rs as [|x rs IH]; intros Hd; [done|].
  cbn [map] in Hd. inversion_clear Hd as [|? ? Hn Hd']. specialize (IH Hd'). cbn [List.find].
  destruct (has_tag comment x) eqn:Ht.
  - cbn [List.filter]. rewrite Z.eqb_refl, Ht. cbn [negb].
    rewrite (filter_all (fun y => negb (y.1 =? x.1)) rs).
    { rewrite len_cons. pose proof (len_nonneg (List.filter (has_tag comment) rs)). lia. }
    apply List.Forall_forall. intros y Hy. apply negb_true_iff, Z.eqb_neq. intros E.
    apply Hn. rewrite <- E. by apply in_map.
  - destruct (List.find (has_tag comment) rs) as [y|] eqn:Ef; cbn [List.filter];
      [|by rewrite Ht].
    rewrite Ht. apply find_some in Ef as [Hy _].
    replace (x.1 =? y.1) with false; [cbn [negb List.filter]; by rewrite Ht|].
    symmetry. apply Z.eqb_neq. intros E. apply Hn. rewrite E. by apply in_map.
Qed.

Lemma dpi_tagged q p : tagged (render (dpi_spec q p)) "dpi".
Proof. by apply render_tagged. Qed.

Section Dpi.
Context {N : Type} {nft : N -> list string -> N * (Error + output)} {b : NftablesBackend}
  {nft_spec : Nft (table_name b) nft}.

(** A chain whose rules are all tagged, under distinct handles. *)
Definition chain_fine (n : N) (c : string) (rs : list nft_rule) : Prop :=
  chain_rules n c = Some rs /\ all_tagged rs /\ List.NoDup (map fst rs).

(** DPI rules of a chain. *)
Definition dpi_count (n : N) (c : string) : Z :=
  count_tag DPI_RULE_TAG (default [] (chain_rules n c)).

Lemma appended_fine n c rs rs' q p :
  chain_fine n c rs -> appended rs (render (dpi_spec q p)) rs' ->
  all_tagged rs' /\ List.NoDup (map fst rs') /\
  count_tag DPI_RULE_TAG rs' = count_tag DPI_RULE_TAG rs + 1.
Proof.
  intros (_ & Ht & Hd) (h & Hh & Hf & ->). pose proof (dpi_tagged q p) as Hp. split.
  { apply Forall_app. split; [done|]. constructor; [|constructor]. eauto. }
  split.
  { rewrite map_app. apply List.NoDup_app; [done| |by intros i Hi [<-|[]]].
    apply List.NoDup_cons; [by intros []|apply List.NoDup_nil]. }
  by rewrite count_tag_app.
Qed.

Lemma install_ports_count q ports k n rs n' r :
  chain_fine n "forward" rs -> install_ports nft b q ports k n = (n', inr r) ->
  (exists rs', chain_fine n' "forward" rs') /\
  dpi_count n' "forward" = dpi_count n "forward" + len ports /\
  dpi_count n' "output" = dpi_count n "output" + len ports.
Proof.
  revert n rs k. induction ports as [|p ports IH]; intros n rs k Hfine H.
  { injection H as <- _. split; [by exists rs|]. rewrite len_nil. lia. }
  cbn [install_ports] in H. apply cmd_bind_ok in H as (n1 & [] & E1 & H).
  apply cmd_bind_ok in H as (n2 & [] & E2 & H). apply cmd_bind_ok in H as (n3 & [] & E3 & H).
  destruct (ensure_hooked_spec "output" _ _ _ _ eq_refl E1) as (H1 & _ & H2 & _).
  specialize (H2 eq_refl). destruct (H1 "forward"%string ltac:(done)) as [H1f _].
  destruct (add_rule_to_chain_spec "output" _ _ _ _ _ eq_refl H2 E2) as (ro & Bo & Ao).
  destruct Hfine as (Ef & Hft & Hfd). rewrite Ef in H1f.
  rewrite <- (set_others _ _ _ _ _ _ Bo "forward"%string ltac:(done)) in H1f.
  destruct (add_rule_to_chain_spec "forward" _ _ _ _ _ eq_refl H1f E3) as (rf & Bf & Af).
  destruct (appended_fine n2 "forward" rs rf q p) as (Hft' & Hfd' & Hfc); [by split|done|].
  assert (Hf3 : chain_fine n3 "forward" rf) by (split; [by apply set_here in Bf|by split]).
  destruct (IH n3 rf _ Hf3 H) as (Hex & Hcf & Hco). split; [done|]. rewrite len_cons.
  unfold dpi_count in *. rewrite Hcf, Hco.
  rewrite (set_here _ _ _ _ _ _ Bf), Ef.
  rewrite (set_others _ _ _ _ _ _ Bf "output"%string ltac:(done)), (set_here _ _ _ _ _ _ Bo).
  cbn [default from_option id]. rewrite Hfc.
  destruct Ao as (h & _ & _ & ->). rewrite count_tag_app.
  change (count_tag DPI_RULE_TAG [(h, render (dpi_spec q p))]) with 1. lia.
Qed.

Context (Hforward : chain_name b = "forward"%string).

Lemma remove_dpi_count n rs n' r :
  chain_fine n "forward" rs -> remove_dpi_rules_impl nft b n = (n', inr r) ->
  (exists rs', chain_fine n' "forward" rs') /\
  dpi_count n' "forward" = Z.max 0 (dpi_count n "forward" - 1) /\
  dpi_count n' "output" = dpi_count n "output".
Proof.
  intros (E & Ht & Hd) H. unfold remove_dpi_rules_impl, map_err in H.
  destruct (remove_rule_by_comment nft b DPI_RULE_TAG n) as [n1 r1] eqn:Er.
  destruct r1 as [e|[]]; [done|]. injection H as <- _.
  destruct (remove_spec n rs "dpi" n1 (inr ())) as [Hb _]; try done; [by rewrite Hforward|].
  rewrite Hforward in Hb. change ("balansir:" +:+ "dpi") with DPI_RULE_TAG in Hb.
  unfold dpi_count. rewrite (set_here _ _ _ _ _ _ Hb), E.
  rewrite (set_others _ _ _ _ _ _ Hb "output"%string ltac:(done)).
  cbn [default from_option id]. rewrite count_drop_tag by done. split; [|done].
  exists (drop_tag DPI_RULE_TAG rs). split; [by apply set_here in Hb|]. unfold drop_tag.
  destruct (List.find _ rs); [|done].
  split; [by apply Forall_list_filter|by apply NoDup_map_filter].
Qed.

(** DPI queue rules leak.  From a state without any, installing the queue rules for
    [k] ports and then removing them, both reported as successful, leaves [k - 1] of them in
    the forward chain and all [k] in the output chain: removal deletes a single rule by its
    tag, and never looks at the output chain. *)
Theorem dpi_queue_rules_leak q ports n rs n1 r1 n2 r2 :
  chain_fine n "forward" rs -> dpi_count n "forward" = 0 -> dpi_count n "output" = 0 ->
  dpi_op nft b (InstallQueue q ports) n = (n1, inr r1) ->
  dpi_op nft b RemoveQueue n1 = (n2, inr r2) ->
  dpi_count n2 "forward" = len ports - 1 /\ dpi_count n2 "output" = len ports.
Proof.
  intros Hf Hc Ho H1 H2. unfold dpi_op in *.
  assert (Hp : 1 <= len ports).
  { destruct ports as [|p ports]; [done|]. rewrite len_cons. pose proof (len_nonneg ports). lia. }
  destruct ports as [|p0 ports0] eqn:Ep; [done|]. rewrite <- Ep in *.
  apply cmd_bind_ok in H1 as (na & [] & Ea & H1). apply cmd_bind_ok in H1 as (nb & k & Eb & H1).
  injection H1 as -> _. apply cmd_bind_ok in H2 as (nc & [] & Ec & H2). injection H2 as -> _.
  destruct (remove_dpi_count n rs na tt Hf Ea) as ([rsa Hfa] & Hca & Hoa).
  destruct (install_ports_count q ports 0 na rsa n1 k Hfa Eb) as ([rsb Hfb] & Hcb & Hob).
  destruct (remove_dpi_count n1 rsb n2 tt Hfb Ec) as (_ & Hcc & Hoc). lia.
Qed.
End Dpi.

(** ** UPnP mappings *)

Section Upnp.
Context {N : Type} {nft : N -> list string -> N * (Error + output)} {b : NftablesBackend}
  {nft_spec : Nft (table_name b) nft}.

(** [RemoveAll] removes no port mapping: the mappings carry
    [balansir:upnp:<port>:<proto>], the removal looks for the comment [balansir:upnp] itself,
    so it leaves the host as it is and reports that all mappings are gone. *)
Theorem upnp_remove_all_removes_nothing n rs :
  chain_rules n UPNP_PREROUTING_CHAIN = Some rs ->
  (forall x, In x rs -> 0 <= x.1 /\
     exists port proto, tagged x.2 ("upnp:" +:+ pretty (port : Z) +:+ ":" +:+ proto)) ->
  upnp_op nft b RemoveAll n = (n, inr (mkUpnpOpResult 0 "all UPnP mappings removed")).
Proof.
  intros E Hrs.
  assert (Hall : all_tagged rs).
  { apply List.Forall_forall. intros x Hx. destruct (Hrs x Hx) as (Hh & p & q & Ht). eauto. }
  assert (Hnone : List.find (has_tag ("balansir:" +:+ "upnp")) rs = None).
  { destruct (List.find _ rs) as [[h args]|] eqn:Ef; [|done]. apply find_some in Ef as [Hx Ht].
    destruct (Hrs _ Hx) as (_ & p & q & Htag). by rewrite (has_tag_tagged h args _ "upnp" Htag) in Ht. }
  unfold upnp_op, remove_rule_by_comment_in_chain, validate_identifier.
  change (valid_identifier UPNP_PREROUTING_CHAIN) with true. cbv iota.
  unfold mbind, cmd_bind, mret at 1, cmd_ret at 1.
  change UPNP_RULE_TAG with ("balansir:" +:+ "upnp").
  rewrite (find_handle_in_chain_spec n UPNP_PREROUTING_CHAIN rs "upnp") by done.
  by rewrite Hnone.
Qed.

(** What an added mapping looks like in the chain. *)
Lemma upnp_spec_tagged port proto addr iport wan :
  untagged wan -> plain proto = true ->
  tagged (render (upnp_spec port proto addr iport wan)) ("upnp:" +:+ pretty port +:+ ":" +:+ proto).
Proof.
  intros Hw Hp. apply render_tagged; try done.
  - pose proof (pretty_plain port) as H. unfold plain in *.
    apply andb_true_iff in H as [H1 H2], Hp as [H3 H4]. by rewrite !no_char_app, H1, H2, H3, H4.
  - intros s. cbn. intros [= <-]. done.
Qed.
End Upnp.

(** ** What the rendering loses *)

(** A rule on a protocol other than TCP and UDP renders without a protocol matcher: it is the
    rule for all protocols.  Blocking ICMP to a host blocks everything to it. *)
Lemma protocol_matcher_dropped rq p :
  p <> 6 -> p <> 17 -> rq_protocol rq = p ->
  nft_rule_of rq =
  nft_rule_of (mkRequest (rq_action rq) (rq_src_ip rq) (rq_dst_ip rq) (rq_src_port rq)
                 (rq_dst_port rq) 0 (rq_interface rq) (rq_trace rq)).
Proof.
  intros H6 H17 Hp. unfold nft_rule_of, spec_for, to_nft_spec, to_mark_spec, nft_proto.
  cbn [rq_action rq_src_ip rq_dst_ip rq_src_port rq_dst_port rq_protocol rq_trace]. rewrite Hp.
  by rewrite (proj2 (Z.eqb_neq p 6) H6), (proj2 (Z.eqb_neq p 17) H17).
Qed.

(** The executor installs NFQUEUE rules its capabilities do not list. *)
Lemma queue_not_in_capabilities :
  existsb (fun t => match t with TQueue => true | _ => false end) supported_actions = false /\
  forall num, to_nft_verdict (Queue num) = Some (VQueue num).
Proof. by split. Qed.

(** The address family keyword agrees with the address: the text of an IPv6 address always
    has a colon, that of an IPv4 address never. *)
Lemma show_v4_no_colon a : contains (show_v4 a) ":" = false.
Proof.
  apply contains_first, join_no_char; [done|]. apply Forall_map.
  repeat constructor; apply no_char_digits, pretty_all_digits, Z.mod_pos_bound; done || lia.
Qed.

Lemma show_v6_colon a : contains (show_v6 a) ":" = true.
Proof.
  apply contains_spec. unfold show_v6. destruct (_ =? 0xffff); [by eexists EmptyString, _|].
  destruct (zero_run _ _ _ _ _ _) as [start n]. destruct (1 <? n).
  - eexists _, (":" +:+ _). reflexivity.
  - eexists _, _. reflexivity.
Qed.

Lemma cidr_family addr cidr :
  cidr_for_addr addr = Some cidr ->
  contains cidr ":" = match addr with V4 _ => false | V6 _ => true end.
Proof.
  destruct addr as [a|a]; cbn [cidr_for_addr]; destruct (a =? 0); try done; intros [= <-].
  - apply contains_first. rewrite no_char_app.
    pose proof (show_v4_no_colon a) as H. destruct (no_char ":" (show_v4 a)) eqn:E; [done|].
    exfalso. unfold show_v4 in *. rewrite join_no_char in E; [done|done|]. apply Forall_map.
    repeat constructor; apply no_char_digits, pretty_all_digits, Z.mod_pos_bound; done || lia.
  - pose proof (show_v6_colon a) as (u & v & E)%contains_spec. apply contains_spec.
    exists u, (v +:+ "/128"). by rewrite E, !string_app_assoc.
Qed.

(** ** A run on a table in memory *)

Definition demo_backend : NftablesBackend := mkBackend "balansir" "forward".
#[local] Abbreviation demo_nft := (mem_nft "balansir").

Definition demo_encode (rq : ActionRequest) : option (list Z) :=
  Some [policy_id (rq_trace rq);
        match rq_action rq with Block => 3 | Reject => 4 | Allow => 5 | _ => 0 end].

Definition demo_requests : list ActionRequest := [compile block1; compile allow2; compile reject1].

Lemma demo_universe : universe demo_encode demo_requests.
Proof.
  split.
  - intros rq [<-|[<-|[<-|[]]]]; vm_compute; split; discriminate.
  - intros rq rq' [<-|[<-|[<-|[]]]] [<-|[<-|[<-|[]]]] E; try (vm_compute in E; discriminate E);
      split; intros H; try reflexivity; vm_compute in H; discriminate H.
Qed.

#[local] Instance demo_nft_spec : Nft (table_name demo_backend) demo_nft := mem_Nft "balansir".
#[local] Instance demo_mechanism : Mechanism (nft_executor mem_table) :=
  nft_mechanism (b := demo_backend) demo_encode demo_requests demo_universe.

(** The executor after start-up, and after rules 1 and 2. *)
Definition demo_start : nft_executor mem_table := mkExec (init demo_nft demo_backend (mkMem ∅ ∅)).1 ∅.
Definition demo_one : nft_executor mem_table :=
  (execute demo_nft demo_backend demo_encode demo_start (compile block1)).1.
Definition demo_two : nft_executor mem_table :=
  (execute demo_nft demo_backend demo_encode demo_one (compile allow2)).1.

Lemma demo_start_wf : exec_wf (b := demo_backend) demo_encode demo_requests demo_start.
Proof. exists []. split; [vm_compute; reflexivity|]. split; try done; constructor. Qed.

Lemma demo_step x rq :
  exec_wf (b := demo_backend) demo_encode demo_requests x -> In rq demo_requests ->
  touched (b := demo_backend) demo_encode demo_requests (policy_id (rq_trace rq)) x
    (execute demo_nft demo_backend demo_encode x rq).1.
Proof.
  intros Hx Hr. destruct (execute demo_nft demo_backend demo_encode x rq) as [x' res] eqn:E.
  by apply (execute_correct demo_encode demo_requests demo_universe x rq x' res Hx Hr E).
Qed.

Definition demo_daemon (desired : list DesiredRule) : daemon (nft_executor mem_table) :=
  mkDaemon (mkDesired desired [])
    (mkActual [mkActualRule 1 Block (Some 1) None; mkActualRule 2 Allow (Some 2) None])
    demo_two ∅.

Lemma demo_two_touched :
  touched (b := demo_backend) demo_encode demo_requests 1 demo_start demo_one /\
  touched (b := demo_backend) demo_encode demo_requests 2 demo_one demo_two.
Proof.
  pose proof (demo_step demo_start (compile block1) demo_start_wf (or_introl eq_refl)) as H1.
  split; [exact H1|]. exact (demo_step demo_one (compile allow2) (proj1 H1) (or_intror (or_introl eq_refl))).
Qed.

Lemma demo_in_sync desired : in_sync (demo_daemon desired).
Proof.
  destruct demo_two_touched as [[_ F1] [Hwf F2]]. split; [exact Hwf|]. intros id.
  destruct (decide (id = 1)) as [->|H1]; [vm_compute; reflexivity|].
  destruct (decide (id = 2)) as [->|H2]; [vm_compute; reflexivity|].
  transitivity (exec_installed (b := demo_backend) demo_start id).
  { etransitivity; [exact (F2 id H2)|exact (F1 id H1)]. }
  unfold find_rule. cbn [demo_daemon d_actual active_rules List.find ar_id].
  replace (1 =? id) with false by lia. replace (2 =? id) with false by lia.
  vm_compute. reflexivity.
Qed.


Definition demo_restarted : nft_executor mem_table :=
  (execute demo_nft demo_backend demo_encode (restart demo_two) (compile block1)).1.

Lemma restart_breaks_removal_witness :
  exec_installed (b := demo_backend)
    (client_remove_rule demo_nft demo_backend demo_restarted 1).1 1 =
  Some ["drop"; "comment"; quoted "balansir:1"]%string.
Proof.
  apply (restart_breaks_removal demo_encode demo_requests demo_two (compile block1)
    demo_restarted 0 (Some 1) (client_remove_rule demo_nft demo_backend demo_restarted 1).1
    0 (Some 1) ["drop"; "comment"; quoted "balansir:1"]%string).
  - apply demo_two_touched.
  - vm_compute. reflexivity.
  - vm_compute. reflexivity.
  - vm_compute. reflexivity.
Defined.

Definition demo_host : mem_table := x_host demo_start.

Lemma dpi_queue_rules_leak_witness :
  let n1 := (dpi_op demo_nft demo_backend (InstallQueue 200 [80; 443]) demo_host).1 in
  let n2 := (dpi_op demo_nft demo_backend RemoveQueue n1).1 in
  dpi_count (b := demo_backend) n2 "forward" = 1 /\ dpi_count (b := demo_backend) n2 "output" = 2.
Proof.
  set (n1 := (dpi_op demo_nft demo_backend (InstallQueue 200 [80; 443]) demo_host).1).
  apply (dpi_queue_rules_leak (b := demo_backend) eq_refl 200 [80; 443] demo_host [] n1
    (mkDpiOpResult 2 "intercepted TCP 80,443") (dpi_op demo_nft demo_backend RemoveQueue n1).1
    (mkDpiOpResult 0 "DPI queue rules removed")); try (vm_compute; reflexivity).
  split; [vm_compute; reflexivity|]. split; constructor.
Defined.

Definition demo_mapped : mem_table :=
  (upnp_op demo_nft demo_backend
     (AddPortMapping 8080 "TCP" "192.168.1.20" 80 "eth0") demo_host).1.

Lemma upnp_remove_all_removes_nothing_witness :
  upnp_op demo_nft demo_backend RemoveAll demo_mapped =
    (demo_mapped, inr (mkUpnpOpResult 0 "all UPnP mappings removed")) /\
  (count_upnp_rules demo_nft demo_backend demo_mapped).2 = inr 1.
Proof.
  split; [|vm_compute; reflexivity].
  apply (upnp_remove_all_removes_nothing (b := demo_backend) demo_mapped
    [(1, render (upnp_spec 8080 "tcp" 0xc0a80114 80 "eth0"))]).
  - vm_compute. reflexivity.
  - intros x [<-|[]]. split; [done|]. exists 8080, "tcp"%string.
    exact (upnp_spec_tagged 8080 "tcp" 0xc0a80114 80 "eth0" eq_refl eq_refl).
Defined.
