(* ===== verification/Gateway.v ===== *)
(** * The gateway datapath (balansir-executor/src/gateway.rs, balansir-common/src/gateway.rs)

    NAT, connection tracking and the management firewall as tagged nftables rules, and the
    [ip_forward] switch.  Rules are replaced by removing every rule with the tag and adding
    the new ones; the removal loop runs until a listing shows none, so it is modelled with
    fuel and shown to end.

    The theorems give the chains after a successful [apply], whatever they were before, and
    the state a successful [remove] leaves. *)

From stdpp Require Import pretty.
From S2P Require Import Prelude Types IpText Text Errors Nftables Plan Control Reconciler.
From S2P Require Import ExecutorService.
#[local] Open Scope Z_scope.

(** ** Configuration *)

Record GatewayConfig := mkGateway {
  wan_interface : string;
  lan_interface : string;
  lan_subnet : string;
}.

Definition is_empty (s : string) : bool := match s with EmptyString => true | _ => false end.

Definition validate_iface (name field : string) : string + () :=
  if is_empty name then inl ("gateway config: " +:+ field +:+ " must not be empty")
  else if 15 <? Z.of_nat (String.length name)
  then inl ("gateway config: " +:+ field +:+ " too long: " +:+ quoted (debug_chars name))
  else if all_chars is_identifier_char name then inr ()
  else inl ("gateway config: " +:+ field +:+ " has invalid characters: " +:+
              quoted (debug_chars name)).

(** [rsplit_once]: the text before the last separator. *)
Fixpoint before_last (x : ascii) (s : string) : option string :=
  match s with
  | EmptyString => None
  | String c s' =>
      match before_last x s' with
      | Some r => Some (String c r)
      | None => if Ascii.eqb c x then Some EmptyString else None
      end
  end.

Definition parse_cidr (cidr : string) : string + IpAddr :=
  match parse_ip (default cidr (before_last "/" cidr)) with
  | Some addr => inr addr
  | None => inl ("invalid CIDR: " +:+ quoted (debug_chars cidr))
  end.

Definition validate (c : GatewayConfig) : string + () :=
  match validate_iface (wan_interface c) "wan_interface" with
  | inl e => inl e
  | inr _ =>
      match validate_iface (lan_interface c) "lan_interface" with
      | inl e => inl e
      | inr _ =>
          if String.eqb (wan_interface c) (lan_interface c)
          then inl "gateway config: wan_interface and lan_interface must differ"%string
          else
            match parse_cidr (lan_subnet c) with
            | inl e => inl ("gateway config: lan_subnet: " +:+ e)
            | inr _ => inr ()
            end
      end
  end.

Definition DEFAULT_MGMT_PORTS : list Z := [22; 53; 8080; 9090].

Record GatewayResult := mkGatewayResult { gr_ok : bool; gr_detail : string }.

Record GatewayStatus := mkGatewayStatus {
  gs_enabled : bool;
  gs_wan_interface : option string;
  gs_lan_interface : option string;
  gs_lan_subnet : option string;
  gs_ip_forward_enabled : bool;
  gs_mgmt_ports : list Z;
  gs_wan_input_blocked : bool;
}.

(** ** Tags and rules *)

Definition GATEWAY_NAT_TAG : string := "balansir:gateway:masq".
Definition GATEWAY_FWD_TAG : string := "balansir:gateway:fwd".
Definition GATEWAY_MGMT_TAG : string := "balansir:gateway:mgmt".

Definition ct_spec (state : string) (v : NftVerdict) (tag : string) : NftRuleSpec :=
  mkSpec None None None None None (Some state) None None v None (Some tag).

Definition forward_specs : list NftRuleSpec :=
  [ct_spec "established,related" VAccept GATEWAY_FWD_TAG; ct_spec "invalid" VDrop GATEWAY_FWD_TAG].

Definition nat_spec (c : GatewayConfig) : NftRuleSpec :=
  mkSpec None (Some (lan_subnet c)) None None None None None (Some (wan_interface c)) VMasquerade
    None (Some GATEWAY_NAT_TAG).

Definition port_protos (port : Z) : list NftProto := if port =? 53 then [PTcp; PUdp] else [PTcp].

Definition admin_specs (subnet : string) (iface : option string) : list NftRuleSpec :=
  mjoin (map (fun port =>
    map (fun p => mkSpec (Some p) (Some subnet) None None (Some port) None iface None VAccept None
                    (Some GATEWAY_MGMT_TAG)) (port_protos port)) DEFAULT_MGMT_PORTS).

Definition management_specs (c : GatewayConfig) : list NftRuleSpec :=
  [ct_spec "established,related" VAccept GATEWAY_MGMT_TAG;
   mkSpec None (Some "127.0.0.0/8"%string) None None None None (Some "lo"%string) None VAccept None
     (Some GATEWAY_MGMT_TAG)] ++
  admin_specs (lan_subnet c) (Some (lan_interface c)) ++
  admin_specs "100.64.0.0/10" None.

(** ** The backend *)

(** Operations with a loop: [None] is a loop that ran out of fuel. *)
Definition fcmd (G A : Type) : Type := G -> option (G * (Error + A)).

#[export] Instance fcmd_ret {G} : MRet (fcmd G) := fun A a g => Some (g, inr a).
#[export] Instance fcmd_bind {G} : MBind (fcmd G) := fun A B f m g =>
  match m g with
  | None => None
  | Some (g, inl e) => Some (g, inl e)
  | Some (g, inr a) => f a g
  end.

Definition fcmd_map_err {G A} (f : Error -> Error) (m : fcmd G A) : fcmd G A := fun g =>
  match m g with Some (g, inl e) => Some (g, inl (f e)) | r => r end.

Section Gateway.
Context {N S : Type} (nft : N -> list string -> N * (Error + output)) (b : NftablesBackend).
(** The file [/proc/sys/net/ipv4/ip_forward]: writing it may fail, reading it too. *)
Context (sysctl_write : S -> string -> S * (string + ())) (sysctl_read : S -> option string).

Record gateway := mkGw {
  g_host : N;
  g_sysctl : S;
  g_applied : option GatewayConfig;
}.

Definition on_nft {A} (m : cmd N A) : fcmd gateway A := fun g =>
  let '(n, r) := m (g_host g) in Some (mkGw n (g_sysctl g) (g_applied g), r).

Definition set_ip_forward (enabled : bool) : fcmd gateway () := fun g =>
  let '(s, r) := sysctl_write (g_sysctl g)
    (String (if enabled then "1" else "0") (String newline EmptyString)) in
  Some (mkGw (g_host g) s (g_applied g),
    match r with inr _ => inr () | inl e => inl (Fatal ("sysctl ip_forward: " +:+ e)) end).

Definition ip_forward_enabled (g : gateway) : bool :=
  match sysctl_read (g_sysctl g) with Some v => String.eqb (trim v) "1" | None => false end.

Definition set_applied (a : option GatewayConfig) : fcmd gateway () := fun g =>
  Some (mkGw (g_host g) (g_sysctl g) a, inr ()).

Definition ensure_base_chains : fcmd gateway () :=
  _ ← on_nft (ensure_hooked_chain nft b "postrouting"
        ["type"; "nat"; "hook"; "postrouting"; "priority"; "100"; ";"]%string);
  on_nft (ensure_hooked_chain nft b "input"
    ["type"; "filter"; "hook"; "input"; "priority"; "0"; "policy"; "drop"; ";"]%string).

(** The loop: while a listing shows the tag, remove a rule with it. *)
Fixpoint remove_loop (fuel : nat) (chain tag : string) (n : N) : option (N * (Error + ())) :=
  match fuel with
  | O => None
  | Datatypes.S fuel =>
      match has_comment_in_chain nft b chain tag n with
      | (n, inr true) =>
          match remove_rule_by_comment_in_chain nft b chain tag n with
          | (n, inl e) => Some (n, inl e)
          | (n, inr _) => remove_loop fuel chain tag n
          end
      | (n, _) => Some (n, inr ())
      end
  end.

Definition remove_all_rules (fuel : nat) (chain tag : string) : fcmd gateway () := fun g =>
  match remove_loop fuel chain tag (g_host g) with
  | None => None
  | Some (n, r) => Some (mkGw n (g_sysctl g) (g_applied g), r)
  end.

Fixpoint add_rules (chain : string) (specs : list NftRuleSpec) : cmd N () :=
  match specs with
  | [] => mret ()
  | s :: specs => _ ← add_rule_to_chain nft b chain s; add_rules chain specs
  end.

Definition apply_forward_conntrack (fuel : nat) : fcmd gateway () :=
  _ ← remove_all_rules fuel "forward" GATEWAY_FWD_TAG;
  on_nft (add_rules "forward" forward_specs).

Definition apply_nat (fuel : nat) (c : GatewayConfig) : fcmd gateway () :=
  _ ← remove_all_rules fuel "postrouting" GATEWAY_NAT_TAG;
  on_nft (add_rules "postrouting" [nat_spec c]).

Definition apply_management (fuel : nat) (c : GatewayConfig) : fcmd gateway () :=
  _ ← remove_all_rules fuel "input" GATEWAY_MGMT_TAG;
  on_nft (add_rules "input" (management_specs c)).

Definition apply (fuel : nat) (c : GatewayConfig) : fcmd gateway GatewayResult := fun g =>
  match validate c with
  | inl e => Some (g, inl (Misconfiguration e))
  | inr _ =>
      (_ ← ensure_base_chains;
       _ ← set_ip_forward true;
       _ ← apply_forward_conntrack fuel;
       _ ← apply_nat fuel c;
       _ ← apply_management fuel c;
       _ ← set_applied (Some c);
       mret (mkGatewayResult true
         ("NAT (masquerade on " +:+ wan_interface c +:+
          "), forwarding, conntrack and management firewall applied (LAN " +:+ lan_subnet c +:+
          " via " +:+ lan_interface c +:+ ")"))) g
  end.

(** One teardown: whether there was anything to remove. *)
Definition remove_group (fuel : nat) (chain tag what : string) : fcmd gateway bool :=
  present ← on_nft (has_comment_in_chain nft b chain tag);
  if present : bool then
    _ ← fcmd_map_err (fun e => Fatal ("remove " +:+ what +:+ ": " +:+ error_to_string e))
          (remove_all_rules fuel chain tag);
    mret true
  else mret false.

Definition remove (fuel : nat) : fcmd gateway GatewayResult :=
  nat_removed ← remove_group fuel "postrouting" GATEWAY_NAT_TAG "NAT";
  fwd_removed ← remove_group fuel "forward" GATEWAY_FWD_TAG "forward conntrack";
  mgmt_removed ← remove_group fuel "input" GATEWAY_MGMT_TAG "management firewall";
  let removed :=
    (if nat_removed : bool then ["NAT"%string] else []) ++
    (if fwd_removed : bool then ["forward conntrack"%string] else []) ++
    (if mgmt_removed : bool then ["management firewall"%string] else []) in
  _ ← match removed with [] => mret () | _ => set_ip_forward false end;
  _ ← set_applied None;
  mret (mkGatewayResult true
    match removed with
    | [] => "gateway datapath not applied (nothing to remove)"%string
    | _ => "removed: " +:+ join_with ", " removed
    end).

Definition report (nat_present mgmt_present : bool) : fcmd gateway GatewayStatus := fun g =>
  let ip_fwd := ip_forward_enabled g in
  Some (g, inr (mkGatewayStatus (nat_present && ip_fwd) (wan_interface <$> g_applied g)
    (lan_interface <$> g_applied g) (lan_subnet <$> g_applied g) ip_fwd
    (if mgmt_present then DEFAULT_MGMT_PORTS else []) mgmt_present)).

Definition status : fcmd gateway GatewayStatus :=
  nat_present ← on_nft (has_comment_in_chain nft b "postrouting" GATEWAY_NAT_TAG);
  mgmt_present ← on_nft (has_comment_in_chain nft b "input" GATEWAY_MGMT_TAG);
  report nat_present mgmt_present.
End Gateway.
Arguments gateway N S : clear implicits.
Arguments mkGw {N S} _ _ _.
Arguments g_host {N S} _.
Arguments g_sysctl {N S} _.
Arguments g_applied {N S} _.

(** The record-only backend of other platforms: it keeps the configuration. *)
Definition record_apply (applied : option GatewayConfig) (c : GatewayConfig) :
    option GatewayConfig * (Error + GatewayResult) :=
  match validate c with
  | inl e => (applied, inl (Misconfiguration e))
  | inr _ => (Some c, inr (mkGatewayResult true
      ("record-only gateway applied: wan=" +:+ wan_interface c +:+ " lan=" +:+ lan_interface c +:+
       " subnet=" +:+ lan_subnet c)))
  end.
Definition record_remove (_ : option GatewayConfig) : option GatewayConfig * (Error + GatewayResult) :=
  (None, inr (mkGatewayResult true "record-only gateway removed")).
Definition record_status (applied : option GatewayConfig) : GatewayStatus :=
  match applied with
  | Some c => mkGatewayStatus true (Some (wan_interface c)) (Some (lan_interface c))
                (Some (lan_subnet c)) true DEFAULT_MGMT_PORTS true
  | None => mkGatewayStatus false None None None false [] false
  end.

(** ** Replacing the rules of a tag *)

Definition strip_tag (comment : string) (rs : list nft_rule) : list nft_rule :=
  List.filter (fun r => negb (has_tag comment r)) rs.

Lemma strip_drop_tag comment (rs : list nft_rule) :
  List.NoDup (map fst rs) -> strip_tag comment (drop_tag comment rs) = strip_tag comment rs.
Proof.
  unfold drop_tag. destruct (List.find _ rs) as [x|] eqn:Ef; [|done]. intros Hd.
  apply find_some in Ef as [Hx Ht]. unfold strip_tag.
  induction rs as [|y rs IH]; [done|]. cbn [map] in Hd. inversion_clear Hd as [|? ? Hn Hd'].
  cbn [List.filter]. destruct Hx as [->|Hx].
  - rewrite Z.eqb_refl, Ht. cbn [negb]. f_equal. apply filter_all, List.Forall_forall.
    intros z Hz. apply negb_true_iff, Z.eqb_neq. intros E. apply Hn. rewrite <- E. by apply in_map.
  - replace (y.1 =? x.1) with false; [|symmetry; apply Z.eqb_neq; intros E; apply Hn; rewrite E;
      by apply in_map]. cbn [negb List.filter]. by rewrite (IH Hx Hd').
Qed.

Lemma find_count comment rs :
  List.find (has_tag comment) rs = None <-> count_tag comment rs = 0.
Proof.
  unfold count_tag. induction rs as [|x rs IH]; [done|]. cbn [List.find List.filter].
  destruct (has_tag comment x); [|exact IH]. rewrite len_cons.
  pose proof (len_nonneg (List.filter (has_tag comment) rs)). split; [done|lia].
Qed.

Lemma count_tag_nonneg comment rs : 0 <= count_tag comment rs.
Proof. apply len_nonneg. Qed.

Lemma count_tag_le comment rs : count_tag comment rs <= len rs.
Proof.
  unfold count_tag. induction rs as [|x rs IH]; [done|]. cbn [List.filter].
  destruct (has_tag comment x); rewrite !len_cons; lia.
Qed.

(** The rules the gateway adds carry its tags. *)
Lemma rendered_tagged t specs (rs : list nft_rule) :
  map snd rs = map render specs -> Forall (fun r => 0 <= r.1) rs ->
  Forall (fun s => tagged (render s) t) specs -> all_tagged rs.
Proof.
  revert rs. induction specs as [|s specs IH]; intros [|[h a] rs] E Hh Hs; try done; [constructor|].
  cbn in E. injection E as -> E. inversion_clear Hh. inversion_clear Hs.
  constructor; [by eauto|by apply IH].
Qed.

Lemma management_tagged cfg :
  untagged (lan_subnet cfg) -> untagged (lan_interface cfg) ->
  Forall (fun s => tagged (render s) "gateway:mgmt") (management_specs cfg).
Proof.
  intros H1 H2. repeat constructor; try done;
    (eapply render_tagged; [reflexivity|done|..]); intros x; cbn; intros [= <-]; done.
Qed.

Lemma forward_tagged : Forall (fun s => tagged (render s) "gateway:fwd") forward_specs.
Proof.
  repeat constructor; try done;
    (eapply render_tagged; [reflexivity|done|..]); intros x; cbn; intros [= <-]; done.
Qed.

Lemma nat_tagged cfg :
  untagged (lan_subnet cfg) -> untagged (wan_interface cfg) -> tagged (render (nat_spec cfg)) "gateway:masq".
Proof.
  intros H1 H2. (eapply render_tagged; [reflexivity|done|..]); intros x; cbn; intros [= <-]; done.
Qed.

(** An interface name that passes validation holds no tag. *)
Lemma iface_untagged name field : validate_iface name field = inr () -> untagged name.
Proof.
  unfold validate_iface. destruct (is_empty name); [done|]. destruct (15 <? _); [done|].
  destruct (all_chars is_identifier_char name) eqn:E; [|done]. intros _.
  apply not_true_is_false. intros (a & c & ->)%contains_spec.
  rewrite !all_chars_app in E. apply andb_true_iff in E as [_ [E _]%andb_true_iff]. discriminate E.
Qed.

Lemma validate_untagged cfg :
  validate cfg = inr () -> untagged (wan_interface cfg) /\ untagged (lan_interface cfg).
Proof.
  unfold validate. destruct (validate_iface (wan_interface cfg) _) as [e|[]] eqn:E1; [done|].
  destruct (validate_iface (lan_interface cfg) _) as [e|[]] eqn:E2; [done|]. intros _.
  eauto using iface_untagged.
Qed.

Section GatewaySpec.
Context {N S : Type} {nft : N -> list string -> N * (Error + output)} {b : NftablesBackend}
  {nft_spec : Nft (table_name b) nft}.
Context (sysctl_write : S -> string -> S * (string + ())) (sysctl_read : S -> option string).

Lemma became_trans c n n1 n2 rs1 rs2 :
  became (b := b) c n n1 rs1 -> became (b := b) c n1 n2 rs2 -> became (b := b) c n n2 rs2.
Proof.
  intros [_ H2 H3] [H4 H5 H6]. split; [done| |].
  - intros c' Hne. by rewrite H5, H2.
  - intros c'. by rewrite H6, H3.
Qed.

Lemma has_comment_spec n c rs t :
  valid_identifier c = true -> chain_rules n c = Some rs -> all_tagged rs -> plain t = true ->
  has_comment_in_chain nft b c ("balansir:" +:+ t) n =
    (n, inr (match List.find (has_tag ("balansir:" +:+ t)) rs with Some _ => true | None => false end)).
Proof.
  intros Hc E Hrs Ht. unfold has_comment_in_chain, try_ok, mbind, cmd_bind.
  rewrite (find_handle_in_chain_spec n c rs t) by done. by destruct (List.find _ rs).
Qed.

Lemma drop_tag_fine comment (rs : list nft_rule) :
  all_tagged rs -> List.NoDup (map fst rs) ->
  all_tagged (drop_tag comment rs) /\ List.NoDup (map fst (drop_tag comment rs)).
Proof.
  intros H1 H2. unfold drop_tag. destruct (List.find _ rs); [|done].
  split; [by apply Forall_list_filter|by apply NoDup_map_filter].
Qed.

(** The removal loop ends once it has fuel for every rule with the tag, and a loop that
    succeeds has removed exactly those. *)
Lemma remove_loop_spec fuel c t n rs :
  valid_identifier c = true -> plain t = true -> chain_fine (b := b) n c rs ->
  count_tag ("balansir:" +:+ t) rs < Z.of_nat fuel ->
  exists n' r rs', remove_loop nft b fuel c ("balansir:" +:+ t) n = Some (n', r) /\
    became (b := b) c n n' rs' /\ (r = inr () -> rs' = strip_tag ("balansir:" +:+ t) rs).
Proof.
  intros Hc Ht. revert n rs. induction fuel as [|fuel IH]; intros n rs (E & Hrs & Hd) Hk.
  { pose proof (count_tag_nonneg ("balansir:" +:+ t) rs). lia. }
  cbn [remove_loop]. rewrite (has_comment_spec n c rs t Hc E Hrs Ht).
  destruct (List.find _ rs) as [x|] eqn:Ef.
  - destruct (remove_rule_by_comment_in_chain nft b c _ n) as [n1 r1] eqn:Er.
    destruct (remove_in_chain_spec n c rs t n1 r1 Hc E Hrs Er) as [Hb _].
    destruct r1 as [e|[]]; [by exists n1, (inl e), rs|].
    destruct (drop_tag_fine ("balansir:" +:+ t) rs Hrs Hd) as [Hrs1 Hd1].
    assert (Hpos : count_tag ("balansir:" +:+ t) rs <> 0)
      by (intros E0; apply find_count in E0; congruence).
    pose proof (count_tag_nonneg ("balansir:" +:+ t) rs).
    destruct (IH n1 (drop_tag ("balansir:" +:+ t) rs)) as (n' & r & rs' & El & Hb' & Hr).
    + split; [by apply set_here in Hb|done].
    + rewrite count_drop_tag by done. lia.
    + exists n', r, rs'. split; [done|]. split; [by apply (became_trans c n n1 n' _ _ Hb)|].
      intros ->. rewrite (Hr eq_refl). by apply strip_drop_tag.
  - exists n, (inr ()), rs. split; [done|]. split; [by apply became_same|]. intros _.
    unfold strip_tag. symmetry. apply filter_all, List.Forall_forall. intros x Hx.
    by rewrite (find_none _ _ Ef x Hx).
Qed.

Lemma add_rules_spec c specs n n' r rs :
  valid_identifier c = true -> chain_rules n c = Some rs -> add_rules nft b c specs n = (n', r) ->
  exists rs', became (b := b) c n n' rs' /\
    (r = inr () -> map snd rs' = map snd rs ++ map render specs) /\
    (forall t, Forall (fun s => tagged (render s) t) specs -> all_tagged rs -> List.NoDup (map fst rs) ->
       all_tagged rs' /\ List.NoDup (map fst rs')).
Proof.
  intros Hc. revert n rs. induction specs as [|s specs IH]; intros n rs E H.
  { injection H as <- <-. exists rs. split; [by apply became_same|]. by rewrite app_nil_r. }
  cbn [add_rules] in H. unfold mbind, cmd_bind in H.
  destruct (add_rule_to_chain nft b c s n) as [n1 r1] eqn:Ea.
  destruct (add_rule_to_chain_spec c s n n1 r1 rs Hc E Ea) as (rs1 & Hb1 & Hr1).
  destruct r1 as [e|[]]; [by injection H as <- <-; subst rs1; exists rs|].
  destruct Hr1 as (h & Hh & Hn & ->). pose proof (set_here _ _ _ _ _ _ Hb1) as E1.
  destruct (IH n1 _ E1 H) as (rs' & Hb' & Hr' & Hf'). exists rs'.
  split; [by apply (became_trans c n n1 n' _ _ Hb1)|]. split.
  - intros Hr. by rewrite (Hr' Hr), map_app, <- app_assoc.
  - intros t Ht Hrs Hd. inversion_clear Ht as [|? ? Hs Ht']. apply (Hf' t Ht').
    + apply Forall_app. split; [done|]. constructor; [|constructor]. by eauto.
    + rewrite map_app. apply NoDup_ListNoDup, NoDup_app. split; [by apply NoDup_ListNoDup|].
      split; [|apply NoDup_singleton]. intros x Hx ->%list_elem_of_singleton.
      by apply Hn, list_elem_of_In.
Qed.

(** The rest of the gateway is untouched. *)
Definition only_chain (c : string) (g g' : gateway N S) : Prop :=
  (forall c', c' <> c -> chain_rules (g_host g') c' = chain_rules (g_host g) c') /\
  (forall c', chain_policy (g_host g') c' = chain_policy (g_host g) c') /\
  g_sysctl g' = g_sysctl g /\ g_applied g' = g_applied g.

(** A chain that may not exist yet, with its rules tagged under distinct handles. *)
Definition chain_sane (n : N) (c : string) : Prop :=
  all_tagged (default [] (chain_rules n c)) /\
  List.NoDup (map fst (default [] (chain_rules n c))).

(** Replacing the rules of a tag in a chain that holds what the sane chain [rs] held. *)
Lemma replace_spec fuel c t specs g n0 :
  valid_identifier c = true -> plain t = true -> chain_sane n0 c ->
  chain_rules (g_host g) c = Some (default [] (chain_rules n0 c)) ->
  len (default [] (chain_rules n0 c)) < Z.of_nat fuel ->
  exists g' r,
    (_ ← remove_all_rules nft b fuel c ("balansir:" +:+ t); on_nft (add_rules nft b c specs)) g =
      Some (g', r) /\ only_chain c g g' /\
    (r = inr () -> exists rs', chain_rules (g_host g') c = Some rs' /\
       map snd rs' = map snd (strip_tag ("balansir:" +:+ t) (default [] (chain_rules n0 c))) ++
         map render specs /\
       (Forall (fun s => tagged (render s) t) specs -> chain_sane (g_host g') c)).
Proof.
  intros Hc Ht Hs E Hk. set (rs := default [] (chain_rules n0 c)) in *.
  assert (Hf : chain_fine (b := b) (g_host g) c rs) by (by split).
  unfold mbind, fcmd_bind, remove_all_rules.
  destruct (remove_loop_spec fuel c t _ rs Hc Ht Hf) as (n1 & r1 & rs1 & -> & Hb1 & Hr1).
  { pose proof (count_tag_le ("balansir:" +:+ t) rs). lia. }
  destruct r1 as [e|[]].
  { eexists _, _. split; [reflexivity|]. destruct Hb1 as [_ H2 H3]. by repeat split. }
  unfold on_nft. cbn [g_host g_sysctl g_applied].
  destruct (add_rules nft b c specs n1) as [n2 r2] eqn:Ea.
  pose proof (set_here _ _ _ _ _ _ Hb1) as E1.
  destruct (add_rules_spec c specs n1 n2 r2 rs1 Hc E1 Ea) as (rs2 & Hb2 & Hr2 & Hf2).
  eexists _, _. split; [reflexivity|]. rewrite (Hr1 eq_refl) in *.
  destruct (became_trans c _ _ _ _ _ Hb1 Hb2) as [H1 H2 H3]. split; [by repeat split|].
  intros Hr. exists rs2. split; [exact H1|]. split; [by apply Hr2|]. intros Hsp.
  unfold chain_sane. cbn [g_host]. rewrite H1. apply (Hf2 t Hsp).
  - apply Forall_list_filter, Hs.
  - apply NoDup_map_filter, Hs.
Qed.

Lemma ensure_base_chains_spec (g : gateway N S) :
  exists g' r, ensure_base_chains nft b g = Some (g', r) /\
    g_sysctl g' = g_sysctl g /\ g_applied g' = g_applied g /\
    (forall c, c <> "postrouting"%string -> c <> "input"%string ->
       chain_rules (g_host g') c = chain_rules (g_host g) c) /\
    (r = inr () ->
       chain_rules (g_host g') "postrouting" = Some (default [] (chain_rules (g_host g) "postrouting")) /\
       chain_rules (g_host g') "input" = Some (default [] (chain_rules (g_host g) "input"))).
Proof.
  unfold ensure_base_chains, mbind, fcmd_bind, on_nft.
  destruct (ensure_hooked_chain nft b "postrouting" _ (g_host g)) as [n1 r1] eqn:E1.
  destruct (ensure_hooked_spec "postrouting" _ _ _ _ eq_refl E1) as (O1 & _ & R1 & _).
  destruct r1 as [e|[]].
  { eexists _, _. split; [reflexivity|]. repeat split; try done. intros c Hc _. by apply O1. }
  specialize (R1 eq_refl). cbn [g_host g_sysctl g_applied].
  destruct (ensure_hooked_chain nft b "input" _ n1) as [n2 r2] eqn:E2.
  destruct (ensure_hooked_spec "input" _ _ _ _ eq_refl E2) as (O2 & _ & R2 & _).
  eexists _, _. split; [reflexivity|]. cbn [g_host g_sysctl g_applied]. split; [done|].
  split; [done|]. split.
  - intros c Hp Hi. rewrite (proj1 (O2 c Hi)). by apply O1.
  - intros Hr. rewrite (proj1 (O2 "postrouting"%string ltac:(done))), R1. split; [done|].
    rewrite (R2 Hr). by rewrite (proj1 (O1 "input"%string ltac:(done))).
Qed.

(** What [apply] does. *)
Lemma apply_spec fuel cfg (g : gateway N S) :
  let rules c := default [] (chain_rules (g_host g) c) in
  is_Some (chain_rules (g_host g) "forward") ->
  (forall c, In c ["forward"; "postrouting"; "input"]%string ->
     chain_sane (g_host g) c /\ len (rules c) < Z.of_nat fuel) ->
  exists g' r, apply nft b sysctl_write fuel cfg g = Some (g', r) /\
    forall res, r = inr res ->
      validate cfg = inr () /\
      sysctl_write (g_sysctl g) (String "1" (String newline EmptyString)) = (g_sysctl g', inr ()) /\
      exists rf rp ri, g_applied g' = Some cfg /\
        chain_rules (g_host g') "forward" = Some rf /\
        chain_rules (g_host g') "postrouting" = Some rp /\
        chain_rules (g_host g') "input" = Some ri /\
        map snd rf = map snd (strip_tag GATEWAY_FWD_TAG (rules "forward")) ++
          map render forward_specs /\
        map snd rp = map snd (strip_tag GATEWAY_NAT_TAG (rules "postrouting")) ++
          [render (nat_spec cfg)] /\
        map snd ri = map snd (strip_tag GATEWAY_MGMT_TAG (rules "input")) ++
          map render (management_specs cfg) /\
        (untagged (lan_subnet cfg) ->
           forall c, In c ["forward"; "postrouting"; "input"]%string -> chain_sane (g_host g') c).
Proof.
  intros rules [rf0 Ef0] Hin. destruct (Hin "forward"%string) as [Sf Lf]; [by left|].
  destruct (Hin "postrouting"%string) as [Sp Lp]; [by right; left|].
  destruct (Hin "input"%string) as [Si Li]; [by right; right; left|]. clear Hin. unfold rules in *.
  unfold apply. destruct (validate cfg) as [|[]] eqn:Ev; [by eexists _, _|]. unfold mbind, fcmd_bind.
  destruct (ensure_base_chains_spec g) as (g1 & r1 & -> & Es1 & _ & Ho1 & Hr1).
  destruct r1 as [e|[]]; [by eexists _, _|]. destruct (Hr1 eq_refl) as [Ep Ei]. clear Hr1.
  unfold set_ip_forward. destruct (sysctl_write _ _) as [s2 [e|[]]] eqn:Ew; [by eexists _, _|].
  set (g2 := mkGw (g_host g1) s2 (g_applied g1)).
  destruct (replace_spec fuel "forward" "gateway:fwd" forward_specs g2 (g_host g) eq_refl eq_refl Sf)
    as (g3 & r3 & E3 & (Ho3 & _ & Es3 & _) & Hr3); [cbn; by rewrite Ho1, Ef0|done|].
  change (apply_forward_conntrack nft b fuel g2 = Some (g3, r3)) in E3. rewrite E3. clear E3.
  destruct r3 as [e|[]]; [by eexists _, _|]. destruct (Hr3 eq_refl) as (rf & Ef & Mf & Cf). clear Hr3.
  destruct (replace_spec fuel "postrouting" "gateway:masq" [nat_spec cfg] g3 (g_host g) eq_refl eq_refl Sp)
    as (g4 & r4 & E4 & (Ho4 & _ & Es4 & _) & Hr4); [by rewrite Ho3|done|].
  change (apply_nat nft b fuel cfg g3 = Some (g4, r4)) in E4. rewrite E4. clear E4.
  destruct r4 as [e|[]]; [by eexists _, _|]. destruct (Hr4 eq_refl) as (rp & Ep' & Mp & Cp). clear Hr4.
  destruct (replace_spec fuel "input" "gateway:mgmt" (management_specs cfg) g4 (g_host g) eq_refl eq_refl Si)
    as (g5 & r5 & E5 & (Ho5 & _ & Es5 & _) & Hr5); [by rewrite Ho4, Ho3|done|].
  change (apply_management nft b fuel cfg g4 = Some (g5, r5)) in E5. rewrite E5. clear E5.
  destruct r5 as [e|[]]; [by eexists _, _|]. destruct (Hr5 eq_refl) as (ri & Ei' & Mi & Ci). clear Hr5.
  unfold set_applied, mret, fcmd_ret. eexists _, _. split; [reflexivity|]. intros res _.
  split; [done|]. split; [rewrite <- Es1, Ew; cbn [g_sysctl]; by rewrite Es5, Es4, Es3|].
  exists rf, rp, ri. cbn [g_host g_applied]. unfold chain_sane in *. rewrite !Ho5, Ho4 by done.
  do 7 (split; [done|]). intros Hu c Hc. destruct (validate_untagged cfg Ev) as [Hw Hl].
  destruct Hc as [<-|[<-|[<-|[]]]].
  - rewrite Ho5, Ho4 by done. apply Cf, forward_tagged.
  - rewrite Ho5 by done. apply Cp. constructor; [by apply nat_tagged|constructor].
  - by apply Ci, management_tagged.
Qed.

(** C23.  Applying the gateway datapath ends, and when it succeeds the three chains hold
    exactly the gateway's rules, once each and in order, behind the other rules they had:
    whatever was installed under the gateway's tags before is replaced.  In particular the
    connection-tracking rules come after the policy rules already in the forward chain. *)
Theorem gateway_apply_rules fuel cfg (g : gateway N S) :
  let rules c := default [] (chain_rules (g_host g) c) in
  is_Some (chain_rules (g_host g) "forward") ->
  (forall c, In c ["forward"; "postrouting"; "input"]%string ->
     chain_sane (g_host g) c /\ len (rules c) < Z.of_nat fuel) ->
  exists g' r, apply nft b sysctl_write fuel cfg g = Some (g', r) /\
    forall res, r = inr res ->
      exists rf rp ri, g_applied g' = Some cfg /\
        chain_rules (g_host g') "forward" = Some rf /\
        chain_rules (g_host g') "postrouting" = Some rp /\
        chain_rules (g_host g') "input" = Some ri /\
        map snd rf = map snd (strip_tag GATEWAY_FWD_TAG (rules "forward")) ++
          map render forward_specs /\
        map snd rp = map snd (strip_tag GATEWAY_NAT_TAG (rules "postrouting")) ++
          [render (nat_spec cfg)] /\
        map snd ri = map snd (strip_tag GATEWAY_MGMT_TAG (rules "input")) ++
          map render (management_specs cfg).
Proof.
  intros rules Hf Hin. destruct (apply_spec fuel cfg g Hf Hin) as (g' & r & E & H).
  exists g', r. split; [done|]. intros res Hr.
  destruct (H res Hr) as (_ & _ & rf & rp & ri & H1 & H2 & H3 & H4 & H5 & H6 & H7 & _).
  by exists rf, rp, ri.
Qed.

(** *** What the backend reports of itself *)

(** The chains the backend reads back: those of the executor's own rules. *)
Definition gateway_ready (g : gateway N S) : Prop :=
  is_Some (chain_rules (g_host g) "forward") /\
  forall c, In c ["forward"; "postrouting"; "input"]%string -> chain_sane (g_host g) c.

(** Fuel for every rule of the three chains. *)
Definition gateway_fuel (g : gateway N S) : nat :=
  Datatypes.S (list_sum (map (fun c => length (default [] (chain_rules (g_host g) c)))
    ["forward"; "postrouting"; "input"]%string)).

Lemma gateway_fuel_enough g c :
  In c ["forward"; "postrouting"; "input"]%string ->
  len (default [] (chain_rules (g_host g) c)) < Z.of_nat (gateway_fuel g).
Proof. unfold gateway_fuel, len. intros [<-|[<-|[<-|[]]]]; cbn; lia. Qed.

Lemma has_comment_sane n c t :
  valid_identifier c = true -> plain t = true -> chain_sane n c ->
  has_comment_in_chain nft b c ("balansir:" +:+ t) n =
    (n, inr (existsb (has_tag ("balansir:" +:+ t)) (default [] (chain_rules n c)))).
Proof.
  intros Hc Ht [Hs _]. destruct (chain_rules n c) as [rs|] eqn:E.
  - cbn in Hs |- *. rewrite (has_comment_spec n c rs t) by done. do 2 f_equal.
    destruct (List.find _ rs) as [x|] eqn:Ef; symmetry.
    + apply existsb_exists. apply find_some in Ef. by exists x.
    + apply not_true_is_false. intros (x & Hx & Htx)%existsb_exists.
      apply (find_none _ _ Ef) in Hx. congruence.
  - unfold has_comment_in_chain, try_ok, mbind, cmd_bind. by rewrite find_handle_no_chain.
Qed.

(** The status reads the tags of the two chains and the sysctl, and changes nothing. *)
Lemma status_spec (g : gateway N S) :
  gateway_ready g ->
  let there c t := existsb (has_tag t) (default [] (chain_rules (g_host g) c)) in
  status nft b sysctl_read g =
    report sysctl_read (there "postrouting"%string GATEWAY_NAT_TAG) (there "input"%string GATEWAY_MGMT_TAG) g.
Proof.
  intros [_ Hs] there. destruct g as [n sy a]. unfold status, mbind, fcmd_bind, on_nft. cbn [g_host g_sysctl g_applied].
  pose proof (has_comment_sane n "postrouting" "gateway:masq" eq_refl eq_refl
    (Hs "postrouting"%string (or_intror (or_introl eq_refl)))) as H1.
  pose proof (has_comment_sane n "input" "gateway:mgmt" eq_refl eq_refl
    (Hs "input"%string (or_intror (or_intror (or_introl eq_refl))))) as H2.
  change ("balansir:" +:+ "gateway:masq") with GATEWAY_NAT_TAG in H1.
  change ("balansir:" +:+ "gateway:mgmt") with GATEWAY_MGMT_TAG in H2.
  rewrite H1. cbn [g_host g_sysctl g_applied]. by rewrite H2.
Qed.

Lemma last_has_tag t (rs : list nft_rule) l args :
  map snd rs = l ++ [args] -> tagged args t -> existsb (has_tag ("balansir:" +:+ t)) rs = true.
Proof.
  intros E Ht. assert (Hin : In args (map snd rs)) by (rewrite E, in_app_iff; right; by left).
  apply in_map_iff in Hin as ([h a] & <- & Hin). apply existsb_exists. exists (h, a). split; [done|].
  rewrite (has_tag_tagged h a t) by done. apply String.eqb_refl.
Qed.

Hypothesis sysctl_kept : forall s s',
  sysctl_write s (String "1" (String newline EmptyString)) = (s', inr ()) ->
  exists v, sysctl_read s' = Some v /\ trim v = "1"%string.

(** After an application that succeeded, the status reports exactly that gateway. *)
Lemma applied_status fuel cfg (g g' : gateway N S) res :
  gateway_ready g -> untagged (lan_subnet cfg) ->
  (forall c, In c ["forward"; "postrouting"; "input"]%string ->
     len (default [] (chain_rules (g_host g) c)) < Z.of_nat fuel) ->
  apply nft b sysctl_write fuel cfg g = Some (g', inr res) ->
  gateway_ready g' /\
  exists mgmt, status nft b sysctl_read g' =
    Some (g', inr (mkGatewayStatus true (Some (wan_interface cfg)) (Some (lan_interface cfg))
      (Some (lan_subnet cfg)) true (if mgmt : bool then DEFAULT_MGMT_PORTS else []) mgmt)).
Proof.
  intros [Hf Hs] Hu Hfu E.
  destruct (apply_spec fuel cfg g Hf (fun c Hc => conj (Hs c Hc) (Hfu c Hc))) as (g0 & r & E0 & H).
  rewrite E in E0. injection E0 as <- <-.
  destruct (H res eq_refl) as (Hv & Hw & rf & rp & ri & Ha & E1 & E2 & E3 & _ & M2 & _ & Hsane).
  assert (Hr : gateway_ready g') by (split; [by rewrite E1|by apply Hsane]).
  split; [done|]. rewrite status_spec by done. rewrite E2. cbn [default from_option id].
  assert (Ht : existsb (has_tag GATEWAY_NAT_TAG) rp = true).
  { apply (last_has_tag "gateway:masq" rp _ (render (nat_spec cfg)) M2).
    apply nat_tagged; [done|by apply validate_untagged]. }
  rewrite Ht.
  unfold report, ip_forward_enabled. destruct (sysctl_kept _ _ Hw) as (v & -> & ->).
  rewrite Ha. by eexists.
Qed.

(** One teardown group. *)
Lemma remove_group_spec fuel c t what (g : gateway N S) :
  valid_identifier c = true -> plain t = true -> chain_sane (g_host g) c ->
  len (default [] (chain_rules (g_host g) c)) < Z.of_nat fuel ->
  exists g' r, remove_group nft b fuel c ("balansir:" +:+ t) what g = Some (g', r) /\
    only_chain c g g' /\
    (forall x, r = inr x -> chain_rules (g_host g') c =
       strip_tag ("balansir:" +:+ t) <$> chain_rules (g_host g) c).
Proof.
  intros Hc Ht Hs Hk. unfold remove_group, mbind, fcmd_bind, on_nft.
  destruct (chain_rules (g_host g) c) as [rs|] eqn:E; cbn [default from_option id] in Hk.
  2: { unfold has_comment_in_chain, try_ok, mbind, cmd_bind. rewrite find_handle_no_chain by done.
       destruct g as [n s a]. eexists _, _. split; [reflexivity|]. split; [by repeat split|].
       intros x _. cbn [g_host] in *. by rewrite E. }
  assert (Hf : chain_fine (b := b) (g_host g) c rs).
  { unfold chain_sane in Hs. rewrite E in Hs. by split. }
  rewrite (has_comment_spec (g_host g) c rs t) by (done || apply Hf).
  destruct (List.find _ rs) as [y|] eqn:Ef.
  - unfold fcmd_map_err, remove_all_rules. cbn [g_host g_sysctl g_applied].
    destruct (remove_loop_spec fuel c t _ rs Hc Ht Hf) as (n1 & r1 & rs1 & -> & [H1 H2 H3] & Hr1).
    { pose proof (count_tag_le ("balansir:" +:+ t) rs). lia. }
    destruct r1 as [e|[]]; eexists _, _; (split; [reflexivity|]); (split; [by repeat split|]);
      [done|]. intros x _. cbn [g_host fmap option_fmap option_map]. by rewrite H1, (Hr1 eq_refl).
  - destruct g as [n s a]. eexists _, _. split; [reflexivity|]. split; [by repeat split|].
    intros x _. cbn [g_host fmap option_fmap option_map] in *. rewrite E. f_equal. symmetry.
    apply filter_all, List.Forall_forall. intros z Hz. by rewrite (find_none _ _ Ef z Hz).
Qed.

(** Removing the gateway datapath locks the host: [apply] puts the policy [drop] on the
    input chain and [remove] takes the accepting rules out of it but leaves the chain and its
    policy.  When the chain holds only the gateway's rules, a removal that reports success
    leaves an empty input chain that drops everything, the loopback and the operator's ssh
    included. *)
Theorem gateway_remove_locks_out fuel (g : gateway N S) g' res ri :
  (forall c, In c ["forward"; "postrouting"; "input"]%string ->
     chain_sane (g_host g) c /\ len (default [] (chain_rules (g_host g) c)) < Z.of_nat fuel) ->
  chain_rules (g_host g) "input" = Some ri ->
  Forall (fun r => has_tag GATEWAY_MGMT_TAG r = true) ri ->
  chain_policy (g_host g) "input" = Some "drop"%string ->
  remove nft b sysctl_write fuel g = Some (g', inr res) ->
  chain_rules (g_host g') "input" = Some [] /\
  chain_policy (g_host g') "input" = Some "drop"%string.
Proof.
  intros Hin Ei Hri Hpol H. destruct (Hin "forward"%string) as [Sf Lf]; [by left|].
  destruct (Hin "postrouting"%string) as [Sp Lp]; [by right; left|].
  destruct (Hin "input"%string) as [Si Li]; [by right; right; left|]. clear Hin.
  unfold remove in H. unfold mbind at 1, fcmd_bind at 1 in H.
  destruct (remove_group_spec fuel "postrouting" "gateway:masq" "NAT" g eq_refl eq_refl Sp Lp)
    as (g1 & r1 & E1 & (O1 & P1 & _) & _).
  change ("balansir:" +:+ "gateway:masq") with GATEWAY_NAT_TAG in E1. rewrite E1 in H.
  destruct r1 as [e|x1]; [done|]. unfold mbind at 1, fcmd_bind at 1 in H.
  destruct (remove_group_spec fuel "forward" "gateway:fwd" "forward conntrack" g1 eq_refl eq_refl)
    as (g2 & r2 & E2 & (O2 & P2 & _) & _);
    [unfold chain_sane; by rewrite O1|by rewrite O1|].
  change ("balansir:" +:+ "gateway:fwd") with GATEWAY_FWD_TAG in E2. rewrite E2 in H.
  destruct r2 as [e|x2]; [done|]. unfold mbind at 1, fcmd_bind at 1 in H.
  destruct (remove_group_spec fuel "input" "gateway:mgmt" "management firewall" g2 eq_refl eq_refl)
    as (g3 & r3 & E3 & (O3 & P3 & _) & R3);
    [unfold chain_sane; by rewrite O2, O1|by rewrite O2, O1|].
  change ("balansir:" +:+ "gateway:mgmt") with GATEWAY_MGMT_TAG in E3, R3. rewrite E3 in H.
  destruct r3 as [e|x3]; [done|]. specialize (R3 x3 eq_refl).
  rewrite O2, O1, Ei in R3 by done. cbn [fmap option_fmap option_map] in R3.
  assert (Estrip : strip_tag GATEWAY_MGMT_TAG ri = []).
  { clear -Hri. induction Hri as [|r l Hr _ IH]; [done|]. unfold strip_tag in *. cbn.
    by rewrite Hr. }
  assert (Hg : g_host g' = g_host g3).
  { set (removed := _ ++ _) in H. unfold mbind, fcmd_bind, set_ip_forward, set_applied in H.
    destruct removed; [by injection H as <- _|].
    destruct (sysctl_write _ _) as [s2 [e|[]]]; [done|]. by injection H as <- _. }
  by rewrite Hg, R3, Estrip, P3, P2, P1.
Qed.
End GatewaySpec.

(** ** What validation lets through *)

Lemma before_last_app x a s :
  no_char x s = true -> before_last x (a +:+ String x s) = Some a.
Proof.
  intros H. assert (Hs : before_last x s = None).
  { induction s as [|c s IH]; [done|]. cbn in *. apply andb_true_iff in H as [Hc H].
    rewrite (IH H). by destruct (Ascii.eqb c x). }
  induction a as [|c a IH]; [|rewrite string_app_cons; cbn [before_last]; by rewrite IH].
  change (EmptyString +:+ String x s) with (String x s). cbn [before_last].
  by rewrite Hs, Ascii.eqb_refl.
Qed.

(** The prefix length of the LAN subnet is not checked: any text without a slash
    passes validation behind the address, and is handed to [nft] as it is, as an argument of
    the NAT rule and of the management rules. *)
Theorem gateway_subnet_unchecked cfg addr ip text :
  validate cfg = inr () -> parse_ip addr = Some ip -> no_char "/" text = true ->
  let cfg' := mkGateway (wan_interface cfg) (lan_interface cfg) (addr +:+ String "/" text) in
  validate cfg' = inr () /\ In (addr +:+ String "/" text) (render (nat_spec cfg')) /\
  exists s, In s (management_specs cfg') /\ In (addr +:+ String "/" text) (render s).
Proof.
  intros Hv Hip Ht. cbv zeta. split.
  - unfold validate in *. cbn [wan_interface lan_interface lan_subnet].
    destruct (validate_iface (wan_interface cfg) _) as [|[]]; [done|].
    destruct (validate_iface (lan_interface cfg) _) as [|[]]; [done|].
    destruct (String.eqb _ _); [done|]. unfold parse_cidr at 1.
    rewrite before_last_app by done. cbn [default from_option id]. by rewrite Hip.
  - split; [cbn; tauto|]. eexists (nth 2 (management_specs _) (nat_spec cfg)).
    split; [right; right; left; reflexivity|]. cbn. tauto.
Qed.

(** ** A run on a table in memory *)

Definition home : GatewayConfig := mkGateway "eth0" "eth1" "192.168.3.0/24".
Definition sysctl_file (s : string) (v : string) : string * (string + ()) := (v, inr ()).

Definition demo_gateway : gateway mem_table string := mkGw demo_host "0" None.
#[local] Existing Instance demo_nft_spec.
#[local] Abbreviation demo_nft := (mem_nft "balansir").

Definition demo_applied : gateway mem_table string :=
  match apply demo_nft demo_backend sysctl_file 20 home demo_gateway with
  | Some (g, _) => g
  | None => demo_gateway
  end.

Lemma gateway_apply_rules_witness :
  exists ri, chain_rules (g_host demo_applied) "input" = Some ri /\
    map snd ri = map render (management_specs home).
Proof.
  destruct (gateway_apply_rules (b := demo_backend) sysctl_file 20 home demo_gateway)
    as (g' & r & E & H).
  - vm_compute. by eexists.
  - intros c Hc. destruct Hc as [<-|[<-|[<-|[]]]]; (split; [split; constructor|vm_compute; reflexivity]).
  - unfold demo_applied. rewrite E.
    assert (Hr : exists res, r = inr res).
    { assert (Es : snd <$> apply demo_nft demo_backend sysctl_file 20 home demo_gateway = Some r)
        by (by rewrite E).
      vm_compute in Es. injection Es as <-. by eexists. }
    destruct Hr as [res ->].
    destruct (H res eq_refl) as (rf & rp & ri & _ & _ & _ & Hi & _ & _ & Mi).
    exists ri. split; [exact Hi|exact Mi].
Defined.

Definition demo_removed : gateway mem_table string :=
  match remove demo_nft demo_backend sysctl_file 20 demo_applied with
  | Some (g, _) => g
  | None => demo_applied
  end.

Lemma gateway_remove_locks_out_witness :
  chain_rules (g_host demo_removed) "input" = Some [] /\
  chain_policy (g_host demo_removed) "input" = Some "drop"%string.
Proof.
  set (ri := default [] (mem_rules (g_host demo_applied) "input")).
  apply (gateway_remove_locks_out (b := demo_backend) sysctl_file 20 demo_applied demo_removed
    (mkGatewayResult true "removed: NAT, forward conntrack, management firewall") ri).
  - assert (Hd : forall c, bool_decide (base.NoDup (map fst
      (default [] (mem_rules (g_host demo_applied) c)))) = true ->
      List.NoDup (map fst (default [] (mem_rules (g_host demo_applied) c))))
      by (intros c H; apply NoDup_ListNoDup; by apply bool_decide_eq_true in H).
    intros c Hc. destruct Hc as [<-|[<-|[<-|[]]]]; (split; [|vm_compute; reflexivity]);
      (split; [|apply Hd; vm_compute; reflexivity]).
    + apply (rendered_tagged "gateway:fwd" forward_specs); [vm_compute; reflexivity| |].
      * vm_compute. repeat constructor; discriminate.
      * apply Forall_cons_2; [|apply Forall_cons_2; [|constructor]];
          (eapply render_tagged; [reflexivity|done|..]); intros x; cbn; intros [= <-]; done.
    + apply (rendered_tagged "gateway:masq" [nat_spec home]); [vm_compute; reflexivity| |].
      * vm_compute. repeat constructor; discriminate.
      * apply Forall_cons_2; [|constructor]. (eapply render_tagged; [reflexivity|done|..]);
          intros x; cbn; intros [= <-]; done.
    + apply (rendered_tagged "gateway:mgmt" (management_specs home)); [vm_compute; reflexivity| |].
      * vm_compute. repeat constructor; discriminate.
      * by apply management_tagged.
  - vm_compute. reflexivity.
  - vm_compute. repeat constructor.
  - vm_compute. reflexivity.
  - vm_compute. reflexivity.
Defined.

Lemma gateway_subnet_unchecked_witness :
  let cfg := mkGateway "eth0" "eth1" "10.0.0.1/8; flush ruleset" in
  validate cfg = inr () /\ In "10.0.0.1/8; flush ruleset"%string (render (nat_spec cfg)).
Proof.
  destruct (gateway_subnet_unchecked home "10.0.0.1" (V4 0x0a000001) "8; flush ruleset")
    as (H1 & H2 & _).
  - vm_compute. reflexivity.
  - vm_compute. reflexivity.
  - vm_compute. reflexivity.
  - split; [exact H1|exact H2].
Defined.
