(* ===== verification/B4Adapt.v ===== *)
(** * The connectivity adaptation engine (balansir-daemon/src/b4_engine)

    [observe.rs], [classify.rs], [policy.rs], [config.rs] and [state.rs]: host-stack
    observations are classified, and per flow a small state machine chooses an MTU
    step, a DNS-path switch, a fallback or a strict failure within the bounds of the
    flow's profile.

    An observation is an argument of [evaluate]: it is what the injected observer
    returned.  Durations are nanoseconds.  The TOML decoder of [B4Toml::parse] is a
    parameter.  The release build wraps on overflow, and so does [attempts]. *)

From S2P Require Import Prelude.

(** ** Observations and their classes *)

Record B4Observation := mkB4Obs {
  connect_latency : option Z;
  obs_rtt : option Z;
  obs_rtt_var : option Z;
  retransmissions : option Z;
  throughput_bps : option Z;
  dns_ok : option bool;
  reset_or_timeout : option bool;
  mtu_symptom : option bool;
}.

Definition B4Observation_default : B4Observation :=
  mkB4Obs None None None None None None None None.

Definition is_some {A} (o : option A) : bool := match o with Some _ => true | None => false end.

Definition any_signal (o : B4Observation) : bool :=
  is_some (connect_latency o) || is_some (obs_rtt o) || is_some (obs_rtt_var o)
  || is_some (retransmissions o) || is_some (throughput_bps o) || is_some (dns_ok o)
  || is_some (reset_or_timeout o) || is_some (mtu_symptom o).

Inductive B4Class := ClDirect | ClDegraded | ClInterfered | ClBlocked | ClUnknown.

(** [o == Some(true)], [o == Some(false)], [o.is_some_and(p)] *)
Definition is_yes (o : option bool) : bool := match o with Some true => true | _ => false end.
Definition is_no (o : option bool) : bool := match o with Some false => true | _ => false end.
Definition some_and {A} (p : A -> bool) (o : option A) : bool :=
  match o with Some a => p a | None => false end.

Definition classify (o : B4Observation) : B4Class :=
  if negb (any_signal o) then ClUnknown
  else if is_yes (mtu_symptom o) && negb (is_yes (reset_or_timeout o)) then ClInterfered
  else if is_yes (reset_or_timeout o) then ClInterfered
  else if is_no (dns_ok o) then ClInterfered
  else
    let retrans_heavy := some_and (fun r => 3 <=? r) (retransmissions o) in
    let high_rtt := some_and (fun r => 400000000 <=? r) (obs_rtt o) in
    let low_throughput := some_and (fun b => b <? 1000) (throughput_bps o) in
    if retrans_heavy || high_rtt || low_throughput then ClDegraded else ClDirect.

(** ** Policy *)

Inductive B4FailSemantic := Strict | Safe | FailDefault.
Inductive B4Capability := CapMtu | CapDnsPath.

#[export] Instance B4FailSemantic_eq_dec : EqDecision B4FailSemantic.
Proof. solve_decision. Defined.
#[export] Instance B4Capability_eq_dec : EqDecision B4Capability.
Proof. solve_decision. Defined.

Record B4Profile := mkB4Profile {
  capabilities : list B4Capability;
  bp_fail : B4FailSemantic;
  allow_direct : bool;
  allow_tunnel : bool;
}.

Definition B4Profile_default : B4Profile := mkB4Profile [] Strict true false.

Record B4FlowRule := mkFlowRule { fr_domain : string; fr_profile : B4Profile }.
Record B4Policy := mkB4Policy { bp_flows : list B4FlowRule }.

Definition flow_domains (p : B4Policy) : list string := map fr_domain (bp_flows p).

Definition b4_profile_for (p : B4Policy) (domain : string) : B4Profile :=
  let lower := to_ascii_lowercase domain in
  match List.find (fun r => domain_match lower (to_ascii_lowercase (fr_domain r))) (bp_flows p) with
  | Some r => fr_profile r
  | None => B4Profile_default
  end.

(** ** Configuration *)

Record B4FlowToml := mkFlowToml {
  ft_domain : string;
  ft_capabilities : list string;
  ft_fail : string;
  ft_allow_direct : bool;
  ft_allow_tunnel : bool;
}.

Record B4EngineToml := mkEngineToml { et_enabled : bool; et_max_attempts : Z }.

Definition B4EngineToml_default : B4EngineToml := mkEngineToml true 3.

Record B4Toml := mkB4Toml { bt_engine : B4EngineToml; bt_flows : list B4FlowToml }.

Definition upper_ascii (c : ascii) : ascii :=
  let n := N_of_ascii c in
  if ((97 <=? n) && (n <=? 122))%N then ascii_of_N (n - 32) else c.
Definition to_ascii_uppercase : string -> string := string_map upper_ascii.

Fixpoint parse_capabilities (l : list string) : string + list B4Capability :=
  match l with
  | [] => inr []
  | c :: l =>
      let name := to_ascii_lowercase c in
      let known :=
        if String.eqb name "mtu" then Some CapMtu
        else if String.eqb name "dns_path" || String.eqb name "dnspath" then Some CapDnsPath
        else None in
      match known with
      | None => inl ("unknown b4 capability: " +:+ name)
      | Some cap => match parse_capabilities l with inl e => inl e | inr caps => inr (cap :: caps) end
      end
  end.

Definition parse_fail (s : string) : string + B4FailSemantic :=
  let up := to_ascii_uppercase s in
  if String.eqb up EmptyString || String.eqb up "STRICT" then inr Strict
  else if String.eqb up "SAFE" then inr Safe
  else if String.eqb up "DEFAULT" then inr FailDefault
  else inl ("unknown b4 fail semantic: " +:+ up).

Definition to_rule (f : B4FlowToml) : string + B4FlowRule :=
  match parse_capabilities (ft_capabilities f) with
  | inl e => inl e
  | inr caps =>
      match parse_fail (ft_fail f) with
      | inl e => inl e
      | inr fail =>
          inr (mkFlowRule (ft_domain f)
            (mkB4Profile caps fail (ft_allow_direct f) (ft_allow_tunnel f)))
      end
  end.

Fixpoint to_rules (l : list B4FlowToml) : string + list B4FlowRule :=
  match l with
  | [] => inr []
  | f :: l =>
      match to_rule f with
      | inl e => inl e
      | inr r => match to_rules l with inl e => inl e | inr rs => inr (r :: rs) end
      end
  end.

Definition toml_policy (t : B4Toml) : string + B4Policy :=
  match to_rules (bt_flows t) with inl e => inl e | inr rs => inr (mkB4Policy rs) end.

Record B4EngineConfig := mkB4Config { max_attempts : Z; be_enabled : bool }.

Definition B4EngineConfig_default : B4EngineConfig := mkB4Config 3 true.

Definition engine_config (t : B4Toml) : B4EngineConfig :=
  mkB4Config (et_max_attempts (bt_engine t)) (et_enabled (bt_engine t)).

Definition B4Toml_parse (toml_from_str : string -> string + B4Toml) (content : string) :
    string + B4Toml :=
  match toml_from_str content with
  | inl e => inl ("b4 config parse error: " +:+ e)
  | inr t => inr t
  end.

(** ** The state machine *)

Inductive B4State :=
  StIdle | StObserving | StAdapting | StMonitoring | StRecovered | StFallback | StStrictFail.

Inductive B4Decision :=
| DNoop
| DAdaptMtu (mtu : Z)
| DSwitchDnsPath
| DUseFallback
| DFailStrict
| DRecovered.

Inductive B4Event :=
| EvClassified (flow : string) (class : B4Class)
| EvAdapted (flow : string) (capability : B4Capability)
| EvRecovered (flow : string)
| EvStrictFailed (flow : string).

Record FlowContext := mkCtx { fc_state : B4State; fc_mtu : option Z; fc_attempts : Z }.

Definition FlowContext_default : FlowContext := mkCtx StIdle None 0.

Record b4_engine := mkB4Engine {
  en_policy : B4Policy;
  en_config : B4EngineConfig;
  en_flows : gmap string FlowContext;
  last_decisions : gmap string B4Decision;
  last_observations : gmap string B4Observation;
}.

Definition b4_with_config (policy : B4Policy) (config : B4EngineConfig) : b4_engine :=
  mkB4Engine policy config ∅ ∅ ∅.

Definition b4_new (policy : B4Policy) : b4_engine := b4_with_config policy B4EngineConfig_default.

Definition state_of (e : b4_engine) (flow : string) : B4State :=
  match en_flows e !! flow with Some c => fc_state c | None => StIdle end.

Definition set_flows (e : b4_engine) (m : gmap string FlowContext) : b4_engine :=
  mkB4Engine (en_policy e) (en_config e) m (last_decisions e) (last_observations e).

Definition mark_adapting (e : b4_engine) (flow : string) : b4_engine :=
  match en_flows e !! flow with
  | Some c => set_flows e (<[flow := mkCtx StAdapting (fc_mtu c) (fc_attempts c)]> (en_flows e))
  | None => e
  end.

Definition tracked_flows (e : b4_engine) : Z := Z.of_nat (size (en_flows e)).
Definition flow_keys (e : b4_engine) : list string := map fst (map_to_list (en_flows e)).

(** Within policy bounds: a fallback only if allowed, else a strict failure. *)
Definition recover (c : FlowContext) (profile : B4Profile) :
    FlowContext * B4Decision * list B4Event :=
  if allow_tunnel profile then (mkCtx StFallback (fc_mtu c) (fc_attempts c), DUseFallback, [])
  else if allow_direct profile && negb (bool_decide (bp_fail profile = Strict))
  then (mkCtx StFallback (fc_mtu c) (fc_attempts c), DUseFallback, [])
  else (mkCtx StStrictFail (fc_mtu c) (fc_attempts c), DFailStrict, [EvStrictFailed EmptyString]).

Definition lower_mtu (current : Z) : Z := if 1280 <? current then current - 20 else current.

Definition has_cap (profile : B4Profile) (cap : B4Capability) : bool :=
  existsb (fun c => bool_decide (c = cap)) (capabilities profile).

Definition adapt (c : FlowContext) (profile : B4Profile) (obs : B4Observation) (max : Z) :
    FlowContext * B4Decision * list B4Event :=
  let c := mkCtx StAdapting (fc_mtu c) (u32 (fc_attempts c + 1)) in
  if max <? fc_attempts c then recover c profile
  else if is_yes (mtu_symptom obs) && has_cap profile CapMtu then
    let new_mtu := lower_mtu (default 1500 (fc_mtu c)) in
    (mkCtx StMonitoring (Some new_mtu) (fc_attempts c), DAdaptMtu new_mtu,
     [EvAdapted EmptyString CapMtu])
  else if is_no (dns_ok obs) && has_cap profile CapDnsPath then
    (mkCtx StMonitoring (fc_mtu c) (fc_attempts c), DSwitchDnsPath,
     [EvAdapted EmptyString CapDnsPath])
  else recover c profile.

Definition decide_ctx (c : FlowContext) (profile : B4Profile) (class : B4Class)
    (obs : B4Observation) (max : Z) : FlowContext * B4Decision * list B4Event :=
  match class with
  | ClDirect => (mkCtx StRecovered (fc_mtu c) 0, DRecovered, [])
  | ClUnknown => (mkCtx StObserving (fc_mtu c) (fc_attempts c), DNoop, [])
  | ClDegraded | ClInterfered => adapt c profile obs max
  | ClBlocked => recover c profile
  end.

(** The event's empty flow name is filled in by [evaluate]. *)
Definition fill_flow (flow : string) (ev : B4Event) : B4Event :=
  match ev with
  | EvAdapted EmptyString cap => EvAdapted flow cap
  | EvStrictFailed EmptyString => EvStrictFailed flow
  | _ => ev
  end.

Definition evaluate (e : b4_engine) (flow : string) (obs : B4Observation) :
    b4_engine * B4Decision * list B4Event :=
  let profile := b4_profile_for (en_policy e) flow in
  let class := classify obs in
  if negb (be_enabled (en_config e)) then (e, DNoop, [EvClassified flow class])
  else
    let c := default FlowContext_default (en_flows e !! flow) in
    let '(c, decision, evs) := decide_ctx c profile class obs (max_attempts (en_config e)) in
    (mkB4Engine (en_policy e) (en_config e) (<[flow := c]> (en_flows e))
       (<[flow := decision]> (last_decisions e)) (<[flow := obs]> (last_observations e)),
     decision, EvClassified flow class :: map (fill_flow flow) evs).

(** ** The decisions as a function of the flow's history

    A history lists the observations of one flow, newest first. *)

(** Degraded or interfered observations since the last direct one. *)
Fixpoint bad_rounds (hist : list B4Observation) : Z :=
  match hist with
  | [] => 0
  | o :: hist =>
      match classify o with
      | ClDirect => 0
      | ClUnknown => bad_rounds hist
      | _ => 1 + bad_rounds hist
      end
  end.

(** A round that may still adapt. *)
Definition may_adapt (max : Z) (o : B4Observation) (hist : list B4Observation) : bool :=
  match classify o with
  | ClDegraded | ClInterfered => 1 + bad_rounds hist <=? max
  | _ => false
  end.

Definition steps_mtu (profile : B4Profile) (max : Z) (o : B4Observation)
    (hist : list B4Observation) : bool :=
  may_adapt max o hist && is_yes (mtu_symptom o) && has_cap profile CapMtu.

(** MTU steps taken so far, recoveries notwithstanding. *)
Fixpoint mtu_steps (profile : B4Profile) (max : Z) (hist : list B4Observation) : Z :=
  match hist with
  | [] => 0
  | o :: hist => mtu_steps profile max hist + (if steps_mtu profile max o hist then 1 else 0)
  end.

Definition may_fall_back (profile : B4Profile) : bool :=
  allow_tunnel profile || allow_direct profile && negb (bool_decide (bp_fail profile = Strict)).

Definition spec_decision (profile : B4Profile) (max : Z) (o : B4Observation)
    (hist : list B4Observation) : B4Decision :=
  match classify o with
  | ClDirect => DRecovered
  | ClUnknown => DNoop
  | _ =>
      if steps_mtu profile max o hist
      then DAdaptMtu (Z.max 1280 (1500 - 20 * (mtu_steps profile max hist + 1)))
      else if may_adapt max o hist && is_no (dns_ok o) && has_cap profile CapDnsPath
      then DSwitchDnsPath
      else if may_fall_back profile then DUseFallback else DFailStrict
  end.

(** What happens to the engine: evaluations, and the controller's marks. *)
Inductive b4_op :=
| OpEvaluate (flow : string) (obs : B4Observation)
| OpMark (flow : string).

Definition b4_step (e : b4_engine) (op : b4_op) : b4_engine :=
  match op with
  | OpEvaluate flow obs => (evaluate e flow obs).1.1
  | OpMark flow => mark_adapting e flow
  end.

(** The history of [flow] in a sequence of operations (oldest first). *)
Fixpoint history (flow : string) (ops : list b4_op) (hist : list B4Observation) :
    list B4Observation :=
  match ops with
  | [] => hist
  | OpEvaluate f o :: ops => history flow ops (if String.eqb f flow then o :: hist else hist)
  | OpMark _ :: ops => history flow ops hist
  end.

Lemma history_len flow ops hist : len (history flow ops hist) <= len hist + len ops.
Proof.
  revert hist. induction ops as [|[f o|f] ops IH]; intros hist; cbn [history].
  - rewrite len_nil. lia.
  - specialize (IH (if String.eqb f flow then o :: hist else hist)). rewrite len_cons.
    case_match; rewrite ?len_cons in *; lia.
  - specialize (IH hist). rewrite len_cons. lia.
Qed.

Lemma classify_not_blocked o : classify o <> ClBlocked.
Proof. unfold classify. repeat case_match; discriminate. Qed.

Lemma recover_spec c profile :
  (recover c profile).1.2 = (if may_fall_back profile then DUseFallback else DFailStrict) /\
  fc_mtu (recover c profile).1.1 = fc_mtu c /\
  fc_attempts (recover c profile).1.1 = fc_attempts c.
Proof.
  unfold recover, may_fall_back. destruct (allow_tunnel profile); [done|]. cbn [orb].
  by destruct (_ && _).
Qed.

Lemma bad_rounds_range hist : 0 <= bad_rounds hist <= len hist.
Proof.
  induction hist as [|o hist IH]; cbn [bad_rounds]; [done|]. rewrite len_cons.
  case_match; lia.
Qed.

Lemma mtu_steps_nonneg profile max hist : 0 <= mtu_steps profile max hist.
Proof. induction hist as [|o hist IH]; cbn [mtu_steps]; [done|]. case_match; lia. Qed.

Lemma lower_mtu_step k :
  lower_mtu (Z.max 1280 (1500 - 20 * k)) = Z.max 1280 (1500 - 20 * (k + 1)).
Proof. unfold lower_mtu. destruct (1280 <? _) eqn:E; lia. Qed.

(** The context that a history leaves. *)
Definition ctx_matches (profile : B4Profile) (max : Z) (hist : list B4Observation)
    (c : FlowContext) : Prop :=
  fc_attempts c = bad_rounds hist /\
  default 1500 (fc_mtu c) = Z.max 1280 (1500 - 20 * mtu_steps profile max hist).

(** An adaptation round that is the [k]-th since the last direct observation. *)
Lemma adapt_spec profile max o c k n :
  fc_attempts c = k - 1 -> 1 <= k < 2 ^ 32 -> default 1500 (fc_mtu c) = Z.max 1280 (1500 - 20 * n) ->
  let mtu := (k <=? max) && is_yes (mtu_symptom o) && has_cap profile CapMtu in
  let r := adapt c profile o max in
  r.1.2 =
    (if mtu then DAdaptMtu (Z.max 1280 (1500 - 20 * (n + 1)))
     else if (k <=? max) && is_no (dns_ok o) && has_cap profile CapDnsPath then DSwitchDnsPath
     else if may_fall_back profile then DUseFallback else DFailStrict) /\
  fc_attempts r.1.1 = k /\
  default 1500 (fc_mtu r.1.1) = Z.max 1280 (1500 - 20 * (n + if mtu then 1 else 0)).
Proof.
  intros Ha Hk Hm. cbv zeta. unfold adapt. cbn [fc_attempts fc_mtu].
  rewrite Ha, wrap_small by lia. replace (k - 1 + 1) with k by lia.
  set (c1 := mkCtx StAdapting _ _). pose proof (recover_spec c1 profile) as (R1 & R2 & R3).
  destruct (max <? k) eqn:E1.
  { replace (k <=? max) with false by lia. cbn [andb]. rewrite R1, R2, R3, Z.add_0_r. by split. }
  replace (k <=? max) with true by lia. cbn [andb].
  destruct (is_yes (mtu_symptom o) && has_cap profile CapMtu).
  { cbn [fst snd fc_attempts fc_mtu default]. rewrite Hm, lower_mtu_step. by repeat split. }
  rewrite Z.add_0_r. destruct (is_no (dns_ok o) && has_cap profile CapDnsPath); [by repeat split|].
  rewrite R1, R2, R3. by repeat split.
Qed.

Lemma decide_ctx_spec profile max hist c o :
  ctx_matches profile max hist c -> len hist < 2 ^ 32 - 1 ->
  let r := decide_ctx c profile (classify o) o max in
  r.1.2 = spec_decision profile max o hist /\ ctx_matches profile max (o :: hist) r.1.1.
Proof.
  intros [Ha Hm] Hl. cbv zeta. unfold decide_ctx, spec_decision, ctx_matches.
  cbn [bad_rounds mtu_steps]. unfold steps_mtu, may_adapt.
  pose proof (bad_rounds_range hist) as Hr.
  pose proof (adapt_spec profile max o c (1 + bad_rounds hist) (mtu_steps profile max hist)
    ltac:(lia) ltac:(lia) Hm) as Hadapt.
  destruct (classify o) eqn:Ec; cbn [fst snd fc_attempts fc_mtu andb]; try exact Hadapt.
  - rewrite Z.add_0_r. by repeat split.
  - by apply classify_not_blocked in Ec.
  - rewrite Z.add_0_r. by repeat split.
Qed.

(** Every flow's context is the one its history leaves. *)
Definition engine_matches (e : b4_engine) (hist : string -> list B4Observation) : Prop :=
  forall flow, ctx_matches (b4_profile_for (en_policy e) flow) (max_attempts (en_config e))
    (hist flow) (default FlowContext_default (en_flows e !! flow)).

Lemma evaluate_matches e hist flow o :
  be_enabled (en_config e) = true -> engine_matches e hist -> len (hist flow) < 2 ^ 32 - 1 ->
  (evaluate e flow o).1.2 =
    spec_decision (b4_profile_for (en_policy e) flow) (max_attempts (en_config e)) o (hist flow) /\
  engine_matches (evaluate e flow o).1.1
    (fun f => if String.eqb flow f then o :: hist f else hist f).
Proof.
  intros He Hm Hl. unfold evaluate. rewrite He. cbn [negb].
  pose proof (decide_ctx_spec _ _ _ _ o (Hm flow) Hl) as H.
  destruct (decide_ctx _ _ _ _ _) as [[c d] evs]. destruct H as [H1 H2]. cbn [fst snd] in *.
  split; [exact H1|]. intros f. cbn [en_policy en_config en_flows].
  destruct (String.eqb_spec flow f) as [<-|Hne].
  - by rewrite lookup_insert, decide_True.
  - rewrite lookup_insert_ne by done. apply Hm.
Qed.

Lemma evaluate_frame e flow o :
  en_policy (evaluate e flow o).1.1 = en_policy e /\ en_config (evaluate e flow o).1.1 = en_config e.
Proof.
  unfold evaluate. destruct (negb _); [done|]. by destruct (decide_ctx _ _ _ _ _) as [[c d] evs].
Qed.

Lemma mark_matches e hist flow : engine_matches e hist -> engine_matches (mark_adapting e flow) hist.
Proof.
  intros Hm f. unfold mark_adapting. destruct (en_flows e !! flow) as [c|] eqn:Ec; [|apply Hm].
  cbn [set_flows en_policy en_config en_flows]. specialize (Hm f).
  destruct (String.eqb_spec flow f) as [<-|Hne].
  - rewrite lookup_insert, decide_True by done. rewrite Ec in Hm. exact Hm.
  - rewrite lookup_insert_ne by done. exact Hm.
Qed.

Lemma mark_frame e flow :
  en_policy (mark_adapting e flow) = en_policy e /\ en_config (mark_adapting e flow) = en_config e.
Proof. unfold mark_adapting. by destruct (en_flows e !! flow). Qed.

Lemma run_matches e hist ops :
  be_enabled (en_config e) = true -> engine_matches e hist ->
  (forall f, len (hist f) + len ops < 2 ^ 32) ->
  let e' := fold_left b4_step ops e in
  en_policy e' = en_policy e /\ en_config e' = en_config e /\
  engine_matches e' (fun f => history f ops (hist f)).
Proof.
  revert e hist. induction ops as [|op ops IH]; intros e hist He Hm Hl; [done|].
  cbn [fold_left]. pose proof (len_nonneg ops).
  assert (Hlo : forall f, len (hist f) + 1 + len ops < 2 ^ 32)
    by (intros f; specialize (Hl f); rewrite len_cons in Hl; lia).
  destruct op as [flow o|flow]; cbn [b4_step history].
  - destruct (evaluate_matches e hist flow o He Hm) as [_ Hm']; [specialize (Hlo flow); lia|].
    destruct (evaluate_frame e flow o) as [E1 E2].
    destruct (IH (evaluate e flow o).1.1 _ ltac:(by rewrite E2) Hm') as (H1 & H2 & H3).
    { intros f. specialize (Hlo f). case_match; rewrite ?len_cons; lia. }
    rewrite H1, H2, E1, E2. split; [done|]. split; [done|exact H3].
  - destruct (mark_frame e flow) as [E1 E2].
    destruct (IH (mark_adapting e flow) hist ltac:(by rewrite E2) (mark_matches e hist flow Hm))
      as (H1 & H2 & H3); [intros f; specialize (Hlo f); lia|].
    by rewrite H1, H2, E1, E2.
Qed.

Lemma b4_start_matches policy config : engine_matches (b4_with_config policy config) (fun _ => []).
Proof. intros f. unfold ctx_matches, b4_with_config. cbn [en_flows]. by rewrite lookup_empty. Qed.

(** C22.  The engine implements its specification over whole histories.  Whatever the
    policy, the interleaving of flows and the observations, the next decision for a flow
    is determined by that flow's own observations: a healthy path is declared recovered,
    and a bad one is adapted only while fewer than [max_attempts] bad rounds have passed
    since the last healthy one, with an MTU that goes down from 1500 in steps of 20 and
    never below 1280; otherwise the flow falls back when its profile allows it, and
    fails strictly when it does not. *)
Theorem b4_decision_follows_history policy config ops flow o :
  be_enabled config = true -> len ops < 2 ^ 32 - 1 ->
  let e := fold_left b4_step ops (b4_with_config policy config) in
  (evaluate e flow o).1.2 =
    spec_decision (b4_profile_for policy flow) (max_attempts config) o (history flow ops []).
Proof.
  intros He Hl. cbv zeta.
  destruct (run_matches (b4_with_config policy config) (fun _ => []) ops He
    (b4_start_matches policy config)) as (H1 & H2 & H3).
  { intros f. rewrite len_nil. lia. }
  destruct (evaluate_matches _ _ flow o ltac:(by rewrite H2) H3) as [-> _].
  { pose proof (history_len flow ops []) as Hh. rewrite len_nil in Hh. lia. }
  by rewrite H1, H2.
Qed.

(** An MTU symptom on a flow that may adapt its MTU, and a healthy round trip. *)
Definition mtu_trouble : B4Observation :=
  mkB4Obs None None None None None None None (Some true).
Definition healthy_rtt : B4Observation :=
  mkB4Obs None (Some 20000000) None None None (Some true) None None.
Definition example_policy : B4Policy :=
  mkB4Policy [mkFlowRule "example.com" (mkB4Profile [CapMtu] Strict true false)].

(** The second step goes on from the MTU of the first although the path recovered in
    between, and the third round since then fails strictly. *)
Lemma b4_decision_follows_history_witness :
  let e := fold_left b4_step
    [OpEvaluate "www.example.com" mtu_trouble; OpEvaluate "other.org" mtu_trouble;
     OpEvaluate "www.example.com" healthy_rtt; OpEvaluate "www.example.com" mtu_trouble]
    (b4_with_config example_policy (mkB4Config 2 true)) in
  (evaluate e "www.example.com" mtu_trouble).1.2 = DAdaptMtu 1440 /\
  (evaluate (evaluate e "www.example.com" mtu_trouble).1.1 "www.example.com" mtu_trouble).1.2 =
    DFailStrict.
Proof.
  split; [|vm_compute; reflexivity]. etransitivity.
  - apply (b4_decision_follows_history example_policy (mkB4Config 2 true)
      [OpEvaluate "www.example.com" mtu_trouble; OpEvaluate "other.org" mtu_trouble;
       OpEvaluate "www.example.com" healthy_rtt; OpEvaluate "www.example.com" mtu_trouble]
      "www.example.com" mtu_trouble); [reflexivity|vm_compute; reflexivity].
  - vm_compute. reflexivity.
Defined.
