(* ===== verification/B4Control.v ===== *)
(** * Per-path MTU ownership (balansir-executor/src/path_mtu.rs,
      balansir-daemon/src/b4_engine/controller.rs, balansir-daemon/src/b4_manager.rs)

    The executor's store of applied path MTUs, the controller that turns the engine's
    decisions into calls of the executor, the reconciler that converges the two, and
    the manager's loop with its snapshot.

    The host's [ip] command is a parameter of [RouteMtuApplier]; what the controller
    needs of an executor is the class [MtuExecutor], which the store implements for
    every applier.  [HashMap] iteration is in [map_to_list] order. *)

From stdpp Require Import pretty.
From S2P Require Import Prelude F64 Health B4Adapt.
#[local] Open Scope Z_scope.

Record PathMtu := mkPathMtu { pm_path : string; pm_mtu : Z }.

(** [.map(|p| (path, mtu)).collect::<HashMap>()] and back. *)
Definition to_map (l : list PathMtu) : gmap string Z :=
  fold_left (fun m p => <[pm_path p := pm_mtu p]> m) l ∅.
Definition of_map (m : gmap string Z) : list PathMtu :=
  map (fun '(p, u) => mkPathMtu p u) (map_to_list m).

(** ** The executor's store *)

(** The privileged hook; [inl] is an error message. *)
Class PathMtuApplier (H : Type) := {
  applier_apply : H -> string -> Z -> H * (string + ());
  applier_restore : H -> string -> H * (string + ());
}.

Section Store.
Context {H : Type} {app : PathMtuApplier H}.

Record PathMtuStore := mkStore { st_applied : gmap string Z; st_host : H }.

Definition store_set (s : PathMtuStore) (path : string) (mtu : Z) : PathMtuStore * (string + ()) :=
  match applier_apply (st_host s) path mtu with
  | (h, inl e) => (mkStore (st_applied s) h, inl e)
  | (h, inr _) => (mkStore (<[path := mtu]> (st_applied s)) h, inr ())
  end.

Definition store_restore (s : PathMtuStore) (path : string) : PathMtuStore * (string + ()) :=
  match applier_restore (st_host s) path with
  | (h, inl e) => (mkStore (st_applied s) h, inl e)
  | (h, inr _) => (mkStore (delete path (st_applied s)) h, inr ())
  end.

Definition store_state (s : PathMtuStore) : list PathMtu := of_map (st_applied s).
End Store.
Arguments PathMtuStore H : clear implicits.

(** [RecordOnlyApplier] *)
#[export] Instance RecordOnlyApplier : PathMtuApplier () := {
  applier_apply := fun h _ _ => (h, inr ());
  applier_restore := fun h _ => (h, inr ());
}.

(** [str::split_whitespace] on ASCII *)
Fixpoint split_ws_aux (cur : string) (s : string) : list string :=
  match s with
  | EmptyString => match cur with EmptyString => [] | _ => [cur] end
  | String c s =>
      if is_space c then
        match cur with
        | EmptyString => split_ws_aux EmptyString s
        | _ => cur :: split_ws_aux EmptyString s
        end
      else split_ws_aux (cur +:+ String c EmptyString) s
  end.
Definition split_whitespace (s : string) : list string := split_ws_aux EmptyString s.

Record RouteInfo := mkRoute { gateway : string; device : string }.

(** The word loop of [parse_route_line]; [via] and [dev] take the next word. *)
Fixpoint route_words (ws : list string) (gw dev : option string) : option string * option string :=
  match ws with
  | [] => (gw, dev)
  | w :: ws =>
      if String.eqb w "via" then
        match ws with [] => (None, dev) | g :: ws => route_words ws (Some g) dev end
      else if String.eqb w "dev" then
        match ws with [] => (gw, None) | d :: ws => route_words ws gw (Some d) end
      else route_words ws gw dev
  end.

Definition parse_route_line (text : string) : option RouteInfo :=
  match lines text with
  | [] => None
  | first :: _ =>
      match split_whitespace first with
      | [] => None
      | _ :: ws =>
          let '(gw, dev) := route_words ws None None in
          match dev with
          | Some d => Some (mkRoute (default "onlink"%string gw) d)
          | None => None
          end
      end
  end.

(** [None] is a command that could not be run. *)
Section RouteApplier.
Context {H : Type} (ip : H -> list string -> H * option output).

Definition run_ip (h : H) (args : list string) : H * (string + ()) :=
  match ip h args with
  | (h, None) => (h, inl "failed to run ip"%string)
  | (h, Some out) => (h, if out_success out then inr () else inl (out_stderr out))
  end.

Definition current_route_for (h : H) (path : string) : H * option RouteInfo :=
  match ip h ["route"; "get"; path]%string with
  | (h, None) => (h, None)
  | (h, Some out) => (h, if out_success out then parse_route_line (out_stdout out) else None)
  end.

Definition RouteMtuApplier : PathMtuApplier H := {|
  applier_apply := fun h path mtu =>
    match current_route_for h path with
    | (h, None) => (h, inl ("no route to " +:+ path +:+ " (cannot pin MTU)"))
    | (h, Some route) =>
        run_ip h ["route"; "replace"; path +:+ "/32"; "via"; gateway route; "dev"; device route;
                  "mtu"; pretty mtu]%string
    end;
  applier_restore := fun h path => run_ip h ["route"; "del"; path +:+ "/32"]%string;
|}.
End RouteApplier.

(** ** The executor as the controller sees it *)

Class MtuExecutor (K : Type) := {
  set_path_mtu : K -> string -> Z -> K * bool;
  restore_path_mtu : K -> string -> K * bool;
  path_mtu_state : K -> list PathMtu;
  applied : K -> gmap string Z;
  set_path_mtu_spec k path mtu k' ok :
    set_path_mtu k path mtu = (k', ok) ->
    applied k' = if ok then <[path := mtu]> (applied k) else applied k;
  restore_path_mtu_spec k path k' ok :
    restore_path_mtu k path = (k', ok) ->
    applied k' = if ok then delete path (applied k) else applied k;
  path_mtu_state_spec k : to_map (path_mtu_state k) = applied k;
}.

Lemma to_map_of_map m : to_map (of_map m) = m.
Proof.
  unfold to_map, of_map.
  assert (G : forall l m0, NoDup l.*1 ->
    fold_left (fun m p => <[pm_path p := pm_mtu p]> m)
      (map (fun '(p, u) => mkPathMtu p u) l) m0 = (list_to_map l : gmap string Z) ∪ m0).
  { induction l as [|[p u] l IH]; intros m0 Hnd; cbn [map fold_left list_to_map foldr pm_path pm_mtu].
    - by rewrite (left_id_L ∅ (∪)).
    - apply NoDup_cons in Hnd as [Hp Hnd]. rewrite IH by done.
      rewrite <- insert_union_l, insert_union_r; [done|]. by apply not_elem_of_list_to_map_1. }
  rewrite G by apply NoDup_fst_map_to_list. rewrite list_to_map_to_list. apply (right_id_L ∅ (∪)).
Qed.

(** The store implements the interface, whatever the applier does. *)
#[export] Instance store_executor {H} {app : PathMtuApplier H} : MtuExecutor (PathMtuStore H).
Proof.
  refine {|
    set_path_mtu := fun s p m => let '(s, r) := store_set s p m in
      (s, match r with inr _ => true | inl _ => false end);
    restore_path_mtu := fun s p => let '(s, r) := store_restore s p in
      (s, match r with inr _ => true | inl _ => false end);
    path_mtu_state := store_state;
    applied := st_applied;
  |}.
  - intros k p m k' ok. unfold store_set.
    destruct (applier_apply _ _ _) as [h [e|]]; by intros [= <- <-].
  - intros k p k' ok. unfold store_restore.
    destruct (applier_restore _ _) as [h [e|]]; by intros [= <- <-].
  - intros k. apply to_map_of_map.
Defined.

(** ** The controller *)

Record B4Controller := mkController {
  co_engine : b4_engine;
  intended_mtu : gmap string Z;
  mtu_enabled : bool;
}.

Definition B4Controller_new (policy : B4Policy) (config : B4EngineConfig) : B4Controller :=
  mkController (b4_with_config policy config) ∅ true.

Definition intended_path_mtu (c : B4Controller) : list PathMtu := of_map (intended_mtu c).

(** The events of the subsystem bus that this component sends. *)
Inductive SubsystemEvent :=
| SevStateChanged (flow state : string)
| SevAdapted (flow capability : string)
| SevRecovered (flow : string)
| SevDrift (detail : string).

(** [{:?}] of the enums. *)
Definition cap_debug (c : B4Capability) : string :=
  match c with CapMtu => "Mtu" | CapDnsPath => "DnsPath" end.
Definition class_debug (c : B4Class) : string :=
  match c with
  | ClDirect => "Direct" | ClDegraded => "Degraded" | ClInterfered => "Interfered"
  | ClBlocked => "Blocked" | ClUnknown => "Unknown"
  end.
Definition state_debug (s : B4State) : string :=
  match s with
  | StIdle => "Idle" | StObserving => "Observing" | StAdapting => "Adapting"
  | StMonitoring => "Monitoring" | StRecovered => "Recovered" | StFallback => "Fallback"
  | StStrictFail => "StrictFail"
  end.
Definition decision_debug (d : B4Decision) : string :=
  match d with
  | DNoop => "Noop"
  | DAdaptMtu mtu => "AdaptMtu { mtu: " +:+ pretty mtu +:+ " }"
  | DSwitchDnsPath => "SwitchDnsPath"
  | DUseFallback => "UseFallback"
  | DFailStrict => "FailStrict"
  | DRecovered => "Recovered"
  end.

Record B4FlowView := mkFlowView {
  fv_flow : string;
  fv_state : string;
  fv_profile : string;
  fv_last_decision : option string;
  fv_mtu : option Z;
  fv_health : string;
  fv_rtt_ms : option Z;
  fv_rtt_var_ms : option Z;
  fv_connect_latency_ms : option Z;
  fv_retransmissions : option Z;
  fv_throughput_bps : option Z;
  fv_dns_ok : option bool;
  fv_reset_or_timeout : option bool;
  fv_path : PathHealthView;
}.

Record B4Snapshot := mkB4Snapshot {
  bs_enabled : bool;
  bs_mtu_enabled : bool;
  bs_config_path : option string;
  bs_flows : list B4FlowView;
  bs_intended : list PathMtu;
  bs_reported : list PathMtu;
  bs_drift : bool;
  bs_last_error : option string;
  bs_paused : bool;
}.


Definition drift_between (intended reported : list PathMtu) : bool :=
  negb (bool_decide (to_map intended = to_map reported)).

(** Thresholds aligned with [classify]. *)
Definition b4_path_config : PathHealthConfig :=
  mkHealthConfig (f64_of 400) (loss_threshold_pct PathHealthConfig_default) 2 3 10000000000
    (alpha PathHealthConfig_default).

(** [Duration::as_secs_f64] *)
Definition as_secs_f64 (d : Z) : f64 :=
  fadd (f64_of (d / 1000000000)) (fdiv (f64_of (d mod 1000000000)) (f64_of 1000000000)).

Definition sample_for (o : B4Observation) : PathSample :=
  mkSample ((fun d => fmul (as_secs_f64 d) (f64_of 1000)) <$> obs_rtt o) None
    (negb (is_yes (reset_or_timeout o) || is_no (dns_ok o)))
    (some_and (fun r => 3 <=? r) (retransmissions o)
     || some_and (fun b => b <? 1000) (throughput_bps o)).

Record B4Manager := mkManager {
  mg_controller : B4Controller;
  mg_policy : B4Policy;
  mg_config_path : option string;
  mg_enabled : bool;
  mg_paused : bool;
  mg_last_error : option string;
  mg_paths : gmap string PathHealth;
}.

Definition from_toml (config_path : string) (cfg : B4Toml) : string + B4Manager :=
  match toml_policy cfg with
  | inl e => inl e
  | inr policy =>
      inr (mkManager (B4Controller_new policy (engine_config cfg)) policy (Some config_path)
        (be_enabled (engine_config cfg)) false None ∅)
  end.

Definition set_paused (m : B4Manager) (paused : bool) : B4Manager :=
  mkManager (mg_controller m) (mg_policy m) (mg_config_path m) (mg_enabled m) paused
    (mg_last_error m) (mg_paths m).

Fixpoint join (sep : string) (l : list string) : string :=
  match l with
  | [] => EmptyString
  | [s] => s
  | s :: l => s +:+ sep +:+ join sep l
  end.

Definition profile_label (m : B4Manager) (flow : string) : string :=
  let profile := b4_profile_for (mg_policy m) flow in
  let caps := join "," (map cap_debug (capabilities profile)) in
  (if String.eqb caps EmptyString then "direct" else caps)
  +:+ (if allow_tunnel profile then "+tunnel" else EmptyString).

(** The elements of [l] that are not in [keys], each once, after [keys]. *)
Fixpoint push_new (keys l : list string) : list string :=
  match l with
  | [] => keys
  | x :: l => push_new (if existsb (String.eqb x) keys then keys else keys ++ [x]) l
  end.

Definition engine_event (flow : string) (ev : B4Event) : list SubsystemEvent :=
  match ev with
  | EvClassified _ _ => []
  | EvAdapted _ cap => [SevAdapted flow (cap_debug cap)]
  | EvRecovered _ => [SevRecovered flow]
  | EvStrictFailed _ => [SevStateChanged flow "StrictFail"]
  end.

Definition publish_engine_events (flow : string) (evs : list B4Event) : list SubsystemEvent :=
  mjoin (map (engine_event flow) evs).

Section Controller.
Context {K : Type} {ex : MtuExecutor K}.

Definition execute_decision (c : B4Controller) (k : K) (flow : string) (d : B4Decision) :
    B4Controller * K :=
  let with_intended m := mkController (co_engine c) m (mtu_enabled c) in
  match d with
  | DAdaptMtu mtu =>
      if mtu_enabled c then
        match set_path_mtu k flow mtu with
        | (k, true) => (with_intended (<[flow := mtu]> (intended_mtu c)), k)
        | (k, false) => (c, k)
        end
      else (c, k)
  | DSwitchDnsPath =>
      (mkController (mark_adapting (co_engine c) flow) (intended_mtu c) (mtu_enabled c), k)
  | DRecovered =>
      match intended_mtu c !! flow with
      | Some _ =>
          match restore_path_mtu k flow with
          | (k, true) => (with_intended (delete flow (intended_mtu c)), k)
          | (k, false) => (c, k)
          end
      | None => (c, k)
      end
  | DUseFallback | DFailStrict | DNoop => (c, k)
  end.

Definition run_for (c : B4Controller) (k : K) (flow : string) (obs : B4Observation) :
    B4Controller * K * list B4Event :=
  let '(e, decision, evs) := evaluate (co_engine c) flow obs in
  let '(c, k) := execute_decision (mkController e (intended_mtu c) (mtu_enabled c)) k flow decision in
  (c, k, evs).

(** [PathMtuReconciler::reconcile]: the applying loop, then the restoring loop. *)
Fixpoint apply_intent (l : list (string * Z)) (reported : gmap string Z) (k : K) : K :=
  match l with
  | [] => k
  | (path, mtu) :: l =>
      apply_intent l reported
        (if bool_decide (reported !! path = Some mtu) then k else (set_path_mtu k path mtu).1)
  end.

Fixpoint restore_extra (l : list (string * Z)) (intended : gmap string Z) (k : K) : K :=
  match l with
  | [] => k
  | (path, _) :: l =>
      restore_extra l intended
        (match intended !! path with Some _ => k | None => (restore_path_mtu k path).1 end)
  end.

Definition reconcile_mtu (k : K) (intended : list PathMtu) : K * list PathMtu :=
  let reported := to_map (path_mtu_state k) in
  let im := to_map intended in
  let k := apply_intent (map_to_list im) reported k in
  let k := restore_extra (map_to_list reported) im k in
  (k, of_map im).

(** ** The manager *)

Definition flow_view (m : B4Manager) (flow : string) : B4FlowView :=
  let c := mg_controller m in
  let e := co_engine c in
  let obs := last_observations e !! flow in
  let ms (f : B4Observation -> option Z) : option Z :=
    (fun d => u64 (d / 1000000)) <$> (obs ≫= f) in
  mkFlowView flow (state_debug (state_of e flow)) (profile_label m flow)
    (decision_debug <$> last_decisions e !! flow)
    (pm_mtu <$> List.find (fun p => String.eqb (pm_path p) flow) (intended_path_mtu c))
    (match obs with Some o => class_debug (classify o) | None => "Unknown" end)
    (ms obs_rtt) (ms obs_rtt_var) (ms connect_latency)
    (obs ≫= retransmissions) (obs ≫= throughput_bps) (obs ≫= dns_ok) (obs ≫= reset_or_timeout)
    (default PathHealthView_default (view <$> mg_paths m !! flow)).

Definition observe_snapshot (m : B4Manager) (k : K) : B4Snapshot :=
  let c := mg_controller m in
  let keys := push_new (flow_keys (co_engine c)) (flow_domains (en_policy (co_engine c))) in
  let flows := sort_by (fun a b => String.compare (fv_flow a) (fv_flow b)) (map (flow_view m) keys) in
  mkB4Snapshot (mg_enabled m) (mtu_enabled c) (mg_config_path m) flows
    (intended_path_mtu c) (path_mtu_state k)
    (drift_between (intended_path_mtu c) (path_mtu_state k)) (mg_last_error m) (mg_paused m).

(** What one flow's turn reads: the observation and the tracker's two clock readings. *)
Record turn_input := mkTurn { ti_obs : B4Observation; ti_now : Z; ti_now' : Z }.

Definition run_flow (m : B4Manager) (k : K) (flow : string) (i : turn_input) :
    B4Manager * K * list SubsystemEvent :=
  let '(c, k, evs) := run_for (mg_controller m) k flow (ti_obs i) in
  let paths :=
    match last_observations (co_engine c) !! flow with
    | Some o =>
        let tracker := default (PathHealth_new b4_path_config) (mg_paths m !! flow) in
        <[flow := (observe tracker (sample_for o) (ti_now i) (ti_now' i)).1]> (mg_paths m)
    | None => mg_paths m
    end in
  (mkManager c (mg_policy m) (mg_config_path m) (mg_enabled m) (mg_paused m) (mg_last_error m) paths,
   k, publish_engine_events flow evs).

Fixpoint run_flows (m : B4Manager) (k : K) (flows : list string) (n : nat) (ins : nat -> turn_input) :
    B4Manager * K * list SubsystemEvent :=
  match flows with
  | [] => (m, k, [])
  | flow :: flows =>
      let '(m, k, evs) := run_flow m k flow (ins n) in
      let '(m, k, evs') := run_flows m k flows (S n) ins in
      (m, k, evs ++ evs')
  end.

Definition drift_detail (n : Z) : string :=
  "B4 MTU ownership drift: " +:+ pretty n +:+ " path(s) differ from intent".

Definition cycle_keys (m : B4Manager) : list string :=
  let e := co_engine (mg_controller m) in push_new (flow_domains (en_policy e)) (flow_keys e).

Definition manager_cycle (m : B4Manager) (k : K) (ins : nat -> turn_input) :
    B4Manager * K * list SubsystemEvent * B4Snapshot :=
  if mg_paused m then (m, k, [], observe_snapshot m k)
  else
    let '(m, k, evs) := run_flows m k (cycle_keys m) 0 ins in
    let '(k, drift) := reconcile_mtu k (intended_path_mtu (mg_controller m)) in
    let '(m, evs) :=
      match drift with
      | [] => (m, evs)
      | _ =>
          let detail := drift_detail (len drift) in
          (mkManager (mg_controller m) (mg_policy m) (mg_config_path m) (mg_enabled m) (mg_paused m)
             (Some detail) (mg_paths m), evs ++ [SevDrift detail])
      end in
    (m, k, evs, observe_snapshot m k).
End Controller.

(** ** Convergence of the executor's state to the intent *)

Section Ownership.
Context {K : Type} {ex : MtuExecutor K}.

(** No call of the executor fails. *)
Definition reliable : Prop :=
  (forall (k : K) path mtu, (set_path_mtu k path mtu).2 = true) /\
  (forall (k : K) path, (restore_path_mtu k path).2 = true).

Lemma set_applied (k : K) path mtu :
  applied (set_path_mtu k path mtu).1 =
    if (set_path_mtu k path mtu).2 then <[path := mtu]> (applied k) else applied k.
Proof. destruct (set_path_mtu k path mtu) as [k' ok] eqn:E. exact (set_path_mtu_spec _ _ _ _ _ E). Qed.

Lemma restore_applied (k : K) path :
  applied (restore_path_mtu k path).1 =
    if (restore_path_mtu k path).2 then delete path (applied k) else applied k.
Proof. destruct (restore_path_mtu k path) as [k' ok] eqn:E. exact (restore_path_mtu_spec _ _ _ _ E). Qed.

Lemma apply_intent_spec l reported (k : K) p :
  NoDup l.*1 ->
  let a := applied (apply_intent l reported k) !! p in
  (a = applied k !! p \/ a = (list_to_map l : gmap string Z) !! p) /\
  (forall m, (list_to_map l : gmap string Z) !! p = Some m ->
     reliable -> reported !! p = applied k !! p -> a = Some m) /\
  ((list_to_map l : gmap string Z) !! p = None -> a = applied k !! p).
Proof.
  revert k. induction l as [|[q u] l IH]; intros k Hnd; cbn [apply_intent list_to_map foldr].
  { split; [by left|]. split; [|done]. intros m H. by rewrite lookup_empty in H. }
  cbv zeta. apply NoDup_cons in Hnd as [Hq Hnd].
  set (k1 := if bool_decide _ then k else _).
  destruct (IH k1 Hnd) as (H1 & H2 & H3). cbv zeta in H1, H2, H3.
  destruct (decide (q = p)) as [->|Hne].
  - assert (Hn : (list_to_map l : gmap string Z) !! p = None) by (by apply not_elem_of_list_to_map_1).
    rewrite (H3 Hn). rewrite lookup_insert, decide_True by done. unfold k1.
    destruct (bool_decide (reported !! p = Some u)) eqn:Eb.
    + split; [by left|]. split; [|done]. intros m [= <-] _ <-. by apply bool_decide_eq_true in Eb.
    + rewrite set_applied. split.
      { destruct (_.2); [|by left]. right. by rewrite lookup_insert, decide_True. }
      split; [|done]. intros m [= <-] [Hs _] _. rewrite Hs. by rewrite lookup_insert, decide_True.
  - assert (Hk : applied k1 !! p = applied k !! p).
    { unfold k1. destruct (bool_decide _); [done|]. rewrite set_applied.
      destruct (_.2); [|done]. by rewrite lookup_insert_ne. }
    rewrite Hk in H1, H2, H3. rewrite lookup_insert_ne by done. by split.
Qed.

Lemma restore_extra_spec (l : list (string * Z)) im (k : K) p :
  let a := applied (restore_extra l im k) !! p in
  (a = applied k !! p \/ a = None /\ im !! p = None) /\
  (is_Some (im !! p) -> a = applied k !! p) /\
  (im !! p = None -> reliable -> p ∈ l.*1 -> a = None).
Proof.
  revert k. induction l as [|[q u] l IH]; intros k; cbn [restore_extra]; cbv zeta.
  { split; [by left|]. split; [done|]. intros _ _ H. by apply not_elem_of_nil in H. }
  set (k1 := match im !! q with Some _ => k | None => _ end).
  destruct (IH k1) as (H1 & H2 & H3). cbv zeta in H1, H2, H3.
  assert (Hk : applied k1 !! p = applied k !! p \/
    applied k1 !! p = None /\ im !! p = None).
  { unfold k1. destruct (im !! q) eqn:Eq; [by left|]. rewrite restore_applied.
    destruct (_.2); [|by left]. destruct (decide (q = p)) as [->|Hne].
    - right. split; [by rewrite lookup_delete, decide_True|done].
    - left. by rewrite lookup_delete_ne. }
  assert (Hgone : im !! p = None -> applied k1 !! p = None ->
    applied (restore_extra l im k1) !! p = None).
  { intros Hi H. destruct H1 as [-> |[-> _]]; done. }
  split; [|split].
  - destruct Hk as [Hk|[Hk Hi]]; [rewrite <- Hk; exact H1|]. right. by split; [apply Hgone|].
  - intros Hs. rewrite (H2 Hs). destruct Hk as [Hk|[_ Hi]]; [done|]. rewrite Hi in Hs. by destruct Hs.
  - intros Hi Hr Hin. cbn in Hin. apply elem_of_cons in Hin as [->|Hin]; [|by apply H3].
    apply Hgone; [done|]. unfold k1. rewrite Hi, restore_applied, (proj2 Hr).
    by rewrite lookup_delete, decide_True.
Qed.

Lemma apply_intent_noop l reported (k : K) :
  (forall p m, (p, m) ∈ l -> reported !! p = Some m) -> apply_intent l reported k = k.
Proof.
  induction l as [|[q u] l IH]; intros H; cbn [apply_intent]; [done|].
  rewrite bool_decide_eq_true_2 by (apply H; by left). apply IH. intros p m Hin. apply H. by right.
Qed.

Lemma restore_extra_noop (l : list (string * Z)) im (k : K) :
  (forall p m, (p, m) ∈ l -> is_Some (im !! p)) -> restore_extra l im k = k.
Proof.
  induction l as [|[q u] l IH]; intros H; cbn [restore_extra]; [done|].
  destruct (H q u) as [x ->]; [by left|]. apply IH. intros p m Hin. apply (H p m). by right.
Qed.

(** Nothing to do when the executor already is where it should be. *)
Lemma reconcile_mtu_noop (k : K) intended :
  applied k = to_map intended -> (reconcile_mtu k intended).1 = k.
Proof.
  intros H. unfold reconcile_mtu. cbn [fst]. rewrite path_mtu_state_spec, H.
  rewrite apply_intent_noop by (intros p m; apply elem_of_map_to_list).
  apply restore_extra_noop. intros p m Hin%elem_of_map_to_list. eauto.
Qed.

(** The MTU reconciler converges from any drift.  Whatever calls fail, every path
    ends with the intended MTU or keeps the one it had; when no call fails, the executor's
    state is exactly the intent; and when it already is, nothing is called. *)
Theorem mtu_reconciler_converges (k : K) intended :
  let k' := (reconcile_mtu k intended).1 in
  (forall p, applied k' !! p = to_map intended !! p \/ applied k' !! p = applied k !! p) /\
  (reliable -> applied k' = to_map intended) /\
  (applied k = to_map intended -> k' = k).
Proof.
  cbv zeta. split; [|split; [|apply reconcile_mtu_noop]].
  - intros p. unfold reconcile_mtu. cbn [fst]. rewrite path_mtu_state_spec.
    set (im := to_map intended). set (k1 := apply_intent _ _ k).
    destruct (apply_intent_spec (map_to_list im) (applied k) k p (NoDup_fst_map_to_list im))
      as (H1 & _ & _). rewrite list_to_map_to_list in H1. fold k1 in H1.
    destruct (restore_extra_spec (map_to_list (applied k)) im k1 p) as ([->|[-> Hi]] & _ & _).
    + by destruct H1; [right|left].
    + left. by rewrite Hi.
  - intros Hr. apply map_eq. intros p. unfold reconcile_mtu. cbn [fst].
    rewrite path_mtu_state_spec. set (im := to_map intended). set (k1 := apply_intent _ _ k).
    destruct (apply_intent_spec (map_to_list im) (applied k) k p (NoDup_fst_map_to_list im))
      as (_ & H2 & H3). rewrite list_to_map_to_list in H2, H3. fold k1 in H2, H3.
    destruct (restore_extra_spec (map_to_list (applied k)) im k1 p) as (R1 & R2 & R3).
    destruct (im !! p) as [m|] eqn:Ei.
    + rewrite R2 by eauto. by apply H2.
    + destruct (applied k !! p) as [u|] eqn:Ea.
      * apply R3; [done..|]. apply list_elem_of_fmap. exists (p, u). split; [done|].
        by apply elem_of_map_to_list.
      * destruct R1 as [->|[-> _]]; [by apply H3|done].
Qed.

(** ** The manager's loop *)

(** The intent is what the executor has. *)
Definition owns (m : B4Manager) (k : K) : Prop := applied k = intended_mtu (mg_controller m).

Lemma execute_decision_owns c (k : K) flow d :
  applied k = intended_mtu c ->
  applied (execute_decision c k flow d).2 = intended_mtu (execute_decision c k flow d).1.
Proof.
  intros H. destruct d as [|mtu| | | |]; cbn [execute_decision]; try done.
  - destruct (mtu_enabled c); [|done].
    destruct (set_path_mtu k flow mtu) as [k' [|]] eqn:E; apply set_path_mtu_spec in E; cbn in *;
      by rewrite E, H.
  - destruct (intended_mtu c !! flow) eqn:Ei; [|done].
    destruct (restore_path_mtu k flow) as [k' [|]] eqn:E; apply restore_path_mtu_spec in E;
      cbn in *; by rewrite E, H.
Qed.

Lemma run_flow_owns m (k : K) flow i :
  owns m k -> owns (run_flow m k flow i).1.1 (run_flow m k flow i).1.2.
Proof.
  unfold owns, run_flow, run_for. intros H.
  destruct (evaluate _ flow (ti_obs i)) as [[e d] evs].
  pose proof (execute_decision_owns (mkController e (intended_mtu (mg_controller m))
    (mtu_enabled (mg_controller m))) k flow d H) as H'.
  by destruct (execute_decision _ k flow d) as [c k'].
Qed.

Lemma run_flow_frame m (k : K) flow i :
  mg_paused (run_flow m k flow i).1.1 = mg_paused m /\
  forall d, SevDrift d ∉ (run_flow m k flow i).2.
Proof.
  unfold run_flow. destruct (run_for _ _ _ _) as [[c k'] evs]. cbn [fst snd]. split; [done|].
  intros d Hin. unfold publish_engine_events in Hin.
  apply list_elem_of_join in Hin as (l & Hin & (ev & -> & _)%list_elem_of_fmap).
  apply list_elem_of_In in Hin. destruct ev; cbn in Hin; intuition discriminate.
Qed.

Lemma run_flows_owns flows m (k : K) n ins :
  owns m k ->
  let r := run_flows m k flows n ins in
  owns r.1.1 r.1.2 /\ mg_paused r.1.1 = mg_paused m /\ forall d, SevDrift d ∉ r.2.
Proof.
  revert m k n. induction flows as [|flow flows IH]; intros m k n H; cbn [run_flows].
  { split; [done|]. split; [done|]. intros d. apply not_elem_of_nil. }
  pose proof (run_flow_owns m k flow (ins n) H) as H1.
  pose proof (run_flow_frame m k flow (ins n)) as [F1 F2].
  destruct (run_flow m k flow (ins n)) as [[m1 k1] evs1].
  specialize (IH m1 k1 (S n) H1). destruct (run_flows m1 k1 flows (S n) ins) as [[m2 k2] evs2].
  destruct IH as (I1 & I2 & I3). cbn [fst snd] in *. split; [done|]. split; [congruence|].
  intros d. rewrite elem_of_app. by intros [?%F2|?%I3].
Qed.

Lemma of_map_nil m : of_map m = [] <-> m = ∅.
Proof.
  unfold of_map. rewrite <- map_to_list_empty_iff.
  destruct (map_to_list m); split; try done; discriminate.
Qed.

Lemma owned_no_drift m (k : K) : owns m k -> bs_drift (observe_snapshot m k) = false.
Proof.
  intros H. cbn [observe_snapshot bs_drift]. unfold drift_between, intended_path_mtu.
  by rewrite path_mtu_state_spec, to_map_of_map, H, bool_decide_eq_true_2.
Qed.

Lemma manager_cycle_owns m (k : K) ins :
  owns m k ->
  let '(m', k', evs, snap) := manager_cycle m k ins in
  owns m' k' /\ bs_drift snap = false /\
  ((exists d, SevDrift d ∈ evs) <->
   mg_paused m = false /\ intended_mtu (mg_controller m') <> ∅).
Proof.
  intros H. unfold manager_cycle. destruct (mg_paused m) eqn:Ep.
  { split; [done|]. split; [by apply owned_no_drift|]. split; [|by intros [[=] _]].
    intros (d & Hin). by apply not_elem_of_nil in Hin. }
  pose proof (run_flows_owns (cycle_keys m) m k 0 ins H) as H1.
  destruct (run_flows m k (cycle_keys m) 0 ins) as [[m1 k1] evs]. cbn [fst snd] in H1.
  destruct H1 as (H1 & Hp & Hd).
  pose proof (reconcile_mtu_noop k1 (intended_path_mtu (mg_controller m1))) as Hn.
  unfold intended_path_mtu in Hn |- *. rewrite to_map_of_map in Hn. specialize (Hn H1).
  assert (Er : (reconcile_mtu k1 (of_map (intended_mtu (mg_controller m1)))).2 =
    of_map (intended_mtu (mg_controller m1))) by (cbn [reconcile_mtu snd]; by rewrite to_map_of_map).
  destruct (reconcile_mtu k1 _) as [k2 drift]. cbn [fst snd] in Hn, Er. subst k2 drift.
  destruct (of_map (intended_mtu (mg_controller m1))) as [|x l] eqn:Eo.
  - apply of_map_nil in Eo. split; [done|]. split; [by apply owned_no_drift|].
    split; [|by intros [_ []]]. by intros (d & []%Hd).
  - split; [exact H1|]. split; [by apply owned_no_drift|]. cbn [mg_controller].
    assert (Hne : intended_mtu (mg_controller m1) <> ∅).
    { intros E%of_map_nil. by rewrite E in Eo. }
    split; [done|]. intros _. eexists. apply elem_of_app. right. by left.
Qed.

(** Cycles in a row; the pause flag is set before each. *)
Fixpoint manager_run (m : B4Manager) (k : K) (l : list (bool * (nat -> turn_input))) :
    B4Manager * K :=
  match l with
  | [] => (m, k)
  | (paused, ins) :: l =>
      let '(m, k, _, _) := manager_cycle (set_paused m paused) k ins in manager_run m k l
  end.

Lemma manager_run_owns l m (k : K) :
  owns m k -> owns (manager_run m k l).1 (manager_run m k l).2.
Proof.
  revert m k. induction l as [|[p ins] l IH]; intros m k H; [done|]. cbn [manager_run].
  pose proof (manager_cycle_owns (set_paused m p) k ins H) as H1.
  destruct (manager_cycle _ k ins) as [[[m' k'] evs] snap]. apply IH, H1.
Qed.

(** The controller never loses track of the executor.  From a fresh manager and an
    executor without pinned MTUs, whatever the observations are, whichever calls fail and
    however the loop is paused, every published snapshot shows no drift.  The drift alarm
    nevertheless goes off in every running cycle in which some MTU is pinned: the
    reconciler returns the intent, not the difference, and the manager takes it for
    drift. *)
Theorem mtu_never_drifts_but_alarm policy config path l paused ins (k : K) :
  applied k = ∅ ->
  let fresh := mkManager (B4Controller_new policy config) policy path (be_enabled config)
    false None ∅ in
  let r := manager_run fresh k l in
  let c := manager_cycle (set_paused r.1 paused) r.2 ins in
  applied c.1.1.2 = intended_mtu (mg_controller c.1.1.1) /\ bs_drift c.2 = false /\
  ((exists d, SevDrift d ∈ c.1.2) <->
   paused = false /\ intended_mtu (mg_controller c.1.1.1) <> ∅).
Proof.
  intros Hk. cbv zeta. set (fresh := mkManager _ _ _ _ _ _ _).
  pose proof (manager_run_owns l fresh k Hk) as H.
  destruct (manager_run fresh k l) as [m k1]. cbn [fst snd] in H |- *.
  pose proof (manager_cycle_owns (set_paused m paused) k1 ins H) as H1.
  by destruct (manager_cycle _ k1 ins) as [[[m' k2] evs] snap].
Qed.
End Ownership.

(** The first cycle pins 1480; the second reports drift although there is none. *)
Definition example_turn (_ : nat) : turn_input := mkTurn mtu_trouble 0 0.
Definition example_run : B4Manager * PathMtuStore () :=
  manager_run (mkManager (B4Controller_new example_policy (mkB4Config 3 true)) example_policy
    None true false None ∅) (mkStore ∅ ()) [(false, example_turn)].
Definition example_cycle :=
  manager_cycle (set_paused example_run.1 false) example_run.2 example_turn.

Lemma mtu_never_drifts_but_alarm_witness :
  bs_drift example_cycle.2 = false /\ exists d, SevDrift d ∈ example_cycle.1.2.
Proof.
  destruct (mtu_never_drifts_but_alarm example_policy (mkB4Config 3 true) None
    [(false, example_turn)] false example_turn (mkStore ∅ () : PathMtuStore ()))
    as (_ & H1 & H2); [vm_compute; reflexivity|].
  split; [exact H1|]. apply H2. split; [reflexivity|].
  refine (bool_decide_eq_false_1 _ _). vm_compute. reflexivity.
Defined.
