(* ===== verification/PathDecision.v ===== *)
(** * The unified path decision (balansir-daemon/src/path_decision.rs)

    A projection of the B4 and VPN snapshots onto one overall path with its reason.
    [short] slices bytes, and panics when byte 10 is inside a UTF-8 character. *)

From stdpp Require Import pretty.
From S2P Require Import Prelude F64 Health VpnPool B4Adapt B4Control.
#[local] Open Scope Z_scope.

Inductive OverallPath := OvDirect | OvB4Adapting | OvVpnActive | OvVpnDegradedDirect | OvNoPath.

#[export] Instance OverallPath_eq_dec : EqDecision OverallPath.
Proof. solve_decision. Defined.

Definition overall_label (o : OverallPath) : string :=
  match o with
  | OvDirect => "Direct"
  | OvB4Adapting => "B4 adapting"
  | OvVpnActive => "VPN active"
  | OvVpnDegradedDirect => "VPN degraded (direct)"
  | OvNoPath => "No path"
  end.

(** [balansir_common::subsystems::VpnSnapshot] *)
Record VpnSnapshot := mkVpnSnapshot {
  vs_enabled : bool;
  vs_paused : bool;
  vs_profiles : list ProfileHealth;
  vs_active : option string;
  vs_last_rotation_reason : option string;
  vs_last_rotation_ms : Z;
  vs_last_refresh_reason : option string;
  vs_last_error : option string;
  vs_updated_ms : Z;
}.

Record PathDecisionView := mkDecisionView {
  pd_overall : string;
  pd_active_candidate : string;
  pd_reason : string;
  pd_direct_state : string;
  pd_b4_active : bool;
  pd_b4_ineffective : bool;
  pd_vpn_active : option string;
  pd_vpn_paused : bool;
  pd_dpi_active : bool;
}.

Definition count_state (flows : list B4FlowView) (s : string) : Z :=
  len (List.filter (fun f => String.eqb (v_state (fv_path f)) s) flows).

Definition b4_direct_state (b4 : B4Snapshot) : string * bool :=
  let n := count_state (bs_flows b4) in
  if 0 <? n "failing"%string then ("failing"%string, true)
  else if n "healthy"%string <? n "degraded"%string then ("degraded"%string, true)
  else if 0 <? n "degraded"%string then ("degraded"%string, false)
  else ("healthy"%string, false).

(** [&id[..10]] panics off a character boundary. *)
Definition char_boundary (s : string) (i : nat) : bool :=
  match String.get i s with
  | Some c => let n := N_of_ascii c in negb ((128 <=? n) && (n <? 192))%N
  | None => true
  end.

Definition short (id : string) : exec string :=
  if 10 <? Z.of_nat (String.length id) then
    if char_boundary id 10 then Val (String.substring 0 10 id +:+ "…") else Panic
  else Val id.

Definition healthy_profiles (l : list ProfileHealth) : Z :=
  len (List.filter (fun p => bool_decide (ph_state p = PHealthy)) l).

(** The first choice: overall path, candidate and reason. *)
Definition choose_path (b4 : B4Snapshot) (vpn : VpnSnapshot) (direct : string) (ineffective : bool) :
    exec (OverallPath * string * string) :=
  if vs_paused vpn then Val (OvDirect, "direct", "VPN pool paused; traffic direct")%string
  else
    match vs_active vpn with
    | Some active =>
        id ← short active;
        Val (OvVpnActive, "vpn"%string,
          "VPN pool selected profile " +:+ id +:+ " (" +:+ pretty (healthy_profiles (vs_profiles vpn))
          +:+ " healthy); direct path " +:+ direct)
    | None =>
        match vs_profiles vpn with
        | _ :: _ =>
            Val (OvVpnDegradedDirect, "direct",
              "VPN pool has no eligible profile (cooldown/failed); traffic direct")%string
        | [] =>
            if bs_enabled b4 && ineffective then
              Val (OvB4Adapting, "b4"%string,
                "B4 adaptation active but ineffective (" +:+ direct +:+ "); direct")
            else if bs_enabled b4 && negb (bs_paused b4) && bs_mtu_enabled b4 then
              Val (OvB4Adapting, "b4"%string, "B4 adapting direct path (" +:+ direct +:+ ")")
            else Val (OvDirect, "direct"%string, "Direct path (" +:+ direct +:+ ")")
        end
    end.

Definition decide_path (b4 : B4Snapshot) (vpn : VpnSnapshot) (dpi_active : bool) :
    exec PathDecisionView :=
  let '(direct, ineffective) := b4_direct_state b4 in
  '(overall, candidate, reason) ← choose_path b4 vpn direct ineffective;
  let '(overall, reason) :=
    if String.eqb direct "failing" && negb (bool_decide (overall = OvVpnActive))
       && negb (bs_enabled b4) && (match vs_profiles vpn with [] => true | _ => false end)
    then (OvNoPath, "Direct path failing and no alternative available; " +:+ reason)
    else (overall, reason) in
  Val (mkDecisionView (overall_label overall) candidate reason direct
    (bs_enabled b4 && negb (bs_paused b4)) ineffective (vs_active vpn) (vs_paused vpn) dpi_active).

(** ** What the projection says *)

Lemma b4_direct_failing b4 :
  (b4_direct_state b4).1 = "failing"%string <->
  exists f, In f (bs_flows b4) /\ v_state (fv_path f) = "failing"%string.
Proof.
  unfold b4_direct_state. set (n := count_state (bs_flows b4)).
  assert (Hn : 0 < n "failing"%string <->
    exists f, In f (bs_flows b4) /\ v_state (fv_path f) = "failing"%string).
  { unfold n, count_state, len. split.
    - intros H. destruct (List.filter _ _) as [|f l] eqn:E; [cbn in H; lia|].
      assert (Hin : In f (f :: l)) by (by left). rewrite <- E in Hin.
      apply filter_In in Hin as [Hin Hs]. exists f. split; [done|]. by apply String.eqb_eq.
    - intros (f & Hin & Hs).
      assert (Hi : In f (List.filter (fun f => String.eqb (v_state (fv_path f)) "failing")
        (bs_flows b4))) by (apply filter_In; split; [done|by apply String.eqb_eq]).
      destruct (List.filter _ _); [destruct Hi|cbn; lia]. }
  rewrite <- Hn. clearbody n. destruct (0 <? n "failing"%string) eqn:E1.
  - split; [lia|done].
  - split; [|lia]. repeat case_match; discriminate.
Qed.

(** The VPN pool's ids: hexadecimal digests, so every byte is ASCII. *)
Definition ascii_id (s : string) : Prop := forall i, char_boundary s i = true.

Lemma short_returns id : ascii_id id -> returns (short id).
Proof. intros H. unfold short. rewrite H. case_match; apply returns_Val. Qed.

Lemma choose_path_returns b4 vpn d i :
  (forall a, vs_active vpn = Some a -> ascii_id a) -> returns (choose_path b4 vpn d i).
Proof.
  intros H. unfold choose_path. destruct (vs_paused vpn); [apply returns_Val|].
  destruct (vs_active vpn) as [a|] eqn:Ea.
  - destruct (short_returns a (H a eq_refl)) as [s ->]. apply returns_Val.
  - repeat case_match; apply returns_Val.
Qed.

(** The decision is total on the pool's ids, and honest about the traffic: it names
    the VPN exactly when the pool is running with an active profile, and "No path"
    exactly when some flow is failing, B4 is off and the pool has neither an active
    profile nor any other.  It says "B4 adapting" for a paused engine as soon as its
    flows fail, although the same view reports B4 as inactive. *)
Theorem path_decision_honest b4 vpn dpi :
  (forall a, vs_active vpn = Some a -> ascii_id a) ->
  exists v, decide_path b4 vpn dpi = Val v /\
    (pd_overall v = "VPN active"%string <->
       vs_paused vpn = false /\ is_Some (vs_active vpn)) /\
    (pd_active_candidate v = "vpn"%string <-> pd_overall v = "VPN active"%string) /\
    (pd_overall v = "No path"%string <->
       (exists f, In f (bs_flows b4) /\ v_state (fv_path f) = "failing"%string) /\
       bs_enabled b4 = false /\ vs_profiles vpn = [] /\
       (vs_paused vpn = true \/ vs_active vpn = None)) /\
    (pd_overall v = "B4 adapting"%string /\ pd_b4_active v = false <->
       bs_enabled b4 = true /\ bs_paused b4 = true /\ (b4_direct_state b4).2 = true /\
       vs_paused vpn = false /\ vs_active vpn = None /\ vs_profiles vpn = []).
Proof.
  intros Ha. setoid_rewrite <- b4_direct_failing. unfold decide_path.
  destruct (b4_direct_state b4) as [d i]. cbn [fst snd].
  assert (Hd : String.eqb d "failing" = true <-> d = "failing"%string) by apply String.eqb_eq.
  unfold choose_path. destruct (vs_paused vpn).
  { rewrite bind_Val_l. destruct (String.eqb d "failing"), (bs_enabled b4), (vs_profiles vpn);
      eexists; (split; [reflexivity|]); cbn; naive_solver. }
  destruct (vs_active vpn) as [a|] eqn:Eact.
  { destruct (short_returns a (Ha a eq_refl)) as [id ->]. rewrite !bind_Val_l.
    destruct (String.eqb d "failing"); eexists; (split; [reflexivity|]); cbn;
      repeat split; intros; try done; try naive_solver; destruct (bs_enabled b4), (bs_paused b4);
      naive_solver. }
  destruct (vs_profiles vpn), (bs_enabled b4), i, (bs_paused b4), (bs_mtu_enabled b4),
    (String.eqb d "failing"); cbn [andb negb]; rewrite bind_Val_l; eexists; (split; [reflexivity|]); cbn;
    naive_solver.
Qed.

(** A paused engine whose only flow is failing. *)
Definition failing_flow : B4FlowView :=
  mkFlowView "example.com" "StrictFail" "direct" None None "Interfered" None None None None None
    None None (mkHealthView "failing" None None None 0 0 0 []).
Definition paused_b4 : B4Snapshot := mkB4Snapshot true true None [failing_flow] [] [] false None true.
Definition empty_vpn : VpnSnapshot := mkVpnSnapshot true false [] None None 0 None None 0.

Lemma path_decision_honest_witness :
  exists v, decide_path paused_b4 empty_vpn false = Val v /\
    pd_overall v = "B4 adapting"%string /\ pd_b4_active v = false.
Proof.
  destruct (path_decision_honest paused_b4 empty_vpn false) as (v & E & _ & _ & _ & H);
    [intros a [=]|].
  exists v. split; [exact E|]. apply H. repeat split; vm_compute; reflexivity.
Defined.
