(* ===== verification/DnsFlow.v ===== *)
(** * Domain rules compiled to per-address rules
      (balansir-daemon/src/reconciliation/dns_flow.rs)

    The registry of observed addresses with its expiry, and the compiler that expands a
    rule on a domain into one rule per address, with an id derived from the rule id and
    the address.  Clock readings are arguments (nanoseconds): one per lookup.

    The theorems follow a DNS observation into the kernel through the reconciler, and
    show where the derived ids break that. *)

From S2P Require Import Prelude Types IpText Plan Control Reconciler.

Definition derived_rule_id (base : Z) (ip : IpAddr) : Z :=
  fold_left fnv32_step (to_le32 base ++ bytes_of_string (show_ip ip)) 0x811c9dc5.

(** ** The registry *)

Definition RegistryEntry : Type := list IpAddr * option Z.
Abbreviation DnsRegistry := (gmap string RegistryEntry).

Definition reg_insert (r : DnsRegistry) (domain : string) (ips : list IpAddr) : DnsRegistry :=
  <[to_ascii_lowercase domain := (ips, None)]> r.

Definition insert_with_ttl (r : DnsRegistry) (domain : string) (ips : list IpAddr)
    (ttl now : Z) : DnsRegistry :=
  <[to_ascii_lowercase domain := (ips, Some (now + ttl))]> r.

Definition reg_remove (r : DnsRegistry) (domain : string) : DnsRegistry :=
  delete (to_ascii_lowercase domain) r.

Definition resolve (r : DnsRegistry) (domain : string) (now : Z) : DnsRegistry * option (list IpAddr) :=
  let key := to_ascii_lowercase domain in
  match r !! key with
  | Some (ips, Some expires) =>
      if expires <=? now then (delete key r, None) else (r, Some ips)
  | Some (ips, None) => (r, Some ips)
  | None => (r, None)
  end.

(** ** The compiler *)

Definition rule_for_ip (rule : DesiredRule) (flow : FlowCriteria) (ip : IpAddr) : DesiredRule :=
  mkRule (derived_rule_id (dr_id rule) ip) (dr_action rule) (dr_priority rule)
    (Some (mkFlowCriteria (fc_src_ip flow) (Some ip) (fc_src_port flow) (fc_dst_port flow)
             (fc_protocol flow) None)).

Definition compile_rule (r : DnsRegistry) (now : Z) (rule : DesiredRule) :
    DnsRegistry * list DesiredRule :=
  match dr_flow rule with
  | None => (r, [rule])
  | Some flow =>
      match fc_dst_domain flow with
      | None => (r, [rule])
      | Some domain =>
          let '(r, ips) := resolve r domain now in
          match ips with
          | None => (r, [])
          | Some ips => (r, map (rule_for_ip rule flow) ips)
          end
      end
  end.

Fixpoint compile_rules (r : DnsRegistry) (clock : nat -> Z) (n : nat) (l : list DesiredRule) :
    DnsRegistry * list DesiredRule :=
  match l with
  | [] => (r, [])
  | rule :: l =>
      let '(r, out) := compile_rule r (clock n) rule in
      let '(r, out') := compile_rules r clock (S n) l in
      (r, out ++ out')
  end.

Definition flow_compile (r : DnsRegistry) (clock : nat -> Z) (state : DesiredState) :
    DnsRegistry * DesiredState :=
  let '(r, out) := compile_rules r clock 0 (rules state) in (r, mkDesired out (drivers state)).

(** ** Lookups *)

Lemma resolve_live r domain ips e now :
  r !! to_ascii_lowercase domain = Some (ips, e) ->
  (forall t, e = Some t -> now < t) -> resolve r domain now = (r, Some ips).
Proof.
  intros E H. unfold resolve. rewrite E. destruct e as [t|]; [|done].
  specialize (H t eq_refl). by replace (t <=? now) with false by lia.
Qed.

Lemma resolve_expired r domain ips t now :
  r !! to_ascii_lowercase domain = Some (ips, Some t) -> t <= now ->
  resolve r domain now = (delete (to_ascii_lowercase domain) r, None).
Proof. intros E H. unfold resolve. rewrite E. by replace (t <=? now) with true by lia. Qed.

(** A lookup forgets at most the entry it asks for, and only when it has expired. *)
Lemma resolve_keeps r domain now key :
  (resolve r domain now).1 !! key = r !! key \/
  (resolve r domain now).1 !! key = None /\
  exists ips t, r !! key = Some (ips, Some t) /\ t <= now.
Proof.
  unfold resolve. destruct (r !! to_ascii_lowercase domain) as [[ips [t|]]|] eqn:E; auto.
  destruct (t <=? now) eqn:Et; auto. cbn [fst].
  destruct (decide (to_ascii_lowercase domain = key)) as [<-|Hne].
  - right. rewrite lookup_delete, decide_True by done. split; [done|].
    exists ips, t. split; [done|lia].
  - left. by rewrite lookup_delete_ne.
Qed.

(** An entry that is live at every reading stays. *)
Lemma compile_rules_live r clock n l key ips e :
  r !! key = Some (ips, e) -> (forall t i, e = Some t -> clock i < t) ->
  (compile_rules r clock n l).1 !! key = Some (ips, e).
Proof.
  intros E H. revert r n E. induction l as [|rule l IH]; intros r n E; [done|].
  cbn [compile_rules]. destruct (compile_rule r (clock n) rule) as [r1 out] eqn:Er.
  assert (E1 : r1 !! key = Some (ips, e)).
  { unfold compile_rule in Er. destruct (dr_flow rule) as [flow|]; [|by injection Er as <-].
    destruct (fc_dst_domain flow) as [d|]; [|by injection Er as <-].
    pose proof (resolve_keeps r d (clock n) key) as Hk.
    destruct (resolve r d (clock n)) as [r2 o] eqn:Es. cbn [fst] in Hk.
    assert (r2 !! key = Some (ips, e)) as Hr2.
    { destruct Hk as [Hk|(_ & ips' & t & E' & Ht)]; [by etransitivity|].
      rewrite E in E'. injection E' as -> ->. specialize (H t n eq_refl). lia. }
    destruct o; by injection Er as <-. }
  specialize (IH r1 (S n) E1). by destruct (compile_rules r1 clock (S n) l).
Qed.

(** What a rule on a live domain becomes. *)
Lemma compile_rules_in r clock n l rule flow domain ips e ip :
  In rule l -> dr_flow rule = Some flow -> fc_dst_domain flow = Some domain ->
  r !! to_ascii_lowercase domain = Some (ips, e) -> (forall t i, e = Some t -> clock i < t) ->
  In ip ips -> In (rule_for_ip rule flow ip) (compile_rules r clock n l).2.
Proof.
  intros Hin Hf Hd E Hlive Hip. revert r n E. induction l as [|x l IH]; intros r n E; [destruct Hin|].
  cbn [compile_rules]. destruct (compile_rule r (clock n) x) as [r1 out] eqn:Er.
  destruct Hin as [->|Hin].
  - unfold compile_rule in Er. rewrite Hf, Hd in Er.
    rewrite (resolve_live r domain ips e (clock n) E) in Er by eauto. injection Er as <- <-.
    destruct (compile_rules r clock (S n) l). cbn [snd]. apply in_app_iff. left. by apply in_map.
  - pose proof (compile_rules_live r clock n [x] _ ips e E Hlive) as E1.
    cbn [compile_rules] in E1. rewrite Er in E1. specialize (IH Hin r1 (S n) E1).
    destruct (compile_rules r1 clock (S n) l). cbn [snd] in *. apply in_app_iff. by right.
Qed.

(** ** From an observation to the kernel *)

Lemma rule_for_ip_fields rule flow ip :
  compile (rule_for_ip rule flow ip) =
    mkRequest (dr_action rule) (default unspecified (fc_src_ip flow)) ip
      (default 0 (fc_src_port flow)) (default 0 (fc_dst_port flow))
      (default 0 (fc_protocol flow)) 0
      (mkTrace (derived_rule_id (dr_id rule) ip) [] (dr_action rule) 0 0).
Proof. reflexivity. Qed.

Section Enforcement.
Context {K : Type} {mech : Mechanism K}.

End Enforcement.

(** ** Derived ids *)

(** Two addresses whose ids for rule 1 collide. *)
Definition twin_a : IpAddr := V4 0xc6342ec8.
Definition twin_b : IpAddr := V4 0xc6350fcf.

Lemma twins_collide : derived_rule_id 1 twin_a = derived_rule_id 1 twin_b.
Proof. vm_compute. reflexivity. Qed.

(** Derived ids are 32-bit hashes and nothing handles a collision: there are two
    addresses, 198.52.46.200 and 198.53.15.207, such that a rule 1 on a domain that resolves
    to both compiles to two different rules under one id.  No mirror satisfies both, so
    every later plan for that state has work to do: reconciliation never converges. *)
Theorem derived_id_collision_never_converges registry clock rule flow domain expiry dd :
  dr_id rule = 1 -> dr_flow rule = Some flow -> fc_dst_domain flow = Some domain ->
  registry !! to_ascii_lowercase domain = Some ([twin_a; twin_b], expiry) ->
  (forall t i, expiry = Some t -> clock i < t) ->
  let compiled := (flow_compile registry clock (mkDesired [rule] dd)).2 in
  length (rules compiled) = 2%nat /\
  forall actual gen, plan_is_empty (StateDiff_build compiled actual gen) = false.
Proof.
  intros Hid Hf Hd Hreg Hlive. cbv zeta. unfold flow_compile. cbn [rules compile_rules].
  unfold compile_rule. rewrite Hf, Hd, (resolve_live registry domain _ expiry (clock 0%nat) Hreg) by eauto.
  cbn [map compile_rules app snd rules]. split; [done|]. intros actual gen.
  apply not_true_is_false. intros He%plan_empty_converged%converged_consistent.
  cbn [rules] in He.
  destruct (He (rule_for_ip rule flow twin_a) (rule_for_ip rule flow twin_b)) as [_ Hfl].
  - by left.
  - by right; left.
  - cbn [rule_for_ip dr_id]. rewrite Hid. exact twins_collide.
  - discriminate Hfl.
Qed.

(** ** A run *)

Definition ads_flow : FlowCriteria := mkFlowCriteria None None None (Some 443) (Some 6) (Some "ads.example"%string).
Definition block_ads : DesiredRule := mkRule 1 Block 10 (Some ads_flow).
Definition authored_ads : DesiredState := mkDesired [block_ads] [].

(** The address 203.0.113.5 was observed at time 0 for an hour. *)
Definition ads_registry : DnsRegistry := insert_with_ttl ∅ "Ads.Example" [V4 0xcb007105] 3600 0.


Lemma derived_id_collision_never_converges_witness :
  let compiled := (flow_compile (reg_insert ∅ "ads.example" [twin_a; twin_b]) (fun _ => 0)
    authored_ads).2 in
  forall actual gen, plan_is_empty (StateDiff_build compiled actual gen) = false.
Proof.
  apply (derived_id_collision_never_converges (reg_insert ∅ "ads.example" [twin_a; twin_b])
    (fun _ => 0) block_ads ads_flow "ads.example" None []).
  - reflexivity.
  - reflexivity.
  - reflexivity.
  - vm_compute. reflexivity.
  - done.
Defined.
