(* ===== verification/DnsPlane.v ===== *)
(** * Reading DNS messages (balansir-daemon/src/dns_plane.rs)

    The decoder of names with its compression pointers, the answer section, and the
    observation drawn from a response: the addresses of the queried name or of its CNAME
    chain, with a clamped lifetime.

    Bytes are numbers; a read out of range panics ([exec]).  The two loops, over the parts
    of a name and over the CNAME chain, carry fuel, and a loop out of fuel is a panic as
    well, so the theorem that parsing returns covers both.  [from_utf8_lossy] is the
    identity on bytes here: it keeps ASCII and leaves some byte above 127 for everything
    else, which [normalize_domain] rejects either way. *)

From S2P Require Import Prelude Types IpText Plan Control Reconciler DnsFlow.

Definition HEADER_LEN : Z := 12.
Definition MAX_NAME_LEN : Z := 255.
Definition MAX_POINTER_JUMPS : Z := 64.
Definition MAX_CNAME_CHAIN : Z := 8.
Definition MAX_ANSWERS : Z := 2048.
Definition TYPE_A : Z := 1.
Definition TYPE_CNAME : Z := 5.
Definition TYPE_AAAA : Z := 28.
Definition MIN_TTL_SECS : Z := 60.
Definition MAX_TTL_SECS : Z := 3600.

Record DnsRecord := mkRecord {
  owner : string;
  rtype : Z;
  ttl : Z;
  rdata_off : Z;
  rdata_len : Z;
}.

Inductive DnsError :=
  TooShort | BadLabel | NameTooLong | PointerLoop | PointerOutOfRange | NotAResponse
| TooManyRecords.

Record DnsObservation := mkObservation { ob_domain : string; ob_ips : list IpAddr; ob_ttl : Z }.

(** ** Names *)

Definition is_host_byte (c : ascii) : bool :=
  let n := N_of_ascii c in
  (((48 <=? n) && (n <=? 57)) || ((97 <=? n) && (n <=? 122)) || ((65 <=? n) && (n <=? 90)))%N
  || Ascii.eqb c "-" || Ascii.eqb c ".".

Fixpoint forall_bytes (f : ascii -> bool) (s : string) : bool :=
  match s with EmptyString => true | String c s => f c && forall_bytes f s end.

Definition normalize_domain (name : string) : option string :=
  let s := to_ascii_lowercase (trim_end_matches "." name) in
  if is_empty_str s || (MAX_NAME_LEN <? Z.of_nat (String.length s)) then None
  else if negb (forall_bytes is_host_byte s) then None
  else if existsb is_empty_str (split_on "." s) then None
  else Some s.

(** ** Headers *)

Record Header := mkHeader { qr : bool; tc : bool; rcode : Z; qdcount : Z; ancount : Z }.

Definition parse_header (msg : list Z) : exec (option Header) :=
  if len msg <? HEADER_LEN then Val None
  else
    b2 ← idx msg 2; b3 ← idx msg 3; b4 ← idx msg 4; b5 ← idx msg 5; b6 ← idx msg 6; b7 ← idx msg 7;
    let flags := from_be16 b2 b3 in
    Val (Some (mkHeader (negb (Z.land flags 0x8000 =? 0)) (negb (Z.land flags 0x0200 =? 0))
                 (Z.land flags 0x000F) (from_be16 b4 b5) (from_be16 b6 b7))).

(** ** Decoding names *)

(** [slice::get] *)
Definition get (l : list Z) (i : Z) : option Z := if 0 <=? i then l !! Z.to_nat i else None.

Fixpoint decode_loop (fuel : nat) (msg : list Z) (out : string) (pos : Z) (after : option Z)
    (jumps : Z) (visited : list Z) (total : Z) : exec (DnsError + string * option Z) :=
  match fuel with
  | O => Panic
  | S fuel =>
      match get msg pos with
      | None => Val (inl TooShort)
      | Some l =>
          if l =? 0 then Val (inr (out, Some (default (pos + 1) after)))
          else if Z.land l 0xC0 =? 0xC0 then
            match get msg (pos + 1) with
            | None => Val (inl TooShort)
            | Some low =>
                let target := Z.lor (Z.shiftl (Z.land l 0x3F) 8) low in
                let after := Some (default (pos + 2) after) in
                let jumps := jumps + 1 in
                if MAX_POINTER_JUMPS <? jumps then Val (inl PointerLoop)
                else if (len msg <=? target) || existsb (Z.eqb target) visited
                then Val (inl PointerOutOfRange)
                else decode_loop fuel msg out target after jumps (visited ++ [target]) total
            end
          else if l <=? 63 then
            let stop := pos + 1 + l in
            if len msg <? stop then Val (inl TooShort)
            else
              label ← slice msg (pos + 1) stop;
              let out := (if is_empty_str out then out else out +:+ ".") +:+ string_of_bytes label in
              let total := total + (1 + l) in
              if MAX_NAME_LEN <? total then Val (inl NameTooLong)
              else decode_loop fuel msg out stop after jumps visited total
          else Val (inl BadLabel)
      end
  end.

(** A label adds at least 2 to [total] and a pointer 1 to [jumps]. *)
Definition name_fuel : nat := 400.

Definition decode_name (msg : list Z) (start : Z) : exec (DnsError + string * Z) :=
  r ← decode_loop name_fuel msg EmptyString start None 0 [] 0;
  Val (match r with
       | inl e => inl e
       | inr (out, after) =>
           match normalize_domain out with
           | None => inl BadLabel
           | Some name => inr (name, default start after)
           end
       end).

(** ** The answer section *)

Fixpoint skip_questions (n : nat) (msg : list Z) (pos : Z) : exec (DnsError + Z) :=
  match n with
  | O => Val (inr pos)
  | S n =>
      r ← decode_name msg pos;
      match r with
      | inl e => Val (inl e)
      | inr (_, pos) =>
          if len msg <? pos + 4 then Val (inl TooShort) else skip_questions n msg (pos + 4)
      end
  end.

(** The fixed part of a record at [pos] and its data, behind the owner name. *)
Definition parse_record (msg : list Z) (name : string) (pos : Z) : exec (DnsError + DnsRecord * Z) :=
  if len msg <? pos + 10 then Val (inl TooShort)
  else
    t0 ← idx msg pos; t1 ← idx msg (pos + 1);
    l0 ← idx msg (pos + 4); l1 ← idx msg (pos + 5); l2 ← idx msg (pos + 6); l3 ← idx msg (pos + 7);
    d0 ← idx msg (pos + 8); d1 ← idx msg (pos + 9);
    let rdlen := from_be16 d0 d1 in
    if len msg <? pos + 10 + rdlen then Val (inl TooShort)
    else Val (inr (mkRecord name (from_be16 t0 t1) (from_be32 l0 l1 l2 l3) (pos + 10) rdlen,
                   pos + 10 + rdlen)).

Fixpoint read_records (n : nat) (msg : list Z) (pos : Z) (out : list DnsRecord) :
    exec (DnsError + list DnsRecord) :=
  match n with
  | O => Val (inr out)
  | S n =>
      if MAX_ANSWERS <=? len out then Val (inl TooManyRecords)
      else
        r ← decode_name msg pos;
        match r with
        | inl e => Val (inl e)
        | inr (name, pos) =>
            rec ← parse_record msg name pos;
            match rec with
            | inl e => Val (inl e)
            | inr (record, pos) => read_records n msg pos (out ++ [record])
            end
        end
  end.

Definition parse_answers (msg : list Z) : exec (DnsError + list DnsRecord) :=
  h ← parse_header msg;
  match h with
  | None => Val (inl TooShort)
  | Some hdr =>
      if negb (qr hdr) then Val (inl NotAResponse)
      else
        p ← skip_questions (Z.to_nat (qdcount hdr)) msg HEADER_LEN;
        match p with
        | inl e => Val (inl e)
        | inr pos => read_records (Z.to_nat (ancount hdr)) msg pos []
        end
  end.

Definition query_name (msg : list Z) : exec (option string) :=
  h ← parse_header msg;
  match h with
  | None => Val None
  | Some hdr =>
      if qr hdr || (qdcount hdr =? 0) then Val None
      else
        r ← decode_name msg HEADER_LEN;
        Val (match r with
             | inl _ => None
             | inr (name, pos) => if len msg <? pos + 4 then None else Some name
             end)
  end.

(** ** Observations *)

Fixpoint follow_cnames (fuel : nat) (msg : list Z) (answers : list DnsRecord) (chain : list string)
    (cur : string) : exec (option (list string)) :=
  match fuel with
  | O => Panic
  | S fuel =>
      match List.find (fun r => (rtype r =? TYPE_CNAME) && String.eqb (owner r) cur) answers with
      | None => Val (Some chain)
      | Some cname =>
          r ← decode_name msg (rdata_off cname);
          match r with
          | inl _ => Val None
          | inr (target, _) =>
              if (MAX_CNAME_CHAIN <=? len chain) || existsb (String.eqb target) chain
              then Val (Some chain)
              else follow_cnames fuel msg answers (chain ++ [target]) target
          end
      end
  end.

Definition from_be_bytes (l : list Z) : Z := fold_left (fun acc b => acc * 256 + b) l 0.

(** One record of the address loop: [None] aborts the observation. *)
Definition record_address (msg : list Z) (r : DnsRecord) : option (option IpAddr) :=
  if (0 <=? rdata_off r) && (rdata_off r + rdata_len r <=? len msg) then
    let raw := take (Z.to_nat (rdata_len r)) (drop (Z.to_nat (rdata_off r)) msg) in
    if (rtype r =? TYPE_A) && (rdata_len r =? 4) then Some (Some (V4 (from_be_bytes raw)))
    else if (rtype r =? TYPE_AAAA) && (rdata_len r =? 16) then Some (Some (V6 (from_be_bytes raw)))
    else Some None
  else None.

Definition wanted (chain : list string) (r : DnsRecord) : bool :=
  ((rtype r =? TYPE_A) || (rtype r =? TYPE_AAAA)) && existsb (String.eqb (owner r)) chain.

Fixpoint collect (msg : list Z) (chain : list string) (answers : list DnsRecord)
    (ips : list IpAddr) (t : Z) : option (list IpAddr * Z) :=
  match answers with
  | [] => Some (ips, t)
  | r :: answers =>
      if negb (wanted chain r) then collect msg chain answers ips t
      else
        match record_address msg r with
        | None => None
        | Some (Some ip) => collect msg chain answers (ips ++ [ip]) (Z.min t (ttl r))
        | Some None => collect msg chain answers ips t
        end
  end.

Definition clamp (v lo hi : Z) : Z := if v <? lo then lo else if hi <? v then hi else v.

(** The chain has at most [MAX_CNAME_CHAIN] names. *)
Definition chain_fuel : nat := 10.

Definition observe_response (query : string) (response : list Z) : exec (option DnsObservation) :=
  h ← parse_header response;
  match h with
  | None => Val None
  | Some hdr =>
      if negb (qr hdr) || tc hdr || negb (rcode hdr =? 0) then Val None
      else
        match normalize_domain query with
        | None => Val None
        | Some qname =>
            a ← parse_answers response;
            match a with
            | inl _ => Val None
            | inr answers =>
                c ← follow_cnames chain_fuel response answers [qname] qname;
                Val (match c with
                     | None => None
                     | Some chain =>
                         match collect response chain answers [] u32_max with
                         | None | Some ([], _) => None
                         | Some (ips, t) =>
                             Some (mkObservation qname ips (clamp t MIN_TTL_SECS MAX_TTL_SECS))
                         end
                     end)
            end
        end
  end.

(** Clock readings are in nanoseconds. *)
Definition ingest (registry : DnsRegistry) (query response : list Z) (now : Z) :
    exec (DnsRegistry * bool) :=
  q ← query_name query;
  match q with
  | None => Val (registry, false)
  | Some qname =>
      o ← observe_response qname response;
      Val (match o with
           | None => (registry, false)
           | Some obs =>
               (insert_with_ttl registry (ob_domain obs) (ob_ips obs)
                  (ob_ttl obs * 1000000000) now, true)
           end)
  end.

(** ** Parsing returns *)

Lemma get_some l i x : get l i = Some x -> 0 <= i < len l /\ l !! Z.to_nat i = Some x.
Proof.
  unfold get. destruct (0 <=? i) eqn:E; [|done]. intros H. split; [|done].
  apply lookup_lt_Some in H. unfold len. lia.
Qed.

Lemma get_byte l i x : Forall is_byte l -> get l i = Some x -> is_byte x.
Proof. intros Hl [_ H]%get_some. by apply (Forall_lookup_1 _ _ _ _ Hl H). Qed.

Lemma decode_loop_returns fuel msg out pos after jumps visited total :
  Forall is_byte msg -> 0 <= pos -> 0 <= jumps <= MAX_POINTER_JUMPS -> 0 <= total <= MAX_NAME_LEN ->
  (forall p, after = Some p -> 0 <= p) ->
  (MAX_POINTER_JUMPS - jumps) + (MAX_NAME_LEN - total) < Z.of_nat fuel ->
  exists r, decode_loop fuel msg out pos after jumps visited total = Val r /\
    forall o a, r = inr (o, a) -> exists p, a = Some p /\ 0 <= p.
Proof.
  intros Hb. revert out pos after jumps visited total.
  induction fuel as [|fuel IH]; intros out pos after jumps visited total Hp Hj Ht Ha Hf;
    unfold MAX_POINTER_JUMPS, MAX_NAME_LEN in *; [lia|]. cbn [decode_loop].
  destruct (get msg pos) as [l|] eqn:El; [|by eexists].
  pose proof (get_byte _ _ _ Hb El) as Hl. unfold is_byte in Hl.
  destruct (l =? 0) eqn:E0.
  { eexists. split; [done|]. intros o a [= _ <-]. eexists. split; [done|].
    destruct after as [p|]; [by apply Ha|cbn; lia]. }
  destruct (Z.land l 0xC0 =? 0xC0).
  - destruct (get msg (pos + 1)) as [low|] eqn:Elow; [|by eexists].
    pose proof (get_byte _ _ _ Hb Elow) as Hlow. unfold is_byte in Hlow.
    unfold MAX_POINTER_JUMPS. destruct (64 <? jumps + 1) eqn:E64; [by eexists|].
    destruct (_ || _); [by eexists|]. apply IH; try lia.
    + apply Z.lor_nonneg. split; [|lia]. apply Z.shiftl_nonneg, Z.land_nonneg. lia.
    + intros p [= <-]. destruct after as [q|]; [by apply Ha|cbn; lia].
  - destruct (l <=? 63) eqn:E63; [|by eexists].
    destruct (len msg <? pos + 1 + l) eqn:Es; [by eexists|].
    destruct (slice_returns msg (pos + 1) (pos + 1 + l)) as [label ->]; [lia|lia|].
    rewrite bind_Val_l. unfold MAX_NAME_LEN. destruct (255 <? total + (1 + l)) eqn:E255; [by eexists|].
    apply IH; auto; lia.
Qed.

Lemma decode_name_returns msg start :
  Forall is_byte msg -> 0 <= start ->
  exists r, decode_name msg start = Val r /\ forall n p, r = inr (n, p) -> 0 <= p.
Proof.
  intros Hb Hs. unfold decode_name.
  destruct (decode_loop_returns name_fuel msg EmptyString start None 0 [] 0) as (r & -> & Hr);
    try done; try (unfold MAX_POINTER_JUMPS, MAX_NAME_LEN, name_fuel; lia).
  rewrite bind_Val_l. eexists. split; [done|]. intros n p.
  destruct r as [e|[o a]]; [done|]. destruct (Hr o a eq_refl) as (q & -> & Hq).
  destruct (normalize_domain o); [|done]. by intros [= <- <-].
Qed.

Lemma parse_header_returns msg :
  exists h, parse_header msg = Val h /\
    (Forall is_byte msg -> forall hdr, h = Some hdr -> 0 <= qdcount hdr /\ 0 <= ancount hdr).
Proof.
  unfold parse_header. destruct (len msg <? HEADER_LEN) eqn:E; [by eexists|].
  unfold HEADER_LEN in *. rewrite !idx_byte_at by lia. cbn. eexists. split; [done|].
  intros Hb hdr [= <-]. cbn. pose proof (fun i => byte_at_is_byte msg i Hb) as H.
  split; apply from_be16_range; auto.
Qed.

Lemma skip_questions_returns n msg pos :
  Forall is_byte msg -> 0 <= pos ->
  exists r, skip_questions n msg pos = Val r /\ forall p, r = inr p -> 0 <= p.
Proof.
  intros Hb. revert pos. induction n as [|n IH]; intros pos Hp; cbn [skip_questions].
  { eexists. split; [done|]. by intros p [= <-]. }
  destruct (decode_name_returns msg pos Hb Hp) as (r & -> & Hr). rewrite bind_Val_l.
  destruct r as [e|[name p]]; [by eexists|]. specialize (Hr name p eq_refl).
  destruct (len msg <? p + 4); [by eexists|]. apply IH. lia.
Qed.

Lemma parse_record_returns msg name pos :
  Forall is_byte msg -> 0 <= pos ->
  exists r, parse_record msg name pos = Val r /\
    forall rec p, r = inr (rec, p) ->
      0 <= p /\ 0 <= rdata_off rec /\ 0 <= rdata_len rec /\ rdata_off rec + rdata_len rec <= len msg /\
      owner rec = name.
Proof.
  intros Hb Hp. unfold parse_record. destruct (len msg <? pos + 10) eqn:E; [by eexists|].
  rewrite !idx_byte_at by lia. rewrite !bind_Val_l.
  pose proof (fun i => byte_at_is_byte msg i Hb) as H.
  pose proof (from_be16_range _ _ (H (pos + 8)) (H (pos + 9))) as Hr. cbv zeta.
  destruct (len msg <? pos + 10 + _) eqn:E2; [by eexists|]. eexists. split; [done|].
  intros rec p [= <- <-]. cbn [rdata_off rdata_len owner]. repeat split; lia.
Qed.

Definition record_inside (msg : list Z) (r : DnsRecord) : Prop :=
  0 <= rdata_off r /\ 0 <= rdata_len r /\ rdata_off r + rdata_len r <= len msg.

Lemma read_records_returns n msg pos out :
  Forall is_byte msg -> 0 <= pos -> Forall (record_inside msg) out ->
  exists r, read_records n msg pos out = Val r /\
    forall l, r = inr l -> Forall (record_inside msg) l.
Proof.
  intros Hb. revert pos out. induction n as [|n IH]; intros pos out Hp Ho; cbn [read_records].
  { eexists. split; [done|]. by intros l [= <-]. }
  destruct (MAX_ANSWERS <=? len out); [by eexists|].
  destruct (decode_name_returns msg pos Hb Hp) as (r & -> & Hr). rewrite bind_Val_l.
  destruct r as [e|[name p]]; [by eexists|]. specialize (Hr name p eq_refl).
  destruct (parse_record_returns msg name p Hb Hr) as (r2 & -> & Hr2). rewrite bind_Val_l.
  destruct r2 as [e|[rec p2]]; [by eexists|]. destruct (Hr2 rec p2 eq_refl) as (H1 & H2 & H3 & H4 & _).
  apply IH; [done|]. apply Forall_app. split; [done|]. by repeat constructor.
Qed.

Lemma parse_answers_returns msg :
  Forall is_byte msg ->
  exists r, parse_answers msg = Val r /\ forall l, r = inr l -> Forall (record_inside msg) l.
Proof.
  intros Hb. unfold parse_answers. destruct (parse_header_returns msg) as (h & -> & Hh).
  rewrite bind_Val_l. destruct h as [hdr|]; [|by eexists]. destruct (negb (qr hdr)); [by eexists|].
  destruct (skip_questions_returns (Z.to_nat (qdcount hdr)) msg HEADER_LEN Hb) as (p & -> & Hp); [done|].
  rewrite bind_Val_l. destruct p as [e|pos]; [by eexists|].
  apply read_records_returns; auto.
Qed.

Lemma follow_cnames_returns fuel msg answers chain cur :
  Forall is_byte msg -> Forall (record_inside msg) answers -> len chain <= MAX_CNAME_CHAIN ->
  MAX_CNAME_CHAIN - len chain < Z.of_nat fuel ->
  returns (follow_cnames fuel msg answers chain cur).
Proof.
  intros Hb Ha. revert chain cur.
  induction fuel as [|fuel IH]; intros chain cur Hc Hf; [lia|]. cbn [follow_cnames].
  destruct (List.find _ answers) as [r|] eqn:Ef; [|by eexists].
  apply find_some in Ef as [Hr _].
  destruct (proj1 (List.Forall_forall _ _) Ha r Hr) as (H1 & _ & _).
  destruct (decode_name_returns msg (rdata_off r) Hb H1) as (res & -> & _). rewrite bind_Val_l.
  destruct res as [e|[target p]]; [by eexists|].
  destruct (MAX_CNAME_CHAIN <=? len chain) eqn:E8; cbn [orb]; [by eexists|].
  destruct (existsb _ chain); [by eexists|].
  apply IH; rewrite len_app, len_cons, len_nil; lia.
Qed.

Lemma observe_response_returns query response :
  Forall is_byte response -> returns (observe_response query response).
Proof.
  intros Hb. unfold observe_response. destruct (parse_header_returns response) as (h & -> & _).
  rewrite bind_Val_l. destruct h as [hdr|]; [|by eexists]. destruct (_ || _); [by eexists|].
  destruct (normalize_domain query) as [qname|]; [|by eexists].
  destruct (parse_answers_returns response Hb) as (a & -> & Ha). rewrite bind_Val_l.
  destruct a as [e|answers]; [by eexists|].
  destruct (follow_cnames_returns chain_fuel response answers [qname] qname Hb (Ha _ eq_refl))
    as [c ->]; [done|done|]. rewrite bind_Val_l. by eexists.
Qed.

(** Reading a DNS response never panics and always ends, whatever the bytes: compression
    loops, truncated records and CNAME loops included. *)
Theorem observe_response_total query response :
  Forall is_byte response -> returns (observe_response query response).
Proof. apply observe_response_returns. Qed.

Lemma query_name_returns msg : Forall is_byte msg -> returns (query_name msg).
Proof.
  intros Hb. unfold query_name. destruct (parse_header_returns msg) as (h & -> & _).
  rewrite bind_Val_l. destruct h as [hdr|]; [|by eexists]. destruct (_ || _); [by eexists|].
  destruct (decode_name_returns msg HEADER_LEN Hb) as (r & -> & _); [done|].
  rewrite bind_Val_l. by eexists.
Qed.

Lemma ingest_returns registry query response now :
  Forall is_byte query -> Forall is_byte response -> returns (ingest registry query response now).
Proof.
  intros Hq Hr. unfold ingest. destruct (query_name_returns query Hq) as [[q|] ->];
    rewrite bind_Val_l; [|by eexists].
  destruct (observe_response_returns q response Hr) as [o ->]. rewrite bind_Val_l. by eexists.
Qed.

(** ** What an observation rests on *)

(** [name] is the queried name or an alias of it by the CNAME records of the answer. *)
Inductive alias (msg : list Z) (answers : list DnsRecord) (query : string) : string -> Prop :=
| alias_self : alias msg answers query query
| alias_cname r target p :
    alias msg answers query (owner r) -> In r answers -> rtype r = TYPE_CNAME ->
    decode_name msg (rdata_off r) = Val (inr (target, p)) -> alias msg answers query target.

Lemma follow_cnames_alias fuel msg answers query chain cur res :
  Forall (alias msg answers query) chain -> alias msg answers query cur ->
  follow_cnames fuel msg answers chain cur = Val (Some res) ->
  Forall (alias msg answers query) res.
Proof.
  revert chain cur. induction fuel as [|fuel IH]; intros chain cur Hc Hcur H; [done|].
  cbn [follow_cnames] in H. destruct (List.find _ answers) as [r|] eqn:Ef; [|by injection H as <-].
  apply find_some in Ef as [Hr Ht]. apply andb_true_iff in Ht as [Ht Ho].
  apply String.eqb_eq in Ho. subst cur.
  apply bind_Val in H as (d & Ed & H). destruct d as [e|[target p]]; [done|].
  destruct (_ || _); [by injection H as <-|].
  assert (Ha : alias msg answers query target).
  { apply (alias_cname _ _ _ r target p); [done..|lia|done]. }
  apply (IH _ _) in H; [done| |done]. apply Forall_app. split; [done|by constructor].
Qed.

Lemma collect_sound msg chain answers ips t res t' :
  collect msg chain answers ips t = Some (res, t') ->
  t' <= t /\
  forall ip, In ip res -> In ip ips \/
    exists r, In r answers /\ wanted chain r = true /\ record_address msg r = Some (Some ip) /\
      t' <= ttl r.
Proof.
  revert ips t. induction answers as [|r answers IH]; intros ips t H; cbn [collect] in H.
  { injection H as <- <-. split; [lia|]. by left. }
  destruct (wanted chain r) eqn:Hw; cbn [negb] in H.
  - destruct (record_address msg r) as [[ip|]|] eqn:Er; [| |done].
    + destruct (IH _ _ H) as [Ht Hin]. split; [lia|]. intros ip' Hip.
      destruct (Hin ip' Hip) as [[Hi|[<-|[]]]%in_app_iff|(r' & Hr' & H')].
      * by left.
      * right. exists r. repeat split; [by left|done|done|lia].
      * right. exists r'. split; [by right|done].
    + destruct (IH _ _ H) as [Ht Hin]. split; [done|]. intros ip' Hip.
      destruct (Hin ip' Hip) as [Hi|(r' & Hr' & H')]; [by left|]. right. exists r'.
      split; [by right|done].
  - destruct (IH _ _ H) as [Ht Hin]. split; [done|]. intros ip' Hip.
    destruct (Hin ip' Hip) as [Hi|(r' & Hr' & H')]; [by left|]. right. exists r'.
    split; [by right|done].
Qed.

Lemma clamp_range v : MIN_TTL_SECS <= clamp v MIN_TTL_SECS MAX_TTL_SECS <= MAX_TTL_SECS.
Proof. unfold clamp, MIN_TTL_SECS, MAX_TTL_SECS. repeat case_match; lia. Qed.

(** An observation is backed by the response: it is drawn only from an untruncated
    [NOERROR] response, for the normalized queried name, with a lifetime between one minute
    and one hour, and every address in it is the data of an A or AAAA record of the answer
    section whose owner is the queried name or an alias of it by the CNAME records, and
    does not outlive that record beyond the one-minute floor. *)
Theorem observation_sound query response obs :
  observe_response query response = Val (Some obs) ->
  (exists hdr, parse_header response = Val (Some hdr) /\ qr hdr = true /\ tc hdr = false /\
     rcode hdr = 0) /\
  normalize_domain query = Some (ob_domain obs) /\ ob_ips obs <> [] /\
  MIN_TTL_SECS <= ob_ttl obs <= MAX_TTL_SECS /\
  exists answers, parse_answers response = Val (inr answers) /\
    forall ip, In ip (ob_ips obs) -> exists r, In r answers /\
      alias response answers (ob_domain obs) (owner r) /\
      record_address response r = Some (Some ip) /\ ob_ttl obs <= Z.max MIN_TTL_SECS (ttl r).
Proof.
  unfold observe_response. intros H. apply bind_Val in H as (h & Eh & H).
  destruct h as [hdr|]; [|done]. destruct (_ || _) eqn:Ehdr; [done|].
  apply orb_false_iff in Ehdr as [[Hq Ht]%orb_false_iff Hr].
  destruct (normalize_domain query) as [qname|]; [|done].
  apply bind_Val in H as (a & Ea & H). destruct a as [e|answers]; [done|].
  apply bind_Val in H as (c & Ec & H). injection H as H. destruct c as [chain|]; [|done].
  destruct (collect response chain answers [] u32_max) as [[ips t]|] eqn:Eco; [|done].
  destruct ips as [|ip0 ips]; [done|]. injection H as <-. cbn [ob_domain ob_ips ob_ttl].
  split. { exists hdr. repeat split; [done|by apply negb_false_iff|done|lia]. }
  split; [done|]. split; [done|]. split; [apply clamp_range|].
  exists answers. split; [done|]. intros ip Hip.
  apply follow_cnames_alias with (query := qname) in Ec; [|repeat constructor|constructor].
  apply collect_sound in Eco as [_ Hin].
  destruct (Hin ip Hip) as [[]|(r & Hr' & Hw & Hrec & Hle)]. exists r.
  split; [done|]. split; [|split; [done|]].
  - unfold wanted in Hw. apply andb_true_iff in Hw as [_ Hw].
    apply existsb_exists in Hw as (n & Hn & En). apply String.eqb_eq in En as ->.
    by apply (proj1 (List.Forall_forall _ _) Ec).
  - unfold clamp, MIN_TTL_SECS, MAX_TTL_SECS in *. repeat case_match; lia.
Qed.

(** ** Reading back what a resolver writes

    A response with one question and address records for it, the owner names compressed to a
    pointer to the question. *)

Definition encode_label (l : string) : list Z := Z.of_nat (String.length l) :: bytes_of_string l.
Definition encode_name (labels : list string) : list Z := List.concat (map encode_label labels) ++ [0].

Fixpoint to_be_bytes (n : nat) (a : Z) : list Z :=
  match n with O => [] | S n => to_be_bytes n (a / 256) ++ [a mod 256] end.

Definition address_type (ip : IpAddr) : Z := match ip with V4 _ => TYPE_A | V6 _ => TYPE_AAAA end.
Definition address_bytes (ip : IpAddr) : list Z :=
  match ip with V4 a => to_be_bytes 4 a | V6 a => to_be_bytes 16 a end.

Definition encode_record (rec : IpAddr * Z) : list Z :=
  [0xC0; 12] ++ to_be16 (address_type rec.1) ++ [0; 1] ++ to_be32 rec.2 ++
  to_be16 (len (address_bytes rec.1)) ++ address_bytes rec.1.

Definition encode_header (records : Z) : list Z :=
  [0; 0; 0x81; 0x80; 0; 1] ++ to_be16 records ++ [0; 0; 0; 0].

Definition encode_response (labels : list string) (recs : list (IpAddr * Z)) : list Z :=
  encode_header (len recs) ++ encode_name labels ++ [0; 1; 0; 1] ++ List.concat (map encode_record recs).

Definition label_byte (c : ascii) : bool :=
  is_host_byte c && negb (Ascii.eqb c ".") && Ascii.eqb (lower_ascii c) c.

Definition host_label (l : string) : Prop :=
  1 <= Z.of_nat (String.length l) <= 63 /\ forall_bytes label_byte l = true.

Definition wire_len (labels : list string) : Z :=
  fold_right (fun l n => 1 + Z.of_nat (String.length l) + n) 0 labels.

Definition host_name (labels : list string) : Prop :=
  labels <> [] /\ Forall host_label labels /\ wire_len labels <= MAX_NAME_LEN.

Definition address_ok (rec : IpAddr * Z) : Prop :=
  match rec.1 with V4 a => 0 <= a < 2 ^ 32 | V6 a => 0 <= a < 2 ^ 128 end /\ 0 <= rec.2 <= u32_max.

(** *** Names *)

Lemma len_bytes s : len (bytes_of_string s) = Z.of_nat (String.length s).
Proof.
  unfold len. f_equal. induction s as [|c s IH]; [done|]. cbn. by rewrite IH.
Qed.

Lemma len_encode_label l : len (encode_label l) = 1 + Z.of_nat (String.length l).
Proof. unfold encode_label. by rewrite len_cons, len_bytes. Qed.

Lemma get_app_here pre x post : get (pre ++ x :: post) (len pre) = Some x.
Proof.
  unfold get. replace (0 <=? len pre) with true by (pose proof (len_nonneg pre); lia).
  unfold len. rewrite Nat2Z.id. by rewrite list_lookup_middle.
Qed.

Lemma small_length_byte n : 1 <= n <= 63 -> Z.land n 0xC0 <> 0xC0.
Proof.
  intros H. pose proof (Z.land_ones n 6 ltac:(lia)) as Ho.
  rewrite Z.mod_small in Ho by lia. intros E.
  assert (Z.land (Z.land n (Z.ones 6)) 0xC0 = 0xC0) as E2 by (by rewrite Ho).
  rewrite <- Z.land_assoc in E2. cbn in E2. rewrite Z.land_0_r in E2. discriminate.
Qed.

Definition append_label (out l : string) : string :=
  (if is_empty_str out then out else out +:+ ".") +:+ l.

Lemma encode_name_cons l labels : encode_name (l :: labels) = encode_label l ++ encode_name labels.
Proof. unfold encode_name. cbn [map List.concat]. by rewrite <- app_assoc. Qed.

Lemma wire_len_nonneg labels : 0 <= wire_len labels.
Proof. unfold wire_len. induction labels; cbn [fold_right]; lia. Qed.

Lemma decode_labels labels fuel pre post out after jumps visited total :
  Forall host_label labels -> 0 <= total -> total + wire_len labels <= MAX_NAME_LEN ->
  (length labels < fuel)%nat ->
  decode_loop fuel (pre ++ encode_name labels ++ post) out (len pre) after jumps visited total =
    Val (inr (fold_left append_label labels out,
              Some (default (len pre + len (encode_name labels)) after))).
Proof.
  intros Hl. revert fuel pre out total.
  induction Hl as [|l labels [Hlen Hb] _ IH]; intros fuel pre out total Ht Hw Hf;
    (destruct fuel as [|fuel]; [cbn in Hf; lia|]); cbn [decode_loop].
  - change (encode_name [] ++ post) with (0 :: post). by rewrite get_app_here.
  - assert (Em : pre ++ encode_name (l :: labels) ++ post =
      pre ++ Z.of_nat (String.length l) :: bytes_of_string l ++ encode_name labels ++ post).
    { by rewrite encode_name_cons, <- app_assoc. }
    rewrite Em, get_app_here. set (n := Z.of_nat (String.length l)) in *.
    replace (n =? 0) with false by lia.
    pose proof (small_length_byte n Hlen) as Hc. replace (Z.land n 0xC0 =? 0xC0) with false by lia.
    replace (n <=? 63) with true by lia.
    cbn [wire_len fold_right] in Hw. fold (wire_len labels) in Hw. fold n in Hw.
    assert (Hwl : 0 <= wire_len labels) by apply wire_len_nonneg.
    assert (Em2 : pre ++ n :: bytes_of_string l ++ encode_name labels ++ post =
      (pre ++ [n]) ++ bytes_of_string l ++ encode_name labels ++ post) by (by rewrite <- app_assoc).
    assert (Hlp : len (pre ++ [n]) = len pre + 1) by (rewrite len_app, len_cons, len_nil; lia).
    rewrite Em2. pose proof (slice_mid (pre ++ [n]) (bytes_of_string l) (encode_name labels ++ post) _ _ eq_refl eq_refl) as Hs.
    rewrite Hlp, len_bytes in Hs. fold n in Hs. rewrite Hs, bind_Val_l.
    replace (len _ <? len pre + 1 + n) with false.
    2: { symmetry. apply Z.ltb_ge. rewrite !len_app, len_bytes, len_cons, len_nil. fold n.
         pose proof (len_nonneg (encode_name labels)). pose proof (len_nonneg post). lia. }
    rewrite string_of_bytes_of_string.
    replace (MAX_NAME_LEN <? total + (1 + n)) with false by lia.
    rewrite app_assoc. replace (len pre + 1 + n) with (len ((pre ++ [n]) ++ bytes_of_string l))
      by (rewrite len_app, len_bytes, Hlp; fold n; lia).
    rewrite IH by (cbn in Hf; lia). cbn [fold_left]. do 3 f_equal. destruct after; [done|].
    cbn [default from_option id]. rewrite encode_name_cons, !len_app, len_encode_label, len_bytes, len_cons, len_nil.
    fold n. f_equal. lia.
Qed.

Lemma label_nonempty l : 1 <= Z.of_nat (String.length l) <= 63 -> l <> EmptyString.
Proof. intros H ->. cbn in H. lia. Qed.

Lemma append_labels_join labels out :
  out <> EmptyString -> Forall host_label labels ->
  fold_left append_label labels out =
    match labels with [] => out | _ => out +:+ "." +:+ join_with "." labels end.
Proof.
  intros Ho Hl. revert out Ho. induction Hl as [|l labels [Hlen _] _ IH]; intros out Ho; [done|].
  cbn [fold_left]. unfold append_label at 2.
  replace (is_empty_str out) with false by (by destruct out).
  rewrite IH by (by destruct out). rewrite string_app_assoc. destruct labels; [done|].
  change (join_with "." (l :: s :: labels)) with (l +:+ "." +:+ join_with "." (s :: labels)).
  by rewrite !string_app_assoc.
Qed.

Lemma append_labels labels :
  Forall host_label labels -> fold_left append_label labels EmptyString = join_with "." labels.
Proof.
  intros H. destruct labels as [|l labels]; [done|]. inversion_clear H as [|? ? [Hlen _] Hl].
  cbn [fold_left]. change (append_label EmptyString l) with l.
  rewrite append_labels_join; [by destruct labels|by eapply label_nonempty|done].
Qed.

Lemma forall_bytes_app f s t : forall_bytes f (s +:+ t) = forall_bytes f s && forall_bytes f t.
Proof.
  induction s as [|c s IH]; [done|]. rewrite string_app_cons. cbn [forall_bytes].
  by rewrite IH, andb_assoc.
Qed.

Lemma forall_bytes_impl (f g : ascii -> bool) s :
  (forall c, f c = true -> g c = true) -> forall_bytes f s = true -> forall_bytes g s = true.
Proof.
  intros H. induction s as [|c s IH]; [done|]. cbn. intros [Hc Hs]%andb_true_iff.
  by rewrite (H c Hc), IH.
Qed.

Lemma label_byte_spec c :
  label_byte c = true -> is_host_byte c = true /\ Ascii.eqb c "." = false /\ lower_ascii c = c.
Proof.
  unfold label_byte. intros [[H1 H2]%andb_true_iff H3]%andb_true_iff.
  apply negb_true_iff in H2. by apply Ascii.eqb_eq in H3.
Qed.

Lemma label_no_dot l : forall_bytes label_byte l = true -> no_char "." l = true.
Proof.
  induction l as [|c l IH]; [done|]. cbn. intros [Hc Hl]%andb_true_iff.
  destruct (label_byte_spec c Hc) as (_ & -> & _). by rewrite IH.
Qed.

Lemma label_lower l : forall_bytes label_byte l = true -> to_ascii_lowercase l = l.
Proof.
  unfold to_ascii_lowercase. induction l as [|c l IH]; [done|]. cbn [forall_bytes string_map].
  intros [Hc Hl]%andb_true_iff. destruct (label_byte_spec c Hc) as (_ & _ & ->). by rewrite IH.
Qed.

Lemma trim_no_char c s : no_char c s = true -> trim_end_matches c s = s.
Proof.
  induction s as [|a s IH]; [done|]. cbn. intros [Ha Hs]%andb_true_iff. rewrite (IH Hs).
  apply negb_true_iff in Ha. rewrite Ha. by destruct s.
Qed.

Lemma trim_app_r c a s :
  trim_end_matches c s = s -> s <> EmptyString -> trim_end_matches c (a +:+ s) = a +:+ s.
Proof.
  intros H Hs. induction a as [|x a IH]; [done|]. rewrite string_app_cons. cbn [trim_end_matches].
  rewrite IH. destruct (a +:+ s) eqn:E; [|done]. by destruct a, s.
Qed.

Lemma split_on_app x w s :
  no_char x w = true -> split_on x (w +:+ String x s) = w :: split_on x s.
Proof.
  induction w as [|c w IH]; intros H.
  - change (EmptyString +:+ String x s) with (String x s). cbn [split_on]. by rewrite Ascii.eqb_refl.
  - cbn in H. apply andb_true_iff in H as [Hc Hw]. apply negb_true_iff in Hc.
    rewrite string_app_cons. cbn [split_on]. by rewrite Hc, (IH Hw).
Qed.

Lemma split_on_none x w : no_char x w = true -> split_on x w = [w].
Proof.
  induction w as [|c w IH]; intros H; [done|]. cbn in *. apply andb_true_iff in H as [Hc Hw].
  apply negb_true_iff in Hc. by rewrite Hc, (IH Hw).
Qed.

(** The facts about the text of a host name that normalization checks. *)
Lemma join_labels labels :
  labels <> [] -> Forall host_label labels ->
  let s := join_with "." labels in
  s <> EmptyString /\ trim_end_matches "." s = s /\ to_ascii_lowercase s = s /\
  1 + Z.of_nat (String.length s) = wire_len labels /\ forall_bytes is_host_byte s = true /\
  split_on "." s = labels.
Proof.
  intros Hne H. induction H as [|l labels [Hlen Hb] Hl IH]; [done|]. clear Hne.
  pose proof (label_nonempty l Hlen) as Hl0.
  pose proof (label_no_dot l Hb) as Hd. pose proof (label_lower l Hb) as Hlow.
  assert (Hh : forall_bytes is_host_byte l = true)
    by (revert Hb; apply forall_bytes_impl; intros c Hc; by apply label_byte_spec).
  destruct labels as [|l' labels].
  { cbn [join_with]. split; [done|]. split; [by apply trim_no_char|]. split; [done|].
    split; [cbn [wire_len fold_right]; lia|]. split; [done|]. by apply split_on_none. }
  destruct (IH ltac:(done)) as (H1 & H2 & H3 & H4 & H5 & H6). clear IH.
  change (join_with "." (l :: l' :: labels)) with (l +:+ "." +:+ join_with "." (l' :: labels)).
  set (s := join_with "." (l' :: labels)) in *. clearbody s. cbv zeta.
  change ("." +:+ s) with (String "." s). split; [by destruct l|].
  assert (Ha : forall t, l +:+ String "." t = (l +:+ ".") +:+ t)
    by (intros t; by rewrite string_app_assoc).
  split. { rewrite Ha. by apply trim_app_r. }
  split.
  { unfold to_ascii_lowercase in *. rewrite string_map_app, Hlow. cbn [string_map].
    by rewrite H3. }
  split. { rewrite string_length_app. cbn [String.length wire_len fold_right] in *.
           change (fold_right _ 0 labels) with (wire_len labels) in *. lia. }
  split; [rewrite forall_bytes_app, Hh; cbn [forall_bytes]; by rewrite H5|].
  by rewrite split_on_app, H6.
Qed.

Lemma normalize_host_name labels :
  host_name labels -> normalize_domain (join_with "." labels) = Some (join_with "." labels).
Proof.
  intros (Hne & Hl & Hw). destruct (join_labels labels Hne Hl) as (H1 & H2 & H3 & H4 & H5 & H6).
  unfold normalize_domain. rewrite H2, H3, H5, H6. cbn [negb].
  replace (is_empty_str (join_with "." labels)) with false by (by destruct (join_with "." labels)).
  replace (MAX_NAME_LEN <? _) with false by lia. cbn [orb].
  replace (existsb is_empty_str labels) with false; [done|]. symmetry. clear -Hl.
  induction Hl as [|l labels [Hlen _] _ IH]; [done|]. cbn. rewrite IH.
  pose proof (label_nonempty l Hlen). by destruct l.
Qed.

Lemma labels_fuel labels : Forall host_label labels -> 2 * Z.of_nat (length labels) <= wire_len labels.
Proof.
  induction 1 as [|l labels [Hlen _] _ IH]; [done|]. cbn [length wire_len fold_right].
  fold (wire_len labels). lia.
Qed.

(** *** Records *)

Lemma from_be_bytes_snoc l x : from_be_bytes (l ++ [x]) = from_be_bytes l * 256 + x.
Proof. unfold from_be_bytes. by rewrite fold_left_app. Qed.

Lemma from_to_be_bytes n a : 0 <= a < 256 ^ Z.of_nat n -> from_be_bytes (to_be_bytes n a) = a.
Proof.
  revert a. induction n as [|n IH]; intros a Ha; [cbn in *; lia|].
  cbn [to_be_bytes]. rewrite Nat2Z.inj_succ, Z.pow_succ_r in Ha by lia.
  rewrite from_be_bytes_snoc, IH; [pose proof (Z.div_mod a 256); lia|].
  split; [apply Z.div_pos; lia|]. apply Z.div_lt_upper_bound; lia.
Qed.

Lemma len_to_be_bytes n a : len (to_be_bytes n a) = Z.of_nat n.
Proof.
  revert a. induction n as [|n IH]; intros a; [done|]. cbn [to_be_bytes].
  rewrite len_app, IH, len_cons, len_nil. lia.
Qed.

Lemma len_address ip : len (address_bytes ip) = match ip with V4 _ => 4 | V6 _ => 16 end.
Proof. destruct ip; apply len_to_be_bytes. Qed.

Section Encoded.
Context (labels : list string) (Hname : host_name labels).
#[local] Abbreviation name := (join_with "." labels).

(** A pointer to the question, anywhere in the message. *)
Lemma decode_loop_pointer fuel msg pos :
  get msg pos = Some 0xC0 -> get msg (pos + 1) = Some 12 -> 12 < len msg ->
  decode_loop (S fuel) msg EmptyString pos None 0 [] 0 =
    decode_loop fuel msg EmptyString 12 (Some (pos + 2)) 1 [12] 0.
Proof.
  intros H1 H2 H3. cbn [decode_loop]. rewrite H1, H2.
  change (Z.lor (Z.shiftl (Z.land 0xC0 0x3F) 8) 12) with 12.
  by replace (len msg <=? 12) with false by lia.
Qed.

Context (msg header post : list Z) (Hmsg : msg = header ++ encode_name labels ++ post)
  (Hheader : len header = 12).

Lemma msg_long : 12 < len msg.
Proof.
  rewrite Hmsg, !len_app, Hheader. unfold encode_name. rewrite len_app, len_cons, len_nil.
  pose proof (len_nonneg (List.concat (map encode_label labels))). pose proof (len_nonneg post). lia.
Qed.

Lemma decode_at_question fuel after jumps visited :
  (128 <= fuel)%nat ->
  decode_loop fuel msg EmptyString 12 after jumps visited 0 =
    Val (inr (name, Some (default (12 + len (encode_name labels)) after))).
Proof.
  intros Hf. destruct Hname as (Hne & Hl & Hw). rewrite Hmsg, <- Hheader.
  rewrite decode_labels; [by rewrite append_labels|done|done|lia|].
  pose proof (labels_fuel labels Hl). unfold MAX_NAME_LEN in Hw. lia.
Qed.

Lemma decode_question : decode_name msg 12 = Val (inr (name, 12 + len (encode_name labels))).
Proof.
  unfold decode_name. rewrite decode_at_question by (unfold name_fuel; lia).
  rewrite bind_Val_l. by rewrite normalize_host_name.
Qed.

Lemma decode_owner A rest :
  msg = A ++ 0xC0 :: 12 :: rest -> decode_name msg (len A) = Val (inr (name, len A + 2)).
Proof.
  intros Em. unfold decode_name. change name_fuel with (S 399).
  rewrite decode_loop_pointer.
  - rewrite decode_at_question by lia. rewrite bind_Val_l. by rewrite normalize_host_name.
  - rewrite Em. apply get_app_here.
  - rewrite Em. assert (El : len A + 1 = len (A ++ [0xC0])) by (rewrite len_app, len_cons, len_nil; lia).
    rewrite El. change (A ++ 0xC0 :: 12 :: rest) with (A ++ [0xC0] ++ 12 :: rest).
    rewrite app_assoc. apply get_app_here.
  - apply msg_long.
Qed.
End Encoded.

Lemma byte_at_off (A l : list Z) i : 0 <= i < len l -> byte_at (A ++ l) (len A + i) = byte_at l i.
Proof.
  intros Hi. rewrite byte_at_app_r by lia. f_equal. lia.
Qed.

Lemma parse_record_encoded A t tl rdata rest owner_name :
  0 <= t < 65536 -> 0 <= tl < 2 ^ 32 -> len rdata < 65536 ->
  parse_record (A ++ to_be16 t ++ [0; 1] ++ to_be32 tl ++ to_be16 (len rdata) ++ rdata ++ rest)
    owner_name (len A) =
  Val (inr (mkRecord owner_name t tl (len A + 10) (len rdata), len A + 10 + len rdata)).
Proof.
  intros Ht Htl Hr. set (l := to_be16 t ++ _). pose proof (len_nonneg rdata). pose proof (len_nonneg rest).
  assert (Hlen : len l = 10 + len rdata + len rest).
  { unfold l. rewrite !len_app, !len_to_be16, len_to_be32. change (len [0; 1]) with 2. lia. }
  unfold parse_record. rewrite len_app, Hlen.
  replace (_ <? len A + 10) with false by lia.
  assert (Hi : forall i, 0 <= i < 10 -> idx (A ++ l) (len A + i) = Val (byte_at l i)).
  { intros i Hi. pose proof (len_nonneg A). rewrite idx_byte_at by (rewrite len_app; lia).
    by rewrite byte_at_off by lia. }
  pose proof (Hi 0 ltac:(lia)) as Hi0. rewrite Z.add_0_r in Hi0. rewrite Hi0, !Hi by lia.
  rewrite !bind_Val_l. cbv zeta.
  assert (Hd : from_be16 (byte_at l 8) (byte_at l 9) = len rdata).
  { transitivity (from_be16 (u8 (len rdata / 256)) (u8 (len rdata))); [reflexivity|].
    apply from_to_be16. lia. }
  assert (Hty : from_be16 (byte_at l 0) (byte_at l 1) = t).
  { transitivity (from_be16 (u8 (t / 256)) (u8 t)); [reflexivity|]. by apply from_to_be16. }
  assert (Htt : from_be32 (byte_at l 4) (byte_at l 5) (byte_at l 6) (byte_at l 7) = tl).
  { etransitivity; [|exact (from_to_be32 tl Htl)]. reflexivity. }
  rewrite Hd, Hty, Htt. by replace (_ <? len A + 10 + len rdata) with false by lia.
Qed.

(** The record read back for an address. *)
Definition record_of (msg : list Z) (name : string) (rec : IpAddr * Z) (r : DnsRecord) : Prop :=
  owner r = name /\ rtype r = address_type rec.1 /\ ttl r = rec.2 /\
  record_address msg r = Some (Some rec.1).

Lemma take_drop_mid (A m rest : list Z) :
  take (Z.to_nat (len m)) (drop (Z.to_nat (len A)) (A ++ m ++ rest)) = m.
Proof. unfold len. by rewrite !Nat2Z.id, drop_app_length, take_app_length. Qed.

Lemma record_address_encoded A ip rest name tl :
  match ip with V4 a => 0 <= a < 2 ^ 32 | V6 a => 0 <= a < 2 ^ 128 end ->
  record_address (A ++ address_bytes ip ++ rest)
    (mkRecord name (address_type ip) tl (len A) (len (address_bytes ip))) = Some (Some ip).
Proof.
  intros Hip. unfold record_address. cbn [rdata_off rdata_len rtype].
  pose proof (len_nonneg A). pose proof (len_nonneg rest). pose proof (len_nonneg (address_bytes ip)).
  replace (0 <=? len A) with true by lia.
  replace (_ <=? len (A ++ _)) with true by (symmetry; rewrite !len_app; apply Z.leb_le; lia).
  rewrite take_drop_mid, len_address. cbn [andb].
  destruct ip as [a|a]; cbn [address_type address_bytes]; cbn [Z.eqb Pos.eqb andb];
    by rewrite from_to_be_bytes.
Qed.

Lemma read_records_encoded labels recs msg header post A out :
  host_name labels -> msg = header ++ encode_name labels ++ post -> len header = 12 ->
  Forall address_ok recs -> len out + len recs <= MAX_ANSWERS ->
  msg = A ++ List.concat (map encode_record recs) ->
  exists rs, read_records (length recs) msg (len A) out = Val (inr (out ++ rs)) /\
    Forall2 (record_of msg (join_with "." labels)) recs rs.
Proof.
  intros Hn Hm Hh Hr. revert A out.
  induction Hr as [|[ip tl] recs [Hip Htl] _ IH]; intros A out Hlen HA; cbn [length read_records].
  { exists []. rewrite app_nil_r. by split. }
  cbn [fst snd] in *. rewrite len_cons in Hlen. pose proof (len_nonneg recs).
  replace (MAX_ANSWERS <=? len out) with false by lia.
  set (rest := List.concat (map encode_record recs)) in *.
  assert (E1 : msg = A ++ 0xC0 :: 12 :: (to_be16 (address_type ip) ++ [0; 1] ++ to_be32 tl ++
      to_be16 (len (address_bytes ip)) ++ address_bytes ip ++ rest)).
  { rewrite HA. cbn [map List.concat]. unfold encode_record at 1. cbn [fst snd].
    rewrite <- !app_assoc. reflexivity. }
  rewrite (decode_owner labels Hn msg header post Hm Hh A _ E1), bind_Val_l.
  assert (El : len A + 2 = len (A ++ [0xC0; 12])) by (rewrite len_app, !len_cons, len_nil; lia).
  assert (Et : 0 <= address_type ip < 65536) by (destruct ip; unfold address_type, TYPE_A, TYPE_AAAA; lia).
  assert (Ea : len (address_bytes ip) < 65536) by (rewrite len_address; destruct ip; lia).
  pose proof (parse_record_encoded (A ++ [0xC0; 12]) (address_type ip) tl (address_bytes ip) rest
    (join_with "." labels) Et ltac:(unfold u32_max in Htl; lia) Ea) as Hp.
  replace ((A ++ [0xC0; 12]) ++ _) with msg in Hp by (rewrite E1; by rewrite <- app_assoc).
  rewrite <- El in Hp. rewrite Hp, bind_Val_l.
  set (A' := A ++ [0xC0; 12] ++ to_be16 (address_type ip) ++ [0; 1] ++ to_be32 tl ++
    to_be16 (len (address_bytes ip))).
  assert (E2 : msg = A' ++ address_bytes ip ++ rest).
  { rewrite E1. unfold A'. by rewrite <- !app_assoc. }
  assert (El2 : len A + 2 + 10 = len A').
  { unfold A'. rewrite !len_app, !len_to_be16, len_to_be32.
    change (len [0xC0; 12]) with 2. change (len [0; 1]) with 2. lia. }
  destruct (IH (A' ++ address_bytes ip)
    (out ++ [mkRecord (join_with "." labels) (address_type ip) tl (len A + 2 + 10)
       (len (address_bytes ip))])) as (rs & Hrs & Hf).
  { rewrite len_app, len_cons, len_nil. lia. }
  { by rewrite <- app_assoc. }
  rewrite len_app, <- El2 in Hrs. rewrite Hrs. eexists. rewrite <- app_assoc. split; [reflexivity|].
  constructor; [|done]. repeat split. cbn [fst]. rewrite E2, El2. by apply record_address_encoded.
Qed.

Lemma collect_encoded msg name recs rs ips t :
  Forall2 (record_of msg name) recs rs ->
  collect msg [name] rs ips t =
    Some (ips ++ map fst recs, fold_left (fun m rec => Z.min m rec.2) recs t).
Proof.
  intros H. revert ips t. induction H as [|rec r recs rs (Ho & Ht & Hl & Ha) _ IH]; intros ips t.
  { cbn. by rewrite app_nil_r. }
  cbn [collect map fold_left]. unfold wanted. rewrite Ho. cbn [existsb]. rewrite String.eqb_refl.
  replace ((rtype r =? TYPE_A) || (rtype r =? TYPE_AAAA)) with true
    by (rewrite Ht; by destruct rec as [[] ?]).
  cbn [orb andb negb]. rewrite Ha, IH, Hl, <- app_assoc. done.
Qed.

Lemma no_cname_encoded msg name recs rs cur :
  Forall2 (record_of msg name) recs rs ->
  List.find (fun r => (rtype r =? TYPE_CNAME) && String.eqb (owner r) cur) rs = None.
Proof.
  induction 1 as [|rec r recs rs (_ & Ht & _) _ IH]; [done|]. cbn [List.find].
  replace (rtype r =? TYPE_CNAME) with false; [exact IH|]. rewrite Ht. by destruct rec as [[] ?].
Qed.

Lemma parse_header_encoded n rest :
  0 <= n < 65536 -> parse_header (encode_header n ++ rest) = Val (Some (mkHeader true false 0 1 n)).
Proof.
  intros Hn. unfold parse_header.
  assert (Hl : len (encode_header n ++ rest) = 12 + len rest) by (rewrite len_app; reflexivity).
  pose proof (len_nonneg rest). unfold HEADER_LEN. replace (_ <? 12) with false by lia.
  rewrite !idx_byte_at by lia. rewrite !bind_Val_l.
  change (byte_at (encode_header n ++ rest) 6) with (u8 (n / 256)).
  change (byte_at (encode_header n ++ rest) 7) with (u8 n).
  rewrite from_to_be16 by done. reflexivity.
Qed.

(** C24.  Observing round-trips: a response to a question for a host name, with up to 2048
    address records for it compressed to pointers to the question, is observed as exactly
    those addresses in order, for the least of their lifetimes clamped to the range. *)
Theorem observe_encoded labels recs :
  host_name labels -> recs <> [] -> len recs <= MAX_ANSWERS -> Forall address_ok recs ->
  observe_response (join_with "." labels) (encode_response labels recs) =
    Val (Some (mkObservation (join_with "." labels) (map fst recs)
      (clamp (fold_left (fun m rec => Z.min m rec.2) recs u32_max) MIN_TTL_SECS MAX_TTL_SECS))).
Proof.
  intros Hn Hne Hlen Hr. pose proof (len_nonneg recs).
  assert (Hn16 : 0 <= len recs < 65536) by (unfold MAX_ANSWERS in Hlen; lia).
  unfold observe_response, parse_answers. set (msg := encode_response labels recs).
  assert (Hh : parse_header msg = Val (Some (mkHeader true false 0 1 (len recs))))
    by (by apply parse_header_encoded).
  rewrite Hh, !bind_Val_l. cbn [qr tc rcode qdcount ancount negb orb Z.eqb].
  rewrite (normalize_host_name labels Hn).
  set (post := [0; 1; 0; 1] ++ List.concat (map encode_record recs)).
  assert (Hm : msg = encode_header (len recs) ++ encode_name labels ++ post) by reflexivity.
  assert (Hskip : skip_questions (Z.to_nat 1) msg HEADER_LEN =
    Val (inr (12 + len (encode_name labels) + 4))).
  { change (Z.to_nat 1) with 1%nat. change HEADER_LEN with 12. cbn [skip_questions].
    rewrite (decode_question labels Hn msg _ post Hm eq_refl), bind_Val_l.
    replace (len msg <? _) with false; [done|]. symmetry. apply Z.ltb_ge.
    rewrite Hm, !len_app. unfold post. rewrite len_app.
    pose proof (len_nonneg (List.concat (map encode_record recs))).
    change (len (encode_header (len recs))) with 12. change (len [0; 1; 0; 1]) with 4. lia. }
  rewrite Hskip, bind_Val_l. replace (Z.to_nat (len recs)) with (length recs) by (unfold len; lia).
  set (A := encode_header (len recs) ++ encode_name labels ++ [0; 1; 0; 1]).
  assert (HA : msg = A ++ List.concat (map encode_record recs)).
  { rewrite Hm. unfold A, post. by rewrite <- !app_assoc. }
  assert (El : 12 + len (encode_name labels) + 4 = len A).
  { unfold A. rewrite !len_app. change (len (encode_header (len recs))) with 12.
    change (len [0; 1; 0; 1]) with 4. lia. }
  destruct (read_records_encoded labels recs msg _ post A [] Hn Hm eq_refl Hr ltac:(rewrite len_nil; lia) HA)
    as (rs & Hrs & Hf).
  rewrite El, Hrs. cbn [app]. rewrite bind_Val_l. cbn [follow_cnames chain_fuel].
  rewrite (no_cname_encoded _ _ _ _ _ Hf), bind_Val_l.
  rewrite (collect_encoded _ _ _ _ [] u32_max Hf). cbn [app].
  destruct recs as [|rec recs]; [done|reflexivity].
Qed.

(** ** Vectors *)

Definition example_labels : list string := ["ads"; "example"]%string.
Definition example_records : list (IpAddr * Z) :=
  [(V4 0xcb007105, 300); (V6 0x20010db8000000000000000000000001, 30)].

Lemma example_host : host_name example_labels.
Proof. split; [done|]. split; [|vm_compute; discriminate]. repeat constructor; vm_compute; done. Qed.

Lemma observe_encoded_witness :
  observe_response "ads.example" (encode_response example_labels example_records) =
    Val (Some (mkObservation "ads.example"
      [V4 0xcb007105; V6 0x20010db8000000000000000000000001] 60)).
Proof.
  refine (observe_encoded example_labels example_records example_host _ _ _).
  - discriminate.
  - vm_compute. discriminate.
  - repeat constructor; vm_compute; done.
Defined.

Lemma observe_response_total_witness :
  returns (observe_response "ads.example" [0; 0; 0x81; 0x80; 0; 1; 0; 0; 0; 0; 0; 0; 0xC0; 12]).
Proof.
  apply (observe_response_total "ads.example"). repeat constructor; vm_compute; done.
Defined.

Lemma observation_sound_witness :
  exists answers, parse_answers (encode_response example_labels example_records) = Val (inr answers) /\
    exists r, In r answers /\ alias (encode_response example_labels example_records) answers
      "ads.example" (owner r) /\
      record_address (encode_response example_labels example_records) r = Some (Some (V4 0xcb007105)).
Proof.
  destruct (observation_sound "ads.example" (encode_response example_labels example_records)
    (mkObservation "ads.example" [V4 0xcb007105; V6 0x20010db8000000000000000000000001] 60))
    as (_ & _ & _ & _ & answers & Ha & Hip).
  - vm_compute. reflexivity.
  - exists answers. split; [exact Ha|].
    destruct (Hip (V4 0xcb007105)) as (r & H1 & H2 & H3 & _); [by left|]. by exists r.
Defined.
