(* ===== verification/DnsForwarder.v ===== *)
(** * The DNS forwarder (balansir-daemon/src/dns.rs)

    The SOCKS5 UDP framing, the response cache, the block and allow lists, and one turn of
    the forwarding loop.  The network is an environment: what an upstream answers to a
    query, what the relay sends back for a datagram, whether a relay could be established.
    A turn returns the reply to the client and the upstreams that were contacted.

    Buffers are byte lists; an index or a slice out of range panics. *)

From stdpp Require Import pretty.
From S2P Require Import Prelude Types IpText Errors Plan Control Reconciler DnsFlow DnsPlane.

Record SocketAddr := mkSocketAddr { sa_ip : IpAddr; sa_port : Z }.

#[export] Instance SocketAddr_eq_dec : EqDecision SocketAddr.
Proof. solve_decision. Defined.

(** Clock readings are in nanoseconds. *)
Definition CACHE_TTL : Z := 30 * 1000000000.

(** ** SOCKS5 *)

Inductive io_error := InvalidData (msg : string).

(** [BND.ADDR] of the proxy's answer: ATYP, address, port. *)
Definition parse_socks5_addr (bytes : list Z) : exec (io_error + SocketAddr) :=
  match bytes with
  | [] => Val (inl (InvalidData "Empty address"))
  | atyp :: _ =>
      if atyp =? 1 then
        if len bytes <? 6 then Val (inl (InvalidData "Short IPv4"))
        else
          a ← slice bytes 1 5;
          p0 ← idx bytes 5; p1 ← idx bytes 6;
          Val (inr (mkSocketAddr (V4 (from_be_bytes a)) (from_be16 p0 p1)))
      else if atyp =? 4 then
        if len bytes <? 18 then Val (inl (InvalidData "Short IPv6"))
        else
          a ← slice bytes 1 17;
          p0 ← idx bytes 18; p1 ← idx bytes 19;
          Val (inr (mkSocketAddr (V6 (from_be_bytes a)) (from_be16 p0 p1)))
      else Val (inl (InvalidData "Unsupported ATYP"))
  end.

(** The answers of the proxy during [Socks5UdpRelay::connect]: the relay's address. *)
Definition socks5_connect (greeting answer : list Z) : exec (io_error + SocketAddr) :=
  g0 ← idx greeting 0; g1 ← idx greeting 1;
  if negb (g0 =? 5) || negb (g1 =? 0) then Val (inl (InvalidData "SOCKS5 handshake failed"))
  else
    a0 ← idx answer 0; a1 ← idx answer 1;
    if negb (a0 =? 5) || negb (a1 =? 0) then Val (inl (InvalidData "UDP ASSOCIATE failed"))
    else parse_socks5_addr (drop 3 answer).

(** [Socks5UdpRelay::send]: the datagram. *)
Definition socks5_packet (query : list Z) (upstream : SocketAddr) : list Z :=
  [0; 0; 0] ++
  match sa_ip upstream with
  | V4 a => [1] ++ to_be_bytes 4 a
  | V6 a => [4] ++ to_be_bytes 16 a
  end ++ to_be16 (sa_port upstream) ++ query.

(** [Socks5UdpRelay::recv] on a datagram of [n] bytes at the start of [buf]: the number of
    payload bytes and the buffer with the payload moved to its start. *)
Definition socks5_recv (buf : list Z) (n : Z) : exec (io_error + Z * list Z) :=
  if n <? 4 then Val (inl (InvalidData "Short SOCKS5 packet"))
  else
    b0 ← idx buf 0; b1 ← idx buf 1; b2 ← idx buf 2;
    if negb (b0 =? 0) || negb (b1 =? 0) || negb (b2 =? 0)
    then Val (inl (InvalidData "Invalid SOCKS5 UDP header (RSV/FRAG)"))
    else
      atyp ← idx buf 3;
      header_len ←
        (if atyp =? 1 then Val (Some 10)
         else if atyp =? 3 then addr_len ← idx buf 4; Val (Some (7 + addr_len))
         else if atyp =? 4 then Val (Some 22)
         else Val None);
      match header_len with
      | None => Val (inl (InvalidData "Unknown ATYP"))
      | Some h =>
          if n <? h then Val (inl (InvalidData "Invalid SOCKS5 UDP header"))
          else
            prefix ← slice buf 0 h;
            suffix ← slice buf h (len buf);
            payload ← slice suffix 0 (n - h);
            prefix ← copy_from_slice prefix 0 (n - h) payload;
            Val (inr (n - h, prefix ++ suffix))
      end.

(** ** The cache *)

Abbreviation DnsCache := (gmap (list Z) (list Z * Z)).

Definition cache_get (c : DnsCache) (query : list Z) (now : Z) : DnsCache * option (list Z) :=
  match c !! query with
  | Some (resp, exp) => if now <? exp then (c, Some resp) else (delete query c, None)
  | None => (c, None)
  end.

Definition cache_put (c : DnsCache) (query response : list Z) (cap now : Z) : DnsCache :=
  if cap =? 0 then c
  else
    let c :=
      if cap <=? Z.of_nat (size c) then
        let c := filter (fun e : list Z * (list Z * Z) => now < e.2.2) c in
        if cap <=? Z.of_nat (size c) then ∅ else c
      else c in
    <[query := (response, now + CACHE_TTL)]> c.

(** ** Filtering *)

Inductive DomainDecision := PassDomain | BlockDomain.

Record DnsFilterSets := mkFilter { f_block : gset string; f_allow : gset string }.

Fixpoint classify_labels (labels : list string) (f : DnsFilterSets) : DomainDecision :=
  match labels with
  | [] => PassDomain
  | _ :: rest =>
      let candidate := join_with "." labels in
      if decide (candidate ∈ f_allow f) then PassDomain
      else if decide (candidate ∈ f_block f) then BlockDomain
      else classify_labels rest f
  end.

Definition classify_domain (domain : string) (f : DnsFilterSets) : DomainDecision :=
  classify_labels (split_on "." (to_ascii_lowercase (trim_end_matches "." domain))) f.

(** The sets built from the configured lists when the driver starts. *)
Definition filter_set (l : list string) : gset string :=
  list_to_set (List.filter (fun d => negb (is_empty_str d))
    (map (fun d => to_ascii_lowercase (trim_end_matches "." d)) l)).

Definition set_if (i v : Z) (l : list Z) : list Z :=
  if i <? len l then <[Z.to_nat i := v]> l else l.

Definition nxdomain_response (query : list Z) : list Z :=
  let resp :=
    if 4 <=? len query then
      <[3%nat := Z.lor (Z.land (byte_at query 3) 0x07) 0x03]>
        (<[2%nat := Z.lor (Z.land (byte_at query 2) 0x78) 0x80]> query)
    else query in
  fold_left (fun r i => set_if i 0 r) [6; 7; 8; 9; 10; 11] resp.

(** ** One turn of the loop *)

Record DnsForwarderConfig := mkForwarder {
  fc_listen : SocketAddr;
  fc_upstreams : list SocketAddr;
  fc_doh : bool;
  fc_dot : bool;
  fc_cache_size : Z;
  fc_log_queries : bool;
  fc_blocklist : list string;
  fc_allowlist : list string;
  fc_socks5_proxy : option SocketAddr;
}.

Definition DnsForwarderConfig_default : DnsForwarderConfig :=
  mkForwarder (mkSocketAddr (V4 0x7F000001) 53)
    [mkSocketAddr (V4 0x01010101) 53; mkSocketAddr (V4 0x08080808) 53]
    false false 10000 false [] [] None.

(** [start]: the upstreams and sets the loop runs with. *)
Definition start_upstreams (c : DnsForwarderConfig) : list SocketAddr :=
  match fc_upstreams c with [] => [mkSocketAddr (V4 0x01010101) 53] | l => l end.
Definition start_filter (c : DnsForwarderConfig) : DnsFilterSets :=
  mkFilter (filter_set (fc_blocklist c)) (filter_set (fc_allowlist c)).

(** The network: the answer of an upstream to a query, the datagram the relay returns for
    one, and whether a relay to a proxy comes up. *)
Record network := mkNetwork {
  direct : SocketAddr -> list Z -> option (list Z);
  relayed : list Z -> option (list Z);
  relay_up : SocketAddr -> bool;
}.

(** A buffer of 4096 bytes after a datagram was received: its content and the length. *)
Definition receive (datagram : list Z) : list Z * Z :=
  let n := Z.min (len datagram) 4096 in
  (take (Z.to_nat n) datagram ++ replicate (Z.to_nat (4096 - n)) 0, n).

Definition forward_query (net : network) (query : list Z) (upstream : SocketAddr) (relay : bool) :
    exec (option (list Z)) :=
  if relay then
    match relayed net (socks5_packet query upstream) with
    | None => Val None
    | Some datagram =>
        let '(buf, n) := receive datagram in
        r ← socks5_recv buf n;
        match r with
        | inl _ => Val None
        | inr (n, buf) => resp ← slice buf 0 n; Val (Some resp)
        end
    end
  else
    match direct net upstream query with
    | None => Val None
    | Some datagram =>
        let '(buf, n) := receive datagram in resp ← slice buf 0 n; Val (Some resp)
    end.

(** The failover: upstreams from [offset] on, the ones contacted, and the first answer. *)
Fixpoint try_upstreams (net : network) (query : list Z) (relay : bool) (ups : list SocketAddr) :
    exec (list SocketAddr * option (list Z)) :=
  match ups with
  | [] => Val ([], None)
  | up :: ups =>
      r ← forward_query net query up relay;
      match r with
      | Some resp => Val ([up], Some resp)
      | None => '(tried, r) ← try_upstreams net query relay ups; Val (up :: tried, r)
      end
  end.

(** The order of one query: [upstreams[(round_robin + offset) % n]] for every offset. *)
Definition rotation (rr : Z) (ups : list SocketAddr) : exec (list SocketAddr) :=
  mapM (fun o => idx ups ((rr + o) mod len ups)) (seqZ 0 (len ups)).

Record forwarder := mkFw {
  fw_round_robin : Z;
  fw_cache : DnsCache;
  fw_relay : bool;
  fw_last_proxy : option SocketAddr;
  fw_registry : option DnsRegistry;
}.

Definition refresh_relay (net : network) (proxy : option SocketAddr) (s : forwarder) : forwarder :=
  if decide (proxy = fw_last_proxy s) then s
  else
    mkFw (fw_round_robin s) (fw_cache s)
      (match proxy with Some addr => relay_up net addr | None => false end) proxy (fw_registry s).

(** A query that is not in the cache. *)
Definition resolve_upstream (net : network) (ups : list SocketAddr) (cap now : Z) (query : list Z)
    (s : forwarder) : exec (forwarder * list SocketAddr * option (list Z)) :=
  order ← rotation (fw_round_robin s) ups;
  '(tried, response) ← try_upstreams net query (fw_relay s) order;
  let rr := Z.max (fw_round_robin s + 1) 1 mod len ups in
  match response with
  | None => Val (mkFw rr (fw_cache s) (fw_relay s) (fw_last_proxy s) (fw_registry s), tried, None)
  | Some r =>
      let cache := cache_put (fw_cache s) query r cap now in
      match fw_registry s with
      | None => Val (mkFw rr cache (fw_relay s) (fw_last_proxy s) None, tried, Some r)
      | Some registry =>
          '(registry, _) ← ingest registry query r now;
          Val (mkFw rr cache (fw_relay s) (fw_last_proxy s) (Some registry), tried, Some r)
      end
  end.

Definition forward_step (net : network) (ups : list SocketAddr) (cap : Z) (f : DnsFilterSets)
    (proxy : option SocketAddr) (now : Z) (query : list Z) (s : forwarder) :
    exec (forwarder * list SocketAddr * option (list Z)) :=
  match query with
  | [] => Val (s, [], None)
  | _ =>
      let s := refresh_relay net proxy s in
      name ← query_name query;
      match from_option (fun d => classify_domain d f) PassDomain name with
      | BlockDomain => Val (s, [], Some (nxdomain_response query))
      | PassDomain =>
          match cache_get (fw_cache s) query now with
          | (c, Some r) =>
              Val (mkFw (fw_round_robin s) c (fw_relay s) (fw_last_proxy s) (fw_registry s), [], Some r)
          | (c, None) =>
              resolve_upstream net ups cap now query
                (mkFw (fw_round_robin s) c (fw_relay s) (fw_last_proxy s) (fw_registry s))
          end
      end
  end.

(** ** The driver *)

(** The task of a running loop: what it was started with and its state, [None] once it ended. *)
Record loop_task := mkTask {
  task_upstreams : list SocketAddr;
  task_cap : Z;
  task_filter : DnsFilterSets;
  task_state : option forwarder;
}.

Record DnsForwarderDriver := mkDriver {
  dd_config : DnsForwarderConfig;
  dd_running : bool;
  dd_health : HealthStatus;
  dd_task : option loop_task;
  dd_local : option SocketAddr;
  dd_registry : option DnsRegistry;
  dd_vpn_proxy : option SocketAddr;
}.

Definition DnsForwarderDriver_new (c : DnsForwarderConfig) : DnsForwarderDriver :=
  mkDriver c false HsUnknown None None None None.

Definition attach_registry (r : DnsRegistry) (d : DnsForwarderDriver) : DnsForwarderDriver :=
  mkDriver (dd_config d) (dd_running d) (dd_health d) (dd_task d) (dd_local d) (Some r) (dd_vpn_proxy d).

Definition set_vpn_proxy (addr : option SocketAddr) (d : DnsForwarderDriver) : DnsForwarderDriver :=
  mkDriver (dd_config d) (dd_running d) (dd_health d) (dd_task d) (dd_local d) (dd_registry d) addr.

Definition loop_start (registry : option DnsRegistry) : forwarder := mkFw 0 ∅ false None registry.

Section Driver.
(** The text of a socket address and the listener's bind: the bound address, or the error. *)
Context (show_addr : SocketAddr -> string) (bind_udp : SocketAddr -> string + option SocketAddr).

Definition driver_start (d : DnsForwarderDriver) : DnsForwarderDriver * (DriverError + unit) :=
  if dd_running d then (d, inr tt)
  else
    let c := dd_config d in
    match bind_udp (fc_listen c) with
    | inl e => (d, inl (StartFailed ("Failed to bind DNS listener " +:+ show_addr (fc_listen c) +:+ ": " +:+ e)))
    | inr local =>
        (mkDriver c true HsHealthy
           (Some (mkTask (start_upstreams c) (fc_cache_size c) (start_filter c)
                    (Some (loop_start (dd_registry d)))))
           local (dd_registry d) (dd_vpn_proxy d), inr tt)
    end.

Definition driver_stop (d : DnsForwarderDriver) : DnsForwarderDriver * (DriverError + unit) :=
  (mkDriver (dd_config d) false HsUnknown None None (dd_registry d) (dd_vpn_proxy d), inr tt).

Definition driver_restart (d : DnsForwarderDriver) : DnsForwarderDriver * (DriverError + unit) :=
  match driver_stop d with
  | (d, inl e) => (d, inl e)
  | (d, inr _) => driver_start d
  end.

(** The check asks [ss] for the listener's port; [None] when it cannot be run. *)
Definition driver_health_check (ss : Z -> option output) (d : DnsForwarderDriver) : HealthStatus :=
  if negb (dd_running d) then HsUnhealthy 1
  else
    let ended := match dd_task d with Some t => match task_state t with None => true | _ => false end | None => false end in
    if ended then HsUnhealthy 2
    else
      let port := match dd_local d with Some a => sa_port a | None => sa_port (fc_listen (dd_config d)) end in
      match ss port with
      | Some out =>
          if out_success out && contains (out_stdout out) (pretty port) then HsHealthy else HsDegraded 1
      | None => HsDegraded 1
      end.
End Driver.

(** ** The rotation tries every upstream *)

Lemma mapM_Val {A B} (f : A -> exec B) (g : A -> B) l :
  (forall x, In x l -> f x = Val (g x)) -> mapM f l = Val (map g l).
Proof.
  induction l as [|x l IH]; intros H; [done|]. cbn [mapM]. rewrite (H x) by (by left).
  rewrite bind_Val_l, IH by (intros y Hy; apply H; by right). done.
Qed.

(** The order is the list itself, rotated by the counter. *)
Lemma rotation_spec rr ups :
  0 <= rr < len ups -> rotation rr ups = Val (drop (Z.to_nat rr) ups ++ take (Z.to_nat rr) ups).
Proof.
  intros Hr. destruct ups as [|u ups0] eqn:E0; [unfold len in Hr; cbn in Hr; lia|]. rewrite <- E0 in *.
  assert (Hd : forall i, (i < length ups)%nat -> ups !! i = Some (default u (ups !! i))).
  { intros i Hi. by destruct (lookup_lt_is_Some_2 ups i Hi) as [x ->]. }
  unfold rotation. rewrite (mapM_Val _ (fun o => default u (ups !! Z.to_nat ((rr + o) mod len ups)))).
  2: { intros o _. pose proof (Z.mod_pos_bound (rr + o) (len ups) ltac:(lia)) as Hm.
       unfold idx. replace (_ <? 0) with false by lia.
       rewrite (Hd (Z.to_nat _)) by (unfold len in *; lia). done. }
  f_equal. apply list_eq. intros i.
  destruct (decide (i < length ups)%nat) as [Hi|Hi].
  2: { rewrite !lookup_ge_None_2; [done|rewrite length_app, length_drop, length_take; lia|].
       rewrite length_map, length_seqZ. unfold len. lia. }
  change (map ?f ?l) with (f <$> l). rewrite list_lookup_fmap, lookup_seqZ_lt by (unfold len; lia).
  cbn [fmap option_fmap option_map]. unfold len in *.
  destruct (decide (i < length ups - Z.to_nat rr)%nat).
  - rewrite lookup_app_l by (rewrite length_drop; lia). rewrite lookup_drop.
    rewrite Z.mod_small by lia. rewrite (Hd (_ + _)%nat) by lia. do 3 f_equal. lia.
  - rewrite lookup_app_r by (rewrite length_drop; lia). rewrite length_drop, lookup_take_lt by lia.
    replace ((rr + (0 + Z.of_nat i)) mod Z.of_nat (length ups))
      with (rr + Z.of_nat i - Z.of_nat (length ups)).
    2: { apply (Z.mod_unique _ _ 1); lia. }
    rewrite (Hd (_ - _)%nat) by lia. do 3 f_equal. lia.
Qed.

Lemma rotation_permutation rr ups :
  0 <= rr < len ups -> exists order, rotation rr ups = Val order /\ Permutation order ups.
Proof.
  intros Hr. rewrite rotation_spec by done. eexists. split; [done|].
  rewrite Permutation_app_comm. by rewrite take_drop.
Qed.

(** ** The cache *)

Lemma cache_get_size (c : DnsCache) q now c' r :
  cache_get c q now = (c', r) -> (size c' <= size c)%nat.
Proof.
  unfold cache_get. destruct (c !! q) as [[resp e]|] eqn:E; [|by intros [= <- _]].
  destruct (now <? e); intros [= <- _]; [done|]. rewrite map_size_delete, E. lia.
Qed.

Lemma cache_put_size (c : DnsCache) q r cap now :
  0 <= cap -> Z.of_nat (size c) <= cap -> Z.of_nat (size (cache_put c q r cap now)) <= cap.
Proof.
  intros Hc Hs. unfold cache_put. destruct (cap =? 0) eqn:E0; [done|].
  destruct (cap <=? Z.of_nat (size c)) eqn:E1; cbv zeta.
  - destruct (cap <=? Z.of_nat (size (filter _ c))) eqn:E2;
      rewrite map_size_insert; [rewrite lookup_empty, map_size_empty; lia|case_match; unfold id; lia].
  - rewrite map_size_insert. case_match; unfold id; lia.
Qed.

(** What was stored is what is found, until it expires. *)
Lemma cache_get_put (c : DnsCache) q r cap now now' :
  0 < cap -> now' < now + CACHE_TTL -> (cache_get (cache_put c q r cap now) q now').2 = Some r.
Proof.
  intros Hc Ht. unfold cache_get, cache_put. replace (cap =? 0) with false by lia.
  cbv zeta. rewrite lookup_insert, decide_True by done.
  by replace (now' <? now + CACHE_TTL) with true by lia.
Qed.

(** ** The filter *)

(** The parents of a name, itself first. *)
Definition suffix_at (labels : list string) (k : nat) : string := join_with "." (drop k labels).

(** The most specific listed parent decides, the allow list first. *)
Lemma classify_labels_block labels f :
  classify_labels labels f = BlockDomain <->
  (exists k, (k < length labels)%nat /\ suffix_at labels k ∈ f_block f /\
    forall j, (j <= k)%nat -> (suffix_at labels j ∉ f_allow f) /\
      ((j < k)%nat -> suffix_at labels j ∉ f_block f)).
Proof.
  induction labels as [|l labels IH].
  { split; [done|]. intros (k & Hk & _). cbn in Hk. lia. }
  cbn [classify_labels]. unfold suffix_at in *. case_decide as Ha.
  { split; [done|]. intros (k & _ & _ & H). by destruct (H 0%nat ltac:(lia)) as [? _]. }
  case_decide as Hb.
  { split; [|done]. intros _. exists 0%nat. split; [cbn; lia|]. split; [done|].
    intros j Hj. assert (j = 0%nat) as -> by lia. split; [done|lia]. }
  rewrite IH. split.
  - intros (k & Hk & Hkb & H). exists (S k). split; [cbn; lia|]. split; [done|].
    intros [|j] Hj; [done|]. destruct (H j ltac:(lia)) as [? ?]. split; [done|].
    intros. auto with lia.
  - intros ([|k] & Hk & Hkb & H); [done|]. exists k. cbn in Hk. split; [lia|]. split; [done|].
    intros j Hj. destruct (H (S j) ltac:(lia)) as [? ?]. split; [done|]. auto with lia.
Qed.

Lemma classify_host_name labels f :
  host_name labels -> classify_domain (join_with "." labels) f = classify_labels labels f.
Proof.
  intros (Hne & Hl & _). destruct (join_labels labels Hne Hl) as (_ & H2 & H3 & _ & _ & H6).
  unfold classify_domain. by rewrite H2, H3, H6.
Qed.

(** A blocked parent blocks when no parent is allowed. *)
Lemma classify_blocked_parent labels f k :
  (k < length labels)%nat -> suffix_at labels k ∈ f_block f ->
  (forall j, suffix_at labels j ∉ f_allow f) -> classify_labels labels f = BlockDomain.
Proof.
  intros Hk Hb Ha. apply classify_labels_block.
  induction k as [k IH] using lt_wf_ind.
  destruct (decide (Exists (fun j => suffix_at labels j ∈ f_block f) (seq 0 k))) as [He|He].
  - apply Exists_exists in He as (j & Hj & Hjb). apply elem_of_seq in Hj.
    apply (IH j); [lia|lia|done].
  - exists k. split; [done|]. split; [done|]. intros j Hj. split; [done|]. intros Hlt Hjb. apply He.
    apply Exists_exists. exists j. split; [apply elem_of_seq; lia|done].
Qed.

(** ** Queries on the wire *)

(** A query with one question for a host name: an identifier, the RD flag, the type and class
    and whatever additional records follow. *)
Definition encode_query (id0 id1 : Z) (rd : bool) (ar : Z) (labels : list string) (post : list Z) : list Z :=
  [id0; id1; if rd then 1 else 0; 0; 0; 1; 0; 0; 0; 0; 0; ar] ++ encode_name labels ++ post.

Lemma query_name_encoded id0 id1 rd ar labels post :
  host_name labels -> 4 <= len post ->
  query_name (encode_query id0 id1 rd ar labels post) = Val (Some (join_with "." labels)).
Proof.
  intros Hn Hp. unfold query_name, parse_header, HEADER_LEN.
  set (h := [id0; id1; if rd then 1 else 0; 0; 0; 1; 0; 0; 0; 0; 0; ar]).
  set (msg := encode_query id0 id1 rd ar labels post).
  assert (Em : msg = h ++ encode_name labels ++ post) by reflexivity.
  assert (El : len msg = 12 + len (encode_name labels) + len post)
    by (rewrite Em, !len_app; change (len h) with 12; lia).
  pose proof (len_nonneg (encode_name labels)). replace (len msg <? 12) with false by lia.
  rewrite !idx_byte_at by lia. rewrite !bind_Val_l. cbn [qr qdcount].
  change (byte_at msg 2) with (if rd then 1 else 0). change (byte_at msg 3) with 0.
  change (byte_at msg 4) with 0. change (byte_at msg 5) with 1.
  replace (negb _ || _) with false by (by destruct rd).
  rewrite (decode_question labels Hn msg h post Em eq_refl), bind_Val_l.
  by replace (len msg <? _) with false by lia.
Qed.

(** The negative answer: the identifier and the question of the query, QR and NXDOMAIN set, no
    records, and RD cleared whatever it was. *)
Lemma nxdomain_encoded id0 id1 rd ar labels post :
  nxdomain_response (encode_query id0 id1 rd ar labels post) =
    [id0; id1; 0x80; 3; 0; 1; 0; 0; 0; 0; 0; 0] ++ encode_name labels ++ post.
Proof.
  unfold nxdomain_response. set (tl := encode_name labels ++ post).
  change (encode_query id0 id1 rd ar labels post)
    with (id0 :: id1 :: (if rd then 1 else 0) :: 0 :: 0 :: 1 :: 0 :: 0 :: 0 :: 0 :: 0 :: ar :: tl).
  clearbody tl. assert (Hl : forall a b c d e f g h i j k l, 12 <= len (a :: b :: c :: d :: e :: f :: g :: h :: i :: j :: k :: l :: tl))
    by (intros; rewrite !len_cons; pose proof (len_nonneg tl); lia).
  replace (4 <=? len _) with true by (symmetry; apply Z.leb_le; specialize (Hl id0 id1 (if rd then 1 else 0) 0 0 1 0 0 0 0 0 ar); lia).
  cbn [fold_left]. unfold set_if. rewrite !len_insert.
  repeat (replace (_ <? len _) with true; [|symmetry; apply Z.ltb_lt; repeat case_match; rewrite ?len_insert; specialize (Hl id0 id1 (if rd then 1 else 0) 0 0 1 0 0 0 0 0 ar); lia]).
  by destruct rd.
Qed.


(** ** Serving without a relay *)

Lemma receive_spec datagram :
  len datagram <= 4096 -> exists buf, receive datagram = (buf, len datagram) /\
    len buf = 4096 /\ exists pad, buf = datagram ++ pad.
Proof.
  intros H. unfold receive. rewrite Z.min_l by done. eexists. split; [done|].
  rewrite take_ge by (unfold len in *; lia). split; [|by eexists].
  rewrite len_app, len_replicate. lia.
Qed.

(** What a datagram socket delivers into the buffer of 4096 bytes. *)
Definition truncated (datagram : list Z) : list Z := take 4096 datagram.

Lemma forward_query_direct net query up :
  forward_query net query up false = Val (truncated <$> direct net up query).
Proof.
  unfold forward_query. destruct (direct net up query) as [d|]; [|done]. unfold receive.
  pose proof (len_nonneg d).
  rewrite slice_eq by (rewrite ?len_app, ?len_replicate; unfold len in *; rewrite ?length_take; lia).
  cbn [fmap option_fmap option_map]. rewrite bind_Val_l. do 2 f_equal.
  rewrite Z.sub_0_r, drop_0. unfold truncated, len in *.
  rewrite take_app_le by (rewrite length_take; lia). rewrite take_take.
  destruct (decide (length d <= 4096)%nat); [rewrite !take_ge by lia; done|]. f_equal. lia.
Qed.

Lemma try_upstreams_direct net query order :
  exists tried, try_upstreams net query false order =
    Val (tried, truncated <$> head (omap (fun up => direct net up query) order)) /\
    tried `prefix_of` order.
Proof.
  induction order as [|up order (tried & IH & Hp)]; [by exists []|].
  cbn [try_upstreams]. rewrite forward_query_direct, bind_Val_l. cbn [omap list_omap].
  destruct (direct net up query) as [d|].
  - exists [up]. split; [done|]. apply prefix_cons, prefix_nil.
  - rewrite IH. exists (up :: tried). split; [done|]. by apply prefix_cons.
Qed.

(** The state of a loop that never used a proxy. *)
Record fw_ok (ups : list SocketAddr) (cap : Z) (s : forwarder) : Prop := {
  ok_rr : 0 <= fw_round_robin s < len ups;
  ok_size : Z.of_nat (size (fw_cache s)) <= cap;
  ok_relay : fw_relay s = false;
  ok_proxy : fw_last_proxy s = None;
}.

Lemma next_rr_range rr (ups : list SocketAddr) : 0 <= rr < len ups -> 0 <= Z.max (rr + 1) 1 mod len ups < len ups.
Proof. intros. apply Z.mod_pos_bound. lia. Qed.

Lemma head_omap_answer {A B} (f : A -> option B) l : (exists x, In x l /\ f x <> None) -> head (omap f l) <> None.
Proof.
  induction l as [|x l IH]; intros (y & Hy & Hf); [done|]. cbn [omap list_omap].
  destruct (f x) eqn:E; [done|]. apply IH. exists y. split; [|done]. destruct Hy as [->|?]; [congruence|done].
Qed.

Lemma resolve_upstream_direct net ups cap now query s :
  fw_ok ups cap s -> 0 <= cap -> Forall is_byte query ->
  (forall up d, direct net up query = Some d -> Forall is_byte d) ->
  exists s' tried reply, resolve_upstream net ups cap now query s = Val (s', tried, reply) /\
    fw_ok ups cap s' /\ incl tried ups /\
    ((exists up, In up ups /\ direct net up query <> None) -> reply <> None) /\
    (forall r, reply = Some r -> exists up d, In up ups /\ direct net up query = Some d /\ r = truncated d).
Proof.
  intros [Hrr Hs Hrel Hpr] Hc Hq Hd. unfold resolve_upstream.
  destruct (rotation_permutation _ _ Hrr) as (order & -> & Hperm). rewrite bind_Val_l, Hrel.
  destruct (try_upstreams_direct net query order) as (tried & -> & Hpre). rewrite bind_Val_l.
  assert (Hincl : incl tried ups).
  { intros x Hx. apply (Permutation_in _ Hperm). destruct Hpre as [k ->]. apply in_or_app. by left. }
  pose proof (next_rr_range _ _ Hrr) as Hn.
  destruct (head _) as [d|] eqn:Eh; cbn [fmap option_fmap option_map].
  - assert (exists up, In up ups /\ direct net up query = Some d) as (up & Hup & Eup).
    { apply head_Some_elem_of, list_elem_of_omap in Eh as (up & Hup & E). exists up. split; [|done].
      apply (Permutation_in _ Hperm). by apply list_elem_of_In. }
    assert (Hans : forall r, Some (truncated d) = Some r ->
      exists up d, In up ups /\ direct net up query = Some d /\ r = truncated d)
      by (intros r [= <-]; eauto).
    pose proof (cache_put_size (fw_cache s) query (truncated d) cap now Hc Hs).
    destruct (fw_registry s) as [reg|].
    + destruct (ingest_returns reg query (truncated d) now) as [[reg' b] ->]; [done| |].
      { apply Forall_take, (Hd _ _ Eup). }
      rewrite bind_Val_l. eexists _, _, _. split; [done|]. split; [by split|]. by split.
    + eexists _, _, _. split; [done|]. split; [by split|]. by split.
  - eexists _, _, _. split; [done|]. split; [by split|]. split; [done|]. split; [|done].
    intros (up & Hup & Ha). exfalso. revert Eh. apply head_omap_answer. exists up. split; [|done].
    apply (Permutation_in _ (Permutation_sym Hperm) Hup).
Qed.

(** C36.  Without a proxy the loop serves every query: a turn returns on any bytes, keeps the
    cache within its capacity and the counter in range, contacts configured upstreams only,
    and when the query is not blocked and some upstream answers, the client is answered. *)
Theorem direct_forwarding_serves net ups cap f now query s :
  fw_ok ups cap s -> 0 <= cap -> query <> [] -> Forall is_byte query ->
  (forall up d, direct net up query = Some d -> Forall is_byte d) ->
  exists s' tried reply, forward_step net ups cap f None now query s = Val (s', tried, reply) /\
    fw_ok ups cap s' /\ incl tried ups /\
    ((exists up, In up ups /\ direct net up query <> None) -> reply <> None).
Proof.
  intros Hok Hc Hne Hq Hd. unfold forward_step. destruct query as [|b bs] eqn:Eq; [done|].
  rewrite <- Eq in *. clear Eq Hne.
  assert (refresh_relay net None s = s) as ->
    by (unfold refresh_relay; rewrite decide_True; [done|symmetry; apply Hok]).
  destruct (query_name_returns query Hq) as [name ->]. rewrite bind_Val_l.
  destruct (from_option _ _ name).
  - destruct (cache_get (fw_cache s) query now) as [c r] eqn:Eg.
    pose proof (cache_get_size _ _ _ _ _ Eg) as Hsz.
    assert (Hok' : fw_ok ups cap (mkFw (fw_round_robin s) c (fw_relay s) (fw_last_proxy s) (fw_registry s))).
    { destruct Hok. split; cbn; [done|lia|done|done]. }
    destruct r as [r|].
    { eexists _, _, _. split; [done|]. split; [done|]. split; [apply incl_nil_l|done]. }
    destruct (resolve_upstream_direct net ups cap now query _ Hok' Hc Hq Hd)
      as (s' & tried & reply & H1 & H2 & H3 & H4 & _). by exists s', tried, reply.
  - eexists _, _, _. split; [done|]. split; [done|]. split; [apply incl_nil_l|done].
Qed.

(** ** Serving through a relay *)

Lemma socks5_recv_long buf n :
  len buf = 4096 -> 20 < n <= 4096 -> take 4 buf = [0; 0; 0; 1] -> socks5_recv buf n = Panic.
Proof.
  intros Hl Hn Hh. unfold socks5_recv. replace (n <? 4) with false by lia.
  assert (Hb : forall i, 0 <= i < 4 -> idx buf i = Val (byte_at [0; 0; 0; 1] i)).
  { intros i Hi. rewrite idx_byte_at, <- Hh by lia. by rewrite byte_at_take by lia. }
  rewrite (Hb 0), (Hb 1), (Hb 2), (Hb 3) by lia. rewrite !bind_Val_l.
  change (byte_at _ 0) with 0. change (byte_at _ 1) with 0. change (byte_at _ 2) with 0.
  change (byte_at _ 3) with 1. cbn [Z.eqb Pos.eqb negb orb]. rewrite bind_Val_l.
  replace (n <? 10) with false by lia. rewrite !slice_eq by lia. rewrite !bind_Val_l.
  set (suffix := take _ (drop _ buf)).
  assert (Hs : len suffix = 4086)
    by (unfold suffix, len in *; rewrite length_take, length_drop; lia).
  rewrite slice_eq by lia. rewrite bind_Val_l. unfold copy_from_slice.
  replace (n - 10 <=? len _) with false; [by rewrite !andb_false_r|].
  symmetry. apply Z.leb_gt. unfold len in *. rewrite length_take. lia.
Qed.

(** With the VPN proxy in use, the first upstream answer ends the process: a relayed
    datagram with an IPv4 source and a payload longer than its own header of ten bytes, as
    every DNS message is, makes the receive path panic. *)
Theorem relayed_answer_panics net ups cap f proxy now query s up order src payload name :
  query <> [] -> fw_relay (refresh_relay net proxy s) = true ->
  query_name query = Val name ->
  from_option (fun d => classify_domain d f) PassDomain name = PassDomain ->
  (cache_get (fw_cache s) query now).2 = None ->
  rotation (fw_round_robin s) ups = Val (up :: order) ->
  relayed net (socks5_packet query up) = Some ([0; 0; 0; 1] ++ src ++ payload) ->
  len src = 6 -> 10 < len payload <= 4086 ->
  forward_step net ups cap f proxy now query s = Panic.
Proof.
  intros Hne Hrel Hq Hc Hg Hrot Hd Hsrc Hpay. unfold forward_step.
  destruct query as [|b bs] eqn:Eq; [done|]. rewrite <- Eq in *. rewrite Hq, bind_Val_l, Hc.
  assert (fw_cache (refresh_relay net proxy s) = fw_cache s) as ->
    by (unfold refresh_relay; by case_decide).
  destruct (cache_get (fw_cache s) query now) as [c r] eqn:Eg. cbn in Hg. subst r.
  unfold resolve_upstream. cbn [fw_round_robin fw_relay].
  assert (fw_round_robin (refresh_relay net proxy s) = fw_round_robin s) as ->
    by (unfold refresh_relay; by case_decide).
  rewrite Hrot, bind_Val_l, Hrel. cbn [try_upstreams]. unfold forward_query. rewrite Hd.
  set (dg := [0; 0; 0; 1] ++ src ++ payload).
  assert (Hl : len dg = 10 + len payload)
    by (unfold dg; rewrite !len_app, Hsrc; change (len [0; 0; 0; 1]) with 4; lia).
  destruct (receive_spec dg) as (buf & -> & Hb & pad & Epad); [lia|].
  rewrite socks5_recv_long; [done|done|lia|]. by rewrite Epad.
Qed.

(** ** The relay is tried once per proxy address *)

(** A proxy that could not be reached is not tried again while it stays configured: from then
    on queries go to the upstreams directly. *)
Lemma failed_relay_never_retried net net' proxy s :
  fw_last_proxy s <> Some proxy -> relay_up net proxy = false ->
  let s1 := refresh_relay net (Some proxy) s in
  fw_relay s1 = false /\ refresh_relay net' (Some proxy) s1 = s1.
Proof.
  intros Hl Hu. unfold refresh_relay. rewrite decide_False by congruence. cbn [fw_relay fw_last_proxy].
  split; [done|]. by rewrite decide_True.
Qed.

(** ** The driver's states *)

(** A started driver runs a loop with a valid counter, an empty cache and at least one
    upstream, from whatever state it was in. *)
Lemma driver_restart_ok show bind d d' :
  driver_restart show bind d = (d', inr tt) -> 0 <= fc_cache_size (dd_config d) ->
  exists t s, dd_task d' = Some t /\ task_state t = Some s /\
    fw_ok (task_upstreams t) (task_cap t) s /\ dd_running d' = true.
Proof.
  unfold driver_restart, driver_stop, driver_start. cbn [dd_running dd_config].
  destruct (bind _); [done|]. intros [= <-] Hc. eexists _, _. split; [done|]. split; [done|].
  split; [|done]. split; [|by cbn|done|done]. cbn [fw_round_robin loop_start].
  unfold start_upstreams. destruct (fc_upstreams _) as [|u l]; cbn [task_upstreams]; [done|].
  rewrite len_cons. pose proof (len_nonneg l). lia.
Qed.

(** A configured proxy is not used: only [set_vpn_proxy] sets the address of the loop. *)
Lemma configured_proxy_unused show bind c d' :
  driver_start show bind (DnsForwarderDriver_new c) = (d', inr tt) -> dd_vpn_proxy d' = None.
Proof. unfold driver_start. cbn. destruct (bind _); [done|]. by intros [= <-]. Qed.

(** ** Names the filter does not see *)

Definition google_dns : SocketAddr := mkSocketAddr (V4 0x08080808) 53.
Definition example_filter : DnsFilterSets := mkFilter {["ads.example"]} ∅.
Definition service_query : list Z := encode_query 18 52 true 0 ["_dmarc"; "ads"; "example"] [0; 16; 0; 1].

(** A name with an underscore below a blocked domain is not a host name to the parser; its query
    passes the filter and goes upstream. *)
Lemma underscore_name_bypasses_blocklist :
  classify_domain "_dmarc.ads.example" example_filter = BlockDomain /\
  query_name service_query = Val None /\
  forall net r cap now s, fw_ok [google_dns] cap s -> fw_registry s = None -> fw_cache s = ∅ ->
    direct net google_dns service_query = Some r ->
    exists s', forward_step net [google_dns] cap example_filter None now service_query s =
      Val (s', [google_dns], Some (truncated r)).
Proof.
  split; [by vm_compute|]. split; [by vm_compute|].
  intros net r cap now [rr c rel last reg] [Hr _ Hrel Hp] Hreg Hc Hd.
  cbn [fw_cache fw_registry fw_relay fw_last_proxy fw_round_robin] in *.
  change (len [google_dns]) with 1 in Hr. assert (rr = 0) as -> by lia. subst c rel last reg.
  unfold forward_step. replace (query_name service_query) with (Val (None : option string)) by (by vm_compute).
  rewrite bind_Val_l. cbn [from_option refresh_relay fw_last_proxy]. unfold refresh_relay.
  rewrite decide_True by done. unfold cache_get. cbn [fw_cache]. rewrite lookup_empty.
  unfold resolve_upstream. cbn [fw_round_robin fw_relay fw_registry].
  replace (rotation 0 [google_dns]) with (Val [google_dns]) by (by vm_compute).
  rewrite bind_Val_l. cbn [try_upstreams]. rewrite forward_query_direct, Hd. by eexists.
Qed.

(** A blocked subdomain of an allowed domain stays blocked. *)
Lemma allowed_parent_does_not_override :
  classify_domain "ads.example" (start_filter (mkForwarder google_dns [] false false 0 false
    ["ads.example"] ["example"] None)) = BlockDomain.
Proof. by vm_compute. Qed.

(** ** Vectors *)


Lemma direct_forwarding_serves_witness :
  exists s' tried reply,
    forward_step (mkNetwork (fun _ _ => Some [1; 2; 3]) (fun _ => None) (fun _ => false)) [google_dns] 10
      example_filter None 0 service_query (loop_start None) = Val (s', tried, reply) /\ reply <> None.
Proof.
  destruct (direct_forwarding_serves
    (mkNetwork (fun _ _ => Some [1; 2; 3]) (fun _ => None) (fun _ => false)) [google_dns] 10
    example_filter 0 service_query (loop_start None)) as (s' & tried & reply & H1 & _ & _ & H2).
  - split; vm_compute; done.
  - lia.
  - vm_compute. discriminate.
  - apply (bool_decide_unpack _). vm_compute. exact I.
  - intros up d [= <-]. repeat constructor; vm_compute; done.
  - exists s', tried, reply. split; [exact H1|]. apply H2. exists google_dns. split; [by left|done].
Defined.

Lemma relayed_answer_panics_witness :
  forward_step (mkNetwork (fun _ _ => None)
      (fun _ => Some ([0; 0; 0; 1] ++ [8; 8; 8; 8; 0; 53] ++ service_query)) (fun _ => true))
    [google_dns] 10 example_filter (Some (mkSocketAddr (V4 0x7F000001) 1080)) 0 service_query
    (loop_start None) = Panic.
Proof.
  apply (relayed_answer_panics
    (mkNetwork (fun _ _ => None)
      (fun _ => Some ([0; 0; 0; 1] ++ [8; 8; 8; 8; 0; 53] ++ service_query)) (fun _ => true))
    [google_dns] 10 example_filter (Some (mkSocketAddr (V4 0x7F000001) 1080)) 0 service_query
    (loop_start None) google_dns [] [8; 8; 8; 8; 0; 53] service_query None);
    vm_compute; repeat split; try reflexivity; discriminate.
Defined.
