(* ===== verification/NetTypes.v ===== *)
(** * Shaping and network types (balansir-common/src/qos.rs, balansir-common/src/network.rs)

    The values that cross the boundary between the daemon and the executor: shaping
    configurations and reports, interface information, and the operations and results of the
    interface, Tailscale, Wi-Fi and MPTCP drivers. *)

From S2P Require Import Prelude.
#[local] Open Scope Z_scope.

(** ** Shaping *)

Inductive QdiscKind := FqCodel | Cake | QIngress.

Definition qdisc_as_str (k : QdiscKind) : string :=
  match k with FqCodel => "fq_codel" | Cake => "cake" | QIngress => "ingress" end%string.

Definition qdisc_from_str (s : string) : option QdiscKind :=
  if String.eqb s "fq_codel" then Some FqCodel
  else if String.eqb s "cake" then Some Cake
  else if String.eqb s "ingress" then Some QIngress
  else None.

Inductive QosDirection := DirEgress | DirIngress.

Record QosClass := mkQosClass {
  qcl_id : Z; qcl_name : string; qcl_bandwidth_bps : option Z; qcl_priority : Z;
}.

Record QosConfig := mkQos {
  q_interface : string;
  q_direction : QosDirection;
  q_kind : QdiscKind;
  q_bandwidth_bps : option Z;
  q_latency_target_ms : option Z;
  q_overhead_bytes : option Z;
  q_ecn : bool;
  q_wash : bool;
  q_memory_limit_bytes : option Z;
  q_classes : list QosClass;
  q_comment : string;
}.

Definition qos_identity (interface : string) : string := "balansir:qos:" +:+ interface.

Record QdiscStats := mkStats {
  st_bytes : Z; st_packets : Z; st_drops : Z; st_overlimits : Z; st_qlen : Z;
  st_backlog_bytes : Z; st_backlog_packets : Z; st_bps : Z; st_pps : Z;
}.

Record AppliedQdisc := mkApplied {
  aq_interface : string;
  aq_index : Z;
  aq_handle : string;
  aq_parent : string;
  aq_kind : option string;
  aq_our_identity : bool;
  aq_stats : option QdiscStats;
  aq_bandwidth_bps : option Z;
}.

Record QosCapabilities := mkQosCaps {
  cap_cake : bool; cap_fq_codel : bool; cap_ingress : bool; cap_htb : bool; cap_netem : bool;
  cap_egress_shaping : bool; cap_ingress_shaping : bool;
}.

Definition qos_unavailable : QosCapabilities := mkQosCaps false false false false false false false.

Definition best_egress_kind (c : QosCapabilities) : option QdiscKind :=
  if cap_cake c then Some Cake else if cap_fq_codel c then Some FqCodel else None.

Inductive QosOp := QosApply (config : QosConfig) | QosRemove (interface : string).

Record QosResult := mkQosResult {
  qr_op : string; qr_interface : string; qr_ok : bool; qr_detail : string;
}.

Lemma qdisc_kind_roundtrip k : qdisc_from_str (qdisc_as_str k) = Some k.
Proof. by destruct k. Qed.

(** ** Interfaces *)

Inductive InterfaceRole := RoleWan | RoleLan | RoleManagement | RoleUnknown.

Definition role_label (r : InterfaceRole) : string :=
  match r with
  | RoleWan => "WAN" | RoleLan => "LAN" | RoleManagement => "Mgmt" | RoleUnknown => "Unknown"
  end%string.

Record WifiInfo := mkWifiInfo {
  wi_present : bool;
  wi_ssid : string;
  wi_freq_mhz : Z;
  wi_channel : Z;
  wi_signal_dbm : Z;
  wi_quality_pct : Z;
  wi_auth : string;
  wi_ap_mode : bool;
}.

Record InterfaceInfo := mkIface {
  if_name : string;
  if_index : Z;
  if_kind : option string;
  if_mac : option string;
  if_role : InterfaceRole;
  if_hardware_mac : option string;
  if_previous_mac : option string;
  if_link_up : bool;
  if_mtu : Z;
  if_speed_mbps : option Z;
  if_duplex : option string;
  if_max_throughput_mbps : option Z;
  if_usb : bool;
  if_driver : option string;
  if_bus : option string;
  if_vendor_id : option string;
  if_product_id : option string;
  if_device_model : option string;
  if_if_type : option string;
  if_wifi : option WifiInfo;
  if_ipv4 : list string;
  if_ipv6 : list string;
  if_rx_bytes : Z;
  if_tx_bytes : Z;
  if_rx_packets : Z;
  if_tx_packets : Z;
  if_rx_errors : Z;
  if_tx_errors : Z;
  if_rx_dropped : Z;
  if_tx_dropped : Z;
  if_multicast : Z;
  if_qdisc : option string;
  if_oper_state : option string;
}.

Inductive InterfaceOp :=
| IfGet (interface : string)
| IfSetMac (interface mac : string)
| IfRestoreMac (interface : string).

Record InterfaceResult := mkIfResult {
  ir_ok : bool;
  ir_detail : string;
  ir_hardware_mac : option string;
  ir_current_mac : option string;
  ir_previous_mac : option string;
}.

Record WanDhcpState := mkDhcp {
  dh_observed : bool;
  dh_ip : option string;
  dh_gateway : option string;
  dh_dns : list string;
  dh_lease_seconds : option Z;
  dh_hostname : option string;
}.

Record WanIdentity := mkWanIdentity {
  wid_interface : string;
  wid_hardware_mac : option string;
  wid_current_mac : option string;
  wid_configured_mac : option string;
  wid_cloning_active : bool;
  wid_mtu : Z;
  wid_link_up : bool;
  wid_dhcp : WanDhcpState;
}.

(** ** Tailscale *)

Record TailscalePeer := mkPeer {
  tp_name : string;
  tp_addrs : list string;
  tp_online : bool;
  tp_active : bool;
  tp_last_seen_seconds_ago : option Z;
  tp_exit_node : bool;
  tp_relay : option string;
  tp_rx_bytes : option Z;
  tp_tx_bytes : option Z;
}.

Record TailscaleStatus := mkTailscale {
  ts_installed : bool;
  ts_backend_state : string;
  ts_self_online : bool;
  ts_hostname : option string;
  ts_tailscale_ip : option string;
  ts_ipv4 : list string;
  ts_ipv6 : list string;
  ts_peers : list TailscalePeer;
  ts_exit_node : option string;
  ts_advertise_routes : list string;
  ts_uptime_seconds : option Z;
  ts_summary : string;
}.

Inductive TailscaleOp :=
| TsStatus
| TsUp (auth_key : option string)
| TsDown
| TsReconnect
| TsSetRoutes (routes : list string) (exit_node : bool).

Record TailscaleResult := mkTsResult { tr_ok : bool; tr_detail : string }.

(** ** Wi-Fi *)

Inductive WifiOp :=
| WifiScan (interface : string)
| WifiConnect (interface ssid : string) (password identity security : option string)
| WifiStatus (interface : string)
| WifiDisconnect (interface : string).

Record WifiNetwork := mkNetwork {
  wn_ssid : string;
  wn_bssid : string;
  wn_signal_dbm : Z;
  wn_freq_mhz : Z;
  wn_security : string;
  wn_selected : bool;
}.

Record WifiResult := mkWifiResult {
  wr_ok : bool; wr_detail : string; wr_networks : list WifiNetwork;
}.

(** ** MPTCP *)

Inductive MptcpOp :=
| MpSetEnabled (enabled : bool)
| MpAddEndpoint (address : string) (interface : option string)
| MpRemoveEndpoint (address : string)
| MpStatus.

Record MptcpEndpoint := mkEndpoint {
  me_address : string; me_iface : string; me_local_id : Z; me_flags : list string;
}.

Record MptcpSubflow := mkSubflow {
  ms_remote : string; ms_local : string; ms_state : string; ms_backup : bool;
  ms_rx_bytes : Z; ms_tx_bytes : Z;
}.

Record MptcpResult := mkMpResult {
  mr_ok : bool;
  mr_detail : string;
  mr_enabled : option bool;
  mr_endpoints : list MptcpEndpoint;
  mr_subflows : list MptcpSubflow;
}.
