(* ===== verification/Ipc.v ===== *)
(** * The IPC protocol (balansir-common/src/ipc.rs, balansir-common/src/version.rs)

    Length-prefixed frames over a Unix stream, with peer credentials checked on both sides
    and responses matched to requests by a correlation id.

    A connection is the bytes the peer will still deliver before it closes, the bytes
    written so far, and whether writing works.  The postcard codec is a parameter with the
    law that what it encodes decodes to the same value.  The request loop runs on the bytes
    of the stream, so its fuel is their number; it is shown to be enough. *)

From S2P Require Import Prelude Types IpText Errors.
#[local] Open Scope Z_scope.

(** ** Codec *)

(** [postcard::to_allocvec] and [postcard::from_bytes]; [inl] is the error text. *)
Class Postcard (A : Type) := {
  pc_encode : A -> string + list Z;
  pc_decode : list Z -> string + A;
  pc_roundtrip a bs : pc_encode a = inr bs -> pc_decode bs = inr a;
}.

(** ** Messages *)

Definition IPC_VERSION : Z := 1.
Definition check_ipc_compatibility (remote_version : Z) : bool := remote_version =? IPC_VERSION.

Definition MAX_PAYLOAD_SIZE : Z := 65536.
Definition DEFAULT_ALLOWED_UIDS : list Z := [0; 1500].

Inductive MsgType :=
| MAddRule | MRemoveRule | MFlushRules | MStartDriver | MStopDriver | MRestartDriver
| MHealthCheck | MGetMetrics | MGetPlan | MGetExplain | MGetDesired | MGetActual | MReload
| MGetActualRules | MGetConfigFingerprint | MSetPathMtu | MRestorePathMtu | MGetPathMtuState
| MQosOp | MGetQosState | MGetQosCapabilities | MInterfaceOp | MTailscaleOp | MDpiOp
| MGatewayOp | MUpnpOp | MWifiOp | MMptcpOp | MResponseOk | MResponseError | MResponseData.

#[export] Instance MsgType_eq_dec : EqDecision MsgType.
Proof. solve_decision. Defined.

Record IpcMessage := mkIpc {
  im_version : Z;
  im_msg_type : MsgType;
  im_correlation_id : Z;
  im_payload : list Z;
}.

Definition IpcMessage_new (t : MsgType) (id : Z) (payload : list Z) : IpcMessage :=
  mkIpc IPC_VERSION t id payload.
Definition response_ok (id : Z) : IpcMessage := IpcMessage_new MResponseOk id [].
Definition response_error (id : Z) (error : string) : IpcMessage :=
  IpcMessage_new MResponseError id (bytes_of_string error).
Definition response_data (id : Z) (data : list Z) : IpcMessage :=
  IpcMessage_new MResponseData id data.

(** ** Credentials *)

(** The argument is the variable [BALANSIR_ALLOWED_UIDS]. *)
Definition allowed_uids (env : option string) : list Z :=
  match env with
  | Some s => omap (fun p => parse_u32 (trim p)) (split_on "," s)
  | None => DEFAULT_ALLOWED_UIDS
  end.

Definition validate_peer_cred (env : option string) (peer_uid : Error + Z) : Error + Z :=
  match peer_uid with
  | inl e => inl e
  | inr uid =>
      let allowed := allowed_uids env in
      if existsb (Z.eqb uid) allowed then inr uid else inl (Unauthorized uid allowed)
  end.

(** ** Connections *)

Record conn := mkConn {
  c_in : list Z;
  c_out : list Z;
  c_writable : bool;
  c_next_id : Z;
}.

(** [IpcConnection::new] *)
Definition conn_new (incoming : list Z) (writable : bool) : conn := mkConn incoming [] writable 1.

(** [IpcServerConnection::accept] and [IpcClientConnection::from_stream] *)
Definition accept (env : option string) (peer_uid : Error + Z) (incoming : list Z) (writable : bool) :
    Error + (conn * Z) :=
  match validate_peer_cred env peer_uid with
  | inl e => inl e
  | inr uid => inr (conn_new incoming writable, uid)
  end.

Definition next_correlation_id : cmd conn Z := fun c =>
  (mkConn (c_in c) (c_out c) (c_writable c) (u64 (c_next_id c + 1)), inr (c_next_id c)).

(** [AsyncReadExt::read_exact] *)
Definition read_exact (n : Z) : cmd conn (list Z) := fun c =>
  if len (c_in c) <? n
  then (mkConn [] (c_out c) (c_writable c) (c_next_id c), inl (Io "early eof"))
  else (mkConn (drop (Z.to_nat n) (c_in c)) (c_out c) (c_writable c) (c_next_id c),
        inr (take (Z.to_nat n) (c_in c))).

(** [AsyncWriteExt::write_all] *)
Definition write_all (bytes : list Z) : cmd conn () := fun c =>
  if c_writable c then (mkConn (c_in c) (c_out c ++ bytes) true (c_next_id c), inr ())
  else (c, inl (Io "broken pipe")).

Definition from_le32 (l : list Z) : Z :=
  match l with [b0; b1; b2; b3] => from_be32 b3 b2 b1 b0 | _ => 0 end.

Section Framing.
Context {codec : Postcard IpcMessage}.

Definition ipc_send (msg : IpcMessage) : cmd conn () :=
  match pc_encode msg with
  | inl e => throw (Serialization e)
  | inr bytes =>
      _ ← write_all (to_le32 (u32 (len bytes)));
      write_all bytes
  end.

Definition ipc_recv : cmd conn IpcMessage :=
  len_buf ← read_exact 4;
  let n := from_le32 len_buf in
  if MAX_PAYLOAD_SIZE <? n then throw (PayloadTooLarge n MAX_PAYLOAD_SIZE)
  else
    payload ← read_exact n;
    match pc_decode payload with
    | inl e => throw (Serialization e)
    | inr msg =>
        if negb (check_ipc_compatibility (im_version msg))
        then throw (VersionMismatch (im_version msg) IPC_VERSION)
        else mret msg
    end.

(** The loop of [request]; [None] is fuel that ran out. *)
Fixpoint await_response (fuel : nat) (id : Z) (c : conn) : option (conn * (Error + IpcMessage)) :=
  match fuel with
  | O => None
  | S fuel =>
      match ipc_recv c with
      | (c, inl e) => Some (c, inl e)
      | (c, inr response) =>
          if im_correlation_id response =? id then Some (c, inr response)
          else await_response fuel id c
      end
  end.

(** The first half of [request]: the id used, once the request is written. *)
Definition send_request (t : MsgType) (payload : list Z) : cmd conn Z :=
  id ← next_correlation_id;
  _ ← ipc_send (IpcMessage_new t id payload);
  mret id.

Definition ipc_request (t : MsgType) (payload : list Z) (c : conn) : option (conn * (Error + IpcMessage)) :=
  match send_request t payload c with
  | (c, inl e) => Some (c, inl e)
  | (c, inr id) => await_response (S (length (c_in c))) id c
  end.

(** ** Serving *)

(** [serve_connection] over a dispatcher: it ends with the error of the stream. *)
Fixpoint serve_connection {W} (fuel : nat) (dispatch : W -> IpcMessage -> W * IpcMessage)
    (w : W) (c : conn) : option (W * conn * Error) :=
  match fuel with
  | O => None
  | S fuel =>
      match ipc_recv c with
      | (c, inl e) => Some (w, c, e)
      | (c, inr msg) =>
          let '(w, response) := dispatch w msg in
          match ipc_send response c with
          | (c, inl e) => Some (w, c, e)
          | (c, inr _) => serve_connection fuel dispatch w c
          end
      end
  end.

(** ** Frames *)

(** What [ipc_send] writes. *)
Definition frame (msg : IpcMessage) : list Z :=
  match pc_encode msg with
  | inl _ => []
  | inr bytes => to_le32 (u32 (len bytes)) ++ bytes
  end.

(** A message the peer accepts. *)
Definition sendable (msg : IpcMessage) : Prop :=
  im_version msg = IPC_VERSION /\
  exists bytes, pc_encode msg = inr bytes /\ len bytes <= MAX_PAYLOAD_SIZE.

Lemma len_to_le32 v : len (to_le32 v) = 4.
Proof. reflexivity. Qed.

Lemma from_to_le32 v : 0 <= v < 2 ^ 32 -> from_le32 (to_le32 v) = v.
Proof. intros H. unfold from_le32, to_le32. by apply from_to_be32. Qed.

Lemma read_exact_app c n bytes rest :
  c_in c = bytes ++ rest -> n = len bytes ->
  read_exact n c = (mkConn rest (c_out c) (c_writable c) (c_next_id c), inr bytes).
Proof.
  intros E ->. unfold read_exact. rewrite E. replace (_ <? _) with false.
  2: { symmetry. apply Z.ltb_ge. rewrite len_app. pose proof (len_nonneg rest). lia. }
  unfold len. by rewrite Nat2Z.id, drop_app_length, take_app_length.
Qed.

Lemma ipc_send_ok msg c bytes :
  pc_encode msg = inr bytes -> c_writable c = true ->
  ipc_send msg c = (mkConn (c_in c) (c_out c ++ frame msg) true (c_next_id c), inr ()).
Proof.
  intros E Hw. unfold ipc_send, frame. rewrite E. unfold mbind, cmd_bind, write_all. rewrite Hw.
  cbn [c_writable c_in c_out c_next_id]. by rewrite app_assoc.
Qed.

(** A frame is read back as its message. *)
Lemma ipc_recv_frame msg c rest :
  sendable msg -> c_in c = frame msg ++ rest ->
  ipc_recv c = (mkConn rest (c_out c) (c_writable c) (c_next_id c), inr msg).
Proof.
  intros [Hv (bytes & E & Hl)] Hin. unfold frame in Hin. rewrite E in Hin.
  rewrite <- app_assoc in Hin. pose proof (len_nonneg bytes). unfold MAX_PAYLOAD_SIZE in Hl.
  unfold ipc_recv. unfold mbind at 1, cmd_bind at 1.
  rewrite (read_exact_app c 4 _ _ Hin (eq_sym (len_to_le32 _))).
  rewrite from_to_le32 by (apply wrap_range; lia). rewrite wrap_small by lia.
  unfold MAX_PAYLOAD_SIZE. replace (65536 <? len bytes) with false by lia.
  unfold mbind, cmd_bind. rewrite (read_exact_app (mkConn (bytes ++ rest) _ _ _) (len bytes) bytes rest eq_refl eq_refl).
  rewrite (pc_roundtrip _ _ E). unfold check_ipc_compatibility. rewrite Hv. done.
Qed.

Lemma read_exact_ok n c c' l :
  read_exact n c = (c', inr l) -> n <= len (c_in c) /\ c_in c' = drop (Z.to_nat n) (c_in c).
Proof.
  unfold read_exact. destruct (len (c_in c) <? n) eqn:E; [done|]. intros [= <- _].
  split; [lia|done].
Qed.

(** Receiving consumes at least the length field. *)
Lemma ipc_recv_consumes c c' msg :
  ipc_recv c = (c', inr msg) -> (length (c_in c') < length (c_in c))%nat.
Proof.
  unfold ipc_recv. intros H. apply cmd_bind_ok in H as (c1 & l & [Hl E1]%read_exact_ok & H).
  destruct (MAX_PAYLOAD_SIZE <? from_le32 l); [done|].
  apply cmd_bind_ok in H as (c2 & p & [_ E2]%read_exact_ok & H).
  destruct (pc_decode p) as [|m]; [done|]. destruct (negb _); [done|]. injection H as <- _.
  rewrite E2, E1, !length_drop. unfold len in Hl. lia.
Qed.

(** Waiting for a response ends on every stream. *)
Lemma await_response_ends fuel id c :
  (length (c_in c) < fuel)%nat -> is_Some (await_response fuel id c).
Proof.
  revert c. induction fuel as [|fuel IH]; intros c Hf; [lia|]. cbn [await_response].
  destruct (ipc_recv c) as [c' [e|m]] eqn:E; [by eexists|].
  destruct (_ =? id); [by eexists|]. apply IH. apply ipc_recv_consumes in E. lia.
Qed.

Lemma ipc_request_ends t payload c : is_Some (ipc_request t payload c).
Proof.
  unfold ipc_request. destruct (send_request t payload c) as [c' [e|id]]; [by eexists|].
  apply await_response_ends. lia.
Qed.

(** Stale responses are skipped. *)
Lemma await_response_skips fuel id c stale msg rest :
  Forall sendable stale -> Forall (fun m => im_correlation_id m <> id) stale ->
  sendable msg -> im_correlation_id msg = id ->
  c_in c = List.concat (map frame stale) ++ frame msg ++ rest ->
  (length stale < fuel)%nat ->
  await_response fuel id c = Some (mkConn rest (c_out c) (c_writable c) (c_next_id c), inr msg).
Proof.
  intros Hs Hne Hm Hid. revert fuel c. induction stale as [|m stale IH]; intros fuel c Hin Hf;
    (destruct fuel as [|fuel]; [cbn in Hf; lia|]); cbn [await_response].
  - rewrite (ipc_recv_frame msg c rest Hm Hin). by rewrite Hid, Z.eqb_refl.
  - cbn [map List.concat] in Hin. rewrite <- app_assoc in Hin.
    inversion_clear Hs as [|? ? Hms Hss]. inversion_clear Hne as [|? ? Hmn Hnn].
    rewrite (ipc_recv_frame m c _ Hms Hin). replace (_ =? id) with false by lia.
    rewrite IH; [done|done|done|done|cbn in Hf; lia].
Qed.

(** A part of a frame is never taken for a message. *)
Lemma ipc_recv_cut msg c bytes n :
  pc_encode msg = inr bytes -> len bytes < 2 ^ 32 -> c_in c = take n (frame msg) ->
  (n < length (frame msg))%nat -> exists c' e, ipc_recv c = (c', inl e) /\ c_out c' = c_out c.
Proof.
  intros E Hl Hin Hn. unfold frame in *. rewrite E in *. pose proof (len_nonneg bytes).
  unfold ipc_recv. unfold mbind at 1, cmd_bind at 1.
  destruct (decide (n < 4)%nat) as [H4|H4].
  { unfold read_exact at 1. replace (_ <? 4) with true; [by eexists _, _|]. symmetry. apply Z.ltb_lt.
    rewrite Hin. unfold len. rewrite length_take. lia. }
  rewrite take_app_ge in Hin by (change (length (to_le32 (u32 (len bytes)))) with 4%nat; lia).
  rewrite (read_exact_app c 4 _ _ Hin (eq_sym (len_to_le32 _))).
  rewrite from_to_le32 by (apply wrap_range; lia). rewrite wrap_small by lia.
  destruct (MAX_PAYLOAD_SIZE <? len bytes); [by eexists _, _|].
  unfold mbind, cmd_bind, read_exact. cbn [c_in]. replace (_ <? len bytes) with true; [by eexists _, _|].
  symmetry. apply Z.ltb_lt. rewrite length_app in Hn. change (length (to_le32 _)) with 4%nat in *.
  unfold len. rewrite length_take. lia.
Qed.

(** Nor is a frame that is too large. *)
Lemma ipc_recv_too_large msg c bytes rest :
  pc_encode msg = inr bytes -> MAX_PAYLOAD_SIZE < len bytes < 2 ^ 32 -> c_in c = frame msg ++ rest ->
  exists c', ipc_recv c = (c', inl (PayloadTooLarge (len bytes) MAX_PAYLOAD_SIZE)) /\ c_out c' = c_out c.
Proof.
  intros E Hl Hin. unfold frame in Hin. rewrite E, <- app_assoc in Hin.
  unfold ipc_recv. unfold mbind at 1, cmd_bind at 1.
  rewrite (read_exact_app c 4 _ _ Hin (eq_sym (len_to_le32 _))).
  rewrite from_to_le32 by (apply wrap_range; lia). rewrite wrap_small by (unfold MAX_PAYLOAD_SIZE in *; lia).
  replace (MAX_PAYLOAD_SIZE <? len bytes) with true by lia. by eexists.
Qed.

(** What arrives of a frame is the message or an error. *)
Lemma ipc_recv_prefix msg c bytes n :
  pc_encode msg = inr bytes -> len bytes < 2 ^ 32 -> im_version msg = IPC_VERSION ->
  c_in c = take n (frame msg) ->
  (exists c' e, ipc_recv c = (c', inl e) /\ c_out c' = c_out c) \/
  sendable msg /\ ipc_recv c = (mkConn [] (c_out c) (c_writable c) (c_next_id c), inr msg).
Proof.
  intros E Hl Hv Hin. destruct (decide (n < length (frame msg))%nat) as [Hn|Hn].
  { left. by eapply ipc_recv_cut. }
  rewrite take_ge in Hin by lia. rewrite <- (app_nil_r (frame msg)) in Hin.
  destruct (decide (len bytes <= MAX_PAYLOAD_SIZE)).
  - right. assert (Hs : sendable msg) by (split; eauto). split; [done|]. by apply ipc_recv_frame.
  - left. destruct (ipc_recv_too_large msg c bytes [] E ltac:(lia) Hin) as (c' & -> & Hc). eauto.
Qed.

Lemma ipc_recv_nil c : c_in c = [] -> exists c', ipc_recv c = (c', inl (Io "early eof")) /\ c_out c' = c_out c.
Proof.
  intros E. unfold ipc_recv, mbind, cmd_bind, read_exact. rewrite E. by eexists.
Qed.

(** ** A served session *)

(** The responses to a sequence of messages. *)
Fixpoint answers {W} (dispatch : W -> IpcMessage -> W * IpcMessage) (w : W) (msgs : list IpcMessage) :
    W * list IpcMessage :=
  match msgs with
  | [] => (w, [])
  | m :: msgs =>
      let '(w, r) := dispatch w m in
      let '(w, rs) := answers dispatch w msgs in (w, r :: rs)
  end.

(** Serving ends on every stream. *)
Lemma serve_connection_ends {W} fuel (dispatch : W -> IpcMessage -> W * IpcMessage) w c :
  (length (c_in c) < fuel)%nat -> is_Some (serve_connection fuel dispatch w c).
Proof.
  revert w c. induction fuel as [|fuel IH]; intros w c Hf; [lia|]. cbn [serve_connection].
  destruct (ipc_recv c) as [c1 [e|m]] eqn:E; [by eexists|]. apply ipc_recv_consumes in E.
  destruct (dispatch w m) as [w1 r]. destruct (ipc_send r c1) as [c2 [e|[]]] eqn:Es; [by eexists|].
  apply IH. assert (c_in c2 = c_in c1) as ->; [|lia].
  unfold ipc_send in Es. destruct (pc_encode r); [done|].
  apply cmd_bind_ok in Es as (c3 & [] & E1 & E2). unfold write_all in E1, E2.
  destruct (c_writable c1); [|done]. injection E1 as <-. cbn [c_writable] in E2. by injection E2 as <-.
Qed.

(** A session of well-formed messages is answered message by message, in order. *)
Lemma serve_session {W} fuel (dispatch : W -> IpcMessage -> W * IpcMessage) w c msgs :
  Forall sendable msgs -> c_writable c = true -> c_in c = List.concat (map frame msgs) ->
  (forall r, In r (answers dispatch w msgs).2 -> exists bytes, pc_encode r = inr bytes) ->
  (length msgs < fuel)%nat ->
  exists c', serve_connection fuel dispatch w c =
      Some ((answers dispatch w msgs).1, c', Io "early eof") /\
    c_out c' = c_out c ++ List.concat (map frame (answers dispatch w msgs).2).
Proof.
  revert w c msgs. induction fuel as [|fuel IH]; intros w c msgs Hs Hw Hin Hr Hf; [lia|].
  cbn [serve_connection]. destruct msgs as [|m msgs].
  { destruct (ipc_recv_nil c Hin) as (c' & -> & Hc). exists c'. split; [done|].
    by rewrite Hc, app_nil_r. }
  cbn [map List.concat] in Hin. inversion_clear Hs as [|? ? Hm Hms].
  rewrite (ipc_recv_frame m c _ Hm Hin). cbn [answers] in Hr |- *.
  destruct (dispatch w m) as [w1 r]. specialize (IH w1).
  destruct (answers dispatch w1 msgs) as [w2 rs] eqn:Ea. cbn [fst snd] in Hr |- *.
  destruct (Hr r (or_introl eq_refl)) as [bytes Eb].
  rewrite (ipc_send_ok r (mkConn _ _ (c_writable c) _) bytes Eb Hw).
  destruct (IH (mkConn (List.concat (map frame msgs)) (c_out c ++ frame r) true (c_next_id c)) msgs)
    as (c' & H1 & H2); [done|done|done| |cbn in Hf; lia|].
  { rewrite Ea. intros r' Hr'. apply Hr. by right. }
  rewrite Ea in H1, H2. exists c'. split; [exact H1|]. rewrite H2. cbn [c_out fst snd map List.concat].
  by rewrite app_assoc.
Qed.
End Framing.

(** ** One call over a link *)

(** What the link does to one call: whether a connection can be made, and how many bytes of
    the request and of the response arrive before it closes ([None]: all of them). *)
Record link := mkLink { l_connect : bool; l_up : option nat; l_down : option nat }.

Definition cut {A} (n : option nat) (l : list A) : list A :=
  match n with Some n => take n l | None => l end.

(** A response to [id]. *)
Definition responds {W} (id : Z) (r : W * IpcMessage) : Prop :=
  im_correlation_id r.2 = id /\ im_version r.2 = IPC_VERSION.

Section Exchange.
Context {codec : Postcard IpcMessage} {W : Type} (disp : W -> IpcMessage -> W * IpcMessage).

(** One request and its response over a connection: the server serves what it receives of
    the request, and the client reads what it receives of the answer. *)
Definition exchange (l : link) (t : MsgType) (payload : list Z) (w : W) (c : conn) :
    W * conn * (Error + IpcMessage) :=
  match send_request t payload c with
  | (c1, inl e) => (w, c1, inl e)
  | (c1, inr id) =>
      let sent := cut (l_up l) (drop (length (c_out c)) (c_out c1)) in
      match serve_connection (S (length sent)) disp w (conn_new sent true) with
      | None => (w, c1, inl (Io "early eof"))
      | Some (w', sc, _) =>
          let c2 := mkConn (c_in c1 ++ cut (l_down l) (c_out sc)) (c_out c1) (c_writable c1) (c_next_id c1) in
          match await_response (S (length (c_in c2))) id c2 with
          | None => (w', c2, inl (Io "early eof"))
          | Some (c3, r) => (w', c3, r)
          end
      end
  end.

(** The dispatcher answers every message under its own id, and encodings are not too long
    for the length field. *)
Context (disp_responds : forall w msg, responds (im_correlation_id msg) (disp w msg))
  (Hsize : forall msg bytes, pc_encode msg = inr bytes -> len bytes < 2 ^ 32).

(** A connection between two calls. *)
Definition conn_ok (c : conn) : Prop := c_in c = [] /\ c_writable c = true.

Lemma cut_take {A} n (l : list A) : exists m, cut n l = take m l.
Proof. destruct n as [n|]; [by exists n|]. exists (length l). by rewrite take_ge. Qed.

Lemma send_request_cases t payload c :
  conn_ok c ->
  let msg := IpcMessage_new t (c_next_id c) payload in
  (exists c' e, send_request t payload c = (c', inl e)) \/
  exists bytes, pc_encode msg = inr bytes /\
    send_request t payload c =
      (mkConn [] (c_out c ++ frame msg) true (u64 (c_next_id c + 1)), inr (c_next_id c)).
Proof.
  intros [Hin Hw] msg. unfold send_request, mbind at 1, cmd_bind at 1, next_correlation_id.
  unfold mbind, cmd_bind. fold msg. destruct (pc_encode msg) as [e|bytes] eqn:E.
  - left. unfold ipc_send. rewrite E. by eexists _, _.
  - right. exists bytes. split; [done|]. rewrite Hin, Hw.
    by rewrite (ipc_send_ok msg (mkConn [] _ true _) bytes E eq_refl).
Qed.

(** The server's side: nothing happens, or exactly this message is dispatched. *)
Lemma serve_one fuel w sent msg bytes n :
  pc_encode msg = inr bytes -> im_version msg = IPC_VERSION -> sent = take n (frame msg) ->
  (length sent < fuel)%nat ->
  exists w' sc e, serve_connection fuel disp w (conn_new sent true) = Some (w', sc, e) /\
    (w' = w /\ c_out sc = [] \/
     w' = (disp w msg).1 /\
     (c_out sc = [] \/ c_out sc = frame (disp w msg).2 /\
        exists rb, pc_encode (disp w msg).2 = inr rb)).
Proof.
  intros E Hv Hsent Hf. destruct fuel as [|fuel]; [lia|]. cbn [serve_connection].
  destruct (ipc_recv_prefix msg (conn_new sent true) bytes n E (Hsize _ _ E) Hv Hsent)
    as [(c' & e & H & Ho)|[Hs H]].
  { rewrite H. exists w, c', e. split; [done|]. by left. }
  rewrite H. destruct (disp w msg) as [w' resp]. cbn [fst snd c_out conn_new c_writable c_next_id].
  destruct (pc_encode resp) as [e|rb] eqn:Er.
  { unfold ipc_send. rewrite Er. eexists _, _, _. split; [done|]. right. split; [done|]. by left. }
  rewrite (ipc_send_ok resp (mkConn [] [] true 1) rb Er eq_refl). cbn [app c_in c_out c_next_id].
  destruct fuel as [|fuel].
  { exfalso. apply ipc_recv_consumes in H. cbn in H. destruct sent; cbn in *; lia. }
  cbn [serve_connection].
  destruct (ipc_recv_nil (mkConn [] (frame resp) true 1) eq_refl) as (c' & -> & Ho).
  eexists _, _, _. split; [done|]. right. split; [done|]. right. split; [done|]. eauto.
Qed.

(** The client's side: an error, or the response. *)
Lemma await_one fuel c resp rb n :
  pc_encode resp = inr rb -> im_version resp = IPC_VERSION -> c_writable c = true ->
  c_in c = take n (frame resp) -> (0 < fuel)%nat ->
  exists c' r, await_response fuel (im_correlation_id resp) c = Some (c', r) /\
    ((exists e, r = inl e) \/ r = inr resp /\ sendable resp /\ conn_ok c').
Proof.
  intros E Hv Hw Hin Hf. destruct fuel as [|fuel]; [lia|]. cbn [await_response].
  destruct (ipc_recv_prefix resp c rb n E (Hsize _ _ E) Hv Hin) as [(c' & e & -> & _)|[Hs ->]].
  - eexists _, _. split; [done|]. left. eauto.
  - rewrite Z.eqb_refl. eexists _, _. split; [done|]. by right.
Qed.

Lemma await_nothing fuel id c :
  c_in c = [] -> (0 < fuel)%nat -> exists c' e, await_response fuel id c = Some (c', inl e).
Proof.
  intros E Hf. destruct fuel as [|fuel]; [lia|]. cbn [await_response].
  destruct (ipc_recv_nil c E) as (c' & -> & _). by eexists _, _.
Qed.

(** A call either does not reach the server and fails, or reaches it once; then it fails or
    returns the server's response. *)
Lemma exchange_cases l t payload w c w' c' r :
  conn_ok c -> exchange l t payload w c = (w', c', r) ->
  let d := disp w (IpcMessage_new t (c_next_id c) payload) in
  (w' = w /\ exists e, r = inl e) \/
  w' = d.1 /\ ((exists e, r = inl e) \/ r = inr d.2 /\ sendable d.2 /\ conn_ok c').
Proof.
  intros Hc H d. unfold exchange in H. set (msg := IpcMessage_new t (c_next_id c) payload) in *.
  destruct (send_request_cases t payload c Hc) as [(c1 & e & E)|(bytes & Eb & E)]; rewrite E in H.
  { injection H as <- _ <-. left. eauto. }
  fold msg in E, Eb, H. cbn [c_out] in H. rewrite drop_app_length in H.
  destruct (cut_take (l_up l) (frame msg)) as [n Hn]. rewrite Hn in H.
  destruct (serve_one (S (length (take n (frame msg)))) w (take n (frame msg)) msg bytes n Eb eq_refl
    eq_refl ltac:(lia)) as (w1 & sc & e1 & Es & Hcases).
  rewrite Es in H. fold d in Hcases. cbn [c_in app c_out c_writable c_next_id] in H.
  assert (Hnil : c_out sc = [] -> w' = w1 /\ exists e, r = inl e).
  { intros Ho. rewrite Ho in H.
    assert (Hcut : @cut Z (l_down l) [] = []) by (by destruct (l_down l) as [[]|]).
    rewrite Hcut in H.
    destruct (await_nothing 1 (c_next_id c) (mkConn [] (c_out c ++ frame msg) true (u64 (c_next_id c + 1))))
      as (c2 & e2 & Ea); [done|lia|].
    change (S (length [])) with 1%nat in H. rewrite Ea in H. injection H as <- _ <-. eauto. }
  destruct Hcases as [[-> Ho]|[-> [Ho|[Ho (rb & Er)]]]].
  - left. by apply Hnil.
  - right. destruct (Hnil Ho) as [-> ?]. split; [done|]. by left.
  - right. rewrite Ho in H. destruct (cut_take (l_down l) (frame d.2)) as [m Hm]. rewrite Hm in H.
    destruct (disp_responds w msg) as [Hid Hv]. fold d in Hid, Hv.
    assert (Ei : im_correlation_id d.2 = c_next_id c) by (by rewrite Hid).
    destruct (await_one (S (length (take m (frame d.2))))
      (mkConn (take m (frame d.2)) (c_out c ++ frame msg) true (u64 (c_next_id c + 1))) d.2 rb m Er Hv
      eq_refl eq_refl ltac:(lia)) as (c2 & r2 & Ea & Hr).
    rewrite Ei in Ea. rewrite Ea in H. injection H as <- <- <-. by split.
Qed.
End Exchange.
