(* ===== verification/Dispatch.v ===== *)
(** * The executor's command interface (balansir-executor/src/service.rs [dispatch],
      balansir-daemon/src/reconciliation/executor_client.rs)

    The server side turns an allowlisted message into a call of one mechanism and a
    response; the client side turns the daemon's calls into requests and the responses back
    into results, reconnecting after every failure.

    The mechanisms are a record of operations on the executor's state.  The postcard codec
    of every type on the wire is a parameter.  The link between the two is adversarial: per
    call it decides whether a connection can be made, and how many bytes of the request and
    of the response get through.

    The theorems show that the client over such a link is again a mechanism in the sense of
    the reconciler, so that reconciliation over IPC enforces what it reports. *)

From S2P Require Import Prelude Tls Types Errors Nftables Plan Control Reconciler.
From S2P Require Import ExecutorService Gateway B4Control NetTypes Ipc.
#[local] Open Scope Z_scope.

(** ** Text of a response *)

Definition replacement : list Z := [0xEF; 0xBF; 0xBD].

(** [String::from_utf8_lossy]: every maximal ill-formed part becomes U+FFFD. *)
Fixpoint utf8_lossy (l : list Z) : list Z :=
  match l with
  | [] => []
  | b0 :: l1 =>
      if b0 <? 0x80 then b0 :: utf8_lossy l1
      else if in_range 0xC2 0xDF b0 then
        match l1 with
        | b1 :: l2 => if cont b1 then b0 :: b1 :: utf8_lossy l2 else replacement ++ utf8_lossy l1
        | [] => replacement
        end
      else if in_range 0xE0 0xEF b0 then
        match l1 with
        | b1 :: l2 =>
            if second3 b0 b1 then
              match l2 with
              | b2 :: l3 => if cont b2 then b0 :: b1 :: b2 :: utf8_lossy l3 else replacement ++ utf8_lossy l2
              | [] => replacement
              end
            else replacement ++ utf8_lossy l1
        | [] => replacement
        end
      else if in_range 0xF0 0xF4 b0 then
        match l1 with
        | b1 :: l2 =>
            if second4 b0 b1 then
              match l2 with
              | b2 :: l3 =>
                  if cont b2 then
                    match l3 with
                    | b3 :: l4 =>
                        if cont b3 then b0 :: b1 :: b2 :: b3 :: utf8_lossy l4
                        else replacement ++ utf8_lossy l3
                    | [] => replacement
                    end
                  else replacement ++ utf8_lossy l2
              | [] => replacement
              end
            else replacement ++ utf8_lossy l1
        | [] => replacement
        end
      else replacement ++ utf8_lossy l1
  end.

Definition from_utf8_lossy (l : list Z) : string := string_of_bytes (utf8_lossy l).

(** ** The mechanisms *)

Inductive GatewayOp := GwApply (config : GatewayConfig) | GwRemove | GwStatus.

Record services (W : Type) := mkServices {
  sv_execute : ActionRequest -> W -> W * ActionResult;
  sv_flush : cmd W ();
  sv_remove_rule : Z -> cmd W ();
  sv_actual_rule_ids : W -> list Z;
  sv_set_path_mtu : string -> Z -> cmd W ();
  sv_restore_path_mtu : string -> cmd W ();
  sv_path_mtu_state : W -> list PathMtu;
  sv_dpi_op : DpiOp -> cmd W DpiOpResult;
  sv_upnp_op : UpnpOp -> cmd W UpnpOpResult;
  sv_qos_apply : QosConfig -> W -> W * (string + ());
  sv_qos_remove : string -> W -> W * (string + ());
  sv_qos_state : string -> W -> string + list AppliedQdisc;
  sv_qos_capabilities : W -> string + QosCapabilities;
  sv_if_info : string -> W -> string + list InterfaceInfo;
  sv_if_set_mac : string -> string -> W -> W * (string + InterfaceResult);
  sv_if_restore_mac : string -> W -> W * (string + InterfaceResult);
  sv_ts_status : W -> TailscaleStatus;
  sv_ts_up : option string -> W -> W * TailscaleResult;
  sv_ts_down : W -> W * TailscaleResult;
  sv_ts_reconnect : W -> W * TailscaleResult;
  sv_ts_set_routes : list string -> bool -> W -> W * TailscaleResult;
  sv_gw_apply : GatewayConfig -> cmd W GatewayResult;
  sv_gw_remove : cmd W GatewayResult;
  sv_gw_status : cmd W GatewayStatus;
  sv_wifi_scan : string -> cmd W WifiResult;
  sv_wifi_connect : WifiOp -> cmd W WifiResult;
  sv_wifi_status : string -> cmd W WifiResult;
  sv_wifi_disconnect : string -> cmd W WifiResult;
  sv_mp_set_enabled : bool -> cmd W MptcpResult;
  sv_mp_add_endpoint : string -> string -> cmd W MptcpResult;
  sv_mp_remove_endpoint : string -> cmd W MptcpResult;
  sv_mp_status : cmd W MptcpResult;
}.
Arguments sv_execute {W}. Arguments sv_flush {W}. Arguments sv_remove_rule {W}.
Arguments sv_actual_rule_ids {W}. Arguments sv_set_path_mtu {W}. Arguments sv_restore_path_mtu {W}.
Arguments sv_path_mtu_state {W}. Arguments sv_dpi_op {W}. Arguments sv_upnp_op {W}.
Arguments sv_qos_apply {W}. Arguments sv_qos_remove {W}. Arguments sv_qos_state {W}.
Arguments sv_qos_capabilities {W}. Arguments sv_if_info {W}. Arguments sv_if_set_mac {W}.
Arguments sv_if_restore_mac {W}. Arguments sv_ts_status {W}. Arguments sv_ts_up {W}.
Arguments sv_ts_down {W}. Arguments sv_ts_reconnect {W}. Arguments sv_ts_set_routes {W}.
Arguments sv_gw_apply {W}. Arguments sv_gw_remove {W}. Arguments sv_gw_status {W}.
Arguments sv_wifi_scan {W}. Arguments sv_wifi_connect {W}. Arguments sv_wifi_status {W}.
Arguments sv_wifi_disconnect {W}. Arguments sv_mp_set_enabled {W}. Arguments sv_mp_add_endpoint {W}.
Arguments sv_mp_remove_endpoint {W}. Arguments sv_mp_status {W}.

(** Allowed executor operations. *)
Definition is_allowlisted (t : MsgType) : bool :=
  match t with
  | MAddRule | MRemoveRule | MFlushRules | MHealthCheck | MGetActualRules | MSetPathMtu
  | MRestorePathMtu | MGetPathMtuState | MQosOp | MGetQosState | MGetQosCapabilities
  | MInterfaceOp | MTailscaleOp | MDpiOp | MGatewayOp | MUpnpOp | MWifiOp | MMptcpOp => true
  | _ => false
  end.

(** The codecs of the types on the wire. *)
Class Wire := {
  wire_request :: Postcard ActionRequest;
  wire_result :: Postcard ActionResult;
  wire_u32 :: Postcard Z;
  wire_ids :: Postcard (list Z);
  wire_mtu :: Postcard PathMtu;
  wire_mtus :: Postcard (list PathMtu);
  wire_qos_op :: Postcard QosOp;
  wire_qos_result :: Postcard QosResult;
  wire_qdiscs :: Postcard (list AppliedQdisc);
  wire_qos_caps :: Postcard QosCapabilities;
  wire_if_op :: Postcard InterfaceOp;
  wire_ifs :: Postcard (list InterfaceInfo);
  wire_if_result :: Postcard InterfaceResult;
  wire_ts_op :: Postcard TailscaleOp;
  wire_ts_status :: Postcard TailscaleStatus;
  wire_ts_result :: Postcard TailscaleResult;
  wire_dpi_op :: Postcard DpiOp;
  wire_dpi_result :: Postcard DpiOpResult;
  wire_gw_op :: Postcard GatewayOp;
  wire_gw_result :: Postcard GatewayResult;
  wire_gw_status :: Postcard GatewayStatus;
  wire_upnp_op :: Postcard UpnpOp;
  wire_upnp_result :: Postcard UpnpOpResult;
  wire_wifi_op :: Postcard WifiOp;
  wire_wifi_result :: Postcard WifiResult;
  wire_mp_op :: Postcard MptcpOp;
  wire_mp_result :: Postcard MptcpResult;
}.

Section Server.
Context {wire : Wire} {W : Type} (sv : services W).

(** A value, or the given error. *)
Definition encode_or {A} {codec : Postcard A} (error : string) (id : Z) (value : A) : IpcMessage :=
  match pc_encode value with
  | inr payload => response_data id payload
  | inl _ => response_error id error
  end.

Definition data_response {A} {codec : Postcard A} (id : Z) (value : A) : IpcMessage :=
  encode_or "failed to encode result" id value.

(** The two shapes of the arms: an operation without a result, and one with. *)
Definition ok_or_error (id : Z) (r : W * (Error + ())) : W * IpcMessage :=
  match r with
  | (w, inr _) => (w, response_ok id)
  | (w, inl e) => (w, response_error id (error_to_string e))
  end.
Definition data_or_error {A} {codec : Postcard A} (id : Z) (r : W * (Error + A)) : W * IpcMessage :=
  match r with
  | (w, inr a) => (w, data_response id a)
  | (w, inl e) => (w, response_error id (error_to_string e))
  end.
Definition data_or_text {A} {codec : Postcard A} (id : Z) (r : W * (string + A)) : W * IpcMessage :=
  match r with
  | (w, inr a) => (w, data_response id a)
  | (w, inl e) => (w, response_error id e)
  end.

(** The payload of an operation, or the error for it. *)
Definition with_payload {A} {codec : Postcard A} (name : string) (msg : IpcMessage) (w : W)
    (k : A -> W * IpcMessage) : W * IpcMessage :=
  match pc_decode (im_payload msg) with
  | inr a => k a
  | inl _ => (w, response_error (im_correlation_id msg) ("invalid " +:+ name +:+ " payload"))
  end.

Definition dispatch_rules (msg : IpcMessage) (w : W) : W * IpcMessage :=
  let id := im_correlation_id msg in
  match im_msg_type msg with
  | MAddRule =>
      with_payload "AddRule" msg w (fun request =>
        let '(w, result) := sv_execute sv request w in
        (w, encode_or "failed to encode result" id result))
  | MFlushRules => ok_or_error id (sv_flush sv w)
  | MRemoveRule => with_payload "RemoveRule" msg w (fun rule_id : Z => ok_or_error id (sv_remove_rule sv rule_id w))
  | MGetActualRules => (w, encode_or "failed to encode inventory" id (sv_actual_rule_ids sv w))
  | _ => (w, response_error id "operation not allowed")
  end.

Definition dispatch_path_mtu (msg : IpcMessage) (w : W) : W * IpcMessage :=
  let id := im_correlation_id msg in
  match im_msg_type msg with
  | MSetPathMtu =>
      with_payload "SetPathMtu" msg w (fun adj => ok_or_error id (sv_set_path_mtu sv (pm_path adj) (pm_mtu adj) w))
  | MRestorePathMtu =>
      with_payload "RestorePathMtu" msg w (fun adj => ok_or_error id (sv_restore_path_mtu sv (pm_path adj) w))
  | MGetPathMtuState => (w, encode_or "failed to encode path mtu state" id (sv_path_mtu_state sv w))
  | _ => (w, response_error id "operation not allowed")
  end.

Definition qos_result (op interface detail : string) (r : W * (string + ())) : W * QosResult :=
  match r with
  | (w, inr _) => (w, mkQosResult op interface true detail)
  | (w, inl e) => (w, mkQosResult op interface false e)
  end.

Definition dispatch_qos (msg : IpcMessage) (w : W) : W * IpcMessage :=
  let id := im_correlation_id msg in
  match im_msg_type msg with
  | MQosOp =>
      with_payload "QosOp" msg w (fun op =>
        let '(w, result) :=
          match op with
          | QosApply config =>
              qos_result "apply" (q_interface config) (qdisc_as_str (q_kind config) +:+ " applied")
                (sv_qos_apply sv config w)
          | QosRemove interface => qos_result "remove" interface "shaping removed" (sv_qos_remove sv interface w)
          end in
        (w, data_response id result))
  | MGetQosState =>
      let interface := default EmptyString (from_utf8 (im_payload msg)) in
      data_or_text id (w, sv_qos_state sv interface w)
  | MGetQosCapabilities => data_or_text id (w, sv_qos_capabilities sv w)
  | _ => (w, response_error id "operation not allowed")
  end.

Definition dispatch_interface (msg : IpcMessage) (w : W) : W * IpcMessage :=
  let id := im_correlation_id msg in
  with_payload "InterfaceOp" msg w (fun op =>
    match op with
    | IfGet interface => data_or_text id (w, sv_if_info sv interface w)
    | IfSetMac interface mac => data_or_text id (sv_if_set_mac sv interface mac w)
    | IfRestoreMac interface => data_or_text id (sv_if_restore_mac sv interface w)
    end).

Definition dispatch_tailscale (msg : IpcMessage) (w : W) : W * IpcMessage :=
  let id := im_correlation_id msg in
  let reply (r : W * TailscaleResult) := (r.1, data_response id r.2) in
  with_payload "TailscaleOp" msg w (fun op =>
    match op with
    | TsStatus => (w, data_response id (sv_ts_status sv w))
    | TsUp auth_key => reply (sv_ts_up sv auth_key w)
    | TsDown => reply (sv_ts_down sv w)
    | TsReconnect => reply (sv_ts_reconnect sv w)
    | TsSetRoutes routes exit_node => reply (sv_ts_set_routes sv routes exit_node w)
    end).

Definition dispatch_gateway (msg : IpcMessage) (w : W) : W * IpcMessage :=
  let id := im_correlation_id msg in
  with_payload "GatewayOp" msg w (fun op =>
    match op with
    | GwApply cfg => data_or_error id (sv_gw_apply sv cfg w)
    | GwRemove => data_or_error id (sv_gw_remove sv w)
    | GwStatus => data_or_error id (sv_gw_status sv w)
    end).

Definition dispatch_wifi (msg : IpcMessage) (w : W) : W * IpcMessage :=
  let id := im_correlation_id msg in
  with_payload "WifiOp" msg w (fun op =>
    data_or_error id
      (match op with
       | WifiScan interface => sv_wifi_scan sv interface w
       | WifiConnect _ _ _ _ _ => sv_wifi_connect sv op w
       | WifiStatus interface => sv_wifi_status sv interface w
       | WifiDisconnect interface => sv_wifi_disconnect sv interface w
       end)).

Definition dispatch_mptcp (msg : IpcMessage) (w : W) : W * IpcMessage :=
  let id := im_correlation_id msg in
  with_payload "MptcpOp" msg w (fun op =>
    data_or_error id
      (match op with
       | MpSetEnabled enabled => sv_mp_set_enabled sv enabled w
       | MpAddEndpoint address interface =>
           sv_mp_add_endpoint sv address (default EmptyString interface) w
       | MpRemoveEndpoint address => sv_mp_remove_endpoint sv address w
       | MpStatus => sv_mp_status sv w
       end)).

Definition dispatch (w : W) (msg : IpcMessage) : W * IpcMessage :=
  let id := im_correlation_id msg in
  if negb (is_allowlisted (im_msg_type msg)) then (w, response_error id "operation not allowed")
  else
    match im_msg_type msg with
    | MHealthCheck => (w, response_ok id)
    | MAddRule | MFlushRules | MRemoveRule | MGetActualRules => dispatch_rules msg w
    | MSetPathMtu | MRestorePathMtu | MGetPathMtuState => dispatch_path_mtu msg w
    | MQosOp | MGetQosState | MGetQosCapabilities => dispatch_qos msg w
    | MInterfaceOp => dispatch_interface msg w
    | MTailscaleOp => dispatch_tailscale msg w
    | MDpiOp => with_payload "DpiOp" msg w (fun op => data_or_error id (sv_dpi_op sv op w))
    | MGatewayOp => dispatch_gateway msg w
    | MUpnpOp => with_payload "UpnpOp" msg w (fun op => data_or_error id (sv_upnp_op sv op w))
    | MWifiOp => dispatch_wifi msg w
    | MMptcpOp => dispatch_mptcp msg w
    | _ => (w, response_error id "operation not allowed")
    end.
End Server.

(** ** The client *)

(** The client's connection and, at the other end, the executor; the link of every call. *)
Record remote (W : Type) := mkRemote {
  rm_conn : option conn;
  rm_world : W;
  rm_links : nat -> link;
  rm_calls : nat;
}.
Arguments mkRemote {W}. Arguments rm_conn {W}. Arguments rm_world {W}.
Arguments rm_links {W}. Arguments rm_calls {W}.

Section Client.
Context {wire : Wire} {codec : Postcard IpcMessage} {W : Type} (sv : services W).

Definition ensure_connected (r : remote W) : remote W :=
  match rm_conn r with
  | Some _ => r
  | None =>
      mkRemote (if l_connect (rm_links r (rm_calls r)) then Some (conn_new [] true) else None)
        (rm_world r) (rm_links r) (rm_calls r)
  end.

Definition client_request (t : MsgType) (payload : list Z) : cmd (remote W) IpcMessage := fun r =>
  let r := ensure_connected r in
  let next w c := mkRemote c w (rm_links r) (S (rm_calls r)) in
  match rm_conn r with
  | None => (next (rm_world r) None, inl (Misconfiguration "executor unreachable"))
  | Some c =>
      match exchange (dispatch sv) (rm_links r (rm_calls r)) t payload (rm_world r) c with
      | (w, c, inr resp) => (next w (Some c), inr resp)
      | (w, _, inl e) => (next w None, inl e)
      end
  end.

Definition client_encode {A} {pc : Postcard A} (value : A) : cmd (remote W) (list Z) :=
  match pc_encode value with
  | inr bytes => mret bytes
  | inl e => throw (Fatal ("encode: " +:+ e))
  end.

Definition client_decode {A} {pc : Postcard A} (resp : IpcMessage) : cmd (remote W) A :=
  match pc_decode (im_payload resp) with
  | inr a => mret a
  | inl e => throw (Fatal ("decode: " +:+ e))
  end.

Definition typed_request (t : MsgType) (payload : list Z) (op : string) : cmd (remote W) IpcMessage :=
  resp ← client_request t payload;
  match im_msg_type resp with
  | MResponseOk | MResponseData => mret resp
  | MResponseError =>
      throw (Fatal ("executor rejected " +:+ op +:+ ": " +:+ from_utf8_lossy (im_payload resp)))
  | _ => throw (Fatal ("unexpected " +:+ op +:+ " response"))
  end.

(** Encode, request, decode. *)
Definition typed_op {A B} {pa : Postcard A} {pb : Postcard B} (t : MsgType) (name : string) (op : A) :
    cmd (remote W) B :=
  payload ← client_encode op;
  resp ← typed_request t payload name;
  client_decode resp.

Definition client_qos_op (op : QosOp) : cmd (remote W) QosResult := typed_op MQosOp "QosOp" op.
Definition client_qos_state (interface : string) : cmd (remote W) (list AppliedQdisc) :=
  resp ← typed_request MGetQosState (bytes_of_string interface) "GetQosState"; client_decode resp.
Definition client_qos_capabilities : cmd (remote W) QosCapabilities :=
  resp ← typed_request MGetQosCapabilities [] "GetQosCapabilities"; client_decode resp.
Definition client_interface_info (interface : string) : cmd (remote W) (list InterfaceInfo) :=
  typed_op MInterfaceOp "InterfaceOp" (IfGet interface).
Definition client_interface_set_mac (interface mac : string) : cmd (remote W) InterfaceResult :=
  typed_op MInterfaceOp "InterfaceOp" (IfSetMac interface mac).
Definition client_interface_restore_mac (interface : string) : cmd (remote W) InterfaceResult :=
  typed_op MInterfaceOp "InterfaceOp" (IfRestoreMac interface).
Definition client_gateway_apply (cfg : GatewayConfig) : cmd (remote W) GatewayResult :=
  typed_op MGatewayOp "GatewayOp" (GwApply cfg).
Definition client_gateway_remove : cmd (remote W) GatewayResult := typed_op MGatewayOp "GatewayOp" GwRemove.
Definition client_gateway_status : cmd (remote W) GatewayStatus := typed_op MGatewayOp "GatewayOp" GwStatus.
Definition client_upnp_add (external_port : Z) (proto internal_ip : string) (internal_port : Z)
    (wan_interface : string) : cmd (remote W) UpnpOpResult :=
  typed_op MUpnpOp "UpnpOp" (AddPortMapping external_port proto internal_ip internal_port wan_interface).
Definition client_upnp_remove (external_port : Z) (proto wan_interface : string) : cmd (remote W) UpnpOpResult :=
  typed_op MUpnpOp "UpnpOp" (RemovePortMapping external_port proto wan_interface).
Definition client_upnp_remove_all : cmd (remote W) UpnpOpResult := typed_op MUpnpOp "UpnpOp" RemoveAll.
Definition client_tailscale_status : cmd (remote W) TailscaleStatus := typed_op MTailscaleOp "TailscaleOp" TsStatus.
Definition client_tailscale_up (auth_key : option string) : cmd (remote W) TailscaleResult :=
  typed_op MTailscaleOp "TailscaleOp" (TsUp auth_key).
Definition client_tailscale_down : cmd (remote W) TailscaleResult := typed_op MTailscaleOp "TailscaleOp" TsDown.
Definition client_tailscale_reconnect : cmd (remote W) TailscaleResult :=
  typed_op MTailscaleOp "TailscaleOp" TsReconnect.
Definition client_tailscale_set_routes (routes : list string) (exit_node : bool) : cmd (remote W) TailscaleResult :=
  typed_op MTailscaleOp "TailscaleOp" (TsSetRoutes routes exit_node).
Definition client_wifi_op (op : WifiOp) : cmd (remote W) WifiResult := typed_op MWifiOp "WifiOp" op.
Definition client_mptcp_op (op : MptcpOp) : cmd (remote W) MptcpResult := typed_op MMptcpOp "MptcpOp" op.

(** [apply]: every failure is a result. *)
Definition client_apply (t : MsgType) (request : ActionRequest) (r : remote W) : remote W * ActionResult :=
  let failed m := ActionFailed UnknownError (Some m) in
  match pc_encode request with
  | inl _ => (r, failed "failed to encode action request"%string)
  | inr payload =>
      match client_request t payload r with
      | (r, inr resp) =>
          match pc_decode (im_payload resp) with
          | inr result => (r, result)
          | inl _ => (r, failed "executor returned malformed result"%string)
          end
      | (r, inl e) => (r, failed ("executor unreachable: " +:+ error_to_string e))
      end
  end.

Definition client_execute (request : ActionRequest) (r : remote W) : remote W * ActionResult :=
  client_apply MAddRule request r.

(** Failures read as an empty inventory. *)
Definition client_actual_rule_ids (r : remote W) : remote W * list Z :=
  match client_request MGetActualRules [] r with
  | (r, inr resp) => (r, match pc_decode (im_payload resp) with inr ids => ids | inl _ => [] end)
  | (r, inl _) => (r, [])
  end.

Definition remote_remove_rule (rule_id : Z) (r : remote W) : remote W * ActionResult :=
  let payload := match pc_encode rule_id with inr bytes => bytes | inl _ => [] end in
  match client_request MRemoveRule payload r with
  | (r, inr resp) =>
      (r, match im_msg_type resp with
          | MResponseOk => Applied 0 (Some rule_id)
          | MResponseError => ActionFailed UnknownError (from_utf8 (im_payload resp))
          | _ => ActionFailed UnknownError (Some "unexpected RemoveRule response"%string)
          end)
  | (r, inl e) => (r, ActionFailed UnknownError (Some ("executor unreachable: " +:+ error_to_string e)))
  end.

(** The answer to an operation without a result. *)
Definition ok_response (name : string) (resp : IpcMessage) : cmd (remote W) () :=
  match im_msg_type resp with
  | MResponseOk => mret ()
  | MResponseError =>
      throw (Fatal ("executor rejected " +:+ name +:+ ": " +:+ from_utf8_lossy (im_payload resp)))
  | _ => throw (Fatal ("unexpected " +:+ name +:+ " response"))
  end.

Definition client_set_path_mtu (path : string) (mtu : Z) : cmd (remote W) () :=
  payload ← client_encode (mkPathMtu path mtu);
  resp ← client_request MSetPathMtu payload;
  ok_response "SetPathMtu" resp.

Definition client_restore_path_mtu (path : string) : cmd (remote W) () :=
  payload ← client_encode (mkPathMtu path 0);
  resp ← client_request MRestorePathMtu payload;
  ok_response "RestorePathMtu" resp.

Definition client_path_mtu_state (r : remote W) : remote W * list PathMtu :=
  match client_request MGetPathMtuState [] r with
  | (r, inr resp) => (r, match pc_decode (im_payload resp) with inr state => state | inl _ => [] end)
  | (r, inl _) => (r, [])
  end.

Definition client_dpi_op (op : DpiOp) : cmd (remote W) DpiOpResult :=
  payload ← client_encode op;
  resp ← client_request MDpiOp payload;
  match im_msg_type resp with
  | MResponseData =>
      match pc_decode (im_payload resp) with
      | inr result => mret result
      | inl e => throw (Fatal ("decode DpiOpResult: " +:+ e))
      end
  | MResponseError =>
      throw (Fatal ("executor rejected DpiOp: " +:+ from_utf8_lossy (im_payload resp)))
  | _ => throw (Fatal "unexpected DpiOp response")
  end.
End Client.

(** ** The server keeps to the protocol *)

Section ServerFacts.
Context {wire : Wire} {W : Type} (sv : services W).

Lemma encode_or_responds {A} {codec : Postcard A} e id (a : A) (w : W) : responds id (w, encode_or e id a).
Proof. unfold encode_or. by destruct (pc_encode a). Qed.

Lemma ok_or_error_responds id (r : W * (Error + ())) : responds id (ok_or_error id r).
Proof. by destruct r as [? []]. Qed.

Lemma data_or_error_responds {A} {codec : Postcard A} id (r : W * (Error + A)) :
  responds id (data_or_error id r).
Proof. destruct r as [? []]; [done|apply encode_or_responds]. Qed.

Lemma data_or_text_responds {A} {codec : Postcard A} id (r : W * (string + A)) :
  responds id (data_or_text id r).
Proof. destruct r as [? []]; [done|apply encode_or_responds]. Qed.

Lemma with_payload_responds {A} {codec : Postcard A} name msg w (k : A -> W * IpcMessage) :
  (forall a, responds (im_correlation_id msg) (k a)) ->
  responds (im_correlation_id msg) (with_payload name msg w k).
Proof. intros H. unfold with_payload. by destruct (pc_decode _). Qed.
End ServerFacts.

Create HintDb dispatch.
#[export] Hint Resolve encode_or_responds ok_or_error_responds data_or_error_responds
  data_or_text_responds with_payload_responds : dispatch.
#[export] Hint Extern 4 (responds _ (_, response_error _ _)) => (split; reflexivity) : dispatch.
#[export] Hint Extern 4 (responds _ (_, response_ok _)) => (split; reflexivity) : dispatch.

Section Dispatching.
Context {wire : Wire} {W : Type} (sv : services W).

(** Every message is answered under its own id. *)
Lemma dispatch_responds w msg : responds (im_correlation_id msg) (dispatch sv w msg).
Proof.
  unfold dispatch, data_response. destruct (is_allowlisted _); cbn [negb]; [|auto with dispatch].
  destruct (im_msg_type msg) eqn:E; auto with dispatch;
    unfold dispatch_rules, dispatch_path_mtu, dispatch_qos, dispatch_interface, dispatch_tailscale,
      dispatch_gateway, dispatch_wifi, dispatch_mptcp, data_response; rewrite ?E;
    try (apply with_payload_responds; intros op); auto with dispatch.
  - destruct (sv_execute sv op w). auto with dispatch.
  - destruct op; unfold qos_result.
    + destruct (sv_qos_apply sv config w) as [w' []]; auto with dispatch.
    + destruct (sv_qos_remove sv interface w) as [w' []]; auto with dispatch.
  - destruct op; auto with dispatch.
  - destruct op; auto with dispatch.
  - destruct op; auto with dispatch.
Qed.

(** A message that is not allowlisted, or whose payload does not decode, changes nothing. *)
Lemma dispatch_not_allowed w msg :
  is_allowlisted (im_msg_type msg) = false ->
  dispatch sv w msg = (w, response_error (im_correlation_id msg) "operation not allowed").
Proof. unfold dispatch. by intros ->. Qed.
End Dispatching.

(** ** One call over the link *)

Section Exchange.
Context {wire : Wire} {codec : Postcard IpcMessage} {W : Type} (sv : services W).
Context (Hsize : forall msg bytes, pc_encode msg = inr bytes -> len bytes < 2 ^ 32).

Definition remote_ok (r : remote W) : Prop := forall c, rm_conn r = Some c -> conn_ok c.

(** The same for the client, which reconnects as needed. *)
Lemma client_request_cases t payload r r' res :
  remote_ok r -> client_request sv t payload r = (r', res) ->
  remote_ok r' /\
  ((rm_world r' = rm_world r /\ exists e, res = inl e) \/
   exists id, let d := dispatch sv (rm_world r) (IpcMessage_new t id payload) in
     rm_world r' = d.1 /\ ((exists e, res = inl e) \/ res = inr d.2 /\ sendable d.2)).
Proof.
  intros Hok H. unfold client_request in H.
  assert (Hr1 : remote_ok (ensure_connected r) /\ rm_world (ensure_connected r) = rm_world r).
  { unfold ensure_connected. destruct (rm_conn r) eqn:E; [done|]. split; [|done]. intros c.
    cbn [rm_conn]. destruct (l_connect _); [|done]. by intros [= <-]. }
  destruct Hr1 as [Hok1 Hw]. destruct (rm_conn (ensure_connected r)) as [c|] eqn:Ec.
  2: { injection H as <- <-. split; [done|]. left. split; [done|]. eauto. }
  destruct (exchange _ _ _ _ _ c) as [[w c'] res'] eqn:Ex.
  pose proof (exchange_cases (dispatch sv) (dispatch_responds sv) Hsize _ _ _ _ _ _ _ _ (Hok1 c Ec) Ex) as Hx. cbv zeta in Hx. rewrite Hw in Hx.
  destruct res' as [e|resp]; injection H as <- <-; cbn [rm_world].
  - split; [done|]. destruct Hx as [[-> He]|[-> Hr]]; [by left; eauto|]. right. eauto.
  - destruct Hx as [[_ [e He]]|[-> [[e He]|(-> & Hs & Hc)]]]; [done|done|]. split; [by intros ? [= <-]|].
    right. eauto.
Qed.
End Exchange.

(** ** The client is a mechanism *)

(** What the codec must be able to tell apart: an error text is not a result, and no bytes are
    not a rule id. *)
Class WireSane {wire : Wire} {codec : Postcard IpcMessage} : Prop := {
  size_sane msg bytes : pc_encode msg = inr bytes -> len bytes < 2 ^ 32;
  text_sane (r : ActionResult) : pc_decode (bytes_of_string "failed to encode result") <> inr r;
  empty_sane (id : Z) : pc_decode (@nil Z) <> inr id;
}.

(** The services run the mechanism [K] as their rule executor. *)
Class Runs {W K : Type} {mech : Mechanism K} (sv : services W) (exec_of : W -> K) : Prop := {
  runs_execute rq w :
    m_execute (exec_of w) rq = (exec_of (sv_execute sv rq w).1, (sv_execute sv rq w).2);
  runs_remove id w :
    m_remove_rule (exec_of w) id =
      (exec_of (sv_remove_rule sv id w).1,
       match (sv_remove_rule sv id w).2 with
       | inr _ => Applied 0 (Some id)
       | inl e => ActionFailed UnknownError (Some (error_to_string e))
       end);
}.

Section RemoteMechanism.
Context {wire : Wire} {codec : Postcard IpcMessage} {sane : WireSane}.
Context {W K : Type} {mech : Mechanism K} (sv : services W) (exec_of : W -> K)
  {runs : Runs sv exec_of}.

#[local] Abbreviation exec_state r := (exec_of (rm_world r)).

(** [res] reports a success. *)
Definition succeeded (res : ActionResult) : Prop :=
  match res with Applied _ _ | AlreadyApplied => True | _ => False end.

Lemma failed_not_succeeded e m : ~ succeeded (ActionFailed e m).
Proof. by intros []. Qed.

(** An execution over the link did nothing, or was one execution of the mechanism; a success
    is the mechanism's own. *)
Lemma client_execute_cases rq r r' res :
  remote_ok r -> client_execute sv rq r = (r', res) ->
  remote_ok r' /\
  ((exec_state r' = exec_state r /\ ~ succeeded res) \/
   exec_state r' = (m_execute (exec_state r) rq).1 /\
   (res = (m_execute (exec_state r) rq).2 \/ ~ succeeded res)).
Proof.
  intros Hok H. unfold client_execute, client_apply in H.
  destruct (pc_encode rq) as [e|payload] eqn:Ep.
  { injection H as <- <-. split; [done|]. left. split; [done|]. apply failed_not_succeeded. }
  destruct (client_request sv MAddRule payload r) as [r1 rr] eqn:Er.
  destruct (client_request_cases sv size_sane _ _ _ _ _ Hok Er) as [Hok1 Hc].
  assert (Hd : forall id, dispatch sv (rm_world r) (IpcMessage_new MAddRule id payload) =
    ((sv_execute sv rq (rm_world r)).1,
     encode_or "failed to encode result" id (sv_execute sv rq (rm_world r)).2)).
  { intros id. unfold dispatch, dispatch_rules, with_payload. cbn [im_msg_type IpcMessage_new is_allowlisted negb im_payload im_correlation_id].
    rewrite (pc_roundtrip _ _ Ep). by destruct (sv_execute sv rq (rm_world r)). }
  rewrite runs_execute. cbn [fst snd].
  destruct rr as [e|resp].
  { injection H as <- <-. split; [done|]. destruct Hc as [[-> _]|(id & Hw & _)]; [left; split; [done|apply failed_not_succeeded]|].
    right. rewrite Hd in Hw. split; [by rewrite Hw|]. right. apply failed_not_succeeded. }
  destruct Hc as [[_ [e He]]|(id & Hw & [[e He]|[Hr _]])]; [done|done|].
  rewrite Hd in Hw, Hr. cbn [fst snd] in Hw, Hr. injection Hr as ->.
  assert (E1 : r1 = r') by (by destruct (pc_decode _); injection H). subst r1.
  split; [done|]. right. rewrite Hw. split; [done|].
  unfold encode_or in H. destruct (pc_encode (sv_execute sv rq (rm_world r)).2) as [e|b] eqn:Eb.
  - destruct (pc_decode _) as [e'|res'] eqn:Ed; [|by destruct (text_sane res')].
    injection H as <-. right. apply failed_not_succeeded.
  - cbn [im_payload response_data IpcMessage_new] in H. rewrite (pc_roundtrip _ _ Eb) in H.
    injection H as <-. by left.
Qed.

(** The same for removals. *)
Lemma remote_remove_cases id r r' res :
  remote_ok r -> remote_remove_rule sv id r = (r', res) ->
  remote_ok r' /\
  ((exec_state r' = exec_state r /\ ~ succeeded res) \/
   exec_state r' = (m_remove_rule (exec_state r) id).1 /\
   (res = (m_remove_rule (exec_state r) id).2 \/ ~ succeeded res)).
Proof.
  intros Hok H. unfold remote_remove_rule in H. set (payload := match _ with inl _ => _ | inr _ => _ end) in H.
  destruct (client_request sv MRemoveRule payload r) as [r1 rr] eqn:Er.
  destruct (client_request_cases sv size_sane _ _ _ _ _ Hok Er) as [Hok1 Hc].
  assert (Hd : forall cid, let d := dispatch sv (rm_world r) (IpcMessage_new MRemoveRule cid payload) in
    (d.1 = rm_world r /\ im_msg_type d.2 = MResponseError) \/
    d = ok_or_error cid (sv_remove_rule sv id (rm_world r))).
  { intros cid. unfold dispatch, dispatch_rules, with_payload. cbn [im_msg_type IpcMessage_new is_allowlisted negb im_payload im_correlation_id].
    unfold payload. destruct (pc_encode id) as [e|b] eqn:Eb.
    - destruct (pc_decode []) as [e'|i] eqn:Ed; [by left|]. by destruct (empty_sane i).
    - right. by rewrite (pc_roundtrip _ _ Eb). }
  rewrite runs_remove. cbn [fst snd].
  destruct rr as [e|resp]; injection H as <- <-.
  { split; [done|]. destruct Hc as [[-> _]|(cid & Hw & _)];
      [left; split; [done|apply failed_not_succeeded]|].
    destruct (Hd cid) as [[E _]|E]; rewrite E in Hw;
      [left; rewrite Hw; split; [done|apply failed_not_succeeded]|].
    right. split; [rewrite Hw; by destruct (sv_remove_rule sv id (rm_world r)) as [? []]|].
    right. apply failed_not_succeeded. }
  split; [done|]. destruct Hc as [[_ [e He]]|(cid & Hw & [[e He]|[Hr _]])]; [done|done|].
  injection Hr as ->. destruct (Hd cid) as [[E Et]|E].
  { left. rewrite Hw, E. split; [done|]. rewrite Et. apply failed_not_succeeded. }
  right. rewrite Hw, E. destruct (sv_remove_rule sv id (rm_world r)) as [w' [e|[]]]; split; try done.
  - right. apply failed_not_succeeded.
  - by left.
Qed.

#[export] Instance remote_mechanism : Mechanism (remote W).
Proof.
  refine {| kernel_rule := kernel_rule (K := K); m_rule := m_rule; m_known := m_known;
            m_wf := fun r => m_wf (exec_state r) /\ remote_ok r;
            m_execute := fun r rq => client_execute sv rq r;
            m_remove_rule := fun r id => remote_remove_rule sv id r;
            m_actual_rule_ids := fun r => (client_actual_rule_ids sv r).2;
            installed := fun r id => installed (exec_state r) id |}.
  - intros r rq r' res [Hwf Hok] Hk H.
    destruct (client_execute_cases rq r r' res Hok H) as [Hok' [[-> _]|[-> _]]]; [done|].
    destruct (m_execute (exec_state r) rq) eqn:E. split; [|done]. by eapply execute_wf.
  - intros r rq r' t rid [Hwf Hok] Hk H.
    destruct (client_execute_cases rq r r' _ Hok H) as [Hok' [[_ []]|[-> [Hs|[]]]]]; try done.
    destruct (m_execute (exec_state r) rq) eqn:E. cbn in Hs. subst. by eapply execute_applied.
  - intros r rq r' [Hwf Hok] Hk H.
    destruct (client_execute_cases rq r r' _ Hok H) as [Hok' [[_ []]|[-> [Hs|[]]]]]; try done.
    destruct (m_execute (exec_state r) rq) eqn:E. cbn in Hs. subst. by eapply execute_already.
  - intros r rq r' [Hwf Hok] Hk H.
    destruct (client_execute_cases rq r r' _ Hok H) as [Hok' [[_ []]|[-> [Hs|[]]]]]; try done.
    destruct (m_execute (exec_state r) rq) eqn:E. cbn in Hs. subst. by eapply execute_already_same.
  - intros r rq r' res id [Hwf Hok] Hk H Hne.
    destruct (client_execute_cases rq r r' res Hok H) as [Hok' [[-> _]|[-> _]]]; [done|].
    destruct (m_execute (exec_state r) rq) eqn:E. by eapply execute_frame.
  - intros r id r' res [Hwf Hok] H.
    destruct (remote_remove_cases id r r' res Hok H) as [Hok' [[-> _]|[-> _]]]; [done|].
    destruct (m_remove_rule (exec_state r) id) eqn:E. split; [|done]. by eapply remove_wf.
  - intros r id r' res [Hwf Hok] H.
    destruct (remote_remove_cases id r r' res Hok H) as [Hok' [[_ Hs]|[-> [Hs|Hs]]]];
      [by destruct res| |by destruct res].
    destruct (m_remove_rule (exec_state r) id) eqn:E. cbn in Hs. subst.
    apply (remove_done _ _ _ _ Hwf E).
  - intros r id r' res id' [Hwf Hok] H Hne.
    destruct (remote_remove_cases id r r' res Hok H) as [Hok' [[-> _]|[-> _]]]; [done|].
    destruct (m_remove_rule (exec_state r) id) eqn:E. by eapply remove_frame.
Defined.
End RemoteMechanism.

(** ** Reconciliation over the link *)

Section RemoteReconcile.
Context {wire : Wire} {codec : Postcard IpcMessage} {sane : WireSane}.
Context {W K : Type} {mech : Mechanism K} (sv : services W) (exec_of : W -> K)
  {runs : Runs sv exec_of}.


(** An inventory whose response exceeds the frame limit reads as empty: the size is checked by
    the receiver only, and the client takes every failure for no rules. *)
Lemma oversized_inventory_reads_empty r payload :
  remote_ok r -> pc_encode (sv_actual_rule_ids sv (rm_world r)) = inr payload ->
  (forall id bytes, pc_encode (response_data id payload) = inr bytes -> MAX_PAYLOAD_SIZE < len bytes) ->
  (client_actual_rule_ids sv r).2 = [] /\ rm_world (client_actual_rule_ids sv r).1 = rm_world r.
Proof.
  intros Hok Ep Hbig. unfold client_actual_rule_ids.
  destruct (client_request sv MGetActualRules [] r) as [r1 rr] eqn:Er.
  destruct (client_request_cases sv size_sane _ _ _ _ _ Hok Er) as [_ Hc].
  assert (Hd : forall id, dispatch sv (rm_world r) (IpcMessage_new MGetActualRules id []) =
    (rm_world r, response_data id payload)).
  { intros id. unfold dispatch, dispatch_rules, encode_or.
    cbn [im_msg_type IpcMessage_new is_allowlisted negb im_correlation_id]. by rewrite Ep. }
  destruct Hc as [[Hw [e ->]]|(id & Hw & Hr)]; [done|]. rewrite Hd in Hw, Hr. cbn [fst snd] in Hw, Hr.
  destruct Hr as [[e ->]|[_ [_ (bytes & Eb & Hl)]]]; [done|]. specialize (Hbig id bytes Eb). lia.
Qed.
End RemoteReconcile.

(** ** A served session *)

Section Session.
Context {wire : Wire} {codec : Postcard IpcMessage} {W : Type} (sv : services W).

Lemma answers_correlate w msgs :
  map im_correlation_id (answers (dispatch sv) w msgs).2 = map im_correlation_id msgs.
Proof.
  revert w. induction msgs as [|m msgs IH]; intros w; [done|]. cbn [answers map].
  destruct (dispatch_responds sv w m) as [Hid _]. destruct (dispatch sv w m) as [w1 r].
  specialize (IH w1). destruct (answers _ w1 msgs) as [w2 rs]. cbn [snd map] in *. by rewrite Hid, IH.
Qed.

Lemma answers_allowlisted w msgs :
  (answers (dispatch sv) w (List.filter (fun m => is_allowlisted (im_msg_type m)) msgs)).1 =
  (answers (dispatch sv) w msgs).1.
Proof.
  revert w. induction msgs as [|m msgs IH]; intros w; [done|]. cbn [List.filter answers].
  destruct (is_allowlisted (im_msg_type m)) eqn:E; cbn [answers].
  - destruct (dispatch sv w m) as [w1 r]. specialize (IH w1).
    destruct (answers _ w1 msgs), (answers _ w1 _). done.
  - rewrite (dispatch_not_allowed sv w m E). specialize (IH w).
    destruct (answers _ w msgs), (answers _ w _). done.
Qed.

(** The executor answers a session message by message: a stream of well-formed frames
    is served to its end, every message gets exactly one response, in order and under its own
    correlation id, and messages that are not allowlisted leave no trace in the state. *)
Theorem session_answered_in_order w msgs :
  Forall sendable msgs ->
  (forall r, In r (answers (dispatch sv) w msgs).2 -> exists bytes, pc_encode r = inr bytes) ->
  exists c' rs,
    serve_connection (S (length msgs)) (dispatch sv) w (conn_new (List.concat (map frame msgs)) true) =
      Some ((answers (dispatch sv) w (List.filter (fun m => is_allowlisted (im_msg_type m)) msgs)).1,
            c', Io "early eof") /\
    c_out c' = List.concat (map frame rs) /\
    map im_correlation_id rs = map im_correlation_id msgs.
Proof.
  intros Hs Hr.
  destruct (serve_session (S (length msgs)) (dispatch sv) w
    (conn_new (List.concat (map frame msgs)) true) msgs Hs eq_refl eq_refl Hr ltac:(lia)) as (c' & H1 & H2).
  exists c', (answers (dispatch sv) w msgs).2. rewrite answers_allowlisted. split; [exact H1|].
  split; [exact H2|apply answers_correlate].
Qed.
End Session.

(** ** Vectors *)

(** A codec without values. *)
Definition no_codec {A} : Postcard A.
Proof. by refine {| pc_encode := fun _ => inl "unsupported"%string; pc_decode := fun _ => inl "unsupported"%string |}. Defined.

(** Values of a list, by position. *)
Definition table_codec {A} {eq_dec : EqDecision A} (U : list A) : Postcard A.
Proof.
  refine {| pc_encode := fun a => match list_find (eq a) U with
              | Some (i, _) => inr [Z.of_nat i] | None => inl "unsupported"%string end;
            pc_decode := fun l => match l with
              | [i] => match U !! Z.to_nat i with Some a => inr a | None => inl "unknown"%string end
              | _ => inl "malformed"%string end |}.
  intros a bs. destruct (list_find (eq a) U) as [[i b]|] eqn:E; [|done]. intros [= <-].
  apply list_find_Some in E as (H & -> & _). by rewrite Nat2Z.id, H.
Defined.

Definition result_codec : Postcard ActionResult.
Proof.
  refine {| pc_encode := fun r => match r with
              | Applied t None => inr [0; t] | Applied t (Some i) => inr [0; t; i]
              | AlreadyApplied => inr [1] | _ => inl "unsupported"%string end;
            pc_decode := fun l => match l with
              | [0; t] => inr (Applied t None) | [0; t; i] => inr (Applied t (Some i))
              | [1] => inr AlreadyApplied | _ => inl "malformed"%string end |}.
  intros [t [i|]| | | |] bs; try done; by intros [= <-].
Defined.

Definition u32_codec : Postcard Z.
Proof.
  refine {| pc_encode := fun i => inr [i];
            pc_decode := fun l => match l with [i] => inr i | _ => inl "malformed"%string end |}.
  by intros a bs [= <-].
Defined.

Definition ids_codec : Postcard (list Z).
Proof. refine {| pc_encode := inr; pc_decode := inr |}. by intros a bs [= <-]. Defined.

#[local] Instance demo_wire : Wire :=
  Build_Wire (table_codec (map compile [block1; allow2; reject1])) result_codec u32_codec ids_codec no_codec no_codec
    no_codec no_codec no_codec no_codec no_codec no_codec no_codec no_codec no_codec no_codec no_codec
    no_codec no_codec no_codec no_codec no_codec no_codec no_codec no_codec no_codec no_codec.

Definition message_types : list MsgType := [MAddRule; MRemoveRule; MGetActualRules; MReload;
  MResponseOk; MResponseError; MResponseData].

(** Version, type, id and payload, within the bound of the length field. *)
#[local] Instance demo_codec : Postcard IpcMessage.
Proof.
  refine {| pc_encode := fun m =>
              match list_find (eq (im_msg_type m)) message_types with
              | Some (i, _) =>
                  if len (im_payload m) <? 2 ^ 32 - 3
                  then inr (im_version m :: Z.of_nat i :: im_correlation_id m :: im_payload m)
                  else inl "too large"%string
              | None => inl "unsupported"%string end;
            pc_decode := fun l => match l with
              | v :: i :: id :: payload =>
                  match message_types !! Z.to_nat i with
                  | Some t => inr (mkIpc v t id payload) | None => inl "unknown"%string end
              | _ => inl "malformed"%string end |}.
  intros [v t id p] bs. cbn [im_msg_type im_payload im_version im_correlation_id].
  destruct (list_find (eq t) message_types) as [[i t']|] eqn:E; [|done].
  destruct (len p <? 2 ^ 32 - 3); [|done]. intros [= <-].
  apply list_find_Some in E as (H & -> & _). by rewrite Nat2Z.id, H.
Defined.

#[local] Instance demo_sane : WireSane.
Proof.
  split.
  - intros [v t id p] bs. cbn [pc_encode demo_codec im_msg_type im_payload].
    destruct (list_find _ _) as [[i t']|]; [|done]. destruct (len p <? 2 ^ 32 - 3) eqn:E; [|done].
    intros [= <-]. rewrite !len_cons. lia.
  - intros r. vm_compute. discriminate.
  - intros id. vm_compute. discriminate.
Qed.

Definition unsupported_op {A} : cmd (gmap Z ActionRequest) A := throw (UnsupportedError "not available").
Definition unsupported_text {A} (w : gmap Z ActionRequest) : gmap Z ActionRequest * (string + A) :=
  (w, inl "not available"%string).
Definition unsupported_ts (w : gmap Z ActionRequest) : gmap Z ActionRequest * TailscaleResult :=
  (w, mkTsResult false "not available").

(** The in-memory mechanism behind the executor's interface. *)
Definition demo_services : services (gmap Z ActionRequest) :=
  mkServices _ (fun rq k => mem_execute k rq) unsupported_op (fun id k => (delete id k, inr ()))
    (fun k => map fst (map_to_list k)) (fun _ _ => unsupported_op) (fun _ => unsupported_op) (fun _ => [])
    (fun _ => unsupported_op) (fun _ => unsupported_op) (fun _ => unsupported_text) (fun _ => unsupported_text)
    (fun _ _ => inl "not available"%string) (fun _ => inl "not available"%string)
    (fun _ _ => inl "not available"%string) (fun _ _ => unsupported_text) (fun _ => unsupported_text)
    (fun _ => mkTailscale false "" false None None [] [] [] None [] None "") (fun _ => unsupported_ts)
    unsupported_ts unsupported_ts (fun _ _ => unsupported_ts) (fun _ => unsupported_op) unsupported_op
    unsupported_op (fun _ => unsupported_op) (fun _ => unsupported_op) (fun _ => unsupported_op)
    (fun _ => unsupported_op) (fun _ => unsupported_op) (fun _ _ => unsupported_op)
    (fun _ => unsupported_op) unsupported_op.

#[local] Instance demo_runs : Runs demo_services id.
Proof. split; [|done]. intros rq w. cbn. by destruct (mem_execute w rq). Qed.

(** The third call gets only five bytes of its response; the others work. *)
Definition demo_links (n : nat) : link :=
  match n with 2%nat => mkLink false None (Some 5%nat) | _ => mkLink true None None end.

Definition remote_daemon (desired : list DesiredRule) : daemon (remote (gmap Z ActionRequest)) :=
  mkDaemon (d_desired (running desired)) (d_actual (running desired))
    (mkRemote None (d_kernel (running desired)) demo_links 0) ∅.


Lemma session_answered_in_order_witness :
  exists c' rs,
    serve_connection 3 (dispatch demo_services) ∅ (conn_new
      (frame (IpcMessage_new MReload 7 []) ++ frame (IpcMessage_new MRemoveRule 8 [1])) true) =
      Some (∅, c', Io "early eof") /\
    c_out c' = List.concat (map frame rs) /\ map im_correlation_id rs = [7; 8].
Proof.
  destruct (session_answered_in_order demo_services ∅
    [IpcMessage_new MReload 7 []; IpcMessage_new MRemoveRule 8 [1]]) as (c' & rs & H1 & H2 & H3).
  - repeat constructor; (eexists; split; [vm_compute; reflexivity|vm_compute; discriminate]).
  - intros r [<-|[<-|[]]]; eexists; vm_compute; reflexivity.
  - exists c', rs. split; [exact H1|]. split; [exact H2|exact H3].
Defined.
