(* ===== verification/Nfqueue.v ===== *)
(** * The netlink codec of the kernel packet queue

    [crates/balansir-b4/src/nfqueue.rs] and [nfq.rs]: how a datagram of the
    kernel becomes a queued packet, how a verdict becomes a message, how the queue
    is configured, and the interception loop of [B4Engine] run on datagrams.

    The kernel side is a parameter: the datagrams received and, for the
    configuration commands, the function that answers each message.  Messages are
    compared with the netlink layout itself ([nla_frames], [netlink_frame]):
    a 16-byte header in host order, [nfgenmsg], then attributes
    (length, type, data, padding to four bytes). *)

From S2P Require Import Prelude Packet Checksum TcpOptions PacketBuild Tls Reassembly.
From S2P Require Import B4Set Strategies Geosite B4Engine.

(** ** Constants ([nfq.rs]) *)

Definition NFNL_SUBSYS_QUEUE : Z := 3.
Definition NFQNL_MSG_PACKET : Z := 0.
Definition NFQNL_MSG_VERDICT : Z := 1.
Definition NFQNL_MSG_CONFIG : Z := 2.
Definition NFNETLINK_V0 : Z := 0.
Definition NFPROTO_UNSPEC : Z := 0.
Definition AF_INET : Z := 2.
Definition NFQA_PACKET_HDR : Z := 1.
Definition NFQA_VERDICT_HDR : Z := 2.
Definition NFQA_IFINDEX_INDEV : Z := 5.
Definition NFQA_IFINDEX_OUTDEV : Z := 6.
Definition NFQA_PAYLOAD : Z := 10.
Definition NFQA_CAP_LEN : Z := 13.
Definition NFQNL_CFG_CMD_BIND : Z := 1.
Definition NFQNL_CFG_CMD_UNBIND : Z := 2.
Definition NFQNL_CFG_CMD_PF_BIND : Z := 3.
Definition NFQNL_CFG_CMD_PF_UNBIND : Z := 4.
Definition NFQA_CFG_CMD : Z := 1.
Definition NFQA_CFG_PARAMS : Z := 2.
Definition NFQA_CFG_QUEUE_MAXLEN : Z := 3.
Definition NFQA_CFG_MASK : Z := 4.
Definition NFQA_CFG_FLAGS : Z := 5.
Definition NFQNL_CFG_F_FAIL_OPEN : Z := 1.
Definition NFQNL_COPY_PACKET : Z := 2.

(** Header flags of the netlink ABI. *)
Definition NLM_F_REQUEST : Z := 1.
Definition NLM_F_ACK : Z := 4.

Definition nfgenmsg_type (subsys msg_type : Z) : Z := Z.lor (Z.shiftl subsys 8) msg_type.

(** [u16::from_ne_bytes] and [u32::from_ne_bytes] on a little-endian host. *)
Definition from_ne16 (b0 b1 : Z) : Z := from_be16 b1 b0.
Definition from_ne32 (b0 b1 b2 b3 : Z) : Z := from_be32 b3 b2 b1 b0.
Definition as_i32 (z : Z) : Z := if z <? 2 ^ 31 then z else z - 2 ^ 32.

(** ** Messages sent *)

(** [while buf.len() % 4 != 0 { buf.push(0) }]: at most three turns. *)
Fixpoint push_zeros (fuel : nat) (buf : list Z) : list Z :=
  match fuel with
  | O => buf
  | S fuel => if len buf mod 4 =? 0 then buf else push_zeros fuel (buf ++ [0])
  end.

Definition push_nla (buf : list Z) (nla_type : Z) (data : list Z) : list Z :=
  push_zeros 3 (buf ++ to_le16 (u16 (len data + 4)) ++ to_le16 nla_type ++ data).

Definition build_netlink_msg (msg_type : Z) (attrs : list Z) (queue_num : Z) : list Z :=
  let payload := [NFPROTO_UNSPEC; NFNETLINK_V0] ++ to_be16 queue_num ++ attrs in
  let inner_type := nfgenmsg_type NFNL_SUBSYS_QUEUE msg_type in
  let total_len := u32 (16 + len payload) in
  to_le32 total_len ++ to_le16 inner_type ++ to_le16 NLM_F_REQUEST ++
  to_le32 0 ++ to_le32 0 ++ payload.

Definition config_msg (cmd : Z) (pf : option Z) (res_id : Z) : list Z :=
  let cmd_struct := [cmd; 0] ++ to_be16 (default 0 pf) in
  build_netlink_msg NFQNL_MSG_CONFIG (push_nla [] NFQA_CFG_CMD cmd_struct) res_id.

Definition build_config_params (copy_range queue_num : Z) : list Z :=
  let params := to_be32 copy_range ++ [NFQNL_COPY_PACKET] ++ [0; 0; 0] in
  let attrs := push_nla [] NFQA_CFG_PARAMS params in
  let flags := NFQNL_CFG_F_FAIL_OPEN in
  let attrs := push_nla attrs NFQA_CFG_FLAGS (to_be32 flags) in
  let attrs := push_nla attrs NFQA_CFG_MASK (to_be32 flags) in
  let attrs := push_nla attrs NFQA_CFG_QUEUE_MAXLEN (to_be32 4096) in
  build_netlink_msg NFQNL_MSG_CONFIG attrs queue_num.

(** The message [NfQueue::verdict] sends. *)
Definition verdict_msg (queue_num : Z) (v : verdict) : list Z :=
  let vhdr := to_be32 (v_verdict v) ++ to_be32 (v_id v) in
  let attrs := push_nla [] NFQA_VERDICT_HDR vhdr in
  let attrs := match v_payload v with
               | Some p => push_nla attrs NFQA_PAYLOAD p
               | None => attrs
               end in
  build_netlink_msg NFQNL_MSG_VERDICT attrs queue_num.

(** ** Messages received *)

Record QueuedPacket := mkQueued {
  q_packet_id : Z;
  q_indev : option Z;
  q_outdev : option Z;
  q_payload : option (list Z);
  q_cap_len : option Z
}.

Inductive NfMessage :=
| NfPacketMsg (p : QueuedPacket)
| NfOther.

Definition align4 (n : Z) : Z := Z.land (n + 3) (Z.lnot 3).

(** [from_xx_bytes([data[0], data[1], data[2], data[3]])] *)
Definition read4 (f : Z -> Z -> Z -> Z -> Z) (data : list Z) (at_ : Z) : exec Z :=
  a ← idx data at_; b ← idx data (at_ + 1); c ← idx data (at_ + 2); d ← idx data (at_ + 3);
  Val (f a b c d).

(** The [match ntype] of the attribute loop. *)
Definition attr_step (ntype : Z) (data : list Z) (p : QueuedPacket) : exec QueuedPacket :=
  let '(mkQueued id indev outdev pl cap) := p in
  if (ntype =? NFQA_PACKET_HDR) && (4 <=? len data) then
    v ← read4 from_be32 data 0; Val (mkQueued v indev outdev pl cap)
  else if (ntype =? NFQA_IFINDEX_INDEV) && (4 <=? len data) then
    v ← read4 from_ne32 data 0; Val (mkQueued id (Some v) outdev pl cap)
  else if (ntype =? NFQA_IFINDEX_OUTDEV) && (4 <=? len data) then
    v ← read4 from_ne32 data 0; Val (mkQueued id indev (Some v) pl cap)
  else if ntype =? NFQA_PAYLOAD then
    Val (mkQueued id indev outdev (Some data) cap)
  else if (ntype =? NFQA_CAP_LEN) && (4 <=? len data) then
    v ← read4 from_ne32 data 0; Val (mkQueued id indev outdev pl (Some v))
  else Val p.

(** The attribute loop; running out of fuel is reported as a panic, which
    [parse_never_fails] excludes. *)
Fixpoint attr_loop (fuel : nat) (attrs : list Z) (pos : Z) (p : QueuedPacket)
  : exec QueuedPacket :=
  match fuel with
  | O => Panic
  | S fuel =>
      if negb (pos + 4 <=? len attrs) then Val p else
      b0 ← idx attrs pos; b1 ← idx attrs (pos + 1);
      let n := from_ne16 b0 b1 in
      b2 ← idx attrs (pos + 2); b3 ← idx attrs (pos + 3);
      let ntype := from_ne16 b2 b3 in
      if (n <? 4) || (len attrs <? pos + n) then Val p else
      data ← slice attrs (pos + 4) (pos + n);
      p ← attr_step ntype data p;
      attr_loop fuel attrs (pos + align4 n) p
  end.

Definition parse_netfilter_message (buf : list Z) : exec NfMessage :=
  if len buf <? 16 then Val NfOther else
  header ← slice buf 0 16;
  length_ ← read4 from_ne32 header 0;
  t0 ← idx header 4; t1 ← idx header 5;
  let msg_type := from_ne16 t0 t1 in
  if (length_ <? 16) || (len buf <? length_) then Val NfOther else
  body ← slice buf 16 length_;
  if len body <? 4 then Val NfOther else
  let msg_kind := u8 (Z.land msg_type 0xff) in
  if negb (msg_kind =? NFQNL_MSG_PACKET) then Val NfOther else
  attrs ← slice body 4 (len body);
  p ← attr_loop (S (length attrs)) attrs 0 (mkQueued 0 None None None None);
  Val (NfPacketMsg p).

(** [Vec::with_capacity(65536)]: [recv] writes at most that much, the rest of a
    longer datagram is lost. *)
Definition recv_capacity : Z := 65536.

(** [recv_packet] on what the socket holds ([None]: [recv] fails), in the shape the
    loop uses it: packet id and payload. *)
Definition recv_packet (datagram : option (list Z)) : exec recv_result :=
  match datagram with
  | None => Val RecvErr
  | Some bytes =>
      let buf := take (Z.to_nat recv_capacity) bytes in
      msg ← parse_netfilter_message buf;
      Val (match msg with
           | NfPacketMsg p => RecvPacket (mkNfPacket (q_packet_id p) (q_payload p))
           | NfOther => RecvUnrecognized
           end)
  end.

(** ** Configuration *)

Inductive sock_error :=
| SocketError
| RawOsError (errno : Z).

(** What the socket does with a configuration message. *)
Inductive reply :=
| SendFails
| RecvFails
| Reply (bytes : list Z).

Section Configure.
(** The kernel's answer to a message, after the messages sent before it. *)
Context (kernel : list (list Z) -> list Z -> reply).

Definition with_ack (buf : list Z) : exec (list Z) :=
  if 8 <=? len buf then
    b6 ← idx buf 6; b7 ← idx buf 7;
    copy_from_slice buf 6 8 (to_le16 (Z.lor (from_ne16 b6 b7) NLM_F_ACK))
  else Val buf.

(** The test of the reply: [Some e] is the error returned. *)
Definition check_reply (reply : list Z) : exec (option sock_error) :=
  if 4 <=? len reply then
    r4 ← idx reply 4; r5 ← idx reply 5;
    if (from_ne16 r4 r5 =? 2) && (16 <=? len reply) then
      e ← read4 from_ne32 reply 16;
      Val (if as_i32 e =? 0 then None else Some (RawOsError (- as_i32 e)))
    else Val None
  else Val None.

(** [send_config]; the state is the list of messages the kernel was given. *)
Definition send_config (buf : list Z) (sent : list (list Z))
  : exec (list (list Z) * option sock_error) :=
  msg ← with_ack buf;
  match kernel sent msg with
  | SendFails => Val (sent, Some SocketError)
  | RecvFails => Val (sent ++ [msg], Some SocketError)
  | Reply bytes =>
      e ← check_reply (take 512 bytes);
      Val (sent ++ [msg], e)
  end.

(** A sequence of [self.send_config(..)?]. *)
Fixpoint send_configs (msgs : list (list Z)) (sent : list (list Z))
  : exec (list (list Z) * option sock_error) :=
  match msgs with
  | [] => Val (sent, None)
  | m :: ms =>
      '(sent, e) ← send_config m sent;
      match e with
      | Some e => Val (sent, Some e)
      | None => send_configs ms sent
      end
  end.

Definition configure (queue_num copy_range : Z) (sent : list (list Z))
  : exec (list (list Z) * option sock_error) :=
  send_configs
    [config_msg NFQNL_CFG_CMD_PF_UNBIND (Some AF_INET) 0;
     config_msg NFQNL_CFG_CMD_PF_BIND (Some AF_INET) 0;
     config_msg NFQNL_CFG_CMD_BIND None queue_num;
     build_config_params copy_range queue_num] sent.

(** [Drop for NfQueue]: an unbind command whose outcome is ignored. *)
Definition NfQueue_drop (queue_num : Z) (sent : list (list Z)) : list (list Z) :=
  let msg := config_msg NFQNL_CFG_CMD_UNBIND None queue_num in
  match kernel sent msg with
  | SendFails => sent
  | _ => sent ++ [msg]
  end.
End Configure.

(** ** The loop on datagrams *)

(** What a turn finds: the datagram (or a failing [recv]), the time, the sets in
    force, whether the verdict message is taken. *)
Record wire_turn := mkWireTurn {
  w_datagram : option (list Z);
  w_now : Z;
  w_sets : list B4Set;
  w_verdict_ok : bool
}.

Fixpoint wire_loop (env : engine_env) (ws : list wire_turn) (st : engine_state)
  : exec engine_state :=
  match ws with
  | [] => Val st
  | w :: ws' =>
      r ← recv_packet (w_datagram w);
      st ← loop_body env (mkTurn r (w_now w) (w_sets w) (w_verdict_ok w)) st;
      wire_loop env ws' st
  end.

(** ** The netlink layout *)

Definition nla_pad (n : Z) : list Z := replicate (Z.to_nat ((- n) mod 4)) 0.

Definition nla_frame (a : Z * list Z) : list Z :=
  to_le16 (4 + len a.2) ++ to_le16 a.1 ++ a.2 ++ nla_pad (len a.2).

Definition nla_frames (l : list (Z * list Z)) : list Z := concat (map nla_frame l).

(** A message of type [ty] with header fields [flags], [seq], [pid], family [fam]
    and resource [res]. *)
Definition netlink_frame (ty flags seq pid fam res : Z) (l : list (Z * list Z)) : list Z :=
  to_le32 (20 + len (nla_frames l)) ++ to_le16 ty ++ to_le16 flags ++ to_le32 seq ++
  to_le32 pid ++ [fam; 0] ++ to_be16 res ++ nla_frames l.

(** An attribute fits its 16-bit length field. *)
Definition attr_fits (a : Z * list Z) : Prop := 0 <= a.1 < 65536 /\ len a.2 <= 65531.

(** ** The encoder writes that layout *)

Lemma len_nla_pad n : len (nla_pad n) = (- n) mod 4.
Proof. unfold nla_pad. rewrite len_replicate. zmod_lia. Qed.

Lemma len_to_le16 v : len (to_le16 v) = 2.
Proof. reflexivity. Qed.

Lemma len_le32 v : len (to_le32 v) = 4.
Proof. reflexivity. Qed.

(** Lengths of concatenations. *)
Ltac len_norm :=
  repeat rewrite len_app; repeat rewrite len_cons; rewrite ?len_nil, ?len_to_le16, ?len_le32,
    ?len_to_be16, ?len_to_be32, ?len_nla_pad.
Ltac len_norm_in H :=
  repeat rewrite len_app in H; repeat rewrite len_cons in H;
  rewrite ?len_nil, ?len_to_le16, ?len_le32, ?len_to_be16, ?len_to_be32, ?len_nla_pad in H.

Lemma push_zeros_pad fuel buf :
  (- len buf) mod 4 <= Z.of_nat fuel -> push_zeros fuel buf = buf ++ nla_pad (len buf).
Proof.
  revert buf. induction fuel as [|fuel IH]; intros buf Hf; cbn [push_zeros]; unfold nla_pad.
  { replace ((- len buf) mod 4) with 0 by zmod_lia. by rewrite app_nil_r. }
  destruct (len buf mod 4 =? 0) eqn:E.
  { replace ((- len buf) mod 4) with 0 by zmod_lia. by rewrite app_nil_r. }
  apply Z.eqb_neq in E.
  assert (H1 : (- len buf) mod 4 = 1 + (- len (buf ++ [0])) mod 4) by (len_norm; zmod_lia).
  rewrite IH by lia. rewrite <- app_assoc. f_equal. unfold nla_pad. rewrite H1.
  by rewrite Z2Nat.inj_add by zmod_lia.
Qed.

Lemma push_nla_frame buf t d :
  len buf mod 4 = 0 -> len d <= 65531 -> push_nla buf t d = buf ++ nla_frame (t, d).
Proof.
  intros Hb Hd. unfold push_nla, nla_frame. cbn [fst snd]. pose proof (len_nonneg d).
  rewrite push_zeros_pad by (change (Z.of_nat 3) with 3; zmod_lia).
  rewrite wrap_small by lia. rewrite (Z.add_comm (len d) 4), <- !app_assoc.
  do 4 f_equal. unfold nla_pad. len_norm. do 2 f_equal. zmod_lia.
Qed.

Lemma len_nla_frame a : len (nla_frame a) = align4 (4 + len a.2).
Proof.
  unfold nla_frame, align4. len_norm. rewrite land_lnot3. zmod_lia.
Qed.

Lemma align4_spec n : align4 n mod 4 = 0 /\ n <= align4 n < n + 4.
Proof. unfold align4. rewrite land_lnot3. zmod_lia. Qed.

Lemma nla_frames_cons a l : nla_frames (a :: l) = nla_frame a ++ nla_frames l.
Proof. reflexivity. Qed.

Lemma nla_frames_app l1 l2 : nla_frames (l1 ++ l2) = nla_frames l1 ++ nla_frames l2.
Proof. unfold nla_frames. by rewrite map_app, concat_app. Qed.

Lemma nla_frames_aligned l : len (nla_frames l) mod 4 = 0.
Proof.
  induction l as [|a l IH]; [done|]. rewrite nla_frames_cons. len_norm.
  rewrite len_nla_frame. pose proof (align4_spec (4 + len a.2)). zmod_lia.
Qed.

Lemma push_nla_frames l t d :
  len d <= 65531 -> push_nla (nla_frames l) t d = nla_frames (l ++ [(t, d)]).
Proof.
  intros Hd. rewrite push_nla_frame by (done || apply nla_frames_aligned).
  rewrite nla_frames_app. unfold nla_frames at 3. cbn. by rewrite app_nil_r.
Qed.

Lemma build_netlink_msg_frame ty l q :
  len (nla_frames l) < 2 ^ 31 ->
  build_netlink_msg ty (nla_frames l) q =
  netlink_frame (nfgenmsg_type NFNL_SUBSYS_QUEUE ty) NLM_F_REQUEST 0 0 NFPROTO_UNSPEC q l.
Proof.
  intros H. unfold build_netlink_msg, netlink_frame. pose proof (len_nonneg (nla_frames l)).
  replace (u32 (16 + _)) with (20 + len (nla_frames l)); [done|].
  len_norm. rewrite wrap_small by lia. lia.
Qed.

(** The attributes of a verdict: the header, then the replacement payload. *)
Definition verdict_attrs (v : verdict) : list (Z * list Z) :=
  (NFQA_VERDICT_HDR, to_be32 (v_verdict v) ++ to_be32 (v_id v)) ::
  match v_payload v with Some p => [(NFQA_PAYLOAD, p)] | None => [] end.

Lemma verdict_msg_frame q v :
  from_option len 0 (v_payload v) <= 65531 ->
  verdict_msg q v =
  netlink_frame (nfgenmsg_type NFNL_SUBSYS_QUEUE NFQNL_MSG_VERDICT) NLM_F_REQUEST 0 0
    NFPROTO_UNSPEC q (verdict_attrs v).
Proof.
  intros Hp. unfold verdict_msg, verdict_attrs.
  change (@nil Z) with (nla_frames []). rewrite push_nla_frames by (len_norm; lia).
  destruct (v_payload v) as [p|]; cbn [from_option] in Hp.
  - rewrite push_nla_frames by done. apply build_netlink_msg_frame.
    rewrite !nla_frames_cons. len_norm. rewrite !len_nla_frame. cbn [snd]. len_norm.
    pose proof (align4_spec (4 + len p)). change (align4 (4 + (4 + 4))) with 12.
    change (len (nla_frames [])) with 0. lia.
  - by apply build_netlink_msg_frame.
Qed.

(** ** The parser is total *)

Lemma read4_eq f data k :
  0 <= k -> k + 4 <= len data ->
  read4 f data k = Val (f (byte_at data k) (byte_at data (k + 1)) (byte_at data (k + 2))
                          (byte_at data (k + 3))).
Proof. intros. unfold read4. by rewrite !idx_byte_at, !bind_Val_l by lia. Qed.

(** [attr_step] without the reads. *)
Definition set_attr (p : QueuedPacket) (a : Z * list Z) : QueuedPacket :=
  let '(mkQueued id indev outdev pl cap) := p in
  let '(t, d) := a in
  let be := from_be32 (byte_at d 0) (byte_at d 1) (byte_at d 2) (byte_at d 3) in
  let ne := from_ne32 (byte_at d 0) (byte_at d 1) (byte_at d 2) (byte_at d 3) in
  let full := 4 <=? len d in
  if (t =? NFQA_PACKET_HDR) && full then mkQueued be indev outdev pl cap
  else if (t =? NFQA_IFINDEX_INDEV) && full then mkQueued id (Some ne) outdev pl cap
  else if (t =? NFQA_IFINDEX_OUTDEV) && full then mkQueued id indev (Some ne) pl cap
  else if t =? NFQA_PAYLOAD then mkQueued id indev outdev (Some d) cap
  else if (t =? NFQA_CAP_LEN) && full then mkQueued id indev outdev pl (Some ne)
  else p.

Lemma attr_step_eq t d p : attr_step t d p = Val (set_attr p (t, d)).
Proof.
  unfold attr_step, set_attr. destruct p.
  destruct (4 <=? len d) eqn:E; rewrite ?andb_false_r, ?andb_true_r.
  - apply Z.leb_le in E. rewrite !read4_eq by lia.
    change (0 + 1) with 1. change (0 + 2) with 2. change (0 + 3) with 3.
    repeat (destruct (t =? _); [done|]). done.
  - by destruct (t =? NFQA_PAYLOAD).
Qed.

Lemma from_ne16_range a b : is_byte a -> is_byte b -> 0 <= from_ne16 a b < 65536.
Proof. intros. by apply from_be16_range. Qed.

Lemma attr_loop_returns fuel attrs pos p :
  Forall is_byte attrs -> 0 <= pos -> (0 < fuel)%nat -> len attrs - pos < Z.of_nat fuel ->
  returns (attr_loop fuel attrs pos p).
Proof.
  intros Hb. revert pos p. induction fuel as [|fuel IH]; intros pos p Hp Hf0 Hf; [lia|].
  cbn [attr_loop]. destruct (pos + 4 <=? len attrs) eqn:E; cbn [negb]; [|by eauto with balansir].
  apply Z.leb_le in E. rewrite !idx_byte_at by lia. rewrite !bind_Val_l.
  set (n := from_ne16 _ _). destruct ((n <? 4) || _) eqn:E2; [by eauto with balansir|].
  apply orb_false_iff in E2 as [H1%Z.ltb_ge H2%Z.ltb_ge].
  destruct (slice_returns attrs (pos + 4) (pos + n)) as [d ->]; [lia..|].
  rewrite bind_Val_l, attr_step_eq, bind_Val_l.
  pose proof (align4_spec n). apply IH; lia.
Qed.

Lemma attr_loop_frames fuel pre l p :
  Forall attr_fits l -> (length l < fuel)%nat ->
  attr_loop fuel (pre ++ nla_frames l) (len pre) p = Val (fold_left set_attr l p).
Proof.
  revert fuel pre p. induction l as [|[t d] l IH]; intros fuel pre p Hl Hf;
    destruct fuel as [|fuel]; try (cbn in Hf; lia); cbn [attr_loop].
  { replace (_ + 4 <=? _) with false; [done|]. symmetry. apply Z.leb_gt.
    len_norm. change (len (nla_frames [])) with 0. lia. }
  inversion Hl as [|? ? [Ht Hd] Hl']; subst. cbn [fst snd] in Ht, Hd.
  pose proof (len_nonneg d). pose proof (len_nonneg pre). pose proof (len_nonneg (nla_frames l)).
  assert (Hlen : len (nla_frame (t, d)) = align4 (4 + len d)) by apply len_nla_frame.
  pose proof (align4_spec (4 + len d)).
  rewrite nla_frames_cons.
  replace (_ + 4 <=? _) with true by (symmetry; apply Z.leb_le; len_norm; lia). cbn [negb].
  rewrite !idx_byte_at by (len_norm; lia). rewrite !bind_Val_l.
  rewrite (byte_at_app_r pre _ (len pre)), (byte_at_app_r pre _ (len pre + 1)),
    (byte_at_app_r pre _ (len pre + 2)), (byte_at_app_r pre _ (len pre + 3)) by lia.
  replace (len pre - len pre) with 0 by lia. replace (len pre + 1 - len pre) with 1 by lia.
  replace (len pre + 2 - len pre) with 2 by lia. replace (len pre + 3 - len pre) with 3 by lia.
  change (byte_at (nla_frame (t, d) ++ nla_frames l) 0) with (u8 (4 + len d)).
  change (byte_at (nla_frame (t, d) ++ nla_frames l) 1) with (u8 ((4 + len d) / 256)).
  change (byte_at (nla_frame (t, d) ++ nla_frames l) 2) with (u8 t).
  change (byte_at (nla_frame (t, d) ++ nla_frames l) 3) with (u8 (t / 256)).
  unfold from_ne16. rewrite !from_to_be16 by lia.
  replace (_ || _) with false
    by (symmetry; apply orb_false_iff; split; apply Z.ltb_ge; len_norm; lia).
  assert (Hs : slice (pre ++ nla_frame (t, d) ++ nla_frames l) (len pre + 4) (len pre + (4 + len d))
               = Val d).
  { unfold nla_frame. cbn [fst snd].
    replace (pre ++ _ ++ nla_frames l)
      with ((pre ++ to_le16 (4 + len d) ++ to_le16 t) ++ d ++ (nla_pad (len d) ++ nla_frames l))
      by (by rewrite <- !app_assoc).
    apply slice_mid; len_norm; lia. }
  rewrite Hs, bind_Val_l, attr_step_eq, bind_Val_l, <- Hlen.
  replace (len pre + len (nla_frame (t, d))) with (len (pre ++ nla_frame (t, d))) by (by len_norm).
  rewrite app_assoc. rewrite IH; [done|done|cbn in Hf; lia].
Qed.

Definition no_packet : QueuedPacket := mkQueued 0 None None None None.

(** Whatever the bytes of a datagram, the parser neither indexes out of range nor
    loops: its fuel, one more than the bytes of the attributes, is enough. *)
Lemma parse_never_fails buf :
  Forall is_byte buf -> returns (parse_netfilter_message buf).
Proof.
  intros Hb. unfold parse_netfilter_message. destruct (len buf <? 16) eqn:E1;
    [eauto with balansir|]. apply Z.ltb_ge in E1.
  destruct (slice_returns buf 0 16) as [h Hh]; [lia..|]. rewrite Hh, bind_Val_l.
  pose proof (slice_len _ _ _ _ Hh). rewrite read4_eq, !idx_byte_at, !bind_Val_l by lia.
  set (n := from_ne32 _ _ _ _). destruct ((n <? 16) || _) eqn:E2; [eauto with balansir|].
  apply orb_false_iff in E2 as [H1%Z.ltb_ge H2%Z.ltb_ge].
  destruct (slice_returns buf 16 n) as [body Hbody]; [lia..|]. rewrite Hbody, bind_Val_l.
  destruct (len body <? 4) eqn:E3; [eauto with balansir|]. apply Z.ltb_ge in E3.
  destruct (negb _); [eauto with balansir|].
  destruct (slice_returns body 4 (len body)) as [attrs Ha]; [lia..|]. rewrite Ha, bind_Val_l.
  destruct (attr_loop_returns (S (length attrs)) attrs 0 no_packet) as [p Hp].
  - eapply Forall_slice; [exact Ha|]. by eapply Forall_slice.
  - lia.
  - lia.
  - unfold len. lia.
  - unfold no_packet in Hp. rewrite Hp. eauto with balansir.
Qed.

Lemma len_netlink_frame ty flags seq pid fam res l :
  len (netlink_frame ty flags seq pid fam res l) = 20 + len (nla_frames l).
Proof. unfold netlink_frame. len_norm. lia. Qed.

(** One attribute takes at least four bytes, so the fuel covers the attributes. *)
Lemma length_nla_frames l : (length l <= length (nla_frames l))%nat.
Proof.
  induction l as [|a l IH]; [done|]. rewrite nla_frames_cons, length_app. cbn [length].
  pose proof (len_nla_frame a). pose proof (align4_spec (4 + len a.2)).
  pose proof (len_nonneg a.2). unfold len in *. lia.
Qed.

Lemma parse_frame ty flags seq pid fam res l rest :
  0 <= ty < 65536 -> Z.land ty 0xff = NFQNL_MSG_PACKET -> Forall attr_fits l ->
  20 + len (nla_frames l) < 2 ^ 32 ->
  parse_netfilter_message (netlink_frame ty flags seq pid fam res l ++ rest) =
  Val (NfPacketMsg (fold_left set_attr l no_packet)).
Proof.
  intros Ht Hk Hl Hn. pose proof (len_nonneg (nla_frames l)). pose proof (len_nonneg rest).
  set (N := 20 + len (nla_frames l)) in *.
  set (h := to_le32 N ++ to_le16 ty ++ to_le16 flags ++ to_le32 seq ++ to_le32 pid).
  set (body := [fam; 0] ++ to_be16 res ++ nla_frames l).
  assert (Hm : netlink_frame ty flags seq pid fam res l = h ++ body)
    by (unfold h; by rewrite <- !app_assoc).
  assert (Hh : len h = 16) by reflexivity.
  assert (Hbl : len body = N - 16) by (unfold body, N; len_norm; lia).
  unfold parse_netfilter_message. rewrite Hm, <- app_assoc.
  replace (len (h ++ body ++ rest) <? 16) with false
    by (symmetry; apply Z.ltb_ge; len_norm; lia).
  assert (Hs : slice (h ++ body ++ rest) 0 16 = Val h) by (by apply (slice_mid [] h)).
  rewrite Hs, bind_Val_l, read4_eq, !idx_byte_at, !bind_Val_l by lia.
  change (from_ne32 _ _ _ _)
    with (from_be32 (u8 (N / 16777216)) (u8 (N / 65536)) (u8 (N / 256)) (u8 N)).
  rewrite from_to_be32 by lia.
  replace (_ || _) with false
    by (symmetry; apply orb_false_iff; split; apply Z.ltb_ge; len_norm; lia).
  rewrite (slice_mid h body rest 16 N), bind_Val_l by lia.
  replace (len body <? 4) with false by (symmetry; apply Z.ltb_ge; lia).
  change (from_ne16 _ _) with (from_be16 (u8 (ty / 256)) (u8 ty)).
  rewrite from_to_be16, Hk by lia.
  change (negb (u8 NFQNL_MSG_PACKET =? NFQNL_MSG_PACKET)) with false. cbv iota.
  assert (Ha : slice body 4 (len body) = Val (nla_frames l)).
  { unfold body at 1. rewrite <- (app_nil_r (nla_frames l)) at 1. rewrite app_assoc.
    apply (slice_mid ([fam; 0] ++ to_be16 res)); [done|]. lia. }
  rewrite Ha, bind_Val_l. pose proof (length_nla_frames l).
  rewrite (attr_loop_frames (S (length (nla_frames l))) [] l); [done|done|lia].
Qed.

(** ** Packets as the kernel queues them *)

Record kernel_packet := mkKernelPacket {
  kp_id : Z;
  kp_hdr : list Z;                       (** rest of the packet header *)
  kp_payload : option (list Z);
  kp_before : list (Z * list Z);         (** other attributes *)
  kp_after : list (Z * list Z);
  kp_family : Z;
  kp_queue : Z
}.

Definition kernel_attrs (k : kernel_packet) : list (Z * list Z) :=
  (NFQA_PACKET_HDR, to_be32 (kp_id k) ++ kp_hdr k) :: kp_before k ++
  match kp_payload k with Some d => [(NFQA_PAYLOAD, d)] | None => [] end ++ kp_after k.

Definition kernel_msg (k : kernel_packet) : list Z :=
  netlink_frame (nfgenmsg_type NFNL_SUBSYS_QUEUE NFQNL_MSG_PACKET) 0 0 0
    (kp_family k) (kp_queue k) (kernel_attrs k).

(** Neither of the two attributes of which a message has one. *)
Definition other_attr (a : Z * list Z) : Prop := a.1 <> NFQA_PACKET_HDR /\ a.1 <> NFQA_PAYLOAD.

Record kernel_packet_ok (k : kernel_packet) : Prop := {
  kpo_id : 0 <= kp_id k < 2 ^ 32;
  kpo_attrs : Forall attr_fits (kernel_attrs k);
  kpo_before : Forall other_attr (kp_before k);
  kpo_after : Forall other_attr (kp_after k)
}.

Lemma set_other_attrs l p :
  Forall other_attr l ->
  q_packet_id (fold_left set_attr l p) = q_packet_id p /\
  q_payload (fold_left set_attr l p) = q_payload p.
Proof.
  intros Hl. revert p. induction Hl as [|[t d] l [H1 H2] _ IH]; intros p; [done|].
  cbn [fold_left]. destruct (IH (set_attr p (t, d))) as [-> ->]. cbn [fst] in H1, H2.
  unfold set_attr. destruct p. apply Z.eqb_neq in H1, H2. rewrite H1, H2. cbn [andb].
  repeat (destruct (_ && _); [done|]). done.
Qed.

Lemma kernel_attrs_read k :
  kernel_packet_ok k ->
  let p := fold_left set_attr (kernel_attrs k) no_packet in
  q_packet_id p = kp_id k /\ q_payload p = kp_payload k.
Proof.
  intros [Hid _ Hb Ha] p. subst p. unfold kernel_attrs. cbn [fold_left].
  assert (Hh : set_attr no_packet (NFQA_PACKET_HDR, to_be32 (kp_id k) ++ kp_hdr k) =
               mkQueued (kp_id k) None None None None).
  { unfold set_attr, no_packet.
    replace (4 <=? len (to_be32 (kp_id k) ++ kp_hdr k)) with true
      by (symmetry; apply Z.leb_le; len_norm; pose proof (len_nonneg (kp_hdr k)); lia).
    change (from_be32 _ _ _ _) with
      (from_be32 (u8 (kp_id k / 16777216)) (u8 (kp_id k / 65536)) (u8 (kp_id k / 256))
         (u8 (kp_id k))).
    by rewrite from_to_be32. }
  rewrite Hh, !fold_left_app.
  destruct (set_other_attrs (kp_before k) (mkQueued (kp_id k) None None None None) Hb) as [B1 B2].
  set (p1 := fold_left set_attr (kp_before k) _) in *.
  match goal with |- context [fold_left set_attr (kp_after k) ?q] =>
    destruct (set_other_attrs (kp_after k) q Ha) as [-> ->] end.
  destruct p1 as [i a b c e]. cbn in B1, B2. subst. by destruct (kp_payload k).
Qed.

(** A queued packet that fits the receive buffer is delivered with its id and its
    payload, whatever other attributes come with it. *)
Lemma recv_kernel_packet k :
  kernel_packet_ok k -> len (kernel_msg k) <= recv_capacity ->
  recv_packet (Some (kernel_msg k)) = Val (RecvPacket (mkNfPacket (kp_id k) (kp_payload k))).
Proof.
  intros Hk Hn. unfold recv_packet. unfold recv_capacity in *.
  rewrite take_ge by (unfold len in Hn; lia).
  unfold kernel_msg in *. rewrite len_netlink_frame in Hn.
  rewrite <- (app_nil_r (netlink_frame _ _ _ _ _ _ _)).
  rewrite parse_frame; [|done|done|by destruct Hk|lia].
  rewrite bind_Val_l. by destruct (kernel_attrs_read k Hk) as [-> ->].
Qed.

(** A longer one is cut by the buffer, fails the length test and is skipped. *)
Lemma oversized_packet_skipped k :
  recv_capacity < len (kernel_msg k) < 2 ^ 32 ->
  recv_packet (Some (kernel_msg k)) = Val RecvUnrecognized.
Proof.
  intros Hn. unfold recv_packet, recv_capacity in *. unfold kernel_msg in *.
  set (l := kernel_attrs k) in *. rewrite len_netlink_frame in Hn.
  set (N := 20 + len (nla_frames l)) in *.
  set (h := to_le32 N ++ to_le16 (nfgenmsg_type NFNL_SUBSYS_QUEUE NFQNL_MSG_PACKET) ++
            to_le16 0 ++ to_le32 0 ++ to_le32 0).
  set (m := netlink_frame _ _ _ _ _ _ _).
  assert (Hb : exists b, take (Z.to_nat 65536) m = h ++ b).
  { exists (take (Z.to_nat 65536 - 16) (drop 16 m)).
    rewrite <- (take_drop 16 m) at 1. rewrite take_app_ge by (rewrite length_take; lia).
    f_equal. }
  assert (Hl : len (take (Z.to_nat 65536) m) = 65536).
  { assert (len m = N) by apply len_netlink_frame. unfold len in *. rewrite length_take. lia. }
  destruct Hb as [b Hb]. rewrite Hb in Hl |- *. unfold parse_netfilter_message.
  rewrite Hl. change (65536 <? 16) with false. cbv iota.
  rewrite (slice_mid [] h b 0 16 eq_refl eq_refl : slice (h ++ b) 0 16 = Val h), bind_Val_l.
  rewrite read4_eq, !idx_byte_at, !bind_Val_l by (change (len h) with 16; lia).
  change (from_ne32 _ _ _ _)
    with (from_be32 (u8 (N / 16777216)) (u8 (N / 65536)) (u8 (N / 256)) (u8 N)).
  rewrite from_to_be32 by lia.
  by replace (65536 <? N) with true by (symmetry; apply Z.ltb_lt; lia); rewrite orb_true_r.
Qed.

(** ** The loop on the wire *)

(** What a turn of the loop receives: a queued packet, or a failing [recv]. *)
Definition delivers (w : wire_turn) (d : option kernel_packet) : Prop :=
  Forall set_wf (w_sets w) /\
  match d with
  | Some k => w_datagram w = Some (kernel_msg k) /\ kernel_packet_ok k /\
              len (kernel_msg k) <= recv_capacity /\
              from_option payload_safe True (kp_payload k)
  | None => w_datagram w = None
  end.

(** The turn of [B4Engine] that a delivery amounts to. *)
Definition turn_of (w : wire_turn) (d : option kernel_packet) : turn :=
  mkTurn (match d with
          | Some k => RecvPacket (mkNfPacket (kp_id k) (kp_payload k))
          | None => RecvErr
          end) (w_now w) (w_sets w) (w_verdict_ok w).

Lemma wire_loop_turns env ws ds st :
  Forall2 delivers ws ds ->
  wire_loop env ws st = interception_loop env (zip_with turn_of ws ds) st.
Proof.
  intros H. revert st. induction H as [|w d ws ds [_ Hd] _ IH]; intros st; [done|].
  cbn [wire_loop zip_with interception_loop]. unfold turn_of at 1.
  destruct d as [k|].
  - destruct Hd as (-> & Hk & Hn & _). rewrite recv_kernel_packet, bind_Val_l by done.
    destruct (loop_body _ _ st); [apply IH|done].
  - rewrite Hd. cbn [recv_packet]. rewrite bind_Val_l.
    destruct (loop_body _ _ st); [apply IH|done].
Qed.

Lemma turns_safe ws ds : Forall2 delivers ws ds -> Forall turn_safe (zip_with turn_of ws ds).
Proof.
  intros H. induction H as [|w d ws ds [Hs Hd] _ IH]; cbn; [constructor|].
  constructor; [|done]. split; [done|]. destruct d as [k|]; [|done].
  destruct Hd as (_ & _ & _ & Hp). unfold packet_safe. cbn. by destruct (kp_payload k).
Qed.

Lemma received_turns ws ds :
  Forall2 delivers ws ds ->
  map packet_id (received (zip_with turn_of ws ds)) = map kp_id (omap id ds).
Proof.
  intros H. unfold received. induction H as [|w d ws ds _ _ IH]; [done|].
  cbn [zip_with omap list_omap]. destruct d as [k|]; cbn; by rewrite IH.
Qed.

(** Message [m] accepts packet [k]: the code's encoding of an ACCEPT for its id,
    which is the netlink message of a verdict unless a replacement payload
    overflows the length field. *)
Definition accepts (queue_num : Z) (k : kernel_packet) (m : list Z) : Prop :=
  exists pl, let v := mkVerdict (kp_id k) NF_ACCEPT pl in
    m = verdict_msg queue_num v /\
    (from_option len 0 pl <= 65531 ->
     m = netlink_frame (nfgenmsg_type NFNL_SUBSYS_QUEUE NFQNL_MSG_VERDICT) NLM_F_REQUEST 0 0
           NFPROTO_UNSPEC queue_num (verdict_attrs v)).

Lemma accepts_all q ks vs :
  map v_id vs = map kp_id ks -> Forall (fun v => v_verdict v = NF_ACCEPT) vs ->
  Forall2 (accepts q) ks (map (verdict_msg q) vs).
Proof.
  revert ks. induction vs as [|[i a pl] vs IH]; intros [|k ks] Hid Hacc;
    [constructor|done|done|].
  cbn in Hid. injection Hid as -> Hid. inversion Hacc as [|? ? Ha Hacc']; subst.
  cbn in Ha. subst a. constructor; [|by apply IH].
  exists pl. split; [done|]. exact (verdict_msg_frame q (mkVerdict (kp_id k) NF_ACCEPT pl)).
Qed.


Definition example_packet : kernel_packet :=
  mkKernelPacket 0x11223344 [8; 0; 1; 0] (Some syn_sack) [(NFQA_IFINDEX_INDEV, [0; 0; 0; 2])]
    [(NFQA_CAP_LEN, [0; 0; 5; 220])] 2 1.


(** A queued packet whose message is longer than the receive buffer gets no
    verdict: only the error counter moves. *)
Lemma oversized_packet_gets_no_verdict env k now sets ok st :
  recv_capacity < len (kernel_msg k) < 2 ^ 32 ->
  wire_loop env [mkWireTurn (Some (kernel_msg k)) now sets ok] st = Val (on_stats add_errors st).
Proof. intros H. cbn [wire_loop w_datagram]. by rewrite oversized_packet_skipped. Qed.

(** The message type is tested on its low byte only: a message of any other
    subsystem whose own type is 0 is taken for a queued packet with id 0. *)
Lemma foreign_message_taken_for_packet subsys flags seq pid fam res :
  0 <= subsys < 256 ->
  recv_packet (Some (netlink_frame (nfgenmsg_type subsys 0) flags seq pid fam res [])) =
  Val (RecvPacket (mkNfPacket 0 None)).
Proof.
  intros Hs. unfold recv_packet, recv_capacity.
  assert (Ht : nfgenmsg_type subsys 0 = subsys * 256) 
    by (unfold nfgenmsg_type; rewrite lor_shiftl by lia; lia).
  pose proof (len_netlink_frame (nfgenmsg_type subsys 0) flags seq pid fam res []) as Hn.
  rewrite Ht in Hn |- *. rewrite take_ge by (unfold len in Hn; cbn in Hn |- *; lia).
  rewrite <- (app_nil_r (netlink_frame _ _ _ _ _ _ _)).
  rewrite parse_frame; [done|lia| |constructor|by vm_compute].
  change 0xff with (Z.ones 8). rewrite Z.land_ones by lia. apply Z.mod_mul. lia.
Qed.

(** A replacement payload of 65532 bytes or more does not fit the length field of
    its attribute, which then reads 0 to 3. *)
Lemma long_payload_overflows_length d t :
  65532 <= len d < 65536 ->
  exists rest, push_nla [] t d = to_le16 (len d - 65532) ++ rest.
Proof.
  intros Hd. exists (to_le16 t ++ d ++ nla_pad (4 + len d)). unfold push_nla.
  rewrite push_zeros_pad by (change (Z.of_nat 3) with 3; zmod_lia).
  replace (u16 (len d + 4)) with (len d - 65532) by zmod_lia.
  assert (E : forall x, len ([] ++ to_le16 x ++ to_le16 t ++ d) = 4 + len d)
    by (intros; len_norm; lia).
  by rewrite E, <- !app_assoc.
Qed.

(** ** Configuration *)

Definition cmd_attrs (cmd pf : Z) : list (Z * list Z) := [(NFQA_CFG_CMD, [cmd; 0; 0; pf])].

Definition param_attrs (copy_range : Z) : list (Z * list Z) :=
  [(NFQA_CFG_PARAMS, to_be32 copy_range ++ [NFQNL_COPY_PACKET; 0; 0; 0]);
   (NFQA_CFG_FLAGS, [0; 0; 0; NFQNL_CFG_F_FAIL_OPEN]);
   (NFQA_CFG_MASK, [0; 0; 0; NFQNL_CFG_F_FAIL_OPEN]);
   (NFQA_CFG_QUEUE_MAXLEN, [0; 0; 16; 0])].

(** The four configuration requests: unbind and bind the IPv4 family, bind the
    queue, and its parameters with the fail-open flag under its mask. *)
Definition config_frames (queue_num copy_range : Z) : list (list Z) :=
  map (fun '(res, attrs) =>
         netlink_frame (nfgenmsg_type NFNL_SUBSYS_QUEUE NFQNL_MSG_CONFIG)
           (Z.lor NLM_F_REQUEST NLM_F_ACK) 0 0 NFPROTO_UNSPEC res attrs)
    [(0, cmd_attrs NFQNL_CFG_CMD_PF_UNBIND AF_INET);
     (0, cmd_attrs NFQNL_CFG_CMD_PF_BIND AF_INET);
     (queue_num, cmd_attrs NFQNL_CFG_CMD_BIND 0);
     (queue_num, param_attrs copy_range)].

(** [NLMSG_ERROR] with the given [i32] code: 0 is an acknowledgement. *)
Definition error_reply (err : Z) : list Z :=
  to_le32 36 ++ to_le16 2 ++ to_le16 0 ++ to_le32 0 ++ to_le32 0 ++ to_le32 (u32 err).

Lemma check_error_reply err :
  - 2 ^ 31 <= err < 2 ^ 31 ->
  check_reply (error_reply err) =
  Val (if err =? 0 then None else Some (RawOsError (- err))).
Proof.
  intros He. unfold check_reply. change (4 <=? len (error_reply err)) with true. cbv iota.
  rewrite !idx_byte_at, !bind_Val_l by (change (len (error_reply err)) with 20; lia).
  change (from_ne16 _ _ =? 2) with true. change (16 <=? len (error_reply err)) with true.
  cbn [andb]. rewrite read4_eq, bind_Val_l by (change (len (error_reply err)) with 20; lia).
  change (from_ne32 _ _ _ _) with
    (from_be32 (u8 (u32 err / 16777216)) (u8 (u32 err / 65536)) (u8 (u32 err / 256))
       (u8 (u32 err))).
  rewrite from_to_be32 by (apply wrap_range; lia).
  replace (as_i32 (u32 err)) with err; [done|]. unfold as_i32. case_match; zmod_lia.
Qed.

(** Sending requests to a kernel that answers the [n]-th with code [err n]. *)
Lemma send_configs_until_error kernel err msgs frames sent :
  (forall n, - 2 ^ 31 <= err n < 2 ^ 31) ->
  (forall sent m, kernel sent m = Reply (error_reply (err (length sent)))) ->
  Forall2 (fun m f => with_ack m = Val f) msgs frames ->
  (forall n, (length sent <= n < length sent + length frames)%nat -> err n = 0) /\
    send_configs kernel msgs sent = Val (sent ++ frames, None) \/
  exists n, (n < length frames)%nat /\ err (length sent + n)%nat <> 0 /\
    send_configs kernel msgs sent =
    Val (sent ++ take (S n) frames, Some (RawOsError (- err (length sent + n)%nat))).
Proof.
  intros He Hk H. revert sent. induction H as [|m f msgs frames Hm _ IH]; intros sent.
  { left. split; [cbn; lia|]. cbn. by rewrite app_nil_r. }
  cbn [send_configs]. unfold send_config. rewrite Hm, bind_Val_l, Hk.
  change (take 512 (error_reply ?e)) with (error_reply e).
  rewrite check_error_reply, !bind_Val_l by apply He.
  destruct (err (length sent) =? 0) eqn:E.
  - apply Z.eqb_eq in E. destruct (IH (sent ++ [f])) as [[Hz ->]|(n & Hn & Hnz & ->)];
      rewrite length_app in *; cbn [length] in *.
    + left. split; [|by rewrite <- app_assoc]. intros n Hn.
      destruct (decide (n = length sent)) as [->|]; [done|]. apply Hz. lia.
    + right. exists (S n). rewrite <- app_assoc.
      replace (length sent + 1 + n)%nat with (length sent + S n)%nat in * by lia.
      split; [lia|]. done.
  - apply Z.eqb_neq in E. right. exists 0%nat. rewrite Nat.add_0_r. cbn. split; [lia|]. done.
Qed.

Lemma config_msgs_acked q copy_range :
  Forall2 (fun m f => with_ack m = Val f)
    [config_msg NFQNL_CFG_CMD_PF_UNBIND (Some AF_INET) 0;
     config_msg NFQNL_CFG_CMD_PF_BIND (Some AF_INET) 0;
     config_msg NFQNL_CFG_CMD_BIND None q; build_config_params copy_range q]
    (config_frames q copy_range).
Proof.
  repeat constructor.
Qed.

(** Configuring the queue: against a kernel that answers each request with an
    acknowledgement or an error code, either all four requests are acknowledged,
    they are on the wire in order, and the last one turns fail-open on together
    with its mask; or the first refusal is returned as the error and nothing is
    sent after it. *)
Theorem configure_complete_or_refused kernel err queue_num copy_range :
  (forall n, - 2 ^ 31 <= err n < 2 ^ 31) ->
  (forall sent m, kernel sent m = Reply (error_reply (err (length sent)))) ->
  (forall n, (n < 4)%nat -> err n = 0) /\
    configure kernel queue_num copy_range [] = Val (config_frames queue_num copy_range, None) \/
  exists n, (n < 4)%nat /\ err n <> 0 /\
    configure kernel queue_num copy_range [] =
    Val (take (S n) (config_frames queue_num copy_range), Some (RawOsError (- err n))).
Proof.
  intros He Hk. unfold configure.
  destruct (send_configs_until_error kernel err _ _ [] He Hk (config_msgs_acked queue_num copy_range))
    as [[Hz ->]|(n & Hn & Hnz & ->)].
  - left. split; [|done]. intros n Hn. apply Hz. cbn. lia.
  - right. by exists n.
Qed.

Lemma configure_complete_or_refused_witness :
  (forall n, (n < 4)%nat -> (fun n => if (n =? 2)%nat then -1 else 0) n = 0) /\
    configure (fun sent _ => Reply (error_reply (if (length sent =? 2)%nat then -1 else 0)))
      1 65536 [] = Val (config_frames 1 65536, None) \/
  exists n, (n < 4)%nat /\ (fun n => if (n =? 2)%nat then -1 else 0) n <> 0 /\
    configure (fun sent _ => Reply (error_reply (if (length sent =? 2)%nat then -1 else 0)))
      1 65536 [] =
    Val (take (S n) (config_frames 1 65536),
         Some (RawOsError (- (fun n => if (n =? 2)%nat then -1 else 0) n))).
Proof.
  apply (configure_complete_or_refused
    (fun sent _ => Reply (error_reply (if (length sent =? 2)%nat then -1 else 0)))
    (fun n => if (n =? 2)%nat then -1 else 0) 1 65536).
  - intros n. cbv beta. destruct (n =? 2)%nat; vm_compute; split; (reflexivity || intros [=]).
  - reflexivity.
Defined.

(** The reply is indexed beyond the length that was tested: replies of four or
    five bytes, and error replies of 16 to 19 bytes, panic. *)
Lemma short_reply_panics r :
  (4 <= len r < 6 \/ (16 <= len r < 20 /\ from_ne16 (byte_at r 4) (byte_at r 5) = 2)) ->
  check_reply r = Panic.
Proof.
  unfold check_reply. intros [H|[H Ht]].
  - replace (4 <=? len r) with true by (symmetry; apply Z.leb_le; lia).
    destruct (idx r 4) eqn:E4; [|done]. rewrite bind_Val_l.
    by rewrite (idx_Panic r 5) by lia.
  - replace (4 <=? len r) with true by (symmetry; apply Z.leb_le; lia).
    rewrite !idx_byte_at, !bind_Val_l, Ht by lia.
    replace (16 <=? len r) with true by (symmetry; apply Z.leb_le; lia). cbn [andb].
    change (2 =? 2) with true. cbv iota. unfold read4.
    destruct (idx r 16); [|done]. destruct (idx r (16 + 1)); [|done].
    destruct (idx r (16 + 2)); [|done]. by rewrite (idx_Panic r (16 + 3)) by lia.
Qed.
