(* ===== verification/Qdisc.v ===== *)
(** * Traffic control (balansir-executor/src/qdisc.rs)

    The queueing-discipline backend of the executor: the netlink messages it builds for
    a shaping configuration, how it reads qdiscs back, removal, and the capability
    probe.  The kernel is the class [TcKernel]: links, the dump of qdiscs, and the
    replies to the new and delete requests.  [TcKernelOk] states what the backend relies
    on: a request the kernel refuses has no effect; a created qdisc replaces the one at its
    parent and is dumped with its kind and, in either of the two shapes the reader knows,
    its rate; an accepted delete request removes the qdisc it names. *)

From stdpp Require Import pretty.
From S2P Require Import Prelude Types IpText Text NetTypes.
#[local] Open Scope Z_scope.

(** ** Messages *)

Record TcHandle := mkHandle { major : Z; minor : Z }.

#[export] Instance TcHandle_eq_dec : EqDecision TcHandle.
Proof. solve_decision. Defined.

Definition BALANSIR_QDISC_HANDLE_MAJOR : Z := 0x0B51.

(** [TcHandle::ROOT], [TcHandle::INGRESS] and [TcHandle::from(0xffff_0000)]. *)
Definition TC_ROOT : TcHandle := mkHandle 0xffff 0xffff.
Definition TC_INGRESS : TcHandle := mkHandle 0xffff 0xfff1.
Definition ingress_handle : TcHandle := mkHandle 0xffff 0.
Definition our_handle : TcHandle := mkHandle BALANSIR_QDISC_HANDLE_MAJOR 0.

Inductive TcOption :=
| FqCodelTarget (us : Z)
| FqCodelMemoryLimit (bytes : Z)
| FqCodelEcn (on : Z)
| OtherNla (kind : Z) (value : list Z).

Inductive TcStats2 :=
| StatsBasic (bytes packets : Z)
| StatsQueue (qlen backlog drops overlimits : Z)
| StatsOther.

Inductive TcAttribute :=
| AttrKind (k : string)
| AttrOptions (l : list TcOption)
| AttrStats2 (l : list TcStats2)
| AttrOther.

Record TcMessage := mkTc {
  tc_index : Z;
  tc_handle : TcHandle;
  tc_parent : TcHandle;
  tc_attributes : list TcAttribute
}.

Definition NLM_F_CREATE : Z := 0x400.
Definition NLM_F_REPLACE : Z := 0x100.

(** Replies to a request: the request fails, or a stream of messages of which the
    error ones carry a code (an acknowledgement carries none). *)
Abbreviation tc_reply := (string + list (option Z))%type.

Class TcKernel (N : Type) := {
  k_link_index : string -> N -> string + option Z;
  k_link_names : N -> string + list (option string);
  k_qdiscs : Z -> N -> string + list TcMessage;
  k_new : TcMessage -> Z -> N -> N * tc_reply;
  k_del : TcMessage -> N -> N * tc_reply
}.

(** ** CAKE *)

Definition rate_from_le (bytes : list Z) : option Z :=
  let wide := take 8 (bytes ++ replicate 8 0) in
  let bytes_per_sec := foldr (fun b acc => b + 256 * acc) 0 wide in
  if 0 <? bytes_per_sec then Some (Z.min (bytes_per_sec * 8) u64_max) else None.

Definition cake_options (config : QosConfig) : list TcOption :=
  match q_bandwidth_bps config with
  | Some bps =>
      let bytes_per_sec := bps / 8 in
      [OtherNla 2 (to_le32 (u32 bytes_per_sec) ++ to_le32 0)]
  | None => []
  end ++
  match q_latency_target_ms config with
  | Some target_ms =>
      let target_us := u32 (Z.min (u64 (target_ms * 1000)) u32_max) in
      [OtherNla 8 (to_le32 target_us)]
  | None => []
  end ++
  match q_overhead_bytes config with
  | Some overhead => [OtherNla 6 (to_le32 overhead)]
  | None => []
  end ++
  (if q_wash config then [OtherNla 13 (to_le32 1)] else []) ++
  match q_memory_limit_bytes config with
  | Some memory => [OtherNla 10 (to_le32 (u32 (Z.min memory u32_max)))]
  | None => []
  end.

Inductive BlobScan := BlobRate (bps : Z) | NoRate | NotABlob.

Definition ne16 (b0 b1 : Z) : Z := from_be16 b1 b0.

(** [scan_cake_base_rate]; the offset grows by at least 12 in every turn, so the length
    of the payload is enough fuel. *)
Fixpoint scan_loop (fuel : nat) (raw : list Z) (off : Z) : exec BlobScan :=
  match fuel with
  | O => Panic
  | S fuel =>
      if off + 4 <=? len raw then
        b0 ← idx raw off; b1 ← idx raw (off + 1);
        let n := ne16 b0 b1 in
        b2 ← idx raw (off + 2); b3 ← idx raw (off + 3);
        let kind := ne16 b2 b3 in
        if (n <? 12) || (len raw <? off + n) then Val (if off =? 0 then NotABlob else NoRate) else
        payload ← slice raw (off + 4) (off + n);
        if (kind =? 2) && (8 <=? len payload) then
          Val (match rate_from_le payload with Some rate => BlobRate rate | None => NoRate end)
        else scan_loop fuel raw (off + Z.land (n + 3) (Z.lnot 3))
      else Val (if off =? 0 then NotABlob else NoRate)
  end.

Definition scan_cake_base_rate (raw : list Z) : exec BlobScan := scan_loop (S (length raw)) raw 0.

(** The [for option in options] of [cake_bandwidth_of]: [Some r] returns. *)
Fixpoint bandwidth_of_options (l : list TcOption) : exec (option (option Z)) :=
  match l with
  | [] => Val None
  | OtherNla kind raw :: l =>
      if negb (kind =? 2) then bandwidth_of_options l else
      s ← scan_cake_base_rate raw;
      match s with
      | BlobRate rate => Val (Some (Some rate))
      | NoRate => bandwidth_of_options l
      | NotABlob =>
          if 8 <=? len raw then Val (Some (rate_from_le (take 8 raw)))
          else bandwidth_of_options l
      end
  | _ :: l => bandwidth_of_options l
  end.

Fixpoint cake_bandwidth_of (attrs : list TcAttribute) : exec (option Z) :=
  match attrs with
  | [] => Val None
  | AttrOptions l :: attrs =>
      r ← bandwidth_of_options l;
      match r with Some r => Val r | None => cake_bandwidth_of attrs end
  | _ :: attrs => cake_bandwidth_of attrs
  end.

(** ** Statistics *)

Definition stats_item (acc : QdiscStats * bool) (i : TcStats2) : QdiscStats * bool :=
  let '(s, found) := acc in
  match i with
  | StatsBasic bytes packets =>
      (mkStats bytes packets (st_drops s) (st_overlimits s) (st_qlen s) (st_backlog_bytes s)
         (st_backlog_packets s) (st_bps s) (st_pps s), true)
  | StatsQueue qlen backlog drops overlimits =>
      (mkStats (st_bytes s) (st_packets s) drops overlimits qlen backlog
         (st_backlog_packets s) (st_bps s) (st_pps s), true)
  | StatsOther => acc
  end.

Definition qdisc_stats_of (attrs : list TcAttribute) : option QdiscStats :=
  let '(stats, found) :=
    fold_left (fun acc a => match a with AttrStats2 l => fold_left stats_item l acc | _ => acc end)
      attrs (mkStats 0 0 0 0 0 0 0 0 0, false) in
  if (found : bool) then Some stats else None.

(** ** The backend *)

Definition kind_of (attrs : list TcAttribute) : option string :=
  head (omap (fun a => match a with AttrKind k => Some k | _ => None end) attrs).

(** The reply loop of [send_tc] and [send_tc_del]. *)
Definition reply_result (r : tc_reply) : string + () :=
  match r with
  | inl e => inl e
  | inr msgs =>
      match head (omap id msgs) with
      | Some code => inl ("netlink error " +:+ pretty code)
      | None => inr ()
      end
  end.

Section Backend.
Context {N : Type} {kernel : TcKernel N}.

Definition ifindex (interface : string) (n : N) : string + Z :=
  match k_link_index interface n with
  | inl e => inl ("link " +:+ interface +:+ ": " +:+ e)
  | inr None => inl ("interface " +:+ interface +:+ " not found")
  | inr (Some i) => inr i
  end.

Definition qdiscs_for (interface : string) (n : N) : string + list TcMessage :=
  match ifindex interface n with
  | inl e => inl e
  | inr index =>
      match k_qdiscs index n with
      | inl e => inl e
      | inr l => inr (List.filter (fun m => tc_index m =? index) l)
      end
  end.

Definition send_tc (m : TcMessage) (flags : Z) (n : N) : N * (string + ()) :=
  let '(n, r) := k_new m flags n in (n, reply_result r).

Definition send_tc_del (m : TcMessage) (n : N) : N * (string + ()) :=
  let '(n, r) := k_del m n in (n, reply_result r).

Definition fq_codel_options (config : QosConfig) : list TcOption :=
  match q_latency_target_ms config with
  | Some target_ms => [FqCodelTarget (u32 (Z.min (u64 (target_ms * 1000)) u32_max))]
  | None => []
  end ++
  match q_memory_limit_bytes config with
  | Some memory => [FqCodelMemoryLimit (u32 (Z.min memory u32_max))]
  | None => []
  end ++
  (if q_ecn config then [FqCodelEcn 1] else []).

(** The message of [apply], or its refusal. *)
Definition apply_message (index : Z) (config : QosConfig) : string + TcMessage :=
  match q_direction config, q_kind config with
  | DirIngress, _ => inr (mkTc index ingress_handle TC_INGRESS [AttrKind "ingress"])
  | DirEgress, FqCodel =>
      let opts := fq_codel_options config in
      inr (mkTc index our_handle TC_ROOT
             (AttrKind "fq_codel" :: match opts with [] => [] | _ => [AttrOptions opts] end))
  | DirEgress, Cake =>
      inr (mkTc index our_handle TC_ROOT [AttrKind "cake"; AttrOptions (cake_options config)])
  | DirEgress, QIngress => inl "Ingress kind must use the Ingress direction"%string
  end.

Definition tc_apply (config : QosConfig) (n : N) : N * (string + ()) :=
  match ifindex (q_interface config) n with
  | inl e => (n, inl e)
  | inr index =>
      match apply_message index config with
      | inl e => (n, inl e)
      | inr m => send_tc m (Z.lor NLM_F_CREATE NLM_F_REPLACE) n
      end
  end.

Definition tc_remove (interface : string) (n : N) : N * (string + ()) :=
  match ifindex interface n with
  | inl e => (n, inl e)
  | inr index =>
      let '(n, _) := send_tc_del (mkTc index our_handle TC_ROOT []) n in
      let '(n, _) := send_tc_del (mkTc index ingress_handle TC_INGRESS []) n in
      (n, inr ())
  end.

Definition show_handle (h : TcHandle) : string := show_hex16 (major h) +:+ ":" +:+ show_hex16 (minor h).

Definition our_identity (m : TcMessage) : bool :=
  (major (tc_handle m) =? BALANSIR_QDISC_HANDLE_MAJOR) || bool_decide (tc_parent m = TC_INGRESS).

(** One message of the dump as it is reported. *)
Definition report_qdisc (interface : string) (index : Z) (m : TcMessage) : exec AppliedQdisc :=
  bw ← cake_bandwidth_of (tc_attributes m);
  Val (mkApplied interface index (show_handle (tc_handle m)) (show_handle (tc_parent m))
         (kind_of (tc_attributes m)) (our_identity m) (qdisc_stats_of (tc_attributes m)) bw).

Fixpoint report_all (interface : string) (index : Z) (l : list TcMessage) : exec (list AppliedQdisc) :=
  match l with
  | [] => Val []
  | m :: l => q ← report_qdisc interface index m; qs ← report_all interface index l; Val (q :: qs)
  end.

(** The [for interface in interfaces] of [state]; an interface that vanished is skipped. *)
Fixpoint state_of_links (names : list string) (n : N) : exec (list AppliedQdisc) :=
  match names with
  | [] => Val []
  | i :: names =>
      match qdiscs_for i n, ifindex i n with
      | inr msgs, inr index =>
          here ← report_all i index msgs; rest ← state_of_links names n; Val (here ++ rest)
      | _, _ => state_of_links names n
      end
  end.

Definition tc_state (interface : string) (n : N) : exec (string + list AppliedQdisc) :=
  if is_empty_str interface then
    match k_link_names n with
    | inl e => Val (inl e)
    | inr names => l ← state_of_links (omap id names) n; Val (inr l)
    end
  else l ← state_of_links [interface] n; Val (inr l).
End Backend.

(** ** The capability probe *)

Section Probe.
(** [tc] of iproute2 run on the host; [None] when the binary is not found. *)
Context {H : Type} (tc : option (list string -> H -> H * (string + bool))).

Definition tc_qdisc_supported (kind : string) (h : H) : H * bool :=
  match tc with
  | None => (h, false)
  | Some run =>
      let '(h, attach) := run ["qdisc"; "add"; "dev"; "lo"; "root"; "handle"; "1:"; kind]%string h in
      let '(h, ok) :=
        match attach with
        | inr true => (h, true)
        | inr false =>
            let '(h, r) :=
              run ["qdisc"; "replace"; "dev"; "lo"; "root"; "handle"; "1:"; kind]%string h in
            (h, match r with inr ok => ok | inl _ => false end)
        | inl _ => (h, false)
        end in
      let '(h, _) := run ["qdisc"; "del"; "dev"; "lo"; "root"]%string h in
      (h, ok)
  end.

(** [modules]: the text of /proc/modules, empty when unreadable; [net]: the entries of
    /sys/class/net, [None] when unreadable. *)
Definition probe_qos_capabilities (modules : string) (net : option (list string)) (h : H)
  : H * QosCapabilities :=
  let module_present name := existsb (fun l => starts_with l name) (lines modules) in
  let proc_ok := negb (is_empty_str modules) in
  let '(h, cake) := tc_qdisc_supported "cake" h in
  let '(h, fq) := tc_qdisc_supported "fq_codel" h in
  let fq_codel := fq || (proc_ok && module_present "sch_fq_codel"%string) in
  let '(h, htb) := tc_qdisc_supported "htb" h in
  let '(h, netem) := tc_qdisc_supported "netem" h in
  let ingress := true in
  let ifb_present := from_option (existsb (fun e => starts_with e "ifb")) false net in
  (h, mkQosCaps cake fq_codel ingress htb netem (cake || fq_codel) (ifb_present && ingress)).
End Probe.

(** ** The recording backend *)

Definition record_qdisc (config : QosConfig) (m : gmap string QdiscKind) : gmap string QdiscKind :=
  <[q_interface config := q_kind config]> m.

Definition record_qdisc_remove (interface : string) (m : gmap string QdiscKind) : gmap string QdiscKind :=
  delete interface m.

Definition record_qdisc_state (interface : string) (m : gmap string QdiscKind) : list AppliedQdisc :=
  map (fun '(name, kind) =>
         mkApplied name 0 "balansir:recorded" "record-only" (Some (qdisc_as_str kind)) true None None)
    (List.filter (fun e => is_empty_str interface || String.eqb e.1 interface) (map_to_list m)).

(** ** Reading rates back *)

Lemma align4_up n : n <= Z.land (n + 3) (Z.lnot 3).
Proof. rewrite land_lnot3. zmod_lia. Qed.

(** The scan of a payload neither panics nor runs out of fuel. *)
Lemma scan_loop_returns fuel raw off :
  Forall is_byte raw -> 0 <= off -> (0 < fuel)%nat -> len raw - off < Z.of_nat fuel ->
  returns (scan_loop fuel raw off).
Proof.
  intros Hb. revert off. induction fuel as [|fuel IH]; intros off Ho Hf0 Hf; [lia|].
  cbn [scan_loop]. destruct (off + 4 <=? len raw) eqn:E; [|by eauto with balansir].
  apply Z.leb_le in E. rewrite !idx_byte_at by lia. rewrite !bind_Val_l.
  set (n := ne16 _ _). destruct ((n <? 12) || _) eqn:E2; [by eauto with balansir|].
  apply orb_false_iff in E2 as [H1%Z.ltb_ge H2%Z.ltb_ge].
  destruct (slice_returns raw (off + 4) (off + n)) as [d ->]; [lia..|].
  rewrite bind_Val_l. destruct (_ && _); [by eauto with balansir|].
  pose proof (align4_up n). apply IH; lia.
Qed.

Lemma scan_returns raw : Forall is_byte raw -> returns (scan_cake_base_rate raw).
Proof. intros. apply scan_loop_returns; [done|lia|lia|unfold len; lia]. Qed.

(** A lone rate value is not mistaken for a chain of attributes: its eight bytes cannot
    hold one. *)
Lemma scan_lone raw : len raw = 8 -> scan_cake_base_rate raw = Val NotABlob.
Proof.
  intros H. unfold scan_cake_base_rate. cbn [scan_loop].
  replace (0 + 4 <=? len raw) with true by (symmetry; apply Z.leb_le; lia).
  rewrite !idx_byte_at by lia. rewrite !bind_Val_l. set (n := ne16 _ _).
  replace ((n <? 12) || _) with true by (symmetry; apply orb_true_iff; lia). done.
Qed.

Lemma rate_le32 v :
  0 <= v < 2 ^ 32 ->
  rate_from_le (to_le32 v ++ to_le32 0) = if v =? 0 then None else Some (8 * v).
Proof.
  intros Hv. unfold rate_from_le. unfold to_le32. cbn [app take replicate foldr].
  replace (u8 v + _) with v.
  - destruct (v =? 0) eqn:E; [by apply Z.eqb_eq in E as ->|].
    replace (0 <? v) with true by lia. f_equal. unfold u64_max. lia.
  - change (u8 0) with 0. change (u8 (0 / 256)) with 0. change (u8 (0 / 65536)) with 0.
    change (u8 (0 / 16777216)) with 0.
    pose proof (from_to_be32 v Hv) as E. unfold from_be32 in E. lia.
Qed.

(** The rate the kernel is asked for, as it is read back: whole bytes per second, modulo
    32 bits, and nothing when that is zero. *)
Definition read_back (bps : Z) : option Z :=
  let r := u32 (bps / 8) in if r =? 0 then None else Some (8 * r).

(** The options of a message, and the rates among them. *)
Definition options (attrs : list TcAttribute) : list TcOption :=
  concat (omap (fun a => match a with AttrOptions l => Some l | _ => None end) attrs).

Definition rates (l : list TcOption) : list (list Z) :=
  omap (fun o => match o with OtherNla kind v => if kind =? 2 then Some v else None | _ => None end) l.

(** An attribute with an 8-byte value, inside a nested payload. *)
Definition nla8 (kind : Z) (v : list Z) : list Z := [12; 0; kind; 0] ++ v.

(** How the options a qdisc was created with are dumped: attribute by attribute, or the
    nested payload as one value that starts with the rate.  The rate is the one given, and
    absent or zero when none was given; the dump may hold further options. *)
Inductive dumped (given : list TcOption) : list TcOption -> Prop :=
| dumped_lone l : rates l = rates given -> dumped given l
| dumped_unlimited l : rates given = [] -> rates l = [replicate 8 0] -> dumped given l
| dumped_blob v rest : rates given = [v] \/ (rates given = [] /\ v = replicate 8 0) ->
    Forall is_byte rest -> dumped given [OtherNla 2 (nla8 2 v ++ rest)].

Lemma bandwidth_of_lone l :
  bandwidth_of_options l =
  match rates l with
  | [] => Val None
  | v :: _ => if len v =? 8 then Val (Some (rate_from_le v)) else bandwidth_of_options l
  end.
Proof.
  induction l as [|[| | |kind v] l IH]; [done|exact IH..|]. unfold rates. cbn [omap list_omap].
  destruct (kind =? 2) eqn:E.
  - destruct (len v =? 8) eqn:El; [|done]. apply Z.eqb_eq in El. cbn [bandwidth_of_options].
    rewrite E. cbn [negb]. rewrite scan_lone by done. rewrite bind_Val_l.
    replace (8 <=? len v) with true by (symmetry; apply Z.leb_le; lia).
    by rewrite take_ge by (unfold len in El; lia).
  - cbn [bandwidth_of_options]. rewrite E. exact IH.
Qed.

Lemma scan_blob v rest :
  len v = 8 ->
  scan_cake_base_rate (nla8 2 v ++ rest) =
  Val (match rate_from_le v with Some rate => BlobRate rate | None => NoRate end).
Proof.
  intros Hv. assert (Hl : len (nla8 2 v ++ rest) = 12 + len rest) by (rewrite len_app; unfold nla8; rewrite len_app, Hv; done).
  pose proof (len_nonneg rest) as Hr. unfold scan_cake_base_rate. cbn [scan_loop].
  replace (0 + 4 <=? len (nla8 2 v ++ rest)) with true by lia.
  change (idx (nla8 2 v ++ rest) 0) with (Val 12). change (idx (nla8 2 v ++ rest) (0 + 1)) with (Val 0).
  change (idx (nla8 2 v ++ rest) (0 + 2)) with (Val 2). change (idx (nla8 2 v ++ rest) (0 + 3)) with (Val 0).
  rewrite !bind_Val_l. change (ne16 12 0) with 12. change (ne16 2 0) with 2.
  replace ((12 <? 12) || (len (nla8 2 v ++ rest) <? 0 + 12)) with false by lia.
  unfold slice. replace ((0 <=? 0 + 4) && _ && _) with true by lia.
  rewrite bind_Val_l.
  assert (Es : take (Z.to_nat (0 + 12 - (0 + 4))) (drop (Z.to_nat (0 + 4)) (nla8 2 v ++ rest)) = v).
  { change (drop (Z.to_nat (0 + 4)) (nla8 2 v ++ rest)) with (v ++ rest).
    change (Z.to_nat (0 + 12 - (0 + 4))) with 8%nat. rewrite take_app_le, take_ge; [done|..]; unfold len in Hv; lia. }
  rewrite Es, Hv. by destruct (rate_from_le v).
Qed.

Lemma bandwidth_of_options_app l1 l2 :
  bandwidth_of_options (l1 ++ l2) =
  (r ← bandwidth_of_options l1; match r with Some r => Val (Some r) | None => bandwidth_of_options l2 end).
Proof.
  induction l1 as [|o l1 IH]; [done|]. destruct o as [| | |kind v]; [exact IH..|].
  cbn [app bandwidth_of_options]. destruct (negb (kind =? 2)); [exact IH|].
  destruct (scan_cake_base_rate v) as [[]|]; [done|exact IH| |done].
  rewrite !bind_Val_l. destruct (8 <=? len v); [done|exact IH].
Qed.

Lemma bandwidth_of_all attrs :
  cake_bandwidth_of attrs = (r ← bandwidth_of_options (options attrs); Val (default None r)).
Proof.
  induction attrs as [|a attrs IH]; [done|]. destruct a as [|l| |]; [exact IH| |exact IH..].
  cbn [cake_bandwidth_of]. unfold options. cbn [omap list_omap concat].
  fold (options attrs). rewrite bandwidth_of_options_app, IH.
  destruct (bandwidth_of_options l) as [[]|]; done.
Qed.

(** The rate of a qdisc is read back from either shape. *)
Lemma dumped_bandwidth given attrs :
  dumped given (options attrs) -> Forall (fun v => len v = 8) (rates given) ->
  cake_bandwidth_of attrs = Val (head (rates given) ≫= rate_from_le).
Proof.
  intros Hd Hlen. rewrite bandwidth_of_all. destruct Hd as [l E|l E0 E|v rest E _].
  - rewrite bandwidth_of_lone, E. destruct Hlen as [|v vs Hv _]; [done|]. by rewrite Hv.
  - by rewrite bandwidth_of_lone, E, E0.
  - assert (Hv : len v = 8).
    { destruct E as [E|[_ ->]]; [|done]. rewrite E in Hlen. by inversion Hlen. }
    assert (Hh : head (rates given) ≫= rate_from_le = rate_from_le v)
      by (destruct E as [->|[-> ->]]; done).
    rewrite Hh. cbn [bandwidth_of_options]. change (negb (2 =? 2)) with false. cbv iota.
    rewrite scan_blob, bind_Val_l by done. by destruct (rate_from_le v).
Qed.

Lemma cake_rates config :
  rates (cake_options config) =
  match q_bandwidth_bps config with
  | Some b => [to_le32 (u32 (b / 8)) ++ to_le32 0]
  | None => []
  end.
Proof.
  unfold cake_options. by destruct (q_bandwidth_bps config), (q_latency_target_ms config),
    (q_overhead_bytes config), (q_wash config), (q_memory_limit_bytes config).
Qed.

Lemma fq_codel_rates config : rates (fq_codel_options config) = [].
Proof.
  unfold fq_codel_options.
  by destruct (q_latency_target_ms config), (q_memory_limit_bytes config), (q_ecn config).
Qed.

Lemma cake_read_back config attrs :
  dumped (cake_options config) (options attrs) ->
  cake_bandwidth_of attrs = Val (q_bandwidth_bps config ≫= read_back).
Proof.
  intros Hd. rewrite (dumped_bandwidth _ _ Hd); rewrite cake_rates; destruct (q_bandwidth_bps config) as [b|]; try done.
  - cbn [head mbind option_bind]. rewrite rate_le32 by (apply wrap_range; lia). done.
  - by repeat constructor.
Qed.

Lemma read_back_exact b : b mod 8 = 0 -> 8 <= b < 2 ^ 35 -> read_back b = Some b.
Proof.
  intros Hm Hb. unfold read_back. rewrite wrap_small by (change (2 ^ 32) with 4294967296; zmod_lia).
  replace (b / 8 =? 0) with false by (symmetry; apply Z.eqb_neq; zmod_lia).
  f_equal. zmod_lia.
Qed.

(** The other shape the documentation names, a rate followed by further attributes, is
    read as a chain when the low 16 bits of the rate look like a length: here a rate of
    20 bytes per second is not found. *)
Lemma rate_before_attributes_misread :
  scan_cake_base_rate (to_le32 20 ++ to_le32 0 ++ replicate 16 0) = Val NoRate.
Proof. reflexivity. Qed.

(** ** What the backend relies on *)

Class TcKernelOk (N : Type) {kernel : TcKernel N} := {
  (** the links, and the qdisc at each parent of a link *)
  tk_links : N -> list (string * Z);
  tk_qdisc : N -> Z -> TcHandle -> option TcMessage;
  tk_link_names : forall n, k_link_names n = inr (map (fun l => Some l.1) (tk_links n));
  tk_links_nodup : forall n, List.NoDup (map fst (tk_links n)) /\ List.NoDup (map snd (tk_links n)) /\
    ~ In EmptyString (map fst (tk_links n));
  tk_link_index : forall n name,
    k_link_index name n = inr (snd <$> List.find (fun l => String.eqb l.1 name) (tk_links n));
  (** the dump of a link lists its qdiscs, perhaps among those of others *)
  tk_dump : forall n i, exists l, k_qdiscs i n = inr l /\
    forall m, In m l /\ tc_index m = i <-> tk_qdisc n i (tc_parent m) = Some m /\ tc_index m = i;
  tk_header : forall n i p m, tk_qdisc n i p = Some m -> tc_index m = i /\ tc_parent m = p;
  tk_bytes : forall n i p m l k v, tk_qdisc n i p = Some m -> In (AttrOptions l) (tc_attributes m) ->
    In (OtherNla k v) l -> Forall is_byte v;
  (** create or replace: refused without effect, or the qdisc is at its parent *)
  tk_new : forall n m n' r,
    In (tc_index m) (map snd (tk_links n)) ->
    k_new m (Z.lor NLM_F_CREATE NLM_F_REPLACE) n = (n', r) ->
    tk_links n' = tk_links n /\
    match reply_result r with
    | inl _ => forall i p, tk_qdisc n' i p = tk_qdisc n i p
    | inr _ =>
        (exists attrs, kind_of attrs = kind_of (tc_attributes m) /\
           dumped (options (tc_attributes m)) (options attrs) /\
           tk_qdisc n' (tc_index m) (tc_parent m) =
           Some (mkTc (tc_index m) (tc_handle m) (tc_parent m) attrs)) /\
        forall i p, (i, p) <> (tc_index m, tc_parent m) -> tk_qdisc n' i p = tk_qdisc n i p
    end;
  (** delete: refused without effect, or the qdisc named by parent and handle goes away *)
  tk_del : forall n m n' r,
    k_del m n = (n', r) ->
    tk_links n' = tk_links n /\
    match reply_result r with
    | inl _ => forall i p, tk_qdisc n' i p = tk_qdisc n i p
    | inr _ =>
        tk_qdisc n' (tc_index m) (tc_parent m) =
          (if bool_decide (tc_handle <$> tk_qdisc n (tc_index m) (tc_parent m) = Some (tc_handle m))
           then None else tk_qdisc n (tc_index m) (tc_parent m)) /\
        forall i p, (i, p) <> (tc_index m, tc_parent m) -> tk_qdisc n' i p = tk_qdisc n i p
    end
}.

Section BackendFacts.
Context {N : Type} {kernel : TcKernel N} {ok : TcKernelOk N}.

Lemma find_link (l : list (string * Z)) name i :
  List.NoDup (map fst l) ->
  snd <$> List.find (fun e => String.eqb e.1 name) l = Some i <-> In (name, i) l.
Proof.
  induction l as [|[a j] l IH]; [by split|]. cbn [map fst List.find]. intros Hn.
  apply List.NoDup_cons_iff in Hn as [Ha Hn]. cbn [In].
  destruct (String.eqb_spec a name) as [->|Hne].
  - cbn. split; [intros [= ->]; by left|]. intros [[= ->]|H]; [done|].
    exfalso. apply Ha. apply in_map_iff. by exists (name, i).
  - rewrite IH by done. split; [by right|]. intros [[= -> _]|H]; done.
Qed.

Lemma ifindex_link n name i : In (name, i) (tk_links n) <-> ifindex name n = inr i.
Proof.
  destruct (tk_links_nodup n) as (Hn & _ & _). rewrite <- find_link by done. unfold ifindex.
  rewrite tk_link_index. destruct (snd <$> _); split; congruence.
Qed.

Lemma bandwidth_returns attrs :
  (forall l k v, In (AttrOptions l) attrs -> In (OtherNla k v) l -> Forall is_byte v) ->
  returns (cake_bandwidth_of attrs).
Proof.
  assert (Ho : forall l, (forall k v, In (OtherNla k v) l -> Forall is_byte v) ->
               returns (bandwidth_of_options l)).
  { induction l as [|[] l IH]; intros H; cbn [bandwidth_of_options]; [eauto with balansir|..].
    1-3: apply IH; intros; apply (H k v); by right.
    assert (IH' : returns (bandwidth_of_options l)) by (apply IH; intros; apply (H k v); by right).
    destruct (negb _); [done|].
    destruct (scan_returns value) as [s ->]; [by apply (H kind value); left|].
    rewrite bind_Val_l. destruct s; [eauto with balansir|done|].
    destruct (8 <=? _); [eauto with balansir|done]. }
  induction attrs as [|a attrs IH]; intros H; cbn [cake_bandwidth_of]; [eauto with balansir|].
  assert (IH' : returns (cake_bandwidth_of attrs)) by (apply IH; intros; apply (H l k v); auto; by right).
  destruct a as [|l| |]; [done| |done|done].
  destruct (Ho l) as [r ->]; [intros k v; apply H; by left|].
  rewrite bind_Val_l. destruct r; [eauto with balansir|done].
Qed.

Lemma report_returns n name i p m : tk_qdisc n i p = Some m -> returns (report_qdisc name i m).
Proof.
  intros H. unfold report_qdisc.
  destruct (bandwidth_returns (tc_attributes m)) as [b ->]; [|by eexists].
  intros l k v. by eapply tk_bytes.
Qed.

Lemma report_all_spec name i l :
  (forall m, In m l -> returns (report_qdisc name i m)) ->
  exists qs, report_all name i l = Val qs /\
    forall q, In q qs <-> exists m, In m l /\ report_qdisc name i m = Val q.
Proof.
  induction l as [|m l IH]; intros H; cbn [report_all].
  { exists []. split; [done|]. intros q. split; [done|]. by intros (m & [] & _). }
  destruct (H m ltac:(by left)) as [q Hq]. rewrite Hq, bind_Val_l.
  destruct IH as (qs & -> & Hqs); [intros; apply H; by right|]. rewrite bind_Val_l.
  exists (q :: qs). split; [done|]. intros q'. cbn [In]. rewrite Hqs. split.
  - intros [<-|(m' & ? & ?)]; [exists m; auto|exists m'; auto].
  - intros (m' & [<-|?] & ?); [left; congruence|right; eauto].
Qed.

(** What the report of the links [names] holds. *)
Definition reported (n : N) (names : list string) (q : AppliedQdisc) : Prop :=
  exists name i p m, In name names /\ In (name, i) (tk_links n) /\ tk_qdisc n i p = Some m /\
    report_qdisc name i m = Val q.

Lemma state_of_links_spec n names :
  (forall name, In name names -> In name (map fst (tk_links n))) ->
  exists l, state_of_links names n = Val l /\ forall q, In q l <-> reported n names q.
Proof.
  induction names as [|name names IH]; intros Hn; cbn [state_of_links].
  { exists []. split; [done|]. intros q. split; [done|]. by intros (? & ? & ? & ? & [] & _). }
  assert (Hl : In name (map fst (tk_links n))) by (apply Hn; by left).
  apply in_map_iff in Hl as ([name' i] & E & Hl). cbn in E. subst name'.
  assert (Hi := Hl). apply ifindex_link in Hi. unfold qdiscs_for. rewrite Hi.
  destruct (tk_dump n i) as (dump & -> & Hd).
  assert (Hf : forall m, In m (List.filter (fun m => tc_index m =? i) dump) <->
                         tk_qdisc n i (tc_parent m) = Some m).
  { intros m. rewrite filter_In, Z.eqb_eq, Hd. split; [by intros [? _]|].
    intros H. split; [done|]. by destruct (tk_header n i _ m H). }
  destruct (report_all_spec name i (List.filter (fun m => tc_index m =? i) dump)) as (here & -> & Hh).
  { intros m Hm. apply Hf in Hm. by eapply report_returns. }
  rewrite bind_Val_l. destruct IH as (rest & -> & Hr); [intros; apply Hn; by right|].
  rewrite bind_Val_l. exists (here ++ rest). split; [done|]. intros q.
  rewrite in_app_iff, Hh, Hr. split.
  - intros [(m & Hm & Hq)|(a & j & p & m & Ha & Hj & Hm & Hq)].
    + exists name, i, (tc_parent m), m. repeat split; [by left|done|by apply Hf|done].
    + exists a, j, p, m. repeat split; [by right|done..].
  - intros (a & j & p & m & [<-|Ha] & Hj & Hm & Hq).
    + left. apply ifindex_link in Hj. assert (j = i) as -> by congruence. exists m.
      split; [|done]. apply Hf. by destruct (tk_header n i p m Hm) as [_ ->].
    + right. exists a, j, p, m. done.
Qed.

(** The report of all links: exactly the qdiscs of the kernel. *)
Lemma tc_state_spec n :
  exists l, tc_state EmptyString n = Val (inr l) /\
    forall q, In q l <-> exists name i p m,
      In (name, i) (tk_links n) /\ tk_qdisc n i p = Some m /\ report_qdisc name i m = Val q.
Proof.
  unfold tc_state. cbn [is_empty_str]. rewrite tk_link_names.
  assert (E : omap id (map (fun l => Some l.1) (tk_links n)) = map fst (tk_links n)).
  { induction (tk_links n) as [|l ls IH]; [done|]. cbn. by f_equal. }
  rewrite E. destruct (state_of_links_spec n (map fst (tk_links n)) ltac:(done)) as (l & -> & Hl).
  exists l. split; [done|]. intros q. rewrite Hl. unfold reported. split.
  - intros (a & i & p & m & _ & H). eauto.
  - intros (a & i & p & m & Ha & H). exists a, i, p, m. split; [|done].
    apply in_map_iff. by exists (a, i).
Qed.
End BackendFacts.
