(* ===== verification/QosManager.v ===== *)
(** * QoS convergence (balansir-daemon/src/subsystems.rs)

    The QoS part of the subsystem manager: the shaping intent, the pass that compares it
    with the qdiscs the executor reports and applies the difference, and the snapshot and
    events it publishes.  The executor is a record of the three calls the manager makes;
    [tc_exec] is the executor over the traffic-control backend of [Qdisc], with the
    results that [Dispatch] sends back. *)

From S2P Require Import Prelude Types IpText Text Errors NetTypes Plan Control Reconciler.
From S2P Require Import Nftables ExecutorService Gateway B4Adapt B4Control Ipc Dispatch Qdisc.
#[local] Open Scope Z_scope.

(** ** State *)

Record QosSnapshot := mkQosSnapshot {
  sn_desired : list QosConfig;
  sn_applied : list AppliedQdisc;
  sn_capabilities : option QosCapabilities;
  sn_drift : bool;
  sn_last_error : option string
}.

Inductive QosEvent :=
| QosError (detail : string)
| QosRemoved (interface : string)
| QosApplied (interface kind : string).

Record qos_manager := mkQosManager {
  qm_intent : list QosConfig;
  qm_snapshot : QosSnapshot;
  qm_events : list QosEvent
}.

(** The executor as the manager sees it. *)
Record QosExec (W : Type) := mkQosExec {
  x_qos_op : QosOp -> W -> exec (W * (string + QosResult));
  x_qos_state : string -> W -> exec (W * (string + list AppliedQdisc));
  x_qos_capabilities : W -> exec (W * (string + QosCapabilities))
}.
Arguments x_qos_op {W}. Arguments x_qos_state {W}. Arguments x_qos_capabilities {W}.

Definition qos_emit (e : QosEvent) (m : qos_manager) : qos_manager :=
  mkQosManager (qm_intent m) (qm_snapshot m) (qm_events m ++ [e]).

Definition set_snapshot (s : QosSnapshot) (m : qos_manager) : qos_manager :=
  mkQosManager (qm_intent m) s (qm_events m).

(** [s.qos.last_error = Some(..)], with or without [s.qos.drift = true] *)
Definition note_error (e : string) (drift : bool) (m : qos_manager) : qos_manager :=
  let s := qm_snapshot m in
  set_snapshot (mkQosSnapshot (sn_desired s) (sn_applied s) (sn_capabilities s)
                  (drift || sn_drift s) (Some e)) m.

(** ** Operations *)

Definition qos_result_to_result (r : QosResult) : string + () :=
  if qr_ok r then inr () else inl (qr_op r +:+ ": " +:+ qr_detail r).

Definition q_matches_config (q : AppliedQdisc) (config : QosConfig) : bool :=
  if negb (aq_our_identity q) || negb (String.eqb (aq_interface q) (q_interface config)) then false
  else if negb (bool_decide (aq_kind q = Some (qdisc_as_str (q_kind config)))) then false
  else match q_bandwidth_bps config, aq_bandwidth_bps q with
       | Some want, Some have => want =? have
       | Some _, None => match q_kind config with Cake => false | _ => true end
       | None, _ => true
       end.

Definition supported (caps : QosCapabilities) (config : QosConfig) : bool :=
  match q_kind config with
  | Cake => cap_cake caps
  | FqCodel => cap_fq_codel caps
  | QIngress => cap_ingress caps
  end.

Section Converge.
Context {W : Type} (x : QosExec W).

(** One call of [exec.qos_op] with its result. *)
Definition run_op (op : QosOp) (w : W) : exec (W * (string + ())) :=
  '(w, r) ← x_qos_op x op w;
  Val (w, match r with inr r => qos_result_to_result r | inl e => inl e end).

(** One qdisc of the orphan cleanup. *)
Definition clean_orphan (desired : list QosConfig) (q : AppliedQdisc)
    (s : qos_manager * W * option string) : exec (qos_manager * W * option string) :=
  let '(m, w, last_error) := s in
  if aq_our_identity q && negb (existsb (String.eqb (aq_interface q)) (map q_interface desired)) then
    '(w, r) ← run_op (QosRemove (aq_interface q)) w;
    match r with
    | inr _ => Val (qos_emit (QosRemoved (aq_interface q)) m, w, last_error)
    | inl e =>
        let detail := "orphan cleanup " +:+ aq_interface q +:+ ": " +:+ e in
        Val (note_error detail false (qos_emit (QosError detail) m), w, Some detail)
    end
  else Val s.

(** One configuration of the apply loop. *)
Definition apply_config (applied : list AppliedQdisc) (config : QosConfig)
    (s : qos_manager * W * option string) : exec (qos_manager * W * option string) :=
  let '(m, w, last_error) := s in
  if existsb (fun q => q_matches_config q config) applied then Val s else
  '(w, r) ← run_op (QosApply config) w;
  match r with
  | inr _ => Val (qos_emit (QosApplied (q_interface config) (qdisc_as_str (q_kind config))) m, w, last_error)
  | inl e =>
      let detail := "apply " +:+ qdisc_as_str (q_kind config) +:+ " on " +:+ q_interface config +:+
                    ": " +:+ e in
      Val (note_error detail false (qos_emit (QosError detail) m), w, Some detail)
  end.

Fixpoint run_all {A S} (f : A -> S -> exec S) (l : list A) (s : S) : exec S :=
  match l with
  | [] => Val s
  | a :: l => s ← f a s; run_all f l s
  end.

Definition drift_now (desired : list QosConfig) (fresh : list AppliedQdisc) : bool :=
  existsb (fun config => negb (existsb (fun q => q_matches_config q config) fresh)) desired ||
  existsb (fun q => aq_our_identity q &&
    negb (existsb (fun c => String.eqb (q_interface c) (aq_interface q) &&
                            String.eqb (qdisc_as_str (q_kind c)) (default EmptyString (aq_kind q)))
            desired)) fresh.

Definition converge_qos (m : qos_manager) (w : W) : exec (qos_manager * W * (string + ())) :=
  '(w, st) ← x_qos_state x EmptyString w;
  '(w, cp) ← x_qos_capabilities x w;
  match st, cp with
  | inl e, _ | _, inl e => Val (note_error e true m, w, inl e)
  | inr applied, inr caps =>
      let desired := qm_intent m in
      match List.find (fun c => negb (supported caps c)) desired with
      | Some c =>
          let detail := qdisc_as_str (q_kind c) +:+ " not supported on " +:+ q_interface c +:+
                        " (kernel/module missing)" in
          Val (qos_emit (QosError detail) (note_error detail true m), w, inl detail)
      | None =>
          s ← run_all (clean_orphan desired) applied (m, w, None);
          '(m, w, last_error) ← run_all (apply_config applied) desired s;
          '(w, fresh) ← x_qos_state x EmptyString w;
          let fresh := match fresh with inr l => l | inl _ => applied end in
          Val (set_snapshot (mkQosSnapshot desired fresh (Some caps) (drift_now desired fresh)
                               last_error) m, w, inr ())
      end
  end.

Definition set_qos_intent (configs : list QosConfig) (m : qos_manager) (w : W)
  : exec (qos_manager * W * (string + ())) :=
  converge_qos (mkQosManager configs (qm_snapshot m) (qm_events m)) w.

Definition remove_qos (interface : string) (m : qos_manager) (w : W)
  : exec (qos_manager * W * (string + ())) :=
  converge_qos (mkQosManager
    (List.filter (fun c => negb (String.eqb (q_interface c) interface)) (qm_intent m))
    (qm_snapshot m) (qm_events m)) w.
End Converge.

(** ** The executor over traffic control *)

Section TcExec.
Context {N : Type} {kernel : TcKernel N}.
(** [probe_qos_capabilities] on the host. *)
Context (probe : N -> N * QosCapabilities).

Definition tc_exec : QosExec N := {|
  x_qos_op op n :=
    Val (match op with
         | QosApply config =>
             let '(n, r) := qos_result "apply" (q_interface config)
                              (qdisc_as_str (q_kind config) +:+ " applied") (tc_apply config n) in
             (n, inr r)
         | QosRemove interface =>
             let '(n, r) := qos_result "remove" interface "shaping removed" (tc_remove interface n) in
             (n, inr r)
         end);
  x_qos_state interface n := r ← tc_state interface n; Val (n, r);
  x_qos_capabilities n := let '(n, caps) := probe n in Val (n, inr caps)
|}.
End TcExec.

(** ** Convergence *)

Section Convergence.
Context {N : Type} {kernel : TcKernel N} {tk : TcKernelOk N}.
Context (probe : N -> N * QosCapabilities).

(** The parent a configuration is attached to. *)
Definition slot (c : QosConfig) : TcHandle :=
  match q_direction c with DirEgress => TC_ROOT | DirIngress => TC_INGRESS end.

(** Configurations that mean what they say: the ingress kind goes with the ingress
    direction, only CAKE limits a rate, and its rate is a whole number of bytes per second
    below 2^32. *)
Definition config_ok (c : QosConfig) : Prop :=
  match q_direction c, q_kind c with
  | DirIngress, QIngress | DirEgress, FqCodel => q_bandwidth_bps c = None
  | DirEgress, Cake => from_option (fun b => b mod 8 = 0 /\ 8 <= b < 2 ^ 35) True (q_bandwidth_bps c)
  | _, _ => False
  end.

(** The qdisc of a configuration is in place: ours, of its kind, and with its rate when it
    asks for one. *)
Definition in_place (n : N) (c : QosConfig) : Prop :=
  exists i msg, In (q_interface c, i) (tk_links n) /\ tk_qdisc n i (slot c) = Some msg /\
    our_identity msg = true /\
    kind_of (tc_attributes msg) = Some (qdisc_as_str (q_kind c)) /\
    exists bw, cake_bandwidth_of (tc_attributes msg) = Val bw /\
      forall want, q_bandwidth_bps c = Some want -> bw = Some want.

(** The reserved handle is used at the root only, and the ingress hook has its one
    handle and no egress kind. *)
Definition placed (p : TcHandle) (msg : TcMessage) : Prop :=
  (our_identity msg = true -> p = TC_ROOT \/ p = TC_INGRESS) /\
  (p = TC_ROOT -> our_identity msg = true ->
     tc_handle msg = our_handle /\ kind_of (tc_attributes msg) <> Some "ingress"%string) /\
  (p = TC_INGRESS -> tc_handle msg = ingress_handle /\
     kind_of (tc_attributes msg) <> Some "fq_codel"%string /\
     kind_of (tc_attributes msg) <> Some "cake"%string).

Definition reserved (n : N) : Prop :=
  forall name i p msg, In (name, i) (tk_links n) -> tk_qdisc n i p = Some msg -> placed p msg.

(** On the interfaces of the intent, nothing of ours is left at a place the intent does
    not use. *)
Definition no_stale (desired : list QosConfig) (n : N) : Prop :=
  forall name i p msg, In (name, i) (tk_links n) -> tk_qdisc n i p = Some msg ->
    our_identity msg = true -> In name (map q_interface desired) ->
    exists c, In c desired /\ q_interface c = name /\ slot c = p.

(** The links are the same, and so are the qdiscs of the interfaces that satisfy [P]. *)
Definition same_on (P : string -> Prop) (n n' : N) : Prop :=
  tk_links n' = tk_links n /\
  forall name i p, In (name, i) (tk_links n) -> P name -> tk_qdisc n' i p = tk_qdisc n i p.

Lemma same_on_refl P n : same_on P n n.
Proof. done. Qed.

Lemma same_on_trans P n1 n2 n3 : same_on P n1 n2 -> same_on P n2 n3 -> same_on P n1 n3.
Proof.
  intros [L1 H1] [L2 H2]. split; [congruence|]. intros name i p Hl HP.
  rewrite (H2 name) by (rewrite ?L1; done). by apply (H1 name).
Qed.

Lemma same_on_weaken (P Q : string -> Prop) n n' :
  (forall s, Q s -> P s) -> same_on P n n' -> same_on Q n n'.
Proof. intros HPQ [L H]. split; [done|]. intros name i p Hl HQ. apply (H name); auto. Qed.

Lemma in_place_same (P : string -> Prop) n n' c :
  same_on P n n' -> P (q_interface c) -> in_place n c <-> in_place n' c.
Proof.
  intros [L H] HP. unfold in_place. split; intros (i & msg & Hl & Hq & R);
    exists i, msg; rewrite ?L in *; (split; [done|]); (split; [|done]).
  - by rewrite (H (q_interface c)).
  - by rewrite <- (H (q_interface c)).
Qed.

Lemma our_identity_slot n i p msg :
  tk_qdisc n i p = Some msg -> p = TC_INGRESS -> our_identity msg = true.
Proof.
  intros H ->. unfold our_identity. destruct (tk_header n i _ msg H) as [_ ->].
  by rewrite bool_decide_true, orb_true_r.
Qed.

Lemma matches_spec name i msg bw c :
  cake_bandwidth_of (tc_attributes msg) = Val bw ->
  exists q, report_qdisc name i msg = Val q /\
    aq_interface q = name /\ aq_our_identity q = our_identity msg /\
    aq_kind q = kind_of (tc_attributes msg) /\
    (q_matches_config q c = true <->
     our_identity msg = true /\ name = q_interface c /\
     kind_of (tc_attributes msg) = Some (qdisc_as_str (q_kind c)) /\
     match q_bandwidth_bps c, bw with
     | Some want, Some have => want = have
     | Some _, None => q_kind c <> Cake
     | None, _ => True
     end).
Proof.
  intros Hbw. unfold report_qdisc. rewrite Hbw, bind_Val_l. eexists. split; [done|].
  unfold q_matches_config. cbn. do 3 (split; [done|]).
  destruct (our_identity msg); cbn [negb orb]; [|split; [done|by intros [? _]]].
  destruct (String.eqb_spec name (q_interface c)) as [->|Hne]; cbn [negb];
    [|split; [done|by intros (_ & ? & _)]].
  destruct (decide (kind_of (tc_attributes msg) = Some (qdisc_as_str (q_kind c)))) as [E|E].
  - rewrite bool_decide_true by done. cbn [negb].
    destruct (q_bandwidth_bps c) as [b|], bw as [b'|], (q_kind c); rewrite ?Z.eqb_eq; naive_solver.
  - rewrite bool_decide_false by done. split; [done|by intros (_ & _ & ? & _)].
Qed.

(** For such a configuration the rate check of [q_matches_config] is exact. *)
Lemma rate_match c bw :
  config_ok c ->
  match q_bandwidth_bps c, bw with
  | Some want, Some have => want = have
  | Some _, None => q_kind c <> Cake
  | None, _ => True
  end <-> forall want, q_bandwidth_bps c = Some want -> bw = Some want.
Proof.
  unfold config_ok. destruct (q_bandwidth_bps c) as [b|]; [|by destruct bw].
  destruct bw as [b'|], (q_direction c), (q_kind c); naive_solver.
Qed.

(** A report matches a configuration exactly when the qdisc of the configuration is in
    place. *)
Lemma matches_in_place n c :
  config_ok c -> reserved n ->
  (exists q name i p msg, In (name, i) (tk_links n) /\ tk_qdisc n i p = Some msg /\
     report_qdisc name i msg = Val q /\ q_matches_config q c = true) <-> in_place n c.
Proof.
  intros Hc Hr. split.
  - intros (q & name & i & p & msg & Hl & Hq & Hrep & Hm).
    destruct (bandwidth_returns (tc_attributes msg)) as [bw Hbw]; [intros ???; by eapply tk_bytes|].
    destruct (matches_spec name i msg bw c Hbw) as (q' & Hrep' & _ & _ & _ & Hiff).
    assert (E : q' = q) by congruence. rewrite E in Hiff. apply Hiff in Hm. destruct Hm as (Ho & Hn & Hk & Hb). subst name.
    destruct (Hr _ _ _ _ Hl Hq) as (H1 & H2 & H3).
    assert (p = slot c) as ->.
    { unfold config_ok, slot in *. rewrite Hk in H2, H3.
      destruct (H1 Ho) as [Hp|Hp]; destruct (q_direction c), (q_kind c); try done.
      - by destruct (H2 Hp Ho) as [_ []].
      - by destruct (H3 Hp) as (_ & [] & _).
      - by destruct (H3 Hp) as (_ & _ & []). }
    exists i, msg. do 4 (split; [done|]). exists bw. split; [done|]. by apply rate_match.
  - intros (i & msg & Hl & Hq & Ho & Hk & bw & Hbw & Hb). apply (rate_match c) in Hb; [|done].
    destruct (matches_spec (q_interface c) i msg bw c Hbw) as (q & Hrep & _ & _ & _ & Hiff).
    exists q, (q_interface c), i, (slot c), msg. do 3 (split; [done|]). by apply Hiff.
Qed.

Lemma link_name_inj n a b i : In (a, i) (tk_links n) -> In (b, i) (tk_links n) -> a = b.
Proof.
  destruct (tk_links_nodup n) as (_ & Hn & _). induction (tk_links n) as [|[c j] l IH]; [done|].
  cbn in Hn. apply List.NoDup_cons_iff in Hn as [Hj Hn]. intros [[= -> ->]|Ha] [[= ->]|Hb].
  - done.
  - exfalso. apply Hj, in_map_iff. by exists (b, i).
  - exfalso. apply Hj, in_map_iff. exists (a, i). by subst.
  - by apply IH.
Qed.

Lemma link_index_inj n a i j : In (a, i) (tk_links n) -> In (a, j) (tk_links n) -> i = j.
Proof. rewrite !ifindex_link. congruence. Qed.

(** Entries only go away. *)
Definition shrinks (n n' : N) : Prop :=
  tk_links n' = tk_links n /\
  forall i p msg, tk_qdisc n' i p = Some msg -> tk_qdisc n i p = Some msg.

Lemma shrinks_reserved n n' : shrinks n n' -> reserved n -> reserved n'.
Proof.
  intros [L H] Hr name i p msg Hl Hq. rewrite L in Hl. by apply (Hr name i p); [|apply H].
Qed.

(** A kernel that deletes what it is asked to delete. *)
Definition deletes : Prop :=
  forall m n, tc_handle <$> tk_qdisc n (tc_index m) (tc_parent m) = Some (tc_handle m) ->
    reply_result (k_del m n).2 = inr ().

Lemma send_tc_del_spec m n n' r :
  send_tc_del m n = (n', r) ->
  shrinks n n' /\
  (forall i p, (i, p) <> (tc_index m, tc_parent m) -> tk_qdisc n' i p = tk_qdisc n i p) /\
  (deletes -> forall q, tk_qdisc n (tc_index m) (tc_parent m) = Some q -> tc_handle q = tc_handle m ->
     tk_qdisc n' (tc_index m) (tc_parent m) = None).
Proof.
  unfold send_tc_del. destruct (k_del m n) as [n1 r1] eqn:E. intros [= <- <-].
  destruct (tk_del n m n1 r1 E) as (L & H). destruct (reply_result r1) as [e|[]] eqn:Er.
  - split; [split; [done|]|split; [done|]]; [intros i p q; by rewrite H|].
    intros Hd q Hq Hh. specialize (Hd m n). rewrite E, Hq, <- Hh in Hd. specialize (Hd eq_refl).
    cbn [snd] in Hd. congruence.
  - destruct H as [H F]. split; [split; [done|]|split; [done|]].
    + intros i p q Hq. destruct (decide ((i, p) = (tc_index m, tc_parent m))) as [[= -> ->]|Hne].
      * rewrite H in Hq. by destruct (bool_decide _).
      * by rewrite F in Hq.
    + intros _ q Hq Hh. rewrite H, bool_decide_true; [done|]. by rewrite Hq, <- Hh.
Qed.

(** Removal takes from the interface only what is ours, all of it when the kernel deletes
    what it is asked to, and leaves the others alone. *)
Lemma tc_remove_spec n name i :
  In (name, i) (tk_links n) -> reserved n ->
  exists n', tc_remove name n = (n', inr ()) /\ shrinks n n' /\ same_on (fun s => s <> name) n n' /\
    (deletes -> forall p msg, tk_qdisc n' i p = Some msg -> our_identity msg = false).
Proof.
  intros Hl Hr. unfold tc_remove. assert (Hi := Hl). apply ifindex_link in Hi. rewrite Hi.
  destruct (send_tc_del _ n) as [n1 r1] eqn:E1.
  destruct (send_tc_del (mkTc i ingress_handle TC_INGRESS []) n1) as [n2 r2] eqn:E2.
  destruct (send_tc_del_spec _ _ _ _ E1) as ((L1 & S1) & F1 & D1).
  destruct (send_tc_del_spec _ _ _ _ E2) as ((L2 & S2) & F2 & D2).
  cbn [tc_index tc_parent tc_handle] in *. exists n2.
  assert (Sh : shrinks n n2) by (split; [congruence|]; intros; by apply S1, S2).
  split; [done|]. split; [done|]. split; [split; [congruence|]|].
  - intros a j p Ha Hne. rewrite F2, F1; [done|..]; intros [= -> _]; by apply Hne, (link_name_inj n a name i).
  - intros Hdel p msg Hq. specialize (D1 Hdel). specialize (D2 Hdel). apply not_true_is_false. intros Ho.
    assert (Hq0 : tk_qdisc n i p = Some msg) by (by apply Sh).
    destruct (Hr _ _ _ _ Hl Hq0) as (Hp & H2 & H3).
    destruct (Hp Ho) as [Hroot|Hing].
    + rewrite Hroot in *. destruct (H2 eq_refl Ho) as [Hh _]. apply S2 in Hq.
      by rewrite (D1 msg) in Hq.
    + rewrite Hing in *. destruct (H3 eq_refl) as [Hh _].
      assert (Hq1 : tk_qdisc n1 i TC_INGRESS = Some msg) by (by apply S2).
      by rewrite (D2 msg) in Hq.
Qed.

(** The qdisc that the message of a configuration creates. *)
Lemma apply_message_attrs i c msg attrs :
  config_ok c -> apply_message i c = inr msg -> kind_of attrs = kind_of (tc_attributes msg) ->
  dumped (options (tc_attributes msg)) (options attrs) ->
  let q := mkTc i (tc_handle msg) (slot c) attrs in
  our_identity q = true /\ placed (slot c) q /\
  kind_of attrs = Some (qdisc_as_str (q_kind c)) /\
  exists bw, cake_bandwidth_of attrs = Val bw /\ forall want, q_bandwidth_bps c = Some want -> bw = Some want.
Proof.
  intros Hc Em Hk Hx q. subst q. unfold config_ok, apply_message, slot in *.
  destruct (q_direction c), (q_kind c) eqn:Ek; try done; injection Em as <-;
    cbn [tc_handle tc_attributes] in *; cbn [kind_of omap list_omap head] in Hk.
  - split; [done|]. split; [unfold placed; cbn [tc_attributes]; rewrite Hk; naive_solver|]. split; [done|].
    exists None. split; [|by rewrite Hc].
    assert (Ho : options (AttrKind "fq_codel" :: match fq_codel_options c with [] => []
      | _ => [AttrOptions (fq_codel_options c)] end) =
      fq_codel_options c) by (unfold options; destruct (fq_codel_options c); cbn; by rewrite ?app_nil_r).
    rewrite Ho in Hx. rewrite (dumped_bandwidth _ _ Hx); by rewrite fq_codel_rates.
  - split; [done|]. split; [unfold placed; cbn [tc_attributes]; rewrite Hk; naive_solver|]. split; [done|].
    exists (q_bandwidth_bps c ≫= read_back). split.
    + apply cake_read_back. unfold options in Hx at 1. cbn in Hx. by rewrite app_nil_r in Hx.
    + intros want E. rewrite E in *. destruct Hc as [Hm Hb]. cbn [mbind option_bind]. by rewrite read_back_exact.
  - split; [done|]. split; [unfold placed; cbn [tc_attributes]; rewrite Hk; naive_solver|]. split; [done|].
    exists None. split; [|by rewrite Hc]. by rewrite (dumped_bandwidth _ _ Hx).
Qed.

(** Application puts the qdisc of the configuration in place, or changes nothing. *)
Lemma tc_apply_spec n c n' r :
  config_ok c -> reserved n -> tc_apply c n = (n', r) ->
  match r with
  | inl _ => tk_links n' = tk_links n /\ forall i p, tk_qdisc n' i p = tk_qdisc n i p
  | inr _ => tk_links n' = tk_links n /\ in_place n' c /\ reserved n' /\
      exists i, In (q_interface c, i) (tk_links n) /\
        forall j p, (j, p) <> (i, slot c) -> tk_qdisc n' j p = tk_qdisc n j p
  end.
Proof.
  intros Hc Hr. unfold tc_apply. destruct (ifindex (q_interface c) n) as [e|i] eqn:Ei.
  { by intros [= <- <-]. }
  apply ifindex_link in Ei.
  destruct (apply_message i c) as [e|msg] eqn:Em; [by intros [= <- <-]|].
  unfold send_tc. destruct (k_new msg _ n) as [n1 r1] eqn:Ek. intros [= <- <-].
  assert (Hm : tc_index msg = i /\ tc_parent msg = slot c)
    by (unfold apply_message, slot in *; destruct (q_direction c), (q_kind c);
        (discriminate Em || injection Em as <-); done).
  destruct Hm as [Hmi Hmp].
  assert (Hin : In (tc_index msg) (map snd (tk_links n)))
    by (apply in_map_iff; exists (q_interface c, i); split; [by rewrite Hmi|done]).
  destruct (tk_new n msg n1 r1 Hin Ek) as [L H]. destruct (reply_result r1); [done|].
  destruct H as [(attrs & Hka & Hx & Hq) F]. rewrite Hmi, Hmp in *. split; [done|].
  pose proof (apply_message_attrs i c msg attrs Hc Em Hka Hx) as Hid.
  destruct Hid as (Hid & Hpl & Hk & Hbw). split; [|split].
  - exists i, (mkTc i (tc_handle msg) (slot c) attrs).
    rewrite L. do 3 (split; [done|]). cbn [tc_attributes]. done.
  - intros a j p q Ha Hq'. rewrite L in Ha.
    destruct (decide ((j, p) = (i, slot c))) as [[= -> ->]|Hne].
    + rewrite Hq in Hq'. by injection Hq' as <-.
    + rewrite F in Hq' by done. by apply (Hr a j p).
  - by exists i.
Qed.

Abbreviation exec_ := (tc_exec probe).

Definition wanted_if (desired : list QosConfig) (s : string) : Prop := In s (map q_interface desired).

Lemma wanted_if_dec desired s :
  existsb (String.eqb s) (map q_interface desired) = true <-> wanted_if desired s.
Proof.
  rewrite existsb_exists. split; [intros (a & Ha & ->%String.eqb_eq); done|].
  intros H. exists s. by rewrite String.eqb_eq.
Qed.

(** Nothing of ours on the interfaces outside the intent. *)
Definition no_orphan (desired : list QosConfig) (n : N) : Prop :=
  forall name i p msg, In (name, i) (tk_links n) -> tk_qdisc n i p = Some msg ->
    our_identity msg = true -> wanted_if desired name.

Lemma run_op_remove n name i :
  In (name, i) (tk_links n) -> reserved n ->
  exists n', run_op exec_ (QosRemove name) n = Val (n', inr ()) /\ shrinks n n' /\
    same_on (fun s => s <> name) n n' /\
    (deletes -> forall p msg, tk_qdisc n' i p = Some msg -> our_identity msg = false).
Proof.
  intros Hl Hr. destruct (tc_remove_spec n name i Hl Hr) as (n' & E & H).
  exists n'. split; [|done]. unfold run_op. cbn. by rewrite E.
Qed.

(** The cleanup: no error, only removals, nothing of the intent is touched, and the
    qdiscs of the list are gone when the kernel deletes what it is asked to. *)
Lemma clean_all desired l m n :
  reserved n -> (forall q, In q l -> exists i, In (aq_interface q, i) (tk_links n)) ->
  exists m' n', run_all (clean_orphan exec_ desired) l (m, n, None) = Val (m', n', None) /\
    qm_intent m' = qm_intent m /\
    (Forall (fun q => aq_our_identity q = false \/ wanted_if desired (aq_interface q)) l ->
       m' = m /\ n' = n) /\
    shrinks n n' /\ same_on (wanted_if desired) n n' /\
    (deletes ->
     forall q i p msg, In q l -> aq_our_identity q = true -> ~ wanted_if desired (aq_interface q) ->
       In (aq_interface q, i) (tk_links n) -> tk_qdisc n' i p = Some msg -> our_identity msg = false).
Proof.
  revert m n. induction l as [|q l IH]; intros m n Hr Hl.
  { exists m, n. repeat split; try done. }
  cbn [run_all clean_orphan].
  destruct (aq_our_identity q && _) eqn:E.
  - apply andb_true_iff in E as [Ho Hw%negb_true_iff].
    assert (Hnw : ~ wanted_if desired (aq_interface q)) by (rewrite <- wanted_if_dec; congruence).
    destruct (Hl q ltac:(by left)) as (i & Hi).
    destruct (run_op_remove n (aq_interface q) i Hi Hr) as (n1 & E1 & Sh1 & So1 & G1).
    rewrite E1, !bind_Val_l. pose proof Sh1 as [L1 _].
    destruct (IH (qos_emit (QosRemoved (aq_interface q)) m) n1) as (m' & n' & E2 & Hm & _ & Sh2 & So2 & G2).
    { by eapply shrinks_reserved. }
    { intros q' Hq'. rewrite L1. apply Hl. by right. }
    exists m', n'. split; [done|]. split; [done|].
    split. { intros Hf. inversion_clear Hf as [|? ? [H|H] _]; congruence. }
    split. { destruct Sh2 as [L2 S2]. split; [congruence|]. intros. by apply Sh1, S2. }
    split.
    { eapply same_on_trans; [|exact So2]. eapply same_on_weaken; [|exact So1].
      intros s Hs ->. done. }
    intros Hdel q' j p msg [<-|Hq'] Ho' Hn' Hj Hq.
    + assert (j = i) as -> by (by eapply link_index_inj). eapply (G1 Hdel). by apply Sh2.
    + eapply (G2 Hdel q'); [done..| |done]. by rewrite L1.
  - rewrite bind_Val_l.
    destruct (IH m n Hr) as (m' & n' & E2 & Hm & Hid & Sh & So & G); [intros; apply Hl; by right|].
    exists m', n'. split; [done|]. split; [done|].
    split. { intros Hf. inversion_clear Hf. by apply Hid. }
    split; [done|]. split; [done|]. intros Hdel q' j p msg [<-|Hq'] Ho' Hn' Hj Hq.
    + exfalso. rewrite Ho' in E. cbn in E. apply negb_false_iff, wanted_if_dec in E. done.
    + by eapply (G Hdel q').
Qed.

Lemma run_op_apply n c :
  exists n' r r0, run_op exec_ (QosApply c) n = Val (n', r) /\ tc_apply c n = (n', r0) /\
    (r = inr () <-> r0 = inr ()).
Proof.
  unfold run_op. cbn. destruct (tc_apply c n) as [n1 [e|[]]]; cbn; eexists n1, _, _;
    (split; [done|]); (split; [done|]); by split.
Qed.

(** The slots of two configurations are different places. *)
Definition apart (c c' : QosConfig) : Prop := q_interface c <> q_interface c' \/ slot c <> slot c'.

Lemma in_place_slot n n' c :
  tk_links n' = tk_links n ->
  (forall i, In (q_interface c, i) (tk_links n) -> tk_qdisc n' i (slot c) = tk_qdisc n i (slot c)) ->
  in_place n c -> in_place n' c.
Proof.
  intros L H (i & msg & Hi & Hq & R). exists i, msg. rewrite L. split; [done|].
  split; [by rewrite H|done].
Qed.

Lemma tc_apply_frame n c n' r :
  config_ok c -> reserved n -> tc_apply c n = (n', r) ->
  tk_links n' = tk_links n /\ reserved n' /\ (r = inr () -> in_place n' c) /\
  forall name i p, In (name, i) (tk_links n) -> (q_interface c = name -> slot c <> p) ->
    tk_qdisc n' i p = tk_qdisc n i p.
Proof.
  intros Hc Hr Ea. pose proof (tc_apply_spec n c n' r Hc Hr Ea) as Hs. destruct r as [e0|[]].
  - destruct Hs as [L T]. split; [done|]. split; [|by split].
    intros a i p q Ha Hq. rewrite L in Ha. rewrite T in Hq. by apply (Hr a i p).
  - destruct Hs as (L & Hp & R & i0 & Hi0 & T). do 3 (split; [done|]).
    intros name i p Hl Hne. apply T. intros [= -> ->].
    exact (Hne (link_name_inj n _ _ _ Hi0 Hl) eq_refl).
Qed.

Definition matched (applied : list AppliedQdisc) (c : QosConfig) : bool :=
  existsb (fun q => q_matches_config q c) applied.

Lemma apply_all applied l m n e :
  Forall config_ok l -> ForallOrdPairs apart l -> reserved n ->
  (forall c, In c l -> matched applied c = true -> in_place n c) ->
  exists m' n' e', run_all (apply_config exec_ applied) l (m, n, e) = Val (m', n', e') /\
    qm_intent m' = qm_intent m /\ tk_links n' = tk_links n /\ reserved n' /\
    (forall name i p, In (name, i) (tk_links n) ->
       (forall c, In c l -> q_interface c = name -> slot c <> p) ->
       tk_qdisc n' i p = tk_qdisc n i p) /\
    (e' = None -> e = None /\ forall c, In c l -> in_place n' c) /\
    (forallb (matched applied) l = true -> m' = m /\ n' = n /\ e' = e).
Proof.
  revert m n e. induction l as [|c l IH]; intros m n e Hok Hap Hr Hmt.
  { exists m, n, e. do 5 (split; [done|]). split; [|done]. intros ->. by split; [|intros c []]. }
  inversion_clear Hok as [|? ? Hc Hok']. inversion_clear Hap as [|? ? Hca Hap'].
  cbn [run_all apply_config forallb]. fold (matched applied c).
  destruct (matched applied c) eqn:Em; cbn [andb].
  - rewrite bind_Val_l.
    destruct (IH m n e Hok' Hap' Hr) as (m' & n' & e' & E & Hi & L & R & F & P & Id);
      [intros; apply Hmt; [by right|done]|].
    exists m', n', e'. do 4 (split; [done|]).
    split. { intros name i p Hl Hn. apply (F name); [done|]. intros; apply Hn; [by right|done]. }
    split; [|done]. intros He. destruct (P He) as [He0 Hin]. split; [done|].
    intros c' [<-|Hc']; [|by apply Hin].
    apply (in_place_slot n); [done| |apply Hmt; [by left|done]].
    intros i Hl. apply (F (q_interface c)); [done|]. intros c' Hc' Hif.
    rewrite List.Forall_forall in Hca. destruct (Hca c' Hc'); congruence.
  - destruct (run_op_apply n c) as (n1 & r & r0 & Er & Ea & Hrr). rewrite Er, bind_Val_l.
    destruct (tc_apply_frame n c n1 r0 Hc Hr Ea) as (L1 & R1 & P1 & F1).
    assert (Hrest : forall m1 e1, qm_intent m1 = qm_intent m -> (e1 = None -> e = None /\ r0 = inr ()) ->
      exists m' n' e', run_all (apply_config exec_ applied) l (m1, n1, e1) = Val (m', n', e') /\
        qm_intent m' = qm_intent m /\ tk_links n' = tk_links n /\ reserved n' /\
        (forall name i p, In (name, i) (tk_links n) ->
           (forall c', In c' (c :: l) -> q_interface c' = name -> slot c' <> p) ->
           tk_qdisc n' i p = tk_qdisc n i p) /\
        (e' = None -> e = None /\ forall c', In c' (c :: l) -> in_place n' c') /\
        (false = true -> m' = m /\ n' = n /\ e' = e)).
    { intros m1 e1 Hm1 He1.
      destruct (IH m1 n1 e1 Hok' Hap' R1) as (m' & n' & e' & E & Hi & L & R & F & P & _).
      { intros c' Hc' Hmc. rewrite List.Forall_forall in Hca.
        apply (in_place_slot n); [done| |apply Hmt; [by right|done]]. intros i Hl.
        apply (F1 (q_interface c')); [done|]. destruct (Hca c' Hc'); congruence. }
      exists m', n', e'. split; [done|]. split; [congruence|]. split; [congruence|]. split; [done|].
      split. { intros name i p Hl Hne. rewrite (F name); [| |intros; apply Hne; [by right|done]].
               - apply (F1 name); [done|]. apply Hne. by left.
               - by rewrite L1. }
      split; [|done]. intros He. destruct (P He) as [He' Hin]. destruct (He1 He') as [-> Hr0].
      split; [done|]. intros c' [<-|Hc']; [|by apply Hin].
      apply (in_place_slot n1); [done| |by apply P1]. intros i Hl. apply (F (q_interface c)); [done|].
      intros c' Hc' Hif. rewrite List.Forall_forall in Hca. destruct (Hca c' Hc'); congruence. }
    destruct r as [e1|[]].
    + rewrite bind_Val_l. apply Hrest; [done|discriminate].
    + rewrite bind_Val_l. apply Hrest; [done|]. intros ->. split; [done|]. by apply Hrr.
Qed.

(** A step that touches the loopback device only, and leaves no qdisc with our mark. *)
Definition lo_step (n n' : N) : Prop :=
  same_on (fun s => s <> "lo"%string) n n' /\
  (forall i p msg, tk_qdisc n' i p = Some msg -> our_identity msg = true ->
     tk_qdisc n i p = Some msg) /\
  (reserved n -> reserved n').

Lemma lo_step_trans n1 n2 n3 : lo_step n1 n2 -> lo_step n2 n3 -> lo_step n1 n3.
Proof.
  intros (S1 & O1 & R1) (S2 & O2 & R2). split; [by eapply same_on_trans|].
  split; [|auto]. intros i p msg H Ho. apply O1; [|done]. by apply O2.
Qed.

(** The probe attaches and removes qdiscs on the loopback device only, none of them with
    our mark. *)
Definition probe_ok : Prop := forall n, lo_step n (probe n).1.

(** The report of the executor. *)
Definition reports (n : N) (l : list AppliedQdisc) : Prop :=
  forall q, In q l <-> exists name i p msg,
    In (name, i) (tk_links n) /\ tk_qdisc n i p = Some msg /\ report_qdisc name i msg = Val q.

Lemma matched_in_place n l c :
  config_ok c -> reserved n -> reports n l -> matched l c = true <-> in_place n c.
Proof.
  intros Hc Hr Hl. rewrite <- (matches_in_place n c Hc Hr). unfold matched. rewrite existsb_exists.
  split.
  - intros (q & (name & i & p & msg & H1 & H2 & H3)%Hl & Hm). by exists q, name, i, p, msg.
  - intros (q & name & i & p & msg & H1 & H2 & H3 & Hm). exists q. split; [|done].
    apply Hl. by exists name, i, p, msg.
Qed.

Lemma report_fields name i msg q :
  report_qdisc name i msg = Val q ->
  aq_interface q = name /\ aq_our_identity q = our_identity msg /\
  aq_kind q = kind_of (tc_attributes msg).
Proof.
  unfold report_qdisc. intros H. exec_inv. by subst.
Qed.

(** Everything wanted is in place, and whatever is ours on any interface has the kind of a
    configuration for it. *)
Definition settled (desired : list QosConfig) (n : N) : Prop :=
  (forall c, In c desired -> in_place n c) /\
  forall name i p msg, In (name, i) (tk_links n) -> tk_qdisc n i p = Some msg ->
    our_identity msg = true ->
    exists c, In c desired /\ q_interface c = name /\
      qdisc_as_str (q_kind c) = default EmptyString (kind_of (tc_attributes msg)).

(** The drift of a snapshot is exactly that. *)
Lemma drift_settled desired n l :
  Forall config_ok desired -> reserved n -> reports n l ->
  drift_now desired l = false <-> settled desired n.
Proof.
  intros Hok Hr Hl. rewrite List.Forall_forall in Hok. unfold drift_now. rewrite orb_false_iff.
  rewrite <- !not_true_iff_false, !existsb_exists. split.
  - intros [H1 H2]. split.
    + intros c Hc. apply (matched_in_place n l c (Hok c Hc) Hr Hl). apply not_false_is_true.
      intros E. apply H1. exists c. unfold matched in E. by rewrite E.
    + intros name i p msg Hn Hm Ho. destruct (report_returns n name i p msg Hm) as [q Hrep].
      destruct (report_fields _ _ _ _ Hrep) as (Ei & Eo & Ek).
      assert (Hq : In q l) by (apply Hl; by exists name, i, p, msg).
      destruct (existsb (fun c => String.eqb (q_interface c) (aq_interface q) &&
        String.eqb (qdisc_as_str (q_kind c)) (default EmptyString (aq_kind q))) desired) eqn:Ex.
      * apply existsb_exists in Ex as (c & Hc & [E1%String.eqb_eq E2%String.eqb_eq]%andb_true_iff).
        exists c. split; [done|]. by rewrite <- Ei, <- Ek.
      * exfalso. apply H2. exists q. split; [done|]. by rewrite Eo, Ho, Ex.
  - intros [H1 H2]. split.
    + intros (c & Hc & Hm).
      assert (E : matched l c = true) by (apply (matched_in_place n); auto).
      unfold matched in E. by rewrite E in Hm.
    + intros (q & Hq & [Ho Hd%negb_true_iff]%andb_true_iff).
      apply Hl in Hq as (name & i & p & msg & Hn & Hm & Hrep).
      destruct (report_fields _ _ _ _ Hrep) as (Ei & Eo & Ek). rewrite Eo in Ho.
      destruct (H2 name i p msg Hn Hm Ho) as (c & Hc & Hif & Hk).
      apply not_true_iff_false in Hd. apply Hd, existsb_exists.
      exists c. split; [done|]. by rewrite Ei, Ek, Hk, Hif, !String.eqb_refl.
Qed.

Lemma in_place_settled desired n :
  (forall c, In c desired -> in_place n c) -> no_stale desired n -> no_orphan desired n -> settled desired n.
Proof.
  intros Hin Hst Hor. split; [done|]. intros name i p msg Hn Hm Ho.
  destruct (Hst name i p msg Hn Hm Ho (Hor name i p msg Hn Hm Ho)) as (c & Hc & Hif & Hslot).
  exists c. do 2 (split; [done|]). destruct (Hin c Hc) as (j & msg' & Hj & Hm' & _ & Hk & _).
  rewrite Hif in Hj. assert (j = i) as -> by (by eapply link_index_inj).
  rewrite Hslot, Hm in Hm'. injection Hm' as <-. by rewrite Hk.
Qed.

Lemma settled_no_orphan desired n : settled desired n -> no_orphan desired n.
Proof.
  intros [_ H] name i p msg Hn Hm Ho. destruct (H name i p msg Hn Hm Ho) as (c & Hc & <- & _). by apply in_map.
Qed.

(** The probe does not disturb it. *)
Lemma settled_lo desired n n' :
  Forall (fun c => q_interface c <> "lo"%string) desired -> lo_step n n' -> settled desired n -> settled desired n'.
Proof.
  intros Hlo ([L S] & Our & _) [H1 H2]. rewrite List.Forall_forall in Hlo. split.
  - intros c Hc. apply (in_place_slot n); [done| |by apply H1]. intros i Hi. apply (S (q_interface c)); auto.
  - intros name i p msg Hn Hm Ho. rewrite L in Hn. eapply H2; eauto.
Qed.

(** After the loops an entry of ours is at the place of a configuration or was there from
    the start. *)
Lemma ours_origin desired n0 n1 n2 n3 :
  (forall i p msg, tk_qdisc n1 i p = Some msg -> our_identity msg = true -> tk_qdisc n0 i p = Some msg) ->
  (forall i p msg, tk_qdisc n2 i p = Some msg -> tk_qdisc n1 i p = Some msg) ->
  tk_links n3 = tk_links n2 ->
  (forall name i p, In (name, i) (tk_links n2) ->
     (forall c, In c desired -> q_interface c = name -> slot c <> p) ->
     tk_qdisc n3 i p = tk_qdisc n2 i p) ->
  forall name i p msg, In (name, i) (tk_links n3) -> tk_qdisc n3 i p = Some msg ->
    our_identity msg = true ->
    (exists c, In c desired /\ q_interface c = name /\ slot c = p) \/
    (tk_qdisc n0 i p = Some msg /\ tk_qdisc n2 i p = Some msg).
Proof.
  intros Our1 Sh2 L3 F3 name i p msg Hn Hq Ho.
  destruct (existsb (fun c => String.eqb (q_interface c) name && bool_decide (slot c = p)) desired) eqn:Ex.
  - left. apply existsb_exists in Ex as (c & Hc & [Hx%String.eqb_eq Hy%bool_decide_eq_true]%andb_true_iff).
    eauto.
  - right. rewrite L3 in Hn. rewrite (F3 name) in Hq; [|done|].
    + split; [|done]. apply Our1; [|done]. by apply Sh2.
    + intros c Hc Hif Hsl. apply not_true_iff_false in Ex. apply Ex, existsb_exists.
      exists c. split; [done|]. rewrite Hif, String.eqb_refl. by apply bool_decide_eq_true.
Qed.

(** The two loops of a pass, from the report [l] of the state [n0] before the probe. *)
Lemma pass_loops m n0 n1 l :
  let desired := qm_intent m in
  Forall config_ok desired -> ForallOrdPairs apart desired ->
  Forall (fun c => q_interface c <> "lo"%string) desired ->
  probe_ok -> n1 = (probe n0).1 -> reserved n0 -> reports n0 l ->
  exists m2 n3 e, 
    (s ← run_all (clean_orphan exec_ desired) l (m, n1, None);
     run_all (apply_config exec_ l) desired s) = Val (m2, n3, e) /\
    qm_intent m2 = desired /\ tk_links n3 = tk_links n0 /\ reserved n3 /\
    (e = None -> (forall c, In c desired -> in_place n3 c) /\
       (deletes -> no_stale desired n0 -> settled desired n3)) /\
    ((forall c, In c desired -> in_place n0 c) -> no_orphan desired n0 ->
       m2 = m /\ n3 = n1 /\ e = None).
Proof.
  intros desired Hok Hap Hlo Hprobe -> Hr Hl.
  destruct (Hprobe n0) as ((L1 & S1) & Our1 & R1). set (n1 := (probe n0).1) in *.
  specialize (R1 Hr).
  destruct (clean_all desired l m n1 R1) as (m' & n2 & E1 & Hi1 & Id1 & (L2 & Sh2) & (_ & So2) & G2).
  { intros q (name & i & p & msg & Hn & _ & Hrep)%Hl. destruct (report_fields _ _ _ _ Hrep) as (-> & _).
    exists i. by rewrite L1. }
  assert (R2 : reserved n2) by (by eapply shrinks_reserved).
  assert (Hsame : forall c i p, In c desired -> In (q_interface c, i) (tk_links n0) ->
    tk_qdisc n2 i p = tk_qdisc n0 i p).
  { intros c i p Hc Hif. rewrite (So2 (q_interface c)); [| |by apply in_map].
    - apply (S1 (q_interface c)); [done|]. by eapply List.Forall_forall in Hlo.
    - by rewrite L1. }
  assert (Hplace : forall c, In c desired -> in_place n0 c -> in_place n2 c).
  { intros c Hc. apply in_place_slot; [congruence|]. intros i Hif. by apply (Hsame c). }
  destruct (apply_all l desired m' n2 None Hok Hap R2) as (m2 & n3 & e & E2 & Hi2 & L3 & R3 & F3 & P3 & Id3).
  { intros c Hc Hm. apply Hplace; [done|]. apply (matched_in_place n0 l c); try done.
    by eapply List.Forall_forall in Hok. }
  exists m2, n3, e. rewrite E1, bind_Val_l, E2. split; [done|]. split; [by rewrite Hi2|].
  split; [congruence|]. split; [done|]. split.
  - intros He. destruct (P3 He) as [_ Hin]. split; [done|]. intros Hdel Hst.
    pose proof (ours_origin desired n0 n1 n2 n3 Our1 Sh2 L3 F3) as Horigin.
    assert (Hlinks : tk_links n3 = tk_links n0) by congruence.
    apply in_place_settled; [done|..].
    + intros name i p msg Hn Hq Ho Hw. destruct (Horigin name i p msg Hn Hq Ho) as [H|[H _]]; [done|].
      apply (Hst name i p msg); try done. by rewrite <- Hlinks.
    + intros name i p msg Hn Hq Ho.
      destruct (Horigin name i p msg Hn Hq Ho) as [(c & Hc & <- & _)|[H0 H2]]; [by apply in_map|].
      destruct (existsb (String.eqb name) (map q_interface desired)) eqn:Ew; [by apply wanted_if_dec|].
      exfalso. rewrite Hlinks in Hn.
      destruct (report_returns n0 name i p msg H0) as [q Hrep].
      destruct (report_fields _ _ _ _ Hrep) as (Ei & Eo & _).
      assert (Hq' : In q l) by (apply Hl; by exists name, i, p, msg).
      assert (our_identity msg = false); [|congruence].
      eapply (G2 Hdel q i p); [done|congruence| |by rewrite Ei, L1|done].
      rewrite Ei. rewrite <- wanted_if_dec. congruence.
  - intros Hin Hor. destruct Id1 as [-> ->].
    { apply List.Forall_forall. intros q (name & i & p & msg & Hn & Hq & Hrep)%Hl.
      destruct (report_fields _ _ _ _ Hrep) as (-> & -> & _).
      destruct (our_identity msg) eqn:Ho; [right|by left]. by eapply Hor. }
    apply Id3. apply forallb_forall. intros c Hc. apply (matched_in_place n0); auto.
    by eapply List.Forall_forall in Hok.
Qed.

Lemma state_call n : exists l, x_qos_state exec_ EmptyString n = Val (n, inr l) /\ reports n l.
Proof.
  destruct (tc_state_spec n) as (l & E & Hl). exists l. split; [|exact Hl].
  change (x_qos_state exec_ EmptyString n) with (r ← tc_state EmptyString n; Val (n, r)).
  by rewrite E.
Qed.

Lemma all_supported caps desired :
  List.find (fun c => negb (supported caps c)) desired = None <-> forallb (supported caps) desired = true.
Proof.
  rewrite forallb_forall. split.
  - intros E c Hc. apply (find_none _ _ E) in Hc. by apply negb_false_iff.
  - intros H. destruct (List.find _ desired) as [c|] eqn:E; [|done].
    apply List.find_some in E as [Hc Hn]. by rewrite (H c Hc) in Hn.
Qed.

(** The intents the theorem is about. *)
Record intent_ok (desired : list QosConfig) : Prop := {
  io_configs : Forall config_ok desired;
  io_apart : ForallOrdPairs apart desired;
  io_not_lo : Forall (fun c => q_interface c <> "lo"%string) desired
}.

(** What a pass with intent [desired] does to the kernel [n] and what its snapshot says. *)
Record pass_effect (desired : list QosConfig) (n n' : N) (s : QosSnapshot) : Prop := {
  pe_in_place : sn_last_error s = None -> forall c, In c desired -> in_place n' c;
  pe_drift : sn_drift s = false <-> settled desired n';
  pe_converges : deletes -> no_stale desired n -> sn_last_error s = None -> sn_drift s = false;
  pe_idle : settled desired n -> n' = (probe n).1 /\ sn_last_error s = None /\ sn_drift s = false
}.

(** One pass: it ends; it stops before touching anything when a kind is not supported. *)
Lemma pass_outcome m n :
  intent_ok (qm_intent m) -> probe_ok -> reserved n ->
  exists m' n' r, converge_qos exec_ m n = Val (m', n', r) /\ qm_intent m' = qm_intent m /\ reserved n' /\
    (r = inr () <-> forallb (supported (probe n).2) (qm_intent m) = true) /\
    match r with
    | inl _ => n' = (probe n).1 /\ sn_drift (qm_snapshot m') = true /\ sn_last_error (qm_snapshot m') <> None
    | inr _ => pass_effect (qm_intent m) n n' (qm_snapshot m') /\
        (settled (qm_intent m) n -> qm_events m' = qm_events m)
    end.
Proof.
  intros [Hok Hap Hlo] Hp Hr. unfold converge_qos.
  destruct (state_call n) as (l & E & Hl). rewrite E, bind_Val_l.
  assert (Ec : x_qos_capabilities exec_ n = Val ((probe n).1, inr (probe n).2))
    by (cbn; by destruct (probe n)).
  rewrite Ec, bind_Val_l. destruct (List.find _ (qm_intent m)) as [c|] eqn:Ef.
  { eexists _, (probe n).1, _. split; [reflexivity|]. split; [done|]. split; [by apply Hp|].
    split; [|done]. split; [done|]. intros H%all_supported. congruence. }
  destruct (pass_loops m n (probe n).1 l Hok Hap Hlo Hp eq_refl Hr Hl)
    as (m2 & n3 & e & E2 & Hi2 & L3 & R3 & Hgood & Hid).
  destruct (run_all (clean_orphan exec_ (qm_intent m)) l (m, (probe n).1, None)) as [s|] in E2 |- *;
    [|done].
  change (run_all (apply_config exec_ l) (qm_intent m) s = Val (m2, n3, e)) in E2.
  rewrite bind_Val_l, E2, bind_Val_l.
  destruct (state_call n3) as (l3 & E3 & Hl3). rewrite E3, bind_Val_l.
  pose proof (drift_settled _ n3 l3 Hok R3 Hl3) as Hd.
  eexists _, n3, _. split; [reflexivity|]. split; [done|]. split; [done|].
  split; [split; [intros _; by apply all_supported|done]|]. split.
  - split; cbn [qm_snapshot set_snapshot sn_last_error sn_drift].
    + intros He. exact (proj1 (Hgood He)).
    + exact Hd.
    + intros Hdel Hst He. apply Hd. exact (proj2 (Hgood He) Hdel Hst).
    + intros Hs. destruct (Hid (proj1 Hs) (settled_no_orphan _ _ Hs)) as (_ & -> & ->).
      split; [done|]. split; [done|]. apply Hd. apply (settled_lo _ n); [done|apply Hp|done].
  - intros Hs. by destruct (Hid (proj1 Hs) (settled_no_orphan _ _ Hs)) as (-> & _ & _).
Qed.

End Convergence.

(** The capability probe of the executor is such a probe when [tc] does on the loopback
    device what it is told. *)
Section ProbeOk.
Context {N : Type} {kernel : TcKernel N} {tk : TcKernelOk N}.
Context (run : list string -> N -> N * (string + bool)).
Hypothesis run_lo : forall verb rest n,
  lo_step n (run ("qdisc" :: verb :: "dev" :: "lo" :: "root" :: rest)%string n).1.

Lemma tc_probe_lo kind n : lo_step n (tc_qdisc_supported (Some run) kind n).1.
Proof.
  unfold tc_qdisc_supported.
  pose proof (run_lo "add" ["handle"; "1:"; kind]%string n) as H1.
  destruct (run _ n) as [n1 attach] in H1 |- *. cbn [fst] in H1.
  eapply lo_step_trans; [exact H1|]. clear H1.
  assert (Hdel : forall n ok, lo_step n
    (let '(h, _) := run ["qdisc"; "del"; "dev"; "lo"; "root"]%string n in (h, ok : bool)).1).
  { intros n2 ok. pose proof (run_lo "del" [] n2) as H. by destruct (run _ n2) in H |- *. }
  destruct attach as [e|[]]; [apply Hdel..|].
  pose proof (run_lo "replace" ["handle"; "1:"; kind]%string n1) as H2.
  destruct (run _ n1) as [n2 r] in H2 |- *. eapply lo_step_trans; [exact H2|]. apply Hdel.
Qed.

Lemma tc_probe_ok modules net : probe_ok (probe_qos_capabilities (Some run) modules net).
Proof.
  intros n. unfold probe_qos_capabilities.
  pose proof (tc_probe_lo "cake" n) as H1. destruct (tc_qdisc_supported _ _ n) as [n1 ?] in H1 |- *.
  pose proof (tc_probe_lo "fq_codel" n1) as H2. destruct (tc_qdisc_supported _ _ n1) as [n2 ?] in H2 |- *.
  pose proof (tc_probe_lo "htb" n2) as H3. destruct (tc_qdisc_supported _ _ n2) as [n3 ?] in H3 |- *.
  pose proof (tc_probe_lo "netem" n3) as H4. destruct (tc_qdisc_supported _ _ n3) as [n4 ?] in H4 |- *.
  eauto using lo_step_trans.
Qed.
End ProbeOk.

(** ** A kernel in memory *)

Module TcMem.
Record entry := mkEntry { e_index : Z; e_parent : TcHandle; e_handle : TcHandle; e_attrs : list TcAttribute }.

Definition bytes_ok (attrs : list TcAttribute) : bool :=
  forallb (fun a => match a with
    | AttrOptions l => forallb (fun o => match o with
        | OtherNla _ v => forallb (fun b => (0 <=? b) && (b <? 256)) v
        | _ => true end) l
    | _ => true end) attrs.

Definition links : list (string * Z) := [("lo", 1); ("eth0", 2); ("wg0", 3)]%string.

Definition at_ (i : Z) (p : TcHandle) (e : entry) : bool :=
  (e_index e =? i) && bool_decide (e_parent e = p) && bytes_ok (e_attrs e).

Definition to_msg (e : entry) : TcMessage := mkTc (e_index e) (e_handle e) (e_parent e) (e_attrs e).

Definition qdisc (n : list entry) (i : Z) (p : TcHandle) : option TcMessage :=
  to_msg <$> List.find (at_ i p) n.

Definition new (m : TcMessage) (n : list entry) : list entry * tc_reply :=
  if bytes_ok (tc_attributes m)
  then (mkEntry (tc_index m) (tc_parent m) (tc_handle m) (tc_attributes m) ::
          List.filter (fun e => negb (at_ (tc_index m) (tc_parent m) e)) n, inr [None])
  else (n, inr [Some (-22)]).

Definition del (m : TcMessage) (n : list entry) : list entry * tc_reply :=
  if bool_decide (tc_handle <$> qdisc n (tc_index m) (tc_parent m) = Some (tc_handle m))
  then (List.filter (fun e => negb (at_ (tc_index m) (tc_parent m) e)) n, inr [None])
  else (n, inr [Some (-2)]).

#[global] Instance mem_kernel : TcKernel (list entry) := {|
  k_link_index name _ := inr (snd <$> List.find (fun l => String.eqb l.1 name) links);
  k_link_names _ := inr (map (fun l => Some l.1) links);
  k_qdiscs i n := inr (omap (fun e => if e_index e =? i then qdisc n i (e_parent e) else None) n);
  k_new m _ n := new m n;
  k_del m n := del m n
|}.

Lemma at_spec i p e : at_ i p e = true <-> e_index e = i /\ e_parent e = p /\ bytes_ok (e_attrs e) = true.
Proof. unfold at_. rewrite !andb_true_iff, Z.eqb_eq, bool_decide_eq_true. tauto. Qed.

Lemma qdisc_spec n i p m : qdisc n i p = Some m ->
  exists e, In e n /\ e_index e = i /\ e_parent e = p /\ bytes_ok (e_attrs e) = true /\ m = to_msg e.
Proof.
  unfold qdisc. destruct (List.find _ n) as [e|] eqn:E; [|done]. intros [= <-].
  apply List.find_some in E as [He (H1 & H2 & H3)%at_spec]. by exists e.
Qed.

Lemma qdisc_filter n i p i' p' :
  qdisc (List.filter (fun e => negb (at_ i p e)) n) i' p' =
  if bool_decide ((i', p') = (i, p)) then None else qdisc n i' p'.
Proof.
  unfold qdisc. induction n as [|e n IH]; [by destruct (bool_decide _)|]. cbn [List.filter List.find].
  destruct (at_ i p e) eqn:E; cbn [negb List.find].
  - rewrite IH. destruct (bool_decide_reflect ((i', p') = (i, p))) as [_|Hne]; [done|].
    destruct (at_ i' p' e) eqn:E'; [|done]. apply at_spec in E, E'. destruct Hne. f_equal; naive_solver.
  - destruct (at_ i' p' e) eqn:E'; [|done].
    rewrite bool_decide_false; [done|]. intros [= -> ->]. congruence.
Qed.

Lemma qdisc_cons e n i p :
  bytes_ok (e_attrs e) = true ->
  qdisc (e :: n) i p = if bool_decide ((i, p) = (e_index e, e_parent e)) then Some (to_msg e) else qdisc n i p.
Proof.
  intros Hb. unfold qdisc. cbn [List.find]. destruct (at_ i p e) eqn:E.
  - apply at_spec in E as (<- & <- & _). by rewrite bool_decide_true.
  - rewrite bool_decide_false; [done|]. intros [= -> ->].
    assert (at_ (e_index e) (e_parent e) e = true) by (by apply at_spec). congruence.
Qed.

#[global] Instance mem_ok : TcKernelOk (list entry).
Proof.
  refine {| tk_links _ := links; tk_qdisc := qdisc |}.
  - done.
  - intros _. split; [|split]; [repeat constructor; cbn; naive_solver..|cbn; naive_solver].
  - done.
  - intros n i. eexists. split; [reflexivity|]. intros m. split.
    + intros [Hm Hi]. split; [|done]. apply list_elem_of_In, list_elem_of_omap in Hm as (e & _ & Hq).
      destruct (e_index e =? i); [|done].
      destruct (qdisc_spec _ _ _ _ Hq) as (e' & _ & _ & Hp & _ & ->). cbn [to_msg tc_parent]. by rewrite Hp.
    + intros [Hq Hi]. split; [|done]. apply list_elem_of_In, list_elem_of_omap.
      destruct (qdisc_spec _ _ _ _ Hq) as (e & He & Hx & Hp & _). exists e.
      split; [by apply list_elem_of_In|]. by rewrite Hx, Z.eqb_refl, Hp.
  - intros n i p m Hq. by destruct (qdisc_spec _ _ _ _ Hq) as (e & _ & <- & <- & _ & ->).
  - intros n i p m l k v Hq Ho Hv. destruct (qdisc_spec _ _ _ _ Hq) as (e & _ & _ & _ & Hb & ->).
    unfold bytes_ok in Hb. rewrite forallb_forall in Hb. specialize (Hb _ Ho). cbn in Hb.
    rewrite forallb_forall in Hb. specialize (Hb _ Hv). cbn in Hb. rewrite forallb_forall in Hb.
    apply Forall_forall. intros b Hin%list_elem_of_In. specialize (Hb b Hin). unfold is_byte. lia.
  - intros n m n' r _. cbn [k_new mem_kernel]. unfold new. destruct (bytes_ok _) eqn:Hb; intros [= <- <-].
    + split; [done|]. cbn [reply_result]. split.
      * exists (tc_attributes m). split; [done|]. split; [by apply dumped_lone|].
        rewrite qdisc_cons by done. by rewrite bool_decide_true.
      * intros i p Hne. rewrite qdisc_cons, qdisc_filter by done. by rewrite !bool_decide_false.
    + done.
  - intros n m n' r. cbn [k_del mem_kernel]. unfold del. case_bool_decide as Hh; intros [= <- <-].
    + split; [done|]. cbn [reply_result head omap list_omap id]. split; [|intros i p Hne]; rewrite qdisc_filter.
      * by rewrite bool_decide_true.
      * by rewrite bool_decide_false.
    + done.
Defined.

(** [tc qdisc] on the root of the loopback device. *)
Definition tc (args : list string) (n : list entry) : list entry * (string + bool) :=
  let kind := List.last args EmptyString in
  let e := mkEntry 1 TC_ROOT (mkHandle 1 0) [AttrKind kind] in
  let on_lo verb := ["qdisc"; verb; "dev"; "lo"; "root"]%string in
  let attach verb := on_lo verb ++ ["handle"; "1:"; kind]%string in
  if bool_decide (args = attach "add"%string) then
    match qdisc n 1 TC_ROOT with Some _ => (n, inr false) | None => (e :: n, inr true) end
  else if bool_decide (args = attach "replace"%string) then (e :: n, inr true)
  else if bool_decide (args = on_lo "del"%string) then
    (List.filter (fun e => negb (at_ 1 TC_ROOT e)) n, inr true)
  else (n, inl "usage"%string).

Lemma lo_entry_step n h attrs :
  h <> our_handle -> bytes_ok attrs = true ->
  major h <> BALANSIR_QDISC_HANDLE_MAJOR ->
  lo_step n (mkEntry 1 TC_ROOT h attrs :: n).
Proof.
  intros Hh Hb Hm. assert (E : forall i p, qdisc (mkEntry 1 TC_ROOT h attrs :: n) i p =
    if bool_decide ((i, p) = (1, TC_ROOT)) then Some (mkTc 1 h TC_ROOT attrs) else qdisc n i p)
    by (intros; by rewrite qdisc_cons).
  assert (Ho : our_identity (mkTc 1 h TC_ROOT attrs) = false).
  { unfold our_identity. cbn [tc_handle tc_parent].
    by rewrite (proj2 (Z.eqb_neq _ _)). }
  split; [split; [done|]|split].
  - intros name i p Hl Hne. cbn [tk_qdisc mem_ok]. rewrite E, bool_decide_false; [done|].
    intros [= -> ->]. cbn in Hl. destruct Hl as [[= <-]|[[=]|[[=]|[]]]]. done.
  - intros i p msg. cbn [tk_qdisc mem_ok]. rewrite E. case_bool_decide; [|done]. intros [= <-]. congruence.
  - intros Hr name i p msg Hl. cbn [tk_qdisc mem_ok]. rewrite E. case_bool_decide as Hc.
    + intros [= <-]. injection Hc as -> ->. unfold placed. rewrite Ho.
      split; [done|]. split; [done|discriminate].
    + by apply (Hr name).
Qed.

Lemma filter_step n : lo_step n (List.filter (fun e => negb (at_ 1 TC_ROOT e)) n).
Proof.
  split; [split; [done|]|split].
  - intros name i p Hl Hne. cbn [tk_qdisc mem_ok]. rewrite qdisc_filter, bool_decide_false; [done|].
    intros [= -> ->]. cbn in Hl. destruct Hl as [[= <-]|[[=]|[[=]|[]]]]. done.
  - intros i p msg. cbn [tk_qdisc mem_ok]. rewrite qdisc_filter. by case_bool_decide.
  - intros Hr name i p msg Hl. cbn [tk_qdisc mem_ok]. rewrite qdisc_filter. case_bool_decide; [done|].
    by apply (Hr name).
Qed.

Lemma lo_step_refl n : lo_step n n.
Proof. by split; [apply same_on_refl|]. Qed.

Lemma tc_lo verb rest n :
  lo_step n (tc ("qdisc" :: verb :: "dev" :: "lo" :: "root" :: rest)%string n).1.
Proof.
  assert (Hent : forall kind, lo_step n (mkEntry 1 TC_ROOT (mkHandle 1 0) [AttrKind kind] :: n))
    by (intros; by apply lo_entry_step).
  unfold tc. repeat case_match; cbn [fst]; auto using lo_step_refl, filter_step.
Qed.

(** A host with shaping of ours left on [wg0] and a foreign qdisc on [eth0]. *)
Definition host : list entry :=
  [mkEntry 3 TC_ROOT our_handle [AttrKind "fq_codel"];
   mkEntry 2 TC_ROOT (mkHandle 0x8001 0) [AttrKind "pfifo_fast"]]%string.

Definition shape (direction : QosDirection) (kind : QdiscKind) (bandwidth : option Z) : QosConfig :=
  mkQos "eth0" direction kind bandwidth (Some 5) None true true None [] "home".

Definition manager (intent : list QosConfig) : qos_manager :=
  mkQosManager intent (mkQosSnapshot [] [] None true None) [].

Definition probe_ : list entry -> list entry * QosCapabilities :=
  probe_qos_capabilities (Some tc) EmptyString None.

Lemma tc_supported kind n : (tc_qdisc_supported (Some tc) kind n).2 = true.
Proof.
  unfold tc_qdisc_supported, tc. cbn [List.last app]. rewrite bool_decide_true by done.
  destruct (qdisc n 1 TC_ROOT) eqn:E; [|by rewrite 2!bool_decide_false, bool_decide_true].
  rewrite bool_decide_false, bool_decide_true by done. by rewrite 2!bool_decide_false, bool_decide_true.
Qed.

Lemma probe_supports n c : supported (probe_ n).2 c = true.
Proof.
  unfold probe_, probe_qos_capabilities.
  pose proof (tc_supported "cake" n) as H1. destruct (tc_qdisc_supported _ _ n) as [n1 b1] in H1 |- *.
  pose proof (tc_supported "fq_codel" n1) as H2. destruct (tc_qdisc_supported _ _ n1) as [n2 b2] in H2 |- *.
  destruct (tc_qdisc_supported _ _ n2) as [n3 b3]. destruct (tc_qdisc_supported _ _ n3) as [n4 b4].
  cbn [snd] in *. subst. by destruct c as [? ? []].
Qed.

Lemma host_reserved : reserved host.
Proof.
  intros name i p msg _ Hq. destruct (qdisc_spec _ _ _ _ Hq) as (e & He & <- & <- & _ & ->).
  cbn in He. unfold placed.
  destruct He as [<-|[<-|[]]]; vm_compute; naive_solver.
Qed.

Lemma host_no_stale desired : Forall (fun c => q_interface c = "eth0"%string) desired -> no_stale desired host.
Proof.
  intros Hd name i p msg Hl Hq Ho Hn. exfalso. apply in_map_iff in Hn as (c & <- & Hc).
  rewrite List.Forall_forall in Hd. rewrite (Hd c Hc) in Hl. cbn in Hl.
  destruct Hl as [[=]|[[= <-]|[[=]|[]]]].
  destruct (qdisc_spec _ _ _ _ Hq) as (e & He & Hi & _ & _ & ->). cbn in He.
  destruct He as [<-|[<-|[]]]; done.
Qed.
End TcMem.

Lemma mem_deletes : deletes (N := list TcMem.entry).
Proof.
  intros m n H. cbn [k_del TcMem.mem_kernel]. unfold TcMem.del. by rewrite bool_decide_true.
Qed.


(** ** Passes that do not settle *)

(** A CAKE rate that is not a whole number of bytes per second is read back rounded: every
    pass finds drift and applies it again. *)
Lemma odd_rate_reapplied_forever :
  let m0 := TcMem.manager [TcMem.shape DirEgress Cake (Some 1000001)] in
  exists m1 n1 m2 n2 m3 n3,
    converge_qos (tc_exec TcMem.probe_) m0 TcMem.host = Val (m1, n1, inr ()) /\
    converge_qos (tc_exec TcMem.probe_) m1 n1 = Val (m2, n2, inr ()) /\
    converge_qos (tc_exec TcMem.probe_) m2 n2 = Val (m3, n3, inr ()) /\
    sn_drift (qm_snapshot m3) = true /\
    List.filter (fun e => match e with QosApplied _ _ => true | _ => false end) (qm_events m3) =
      replicate 3 (QosApplied "eth0" "cake").
Proof. do 6 eexists. do 3 (split; [vm_compute; reflexivity|]). by vm_compute. Qed.

(** Ingress shaping with a kind other than [Ingress] attaches the ingress qdisc, which
    does not match the configuration. *)
Lemma ingress_cake_never_matches :
  let m0 := TcMem.manager [TcMem.shape DirIngress Cake (Some 8000000)] in
  exists m1 n1 m2 n2,
    converge_qos (tc_exec TcMem.probe_) m0 TcMem.host = Val (m1, n1, inr ()) /\
    converge_qos (tc_exec TcMem.probe_) m1 n1 = Val (m2, n2, inr ()) /\
    sn_drift (qm_snapshot m2) = true /\ sn_last_error (qm_snapshot m2) = None.
Proof. do 4 eexists. do 2 (split; [vm_compute; reflexivity|]). by vm_compute. Qed.

(** Shaping moved from the ingress to the egress of an interface leaves the ingress qdisc
    in place: the pass reports drift and never removes it. *)
Lemma stale_direction_kept :
  exists m1 n1 m2 n2 m3 n3,
    converge_qos (tc_exec TcMem.probe_) (TcMem.manager [TcMem.shape DirIngress QIngress None])
      TcMem.host = Val (m1, n1, inr ()) /\
    set_qos_intent (tc_exec TcMem.probe_) [TcMem.shape DirEgress Cake (Some 8000000)] m1 n1 =
      Val (m2, n2, inr ()) /\
    converge_qos (tc_exec TcMem.probe_) m2 n2 = Val (m3, n3, inr ()) /\
    sn_drift (qm_snapshot m3) = true /\
    kind_of ∘ tc_attributes <$> tk_qdisc n3 2 TC_INGRESS = Some (Some "ingress"%string).
Proof. do 6 eexists. do 3 (split; [vm_compute; reflexivity|]). by vm_compute. Qed.

(** An ingress qdisc somebody else attached is removed as an orphan of ours, and the root
    qdisc of the loopback device does not survive the capability probe. *)
Lemma foreign_ingress_removed :
  let foreign := [TcMem.mkEntry 2 TC_INGRESS ingress_handle [AttrKind "ingress"];
                  TcMem.mkEntry 1 TC_ROOT (mkHandle 0x8002 0) [AttrKind "netem"]]%string in
  exists m1 n1,
    converge_qos (tc_exec TcMem.probe_) (TcMem.manager []) foreign = Val (m1, n1, inr ()) /\
    qm_events m1 = [QosRemoved "eth0"] /\
    tk_qdisc n1 2 TC_INGRESS = None /\ tk_qdisc n1 1 TC_ROOT = None.
Proof. do 2 eexists. split; [vm_compute; reflexivity|]. by vm_compute. Qed.

(** The configuration [shape] with another latency target, or without its rate. *)
Definition with_latency (ms : Z) (c : QosConfig) : QosConfig :=
  mkQos (q_interface c) (q_direction c) (q_kind c) (q_bandwidth_bps c) (Some ms) (q_overhead_bytes c)
    (q_ecn c) (q_wash c) (q_memory_limit_bytes c) (q_classes c) (q_comment c).

(** A changed latency target is never applied, and neither is the removal of a rate: the
    comparison looks at the kind and at a rate that is asked for. *)
Lemma changed_options_not_applied :
  let old := TcMem.shape DirEgress Cake (Some 8000000) in
  Forall (fun new => exists m1 n1 m2 n2,
    converge_qos (tc_exec TcMem.probe_) (TcMem.manager [old]) TcMem.host = Val (m1, n1, inr ()) /\
    set_qos_intent (tc_exec TcMem.probe_) [new] m1 n1 = Val (m2, n2, inr ()) /\
    sn_drift (qm_snapshot m2) = false /\ sn_last_error (qm_snapshot m2) = None /\
    qm_events m2 = qm_events m1 /\ tk_qdisc n2 2 TC_ROOT = tk_qdisc n1 2 TC_ROOT)
  [with_latency 50 old; TcMem.shape DirEgress Cake None].
Proof.
  repeat constructor; do 4 eexists; do 2 (split; [vm_compute; reflexivity|]); by vm_compute.
Qed.

(** An fq_codel configuration with a rate is applied without one and reported as settled. *)
Lemma fq_codel_rate_ignored :
  exists m1 n1,
    converge_qos (tc_exec TcMem.probe_) (TcMem.manager [TcMem.shape DirEgress FqCodel (Some 8000000)])
      TcMem.host = Val (m1, n1, inr ()) /\
    sn_drift (qm_snapshot m1) = false /\ sn_last_error (qm_snapshot m1) = None /\
    rates (from_option (options ∘ tc_attributes) [] (tk_qdisc n1 2 TC_ROOT)) = [].
Proof. do 2 eexists. split; [vm_compute; reflexivity|]. by vm_compute. Qed.

(** A kernel that refuses to delete: the qdisc stays, and the pass announces its removal
    without an error. *)
Definition stubborn : TcKernel (list TcMem.entry) := {|
  k_link_index := k_link_index; k_link_names := k_link_names; k_qdiscs := k_qdiscs; k_new := k_new;
  k_del _ n := (n, inr [Some (-1)])
|}.

Lemma refused_removal_announced :
  exists m1 n1,
    converge_qos (tc_exec (kernel := stubborn) TcMem.probe_) (TcMem.manager []) TcMem.host =
      Val (m1, n1, inr ()) /\
    qm_events m1 = [QosRemoved "wg0"] /\ sn_last_error (qm_snapshot m1) = None /\
    sn_drift (qm_snapshot m1) = true /\ tk_qdisc n1 3 TC_ROOT = tk_qdisc TcMem.host 3 TC_ROOT.
Proof. do 2 eexists. split; [vm_compute; reflexivity|]. by vm_compute. Qed.
