(* ===== verification/IfaceFields.v ===== *)
(** * Updates of the fields of [InterfaceInfo] (balansir-common/src/network.rs)

    Assignments to one field of an interface record, [info.mac = v] and the like. *)

From S2P Require Import Prelude NetTypes.

(** [InterfaceInfo::default()] *)
Definition default_iface : InterfaceInfo :=
  mkIface EmptyString 0 None None RoleUnknown None None false 0 None None None false None None None
    None None None None [] [] 0 0 0 0 0 0 0 0 0 None None.

Definition with_name (v : string) (i : InterfaceInfo) : InterfaceInfo :=
  mkIface v (if_index i) (if_kind i) (if_mac i) (if_role i) (if_hardware_mac i)
    (if_previous_mac i) (if_link_up i) (if_mtu i) (if_speed_mbps i) (if_duplex i)
    (if_max_throughput_mbps i) (if_usb i) (if_driver i) (if_bus i) (if_vendor_id i)
    (if_product_id i) (if_device_model i) (if_if_type i) (if_wifi i) (if_ipv4 i) (if_ipv6 i)
    (if_rx_bytes i) (if_tx_bytes i) (if_rx_packets i) (if_tx_packets i) (if_rx_errors i)
    (if_tx_errors i) (if_rx_dropped i) (if_tx_dropped i) (if_multicast i) (if_qdisc i)
    (if_oper_state i).
Definition with_index (v : Z) (i : InterfaceInfo) : InterfaceInfo :=
  mkIface (if_name i) v (if_kind i) (if_mac i) (if_role i) (if_hardware_mac i)
    (if_previous_mac i) (if_link_up i) (if_mtu i) (if_speed_mbps i) (if_duplex i)
    (if_max_throughput_mbps i) (if_usb i) (if_driver i) (if_bus i) (if_vendor_id i)
    (if_product_id i) (if_device_model i) (if_if_type i) (if_wifi i) (if_ipv4 i) (if_ipv6 i)
    (if_rx_bytes i) (if_tx_bytes i) (if_rx_packets i) (if_tx_packets i) (if_rx_errors i)
    (if_tx_errors i) (if_rx_dropped i) (if_tx_dropped i) (if_multicast i) (if_qdisc i)
    (if_oper_state i).
Definition with_kind (v : option string) (i : InterfaceInfo) : InterfaceInfo :=
  mkIface (if_name i) (if_index i) v (if_mac i) (if_role i) (if_hardware_mac i)
    (if_previous_mac i) (if_link_up i) (if_mtu i) (if_speed_mbps i) (if_duplex i)
    (if_max_throughput_mbps i) (if_usb i) (if_driver i) (if_bus i) (if_vendor_id i)
    (if_product_id i) (if_device_model i) (if_if_type i) (if_wifi i) (if_ipv4 i) (if_ipv6 i)
    (if_rx_bytes i) (if_tx_bytes i) (if_rx_packets i) (if_tx_packets i) (if_rx_errors i)
    (if_tx_errors i) (if_rx_dropped i) (if_tx_dropped i) (if_multicast i) (if_qdisc i)
    (if_oper_state i).
Definition with_mac (v : option string) (i : InterfaceInfo) : InterfaceInfo :=
  mkIface (if_name i) (if_index i) (if_kind i) v (if_role i) (if_hardware_mac i)
    (if_previous_mac i) (if_link_up i) (if_mtu i) (if_speed_mbps i) (if_duplex i)
    (if_max_throughput_mbps i) (if_usb i) (if_driver i) (if_bus i) (if_vendor_id i)
    (if_product_id i) (if_device_model i) (if_if_type i) (if_wifi i) (if_ipv4 i) (if_ipv6 i)
    (if_rx_bytes i) (if_tx_bytes i) (if_rx_packets i) (if_tx_packets i) (if_rx_errors i)
    (if_tx_errors i) (if_rx_dropped i) (if_tx_dropped i) (if_multicast i) (if_qdisc i)
    (if_oper_state i).
Definition with_role (v : InterfaceRole) (i : InterfaceInfo) : InterfaceInfo :=
  mkIface (if_name i) (if_index i) (if_kind i) (if_mac i) v (if_hardware_mac i)
    (if_previous_mac i) (if_link_up i) (if_mtu i) (if_speed_mbps i) (if_duplex i)
    (if_max_throughput_mbps i) (if_usb i) (if_driver i) (if_bus i) (if_vendor_id i)
    (if_product_id i) (if_device_model i) (if_if_type i) (if_wifi i) (if_ipv4 i) (if_ipv6 i)
    (if_rx_bytes i) (if_tx_bytes i) (if_rx_packets i) (if_tx_packets i) (if_rx_errors i)
    (if_tx_errors i) (if_rx_dropped i) (if_tx_dropped i) (if_multicast i) (if_qdisc i)
    (if_oper_state i).
Definition with_hardware_mac (v : option string) (i : InterfaceInfo) : InterfaceInfo :=
  mkIface (if_name i) (if_index i) (if_kind i) (if_mac i) (if_role i) v (if_previous_mac i)
    (if_link_up i) (if_mtu i) (if_speed_mbps i) (if_duplex i) (if_max_throughput_mbps i)
    (if_usb i) (if_driver i) (if_bus i) (if_vendor_id i) (if_product_id i) (if_device_model i)
    (if_if_type i) (if_wifi i) (if_ipv4 i) (if_ipv6 i) (if_rx_bytes i) (if_tx_bytes i)
    (if_rx_packets i) (if_tx_packets i) (if_rx_errors i) (if_tx_errors i) (if_rx_dropped i)
    (if_tx_dropped i) (if_multicast i) (if_qdisc i) (if_oper_state i).
Definition with_previous_mac (v : option string) (i : InterfaceInfo) : InterfaceInfo :=
  mkIface (if_name i) (if_index i) (if_kind i) (if_mac i) (if_role i) (if_hardware_mac i) v
    (if_link_up i) (if_mtu i) (if_speed_mbps i) (if_duplex i) (if_max_throughput_mbps i)
    (if_usb i) (if_driver i) (if_bus i) (if_vendor_id i) (if_product_id i) (if_device_model i)
    (if_if_type i) (if_wifi i) (if_ipv4 i) (if_ipv6 i) (if_rx_bytes i) (if_tx_bytes i)
    (if_rx_packets i) (if_tx_packets i) (if_rx_errors i) (if_tx_errors i) (if_rx_dropped i)
    (if_tx_dropped i) (if_multicast i) (if_qdisc i) (if_oper_state i).
Definition with_link_up (v : bool) (i : InterfaceInfo) : InterfaceInfo :=
  mkIface (if_name i) (if_index i) (if_kind i) (if_mac i) (if_role i) (if_hardware_mac i)
    (if_previous_mac i) v (if_mtu i) (if_speed_mbps i) (if_duplex i) (if_max_throughput_mbps i)
    (if_usb i) (if_driver i) (if_bus i) (if_vendor_id i) (if_product_id i) (if_device_model i)
    (if_if_type i) (if_wifi i) (if_ipv4 i) (if_ipv6 i) (if_rx_bytes i) (if_tx_bytes i)
    (if_rx_packets i) (if_tx_packets i) (if_rx_errors i) (if_tx_errors i) (if_rx_dropped i)
    (if_tx_dropped i) (if_multicast i) (if_qdisc i) (if_oper_state i).
Definition with_mtu (v : Z) (i : InterfaceInfo) : InterfaceInfo :=
  mkIface (if_name i) (if_index i) (if_kind i) (if_mac i) (if_role i) (if_hardware_mac i)
    (if_previous_mac i) (if_link_up i) v (if_speed_mbps i) (if_duplex i)
    (if_max_throughput_mbps i) (if_usb i) (if_driver i) (if_bus i) (if_vendor_id i)
    (if_product_id i) (if_device_model i) (if_if_type i) (if_wifi i) (if_ipv4 i) (if_ipv6 i)
    (if_rx_bytes i) (if_tx_bytes i) (if_rx_packets i) (if_tx_packets i) (if_rx_errors i)
    (if_tx_errors i) (if_rx_dropped i) (if_tx_dropped i) (if_multicast i) (if_qdisc i)
    (if_oper_state i).
Definition with_speed_mbps (v : option Z) (i : InterfaceInfo) : InterfaceInfo :=
  mkIface (if_name i) (if_index i) (if_kind i) (if_mac i) (if_role i) (if_hardware_mac i)
    (if_previous_mac i) (if_link_up i) (if_mtu i) v (if_duplex i) (if_max_throughput_mbps i)
    (if_usb i) (if_driver i) (if_bus i) (if_vendor_id i) (if_product_id i) (if_device_model i)
    (if_if_type i) (if_wifi i) (if_ipv4 i) (if_ipv6 i) (if_rx_bytes i) (if_tx_bytes i)
    (if_rx_packets i) (if_tx_packets i) (if_rx_errors i) (if_tx_errors i) (if_rx_dropped i)
    (if_tx_dropped i) (if_multicast i) (if_qdisc i) (if_oper_state i).
Definition with_duplex (v : option string) (i : InterfaceInfo) : InterfaceInfo :=
  mkIface (if_name i) (if_index i) (if_kind i) (if_mac i) (if_role i) (if_hardware_mac i)
    (if_previous_mac i) (if_link_up i) (if_mtu i) (if_speed_mbps i) v (if_max_throughput_mbps i)
    (if_usb i) (if_driver i) (if_bus i) (if_vendor_id i) (if_product_id i) (if_device_model i)
    (if_if_type i) (if_wifi i) (if_ipv4 i) (if_ipv6 i) (if_rx_bytes i) (if_tx_bytes i)
    (if_rx_packets i) (if_tx_packets i) (if_rx_errors i) (if_tx_errors i) (if_rx_dropped i)
    (if_tx_dropped i) (if_multicast i) (if_qdisc i) (if_oper_state i).
Definition with_usb (v : bool) (i : InterfaceInfo) : InterfaceInfo :=
  mkIface (if_name i) (if_index i) (if_kind i) (if_mac i) (if_role i) (if_hardware_mac i)
    (if_previous_mac i) (if_link_up i) (if_mtu i) (if_speed_mbps i) (if_duplex i)
    (if_max_throughput_mbps i) v (if_driver i) (if_bus i) (if_vendor_id i) (if_product_id i)
    (if_device_model i) (if_if_type i) (if_wifi i) (if_ipv4 i) (if_ipv6 i) (if_rx_bytes i)
    (if_tx_bytes i) (if_rx_packets i) (if_tx_packets i) (if_rx_errors i) (if_tx_errors i)
    (if_rx_dropped i) (if_tx_dropped i) (if_multicast i) (if_qdisc i) (if_oper_state i).
Definition with_driver (v : option string) (i : InterfaceInfo) : InterfaceInfo :=
  mkIface (if_name i) (if_index i) (if_kind i) (if_mac i) (if_role i) (if_hardware_mac i)
    (if_previous_mac i) (if_link_up i) (if_mtu i) (if_speed_mbps i) (if_duplex i)
    (if_max_throughput_mbps i) (if_usb i) v (if_bus i) (if_vendor_id i) (if_product_id i)
    (if_device_model i) (if_if_type i) (if_wifi i) (if_ipv4 i) (if_ipv6 i) (if_rx_bytes i)
    (if_tx_bytes i) (if_rx_packets i) (if_tx_packets i) (if_rx_errors i) (if_tx_errors i)
    (if_rx_dropped i) (if_tx_dropped i) (if_multicast i) (if_qdisc i) (if_oper_state i).
Definition with_bus (v : option string) (i : InterfaceInfo) : InterfaceInfo :=
  mkIface (if_name i) (if_index i) (if_kind i) (if_mac i) (if_role i) (if_hardware_mac i)
    (if_previous_mac i) (if_link_up i) (if_mtu i) (if_speed_mbps i) (if_duplex i)
    (if_max_throughput_mbps i) (if_usb i) (if_driver i) v (if_vendor_id i) (if_product_id i)
    (if_device_model i) (if_if_type i) (if_wifi i) (if_ipv4 i) (if_ipv6 i) (if_rx_bytes i)
    (if_tx_bytes i) (if_rx_packets i) (if_tx_packets i) (if_rx_errors i) (if_tx_errors i)
    (if_rx_dropped i) (if_tx_dropped i) (if_multicast i) (if_qdisc i) (if_oper_state i).
Definition with_vendor_id (v : option string) (i : InterfaceInfo) : InterfaceInfo :=
  mkIface (if_name i) (if_index i) (if_kind i) (if_mac i) (if_role i) (if_hardware_mac i)
    (if_previous_mac i) (if_link_up i) (if_mtu i) (if_speed_mbps i) (if_duplex i)
    (if_max_throughput_mbps i) (if_usb i) (if_driver i) (if_bus i) v (if_product_id i)
    (if_device_model i) (if_if_type i) (if_wifi i) (if_ipv4 i) (if_ipv6 i) (if_rx_bytes i)
    (if_tx_bytes i) (if_rx_packets i) (if_tx_packets i) (if_rx_errors i) (if_tx_errors i)
    (if_rx_dropped i) (if_tx_dropped i) (if_multicast i) (if_qdisc i) (if_oper_state i).
Definition with_product_id (v : option string) (i : InterfaceInfo) : InterfaceInfo :=
  mkIface (if_name i) (if_index i) (if_kind i) (if_mac i) (if_role i) (if_hardware_mac i)
    (if_previous_mac i) (if_link_up i) (if_mtu i) (if_speed_mbps i) (if_duplex i)
    (if_max_throughput_mbps i) (if_usb i) (if_driver i) (if_bus i) (if_vendor_id i) v
    (if_device_model i) (if_if_type i) (if_wifi i) (if_ipv4 i) (if_ipv6 i) (if_rx_bytes i)
    (if_tx_bytes i) (if_rx_packets i) (if_tx_packets i) (if_rx_errors i) (if_tx_errors i)
    (if_rx_dropped i) (if_tx_dropped i) (if_multicast i) (if_qdisc i) (if_oper_state i).
Definition with_device_model (v : option string) (i : InterfaceInfo) : InterfaceInfo :=
  mkIface (if_name i) (if_index i) (if_kind i) (if_mac i) (if_role i) (if_hardware_mac i)
    (if_previous_mac i) (if_link_up i) (if_mtu i) (if_speed_mbps i) (if_duplex i)
    (if_max_throughput_mbps i) (if_usb i) (if_driver i) (if_bus i) (if_vendor_id i)
    (if_product_id i) v (if_if_type i) (if_wifi i) (if_ipv4 i) (if_ipv6 i) (if_rx_bytes i)
    (if_tx_bytes i) (if_rx_packets i) (if_tx_packets i) (if_rx_errors i) (if_tx_errors i)
    (if_rx_dropped i) (if_tx_dropped i) (if_multicast i) (if_qdisc i) (if_oper_state i).
Definition with_if_type (v : option string) (i : InterfaceInfo) : InterfaceInfo :=
  mkIface (if_name i) (if_index i) (if_kind i) (if_mac i) (if_role i) (if_hardware_mac i)
    (if_previous_mac i) (if_link_up i) (if_mtu i) (if_speed_mbps i) (if_duplex i)
    (if_max_throughput_mbps i) (if_usb i) (if_driver i) (if_bus i) (if_vendor_id i)
    (if_product_id i) (if_device_model i) v (if_wifi i) (if_ipv4 i) (if_ipv6 i) (if_rx_bytes i)
    (if_tx_bytes i) (if_rx_packets i) (if_tx_packets i) (if_rx_errors i) (if_tx_errors i)
    (if_rx_dropped i) (if_tx_dropped i) (if_multicast i) (if_qdisc i) (if_oper_state i).
Definition with_wifi (v : option WifiInfo) (i : InterfaceInfo) : InterfaceInfo :=
  mkIface (if_name i) (if_index i) (if_kind i) (if_mac i) (if_role i) (if_hardware_mac i)
    (if_previous_mac i) (if_link_up i) (if_mtu i) (if_speed_mbps i) (if_duplex i)
    (if_max_throughput_mbps i) (if_usb i) (if_driver i) (if_bus i) (if_vendor_id i)
    (if_product_id i) (if_device_model i) (if_if_type i) v (if_ipv4 i) (if_ipv6 i)
    (if_rx_bytes i) (if_tx_bytes i) (if_rx_packets i) (if_tx_packets i) (if_rx_errors i)
    (if_tx_errors i) (if_rx_dropped i) (if_tx_dropped i) (if_multicast i) (if_qdisc i)
    (if_oper_state i).
Definition with_ipv4 (v : list string) (i : InterfaceInfo) : InterfaceInfo :=
  mkIface (if_name i) (if_index i) (if_kind i) (if_mac i) (if_role i) (if_hardware_mac i)
    (if_previous_mac i) (if_link_up i) (if_mtu i) (if_speed_mbps i) (if_duplex i)
    (if_max_throughput_mbps i) (if_usb i) (if_driver i) (if_bus i) (if_vendor_id i)
    (if_product_id i) (if_device_model i) (if_if_type i) (if_wifi i) v (if_ipv6 i)
    (if_rx_bytes i) (if_tx_bytes i) (if_rx_packets i) (if_tx_packets i) (if_rx_errors i)
    (if_tx_errors i) (if_rx_dropped i) (if_tx_dropped i) (if_multicast i) (if_qdisc i)
    (if_oper_state i).
Definition with_ipv6 (v : list string) (i : InterfaceInfo) : InterfaceInfo :=
  mkIface (if_name i) (if_index i) (if_kind i) (if_mac i) (if_role i) (if_hardware_mac i)
    (if_previous_mac i) (if_link_up i) (if_mtu i) (if_speed_mbps i) (if_duplex i)
    (if_max_throughput_mbps i) (if_usb i) (if_driver i) (if_bus i) (if_vendor_id i)
    (if_product_id i) (if_device_model i) (if_if_type i) (if_wifi i) (if_ipv4 i) v
    (if_rx_bytes i) (if_tx_bytes i) (if_rx_packets i) (if_tx_packets i) (if_rx_errors i)
    (if_tx_errors i) (if_rx_dropped i) (if_tx_dropped i) (if_multicast i) (if_qdisc i)
    (if_oper_state i).
Definition with_qdisc (v : option string) (i : InterfaceInfo) : InterfaceInfo :=
  mkIface (if_name i) (if_index i) (if_kind i) (if_mac i) (if_role i) (if_hardware_mac i)
    (if_previous_mac i) (if_link_up i) (if_mtu i) (if_speed_mbps i) (if_duplex i)
    (if_max_throughput_mbps i) (if_usb i) (if_driver i) (if_bus i) (if_vendor_id i)
    (if_product_id i) (if_device_model i) (if_if_type i) (if_wifi i) (if_ipv4 i) (if_ipv6 i)
    (if_rx_bytes i) (if_tx_bytes i) (if_rx_packets i) (if_tx_packets i) (if_rx_errors i)
    (if_tx_errors i) (if_rx_dropped i) (if_tx_dropped i) (if_multicast i) v (if_oper_state i).
Definition with_oper_state (v : option string) (i : InterfaceInfo) : InterfaceInfo :=
  mkIface (if_name i) (if_index i) (if_kind i) (if_mac i) (if_role i) (if_hardware_mac i)
    (if_previous_mac i) (if_link_up i) (if_mtu i) (if_speed_mbps i) (if_duplex i)
    (if_max_throughput_mbps i) (if_usb i) (if_driver i) (if_bus i) (if_vendor_id i)
    (if_product_id i) (if_device_model i) (if_if_type i) (if_wifi i) (if_ipv4 i) (if_ipv6 i)
    (if_rx_bytes i) (if_tx_bytes i) (if_rx_packets i) (if_tx_packets i) (if_rx_errors i)
    (if_tx_errors i) (if_rx_dropped i) (if_tx_dropped i) (if_multicast i) (if_qdisc i) v.

(** The nine counters. *)
Record LinkStats := mkLinkStats {
  ls_rx_bytes : Z; ls_tx_bytes : Z; ls_rx_packets : Z; ls_tx_packets : Z; ls_rx_errors : Z;
  ls_tx_errors : Z; ls_rx_dropped : Z; ls_tx_dropped : Z; ls_multicast : Z
}.

Definition with_stats (s : LinkStats) (i : InterfaceInfo) : InterfaceInfo :=
  mkIface (if_name i) (if_index i) (if_kind i) (if_mac i) (if_role i) (if_hardware_mac i)
    (if_previous_mac i) (if_link_up i) (if_mtu i) (if_speed_mbps i) (if_duplex i)
    (if_max_throughput_mbps i) (if_usb i) (if_driver i) (if_bus i) (if_vendor_id i)
    (if_product_id i) (if_device_model i) (if_if_type i) (if_wifi i) (if_ipv4 i) (if_ipv6 i)
    (ls_rx_bytes s) (ls_tx_bytes s) (ls_rx_packets s) (ls_tx_packets s) (ls_rx_errors s)
    (ls_tx_errors s) (ls_rx_dropped s) (ls_tx_dropped s) (ls_multicast s) (if_qdisc i)
    (if_oper_state i).
