(* ===== verification/Interface.v ===== *)
(** * Interfaces and MAC cloning (balansir-executor/src/interface.rs)

    The executor's link mechanism: MAC texts, the reading of links, addresses and sysfs
    into [InterfaceInfo], setting and restoring the MAC of an interface and the state file
    that remembers the MAC in effect before a clone; and the backend that only reads sysfs.
    The kernel's link interface, sysfs, the file system and the JSON codec are parameters;
    sysfs contents are ASCII.  Link kinds come as the text the netlink library displays. *)

From stdpp Require Import pretty.
From S2P Require Import Prelude Types IpText Text NetTypes IfaceFields.
#[local] Open Scope Z_scope.

(** ** MAC addresses *)

Definition mac_text (bytes : list Z) : string := join_with ":" (map (show_hex_n 2) bytes).

Definition format_mac (bytes : list Z) : option string :=
  if negb (len bytes =? 6) then None else Some (mac_text bytes).

Definition is_mac_char (c : ascii) : bool := is_hexdigit c || Ascii.eqb c ":" || Ascii.eqb c "-".

(** [chars().filter(..).collect()] of a test on ASCII *)
Fixpoint filter_chars (p : ascii -> bool) (s : string) : string :=
  match s with
  | EmptyString => EmptyString
  | String c s => if p c then String c (filter_chars p s) else filter_chars p s
  end.

(** [str::split] of a set of characters *)
Fixpoint split_by (p : ascii -> bool) (s : string) : list string :=
  match s with
  | EmptyString => [EmptyString]
  | String c s' =>
      if p c then EmptyString :: split_by p s'
      else match split_by p s' with
           | [] => [String c EmptyString]
           | w :: ws => String c w :: ws
           end
  end.

(** [u8::from_str_radix(p, 16)] *)
Definition hex_u8 : string -> option Z := parse_radix 16 255.

Definition validate_mac (input : string) : option string :=
  let cleaned := filter_chars is_mac_char input in
  let parts := List.filter (fun p => negb (is_empty_str p))
                 (split_by (fun c => Ascii.eqb c ":" || Ascii.eqb c "-") cleaned) in
  if negb (len parts =? 6) || existsb (fun p => 2 <? Z.of_nat (String.length p)) parts then None
  else
    bytes ← mapM hex_u8 parts;
    if negb (Z.land (nth 0 bytes 0) 1 =? 0) then None else Some (mac_text bytes).

(** [mac.split(':').filter_map(..)] *)
Definition mac_bytes (mac : string) : list Z := omap hex_u8 (split_on ":" mac).

(** ** The link interface of the kernel *)

Inductive OperState :=
| StUp | StDown | StLowerLayerDown | StUnknown | StNotPresent | StTesting | StDormant | StOther (v : Z).

Inductive LinkInfo := LIKind (kind : string) | LIOther.

Inductive LinkAttribute :=
| LAddress (bytes : list Z)
| LPermAddress (bytes : list Z)
| LIfName (name : string)
| LMtu (mtu : Z)
| LOperState (s : OperState)
| LCarrier (c : Z)
| LStats64 (s : LinkStats)
| LStats (s : LinkStats)
| LQdisc (q : string)
| LLinkInfo (l : list LinkInfo)
| LOther.

Record AddressMessage := mkAddr { am_index : Z; am_prefix_len : Z; am_address : option IpAddr }.

Class LinkKernel (N : Type) := {
  k_links : string -> N -> string + list (Z * list LinkAttribute);
  k_addresses : N -> string + list AddressMessage;
  k_set_address : Z -> list Z -> N -> N * (string + ())
}.

(** Sysfs: text files, the last component of a symbolic link, existence. *)
Record Sysfs := mkSysfs {
  sys_read : string -> option string;
  sys_link : string -> option (option string);
  sys_exists : string -> bool
}.

(** ** Reading an interface *)

Definition state_text (s : OperState) : string :=
  match s with
  | StUp => "up" | StDown => "down" | StLowerLayerDown => "lowerlayerdown" | StUnknown => "unknown"
  | StNotPresent => "notpresent" | StTesting => "testing" | StDormant => "dormant"
  | StOther v => "state-" +:+ pretty v
  end%string.

Definition is_none {A} (o : option A) : bool := match o with None => true | _ => false end.

Definition set_kind (info : InterfaceInfo) (li : LinkInfo) : InterfaceInfo :=
  match li with
  | LIKind kind => with_if_type (Some kind) (with_kind (Some kind) info)
  | LIOther => info
  end.

(** One attribute of [link_to_info]. *)
Definition link_attr (info : InterfaceInfo) (a : LinkAttribute) : InterfaceInfo :=
  match a with
  | LAddress bytes => if is_none (if_mac info) then with_mac (format_mac bytes) info else info
  | LPermAddress bytes =>
      match format_mac bytes with
      | Some mac =>
          let info := with_hardware_mac (Some mac) info in
          if is_none (if_mac info) then with_mac (Some mac) info else info
      | None => info
      end
  | LIfName name => with_name name info
  | LMtu mtu => with_mtu mtu info
  | LOperState s =>
      with_link_up (match s with StUp => true | _ => false end)
        (with_oper_state (Some (state_text s)) info)
  | LCarrier c => if c =? 0 then with_link_up false info else info
  | LStats64 s => with_stats s info
  | LStats s => if if_rx_bytes info =? 0 then with_stats s info else info
  | LQdisc q => with_qdisc (Some q) info
  | LLinkInfo l => fold_left set_kind l info
  | LOther => info
  end.

Section Sys.
Context (sys : Sysfs).

Definition read (path : string) : option string := utrim <$> sys_read sys path.

(** [Path::parent] of a path without [.] components or trailing separators *)
Definition parent (path : string) : option string :=
  match rsplit_once "/" path with
  | Some (EmptyString, EmptyString) => None
  | Some (EmptyString, _) => Some "/"%string
  | Some (p, _) => Some p
  | None => match path with EmptyString => None | _ => Some EmptyString end
  end.

(** A line of the device's uevent. *)
Definition uevent_line (info : InterfaceInfo) (line : string) : InterfaceInfo :=
  match split_once "=" line with
  | Some (k, v) =>
      if String.eqb k "PCI_ID" || String.eqb k "USB_ID" then
        let parts := split_on ":" v in
        with_product_id (nth_error parts 1) (with_vendor_id (nth_error parts 0) info)
      else if String.eqb k "DRIVER" then
        if is_none (if_driver info) then with_driver (Some v) info else info
      else info
  | None => info
  end.

Definition set_if_none (cur v : option string) : option string :=
  match cur with None => v | _ => cur end.

(** The walk towards the USB device, [n] levels. *)
Fixpoint usb_walk (n : nat) (probe : string) (info : InterfaceInfo) : InterfaceInfo :=
  match n with
  | O => info
  | S n =>
      let vid := read (probe +:+ "/idVendor") in
      let pid := read (probe +:+ "/idProduct") in
      let product := read (probe +:+ "/product") in
      let manufacturer := read (probe +:+ "/manufacturer") in
      if negb (is_none vid) || negb (is_none pid) then
        let info := with_vendor_id (set_if_none (if_vendor_id info) vid) info in
        let info := with_product_id (set_if_none (if_product_id info) pid) info in
        let info :=
          match product with
          | Some _ => with_device_model product info
          | None => with_device_model (set_if_none (if_device_model info) manufacturer) info
          end in
        with_bus (Some "usb"%string) (with_usb true info)
      else
        match parent probe with
        | None => info
        | Some p => usb_walk n p info
        end
  end.

(** [i32::from_str] and [i64::from_str] *)
Definition parse_signed (bits : Z) (s : string) : option Z :=
  match s with
  | String "-" s' =>
      match s' with
      | String "+" _ => None
      | _ => Z.opp <$> parse_radix 10 (2 ^ (bits - 1)) s'
      end
  | _ => parse_radix 10 (2 ^ (bits - 1) - 1) s
  end.

Definition read_wifi_state (name : string) : WifiInfo :=
  let info := mkWifiInfo true EmptyString 0 0 0 0 EmptyString false in
  match sys_read sys ("/sys/class/net/" +:+ name +:+ "/wireless") with
  | Some w =>
      match nth_error (lines w) 2 with
      | Some line =>
          let fields := split_whitespace line in
          if 4 <=? len fields then
            let quality := parse_radix 10 255 (trim_end_matches "." (nth 2 fields EmptyString)) in
            let level := parse_signed 32 (trim_end_matches "." (nth 3 fields EmptyString)) in
            mkWifiInfo true EmptyString 0 0 (default 0 level) (default 0 quality) EmptyString false
          else info
      | None => info
      end
  | None => info
  end.

Definition enrich_device_info (name : string) (info : InterfaceInfo) : InterfaceInfo :=
  let base := "/sys/class/net/" +:+ name in
  let device := base +:+ "/device" in
  let info :=
    match sys_link sys (device +:+ "/driver") with
    | Some target => with_driver target info
    | None => info
    end in
  let info :=
    match read (device +:+ "/uevent") with
    | Some uevent => fold_left uevent_line (lines uevent) info
    | None => info
    end in
  let info := usb_walk 4 device info in
  let info :=
    if is_none (if_bus info) then
      with_bus (read (device +:+ "/bus") ≫= fun p => last (split_on "/" p)) info
    else info in
  let info :=
    if is_none (if_vendor_id info) then
      with_product_id (read (device +:+ "/device") ≫= strip_prefix "0x")
        (with_vendor_id (read (device +:+ "/vendor") ≫= strip_prefix "0x") info)
    else info in
  if match if_kind info with Some k => contains k "wlan" || String.eqb k "wifi" | None => false end
     || sys_exists sys (base +:+ "/wireless")
  then with_wifi (Some (read_wifi_state name)) info else info.

Definition link_to_info (name : string) (index : Z) (attrs : list LinkAttribute) : InterfaceInfo :=
  let info := fold_left link_attr attrs
    (with_index index (with_name name default_iface)) in
  enrich_device_info (if_name info) info.

Definition fill_speed_duplex (info : InterfaceInfo) : InterfaceInfo :=
  let base := "/sys/class/net/" +:+ if_name info in
  let info :=
    match sys_read sys (base +:+ "/speed") with
    | Some s =>
        match parse_signed 64 (utrim s) with
        | Some speed => if 0 <? speed then with_speed_mbps (Some speed) info else info
        | None => info
        end
    | None => info
    end in
  match sys_read sys (base +:+ "/duplex") with
  | Some d =>
      let d := utrim d in
      if String.eqb d "full" || String.eqb d "half" then with_duplex (Some d) info else info
  | None => info
  end.

(** [str::trim_start_matches] of a nonempty pattern *)
Fixpoint trim_start_matches (fuel : nat) (pat s : string) : string :=
  match fuel with
  | O => s
  | S fuel => match strip_prefix pat s with Some r => trim_start_matches fuel pat r | None => s end
  end.

(** The backend without privileges: one interface read from sysfs. *)
Definition sysfs_iface (name : string) : InterfaceInfo :=
  let base := "/sys/class/net/" +:+ name in
  let read_str field := read (base +:+ "/" +:+ field) in
  let kind :=
    u ← read_str "uevent"%string;
    l ← List.find (fun l => starts_with l "DEVTYPE=") (lines u);
    Some (trim_start_matches (String.length l) "DEVTYPE=" l) in
  let index := default 0 (read_str "ifindex"%string ≫= parse_signed 32) in
  let mtu := default 0 (read_str "mtu"%string ≫= parse_u32) in
  with_oper_state (read_str "operstate"%string)
    (with_mtu mtu
       (with_link_up (bool_decide (read_str "operstate"%string = Some "up"%string))
          (with_mac (read_str "address"%string)
             (with_kind kind
                (with_index index (with_name name default_iface)))))).

(** [names]: the entries of /sys/class/net. *)
Definition sysfs_info (names : string + list string) (interface : string) : string + list InterfaceInfo :=
  if is_empty_str interface then
    match names with
    | inl e => inl e
    | inr names => inr (map sysfs_iface names)
    end
  else inr [sysfs_iface interface].
End Sys.

Definition mac_refused : string := "MAC changes require a privileged netlink backend".
Definition sysfs_set_mac {W} (_ _ : string) (w : W) : W * (string + InterfaceResult) := (w, inl mac_refused).
Definition sysfs_restore_mac {W} (_ : string) (w : W) : W * (string + InterfaceResult) := (w, inl mac_refused).

(** ** The state file *)

Class Files (F : Type) := {
  f_read : string -> F -> string + string;
  f_write : string -> string -> F -> F * (string + ());
  f_rename : string -> string -> F -> F * (string + ())
}.

Definition MAC_STATE_PATH : string := "/run/balansir/mac-state.json".

(** [path.with_extension("json.tmp")] of the state file *)
Definition mac_state_tmp : string := "/run/balansir/mac-state.json.tmp".

Section Backend.
Context {N F : Type} {kernel : LinkKernel N} {files : Files F}.
(** [serde_json] on a map of strings. *)
Context (json_of : gmap string string -> option string).
Context (of_json : string -> string + gmap string string).

Definition read_mac_state (f : F) : string + gmap string string :=
  match f_read MAC_STATE_PATH f with
  | inl e => inl ("read " +:+ MAC_STATE_PATH +:+ ": " +:+ e)
  | inr content =>
      match of_json content with
      | inl e => inl ("parse " +:+ MAC_STATE_PATH +:+ ": " +:+ e)
      | inr m => inr m
      end
  end.

Definition write_mac_state (m : gmap string string) (f : F) : F :=
  match f_write mac_state_tmp (default EmptyString (json_of m)) f with
  | (f, inl _) => f
  | (f, inr _) => (f_rename mac_state_tmp MAC_STATE_PATH f).1
  end.

Definition state_or_empty (f : F) : gmap string string :=
  match read_mac_state f with inr m => m | inl _ => ∅ end.

Definition remember_previous_mac (interface mac : string) (f : F) : F :=
  write_mac_state (<[interface := mac]> (state_or_empty f)) f.

Definition remembered_previous_mac (interface : string) (f : F) : option string :=
  match read_mac_state f with inr m => m !! interface | inl _ => None end.

Definition forget_previous_mac (interface : string) (f : F) : F :=
  let m := state_or_empty f in
  match m !! interface with
  | Some _ => write_mac_state (delete interface m) f
  | None => f
  end.

(** ** The netlink backend *)

Record world := mkWorld { w_net : N; w_files : F }.

(** The first address of an attribute class that formats, over all links of the dump. *)
Definition find_mac (pick : LinkAttribute -> option (list Z)) (name : string) (n : N) : option string :=
  match k_links name n with
  | inl _ => None
  | inr links => head (omap (fun a => pick a ≫= format_mac) (concat (map snd links)))
  end.

Definition permanent_mac : string -> N -> option string :=
  find_mac (fun a => match a with LPermAddress b => Some b | _ => None end).

Definition current_mac : string -> N -> option string :=
  find_mac (fun a => match a with LAddress b => Some b | _ => None end).

Definition find_index (name : string) (n : N) : string + Z :=
  match k_links name n with
  | inl e => inl e
  | inr [] => inl ("interface " +:+ name +:+ " not found")
  | inr ((i, _) :: _) => inr i
  end.

Definition set_mac (interface mac : string) (w : world) : world * (string + InterfaceResult) :=
  match validate_mac mac with
  | None => (w, inl ("invalid MAC address: " +:+ mac))
  | Some mac =>
      let hardware := permanent_mac interface (w_net w) in
      let previous := current_mac interface (w_net w) in
      match find_index interface (w_net w) with
      | inl e => (w, inl e)
      | inr index =>
          match k_set_address index (mac_bytes mac) (w_net w) with
          | (n, inl e) => (mkWorld n (w_files w), inl ("set MAC " +:+ interface +:+ ": " +:+ e))
          | (n, inr _) =>
              let f := match previous with
                       | Some prev => remember_previous_mac interface prev (w_files w)
                       | None => w_files w
                       end in
              (mkWorld n f, inr (mkIfResult true ("MAC cloned to " +:+ mac) hardware (Some mac) previous))
          end
      end
  end.

Definition restore_mac (interface : string) (w : world) : world * (string + InterfaceResult) :=
  let hardware := permanent_mac interface (w_net w) in
  match match hardware with
        | Some m => Some m
        | None => remembered_previous_mac interface (w_files w)
        end with
  | None => (w, inl ("no permanent hardware MAC available for " +:+ interface))
  | Some target =>
      match find_index interface (w_net w) with
      | inl e => (w, inl e)
      | inr index =>
          match k_set_address index (mac_bytes target) (w_net w) with
          | (n, inl e) => (mkWorld n (w_files w), inl ("restore MAC " +:+ interface +:+ ": " +:+ e))
          | (n, inr _) =>
              let f := if is_none hardware then w_files w
                       else forget_previous_mac interface (w_files w) in
              (mkWorld n f, inr (mkIfResult true ("MAC restored to factory " +:+ target) hardware
                                   (Some target) None))
          end
      end
  end.

(** [{ip}/{prefix}] of the addresses of an interface *)
Definition dump_addresses (ifindex : Z) (n : N) : string + list string :=
  match k_addresses n with
  | inl e => inl e
  | inr l =>
      inr (omap (fun a =>
        if negb (am_index a =? ifindex) then None
        else (fun ip => show_ip ip +:+ "/" +:+ pretty (am_prefix_len a)) <$> am_address a) l)
  end.

Definition add_address (info : InterfaceInfo) (a : string) : InterfaceInfo :=
  if contains a ":" then with_ipv6 (if_ipv6 info ++ [a]) info
  else with_ipv4 (if_ipv4 info ++ [a]) info.

Definition link_info (sys : Sysfs) (w : world) (link : Z * list LinkAttribute) : InterfaceInfo :=
  let '(index, attrs) := link in
  let name := default ("link" +:+ pretty index)
    (head (omap (fun a => match a with LIfName n => Some n | _ => None end) attrs)) in
  let info := link_to_info sys name index attrs in
  let info := with_previous_mac (remembered_previous_mac (if_name info) (w_files w)) info in
  let info :=
    match dump_addresses (if_index info) (w_net w) with
    | inr addrs => fold_left add_address addrs info
    | inl _ => info
    end in
  fill_speed_duplex sys info.

Definition info (sys : Sysfs) (interface : string) (w : world) : string + list InterfaceInfo :=
  match k_links interface (w_net w) with
  | inl e => inl e
  | inr links => inr (map (link_info sys w) links)
  end.
End Backend.
Arguments world : clear implicits.
Arguments mkWorld {N F}.

(** ** MAC texts *)

Definition is_mac (bytes : list Z) : Prop := length bytes = 6%nat /\ Forall is_byte bytes.

Lemma byte_table (P : Z -> bool) :
  forallb P (map Z.of_nat (seq 0 256)) = true -> forall b, is_byte b -> P b = true.
Proof.
  intros H b Hb. rewrite forallb_forall in H. apply H, in_map_iff. unfold is_byte in Hb.
  exists (Z.to_nat b). split; [lia|]. apply in_seq. lia.
Qed.

Lemma hex_u8_show b : is_byte b -> hex_u8 (show_hex_n 2 b) = Some b.
Proof.
  intros Hb. cut (bool_decide (hex_u8 (show_hex_n 2 b) = Some b) = true);
    [apply bool_decide_eq_true|].
  revert b Hb. apply (byte_table (fun b => bool_decide (hex_u8 (show_hex_n 2 b) = Some b))).
  by vm_compute.
Qed.

Lemma hex_u8_byte s b : hex_u8 s = Some b -> is_byte b.
Proof.
  assert (D : forall s acc v, 0 <= acc -> digits_value 16 acc s = Some v -> 0 <= v).
  { intros t. induction t as [|c t IH]; intros acc v Ha; cbn [digits_value]; [intros [= <-]; done|].
    destruct (digit_val 16 c) as [d|] eqn:Ed; [|done]. apply IH.
    unfold digit_val in Ed. repeat case_match; simplify_eq; lia. }
  unfold hex_u8, parse_radix, is_byte. intros H.
  assert (exists t, digits_value 16 0 t = Some b /\ b <= 255) as (t & Ht & Hb).
  { repeat (case_match; simplify_eq); (eexists; split; [eassumption|lia]). }
  split; [|lia]. by apply (D t 0).
Qed.

Lemma show_hex_chars b : is_byte b -> all_chars is_hexdigit (show_hex_n 2 b) = true.
Proof. revert b. apply byte_table. by vm_compute. Qed.

Lemma show_hex_length n v : String.length (show_hex_n n v) = n.
Proof.
  revert v. induction n as [|n IH]; intros v; [done|]. cbn [show_hex_n].
  rewrite string_length_app, IH. cbn [String.length]. lia.
Qed.

Lemma hexdigit_not_sep c : is_hexdigit c = true -> Ascii.eqb c ":" = false /\ Ascii.eqb c "-" = false.
Proof.
  intros H. split; apply Ascii.eqb_neq; intros ->; by vm_compute in H.
Qed.

Lemma filter_chars_all p s : all_chars p s = true -> filter_chars p s = s.
Proof.
  induction s as [|c s IH]; [done|]. cbn [all_chars filter_chars].
  intros [-> H]%andb_true_iff. by rewrite IH.
Qed.

Lemma split_by_none p s : all_chars (fun c => negb (p c)) s = true -> split_by p s = [s].
Proof.
  induction s as [|c s IH]; [done|]. cbn [all_chars split_by].
  intros [Hc H]%andb_true_iff. apply negb_true_iff in Hc. by rewrite Hc, IH.
Qed.

Lemma split_by_app p x s t :
  p x = true -> all_chars (fun c => negb (p c)) s = true ->
  split_by p (s +:+ String x t) = s :: split_by p t.
Proof.
  intros Hx. induction s as [|c s IH]; intros H.
  - change (EmptyString +:+ ?t) with t. cbn [split_by]. by rewrite Hx.
  - cbn [all_chars] in H. apply andb_true_iff in H as [Hc H]. apply negb_true_iff in Hc.
    rewrite string_app_cons. cbn [split_by]. by rewrite Hc, IH.
Qed.

Lemma split_by_join p x l :
  p x = true -> l <> [] -> Forall (fun s => all_chars (fun c => negb (p c)) s = true) l ->
  split_by p (join_with (String x EmptyString) l) = l.
Proof.
  intros Hx Hne H. induction H as [|s l Hs Hl IH]; [done|]. destruct l as [|t l].
  - by apply split_by_none.
  - change (join_with (String x EmptyString) (s :: t :: l))
      with (s +:+ String x (join_with (String x EmptyString) (t :: l))).
    by rewrite split_by_app, IH.
Qed.

Lemma mac_text_parts bytes :
  is_mac bytes ->
  Forall (fun s => all_chars is_hexdigit s = true) (map (show_hex_n 2) bytes) /\
  map (show_hex_n 2) bytes <> [] /\ length (map (show_hex_n 2) bytes) = 6%nat.
Proof.
  intros [Hl Hb]. rewrite length_map. split; [|by destruct bytes].
  apply Forall_fmap. eapply Forall_impl; [exact Hb|]. intros b Hx. by apply show_hex_chars.
Qed.

(** The bytes handed to the kernel are those of the text. *)
Lemma mac_bytes_text bytes : is_mac bytes -> mac_bytes (mac_text bytes) = bytes.
Proof.
  intros Hm. destruct (mac_text_parts bytes Hm) as (Hc & Hne & _). destruct Hm as [_ Hb].
  unfold mac_bytes, mac_text. rewrite split_on_join; [|done|].
  - clear Hc Hne. induction Hb as [|b l Hx _ IH]; [done|]. cbn [map omap list_omap].
    by rewrite hex_u8_show, IH.
  - eapply Forall_impl; [exact Hc|]. intros s Hs. by apply (all_chars_no_char is_hexdigit).
Qed.

Lemma mapM_show bytes : Forall is_byte bytes -> mapM hex_u8 (map (show_hex_n 2) bytes) = Some bytes.
Proof.
  induction 1 as [|b l Hx _ IH]; [done|]. cbn [map mapM]. rewrite hex_u8_show by done.
  cbn [mbind option_bind]. by rewrite IH.
Qed.

(** A canonical text of a unicast address is accepted as it is. *)
Lemma validate_mac_text bytes :
  is_mac bytes -> Z.land (nth 0 bytes 0) 1 = 0 -> validate_mac (mac_text bytes) = Some (mac_text bytes).
Proof.
  intros Hm Hu. destruct (mac_text_parts bytes Hm) as (Hc & Hne & Hl).
  assert (Hlen : Forall (fun s => String.length s = 2%nat) (map (show_hex_n 2) bytes)).
  { apply Forall_fmap, Forall_true. intros b. apply show_hex_length. }
  unfold validate_mac. rewrite filter_chars_all.
  2:{ apply all_chars_join; [done|]. eapply Forall_impl; [exact Hc|]. intros s.
      apply all_chars_impl. intros c. unfold is_mac_char. by intros ->. }
  assert (Hp : split_by (fun c => Ascii.eqb c ":" || Ascii.eqb c "-") (mac_text bytes) =
               map (show_hex_n 2) bytes).
  { apply split_by_join; [done|done|]. eapply Forall_impl; [exact Hc|]. intros s.
    apply all_chars_impl. intros c Hx. by destruct (hexdigit_not_sep c Hx) as [-> ->]. }
  rewrite Hp, filter_all.
  2:{ eapply Forall_impl; [exact Hlen|]. intros s Hs. by destruct s. }
  replace (len (map (show_hex_n 2) bytes)) with 6 by (unfold len; by rewrite Hl).
  change (negb (6 =? 6)) with false. cbn [orb].
  replace (existsb _ _) with false.
  2:{ symmetry. apply not_true_iff_false. rewrite existsb_exists. intros (s & Hs & H2).
      rewrite List.Forall_forall in Hlen. rewrite (Hlen s Hs) in H2. done. }
  destruct Hm as [_ Hb]. rewrite mapM_show by done. cbn [mbind option_bind]. by rewrite Hu.
Qed.

(** Whatever is accepted is brought to canonical form. *)
Lemma validate_mac_spec s m :
  validate_mac s = Some m ->
  exists bytes, is_mac bytes /\ Z.land (nth 0 bytes 0) 1 = 0 /\ m = mac_text bytes.
Proof.
  unfold validate_mac. case_match eqn:Hc; [done|]. apply orb_false_iff in Hc as [Hl _].
  apply negb_false_iff, Z.eqb_eq in Hl.
  destruct (mapM hex_u8 _) as [bytes|] eqn:E; [|done]. cbn [mbind option_bind].
  destruct (Z.land (nth 0 bytes 0) 1 =? 0) eqn:Eu; [|done]. intros [= <-].
  apply Z.eqb_eq in Eu. exists bytes. split; [|done]. split.
  - apply mapM_Some, Forall2_length in E. unfold len in Hl. lia.
  - apply mapM_Some in E. clear -E. induction E as [|x y l k H _ IH]; constructor; [|done].
    by apply hex_u8_byte in H.
Qed.

(** ** What the backend relies on *)

Definition link_name (attrs : list LinkAttribute) : option string :=
  head (omap (fun a => match a with LIfName n => Some n | _ => None end) attrs).

Definition named (name : string) (l : Z * list LinkAttribute) : bool :=
  bool_decide (link_name l.2 = Some name).

Definition set_address (bytes : list Z) (attrs : list LinkAttribute) : list LinkAttribute :=
  map (fun a => match a with LAddress _ => LAddress bytes | _ => a end) attrs.

(** The links of the host, dumped by name and changed by index. *)
Class LinkKernelOk (N : Type) {kernel : LinkKernel N} := {
  net_links : N -> list (Z * list LinkAttribute);
  net_unique : forall n, List.NoDup (map fst (net_links n)) /\
    forall l l', In l (net_links n) -> In l' (net_links n) -> is_Some (link_name l.2) ->
      link_name l.2 = link_name l'.2 -> l = l';
  net_dump : forall n name l, In l (net_links n) -> named name l = true ->
    k_links name n = inr (List.filter (named name) (net_links n));
  net_set : forall n i bytes n' r, k_set_address i bytes n = (n', r) ->
    net_links n' =
    match r with
    | inr _ => map (fun l => if l.1 =? i then (l.1, set_address bytes l.2) else l) (net_links n)
    | inl _ => net_links n
    end
}.

(** Files that can be written; a rename replaces its target. *)
Class FilesOk (F : Type) {files : Files F} := {
  f_contents : F -> string -> option string;
  f_read_ok : forall p f, f_read p f = match f_contents f p with
                                       | Some c => inr c
                                       | None => inl "not found"%string end;
  f_write_ok : forall p c f, exists f', f_write p c f = (f', inr ()) /\
    f_contents f' p = Some c /\ forall q, q <> p -> f_contents f' q = f_contents f q;
  f_rename_ok : forall p q f c, f_contents f p = Some c -> p <> q ->
    exists f', f_rename p q f = (f', inr ()) /\ f_contents f' q = Some c
}.

(** ** Cloning and restoring *)

Section Clone.
Context {N F : Type} {kernel : LinkKernel N} {kernel_ok : LinkKernelOk N}.
Context {files : Files F} {files_ok : FilesOk F}.
Context (json_of : gmap string string -> option string) (of_json : string -> string + gmap string string).
Hypothesis json_roundtrip : forall m, exists text, json_of m = Some text /\ of_json text = inr m.

Lemma write_read m f : read_mac_state of_json (write_mac_state json_of m f) = inr m.
Proof.
  unfold write_mac_state, read_mac_state. destruct (json_roundtrip m) as (text & -> & Ht).
  cbn [default from_option id].
  destruct (f_write_ok mac_state_tmp text f) as (f1 & -> & H1 & _).
  destruct (f_rename_ok mac_state_tmp MAC_STATE_PATH f1 text H1) as (f2 & -> & H2); [done|].
  cbn [fst]. by rewrite f_read_ok, H2, Ht.
Qed.

Lemma remember_read name mac f :
  remembered_previous_mac of_json name (remember_previous_mac json_of of_json name mac f) = Some mac.
Proof.
  unfold remembered_previous_mac, remember_previous_mac. rewrite write_read. apply lookup_insert_eq.
Qed.

Definition address_of (attrs : list LinkAttribute) : list (list Z) :=
  omap (fun a => match a with LAddress b => Some b | _ => None end) attrs.

Definition factory_of (attrs : list LinkAttribute) : option string :=
  head (omap (fun a => match a with LPermAddress b => format_mac b | _ => None end) attrs).

(** The dump of a live interface is its one link. *)
Lemma dump_one n i attrs name :
  In (i, attrs) (net_links n) -> link_name attrs = Some name ->
  k_links name n = inr [(i, attrs)].
Proof.
  intros Hin Hn. assert (Hnm : named name (i, attrs) = true) by (by apply bool_decide_eq_true).
  rewrite (net_dump n name _ Hin Hnm). f_equal. destruct (net_unique n) as [Hi Hu].
  specialize (Hu (i, attrs)). revert Hin Hu Hi. induction (net_links n) as [|l ls IH]; [done|].
  intros [->|Hin] Hu Hi; cbn [List.filter map] in *.
  - rewrite Hnm. apply List.NoDup_cons_iff in Hi as [Hx Hi]. f_equal.
    apply filter_none. apply List.Forall_forall. intros l' Hl'. apply not_true_iff_false. intros Hy.
    apply bool_decide_eq_true in Hy. assert ((i, attrs) = l') as <-.
    { apply Hu; [by left|by right|cbn [snd]; by rewrite Hn|cbn [snd]; congruence]. }
    apply Hx, in_map_iff. by exists (i, attrs).
  - apply List.NoDup_cons_iff in Hi as [Hx Hi].
    assert (named name l = false) as ->.
    { apply not_true_iff_false. intros Hy. apply bool_decide_eq_true in Hy.
      assert ((i, attrs) = l) as <-.
      { apply Hu; [by right|by left|cbn [snd]; by rewrite Hn|cbn [snd]; congruence]. }
      apply Hx, in_map_iff. by exists (i, attrs). }
    apply IH; [done| |done]. intros l' H1 H2. apply Hu; by right.
Qed.

Lemma omap_bind {A B C} (f : A -> option B) (g : B -> option C) (l : list A) :
  omap (fun a => f a ≫= g) l = omap g (omap f l).
Proof.
  induction l as [|a l IH]; [done|]. cbn. destruct (f a) as [b|]; cbn; [|done].
  destruct (g b); cbn; by rewrite IH.
Qed.

Lemma permanent_live n i attrs name :
  In (i, attrs) (net_links n) -> link_name attrs = Some name ->
  permanent_mac name n = factory_of attrs.
Proof.
  intros Hin Hn. unfold permanent_mac, find_mac. rewrite (dump_one n i attrs name Hin Hn).
  cbn [map concat snd]. rewrite app_nil_r. unfold factory_of. f_equal.
  clear Hin Hn. induction attrs as [|a attrs IH]; [done|]. destruct a; cbn; by rewrite IH.
Qed.

Lemma current_live n i attrs name old :
  In (i, attrs) (net_links n) -> link_name attrs = Some name ->
  address_of attrs = [old] -> is_mac old -> current_mac name n = Some (mac_text old).
Proof.
  intros Hin Hn Ha [Hl _]. unfold current_mac, find_mac. rewrite (dump_one n i attrs name Hin Hn).
  cbn [map concat snd]. rewrite app_nil_r, omap_bind. unfold address_of in Ha. rewrite Ha.
  cbn. unfold format_mac, len. by rewrite Hl.
Qed.

(** [ip link set dev i address bytes] on the links. *)
Definition readdress (i : Z) (bytes : list Z) (ls : list (Z * list LinkAttribute)) :
    list (Z * list LinkAttribute) :=
  map (fun l => if l.1 =? i then (l.1, set_address bytes l.2) else l) ls.

Lemma readdress_twice i b b' ls : readdress i b' (readdress i b ls) = readdress i b' ls.
Proof.
  unfold readdress. rewrite map_map. apply map_ext. intros [j attrs]. cbn [fst snd].
  destruct (j =? i) eqn:E; cbn [fst snd]; rewrite E; [|done]. f_equal.
  unfold set_address. rewrite map_map. apply map_ext. by intros [].
Qed.

Lemma readdress_same i old attrs ls :
  In (i, attrs) ls -> List.NoDup (map fst ls) -> address_of attrs = [old] -> readdress i old ls = ls.
Proof.
  intros Hin Hnd Ha. unfold readdress. rewrite <- (map_id ls) at 2. apply map_ext_in.
  intros [j attrs'] Hj. cbn [fst snd]. destruct (Z.eqb_spec j i) as [->|]; [|done].
  assert (attrs' = attrs) as ->.
  { clear Ha. induction ls as [|[k a] ls IH]; [done|]. cbn in Hnd.
    apply List.NoDup_cons_iff in Hnd as [Hk Hnd].
    destruct Hin as [[= -> ->]|Hin], Hj as [[= ->]|Hj]; [done| | |by apply IH].
    - destruct Hk. apply in_map_iff. by exists (i, attrs').
    - subst. destruct Hk. apply in_map_iff. by exists (i, attrs). }
  f_equal. unfold set_address, address_of in *. clear -Ha.
  assert (H : Forall (fun a => match a with LAddress b => b = old | _ => True end) attrs).
  { apply List.Forall_forall. intros a Hx. destruct a; try done.
    assert (Hb : In bytes [old]).
    { rewrite <- Ha. apply list_elem_of_In, list_elem_of_omap. exists (LAddress bytes).
      split; [by apply list_elem_of_In|done]. }
    by destruct Hb as [<-|[]]. }
  clear Ha. induction H as [|a l Hx _ IH]; [done|]. cbn [map]. rewrite IH. f_equal.
  destruct a; by subst.
Qed.

Lemma readdress_live i b attrs ls :
  In (i, attrs) ls -> In (i, set_address b attrs) (readdress i b ls).
Proof.
  intros Hin. apply in_map_iff. exists (i, attrs). cbn [fst snd]. by rewrite Z.eqb_refl.
Qed.

Lemma set_address_facts b attrs :
  link_name (set_address b attrs) = link_name attrs /\
  factory_of (set_address b attrs) = factory_of attrs.
Proof.
  unfold link_name, factory_of. split; f_equal; induction attrs as [|a attrs IH]; try done;
    unfold set_address in *; cbn [map]; destruct a; cbn; by rewrite ?IH.
Qed.

(** A clone can be undone.  On a host with writable files, when the MAC of a live
    interface has been set and restored, both with success, the interface has its factory
    MAC or, when the kernel knows none, the MAC it had before, and nothing else on any
    link has changed. *)
Theorem clone_then_restore w i attrs name old mac w1 r1 w2 r2 :
  In (i, attrs) (net_links (w_net w)) -> link_name attrs = Some name ->
  address_of attrs = [old] -> is_mac old ->
  set_mac json_of of_json name mac w = (w1, inr r1) ->
  restore_mac json_of of_json name w1 = (w2, inr r2) ->
  net_links (w_net w2) =
    match factory_of attrs with
    | Some factory => readdress i (mac_bytes factory) (net_links (w_net w))
    | None => net_links (w_net w)
    end /\
  ir_current_mac r2 = Some (default (mac_text old) (factory_of attrs)).
Proof.
  intros Hin Hn Ha Hm Es Er. unfold set_mac in Es.
  destruct (validate_mac mac) as [m|]; [|done].
  rewrite (current_live _ _ _ _ _ Hin Hn Ha Hm) in Es.
  assert (Hidx : find_index name (w_net w) = inr i).
  { unfold find_index. by rewrite (dump_one _ _ _ _ Hin Hn). }
  rewrite Hidx in Es. destruct (k_set_address i (mac_bytes m) (w_net w)) as [n1 [e|[]]] eqn:Ek; [done|].
  injection Es as <- _. pose proof (net_set _ _ _ _ _ Ek) as L1. fold (readdress i (mac_bytes m)) in L1.
  change (net_links n1 = readdress i (mac_bytes m) (net_links (w_net w))) in L1.
  pose proof (readdress_live i (mac_bytes m) _ _ Hin) as Hin1. rewrite <- L1 in Hin1.
  destruct (set_address_facts (mac_bytes m) attrs) as [Hn1 Hf1]. rewrite Hn in Hn1.
  unfold restore_mac in Er. cbn [w_net w_files] in Er.
  rewrite (permanent_live _ _ _ _ Hin1 Hn1), Hf1 in Er. rewrite remember_read in Er.
  assert (Hidx1 : find_index name n1 = inr i).
  { unfold find_index. by rewrite (dump_one _ _ _ _ Hin1 Hn1). }
  rewrite Hidx1 in Er.
  destruct (factory_of attrs) as [factory|];
    destruct (k_set_address i _ n1) as [n2 [e|[]]] eqn:Ek2; try done; injection Er as <- <-;
    (split; [|done]); cbn [w_net]; rewrite (net_set _ _ _ _ _ Ek2), L1; apply readdress_twice ||
    (etransitivity; [apply readdress_twice|]).
  rewrite mac_bytes_text by done. apply (readdress_same i old attrs); [done| |done].
  by destruct (net_unique (w_net w)).
Qed.
End Clone.

(** ** A host in memory *)

Module LinkMem.
(** [eth0] has a factory MAC, [eth1] has none; the state holds their current MACs. *)
Definition factory : list Z := [0x90; 0x98; 0x38; 0x52; 0xae; 0x79].
Definition links (n : list Z * list Z) : list (Z * list LinkAttribute) :=
  [(2, [LIfName "eth0"; LMtu 1500; LAddress n.1; LPermAddress factory; LOperState StUp]);
   (3, [LIfName "eth1"; LAddress n.2; LOperState StUp])]%string.

#[global] Instance kernel : LinkKernel (list Z * list Z) := {|
  k_links name n :=
    if is_empty_str name then inr (links n)
    else match List.filter (named name) (links n) with
         | [] => inl "no such device"%string
         | l => inr l
         end;
  k_addresses n := inr [mkAddr 3 24 (Some (V4 0xc0a80301))];
  k_set_address i b n :=
    if i =? 2 then ((b, n.2), inr ()) else if i =? 3 then ((n.1, b), inr ()) else (n, inl "no such device"%string)
|}.

#[global] Instance kernel_ok : LinkKernelOk (list Z * list Z).
Proof.
  refine {| net_links := links |}.
  - intros [a b]. split.
    + repeat constructor; cbn; lia.
    + intros l l' [<-|[<-|[]]] [<-|[<-|[]]]; done.
  - intros n name l [<-|[<-|[]]] H; apply bool_decide_eq_true in H; injection H as <-; done.
  - intros [a b] i bytes n' r. cbn [k_set_address kernel].
    destruct (Z.eqb_spec i 2) as [->|]; [intros [= <- <-]; done|].
    destruct (Z.eqb_spec i 3) as [->|]; [intros [= <- <-]; done|].
    intros [= <- <-]. done.
Defined.

#[global] Instance files : Files (gmap string string) := {|
  f_read p f := match f !! p with Some c => inr c | None => inl "not found"%string end;
  f_write p c f := (<[p := c]> f, inr ());
  f_rename p q f :=
    match f !! p with Some c => (<[q := c]> (delete p f), inr ()) | None => (f, inl "not found"%string) end
|}.

#[global] Instance files_ok : FilesOk (gmap string string).
Proof.
  refine {| f_contents f p := f !! p |}.
  - done.
  - intros p c f. eexists. split; [reflexivity|]. split; [apply lookup_insert_eq|].
    intros q Hq. by rewrite lookup_insert_ne.
  - intros p q f c Hc _. cbn [f_rename files]. rewrite Hc. eexists. split; [reflexivity|].
    apply lookup_insert_eq.
Defined.

(** A codec for maps: the bits of their code. *)
Fixpoint bits (p : positive) : string :=
  match p with
  | xH => EmptyString
  | xO p => String "0" (bits p)
  | xI p => String "1" (bits p)
  end.

Fixpoint unbits (s : string) : positive :=
  match s with
  | EmptyString => xH
  | String c s => if Ascii.eqb c "1" then xI (unbits s) else xO (unbits s)
  end.

Definition json_of (m : gmap string string) : option string := Some (bits (encode m)).
Definition of_json (s : string) : string + gmap string string :=
  match decode (unbits s) with Some m => inr m | None => inl "syntax"%string end.

Lemma json_ok m : exists text, json_of m = Some text /\ of_json text = inr m.
Proof.
  eexists. split; [reflexivity|]. unfold of_json.
  assert (E : forall p, unbits (bits p) = p) by (induction p as [p IH|p IH|]; cbn; by rewrite ?IH).
  by rewrite E, decode_encode.
Qed.

Definition start : world (list Z * list Z) (gmap string string) :=
  mkWorld (factory, [2; 0; 0; 0; 0; 7]) ∅.
Definition set_ := set_mac (N := list Z * list Z) (F := gmap string string) json_of of_json.
Definition restore_ := restore_mac (N := list Z * list Z) (F := gmap string string) json_of of_json.
End LinkMem.

Lemma clone_then_restore_witness :
  let w1 := (LinkMem.set_ "eth1" "AA-BB-CC-00-11-22" LinkMem.start).1 in
  let w2 := (LinkMem.restore_ "eth1" w1).1 in
  current_mac "eth1" (w_net w1) = Some "aa:bb:cc:00:11:22"%string /\
  net_links (w_net w2) = net_links (w_net LinkMem.start).
Proof.
  cbv zeta. split; [by vm_compute|].
  destruct (LinkMem.set_ "eth1" "AA-BB-CC-00-11-22" LinkMem.start) as [w1 r1] eqn:E1.
  destruct r1 as [e|r1]; [by vm_compute in E1|]. cbn [fst].
  destruct (LinkMem.restore_ "eth1" w1) as [w2 r2] eqn:E2.
  destruct r2 as [e|r2]; [vm_compute in E1; injection E1 as <- _; by vm_compute in E2|].
  cbn [fst].
  refine (proj1 (clone_then_restore LinkMem.json_of LinkMem.of_json LinkMem.json_ok LinkMem.start 3
           [LIfName "eth1"%string; LAddress [2; 0; 0; 0; 0; 7]; LOperState StUp]
           "eth1" [2; 0; 0; 0; 0; 7] "AA-BB-CC-00-11-22" w1 r1 w2 r2 _ _ _ _ _ _)).
  - by right; left.
  - done.
  - done.
  - split; [done|]. repeat constructor; lia.
  - exact E1.
  - exact E2.
Defined.

(** ** Defects *)

(** Without a factory MAC a second clone overwrites what the first one remembered: the
    restore goes back to the first clone. *)
Lemma second_clone_forgets_original :
  let w1 := (LinkMem.set_ "eth1" "aa:bb:cc:00:11:22" LinkMem.start).1 in
  let w2 := (LinkMem.set_ "eth1" "aa:bb:cc:00:11:33" w1).1 in
  let w3 := (LinkMem.restore_ "eth1" w2).1 in
  current_mac "eth1" (w_net LinkMem.start) = Some "02:00:00:00:00:07"%string /\
  current_mac "eth1" (w_net w3) = Some "aa:bb:cc:00:11:22"%string.
Proof. by vm_compute. Qed.

(** Characters that belong to no MAC address are dropped, not refused. *)
Lemma stray_characters_accepted :
  validate_mac "g0:zz11:22 :3x3:44/:55" = Some "00:11:22:33:44:55"%string.
Proof. by vm_compute. Qed.

Lemma link_attr_ipv4 info a : if_ipv4 (link_attr info a) = if_ipv4 info.
Proof.
  destruct a; cbn [link_attr]; repeat case_match; try done.
  revert info. induction l as [|[k|] l IH]; intros info; cbn [fold_left]; rewrite ?IH; done.
Qed.

Lemma fold_ipv4 {A} (f : InterfaceInfo -> A -> InterfaceInfo) l info :
  (forall i a, if_ipv4 (f i a) = if_ipv4 i) -> if_ipv4 (fold_left f l info) = if_ipv4 info.
Proof. intros H. revert info. induction l as [|a l IH]; intros info; cbn; [done|]. by rewrite IH, H. Qed.

Lemma usb_walk_ipv4 sys n p info : if_ipv4 (usb_walk sys n p info) = if_ipv4 info.
Proof.
  revert p. induction n as [|n IH]; intros p; [done|]. cbn [usb_walk].
  destruct (negb _ || negb _); [by destruct (read sys (p +:+ "/product"))|].
  by destruct (parent p).
Qed.

Lemma uevent_ipv4 info l : if_ipv4 (uevent_line info l) = if_ipv4 info.
Proof. unfold uevent_line. by repeat case_match. Qed.

Lemma enrich_ipv4 sys name info : if_ipv4 (enrich_device_info sys name info) = if_ipv4 info.
Proof.
  unfold enrich_device_info.
  set (i1 := match sys_link _ _ with Some _ => _ | None => _ end).
  assert (H1 : if_ipv4 i1 = if_ipv4 info) by (unfold i1; by case_match).
  set (i2 := match read sys _ with Some _ => _ | None => i1 end).
  assert (H2 : if_ipv4 i2 = if_ipv4 i1) by (unfold i2; case_match; [|done]; apply fold_ipv4, uevent_ipv4).
  pose proof (usb_walk_ipv4 sys 4 ("/sys/class/net/" +:+ name +:+ "/device") i2) as H3.
  set (i3 := usb_walk _ _ _ _) in *. clearbody i3 i2 i1.
  destruct (is_none (if_bus i3)); cbn [with_bus if_vendor_id]; destruct (is_none (if_vendor_id i3));
    case_match; cbn; congruence.
Qed.

Lemma fill_speed_ipv4 sys info : if_ipv4 (fill_speed_duplex sys info) = if_ipv4 info.
Proof. unfold fill_speed_duplex. by repeat case_match. Qed.

Lemma add_addresses l info a :
  In a (if_ipv4 (fold_left add_address l info)) -> In a (if_ipv4 info) \/ In a l.
Proof.
  revert info. induction l as [|b l IH]; intros info; cbn [fold_left]; [by left|].
  intros [H|H]%IH; [|by right; right]. unfold add_address in H.
  destruct (contains b ":"); cbn in H; [by left|]. apply in_app_iff in H as [H|[<-|[]]]; [by left|].
  by right; left.
Qed.

(** Every address an interface is reported with has a prefix length, so none of them
    parses as an IP address. *)
Lemma reported_addresses_have_prefix {N F} {k : LinkKernel N} {fs : Files F} of_json sys name
    (w : world N F) l i a :
  info of_json sys name w = inr l -> In i l -> In a (if_ipv4 i) -> parse_ip a = None.
Proof.
  unfold info. destruct (k_links name (w_net w)) as [e|links]; [done|]. intros [= <-].
  intros ([index attrs] & <- & _)%in_map_iff. unfold link_info. rewrite fill_speed_ipv4.
  set (info0 := with_previous_mac _ _).
  assert (H0 : if_ipv4 info0 = []).
  { unfold info0, link_to_info. cbn [with_previous_mac if_ipv4]. rewrite enrich_ipv4.
    by rewrite fold_ipv4 by apply link_attr_ipv4. }
  clearbody info0. unfold dump_addresses. destruct (k_addresses (w_net w)) as [e|as_]; [by rewrite H0|].
  intros [Ha|Ha]%add_addresses; [by rewrite H0 in Ha|].
  apply list_elem_of_In, list_elem_of_omap in Ha as (am & _ & Ha).
  destruct (negb _); [done|]. destruct (am_address am) as [ip|]; [|done]. injection Ha as <-.
  destruct (parse_ip _) as [x|] eqn:E; [|done]. apply (parse_ip_chars "/") in E; [|done..].
  rewrite no_char_app in E. cbn in E. by rewrite andb_false_r in E.
Qed.

(** The walk towards the USB device takes the parent of the path, not of the device the
    link points to: it looks in the class directories, where no device has its ids. *)
Lemma usb_device_not_reached sys name info :
  no_char "/" name = true ->
  Forall (fun d => read sys (d +:+ "/idVendor") = None /\ read sys (d +:+ "/idProduct") = None)
    ["/sys/class/net/" +:+ name +:+ "/device"; "/sys/class/net/" +:+ name; "/sys/class/net"; "/sys/class"]%string ->
  usb_walk sys 4 ("/sys/class/net/" +:+ name +:+ "/device") info = info.
Proof.
  intros Hn H. inversion_clear H as [|? ? [V1 P1] H']. inversion_clear H' as [|? ? [V2 P2] H''].
  inversion_clear H'' as [|? ? [V3 P3] H3]. inversion_clear H3 as [|? ? [V4 P4] _].
  assert (Pa : forall a b, a <> EmptyString -> no_char "/" b = true ->
    parent (a +:+ String "/" b) = Some a).
  { intros a b Ha Hb. unfold parent. rewrite rsplit_once_sep by done. by destruct a. }
  assert (Pd : parent ("/sys/class/net/" +:+ name +:+ "/device") = Some ("/sys/class/net/" +:+ name)).
  { rewrite <- (Pa ("/sys/class/net/" +:+ name) "device"%string) by done. f_equal. }
  assert (Pn : parent ("/sys/class/net/" +:+ name) = Some "/sys/class/net"%string)
    by (by apply (Pa "/sys/class/net"%string name)).
  cbn [usb_walk]. rewrite V1, P1. cbn [is_none negb orb]. rewrite Pd.
  rewrite V2, P2. cbn [is_none negb orb]. rewrite Pn, V3, P3. cbn [is_none negb orb].
  change (parent "/sys/class/net") with (Some "/sys/class"%string). cbv iota beta.
  rewrite V4, P4. done.
Qed.
