(* ===== verification/NetworkConfig.v ===== *)
(** * Gateway port roles (balansir-daemon/src/network_config.rs, main.rs)

    The configuration of the WAN and LAN ports with its environment overrides, the
    hardware-identity matchers, automatic detection, role resolution and validation; the
    startup step that clones the WAN MAC, applies the gateway datapath and starts the UPnP
    server, and the periodic re-check.  The TOML decoder, the environment, the files under
    /proc and the executor's calls are parameters. *)

From stdpp Require Import pretty.
From S2P Require Import Prelude Types IpText Text NetTypes IfaceFields Errors Nftables Gateway Interface.
#[local] Open Scope Z_scope.

(** ** Data *)

Record IfaceMatcher := mkMatcher {
  m_name : option string;
  m_mac : option string;
  m_driver : option string;
  m_usb : option string
}.

Record NetworkConfig := mkNetwork {
  nc_wan_interface : option string;
  nc_lan_interface : option string;
  nc_wan_match : option IfaceMatcher;
  nc_lan_match : option IfaceMatcher;
  nc_wan_mac : option string;
  nc_clone_mac : option bool;
  nc_lan_subnet : string
}.

(** [NetworkConfig::default()] is derived: the LAN subnet is empty. *)
Definition NetworkConfig_default : NetworkConfig :=
  mkNetwork None None None None None None EmptyString.

Inductive RoleResolveError :=
| NoMatch (reason : string)
| Ambiguous (candidates : list string).

Definition role_error_text (e : RoleResolveError) : string :=
  match e with
  | NoMatch reason => "no match: " +:+ reason
  | Ambiguous candidates =>
      "ambiguous: " +:+ pretty (Z.of_nat (length candidates)) +:+ " interfaces match (" +:+
      join_with ", " candidates +:+ ")"
  end.

(** ** Matchers *)

Definition matcher_is_empty (m : IfaceMatcher) : bool :=
  is_none (m_name m) && is_none (m_mac m) && is_none (m_driver m) && is_none (m_usb m).

Definition describe (m : IfaceMatcher) : string :=
  let part key v := match v with Some x => [(key +:+ "=" +:+ x)] | None => [] end in
  join_with "," (part "name"%string (m_name m) ++ part "mac"%string (m_mac m) ++
                 part "driver"%string (m_driver m) ++ part "usb"%string (m_usb m)).

Definition norm (s : string) : string :=
  to_ascii_lowercase (trim_start_matches (String.length s) "0x" s).

Definition usb_matches (usb : string) (i : InterfaceInfo) : bool :=
  let '(wvid, wpid) := match split_once ":" usb with Some vp => vp | None => (usb, EmptyString) end in
  let vid := from_option norm EmptyString (if_vendor_id i) in
  let pid := from_option norm EmptyString (if_product_id i) in
  String.eqb (norm wvid) vid && (is_empty_str wpid || String.eqb (norm wpid) pid).

(** The filter of [IfaceMatcher::resolve]. *)
Definition matches (m : IfaceMatcher) (i : InterfaceInfo) : bool :=
  let want_mac := to_ascii_lowercase <$> m_mac m in
  let want_usb := to_ascii_lowercase <$> m_usb m in
  from_option (fun n => String.eqb (if_name i) n) true (m_name m) &&
  from_option (fun w => bool_decide (if_mac i = Some w) || bool_decide (if_hardware_mac i = Some w))
    true want_mac &&
  from_option (fun d => bool_decide (if_driver i = Some d)) true (m_driver m) &&
  from_option (fun u => usb_matches u i) true want_usb.

Definition matcher_resolve (m : IfaceMatcher) (interfaces : list InterfaceInfo) : RoleResolveError + string :=
  if matcher_is_empty m then inl (NoMatch "matcher has no criteria")
  else
    match List.filter (matches m) interfaces with
    | [] => inl (NoMatch ("no live interface matches " +:+ debug_str (describe m)))
    | [i] => inr (if_name i)
    | l => inl (Ambiguous (map if_name l))
    end.

(** ** Detection *)

Definition is_ethernet_like (i : InterfaceInfo) : bool :=
  match if_kind i with
  | None => true
  | Some k => String.eqb k "ether" || String.eqb k "eth" || is_empty_str k
  end.

(** The loop over the lines of /proc/net/route. *)
Fixpoint route_lines (ls : list string) : option string :=
  match ls with
  | [] => None
  | line :: ls =>
      let fields := split_whitespace line in
      if len fields <? 4 then route_lines ls
      else
        flags ← parse_radix 16 u32_max (nth 3 fields EmptyString);
        if String.eqb (nth 1 fields EmptyString) "00000000" && (Z.land flags 3 =? 3)
        then Some (nth 0 fields EmptyString) else route_lines ls
  end.

(** [proc_route]: /proc/net/route, [None] when unreadable. *)
Definition default_route_interface (proc_route : option string) : option string :=
  content ← proc_route; route_lines (drop 1 (lines content)).

Definition auto_assign_roles (proc_route : option string) (interfaces : list InterfaceInfo)
  : option (string * string) :=
  let eth := List.filter (fun i => is_ethernet_like i && negb (String.eqb (if_name i) "lo")) interfaces in
  if len eth <? 2 then None else
  let by_carrier :=
    match List.filter if_link_up eth with
    | [w] =>
        let wan := if_name w in
        match List.filter (fun i => negb (String.eqb (if_name i) wan)) eth with
        | [l] => Some (wan, if_name l)
        | _ => None
        end
    | _ => None
    end in
  match default_route_interface proc_route with
  | Some wan =>
      match List.find (fun i => String.eqb (if_name i) wan) eth with
      | Some wan_info =>
          let others := List.filter (fun i => negb (String.eqb (if_name i) wan)) eth in
          if if_link_up wan_info then
            match List.filter if_link_up others with
            | [l] => Some (wan, if_name l)
            | _ => match others with [l] => Some (wan, if_name l) | _ => None end
            end
          else by_carrier
      | None => by_carrier
      end
  | None => by_carrier
  end.

(** The loop over the lines of /proc/net/arp. *)
Fixpoint arp_lines (lan_interface : string) (ls : list string) : option string :=
  match ls with
  | [] => None
  | line :: ls =>
      let fields := split_whitespace line in
      if (len fields <? 6) || negb (String.eqb (nth 5 fields EmptyString) lan_interface)
      then arp_lines lan_interface ls
      else
        let mac := nth 3 fields EmptyString in
        if String.eqb mac "00:00:00:00:00:00" then arp_lines lan_interface ls
        else
          flags ← parse_radix 16 65535 (nth 2 fields EmptyString);
          if negb (Z.land flags 2 =? 0) then Some mac else arp_lines lan_interface ls
  end.

Definition learn_lan_peer_mac (proc_arp : option string) (lan_interface : string) : option string :=
  content ← proc_arp; arp_lines lan_interface (drop 1 (lines content)).

(** ** Roles *)

Definition resolve_match (what : string) (m : option IfaceMatcher) (interfaces : list InterfaceInfo)
  : string + option string :=
  match m with
  | None => inr None
  | Some m =>
      match matcher_resolve m interfaces with
      | inl e => inl (what +:+ " (" +:+ describe m +:+ "): " +:+ role_error_text e)
      | inr name => inr (Some name)
      end
  end.

Definition or_else {A} (a b : option A) : option A := match a with Some _ => a | None => b end.

Definition resolve_roles (proc_route : option string) (config : NetworkConfig)
    (interfaces : list InterfaceInfo) : string + string * string :=
  match resolve_match "wan_match" (nc_wan_match config) interfaces with
  | inl e => inl e
  | inr wan =>
      match resolve_match "lan_match" (nc_lan_match config) interfaces with
      | inl e => inl e
      | inr lan =>
          match or_else wan (nc_wan_interface config), or_else lan (nc_lan_interface config) with
          | Some w, Some l =>
              if String.eqb w l
              then inl ("gateway roles collide: WAN and LAN both resolve to " +:+ w)
              else inr (w, l)
          | None, None =>
              match auto_assign_roles proc_route interfaces with
              | Some roles => inr roles
              | None => inl "auto-detection ambiguous; configure [network.wan]/[network.lan] matchers"%string
              end
          | wan, lan =>
              inl ("incomplete gateway roles: wan=" +:+ debug_opt wan +:+ " lan=" +:+ debug_opt lan +:+
                   " " +:+ string_of_bytes [0xe2; 0x80; 0x94] +:+ " both roles must resolve")
          end
      end
  end.

Definition config_parse_cidr (cidr : string) : option IpAddr :=
  parse_ip (match rsplit_once "/" (utrim cidr) with Some (a, _) => a | None => cidr end).

Definition role_live (interfaces : list InterfaceInfo) (role name : string) : string + () :=
  match List.find (fun i => String.eqb (if_name i) name) interfaces with
  | None => inl ("network config: " +:+ role +:+ "_interface " +:+ name +:+ " does not exist")
  | Some info =>
      if is_ethernet_like info then inr ()
      else inl ("network config: " +:+ role +:+ "_interface " +:+ name +:+
                " is not an Ethernet device (kind " +:+ debug_opt (if_kind info) +:+ ")")
  end.

Definition config_validate (proc_route : option string) (c : NetworkConfig)
    (interfaces : list InterfaceInfo) : string + () :=
  if is_none (nc_wan_interface c) && is_none (nc_lan_interface c) &&
     is_none (nc_wan_match c) && is_none (nc_lan_match c) then inr ()
  else
    match resolve_roles proc_route c interfaces with
    | inl e => inl e
    | inr (wan, lan) =>
        if String.eqb wan lan
        then inl ("network config: wan and lan must differ (both resolve to " +:+ wan +:+ ")")
        else
          match role_live interfaces "wan" wan with
          | inl e => inl e
          | inr _ =>
              match role_live interfaces "lan" lan with
              | inl e => inl e
              | inr _ =>
                  if from_option (fun mac => is_none (validate_mac mac)) false (nc_wan_mac c)
                  then inl ("network config: invalid wan_mac " +:+ default EmptyString (nc_wan_mac c))
                  else if is_none (config_parse_cidr (nc_lan_subnet c))
                  then inl ("network config: invalid lan_subnet " +:+ nc_lan_subnet c)
                  else inr ()
              end
          end
    end.

Definition cloning_enabled (c : NetworkConfig) : bool := default true (nc_clone_mac c).

Definition assign_role (config : NetworkConfig) (detected : option (string * string)) (i : InterfaceInfo)
  : InterfaceInfo :=
  if bool_decide (nc_wan_interface config = Some (if_name i)) ||
     bool_decide (fst <$> detected = Some (if_name i)) then with_role RoleWan i
  else if bool_decide (nc_lan_interface config = Some (if_name i)) ||
          bool_decide (snd <$> detected = Some (if_name i)) then with_role RoleLan i
  else i.

Definition assign_roles (proc_route : option string) (interfaces : list InterfaceInfo)
    (config : NetworkConfig) : list InterfaceInfo :=
  let detected :=
    if is_none (nc_wan_interface config) && is_none (nc_lan_interface config)
    then auto_assign_roles proc_route interfaces else None in
  map (assign_role config detected) interfaces.

(** ** Loading *)

(** [std::env::var] *)
Inductive env_value := EnvSet (v : string) | EnvUnset | EnvNotUnicode.

Section Load.
Context (env : string -> env_value).
(** [std::fs::read_to_string]; [toml::from_str] of the file with its [network] table. *)
Context (read_file : string -> string + string) (toml_network : string -> string + NetworkConfig).

Definition from_file (path : string) : string + NetworkConfig :=
  match read_file path with
  | inl e => inl ("read " +:+ path +:+ ": " +:+ e)
  | inr raw =>
      match toml_network raw with
      | inl e => inl ("parse " +:+ path +:+ ": " +:+ e)
      | inr c => inr c
      end
  end.

(** A non-empty environment variable. *)
Definition env_override (name : string) (old : option string) : option string :=
  match env name with
  | EnvSet v => if is_empty_str v then old else Some v
  | _ => old
  end.

Definition load_network : string + NetworkConfig :=
  match match env "BALANSIR_NETWORK_CONFIG" with
        | EnvSet path => from_file path
        | EnvUnset => inr NetworkConfig_default
        | EnvNotUnicode => inl "BALANSIR_NETWORK_CONFIG is not valid UTF-8"%string
        end with
  | inl e => inl e
  | inr c =>
      inr (mkNetwork (env_override "BALANSIR_WAN_IFACE" (nc_wan_interface c))
             (env_override "BALANSIR_LAN_IFACE" (nc_lan_interface c))
             (nc_wan_match c) (nc_lan_match c) (env_override "BALANSIR_WAN_MAC" (nc_wan_mac c))
             (nc_clone_mac c) (nc_lan_subnet c))
  end.
End Load.

(** ** The daemon *)

Record Executor (W : Type) := mkExecutor {
  x_interface_info : string -> W -> W * (string + list InterfaceInfo);
  x_interface_set_mac : string -> string -> W -> W * (string + InterfaceResult);
  x_gateway_status : W -> W * (string + GatewayStatus);
  x_gateway_apply : GatewayConfig -> W -> W * (string + GatewayResult)
}.
Arguments x_interface_info {W}. Arguments x_interface_set_mac {W}.
Arguments x_gateway_status {W}. Arguments x_gateway_apply {W}.

(** The UPnP server that was started: LAN address, LAN subnet, WAN interface and port. *)
Record Upnp := mkUpnp { up_lan_ip : IpAddr; up_lan_subnet : string; up_wan : string; up_port : Z }.

Inductive startup := Returned (upnp : option Upnp) | ProcessExit.

(** What a tick of the re-check did. *)
Inductive tick := Skipped | Applied (c : GatewayConfig) (r : string + GatewayResult).

Section Daemon.
Context {W : Type} (x : Executor W) (env : string -> env_value).
Context (config : string + NetworkConfig) (proc_route proc_arp : option string).

Definition upnp_port : Z :=
  match env "BALANSIR_UPNP_PORT" with
  | EnvSet v => default 3721 (parse_u16 v)
  | _ => 3721
  end.

(** [mac] resolved and handed to the executor, or nothing to clone. *)
Definition clone_wan (c : NetworkConfig) (wan lan : string) (w : W) : W * bool :=
  if negb (cloning_enabled c) then (w, true)
  else
    match or_else (nc_wan_mac c) (learn_lan_peer_mac proc_arp lan) with
    | None => (w, false)
    | Some mac => ((x_interface_set_mac x wan mac w).1, true)
    end.

Definition start_upnp (c : NetworkConfig) (interfaces : list InterfaceInfo) (wan lan : string)
  : option Upnp :=
  i ← List.find (fun i => String.eqb (if_name i) lan) interfaces;
  a ← head (if_ipv4 i);
  ip ← parse_ip a;
  Some (mkUpnp ip (nc_lan_subnet c) wan upnp_port).

Definition apply_network_config (w : W) : W * startup :=
  match config with
  | inl _ => (w, Returned None)
  | inr c =>
      if is_none (nc_wan_interface c) && is_none (nc_lan_interface c) then (w, Returned None)
      else
        match x_interface_info x EmptyString w with
        | (w, inl _) => (w, Returned None)
        | (w, inr interfaces) =>
            match config_validate proc_route c interfaces with
            | inl _ => (w, Returned None)
            | inr _ =>
                match resolve_roles proc_route c interfaces with
                | inl _ => (w, Returned None)
                | inr (wan, lan) =>
                    let '(w, go_on) := clone_wan c wan lan w in
                    if negb go_on then (w, Returned None)
                    else
                      let gateway_cfg := mkGateway wan lan (nc_lan_subnet c) in
                      match validate gateway_cfg with
                      | inl _ => (w, ProcessExit)
                      | inr _ =>
                          match x_gateway_apply x gateway_cfg w with
                          | (w, inl _) => (w, ProcessExit)
                          | (w, inr _) => (w, Returned (start_upnp c interfaces wan lan))
                          end
                      end
                end
            end
        end
  end.

Definition already_applied (g : GatewayConfig) (st : string + GatewayStatus) : bool :=
  match st with
  | inr s =>
      gs_enabled s && bool_decide (gs_wan_interface s = Some (wan_interface g)) &&
      bool_decide (gs_lan_interface s = Some (lan_interface g)) &&
      bool_decide (gs_lan_subnet s = Some (lan_subnet g))
  | inl _ => false
  end.

Definition recheck_tick (w : W) : W * tick :=
  match config with
  | inl _ => (w, Skipped)
  | inr c =>
      if is_none (nc_wan_interface c) && is_none (nc_lan_interface c) &&
         is_none (nc_wan_match c) && is_none (nc_lan_match c) then (w, Skipped)
      else
        match x_interface_info x EmptyString w with
        | (w, inl _) => (w, Skipped)
        | (w, inr interfaces) =>
            match config_validate proc_route c interfaces with
            | inl _ => (w, Skipped)
            | inr _ =>
                match resolve_roles proc_route c interfaces with
                | inl _ => (w, Skipped)
                | inr (wan, lan) =>
                    let g := mkGateway wan lan (nc_lan_subnet c) in
                    let '(w, st) := x_gateway_status x w in
                    if already_applied g st then (w, Skipped)
                    else let '(w, r) := x_gateway_apply x g w in (w, Applied g r)
                end
            end
        end
  end.
End Daemon.

(** ** Role resolution *)

(** A role is settled by its matcher, which has exactly one interface, or by name. *)
Definition selected (m : option IfaceMatcher) (name : option string) (interfaces : list InterfaceInfo)
    (s : string) : Prop :=
  match m with
  | Some m => matcher_is_empty m = false /\
      exists i, List.filter (matches m) interfaces = [i] /\ if_name i = s
  | None => name = Some s
  end.

Definition configured (c : NetworkConfig) : Prop :=
  is_none (nc_wan_interface c) && is_none (nc_lan_interface c) &&
  is_none (nc_wan_match c) && is_none (nc_lan_match c) = false.

Lemma matcher_resolve_spec m interfaces s :
  matcher_resolve m interfaces = inr s <->
  matcher_is_empty m = false /\ exists i, List.filter (matches m) interfaces = [i] /\ if_name i = s.
Proof.
  unfold matcher_resolve. destruct (matcher_is_empty m); [naive_solver|].
  destruct (List.filter _ _) as [|i [|j l]]; naive_solver.
Qed.

Lemma resolve_match_spec what m name interfaces s :
  (exists o, resolve_match what m interfaces = inr o /\ or_else o name = Some s) <->
  selected m name interfaces s.
Proof.
  unfold resolve_match, selected. destruct m as [m|].
  - rewrite <- matcher_resolve_spec. destruct (matcher_resolve m interfaces) as [e|t]; naive_solver.
  - naive_solver.
Qed.

Lemma resolve_roles_spec route c interfaces wan lan :
  configured c ->
  resolve_roles route c interfaces = inr (wan, lan) <->
  selected (nc_wan_match c) (nc_wan_interface c) interfaces wan /\
  selected (nc_lan_match c) (nc_lan_interface c) interfaces lan /\ wan <> lan.
Proof.
  intros Hc.
  rewrite <- (resolve_match_spec "wan_match"), <- (resolve_match_spec "lan_match").
  unfold resolve_roles. destruct (resolve_match "wan_match" _ _) as [e|wo] eqn:Ew; [naive_solver|].
  destruct (resolve_match "lan_match" _ _) as [e|lo] eqn:El; [naive_solver|].
  destruct (or_else wo _) as [w|] eqn:E1, (or_else lo _) as [l|] eqn:E2;
    try (split; [done|naive_solver]).
  - destruct (String.eqb_spec w l); naive_solver.
  - exfalso. unfold configured in Hc. unfold resolve_match in Ew, El.
    destruct (nc_wan_match c) as [m|]; [destruct (matcher_resolve _ _); naive_solver|].
    destruct (nc_lan_match c) as [m|]; [destruct (matcher_resolve _ _); naive_solver|].
    injection Ew as <-. injection El as <-. cbn in E1, E2. by rewrite E1, E2 in Hc.
Qed.

Definition present_ethernet (interfaces : list InterfaceInfo) (name : string) : Prop :=
  exists i, List.find (fun i => String.eqb (if_name i) name) interfaces = Some i /\
    is_ethernet_like i = true.

Lemma role_live_spec interfaces role name :
  role_live interfaces role name = inr () <-> present_ethernet interfaces name.
Proof.
  unfold role_live, present_ethernet. destruct (List.find _ _) as [i|]; [|naive_solver].
  destruct (is_ethernet_like i) eqn:E; naive_solver congruence.
Qed.

(** What validation of a configuration with roles amounts to. *)
Record roles_ok (c : NetworkConfig) (interfaces : list InterfaceInfo) (wan lan : string) : Prop := {
  ro_wan : selected (nc_wan_match c) (nc_wan_interface c) interfaces wan;
  ro_lan : selected (nc_lan_match c) (nc_lan_interface c) interfaces lan;
  ro_apart : wan <> lan;
  ro_wan_live : present_ethernet interfaces wan;
  ro_lan_live : present_ethernet interfaces lan;
  ro_mac : forall mac, nc_wan_mac c = Some mac -> is_Some (validate_mac mac);
  ro_subnet : is_Some (config_parse_cidr (nc_lan_subnet c))
}.

Lemma config_validate_spec route c interfaces wan lan :
  configured c ->
  config_validate route c interfaces = inr () /\ resolve_roles route c interfaces = inr (wan, lan) <->
  roles_ok c interfaces wan lan.
Proof.
  intros Hc. unfold config_validate. unfold configured in Hc. rewrite Hc.
  split.
  - intros [Hv Hr]. rewrite Hr in Hv. apply resolve_roles_spec in Hr as (Hw & Hl & Hne); [|done].
    destruct (String.eqb wan lan); [done|].
    destruct (role_live interfaces "wan" wan) as [e|[]] eqn:E1; [done|].
    destruct (role_live interfaces "lan" lan) as [e|[]] eqn:E2; [done|].
    apply role_live_spec in E1, E2. destruct (nc_wan_mac c) as [mac|] eqn:Em; cbn [from_option] in Hv.
    + destruct (validate_mac mac) as [m|] eqn:Ev; [|done]. cbn [is_none] in Hv.
      destruct (config_parse_cidr _) eqn:Ep; [|done].
      split; try done. intros m'. rewrite Em. intros [= <-]. by rewrite Ev.
    + destruct (config_parse_cidr _) eqn:Ep; [|done]. split; try done. by rewrite Em.
  - intros [Hw Hl Hne Lw Ll Hm Hs]. assert (Hr : resolve_roles route c interfaces = inr (wan, lan))
      by (by apply resolve_roles_spec).
    split; [|done]. rewrite Hr. destruct (String.eqb_spec wan lan); [done|].
    apply (role_live_spec _ "wan") in Lw as ->. apply (role_live_spec _ "lan") in Ll as ->.
    destruct Hs as [ip ->]. destruct (nc_wan_mac c) as [mac|]; [|done].
    destruct (Hm mac eq_refl) as [m Ev]. cbn [from_option]. by rewrite Ev.
Qed.

(** ** The re-check *)

(** The status reports this gateway. *)
Definition in_force (g : GatewayConfig) (st : string + GatewayStatus) : Prop :=
  exists s, st = inr s /\ gs_enabled s = true /\ gs_wan_interface s = Some (wan_interface g) /\
    gs_lan_interface s = Some (lan_interface g) /\ gs_lan_subnet s = Some (lan_subnet g).

Lemma already_applied_spec g st : reflect (in_force g st) (already_applied g st).
Proof.
  apply iff_reflect. unfold in_force, already_applied. destruct st as [e|s]; [naive_solver|].
  rewrite !andb_true_iff, !bool_decide_eq_true. naive_solver.
Qed.

(** What the re-check relies on, in the states [wf] and for the gateways [fit]: the
    executor's reads change nothing, and its status reports a gateway it has applied. *)
Class GatewayExecutor {W : Type} (x : Executor W) (wf : W -> Prop) (fit : GatewayConfig -> Prop) : Prop := {
  gx_info_reads : forall w, wf w -> (x_interface_info x EmptyString w).1 = w;
  gx_status_reads : forall w, wf w -> (x_gateway_status x w).1 = w;
  gx_applied : forall g w w' r, wf w -> fit g -> x_gateway_apply x g w = (w', inr r) ->
    wf w' /\ in_force g (x_gateway_status x w').2 /\
    (x_interface_info x EmptyString w').2 = (x_interface_info x EmptyString w).2
}.

Section Recheck.
Context {W : Type} (x : Executor W) {wf : W -> Prop} {fit : GatewayConfig -> Prop}
  {gx : GatewayExecutor x wf fit}.
Context (c : NetworkConfig) (proc_route : option string).
Hypothesis roles_configured : configured c.
Hypothesis gateways_fit : forall wan lan, fit (mkGateway wan lan (nc_lan_subnet c)).

Definition snapshot_is (w : W) (interfaces : list InterfaceInfo) : Prop :=
  (x_interface_info x EmptyString w).2 = inr interfaces.

Lemma tick_of_roles w interfaces wan lan :
  wf w -> snapshot_is w interfaces -> roles_ok c interfaces wan lan ->
  let g := mkGateway wan lan (nc_lan_subnet c) in
  recheck_tick x (inr c) proc_route w =
    if already_applied g (x_gateway_status x w).2 then (w, Skipped)
    else let '(w', r) := x_gateway_apply x g w in (w', Applied g r).
Proof.
  intros Hwf Hs Hr g. unfold recheck_tick. unfold configured in roles_configured. rewrite roles_configured.
  pose proof (gx_info_reads w Hwf) as Hi. unfold snapshot_is in Hs.
  destruct (x_interface_info x EmptyString w) as [w1 o]. cbn [fst snd] in Hi, Hs. subst.
  apply (config_validate_spec proc_route) in Hr as [-> ->]; [|done].
  pose proof (gx_status_reads w Hwf) as Hst. destruct (x_gateway_status x w) as [w2 st].
  cbn [fst] in Hst. subst. done.
Qed.

Lemma tick_without_roles w interfaces :
  wf w -> snapshot_is w interfaces -> (forall wan lan, ~ roles_ok c interfaces wan lan) ->
  recheck_tick x (inr c) proc_route w = (w, Skipped).
Proof.
  intros Hwf Hs Hr. unfold recheck_tick. unfold configured in roles_configured. rewrite roles_configured.
  pose proof (gx_info_reads w Hwf) as Hi. unfold snapshot_is in Hs.
  destruct (x_interface_info x EmptyString w) as [w1 o]. cbn [fst snd] in Hi, Hs. subst.
  destruct (config_validate proc_route c interfaces) as [e|[]] eqn:Ev; [done|].
  destruct (resolve_roles proc_route c interfaces) as [e|[wan lan]] eqn:Er; [done|].
  destruct (Hr wan lan). by apply (config_validate_spec proc_route).
Qed.

Lemma tick_without_snapshot w e :
  wf w -> (x_interface_info x EmptyString w).2 = inl e -> recheck_tick x (inr c) proc_route w = (w, Skipped).
Proof.
  intros Hwf Hs. unfold recheck_tick. unfold configured in roles_configured. rewrite roles_configured.
  pose proof (gx_info_reads w Hwf) as Hi.
  destruct (x_interface_info x EmptyString w) as [w1 o]. cbn [fst snd] in Hi, Hs. by subst.
Qed.

(** Roles are unique. *)
Lemma roles_ok_unique interfaces wan lan wan' lan' :
  roles_ok c interfaces wan lan -> roles_ok c interfaces wan' lan' -> wan = wan' /\ lan = lan'.
Proof.
  assert (U : forall m n s s', selected m n interfaces s -> selected m n interfaces s' -> s = s').
  { intros [m|] n s s'; cbn; [|congruence]. intros (_ & i & E & <-) (_ & j & E' & <-). congruence. }
  intros [? ? _ _ _ _ _] [? ? _ _ _ _ _]. split; eapply U; eassumption.
Qed.

(** ** Renamed interfaces *)

Definition rename (f : string -> string) (i : InterfaceInfo) : InterfaceInfo := with_name (f (if_name i)) i.

Definition by_hardware (m : option IfaceMatcher) : Prop :=
  exists h, m = Some h /\ m_name h = None.

Lemma matches_rename f m i : m_name m = None -> matches m (rename f i) = matches m i.
Proof. intros H. unfold matches. by rewrite H. Qed.

Lemma filter_map_comm {A B} (f : A -> B) (p : B -> bool) (q : A -> bool) l :
  (forall a, p (f a) = q a) -> List.filter p (map f l) = map f (List.filter q l).
Proof.
  intros H. induction l as [|a l IH]; [done|]. cbn. rewrite H. destruct (q a); cbn; by rewrite IH.
Qed.

Lemma selected_rename f m n interfaces s :
  by_hardware m -> selected m n interfaces s -> selected m n (map (rename f) interfaces) (f s).
Proof.
  intros (h & -> & Hn) (He & i & Ei & <-). split; [done|]. exists (rename f i). split; [|done].
  rewrite (filter_map_comm _ _ (matches h)); [by rewrite Ei|]. intros a. by apply matches_rename.
Qed.

Lemma live_rename f interfaces s :
  (forall a b, f a = f b -> a = b) -> present_ethernet interfaces s ->
  present_ethernet (map (rename f) interfaces) (f s).
Proof.
  intros Hf (i & Hi & He). exists (rename f i). split; [|done].
  induction interfaces as [|j l IH]; [done|]. cbn [map List.find] in *.
  change (if_name (rename f j)) with (f (if_name j)).
  destruct (String.eqb_spec (if_name j) s) as [->|Hne].
  - rewrite String.eqb_refl. by injection Hi as <-.
  - destruct (String.eqb_spec (f (if_name j)) (f s)) as [E|]; [by apply Hf in E|]. by apply IH.
Qed.

Lemma roles_rename f interfaces wan lan :
  (forall a b, f a = f b -> a = b) -> by_hardware (nc_wan_match c) -> by_hardware (nc_lan_match c) ->
  roles_ok c interfaces wan lan -> roles_ok c (map (rename f) interfaces) (f wan) (f lan).
Proof.
  intros Hf Hw Hl []. split; auto using selected_rename, live_rename.
Qed.

(** What a tick does, over any executor with the interface. *)
Lemma recheck_spec w interfaces :
  wf w -> snapshot_is w interfaces ->
  (forall w' g r, recheck_tick x (inr c) proc_route w = (w', Applied g r) ->
     roles_ok c interfaces (wan_interface g) (lan_interface g) /\ lan_subnet g = nc_lan_subnet c /\
     ~ in_force g (x_gateway_status x w).2 /\ x_gateway_apply x g w = (w', r) /\
     (forall res, r = inr res -> recheck_tick x (inr c) proc_route w' = (w', Skipped)) /\
     (forall f w2, (forall a b, f a = f b -> a = b) ->
        by_hardware (nc_wan_match c) -> by_hardware (nc_lan_match c) ->
        wf w2 -> snapshot_is w2 (map (rename f) interfaces) ->
        let g' := mkGateway (f (wan_interface g)) (f (lan_interface g)) (lan_subnet g) in
        ~ in_force g' (x_gateway_status x w2).2 ->
        exists w3 r3, x_gateway_apply x g' w2 = (w3, r3) /\
          recheck_tick x (inr c) proc_route w2 = (w3, Applied g' r3))) /\
  (forall w', recheck_tick x (inr c) proc_route w = (w', Skipped) ->
     w' = w /\ forall wan lan, roles_ok c interfaces wan lan ->
       in_force (mkGateway wan lan (nc_lan_subnet c)) (x_gateway_status x w).2).
Proof.
  intros Hwf Hs.
  assert (D : (exists wan lan, roles_ok c interfaces wan lan) \/ forall wan lan, ~ roles_ok c interfaces wan lan).
  { destruct (config_validate proc_route c interfaces) as [e|[]] eqn:Ev.
    - right. intros wan lan [H _]%(config_validate_spec proc_route); [|done]. congruence.
    - destruct (resolve_roles proc_route c interfaces) as [e|[wan lan]] eqn:Er.
      + right. intros wan lan [_ H]%(config_validate_spec proc_route); [|done]. congruence.
      + left. exists wan, lan. by apply (config_validate_spec proc_route). }
  destruct D as [(wan & lan & Hr)|Hno].
  2:{ rewrite (tick_without_roles w interfaces Hwf Hs Hno). split; [done|]. intros w' [= <-].
      split; [done|]. intros wan lan H. by destruct (Hno wan lan). }
  rewrite (tick_of_roles w interfaces wan lan Hwf Hs Hr).
  destruct (already_applied_spec (mkGateway wan lan (nc_lan_subnet c)) (x_gateway_status x w).2) as [Ea|Ea].
  - split; [done|]. intros w' [= <-]. split; [done|]. intros wan' lan' H'.
    by destruct (roles_ok_unique _ _ _ _ _ Hr H') as [<- <-].
  - destruct (x_gateway_apply x _ w) as [w1 r1] eqn:Ex. split; [|done].
    intros w' g r [= <- <- <-]. cbn [wan_interface lan_interface lan_subnet].
    do 4 (split; [done|]). split.
    + intros res ->. destruct (gx_applied _ _ _ _ Hwf (gateways_fit wan lan) Ex) as (Hwf1 & Hap & Hsn). unfold snapshot_is in Hs.
      rewrite <- Hsn in Hs. rewrite (tick_of_roles w1 interfaces wan lan Hwf1 Hs Hr).
      by destruct (already_applied_spec (mkGateway wan lan (nc_lan_subnet c)) (x_gateway_status x w1).2).
    + intros f w2 Hf Hw Hl Hwf2 Hs2 Ha2. pose proof (roles_rename f _ _ _ Hf Hw Hl Hr) as Hr2.
      rewrite (tick_of_roles w2 _ _ _ Hwf2 Hs2 Hr2).
      destruct (already_applied_spec (mkGateway (f wan) (f lan) (nc_lan_subnet c)) (x_gateway_status x w2).2);
        [done|].
      destruct (x_gateway_apply x _ w2) as [w3 r3] eqn:E3. by exists w3, r3.
Qed.
End Recheck.

(** ** The executor's own backends *)

(** The netlink backend of the interfaces and the nftables backend of the gateway. *)
Section Host.
Context {N Sy L F : Type} {nft : N -> list string -> N * (Error + output)} {b : NftablesBackend}
  {nft_spec : Nft (table_name b) nft} {kernel : LinkKernel L} {files : Files F}.
Context (sysctl_write : Sy -> string -> Sy * (string + ())) (sysctl_read : Sy -> option string).
Context (json_of : gmap string string -> option string)
  (of_json : string -> string + gmap string string) (sys : Sysfs).

Definition host : Type := gateway N Sy * world L F.

Definition answer {A} (w : host) (r : option (gateway N Sy * (Error + A))) : host * (string + A) :=
  match r with
  | Some (g, inr a) => ((g, w.2), inr a)
  | Some (g, inl e) => ((g, w.2), inl (error_to_string e))
  | None => (w, inl "gateway"%string)
  end.

Definition host_executor : Executor host := {|
  x_interface_info name w := (w, info of_json sys name w.2);
  x_interface_set_mac name mac w :=
    let '(l, r) := set_mac json_of of_json name mac w.2 in ((w.1, l), r);
  x_gateway_status w := answer w (status nft b sysctl_read w.1);
  x_gateway_apply g w := answer w (apply nft b sysctl_write (gateway_fuel (b := b) w.1) g w.1)
|}.

Hypothesis sysctl_kept : forall s s',
  sysctl_write s (String "1" (String newline EmptyString)) = (s', inr ()) ->
  exists v, sysctl_read s' = Some v /\ trim v = "1"%string.

#[export] Instance host_gateway :
  GatewayExecutor host_executor (fun w => gateway_ready (b := b) w.1) (fun g => untagged (lan_subnet g)).
Proof.
  split.
  - done.
  - intros [g l] Hr. cbn [host_executor x_gateway_status fst]. cbn [fst] in Hr.
    rewrite status_spec by done. done.
  - intros cfg [g l] [g' l'] r Hr Hu. cbn [host_executor x_gateway_apply x_gateway_status x_interface_info].
    cbn [fst] in Hr |- *. destruct (apply _ _ _ _ _ _) as [[g1 [e|res]]|] eqn:E; [done| |done].
    intros [= <- <- <-]. cbn [snd].
    destruct (applied_status sysctl_write sysctl_read sysctl_kept _ cfg g g1 res Hr Hu
      (gateway_fuel_enough g) E) as (Hr1 & mgmt & Hst).
    split; [done|]. split; [|done]. rewrite Hst. by eexists.
Qed.

End Host.

(** ** A host in memory *)

Module PortMem.
Definition backend : NftablesBackend := mkBackend "balansir" "forward".
#[export] Instance nft_ok : Nft (table_name backend) (mem_nft "balansir") := mem_Nft "balansir".

(** Two ports without addresses; the state is what their names start with. *)
Definition ports (prefix : string) : list (Z * list LinkAttribute) :=
  [(2, [LIfName (prefix +:+ "eth0"); LAddress [2; 0; 0; 0; 0; 7]; LOperState StDown]);
   (3, [LIfName (prefix +:+ "eth1"); LAddress [2; 0; 0; 0; 0; 9]; LOperState StUp])].

#[export] Instance links : LinkKernel string := {|
  k_links _ n := inr (ports n);
  k_addresses _ := inr [];
  k_set_address _ _ n := (n, inl "unsupported"%string)
|}.

Definition no_sysfs : Sysfs := mkSysfs (fun _ => None) (fun _ => None) (fun _ => false).

Definition executor : Executor (host (N := mem_table) (Sy := string) (L := string) (F := gmap string string)) :=
  host_executor (b := backend) sysctl_file Some LinkMem.json_of LinkMem.of_json no_sysfs.

(** WAN and LAN by hardware address. *)
Definition config : NetworkConfig :=
  mkNetwork None None (Some (mkMatcher None (Some "02:00:00:00:00:09") None None))
    (Some (mkMatcher None (Some "02:00:00:00:00:07") None None)) None None "192.168.3.0/24".

Definition start : host (N := mem_table) (Sy := string) (L := string) (F := gmap string string) :=
  (demo_gateway, mkWorld EmptyString ∅).
Definition interfaces : list InterfaceInfo :=
  match info LinkMem.of_json no_sysfs EmptyString start.2 with inr l => l | inl _ => [] end.

Lemma interfaces_read : info LinkMem.of_json no_sysfs EmptyString start.2 = inr interfaces.
Proof. vm_compute. reflexivity. Qed.

Lemma sysctl_kept (s s' : string) :
  sysctl_file s (String "1" (String newline EmptyString)) = (s', inr ()) ->
  exists v, Some s' = Some v /\ trim v = "1"%string.
Proof. intros [= <-]. by eexists. Qed.

Lemma start_ready : gateway_ready (b := backend) start.1.
Proof.
  split; [vm_compute; by eexists|]. intros c Hc. destruct Hc as [<-|[<-|[<-|[]]]]; split; constructor.
Qed.
End PortMem.


(** ** Defects *)

(** The state of the links plays no part: ports that are down are valid roles. *)
Lemma down_ports_pass c up interfaces wan lan :
  roles_ok c interfaces wan lan -> roles_ok c (map (with_link_up up) interfaces) wan lan.
Proof.
  assert (Hsel : forall m n s, selected m n interfaces s -> selected m n (map (with_link_up up) interfaces) s).
  { intros [m|] n s; [|done]. intros (He & i & Ei & <-). split; [done|]. exists (with_link_up up i).
    split; [|done]. by rewrite (filter_map_comm _ _ (matches m)), Ei. }
  assert (Hpr : forall s, present_ethernet interfaces s -> present_ethernet (map (with_link_up up) interfaces) s).
  { intros s (i & Hi & He). exists (with_link_up up i). split; [|done]. clear Hsel.
    induction interfaces as [|j l IH]; [done|]. cbn [map List.find] in *.
    change (if_name (with_link_up up j)) with (if_name j).
    destruct (String.eqb (if_name j) s); [by injection Hi as <-|by apply IH]. }
  intros []. split; auto.
Qed.

(** The UPnP server never starts.  Whatever the configuration, the links, the
    addresses and the other calls of the executor: when the interfaces come from the
    netlink backend, their addresses carry a prefix length, the startup step does not
    recognise them as addresses, and no UPnP server is started. *)
Theorem upnp_never_starts {N F : Type} {k : LinkKernel N} {fs : Files F} of_json sys
    (x : Executor (world N F)) env config route arp w w' u :
  (forall name v, x_interface_info x name v = (v, info of_json sys name v)) ->
  apply_network_config x env config route arp w = (w', Returned u) -> u = None.
Proof.
  intros Hx. unfold apply_network_config. destruct config as [e|c]; [by intros [= _ <-]|].
  destruct (is_none _ && is_none _); [by intros [= _ <-]|]. rewrite Hx.
  destruct (info of_json sys EmptyString w) as [e|l] eqn:Ei; [by intros [= _ <-]|].
  destruct (config_validate route c l); [by intros [= _ <-]|].
  destruct (resolve_roles route c l) as [e|[wan lan]]; [by intros [= _ <-]|].
  destruct (clone_wan x arp c wan lan w) as [w1 go]. destruct (negb go); [by intros [= _ <-]|].
  destruct (validate _); [done|]. destruct (x_gateway_apply x _ w1) as [w2 [e|r]]; [done|].
  intros [= _ <-]. unfold start_upnp. destruct (List.find _ l) as [i|] eqn:Ef; [|done].
  cbn [mbind option_bind]. destruct (if_ipv4 i) as [|a as_] eqn:Ea; [done|]. cbn [head mbind option_bind].
  apply List.find_some in Ef as [Hin _].
  rewrite (reported_addresses_have_prefix of_json sys EmptyString w l i a Ei Hin); [done|].
  rewrite Ea. by left.
Qed.

(** The executor over the links in memory, with the recording gateway backend that
    accepts every configuration. *)
Definition link_executor : Executor (world (list Z * list Z) (gmap string string)) := {|
  x_interface_info name w :=
    (w, info LinkMem.of_json (mkSysfs (fun _ => None) (fun _ => None) (fun _ => false)) name w);
  x_interface_set_mac name mac w :=
    let '(w, r) := LinkMem.set_ name mac w in (w, r);
  x_gateway_status w := (w, inr (record_status None));
  x_gateway_apply g w := (w, match record_apply None g with
                             | (_, inr r) => inr r
                             | (_, inl e) => inl (error_to_string e) end)
|}.

Lemma upnp_never_starts_witness :
  let c := mkNetwork (Some "eth0") (Some "eth1") None None (Some "aa:bb:cc:00:11:22") None "192.168.3.0/24" in
  exists w', apply_network_config link_executor (fun _ => EnvUnset) (inr c) None None LinkMem.start =
    (w', Returned None) /\ current_mac "eth0" (w_net w') = Some "aa:bb:cc:00:11:22"%string.
Proof.
  cbv zeta. destruct (apply_network_config link_executor (fun _ => EnvUnset) _ None None LinkMem.start)
    as [w' [u|]] eqn:E; [|by vm_compute in E].
  exists w'. rewrite (upnp_never_starts LinkMem.of_json
    (mkSysfs (fun _ => None) (fun _ => None) (fun _ => false)) link_executor _ _ _ _ _ _ u (fun _ _ => eq_refl) E).
  split; [reflexivity|]. vm_compute in E. by injection E as <- _.
Defined.

(** Roles given by the environment alone are always rejected: without a file the LAN
    subnet is empty, which is not an address. *)
Lemma env_roles_rejected env read_file toml route interfaces c :
  env "BALANSIR_NETWORK_CONFIG"%string = EnvUnset ->
  load_network env read_file toml = inr c -> configured c ->
  config_validate route c interfaces <> inr ().
Proof.
  intros He El Hc Hv. assert (Hsub : nc_lan_subnet c = EmptyString).
  { unfold load_network in El. rewrite He in El. by injection El as <-. }
  destruct (resolve_roles route c interfaces) as [e|[wan lan]] eqn:Er.
  - unfold config_validate in Hv. unfold configured in Hc. by rewrite Hc, Er in Hv.
  - assert (Hr : roles_ok c interfaces wan lan) by (by apply (config_validate_spec route)).
    destruct Hr as [_ _ _ _ _ _ [ip Hip]]. rewrite Hsub in Hip. by vm_compute in Hip.
Qed.

(** The entries of /proc/net/arp have their flags in hexadecimal with a prefix, which the
    number parser refuses: no peer MAC is ever learned. *)
Lemma peer_never_learned lan ls :
  Forall (fun l => exists flags, nth 2 (split_whitespace l) EmptyString = "0x" +:+ flags)%string ls ->
  arp_lines lan ls = None.
Proof.
  induction 1 as [|l ls (flags & Hf) _ IH]; [done|]. cbn [arp_lines].
  destruct (_ || _); [done|]. destruct (String.eqb _ _); [done|]. by rewrite Hf.
Qed.

(** With cloning enabled, no MAC configured and none learned, the startup step ends
    before the gateway is applied. *)
Lemma no_mac_no_gateway {W} (x : Executor W) env c route arp w :
  nc_clone_mac c = None -> nc_wan_mac c = None -> (forall lan, learn_lan_peer_mac arp lan = None) ->
  apply_network_config x env (inr c) route arp w =
    ((if is_none (nc_wan_interface c) && is_none (nc_lan_interface c) then w
      else (x_interface_info x EmptyString w).1), Returned None).
Proof.
  intros Hc Hm Ha. unfold apply_network_config. destruct (is_none _ && is_none _); [done|].
  destruct (x_interface_info x EmptyString w) as [w1 [e|l]]; [done|]. cbn [fst].
  destruct (config_validate route c l); [done|].
  destruct (resolve_roles route c l) as [e|[wan lan]]; [done|].
  unfold clone_wan, cloning_enabled. rewrite Hc, Hm. cbn [default from_option id negb or_else].
  by rewrite Ha.
Qed.

(** With ports given by matchers only, the startup step does nothing, so the WAN MAC is
    never cloned; and the roles shown are those of the automatic detection. *)
Lemma matchers_ignored_at_startup {W} (x : Executor W) env c route arp w :
  nc_wan_interface c = None -> nc_lan_interface c = None ->
  apply_network_config x env (inr c) route arp w = (w, Returned None).
Proof. intros H1 H2. unfold apply_network_config. by rewrite H1, H2. Qed.

Lemma shown_roles_ignore_matchers :
  let route := Some (unlines ["Iface Destination Gateway Flags";
                              "eth0 00000000 0103A8C0 0003 0 0 0"])%string in
  let up := map (with_link_up true) PortMem.interfaces in
  resolve_roles route PortMem.config up = inr ("eth1", "eth0")%string /\
  map (fun i => (if_name i, if_role i)) (assign_roles route up PortMem.config) =
    [("eth0", RoleWan); ("eth1", RoleLan)]%string.
Proof. by vm_compute. Qed.

(** A subnet with surrounding blanks passes the validation of the network configuration
    and fails that of the gateway: the daemon exits. *)
Lemma padded_subnet_exits :
  let c := mkNetwork (Some "eth1") (Some "eth0") None None None (Some false) " 192.168.3.0/24 " in
  config_validate None c PortMem.interfaces = inr () /\
  (apply_network_config PortMem.executor (fun _ => EnvUnset) (inr c) None None
     PortMem.start).2 = ProcessExit.
Proof. by vm_compute. Qed.

(** A Wi-Fi interface has no link kind and counts as an Ethernet port. *)
Lemma wifi_counts_as_ethernet i : if_kind i = None -> is_ethernet_like i = true.
Proof. intros H. unfold is_ethernet_like. by rewrite H. Qed.

(** ** Detection *)

(** Two different Ethernet ports other than the loopback device, the first with a
    carrier. *)
Definition detected_ok (interfaces : list InterfaceInfo) (wan lan : string) : Prop :=
  exists w l, In w interfaces /\ In l interfaces /\ if_name w = wan /\ if_name l = lan /\ wan <> lan /\
    is_ethernet_like w = true /\ is_ethernet_like l = true /\ wan <> "lo"%string /\ lan <> "lo"%string /\
    if_link_up w = true.

Lemma auto_roles_sound route interfaces wan lan :
  auto_assign_roles route interfaces = Some (wan, lan) -> detected_ok interfaces wan lan.
Proof.
  unfold auto_assign_roles. set (eth := List.filter _ interfaces).
  assert (Hr : forall w l, In w eth -> if_link_up w = true -> In l eth -> if_name l <> if_name w ->
    detected_ok interfaces (if_name w) (if_name l)).
  { intros w l [Hw [Kw Nw]%andb_true_iff]%filter_In Hu [Hl [Kl Nl]%andb_true_iff]%filter_In Hne.
    apply negb_true_iff, String.eqb_neq in Nw, Nl. exists w, l. naive_solver. }
  assert (Hone : forall A (p : A -> bool) k l, List.filter p k = [l] -> In l k /\ p l = true).
  { intros A p k l E. apply filter_In. rewrite E. by left. }
  destruct (len eth <? 2); [done|].
  set (by_carrier := match List.filter if_link_up eth with [w] => _ | _ => _ end).
  assert (Hc : by_carrier = Some (wan, lan) -> detected_ok interfaces wan lan).
  { unfold by_carrier. destruct (List.filter if_link_up eth) as [|w [|]] eqn:Ew; try done.
    destruct (List.filter (fun i => negb (String.eqb (if_name i) (if_name w))) eth) as [|l [|]] eqn:El;
      try done. intros [= <- <-]. apply Hone in Ew as [? ?], El as [? H2].
    apply negb_true_iff, String.eqb_neq in H2. auto. }
  clearbody by_carrier. destruct (default_route_interface route) as [wn|]; [|done].
  destruct (List.find _ eth) as [wi|] eqn:Ef; [|done].
  apply List.find_some in Ef as [Hwi Hn%String.eqb_eq]. subst wn.
  destruct (if_link_up wi) eqn:Eu; [|done].
  set (others := List.filter (fun i => negb (String.eqb (if_name i) (if_name wi))) eth).
  assert (Ho : forall l, In l others -> detected_ok interfaces (if_name wi) (if_name l)).
  { intros l [Hl H2]%filter_In. apply negb_true_iff, String.eqb_neq in H2. auto. }
  clearbody others. assert (Hlast : forall o,
    o = match others with [l] => Some (if_name wi, if_name l) | _ => None end ->
    o = Some (wan, lan) -> detected_ok interfaces wan lan).
  { intros o ->. destruct others as [|l [|]]; try done. intros [= <- <-]. apply Ho. by left. }
  destruct (List.filter if_link_up others) as [|l [|]] eqn:Eo; try (by eapply Hlast).
  intros [= <- <-]. apply Hone in Eo as [? _]. auto.
Qed.
