(* ===== verification/L2Probe.v ===== *)
(** * The protocol probe of VPN endpoints (balansir-daemon/src/l2_probe.rs)

    The ClientHello the probe sends and the classification of what the endpoint does with
    it.  The connection is a parameter: how the connect, the write and the first read end. *)

From S2P Require Import Prelude Tls.
#[local] Open Scope Z_scope.

Inductive L2Result :=
| Alive | ImmediateEof | ResetByPeer | TlsFailure (alert : list Z) | ProbeTimeout.

(** ** The ClientHello *)

Definition SUPPORTED_VERSIONS_EXT : list Z := [0x00; 0x2b; 0x00; 0x05; 0x04; 0x03; 0x04].

Definition probe_random : list Z := map (fun i => u8 (u8 (i * 7) + 0x42)) (map Z.of_nat (seq 0 32)).

Definition probe_ciphers : list Z :=
  [0x00; 0x0a; 0x13; 0x01; 0x13; 0x02; 0xc0; 0x2f; 0xc0; 0x30; 0xff; 0x01].

(** The extensions as they are sent: the server name, then the supported versions. *)
Definition probe_exts (sni : list Z) : list Z :=
  let list_content_len := 3 + len sni in
  let sni_ext_data_len := 2 + list_content_len in
  [0x00; 0x00] ++ to_be16 (u16 sni_ext_data_len) ++ to_be16 (u16 list_content_len) ++ [0x00] ++
  to_be16 (u16 (len sni)) ++ sni ++ SUPPORTED_VERSIONS_EXT.

Definition build_client_hello (sni : list Z) : list Z :=
  let sni_ext_wire := 4 + (2 + (3 + len sni)) in
  let extensions_data_len := sni_ext_wire + len SUPPORTED_VERSIONS_EXT in
  let body_len := 2 + 32 + 1 + 12 + 2 + 2 + extensions_data_len in
  let record_body_len := 4 + body_len in
  [0x16] ++ [0x03; 0x01] ++ to_be16 (u16 record_body_len) ++
  [0x01] ++ drop 1 (to_be32 (u32 body_len)) ++
  [0x03; 0x03] ++ probe_random ++ [0x00] ++ probe_ciphers ++ [0x01; 0x00] ++
  to_be16 (u16 extensions_data_len) ++ probe_exts sni.

(** ** The probe *)

Inductive connect_end := Connected | Refused | NotConnected.
Inductive read_end := ReadBytes (buf : list Z) | ReadReset | ReadFailed.

(** [connect], [write_in_time] and [read] are how the three steps end for a hello. *)
Record endpoint_net := mkEndpoint {
  ep_connect : connect_end;
  ep_write_in_time : bool;
  ep_read : list Z -> read_end
}.

Definition classify_reply (resp : list Z) : L2Result :=
  match resp with
  | [] => ImmediateEof
  | b :: _ =>
      if (3 <=? len resp) && (b =? 0x16) then Alive
      else if (2 <=? len resp) && (b =? 0x15) then TlsFailure (take 8 resp)
      else Alive
  end.

(** [net]: the network, by address and server name. *)
Definition l2_tls_probe (net : string -> endpoint_net) (addr : string) (sni : list Z) : L2Result :=
  let ep := net addr in
  match ep_connect ep with
  | Refused => ResetByPeer
  | NotConnected => ProbeTimeout
  | Connected =>
      if negb (ep_write_in_time ep) then ProbeTimeout
      else
        match ep_read ep (build_client_hello sni) with
        | ReadBytes buf => classify_reply (take 256 buf)
        | ReadReset => ResetByPeer
        | ReadFailed => ProbeTimeout
        end
  end.

(** ** The hello that is sent *)

(** The length of the record is the length of what follows its header. *)
Lemma hello_length sni :
  len sni < 65000 ->
  len (build_client_hello sni) = 5 + from_be16 (nth 3 (build_client_hello sni) 0) (nth 4 (build_client_hello sni) 0).
Proof.
  intros Hs. pose proof (len_nonneg sni).
  set (r := 4 + (2 + 32 + 1 + 12 + 2 + 2 + (4 + (2 + (3 + len sni)) + len SUPPORTED_VERSIONS_EXT))).
  assert (Hr : 0 <= r < 65536) by (unfold r; change (len SUPPORTED_VERSIONS_EXT) with 7; lia).
  change (nth 3 (build_client_hello sni) 0) with (u8 (u16 r / 256)).
  change (nth 4 (build_client_hello sni) 0) with (u8 (u16 r)).
  rewrite (wrap_small 16 r) by (change (2 ^ 16) with 65536; lia).
  pose proof (from_to_be16 r Hr) as E. unfold to_be16 in E. rewrite E.
  unfold build_client_hello, probe_exts. rewrite !len_app, !len_to_be16.
  change (len SUPPORTED_VERSIONS_EXT) with 7. change (len probe_random) with 32.
  change (len (drop 1 (to_be32 ?x))) with 3. unfold len in *. cbn [length probe_ciphers].
  subst r. change (length SUPPORTED_VERSIONS_EXT) with 7%nat. lia.
Qed.

(** The extensions of a hello read strictly: type, length and exactly that many bytes. *)
Fixpoint strict_exts (fuel : nat) (l : list Z) : option (list (Z * list Z)) :=
  match l with
  | [] => Some []
  | t1 :: t0 :: l1 :: l0 :: rest =>
      let n := from_be16 l1 l0 in
      match fuel with
      | O => None
      | S fuel =>
          if len rest <? n then None
          else cons (from_be16 t1 t0, take (Z.to_nat n) rest) <$> strict_exts fuel (drop (Z.to_nat n) rest)
      end
  | _ => None
  end.

(** The supported-versions extension announces five bytes and has three: whatever the
    server name, the extensions of the probe's hello are malformed, so an endpoint that
    checks them answers with an alert. *)
Lemma probe_hello_malformed fuel sni : len sni < 65000 -> strict_exts fuel (probe_exts sni) = None.
Proof.
  intros Hs. pose proof (len_nonneg sni). unfold probe_exts. rewrite !(wrap_small 16) by (change (2 ^ 16) with 65536; lia).
  destruct fuel as [|fuel]; [done|].
  set (n := 2 + (3 + len sni)).
  change ([0; 0] ++ to_be16 n ++ ?t) with (0 :: 0 :: u8 (n / 256) :: u8 n :: t).
  cbn [strict_exts].
  assert (En : from_be16 (u8 (n / 256)) (u8 n) = n) by (apply from_to_be16; lia).
  rewrite En. set (d := to_be16 (3 + len sni) ++ [0] ++ to_be16 (len sni) ++ sni).
  assert (Ed : to_be16 (3 + len sni) ++ [0] ++ to_be16 (len sni) ++ sni ++ SUPPORTED_VERSIONS_EXT =
               d ++ SUPPORTED_VERSIONS_EXT) by (unfold d; by rewrite <- !app_assoc).
  rewrite Ed. assert (Ld : len d = n).
  { unfold d. rewrite !len_app, !len_to_be16. unfold n, len. cbn [length]. lia. }
  rewrite len_app, Ld. change (len SUPPORTED_VERSIONS_EXT) with 7. replace (n + 7 <? n) with false by lia.
  rewrite drop_app_length' by (unfold len in Ld; lia). by destruct fuel.
Qed.

(** An endpoint that answers a malformed hello with an alert is never alive. *)
Lemma strict_endpoint_never_alive net addr sni :
  len sni < 65000 -> ep_connect (net addr) = Connected ->
  (strict_exts 16 (probe_exts sni) = None ->
   exists code, ep_read (net addr) (build_client_hello sni) = ReadBytes [0x15; 3; 3; 0; 2; 2; code]) ->
  l2_tls_probe net addr sni <> Alive.
Proof.
  intros Hs Hc Hr. destruct (Hr (probe_hello_malformed 16 sni Hs)) as [code E].
  unfold l2_tls_probe. rewrite Hc. destruct (ep_write_in_time (net addr)); [|done].
  cbn [negb]. by rewrite E.
Qed.
