(* ===== verification/VpnManager.v ===== *)
(** * The VPN pool manager (balansir-daemon/src/vpn_manager.rs)

    The daemon task that owns the profile pool: it imports subscriptions, probes the
    endpoints, selects the active profile and hands it to the Xray consumer, and publishes
    the state; and the file of manual profiles.  The pool is [VpnPool], the importer
    [VpnImport], the protocol probe [L2Probe].  The world of one tick (time, files, the
    [curl] process, the network) is an argument; the calls of the consumer and the events
    are recorded.  The text of a rotation reason, which prints floats, is a parameter. *)

From stdpp Require Import pretty.
From S2P Require Import Prelude F64 Health VpnPool Types IpText Text VpnImport Tls L2Probe.
From S2P Require Import B4Adapt B4Control PathDecision.
#[local] Open Scope Z_scope.

(** ** Configuration *)

Record PoolToml := mkPoolToml {
  pt_min_dwell_secs : option Z;
  pt_failure_cooldown_secs : option Z;
  pt_health_cooldown_secs : option Z;
  pt_rotation_interval_secs : option Z;
  pt_better_threshold : option f64
}.

Record VpnToml := mkVpnToml {
  vt_source_url : option string;
  vt_local_source : option string;
  vt_refresh_interval_secs : option Z;
  vt_health_interval_secs : option Z;
  vt_selection_interval_secs : option Z;
  vt_pin : option string;
  vt_pool : PoolToml
}.

Definition pool_config (c : VpnToml) : PoolConfig :=
  let p := vt_pool c in
  let secs o d := default d o * 1000000000 in
  mkPoolConfig (secs (pt_min_dwell_secs p) 120) (secs (pt_failure_cooldown_secs p) 60)
    (secs (pt_health_cooldown_secs p) 10) (secs (pt_rotation_interval_secs p) 0)
    (default (f64_of 25) (pt_better_threshold p)) [10; 25; 50; 100].

(** ** Probes *)

(** [format!("{server}:{port}")] with brackets around a bare IPv6 literal *)
Definition endpoint_addr (server : string) (port : Z) : string :=
  if contains server ":" && negb (starts_with server "[")
  then "[" +:+ server +:+ "]:" +:+ pretty port
  else server +:+ ":" +:+ pretty port.

(** A connect that took so many milliseconds, or none in time. *)
Definition tcp_probe (connect : string -> option Z) (server : string) (port : Z) : PathSample :=
  match connect (endpoint_addr server port) with
  | Some ms => mkSample (Some (f64_of ms)) None true false
  | None => PathSample_failure
  end.

(** ** State *)

Inductive VpnEvent :=
| VpnPoolUpdated (profiles : Z) (source : string)
| VpnActiveChanged (profile_id reason : string)
| VpnPoolError (detail : string).

Record vpn_manager := mkVpnManager {
  vm_config : VpnToml;
  vm_pool : VpnPool;
  vm_paused : bool;
  vm_refresh_requested : bool;
  vm_rotation_requested : bool;
  vm_pin : option string;
  vm_last_error : option string;
  vm_last_refresh_reason : option string;
  vm_snapshot : option VpnSnapshot;
  vm_events : list VpnEvent;
  (** the calls of [consumer.apply_selected] *)
  vm_applied : list (option VpnProfile)
}.

Definition VpnManager_new (c : VpnToml) : vpn_manager :=
  mkVpnManager c (VpnPool_new (pool_config c)) false false false (vt_pin c) None None None [] [].

Definition set_pool (p : VpnPool) (m : vpn_manager) : vpn_manager :=
  mkVpnManager (vm_config m) p (vm_paused m) (vm_refresh_requested m) (vm_rotation_requested m)
    (vm_pin m) (vm_last_error m) (vm_last_refresh_reason m) (vm_snapshot m) (vm_events m) (vm_applied m).

Definition vpn_emit (e : VpnEvent) (m : vpn_manager) : vpn_manager :=
  mkVpnManager (vm_config m) (vm_pool m) (vm_paused m) (vm_refresh_requested m)
    (vm_rotation_requested m) (vm_pin m) (vm_last_error m) (vm_last_refresh_reason m)
    (vm_snapshot m) (vm_events m ++ [e]) (vm_applied m).

Definition set_error (e : option string) (m : vpn_manager) : vpn_manager :=
  mkVpnManager (vm_config m) (vm_pool m) (vm_paused m) (vm_refresh_requested m)
    (vm_rotation_requested m) (vm_pin m) e (vm_last_refresh_reason m)
    (vm_snapshot m) (vm_events m) (vm_applied m).

Definition set_refresh_reason (r : option string) (m : vpn_manager) : vpn_manager :=
  mkVpnManager (vm_config m) (vm_pool m) (vm_paused m) (vm_refresh_requested m)
    (vm_rotation_requested m) (vm_pin m) (vm_last_error m) r
    (vm_snapshot m) (vm_events m) (vm_applied m).

Definition set_requests (refresh rotation : bool) (m : vpn_manager) : vpn_manager :=
  mkVpnManager (vm_config m) (vm_pool m) (vm_paused m) refresh rotation (vm_pin m) (vm_last_error m)
    (vm_last_refresh_reason m) (vm_snapshot m) (vm_events m) (vm_applied m).

Definition apply_selected (p : option VpnProfile) (m : vpn_manager) : vpn_manager :=
  mkVpnManager (vm_config m) (vm_pool m) (vm_paused m) (vm_refresh_requested m)
    (vm_rotation_requested m) (vm_pin m) (vm_last_error m) (vm_last_refresh_reason m)
    (vm_snapshot m) (vm_events m) (vm_applied m ++ [p]).

(** The control handle. *)
Definition vpn_set_paused (b : bool) (m : vpn_manager) : vpn_manager :=
  mkVpnManager (vm_config m) (vm_pool m) b (vm_refresh_requested m) (vm_rotation_requested m)
    (vm_pin m) (vm_last_error m) (vm_last_refresh_reason m) (vm_snapshot m) (vm_events m) (vm_applied m).
Definition request_refresh (m : vpn_manager) : vpn_manager :=
  set_requests true (vm_rotation_requested m) m.
Definition request_rotation (m : vpn_manager) : vpn_manager :=
  set_requests (vm_refresh_requested m) true m.
Definition set_pin (pin : option string) (m : vpn_manager) : vpn_manager :=
  mkVpnManager (vm_config m) (vm_pool m) (vm_paused m) (vm_refresh_requested m)
    (vm_rotation_requested m) pin (vm_last_error m) (vm_last_refresh_reason m) (vm_snapshot m)
    (vm_events m) (vm_applied m).

(** ** The world of a tick *)

(** What [curl] did: its exit status and output. *)
Record curl_output := mkCurl { co_success : bool; co_stdout : list Z; co_stderr : list Z }.

Record vpn_world := mkVpnWorld {
  w_now_ms : Z;
  (** the file of manual profiles, empty when unreadable *)
  w_manual : string;
  w_metadata : string -> string + Z;
  w_file : string -> string + string;
  w_curl : string -> string + curl_output;
  w_connect : string -> option Z;
  w_l2 : string -> endpoint_net;
  (** the two clock readings of [observe], and whether the probe task completes *)
  w_instants : string -> Z * Z;
  w_completes : string -> bool
}.

(** ** Refresh *)

Definition reqwest_lite (w : vpn_world) (url : string) : string + string :=
  match w_curl w url with
  | inl e => inl e
  | inr out =>
      if negb (co_success out)
      then inl ("subscription fetch failed: " +:+ string_of_bytes (Text.utf8_lossy (co_stderr out)))
      else if Text.utf8_valid (co_stdout out) then inr (string_of_bytes (co_stdout out))
      else inl "subscription is not UTF-8"%string
  end.

Definition fetch_subscription (w : vpn_world) (url : string) : string + string :=
  if negb (starts_with url "https://") && negb (starts_with url "http://")
  then inl ("subscription URL must be http(s): " +:+ url)
  else reqwest_lite w url.

Definition is_path (s : string) : bool :=
  starts_with s "/" || starts_with s "./" || starts_with s "../".

Definition read_local (w : vpn_world) (local : string) : string + string :=
  let trimmed := utrim local in
  if is_path trimmed then
    match w_metadata w trimmed with
    | inl e => inl ("stat local source " +:+ trimmed +:+ ": " +:+ e)
    | inr n =>
        if 1024 * 1024 <? n
        then inl ("local source " +:+ trimmed +:+ " is " +:+ pretty n +:+ " bytes (max 1 MiB)")
        else
          match w_file w trimmed with
          | inl e => inl ("read local source " +:+ trimmed +:+ ": " +:+ e)
          | inr s => inr s
          end
    end
  else inr local.

(** The body to import and its label. *)
Definition subscription_body (c : VpnToml) (w : vpn_world) : string + string * string :=
  let manual := w_manual w in
  let body := if is_empty_str manual then EmptyString else manual +:+ String newline EmptyString in
  match match vt_local_source c with
        | Some local =>
            match read_local w local with inl e => inl e | inr s => inr (s, "local"%string) end
        | None => inr (body, EmptyString)
        end with
  | inl e => inl e
  | inr (body, label) =>
      match vt_source_url c with
      | Some url =>
          if is_empty_str body then
            match fetch_subscription w url with inl e => inl e | inr s => inr (s, url) end
          else inr (body, label)
      | None => inr (body, label)
      end
  end.

Definition refresh (w : vpn_world) (m : vpn_manager) : vpn_manager * (string + Z) :=
  match subscription_body (vm_config m) w with
  | inl e => (m, inl e)
  | inr (body, label) =>
      let result := import_subscription body label (w_now_ms w) in
      match im_profiles result with
      | [] => (m, inl ("no valid profiles in source (" +:+ pretty (len (im_rejected result)) +:+ " rejected)"))
      | _ =>
          match atomic_replace (vm_pool m) (im_profiles result) with
          | (p, inl e) => (set_pool p m, inl e)
          | (p, inr n) =>
              let reason := "refreshed " +:+ pretty n +:+ " profiles from " +:+ label +:+ " (" +:+
                pretty (len (im_rejected result)) +:+ " rejected, " +:+
                pretty (im_duplicates_skipped result) +:+ " dupes)" in
              (vpn_emit (VpnPoolUpdated (u32 n) label)
                 (set_refresh_reason (Some reason) (set_error None (set_pool p m))), inr n)
          end
      end
  end.

(** ** Selection *)

Section Manager.
Context (reason_text : rotation_reason -> string).

(** The operator's rotation: the first profile that is not the active one. *)
Definition manual_rotate (now : Z) (pool : VpnPool) : VpnPool :=
  match active pool with
  | Some cur =>
      match List.find (fun id => negb (String.eqb id cur)) (map pid (profiles pool)) with
      | Some next => (force_rotate_to pool next "manual rotation" now).1
      | None => pool
      end
  | None => pool
  end.

(** The state of a pinned profile; a pin without profile counts as failed. *)
Definition pin_alive (pool : VpnPool) (pinned : string) : bool :=
  match find_profile (profiles pool) pinned with
  | Some p => match ph_state (health p) with PFailed | PCooldown => false | _ => true end
  | None => false
  end.

Definition apply_pin (now : Z) (pin : option string) (pool : VpnPool) : VpnPool * bool :=
  match pin with
  | None => (pool, false)
  | Some pinned =>
      let alive := pin_alive pool pinned in
      (if alive && negb (bool_decide (active pool = Some pinned))
       then (force_rotate_to pool pinned "operator pin" now).1 else pool, alive)
  end.

Definition selection_cycle (now : Z) (m : vpn_manager) : vpn_manager :=
  let active_before := active (vm_pool m) in
  let pool := if vm_rotation_requested m then manual_rotate now (vm_pool m) else vm_pool m in
  let m := set_requests (vm_refresh_requested m) false m in
  let '(pool, pinned) := apply_pin now (vm_pin m) pool in
  let pool := if pinned then pool else (maybe_planned_rotate pool now).1 in
  let pool := if pinned then pool else (select_for pool now).1 in
  let m := set_pool pool m in
  let m := apply_selected (profile <$> (active pool ≫= find_profile (profiles pool))) m in
  if bool_decide (active pool = active_before) then m
  else
    match active pool with
    | Some id =>
        vpn_emit (VpnActiveChanged id
          (from_option reason_text "pool selection"%string (sn_last_rotation_reason (snapshot pool now)))) m
    | None => m
    end.

(** ** Health *)

(** The sample of one profile: the connect, then the protocol gate for profiles with a
    server name. *)
Definition profile_sample (w : vpn_world) (p : VpnProfile) : PathSample :=
  let sample := tcp_probe (w_connect w) (server p) (port p) in
  match sni p with
  | Some s =>
      if reachable sample then
        match l2_tls_probe (w_l2 w) (endpoint_addr (server p) (port p)) (bytes_of_string s) with
        | Alive => sample
        | _ => PathSample_failure
        end
      else sample
  | None => sample
  end.

Definition observe_one (w : vpn_world) (pool : VpnPool) (p : VpnProfile) : VpnPool :=
  if w_completes w (profile_id p) then
    let '(now, now') := w_instants w (profile_id p) in
    (observe_health pool (profile_id p) (profile_sample w p) (w_now_ms w) now now').1
  else pool.

Definition health_cycle (w : vpn_world) (m : vpn_manager) : vpn_manager :=
  set_pool (fold_left (observe_one w) (map profile (profiles (vm_pool m))) (vm_pool m)) m.

(** ** Publication and the loop *)

Definition publish_snapshot (now : Z) (m : vpn_manager) : vpn_manager :=
  let snap := snapshot (vm_pool m) now in
  let vpn := mkVpnSnapshot (negb (vm_paused m)) (vm_paused m) (sn_profiles snap) (sn_active snap)
    (reason_text <$> sn_last_rotation_reason snap) (sn_last_rotation_ms snap)
    (vm_last_refresh_reason m) (vm_last_error m) now in
  mkVpnManager (vm_config m) (vm_pool m) (vm_paused m) (vm_refresh_requested m)
    (vm_rotation_requested m) (vm_pin m) (vm_last_error m) (vm_last_refresh_reason m) (Some vpn)
    (vm_events m) (vm_applied m).

Record vpn_loop := mkVpnLoop {
  vl_manager : vpn_manager;
  vl_last_refresh : Z;
  vl_last_health : Z;
  vl_last_selection : Z
}.

Definition due (now last secs : Z) : bool := secs * 1000 <=? i64 (now - last).

Definition vpn_start (w : vpn_world) (m : vpn_manager) : vpn_loop :=
  let m :=
    match refresh w m with
    | (m, inr _) => m
    | (m, inl e) => set_error (Some ("initial refresh: " +:+ e)) m
    end in
  mkVpnLoop m (w_now_ms w) (w_now_ms w) (w_now_ms w).

Definition vpn_tick (w : vpn_world) (l : vpn_loop) : vpn_loop :=
  let '(mkVpnLoop m last_refresh last_health last_selection) := l in
  let c := vm_config m in
  let now := w_now_ms w in
  if vm_paused m then mkVpnLoop (publish_snapshot now m) last_refresh last_health last_selection
  else
    let requested := vm_refresh_requested m in
    let m := set_requests false (vm_rotation_requested m) m in
    let '(m, last_refresh) :=
      if requested || due now last_refresh (default 3600 (vt_refresh_interval_secs c)) then
        match refresh w m with
        | (m, inr _) => (m, now)
        | (m, inl e) => (vpn_emit (VpnPoolError e) (set_error (Some ("refresh: " +:+ e)) m), last_refresh)
        end
      else (m, last_refresh) in
    let '(m, last_health) :=
      if due now last_health (default 30 (vt_health_interval_secs c)) then (health_cycle w m, now)
      else (m, last_health) in
    let '(m, last_selection) :=
      if due now last_selection (default 10 (vt_selection_interval_secs c)) then (selection_cycle now m, now)
      else (m, last_selection) in
    mkVpnLoop (publish_snapshot now m) last_refresh last_health last_selection.
End Manager.

(** ** What the manager keeps *)

Definition pool_keeps (op : pool_op) : Prop := match op with OpReplace _ => False | _ => True end.

(** The pool moved by selections, samples and rotations only. *)
Definition pool_moves (p p' : VpnPool) : Prop :=
  exists ops, Forall pool_keeps ops /\ p' = fold_left pool_step ops p.

Lemma moves_refl p : pool_moves p p.
Proof. by exists []. Qed.

Lemma moves_step p p' op : pool_keeps op -> pool_moves p p' -> pool_moves p (pool_step p' op).
Proof.
  intros Ho (ops & H & ->). exists (ops ++ [op]). rewrite fold_left_app. split; [|done].
  apply Forall_app. by repeat constructor.
Qed.

Record pool_inv (c : VpnToml) (p : VpnPool) : Prop := {
  pi_ok : pool_ok (pool_config c) p;
  pi_ids : List.NoDup (ids (map profile (profiles p)));
  pi_usable : Forall usable (map profile (profiles p))
}.

Lemma moves_inv c p p' : pool_moves p p' -> pool_inv c p -> pool_inv c p'.
Proof.
  intros (ops & H & ->). revert p. induction H as [|op ops Ho _ IH]; intros p Hp; [done|].
  cbn [fold_left]. apply IH. destruct Hp as [H1 H2 H3]. split.
  - by apply pool_step_ok.
  - by rewrite step_profiles.
  - by rewrite step_profiles.
Qed.

Record vpn_inv (c : VpnToml) (m : vpn_manager) : Prop := {
  vi_config : vm_config m = c;
  vi_pool : pool_inv c (vm_pool m);
  vi_applied : Forall (from_option usable True) (vm_applied m)
}.

(** ** One cycle *)

(** The profile a cycle runs: a live pin, or the best profile, or none when every profile
    is failed or cooling down. *)
Definition chosen (pin : option string) (now : Z) (pool : VpnPool) (told : option VpnProfile) : Prop :=
  match pin with
  | Some pinned =>
      if pin_alive pool pinned
      then exists p, find_profile (profiles pool) pinned = Some p /\ told = Some (profile p)
      else if forallb (unusable (p_config pool) now) (profiles pool) then told = None
      else exists p, best_of (p_config pool) now (profiles pool) p /\ told = Some (profile p)
  | None =>
      if forallb (unusable (p_config pool) now) (profiles pool) then told = None
      else exists p, best_of (p_config pool) now (profiles pool) p /\ told = Some (profile p)
  end.

Lemma find_profile_nodup l p :
  List.NoDup (map pid l) -> In p l -> find_profile l (pid p) = Some p.
Proof.
  unfold find_profile. induction l as [|q l IH]; [done|]. cbn [map List.find In].
  intros [Hq Hn]%List.NoDup_cons_iff [->|Hp]; [by rewrite String.eqb_refl|].
  destruct (String.eqb_spec (pid q) (pid p)) as [E|]; [|by apply IH].
  destruct Hq. rewrite E. by apply in_map.
Qed.

Lemma find_profile_map l l' id :
  map profile l' = map profile l ->
  profile <$> find_profile l' id = profile <$> find_profile l id.
Proof.
  unfold find_profile. revert l'. induction l as [|p l IH]; intros [|q l'] [=]; [done|].
  cbn [List.find]. unfold pid at 1 3. rewrite H0. case_match; [cbn; by rewrite H0|]. by apply IH.
Qed.

Lemma manual_moves now p : pool_moves p (manual_rotate now p) /\
  p_config (manual_rotate now p) = p_config p /\
  Forall2 same_but_selected (profiles (manual_rotate now p)) (profiles p).
Proof.
  unfold manual_rotate. destruct (active p) as [cur|]; [|split; [apply moves_refl|split; [done|apply same_but_selected_refl]]].
  destruct (List.find _ _) as [next|]; [|split; [apply moves_refl|split; [done|apply same_but_selected_refl]]].
  split; [|apply force_rotate_same].
  apply (moves_step _ _ (OpForce next "manual rotation" now)); [done|apply moves_refl].
Qed.

Lemma pin_alive_same p p' pinned :
  Forall2 same_but_selected (profiles p') (profiles p) -> pin_alive p' pinned = pin_alive p pinned.
Proof.
  unfold pin_alive, find_profile. induction 1 as [|a b l k (H1 & H2 & _) _ IH]; [done|].
  cbn [List.find]. unfold pid. rewrite H1. destruct (String.eqb _ _); [by rewrite H2|done].
Qed.

Lemma best_chosen now pool pool' :
  List.NoDup (map pid (profiles pool)) ->
  Forall2 same_but_selected (profiles pool') (profiles pool) -> p_config pool' = p_config pool ->
  let sel := (select_for pool' now).1 in
  let told := profile <$> (active sel ≫= find_profile (profiles sel)) in
  if forallb (unusable (p_config pool) now) (profiles pool) then told = None
  else exists p, best_of (p_config pool) now (profiles pool) p /\ told = Some (profile p).
Proof.
  intros Hn Hs Hc sel told. unfold told, sel.
  rewrite (select_for_same pool' pool now Hc Hs).
  pose proof (select_for_spec pool now) as Hsel. destruct (select_for pool now) as [s dec].
  cbn [fst]. destruct Hsel as [_ Hsel]. destruct (forallb _ _); [by destruct Hsel as [-> _]|].
  destruct Hsel as (p & Hb & -> & _). exists p. split; [done|]. cbn [mbind option_bind].
  assert (Hm : map profile (profiles (select_for pool' now).1) = map profile (profiles pool)).
  { etransitivity; [by apply (step_profiles pool' (OpSelect now))|]. clear -Hs.
    induction Hs as [|a b l k (H1 & _) _ IH]; [done|]. cbn. congruence. }
  rewrite (find_profile_map _ _ _ Hm), find_profile_nodup; [done|done|]. by destruct Hb.
Qed.

Lemma apply_pin_alive now pinned pool :
  pin_alive pool pinned = true ->
  let pool' := (apply_pin now (Some pinned) pool).1 in
  active pool' = Some pinned /\ pool_moves pool pool'.
Proof.
  intros Ha. unfold apply_pin. rewrite Ha. cbn [andb fst].
  case_bool_decide as E; cbn [negb]; [split; [done|apply moves_refl]|].
  assert (Hh : has_profile (profiles pool) pinned = true).
  { unfold pin_alive in Ha. unfold has_profile. destruct (find_profile _ _) as [p|] eqn:F; [|done].
    apply List.find_some in F as [Hp Hi]. apply existsb_exists. by exists p. }
  split; [unfold force_rotate_to; by rewrite Hh|].
  apply (moves_step _ _ (OpForce pinned "operator pin" now)); [done|apply moves_refl].
Qed.

Lemma moves_profiles p p' : pool_moves p p' -> map profile (profiles p') = map profile (profiles p).
Proof.
  intros (ops & H & ->). revert p. induction H as [|op ops Ho _ IH]; intros p; [done|].
  cbn [fold_left]. by rewrite IH, step_profiles.
Qed.

Lemma moves_trans p p' p'' : pool_moves p p' -> pool_moves p' p'' -> pool_moves p p''.
Proof.
  intros (o1 & H1 & ->) (o2 & H2 & ->). exists (o1 ++ o2). rewrite fold_left_app.
  split; [by apply Forall_app|done].
Qed.

Lemma planned_same now pool :
  p_config (maybe_planned_rotate pool now).1 = p_config pool /\
  profiles (maybe_planned_rotate pool now).1 = profiles pool.
Proof.
  destruct (maybe_planned_rotate_inv pool now) as [[-> _]|(cur & p & s & H)]; [done|].
  by destruct H as (_ & _ & _ & _ & _ & _ & ->).
Qed.

(** The pool a cycle ends with. *)
Definition cycle_pool (now : Z) (rotate : bool) (pin : option string) (pool : VpnPool) : VpnPool :=
  let pool := if rotate then manual_rotate now pool else pool in
  let '(pool, pinned) := apply_pin now pin pool in
  if pinned then pool else (select_for (maybe_planned_rotate pool now).1 now).1.

Lemma cycle_pool_chosen now rotate pin pool :
  List.NoDup (map pid (profiles pool)) ->
  let pool' := cycle_pool now rotate pin pool in
  pool_moves pool pool' /\ Forall2 same_but_selected (profiles pool') (profiles pool) /\
  chosen pin now pool (profile <$> (active pool' ≫= find_profile (profiles pool'))).
Proof.
  intros Hn. unfold cycle_pool.
  set (p1 := if rotate then manual_rotate now pool else pool).
  assert (H1 : pool_moves pool p1 /\ p_config p1 = p_config pool /\
    Forall2 same_but_selected (profiles p1) (profiles pool)).
  { unfold p1. destruct rotate; [apply manual_moves|].
    split; [apply moves_refl|split; [done|apply same_but_selected_refl]]. }
  destruct H1 as (M1 & C1 & S1). clearbody p1.
  destruct (planned_same now p1) as [C2 P2].
  assert (M2 : pool_moves pool (select_for (maybe_planned_rotate p1 now).1 now).1).
  { apply (moves_step _ _ (OpSelect now)); [done|]. by apply (moves_step _ _ (OpRotate now)). }
  assert (B : if forallb (unusable (p_config pool) now) (profiles pool)
    then profile <$> (active (select_for (maybe_planned_rotate p1 now).1 now).1 ≫=
           find_profile (profiles (select_for (maybe_planned_rotate p1 now).1 now).1)) = None
    else exists p, best_of (p_config pool) now (profiles pool) p /\
      profile <$> (active (select_for (maybe_planned_rotate p1 now).1 now).1 ≫=
           find_profile (profiles (select_for (maybe_planned_rotate p1 now).1 now).1)) = Some (profile p)).
  { apply best_chosen; [done|by rewrite P2|by rewrite C2]. }
  assert (S2 : Forall2 same_but_selected (profiles (select_for (maybe_planned_rotate p1 now).1 now).1)
    (profiles pool)).
  { eapply same_but_selected_trans; [apply select_for_keeps|]. by rewrite P2. }
  unfold chosen. destruct pin as [pinned|]; [|done].
  rewrite <- (pin_alive_same _ _ pinned S1).
  destruct (pin_alive p1 pinned) eqn:Ea.
  - destruct (apply_pin_alive now pinned p1 Ea) as [Hact Hm]. cbv zeta in Hact, Hm.
    unfold apply_pin in *. rewrite Ea in *. cbn [fst] in Hact, Hm.
    pose proof (moves_trans _ _ _ M1 Hm) as Hmt. split; [exact Hmt|]. split.
    { eapply same_but_selected_trans; [|exact S1].
      destruct (true && _); [apply force_rotate_same|apply same_but_selected_refl]. }
    rewrite Hact. cbn [mbind option_bind]. rewrite (find_profile_map _ _ _ (moves_profiles _ _ Hmt)).
    assert (Hf : profile <$> find_profile (profiles p1) pinned = profile <$> find_profile (profiles pool) pinned)
      by (apply find_profile_map; by apply moves_profiles).
    unfold pin_alive in Ea. destruct (find_profile (profiles p1) pinned); [|done].
    destruct (find_profile (profiles pool) pinned) as [q|]; [|done]. by exists q.
  - unfold apply_pin. rewrite Ea. cbn [andb]. done.
Qed.

Lemma selection_cycle_spec reason_text now m :
  List.NoDup (map pid (profiles (vm_pool m))) ->
  let m' := selection_cycle reason_text now m in
  pool_moves (vm_pool m) (vm_pool m') /\ vm_config m' = vm_config m /\
  Forall2 same_but_selected (profiles (vm_pool m')) (profiles (vm_pool m)) /\
  exists told, vm_applied m' = vm_applied m ++ [told] /\ chosen (vm_pin m) now (vm_pool m) told /\
    told = profile <$> (active (vm_pool m') ≫= find_profile (profiles (vm_pool m'))).
Proof.
  intros Hn m'.
  destruct (cycle_pool_chosen now (vm_rotation_requested m) (vm_pin m) (vm_pool m) Hn) as (Hm & Hs & Hc).
  assert (E : vm_pool m' = cycle_pool now (vm_rotation_requested m) (vm_pin m) (vm_pool m) /\
    vm_config m' = vm_config m /\
    vm_applied m' = vm_applied m ++
      [profile <$> (active (vm_pool m') ≫= find_profile (profiles (vm_pool m')))]).
  { unfold m', selection_cycle, cycle_pool. cbn [vm_pin set_requests].
    destruct (apply_pin _ _ _) as [pool pinned]. cbv zeta.
    set (pool' := if pinned then _ else (select_for _ now).1).
    set (x := apply_selected _ _).
    assert (Hx : forall y, y = x \/ (exists e, y = vpn_emit e x) ->
      vm_pool y = pool' /\ vm_config y = vm_config m /\
      vm_applied y = vm_applied m ++ [profile <$> (active pool' ≫= find_profile (profiles pool'))])
      by (by intros y [->|[e ->]]).
    assert (Hp : pool' = if pinned then pool else (select_for (maybe_planned_rotate pool now).1 now).1)
      by (unfold pool'; by destruct pinned).
    rewrite <- Hp. edestruct Hx as (-> & Hy & Hz); [|split; [done|split; [exact Hy|exact Hz]]].
    case_bool_decide; [by left|]. destruct (active pool'); [right; by eexists|by left]. }
  destruct E as (-> & -> & ->). do 3 (split; [done|]). eexists. split; [reflexivity|]. split; [exact Hc|reflexivity].
Qed.

(** ** Refresh, health and ticks *)

Lemma import_nonempty_inv c p body label ts :
  pool_ok (pool_config c) p ->
  im_profiles (import_subscription body label ts) <> [] ->
  pool_inv c (atomic_replace p (im_profiles (import_subscription body label ts))).1.
Proof.
  intros Hok Hne. destruct (import_usable body label ts) as [Hu Hn]. cbv zeta in Hu, Hn.
  set (ps := im_profiles _) in *. clearbody ps.
  assert (Hm : map profile (profiles (atomic_replace p ps).1) = ps).
  { destruct ps as [|q ps]; [done|]. cbn [atomic_replace fst profiles]. rewrite map_map. cbn [profile].
    apply map_id. }
  split; [by apply (pool_step_ok _ _ (OpReplace ps))|by rewrite Hm|by rewrite Hm].
Qed.

(** A refresh that fails keeps the pool; one that succeeds installs the imported profiles. *)
Lemma refresh_cases w m :
  let '(m', r) := refresh w m in
  vm_config m' = vm_config m /\ vm_applied m' = vm_applied m /\ vm_pin m' = vm_pin m /\
  match r with
  | inl _ => vm_pool m' = vm_pool m
  | inr _ => exists body label, subscription_body (vm_config m) w = inr (body, label) /\
      im_profiles (import_subscription body label (w_now_ms w)) <> [] /\
      vm_pool m' = (atomic_replace (vm_pool m) (im_profiles (import_subscription body label (w_now_ms w)))).1
  end.
Proof.
  unfold refresh. destruct (subscription_body _ w) as [e|[body label]]; [done|].
  set (r := import_subscription body label (w_now_ms w)).
  destruct (im_profiles r) as [|q ps] eqn:Ei; [done|].
  destruct (atomic_replace (vm_pool m) (q :: ps)) as [p [e|n]] eqn:Er; [discriminate|].
  do 3 (split; [done|]). exists body, label. fold r. rewrite Ei. split; [done|]. split; [done|].
  by rewrite Er.
Qed.

Lemma refresh_inv c w m : vpn_inv c m -> vpn_inv c (refresh w m).1.
Proof.
  intros [H1 H2 H3]. pose proof (refresh_cases w m) as H. destruct (refresh w m) as [m' r].
  destruct H as (E1 & E2 & _ & Hr). cbn [fst]. split; [congruence| |by rewrite E2].
  destruct r as [e|n]; [by rewrite Hr|]. destruct Hr as (body & label & _ & Hne & ->).
  apply import_nonempty_inv; [apply H2|done].
Qed.

Lemma health_moves w m : pool_moves (vm_pool m) (vm_pool (health_cycle w m)).
Proof.
  unfold health_cycle. cbn [vm_pool set_pool]. generalize (map profile (profiles (vm_pool m))).
  intros ps. assert (H : forall q, pool_moves (vm_pool m) q ->
    pool_moves (vm_pool m) (fold_left (observe_one w) ps q)); [|apply H, moves_refl].
  induction ps as [|p ps IH]; intros q Hq; cbn [fold_left]; [done|]. apply IH.
  unfold observe_one. destruct (w_completes w _); [|done]. destruct (w_instants w _) as [t t'].
  by apply (moves_step _ _ (OpObserve (profile_id p) (profile_sample w p) (w_now_ms w) t t')).
Qed.

Section Loop.
Context (reason_text : rotation_reason -> string).

Inductive vpn_input :=
| VpnTick (w : vpn_world) | VpnPause (b : bool) | VpnRefresh | VpnRotate | VpnPin (pin : option string).

Definition on_manager (f : vpn_manager -> vpn_manager) (l : vpn_loop) : vpn_loop :=
  mkVpnLoop (f (vl_manager l)) (vl_last_refresh l) (vl_last_health l) (vl_last_selection l).

Definition vpn_step (l : vpn_loop) (i : vpn_input) : vpn_loop :=
  match i with
  | VpnTick w => vpn_tick reason_text w l
  | VpnPause b => on_manager (vpn_set_paused b) l
  | VpnRefresh => on_manager request_refresh l
  | VpnRotate => on_manager request_rotation l
  | VpnPin pin => on_manager (set_pin pin) l
  end.

(** What a tick does to the pool and the consumer: the decision is about the pool as the
    tick leaves it, the times of selection apart. *)
Record tick_effect (c : VpnToml) (w : vpn_world) (m m' : vpn_manager) : Prop := {
  te_config : vm_config m' = vm_config m;
  te_told : vm_applied m' = vm_applied m \/
    exists pool told, pool_inv c pool /\ vm_applied m' = vm_applied m ++ [told] /\
      Forall2 same_but_selected (profiles (vm_pool m')) (profiles pool) /\
      chosen (vm_pin m) (w_now_ms w) pool told /\
      told = profile <$> (active (vm_pool m') ≫= find_profile (profiles (vm_pool m')));
  te_pool : pool_inv c (vm_pool m')
}.

Lemma told_usable c pin now pool told :
  pool_inv c pool -> chosen pin now pool told -> from_option usable True told.
Proof.
  intros [_ _ Hu] Hc. rewrite List.Forall_forall in Hu.
  assert (Hb : (if forallb (unusable (p_config pool) now) (profiles pool) then told = None
     else exists p, best_of (p_config pool) now (profiles pool) p /\ told = Some (profile p)) ->
     from_option usable True told).
  { destruct (forallb _ _); [by intros ->|]. intros (p & [Hp _] & ->). apply Hu. by apply in_map. }
  destruct pin as [pinned|]; cbn in Hc; [|by apply Hb].
  destruct (pin_alive pool pinned); [|by apply Hb]. destruct Hc as (p & Hf & ->).
  apply Hu, in_map. by apply List.find_some in Hf as [? _].
Qed.

Lemma tick_effect_of c w l :
  vpn_inv c (vl_manager l) -> tick_effect c w (vl_manager l) (vl_manager (vpn_tick reason_text w l)).
Proof.
  destruct l as [m lr lh ls]. cbn [vl_manager]. intros [Hcfg Hp Ha]. unfold vpn_tick.
  destruct (vm_paused m); [by split; [|left|]|].
  set (m0 := set_requests false (vm_rotation_requested m) m).
  set (a := if _ || due _ lr _ then _ else (m0, lr)).
  assert (HA : vm_config a.1 = vm_config m /\ vm_applied a.1 = vm_applied m /\ vm_pin a.1 = vm_pin m /\
    pool_inv c (vm_pool a.1)).
  { unfold a. destruct (_ || due _ _ _); [|done].
    pose proof (refresh_cases w m0) as H. assert (Hi : vpn_inv c m0) by (by split).
    pose proof (refresh_inv c w m0 Hi) as [_ Hq _].
    destruct (refresh w m0) as [m1 [e|n]]; destruct H as (E1 & E2 & E3 & _); done. }
  clearbody a. destruct a as [m1 lr1]. cbn [fst] in HA. destruct HA as (A1 & A2 & A3 & A4).
  set (b := if due _ lh _ then _ else (m1, lh)).
  assert (HB : vm_config b.1 = vm_config m /\ vm_applied b.1 = vm_applied m /\ vm_pin b.1 = vm_pin m /\
    pool_inv c (vm_pool b.1)).
  { unfold b. destruct (due _ lh _); [|done]. cbn [fst].
    split; [done|]. split; [done|]. split; [done|]. by apply (moves_inv _ _ _ (health_moves w m1)). }
  clearbody b. destruct b as [m2 lh1]. cbn [fst] in HB. destruct HB as (B1 & B2 & B3 & B4).
  destruct (due _ ls _); cbn [vl_manager].
  - assert (Hn : List.NoDup (map pid (profiles (vm_pool m2)))).
    { destruct B4 as [_ Hn _]. unfold ids in Hn. by rewrite map_map in Hn. }
    destruct (selection_cycle_spec reason_text (w_now_ms w) m2 Hn) as (Hm & Hc & Hs & told & Ht & Hch & Hto).
    split.
    + change (vm_config (publish_snapshot ?r ?n ?x)) with (vm_config x). congruence.
    + right. exists (vm_pool m2), told. split; [done|].
      split; [|split; [exact Hs|split; [by rewrite <- B3|exact Hto]]].
      change (vm_applied (publish_snapshot ?r ?n ?x)) with (vm_applied x). by rewrite Ht, B2.
    + by apply (moves_inv _ _ _ Hm).
  - split; [done|by left|done].
Qed.

Lemma vpn_step_inv c l i : vpn_inv c (vl_manager l) -> vpn_inv c (vl_manager (vpn_step l i)).
Proof.
  intros H. destruct i as [w|b| | |pin]; [|destruct H; by split..].
  cbn [vpn_step]. destruct (tick_effect_of c w l H) as [E1 E2 E3]. destruct H as [H1 H2 H3].
  split; [congruence|done|]. destruct E2 as [->|(pool & told & Hp & -> & _ & Hc & _)]; [done|].
  apply Forall_app. split; [done|]. constructor; [|done]. exact (told_usable c _ _ _ _ Hp Hc).
Qed.

Lemma vpn_start_inv c w0 : vpn_inv c (vl_manager (vpn_start w0 (VpnManager_new c))).
Proof.
  assert (Hn : vpn_inv c (VpnManager_new c)).
  { split; [done| |constructor]. split; [by split|constructor|constructor]. }
  pose proof (refresh_inv c w0 _ Hn) as Hr. unfold vpn_start.
  destruct (refresh w0 (VpnManager_new c)) as [m [e|n]]; [|done]. destruct Hr. by split.
Qed.

(** C12.  The pool decides and only validated profiles run.  Over every history of ticks,
    whatever the files, the network and the clock do, and of operator actions, the pool
    stays consistent with distinct, usable profiles, everything ever handed to the
    consumer is a usable profile or the stop signal, and a tick hands over nothing or one
    decision: the pinned profile while it is alive, otherwise the best profile that is
    neither failed nor cooling down, or stop when there is none; a requested or planned
    rotation never changes that decision. *)
Theorem vpn_manager_decides c w0 inputs :
  let l := fold_left vpn_step inputs (vpn_start w0 (VpnManager_new c)) in
  vpn_inv c (vl_manager l) /\
  forall w, tick_effect c w (vl_manager l) (vl_manager (vpn_tick reason_text w l)).
Proof.
  intros l. assert (H : vpn_inv c (vl_manager l)).
  { unfold l. assert (H0 : vpn_inv c (vl_manager (vpn_start w0 (VpnManager_new c)))).
    { apply vpn_start_inv. }
    clear l. revert H0. generalize (vpn_start w0 (VpnManager_new c)).
    induction inputs as [|i inputs IH]; intros l0 H0; [done|]. cbn [fold_left].
    apply IH. by apply vpn_step_inv. }
  split; [done|]. intros w. by apply tick_effect_of.
Qed.
End Loop.

(** ** The file of manual profiles (balansir-vpn/src/lib.rs) *)

(** The file operations, each with its error text. *)
Class ManualFile (F : Type) := {
  mf_read : F -> string + string;
  mf_mkdir : F -> F * (string + ());
  mf_open : F -> F * (string + ());
  mf_append : string -> F -> F * (string + ());
  mf_write : string -> F -> F * (string + ())
}.

Definition MANUAL_PROFILES_PATH : string := "/persistent/balansir/manual-vpn.txt".

Section ManualProfiles.
Context {F : Type} {file : ManualFile F}.

Definition read_manual_profiles (f : F) : string :=
  match mf_read f with inr s => s | inl _ => EmptyString end.

Definition append_manual_profile (uri : string) (f : F) : F * (string + ()) :=
  let uri := utrim uri in
  if negb (starts_with uri "vless://") then (f, inl "only vless:// URIs are supported"%string)
  else if 4096 <? Z.of_nat (String.length uri) then (f, inl "URI too long (max 4096 bytes)"%string)
  else
    match mf_mkdir f with
    | (f, inl e) => (f, inl ("mkdir /persistent/balansir: " +:+ e))
    | (f, inr _) =>
        if existsb (fun l => String.eqb (utrim l) uri) (lines (read_manual_profiles f)) then (f, inr ())
        else
          match mf_open f with
          | (f, inl e) => (f, inl ("open " +:+ MANUAL_PROFILES_PATH +:+ ": " +:+ e))
          | (f, inr _) =>
              match mf_append (uri +:+ String newline EmptyString) f with
              | (f, inl e) => (f, inl ("write " +:+ MANUAL_PROFILES_PATH +:+ ": " +:+ e))
              | (f, inr _) => (f, inr ())
              end
          end
    end.

Definition remove_manual_profile (needle : string) (f : F) : F * (string + bool) :=
  let existing := read_manual_profiles f in
  if is_empty_str existing then (f, inr false)
  else
    let kept := List.filter (fun l => negb (contains l needle)) (str_lines existing) in
    if len kept <? len (str_lines existing) then
      match mf_write (join_with (String newline EmptyString) kept +:+ String newline EmptyString) f with
      | (f, inl e) => (f, inl ("write: " +:+ e))
      | (f, inr _) => (f, inr true)
      end
    else (f, inr false).
End ManualProfiles.

(** A file that works, by its text. *)
Class ManualFileOk (F : Type) {file : ManualFile F} := {
  mf_text : F -> string;
  mf_read_ok : forall f, mf_read f = inr (mf_text f) \/
    (mf_text f = EmptyString /\ exists e, mf_read f = inl e);
  mf_mkdir_ok : forall f, exists f', mf_mkdir f = (f', inr ()) /\ mf_text f' = mf_text f;
  mf_open_ok : forall f, exists f', mf_open f = (f', inr ()) /\ mf_text f' = mf_text f;
  mf_append_ok : forall s f, exists f', mf_append s f = (f', inr ()) /\ mf_text f' = mf_text f +:+ s;
  mf_write_ok : forall s f, exists f', mf_write s f = (f', inr ()) /\ mf_text f' = s
}.

Section ManualOk.
Context {F : Type} {file : ManualFile F} {file_ok : ManualFileOk F}.

Lemma read_manual_text f : read_manual_profiles f = mf_text f.
Proof.
  unfold read_manual_profiles. destruct (mf_read_ok f) as [->|(-> & e & ->)]; done.
Qed.

(** What an accepted URI does: the file lists it, whole lines stay whole lines, and a
    second request changes nothing. *)
Lemma append_listed uri f :
  starts_with (utrim uri) "vless://" = true -> Z.of_nat (String.length (utrim uri)) <= 4096 ->
  exists f', append_manual_profile uri f = (f', inr ()) /\
    (if existsb (fun l => String.eqb (utrim l) (utrim uri)) (lines (mf_text f))
     then mf_text f' = mf_text f
     else mf_text f' = mf_text f +:+ utrim uri +:+ String newline EmptyString).
Proof.
  intros Hs Hl. unfold append_manual_profile. rewrite Hs. cbn [negb].
  rewrite (proj2 (Z.ltb_ge _ _) Hl). destruct (mf_mkdir_ok f) as (f1 & -> & T1).
  rewrite read_manual_text, T1. destruct (existsb _ _); [by exists f1|].
  destruct (mf_open_ok f1) as (f2 & -> & T2).
  destruct (mf_append_ok (utrim uri +:+ String newline EmptyString) f2) as (f3 & -> & T3).
  exists f3. split; [done|]. by rewrite T3, T2, T1.
Qed.

(** After a removal no line has the needle, whatever the file was, and the file is whole
    lines. *)
Lemma remove_clears needle f f' :
  remove_manual_profile needle f = (f', inr true) ->
  well_ended (mf_text f') = true /\
  mf_text f' = join_with (String newline EmptyString)
    (List.filter (fun l => negb (contains l needle)) (str_lines (mf_text f))) +:+ String newline EmptyString.
Proof.
  unfold remove_manual_profile. rewrite read_manual_text.
  destruct (is_empty_str (mf_text f)); [done|]. destruct (_ <? _); [|done].
  match goal with |- context [mf_write ?s f] => destruct (mf_write_ok s f) as (f1 & -> & T1) end.
  intros [= <-]. rewrite T1. split; [apply well_ended_newline|done].
Qed.
End ManualOk.

(** The body of a refresh that has manual profiles and no local source. *)
Lemma manual_body c w :
  vt_local_source c = None -> w_manual w <> EmptyString ->
  subscription_body c w = inr (w_manual w +:+ String newline EmptyString, EmptyString).
Proof.
  intros Hl Hm. unfold subscription_body. rewrite Hl. destruct (w_manual w) as [|ch s]; [done|].
  change (is_empty_str (String ch s)) with false. cbv iota. destruct (vt_source_url c); [|done].
  rewrite string_app_cons. done.
Qed.

Lemma refresh_keeps c w m body label p :
  vm_config m = c -> subscription_body c w = inr (body, label) ->
  (exists l, In l (content_lines body) /\ parse_line l label (w_now_ms w) = inr p) ->
  exists m' n, refresh w m = (m', inr n) /\ In (profile_id p) (map pid (profiles (vm_pool m'))).
Proof.
  intros <- Hb (l & Hl & Hp). unfold refresh. rewrite Hb.
  pose proof (import_lines_ok label (w_now_ms w) (lines body) [] _ (import_start label (w_now_ms w))) as H.
  cbn [app] in H. fold (content_lines body) in H. destruct H as [_ _ H _ _].
  specialize (H l p Hl Hp). revert H. unfold import_subscription.
  set (r := fold_left _ _ _). cbn [im_profiles im_rejected im_duplicates_skipped].
  unfold ids. rewrite <- (sort_by_perm by_id (im_profiles r)).
  destruct (sort_by by_id (im_profiles r)) as [|q qs]; [by intros []|]. intros Hin.
  cbn [atomic_replace]. eexists _, _. split; [reflexivity|].
  cbn [vpn_emit set_refresh_reason set_error set_pool vm_pool profiles].
  by rewrite map_map.
Qed.

(** A share link the operator adds is in the text a refresh imports. *)
Lemma appended_line p t t' :
  runnable p -> well_ended t = true ->
  (if existsb (fun l => String.eqb (utrim l) (share_link p)) (lines t) then t' = t
   else t' = t +:+ share_link p +:+ String newline EmptyString) ->
  well_ended t' = true /\ t' <> EmptyString /\
  In (share_link p) (content_lines (t' +:+ String newline EmptyString)).
Proof.
  intros R Hw H.
  assert (Hg : all_chars graph (share_link p) = true) by (by apply print_uri_graph, link_uri_wf).
  assert (Hc : forall l s, In l (lines s) -> utrim l = share_link p -> In (share_link p) (content_lines s)).
  { intros l s Hl E. apply filter_In. split; [|done]. rewrite <- E. by apply in_map. }
  destruct (existsb _ _) eqn:X.
  - subst t'. apply existsb_exists in X as (l & Hl & E%String.eqb_eq). split; [done|].
    split; [by intros ->|]. apply (Hc l); [|done]. by apply lines_newline_in.
  - subst t'. split; [rewrite <- string_app_assoc; apply well_ended_newline|]. split.
    { destruct t; [|done]. by change (EmptyString +:+ ?x) with x. }
    apply (Hc (share_link p)); [|by apply utrim_graph]. rewrite string_app_assoc.
    destruct (well_ended_lines t ((share_link p +:+ String newline EmptyString) +:+ String newline EmptyString) Hw)
      as [l ->].
    apply in_app_iff. right. apply lines_newline_in.
    change (share_link p +:+ String newline EmptyString) with (unlines [share_link p]).
    fold (lines (unlines [share_link p])).
    rewrite lines_unlines by (constructor; [by apply graph_no_newline|constructor]). by left.
Qed.

(** A profile the operator adds by hand reaches the pool: the share link of any
    runnable profile is accepted, the file keeps whole lines, and every later refresh of a
    manager without a local source succeeds and leaves that profile in the pool, whatever
    the network and the subscription do. *)
Theorem manual_profile_reaches_pool {F} `{ManualFileOk F} p (f : F) m :
  runnable p -> well_ended (mf_text f) = true -> vt_local_source (vm_config m) = None ->
  exists f', append_manual_profile (share_link p) f = (f', inr ()) /\ well_ended (mf_text f') = true /\
    forall w, w_manual w = read_manual_profiles f' ->
      exists m' n, refresh w m = (m', inr n) /\ In (profile_id p) (map pid (profiles (vm_pool m'))).
Proof.
  intros R Hw Hl.
  assert (Hg : utrim (share_link p) = share_link p)
    by (by apply utrim_graph, print_uri_graph, link_uri_wf).
  destruct (append_listed (share_link p) f) as (f' & Ha & Ht).
  { by rewrite Hg. }
  { rewrite Hg. apply R. }
  rewrite Hg in Ht. destruct (appended_line p _ _ R Hw Ht) as (Hw' & Hne & Hin).
  exists f'. split; [done|]. split; [done|]. intros w Hm. rewrite read_manual_text in Hm.
  rewrite <- Hm in Hin, Hne. pose proof (parse_share_link p EmptyString (w_now_ms w) R) as Hp.
  match type of Hp with _ = inr ?q => change (profile_id p) with (profile_id q) end.
  eapply refresh_keeps; [reflexivity|by apply manual_body|]. by exists (share_link p).
Qed.

(** A file in memory. *)
Module MemFile.
#[global] Instance mem_file : ManualFile string := {|
  mf_read := fun f => inr f;
  mf_mkdir := fun f => (f, inr ());
  mf_open := fun f => (f, inr ());
  mf_append := fun s f => (f +:+ s, inr ());
  mf_write := fun s _ => (s, inr ())
|}.
#[global] Program Instance mem_file_ok : ManualFileOk string := {| mf_text := fun f => f |}.
Solve All Obligations with first [by left|by intros; eexists].
End MemFile.

Definition idle_config : VpnToml :=
  mkVpnToml (Some "https://sub.example/list"%string) None None None None None
    (mkPoolToml None None None None None).

Definition idle_world (manual : string) : vpn_world :=
  mkVpnWorld 1000 manual (fun _ => inl "none"%string) (fun _ => inl "none"%string)
    (fun _ => inl "no curl"%string) (fun _ => None)
    (fun _ => mkEndpoint NotConnected false (fun _ => ReadFailed)) (fun _ => (0, 0)) (fun _ => false).

Lemma manual_profile_reaches_pool_witness :
  exists f', append_manual_profile (share_link reality_profile) EmptyString = (f', inr ()) /\
    well_ended (mf_text f') = true /\
    forall w, w_manual w = read_manual_profiles f' ->
      exists m' n, refresh w (VpnManager_new idle_config) = (m', inr n) /\
        In (profile_id reality_profile) (map pid (profiles (vm_pool m'))).
Proof.
  apply (manual_profile_reaches_pool reality_profile EmptyString (VpnManager_new idle_config));
    [run_fields|reflexivity|reflexivity].
Defined.

(** ** Where the manager differs from its comments *)

Definition with_manual (text : string) (w : vpn_world) : vpn_world :=
  mkVpnWorld (w_now_ms w) text (w_metadata w) (w_file w) (w_curl w) (w_connect w) (w_l2 w)
    (w_instants w) (w_completes w).

(** "Always prepended so they survive atomic_replace": a local source replaces them. *)
Lemma local_source_drops_manual c w text local :
  vt_local_source c = Some local -> subscription_body c (with_manual text w) = subscription_body c w.
Proof. intros H. unfold subscription_body. by rewrite H. Qed.

Definition with_curl (curl : string -> string + curl_output) (w : vpn_world) : vpn_world :=
  mkVpnWorld (w_now_ms w) (w_manual w) (w_metadata w) (w_file w) curl (w_connect w) (w_l2 w)
    (w_instants w) (w_completes w).

(** With one manual profile the subscription is never fetched again. *)
Lemma manual_stops_subscription c w curl :
  vt_local_source c = None -> w_manual w <> EmptyString ->
  subscription_body c (with_curl curl w) = subscription_body c w.
Proof. intros Hl Hm. by rewrite !manual_body. Qed.

(** The profile id, which the API takes, is a hash that the link does not have: nothing is
    removed; a text all links have removes every profile. *)
Lemma removal_by_id_misses :
  let file := unlines (map share_link [reality_profile; ws_profile]) in
  remove_manual_profile (profile_id reality_profile) file = (file, inr false) /\
  remove_manual_profile "vless" file = (String newline EmptyString, inr true).
Proof. split; vm_compute; reflexivity. Qed.

(** The pin is compared with the id only. *)
Lemma pin_by_label_ignored label pool :
  Forall (fun p => pid p <> label) (profiles pool) -> pin_alive pool label = false.
Proof.
  intros H. unfold pin_alive, find_profile. induction H as [|p l Hp _ IH]; [done|]. cbn [List.find].
  destruct (String.eqb_spec (pid p) label); [done|]. exact IH.
Qed.

(** A failed refresh is due again at the next tick, a second later. *)
Lemma failed_refresh_retried reason_text w l e :
  vm_paused (vl_manager l) = false ->
  (refresh w (set_requests false (vm_rotation_requested (vl_manager l)) (vl_manager l))).2 = inl e ->
  vl_last_refresh (vpn_tick reason_text w l) = vl_last_refresh l.
Proof.
  destruct l as [m lr lh ls]. cbn [vl_manager vl_last_refresh]. intros Hp Hr. unfold vpn_tick. rewrite Hp.
  destruct (refresh w _) as [m' r] in Hr |- *. cbn [snd] in Hr. subst r.
  by destruct (_ || _), (due _ lh _), (due _ ls _).
Qed.

(** When no profile is left the event stream is silent. *)
Lemma stop_without_event reason_text now m :
  active (vm_pool (selection_cycle reason_text now m)) = None ->
  vm_events (selection_cycle reason_text now m) = vm_events m.
Proof.
  unfold selection_cycle. destruct (apply_pin _ _ _) as [pool pinned].
  generalize (if pinned then if pinned then pool else (maybe_planned_rotate pool now).1
    else (select_for (if pinned then pool else (maybe_planned_rotate pool now).1) now).1).
  intros p. destruct (bool_decide _); [done|]. cbv zeta.
  destruct (active p) as [id|] eqn:E; [|done].
  cbn [vpn_emit apply_selected set_pool vm_pool]. congruence.
Qed.

(** Pausing is documented as "traffic stays direct", but it only stops the decisions: the
    consumer is told nothing and keeps the profile it runs. *)
Lemma pause_keeps_profile_running reason_text w l :
  vm_paused (vl_manager l) = true ->
  vm_applied (vl_manager (vpn_tick reason_text w l)) = vm_applied (vl_manager l).
Proof. destruct l as [m lr lh ls]. cbn. by intros ->. Qed.
