(* ===== verification/Xray.v ===== *)
(** * The Xray driver (balansir-daemon/src/xray.rs, secrets.rs)

    The endpoint configuration with its validation, the runtime configuration generated
    for the [xray] process, the bridge from a pool profile (vpn_manager.rs), and the
    driver that writes the secret file and owns the process.  A [serde_json::Value] is
    [json]; its maps are ordered by key, as in the library without [preserve_order].  The
    text encoder and decoder of JSON and the host (files, processes, the local port) are
    parameters. *)

From stdpp Require Import pretty.
From S2P Require Import Prelude F64 Health VpnPool Types IpText Text VpnImport Errors Nftables.
#[local] Open Scope Z_scope.

#[local] Notation "'let?' x ':=' m 'in' k" := (sum_bind m (fun x => k))
  (at level 10, x name, m at level 100, k at level 200).

(** ** JSON values *)

#[local] Set Warnings "-register-all".

Inductive json :=
| JNull
| JBool (b : bool)
| JInt (n : Z)
| JFloat (x : f64)
| JStr (s : string)
| JArr (l : list json)
| JObj (m : list (string * json)).

(** [Map::insert] *)
Fixpoint jinsert (k : string) (v : json) (m : list (string * json)) : list (string * json) :=
  match m with
  | [] => [(k, v)]
  | (k', v') :: m' =>
      match String.compare k k' with
      | Lt => (k, v) :: m
      | Eq => (k, v) :: m'
      | Gt => (k', v') :: jinsert k v m'
      end
  end.

Definition jmap (l : list (string * json)) : list (string * json) :=
  fold_left (fun m '(k, v) => jinsert k v m) l [].

(** ** Configuration *)

Inductive XrayTransport :=
| XTcp
| XWebSocket (path : string) (host : option string)
| XGrpc (service_name : string)
| XHttpUpgrade (path : string) (host : option string)
| XXhttp (path : string) (host mode extra : option string).

Record XrayTls := mkXrayTls {
  xt_server_name : string;
  xt_pinned_peer_cert_sha256 : option string;
  xt_verify_peer_cert_by_name : option string;
  xt_allow_insecure : bool
}.

Record XrayReality := mkXrayReality {
  xr_server_name : string;
  xr_fingerprint : string;
  xr_public_key : string;
  xr_short_id : string;
  xr_spider_x : string
}.

Inductive XraySecurity :=
| XSecurityNone
| XTls (tls : XrayTls)
| XReality (r : XrayReality).

Record XrayConfig := mkXrayConfig {
  xc_server : string;
  xc_port : Z;
  xc_uuid : string;
  xc_flow : option string;
  xc_transport : XrayTransport;
  xc_security : XraySecurity;
  xc_name : option string;
  xc_socks_port : Z;
  xc_http_port : Z;
  xc_geo_domains : list string
}.

Definition blank (s : string) : bool := is_empty_str (utrim s).

(** An error, or a check that passes. *)
Definition invalid (b : bool) (msg : string) : DriverError + () :=
  if b then inl (ConfigInvalid msg) else inr ().

Definition validate_transport (t : XrayTransport) : DriverError + () :=
  match t with
  | XWebSocket path _ | XHttpUpgrade path _ | XXhttp path _ _ _ =>
      invalid (negb (starts_with path "/"))
        ("xray transport path " +:+ debug_str path +:+ " must start with '/'")
  | XGrpc service_name => invalid (blank service_name) "xray grpc service_name must not be empty"
  | XTcp => inr ()
  end.

(** The hint of the message. *)
Definition allow_insecure_message : string :=
  "xray tls allow_insecure is not supported by Xray " +:+ string_of_bytes [0xe2; 0x89; 0xa5] +:+
  "26; migrate to pinned_peer_cert_sha256 (and/or verify_peer_cert_by_name)".

Definition validate_security (s : XraySecurity) : DriverError + () :=
  match s with
  | XSecurityNone => inr ()
  | XTls tls =>
      let? _ := invalid (blank (xt_server_name tls)) "xray tls server_name must not be empty" in
      invalid (xt_allow_insecure tls) allow_insecure_message
  | XReality r =>
      let? _ := invalid (blank (xr_server_name r)) "xray reality server_name must not be empty" in
      let? _ := invalid (blank (xr_public_key r)) "xray reality public_key must not be empty" in
      invalid (blank (xr_fingerprint r)) "xray reality fingerprint must not be empty"
  end.

Definition xray_validate (c : XrayConfig) : DriverError + () :=
  let? _ := invalid (blank (xc_server c) || (253 <? Z.of_nat (String.length (xc_server c))))
              "xray server address missing or too long" in
  let? _ := invalid ((xc_port c =? 0) || (xc_socks_port c =? 0) || (xc_http_port c =? 0))
              "xray ports must be non-zero" in
  let? _ := invalid (xc_socks_port c =? xc_http_port c)
              "xray socks and http inbound ports must differ" in
  let? _ := validate_transport (xc_transport c) in
  validate_security (xc_security c).

Definition transport_network (t : XrayTransport) : string :=
  match t with
  | XTcp => "tcp"
  | XWebSocket _ _ => "ws"
  | XGrpc _ => "grpc"
  | XHttpUpgrade _ _ => "httpupgrade"
  | XXhttp _ _ _ _ => "xhttp"
  end.

(** ** The runtime configuration *)

Section Generate.
(** [serde_json::from_str::<Value>] *)
Context (from_str : string -> option json).

(** Insert a text unless it is absent or empty. *)
Definition insert_text (k : string) (o : option string) (m : list (string * json)) :
    list (string * json) :=
  match o with
  | Some s => if is_empty_str s then m else jinsert k (JStr s) m
  | None => m
  end.

(** Insert a text unless it is absent or blank. *)
Definition insert_unless_blank (k : string) (o : option string) (m : list (string * json)) :
    list (string * json) :=
  match o with
  | Some s => if blank s then m else jinsert k (JStr s) m
  | None => m
  end.

Definition security_settings (s : XraySecurity) : string * option (list (string * json)) :=
  match s with
  | XSecurityNone => ("none"%string, None)
  | XTls tls =>
      let settings := jinsert "serverName" (JStr (xt_server_name tls)) [] in
      let settings := insert_unless_blank "pinnedPeerCertSha256" (xt_pinned_peer_cert_sha256 tls) settings in
      let settings := insert_unless_blank "verifyPeerCertByName" (xt_verify_peer_cert_by_name tls) settings in
      ("tls"%string, Some settings)
  | XReality r =>
      let settings := jinsert "serverName" (JStr (xr_server_name r)) [] in
      let settings := jinsert "fingerprint" (JStr (xr_fingerprint r)) settings in
      let settings := jinsert "publicKey" (JStr (xr_public_key r)) settings in
      let settings := insert_text "shortId" (Some (xr_short_id r)) settings in
      let settings := insert_text "spiderX" (Some (xr_spider_x r)) settings in
      ("reality"%string, Some settings)
  end.

Definition insert_transport (t : XrayTransport) (stream : list (string * json)) : list (string * json) :=
  match t with
  | XWebSocket path host =>
      let ws := jmap [("path"%string, JStr path)] in
      let ws :=
        match host with
        | Some h => if is_empty_str h then ws else jinsert "headers" (JObj (jmap [("Host"%string, JStr h)])) ws
        | None => ws
        end in
      jinsert "wsSettings" (JObj ws) stream
  | XGrpc service_name =>
      jinsert "grpcSettings" (JObj (jmap [("serviceName"%string, JStr service_name)])) stream
  | XHttpUpgrade path host =>
      jinsert "httpupgradeSettings" (JObj (insert_text "host" host (jmap [("path"%string, JStr path)]))) stream
  | XXhttp path host mode extra =>
      let xh := insert_text "mode" mode (insert_text "host" host (jinsert "path" (JStr path) [])) in
      let xh :=
        match extra with
        | Some e =>
            if is_empty_str e then xh
            else match from_str e with Some parsed => jinsert "extra" parsed xh | None => xh end
        | None => xh
        end in
      jinsert "xhttpSettings" (JObj xh) stream
  | XTcp => stream
  end.

Definition stream_settings (c : XrayConfig) : list (string * json) :=
  let stream := jinsert "network" (JStr (transport_network (xc_transport c))) [] in
  let '(security, settings) := security_settings (xc_security c) in
  let stream := jinsert "security" (JStr security) stream in
  let stream :=
    match settings with
    | Some settings =>
        let key := if String.eqb security "reality" then "realitySettings"%string else "tlsSettings"%string in
        jinsert key (JObj settings) stream
    | None => stream
    end in
  insert_transport (xc_transport c) stream.

Definition generate_value (c : XrayConfig) : json :=
  let user :=
    insert_text "flow" (xc_flow c)
      (jinsert "encryption" (JStr "none") (jinsert "id" (JStr (xc_uuid c)) [])) in
  let vless :=
    JObj (jmap [("protocol", JStr "vless"); ("tag", JStr "proxy");
      ("settings", JObj (jmap [("vnext", JArr [JObj (jmap [("address", JStr (xc_server c));
         ("port", JInt (xc_port c)); ("users", JArr [JObj user])])])]));
      ("streamSettings", JObj (stream_settings c))]%string) in
  let direct := JObj (jmap [("protocol", JStr "freedom"); ("tag", JStr "direct")]%string) in
  JObj (jmap [
    ("log", JObj (jmap [("loglevel", JStr "warning")]));
    ("inbounds", JArr [
       JObj (jmap [("listen", JStr "127.0.0.1"); ("port", JInt (xc_socks_port c));
         ("protocol", JStr "socks"); ("settings", JObj (jmap [("udp", JBool true)]))]);
       JObj (jmap [("listen", JStr "127.0.0.1"); ("port", JInt (xc_http_port c));
         ("protocol", JStr "http")])]);
    ("outbounds", JArr (match xc_geo_domains c with [] => [vless] | _ => [direct; vless] end));
    ("dns", JObj (jmap [("queryStrategy", JStr "UseIP")]));
    ("routing", JObj (jmap [
       ("rules", JArr [JObj (jmap [("type", JStr "field");
          ("domain", JArr (map JStr (xc_geo_domains c))); ("outboundTag", JStr "proxy")])]);
       ("domainStrategy", JStr "IPIfNonMatch")]))]%string).

(** The text of the fallback, with [q] for the quotes. *)
Definition fallback_config : string :=
  let q s := String dquote (s +:+ String dquote EmptyString) in
  "{" +:+ q "log" +:+ ":{}," +:+ q "inbounds" +:+ ":[]," +:+ q "outbounds" +:+ ":[]}".

Definition generate_config (to_string_pretty : json -> option string) (c : XrayConfig) : string :=
  default fallback_config (to_string_pretty (generate_value c)).
End Generate.

(** ** From a pool profile *)

Definition xray_transport (t : Transport) : XrayTransport :=
  match t with
  | Tcp => XTcp
  | WebSocket path host => XWebSocket path host
  | Grpc service_name => XGrpc service_name
  | HttpUpgrade path host => XHttpUpgrade path host
  | Xhttp path host mode extra => XXhttp path host mode extra
  end.

Definition xray_security (p : VpnProfile) : string + XraySecurity :=
  let server_name := default (server p) (sni p) in
  match security p with
  | SecurityNone => inr XSecurityNone
  | Tls => inr (XTls (mkXrayTls server_name (pinned_peer_cert_sha256 p) None false))
  | Reality =>
      match reality_pbk p with
      | None => inl "reality profile missing public key"%string
      | Some pbk =>
          inr (XReality (mkXrayReality server_name (default "chrome"%string (fingerprint p)) pbk
            (default EmptyString (reality_sid p)) EmptyString))
      end
  end.

(** The name under which a profile runs. *)
Definition pool_name (p : VpnProfile) : string := p_label p +:+ " @ " +:+ endpoint p.

Definition profile_to_xray_config (p : VpnProfile) (fallback_socks fallback_http : Z) :
    string + XrayConfig :=
  match xray_security p with
  | inl e => inl e
  | inr security =>
      inr (mkXrayConfig (server p) (port p) (uuid p) (flow p) (xray_transport (transport p)) security
        (Some (pool_name p)) fallback_socks fallback_http [])
  end.

(** ** The driver *)

Definition RUNTIME_DIR : string := "/run/balansir".
(** 0o600 *)
Definition SECRET_MODE : Z := 6 * 8 * 8.

(** What the driver uses of the host. *)
Class XrayHost (W : Type) := {
  h_mkdir : string -> W -> W * (string + ());
  h_write_file : string -> string -> W -> W * (string + ());
  h_chmod : string -> Z -> W -> W * (string + ());
  h_file_len : string -> W -> option Z;
  h_remove_file : string -> W -> W;
  h_resolve_bin : string -> W -> option string;
  (** program, arguments, environment *)
  h_spawn : string -> list string -> list (string * string) -> W -> W * (string + Z);
  h_kill : Z -> W -> W * (string + ());
  h_wait : Z -> W -> W * (string + ());
  (** [kill(pid, 0) == 0] *)
  h_signal0 : Z -> W -> bool;
  (** a connection to a local port within 750 ms *)
  h_connect : Z -> W -> bool
}.

Definition secret_path (id name : string) : string :=
  RUNTIME_DIR +:+ "/" +:+ name +:+ "-" +:+ id +:+ ".json".

(** A text of [n] NUL bytes. *)
Definition zeros (n : Z) : string := string_of_bytes (repeat 0 (Z.to_nat n)).

Record XrayDriver := mkDriver {
  xd_id : DriverId;
  xd_config : XrayConfig;
  xd_health : HealthStatus;
  xd_config_path : option string;
  xd_child : option Z
}.

Definition XrayDriver_new (id : DriverId) (c : XrayConfig) : XrayDriver :=
  mkDriver id c HsUnknown None None.

Section Driver.
Context {W : Type} {host : XrayHost W}.
Context (from_str : string -> option json) (to_string_pretty : json -> option string).

Definition write_secret (id name contents : string) (w : W) : W * (DriverError + string) :=
  let path := secret_path id name in
  match h_mkdir RUNTIME_DIR w with
  | (w, inl e) => (w, inl (StartFailed ("mkdir: " +:+ e)))
  | (w, inr _) =>
      match h_write_file path contents w with
      | (w, inl e) => (w, inl (StartFailed ("write secret: " +:+ e)))
      | (w, inr _) =>
          match h_chmod path SECRET_MODE w with
          | (w, inl e) => (w, inl (StartFailed ("chmod secret: " +:+ e)))
          | (w, inr _) => (w, inr path)
          end
      end
  end.

Definition remove_secret (path : string) (w : W) : W :=
  let w :=
    match h_file_len path w with
    | Some n =>
        if 0 <? n then (h_write_file path EmptyString (h_write_file path (zeros n) w).1).1 else w
    | None => w
    end in
  h_remove_file path w.

Definition start_process (config_path : string) (d : XrayDriver) (w : W) :
    W * XrayDriver * (DriverError + ()) :=
  match match h_resolve_bin "xray" w with Some b => Some b | None => h_resolve_bin "xray-core" w end with
  | None => (w, d, inl (BinaryNotFound "xray"))
  | Some bin =>
      match h_spawn bin ["run"; "-c"; config_path]%string
              [("GOMEMLIMIT", "48MiB"); ("GOGC", "30")]%string w with
      | (w, inl e) => (w, d, inl (StartFailed ("Failed to start xray: " +:+ e)))
      | (w, inr pid) =>
          (w, mkDriver (xd_id d) (xd_config d) (xd_health d) (Some config_path) (Some pid), inr ())
      end
  end.

Definition stop_process (d : XrayDriver) (w : W) : W * XrayDriver * (DriverError + ()) :=
  let d' := mkDriver (xd_id d) (xd_config d) (xd_health d) (xd_config_path d) None in
  let remove w :=
    match xd_config_path d with
    | Some path => (h_remove_file path w,
                    mkDriver (xd_id d) (xd_config d) (xd_health d) None None, inr ())
    | None => (w, d', inr ())
    end in
  match xd_child d with
  | Some pid =>
      match h_kill pid w with
      | (w, inl e) => (w, d', inl (StopFailed ("Failed to kill xray: " +:+ e)))
      | (w, inr _) =>
          match h_wait pid w with
          | (w, inl e) => (w, d', inl (StopFailed ("Failed to wait xray: " +:+ e)))
          | (w, inr _) => remove w
          end
      end
  | None => remove w
  end.

(** [Drop] *)
Definition xray_drop (d : XrayDriver) (w : W) : W :=
  match xd_child d with
  | Some pid => (h_wait pid (h_kill pid w).1).1
  | None => w
  end.

Definition set_health (h : HealthStatus) (d : XrayDriver) : XrayDriver :=
  mkDriver (xd_id d) (xd_config d) h (xd_config_path d) (xd_child d).

Definition xray_start (d : XrayDriver) (w : W) : W * XrayDriver * (DriverError + ()) :=
  match xray_validate (xd_config d) with
  | inl e => (w, d, inl e)
  | inr _ =>
      match write_secret (pretty (as_u32 (xd_id d))) "xray"
              (generate_config from_str to_string_pretty (xd_config d)) w with
      | (w, inl e) => (w, d, inl e)
      | (w, inr path) =>
          match start_process path d w with
          | (w, d, inl e) => (w, d, inl e)
          | (w, d, inr _) => (w, set_health HsHealthy d, inr ())
          end
      end
  end.

Definition xray_stop (d : XrayDriver) (w : W) : W * XrayDriver * (DriverError + ()) :=
  match stop_process d w with
  | (w, d, inl e) => (w, d, inl e)
  | (w, d, inr _) =>
      (remove_secret (secret_path (pretty (as_u32 (xd_id d))) "xray") w, set_health HsUnknown d, inr ())
  end.

Definition xray_restart (d : XrayDriver) (w : W) : W * XrayDriver * (DriverError + ()) :=
  match xray_stop d w with
  | (w, d, inl e) => (w, d, inl e)
  | (w, d, inr _) => xray_start d w
  end.

Definition xray_health_check (d : XrayDriver) (w : W) : HealthStatus :=
  match xd_child d with
  | Some pid =>
      if h_signal0 pid w then
        if h_connect (xc_socks_port (xd_config d)) w then HsHealthy else HsDegraded 2
      else HsUnhealthy 1
  | None => HsUnhealthy 1
  end.
End Driver.

(** ** Reading a runtime configuration

    What an [xray] process takes from the generated value: the reference against which the
    generator is checked. *)

Fixpoint jlookup (k : string) (m : list (string * json)) : option json :=
  match m with
  | [] => None
  | (k', v) :: m => if String.eqb k k' then Some v else jlookup k m
  end.

Definition jget (k : string) (v : json) : option json :=
  match v with JObj m => jlookup k m | _ => None end.
Definition jtext (v : json) : option string := match v with JStr s => Some s | _ => None end.
Definition jnumber (v : json) : option Z := match v with JInt n => Some n | _ => None end.
Definition jitems (v : json) : option (list json) := match v with JArr l => Some l | _ => None end.
Definition jonly (v : json) : option json := match v with JArr [x] => Some x | _ => None end.

(** A transport as the process runs it: the opaque options are a value. *)
Record runtime_transport := mkRuntimeTransport {
  rt_kind : XrayTransport;
  rt_extra : option json
}.

(** A local proxy: where it listens, its protocol, and whether it relays UDP. *)
Record inbound := mkInbound {
  in_listen : string;
  in_port : Z;
  in_protocol : string;
  in_udp : bool
}.

Record vless_endpoint := mkVlessEndpoint {
  ve_address : string;
  ve_port : Z;
  ve_id : string;
  ve_encryption : string;
  ve_flow : option string;
  ve_transport : runtime_transport;
  ve_security : XraySecurity
}.

(** Where traffic can go: straight out, or through a tunnel. *)
Inductive outbound :=
| OFreedom (tag : string)
| OVless (tag : string) (e : vless_endpoint).

(** Traffic to the domains leaves by the outbound with the tag. *)
Record domain_rule := mkDomainRule {
  rl_domains : list string;
  rl_outbound : string
}.

(** The first outbound takes the traffic no rule matches. *)
Record runtime := mkRuntime {
  rt_inbounds : list inbound;
  rt_outbounds : list outbound;
  rt_rules : list domain_rule;
  rt_domain_strategy : string;
  rt_query_strategy : string;
  rt_loglevel : string
}.

Definition read_transport (stream : json) : option runtime_transport :=
  network ← jget "network" stream ≫= jtext;
  if String.eqb network "tcp" then Some (mkRuntimeTransport XTcp None)
  else if String.eqb network "ws" then
    s ← jget "wsSettings" stream;
    path ← jget "path" s ≫= jtext;
    Some (mkRuntimeTransport (XWebSocket path ((jget "headers" s ≫= jget "Host") ≫= jtext)) None)
  else if String.eqb network "grpc" then
    s ← jget "grpcSettings" stream;
    service ← jget "serviceName" s ≫= jtext;
    Some (mkRuntimeTransport (XGrpc service) None)
  else if String.eqb network "httpupgrade" then
    s ← jget "httpupgradeSettings" stream;
    path ← jget "path" s ≫= jtext;
    Some (mkRuntimeTransport (XHttpUpgrade path (jget "host" s ≫= jtext)) None)
  else if String.eqb network "xhttp" then
    s ← jget "xhttpSettings" stream;
    path ← jget "path" s ≫= jtext;
    Some (mkRuntimeTransport
      (XXhttp path (jget "host" s ≫= jtext) (jget "mode" s ≫= jtext) None) (jget "extra" s))
  else None.

Definition read_security (stream : json) : option XraySecurity :=
  kind ← jget "security" stream ≫= jtext;
  if String.eqb kind "none" then Some XSecurityNone
  else if String.eqb kind "tls" then
    s ← jget "tlsSettings" stream;
    name ← jget "serverName" s ≫= jtext;
    Some (XTls (mkXrayTls name (jget "pinnedPeerCertSha256" s ≫= jtext)
      (jget "verifyPeerCertByName" s ≫= jtext)
      (match jget "allowInsecure" s with Some (JBool b) => b | _ => false end)))
  else if String.eqb kind "reality" then
    s ← jget "realitySettings" stream;
    name ← jget "serverName" s ≫= jtext;
    fp ← jget "fingerprint" s ≫= jtext;
    key ← jget "publicKey" s ≫= jtext;
    Some (XReality (mkXrayReality name fp key (default EmptyString (jget "shortId" s ≫= jtext))
      (default EmptyString (jget "spiderX" s ≫= jtext))))
  else None.

Definition read_inbound (v : json) : option inbound :=
  listen ← jget "listen" v ≫= jtext;
  port ← jget "port" v ≫= jnumber;
  protocol ← jget "protocol" v ≫= jtext;
  Some (mkInbound listen port protocol
    (match jget "settings" v ≫= jget "udp" with Some (JBool b) => b | _ => false end)).

(** The one server and the one user of a VLESS outbound. *)
Definition read_vless (v : json) : option vless_endpoint :=
  next ← (jget "settings" v ≫= jget "vnext") ≫= jonly;
  user ← jget "users" next ≫= jonly;
  stream ← jget "streamSettings" v;
  address ← jget "address" next ≫= jtext;
  port ← jget "port" next ≫= jnumber;
  id ← jget "id" user ≫= jtext;
  encryption ← jget "encryption" user ≫= jtext;
  transport ← read_transport stream;
  security ← read_security stream;
  Some (mkVlessEndpoint address port id encryption (jget "flow" user ≫= jtext) transport security).

Definition read_outbound (v : json) : option outbound :=
  tag ← jget "tag" v ≫= jtext;
  protocol ← jget "protocol" v ≫= jtext;
  if String.eqb protocol "freedom" then Some (OFreedom tag)
  else if String.eqb protocol "vless" then e ← read_vless v; Some (OVless tag e)
  else None.

Definition read_rule (v : json) : option domain_rule :=
  kind ← jget "type" v ≫= jtext;
  domains ← (jget "domain" v ≫= jitems) ≫= mapM jtext;
  tag ← jget "outboundTag" v ≫= jtext;
  if String.eqb kind "field" then Some (mkDomainRule domains tag) else None.

Definition read_runtime (v : json) : option runtime :=
  inbounds ← (jget "inbounds" v ≫= jitems) ≫= mapM read_inbound;
  outbounds ← (jget "outbounds" v ≫= jitems) ≫= mapM read_outbound;
  routing ← jget "routing" v;
  rules ← (jget "rules" routing ≫= jitems) ≫= mapM read_rule;
  strategy ← jget "domainStrategy" routing ≫= jtext;
  query ← (jget "dns" v ≫= jget "queryStrategy") ≫= jtext;
  level ← (jget "log" v ≫= jget "loglevel") ≫= jtext;
  Some (mkRuntime inbounds outbounds rules strategy query level).

(** What a configuration means: absent and empty options are the same. *)
Definition unless_blank (o : option string) : option string :=
  match o with Some s => if blank s then None else Some s | None => None end.

Definition meant_transport (from_str : string -> option json) (t : XrayTransport) : runtime_transport :=
  match t with
  | XTcp => mkRuntimeTransport XTcp None
  | XWebSocket path host => mkRuntimeTransport (XWebSocket path (nonempty host)) None
  | XGrpc s => mkRuntimeTransport (XGrpc s) None
  | XHttpUpgrade path host => mkRuntimeTransport (XHttpUpgrade path (nonempty host)) None
  | XXhttp path host mode extra =>
      mkRuntimeTransport (XXhttp path (nonempty host) (nonempty mode) None) (nonempty extra ≫= from_str)
  end.

Definition meant_security (s : XraySecurity) : XraySecurity :=
  match s with
  | XTls tls => XTls (mkXrayTls (xt_server_name tls) (unless_blank (xt_pinned_peer_cert_sha256 tls))
                  (unless_blank (xt_verify_peer_cert_by_name tls)) false)
  | s => s
  end.

(** Two local proxies on the loopback address, the tunnel under the tag [proxy] and, only
    with a split-tunnel list, the direct way out before it, which makes it the default; the
    domains of the list go through the tunnel. *)
Definition meant (from_str : string -> option json) (c : XrayConfig) : runtime :=
  let tunnel := OVless "proxy" (mkVlessEndpoint (xc_server c) (xc_port c) (xc_uuid c) "none"
    (nonempty (xc_flow c)) (meant_transport from_str (xc_transport c)) (meant_security (xc_security c))) in
  mkRuntime
    [mkInbound "127.0.0.1" (xc_socks_port c) "socks" true;
     mkInbound "127.0.0.1" (xc_http_port c) "http" false]
    (match xc_geo_domains c with [] => [tunnel] | _ => [OFreedom "direct"; tunnel] end)
    [mkDomainRule (xc_geo_domains c) "proxy"] "IPIfNonMatch" "UseIP" "warning".

Create Rewrite HintDb json.

Lemma jlookup_insert k v m : jlookup k (jinsert k v m) = Some v.
Proof.
  induction m as [|[k' v'] m IH]; cbn [jinsert jlookup]; [by rewrite String.eqb_refl|].
  destruct (String.compare k k') eqn:E; cbn [jlookup]; rewrite ?String.eqb_refl; try done.
  destruct (String.eqb_spec k k') as [->|]; [|done]. by destruct (string_le_refl k').
Qed.

Lemma jlookup_insert_ne k k' v m : k <> k' -> jlookup k (jinsert k' v m) = jlookup k m.
Proof.
  intros Hk. apply String.eqb_neq in Hk as Hb.
  induction m as [|[k1 v1] m IH]; cbn [jinsert jlookup]; [by rewrite Hb|].
  destruct (String.compare k' k1) eqn:E; cbn [jlookup]; rewrite ?Hb; try done.
  - apply String.compare_eq_iff in E. subst k1. by rewrite Hb.
  - by rewrite IH.
Qed.

Lemma jlookup_text k o m :
  jlookup k (insert_text k o m) = match nonempty o with Some s => Some (JStr s) | None => jlookup k m end.
Proof. destruct o as [[|c s]|]; [done| |done]. apply jlookup_insert. Qed.

Lemma jlookup_text_ne k k' o m : k <> k' -> jlookup k (insert_text k' o m) = jlookup k m.
Proof. intros Hk. destruct o as [[|c s]|]; [done| |done]. by apply jlookup_insert_ne. Qed.

Lemma jlookup_blank k o m :
  jlookup k (insert_unless_blank k o m) =
  match unless_blank o with Some s => Some (JStr s) | None => jlookup k m end.
Proof. destruct o as [s|]; [|done]. cbn. destruct (blank s); [done|]. apply jlookup_insert. Qed.

Lemma jlookup_blank_ne k k' o m : k <> k' -> jlookup k (insert_unless_blank k' o m) = jlookup k m.
Proof. intros Hk. destruct o as [s|]; [|done]. cbn. destruct (blank s); [done|]. by apply jlookup_insert_ne. Qed.

#[export] Hint Rewrite jlookup_insert jlookup_text jlookup_blank : json.
#[export] Hint Rewrite jlookup_insert_ne jlookup_text_ne jlookup_blank_ne using discriminate : json.

(** The entries of the stream settings that the transport does not write. *)
Lemma transport_other from_str k t m :
  k <> "wsSettings"%string -> k <> "grpcSettings"%string -> k <> "httpupgradeSettings"%string ->
  k <> "xhttpSettings"%string -> jlookup k (insert_transport from_str t m) = jlookup k m.
Proof. intros. destruct t; cbn [insert_transport]; by rewrite ?jlookup_insert_ne. Qed.

Lemma text_option (o : option string) (d : option json) :
  d = None -> match o with Some s => Some (JStr s) | None => d end ≫= jtext = o.
Proof. intros ->. by destruct o. Qed.

Lemma stream_security from_str c :
  read_security (JObj (stream_settings from_str c)) = Some (meant_security (xc_security c)).
Proof.
  unfold read_security, stream_settings, jget.
  destruct (xc_security c) as [|tls|r]; cbn [security_settings]; cbv zeta iota beta;
    rewrite !transport_other by discriminate; autorewrite with json; cbn [mbind option_bind jtext];
    [done|..].
  - change (String.eqb "tls" "none") with false. change (String.eqb "tls" "tls") with true. cbv iota.
    change (String.eqb "tls" "reality") with false. cbv iota. autorewrite with json.
    cbn [mbind option_bind jtext jlookup]. rewrite !text_option by done. done.
  - change (String.eqb "reality" ?x) with false || change (String.eqb "reality" "reality") with true.
    cbv iota. autorewrite with json.
    cbn [mbind option_bind jtext jlookup]. destruct r as [n f k [|a sid] [|b sp]]; done.
Qed.

Lemma stream_transport from_str c :
  read_transport (JObj (stream_settings from_str c)) = Some (meant_transport from_str (xc_transport c)).
Proof.
  unfold read_transport, stream_settings, jget.
  destruct (security_settings (xc_security c)) as [security settings].
  set (stream := match settings with Some _ => _ | None => _ end).
  assert (Hn : jlookup "network" stream = Some (JStr (transport_network (xc_transport c)))).
  { unfold stream. destruct settings; [|by autorewrite with json].
    destruct (String.eqb security "reality"); by autorewrite with json. }
  clearbody stream. rewrite (transport_other from_str "network") by discriminate. rewrite Hn. cbn [mbind option_bind jtext].
  destruct (xc_transport c) as [|path host|service|path host|path host mode extra];
    cbn [transport_network insert_transport meant_transport]; [done|..].
  all: repeat match goal with |- context [String.eqb ?a ?b] =>
    let r := eval vm_compute in (String.eqb a b) in change (String.eqb a b) with r end; cbv iota.
  all: autorewrite with json; cbn [mbind option_bind jtext jlookup].
  - by destruct host as [[|ch h]|].
  - done.
  - change (jmap [("path"%string, JStr path)]) with (jinsert "path" (JStr path) []).
    autorewrite with json. cbn [mbind option_bind jtext jlookup]. by rewrite text_option.
  - set (xh := insert_text "mode" mode _).
    assert (E : forall k m, k <> "extra"%string ->
      jlookup k match extra with
                | Some e => if is_empty_str e then m else
                    match from_str e with Some parsed => jinsert "extra" parsed m | None => m end
                | None => m end = jlookup k m).
    { intros k m Hk. destruct extra as [e|]; [|done]. destruct (is_empty_str e); [done|].
      destruct (from_str e); [|done]. by apply jlookup_insert_ne. }
    rewrite (E "path"%string), (E "host"%string), (E "mode"%string) by discriminate. unfold xh. autorewrite with json.
    cbn [mbind option_bind jtext jlookup]. rewrite !text_option by done. do 2 f_equal.
    destruct extra as [[|ch e]|]; cbn [is_empty_str nonempty]; [by autorewrite with json| |by autorewrite with json].
    cbn [mbind option_bind]. destruct (from_str (String ch e)); by autorewrite with json.
Qed.

(** The tunnel's outbound, for any user entry and stream settings. *)
Lemma read_tunnel address port user stream :
  read_outbound (JObj (jmap [("protocol", JStr "vless"); ("tag", JStr "proxy");
    ("settings", JObj (jmap [("vnext", JArr [JObj (jmap [("address", JStr address);
       ("port", JInt port); ("users", JArr [user])])])]));
    ("streamSettings", stream)]%string)) =
  (id ← jget "id" user ≫= jtext; encryption ← jget "encryption" user ≫= jtext;
   transport ← read_transport stream; security ← read_security stream;
   Some (OVless "proxy"
     (mkVlessEndpoint address port id encryption (jget "flow" user ≫= jtext) transport security))).
Proof.
  match goal with |- read_outbound ?v = _ => let v' := eval vm_compute in v in change v with v' end.
  unfold read_outbound, read_vless.
  cbn [jget jlookup String.eqb Ascii.eqb Bool.eqb mbind option_bind jtext jonly jnumber].
  destruct (jget "id" user ≫= jtext); [|done]. destruct (jget "encryption" user ≫= jtext); [|done].
  destruct (read_transport stream); [|done]. by destruct (read_security stream).
Qed.

Lemma read_domains (l : list string) : mapM jtext (map JStr l) = Some l.
Proof. induction l as [|d l IH]; [done|]. cbn in *. by rewrite IH. Qed.

(** C25.  The generated configuration means what was configured: for every endpoint an
    [xray] process reads back exactly two inbounds, SOCKS with UDP and HTTP, on the loopback
    address at the configured ports; one tunnel tagged [proxy] with the server, port,
    credentials, flow, transport and security layer with every option; one rule that sends
    the split-tunnel list to [proxy]; and a direct outbound, first and so the default, exactly
    when that list is not empty.  The removed insecure flag is never written. *)
Theorem generated_config_faithful from_str c :
  read_runtime (generate_value from_str c) = Some (meant from_str c).
Proof.
  unfold generate_value, meant. set (user := insert_text "flow" _ _). 
  set (tunnel := JObj (jmap [("protocol"%string, JStr "vless"); _; _; _])).
  assert (Ht : read_outbound tunnel = Some (OVless "proxy" (mkVlessEndpoint (xc_server c) (xc_port c)
    (xc_uuid c) "none" (nonempty (xc_flow c)) (meant_transport from_str (xc_transport c))
    (meant_security (xc_security c))))).
  { unfold tunnel. rewrite read_tunnel. unfold user, jget at 1 2 3. autorewrite with json.
    cbn [mbind option_bind jtext]. rewrite stream_transport, stream_security.
    cbn [mbind option_bind]. do 3 f_equal. by apply text_option. }
  clearbody tunnel user. pose proof (read_domains (xc_geo_domains c)) as Hd.
  set (domains := map JStr (xc_geo_domains c)) in *. clearbody domains.
  destruct (xc_geo_domains c) as [|d l].
  all: match goal with |- read_runtime ?v = _ => let v' := eval vm_compute in v in change v with v' end.
  all: unfold read_runtime, read_rule.
  all: cbn [jget jlookup String.eqb Ascii.eqb Bool.eqb mbind option_bind jtext jitems mapM].
  all: rewrite Hd, Ht; reflexivity.
Qed.

(** ** Which profiles of the pool can run *)

Definition startable (p : VpnProfile) : bool :=
  let named := negb (blank (default (server p) (sni p))) in
  match transport p with Grpc s => negb (blank s) | _ => true end &&
  match security p with
  | SecurityNone => true
  | Tls => named
  | Reality =>
      named && match reality_pbk p with Some k => negb (blank k) | None => false end &&
      negb (blank (default "chrome"%string (fingerprint p)))
  end.

Lemma invalid_bind {A} b msg (k : () -> DriverError + A) r :
  sum_bind (invalid b msg) k = inr r <-> b = false /\ k () = inr r.
Proof. destruct b; cbn; naive_solver. Qed.

Lemma invalid_ok b msg u : invalid b msg = inr u <-> b = false.
Proof. destruct b, u; cbn; naive_solver. Qed.

Lemma valid_host_not_blank s : valid_host s = true -> blank s = false.
Proof. unfold valid_host, blank. by destruct (is_empty_str (utrim s)). Qed.

(** A profile the importer accepts runs exactly when it is startable: the driver accepts
    its configuration, or there is none. *)
Lemma profile_starts_iff p socks http :
  usable p -> Z.of_nat (String.length (server p)) <= 253 -> 0 < socks -> 0 < http -> socks <> http ->
  startable p = true <->
  exists c, profile_to_xray_config p socks http = inr c /\ xray_validate c = inr ().
Proof.
  intros (_ & Hh & Hp & _ & _ & Ht) Hl Hs Hw Hne. unfold profile_to_xray_config.
  assert (V : forall sec, xray_validate (mkXrayConfig (server p) (port p) (uuid p) (flow p)
      (xray_transport (transport p)) sec (Some (pool_name p)) socks http []) = inr () <->
    match transport p with Grpc s => negb (blank s) | _ => true end = true /\
    validate_security sec = inr ()).
  { intros sec. unfold xray_validate. cbn [xc_server xc_port xc_socks_port xc_http_port xc_transport xc_security].
    rewrite !invalid_bind, (valid_host_not_blank _ Hh), (proj2 (Z.ltb_ge _ _) Hl).
    rewrite !(proj2 (Z.eqb_neq _ _)) by lia. cbn [orb].
    destruct (transport p); cbn [xray_transport validate_transport]; rewrite ?Ht; cbn [negb invalid sum_bind].
    all: try (destruct (blank _); cbn [negb invalid sum_bind]); naive_solver. }
  unfold startable, xray_security. rewrite andb_true_iff.
  destruct (security p); [naive_solver|..].
  - split.
    + intros [H1 H2]. eexists. split; [reflexivity|]. apply V. split; [done|]. cbn.
      by destruct (blank _).
    + intros (c & [= <-] & [H1 H2]%V). split; [done|]. cbn in H2. by destruct (blank _).
  - destruct (reality_pbk p) as [k|]; [|rewrite andb_false_r; naive_solver]. split.
    + intros [H1 H2]. eexists. split; [reflexivity|]. apply V. split; [done|]. cbn in *.
      by do 3 destruct (blank _).
    + intros (c & [= <-] & [H1 H2]%V). split; [done|]. cbn in *. by do 3 destruct (blank _).
Qed.

(** Two links the importer accepts and no driver ever runs: gRPC without a service name,
    REALITY without a key. *)
Definition grpc_link : string :=
  "vless://194302fe-9c53@82.40.62.4:443?type=grpc&security=tls&sni=a.example#g".
Definition keyless_link : string :=
  "vless://194302fe-9c53@82.40.62.4:443?security=reality&sni=a.example#r".

Lemma imported_but_never_runs :
  Forall (fun l => exists p, parse_line l "s" 0 = inr p /\ startable p = false) [grpc_link; keyless_link].
Proof. repeat constructor; eexists; split; vm_compute; reflexivity. Qed.

(** ** The life of a driver *)

Class XrayHostOk (W : Type) {host : XrayHost W} := {
  h_files : W -> gmap string string;
  h_procs : W -> gset Z;
  h_mkdir_ok : forall p w, exists w', h_mkdir p w = (w', inr ()) /\ h_files w' = h_files w /\ h_procs w' = h_procs w;
  h_write_ok : forall p c w, exists w', h_write_file p c w = (w', inr ()) /\
    h_files w' = <[p := c]> (h_files w) /\ h_procs w' = h_procs w;
  h_chmod_ok : forall p m w, is_Some (h_files w !! p) ->
    exists w', h_chmod p m w = (w', inr ()) /\ h_files w' = h_files w /\ h_procs w' = h_procs w;
  h_len_ok : forall p w, h_file_len p w = (Z.of_nat ∘ String.length) <$> h_files w !! p;
  h_remove_ok : forall p w, h_files (h_remove_file p w) = delete p (h_files w) /\
    h_procs (h_remove_file p w) = h_procs w;
  h_spawn_ok : forall b a e w, let '(w', r) := h_spawn b a e w in h_files w' = h_files w /\
    match r with inr pid => (pid ∉ h_procs w) /\ h_procs w' = {[pid]} ∪ h_procs w | inl _ => h_procs w' = h_procs w end;
  h_kill_ok : forall pid w, pid ∈ h_procs w ->
    exists w', h_kill pid w = (w', inr ()) /\ h_files w' = h_files w /\ h_procs w' = h_procs w;
  h_wait_ok : forall pid w, pid ∈ h_procs w ->
    exists w', h_wait pid w = (w', inr ()) /\ h_files w' = h_files w /\ h_procs w' = h_procs w ∖ {[pid]}
}.

Section Life.
Context {W : Type} {host : XrayHost W} {host_ok : XrayHostOk W}.
Context (from_str : string -> option json) (to_string_pretty : json -> option string).

Definition driver_secret (d : XrayDriver) : string := secret_path (pretty (as_u32 (xd_id d))) "xray".

Lemma write_secret_ok id name c w :
  exists w', write_secret id name c w = (w', inr (secret_path id name)) /\
    h_files w' = <[secret_path id name := c]> (h_files w) /\ h_procs w' = h_procs w.
Proof.
  unfold write_secret. destruct (h_mkdir_ok RUNTIME_DIR w) as (w1 & -> & F1 & P1).
  destruct (h_write_ok (secret_path id name) c w1) as (w2 & -> & F2 & P2).
  destruct (h_chmod_ok (secret_path id name) SECRET_MODE w2) as (w3 & -> & F3 & P3).
  { rewrite F2, lookup_insert_eq. eauto. }
  exists w3. split; [done|]. split; congruence.
Qed.

Lemma remove_secret_ok p w :
  h_files (remove_secret p w) = delete p (h_files w) /\ h_procs (remove_secret p w) = h_procs w.
Proof.
  unfold remove_secret. destruct (h_file_len p w) as [n|]; [|apply h_remove_ok].
  destruct (0 <? n); [|apply h_remove_ok].
  destruct (h_write_ok p (zeros n) w) as (w1 & -> & F1 & P1). cbn [fst].
  destruct (h_write_ok p EmptyString w1) as (w2 & -> & F2 & P2). cbn [fst].
  destruct (h_remove_ok p w2) as [F3 P3]. split; [|congruence].
  by rewrite F3, F2, F1, !delete_insert_eq.
Qed.

(** What a start does: nothing for an invalid configuration; otherwise the secret is
    written and either one fresh process runs or the start is refused. *)
Lemma start_spec d w :
  let '(w', d', r) := xray_start from_str to_string_pretty d w in
  xd_config d' = xd_config d /\ xd_id d' = xd_id d /\
  match xray_validate (xd_config d) with
  | inl e => w' = w /\ d' = d /\ r = inl e
  | inr _ =>
      h_files w' = <[driver_secret d := generate_config from_str to_string_pretty (xd_config d)]> (h_files w) /\
      match r with
      | inr _ => exists pid, (pid ∉ h_procs w) /\ h_procs w' = {[pid]} ∪ h_procs w /\
          xd_child d' = Some pid /\ xd_config_path d' = Some (driver_secret d) /\ xd_health d' = HsHealthy
      | inl _ => h_procs w' = h_procs w /\ d' = d
      end
  end.
Proof.
  unfold xray_start. destruct (xray_validate (xd_config d)) as [e|?]; [done|].
  destruct (write_secret_ok (pretty (as_u32 (xd_id d))) "xray"
    (generate_config from_str to_string_pretty (xd_config d)) w) as (w1 & -> & F1 & P1).
  unfold start_process.
  destruct (match h_resolve_bin "xray" w1 with Some b => Some b | None => h_resolve_bin "xray-core" w1 end)
    as [b|]; [|done].
  pose proof (h_spawn_ok b ["run"; "-c"; secret_path (pretty (as_u32 (xd_id d))) "xray"]%string
    [("GOMEMLIMIT", "48MiB"); ("GOGC", "30")]%string w1) as H.
  destruct (h_spawn b _ _ w1) as [w2 [e|pid]]; destruct H as [F2 P2];
    do 2 (split; [done|]); (split; [by rewrite F2, F1|]).
  - split; [congruence|done].
  - exists pid. rewrite <- P1. naive_solver.
Qed.

(** What a stop does to a running driver: the process and the secret are gone. *)
Lemma stop_spec d w pid :
  xd_child d = Some pid -> xd_config_path d = Some (driver_secret d) -> pid ∈ h_procs w ->
  exists w', xray_stop d w =
      (w', mkDriver (xd_id d) (xd_config d) HsUnknown None None, inr ()) /\
    h_files w' = delete (driver_secret d) (h_files w) /\ h_procs w' = h_procs w ∖ {[pid]}.
Proof.
  intros Hc Hp Hin. unfold xray_stop, stop_process. rewrite Hc, Hp.
  destruct (h_kill_ok pid w Hin) as (w1 & -> & F1 & P1).
  destruct (h_wait_ok pid w1) as (w2 & -> & F2 & P2); [by rewrite P1|].
  cbn [set_health xd_id xd_config xd_config_path xd_child]. fold (driver_secret d).
  eexists. split; [reflexivity|].
  destruct (remove_secret_ok (driver_secret d) (h_remove_file (driver_secret d) w2)) as [F4 P4].
  destruct (h_remove_ok (driver_secret d) w2) as [F3 P3].
  split; [|congruence]. by rewrite F4, F3, F2, F1, delete_delete_eq.
Qed.

(** A driver owns exactly one process and one secret: a start that succeeds adds one
    process and writes the generated configuration under the private path, a restart of
    the running driver leaves one process again or none, and a stop removes both; an
    invalid configuration touches neither. *)
Theorem driver_owns_process d w w' d' :
  xray_start from_str to_string_pretty d w = (w', d', inr ()) ->
  xray_validate (xd_config d) = inr () /\
  exists pid, (pid ∉ h_procs w) /\ h_procs w' = {[pid]} ∪ h_procs w /\
    h_files w' = <[driver_secret d := generate_config from_str to_string_pretty (xd_config d)]> (h_files w) /\
    (let '(w2, d2, r) := xray_stop d' w' in
     r = inr () /\ xd_child d2 = None /\ h_procs w2 = h_procs w /\
     h_files w2 = delete (driver_secret d) (h_files w)) /\
    (let '(w2, d2, r) := xray_restart from_str to_string_pretty d' w' in
     match r with
     | inr _ => exists pid', xd_child d2 = Some pid' /\ (pid' ∉ h_procs w) /\ h_procs w2 = {[pid']} ∪ h_procs w
     | inl _ => xd_child d2 = None /\ h_procs w2 = h_procs w
     end).
Proof.
  intros Hs. pose proof (start_spec d w) as H. rewrite Hs in H.
  destruct H as (Hc & Hi & H). destruct (xray_validate (xd_config d)) as [e|[]] eqn:V.
  { destruct H as (_ & _ & [=]). }
  destruct H as (F & pid & P1 & P2 & P3 & P4 & _). split; [done|]. exists pid. do 3 (split; [done|]).
  assert (Es : driver_secret d' = driver_secret d) by (unfold driver_secret; by rewrite Hi).
  destruct (stop_spec d' w' pid) as (w2 & Hst & F2 & Pr2); [done|by rewrite Es|set_solver|].
  assert (Pr : h_procs w2 = h_procs w) by set_solver.
  rewrite Hst. split.
  - do 2 (split; [done|]). split; [done|]. by rewrite F2, F, Es, delete_insert_eq.
  - unfold xray_restart. rewrite Hst.
    pose proof (start_spec (mkDriver (xd_id d') (xd_config d') HsUnknown None None) w2) as H.
    destruct (xray_start _ _ _ w2) as [[w3 d3] r]. cbn [xd_config xd_id] in H. rewrite Hc, V in H.
    destruct H as (_ & _ & _ & H). rewrite Pr in H.
    destruct r as [e|?]; [destruct H as [-> ->]; done|]. destruct H as (pid' & ? & ? & ? & _). eauto.
Qed.
End Life.

(** A host in memory, with the writes it saw. *)
Module MemHost.
Record mem_host := mkHost {
  mh_files : gmap string string;
  mh_procs : gset Z;
  mh_bin : bool;
  mh_writes : list (string * string)
}.

#[global] Instance mem_xray_host : XrayHost mem_host := {|
  h_mkdir := fun _ w => (w, inr ());
  h_write_file := fun p c w =>
    (mkHost (<[p := c]> (mh_files w)) (mh_procs w) (mh_bin w) (mh_writes w ++ [(p, c)]), inr ());
  h_chmod := fun p _ w => (w, if mh_files w !! p is Some _ then inr () else inl "not found"%string);
  h_file_len := fun p w => (Z.of_nat ∘ String.length) <$> mh_files w !! p;
  h_remove_file := fun p w => mkHost (delete p (mh_files w)) (mh_procs w) (mh_bin w) (mh_writes w);
  h_resolve_bin := fun b w => if mh_bin w then Some ("/usr/bin/" +:+ b) else None;
  h_spawn := fun _ _ _ w =>
    let pid := fresh (mh_procs w) in
    (mkHost (mh_files w) ({[pid]} ∪ mh_procs w) (mh_bin w) (mh_writes w), inr pid);
  h_kill := fun _ w => (w, inr ());
  h_wait := fun pid w =>
    (mkHost (mh_files w) (mh_procs w ∖ {[pid]}) (mh_bin w) (mh_writes w), inr ());
  h_signal0 := fun pid w => bool_decide (pid ∈ mh_procs w);
  h_connect := fun _ w => negb (bool_decide (mh_procs w = ∅))
|}.

#[global] Program Instance mem_xray_host_ok : XrayHostOk mem_host := {|
  h_files := mh_files; h_procs := mh_procs
|}.
Solve All Obligations with try (intros; by eexists).
Next Obligation. intros p m w [c Hc]. exists w. cbn. by rewrite Hc. Qed.
Next Obligation. intros b a e w. cbn. split; [done|]. split; [apply is_fresh|done]. Qed.

Definition empty_host (bin : bool) : mem_host := mkHost ∅ ∅ bin [].
End MemHost.

Definition sample_config : XrayConfig :=
  mkXrayConfig "82.40.62.4" 443 "194302fe-9c53" None XTcp XSecurityNone (Some "n"%string) 10808 10809 [].

Definition no_parse (_ : string) : option json := None.
Definition no_text (_ : json) : option string := None.

Lemma driver_owns_process_witness :
  let d := XrayDriver_new Xray sample_config in
  exists w' d', xray_start no_parse no_text d (MemHost.empty_host true) = (w', d', inr ()) /\
    exists pid, h_procs w' = {[pid]} ∪ ∅.
Proof.
  set (d := XrayDriver_new Xray sample_config).
  destruct (xray_start no_parse no_text d (MemHost.empty_host true)) as [[w' d'] r] eqn:E.
  assert (R : r = inr ()).
  { change r with (w', d', r).2. rewrite <- E. vm_compute. reflexivity. }
  subst r. exists w', d'. split; [done|].
  destruct (driver_owns_process no_parse no_text d (MemHost.empty_host true) w' d' E) as (_ & pid & _ & P & _).
  exists pid. exact P.
Defined.

(** A start that fails after the secret was written leaves it behind: nothing of the
    driver removes it. *)
Lemma failed_start_leaves_secret :
  let d := XrayDriver_new Xray sample_config in
  let '(w, _, r) := xray_start no_parse no_text d (MemHost.empty_host false) in
  r = inl (BinaryNotFound "xray") /\ is_Some (h_files w !! driver_secret d).
Proof. vm_compute. eauto. Qed.

(** The secret is documented to be overwritten before it is deleted; a stop unlinks it
    first and then has nothing to overwrite. *)
Lemma stop_never_overwrites d (w : MemHost.mem_host) :
  xd_config_path d = Some (driver_secret d) ->
  MemHost.mh_writes (xray_stop d w).1.1 = MemHost.mh_writes w.
Proof.
  intros H. unfold xray_stop, stop_process. rewrite H. destruct (xd_child d) as [pid|]; cbn.
  all: rewrite lookup_delete_eq; done.
Qed.
