(* ===== verification/XrayRecovery.v ===== *)
(** * The bounded restart guard of the Xray manager (balansir-daemon/src/xray_manager.rs)

    [L2Recovery]: the state machine that decides, from the local health of the running
    driver, between waiting, restarting it and giving up.  Times are milliseconds; the
    subtractions saturate at the bounds of [i64].  The theorems bound the restarts and say
    when a dead driver is given up, and when it never is. *)

From Stdlib Require Import Sorting.Sorted.
From S2P Require Import Prelude Types.
#[local] Open Scope Z_scope.

Definition i64_min : Z := - 2 ^ 63.
Definition i64_max : Z := 2 ^ 63 - 1.

(** [i64::saturating_sub] *)
Definition sat64_sub (a b : Z) : Z := Z.max i64_min (Z.min i64_max (a - b)).

Record L2RecoveryConfig := mkL2Config {
  grace_ms : Z;
  max_restarts : Z;
  window_ms : Z;
  backoff_ms : Z
}.

Definition L2RecoveryConfig_default : L2RecoveryConfig := mkL2Config 10000 3 60000 5000.

Inductive L2Action := L2None | L2Grace | L2Restart | L2Exhaust.

Record L2Recovery := mkL2 {
  l2_cfg : L2RecoveryConfig;
  started_ms : Z;
  bad_count : Z;
  restarts_in_window : Z;
  window_start_ms : Z;
  last_restart_ms : Z;
  exhausted : bool
}.

Definition L2Recovery_new (cfg : L2RecoveryConfig) : L2Recovery := mkL2 cfg 0 0 0 0 0 false.

Definition on_start (now : Z) (r : L2Recovery) : L2Recovery :=
  mkL2 (l2_cfg r) now 0 0 0 i64_min false.

Definition on_restart (now : Z) (r : L2Recovery) : L2Recovery :=
  mkL2 (l2_cfg r) now 0 (restarts_in_window r) (window_start_ms r) now (exhausted r).

Definition l2_bad (now : Z) (r : L2Recovery) : L2Recovery * L2Action :=
  let bad := sat_add u32_max (bad_count r) 1 in
  if Z.max (sat64_sub now (last_restart_ms r)) 0 <? i64 (backoff_ms (l2_cfg r))
  then (mkL2 (l2_cfg r) (started_ms r) bad (restarts_in_window r) (window_start_ms r)
          (last_restart_ms r) (exhausted r), L2Grace)
  else
    let '(start, restarts) :=
      if i64 (window_ms (l2_cfg r)) <=? sat64_sub now (window_start_ms r) then (now, 0)
      else (window_start_ms r, restarts_in_window r) in
    if max_restarts (l2_cfg r) <=? restarts
    then (mkL2 (l2_cfg r) (started_ms r) bad restarts start (last_restart_ms r) true, L2Exhaust)
    else (mkL2 (l2_cfg r) (started_ms r) bad (sat_add u32_max restarts 1) start now (exhausted r), L2Restart).

Definition l2_observe (status : HealthStatus) (now : Z) (r : L2Recovery) : L2Recovery * L2Action :=
  if exhausted r then (r, L2Exhaust)
  else
    let in_grace := Z.max (sat64_sub now (started_ms r)) 0 <? i64 (grace_ms (l2_cfg r)) in
    match status with
    | HsHealthy =>
        (mkL2 (l2_cfg r) (started_ms r) 0 0 0 (last_restart_ms r) (exhausted r), L2None)
    | HsUnknown => if in_grace then (r, L2Grace) else l2_bad now r
    | HsDegraded _ | HsUnhealthy _ => if in_grace then (r, L2Grace) else l2_bad now r
    end.

(** ** Histories *)

(** An observation, or the end of a restart. *)
Inductive l2_input := L2Obs (status : HealthStatus) (now : Z) | L2Restarted (now : Z).

Definition input_time (i : l2_input) : Z := match i with L2Obs _ t | L2Restarted t => t end.

Definition not_healthy (i : l2_input) : Prop := match i with L2Obs HsHealthy _ => False | _ => True end.

Definition l2_step (r : L2Recovery) (i : l2_input) : L2Recovery * option L2Action :=
  match i with
  | L2Obs s now => let '(r, a) := l2_observe s now r in (r, Some a)
  | L2Restarted now => (on_restart now r, None)
  end.

(** The actions of a history with their times. *)
Fixpoint l2_run (r : L2Recovery) (l : list l2_input) : list (Z * L2Action) :=
  match l with
  | [] => []
  | i :: l =>
      let '(r, a) := l2_step r i in
      match a with Some a => (input_time i, a) :: l2_run r l | None => l2_run r l end
  end.

Definition restarts (l : list (Z * L2Action)) : list Z :=
  omap (fun '(t, a) => match a with L2Restart => Some t | _ => None end) l.

(** ** Arithmetic in range *)

Definition horizon : Z := 2 ^ 62.

Lemma sat64_exact a b : 0 <= a < horizon -> 0 <= b < horizon -> sat64_sub a b = a - b.
Proof. unfold sat64_sub, i64_min, i64_max, horizon. change (2 ^ 63) with (2 * 2 ^ 62). lia. Qed.

Lemma i64_exact z : 0 <= z < horizon -> i64 z = z.
Proof.
  intros H. unfold i64, horizon in *. change (2 ^ 63) with (2 * 2 ^ 62).
  rewrite wrap_small by (change (2 ^ 64) with (4 * 2 ^ 62); lia). by destruct (Z.ltb_spec z (2 * 2 ^ 62)); [|lia].
Qed.

Record cfg_ok (c : L2RecoveryConfig) : Prop := {
  co_grace : 0 <= grace_ms c < horizon;
  co_max : 0 <= max_restarts c <= u32_max;
  co_window : 0 <= window_ms c < horizon;
  co_backoff : 0 <= backoff_ms c < horizon
}.

Record sane (r : L2Recovery) : Prop := {
  sa_cfg : cfg_ok (l2_cfg r);
  sa_restarts : 0 <= restarts_in_window r <= max_restarts (l2_cfg r);
  sa_window : 0 <= window_start_ms r < horizon;
  sa_last : last_restart_ms r = i64_min \/ 0 <= last_restart_ms r < horizon
}.

(** The clock does not go back, from [a] on. *)
Fixpoint clocked (a : Z) (l : list l2_input) : Prop :=
  match l with
  | [] => True
  | i :: l => a <= input_time i < horizon /\ clocked (input_time i) l
  end.

(** One bad observation outside the grace period. *)
Lemma bad_cases now r :
  sane r -> 0 <= now < horizon -> last_restart_ms r <= now ->
  let '(r', a) := l2_bad now r in
  sane r' /\ l2_cfg r' = l2_cfg r /\
  match a with
  | L2Restart => last_restart_ms r + backoff_ms (l2_cfg r) <= now /\ last_restart_ms r' = now /\
      ((window_start_ms r' = window_start_ms r /\ restarts_in_window r' = restarts_in_window r + 1) \/
       (window_start_ms r + window_ms (l2_cfg r) <= now /\ window_start_ms r' = now /\ restarts_in_window r' = 1))
  | _ => last_restart_ms r' = last_restart_ms r /\
      ((window_start_ms r' = window_start_ms r /\ restarts_in_window r' = restarts_in_window r) \/
       (window_start_ms r + window_ms (l2_cfg r) <= now /\ window_start_ms r' = now /\ restarts_in_window r' = 0))
  end.
Proof.
  intros [[Cg Cm Cw Cb] Hr Hw Hl] Hn Hle. unfold l2_bad. rewrite !i64_exact by done.
  rewrite (sat64_exact now (window_start_ms r)) by done.
  assert (Hb : (Z.max (sat64_sub now (last_restart_ms r)) 0 <? backoff_ms (l2_cfg r)) = false ->
    last_restart_ms r + backoff_ms (l2_cfg r) <= now).
  { intros E%Z.ltb_ge. unfold sat64_sub, i64_min, i64_max, horizon in *. change (2 ^ 63) with (2 * 2 ^ 62) in *. lia. }
  destruct (_ <? backoff_ms _); [repeat split; cbn; try lia; auto|]. specialize (Hb eq_refl).
  destruct (Z.leb_spec (window_ms (l2_cfg r)) (now - window_start_ms r)).
  - destruct (Z.leb_spec (max_restarts (l2_cfg r)) 0).
    + repeat split; cbn; try lia; auto.
    + unfold sat_add. repeat split; cbn; try lia; auto.
  - destruct (Z.leb_spec (max_restarts (l2_cfg r)) (restarts_in_window r)).
    + repeat split; cbn; try lia; auto.
    + unfold sat_add. repeat split; cbn; try lia; auto.
Qed.

Definition restarted (a : option L2Action) : Z := match a with Some L2Restart => 1 | _ => 0 end.

(** What a step at time [t] with action [a] does. *)
Record moved (r : L2Recovery) (t : Z) (a : option L2Action) (r' : L2Recovery) : Prop := {
  mv_sane : sane r';
  mv_cfg : l2_cfg r' = l2_cfg r;
  mv_last : last_restart_ms r <= last_restart_ms r' <= t;
  mv_restart : a = Some L2Restart ->
    last_restart_ms r + backoff_ms (l2_cfg r) <= t /\ last_restart_ms r' = t
}.

(** The restart is counted in the window it finds, or in one that begins with it. *)
Definition counted (r : L2Recovery) (t : Z) (a : option L2Action) (r' : L2Recovery) : Prop :=
  (window_start_ms r' = window_start_ms r /\ restarts_in_window r' = restarts_in_window r + restarted a) \/
  (window_start_ms r + window_ms (l2_cfg r) <= t /\ window_start_ms r' = t /\
   restarts_in_window r' = restarted a).

Lemma unmoved r t a : a <> Some L2Restart -> sane r -> last_restart_ms r <= t -> moved r t a r /\ counted r t a r.
Proof.
  intros Ha S Hl. split; [split; try done; lia|]. left. unfold restarted. destruct a as [[]|]; try done; lia.
Qed.

Lemma bad_moved now r :
  sane r -> 0 <= now < horizon -> last_restart_ms r <= now ->
  let '(r', a) := l2_bad now r in moved r now (Some a) r' /\ counted r now (Some a) r'.
Proof.
  intros S Ht Hl. pose proof (bad_cases now r S Ht Hl) as H. destruct (l2_bad now r) as [r' a].
  destruct H as (H1 & H2 & H3). unfold counted, restarted.
  destruct a; cbn; destruct H3 as [H3 H4]; (split; [split|]); try done; try lia.
Qed.

Lemma step_moved r i :
  sane r -> 0 <= input_time i < horizon -> last_restart_ms r <= input_time i ->
  let '(r', a) := l2_step r i in
  moved r (input_time i) a r' /\ (not_healthy i -> counted r (input_time i) a r').
Proof.
  intros S Ht Hl. destruct i as [s now|now]; cbn [l2_step input_time] in *.
  2: { destruct S as [C R Wd L]. split; [repeat split; cbn; try discriminate; try lia; try apply C; auto|].
       intros _. left. cbn. unfold restarted. cbn. lia. }
  assert (G : moved r now (Some L2Grace) r /\ counted r now (Some L2Grace) r) by (by apply unmoved).
  assert (E : moved r now (Some L2Exhaust) r /\ counted r now (Some L2Exhaust) r) by (by apply unmoved).
  pose proof (bad_moved now r S Ht Hl) as B. unfold l2_observe.
  destruct (exhausted r); [naive_solver|].
  destruct s; [|destruct (_ <? _); [naive_solver|]; destruct (l2_bad now r); naive_solver..].
  split; [|done]. destruct S as [C R Wd L]. repeat split; cbn; try apply C; try lia; auto.
  all: unfold horizon; try lia; done.
Qed.

Lemma restarts_run r i l :
  let '(r', a) := l2_step r i in
  restarts (l2_run r (i :: l)) =
  match a with Some L2Restart => input_time i :: restarts (l2_run r' l) | _ => restarts (l2_run r' l) end.
Proof. cbn [l2_run]. destruct (l2_step r i) as [r' [[]|]]; done. Qed.

(** Restarts keep the backoff distance, from the last one on. *)
Lemma restarts_spaced r l :
  sane r -> clocked (Z.max 0 (last_restart_ms r)) l ->
  Forall (fun t => last_restart_ms r + backoff_ms (l2_cfg r) <= t) (restarts (l2_run r l)) /\
  StronglySorted (fun t t' => t + backoff_ms (l2_cfg r) <= t') (restarts (l2_run r l)).
Proof.
  revert r. induction l as [|i l IH]; intros r S Hc; [by split; constructor|].
  destruct Hc as [Ht Hc].
  pose proof (step_moved r i S ltac:(lia) ltac:(lia)) as H. pose proof (restarts_run r i l) as E.
  destruct (l2_step r i) as [r' a]. destruct H as [[Sr Cf La Re] _].
  destruct (IH r' Sr) as [F1 F2].
  { clear -Hc La Ht. destruct l as [|j l]; [done|]. cbn in *. intuition lia. }
  rewrite Cf in F1, F2.
  assert (W : Forall (fun t => last_restart_ms r + backoff_ms (l2_cfg r) <= t) (restarts (l2_run r' l))).
  { eapply Forall_impl; [exact F1|]. intros t Hbt. cbn in *. lia. }
  rewrite E. destruct a as [[]|]; try done. destruct (Re eq_refl) as [R1 R2].
  split; [by constructor|]. constructor; [done|]. by rewrite R2 in F1.
Qed.

(** Restarts within one span shorter than the window: the budget of the current window and
    that of one more. *)
Lemma restarts_in_span a r l :
  sane r -> 0 <= a -> clocked (Z.max 0 (last_restart_ms r)) l ->
  Forall (fun i => not_healthy i /\ a <= input_time i < a + window_ms (l2_cfg r)) l ->
  len (restarts (l2_run r l)) <=
    max_restarts (l2_cfg r) - restarts_in_window r +
    (if window_start_ms r <? a then max_restarts (l2_cfg r) else 0).
Proof.
  intros S Ha. revert r S. induction l as [|i l IH]; intros r S Hc H.
  { destruct S as [[] R _ _]. cbn. destruct (_ <? _); unfold len; cbn; lia. }
  destruct Hc as [Ht Hc]. inversion_clear H as [|? ? [Hn Hs] H'].
  pose proof (step_moved r i S ltac:(lia) ltac:(lia)) as Hm. pose proof (restarts_run r i l) as E.
  destruct (l2_step r i) as [r' act]. destruct Hm as [[Sr Cf La Re] Cn]. specialize (Cn Hn).
  assert (IH' : len (restarts (l2_run r' l)) <= max_restarts (l2_cfg r') - restarts_in_window r' +
    (if window_start_ms r' <? a then max_restarts (l2_cfg r') else 0)).
  { apply IH; [done| |by rewrite Cf].
    clear -Hc La Ht. destruct l as [|j l]; [done|]. cbn in *. intuition lia. }
  rewrite Cf in IH'. destruct S as [[_ Cm _ _] R _ _].
  assert (L : len (restarts (l2_run r (i :: l))) = restarted act + len (restarts (l2_run r' l))).
  { rewrite E. unfold len, restarted. destruct act as [[]|]; cbn [length]; lia. }
  rewrite L. destruct Cn as [[W1 R1]|(W1 & W2 & R1)].
  - rewrite W1 in IH'. destruct (_ <? a); lia.
  - rewrite W2 in IH'. destruct (Z.ltb_spec (input_time i) a); [lia|].
    destruct (Z.ltb_spec (window_start_ms r) a); [lia|]. lia.
Qed.

(** C32.  The guard never restarts in a tight loop: over every history of observations and
    completed restarts two restarts are at least the backoff apart, and while the driver
    is not seen healthy every span shorter than the window has at most twice the budget
    of restarts; once the budget is spent the guard answers only that. *)
Theorem l2_restarts_limited r l :
  sane r -> clocked (Z.max 0 (last_restart_ms r)) l ->
  StronglySorted (fun t t' => t + backoff_ms (l2_cfg r) <= t') (restarts (l2_run r l)) /\
  (forall a, 0 <= a -> Forall (fun i => not_healthy i /\ a <= input_time i < a + window_ms (l2_cfg r)) l ->
     len (restarts (l2_run r l)) <= 2 * max_restarts (l2_cfg r)) /\
  (exhausted r = true -> Forall (fun ta => ta.2 = L2Exhaust) (l2_run r l)).
Proof.
  intros S Hc. split; [by apply restarts_spaced|]. split.
  - intros a Ha H. pose proof (restarts_in_span a r l S Ha Hc H). destruct S as [_ R _ _].
    destruct (_ <? _); lia.
  - clear Hc S. revert r. induction l as [|i l IH]; intros r E; [constructor|]. cbn [l2_run].
    destruct i as [s now|now]; cbn [l2_step]; [|by apply IH].
    unfold l2_observe. rewrite E. constructor; [done|by apply IH].
Qed.

(** The bound is reached: the count starts afresh when a window ends, so a span of 25
    seconds holds six restarts with a documented maximum of three per minute. *)
Definition two_windows : list l2_input :=
  map (L2Obs (HsDegraded 2)) [45000; 50000; 55000; 60000; 65000; 70000].

Lemma l2_restarts_limited_witness :
  let r := on_start 0 (L2Recovery_new (mkL2Config 0 3 60000 5000)) in
  len (restarts (l2_run r two_windows)) = 6 /\
  StronglySorted (fun t t' => t + 5000 <= t') (restarts (l2_run r two_windows)).
Proof.
  intros r. split; [reflexivity|]. apply (l2_restarts_limited r two_windows).
  - repeat split; try (left; reflexivity); apply Z.leb_le || apply Z.ltb_lt; reflexivity.
  - repeat split; apply Z.leb_le || apply Z.ltb_lt; reflexivity.
Defined.

(** ** When a dead driver is given up *)

(** One turn of the manager on a dead driver: an observation and the restart it may cause. *)
Definition turn_inputs (turn : Z * Z) : list l2_input := [L2Obs (HsUnhealthy 1) turn.1; L2Restarted turn.2].

Definition dead_run (r : L2Recovery) (turns : list (Z * Z)) : list (Z * L2Action) :=
  l2_run r (concat (map turn_inputs turns)).

(** Turns past the grace and backoff of the restart before, all in one window. *)
Fixpoint dense (cfg : L2RecoveryConfig) (last ws : Z) (turns : list (Z * Z)) : Prop :=
  match turns with
  | [] => True
  | (t, t') :: turns =>
      last + grace_ms cfg <= t /\ last + backoff_ms cfg <= t /\ t < ws + window_ms cfg /\
      0 <= t <= t' /\ t' < horizon /\ dense cfg t' ws turns
  end.

Lemma sat64_bounds a b d : 0 <= d < horizon -> 0 <= a < horizon -> i64_min <= b -> b + d <= a ->
  (Z.max (sat64_sub a b) 0 <? d) = false.
Proof.
  intros Hd Ha Hb H. apply Z.ltb_ge. unfold sat64_sub, i64_min, i64_max, horizon in *.
  change (2 ^ 63) with (2 * 2 ^ 62) in *. lia.
Qed.

(** An observation of a dead driver outside grace and backoff. *)
Lemma dead_observed now r :
  sane r -> exhausted r = false -> i64_min <= started_ms r -> 0 <= now < horizon ->
  started_ms r + grace_ms (l2_cfg r) <= now -> last_restart_ms r + backoff_ms (l2_cfg r) <= now ->
  l2_observe (HsUnhealthy 1) now r =
  let bad := sat_add u32_max (bad_count r) 1 in
  let '(start, n) :=
    if window_ms (l2_cfg r) <=? now - window_start_ms r then (now, 0)
    else (window_start_ms r, restarts_in_window r) in
  if max_restarts (l2_cfg r) <=? n
  then (mkL2 (l2_cfg r) (started_ms r) bad n start (last_restart_ms r) true, L2Exhaust)
  else (mkL2 (l2_cfg r) (started_ms r) bad (n + 1) start now false, L2Restart).
Proof.
  intros [[Cg Cm Cw Cb] Hr Hw Hl] He Hs Hn Hg Hb. unfold l2_observe, l2_bad. rewrite He.
  rewrite !i64_exact by done.
  rewrite (sat64_bounds now (started_ms r)) by done.
  rewrite (sat64_bounds now (last_restart_ms r)); [|done|done| |done].
  2: { destruct Hl as [->|]; [done|]. unfold i64_min, horizon in *. lia. }
  rewrite (sat64_exact now (window_start_ms r)) by done.
  destruct (_ <=? now - _).
  - by destruct (max_restarts (l2_cfg r) <=? 0).
  - destruct (Z.leb_spec (max_restarts (l2_cfg r)) (restarts_in_window r)); [done|].
    by replace (sat_add u32_max (restarts_in_window r) 1) with (restarts_in_window r + 1)
      by (unfold sat_add; lia).
Qed.

(** A dead driver whose turns come densely enough is given up once the budget is spent. *)
Lemma dead_driver_given_up r turns :
  sane r -> exhausted r = false -> i64_min <= started_ms r <= Z.max 0 (last_restart_ms r) ->
  dense (l2_cfg r) (Z.max (started_ms r) (last_restart_ms r)) (window_start_ms r) turns ->
  max_restarts (l2_cfg r) - restarts_in_window r < len turns ->
  exists t, In (t, L2Exhaust) (dead_run r turns).
Proof.
  revert r. induction turns as [|[t t'] turns IH]; intros r S He Hs Hd Hlen.
  { destruct S as [_ [_ H] _ _]. unfold len in Hlen. cbn in Hlen. lia. }
  destruct Hd as (D1 & D2 & D3 & D4 & D5 & D6).
  unfold dead_run. cbn [map concat turn_inputs app l2_run l2_step fst snd].
  rewrite (dead_observed t r) by (done || lia). pose proof S as [C R Wd L].
  destruct (Z.leb_spec (window_ms (l2_cfg r)) (t - window_start_ms r)); [lia|]. cbv zeta iota.
  destruct (Z.leb_spec (max_restarts (l2_cfg r)) (restarts_in_window r)).
  - exists t. by left.
  - cbn [input_time]. set (r1 := on_restart t' _).
    destruct (IH r1) as [u Hu]; [|done|unfold r1; cbn; unfold i64_min, horizon in *; lia|..].
    + unfold r1. split; cbn; try done; lia.
    + unfold r1. cbn. rewrite Z.max_id. exact D6.
    + unfold r1. cbn. unfold len in *. cbn [length] in Hlen. lia.
    + exists u. right. exact Hu.
Qed.

(** At the cadence of the daemon - a turn every ten seconds, the same as the grace period -
    every other turn falls in the grace of the restart before, so restarts are twenty
    seconds apart, the window ends with the third and a dead driver is restarted for
    ever. *)
Fixpoint cadence (n : nat) (d t : Z) : list l2_input :=
  match n with
  | O => []
  | S n => L2Obs (HsUnhealthy 1) t :: L2Restarted (t + d) :: L2Obs (HsUnhealthy 1) (t + 10000) ::
           cadence n d (t + 20000)
  end.

Lemma ten_second_turns_never_give_up n d t r :
  0 < d < 10000 -> 60000 <= t -> t + 20000 * Z.of_nat n < horizon ->
  l2_cfg r = L2RecoveryConfig_default -> exhausted r = false ->
  started_ms r = t - 20000 + d -> last_restart_ms r = t - 20000 + d ->
  1 <= restarts_in_window r <= 3 -> window_start_ms r = t - 20000 * restarts_in_window r ->
  Forall (fun ta => ta.2 <> L2Exhaust) (l2_run r (cadence n d t)).
Proof.
  intros Hd. revert t r. induction n as [|n IH]; intros t r Ht Hh Hc He Hst Hla Hri Hws; [constructor|].
  assert (S : sane r).
  { split; rewrite ?Hc; try (unfold horizon in *; cbn; lia). repeat split; done. }
  cbn [cadence l2_run l2_step].
  rewrite (dead_observed t r); [|done|done| |lia| |];
    rewrite ?Hc, ?Hst, ?Hla; cbn [grace_ms backoff_ms window_ms max_restarts L2RecoveryConfig_default];
    [|unfold i64_min, horizon in *; lia..].
  assert (W : exists k, (if 60000 <=? t - window_start_ms r then (t, 0)
      else (window_start_ms r, restarts_in_window r)) = (t - 20000 * k, k) /\ 0 <= k <= 2).
  { rewrite Hws. destruct (Z.leb_spec 60000 (t - (t - 20000 * restarts_in_window r))).
    - exists 0. split; [f_equal; lia|lia].
    - exists (restarts_in_window r). split; [done|lia]. }
  destruct W as (k & -> & Hk). cbv zeta. destruct (Z.leb_spec 3 k); [lia|]. cbn [input_time].
  constructor; [done|]. unfold on_restart at 1. cbn [l2_cfg restarts_in_window window_start_ms exhausted].
  unfold l2_observe at 1. cbn [exhausted started_ms l2_cfg grace_ms L2RecoveryConfig_default].
  rewrite sat64_exact, i64_exact by (unfold horizon in *; lia).
  destruct (Z.ltb_spec (Z.max (t + 10000 - (t + d)) 0) 10000); [|lia].
  constructor; [done|]. apply IH; cbn; try done; lia.
Qed.
