(* ===== verification/XrayManager.v ===== *)
(** * The Xray manager (balansir-daemon/src/xray_manager.rs)

    The task that runs one Xray driver: the endpoint file, selection (pool, operator pin,
    priority), failover of static endpoints over the shared path-health tracker
    ([Health]), supervision of the pool's profile by the restart guard ([XrayRecovery]),
    and the published snapshot.  The driver is the interface [ComponentDriver]; its
    instance is [Xray].  The clocks and the latency probe belong to the world of the
    driver.  The text of a health reason, which prints floats, is a parameter. *)

From stdpp Require Import pretty.
From S2P Require Import Prelude F64 Health VpnPool Types IpText Text VpnImport Errors Nftables.
From S2P Require Import Xray XrayRecovery.
#[local] Open Scope Z_scope.

(** ** Configuration *)

Record XrayEndpoint := mkEndpoint {
  xe_name : string;
  xe_server : string;
  xe_port : Z;
  xe_uuid : string;
  xe_flow : option string;
  xe_transport : XrayTransport;
  xe_security : XraySecurity;
  xe_socks_port : option Z;
  xe_http_port : option Z;
  xe_priority : Z;
  xe_enabled : bool
}.

Definition into_config (e : XrayEndpoint) (fallback_socks fallback_http : Z) : XrayConfig :=
  mkXrayConfig (xe_server e) (xe_port e) (xe_uuid e) (xe_flow e) (xe_transport e) (xe_security e)
    (Some (xe_name e)) (default fallback_socks (xe_socks_port e)) (default fallback_http (xe_http_port e)) [].

Record XrayToml := mkXrayToml {
  xt_socks_port : option Z;
  xt_http_port : option Z;
  xt_failover_threshold : option Z;
  xt_geo_domains : list string;
  xt_profiles : list XrayEndpoint
}.

Definition path_config_for (c : XrayToml) : PathHealthConfig :=
  mkHealthConfig (latency_threshold_ms PathHealthConfig_default) (loss_threshold_pct PathHealthConfig_default)
    (Z.max (default 3 (xt_failover_threshold c)) 1) 2 10000000000 (alpha PathHealthConfig_default).

Definition toml_socks (c : XrayToml) : Z := default 10808 (xt_socks_port c).
Definition toml_http (c : XrayToml) : Z := default 10809 (xt_http_port c).

Fixpoint validate_profiles (c : XrayToml) (names : list string) (l : list XrayEndpoint) : string + () :=
  match l with
  | [] => inr ()
  | e :: l =>
      if blank (xe_name e) then inl "xray profile name must not be empty"%string
      else if existsb (String.eqb (xe_name e)) names
      then inl ("duplicate xray profile name '" +:+ xe_name e +:+ "'")
      else
        match xray_validate (into_config e (toml_socks c) (toml_http c)) with
        | inl err => inl ("profile '" +:+ xe_name e +:+ "': " +:+ driver_error_to_string err)
        | inr _ => validate_profiles c (xe_name e :: names) l
        end
  end.

Definition toml_validate (c : XrayToml) : string + () := validate_profiles c [] (xt_profiles c).

(** ** Selection *)

Definition next_enabled (current : option string) (enabled : list string) : option string :=
  match enabled with
  | [] => None
  | _ =>
      let idx := current ≫= fun c => fst <$> list_find (fun e => e = c) enabled in
      let next_idx := match idx with Some i => ((i + 1) `mod` length enabled)%nat | None => O end in
      enabled !! next_idx
  end.

Definition by_priority (endpoints : list XrayEndpoint) (i j : nat) : comparison :=
  let key k := from_option xe_priority 0 (endpoints !! k) in
  match key i ?= key j with Eq => Nat.compare i j | c => c end.

Definition enabled_indices (endpoints : list XrayEndpoint) : list nat :=
  sort_by (by_priority endpoints)
    (List.filter (fun i => from_option xe_enabled false (endpoints !! i)) (seq 0 (length endpoints))).

Definition preferred (endpoints : list XrayEndpoint) : option nat := head (enabled_indices endpoints).

Definition index_of (endpoints : list XrayEndpoint) (name : string) : option nat :=
  fst <$> list_find (fun e => xe_name e = name) endpoints.

(** The endpoint a failing one is replaced by. *)
Definition failover_target (endpoints : list XrayEndpoint) (idx : nat) : option nat :=
  let enabled := enabled_indices endpoints in
  match List.find (fun i => negb (Nat.eqb i idx)) enabled with
  | Some i => Some i
  | None => head enabled
  end.

(** ** State *)

Inductive XrayEvent :=
| XrayStarted (profile : string)
| XrayStopped
| XraySwitched (from : option string) (to reason : string)
| XrayHealthChanged (profile health : string)
| XrayErrorEvent (detail : string).

Record XrayProfileView := mkXrayView {
  xv_name : string;
  xv_server : string;
  xv_port : Z;
  xv_transport : string;
  xv_tls : bool;
  xv_priority : Z;
  xv_enabled : bool;
  xv_active : bool;
  xv_health : string;
  xv_failure_count : Z;
  xv_latency_ms : option Z;
  xv_path : PathHealthView
}.

Record XraySnapshot := mkXraySnapshot {
  xs_profiles : list XrayProfileView;
  xs_active : option string;
  xs_paused : bool;
  xs_pinned : option string;
  xs_last_error : option string;
  xs_socks_port : Z;
  xs_http_port : Z;
  xs_switch_reason : option string;
  xs_last_switch_ms : Z
}.

(** What never changes after [xray_from_toml]. *)
Record XrayStatic := mkStatic {
  st_endpoints : list XrayEndpoint;
  st_socks_port : Z;
  st_http_port : Z;
  st_geo_domains : list string
}.

(** The driver of one endpoint and what it runs on. *)
Class ComponentDriver (W D : Type) := {
  cd_new : XrayConfig -> D;
  cd_start : D -> W -> W * D * (DriverError + ());
  cd_stop : D -> W -> W * D * (DriverError + ());
  cd_restart : D -> W -> W * D * (DriverError + ());
  cd_health : D -> W -> HealthStatus;
  cd_drop : D -> W -> W;
  (** the wall clock, the monotonic clock, a connect to an endpoint *)
  cd_now_ms : W -> W * Z;
  cd_instant : W -> W * Z;
  cd_latency : string -> Z -> W -> option Z
}.

Section Manager.
Context {W D : Type} {driver : ComponentDriver W D}.
Context (reason_line : reason -> string).
Context (st : XrayStatic).

Record xray_manager := mkXrayManager {
  xm_paused : bool;
  xm_pinned : option string;
  xm_pool_profile : option VpnProfile;
  xm_active : option nat;
  xm_pool_label : option string;
  xm_pool_driven : bool;
  xm_paths : list PathHealth;
  xm_latency : list (option Z);
  xm_last_error : option string;
  xm_switch_reason : option string;
  xm_last_switch_ms : Z;
  xm_driver : option D;
  xm_l2 : L2Recovery;
  xm_l2_exhausted_label : option string;
  xm_started_count : Z;
  xm_events : list XrayEvent;
  xm_snapshot : option XraySnapshot
}.

Definition put_paused (v : bool) (m : xray_manager) : xray_manager :=
  mkXrayManager v (xm_pinned m) (xm_pool_profile m) (xm_active m) (xm_pool_label m) (xm_pool_driven m)
    (xm_paths m) (xm_latency m) (xm_last_error m) (xm_switch_reason m) (xm_last_switch_ms m)
    (xm_driver m) (xm_l2 m) (xm_l2_exhausted_label m) (xm_started_count m) (xm_events m)
    (xm_snapshot m).
Definition put_pinned (v : option string) (m : xray_manager) : xray_manager :=
  mkXrayManager (xm_paused m) v (xm_pool_profile m) (xm_active m) (xm_pool_label m) (xm_pool_driven m)
    (xm_paths m) (xm_latency m) (xm_last_error m) (xm_switch_reason m) (xm_last_switch_ms m)
    (xm_driver m) (xm_l2 m) (xm_l2_exhausted_label m) (xm_started_count m) (xm_events m)
    (xm_snapshot m).
Definition put_pool_profile (v : option VpnProfile) (m : xray_manager) : xray_manager :=
  mkXrayManager (xm_paused m) (xm_pinned m) v (xm_active m) (xm_pool_label m) (xm_pool_driven m)
    (xm_paths m) (xm_latency m) (xm_last_error m) (xm_switch_reason m) (xm_last_switch_ms m)
    (xm_driver m) (xm_l2 m) (xm_l2_exhausted_label m) (xm_started_count m) (xm_events m)
    (xm_snapshot m).
Definition put_active (v : option nat) (m : xray_manager) : xray_manager :=
  mkXrayManager (xm_paused m) (xm_pinned m) (xm_pool_profile m) v (xm_pool_label m) (xm_pool_driven m)
    (xm_paths m) (xm_latency m) (xm_last_error m) (xm_switch_reason m) (xm_last_switch_ms m)
    (xm_driver m) (xm_l2 m) (xm_l2_exhausted_label m) (xm_started_count m) (xm_events m)
    (xm_snapshot m).
Definition put_pool_label (v : option string) (m : xray_manager) : xray_manager :=
  mkXrayManager (xm_paused m) (xm_pinned m) (xm_pool_profile m) (xm_active m) v (xm_pool_driven m)
    (xm_paths m) (xm_latency m) (xm_last_error m) (xm_switch_reason m) (xm_last_switch_ms m)
    (xm_driver m) (xm_l2 m) (xm_l2_exhausted_label m) (xm_started_count m) (xm_events m)
    (xm_snapshot m).
Definition put_pool_driven (v : bool) (m : xray_manager) : xray_manager :=
  mkXrayManager (xm_paused m) (xm_pinned m) (xm_pool_profile m) (xm_active m) (xm_pool_label m) v
    (xm_paths m) (xm_latency m) (xm_last_error m) (xm_switch_reason m) (xm_last_switch_ms m)
    (xm_driver m) (xm_l2 m) (xm_l2_exhausted_label m) (xm_started_count m) (xm_events m)
    (xm_snapshot m).
Definition put_paths (v : list PathHealth) (m : xray_manager) : xray_manager :=
  mkXrayManager (xm_paused m) (xm_pinned m) (xm_pool_profile m) (xm_active m) (xm_pool_label m)
    (xm_pool_driven m) v (xm_latency m) (xm_last_error m) (xm_switch_reason m) (xm_last_switch_ms m)
    (xm_driver m) (xm_l2 m) (xm_l2_exhausted_label m) (xm_started_count m) (xm_events m)
    (xm_snapshot m).
Definition put_latency (v : list (option Z)) (m : xray_manager) : xray_manager :=
  mkXrayManager (xm_paused m) (xm_pinned m) (xm_pool_profile m) (xm_active m) (xm_pool_label m)
    (xm_pool_driven m) (xm_paths m) v (xm_last_error m) (xm_switch_reason m) (xm_last_switch_ms m)
    (xm_driver m) (xm_l2 m) (xm_l2_exhausted_label m) (xm_started_count m) (xm_events m)
    (xm_snapshot m).
Definition put_last_error (v : option string) (m : xray_manager) : xray_manager :=
  mkXrayManager (xm_paused m) (xm_pinned m) (xm_pool_profile m) (xm_active m) (xm_pool_label m)
    (xm_pool_driven m) (xm_paths m) (xm_latency m) v (xm_switch_reason m) (xm_last_switch_ms m)
    (xm_driver m) (xm_l2 m) (xm_l2_exhausted_label m) (xm_started_count m) (xm_events m)
    (xm_snapshot m).
Definition put_switch_reason (v : option string) (m : xray_manager) : xray_manager :=
  mkXrayManager (xm_paused m) (xm_pinned m) (xm_pool_profile m) (xm_active m) (xm_pool_label m)
    (xm_pool_driven m) (xm_paths m) (xm_latency m) (xm_last_error m) v (xm_last_switch_ms m)
    (xm_driver m) (xm_l2 m) (xm_l2_exhausted_label m) (xm_started_count m) (xm_events m)
    (xm_snapshot m).
Definition put_last_switch_ms (v : Z) (m : xray_manager) : xray_manager :=
  mkXrayManager (xm_paused m) (xm_pinned m) (xm_pool_profile m) (xm_active m) (xm_pool_label m)
    (xm_pool_driven m) (xm_paths m) (xm_latency m) (xm_last_error m) (xm_switch_reason m) v
    (xm_driver m) (xm_l2 m) (xm_l2_exhausted_label m) (xm_started_count m) (xm_events m)
    (xm_snapshot m).
Definition put_driver (v : option D) (m : xray_manager) : xray_manager :=
  mkXrayManager (xm_paused m) (xm_pinned m) (xm_pool_profile m) (xm_active m) (xm_pool_label m)
    (xm_pool_driven m) (xm_paths m) (xm_latency m) (xm_last_error m) (xm_switch_reason m)
    (xm_last_switch_ms m) v (xm_l2 m) (xm_l2_exhausted_label m) (xm_started_count m) (xm_events m)
    (xm_snapshot m).
Definition put_l2 (v : L2Recovery) (m : xray_manager) : xray_manager :=
  mkXrayManager (xm_paused m) (xm_pinned m) (xm_pool_profile m) (xm_active m) (xm_pool_label m)
    (xm_pool_driven m) (xm_paths m) (xm_latency m) (xm_last_error m) (xm_switch_reason m)
    (xm_last_switch_ms m) (xm_driver m) v (xm_l2_exhausted_label m) (xm_started_count m) (xm_events m)
    (xm_snapshot m).
Definition put_l2_exhausted_label (v : option string) (m : xray_manager) : xray_manager :=
  mkXrayManager (xm_paused m) (xm_pinned m) (xm_pool_profile m) (xm_active m) (xm_pool_label m)
    (xm_pool_driven m) (xm_paths m) (xm_latency m) (xm_last_error m) (xm_switch_reason m)
    (xm_last_switch_ms m) (xm_driver m) (xm_l2 m) v (xm_started_count m) (xm_events m) (xm_snapshot m).
Definition put_started_count (v : Z) (m : xray_manager) : xray_manager :=
  mkXrayManager (xm_paused m) (xm_pinned m) (xm_pool_profile m) (xm_active m) (xm_pool_label m)
    (xm_pool_driven m) (xm_paths m) (xm_latency m) (xm_last_error m) (xm_switch_reason m)
    (xm_last_switch_ms m) (xm_driver m) (xm_l2 m) (xm_l2_exhausted_label m) v (xm_events m)
    (xm_snapshot m).
Definition put_events (v : list XrayEvent) (m : xray_manager) : xray_manager :=
  mkXrayManager (xm_paused m) (xm_pinned m) (xm_pool_profile m) (xm_active m) (xm_pool_label m)
    (xm_pool_driven m) (xm_paths m) (xm_latency m) (xm_last_error m) (xm_switch_reason m)
    (xm_last_switch_ms m) (xm_driver m) (xm_l2 m) (xm_l2_exhausted_label m) (xm_started_count m) v
    (xm_snapshot m).
Definition put_snapshot (v : option XraySnapshot) (m : xray_manager) : xray_manager :=
  mkXrayManager (xm_paused m) (xm_pinned m) (xm_pool_profile m) (xm_active m) (xm_pool_label m)
    (xm_pool_driven m) (xm_paths m) (xm_latency m) (xm_last_error m) (xm_switch_reason m)
    (xm_last_switch_ms m) (xm_driver m) (xm_l2 m) (xm_l2_exhausted_label m) (xm_started_count m)
    (xm_events m) v.

(** An endpoint by index; indices come from [enabled_indices], [index_of] and [xm_active]. *)
Definition no_endpoint : XrayEndpoint :=
  mkEndpoint EmptyString EmptyString 0 EmptyString None XTcp XSecurityNone None None 0 false.
Definition endpoint_at (idx : nat) : XrayEndpoint := nth idx (st_endpoints st) no_endpoint.

Definition set_geo (geo : list string) (c : XrayConfig) : XrayConfig :=
  mkXrayConfig (xc_server c) (xc_port c) (xc_uuid c) (xc_flow c) (xc_transport c) (xc_security c)
    (xc_name c) (xc_socks_port c) (xc_http_port c) geo.

Definition endpoint_config (idx : nat) : XrayConfig :=
  set_geo (st_geo_domains st) (into_config (endpoint_at idx) (st_socks_port st) (st_http_port st)).

Definition xemit (e : XrayEvent) (m : xray_manager) : xray_manager := put_events (xm_events m ++ [e]) m.

(** Put a started driver in its slot; the one it replaces is dropped. *)
Definition install_driver (d : D) (m : xray_manager) (w : W) : xray_manager * W :=
  (put_driver (Some d) m, match xm_driver m with Some old => cd_drop old w | None => w end).

Definition start_endpoint (idx : nat) (m : xray_manager) (w : W) : xray_manager * W * (string + ()) :=
  match cd_start (cd_new (endpoint_config idx)) w with
  | (w, d, inl e) => (m, cd_drop d w, inl (driver_error_to_string e))
  | (w, d, inr _) =>
      let '(m, w) := install_driver d m w in
      let m := put_active (Some idx) m in
      let '(w, now) := cd_now_ms w in
      let m := put_started_count (wrap 64 (xm_started_count m + 1)) (put_last_switch_ms now m) in
      let '(w, now) := cd_now_ms w in
      let m := put_l2 (on_start now (xm_l2 m)) m in
      (xemit (XrayStarted (xe_name (endpoint_at idx))) m, w, inr ())
  end.

Definition start_config (c : XrayConfig) (label reason : string) (m : xray_manager) (w : W) :
    xray_manager * W * (string + ()) :=
  match cd_start (cd_new c) w with
  | (w, d, inl e) => (m, cd_drop d w, inl (driver_error_to_string e))
  | (w, d, inr _) =>
      let '(m, w) := install_driver d m w in
      let m := put_switch_reason (Some reason) (put_pool_label (Some label) (put_active None m)) in
      let '(w, now) := cd_now_ms w in
      let m := put_started_count (wrap 64 (xm_started_count m + 1)) (put_last_switch_ms now m) in
      let '(w, now) := cd_now_ms w in
      let m := put_l2_exhausted_label None (put_l2 (on_start now (xm_l2 m)) m) in
      (xemit (XrayStarted label) m, w, inr ())
  end.

Definition stop_driver (m : xray_manager) (w : W) : xray_manager * W :=
  match xm_driver m with
  | Some d =>
      let '(w, d, _) := cd_stop d w in
      (put_pool_label None (put_active None (put_driver None m)), cd_drop d w)
  | None => (m, w)
  end.

Definition active_name (m : xray_manager) : option string :=
  match xm_active m with Some i => Some (xe_name (endpoint_at i)) | None => xm_pool_label m end.

Definition switch_to_index (idx : nat) (reason : string) (m : xray_manager) (w : W) :
    xray_manager * W * (string + ()) :=
  let prev := active_name m in
  let '(m, w) := stop_driver m w in
  match start_endpoint idx m w with
  | (m, w, inl e) => (m, w, inl e)
  | (m, w, inr _) =>
      let m := put_switch_reason (Some reason) (put_paths (alter reset idx (xm_paths m)) m) in
      let '(w, now) := cd_now_ms w in
      let m := put_last_switch_ms now m in
      (xemit (XraySwitched prev (xe_name (endpoint_at idx)) reason) m, w, inr ())
  end.

Definition switch_to (name reason : string) (m : xray_manager) (w : W) : xray_manager * W * (string + ()) :=
  match index_of (st_endpoints st) name with
  | None => (m, w, inl ("unknown xray profile '" +:+ name +:+ "'"))
  | Some idx => switch_to_index idx reason m w
  end.

Definition ensure_running (m : xray_manager) (w : W) : xray_manager * W * (string + ()) :=
  match xm_pool_profile m with
  | Some p =>
      let m := put_pool_driven true m in
      match profile_to_xray_config p (st_socks_port st) (st_http_port st) with
      | inl e => (m, w, inl ("vpn pool profile invalid: " +:+ e))
      | inr c =>
          let label := pool_name p in
          let running := match xm_driver m with Some _ => true | None => false end in
          if running && bool_decide (xm_pool_label m = Some label) then (m, w, inr ())
          else if bool_decide (xm_l2_exhausted_label m = Some label) then (m, w, inr ())
          else start_config (set_geo (st_geo_domains st) c) label "vpn pool selected" m w
      end
  | None =>
      if xm_pool_driven m then
        match xm_driver m with
        | Some _ => let '(m, w) := stop_driver m w in (m, w, inr ())
        | None => (m, w, inr ())
        end
      else
        match xm_active m, xm_driver m with
        | Some i, Some _ =>
            match xm_pinned m with
            | Some pinned =>
                if bool_decide (Some i = index_of (st_endpoints st) pinned) then (m, w, inr ())
                else switch_to pinned "manual override" m w
            | None => (m, w, inr ())
            end
        | _, _ =>
            match xm_pinned m ≫= index_of (st_endpoints st) with
            | Some idx => start_endpoint idx m w
            | None =>
                match preferred (st_endpoints st) with
                | Some idx => start_endpoint idx m w
                | None => (m, w, inl "no enabled Xray endpoints configured"%string)
                end
            end
        end
  end.

(** ** Failover of static endpoints *)

Definition failover (idx : nat) (reasons : string) (m : xray_manager) (w : W) : xray_manager * W * option string :=
  let name := xe_name (endpoint_at idx) in
  match failover_target (st_endpoints st) idx with
  | Some next =>
      if Nat.eqb next idx then (m, w, Some name)
      else
        let reason :=
          if is_empty_str reasons then "endpoint '" +:+ name +:+ "' failed health probes"
          else "endpoint '" +:+ name +:+ "' failing: " +:+ reasons in
        let m := if bool_decide (xm_pinned m = Some name) then put_pinned None m else m in
        match switch_to_index next reason m w with
        | (m, w, inl _) => (m, w, Some name)
        | (m, w, inr _) => (m, w, Some (xe_name (endpoint_at next)))
        end
  | None => (m, w, Some name)
  end.

Definition health_and_failover (m : xray_manager) (w : W) : xray_manager * W * option string :=
  match xm_active m, xm_driver m with
  | Some idx, Some d =>
      let sample := match cd_health d w with HsHealthy => PathSample_healthy | _ => PathSample_failure end in
      let name := xe_name (endpoint_at idx) in
      match xm_paths m !! idx with
      | None => (m, w, None)
      | Some path =>
          let '(w, now) := cd_instant w in
          let '(w, now') := cd_instant w in
          let path' := (observe path sample now now').1 in
          let m := put_paths (<[idx := path']> (xm_paths m)) m in
          let m := if String.eqb (label (h_state path')) (label (h_state path)) then m
                   else xemit (XrayHealthChanged name (v_state (view path'))) m in
          if bool_decide (h_state path' = Failing)
          then failover idx (join_with "; " (map reason_line (v_reasons (view path')))) m w
          else (m, w, Some name)
      end
  | _, _ => (m, w, None)
  end.

(** ** Supervision of the pool's profile *)

Definition restart_active_driver (m : xray_manager) (w : W) : xray_manager * W :=
  let label := xm_pool_label m in
  match xm_driver m with
  | None => (m, w)
  | Some d =>
      match cd_restart d w with
      | (w, d, inr _) =>
          let m := put_driver (Some d) m in
          let '(w, now) := cd_now_ms w in
          let m := put_last_switch_ms now m in
          let '(w, now) := cd_now_ms w in
          let m := put_started_count (wrap 64 (xm_started_count m + 1)) (put_l2 (on_restart now (xm_l2 m)) m) in
          (xemit (XrayStarted (default "active"%string label)) m, w)
      | (w, d, inl e) =>
          (put_last_error (Some ("L2 driver restart failed: " +:+ driver_error_to_string e))
             (put_driver (Some d) m), w)
      end
  end.

Definition exhaust_recovery (m : xray_manager) (w : W) : xray_manager * W :=
  let label := default "active"%string (xm_pool_label m) in
  let '(m, w) := stop_driver m w in
  (xemit (XrayErrorEvent ("L2 recovery exhausted: active runtime '" +:+ label +:+ "' stopped (traffic direct)"))
     (put_l2_exhausted_label (Some label) m), w).

Definition l2_watchdog (now : Z) (m : xray_manager) (w : W) : xray_manager * W :=
  match xm_driver m with
  | None => (m, w)
  | Some d =>
      let status := cd_health d w in
      if negb (xm_pool_driven m) then (m, w)
      else
        let '(l2, action) := l2_observe status now (xm_l2 m) in
        let m := put_l2 l2 m in
        match action with
        | L2None | L2Grace => (m, w)
        | L2Restart => restart_active_driver m w
        | L2Exhaust => exhaust_recovery m w
        end
  end.

(** ** Publication and the loop *)

Definition debug_transport (t : XrayTransport) : string :=
  match t with
  | XTcp => "Tcp"
  | XWebSocket path host => "WebSocket { path: " +:+ debug_str path +:+ ", host: " +:+ debug_opt host +:+ " }"
  | XGrpc s => "Grpc { service_name: " +:+ debug_str s +:+ " }"
  | XHttpUpgrade path host => "HttpUpgrade { path: " +:+ debug_str path +:+ ", host: " +:+ debug_opt host +:+ " }"
  | XXhttp path host mode extra =>
      "Xhttp { path: " +:+ debug_str path +:+ ", host: " +:+ debug_opt host +:+ ", mode: " +:+
      debug_opt mode +:+ ", extra: " +:+ debug_opt extra +:+ " }"
  end.

Definition profile_view (m : xray_manager) (i : nat) (e : XrayEndpoint) : XrayProfileView :=
  let path := from_option view PathHealthView_default (xm_paths m !! i) in
  let health :=
    if String.eqb (v_state path) "healthy" then "Healthy"
    else if String.eqb (v_state path) "degraded" then "Degraded"
    else if String.eqb (v_state path) "failing" then "Unhealthy" else "Unknown" in
  mkXrayView (xe_name e) (xe_server e) (xe_port e) (debug_transport (xe_transport e))
    (match xe_security e with XSecurityNone => false | _ => true end) (xe_priority e) (xe_enabled e)
    (bool_decide (xm_active m = Some i)) health (v_consecutive_failures path)
    (default None (xm_latency m !! i)) path.

Definition xray_snapshot (m : xray_manager) : XraySnapshot :=
  mkXraySnapshot (imap (profile_view m) (st_endpoints st)) ((fun i => xe_name (endpoint_at i)) <$> xm_active m)
    (xm_paused m) (xm_pinned m) (xm_last_error m) (st_socks_port st) (st_http_port st)
    (xm_switch_reason m) (xm_last_switch_ms m).

Definition probe_latencies (m : xray_manager) (w : W) : xray_manager :=
  put_latency (imap (fun i old =>
    match st_endpoints st !! i with
    | Some e => if xe_enabled e then cd_latency (xe_server e) (xe_port e) w else old
    | None => old
    end) (xm_latency m)) m.

Definition xray_turn (m : xray_manager) (w : W) : xray_manager * W :=
  let '(m, w) :=
    if xm_paused m then
      match xm_driver m with
      | Some _ => let '(m, w) := stop_driver m w in (xemit XrayStopped m, w)
      | None => (m, w)
      end
    else
      let '(m, w) :=
        match ensure_running m w with
        | (m, w, inr _) => (m, w)
        | (m, w, inl e) => (xemit (XrayErrorEvent e) (put_last_error (Some e) m), w)
        end in
      match xm_driver m with
      | Some _ =>
          let '(w, now) := cd_now_ms w in
          if xm_pool_driven m then l2_watchdog now m w
          else let '(m, w, _) := health_and_failover m w in (m, w)
      | None => (m, w)
      end in
  let m := probe_latencies m w in
  (put_snapshot (Some (xray_snapshot m)) m, w).

(** The control handle. *)
Definition xray_select (profile : string) (m : xray_manager) : xray_manager := put_pinned (Some profile) m.
Definition rotate_next (enabled_names : list string) (m : xray_manager) : xray_manager :=
  match next_enabled (xm_pinned m) enabled_names with
  | Some next => put_pinned (Some next) m
  | None => m
  end.
Definition apply_pool_profile (p : option VpnProfile) (m : xray_manager) : xray_manager := put_pool_profile p m.

Definition fresh_manager (paths : list PathHealth) : xray_manager :=
  mkXrayManager false None None None None false paths (map (fun _ => None) paths) None None 0 None
    (L2Recovery_new L2RecoveryConfig_default) None 0 [] None.
End Manager.

Arguments xray_manager D : clear implicits.

(** [xray_from_toml]: the static part and the initial state, or the reason of the refusal. *)
Definition xray_from_toml {D} (c : XrayToml) : string + XrayStatic * xray_manager D :=
  match toml_validate c with
  | inl e => inl e
  | inr _ =>
      inr (mkStatic (xt_profiles c) (toml_socks c) (toml_http c) (xt_geo_domains c),
           fresh_manager (map (fun _ => PathHealth_new (path_config_for c)) (xt_profiles c)))
  end.

(** ** What the driver promises *)

Class ComponentDriverOk (W D : Type) {driver : ComponentDriver W D} := {
  cd_config : D -> XrayConfig;
  cd_new_ok : forall c, cd_config (cd_new c) = c;
  cd_start_ok : forall d w, let '(_, d', r) := cd_start d w in
    cd_config d' = cd_config d /\ (r = inr () -> xray_validate (cd_config d) = inr ());
  cd_restart_ok : forall d w, let '(_, d', _) := cd_restart d w in cd_config d' = cd_config d
}.

(** ** What the manager keeps *)

Section Invariant.
Context {W D : Type} {driver : ComponentDriver W D} {driver_ok : ComponentDriverOk W D}.
Context (reason_line : reason -> string) (st : XrayStatic).
(** What the profiles handed over by the pool have. *)
Context (Q : VpnProfile -> Prop).

(** The configuration the pool asks for. *)
Definition pool_config_of (p : VpnProfile) (c : XrayConfig) : Prop :=
  exists c0, profile_to_xray_config p (st_socks_port st) (st_http_port st) = inr c0 /\
    c = set_geo (st_geo_domains st) c0.

(** What runs: an endpoint of the file, or a profile of the pool under its name. *)
Definition runs (m : xray_manager D) (d : D) : Prop :=
  xray_validate (cd_config d) = inr () /\
  match xm_active m with
  | Some i => (i < length (st_endpoints st))%nat /\ cd_config d = endpoint_config st i /\ xm_pool_label m = None
  | None => xm_pool_driven m = true /\
      exists p, Q p /\ pool_config_of p (cd_config d) /\ xm_pool_label m = Some (pool_name p)
  end.

Record xinv (m : xray_manager D) : Prop := {
  xi_paths : length (xm_paths m) = length (st_endpoints st);
  xi_latency : length (xm_latency m) = length (st_endpoints st);
  xi_driver : match xm_driver m with
              | Some d => runs m d /\ xm_l2_exhausted_label m = None
              | None => xm_active m = None /\ xm_pool_label m = None
              end;
  xi_static : xm_pool_driven m = false -> xm_l2_exhausted_label m = None;
  xi_pool : forall p, xm_pool_profile m = Some p -> Q p
}.

(** The parts a step leaves alone. *)
Definition same_control (m m' : xray_manager D) : Prop :=
  xm_paused m' = xm_paused m /\ xm_pool_profile m' = xm_pool_profile m /\ xm_pool_driven m' = xm_pool_driven m.

Definition adds_events (m m' : xray_manager D) : Prop := exists es, xm_events m' = xm_events m ++ es.

Lemma adds_refl m : adds_events m m.
Proof. exists []. by rewrite app_nil_r. Qed.

Lemma same_refl m : same_control m m.
Proof. done. Qed.

Lemma start_endpoint_inv idx m w :
  xinv m -> xm_driver m = None -> xm_pool_driven m = false -> (idx < length (st_endpoints st))%nat ->
  let '(m', _, r) := start_endpoint st idx m w in
  xinv m' /\ same_control m m' /\ adds_events m m' /\ xm_paths m' = xm_paths m /\
  match r with
  | inr _ => xm_active m' = Some idx /\ is_Some (xm_driver m')
  | inl _ => m' = m
  end.
Proof.
  intros I Hd Hp Hi. pose proof I as [P L Dr S Hq]. unfold start_endpoint, install_driver. rewrite Hd in Dr |- *.
  pose proof (cd_start_ok (cd_new (endpoint_config st idx)) w) as Hs.
  destruct (cd_start _ w) as [[w1 d] [e|[]]]; [by auto using adds_refl, same_refl|].
  destruct (cd_now_ms w1) as [w2 n1]. cbn. destruct (cd_now_ms w2) as [w3 n2]. cbn.
  rewrite cd_new_ok in Hs. destruct Hs as [Hc Hv].
  split; [split; cbn; auto|by repeat split; eauto; eexists].
  split; [|by apply S]. split; [by rewrite Hc; apply Hv|]. cbn. by destruct Dr.
Qed.

Lemma start_config_inv p c m w :
  xinv m -> xm_pool_driven m = true -> Q p -> pool_config_of p c ->
  let '(m', _, r) := start_config c (pool_name p) "vpn pool selected" m w in
  xinv m' /\ same_control m m' /\ adds_events m m' /\
  match r with
  | inr _ => exists d, xm_driver m' = Some d /\ cd_config d = c /\ xm_pool_label m' = Some (pool_name p)
  | inl _ => m' = m
  end.
Proof.
  intros I Hp HQ Hc. pose proof I as [P L Dr S Hq]. unfold start_config, install_driver.
  pose proof (cd_start_ok (cd_new c) w) as Hs.
  destruct (cd_start _ w) as [[w1 d] [e|[]]]; [by auto using adds_refl, same_refl|].
  cbn. destruct (cd_now_ms _) as [w2 n1]. cbn. destruct (cd_now_ms w2) as [w3 n2]. cbn.
  rewrite cd_new_ok in Hs. destruct Hs as [Hcd Hv].
  split; [split; cbn; auto|by repeat split; eauto; eexists].
  split; [|done]. split; [by rewrite Hcd; apply Hv|]. cbn. split; [done|]. exists p. by rewrite Hcd.
Qed.

Lemma stop_driver_inv m w :
  xinv m ->
  let '(m', _) := stop_driver m w in
  xinv m' /\ same_control m m' /\ adds_events m m' /\ xm_driver m' = None /\ xm_paths m' = xm_paths m /\
  xm_l2_exhausted_label m' = xm_l2_exhausted_label m /\ xm_pinned m' = xm_pinned m.
Proof.
  intros I. pose proof I as [P L Dr S Hq]. unfold stop_driver.
  destruct (xm_driver m) as [d|] eqn:E; [|by do 6 (split; [done||apply adds_refl|])].
  destruct (cd_stop d w) as [[w1 d'] r]. cbn. split; [by split|]. repeat split.
  exists []. by rewrite app_nil_r.
Qed.

Lemma same_trans m1 m2 m3 : same_control m1 m2 -> same_control m2 m3 -> same_control m1 m3.
Proof. unfold same_control. intuition congruence. Qed.

Lemma adds_trans m1 m2 m3 : adds_events m1 m2 -> adds_events m2 m3 -> adds_events m1 m3.
Proof. intros [a Ha] [b Hb]. exists (a ++ b). by rewrite Hb, Ha, app_assoc. Qed.

Lemma xemit_inv e m : xinv m -> xinv (xemit e m) /\ same_control m (xemit e m) /\ adds_events m (xemit e m).
Proof. intros [P L Dr S Hq]. split; [by split|]. split; [done|]. by exists [e]. Qed.

Lemma switch_inv idx why m w :
  xinv m -> xm_pool_driven m = false -> (idx < length (st_endpoints st))%nat ->
  let '(m', _, r) := switch_to_index st idx why m w in
  xinv m' /\ same_control m m' /\ adds_events m m' /\
  match r with inr _ => xm_active m' = Some idx | inl _ => xm_driver m' = None end.
Proof.
  intros I Hp Hi. unfold switch_to_index. pose proof (stop_driver_inv m w I) as H.
  destruct (stop_driver m w) as [m1 w1]. destruct H as (I1 & C1 & A1 & N1 & _).
  assert (Hp1 : xm_pool_driven m1 = false) by (destruct C1 as (_ & _ & ->); done).
  pose proof (start_endpoint_inv idx m1 w1 I1 N1 Hp1 Hi) as H.
  destruct (start_endpoint st idx m1 w1) as [[m2 w2] r]. destruct H as ([P L Dr S Hq] & C2 & A2 & E2 & H2).
  destruct r as [e|[]]; [by subst m2; eauto using same_trans, adds_trans|].
  cbn. destruct (cd_now_ms w2) as [w3 n3]. cbn.
  split; [split; cbn; [by rewrite length_alter|done..]|].
  split; [by eapply same_trans|]. split; [|by destruct H2].
  eapply adds_trans; [exact A1|]. eapply adds_trans; [exact A2|]. by eexists.
Qed.

Lemma enabled_in_range i : In i (enabled_indices (st_endpoints st)) -> (i < length (st_endpoints st))%nat.
Proof. unfold enabled_indices. rewrite sort_by_in, filter_In, in_seq. lia. Qed.

Lemma index_in_range name i : index_of (st_endpoints st) name = Some i -> (i < length (st_endpoints st))%nat.
Proof.
  unfold index_of. intros ([j e] & (Hl & _)%list_find_Some & ->)%fmap_Some. cbn. by eapply lookup_lt_Some.
Qed.

Lemma head_in {A} (l : list A) x : head l = Some x -> In x l.
Proof. destruct l; [done|]. intros [= ->]. by left. Qed.

(** A configuration that already ran under the name of a profile: that of a profile the pool
    handed over under the same label and endpoint, its other settings maybe older. *)
Definition kept (m : xray_manager D) (p : VpnProfile) (c : XrayConfig) : Prop :=
  exists d p', xm_driver m = Some d /\ cd_config d = c /\ xm_pool_label m = Some (pool_name p) /\
    Q p' /\ pool_name p' = pool_name p /\ pool_config_of p' c.

(** Who runs after [ensure_running]: the profile of the pool, nobody when the pool has
    cleared its choice. *)
Definition pool_result (m m' : xray_manager D) (r : string + ()) : Prop :=
  match xm_pool_profile m, r with
  | Some p, inr _ =>
      (xm_driver m' = None /\ xm_l2_exhausted_label m' = Some (pool_name p)) \/
      exists d, xm_driver m' = Some d /\ xm_pool_label m' = Some (pool_name p) /\
        (pool_config_of p (cd_config d) \/ kept m p (cd_config d))
  | Some _, inl _ => True
  | None, _ => xm_pool_driven m = true -> xm_driver m' = None
  end.

Lemma put_pool_driven_inv m : xinv m -> xinv (put_pool_driven true m).
Proof.
  intros [P L Dr S Hq]. split; cbn; try done. destruct (xm_driver m) as [d|]; [|done].
  destruct Dr as [[V R] E]. split; [split; [done|]|done]. cbn.
  destruct (xm_active m); [done|]. split; [done|apply R].
Qed.

Lemma ensure_running_inv m w :
  xinv m ->
  let '(m', _, r) := ensure_running st m w in
  xinv m' /\ adds_events m m' /\ xm_paused m' = xm_paused m /\ xm_pool_profile m' = xm_pool_profile m /\
  xm_pool_driven m' = (match xm_pool_profile m with Some _ => true | None => xm_pool_driven m end) /\
  pool_result m m' r.
Proof.
  intros I. unfold ensure_running, pool_result. destruct (xm_pool_profile m) as [p|] eqn:Ep.
  - pose proof (put_pool_driven_inv m I) as I'. set (m0 := put_pool_driven true m) in *.
    assert (A0 : adds_events m m0) by (exists []; by rewrite app_nil_r).
    destruct (profile_to_xray_config p _ _) as [e|c] eqn:Ec; [done|].
    change (xm_driver m0) with (xm_driver m). change (xm_pool_label m0) with (xm_pool_label m).
    change (xm_l2_exhausted_label m0) with (xm_l2_exhausted_label m).
    pose proof I as [_ _ Dr _ _].
    destruct (match xm_driver m with Some _ => true | None => false end && _) eqn:B1.
    { apply andb_true_iff in B1 as [B1 B2%bool_decide_eq_true]. do 5 (split; [done|]). right.
      destruct (xm_driver m) as [d|] eqn:Ed; [|done]. exists d. split; [exact Ed|]. split; [exact B2|right].
      destruct Dr as [[_ R] _]. destruct (xm_active m) as [i|]; [destruct R as (_ & _ & R); congruence|].
      destruct R as [_ (p' & Hq & Hc & Hl)]. exists d, p'. rewrite Ed.
      do 4 (split; [done|]). split; [congruence|done]. }
    destruct (bool_decide (xm_l2_exhausted_label m = _)) eqn:B2.
    { apply bool_decide_eq_true in B2. do 5 (split; [done|]). left. split; [|exact B2].
      change (xm_driver m0) with (xm_driver m). destruct (xm_driver m); [|done]. destruct Dr; congruence. }
    pose proof (start_config_inv p (set_geo (st_geo_domains st) c) m0 w I' eq_refl (xi_pool m I p Ep)
      (ex_intro _ c (conj Ec eq_refl))) as H.
    destruct (start_config _ _ _ m0 w) as [[m1 w1] r]. destruct H as (I1 & (C1 & C2 & C3) & A1 & H1).
    split; [done|]. split; [exact (adds_trans _ _ _ A0 A1)|].
    rewrite C1, C2, C3. split; [done|]. split; [exact Ep|]. split; [done|].
    destruct r as [e|[]]; [done|]. right. destruct H1 as (d & H1 & H2 & H3). exists d.
    do 2 (split; [done|]). left. rewrite H2. by exists c.
  - destruct (xm_pool_driven m) eqn:Hp.
    + pose proof (stop_driver_inv m w I) as H. destruct (xm_driver m) eqn:Ed;
        [|by auto 10 using adds_refl].
      destruct (stop_driver m w) as [m1 w1]. destruct H as (I1 & (C1 & C2 & C3) & A1 & N1 & _).
      rewrite C1, C2, C3. auto 10.
    + assert (Hst : forall idx, xm_driver m = None -> (idx < length (st_endpoints st))%nat ->
        let '(m', _, r) := start_endpoint st idx m w in
        xinv m' /\ adds_events m m' /\ xm_paused m' = xm_paused m /\ xm_pool_profile m' = None /\
        xm_pool_driven m' = false /\ (false = true -> xm_driver m' = None)).
      { intros idx Hd Hi. pose proof (start_endpoint_inv idx m w I Hd Hp Hi) as H.
        destruct (start_endpoint st idx m w) as [[m1 w1] r].
        destruct H as (I1 & (C1 & C2 & C3) & A1 & _). rewrite C1, C2, C3, Ep, Hp. by do 5 (split; [done|]). }
      assert (Hrun : match xm_pinned m ≫= index_of (st_endpoints st) with
        | Some idx => (idx < length (st_endpoints st))%nat | None => True end).
      { destruct (xm_pinned m) as [n|]; [|done]. cbn. destruct (index_of _ n) eqn:E; [|done].
        by eapply index_in_range. }
      pose proof I as [_ _ Dr _ _].
      destruct (xm_driver m) as [d|] eqn:Ed.
      * destruct Dr as [[_ R] _]. destruct (xm_active m) as [i|] eqn:Ea; [|destruct R; congruence].
        destruct (xm_pinned m) as [pinned|]; [|by do 5 (split; [done || apply adds_refl|])].
        destruct (bool_decide _); [by do 5 (split; [done || apply adds_refl|])|]. cbn in Hrun. unfold switch_to.
        destruct (index_of _ pinned) as [idx|]; [|by do 5 (split; [done || apply adds_refl|])].
        pose proof (switch_inv idx "manual override" m w I Hp Hrun) as H.
        destruct (switch_to_index st idx _ m w) as [[m1 w1] r].
        destruct H as (I1 & (C1 & C2 & C3) & A1 & _). rewrite C1, C2, C3, Ep, Hp. by do 5 (split; [done|]).
      * destruct Dr as [Ea _]. rewrite Ea. destruct (xm_pinned m ≫= _) as [idx|]; [by apply Hst|].
        destruct (preferred (st_endpoints st)) as [idx|] eqn:Epr; [|by do 5 (split; [done || apply adds_refl|])].
        apply Hst; [done|]. apply enabled_in_range. by apply head_in.
Qed.

Lemma failover_inv idx text m w :
  xinv m -> xm_pool_driven m = false ->
  let '(m', _, _) := failover st idx text m w in xinv m' /\ same_control m m' /\ adds_events m m'.
Proof.
  intros I Hp. unfold failover. destruct (failover_target _ idx) as [next|] eqn:E;
    [|by auto using same_refl, adds_refl].
  destruct (Nat.eqb next idx); [by auto using same_refl, adds_refl|].
  set (m1 := if bool_decide _ then put_pinned None m else m).
  assert (H1 : xinv m1 /\ same_control m m1 /\ adds_events m m1).
  { unfold m1. destruct (bool_decide _); [|by auto using same_refl, adds_refl].
    destruct I. split; [by split|]. split; [done|]. exists []. by rewrite app_nil_r. }
  destruct H1 as (I1 & C1 & A1).
  assert (Hn : (next < length (st_endpoints st))%nat).
  { apply enabled_in_range. unfold failover_target in E.
    destruct (List.find _ _) eqn:F in E; [|by apply head_in].
    injection E as ->. by apply List.find_some in F as [? _]. }
  pose proof (switch_inv next (if is_empty_str text
     then "endpoint '" +:+ xe_name (endpoint_at st idx) +:+ "' failed health probes"
     else "endpoint '" +:+ xe_name (endpoint_at st idx) +:+ "' failing: " +:+ text) m1 w I1
     ltac:(by destruct C1 as (_ & _ & ->)) Hn) as H.
  destruct (switch_to_index st next _ m1 w) as [[m2 w2] [e|[]]]; destruct H as (I2 & C2 & A2 & _);
    eauto using same_trans, adds_trans.
Qed.

Lemma health_inv m w :
  xinv m -> xm_pool_driven m = false ->
  let '(m', _, _) := health_and_failover reason_line st m w in xinv m' /\ same_control m m' /\ adds_events m m'.
Proof.
  intros I Hp. unfold health_and_failover.
  destruct (xm_active m) as [idx|]; [|by auto using same_refl, adds_refl].
  destruct (xm_driver m) as [d|] eqn:Ed; [|by auto using same_refl, adds_refl].
  destruct (xm_paths m !! idx) as [path|]; [|by auto using same_refl, adds_refl].
  destruct (cd_instant w) as [w1 n1]. destruct (cd_instant w1) as [w2 n2].
  set (path' := (observe path _ n1 n2).1).
  set (m1 := put_paths (<[idx := path']> (xm_paths m)) m).
  set (m2 := if String.eqb _ _ then m1 else _).
  assert (I1 : xinv m1).
  { destruct I as [P L Dr S Hq]. split; cbn; try done. by rewrite length_insert. }
  assert (H2 : xinv m2 /\ same_control m m2 /\ adds_events m m2).
  { unfold m2. destruct (String.eqb _ _).
    - split; [done|]. split; [done|]. exists []. by rewrite app_nil_r.
    - destruct (xemit_inv (XrayHealthChanged (xe_name (endpoint_at st idx)) (v_state (view path'))) m1 I1)
        as (I2 & C2 & A2). done. }
  destruct H2 as (I2 & C2 & A2). destruct (bool_decide _); [|done].
  assert (Hp2 : xm_pool_driven m2 = false) by (destruct C2 as (_ & _ & ->); done).
  pose proof (failover_inv idx (join_with "; " (map reason_line (v_reasons (view path')))) m2 w2 I2 Hp2) as H.
  destruct (failover st idx _ m2 w2) as [[m3 w3] o]. destruct H as (I3 & C3 & A3).
  eauto using same_trans, adds_trans.
Qed.

(** The supervisor keeps the configuration or stops the driver. *)
Definition supervised (m m' : xray_manager D) : Prop :=
  (exists d d', xm_driver m = Some d /\ xm_driver m' = Some d' /\ cd_config d' = cd_config d /\
     xm_pool_label m' = xm_pool_label m) \/
  (xm_driver m' = None /\ exists e, In (XrayErrorEvent e) (drop (length (xm_events m)) (xm_events m'))).

Lemma watchdog_inv now m w d :
  xinv m -> xm_driver m = Some d -> xm_pool_driven m = true ->
  let '(m', _) := l2_watchdog now m w in
  xinv m' /\ same_control m m' /\ adds_events m m' /\ supervised m m'.
Proof.
  intros I Hd Hp. unfold l2_watchdog. rewrite Hd, Hp. cbn [negb].
  destruct (l2_observe (cd_health d w) now (xm_l2 m)) as [l2 action].
  set (m1 := put_l2 l2 m).
  assert (I1 : xinv m1) by (destruct I; by split).
  assert (K : xinv m1 /\ same_control m m1 /\ adds_events m m1 /\ supervised m m1).
  { split; [done|]. split; [done|]. split; [exists []; by rewrite app_nil_r|].
    left. exists d, d. rewrite Hd. done. }
  destruct action; [exact K|exact K|..].
  - unfold restart_active_driver. change (xm_driver m1) with (xm_driver m). rewrite Hd.
    pose proof (cd_restart_ok d w) as Hr. destruct (cd_restart d w) as [[w1 d'] r].
    pose proof I as [P L Dr S Hq]. rewrite Hd in Dr. destruct Dr as [[V R] E]. unfold m1.
    assert (R' : forall m', xm_driver m' = Some d' -> xm_active m' = xm_active m ->
      xm_pool_label m' = xm_pool_label m -> xm_pool_driven m' = xm_pool_driven m -> runs m' d').
    { intros m' _ Ea El Ep. unfold runs. rewrite Ea, El, Ep, Hr. done. }
    destruct r as [e|[]].
    + split; [split; cbn; try done; by split; [apply R'|]|]. split; [done|].
      split; [exists []; by rewrite app_nil_r|]. left. exists d, d'. rewrite Hd, Hr. done.
    + cbn. destruct (cd_now_ms w1) as [w2 n1]. cbn. destruct (cd_now_ms w2) as [w3 n2]. cbn.
      split; [split; cbn; try done; by split; [apply R'|]|]. split; [done|].
      split; [by eexists|]. left. exists d, d'. cbn. rewrite Hd, Hr. done.
  - unfold exhaust_recovery. pose proof (stop_driver_inv m1 w I1) as H.
    destruct (stop_driver m1 w) as [m2 w2].
    destruct H as ([P2 L2 D2 S2 Hq2] & (C1 & C2 & C3) & [es A2] & N2 & E2 & X2 & Y2).
    change (xm_pool_driven m1) with (xm_pool_driven m) in C3. change (xm_events m1) with (xm_events m) in A2.
    split. { split; cbn; try done; [by rewrite N2 in D2 |- *|]. congruence. }
    split; [done|]. split; [eexists; cbn; rewrite A2, <- app_assoc; reflexivity|]. right. split; [done|].
    eexists. cbn. rewrite A2, <- app_assoc, drop_app_length. apply in_app_iff. right. by left.
Qed.

(** What a turn does about who runs. *)
Record xray_effect (m m' : xray_manager D) : Prop := {
  xf_paused : xm_paused m = true -> xm_driver m' = None;
  xf_cleared : xm_pool_profile m = None -> xm_pool_driven m = true -> xm_driver m' = None;
  xf_pool : forall p, xm_paused m = false -> xm_pool_profile m = Some p ->
    (exists e, In (XrayErrorEvent e) (drop (length (xm_events m)) (xm_events m'))) \/
    (xm_driver m' = None /\ xm_l2_exhausted_label m' = Some (pool_name p)) \/
    (exists d, xm_driver m' = Some d /\ xm_pool_label m' = Some (pool_name p) /\
       (pool_config_of p (cd_config d) \/ kept m p (cd_config d)))
}.

Lemma error_stays (m m1 m2 : xray_manager D) e :
  adds_events m m1 -> adds_events m1 m2 ->
  In (XrayErrorEvent e) (drop (length (xm_events m)) (xm_events m1)) ->
  In (XrayErrorEvent e) (drop (length (xm_events m)) (xm_events m2)).
Proof.
  intros [a Ha] [b Hb]. rewrite Hb, Ha, <- app_assoc, !drop_app_length. rewrite in_app_iff. by left.
Qed.

Lemma error_later (m m1 m2 : xray_manager D) e :
  adds_events m m1 ->
  In (XrayErrorEvent e) (drop (length (xm_events m1)) (xm_events m2)) ->
  In (XrayErrorEvent e) (drop (length (xm_events m)) (xm_events m2)).
Proof.
  intros [a Ha]. rewrite Ha, length_app, <- drop_drop. intros H.
  rewrite <- (take_drop (length a) (drop (length (xm_events m)) (xm_events m2))), in_app_iff. by right.
Qed.

(** The last step of a turn changes neither the driver nor the events. *)
Lemma publish_inv m w :
  xinv m -> let m' := put_snapshot (Some (xray_snapshot st (probe_latencies st m w))) (probe_latencies st m w) in
  xinv m' /\ xm_driver m' = xm_driver m /\ xm_events m' = xm_events m /\
  xm_pool_label m' = xm_pool_label m /\ xm_l2_exhausted_label m' = xm_l2_exhausted_label m.
Proof.
  intros [P L Dr S Hq]. split; [|done]. split; cbn; try done. by rewrite length_imap.
Qed.

Lemma supervised_effect m m2 m3 :
  xm_paused m = false -> adds_events m m2 -> adds_events m2 m3 -> is_Some (xm_driver m2) ->
  xray_effect m m2 -> supervised m2 m3 -> xray_effect m m3.
Proof.
  intros Hpa A2 A3 [d Hd] [E1 E2 E3] Sup. split; [congruence|..].
  - intros Hn Hm. specialize (E2 Hn Hm). congruence.
  - intros p Hq Hp. destruct (E3 p Hq Hp) as [[e He]|[[He _]|(d1 & H1 & H2 & H3)]]; [|congruence|].
    + left. exists e. by apply (error_stays m m2 m3 e A2 A3).
    + destruct Sup as [(d0 & d' & S1 & S2 & S3 & S4)|(_ & e & He)].
      * right. right. exists d'. split; [done|]. split; [congruence|]. rewrite S3.
        assert (d0 = d1) as -> by congruence. done.
      * left. exists e. by apply (error_later m m2 m3 e A2).
Qed.

Lemma turn_spec m w :
  xinv m -> let '(m', _) := xray_turn reason_line st m w in xinv m' /\ xray_effect m m'.
Proof.
  intros I. unfold xray_turn.
  assert (Fin : forall m1 w1, xinv m1 -> xray_effect m m1 ->
    let m' := put_snapshot (Some (xray_snapshot st (probe_latencies st m1 w1))) (probe_latencies st m1 w1) in
    xinv m' /\ xray_effect m m').
  { intros m1 w1 I1 [E1 E2 E3]. by split; [apply publish_inv|split]. }
  destruct (xm_paused m) eqn:Hpa.
  { pose proof (stop_driver_inv m w I) as H. destruct (xm_driver m) as [d|] eqn:Hd.
    - destruct (stop_driver m w) as [m1 w1]. destruct H as (I1 & C1 & A1 & N1 & _).
      apply Fin; [by apply xemit_inv|]. by split; [done|done|congruence].
    - apply Fin; [done|]. split; [done|done|congruence]. }
  pose proof (ensure_running_inv m w I) as H. destruct (ensure_running st m w) as [[m1 w1] r].
  destruct H as (I1 & A1 & _ & _ & Hp1 & Hr).
  set (m2 := match r with inl e => xemit (XrayErrorEvent e) (put_last_error (Some e) m1) | inr _ => m1 end).
  assert (H2 : xinv m2 /\ adds_events m m2 /\ xm_driver m2 = xm_driver m1 /\ xm_pool_label m2 = xm_pool_label m1 /\
    xm_l2_exhausted_label m2 = xm_l2_exhausted_label m1 /\ xm_pool_driven m2 = xm_pool_driven m1 /\
    (forall e, r = inl e -> In (XrayErrorEvent e) (drop (length (xm_events m)) (xm_events m2)))).
  { unfold m2. destruct r as [e|[]]; [|done]. destruct I1. split; [by split|].
    destruct A1 as [es A1]. split; [eexists; cbn; rewrite A1, <- app_assoc; reflexivity|].
    do 4 (split; [done|]). intros e' [= ->]. cbn. rewrite A1, <- app_assoc, drop_app_length, in_app_iff. right. by left. }
  replace (match r with inl e => (xemit (XrayErrorEvent e) (put_last_error (Some e) m1), w1) | inr _ => (m1, w1) end)
    with (m2, w1) by (by unfold m2; destruct r).
  clearbody m2. destruct H2 as (I2 & A2 & D2 & L2 & X2 & P2 & Er).
  assert (Eff : xray_effect m m2).
  { split; [congruence|..].
    - intros Hn Hpd. unfold pool_result in Hr. rewrite Hn in Hr. rewrite D2. by apply Hr.
    - intros p _ Hp. unfold pool_result in Hr. rewrite Hp in Hr.
      destruct r as [e|[]]; [left; exists e; by apply Er|]. right. rewrite D2, L2, X2.
      done. }
  destruct (xm_driver m2) as [d|] eqn:Hd2; [|by apply Fin].
  destruct (cd_now_ms w1) as [w2 now]. destruct (xm_pool_driven m2) eqn:Hpd.
  - pose proof (watchdog_inv now m2 w2 d I2 Hd2 Hpd) as H. destruct (l2_watchdog now m2 w2) as [m3 w3].
    destruct H as (I3 & C3 & A3 & Sup). apply Fin; [done|]. by apply (supervised_effect m m2).
  - assert (Hn : xm_pool_profile m = None /\ xm_pool_driven m = false).
    { rewrite Hp1 in P2. by destruct (xm_pool_profile m). }
    destruct Hn as [Hn Hm]. pose proof (health_inv m2 w2 I2 Hpd) as H.
    destruct (health_and_failover reason_line st m2 w2) as [[m3 w3] o]. destruct H as (I3 & _ & _).
    apply Fin; [done|]. split; congruence.
Qed.

(** ** Histories *)

(** A turn, after the world moved on, or a call of the control handle. *)
Inductive xray_input :=
| XTurn (env : W -> W)
| XSetPaused (b : bool)
| XSelect (profile : string)
| XRotate (enabled_names : list string)
| XApply (p : option VpnProfile).

Definition xray_step (s : xray_manager D * W) (i : xray_input) : xray_manager D * W :=
  let '(m, w) := s in
  match i with
  | XTurn env => xray_turn reason_line st m (env w)
  | XSetPaused b => (put_paused b m, w)
  | XSelect profile => (xray_select profile m, w)
  | XRotate names => (rotate_next names m, w)
  | XApply p => (apply_pool_profile p m, w)
  end.

(** The pool hands over profiles with the property. *)
Definition hands_over (i : xray_input) : Prop := match i with XApply (Some p) => Q p | _ => True end.

Lemma xray_step_inv s i : hands_over i -> xinv s.1 -> xinv (xray_step s i).1.
Proof.
  destruct s as [m w]. cbn [fst]. intros Hi I. destruct i as [env|b|n|l|p]; cbn [xray_step].
  - pose proof (turn_spec m (env w) I) as H. destruct (xray_turn _ _ _ _). by destruct H.
  - destruct I. by split.
  - destruct I. by split.
  - unfold rotate_next. destruct (next_enabled _ l); [|done]. destruct I. by split.
  - destruct I. split; cbn; try done. by intros q ->.
Qed.

Lemma xray_from_toml_inv c m0 : xray_from_toml c = inr (st, m0) -> xinv m0.
Proof.
  unfold xray_from_toml. destruct (toml_validate c); [done|]. intros [= Est <-].
  assert (Ee : xt_profiles c = st_endpoints st) by (by rewrite <- Est).
  split; cbn; rewrite ?length_map, ?Ee; done.
Qed.

End Invariant.

(** ** The Xray driver behind the interface *)

Class Clocks (W : Type) := {
  ck_now_ms : W -> W * Z;
  ck_instant : W -> W * Z;
  ck_latency : string -> Z -> W -> option Z
}.

Section Instance_.
Context {W : Type} {host : XrayHost W} {clocks : Clocks W}.
Context (from_str : string -> option json) (to_string_pretty : json -> option string).

(** [default_starter] *)
Definition xray_component : ComponentDriver W XrayDriver := {|
  cd_new := XrayDriver_new Xray;
  cd_start := xray_start from_str to_string_pretty;
  cd_stop := xray_stop;
  cd_restart := xray_restart from_str to_string_pretty;
  cd_health := xray_health_check;
  cd_drop := xray_drop;
  cd_now_ms := ck_now_ms;
  cd_instant := ck_instant;
  cd_latency := ck_latency
|}.

Lemma start_config_kept d w :
  let '(_, d', r) := xray_start from_str to_string_pretty d w in
  xd_config d' = xd_config d /\ (r = inr () -> xray_validate (xd_config d) = inr ()).
Proof.
  unfold xray_start, start_process. destruct (xray_validate (xd_config d)) as [e|[]]; [done|].
  destruct (write_secret _ _ _ w) as [w1 [e|path]]; [done|].
  destruct (match h_resolve_bin "xray" w1 with Some b => Some b | None => h_resolve_bin "xray-core" w1 end);
    [|done].
  by destruct (h_spawn _ _ _ w1) as [w2 [e|pid]].
Qed.

Lemma stop_config_kept d w : let '(_, d', _) := xray_stop d w in xd_config d' = xd_config d.
Proof.
  unfold xray_stop, stop_process. destruct (xd_child d) as [pid|].
  - destruct (h_kill pid w) as [w1 [e|[]]]; [done|]. destruct (h_wait pid w1) as [w2 [e|[]]]; [done|].
    by destruct (xd_config_path d).
  - by destruct (xd_config_path d).
Qed.

Program Definition xray_component_ok : @ComponentDriverOk W XrayDriver xray_component :=
  {| cd_config := xd_config |}.
Next Obligation. done. Qed.
Next Obligation. apply start_config_kept. Qed.
Next Obligation.
  intros d w. cbn. unfold xray_restart. pose proof (stop_config_kept d w) as H.
  destruct (xray_stop d w) as [[w1 d1] [e|[]]]; [done|]. pose proof (start_config_kept d1 w1) as H1.
  destruct (xray_start _ _ d1 w1) as [[w2 d2] r]. destruct H1. congruence.
Qed.
End Instance_.

(** ** Where the manager differs from its comments *)

Section Divergence.
Context {W D : Type} {driver : ComponentDriver W D} (st : XrayStatic).

(** "Until the pool selects a different profile or explicitly clears selection": clearing
    does not reset the guard, and the profile stays stopped when it is chosen again. *)
Lemma cleared_choice_keeps_guard p (m : xray_manager D) w c :
  xm_driver m = None -> xm_pool_driven m = true -> xm_l2_exhausted_label m = Some (pool_name p) ->
  profile_to_xray_config p (st_socks_port st) (st_http_port st) = inr c ->
  let '(m1, w1, _) := ensure_running st (apply_pool_profile None m) w in
  let '(m2, _, r) := ensure_running st (apply_pool_profile (Some p) m1) w1 in
  xm_driver m2 = None /\ r = inr ().
Proof.
  intros Hd Hp Hx Hc. unfold ensure_running. cbn. rewrite Hp, Hd. cbn. rewrite Hc, Hd, Hx. cbn.
  by rewrite bool_decide_eq_true_2.
Qed.

(** The running profile is recognised by its name only: new credentials under the same
    label and endpoint are not applied. *)
Lemma new_credentials_ignored p (m : xray_manager D) w c d :
  xm_driver m = Some d -> xm_pool_label m = Some (pool_name p) ->
  profile_to_xray_config p (st_socks_port st) (st_http_port st) = inr c ->
  let '(m', w', r) := ensure_running st (apply_pool_profile (Some p) m) w in
  xm_driver m' = Some d /\ w' = w /\ r = inr ().
Proof.
  intros Hd Hl Hc. unfold ensure_running. cbn. rewrite Hc, Hd, Hl. cbn. by rewrite bool_decide_eq_true_2.
Qed.

(** A profile the runtime cannot express leaves the previous one running. *)
Lemma inexpressible_keeps_previous p (m : xray_manager D) w e :
  profile_to_xray_config p (st_socks_port st) (st_http_port st) = inl e ->
  let '(m', w', r) := ensure_running st (apply_pool_profile (Some p) m) w in
  xm_driver m' = xm_driver m /\ w' = w /\ r = inl ("vpn pool profile invalid: " +:+ e).
Proof. intros Hc. unfold ensure_running. cbn. by rewrite Hc. Qed.

(** Failover knows the two endpoints of highest priority: from the first it goes to the
    second, from any other to the first, so a third one is never tried. *)
Lemma third_endpoint_never_tried a b l idx :
  enabled_indices (st_endpoints st) = a :: b :: l -> a <> b ->
  failover_target (st_endpoints st) idx = Some (if Nat.eqb a idx then b else a).
Proof.
  intros E Hab. unfold failover_target. rewrite E. cbn [List.find].
  destruct (Nat.eqb_spec a idx) as [->|]; [|done]. cbn [negb].
  by destruct (Nat.eqb_spec b idx); [congruence|].
Qed.

(** A preferred endpoint that cannot be started is tried again in every turn, and no other
    one. *)
Lemma only_preferred_is_started (m : xray_manager D) w idx :
  xm_pool_profile m = None -> xm_pool_driven m = false -> xm_active m = None -> xm_pinned m = None ->
  preferred (st_endpoints st) = Some idx ->
  ensure_running st m w = start_endpoint st idx m w.
Proof. intros H1 H2 H3 H4 H5. unfold ensure_running. by rewrite H1, H2, H3, H4, H5. Qed.

(** The first rotation without a pin pins the preferred endpoint, which already runs. *)
Lemma first_rotation_stays name names : next_enabled None (name :: names) = Some name.
Proof. done. Qed.

(** The snapshot of a pool profile names no active endpoint. *)
Lemma pool_profile_not_shown (m : xray_manager D) :
  xm_active m = None -> xs_active (xray_snapshot st m) = None.
Proof. intros H. cbn. by rewrite H. Qed.
End Divergence.

(** ** A run in memory *)

Module MemRun.
#[global] Instance mem_clocks : Clocks MemHost.mem_host := {|
  ck_now_ms := fun w => (w, 100000);
  ck_instant := fun w => (w, 100000000000);
  ck_latency := fun _ _ _ => None
|}.
#[global] Instance mem_component : ComponentDriver MemHost.mem_host XrayDriver := xray_component no_parse no_text.
#[global] Instance mem_component_ok : ComponentDriverOk MemHost.mem_host XrayDriver :=
  xray_component_ok no_parse no_text.

Definition sample_toml : XrayToml :=
  mkXrayToml None None None [] [mkEndpoint "a" "82.40.62.4" 443 "194302fe-9c53" None XTcp XSecurityNone None None 100 true].

Definition sample_static : XrayStatic := mkStatic (xt_profiles sample_toml) 10808 10809 [].
Definition no_reason (_ : reason) : string := EmptyString.

(** The static endpoint starts, then the pool takes over. *)
Definition pool_takes_over : xray_manager XrayDriver * MemHost.mem_host :=
  fold_left (xray_step no_reason sample_static) [XTurn id; XApply (Some reality_profile); XTurn id]
    (fresh_manager [PathHealth_new (path_config_for sample_toml)], MemHost.empty_host true).
End MemRun.

