(* ===== verification/VpnRuntime.v ===== *)
(** * From subscription to process (balansir-daemon/src/main.rs)

    The VPN manager and the Xray manager as the daemon wires them: every decision of the
    pool is handed to the Xray manager by a task of its own, so decisions may arrive late
    and in any order.  The theorem composes [VpnManager] and [XrayManager]. *)

From S2P Require Import Prelude F64 Health VpnPool Types IpText Text VpnImport.
From S2P Require Import VpnManager Xray XrayRecovery XrayManager.
#[local] Open Scope Z_scope.

Section System.
Context {W D : Type} {driver : ComponentDriver W D} {driver_ok : ComponentDriverOk W D}.
Context (reason_line : reason -> string) (reason_text : rotation_reason -> string) (st : XrayStatic).

Record vpn_daemon := mkVpnDaemon {
  dm_vpn : vpn_loop;
  (** decisions on their way *)
  dm_pending : list (option VpnProfile);
  dm_xray : xray_manager D;
  dm_world : W
}.

Inductive daemon_input :=
| OnVpn (i : vpn_input)
| Deliver (n : nat)
| OnXray (i : xray_input (W := W)).

(** The consumer of the pool: a task per decision. *)
Definition wire_vpn (l : vpn_loop) (i : vpn_input) (d : vpn_daemon) : vpn_daemon :=
  let l' := vpn_step reason_text l i in
  let told := drop (length (vm_applied (vl_manager l))) (vm_applied (vl_manager l')) in
  mkVpnDaemon l' (dm_pending d ++ told) (dm_xray d) (dm_world d).

Definition wire_deliver (n : nat) (d : vpn_daemon) : vpn_daemon :=
  match dm_pending d !! n with
  | Some p => mkVpnDaemon (dm_vpn d) (delete n (dm_pending d)) (apply_pool_profile p (dm_xray d)) (dm_world d)
  | None => d
  end.

(** The other calls of the Xray manager; a profile reaches it by delivery only. *)
Definition daemon_step (d : vpn_daemon) (i : daemon_input) : vpn_daemon :=
  match i with
  | OnVpn i => wire_vpn (dm_vpn d) i d
  | Deliver n => wire_deliver n d
  | OnXray (XApply _) => d
  | OnXray i =>
      let '(m, w) := xray_step reason_line st (dm_xray d, dm_world d) i in
      mkVpnDaemon (dm_vpn d) (dm_pending d) m w
  end.

Record daemon_inv (c : VpnToml) (d : vpn_daemon) : Prop := {
  di_vpn : vpn_inv c (vl_manager (dm_vpn d));
  di_pending : Forall (from_option usable True) (dm_pending d);
  di_xray : xinv st usable (dm_xray d)
}.

Lemma daemon_step_inv c d i : daemon_inv c d -> daemon_inv c (daemon_step d i).
Proof.
  intros [V P X]. destruct i as [i|n|i]; cbn [daemon_step].
  - pose proof (vpn_step_inv reason_text c (dm_vpn d) i V) as V'. split; cbn; try done.
    apply Forall_app. split; [done|]. apply Forall_drop. by destruct V'.
  - unfold wire_deliver. destruct (dm_pending d !! n) as [p|] eqn:E; [|by split].
    split; cbn; [done|by apply Forall_delete|].
    apply (xray_step_inv reason_line st usable (dm_xray d, dm_world d) (XApply p)); [|done].
    pose proof (Forall_lookup_1 _ _ _ _ P E) as Hp. by destruct p.
  - destruct i as [env|b|name|names|p]; [..|by split].
    all: match goal with |- context [xray_step _ _ _ ?j] =>
      pose proof (xray_step_inv reason_line st usable (dm_xray d, dm_world d) j I X) as X' end.
    all: destruct (xray_step _ _ _ _) as [m w]; by split.
Qed.

(** C4.  Only profiles that were validated and chosen are ever run, and with a validated
    configuration.  For every interleaving of the ticks of the pool, of the delivery of its
    decisions - late and in any order - and of the turns of the Xray manager, under every
    subscription, file, network, clock and driver behaviour: what runs is an endpoint of
    the file, or the exact configuration of an importable profile under its name, and the
    driver has accepted it; the pool and every decision on its way are sound too. *)
Theorem only_chosen_profiles_run c xc m0 w0 v0 inputs :
  xray_from_toml xc = inr (st, m0) ->
  let d := fold_left daemon_step inputs (mkVpnDaemon (vpn_start v0 (VpnManager_new c)) [] m0 w0) in
  daemon_inv c d /\
  forall x, xm_driver (dm_xray d) = Some x ->
    xray_validate (cd_config x) = inr () /\
    match xm_active (dm_xray d) with
    | Some i => cd_config x = endpoint_config st i /\ (i < length (st_endpoints st))%nat
    | None => exists p, usable p /\ pool_config_of st p (cd_config x) /\
        xm_pool_label (dm_xray d) = Some (pool_name p)
    end.
Proof.
  intros Hx d. assert (I : daemon_inv c d).
  { assert (I0 : daemon_inv c (mkVpnDaemon (vpn_start v0 (VpnManager_new c)) [] m0 w0)).
    { split; cbn; [apply vpn_start_inv|constructor|by apply (xray_from_toml_inv st usable xc)]. }
    unfold d. revert I0. generalize (mkVpnDaemon (vpn_start v0 (VpnManager_new c)) [] m0 w0). clear d.
    induction inputs as [|i inputs IH]; intros d0 I0; [done|]. cbn [fold_left]. apply IH.
    by apply daemon_step_inv. }
  split; [done|]. intros x Hd. destruct I as [_ _ [_ _ Dr _ _]]. rewrite Hd in Dr.
  destruct Dr as [[V R] _]. split; [done|]. destruct (xm_active (dm_xray d)); naive_solver.
Qed.
End System.

(** A manual profile is imported, chosen, delivered and run. *)
Definition later_world : vpn_world :=
  mkVpnWorld 20000 EmptyString (fun _ => inl "none"%string) (fun _ => inl "none"%string)
    (fun _ => inl "no curl"%string) (fun _ => None)
    (fun _ => L2Probe.mkEndpoint L2Probe.NotConnected false (fun _ => L2Probe.ReadFailed))
    (fun _ => (0, 0)) (fun _ => false).

Definition import_to_process : vpn_daemon :=
  fold_left (daemon_step MemRun.no_reason (fun _ => EmptyString) MemRun.sample_static)
    [OnVpn (VpnTick later_world); Deliver 0; OnXray (XTurn id)]
    (mkVpnDaemon (vpn_start (idle_world (unlines [share_link reality_profile])) (VpnManager_new idle_config)) []
       (fresh_manager [PathHealth_new (path_config_for MemRun.sample_toml)]) (MemHost.empty_host true)).

Lemma only_chosen_profiles_run_witness :
  is_Some (xm_driver (dm_xray import_to_process)) /\
  xm_active (dm_xray import_to_process) = None /\
  daemon_inv MemRun.sample_static idle_config import_to_process.
Proof.
  split; [vm_compute; eauto|]. split; [vm_compute; reflexivity|].
  destruct (only_chosen_profiles_run MemRun.no_reason (fun _ => EmptyString) MemRun.sample_static idle_config
    MemRun.sample_toml (fresh_manager [PathHealth_new (path_config_for MemRun.sample_toml)])
    (MemHost.empty_host true) (idle_world (unlines [share_link reality_profile]))
    [OnVpn (VpnTick later_world); Deliver 0; OnXray (XTurn id)]) as [H _].
  - vm_compute. reflexivity.
  - exact H.
Defined.
