(* ===== verification/Upnp.v ===== *)
(** * The UPnP gateway device (balansir-daemon/src/upnp.rs)

    The SSDP responder, the HTTP endpoint, the SOAP actions with the mapping table and its
    leases, and the tasks that carry the mappings to the executor's NAT chain.

    A handler is a state transformer that also yields the executor calls it spawns.  The
    calls run as tasks of their own, in any order, beside the handlers and the expiry loop;
    [igd_step] has one rule for each.  A connection is the list of the pieces its reads
    return; an empty piece, or the end of the list, is a closed or failed stream.

    The theorems: whatever clients on the LAN send and in whatever order the tasks run, the
    rules in the chain forward to private addresses of the LAN only; when the tasks run in
    order and succeed, the chain holds the mapping table; a request is served the same
    however it is cut into segments; a standard request adds the mapping it asks for. *)

From stdpp Require Import pretty.
From S2P Require Import Prelude Types IpText Text Errors Nftables ExecutorService.
#[local] Open Scope Z_scope.

(** ** Text *)

Definition crlf : string := String "013" (String "010" EmptyString).

(** [str::find]: the byte offset of the first occurrence *)
Fixpoint find_pos (pat s : string) : option nat :=
  match strip_prefix pat s with
  | Some _ => Some 0%nat
  | None => match s with EmptyString => None | String _ s' => S <$> find_pos pat s' end
  end.

(** [&s[n..]] *)
Fixpoint str_drop (n : nat) (s : string) : string :=
  match n, s with
  | O, _ => s
  | S n, String _ s' => str_drop n s'
  | S _, EmptyString => EmptyString
  end.

(** [&s[..n]] *)
Fixpoint str_take (n : nat) (s : string) : string :=
  match n, s with
  | S n, String c s' => String c (str_take n s')
  | _, _ => EmptyString
  end.

(** ** State *)

Definition USN_UUID : string := "8b1a3a62-3f2c-4a7e-9b6c-d0e1f2a3b4c5".
Definition DEVICE_TYPE : string := "urn:schemas-upnp-org:device:InternetGatewayDevice:1".
Definition SERVICE_TYPE : string := "urn:schemas-upnp-org:service:WANIPConnection:1".

Record PortMapping := mkMapping {
  pm_external_port : Z;
  pm_proto : string;
  pm_internal_ip : IpAddr;
  pm_internal_port : Z;
  (** monotonic nanoseconds; [None] is a permanent mapping *)
  pm_expires_at : option Z
}.

Record IgdAddr := mkIgdAddr { igd_ip : IpAddr; igd_port : Z }.

Definition igd_location (a : IgdAddr) : string :=
  "http://" +:+ show_ip (igd_ip a) +:+ ":" +:+ pretty (igd_port a) +:+ "/rootDesc.xml".

Record UpnpManager := mkUpnpManager {
  (** whether an executor is wired *)
  um_executor : bool;
  um_lan_subnet : string;
  um_wan_interface : string;
  um_addr : IgdAddr;
  um_mappings : gmap (Z * string) PortMapping
}.

Definition UpnpManager_new (executor : bool) (lan_ip : IpAddr) (lan_subnet wan_interface : string)
    (control_port : Z) : UpnpManager :=
  mkUpnpManager executor lan_subnet wan_interface (mkIgdAddr lan_ip control_port) ∅.

Definition with_mappings (m : UpnpManager) (t : gmap (Z * string) PortMapping) : UpnpManager :=
  mkUpnpManager (um_executor m) (um_lan_subnet m) (um_wan_interface m) (um_addr m) t.

(** A handler: it changes the manager and spawns executor calls. *)
Definition soap (A : Type) : Type := UpnpManager -> UpnpManager * list UpnpOp * A.
#[export] Instance soap_ret : MRet soap := fun A a m => (m, [], a).
#[export] Instance soap_bind : MBind soap := fun A B f p m =>
  let '(m, ops, a) := p m in let '(m, ops', b) := f a m in (m, ops ++ ops', b).

Definition spawn_task (op : UpnpOp) : soap () :=
  fun m => (m, if um_executor m then [op] else [], ()).

(** ** Addresses *)

Definition multicast_interface (m : UpnpManager) : Z :=
  match igd_ip (um_addr m) with V4 a => a | V6 _ => 0 end.

Definition upnp_parse_cidr (cidr : string) : option (Z * Z) :=
  '(ip, prefix) ← split_once "/" (utrim cidr);
  ip ← parse_ipv4 ip;
  prefix ← parse_radix 10 255 prefix;
  Some (ip, prefix).

(** [u32::MAX << (32 - prefix)] in the release profile, which does not check overflow: the
    [u8] difference wraps and the shift takes its amount modulo 32. *)
Definition prefix_mask (prefix : Z) : Z :=
  if prefix =? 0 then 0
  else u32 (Z.shiftl u32_max (Z.land ((32 - prefix) mod 256) 31)).

Definition is_lan_peer (m : UpnpManager) (ip : IpAddr) : bool :=
  match ip, upnp_parse_cidr (um_lan_subnet m) with
  | V4 addr_bits, Some (net_bits, prefix) =>
      let mask := prefix_mask prefix in Z.land addr_bits mask =? Z.land net_bits mask
  | _, _ => false
  end.

Definition is_private_unicast (ip : IpAddr) : bool :=
  match ip with
  | V4 a =>
      let o0 := a / 2 ^ 24 mod 256 in
      let o1 := a / 2 ^ 16 mod 256 in
      let rfc1918 := (o0 =? 10) || ((o0 =? 172) && ((16 <=? o1) && (o1 <=? 31)))
                     || ((o0 =? 192) && (o1 =? 168)) in
      rfc1918 && negb (is_loopback ip) && negb (is_multicast ip) && negb (is_unspecified ip)
  | V6 a =>
      let seg0 := a / 2 ^ 112 mod 65536 in
      (Z.land seg0 0xfe00 =? 0xfc00) || (Z.land seg0 0xffc0 =? 0xfe80)
  end.

(** ** SSDP *)

(** One datagram of the responder's loop: the answer it sends, if any. *)
Definition serve_ssdp (m : UpnpManager) (peer : IpAddr) (datagram : list Z) : option string :=
  if negb (is_lan_peer m peer) then None
  else
    let text := string_of_bytes (utf8_lossy datagram) in
    if negb (contains text "M-SEARCH") then None
    else
      let st := utrim (default EmptyString
        (first_some (fun l => strip_prefix "ST:" (utrim l)) (str_lines text))) in
      let advertise := is_empty_str st || String.eqb st "ssdp:all" in
      let advertise := if String.eqb st DEVICE_TYPE || String.eqb st SERVICE_TYPE
                       then true else advertise in
      if negb advertise then None
      else Some (join_with crlf
        ["HTTP/1.1 200 OK"; "CACHE-CONTROL: max-age=1800"; "EXT:";
         "LOCATION: " +:+ igd_location (um_addr m);
         "SERVER: BalanSir/1.0 UPnP/1.0"; "ST: " +:+ st;
         "USN: uuid:" +:+ USN_UUID +:+ "::" +:+ st; EmptyString; EmptyString])%string.

(** ** SOAP *)

Definition STATUS_OK : string := "200 OK".
Definition STATUS_NOT_FOUND : string := "404 Not Found".

Definition xml_decl : string := "<?xml version=" +:+ quoted "1.0" +:+ "?>".
Definition envelope_open : string :=
  "<s:Envelope xmlns:s=" +:+ quoted "http://schemas.xmlsoap.org/soap/envelope/" +:+
  " xmlns:u=" +:+ quoted SERVICE_TYPE +:+ ">".

Definition soap_response (action : string) : string :=
  join_with crlf
    [xml_decl; envelope_open; "<s:Body>"; "<u:" +:+ action +:+ "></u:" +:+ action +:+ ">";
     "</s:Body>"; "</s:Envelope>"]%string.

Definition soap_error (code : Z) (desc : string) : string * string :=
  (STATUS_OK,
   join_with crlf
     [xml_decl; envelope_open; "<s:Body>"; "<s:Fault>"; "<faultcode>s:Client</faultcode>";
      "<faultstring>UPnPError</faultstring>"; "<detail>";
      "<UPnPError xmlns=" +:+ quoted "urn:schemas-upnp-org:control-1-0" +:+ ">";
      "<errorCode>" +:+ pretty code +:+ "</errorCode>";
      "<errorDescription>" +:+ desc +:+ "</errorDescription>";
      "</UPnPError>"; "</detail>"; "</s:Fault>"; "</s:Body>"; "</s:Envelope>"]%string).

Definition extract_tag (body tag : string) : string :=
  let lower := to_ascii_lowercase body in
  let start_marker := "<" +:+ to_ascii_lowercase tag +:+ ">" in
  match find_pos start_marker lower with
  | None => EmptyString
  | Some open =>
      let content_start := (open + String.length start_marker)%nat in
      match find_pos "</" (str_drop content_start lower) with
      | None => EmptyString
      | Some close => utrim (str_take close (str_drop content_start body))
      end
  end.

Definition tag_u16 (body tag : string) : Z := default 0 (parse_u16 (extract_tag body tag)).
Definition tag_u32 (body tag : string) : option Z := parse_u32 (extract_tag body tag).

Definition apply_mapping (p : PortMapping) : soap () := fun m =>
  spawn_task (AddPortMapping (pm_external_port p) (pm_proto p) (show_ip (pm_internal_ip p))
                (pm_internal_port p) (um_wan_interface m)) m.

Definition delete_mapping (external_port : Z) (proto : string) : soap () := fun m =>
  let m := with_mappings m (delete (external_port, proto) (um_mappings m)) in
  spawn_task (RemovePortMapping external_port proto (um_wan_interface m)) m.

Definition insert_mapping (p : PortMapping) : soap () := fun m =>
  (with_mappings m (<[(pm_external_port p, pm_proto p) := p]> (um_mappings m)), [], ()).

Definition soap_delete_port_mapping (body : string) : soap (string * string) :=
  let external_port := tag_u16 body "NewExternalPort" in
  let proto := to_ascii_lowercase (extract_tag body "NewProtocol") in
  _ ← delete_mapping external_port proto;
  mret (STATUS_OK, soap_response "DeletePortMappingResponse").

(** [now] is the monotonic clock at the call. *)
Definition soap_add_port_mapping (now : Z) (body : string) : soap (string * string) := fun m =>
  let external_port := tag_u16 body "NewExternalPort" in
  let internal_port := tag_u16 body "NewInternalPort" in
  let internal_ip := extract_tag body "NewInternalClient" in
  let proto := to_ascii_lowercase (extract_tag body "NewProtocol") in
  let lease := default 0 (tag_u32 body "NewLeaseDuration") in
  let enabled := default 1 (tag_u32 body "NewEnabled") in
  if (external_port =? 0) || (internal_port =? 0) then (m, [], soap_error 402 "Invalid Args")
  else if negb (String.eqb proto "tcp") && negb (String.eqb proto "udp")
  then (m, [], soap_error 402 "Invalid Args")
  else if enabled =? 0 then soap_delete_port_mapping body m
  else
    match parse_ip internal_ip with
    | None => (m, [], soap_error 402 "Invalid Args")
    | Some ip =>
        if negb (is_private_unicast ip) then (m, [], soap_error 606 "Action not authorized")
        else if negb (is_lan_peer m ip) then (m, [], soap_error 606 "Action not authorized")
        else
          let expires_at := if lease =? 0 then None else Some (now + lease * 10 ^ 9) in
          let mapping := mkMapping external_port proto ip internal_port expires_at in
          (_ ← apply_mapping mapping;
           _ ← insert_mapping mapping;
           mret (STATUS_OK, soap_response "AddPortMappingResponse")) m
    end.

Definition soap_get_external_ip (m : UpnpManager) : string :=
  join_with crlf
    [xml_decl; envelope_open; "<s:Body>"; "<u:GetExternalIPAddressResponse>";
     "<NewExternalIPAddress>" +:+ show_ip (igd_ip (um_addr m)) +:+ "</NewExternalIPAddress>";
     "</u:GetExternalIPAddressResponse>"; "</s:Body>"; "</s:Envelope>"]%string.

Definition soap_get_specific (m : UpnpManager) (body : string) : string * string :=
  let external_port := tag_u16 body "NewExternalPort" in
  let proto := to_ascii_lowercase (extract_tag body "NewProtocol") in
  match um_mappings m !! (external_port, proto) with
  | Some p =>
      (STATUS_OK,
       join_with crlf
         [xml_decl; envelope_open; "<s:Body>"; "<u:GetSpecificPortMappingEntryResponse>";
          "<NewRemoteHost></NewRemoteHost>";
          "<NewExternalPort>" +:+ pretty (pm_external_port p) +:+ "</NewExternalPort>";
          "<NewProtocol>" +:+ pm_proto p +:+ "</NewProtocol>";
          "<NewInternalPort>" +:+ pretty (pm_internal_port p) +:+ "</NewInternalPort>";
          "<NewInternalClient>" +:+ show_ip (pm_internal_ip p) +:+ "</NewInternalClient>";
          "<NewEnabled>1</NewEnabled>";
          "<NewPortMappingDescription>BalanSir</NewPortMappingDescription>";
          "<NewLeaseDuration>0</NewLeaseDuration>";
          "</u:GetSpecificPortMappingEntryResponse>"; "</s:Body>"; "</s:Envelope>"]%string)
  | None => soap_error 714 "NoSuchEntryInArray"
  end.

(** The action a line names, if it has an opening tag of the service. *)
Definition line_action (l : string) : option string :=
  let t := utrim l in
  pos ← find_pos "<u:" t;
  s ← head (split_whitespace (str_drop (pos + 3) t));
  Some (trim_end_matches ">" s).

Definition handle_soap (now : Z) (body : string) : soap (string * string) := fun m =>
  let action := default EmptyString (first_some line_action (str_lines body)) in
  if String.eqb action "AddPortMapping" then soap_add_port_mapping now body m
  else if String.eqb action "DeletePortMapping" then soap_delete_port_mapping body m
  else if String.eqb action "GetExternalIPAddress" then (m, [], (STATUS_OK, soap_get_external_ip m))
  else if String.eqb action "GetSpecificPortMappingEntry" then (m, [], soap_get_specific m body)
  else (m, [], soap_error 401 "Invalid Action").

(** ** HTTP *)

Definition device_description (m : UpnpManager) : string :=
  let location := igd_location (um_addr m) in
  join_with crlf
    [xml_decl; "<root xmlns=" +:+ quoted "urn:schemas-upnp-org:device-1-0" +:+ ">";
     "<specVersion><major>1</major><minor>0</minor></specVersion>"; "<device>";
     "<deviceType>" +:+ DEVICE_TYPE +:+ "</deviceType>";
     "<friendlyName>BalanSir Router</friendlyName>"; "<manufacturer>BalanSir</manufacturer>";
     "<modelName>BalanSir IGD</modelName>"; "<UDN>uuid:" +:+ USN_UUID +:+ "</UDN>";
     "<serviceList>"; "<service>"; "<serviceType>" +:+ SERVICE_TYPE +:+ "</serviceType>";
     "<serviceId>urn:upnp-org:serviceId:WANIPConn1</serviceId>";
     "<controlURL>/upnp/control/WANIPConnection</controlURL>";
     "<eventSubURL>/upnp/event/WANIPConnection</eventSubURL>";
     "<SCPDURL>" +:+ location +:+ "</SCPDURL>"; "</service>"; "</serviceList>"; "</device>";
     "</root>"]%string.

Definition upnp_dispatch (now : Z) (method path body : string) : soap (string * string) := fun m =>
  if String.eqb method "GET" && String.eqb path "/rootDesc.xml"
  then (m, [], (STATUS_OK, device_description m))
  else if String.eqb method "POST" && String.eqb path "/upnp/control/WANIPConnection"
  then handle_soap now body m
  else (m, [], (STATUS_NOT_FOUND, EmptyString)).

Definition write_http_response (status payload : string) : string :=
  join_with crlf
    ["HTTP/1.1 " +:+ status; "Content-Type: text/xml; charset=" +:+ quoted "utf-8";
     "Content-Length: " +:+ pretty (Z.of_nat (String.length payload)); "Connection: close";
     EmptyString; payload]%string.

(** [buf.windows(n).position(|w| w == pat)] *)
Fixpoint window_position (pat buf : list Z) : option nat :=
  if decide (take (length pat) buf = pat) then Some 0%nat
  else match buf with [] => None | _ :: buf => S <$> window_position pat buf end.

Definition find_header_end (buf : list Z) : option nat :=
  match window_position [13; 10; 13; 10] buf with
  | Some pos => Some pos
  | None => window_position [10; 10] buf
  end.

Definition MAX_HEADER : Z := 16 * 1024.

(** The read loop for the header: [None] when the stream ends first; otherwise the bytes
    read, where the header ends if it does, and the pieces not read yet. *)
Fixpoint read_header (buf : list Z) (s : list (list Z)) :
    option (list Z * option nat * list (list Z)) :=
  if negb (len buf <? MAX_HEADER) then Some (buf, None, s)
  else
    match s with
    | [] | [] :: _ => None
    | chunk :: s =>
        let buf := buf ++ chunk in
        match find_header_end buf with
        | Some pos => Some (buf, Some pos, s)
        | None => read_header buf s
        end
    end.

Fixpoint read_body (content_length : Z) (body : list Z) (s : list (list Z)) : list Z :=
  if negb (len body <? content_length) then body
  else
    match s with
    | [] | [] :: _ => body
    | chunk :: s => read_body content_length (body ++ chunk) s
    end.

Definition content_length_of (lines : list string) : Z :=
  default 0
    (first_some (fun v => parse_radix 10 u64_max (utrim v))
       (omap (fun l => strip_prefix "content-length:" (to_ascii_lowercase (utrim l))) lines)).

Definition isize_max : Z := 2 ^ 63 - 1.
Definition bad_request : string :=
  join_with crlf ["HTTP/1.1 400 Bad Request"; "Content-Length: 0"; EmptyString; EmptyString]%string.

(** The request that [buf] starts, once its header is read: method, path and body.
    [Vec::with_capacity] panics on a capacity no allocation can have, the slice behind the
    header when it starts past the end. *)
Definition read_request (buf : list Z) (header_end : nat) (s : list (list Z)) :
    exec (option (string * string * string)) :=
  let header := string_of_bytes (utf8_lossy (take header_end buf)) in
  match str_lines header with
  | [] => Val None
  | request_line :: lines =>
      let parts := split_whitespace request_line in
      let method := default EmptyString (head parts) in
      let path := default "/"%string (parts !! 1%nat) in
      let content_length := content_length_of lines in
      if isize_max <? content_length then Panic
      else
        rest ← slice buf (Z.of_nat header_end + 4) (len buf);
        let body := read_body content_length rest s in
        let body := string_of_bytes
          (utf8_lossy (take (Z.to_nat (Z.min content_length (len body))) body)) in
        Val (Some (method, path, body))
  end.

(** A connection: the manager and the tasks spawned, and what is written back. *)
Definition handle_connection (now : Z) (m : UpnpManager) (s : list (list Z)) :
    exec (UpnpManager * list UpnpOp * option string) :=
  match read_header [] s with
  | None => Val (m, [], None)
  | Some (_, None, _) => Val (m, [], Some bad_request)
  | Some (buf, Some header_end, s) =>
      request ← read_request buf header_end s;
      match request with
      | None => Val (m, [], None)
      | Some (method, path, body) =>
          let '(m, ops, (status, payload)) := upnp_dispatch now method path body m in
          Val (m, ops, Some (write_http_response status payload))
      end
  end.

(** One accepted connection of the control listener. *)
Definition serve_control (now : Z) (m : UpnpManager) (peer : IpAddr) (s : list (list Z)) :
    exec (UpnpManager * list UpnpOp * option string) :=
  if negb (is_lan_peer m peer) then Val (m, [], None) else handle_connection now m s.

(** ** Leases *)

Definition lease_expired (now : Z) (p : PortMapping) : bool :=
  match pm_expires_at p with Some exp => exp <=? now | None => false end.

(** The keys a tick of the expiry loop collects, in the order of the table. *)
Definition expired_keys (now : Z) (m : UpnpManager) : list (Z * string) :=
  omap (fun kp => if lease_expired now kp.2 then Some kp.1 else None)
    (map_to_list (um_mappings m)).

(** ** The device beside the executor *)

Section Device.
Context {N : Type} (nft : N -> list string -> N * (Error + output)) (b : NftablesBackend).

Record igd := mkIgd {
  g_mgr : UpnpManager;
  (** executor calls spawned and not finished *)
  g_tasks : list UpnpOp;
  (** keys the expiry loop still has to remove *)
  g_expiring : list (Z * string);
  g_host : N
}.

(** What may happen: a connection is served, the expiry loop scans the table or removes a
    key it collected, a task reaches the executor, or a task is lost on the way.  [allowed]
    says which tasks may finish how: the position of the task, the host it finds and the
    result.  A handler is one step: it locks the table once, and the task it spawns may run
    at any time. *)
Inductive igd_step (allowed : nat -> UpnpOp -> N -> Error + UpnpOpResult -> Prop) :
    igd -> igd -> Prop :=
| step_control g now peer s m ops out :
    serve_control now (g_mgr g) peer s = Val (m, ops, out) ->
    igd_step allowed g (mkIgd m (g_tasks g ++ ops) (g_expiring g) (g_host g))
| step_scan g now ks :
    g_expiring g = [] -> ks ≡ₚ expired_keys now (g_mgr g) ->
    igd_step allowed g (mkIgd (g_mgr g) (g_tasks g) ks (g_host g))
| step_expire g port proto ks m ops :
    g_expiring g = (port, proto) :: ks -> delete_mapping port proto (g_mgr g) = (m, ops, ()) ->
    igd_step allowed g (mkIgd m (g_tasks g ++ ops) ks (g_host g))
| step_task g i op n r :
    g_tasks g !! i = Some op -> upnp_op nft b op (g_host g) = (n, r) ->
    allowed i op (g_host g) r ->
    igd_step allowed g (mkIgd (g_mgr g) (delete i (g_tasks g)) (g_expiring g) n)
| step_lost g i op e :
    g_tasks g !! i = Some op -> allowed i op (g_host g) (inl e) ->
    igd_step allowed g (mkIgd (g_mgr g) (delete i (g_tasks g)) (g_expiring g) (g_host g)).

(** Any task may finish at any time, or fail. *)
Definition any_order : nat -> UpnpOp -> N -> Error + UpnpOpResult -> Prop := fun _ _ _ _ => True.
End Device.
Arguments igd : clear implicits. Arguments mkIgd {N}. Arguments g_mgr {N}.
Arguments g_tasks {N}. Arguments g_expiring {N}. Arguments g_host {N}.

(** ** Rules of the NAT chain *)

Lemma upnp_comment_tag port proto :
  upnp_comment port proto = "balansir:" +:+ "upnp:" +:+ pretty port +:+ ":" +:+ proto.
Proof. reflexivity. Qed.

Lemma upnp_comment_inj p q p' q' :
  0 <= p -> 0 <= p' -> upnp_comment p q = upnp_comment p' q' -> p = p' /\ q = q'.
Proof.
  intros Hp Hp' E. rewrite !upnp_comment_tag in E. do 2 apply append_inj_l in E.
  apply (app_sep_inj ":") in E as [E ->];
    [|by apply no_char_digits, pretty_all_digits..]. split; [|done]. by apply pretty_inj.
Qed.

Section Chain.
Context {N : Type} {nft : N -> list string -> N * (Error + output)} {b : NftablesBackend}
  {nft_spec : Nft (table_name b) nft}.

Definition nat_rules (n : N) : list nft_rule := default [] (chain_rules n UPNP_PREROUTING_CHAIN).

(** A listing changes nothing, and fails only when there is no chain. *)
Lemma count_upnp_host n n' r :
  count_upnp_rules nft b n = (n', r) ->
  n' = n /\ (is_Some (chain_rules n UPNP_PREROUTING_CHAIN) -> exists k, r = inr k).
Proof.
  unfold count_upnp_rules, map_err, list_chain, validate_identifier, nft_checked, run_nft.
  change (valid_identifier UPNP_PREROUTING_CHAIN) with true. cbv iota.
  unfold mbind, cmd_bind, mret, cmd_ret.
  destruct (nft n _) as [n1 r1] eqn:E. apply (nft_list false) in E as [-> E].
  destruct (chain_rules n _) as [rs|].
  - destruct E as (out & -> & -> & _). intros [= <- <-]. eauto.
  - destruct E as (out & -> & -> & _). intros [= <- _]. split; [done|]. by intros [? [=]].
Qed.

Lemma remove_mapping_rules port proto wan n n' r :
  all_tagged (nat_rules n) ->
  upnp_op nft b (RemovePortMapping port proto wan) n = (n', r) ->
  let c := upnp_comment port (to_ascii_lowercase proto) in
  (nat_rules n' = nat_rules n \/ nat_rules n' = drop_tag c (nat_rules n)) /\
  (chain_rules n UPNP_PREROUTING_CHAIN = None \/ (exists res, r = inr res) ->
   nat_rules n' = drop_tag c (nat_rules n)).
Proof.
  intros Ht H c. cbn [upnp_op] in H. unfold mbind, cmd_bind in H.
  fold c in H. destruct (remove_rule_by_comment_in_chain _ _ _ _ n) as [n1 r1] eqn:Er.
  unfold nat_rules in *. destruct (chain_rules n UPNP_PREROUTING_CHAIN) as [rs|] eqn:E; cbn [default] in *.
  - destruct (remove_in_chain_spec n UPNP_PREROUTING_CHAIN rs _ n1 r1 eq_refl E Ht Er) as [Hb _].
    destruct r1 as [e|[]].
    { injection H as <- <-. rewrite (set_here _ _ _ _ _ _ Hb). cbn [default].
      split; [by left|]. by intros [|[? ?]]. }
    destruct (count_upnp_rules nft b n1) as [n2 r2] eqn:Ec. apply count_upnp_host in Ec as [-> _].
    assert (n' = n1) as -> by (by destruct r2; injection H).
    rewrite (set_here _ _ _ _ _ _ Hb). cbn [default]. auto.
  - unfold remove_rule_by_comment_in_chain, validate_identifier in Er.
    change (valid_identifier UPNP_PREROUTING_CHAIN) with true in Er. cbv iota in Er.
    unfold mbind, cmd_bind, mret at 1, cmd_ret at 1 in Er.
    rewrite find_handle_no_chain in Er by done. injection Er as <- <-.
    destruct (count_upnp_rules nft b n) as [n2 r2] eqn:Ec. apply count_upnp_host in Ec as [-> _].
    assert (n' = n) as -> by (by destruct r2; injection H). rewrite E. auto.
Qed.

(** A mapping the executor accepts. *)
Record acceptable (port : Z) (proto : string) (a internal_port : Z) : Prop := {
  ac_port : 0 < port < 65536;
  ac_internal : 0 < internal_port < 65536;
  ac_proto : proto = "tcp"%string \/ proto = "udp"%string;
  ac_range : 0 <= a < 2 ^ 32;
  ac_private : is_private_unicast (V4 a) = true
}.

Lemma acceptable_validates port proto a iport (n : N) :
  acceptable port proto a iport ->
  validate_upnp_mapping port proto (show_v4 a) iport n = (n, inr ()).
Proof.
  intros [Hp Hi Hq Ha Hv]. unfold validate_upnp_mapping.
  replace (port =? 0) with false by lia. replace (iport =? 0) with false by lia. cbn [orb].
  rewrite (proj1 (parse_show_v4 a Ha)). cbn [is_private_unicast] in Hv.
  apply andb_true_iff in Hv as [Hv H1]. apply andb_true_iff in Hv as [Hv H2].
  apply andb_true_iff in Hv as [_ H3]. apply negb_true_iff in H1, H2, H3. rewrite H1, H2, H3.
  by destruct Hq as [->| ->].
Qed.

Lemma add_mapping_rules port proto a iport wan n n' r :
  acceptable port proto a iport -> all_tagged (nat_rules n) ->
  upnp_op nft b (AddPortMapping port proto (show_v4 a) iport wan) n = (n', r) ->
  let rs := drop_tag (upnp_comment port proto) (nat_rules n) in
  let rule := render (upnp_spec port proto a iport wan) in
  (nat_rules n' = nat_rules n \/ nat_rules n' = rs \/ appended rs rule (nat_rules n')) /\
  ((exists res, r = inr res) -> appended rs rule (nat_rules n')).
Proof.
  intros Hac Ht H rs rule. cbn [upnp_op] in H. unfold add_mapping in H.
  assert (El : to_ascii_lowercase proto = proto) by (by destruct (ac_proto _ _ _ _ Hac) as [->| ->]).
  unfold mbind, cmd_bind in H. rewrite acceptable_validates, El in H by done.
  destruct (ensure_hooked_chain _ _ _ _ n) as [n1 r1] eqn:Eh.
  apply ensure_hooked_spec in Eh as (_ & Hkeep & Hmade & _); [|done]. unfold nat_rules in *.
  destruct r1 as [e|[]].
  { injection H as <- <-. split; [|by intros [? ?]]. left.
    destruct Hkeep as [->| ->]; [done|]. by destruct (chain_rules n _). }
  specialize (Hmade eq_refl). clear Hkeep.
  destruct (remove_rule_by_comment_in_chain _ _ _ _ n1) as [n2 r2] eqn:Er.
  destruct (remove_in_chain_spec n1 UPNP_PREROUTING_CHAIN _ _ n2 r2 eq_refl Hmade Ht Er) as [Hb _].
  apply set_here in Hb. destruct r2 as [e|[]].
  { injection H as <- <-. rewrite Hb. split; [by left|]. by intros [? ?]. }
  rewrite (proj2 (parse_show_v4 a (ac_range _ _ _ _ Hac))) in H.
  destruct (add_rule_to_chain _ _ _ _ n2) as [n3 r3] eqn:Ea.
  destruct (add_rule_to_chain_spec UPNP_PREROUTING_CHAIN _ n2 n3 r3 _ eq_refl Hb Ea) as (rs' & Hb' & Hrs').
  apply set_here in Hb'. destruct r3 as [e|[]].
  { injection H as <- <-. rewrite Hb', Hrs'. split; [by right; left|]. by intros [? ?]. }
  destruct (count_upnp_rules nft b n3) as [n4 r4] eqn:Ec. apply count_upnp_host in Ec as [-> _].
  assert (n' = n3) as -> by (by destruct r4; injection H). rewrite Hb'. auto.
Qed.
End Chain.

(** ** The LAN *)

(** The address lies in [net/prefix]. *)
Definition in_subnet (net prefix a : Z) : Prop := a / 2 ^ (32 - prefix) = net / 2 ^ (32 - prefix).

(** RFC 1918 *)
Definition rfc1918 (a : Z) : Prop :=
  0x0a000000 <= a <= 0x0affffff \/ 0xac100000 <= a <= 0xac1fffff \/ 0xc0a80000 <= a <= 0xc0a8ffff.

Lemma land_high_mask a j k :
  0 <= a < 2 ^ (j + k) -> 0 <= j -> 0 <= k ->
  Z.land a (Z.shiftl (Z.ones j) k) = a / 2 ^ k * 2 ^ k.
Proof.
  intros Ha Hj Hk.
  assert (E : Z.land a (Z.shiftl (Z.ones j) k) = Z.shiftl (Z.land (Z.shiftr a k) (Z.ones j)) k).
  { apply Z.bits_inj'. intros i Hi. rewrite Z.land_spec, !Z.shiftl_spec by lia.
    destruct (Z.ltb_spec i k) as [Hlt|Hge].
    - rewrite !(Z.testbit_neg_r _ (i - k)) by lia. by rewrite andb_false_r.
    - rewrite Z.land_spec, Z.shiftr_spec by lia. by replace (i - k + k) with i by lia. }
  assert (0 < 2 ^ k) by (apply Z.pow_pos_nonneg; lia).
  rewrite E, Z.land_ones, Z.shiftl_mul_pow2, Z.shiftr_div_pow2, Z.mod_small; try lia.
  split; [apply Z.div_pos; lia|]. apply Z.div_lt_upper_bound; [lia|]. rewrite <- Z.pow_add_r by lia.
  replace (k + j) with (j + k) by lia. lia.
Qed.

Lemma prefix_mask_small prefix :
  0 < prefix <= 32 -> prefix_mask prefix = Z.shiftl (Z.ones prefix) (32 - prefix).
Proof.
  intros H.
  assert (Hall : forallb (fun p => prefix_mask (Z.of_nat p) =?
    Z.shiftl (Z.ones (Z.of_nat p)) (32 - Z.of_nat p)) (seq 1 32) = true) by (vm_compute; reflexivity).
  rewrite forallb_forall in Hall. specialize (Hall (Z.to_nat prefix)).
  rewrite Z2Nat.id in Hall by lia. apply Z.eqb_eq, Hall, in_seq. lia.
Qed.

Lemma upnp_parse_cidr_range s net prefix :
  upnp_parse_cidr s = Some (net, prefix) -> 0 <= net < 2 ^ 32 /\ 0 <= prefix <= 255.
Proof.
  unfold upnp_parse_cidr. destruct (split_once _ _) as [[ip p]|]; [|done]. cbn [mbind option_bind].
  unfold parse_ipv4. destruct (read_ipv4 ip) as [[a []]|] eqn:E; try done.
  cbn [mbind option_bind]. destruct (parse_radix 10 255 p) as [q|] eqn:Ep; [|done].
  cbn [mbind option_bind]. intros [= <- <-]. apply read_octets_range in E; [|lia].
  apply parse_radix_range in Ep; lia.
Qed.

Lemma is_lan_peer_spec m net prefix a :
  upnp_parse_cidr (um_lan_subnet m) = Some (net, prefix) -> prefix <= 32 -> 0 <= a < 2 ^ 32 ->
  is_lan_peer m (V4 a) = true <-> in_subnet net prefix a.
Proof.
  intros E Hp Ha. destruct (upnp_parse_cidr_range _ _ _ E) as [Hn Hq].
  unfold is_lan_peer, in_subnet. rewrite E. cbv zeta. rewrite Z.eqb_eq.
  destruct (Z.eq_dec prefix 0) as [->|Hne].
  - change (prefix_mask 0) with 0. rewrite !Z.land_0_r. change (32 - 0) with 32.
    rewrite !Z.div_small by lia. done.
  - rewrite prefix_mask_small by lia.
    assert (Hpow : forall z, 0 <= z < 2 ^ 32 -> 0 <= z < 2 ^ (prefix + (32 - prefix)))
      by (intros z; by replace (prefix + (32 - prefix)) with 32 by lia).
    rewrite !land_high_mask by (lia || by apply Hpow).
    assert (0 < 2 ^ (32 - prefix)) by (apply Z.pow_pos_nonneg; lia). nia.
Qed.

Lemma private_unicast_rfc1918 a :
  0 <= a < 2 ^ 32 -> is_private_unicast (V4 a) = true -> rfc1918 a.
Proof.
  intros Ha H. cbn [is_private_unicast] in H. do 3 apply andb_true_iff in H as [H _].
  assert (E1 : a / 2 ^ 24 mod 256 = a / 2 ^ 24)
    by (apply Z.mod_small; split; [apply Z.div_pos; lia|apply Z.div_lt_upper_bound; lia]).
  rewrite E1 in H. pose proof (Z.div_mod a (2 ^ 24)). pose proof (Z.mod_pos_bound a (2 ^ 24)).
  assert (E2 : a / 2 ^ 16 / 256 = a / 2 ^ 24) by (rewrite Z.div_div by lia; done).
  pose proof (Z.div_mod a (2 ^ 16)). pose proof (Z.mod_pos_bound a (2 ^ 16)).
  pose proof (Z.div_mod (a / 2 ^ 16) 256). pose proof (Z.mod_pos_bound (a / 2 ^ 16) 256).
  unfold rfc1918. apply orb_true_iff in H as [H|H]; [apply orb_true_iff in H as [H|H]|]; lia.
Qed.

(** ** What handlers do to the table *)

Definition spawned (m : UpnpManager) (op : UpnpOp) : list UpnpOp := if um_executor m then [op] else [].

(** A mapping the device accepts. *)
Record admitted (m : UpnpManager) (p : PortMapping) (a : Z) : Prop := {
  ad_ip : pm_internal_ip p = V4 a;
  ad_acceptable : acceptable (pm_external_port p) (pm_proto p) a (pm_internal_port p);
  ad_lan : is_lan_peer m (V4 a) = true
}.

Definition add_op (m : UpnpManager) (p : PortMapping) : UpnpOp :=
  AddPortMapping (pm_external_port p) (pm_proto p) (show_ip (pm_internal_ip p)) (pm_internal_port p)
    (um_wan_interface m).

Inductive table_change (m : UpnpManager) : UpnpManager -> list UpnpOp -> Prop :=
| no_change : table_change m m []
| deleted port proto :
    0 <= port < 65536 -> to_ascii_lowercase proto = proto ->
    table_change m (with_mappings m (delete (port, proto) (um_mappings m)))
      (spawned m (RemovePortMapping port proto (um_wan_interface m)))
| inserted p a :
    admitted m p a ->
    table_change m (with_mappings m (<[(pm_external_port p, pm_proto p) := p]> (um_mappings m)))
      (spawned m (add_op m p)).

Lemma tag_u16_range body tag : 0 <= tag_u16 body tag < 65536.
Proof.
  unfold tag_u16. destruct (parse_u16 _) as [v|] eqn:E; cbn [default]; [|lia].
  apply (parse_radix_range 10 (2 ^ 16 - 1)) in E; [|lia]. unfold id. lia.
Qed.

Lemma delete_changes body m m' ops out :
  soap_delete_port_mapping body m = (m', ops, out) -> table_change m m' ops.
Proof.
  unfold soap_delete_port_mapping, delete_mapping, spawn_task, mbind, soap_bind, mret, soap_ret.
  intros [= <- <- _]. rewrite app_nil_r. cbn [with_mappings um_executor um_wan_interface].
  apply deleted; [apply tag_u16_range|apply to_ascii_lowercase_idemp].
Qed.

Lemma add_changes now body m m' ops out :
  soap_add_port_mapping now body m = (m', ops, out) -> table_change m m' ops.
Proof.
  unfold soap_add_port_mapping. cbv zeta.
  pose proof (tag_u16_range body "NewExternalPort") as Hp.
  pose proof (tag_u16_range body "NewInternalPort") as Hi.
  destruct (_ || _) eqn:E0; [intros [= <- <- _]; apply no_change|].
  destruct (negb _ && negb _) eqn:Eq; [intros [= <- <- _]; apply no_change|].
  destruct (_ =? 0) eqn:Ee in |- *; [apply delete_changes|].
  destruct (parse_ip _) as [ip|] eqn:Eip; [|intros [= <- <- _]; apply no_change].
  destruct (is_private_unicast ip) eqn:Ev; [|intros [= <- <- _]; apply no_change]. cbn [negb].
  destruct (is_lan_peer m ip) eqn:El; [|intros [= <- <- _]; apply no_change]. cbn [negb].
  destruct ip as [a|a]; [|done].
  unfold apply_mapping, insert_mapping, spawn_task, mbind, soap_bind, mret, soap_ret.
  intros [= <- <- _]. rewrite !app_nil_r.
  match goal with |- table_change _ (with_mappings _ (<[_ := ?p]> _)) _ => apply (inserted m p a) end.
  split; [done| |done]. split; cbn [pm_external_port pm_internal_port pm_proto]; [lia..| | |done].
  - apply andb_false_iff in Eq as [Eq|Eq]; apply negb_false_iff, String.eqb_eq in Eq; auto.
  - exact (parse_ip_v4_range _ _ Eip).
Qed.

Lemma control_changes now m peer s m' ops out :
  serve_control now m peer s = Val (m', ops, out) -> table_change m m' ops.
Proof.
  unfold serve_control. destruct (negb _); [intros [= <- <- _]; apply no_change|].
  unfold handle_connection.
  destruct (read_header [] s) as [[[buf [pos|]] s']|]; [|intros [= <- <- _]; apply no_change..].
  destruct (read_request buf pos s') as [[[[method path] body]|]|]; cbn [mbind exec_bind];
    [|intros [= <- <- _]; apply no_change|done].
  destruct (upnp_dispatch now method path body m) as [[m1 ops1] [st pl]] eqn:E.
  intros [= <- <- _]. revert E. unfold upnp_dispatch.
  destruct (_ && _); [intros [= <- <- _]; apply no_change|].
  destruct (_ && _); [|intros [= <- <- _]; apply no_change].
  unfold handle_soap. cbv zeta. destruct (String.eqb _ _); [apply add_changes|].
  destruct (String.eqb _ _); [apply delete_changes|].
  repeat (destruct (String.eqb _ _); [intros [= <- <- _]; apply no_change|]).
  intros [= <- <- _]. apply no_change.
Qed.

(** The table's configuration does not change. *)
Definition same_config (m m' : UpnpManager) : Prop :=
  um_executor m' = um_executor m /\ um_lan_subnet m' = um_lan_subnet m /\
  um_wan_interface m' = um_wan_interface m.

Lemma change_config m m' ops : table_change m m' ops -> same_config m m'.
Proof. by intros []. Qed.

Lemma admitted_config m m' p a : same_config m m' -> admitted m' p a -> admitted m p a.
Proof. intros (_ & E & _) [H1 H2 H3]. split; [done..|]. unfold is_lan_peer in *. by rewrite <- E. Qed.

(** ** Safety *)

Section Safety.
Context {N : Type} {nft : N -> list string -> N * (Error + output)} {b : NftablesBackend}
  {nft_spec : Nft (table_name b) nft}.
Context (m0 : UpnpManager) (wan_untagged : untagged (um_wan_interface m0)).

Definition rule_args (p : PortMapping) (a : Z) : list string :=
  render (upnp_spec (pm_external_port p) (pm_proto p) a (pm_internal_port p) (um_wan_interface m0)).

(** A rule that forwards a port to an admitted address. *)
Definition lan_rule (r : nft_rule) : Prop :=
  0 <= r.1 /\ exists p a, r.2 = rule_args p a /\ admitted m0 p a.

Definition key_ok (k : Z * string) : Prop := 0 <= k.1 < 65536 /\ to_ascii_lowercase k.2 = k.2.

Definition task_ok (op : UpnpOp) : Prop :=
  match op with
  | AddPortMapping _ _ _ _ _ => exists p a, op = add_op m0 p /\ admitted m0 p a
  | RemovePortMapping port proto _ => key_ok (port, proto)
  | RemoveAll => False
  end.

Record igd_inv (g : igd N) : Prop := {
  iv_config : same_config m0 (g_mgr g);
  iv_table : map_Forall (fun k p => k = (pm_external_port p, pm_proto p) /\
    exists a, admitted m0 p a) (um_mappings (g_mgr g));
  iv_expiring : Forall key_ok (g_expiring g);
  iv_tasks : Forall task_ok (g_tasks g);
  iv_rules : Forall lan_rule (nat_rules (b := b) (g_host g))
}.

Lemma admitted_key p a : admitted m0 p a -> key_ok (pm_external_port p, pm_proto p).
Proof.
  intros [_ [Hp _ Hq _ _] _]. split; cbn [fst snd]; [lia|]. by destruct Hq as [->| ->].
Qed.

Lemma rule_args_tagged p a : admitted m0 p a ->
  tagged (rule_args p a) ("upnp:" +:+ pretty (pm_external_port p) +:+ ":" +:+ pm_proto p).
Proof.
  intros [_ [_ _ Hq _ _] _]. apply upnp_spec_tagged; [done|]. by destruct Hq as [->| ->].
Qed.

Lemma lan_rules_tagged rs : Forall lan_rule rs -> all_tagged rs.
Proof.
  intros H. eapply Forall_impl; [exact H|]. intros r (Hh & p & a & E & Ha).
  split; [done|]. rewrite E. eexists. by apply rule_args_tagged.
Qed.

Lemma drop_tag_forall (P : nft_rule -> Prop) c rs : Forall P rs -> Forall P (drop_tag c rs).
Proof. intros H. unfold drop_tag. destruct (List.find _ rs); [by apply Forall_list_filter|done]. Qed.

(** What a task does to the rules. *)
Lemma task_rules op n n' r :
  task_ok op -> Forall lan_rule (nat_rules (b := b) n) -> upnp_op nft b op n = (n', r) ->
  Forall lan_rule (nat_rules (b := b) n').
Proof.
  intros Hop Hrs H. pose proof (lan_rules_tagged _ Hrs) as Ht. destruct op as [? ? ? ? ?|port proto w|].
  - destruct Hop as (p & a & Eop & Ha). pose proof Ha as [Hip Hac _]. rewrite Eop in H.
    unfold add_op in H.
    rewrite Hip in H. cbn [show_ip] in H.
    destruct (add_mapping_rules _ _ _ _ _ _ _ _ Hac Ht H) as [[->|[->|(h & Hh & _ & ->)]] _];
      [done|by apply drop_tag_forall|].
    apply Forall_app. split; [by apply drop_tag_forall|]. constructor; [|constructor].
    split; [done|]. by exists p, a.
  - destruct (remove_mapping_rules _ _ _ _ _ _ Ht H) as [[->| ->] _]; [done|by apply drop_tag_forall].
  - done.
Qed.

Lemma change_inv g m ops :
  igd_inv g -> table_change (g_mgr g) m ops -> forall ks, Forall key_ok ks ->
  igd_inv (mkIgd m (g_tasks g ++ ops) ks (g_host g)).
Proof.
  intros [Hc Ht _ Hk Hr] Hch ks Hks. pose proof Hc as (Ex & _ & Ew).
  assert (Hc' : same_config m0 m).
  { destruct (change_config _ _ _ Hch) as (E1 & E2 & E3). destruct Hc as (F1 & F2 & F3).
    unfold same_config. by rewrite E1, E2, E3. }
  split; cbn [g_mgr g_tasks g_expiring g_host]; [done| |done| |done].
  - inversion Hch as [|port proto Hp Hq|p a Ha]; subst; cbn [with_mappings um_mappings]; [done| |].
    + by apply map_Forall_delete.
    + apply map_Forall_insert_2; [|done]. split; [done|]. exists a. by apply (admitted_config m0 (g_mgr g)).
  - apply Forall_app. split; [done|].
    inversion Hch as [|port proto Hp Hq|p a Ha]; subst; [constructor| |];
      unfold spawned; (destruct (um_executor (g_mgr g)); [|constructor]);
      (constructor; [|constructor]); [by split|].
    cbn [task_ok]. exists p, a. split; [unfold add_op; by rewrite Ew|].
    by apply (admitted_config m0 (g_mgr g)).
Qed.

Lemma expired_key_ok now m :
  map_Forall (fun k p => k = (pm_external_port p, pm_proto p) /\ exists a, admitted m0 p a) (um_mappings m) ->
  Forall key_ok (expired_keys now m).
Proof.
  intros H. apply Forall_forall. intros k Hk. unfold expired_keys in Hk.
  apply list_elem_of_omap in Hk as ([k' p] & Hin & E). apply elem_of_map_to_list in Hin.
  cbn [fst snd] in E. destruct (lease_expired now p); [|done]. injection E as ->.
  destruct (H _ _ Hin) as [-> [a Ha]]. by eapply admitted_key.
Qed.

Lemma step_inv allowed g g' : igd_inv g -> igd_step nft b allowed g g' -> igd_inv g'.
Proof.
  intros Hi Hs. pose proof Hi as [Hc Ht He Hk Hr].
  inversion Hs as [? now peer s m ops out Hv|? now ks He0 Hp|? port proto ks m ops He0 Hd|? i op n r Hop Hu Hal|? i op e Hop Hal];
    subst.
  - apply control_changes in Hv. by apply (change_inv g m ops).
  - split; try done. cbn. rewrite Hp. by apply expired_key_ok.
  - rewrite He0 in He. inversion He as [|? ? Hko Hks]; subst.
    apply (change_inv g m ops); [done| |done]. unfold delete_mapping, spawn_task in Hd.
    injection Hd as <- <-. apply deleted; apply Hko.
  - split; try done; cbn [g_tasks g_host]; [by apply Forall_delete|].
    eapply task_rules; [|exact Hr|exact Hu]. by eapply Forall_lookup in Hop.
  - split; try done. by apply Forall_delete.
Qed.

Lemma reachable_inv allowed g g' : igd_inv g -> rtc (igd_step nft b allowed) g g' -> igd_inv g'.
Proof. intros Hi Hr. induction Hr as [|g g1 g' Hs _ IH]; [done|]. by apply IH, (step_inv allowed g). Qed.
End Safety.

(** C15.  UPnP opens no way to anything but the LAN: whatever bytes clients send, however the
    tasks are scheduled, lost or failing, and whenever leases run out, every rule of the NAT
    chain forwards a port of the WAN interface to a private address of the LAN subnet. *)
Theorem upnp_forwards_to_lan_only {N : Type} {nft : N -> list string -> N * (Error + output)}
    {b : NftablesBackend} {nft_spec : Nft (table_name b) nft} m0 (n : N) g net prefix :
  upnp_parse_cidr (um_lan_subnet m0) = Some (net, prefix) -> prefix <= 32 ->
  untagged (um_wan_interface m0) -> um_mappings m0 = ∅ -> nat_rules (b := b) n = [] ->
  rtc (igd_step nft b any_order) (mkIgd m0 [] [] n) g ->
  forall r, In r (nat_rules (b := b) (g_host g)) ->
  exists port proto a iport,
    r.2 = render (upnp_spec port proto a iport (um_wan_interface m0)) /\
    0 < port < 65536 /\ 0 < iport < 65536 /\ rfc1918 a /\ in_subnet net prefix a.
Proof.
  intros Hs Hp Hw Hm Hn Hr r Hin.
  assert (Hi : igd_inv (b := b) m0 (mkIgd m0 [] [] n)).
  { split; cbn; [done|rewrite Hm; apply map_Forall_empty|constructor|constructor|].
    rewrite Hn. constructor. }
  apply (reachable_inv m0 Hw _ _ _ Hi) in Hr as [_ _ _ _ Hrs].
  apply (proj1 (List.Forall_forall _ _) Hrs) in Hin as (_ & p & a & E & [_ [H1 H2 _ H3 H4] H5]).
  do 4 eexists. split; [exact E|]. do 2 (split; [done|]).
  split; [by apply private_unicast_rfc1918|]. by apply (is_lan_peer_spec m0).
Qed.

(** ** The chain follows the table *)

Lemma drop_tag_split c rs :
  NoDup (map fst rs) ->
  match List.find (has_tag c) rs with
  | Some x => exists l1 l2, rs = l1 ++ x :: l2 /\ drop_tag c rs = l1 ++ l2 /\ has_tag c x = true
  | None => drop_tag c rs = rs
  end.
Proof.
  intros Hn. unfold drop_tag. destruct (List.find (has_tag c) rs) as [x|] eqn:E; [|done].
  apply find_some in E as [Hin Ht]. apply in_split in Hin as (l1 & l2 & ->).
  exists l1, l2. split; [done|]. split; [|done]. rewrite map_app in Hn. cbn [map] in Hn.
  apply NoDup_app in Hn as (_ & H1 & H2). apply NoDup_cons in H2 as [H2 _].
  rewrite List.filter_app. cbn [List.filter]. rewrite Z.eqb_refl. cbn [negb].
  rewrite !filter_all; [done| |]; apply List.Forall_forall; intros y Hy; apply negb_true_iff, Z.eqb_neq;
    intros Exy.
  - apply H2. rewrite <- Exy. by apply list_elem_of_In, in_map.
  - apply (H1 y.1); [by apply list_elem_of_In, in_map|]. rewrite Exy. left.
Qed.

Section Agreement.
Context {N : Type} {nft : N -> list string -> N * (Error + output)} {b : NftablesBackend}
  {nft_spec : Nft (table_name b) nft}.
Context (m0 : UpnpManager) (wan_untagged : untagged (um_wan_interface m0)).

Definition tag_of (k : Z * string) : string := upnp_comment k.1 k.2.

Definition rule_list (o : option (list string)) : list (list string) :=
  match o with Some r => [r] | None => [] end.

(** The rules under a key's comment are the one the map has, or none. *)
Definition agree (rs : list nft_rule) (M : gmap (Z * string) (list string)) : Prop :=
  forall k, key_ok k -> map snd (List.filter (has_tag (tag_of k)) rs) = rule_list (M !! k).

Definition mapping_rule (p : PortMapping) : list string :=
  match pm_internal_ip p with V4 a => rule_args m0 p a | V6 _ => [] end.

Definition table_rules (m : UpnpManager) : gmap (Z * string) (list string) :=
  mapping_rule <$> um_mappings m.

Definition apply_task (M : gmap (Z * string) (list string)) (op : UpnpOp) :
    gmap (Z * string) (list string) :=
  match op with
  | AddPortMapping port proto ip iport wan =>
      match parse_ipv4 ip with
      | Some a => <[(port, proto) := render (upnp_spec port proto a iport wan)]> M
      | None => M
      end
  | RemovePortMapping port proto _ => delete (port, proto) M
  | RemoveAll => M
  end.

Lemma rule_list_mid (l1 l2 : list (list string)) x o : l1 ++ x :: l2 = rule_list o -> l1 ++ l2 = [].
Proof. destruct o, l1 as [|? [|]], l2; done. Qed.

Lemma agree_drop rs M k :
  key_ok k -> NoDup (map fst rs) -> agree rs M -> agree (drop_tag (tag_of k) rs) (delete k M).
Proof.
  intros Hk Hn Ha k' Hk'. pose proof (Ha k' Hk') as Hag. pose proof (drop_tag_split (tag_of k) rs Hn) as Hd.
  destruct (decide (k' = k)) as [->|Hne].
  - rewrite lookup_delete_eq. cbn [rule_list].
    destruct (List.find (has_tag (tag_of k)) rs) as [x|] eqn:Ef.
    + destruct Hd as (l1 & l2 & -> & -> & Hx). rewrite List.filter_app in *. cbn [List.filter] in Hag.
      rewrite Hx in Hag. rewrite map_app in *. cbn [map] in Hag.
      exact (rule_list_mid _ _ _ _ Hag).
    + rewrite Hd. rewrite filter_none; [done|]. apply List.Forall_forall. by apply find_none.
  - rewrite lookup_delete_ne by done. rewrite <- Hag. f_equal.
    destruct (List.find (has_tag (tag_of k)) rs) as [x|] eqn:Ef; [|by rewrite Hd].
    destruct Hd as (l1 & l2 & -> & -> & Hx). rewrite !List.filter_app. cbn [List.filter].
    destruct (has_tag (tag_of k') x) eqn:Hx'; [|done]. exfalso. apply Hne.
    pose proof (has_tag_inj _ _ _ Hx Hx') as E. destruct k as [p q], k' as [p' q'].
    destruct Hk as [Hk _], Hk' as [Hk' _]. cbn [fst snd] in *.
    destruct (upnp_comment_inj p q p' q' ltac:(lia) ltac:(lia) E) as [-> ->]. done.
Qed.

Lemma agree_append rs M p a h :
  admitted m0 p a -> agree rs M -> M !! (pm_external_port p, pm_proto p) = None ->
  agree (rs ++ [(h, rule_args m0 p a)]) (<[(pm_external_port p, pm_proto p) := rule_args m0 p a]> M).
Proof.
  intros Hp Ha Hno k Hk. rewrite List.filter_app, map_app, Ha by done. cbn [List.filter].
  unfold tag_of. rewrite upnp_comment_tag, (has_tag_tagged h _ _ _ (rule_args_tagged m0 wan_untagged p a Hp)).
  destruct (decide (k = (pm_external_port p, pm_proto p))) as [->|Hne].
  - rewrite lookup_insert_eq, Hno. cbn [fst snd]. by rewrite String.eqb_refl.
  - rewrite lookup_insert_ne by done.
    rewrite (proj2 (String.eqb_neq _ _)); [cbn [map]; by rewrite app_nil_r|].
    intros E. apply Hne. destruct k as [q1 q2], Hk as [Hk _]. cbn [fst snd] in *.
    pose proof (ac_port _ _ _ _ (ad_acceptable _ _ _ Hp)).
    destruct (upnp_comment_inj (pm_external_port p) (pm_proto p) q1 q2 ltac:(lia) ltac:(lia)) as [-> ->]; [|done].
    by rewrite !upnp_comment_tag, E.
Qed.

(** The tasks run one after the other, in the order they were spawned, and succeed; a
    removal that finds no chain has nothing to do, although it reports an error. *)
Definition in_order (i : nat) (op : UpnpOp) (n : N) (r : Error + UpnpOpResult) : Prop :=
  i = 0%nat /\
  ((exists res, r = inr res) \/
   (chain_rules (Nft := nft_spec) n UPNP_PREROUTING_CHAIN = None /\
    exists port proto wan, op = RemovePortMapping port proto wan)).

Record following (g : igd N) : Prop := {
  fo_inv : igd_inv (b := b) m0 g;
  fo_handles : NoDup (map fst (nat_rules (b := b) (g_host g)));
  fo_agree : exists M, agree (nat_rules (b := b) (g_host g)) M /\
    fold_left apply_task (g_tasks g) M = table_rules (g_mgr g)
}.

Lemma dropped_handles (rs : list nft_rule) c : NoDup (map fst rs) -> NoDup (map fst (drop_tag c rs)).
Proof.
  intros Hn. unfold drop_tag. destruct (List.find (has_tag c) rs); [|done].
  by apply NoDup_ListNoDup, NoDup_map_filter, NoDup_ListNoDup.
Qed.

Lemma appended_handles (rs : list nft_rule) c args rs' :
  NoDup (map fst rs) -> appended (drop_tag c rs) args rs' -> NoDup (map fst rs').
Proof.
  intros Hn (h & _ & Hh & ->). rewrite map_app. apply NoDup_app.
  split; [by apply dropped_handles|]. split; [|apply NoDup_singleton].
  intros x Hx%list_elem_of_In Hx'%list_elem_of_In. by destruct Hx' as [<-|[]].
Qed.

Lemma task_agrees op (n n' : N) r M :
  task_ok m0 op -> Forall (lan_rule m0) (nat_rules (b := b) n) ->
  NoDup (map fst (nat_rules (b := b) n)) -> agree (nat_rules (b := b) n) M ->
  upnp_op nft b op n = (n', r) -> in_order 0 op n r ->
  NoDup (map fst (nat_rules (b := b) n')) /\ agree (nat_rules (b := b) n') (apply_task M op).
Proof.
  intros Hop Hrs Hn Ha H [_ Hres]. pose proof (lan_rules_tagged m0 wan_untagged _ Hrs) as Ht.
  destruct op as [? ? ? ? ?|port proto w|]; [| |done].
  - destruct Hop as (p & a & Eop & Hp). rewrite Eop in H |- *. pose proof Hp as [Hip Hac _].
    destruct Hres as [Hres|(_ & ? & ? & ? & [=])]. unfold add_op in H |- *. rewrite Hip in H |- *.
    cbn [show_ip] in H |- *. cbn [apply_task]. rewrite (proj2 (parse_show_v4 a (ac_range _ _ _ _ Hac))).
    destruct (add_mapping_rules _ _ _ _ _ _ _ _ Hac Ht H) as [_ Happ]. specialize (Happ Hres).
    split; [by eapply appended_handles|]. destruct Happ as (h & _ & _ & ->).
    rewrite <- insert_delete_eq. apply agree_append; [done| |apply lookup_delete_eq].
    apply (agree_drop _ _ (pm_external_port p, pm_proto p)); [by eapply admitted_key|done..].
  - destruct Hop as [Hk Hl]. destruct (remove_mapping_rules _ _ _ _ _ _ Ht H) as [_ Hd].
    cbn [fst snd] in *. rewrite Hl in Hd. rewrite Hd; [|destruct Hres as [?|[? _]]; auto].
    split; [by apply dropped_handles|]. by apply (agree_drop _ _ (port, proto)).
Qed.

Lemma change_follows m m' ops :
  same_config m0 m -> um_executor m0 = true -> table_change m m' ops ->
  table_rules m' = fold_left apply_task ops (table_rules m).
Proof.
  intros (Ex & _ & Ew) Hex Hch. inversion Hch as [|port proto Hp Hq|p a Ha]; subst; [done| |];
    unfold spawned; rewrite Ex, Hex; cbn [fold_left]; unfold table_rules; cbn [with_mappings um_mappings].
  - by rewrite fmap_delete.
  - rewrite fmap_insert. destruct Ha as [Hip Hac _]. unfold add_op, mapping_rule. rewrite Hip.
    cbn [show_ip apply_task]. rewrite (proj2 (parse_show_v4 a (ac_range _ _ _ _ Hac))).
    unfold rule_args. by rewrite Ew.
Qed.

Lemma control_follows g m ops ks :
  following g -> um_executor m0 = true -> table_change (g_mgr g) m ops -> Forall key_ok ks ->
  following (mkIgd m (g_tasks g ++ ops) ks (g_host g)).
Proof.
  intros [Hi Hn (M & Ha & Hf)] Hex Hch Hks. split; [by apply change_inv|done|].
  exists M. split; [done|]. cbn [g_tasks g_mgr]. rewrite fold_left_app, Hf. symmetry.
  apply change_follows; [apply Hi|done..].
Qed.

Lemma step_follows g g' :
  um_executor m0 = true -> following g -> igd_step nft b in_order g g' -> following g'.
Proof.
  intros Hex Hf Hs. pose proof Hf as [Hi Hn (M & Ha & Hfold)].
  pose proof (step_inv m0 wan_untagged _ _ _ Hi Hs) as Hi'. pose proof Hi as [Hc Ht He Hk Hr].
  inversion Hs as [? now peer s m ops out Hv|? now ks He0 Hp|? port proto ks m ops He0 Hd|? i op n r Hop Hu Hal|? i op e Hop Hal];
    subst.
  - apply control_changes in Hv. by apply control_follows.
  - split; [done|done|]. by exists M.
  - rewrite He0 in He. inversion He as [|? ? Hko Hks]; subst. apply control_follows; [done..| |done].
    unfold delete_mapping, spawn_task in Hd. injection Hd as <- <-. apply deleted; apply Hko.
  - pose proof Hal as [-> _]. destruct (g_tasks g) as [|op' tasks] eqn:Et; [done|]. injection Hop as ->.
    inversion Hk as [|? ? Hop Hk']; subst.
    destruct (task_agrees op _ _ _ M Hop Hr Hn Ha Hu Hal) as [Hn' Ha'].
    split; [done|done|]. by exists (apply_task M op).
  - destruct Hal as [-> [[? [=]]|(Hno & port & proto & wan & ->)]].
    destruct (g_tasks g) as [|op' tasks] eqn:Et; [done|]. injection Hop as ->.
    inversion Hk as [|? ? Hop Hk']; subst.
    split; [done|done|]. exists (delete (port, proto) M). split; [|done]. cbn [g_host].
    pose proof (agree_drop _ _ (port, proto) Hop Hn Ha) as Hag. revert Hag.
    unfold nat_rules. by rewrite Hno.
Qed.
End Agreement.

(** C16.  The NAT chain is the mapping table: when the tasks run in the order they were
    spawned and the executor carries them out, then, once none is left, every mapping of the
    table has exactly its rule in the chain and a port without a mapping has none.  Mappings
    come and go through requests, renewals and expired leases. *)
Theorem mappings_become_dnat_rules {N : Type} {nft : N -> list string -> N * (Error + output)}
    {b : NftablesBackend} {nft_spec : Nft (table_name b) nft} m0 (n : N) g :
  um_executor m0 = true -> untagged (um_wan_interface m0) -> um_mappings m0 = ∅ ->
  nat_rules (b := b) n = [] -> rtc (igd_step nft b in_order) (mkIgd m0 [] [] n) g ->
  g_tasks g = [] ->
  forall port proto, 0 <= port < 65536 -> to_ascii_lowercase proto = proto ->
  map snd (List.filter (has_tag (upnp_comment port proto)) (nat_rules (b := b) (g_host g))) =
    match um_mappings (g_mgr g) !! (port, proto) with Some p => [mapping_rule m0 p] | None => [] end.
Proof.
  intros Hex Hw Hm Hn Hr Ht port proto Hp Hq.
  assert (Hf : following (b := b) m0 (mkIgd m0 [] [] n)).
  { split; cbn [g_host g_tasks g_mgr].
    - split; cbn; [done|rewrite Hm; apply map_Forall_empty|constructor|constructor|].
      rewrite Hn. constructor.
    - rewrite Hn. constructor.
    - exists ∅. split; [|unfold table_rules; by rewrite Hm, fmap_empty].
      intros k _. by rewrite Hn, lookup_empty. }
  assert (following (b := b) m0 g) as [_ _ (M & Ha & HM)].
  { clear Ht. induction Hr as [|g g1 g' Hs _ IH]; [done|]. by eapply IH, step_follows. }
  rewrite Ht in HM. cbn [fold_left] in HM. subst M. pose proof (Ha (port, proto) (conj Hp Hq)) as E.
  unfold tag_of, table_rules in E. cbn [fst snd] in E. rewrite E, lookup_fmap.
  by destruct (um_mappings (g_mgr g) !! (port, proto)).
Qed.

(** ** Segments *)

Lemma window_position_bound pat l i :
  window_position pat l = Some i -> (i + length pat <= length l)%nat.
Proof.
  revert i. induction l as [|x l IH]; intros i; cbn [window_position];
    destruct (decide _) as [E|]; intros H; try done.
  - injection H as <-. apply (f_equal length) in E. rewrite length_take in E. cbn in *. lia.
  - injection H as <-. apply (f_equal length) in E. rewrite length_take in E. lia.
  - destruct (window_position pat l) as [j|]; [|done]. injection H as <-.
    specialize (IH j eq_refl). cbn. lia.
Qed.

Lemma window_position_app pat l l' i :
  window_position pat l = Some i -> window_position pat (l ++ l') = Some i.
Proof.
  revert i. induction l as [|x l IH]; intros i H; pose proof (window_position_bound _ _ _ H) as Hb.
  - cbn in Hb. assert (pat = []) as -> by (by destruct pat; [|cbn in Hb; lia]).
    assert (i = 0%nat) as -> by (cbn in Hb; lia). cbn [app]. by destruct l'.
  - cbn [app window_position] in *. destruct (decide (take (length pat) (x :: l) = pat)) as [E|Hne].
    + injection H as <-. rewrite decide_True; [done|]. rewrite <- E at 2.
      rewrite app_comm_cons. apply take_app_le. cbn in *. lia.
    + destruct (window_position pat l) as [j|] eqn:Ej; [|done]. injection H as <-.
      rewrite decide_False; [by rewrite (IH j eq_refl)|]. intros E. apply Hne.
      apply window_position_bound in Ej. rewrite <- E at 2. rewrite app_comm_cons.
      symmetry. apply take_app_le. cbn. lia.
Qed.

(** Nothing is found before the whole pattern is there. *)
Lemma window_position_short pat l l' i :
  window_position pat (l ++ l') = Some i -> (length l < i + length pat)%nat ->
  window_position pat l = None.
Proof.
  intros H Hl. destruct (window_position pat l) as [j|] eqn:E; [|done].
  pose proof (window_position_bound _ _ _ E). apply (window_position_app _ _ l') in E.
  rewrite H in E. injection E as ->. lia.
Qed.

Lemma window_position_none pat l l' : window_position pat (l ++ l') = None -> window_position pat l = None.
Proof.
  intros H. destruct (window_position pat l) as [j|] eqn:E; [|done].
  apply (window_position_app _ _ l') in E. congruence.
Qed.

Definition terminator : list Z := [13; 10; 13; 10].

(** A header whose first blank line is the terminator. *)
Record proper_head (head : list Z) : Prop := {
  ph_first : window_position terminator (head ++ terminator) = Some (length head);
  ph_bare : window_position [10; 10] (head ++ terminator) = None;
  ph_short : len head + 4 <= MAX_HEADER
}.

Lemma header_found head rest :
  proper_head head -> find_header_end (head ++ terminator ++ rest) = Some (length head).
Proof.
  intros [H _ _]. unfold find_header_end. rewrite app_assoc.
  fold terminator. by rewrite (window_position_app _ _ _ _ H).
Qed.

Lemma header_not_yet head l l' :
  proper_head head -> l ++ l' = head ++ terminator -> (length l < length head + 4)%nat ->
  find_header_end l = None.
Proof.
  intros [H1 H2 _] E Hl. unfold find_header_end. rewrite <- E in H1, H2.
  fold terminator. rewrite (window_position_short _ _ _ _ H1) by exact Hl.
  exact (window_position_none _ _ _ H2).
Qed.

Lemma read_header_segments head body buf s :
  proper_head head -> Forall (fun c => c <> []) s ->
  buf ++ concat s = head ++ terminator ++ body -> (length buf < length head + 4)%nat ->
  exists buf' s', read_header buf s = Some (buf', Some (length head), s') /\
    buf' ++ concat s' = head ++ terminator ++ body /\ (length head + 4 <= length buf')%nat /\
    Forall (fun c => c <> []) s'.
Proof.
  intros Hp. revert buf. induction s as [|c s IH]; intros buf Hs E Hl.
  - apply (f_equal length) in E. rewrite !length_app in E. cbn in E. lia.
  - inversion Hs as [|? ? Hc Hs']; subst. pose proof (ph_short _ Hp).
    cbn [read_header concat] in *. replace (len buf <? MAX_HEADER) with true by (unfold len in *; lia).
    cbn [negb]. destruct c as [|x c]; [done|]. rewrite app_assoc in E.
    set (buf' := buf ++ x :: c) in *. clearbody buf'.
    destruct (decide (length head + 4 <= length buf')%nat) as [Hge|Hlt].
    + assert (Eb : find_header_end buf' = Some (length head)).
      { rewrite app_assoc in E. apply (f_equal (take (length buf'))) in E.
        rewrite take_app_length, take_app_ge in E by (rewrite length_app; cbn; lia).
        rewrite E, <- app_assoc. by apply header_found. }
      rewrite Eb. by exists buf', s.
    + assert (Eb : find_header_end buf' = None).
      { apply (header_not_yet head buf' (drop (length buf') (head ++ terminator))); [done| |lia].
        rewrite app_assoc in E. apply (f_equal (take (length buf'))) in E.
        rewrite take_app_length, take_app_le in E by (rewrite length_app; cbn; lia).
        rewrite E at 1. apply take_drop. }
      rewrite Eb. apply IH; [done|done|lia].
Qed.

Lemma read_body_segments body rest s :
  Forall (fun c => c <> []) s -> rest ++ concat s = body -> read_body (len body) rest s = body.
Proof.
  revert rest. induction s as [|c s IH]; intros rest Hs E.
  - cbn [concat] in E. rewrite app_nil_r in E. subst. cbn [read_body].
    by replace (len body <? len body) with false by lia.
  - inversion Hs as [|? ? Hc Hs']; subst. cbn [read_body concat] in *.
    destruct c as [|x c]; [done|].
    replace (len rest <? len (rest ++ (x :: c) ++ concat s)) with true
      by (rewrite len_app; pose proof (len_nonneg (c ++ concat s)); cbn [app]; rewrite len_cons; lia).
    cbn [negb]. apply IH; [done|]. by rewrite <- app_assoc.
Qed.

(** The endpoint serves a request as a whole, however the network cuts it into segments:
    for a header of at most 16 KiB and a body as long as it announces, every way to split
    the bytes gives the answer and the effects of the request dispatched at once. *)
Theorem request_reassembled now m head body s request_line lines :
  proper_head head -> Forall (fun c => c <> []) s -> concat s = head ++ terminator ++ body ->
  str_lines (string_of_bytes (utf8_lossy head)) = request_line :: lines ->
  content_length_of lines = len body -> len body <= isize_max ->
  let parts := split_whitespace request_line in
  handle_connection now m s =
    let '(m', ops, (status, payload)) :=
      upnp_dispatch now (default EmptyString (hd_error parts)) (default "/"%string (parts !! 1%nat))
        (string_of_bytes (utf8_lossy body)) m in
    Val (m', ops, Some (write_http_response status payload)).
Proof.
  intros Hp Hs E Hl Hcl Hmax parts.
  destruct (read_header_segments head body [] s Hp Hs E) as (buf & s' & Er & Eb & Hlen & Hs');
    [cbn; lia|].
  assert (Hrest : exists rest, buf = head ++ terminator ++ rest /\ rest ++ concat s' = body).
  { exists (drop (length head + 4) buf). pose proof Eb as E1. rewrite app_assoc in E1.
    assert (Et : take (length head + 4) buf = head ++ terminator).
    { apply (f_equal (take (length head + 4))) in E1.
      rewrite take_app_le, take_app_length' in E1 by (rewrite ?length_app; cbn; lia). done. }
    split; [by rewrite app_assoc, <- Et, take_drop|].
    apply (f_equal (drop (length head + 4))) in E1.
    rewrite drop_app_le, drop_app_length' in E1 by (rewrite ?length_app; cbn; lia). done. }
  destruct Hrest as (rest & -> & Hrest). unfold handle_connection. rewrite Er.
  unfold read_request. rewrite take_app_length, Hl, Hcl. cbv zeta.
  replace (isize_max <? len body) with false by lia.
  rewrite slice_eq by (rewrite !len_app; pose proof (len_nonneg rest); change (len terminator) with 4; unfold len in *; lia).
  cbn [mbind exec_bind]. rewrite app_assoc, drop_app_length' by (rewrite length_app; cbn; lia).
  assert (Hrl : (length rest <= Z.to_nat (len ((head ++ terminator) ++ rest) -
    (Z.of_nat (length head) + 4)))%nat) by (unfold len; rewrite !length_app; cbn; lia).
  rewrite (take_ge rest _ Hrl).
  rewrite (read_body_segments body) by done. rewrite Z.min_id.
  replace (Z.to_nat (len body)) with (length body) by (unfold len; lia). rewrite firstn_all.
  reflexivity.
Qed.

(** A request with bare line ends and no body stops the daemon: the body is taken from two
    bytes behind the end of what was read, and the release profile aborts on a panic. *)
Theorem bare_newlines_abort now m head :
  window_position terminator (head ++ [10; 10]) = None ->
  window_position [10; 10] (head ++ [10; 10]) = Some (length head) ->
  str_lines (string_of_bytes (utf8_lossy head)) <> [] ->
  handle_connection now m [head ++ [10; 10]] = Panic.
Proof.
  intros H1 H2 H3. unfold handle_connection. cbn [read_header]. change (len [] <? MAX_HEADER) with true.
  cbn [negb]. destruct (head ++ [10; 10]) as [|x l] eqn:E; [by destruct head|]. cbn [app].
  unfold find_header_end. fold terminator. rewrite H1, H2. rewrite <- E. unfold read_request.
  rewrite take_app_length. destruct (str_lines _) as [|line lines]; [done|]. cbv zeta.
  destruct (_ <? _); [done|]. unfold slice. rewrite len_app. change (len [10; 10]) with 2.
  replace (Z.of_nat (length head) + 4 <=? len head + 2) with false by (unfold len; lia).
  by rewrite andb_false_r.
Qed.

(** ** Standard requests *)

(** An ASCII character that is not white space. *)
Definition visible (c : ascii) : bool := negb (is_space c) && (byte_of c <? 128).

Lemma skip_ws_visible u c w :
  visible c = true ->
  skip_ws (u +:+ String c w) = None \/ exists u', skip_ws (u +:+ String c w) = Some (u' +:+ String c w).
Proof.
  intros [Hs Hb]%andb_true_iff. apply negb_true_iff in Hs. apply Z.ltb_lt in Hb.
  assert (Hne : forall z, 128 <= z -> (byte_of c =? z) = false) by (intros z Hz; lia).
  destruct u as [|c1 [|c2 [|c3 u]]]; rewrite ?string_app_cons; change (EmptyString +:+ ?s) with s.
  - left. cbn [skip_ws]. rewrite Hs, !Hne by lia. cbn [andb orb]. by repeat case_match.
  - cbn [skip_ws]. rewrite !Hne by lia. destruct (is_space c1); [right; by exists EmptyString|left].
    rewrite !andb_false_r. by destruct w.
  - cbn [skip_ws]. unfold in_range. rewrite !Hne by lia.
    destruct (is_space c1); [right; by exists (String c2 EmptyString)|].
    destruct (_ && _); [right; by exists EmptyString|left].
    replace (128 <=? byte_of c) with false by lia. cbn [andb orb]. by rewrite !andb_false_r.
  - cbn [skip_ws]. destruct (is_space c1); [right; by exists (String c2 (String c3 u))|].
    destruct (_ && _); [right; by exists (String c3 u)|].
    destruct (_ || _); [right; by exists u|by left].
Qed.

Lemma all_ws_visible u c w : visible c = true -> all_ws (u +:+ String c w) = false.
Proof.
  intros Hc. unfold all_ws, utrim_start. generalize (String.length (u +:+ String c w)) as n. intros n.
  revert u. induction n as [|n IH]; intros u; cbn [trim_start_n]; [by destruct u|].
  destruct (skip_ws_visible u c w Hc) as [->|[u' ->]]; [by destruct u|]. apply IH.
Qed.

Lemma utrim_end_visible u c w : visible c = true -> utrim_end (u +:+ String c w) = u +:+ String c (utrim_end w).
Proof.
  intros Hc. induction u as [|x u IH].
  - change (EmptyString +:+ ?s) with s. cbn [utrim_end].
    by rewrite (all_ws_visible EmptyString c w Hc : all_ws (String c w) = false).
  - rewrite !string_app_cons. cbn [utrim_end].
    by rewrite (all_ws_visible (String x u) c w Hc : all_ws (String x (u +:+ String c w)) = false), IH.
Qed.

Lemma utrim_start_visible c w : visible c = true -> utrim_start (String c w) = String c w.
Proof.
  intros Hc. unfold utrim_start. destruct (String.length (String c w)); [done|]. cbn [trim_start_n].
  destruct (skip_ws_visible EmptyString c w Hc) as [E|[u' E]]; change (EmptyString +:+ ?s) with s in E.
  - by rewrite E.
  - exfalso. assert (Hl : forall s r, skip_ws s = Some r -> (String.length r < String.length s)%nat).
    { intros s r. unfold skip_ws. repeat case_match; intros [= <-]; cbn [String.length]; lia. }
    apply Hl in E. rewrite string_length_app in E. cbn [String.length] in E. lia.
Qed.

Lemma utrim_visible s : Text.all_chars visible s = true -> utrim s = s.
Proof.
  intros H. unfold utrim. destruct s as [|c s]; [done|]. cbn [Text.all_chars] in H.
  apply andb_true_iff in H as [Hc H]. rewrite utrim_start_visible by done.
  assert (He : forall t, Text.all_chars visible t = true -> utrim_end t = t).
  { induction t as [|d t IH]; intros Ht; [done|]. cbn [Text.all_chars] in Ht.
    apply andb_true_iff in Ht as [Hd Ht].
    change (utrim_end (EmptyString +:+ String d t) = String d t).
    rewrite utrim_end_visible by done. by rewrite IH. }
  apply He. cbn [Text.all_chars]. by rewrite Hc.
Qed.

Lemma no_char_lower s : no_char "<" (to_ascii_lowercase s) = no_char "<" s.
Proof.
  unfold to_ascii_lowercase. induction s as [|c s IH]; [done|]. cbn [string_map no_char].
  rewrite IH. f_equal. by destruct c as [[] [] [] [] [] [] [] []].
Qed.

(** *** Finding elements *)

Lemma contains_one x u w p :
  no_char x u = true -> no_char x w = true ->
  contains (u +:+ String x w) (String x p) = starts_with w p.
Proof.
  intros Hu Hw. induction u as [|c u IH].
  - change (EmptyString +:+ ?s) with s. cbn [contains]. rewrite contains_first by done.
    rewrite orb_false_r, prefix_strip. cbn [strip_prefix]. by rewrite Ascii.eqb_refl.
  - cbn [no_char] in Hu. apply andb_true_iff in Hu as [Hc Hu]. rewrite string_app_cons. cbn [contains].
    rewrite IH, prefix_strip by done. cbn [strip_prefix]. rewrite Ascii.eqb_sym.
    by destruct (Ascii.eqb c x).
Qed.

Lemma find_pos_skip x p p' u w :
  no_char x p = true -> p <> EmptyString -> contains u p = false ->
  find_pos (p +:+ p') (u +:+ String x w) =
    (fun i => String.length u + 1 + i)%nat <$> find_pos (p +:+ p') w.
Proof.
  intros Hx Hp. assert (Hs : forall v, strip_prefix p v = None -> strip_prefix (p +:+ p') v = None).
  { intros v Hv. destruct (strip_prefix (p +:+ p') v) as [r|] eqn:E; [|done].
    apply strip_prefix_spec in E as ->. by rewrite string_app_assoc, strip_prefix_app in Hv. }
  induction u as [|c u IH]; intros Hu.
  - change (EmptyString +:+ ?s) with s. cbn [find_pos String.length]. rewrite Hs; [done|].
    destruct p as [|a p]; [done|]. cbn [strip_prefix no_char] in *. by destruct (Ascii.eqb a x).
  - cbn [contains] in Hu. apply orb_false_iff in Hu as [Hc Hu]. rewrite prefix_strip in Hc.
    rewrite string_app_cons. cbn [find_pos String.length]. rewrite <- (string_app_cons c u), Hs.
    + rewrite IH by done. by destruct (find_pos _ w).
    + rewrite strip_prefix_sep by done. by destruct (strip_prefix p _).
Qed.

Lemma str_drop_app a c : str_drop (String.length a) (a +:+ c) = c.
Proof. induction a as [|x a IH]; [done|]. exact IH. Qed.

Lemma str_take_app a c : str_take (String.length a) (a +:+ c) = a.
Proof.
  induction a as [|x a IH]; [by destruct c|]. rewrite string_app_cons. cbn [String.length str_take].
  by rewrite IH.
Qed.

Lemma lower_length s : String.length (to_ascii_lowercase s) = String.length s.
Proof. unfold to_ascii_lowercase. induction s as [|c s IH]; [done|]. cbn. by rewrite IH. Qed.

Lemma lower_app s t : to_ascii_lowercase (s +:+ t) = to_ascii_lowercase s +:+ to_ascii_lowercase t.
Proof. apply string_map_app. Qed.

(** An element without attributes, and a sequence of them: tag and content. *)
Definition elem (t v : string) : string := "<" +:+ t +:+ ">" +:+ v +:+ "</" +:+ t +:+ ">".
Definition elems (es : list (string * string)) : string :=
  fold_right (fun e s => elem e.1 e.2 +:+ s) EmptyString es.

Definition tag_name (t : string) : bool :=
  no_char "<" t && no_char ">" t && match t with String "/" _ | EmptyString => false | _ => true end.

(** The element is not the one searched for. *)
Definition other_elem (tag : string) (e : string * string) : bool :=
  no_char "<" e.1 && no_char "<" e.2 &&
  negb (starts_with (to_ascii_lowercase e.1) (to_ascii_lowercase tag)).

Definition marker (tag : string) : string := "<" +:+ to_ascii_lowercase tag +:+ ">".

Lemma no_char_lower_gt s : no_char ">" (to_ascii_lowercase s) = no_char ">" s.
Proof.
  unfold to_ascii_lowercase. induction s as [|c s IH]; [done|]. cbn [string_map no_char].
  rewrite IH. f_equal. by destruct c as [[] [] [] [] [] [] [] []].
Qed.

Lemma tag_name_lower t : tag_name (to_ascii_lowercase t) = tag_name t.
Proof.
  unfold tag_name. rewrite no_char_lower, no_char_lower_gt. f_equal.
  destruct t as [|c t]; [done|]. unfold to_ascii_lowercase. cbn [string_map].
  by destruct c as [[] [] [] [] [] [] [] []].
Qed.

Lemma find_skip_elem tag t v w :
  tag_name tag = true -> other_elem tag (t, v) = true ->
  find_pos (marker tag) (to_ascii_lowercase (elem t v) +:+ w) =
    (fun i => String.length (elem t v) + i)%nat <$> find_pos (marker tag) w.
Proof.
  intros Ht Ho. unfold other_elem in Ho. cbn [fst snd] in Ho.
  apply andb_true_iff in Ho as [Ho Hpre]. apply andb_true_iff in Ho as [Hn1 Hn2].
  apply negb_true_iff in Hpre. rewrite <- tag_name_lower in Ht.
  unfold marker. set (ltag := to_ascii_lowercase tag) in *.
  unfold tag_name in Ht. apply andb_true_iff in Ht as [Ht Hslash]. apply andb_true_iff in Ht as [Hl Hg].
  assert (E : forall x, to_ascii_lowercase (elem t v) +:+ x =
    String "<" (to_ascii_lowercase t) +:+ String ">" ((to_ascii_lowercase v +:+ String "<" (String "/" (to_ascii_lowercase t))) +:+ String ">" x)).
  { intros x. unfold elem. rewrite !lower_app, !string_app_assoc. reflexivity. }
  rewrite E. change ("<" +:+ ltag +:+ ">") with (String "<" ltag +:+ ">").
  rewrite find_pos_skip; [|cbn [no_char]; by rewrite Hg|done|].
  2: { change (String "<" (to_ascii_lowercase t)) with (EmptyString +:+ String "<" (to_ascii_lowercase t)).
       rewrite contains_one; [done|done|by rewrite no_char_lower]. }
  rewrite find_pos_skip; [|cbn [no_char]; by rewrite Hg|done|].
  2: { rewrite contains_one; [|by rewrite no_char_lower|cbn [no_char]; by rewrite no_char_lower].
       destruct ltag as [|c l]; [done|]. unfold starts_with. cbn [strip_prefix].
       destruct (Ascii.eqb_spec c "/") as [->|]; done. }
  destruct (find_pos _ w) as [i|]; [|done]. cbn. f_equal.
  unfold elem. rewrite !string_length_app. cbn [String.length]. rewrite !lower_length. lia.
Qed.

Lemma find_marker tag w :
  tag_name tag = true -> find_pos (marker tag) (marker tag +:+ w) = Some 0%nat.
Proof.
  intros _. pose proof (strip_prefix_app (marker tag) w) as E.
  destruct (marker tag +:+ w) as [|c s] eqn:Em; cbn [find_pos]; by rewrite E.
Qed.

Lemma find_elems tag es w :
  tag_name tag = true -> forallb (other_elem tag) es = true ->
  find_pos (marker tag) (to_ascii_lowercase (elems es) +:+ marker tag +:+ w) =
    Some (String.length (elems es)).
Proof.
  intros Ht. induction es as [|[t v] es IH]; cbn [forallb elems fold_right fst snd]; intros Ho.
  - by apply find_marker.
  - apply andb_true_iff in Ho as [Ho Hes]. rewrite lower_app, string_app_assoc.
    rewrite find_skip_elem by done. change (fold_right _ _ es) with (elems es). rewrite (IH Hes).
    cbn. f_equal. by rewrite string_length_app.
Qed.

(** The content of the first element with the tag. *)
Lemma extract_elems tag pre es v rest :
  tag_name tag = true -> contains (to_ascii_lowercase pre) ("<" +:+ to_ascii_lowercase tag) = false ->
  forallb (other_elem tag) es = true -> no_char "<" v = true ->
  extract_tag (pre +:+ ">" +:+ elems es +:+ elem tag v +:+ rest) tag = utrim v.
Proof.
  intros Ht Hpre Hes Hv. unfold extract_tag. fold (marker tag).
  set (body := pre +:+ ">" +:+ elems es +:+ elem tag v +:+ rest).
  set (before := (pre +:+ ">" +:+ elems es)%string).
  set (after := (v +:+ "</" +:+ tag +:+ ">" +:+ rest)%string).
  assert (Eb : body = (before +:+ ("<" +:+ tag +:+ ">")) +:+ after)
    by (unfold body, before, after, elem; by rewrite !string_app_assoc).
  assert (El : to_ascii_lowercase body = to_ascii_lowercase pre +:+ String ">"
    (to_ascii_lowercase (elems es) +:+ marker tag +:+ to_ascii_lowercase after)).
  { rewrite Eb. unfold before, marker. rewrite !lower_app, !string_app_assoc. reflexivity. }
  assert (Hf : find_pos (marker tag) (to_ascii_lowercase body) = Some (String.length before)).
  { rewrite El. unfold marker at 1. change ("<" +:+ ?x +:+ ">") with (("<" +:+ x) +:+ ">").
    rewrite find_pos_skip; [|rewrite <- tag_name_lower in Ht; unfold tag_name in Ht;
      apply andb_true_iff in Ht as [Ht _]; by apply andb_true_iff in Ht as [_ ?]|done|done].
    change (("<" +:+ ?x) +:+ ">") with ("<" +:+ x +:+ ">"). fold (marker tag).
    rewrite find_elems by done. cbn. f_equal. unfold before. rewrite !string_length_app, lower_length.
    cbn [String.length]. lia. }
  rewrite Hf.
  assert (Elen : (String.length before + String.length (marker tag))%nat =
    String.length (before +:+ ("<" +:+ tag +:+ ">")))
    by (unfold marker; rewrite !string_length_app, lower_length; done).
  rewrite Elen, Eb, lower_app, str_drop_app.
  rewrite <- (lower_length (before +:+ _)), str_drop_app.
  assert (Hc : find_pos "</" (to_ascii_lowercase after) = Some (String.length v)).
  { unfold after. rewrite lower_app, <- (lower_length v).
    pose proof Hv as Hv'. rewrite <- no_char_lower in Hv'. revert Hv'.
    generalize (to_ascii_lowercase v) as u. induction u as [|c u IH]; intros Hu; [done|].
    cbn [no_char] in Hu. apply andb_true_iff in Hu as [Hc Hu]. rewrite string_app_cons.
    cbn [find_pos strip_prefix String.length]. rewrite Ascii.eqb_sym. apply negb_true_iff in Hc.
    rewrite Hc, (IH Hu). done. }
  rewrite Hc. unfold after. by rewrite str_take_app.
Qed.

Lemma elems_app es es' : elems (es ++ es') = elems es +:+ elems es'.
Proof.
  induction es as [|e es IH]; [done|]. cbn [app elems fold_right].
  change (fold_right _ _ ?l) with (elems l). by rewrite IH, string_app_assoc.
Qed.

Lemma extract_in_body tag pre es i v post :
  es !! i = Some (tag, v) -> tag_name tag = true ->
  contains (to_ascii_lowercase pre) ("<" +:+ to_ascii_lowercase tag) = false ->
  forallb (other_elem tag) (take i es) = true -> no_char "<" v = true ->
  extract_tag (pre +:+ ">" +:+ elems es +:+ post) tag = utrim v.
Proof.
  intros Hi Ht Hp Ho Hv. apply take_drop_middle in Hi. rewrite <- Hi at 1.
  rewrite elems_app. cbn [elems fold_right fst snd]. change (fold_right _ _ ?l) with (elems l).
  rewrite !string_app_assoc. by apply extract_elems.
Qed.

(** The request as common clients write it. *)
Definition add_line : string :=
  "<s:Envelope xmlns:s=" +:+ quoted "http://schemas.xmlsoap.org/soap/envelope/" +:+
  " s:encodingStyle=" +:+ quoted "http://schemas.xmlsoap.org/soap/encoding/" +:+
  "><s:Body><u:AddPortMapping xmlns:u=" +:+ quoted SERVICE_TYPE.

Definition add_open : string := xml_decl +:+ crlf +:+ add_line.

Definition add_fields (port : Z) (proto ip : string) (iport : Z) (desc : string) (lease : Z) :
    list (string * string) :=
  [("NewRemoteHost", EmptyString); ("NewExternalPort", pretty port); ("NewProtocol", proto);
   ("NewInternalPort", pretty iport); ("NewInternalClient", ip); ("NewEnabled", "1");
   ("NewPortMappingDescription", desc); ("NewLeaseDuration", pretty lease)]%string.

Definition add_request (port : Z) (proto ip : string) (iport : Z) (desc : string) (lease : Z) : string :=
  add_open +:+ ">" +:+ elems (add_fields port proto ip iport desc lease) +:+
  "</u:AddPortMapping></s:Body></s:Envelope>" +:+ crlf.

Lemma str_lines_sep cur a c :
  no_char newline a = true ->
  str_lines_aux cur (a +:+ String newline c) = strip_cr (cur +:+ a) :: str_lines_aux EmptyString c.
Proof.
  revert cur. induction a as [|x a IH]; intros cur H.
  - change (EmptyString +:+ ?s) with s. cbn [str_lines_aux]. rewrite Ascii.eqb_refl.
    by rewrite string_app_nil_r.
  - cbn [no_char] in H. apply andb_true_iff in H as [Hx H]. apply negb_true_iff in Hx.
    rewrite string_app_cons. cbn [str_lines_aux]. rewrite Hx, (IH _ H), string_app_assoc. done.
Qed.

(** The line that opens the action names it, whatever follows. *)
Lemma add_line_action w : line_action (add_line +:+ w) = Some "AddPortMapping"%string.
Proof.
  assert (E : exists u r, add_line = u +:+ String "x" r /\ exists u', u = String "<" u' /\
    forall W, first_some id [
      pos ← find_pos "<u:" (u +:+ String "x" W);
      s ← head (split_whitespace (str_drop (pos + 3) (u +:+ String "x" W)));
      Some (trim_end_matches ">" s)] = Some "AddPortMapping"%string).
  { eexists ("<s:Envelope xmlns:s=" +:+ quoted "http://schemas.xmlsoap.org/soap/envelope/" +:+
      " s:encodingStyle=" +:+ quoted "http://schemas.xmlsoap.org/soap/encoding/" +:+
      "><s:Body><u:AddPortMapping ")%string, ("mlns:u=" +:+ quoted SERVICE_TYPE)%string.
    split; [reflexivity|]. eexists. split; [reflexivity|]. intros W. reflexivity. }
  destruct E as (u & r & -> & u' & -> & H). unfold line_action, utrim.
  rewrite string_app_assoc, !string_app_cons.
  rewrite utrim_start_visible by done. rewrite <- (string_app_cons "<" u').
  rewrite utrim_end_visible by done. specialize (H (utrim_end (r +:+ w))). cbn [first_some id] in H.
  by destruct (_ ≫= _) in H |- *.
Qed.

Lemma add_request_action port proto ip iport desc lease :
  no_char newline (elems (add_fields port proto ip iport desc lease)) = true ->
  first_some line_action (str_lines (add_request port proto ip iport desc lease)) =
    Some "AddPortMapping"%string.
Proof.
  intros Hn. set (es := elems (add_fields port proto ip iport desc lease)) in *.
  set (line := (add_line +:+ ">" +:+ es +:+ "</u:AddPortMapping></s:Body></s:Envelope>")%string).
  assert (Er : add_request port proto ip iport desc lease =
    (xml_decl +:+ String "013" EmptyString) +:+ String newline
      ((line +:+ String "013" EmptyString) +:+ String newline EmptyString)).
  { unfold add_request, add_open, line, crlf. fold es. by rewrite !string_app_assoc. }
  rewrite Er. unfold str_lines. rewrite str_lines_sep by reflexivity.
  rewrite str_lines_sep.
  2: { unfold line. rewrite !no_char_app, Hn. reflexivity. }
  assert (Hcr : forall s, strip_cr (s +:+ String "013" EmptyString) = s).
  { induction s as [|c s IH]; [done|]. rewrite string_app_cons. cbn [strip_cr]. rewrite IH.
    by destruct s. }
  change (EmptyString +:+ ?s) with s. rewrite !Hcr. cbn [first_some].
  change (line_action xml_decl) with (@None string). cbv iota.
  unfold line. by rewrite add_line_action.
Qed.

Lemma pretty_visible z : 0 <= z -> Text.all_chars visible (pretty z) = true.
Proof.
  intros Hz. pose proof (pretty_all_digits z Hz) as H. revert H. generalize (pretty z) as s.
  induction s as [|c s IH]; [done|]. cbn [all_digits Text.all_chars].
  intros [Hc Hs]%andb_true_iff. rewrite (IH Hs), andb_true_r.
  by destruct c as [[] [] [] [] [] [] [] []].
Qed.

Lemma octet_nonneg z : 0 <= z mod 256. Proof. apply Z.mod_pos_bound. lia. Qed.

Lemma show_v4_visible a : Text.all_chars visible (show_v4 a) = true.
Proof.
  apply all_chars_join; [done|]. unfold octets4. cbn [map].
  repeat constructor; apply pretty_visible, octet_nonneg.
Qed.

Lemma show_v4_no_char x a : is_digit x = false -> no_char x "." = true -> no_char x (show_v4 a) = true.
Proof.
  intros Hx Hd. apply join_no_char; [done|]. unfold octets4. cbn [map].
  repeat constructor; by apply no_char_digits, pretty_all_digits, octet_nonneg.
Qed.

(** What the fields of a standard request say. *)
Section StandardFields.
Context (port : Z) (proto : string) (a iport : Z) (desc : string) (lease : Z).
Context (Hport : 0 <= port) (Hiport : 0 <= iport) (Hlease : 0 <= lease).
Context (Hproto : proto = "TCP"%string \/ proto = "UDP"%string).
Context (Hdesc : no_char "<" desc = true).

Let fields : list (string * string) := add_fields port proto (show_v4 a) iport desc lease.

Lemma field_extracted i tag v :
  fields !! i = Some (tag, v) -> tag_name tag = true ->
  contains (to_ascii_lowercase add_open) ("<" +:+ to_ascii_lowercase tag) = false ->
  forallb (fun e => negb (starts_with (to_ascii_lowercase e.1) (to_ascii_lowercase tag))) (take i fields) = true ->
  extract_tag (add_request port proto (show_v4 a) iport desc lease) tag = utrim v.
Proof.
  intros Hi Ht Hc Ho. unfold add_request. fold fields.
  assert (Hall : Forall (fun e => no_char "<" e.1 = true /\ no_char "<" e.2 = true) fields).
  { pose proof (fun z Hz => no_char_digits "<" (pretty z) eq_refl (pretty_all_digits z Hz)) as Hd.
    unfold fields, add_fields. repeat constructor; cbn [fst snd]; try done; try (by apply Hd).
    - by destruct Hproto as [->| ->].
    - by apply show_v4_no_char. }
  apply (extract_in_body tag add_open fields i v); try done.
  - apply forallb_forall. intros e He. unfold other_elem. rewrite forallb_forall in Ho.
    rewrite (Ho e He), andb_true_r. assert (He' : In e fields)
      by (rewrite <- (take_drop i fields); apply in_or_app; by left).
    apply (proj1 (List.Forall_forall _ _) Hall) in He' as [-> ->]. done.
  - exact (proj2 (proj1 (Forall_lookup _ _) Hall i _ Hi)).
Qed.
End StandardFields.

Lemma add_fields_one_line port proto a iport desc lease :
  0 <= port -> 0 <= iport -> 0 <= lease -> proto = "TCP"%string \/ proto = "UDP"%string ->
  no_char newline desc = true ->
  no_char newline (elems (add_fields port proto (show_v4 a) iport desc lease)) = true.
Proof.
  intros Hp Hi Hl Hq Hd.
  pose proof (fun z Hz => no_char_digits newline (pretty z) eq_refl (pretty_all_digits z Hz)) as Hz.
  unfold add_fields. cbn [elems fold_right fst snd]. unfold elem.
  rewrite !no_char_app, Hd, !Hz, show_v4_no_char by done. by destruct Hq as [->| ->].
Qed.

(** A standard AddPortMapping request adds the mapping it asks for: for every port,
    protocol, LAN client, description and lease, the handler stores exactly that mapping with
    the lease's end, hands exactly that mapping to the executor, and confirms. *)
Theorem standard_add_request now m port proto a iport desc lease :
  acceptable port (to_ascii_lowercase proto) a iport -> proto = "TCP"%string \/ proto = "UDP"%string ->
  is_lan_peer m (V4 a) = true -> 0 <= lease <= u32_max ->
  no_char "<" desc = true -> no_char newline desc = true ->
  let mapping := mkMapping port (to_ascii_lowercase proto) (V4 a) iport
    (if lease =? 0 then None else Some (now + lease * 10 ^ 9)) in
  handle_soap now (add_request port proto (show_v4 a) iport desc lease) m =
    (with_mappings m (<[(port, to_ascii_lowercase proto) := mapping]> (um_mappings m)),
     if um_executor m
     then [AddPortMapping port (to_ascii_lowercase proto) (show_v4 a) iport (um_wan_interface m)]
     else [],
     (STATUS_OK, soap_response "AddPortMappingResponse")).
Proof.
  intros Hac Hq Hlan Hl Hd Hnl mapping. destruct Hac as [Hp Hi Hlow Ha Hpriv].
  unfold handle_soap. rewrite add_request_action by (apply add_fields_one_line; lia || done).
  cbv zeta. change (default EmptyString (Some ?x)) with x. cbv iota.
  pose proof (field_extracted port proto a iport desc lease ltac:(lia) ltac:(lia) ltac:(lia) Hq Hd) as Hf.
  change (String.eqb "AddPortMapping" "AddPortMapping") with true. cbv iota.
  unfold soap_add_port_mapping, tag_u16, tag_u32. cbv zeta.
  rewrite (Hf 1%nat _ _ eq_refl), (Hf 2%nat _ _ eq_refl), (Hf 3%nat _ _ eq_refl),
    (Hf 4%nat _ _ eq_refl), (Hf 5%nat _ _ eq_refl), (Hf 7%nat _ _ eq_refl) by reflexivity.
  rewrite !utrim_visible by
    (done || apply show_v4_visible || (apply pretty_visible; lia) || by destruct Hq as [->| ->]).
  unfold parse_u16, parse_u32. rewrite !parse_radix_pretty by lia.
  change (default ?d (Some ?x)) with x. cbv iota beta.
  replace (port =? 0) with false by lia. replace (iport =? 0) with false by lia. cbn [orb].
  assert (Ep : negb (String.eqb (to_ascii_lowercase proto) "tcp") &&
    negb (String.eqb (to_ascii_lowercase proto) "udp") = false) by (by destruct Hq as [->| ->]).
  rewrite Ep. change (default 1 (parse_radix 10 u32_max "1") =? 0) with false. cbv iota.
  rewrite (proj1 (parse_show_v4 a Ha)), Hpriv, Hlan. cbn [negb].
  unfold apply_mapping, insert_mapping, spawn_task, mbind, soap_bind, mret, soap_ret.
  cbn [pm_external_port pm_proto pm_internal_ip pm_internal_port show_ip]. by rewrite !app_nil_r.
Qed.

(** ** Defects *)

(** A body length no allocation can have stops the daemon as well. *)
Lemma huge_content_length_aborts buf header_end s request_line lines :
  str_lines (string_of_bytes (utf8_lossy (take header_end buf))) = request_line :: lines ->
  isize_max < content_length_of lines -> read_request buf header_end s = Panic.
Proof.
  intros Hl Hc. unfold read_request. rewrite Hl. cbv zeta.
  by replace (isize_max <? content_length_of lines) with true by lia.
Qed.

(** A prefix longer than 32, which the gateway's validation accepts, makes half of the
    address space part of the LAN. *)
Lemma long_prefix_admits_strangers m net prefix a :
  upnp_parse_cidr (um_lan_subnet m) = Some (net, prefix) -> prefix = 33 ->
  2 ^ 31 <= net -> 2 ^ 31 <= a < 2 ^ 32 -> is_lan_peer m (V4 a) = true.
Proof.
  intros E -> Hn Ha. destruct (upnp_parse_cidr_range _ _ _ E) as [Hr _]. unfold is_lan_peer. rewrite E.
  cbv zeta. change (prefix_mask 33) with (Z.shiftl (Z.ones 1) 31).
  rewrite !land_high_mask by lia. apply Z.eqb_eq. f_equal.
  assert (H : forall z, 2 ^ 31 <= z < 2 ^ 32 -> z / 2 ^ 31 = 1)
    by (intros z Hz; symmetry; apply (Z.div_unique _ _ _ (z - 2 ^ 31)); lia).
  by rewrite !H by lia.
Qed.

(** The mapping is renewed between the scan and the removal, and removed all the same. *)
Lemma renewal_lost {N : Type} (nft : N -> list string -> N * (Error + output)) b allowed
    m p key (n : N) tasks now now' peer s m' ops out :
  um_mappings m !! key = Some p -> lease_expired now p = true ->
  serve_control now' m peer s = Val (m', ops, out) ->
  exists g, rtc (igd_step nft b allowed) (mkIgd m tasks [] n) g /\ um_mappings (g_mgr g) !! key = None.
Proof.
  intros Hk He Hs.
  assert (Hin : key ∈ expired_keys now m).
  { apply list_elem_of_omap. exists (key, p). split; [by apply elem_of_map_to_list|]. cbn. by rewrite He. }
  apply list_elem_of_split in Hin as (l1 & l2 & El).
  assert (Hp : key :: l1 ++ l2 ≡ₚ expired_keys now m) by (rewrite El; apply Permutation_middle).
  destruct key as [port proto]. eexists. split.
  - eapply rtc_l; [by apply (step_scan _ _ _ (mkIgd m tasks [] n) now); [|exact Hp]|]. eapply rtc_l.
    { eapply step_control. exact Hs. }
    eapply rtc_l; [by eapply step_expire|]. apply rtc_refl.
  - cbn. apply lookup_delete_eq.
Qed.

(** ** An example: one client behind the router *)

#[local] Abbreviation demo_nft := (mem_nft "balansir").
#[local] Existing Instance demo_nft_spec.

Module Demo.
Definition router : UpnpManager :=
  UpnpManager_new true (V4 0xc0a80101) "192.168.1.0/24" "eth0" 3721.

Definition post (body : string) : list (list Z) :=
  [bytes_of_string ("POST /upnp/control/WANIPConnection HTTP/1.1" +:+ crlf +:+
     "Content-Length: " +:+ pretty (Z.of_nat (String.length body)) +:+ crlf +:+ crlf);
   bytes_of_string body].

Definition client : IpAddr := V4 0xc0a80114.
Definition add_body (lease : Z) : string := add_request 8080 "TCP" "192.168.1.20" 80 "web" lease.
Definition delete_body : string :=
  "<u:DeletePortMapping xmlns:u=" +:+ quoted SERVICE_TYPE +:+ ">" +:+
  elems [("NewExternalPort", "8080"); ("NewProtocol", "TCP")]%string +:+ "</u:DeletePortMapping>".

Definition after (m : UpnpManager) (r : exec (UpnpManager * list UpnpOp * option string)) :
    UpnpManager * list UpnpOp :=
  match r with Val (m, ops, _) => (m, ops) | Panic => (m, []) end.

Definition added : UpnpManager := (after router (serve_control 0 router client (post (add_body 60)))).1.
Definition add_task : UpnpOp := AddPortMapping 8080 "tcp" "192.168.1.20" 80 "eth0".
Definition removed : UpnpManager := (after added (serve_control 5 added client (post delete_body))).1.
Definition remove_task : UpnpOp := RemovePortMapping 8080 "tcp" "eth0".

Definition forwarding : mem_table := (upnp_op demo_nft demo_backend add_task demo_host).1.
Definition the_rule : nft_rule := (1, render (upnp_spec 8080 "tcp" 0xc0a80114 80 "eth0")).

Lemma forwarding_rules : nat_rules (b := demo_backend) forwarding = [the_rule].
Proof. vm_compute. reflexivity. Qed.

Lemma added_step allowed tasks (n : mem_table) :
  igd_step demo_nft demo_backend allowed (mkIgd router tasks [] n) (mkIgd added (tasks ++ [add_task]) [] n).
Proof.
  destruct (serve_control 0 router client (post (add_body 60))) as [[[m ops] out]|] eqn:E;
    [|vm_compute in E; discriminate].
  pose proof (step_control demo_nft demo_backend allowed (mkIgd router tasks [] n) 0 client _ _ _ _ E) as H.
  assert (m = added) as <- by (unfold added, after; by rewrite E).
  assert (ops = [add_task]) as ->; [|exact H].
  transitivity (after router (serve_control 0 router client (post (add_body 60)))).2; [by rewrite E|].
  vm_compute. reflexivity.
Qed.

Lemma removed_step allowed tasks (n : mem_table) :
  igd_step demo_nft demo_backend allowed (mkIgd added tasks [] n) (mkIgd removed (tasks ++ [remove_task]) [] n).
Proof.
  destruct (serve_control 5 added client (post delete_body)) as [[[m ops] out]|] eqn:E;
    [|vm_compute in E; discriminate].
  pose proof (step_control demo_nft demo_backend allowed (mkIgd added tasks [] n) 5 client _ _ _ _ E) as H.
  assert (m = removed) as <- by (unfold removed, after; by rewrite E).
  assert (ops = [remove_task]) as ->; [|exact H].
  transitivity (after added (serve_control 5 added client (post delete_body))).2; [by rewrite E|].
  vm_compute. reflexivity.
Qed.

Lemma add_task_step allowed m (n : mem_table) :
  n = demo_host -> allowed 0%nat add_task n (inr (mkUpnpOpResult 1 "tcp eth0:8080 -> 192.168.1.20:80")) ->
  igd_step demo_nft demo_backend allowed (mkIgd m [add_task] [] n) (mkIgd m [] [] forwarding).
Proof.
  intros -> Ha. apply (step_task _ _ allowed (mkIgd m [add_task] [] demo_host) 0 add_task forwarding
    (inr (mkUpnpOpResult 1 "tcp eth0:8080 -> 192.168.1.20:80")) eq_refl); [vm_compute; reflexivity|done].
Qed.

(** The two tasks swapped: the client was told that the mapping is gone, the table does not
    have it, and the rule stays in the chain for good. *)
Lemma swapped_tasks_leave_rule :
  exists g, rtc (igd_step demo_nft demo_backend any_order) (mkIgd router [] [] demo_host) g /\
    g_tasks g = [] /\ um_mappings (g_mgr g) = ∅ /\ nat_rules (b := demo_backend) (g_host g) = [the_rule].
Proof.
  exists (mkIgd removed [] [] forwarding). split; [|split; [done|split; vm_compute; reflexivity]].
  eapply rtc_l; [apply added_step|]. eapply rtc_l; [apply removed_step|]. eapply rtc_l.
  { apply (step_task _ _ any_order (mkIgd removed [add_task; remove_task] [] demo_host) 1 remove_task
      (upnp_op demo_nft demo_backend remove_task demo_host).1
      (upnp_op demo_nft demo_backend remove_task demo_host).2 eq_refl); [vm_compute; reflexivity|done]. }
  eapply rtc_l; [|apply rtc_refl]. apply (add_task_step any_order removed); [vm_compute; reflexivity|done].
Qed.

(** Tags on the line of the action hide it, when the action has no attributes. *)
Lemma inline_action_refused :
  handle_soap 0 ("<u:DeletePortMapping><NewExternalPort>8080</NewExternalPort></u:DeletePortMapping>") added
    = (added, [], soap_error 401 "Invalid Action").
Proof. vm_compute. reflexivity. Qed.

(** A mapping with a lease is reported as a permanent one. *)
Lemma lease_reported_as_permanent :
  (exists p, um_mappings added !! (8080, "tcp"%string) = Some p /\ pm_expires_at p = Some (60 * 10 ^ 9)) /\
  contains (soap_get_specific added delete_body).2 "<NewLeaseDuration>0</NewLeaseDuration>" = true.
Proof. split; [eexists; split; vm_compute; reflexivity|vm_compute; reflexivity]. Qed.
End Demo.

Lemma upnp_forwards_to_lan_only_witness :
  exists port proto a iport,
    Demo.the_rule.2 = render (upnp_spec port proto a iport "eth0") /\
    0 < port < 65536 /\ 0 < iport < 65536 /\ rfc1918 a /\ in_subnet 0xc0a80100 24 a.
Proof.
  assert (Hin : In Demo.the_rule (nat_rules (b := demo_backend) Demo.forwarding))
    by (rewrite Demo.forwarding_rules; by left).
  refine (upnp_forwards_to_lan_only (nft := demo_nft) (b := demo_backend) Demo.router demo_host
    (mkIgd Demo.added [] [] Demo.forwarding) 0xc0a80100 24 _ _ _ _ _ _ _ Hin).
  - vm_compute. reflexivity.
  - lia.
  - vm_compute. reflexivity.
  - reflexivity.
  - vm_compute. reflexivity.
  - eapply rtc_l; [apply Demo.added_step|]. eapply rtc_l; [|apply rtc_refl].
    by apply (Demo.add_task_step any_order Demo.added).
Defined.

Lemma mappings_become_dnat_rules_witness :
  map snd (List.filter (has_tag (upnp_comment 8080 "tcp")) (nat_rules (b := demo_backend) Demo.forwarding)) =
    [Demo.the_rule.2].
Proof.
  transitivity (match um_mappings Demo.added !! (8080, "tcp"%string) with
    Some p => [mapping_rule Demo.router p] | None => [] end); [|vm_compute; reflexivity].
  refine (mappings_become_dnat_rules (nft := demo_nft) (b := demo_backend) Demo.router demo_host
    (mkIgd Demo.added [] [] Demo.forwarding) eq_refl _ eq_refl _ _ eq_refl 8080 "tcp" _ eq_refl);
    [vm_compute; reflexivity..| |lia].
  eapply rtc_l; [apply Demo.added_step|]. eapply rtc_l; [|apply rtc_refl].
  apply (Demo.add_task_step _ Demo.added); [done|]. split; [done|]. left. by eexists.
Defined.

Definition demo_head : list Z := bytes_of_string ("GET /rootDesc.xml HTTP/1.1" +:+ crlf +:+ "Host: router").

Lemma request_reassembled_witness :
  handle_connection 0 Demo.router [take 30 demo_head; drop 30 demo_head ++ [13; 10; 13]; [10]] =
    Val (Demo.router, [], Some (write_http_response STATUS_OK (device_description Demo.router))).
Proof.
  apply (request_reassembled 0 Demo.router demo_head [] _ "GET /rootDesc.xml HTTP/1.1" ["Host: router"%string]).
  - split; vm_compute; congruence.
  - repeat constructor; vm_compute; congruence.
  - vm_compute. reflexivity.
  - vm_compute. reflexivity.
  - vm_compute. reflexivity.
  - vm_compute. congruence.
Defined.

Lemma standard_add_request_witness :
  (handle_soap 0 (add_request 8080 "TCP" (show_v4 0xc0a80114) 80 "web" 60) Demo.router).1.2 = [Demo.add_task].
Proof.
  rewrite (standard_add_request 0 Demo.router 8080 "TCP" 0xc0a80114 80 "web" 60).
  - vm_compute. reflexivity.
  - split; try lia; try (vm_compute; reflexivity). left. reflexivity.
  - by left.
  - vm_compute. reflexivity.
  - unfold u32_max. lia.
  - vm_compute. reflexivity.
  - vm_compute. reflexivity.
Defined.

Lemma bare_newlines_abort_witness :
  handle_connection 0 Demo.router [bytes_of_string "GET / HTTP/1.0" ++ [10; 10]] = Panic.
Proof.
  apply (bare_newlines_abort 0 Demo.router (bytes_of_string "GET / HTTP/1.0")); vm_compute; congruence.
Defined.
