(* ===== verification/ConfigPlane.v ===== *)
(** * From the configuration file to the kernel (balansir-control/src/provider.rs;
      balansir-daemon: startup.rs, cli.rs, and the startup and control socket of main.rs)

    The strict compilation of a configuration into a desired state, the start of the daemon
    from its configuration file, the control socket with its message handler, and the
    command line client that reloads a configuration over that socket.

    Reading files, the TOML decoder and the postcard codecs are parameters.  The connection
    between the client and the daemon is the adversarial link of Ipc.v; the daemon is the
    reconciler of Reconciler.v over any executor (class [Mechanism]).

    The theorems follow a configuration from its text into the kernel: at startup, and
    through a reload over a connection that may break anywhere. *)

From stdpp Require Import pretty.
From S2P Require Import Prelude Types IpText Errors Nftables Plan Control Reconciler Ipc Dispatch.
#[local] Open Scope Z_scope.

(** ** The configuration as decoded *)

Inductive EmptyConfigAction := EmptyPass | EmptyDrop.
#[export] Instance EmptyConfigAction_eq_dec : EqDecision EmptyConfigAction.
Proof. solve_decision. Defined.

Record PolicyConfig := mkPolicyConfig { empty_config_action : EmptyConfigAction }.

Record RuleConfig := mkRuleConfig {
  rc_id : Z;
  rc_action : string;
  rc_priority : Z;
  rc_src_ip : option string;
  rc_dst_ip : option string;
  rc_src_port : option Z;
  rc_dst_port : option Z;
  rc_protocol : option string;
  rc_dst_domain : option string;
}.

Record DriverConfig := mkDriverConfig { dc_id : string; dc_action : string }.

Record DesiredConfig := mkDesiredConfig {
  cf_rules : list RuleConfig;
  cf_drivers : list DriverConfig;
  cf_policy : PolicyConfig;
}.

(** ** Strict compilation *)

#[export] Instance control_result_ret : MRet control_result := fun _ x => inr x.
#[export] Instance control_result_bind : MBind control_result := fun _ _ f m =>
  match m with inl e => inl e | inr x => f x end.

(** [map(f).transpose()] and [map(f).collect()] *)
Definition transpose {A B} (f : A -> control_result B) (o : option A) : control_result (option B) :=
  match o with
  | None => mret None
  | Some x => y ← f x; mret (Some y)
  end.

Fixpoint collect_results {A B} (f : A -> control_result B) (l : list A) : control_result (list B) :=
  match l with
  | [] => mret []
  | x :: l => y ← f x; ys ← collect_results f l; mret (y :: ys)
  end.

Definition config_action (s : string) : control_result Action :=
  let lower := to_ascii_lowercase s in
  if String.eqb lower "allow" then inr Allow
  else if String.eqb lower "block" then inr Block
  else if String.eqb lower "reject" then inr Reject
  else if String.eqb lower "log" then inr Log
  else inl (EDesiredProvider ("unknown action: " +:+ s)).

Definition parse_driver_id (s : string) : control_result DriverId :=
  let lower := to_ascii_lowercase s in
  if String.eqb lower "wireguard" then inr WireGuard
  else if String.eqb lower "amneziawg" then inr AmneziaWG
  else if String.eqb lower "xray" then inr Xray
  else if String.eqb lower "hysteria" then inr Hysteria
  else if String.eqb lower "b4" then inr B4
  else if String.eqb lower "dns" || String.eqb lower "dnsforwarder" then inr DnsForwarder
  else inl (EDesiredProvider ("unknown driver: " +:+ s)).

Definition parse_driver_action (s : string) : control_result DriverAction :=
  let lower := to_ascii_lowercase s in
  if String.eqb lower "start" then inr Start
  else if String.eqb lower "stop" then inr Stop
  else if String.eqb lower "restart" then inr Restart
  else inl (EDesiredProvider ("unknown driver action: " +:+ s)).

Definition parse_protocol (s : string) : control_result Z :=
  let lower := to_ascii_lowercase s in
  if String.eqb lower "tcp" then inr 6
  else if String.eqb lower "udp" then inr 17
  else if String.eqb lower "icmp" then inr 1
  else match parse_radix 10 255 s with
       | Some p => inr p
       | None => inl (EDesiredProvider ("unknown protocol: " +:+ s))
       end.

Definition config_ip (field s : string) : control_result IpAddr :=
  match parse_ip s with
  | Some ip => inr ip
  | None => inl (EDesiredProvider
      ("invalid " +:+ field +:+ " " +:+ s +:+ ": invalid IP address syntax"))
  end.

(** A rule without any matcher has no flow. *)
Definition has_matcher (r : RuleConfig) : bool :=
  bool_decide (is_Some (rc_src_ip r)) || bool_decide (is_Some (rc_dst_ip r)) ||
  bool_decide (is_Some (rc_src_port r)) || bool_decide (is_Some (rc_dst_port r)) ||
  bool_decide (is_Some (rc_protocol r)) || bool_decide (is_Some (rc_dst_domain r)).

Definition config_flow (r : RuleConfig) : control_result (option FlowCriteria) :=
  if negb (has_matcher r) then mret None
  else
    src ← transpose (config_ip "src_ip") (rc_src_ip r);
    dst ← transpose (config_ip "dst_ip") (rc_dst_ip r);
    proto ← transpose parse_protocol (rc_protocol r);
    mret (Some (mkFlowCriteria src dst (rc_src_port r) (rc_dst_port r) proto (rc_dst_domain r))).

Definition config_rule (r : RuleConfig) : control_result DesiredRule :=
  flow ← config_flow r;
  action ← config_action (rc_action r);
  mret (mkRule (rc_id r) action (rc_priority r) flow).

Definition config_driver (d : DriverConfig) : control_result DesiredDriver :=
  id ← parse_driver_id (dc_id d);
  action ← parse_driver_action (dc_action d);
  mret (mkDriver id action).

Definition fail_closed_rule : DesiredRule := mkRule FAIL_CLOSED_RULE_ID Block 0 None.

(** [DesiredState::try_from] *)
Definition desired_try_from (config : DesiredConfig) : control_result DesiredState :=
  rs ← collect_results config_rule (cf_rules config);
  ds ← collect_results config_driver (cf_drivers config);
  let rs :=
    match rs, empty_config_action (cf_policy config) with
    | [], EmptyDrop => [fail_closed_rule]
    | _, _ => rs
    end in
  mret (mkDesired rs ds).

(** ** Providers *)

Section Files.
Context (read_to_string : string -> string + string)
  (toml_from_str : string -> string + DesiredConfig).

(** [DesiredConfig::from_file] *)
Definition config_from_file (path : string) : control_result DesiredConfig :=
  match read_to_string path with
  | inl e => inl (EDesiredProvider ("read " +:+ debug_str path +:+ ": " +:+ e))
  | inr content =>
      match toml_from_str content with
      | inl e => inl (EDesiredProvider ("parse " +:+ debug_str path +:+ ": " +:+ e))
      | inr config => inr config
      end
  end.

(** [Display] of [ControlError] *)
Definition control_error_text (e : ControlError) : string :=
  match e with
  | EDesiredProvider m => "desired state provider failed: " +:+ m
  | EStateProvider m => "state provider failed: " +:+ m
  | EPlanner m => "planner failed: " +:+ m
  | EExecutor m => "executor failed: " +:+ m
  | ESnapshotStore m => "snapshot store failed: " +:+ m
  | EReconcileInProgress => "reconciliation already in progress"
  | ERollback m => "rollback failed: " +:+ m
  | ESerialization m => "serialization failed: " +:+ m
  | EInvalidState s w => "control plane is in " +:+ s +:+ " state, cannot " +:+ w
  end.

(** [load_startup_desired]: the variable may be unset or not Unicode. *)
Inductive VarError := NotPresent | NotUnicode.

Inductive StartupDesired := StartEmpty | StartLoaded (state : DesiredState).

Definition load_startup_desired (env : VarError + string) : string + StartupDesired :=
  match env with
  | inl NotPresent => inr StartEmpty
  | inl NotUnicode => inl "BALANSIR_CONFIG is not valid UTF-8"
  | inr path =>
      match config_from_file path with
      | inl e => inl ("startup config " +:+ path +:+ ": " +:+ control_error_text e)
      | inr config =>
          match desired_try_from config with
          | inl e => inl ("startup config " +:+ path +:+ ": " +:+ control_error_text e)
          | inr state => inr (StartLoaded state)
          end
      end
  end.
End Files.

(** ** Text of a plan (balansir-common/src/plan.rs) *)

Definition driver_text (d : DriverId) : string :=
  match d with
  | WireGuard => "WireGuard" | AmneziaWG => "AmneziaWG" | Xray => "Xray"
  | Hysteria => "Hysteria" | B4 => "B4" | DnsForwarder => "DnsForwarder"
  | Custom id => "Custom(" +:+ pretty id +:+ ")"
  end.

Definition operation_text (op : ReconciliationOperation) : string :=
  match op with
  | CreateDriver id => "+ Create driver " +:+ driver_text id
  | RemoveDriver id => "- Remove driver " +:+ driver_text id
  | RestartDriver id => "~ Restart driver " +:+ driver_text id
  | UpdatePolicy rule => "~ Update policy " +:+ pretty (dr_id rule)
  | RemovePolicy id => "- Remove policy " +:+ pretty id
  | NoOp => "NoOp"
  end.

Definition nl : string := String "010" EmptyString.
Definition writeln (s : string) : string := s +:+ nl.
Definition count_ops (f : ReconciliationOperation -> bool) (p : ReconciliationPlan) : string :=
  pretty (len (List.filter f (operations p))).

(** [Display] of [ReconciliationPlan] *)
Definition plan_text (p : ReconciliationPlan) : string :=
  writeln ("Configuration generation: " +:+ pretty (generation_before p) +:+ " -> " +:+
    pretty (generation_after p)) +:+
  (if plan_is_empty p then writeln (nl +:+ "No operations needed.")
   else
     writeln (nl +:+ "Operations:") +:+
     String.concat "" (map (fun op => writeln ("  " +:+ operation_text op))
       (List.filter (fun op => negb (is_noop op)) (operations p))) +:+
     writeln (nl +:+ "Summary:") +:+
     writeln ("  Drivers created: " +:+
       count_ops (fun op => match op with CreateDriver _ => true | _ => false end) p) +:+
     writeln ("  Drivers restarted: " +:+
       count_ops (fun op => match op with RestartDriver _ => true | _ => false end) p) +:+
     writeln ("  Policies updated: " +:+
       count_ops (fun op => match op with UpdatePolicy _ => true | _ => false end) p) +:+
     writeln ("  Items removed: " +:+
       count_ops (fun op => match op with RemovePolicy _ | RemoveDriver _ => true | _ => false end) p)).

(** ** The daemon *)

Section Daemon.
Context {K : Type} {mech : Mechanism K}.

(** [Reconciler::new] *)
Definition Reconciler_new (state : DesiredState) (k : K) : Reconciler K :=
  mkReconciler Coordinator_new (mkDaemon state (mkActual []) k ∅) None None.

Definition sync_reconciler (r : Reconciler K) : Reconciler K :=
  mkReconciler (r_coord r) (sync_actual_from_executor (r_daemon r)) (r_raw r) (r_fingerprint r).

Context {pc_desired : Postcard DesiredState}.

Definition to_allocvec (d : DesiredState) : option (list Z) :=
  match pc_encode d with inr bytes => Some bytes | inl _ => None end.

(** The start of [main]: the configuration, then the first cycle.  The flow compiler is
    registered only afterwards.  [inl] is the message of [exit(1)]. *)
Definition boot (read_to_string : string -> string + string)
    (toml_from_str : string -> string + DesiredConfig) (env : VarError + string) (k : K)
    (uuid : Z) (d : draws) : string + (Reconciler K * control_result ()) :=
  match load_startup_desired read_to_string toml_from_str env with
  | inl e => inl ("Startup config rejected: " +:+ e)
  | inr startup =>
      let state := match startup with StartLoaded state => state | StartEmpty => mkDesired [] [] end in
      let r := set_desired None to_allocvec (Reconciler_new state k) state in
      inr (run_coordinator uuid d Scheduled (sync_reconciler r))
  end.

(** ** The control socket *)

(** The random identifiers of the n-th cycle are given. *)
Record control_server := mkServer { cs_reconciler : Reconciler K; cs_cycles : nat }.

Context {pc_msg : Postcard IpcMessage} {pc_plan : Postcard ReconciliationPlan}
  {pc_actual : Postcard ActualState} {pc_fingerprint : Postcard (option Z)}
  (flow_compile : option (DesiredState -> DesiredState)) (fresh : nat -> Z * draws)
  (encode_metrics : control_server -> string).

(** [postcard::to_allocvec(..).unwrap_or_default()] *)
Definition encode_or_default {A} {codec : Postcard A} (value : A) : list Z :=
  match pc_encode value with inr bytes => bytes | inl _ => [] end.

Definition handle_reload (s : control_server) (msg : IpcMessage) : control_server * IpcMessage :=
  match pc_decode (im_payload msg) with
  | inl _ => (s, response_error (im_correlation_id msg) "invalid reload payload")
  | inr candidate =>
      let '(uuid, d) := fresh (cs_cycles s) in
      let '(r, res) :=
        reload flow_compile to_allocvec uuid d candidate ConfigReload (cs_reconciler s) in
      (mkServer r (S (cs_cycles s)),
       match res with
       | inr _ => response_ok (im_correlation_id msg)
       | inl e => response_error (im_correlation_id msg)
           ("reconciliation cycle failed: " +:+ control_error_text e)
       end)
  end.

Definition handle_message (s : control_server) (msg : IpcMessage) : control_server * IpcMessage :=
  let id := im_correlation_id msg in
  let r := cs_reconciler s in
  match im_msg_type msg with
  | MHealthCheck => (s, response_ok id)
  | MGetMetrics => (s, response_data id (bytes_of_string (encode_metrics s)))
  | MGetPlan => (s, response_data id (encode_or_default (dry_run r)))
  | MGetExplain => (s, response_data id (bytes_of_string (plan_text (dry_run r))))
  | MGetDesired => (s, response_data id (encode_or_default (d_desired (r_daemon r))))
  | MGetActual => (s, response_data id (encode_or_default (d_actual (r_daemon r))))
  | MGetConfigFingerprint => (s, encode_or "encode failed" id (r_fingerprint r))
  | MReload => handle_reload s msg
  | _ => (s, response_error id "Unknown message type")
  end.

(** ** The command line client

    The state is the daemon at the other end and the client's connection; [links] says what
    the connection does to each call. *)

Abbreviation session := (control_server * conn)%type.

(** What a command prints, or the text and code it exits with. *)
Inductive cli_output := Printed (out : string) | Exit (code : Z) (err : string).

Definition cli_request (l : link) (t : MsgType) (payload : list Z) : cmd session IpcMessage := fun s =>
  let '(w, c, r) := exchange handle_message l t payload s.1 s.2 in ((w, c), r).

Definition cli_encode {A} {pc : Postcard A} (value : A) : cmd session (list Z) :=
  match pc_encode value with inr bytes => mret bytes | inl e => throw (Serialization e) end.

Definition cli_decode {A} {pc : Postcard A} (payload : list Z) : cmd session A :=
  match pc_decode payload with inr a => mret a | inl e => throw (Serialization e) end.

(** The check the commands share: an error response is printed and ends the program. *)
Definition cli_query (l : link) (t : MsgType) (k : IpcMessage -> cmd session cli_output) :
    cmd session cli_output :=
  resp ← cli_request l t [];
  match im_msg_type resp with
  | MResponseError => mret (Exit 1 ("error: " +:+ from_utf8_lossy (im_payload resp)))
  | _ => k resp
  end.

Definition cli_plan (l : link) : cmd session cli_output :=
  cli_query l MGetPlan (fun resp =>
    plan ← cli_decode (im_payload resp); mret (Printed (writeln (plan_text plan)))).

Definition cli_explain (l : link) : cmd session cli_output :=
  cli_query l MGetExplain (fun resp => mret (Printed (from_utf8_lossy (im_payload resp)))).

Definition cli_desired (l : link) : cmd session cli_output :=
  cli_query l MGetDesired (fun resp =>
    desired ← cli_decode (im_payload resp);
    mret (Printed (writeln ("rules: " +:+ pretty (len (rules desired))) +:+
                   writeln ("drivers: " +:+ pretty (len (drivers desired)))))).

Definition cli_actual (l : link) : cmd session cli_output :=
  cli_query l MGetActual (fun resp =>
    actual ← cli_decode (A := ActualState) (im_payload resp);
    mret (Printed (writeln ("active_rules: " +:+ pretty (len (active_rules actual)))))).

Definition cli_reload (read_to_string : string -> string + string)
    (toml_from_str : string -> string + DesiredConfig) (l : link) (path : string) :
    cmd session cli_output :=
  match config_from_file read_to_string toml_from_str path with
  | inl e => throw (Misconfiguration (control_error_text e))
  | inr config =>
      match desired_try_from config with
      | inl e => throw (Misconfiguration (control_error_text e))
      | inr desired =>
          payload ← cli_encode desired;
          resp ← cli_request l MReload payload;
          match im_msg_type resp with
          | MResponseError => mret (Exit 1 ("error: " +:+ from_utf8_lossy (im_payload resp)))
          | _ => mret (Printed (writeln "reloaded"))
          end
      end
  end.
End Daemon.
Arguments control_server K : clear implicits.

(** ** Strict compilation: all entries, in order, or none *)

(** What an entry of the file asks for. *)
Definition action_means (s : string) (a : Action) : Prop :=
  In (to_ascii_lowercase s, a) [("allow", Allow); ("block", Block); ("reject", Reject); ("log", Log)]%string.

Definition protocol_means (s : string) (p : Z) : Prop :=
  In (to_ascii_lowercase s, p) [("tcp", 6); ("udp", 17); ("icmp", 1)]%string \/
  ~ In (to_ascii_lowercase s) ["tcp"; "udp"; "icmp"]%string /\ parse_radix 10 255 s = Some p.

Definition flow_means (c : RuleConfig) (f : option FlowCriteria) : Prop :=
  match f with
  | None => rc_src_ip c = None /\ rc_dst_ip c = None /\ rc_src_port c = None /\
      rc_dst_port c = None /\ rc_protocol c = None /\ rc_dst_domain c = None
  | Some f =>
      has_matcher c = true /\
      option_Forall2 (fun s ip => parse_ip s = Some ip) (rc_src_ip c) (fc_src_ip f) /\
      option_Forall2 (fun s ip => parse_ip s = Some ip) (rc_dst_ip c) (fc_dst_ip f) /\
      option_Forall2 protocol_means (rc_protocol c) (fc_protocol f) /\
      fc_src_port f = rc_src_port c /\ fc_dst_port f = rc_dst_port c /\
      fc_dst_domain f = rc_dst_domain c
  end.

Definition rule_means (c : RuleConfig) (r : DesiredRule) : Prop :=
  dr_id r = rc_id c /\ dr_priority r = rc_priority c /\
  action_means (rc_action c) (dr_action r) /\ flow_means c (dr_flow r).

Definition driver_means (c : DriverConfig) (d : DesiredDriver) : Prop :=
  In (to_ascii_lowercase (dc_id c), dd_id d)
    [("wireguard", WireGuard); ("amneziawg", AmneziaWG); ("xray", Xray); ("hysteria", Hysteria);
     ("b4", B4); ("dns", DnsForwarder); ("dnsforwarder", DnsForwarder)]%string /\
  In (to_ascii_lowercase (dc_action c), dd_action d)
    [("start", Start); ("stop", Stop); ("restart", Restart)]%string.

(** The first entry that means nothing. *)
Definition first_bad {A B} (means : A -> B -> Prop) (l : list A) : Prop :=
  exists pre bad post, l = pre ++ bad :: post /\ Forall (fun x => exists y, means x y) pre /\
    forall y, ~ means bad y.

Definition parses {A B} (f : A -> control_result B) (means : A -> B -> Prop) : Prop :=
  forall x y, f x = inr y <-> means x y.

Ltac word_cases :=
  repeat match goal with
  | |- context [String.eqb ?a ?b] => destruct (String.eqb_spec a b)
  end.

Lemma action_parses : parses config_action action_means.
Proof.
  intros s a. unfold config_action, action_means. cbv zeta.
  generalize (to_ascii_lowercase s). intros w. word_cases; subst; cbn [In]; split;
    try (intros [= <-]; tauto); intros H; repeat destruct H as [H|H]; try congruence; destruct H.
Qed.

Lemma protocol_parses : parses parse_protocol protocol_means.
Proof.
  intros s p. unfold parse_protocol, protocol_means. cbv zeta.
  generalize (to_ascii_lowercase s). intros w. word_cases; subst; cbn [In]; split;
    try (intros [= <-]; tauto).
  all: try (intros [H|[H _]]; [repeat destruct H as [H|H]; try congruence; destruct H|tauto]).
  - destruct (parse_radix 10 255 s); [intros [= ->]|done]. right. split; [|done]. intros H.
    repeat destruct H as [H|H]; try congruence; destruct H.
  - intros [H|[_ ->]]; [|done]. repeat destruct H as [H|H]; try congruence; destruct H.
Qed.

Lemma driver_id_parses s d :
  parse_driver_id s = inr d <->
  In (to_ascii_lowercase s, d)
    [("wireguard", WireGuard); ("amneziawg", AmneziaWG); ("xray", Xray); ("hysteria", Hysteria);
     ("b4", B4); ("dns", DnsForwarder); ("dnsforwarder", DnsForwarder)]%string.
Proof.
  unfold parse_driver_id. cbv zeta. generalize (to_ascii_lowercase s). intros w.
  word_cases; subst; cbn [orb In]; split; try (intros [= <-]; tauto); try discriminate;
    intros H; repeat destruct H as [H|H]; try congruence; destruct H.
Qed.

Lemma driver_action_parses s a :
  parse_driver_action s = inr a <->
  In (to_ascii_lowercase s, a) [("start", Start); ("stop", Stop); ("restart", Restart)]%string.
Proof.
  unfold parse_driver_action. cbv zeta. generalize (to_ascii_lowercase s). intros w.
  word_cases; subst; cbn [In]; split; try (intros [= <-]; tauto);
    intros H; repeat destruct H as [H|H]; try congruence; destruct H.
Qed.

Lemma driver_parses : parses config_driver driver_means.
Proof.
  intros [i a] [di da]. unfold config_driver, driver_means, mbind, control_result_bind.
  cbn [dc_id dc_action dd_id dd_action]. rewrite <- driver_id_parses, <- driver_action_parses.
  destruct (parse_driver_id i) as [|x], (parse_driver_action a) as [|y]; split;
    try (by intros [? ?]); try done; [intros [= -> ->]; done|intros [[= ->] [= ->]]; done].
Qed.

Lemma transpose_ok {A B} (f : A -> control_result B) (P : A -> B -> Prop) o o' :
  parses f P -> transpose f o = inr o' <-> option_Forall2 P o o'.
Proof.
  intros Hf. destruct o as [x|]; cbn.
  - unfold mbind, control_result_bind. destruct (f x) as [e|y] eqn:E; split.
    + done.
    + intros H. inversion H as [x' y' Hp|]; subst. apply Hf in Hp. congruence.
    + intros [= <-]. constructor. by apply Hf.
    + intros H. inversion H as [x' y' Hp|]; subst. apply Hf in Hp.
      rewrite E in Hp. by injection Hp as ->.
  - split; [intros [= <-]; constructor|]. intros H. by inversion H.
Qed.

Lemma ip_parses field : parses (config_ip field) (fun s ip => parse_ip s = Some ip).
Proof. intros s ip. unfold config_ip. destruct (parse_ip s); split; congruence. Qed.

Lemma has_matcher_false c :
  has_matcher c = false <-> flow_means c None.
Proof.
  unfold has_matcher, flow_means. rewrite !orb_false_iff, !bool_decide_eq_false, <- !eq_None_not_Some.
  tauto.
Qed.

Lemma flow_parses : parses config_flow flow_means.
Proof.
  intros c f. unfold config_flow. destruct (has_matcher c) eqn:Hm; cbn [negb].
  - unfold mbind, control_result_bind. split.
    + destruct (transpose _ (rc_src_ip c)) as [|src] eqn:E1; [done|].
      destruct (transpose _ (rc_dst_ip c)) as [|dst] eqn:E2; [done|].
      destruct (transpose _ (rc_protocol c)) as [|pr] eqn:E3; [done|]. intros [= <-]. cbn.
      apply (transpose_ok _ _ _ _ (ip_parses _)) in E1, E2.
      apply (transpose_ok _ _ _ _ protocol_parses) in E3. tauto.
    + destruct f as [f|]; [|rewrite <- has_matcher_false; congruence].
      intros (_ & H1 & H2 & H3 & H4 & H5 & H6).
      apply (transpose_ok _ _ _ _ (ip_parses "src_ip")) in H1. rewrite H1.
      apply (transpose_ok _ _ _ _ (ip_parses "dst_ip")) in H2. rewrite H2.
      apply (transpose_ok _ _ _ _ protocol_parses) in H3. rewrite H3.
      destruct f. cbn in *. by subst.
  - split; [intros [= <-]; by apply has_matcher_false|].
    destruct f as [f|]; [intros [? _]; congruence|done].
Qed.

Lemma rule_parses : parses config_rule rule_means.
Proof.
  intros c r. unfold config_rule, rule_means, mbind, control_result_bind. split.
  - destruct (config_flow c) as [|f] eqn:E1; [done|].
    destruct (config_action (rc_action c)) as [|a] eqn:E2; [done|]. intros [= <-].
    apply flow_parses in E1. apply action_parses in E2. done.
  - intros (H1 & H2 & H3%action_parses & H4%flow_parses). rewrite H3, H4. destruct r. cbn in *. by subst.
Qed.

Lemma collect_results_spec {A B} (f : A -> control_result B) (means : A -> B -> Prop) l :
  parses f means ->
  match collect_results f l with
  | inr ys => Forall2 means l ys
  | inl _ => first_bad means l
  end.
Proof.
  intros Hf. induction l as [|x l IH]; [constructor|]. cbn [collect_results].
  unfold mbind, control_result_bind. destruct (f x) as [e|y] eqn:E.
  - exists [], x, l. split; [done|]. split; [constructor|]. intros y Hy%Hf. congruence.
  - apply Hf in E. destruct (collect_results f l) as [e|ys]; [|by constructor].
    destruct IH as (pre & bad & post & -> & Hp & Hb). exists (x :: pre), bad, post.
    split; [done|]. split; [|done]. constructor; eauto.
Qed.

(** C26.  Strict compilation.  An accepted configuration compiles every rule and every driver,
    in order, each to exactly what its fields say; the fail-closed rule is added only when
    there is no rule and the policy asks for it.  A rejected one has a first entry that
    means nothing, and yields no state at all. *)
Theorem strict_compile config :
  match desired_try_from config with
  | inr state => exists rs,
      Forall2 rule_means (cf_rules config) rs /\
      Forall2 driver_means (cf_drivers config) (drivers state) /\
      rules state =
        if decide (rs = [] /\ empty_config_action (cf_policy config) = EmptyDrop)
        then [fail_closed_rule] else rs
  | inl _ =>
      first_bad rule_means (cf_rules config) \/
      Forall (fun c => exists r, rule_means c r) (cf_rules config) /\
      first_bad driver_means (cf_drivers config)
  end.
Proof.
  unfold desired_try_from, mbind, control_result_bind.
  pose proof (collect_results_spec _ _ (cf_rules config) rule_parses) as Hr.
  destruct (collect_results config_rule _) as [e|rs]; [by left|].
  pose proof (collect_results_spec _ _ (cf_drivers config) driver_parses) as Hd.
  destruct (collect_results config_driver _) as [e|ds].
  - right. split; [|done]. clear -Hr. induction Hr; constructor; eauto.
  - exists rs. split; [done|]. split; [done|]. cbn [rules mret control_result_ret].
    destruct rs as [|r rs]; [|by rewrite decide_False by (by intros [])].
    destruct (empty_config_action _); [by rewrite decide_False by (by intros [])|by rewrite decide_True].
Qed.

(** ** The start of the daemon *)

(** The configured rules that the re-seeded mirror takes for present: its placeholders are
    [Allow] without a flow. *)
Definition bare_allow (r : DesiredRule) : Prop := dr_action r = Allow /\ dr_flow r = None.

Section Boot.
Context {K : Type} {mech : Mechanism K} {inventory : Inventory K} {pc_desired : Postcard DesiredState}.

Lemma synced_lookup (w : daemon K) id :
  m_wf (d_kernel w) ->
  match find_rule id (active_rules (d_actual (sync_actual_from_executor w))) with
  | Some a => a = placeholder id /\ is_Some (installed (d_kernel w) id)
  | None => installed (d_kernel w) id = None
  end.
Proof.
  intros Hwf. cbn [sync_actual_from_executor set_actual d_actual active_rules].
  pose proof (actual_rule_ids_spec (d_kernel w) id Hwf) as Hi.
  destruct (installed (d_kernel w) id) as [x|] eqn:E.
  - rewrite find_placeholder; [by eauto|]. apply Hi. eauto.
  - destruct (find_rule id _) as [a|] eqn:Ef; [|done].
    apply find_rule_id in Ef as [Ea (i & <- & Hin)%in_map_iff]. cbn in Ea. subst i.
    apply Hi in Hin. by destruct Hin.
Qed.

Lemma synced_outdated (w : daemon K) r :
  m_wf (d_kernel w) ->
  outdated (active_rules (d_actual (sync_actual_from_executor w))) r = false <->
  bare_allow r /\ is_Some (installed (d_kernel w) (dr_id r)).
Proof.
  intros Hwf. pose proof (synced_lookup w (dr_id r) Hwf) as H. unfold outdated.
  destruct (find_rule (dr_id r) _) as [a|].
  - destruct H as [-> Hs]. rewrite negb_false_iff, rule_matches_iff. unfold bare_allow. cbn.
    split; [intros [H1 H2]|intros [[H1 H2] _]]; done.
  - split; [done|]. rewrite H. by intros [_ []].
Qed.

(** What the kernel held before the start, where the configuration has a bare allow rule. *)
Definition unmasked (k : K) (l : list DesiredRule) : Prop :=
  forall r, In r l -> bare_allow r ->
    installed k (dr_id r) = None \/ installed k (dr_id r) = Some (m_rule (compile r)).

Lemma synced_covers (w : daemon K) l :
  m_wf (d_kernel w) -> covers (sync_actual_from_executor w) l <-> unmasked (d_kernel w) l.
Proof.
  intros Hwf. split.
  - intros [_ Hc] r Hr Hb. destruct (installed (d_kernel w) (dr_id r)) as [x|] eqn:E; [right|by left].
    rewrite <- E. apply (Hc r Hr). apply (synced_outdated w r Hwf). split; [done|]. by rewrite E.
  - intros Hu. split.
    + intros id E _. pose proof (synced_lookup w id Hwf) as H. by rewrite E in H.
    + intros r Hr [Hb Hs]%(synced_outdated w r Hwf).
      cbn [sync_actual_from_executor set_actual d_kernel].
      destruct (Hu r Hr Hb) as [E|E]; [rewrite E in Hs; by destruct Hs|done].
Qed.

(** The rule without its domain. *)
Definition without_domain (r : DesiredRule) : DesiredRule :=
  mkRule (dr_id r) (dr_action r) (dr_priority r)
    ((fun f => mkFlowCriteria (fc_src_ip f) (fc_dst_ip f) (fc_src_port f) (fc_dst_port f)
        (fc_protocol f) None) <$> dr_flow r).

Lemma compile_without_domain r : compile (without_domain r) = compile r.
Proof. unfold compile, without_domain. destruct r as [id a p [f|]]; done. Qed.

Lemma enforced_without_domain (w : daemon K) l : enforced w (map without_domain l) <-> enforced w l.
Proof.
  unfold enforced. split; intros (H1 & H2 & H3); (split; [done|split]).
  - intros r Hr. rewrite <- compile_without_domain. by apply (H2 (without_domain r)), in_map.
  - intros id Hn. apply H3. intros r (x & <- & Hx)%in_map_iff. by apply (Hn x).
  - intros r (x & <- & Hx)%in_map_iff. rewrite compile_without_domain. by apply (H2 x).
  - intros id Hn. apply H3. intros r Hr. by apply (Hn (without_domain r)), in_map.
Qed.

Context (read_to_string : string -> string + string) (toml_from_str : string -> string + DesiredConfig).

(** The daemon after the start, before its first cycle. *)
Definition booted (state : DesiredState) (k : K) : daemon K :=
  sync_actual_from_executor (mkDaemon state (mkActual []) k ∅).

(** A start either stops at the configuration or runs one cycle for exactly its state. *)
Lemma boot_cases path k uuid d :
  match config_from_file read_to_string toml_from_str path ≫= desired_try_from with
  | inl e => exists msg, boot read_to_string toml_from_str (inr path) k uuid d = inl msg
  | inr state => exists r,
      boot read_to_string toml_from_str (inr path) k uuid d =
        inr (r, (reconcile (daemon_ports uuid) d Scheduled (Coordinator_new, booted state k)).2) /\
      r_daemon r = (reconcile (daemon_ports uuid) d Scheduled (Coordinator_new, booted state k)).1.2 /\
      r_raw r = Some state /\ r_fingerprint r = Some (config_fingerprint to_allocvec state)
  end.
Proof.
  unfold boot, load_startup_desired. unfold mbind at 1, control_result_bind.
  destruct (config_from_file _ _ path) as [e|config]; [by eexists|].
  destruct (desired_try_from config) as [e|state]; [by eexists|].
  unfold run_coordinator, sync_reconciler, set_desired, compiled. cbn [r_coord r_daemon r_raw r_fingerprint].
  change (with_desired _ state) with (mkDaemon state (mkActual []) k (∅ : gmap Z Snapshot)).
  fold (booted state k). cbn [Reconciler_new r_coord].
  destruct (reconcile _ _ _ _) as [[c w] res]. by eexists.
Qed.


(** A bare allow rule does not replace what the kernel holds under its id: after a start
    that reports success, the old rule, a block rule included, is still there, although the
    daemon is settled on the configuration. *)
Theorem boot_keeps_stale_rule path k uuid d state r rule :
  m_wf k -> known_rules (rules state) -> consistent (rules state) ->
  config_from_file read_to_string toml_from_str path ≫= desired_try_from = inr state ->
  boot read_to_string toml_from_str (inr path) k uuid d = inr (r, inr ()) ->
  In rule (rules state) -> bare_allow rule -> is_Some (installed k (dr_id rule)) ->
  installed (d_kernel (r_daemon r)) (dr_id rule) = installed k (dr_id rule).
Proof.
  intros Hwf Hkn Hc E Hboot Hin Hb Hs. pose proof (boot_cases path k uuid d) as H. rewrite E in H.
  destruct H as (r' & E' & Hd & _). rewrite Hboot in E'. injection E' as <- Hok. rewrite Hd.
  apply (reconcile_skips uuid d Scheduled Coordinator_new (booted state k) rule); try done.
  by apply (synced_outdated (mkDaemon state (mkActual []) k ∅) rule Hwf).
Qed.

(** The first cycle runs before the flow compiler is registered, so a rule on a domain
    is installed as the rule without the domain: a rule to block one site then blocks every
    destination its other matchers allow. *)
Theorem boot_drops_domains path k uuid d state r rule :
  m_wf k -> known_rules (rules state) -> consistent (rules state) -> unmasked k (rules state) ->
  config_from_file read_to_string toml_from_str path ≫= desired_try_from = inr state ->
  boot read_to_string toml_from_str (inr path) k uuid d = inr (r, inr ()) ->
  In rule (rules state) ->
  installed (d_kernel (r_daemon r)) (dr_id rule) = Some (m_rule (compile (without_domain rule))).
Proof.
  intros Hwf Hkn Hc Hu E Hboot Hin. pose proof (boot_cases path k uuid d) as H. rewrite E in H.
  destruct H as (r' & E' & Hd & _). rewrite Hboot in E'. injection E' as <- Hok. rewrite Hd.
  rewrite compile_without_domain.
  assert (He : enforced (reconcile (daemon_ports uuid) d Scheduled
    (Coordinator_new, booted state k)).1.2 (rules state)).
  { apply (reconcile_enforces uuid d Scheduled Coordinator_new (booted state k));
      [done..|by apply synced_covers]. }
  by apply He.
Qed.
End Boot.

(** ** A reload over the control socket *)

Section Reload.
Context {K : Type} {mech : Mechanism K}
  {pc_desired : Postcard DesiredState} {pc_msg : Postcard IpcMessage}
  {pc_plan : Postcard ReconciliationPlan} {pc_actual : Postcard ActualState}
  {pc_fingerprint : Postcard (option Z)}
  (flow_compile : option (DesiredState -> DesiredState)) (fresh : nat -> Z * draws)
  (encode_metrics : control_server K -> string)
  (Hsize : forall msg bytes, pc_encode (A := IpcMessage) msg = inr bytes -> len bytes < 2 ^ 32).

Abbreviation handle := (handle_message flow_compile fresh encode_metrics).

(** Queries leave the daemon alone, and every message is answered under its id. *)
Lemma handle_responds s msg : responds (im_correlation_id msg) (handle s msg).
Proof.
  unfold handle_message. destruct (im_msg_type msg); try done.
  - unfold handle_reload. destruct (pc_decode _) as [e|candidate]; [done|].
    destruct (fresh _) as [uuid d]. destruct (reload _ _ _ _ _ _ _) as [r [e|[]]]; done.
  - unfold encode_or. by destruct (pc_encode _).
Qed.

Lemma handle_query s msg : im_msg_type msg <> MReload -> (handle s msg).1 = s.
Proof. unfold handle_message. by destruct (im_msg_type msg). Qed.

(** The daemon is on a configuration: the state it enforces, the state as authored and the
    fingerprint. *)
Definition on_config (state : DesiredState) (r : Reconciler K) : Prop :=
  d_desired (r_daemon r) = compiled flow_compile state /\ r_raw r = Some state /\
  r_fingerprint r = Some (config_fingerprint to_allocvec (compiled flow_compile state)).

Definition same_config (r r' : Reconciler K) : Prop :=
  d_desired (r_daemon r') = d_desired (r_daemon r) /\ r_raw r' = r_raw r /\
  r_fingerprint r' = r_fingerprint r.

(** The state of the daemon before the cycle of a reload. *)
Definition staged (state : DesiredState) (r : Reconciler K) : daemon K :=
  with_desired (r_daemon r) (compiled flow_compile state).

Lemma reload_cases uuid d state reason r :
  let '(r', res) := reload flow_compile to_allocvec uuid d state reason r in
  match res with
  | inr _ => on_config state r' /\
      (reconcile (daemon_ports uuid) d reason (r_coord r, staged state r)).2 = inr () /\
      r_daemon r' = (reconcile (daemon_ports uuid) d reason (r_coord r, staged state r)).1.2
  | inl _ => same_config r r'
  end.
Proof.
  unfold reload, run_coordinator. cbn [r_coord r_daemon]. fold (staged state r).
  pose proof (reconcile_keeps_desired uuid d reason (r_coord r) (staged state r)) as H.
  destruct (reconcile _ _ _ _) as [[c w] [e|[]]]; cbn [fst snd] in *; [done|].
  cbn [r_daemon r_coord r_raw r_fingerprint]. split; [|done]. by split.
Qed.

(** A reload that succeeds enforces the new configuration when the mirror covered the kernel. *)
Lemma reload_enforces uuid d state reason r :
  let '(r', res) := reload flow_compile to_allocvec uuid d state reason r in
  res = inr () -> m_wf (d_kernel (r_daemon r)) -> known_rules (rules (compiled flow_compile state)) ->
  consistent (rules (compiled flow_compile state)) ->
  enforced (r_daemon r') (rules (compiled flow_compile state)) <->
  covers (r_daemon r) (rules (compiled flow_compile state)).
Proof.
  pose proof (reload_cases uuid d state reason r) as H.
  destruct (reload _ _ _ _ _ _ _) as [r' [e|[]]]; [done|]. intros _ Hwf Hkn Hc.
  destruct H as (_ & Hok & ->).
  exact (reconcile_enforces uuid d reason _ (staged state r) Hwf Hkn Hc Hok).
Qed.

(** The reload message does one reload of what the client sent. *)
Lemma handle_reload_message s id state payload :
  pc_encode state = inr payload ->
  let '(uuid, d) := fresh (cs_cycles s) in
  let '(r', res) := reload flow_compile to_allocvec uuid d state ConfigReload (cs_reconciler s) in
  exists resp,
    handle s (IpcMessage_new MReload id payload) = (mkServer r' (S (cs_cycles s)), resp) /\
    (im_msg_type resp = MResponseError <-> exists e, res = inl e) /\
    (im_msg_type resp = MResponseOk <-> res = inr ()).
Proof.
  intros E. apply pc_roundtrip in E. unfold handle_message, handle_reload.
  cbn [im_msg_type IpcMessage_new im_payload]. rewrite E.
  destruct (fresh _) as [uuid d]. destruct (reload _ _ _ _ _ _ _) as [r' [e|[]]]; eexists.
  - split; [done|]. cbn. split; split; eauto; done.
  - split; [done|]. cbn. split; split; try done. by intros [].
Qed.

Context (read_to_string : string -> string + string) (toml_from_str : string -> string + DesiredConfig).

End Reload.

(** ** Vectors *)

Module Demo.
Definition rule_entry (id : Z) (action : string) : RuleConfig :=
  mkRuleConfig id action 100 None None None None None None.
Definition site_entry : RuleConfig :=
  mkRuleConfig 7 "block" 100 None None None (Some 443) (Some "TCP"%string) (Some "ads.example"%string).

(** Four files: an update of rule 1, an allow rule 1, a rule on a domain, a bad entry. *)
Definition toml_from_str (content : string) : string + DesiredConfig :=
  let file rs := inr (mkDesiredConfig rs [mkDriverConfig "dns" "start"] (mkPolicyConfig EmptyPass)) in
  if String.eqb content "reject" then file [rule_entry 1 "Reject"]
  else if String.eqb content "allow" then file [rule_entry 1 "allow"]
  else if String.eqb content "site" then file [site_entry]
  else if String.eqb content "typo" then file [rule_entry 1 "reject"; rule_entry 2 "alow"]
  else inl "expected a table"%string.
Definition read_to_string (path : string) : string + string := inr path.

Definition dns_start : DesiredDriver := mkDriver DnsForwarder Start.
Definition reject_state : DesiredState := mkDesired [mkRule 1 Reject 100 None] [dns_start].
Definition allow_state : DesiredState := mkDesired [mkRule 1 Allow 100 None] [dns_start].
Definition site_rule : DesiredRule :=
  mkRule 7 Block 100 (Some (mkFlowCriteria None None None (Some 443) (Some 6) (Some "ads.example"%string))).
Definition site_state : DesiredState := mkDesired [site_rule] [dns_start].

#[local] Instance state_codec : Postcard DesiredState :=
  table_codec [reject_state; allow_state; site_state].
#[local] Existing Instance demo_codec.
#[local] Instance plan_codec : Postcard ReconciliationPlan := no_codec.
#[local] Instance actual_codec : Postcard ActualState := no_codec.
#[local] Instance fingerprint_codec : Postcard (option Z) := no_codec.

(** Rule 1 blocks and rule 2 allows, left by an earlier run. *)
Definition leftovers : gmap Z ActionRequest := d_kernel (running []).

Definition demo_boot (file : string) :=
  boot read_to_string toml_from_str (inr file) leftovers 7 (mkDraws 1 2 3).

Lemma file_reject :
  config_from_file read_to_string toml_from_str "reject" ≫= desired_try_from = inr reject_state.
Proof. vm_compute. reflexivity. Qed.
Lemma file_allow :
  config_from_file read_to_string toml_from_str "allow" ≫= desired_try_from = inr allow_state.
Proof. vm_compute. reflexivity. Qed.
Lemma file_site :
  config_from_file read_to_string toml_from_str "site" ≫= desired_try_from = inr site_state.
Proof. vm_compute. reflexivity. Qed.

Lemma one_rule_consistent r : consistent [r].
Proof. by intros x y [<-|[]] [<-|[]] _. Qed.

(** The second rule is misspelt: nothing is compiled. *)
Example typo_rejected :
  config_from_file read_to_string toml_from_str "typo" ≫= desired_try_from =
    inl (EDesiredProvider "unknown action: alow").
Proof. vm_compute. reflexivity. Qed.


Definition boot_state (file : string) : option (Reconciler (gmap Z ActionRequest)) :=
  match demo_boot file with inr (r, inr _) => Some r | _ => None end.

Lemma boot_state_ok file r : boot_state file = Some r -> demo_boot file = inr (r, inr ()).
Proof. unfold boot_state. by destruct (demo_boot file) as [|[r' [|[]]]]; [| |intros [= <-]]. Qed.

(** The file says allow; the kernel still blocks. *)
Lemma boot_keeps_stale_rule_witness :
  exists r, demo_boot "allow" = inr (r, inr ()) /\
    installed (d_kernel (r_daemon r)) 1 = Some (compile block1).
Proof.
  destruct (boot_state "allow") as [r|] eqn:Er; [|exfalso; revert Er; vm_compute; discriminate].
  apply boot_state_ok in Er. exists r. split; [exact Er|].
  refine (boot_keeps_stale_rule read_to_string toml_from_str "allow" leftovers 7 (mkDraws 1 2 3)
    allow_state r (mkRule 1 Allow 100 None) I _ _ file_allow Er _ _ _).
  - done.
  - apply one_rule_consistent.
  - by left.
  - done.
  - exists (compile block1). vm_compute. reflexivity.
Defined.

(** The file blocks one site on port 443; the kernel blocks port 443. *)
Lemma boot_drops_domains_witness :
  exists r, demo_boot "site" = inr (r, inr ()) /\
    installed (d_kernel (r_daemon r)) 7 =
      Some (compile (mkRule 7 Block 100
        (Some (mkFlowCriteria None None None (Some 443) (Some 6) None)))).
Proof.
  destruct (boot_state "site") as [r|] eqn:Er; [|exfalso; revert Er; vm_compute; discriminate].
  apply boot_state_ok in Er. exists r. split; [exact Er|].
  refine (boot_drops_domains read_to_string toml_from_str "site" leftovers 7 (mkDraws 1 2 3)
    site_state r site_rule I _ _ _ file_site Er _).
  - done.
  - apply one_rule_consistent.
  - intros x [<-|[]] [? _]. done.
  - by left.
Defined.

(** The daemon runs with rules 1 and 2 and reloads the file over a working connection. *)
Definition serving : control_server (gmap Z ActionRequest) :=
  mkServer (mkReconciler Coordinator_new (running [block1; allow2]) None None) 0.

Definition demo_reload (l : link) (file : string) :=
  cli_reload None (fun _ => (7, mkDraws 1 2 3)) (fun _ => EmptyString) read_to_string toml_from_str
    l file (serving, conn_new [] true).

Lemma demo_sizes msg bytes : pc_encode (A := IpcMessage) msg = inr bytes -> len bytes < 2 ^ 32.
Proof.
  destruct msg as [v t id p]. cbn [pc_encode demo_codec im_msg_type im_payload].
  destruct (list_find _ _) as [[i t']|]; [|done]. destruct (len p <? 2 ^ 32 - 3) eqn:E; [|done].
  intros [= <-]. rewrite !len_cons. lia.
Qed.

End Demo.
