(* ===== verification/Api.v ===== *)
(** * The management API (balansir-api: lib.rs, auth.rs, webui.rs, control.rs, handlers.rs)

    The router with its bearer-token middleware, the static files of the web interface, and
    the handlers of the policy plane over the daemon's reconciler: reading the desired and
    the actual state, drift, reconciliation and reload.

    The handlers of the other subsystems, the JSON extractor and the file system are
    parameters; counters, timestamps and the event stream are left out.

    The theorems show that a token guards every route and that the file handler never leaves
    its directory, relate the drift report to the plan of the reconciler, and show what a
    reload through the API leaves behind. *)

From stdpp Require Import pretty.
From S2P Require Import Prelude Types IpText Errors Plan Control Reconciler DnsFlow DnsPlane Ipc Xray ConfigPlane.
#[local] Open Scope Z_scope.

(** ** Responses *)

Inductive body :=
| BEmpty
| BJson (j : json)
| BBytes (content_type : string) (bytes : list Z).

Record response := mkResponse { rs_status : Z; rs_body : body }.

Definition jobj (l : list (string * json)) : json := JObj (jmap l).
Definition json_response (status : Z) (l : list (string * json)) : response :=
  mkResponse status (BJson (jobj l)).

(** ** Authentication (auth.rs) *)

Definition token_from_env (var : option string) : option string :=
  match var with
  | Some t => if is_empty_str t then None else Some t
  | None => None
  end.

(** Header values are bytes; [HeaderValue::to_str] accepts visible ASCII and tabs. *)
Definition header_map : Type := list (string * list Z).

Definition header_get (name : string) (h : header_map) : option (list Z) :=
  snd <$> List.find (fun x => String.eqb (to_ascii_lowercase x.1) name) h.

Definition to_str (bytes : list Z) : option string :=
  if forallb (fun b => (32 <=? b) && (b <=? 126) || (b =? 9)) bytes then Some (string_of_bytes bytes) else None.

Definition unauthorized : response := json_response 401 [("error", JStr "unauthorized")]%string.

(** [true] is [Ok(())]. *)
Definition verify_header (headers : header_map) (expected : option string) : bool :=
  match expected with
  | None => true
  | Some t =>
      let provided :=
        v ← header_get "authorization" headers; s ← to_str v; strip_prefix "Bearer " s in
      bool_decide (provided = Some t)
  end.

Definition auth_middleware {W} (token : option string) (headers : header_map)
    (next : W -> W * response) (w : W) : W * response :=
  if verify_header headers token then next w else (w, unauthorized).

(** ** Static files (webui.rs) *)

(** [Path]: a [PathBuf] is its text; [components] with [/] for the root. *)
Definition kept (s : string) : bool := negb (is_empty_str s || String.eqb s ".").

Definition path_components (p : string) : list string :=
  let segs := split_on "/" p in
  let norm := List.filter kept segs in
  if starts_with p "/" then "/"%string :: norm
  else match segs with
       | "."%string :: _ => "."%string :: norm
       | _ => norm
       end.

(** [PathBuf::push] and [Path::join] *)
Definition path_push (p s : string) : string :=
  if starts_with s "/" then s
  else if is_empty_str p || ends_with p "/" then p +:+ s
  else p +:+ "/" +:+ s.

Definition path_starts_with (p base : string) : bool :=
  let b := path_components base in
  bool_decide (take (length b) (path_components p) = b).

(** [Path::extension]: after the last dot of the last component, unless it begins there. *)
Definition path_extension (p : string) : option string :=
  match last (path_components p) with
  | None => None
  | Some name =>
      match rev (split_on "." name) with
      | ext :: before =>
          if forallb is_empty_str before && (length before <=? 1)%nat then None else Some ext
      | [] => None
      end
  end.

Definition content_type (path : string) : string :=
  match path_extension path with
  | Some "html" => "text/html; charset=utf-8"
  | Some "js" | Some "mjs" => "text/javascript; charset=utf-8"
  | Some "css" => "text/css; charset=utf-8"
  | Some "json" => "application/json"
  | Some "svg" => "image/svg+xml"
  | Some "png" => "image/png"
  | Some "ico" => "image/x-icon"
  | Some "woff2" => "font/woff2"
  | Some "woff" => "font/woff"
  | Some "ttf" => "font/ttf"
  | Some "wasm" => "application/wasm"
  | Some "map" => "application/json"
  | Some "txt" => "text/plain; charset=utf-8"
  | _ => "application/octet-stream"
  end%string.

(** The file system: which paths are files, and their bytes. *)
Record file_tree := mkTree { ft_is_file : string -> bool; ft_read : string -> option (list Z) }.

Definition webui_dir (env : option string) (fs : file_tree) : option string :=
  List.find (fun p => negb (is_empty_str p) && ft_is_file fs (path_push p "index.html"))
    (match env with Some p => [p] | None => [] end ++ ["webui/dist"; "dist"]%string).

Definition serve_file (fs : file_tree) (path : string) : response :=
  match ft_read fs path with
  | Some bytes => mkResponse 200 (BBytes (content_type path) bytes)
  | None => mkResponse 404 BEmpty
  end.

Definition webui_root (dir : option string) (fs : file_tree) : response :=
  match dir with
  | Some dir => serve_file fs (path_push dir "index.html")
  | None => json_response 200 [("name", JStr "BalanSir API"); ("version", JStr "0.1.0")]%string
  end.

(** A segment that could leave the directory. *)
Definition traversal (s : string) : bool :=
  String.eqb s ".." || contains s "\" || contains s (String "000" EmptyString).

(** The relative path of a request, unless a segment is refused. *)
Fixpoint relative_path (segs : list string) (rel : string) : option string :=
  match segs with
  | [] => Some rel
  | s :: segs =>
      if is_empty_str s then relative_path segs rel
      else if traversal s then None
      else relative_path segs (path_push rel s)
  end.

Definition webui_fallback (dir : option string) (fs : file_tree) (path : string) : response :=
  match relative_path (split_on "/" path) EmptyString with
  | None => mkResponse 400 BEmpty
  | Some rel =>
      match dir with
      | None => mkResponse 404 BEmpty
      | Some dir =>
          let candidate := path_push dir rel in
          if negb (path_starts_with candidate dir) then mkResponse 400 BEmpty
          else serve_file fs (if ft_is_file fs candidate then candidate else path_push dir "index.html")
      end
  end.

(** ** Routes (lib.rs) *)

Inductive Method := Get | Post | Delete | OtherMethod.
#[export] Instance Method_eq_dec : EqDecision Method.
Proof. solve_decision. Defined.

(** Path pattern, method and handler. *)
Definition create_router : list (string * Method * string) :=
  [
   ("/", Get, "webui::root");
   ("/health", Get, "handlers::health");
   ("/ready", Get, "handlers::ready");
   ("/live", Get, "handlers::live");
   ("/version", Get, "handlers::version");
   ("/build-info", Get, "handlers::build_info");
   ("/metrics", Get, "handlers::metrics");
   ("/desired", Get, "handlers::get_desired");
   ("/desired", Post, "handlers::set_desired");
   ("/actual", Get, "handlers::get_actual");
   ("/state", Get, "handlers::get_state");
   ("/drift", Get, "handlers::get_drift");
   ("/drivers", Get, "handlers::list_drivers");
   ("/drivers/:id", Get, "handlers::get_driver");
   ("/drivers/:id/restart", Post, "handlers::restart_driver");
   ("/reconcile", Post, "handlers::trigger_reconcile");
   ("/reload", Post, "handlers::set_desired");
   ("/events", Get, "handlers::get_events");
   ("/events/stream", Get, "handlers::events_stream");
   ("/subsystems", Get, "subsystems::get_snapshot");
   ("/system", Get, "subsystems::get_system");
   ("/subsystems/events", Get, "subsystems::events_stream");
   ("/b4", Get, "subsystems::get_b4");
   ("/b4/pause", Post, "subsystems::set_b4_paused");
   ("/dpi", Get, "subsystems::get_dpi");
   ("/dpi/pause", Post, "subsystems::set_dpi_paused");
   ("/b4/discovery", Get, "subsystems::get_b4_discovery");
   ("/b4/discovery/notify", Post, "subsystems::notify_b4_discovery");
   ("/xray", Get, "subsystems::get_xray");
   ("/xray/pause", Post, "subsystems::set_xray_paused");
   ("/xray/select", Post, "subsystems::select_xray");
   ("/xray/rotate", Post, "subsystems::rotate_xray");
   ("/vpn/pool", Get, "subsystems::get_vpn_pool");
   ("/vpn/pause", Post, "subsystems::set_vpn_paused");
   ("/vpn/refresh", Post, "subsystems::refresh_vpn_pool");
   ("/vpn/rotate", Post, "subsystems::rotate_vpn_pool");
   ("/vpn/pin", Post, "subsystems::pin_vpn_pool");
   ("/path/decision", Get, "subsystems::get_path_decision");
   ("/qos", Get, "subsystems::get_qos");
   ("/qos", Post, "subsystems::set_qos");
   ("/qos/:interface", Delete, "subsystems::remove_qos");
   ("/interfaces", Get, "subsystems::get_interfaces");
   ("/interfaces/:interface/mac", Post, "subsystems::set_mac");
   ("/interfaces/:interface/mac/restore", Post, "subsystems::restore_mac");
   ("/tailscale", Get, "subsystems::get_tailscale");
   ("/tailscale/up", Post, "subsystems::tailscale_up");
   ("/tailscale/down", Post, "subsystems::tailscale_down");
   ("/tailscale/reconnect", Post, "subsystems::tailscale_reconnect");
   ("/tailscale/routes", Post, "subsystems::tailscale_set_routes");
   ("/wifi", Get, "subsystems::get_wifi");
   ("/wifi/scan", Post, "subsystems::wifi_scan");
   ("/wifi/connect", Post, "subsystems::wifi_connect");
   ("/wifi/disconnect", Post, "subsystems::wifi_disconnect");
   ("/mptcp", Get, "subsystems::get_mptcp");
   ("/mptcp/enabled", Post, "subsystems::set_mptcp_enabled");
   ("/mptcp/endpoints", Post, "subsystems::set_mptcp_endpoints");
   ("/ota/status", Get, "operational::ota_status");
   ("/ota/boot-confirm", Post, "operational::ota_boot_confirm");
   ("/ota/rollback", Post, "operational::ota_rollback");
   ("/vpn/profiles", Get, "operational::vpn_profiles");
   ("/vpn/profiles/add", Post, "operational::vpn_add_profile");
   ("/vpn/profiles/:id", Delete, "operational::vpn_remove_profile");
   ("/b4/explain", Post, "operational::b4_explain")]%string.

(** A parameter matches any segment that is not empty; a literal pattern wins. *)
Definition seg_matches (pat seg : string) : bool :=
  if starts_with pat ":" then negb (is_empty_str seg) else String.eqb pat seg.

Fixpoint segs_match (pats segs : list string) : bool :=
  match pats, segs with
  | [], [] => true
  | p :: pats, s :: segs => seg_matches p s && segs_match pats segs
  | _, _ => false
  end.

Definition routes_in (table : list (string * Method * string)) (path : string) :
    list (string * Method * string) :=
  match List.filter (fun '(pat, _, _) => String.eqb pat path) table with
  | [] => List.filter (fun '(pat, _, _) => segs_match (split_on "/" pat) (split_on "/" path)) table
  | exact => exact
  end.

Definition routes_for : string -> list (string * Method * string) := routes_in create_router.

(** ** The policy plane (control.rs, handlers.rs) *)

Definition driver_state (a : DriverAction) : string :=
  match a with
  | Start => "running" | Stop => "stopped" | Restart => "restarting" | DriverStatus => "unknown"
  end.

Record DriverView := mkDriverView { dv_id : Z; dv_name : string; dv_state : string; dv_detail : string }.

Definition driver_from_name (name : string) : option DriverId :=
  match parse_u32 name with
  | Some id => Some (from_u32 id)
  | None =>
      let lower := to_ascii_lowercase name in
      if String.eqb lower "wireguard" then Some WireGuard
      else if String.eqb lower "amneziawg" || String.eqb lower "amnezia" then Some AmneziaWG
      else if String.eqb lower "xray" then Some Xray
      else if String.eqb lower "hysteria" then Some Hysteria
      else if String.eqb lower "b4" then Some B4
      else if String.eqb lower "dnsforwarder" || String.eqb lower "dns" then Some DnsForwarder
      else None
  end.

(** [Debug] of [Action] *)
Definition action_debug (a : Action) : string :=
  match a with
  | Route table => "Route { table: " +:+ pretty table +:+ " }"
  | Mark fwmark => "Mark { fwmark: " +:+ pretty fwmark +:+ " }"
  | Forward driver => "Forward { driver: " +:+ driver_text driver +:+ " }"
  | Block => "Block" | Reject => "Reject" | Allow => "Allow"
  | Shape class => "Shape { class: " +:+ pretty class +:+ " }"
  | Log => "Log"
  | Queue num => "Queue { num: " +:+ pretty num +:+ " }"
  end.

(** The items of [get_drift]. *)
Inductive drift_item :=
| DriftUpdated (id : Z) (desired actual : Action)
| DriftMissing (id : Z)
| DriftExtra (id : Z).

Definition rule_drift (actual : list ActualRule) (rule : DesiredRule) : list drift_item :=
  match find_rule (dr_id rule) actual with
  | Some ar =>
      if bool_decide (ar_action ar = dr_action rule) then []
      else [DriftUpdated (dr_id rule) (dr_action rule) (ar_action ar)]
  | None => [DriftMissing (dr_id rule)]
  end.

Definition extra_drift (desired : list DesiredRule) (ar : ActualRule) : list drift_item :=
  if existsb (fun r => dr_id r =? ar_id ar) desired then [] else [DriftExtra (ar_id ar)].

Definition drift (desired : DesiredState) (actual : ActualState) : list drift_item :=
  flat_map (rule_drift (active_rules actual)) (rules desired) ++
  flat_map (extra_drift (rules desired)) (active_rules actual).

Definition drift_json (i : drift_item) : json :=
  let item id kind details :=
    jobj [("rule_id", JInt id); ("kind", JStr kind); ("details", JStr details)]%string in
  match i with
  | DriftUpdated id d a =>
      item id "updated"%string ("desired " +:+ action_debug d +:+ ", actual " +:+ action_debug a)
  | DriftMissing id => item id "missing"%string ("rule " +:+ pretty id +:+ " not present")
  | DriftExtra id => item id "extra"%string ("rule " +:+ pretty id +:+ " not in desired state")
  end.

(** The count of [get_state]: the desired ids that are not there. *)
Definition state_drift_count (desired : DesiredState) (actual : ActualState) : Z :=
  len (List.filter (fun r => negb (existsb (Z.eqb (dr_id r)) (map ar_id (active_rules actual))))
    (rules desired)).

(** [EventBridge::record]: a log of bounded length. *)
Definition bridge_record {E} (capacity : nat) (log : list E) (entry : E) : list E :=
  let log := log ++ [entry] in drop (length log - capacity) log.

Section Plane.
Context {K : Type} {mech : Mechanism K} {pc_desired : Postcard DesiredState}
  (flow_compile : option (DesiredState -> DesiredState)) (fresh : nat -> Z * draws).

(** [ControlPlane::reload_api] with the daemon's [ReconcilerUpdater] (server.rs) *)
Definition reload_api (uuid : Z) (d : draws) (candidate : DesiredState) (r : Reconciler K) :
    Reconciler K * control_result () :=
  let prev := d_desired (r_daemon r) in
  let r := set_desired flow_compile to_allocvec r candidate in
  match run_coordinator uuid d ConfigReload r with
  | (r, inr _) => (r, inr ())
  | (r, inl e) => (set_desired flow_compile to_allocvec r prev, inl e)
  end.

Definition reconcile_api (uuid : Z) (d : draws) (r : Reconciler K) :
    Reconciler K * control_result () :=
  run_coordinator uuid d ApiRequest r.

Definition plane_drivers (r : Reconciler K) : list DriverView :=
  map (fun d => mkDriverView (as_u32 (dd_id d)) (driver_text (dd_id d)) (driver_state (dd_action d))
         (driver_state (dd_action d) +:+ " requested")) (drivers (d_desired (r_daemon r))).

Definition plane_generation (r : Reconciler K) : Z := c_generation (r_coord r).

(** *** Handlers: [None] is a plane that is not attached *)

Definition no_plane : list (string * json) := [("error", JStr "Control plane not available")]%string.
Definition no_rules : list (string * json) := [("rules", JArr []); ("rule_count", JInt 0)]%string.
Definition jopt {A} (f : A -> json) (o : option A) : json :=
  match o with Some a => f a | None => JNull end.

Definition get_desired (c : option (control_server K)) : response :=
  match c with
  | None => json_response 200 (no_plane ++ no_rules)
  | Some s =>
      let l := rules (d_desired (r_daemon (cs_reconciler s))) in
      json_response 200
        [("rules", JArr (map (fun r => jobj [("id", JInt (dr_id r));
            ("action", JStr (action_debug (dr_action r))); ("priority", JInt (dr_priority r))]) l));
         ("rule_count", JInt (len l))]%string
  end.

(** The priority of a rule comes from the desired rule under the id the executor gave it. *)
Definition actual_priority (desired : DesiredState) (r : ActualRule) : option Z :=
  match ar_rule_id r with
  | Some id => dr_priority <$> List.find (fun dr => dr_id dr =? id) (rules desired)
  | None => None
  end.

Definition get_actual (c : option (control_server K)) : response :=
  match c with
  | None => json_response 200 (no_plane ++ no_rules)
  | Some s =>
      let w := r_daemon (cs_reconciler s) in
      let l := active_rules (d_actual w) in
      json_response 200
        [("rules", JArr (map (fun r => jobj [("id", JInt (ar_id r));
            ("action", JStr (action_debug (ar_action r))); ("rule_id", jopt JInt (ar_rule_id r));
            ("priority", jopt JInt (actual_priority (d_desired w) r))]) l));
         ("rule_count", JInt (len l))]%string
  end.

Definition get_state (c : option (control_server K)) : response :=
  match c with
  | None => json_response 200 no_plane
  | Some s =>
      let w := r_daemon (cs_reconciler s) in
      json_response 200
        [("desired", jobj [("rule_count", JInt (len (rules (d_desired w))))]);
         ("actual", jobj [("rule_count", JInt (len (active_rules (d_actual w))))]);
         ("drift", jobj [("drift_count", JInt (state_drift_count (d_desired w) (d_actual w)))]);
         ("generation", JInt (plane_generation (cs_reconciler s)))]%string
  end.

Definition get_drift (c : option (control_server K)) : response :=
  match c with
  | None => json_response 503 (no_plane ++ [("drift_count", JInt 0); ("items", JArr [])]%string)
  | Some s =>
      let w := r_daemon (cs_reconciler s) in
      let items := drift (d_desired w) (d_actual w) in
      json_response 200 [("drift_count", JInt (len items)); ("items", JArr (map drift_json items))]%string
  end.

Definition post_desired (c : option (control_server K)) (candidate : DesiredState) :
    option (control_server K) * response :=
  match c with
  | None => (None, json_response 503 (("ok", JBool false) :: no_plane)%string)
  | Some s =>
      let '(uuid, d) := fresh (cs_cycles s) in
      let '(r, res) := reload_api uuid d candidate (cs_reconciler s) in
      (Some (mkServer r (S (cs_cycles s))),
       match res with
       | inr _ => json_response 200 [("ok", JBool true); ("generation", JInt (plane_generation r));
           ("message", JStr "Desired state applied")]%string
       | inl e => json_response 400 [("ok", JBool false); ("error", JStr (control_error_text e));
           ("message", JStr "Desired state rejected; previous state kept")]%string
       end)
  end.

Definition trigger_reconcile (c : option (control_server K)) : option (control_server K) * response :=
  match c with
  | None => (None, json_response 200 (("ok", JBool false) :: no_plane)%string)
  | Some s =>
      let '(uuid, d) := fresh (cs_cycles s) in
      let '(r, res) := reconcile_api uuid d (cs_reconciler s) in
      (Some (mkServer r (S (cs_cycles s))),
       json_response 200
         match res with
         | inr _ => [("ok", JBool true); ("generation", JInt (plane_generation r))]
         | inl EReconcileInProgress =>
             [("ok", JBool false); ("error", JStr "Reconciliation already in progress")]
         | inl e => [("ok", JBool false); ("error", JStr (control_error_text e))]
         end%string)
  end.

Definition list_drivers (c : option (control_server K)) : response :=
  match c with
  | None => json_response 200 (no_plane ++ [("drivers", JArr []); ("count", JInt 0)]%string)
  | Some s =>
      let l := plane_drivers (cs_reconciler s) in
      json_response 200
        [("drivers", JArr (map (fun d => jobj [("id", JInt (dv_id d)); ("name", JStr (dv_name d));
            ("state", JStr (dv_state d)); ("detail", JStr (dv_detail d))]) l));
         ("count", JInt (len l))]%string
  end.

Definition get_driver (c : option (control_server K)) (id : string) : response :=
  let not_found := json_response 200 [("id", JStr id); ("status", JStr "not_found")]%string in
  match c with
  | None => not_found
  | Some s =>
      let driver_id := as_u32 <$> driver_from_name id in
      match List.find (fun d => bool_decide (Some (dv_id d) = driver_id) ||
          String.eqb (to_ascii_lowercase (dv_name d)) (to_ascii_lowercase id))
          (plane_drivers (cs_reconciler s)) with
      | Some d => json_response 200 [("id", JInt (dv_id d)); ("name", JStr (dv_name d));
          ("status", JStr (dv_state d))]%string
      | None => not_found
      end
  end.

Definition restart_driver (c : option (control_server K)) (id : string) : response :=
  let answer message := json_response 200
    [("ok", JBool false); ("driver_id", JStr id); ("message", JStr message)]%string in
  match c with
  | None => answer "Control plane not available"%string
  | Some _ =>
      match driver_from_name id with
      | None => answer "Unknown driver"%string
      | Some _ => answer "driver restart is not wired through the API control plane; use the operator CLI (IPC RestartDriver)"%string
      end
  end.
End Plane.

(** ** Serving a request *)

(** [OtherMethod] is a method no route has. *)
Record request := mkHttp {
  hr_method : Method;
  hr_path : string;
  hr_headers : header_map;
  hr_body : list Z;
}.

Section Serve.
Context {K U : Type} {mech : Mechanism K} {pc_desired : Postcard DesiredState}
  (flow_compile : option (DesiredState -> DesiredState)) (fresh : nat -> Z * draws)
  (decode_desired : list Z -> response + DesiredState) (url_decode : string -> string)
  (other : string -> request -> U -> U * response) (static : string -> response).

(** The token, the policy plane, and the state of the other handlers. *)
Record api_state := mkApi {
  ap_token : option string;
  ap_control : option (control_server K);
  ap_rest : U;
}.

Definition with_plane (s : api_state) (r : option (control_server K) * response) : api_state * response :=
  (mkApi (ap_token s) r.1 (ap_rest s), r.2).

(** The second segment after the leading slash. *)
Definition path_id (path : string) : string :=
  match split_on "/" path with _ :: _ :: id :: _ => url_decode id | _ => EmptyString end.

Definition call (handler : string) (req : request) (s : api_state) : api_state * response :=
  let c := ap_control s in
  match handler with
  | "handlers::get_desired" => (s, get_desired c)
  | "handlers::set_desired" =>
      match decode_desired (hr_body req) with
      | inl rejection => (s, rejection)
      | inr candidate => with_plane s (post_desired flow_compile fresh c candidate)
      end
  | "handlers::get_actual" => (s, get_actual c)
  | "handlers::get_state" => (s, get_state c)
  | "handlers::get_drift" => (s, get_drift c)
  | "handlers::list_drivers" => (s, list_drivers c)
  | "handlers::get_driver" => (s, get_driver c (path_id (hr_path req)))
  | "handlers::restart_driver" => (s, restart_driver c (path_id (hr_path req)))
  | "handlers::trigger_reconcile" => with_plane s (trigger_reconcile fresh c)
  | _ =>
      let '(u, resp) := other handler req (ap_rest s) in
      (mkApi (ap_token s) (ap_control s) u, resp)
  end%string.

(** The middleware covers the routes; the fallback is added after it. *)
Definition serve (req : request) (s : api_state) : api_state * response :=
  match routes_for (hr_path req) with
  | [] => (s, static (hr_path req))
  | rs =>
      auth_middleware (ap_token s) (hr_headers req)
        (fun s =>
           match List.find (fun '(_, m, _) => bool_decide (m = hr_method req)) rs with
           | Some (_, _, handler) => call handler req s
           | None => (s, mkResponse 405 BEmpty)
           end) s
  end.
End Serve.
Arguments api_state K U : clear implicits.

(** ** The token guards every route *)

Lemma to_str_bytes v s : to_str v = Some s -> v = bytes_of_string s.
Proof.
  unfold to_str. destruct (forallb _ v) eqn:E; [|done]. intros [= <-].
  rewrite bytes_of_string_of_bytes; [done|]. apply List.Forall_forall. intros b Hb.
  rewrite forallb_forall in E. specialize (E b Hb). unfold is_byte. lia.
Qed.

Lemma verify_header_token headers t :
  verify_header headers (Some t) = true ->
  header_get "authorization" headers = Some (bytes_of_string ("Bearer " +:+ t)).
Proof.
  unfold verify_header. intros H%bool_decide_eq_true.
  destruct (header_get _ _) as [v|]; [|discriminate]. cbn [mbind option_bind] in H.
  destruct (to_str v) as [s|] eqn:Es; [|discriminate]. cbn [mbind option_bind] in H.
  apply strip_prefix_spec in H. apply to_str_bytes in Es. by rewrite Es, H.
Qed.

Section Guard.
Context {K U : Type} {mech : Mechanism K} {pc_desired : Postcard DesiredState}
  (flow_compile : option (DesiredState -> DesiredState)) (fresh : nat -> Z * draws)
  (decode_desired : list Z -> response + DesiredState) (url_decode : string -> string)
  (other : string -> request -> U -> U * response) (static : string -> response).

(** C8.  With a token configured, a request on any route whose authorization header is not
    byte for byte [Bearer] and the token is answered with 401 and changes nothing, whatever
    its method and body; a path that is no route changes nothing either. *)
Theorem token_guards_routes t req (s : api_state K U) :
  ap_token s = Some t ->
  header_get "authorization" (hr_headers req) <> Some (bytes_of_string ("Bearer " +:+ t)) ->
  serve flow_compile fresh decode_desired url_decode other static req s =
    (s, if decide (routes_for (hr_path req) = []) then static (hr_path req) else unauthorized).
Proof.
  intros Ht Hne. unfold serve. destruct (routes_for (hr_path req)) as [|r rs].
  { by rewrite decide_True. }
  rewrite decide_False by done. unfold auth_middleware. rewrite Ht.
  destruct (verify_header _ _) eqn:E; [|done]. by apply verify_header_token in E.
Qed.
End Guard.

(** ** Routing is a function: no two routes answer the same request *)

Fixpoint unifies (p q : list string) : bool :=
  match p, q with
  | [], [] => true
  | a :: p, b :: q =>
      (starts_with a ":" || starts_with b ":" || String.eqb a b) && unifies p q
  | _, _ => false
  end.

Lemma segs_match_unifies p q l : segs_match p l = true -> segs_match q l = true -> unifies p q = true.
Proof.
  revert q l. induction p as [|a p IH]; intros [|b q] [|x l]; try done. cbn [segs_match unifies].
  intros [Ha Hp]%andb_true_iff [Hb Hq]%andb_true_iff. rewrite (IH q l Hp Hq), andb_true_r.
  unfold seg_matches in *. destruct (starts_with a ":"), (starts_with b ":"); try done.
  apply String.eqb_eq in Ha, Hb. subst. by rewrite String.eqb_refl.
Qed.

(** Two routes with one method unify only when they are the same route, or when exactly one
    of them has a parameter where the other has a literal. *)
Definition has_param (pat : string) : bool := existsb (fun s => starts_with s ":") (split_on "/" pat).

Lemma split_on_no_param pat path :
  has_param pat = false -> segs_match (split_on "/" pat) (split_on "/" path) = true ->
  split_on "/" pat = split_on "/" path.
Proof.
  unfold has_param. generalize (split_on "/" pat) (split_on "/" path). intros p.
  induction p as [|a p IH]; intros [|x l]; try done. cbn [existsb segs_match].
  intros [Ha Hp]%orb_false_iff [H1 H2]%andb_true_iff. unfold seg_matches in H1. rewrite Ha in H1.
  apply String.eqb_eq in H1. by rewrite H1, (IH l Hp H2).
Qed.

Definition table_ok (table : list (string * Method * string)) : bool :=
  forallb (fun '(p, m, h) => forallb (fun '(q, m', h') =>
    negb (bool_decide (m = m')) || (String.eqb p q && String.eqb h h') ||
    negb (String.eqb p q) &&
    (negb (has_param p && has_param q) || negb (unifies (split_on "/" p) (split_on "/" q))))
    table) table.

Lemma table_checked : table_ok create_router = true.
Proof. vm_compute. reflexivity. Qed.

Lemma split_on_nonempty x s : split_on x s <> [].
Proof.
  destruct s as [|c s]; cbn [split_on]; [done|].
  destruct (Ascii.eqb c x); [done|]. by destruct (split_on x s).
Qed.

Lemma split_on_inj x a b : split_on x a = split_on x b -> a = b.
Proof.
  revert b. induction a as [|c a IH]; intros [|d b]; cbn [split_on]; [done| | |].
  - destruct (Ascii.eqb d x).
    + intros [= H]. symmetry in H. by apply split_on_nonempty in H.
    + by destruct (split_on x b).
  - destruct (Ascii.eqb c x).
    + intros [= H]. by apply split_on_nonempty in H.
    + by destruct (split_on x a).
  - destruct (Ascii.eqb_spec c x) as [->|Hc], (Ascii.eqb_spec d x) as [->|Hd].
    + intros [= H]. by rewrite (IH b H).
    + by destruct (split_on x b) as [|w ws].
    + by destruct (split_on x a) as [|w ws].
    + pose proof (split_on_nonempty x a) as Ha. pose proof (split_on_nonempty x b) as Hb.
      destruct (split_on x a) as [|w ws] eqn:Ea; [done|].
      destruct (split_on x b) as [|v vs] eqn:Eb; [done|].
      intros [= -> -> ->]. f_equal. apply IH. by rewrite Eb.
Qed.

Lemma table_unambiguous table path p m h p' h' :
  table_ok table = true ->
  In (p, m, h) (routes_in table path) -> In (p', m, h') (routes_in table path) -> p = p' /\ h = h'.
Proof.
  intros Ht H1 H2.
  assert (Hin : In (p, m, h) table /\ In (p', m, h') table /\
    (p = p' \/ has_param p = true /\ has_param p' = true /\
               unifies (split_on "/" p) (split_on "/" p') = true)).
  { unfold routes_in in H1, H2. destruct (List.filter _ table) as [|r rs] eqn:E.
    - apply filter_In in H1 as [I1 M1], H2 as [I2 M2]. split; [done|]. split; [done|]. right.
      assert (Hp : forall q mq hq, In (q, mq, hq) table ->
        segs_match (split_on "/" q) (split_on "/" path) = true -> has_param q = true).
      { intros q mq hq Iq Mq. apply not_false_is_true. intros Hq.
        pose proof (split_on_inj _ _ _ (split_on_no_param _ _ Hq Mq)) as ->.
        assert (Hi : In (path, mq, hq) (List.filter (fun '(pat, _, _) => String.eqb pat path) table))
          by (apply filter_In; by rewrite String.eqb_refl).
        by rewrite E in Hi. }
      split; [by eapply Hp|]. split; [by eapply Hp|]. by eapply segs_match_unifies.
    - rewrite <- E in H1, H2. apply filter_In in H1 as [I1 M1%String.eqb_eq], H2 as [I2 M2%String.eqb_eq].
      split; [done|]. split; [done|]. left. congruence. }
  destruct Hin as (I1 & I2 & Hor). unfold table_ok in Ht.
  rewrite forallb_forall in Ht. specialize (Ht _ I1). cbn beta iota in Ht.
  rewrite forallb_forall in Ht. specialize (Ht _ I2). cbn beta iota in Ht.
  rewrite bool_decide_true in Ht by done. cbn [negb orb] in Ht.
  destruct (String.eqb_spec p p') as [->|Hne]; cbn [negb andb orb] in Ht.
  - rewrite orb_false_r in Ht. by apply String.eqb_eq in Ht.
  - destruct Hor as [?|(E1 & E2 & E3)]; [done|]. by rewrite E1, E2, E3 in Ht.
Qed.

(** A request has at most one handler. *)
Lemma router_unambiguous path p m h p' h' :
  In (p, m, h) (routes_for path) -> In (p', m, h') (routes_for path) -> p = p' /\ h = h'.
Proof. exact (table_unambiguous create_router path p m h p' h' table_checked). Qed.

(** ** The drift report *)

Lemma rule_drift_nil actual r :
  rule_drift actual r = [] <->
  exists a, find_rule (dr_id r) actual = Some a /\ ar_action a = dr_action r.
Proof.
  unfold rule_drift. destruct (find_rule _ _) as [a|].
  - case_bool_decide as E; split; try done; [eauto|]. by intros (a' & [= <-] & ?).
  - split; [done|]. by intros (a & ? & _).
Qed.

Lemma extra_drift_nil desired a : extra_drift desired a = [] <-> unwanted desired a = false.
Proof. unfold extra_drift, unwanted. by destruct (existsb _ _). Qed.

Lemma flat_map_nil {A B} (f : A -> list B) l : flat_map f l = [] <-> forall x, In x l -> f x = [].
Proof.
  induction l as [|x l IH]; [done|]. cbn [flat_map In]. rewrite app_nil, IH. split.
  - intros [H1 H2] y [<-|Hy]; auto.
  - intros H. split; [|intros y Hy]; apply H; auto.
Qed.

(** The operations of a plan. *)
Lemma plan_op desired actual gen op :
  In op (operations (StateDiff_build desired actual gen)) ->
  op = NoOp \/
  In op (map UpdatePolicy (List.filter (outdated (active_rules actual)) (rules desired)) ++
         map RemovePolicy (map ar_id (List.filter (unwanted (rules desired)) (active_rules actual)))).
Proof.
  unfold StateDiff_build. cbn [operations ReconciliationPlan_new]. rewrite diff_updates, diff_removals.
  set (ops := _ ++ _). destruct ops; [intros [<-|[]]; by left|by right].
Qed.

Lemma plan_has desired actual gen op :
  In op (map UpdatePolicy (List.filter (outdated (active_rules actual)) (rules desired)) ++
         map RemovePolicy (map ar_id (List.filter (unwanted (rules desired)) (active_rules actual)))) ->
  In op (operations (StateDiff_build desired actual gen)).
Proof.
  unfold StateDiff_build. cbn [operations ReconciliationPlan_new]. rewrite diff_updates, diff_removals.
  set (ops := _ ++ _). by destruct ops.
Qed.

(** The drift report is empty exactly when the pending plan does nothing but change
    flow matchers of rules that are present with the right action: it agrees with the
    planner on missing, extra and re-actioned rules, and is blind to changed flows. *)
Theorem drift_against_plan desired actual gen :
  drift desired actual = [] <->
  forall op, In op (operations (build_plan desired actual gen)) ->
    op = NoOp \/
    exists r a, op = UpdatePolicy r /\ In r (rules desired) /\
      find_rule (dr_id r) (active_rules actual) = Some a /\
      ar_action a = dr_action r /\ ar_flow a <> dr_flow r.
Proof.
  unfold drift, build_plan. rewrite app_nil, !flat_map_nil.
  split.
  - intros [H1 H2] op Hop%plan_op. destruct Hop as [->|Hop]; [by left|right].
    apply in_app_iff in Hop as [(r & <- & [Hr Ho]%filter_In)%in_map_iff|(id & <- & Hid)%in_map_iff].
    + destruct (proj1 (rule_drift_nil _ _) (H1 r Hr)) as (a & Hf & Ha). exists r, a.
      repeat split; try done. intros Hfl. unfold outdated in Ho. rewrite Hf in Ho.
      apply negb_true_iff in Ho. rewrite (proj2 (rule_matches_iff a r)) in Ho; done.
    + apply in_map_iff in Hid as (a & <- & [Ha Hu]%filter_In).
      apply H2, extra_drift_nil in Ha. congruence.
  - intros H. split.
    + intros r Hr. apply rule_drift_nil. destruct (outdated (active_rules actual) r) eqn:Ho.
      * destruct (H (UpdatePolicy r)) as [?|(r' & a & [= <-] & _ & Hf & Ha & _)]; [|done|eauto].
        apply plan_has, in_app_iff. left. by apply in_map, filter_In.
      * apply outdated_false in Ho as (a & Hf & [Ha _]%rule_matches_iff). eauto.
    + intros a Ha. apply extra_drift_nil. apply not_true_is_false. intros Hu.
      destruct (H (RemovePolicy (ar_id a))) as [?|(r' & a' & ? & _)]; [|done|done].
      apply plan_has, in_app_iff. right. apply in_map, in_map, filter_In. done.
Qed.

(** ** The file handler stays in its directory *)

Lemma split_on_sep x a b : split_on x (a +:+ String x b) = split_on x a ++ split_on x b.
Proof.
  induction a as [|c a IH].
  - change (EmptyString +:+ String x b) with (String x b). cbn [split_on app].
    by rewrite Ascii.eqb_refl.
  - rewrite string_app_cons. cbn [split_on]. rewrite IH. destruct (Ascii.eqb c x); [done|].
    pose proof (split_on_nonempty x a). by destruct (split_on x a).
Qed.

Lemma split_on_parts x s : Forall (fun w => no_char x w = true) (split_on x s).
Proof.
  induction s as [|c s IH]; cbn [split_on]; [by constructor|].
  destruct (Ascii.eqb c x) eqn:E; [by constructor|].
  destruct (split_on x s) as [|w ws]; [constructor; [cbn; by rewrite E|constructor]|].
  inversion IH; subst. constructor; [|done]. cbn. by rewrite E.
Qed.

(** The components a path adds below another one. *)
Definition below (p : string) : list string := List.filter kept (split_on "/" p).

Lemma kept_dot : kept "." = false. Proof. done. Qed.

Lemma starts_slash_app p s : p <> EmptyString -> starts_with (p +:+ s) "/" = starts_with p "/".
Proof. destruct p as [|c p]; [done|]. intros _. unfold starts_with. cbn [strip_prefix]. 
  rewrite string_app_cons. cbn [strip_prefix]. by destruct (Ascii.eqb "/" c). Qed.

Lemma ends_slash p : ends_with p "/" = true -> exists q, p = q +:+ String "/" EmptyString.
Proof. intros H%ends_with_spec. exact H. Qed.

(** Joining a relative path adds its components. *)
Lemma below_push p s :
  p <> EmptyString -> starts_with s "/" = false -> below (path_push p s) = below p ++ below s.
Proof.
  intros Hp Hs. unfold path_push. rewrite Hs. destruct p as [|c p]; [done|]. clear Hp.
  cbn [is_empty_str orb]. set (q := String c p). destruct (ends_with q "/") eqn:E.
  - apply ends_slash in E as [r Er]. rewrite Er, string_app_assoc.
    change (String "/" EmptyString +:+ s) with (String "/" s). unfold below.
    rewrite !split_on_sep, !List.filter_app. cbn [split_on List.filter kept is_empty_str orb negb].
    by rewrite app_nil_r.
  - change ("/" +:+ s) with (String "/" s). unfold below. by rewrite split_on_sep, List.filter_app.
Qed.

Lemma components_push p s :
  p <> EmptyString -> starts_with s "/" = false ->
  path_components (path_push p s) = path_components p ++ below s.
Proof.
  intros Hp Hs. pose proof (below_push p s Hp Hs) as Hb. unfold path_components. unfold below in Hb.
  rewrite Hb. clear Hb. unfold path_push. rewrite Hs. destruct p as [|c p]; [done|]. clear Hp.
  cbn [is_empty_str orb]. set (q := String c p).
  assert (Hq : q <> EmptyString) by done.
  assert (Hhead : forall t, exists l, split_on "/" (q +:+ String "/" t) = split_on "/" q ++ l)
    by (intros t; exists (split_on "/" t); apply split_on_sep).
  pose proof (split_on_nonempty "/" q) as Hne.
  destruct (ends_with q "/") eqn:E.
  - rewrite starts_slash_app by done. destruct (starts_with q "/"); [done|].
    apply ends_slash in E as [r Er]. rewrite Er, string_app_assoc.
    change (String "/" EmptyString +:+ s) with (String "/" s). rewrite !split_on_sep.
    pose proof (split_on_nonempty "/" r) as Hr. destruct (split_on "/" r) as [|w ws]; [done|].
    cbn [app]. by destruct w as [|[[] [] [] [] [] [] [] []] [|? ?]].
  - rewrite starts_slash_app by done. destruct (starts_with q "/"); [done|].
    change ("/" +:+ s) with (String "/" s). destruct (Hhead s) as [l ->].
    destruct (split_on "/" q) as [|w ws]; [done|]. cbn [app].
    by destruct w as [|[[] [] [] [] [] [] [] []] [|? ?]].
Qed.

(** The paths below a directory. *)
Definition inside (dir p : string) : Prop :=
  exists l, path_components p = path_components dir ++ l /\ ~ In ".."%string l.

Lemma traversal_dots s : traversal s = false -> s <> ".."%string.
Proof. intros H ->. done. Qed.

Lemma no_slash_start s : no_char "/" s = true -> starts_with s "/" = false.
Proof.
  destruct s as [|c s]; [done|]. cbn [no_char]. intros [Hc _]%andb_true_iff.
  unfold starts_with. cbn [strip_prefix]. rewrite Ascii.eqb_sym.
  by destruct (Ascii.eqb c "/").
Qed.

(** What [relative_path] builds is relative and has no parent component. *)
Lemma relative_path_safe segs rel r :
  Forall (fun s => no_char "/" s = true) segs ->
  starts_with rel "/" = false -> ~ In ".."%string (below rel) ->
  relative_path segs rel = Some r ->
  starts_with r "/" = false /\ ~ In ".."%string (below r).
Proof.
  intros H. revert rel. induction H as [|s segs Hs _ IH]; intros rel Hr Hd; cbn [relative_path].
  { intros [= <-]. done. }
  destruct (is_empty_str s) eqn:Ee; [by apply IH|]. destruct (traversal s) eqn:Et; [done|].
  assert (Hbs : ~ In ".."%string (below s)).
  { unfold below. rewrite (split_on_none "/" s Hs). cbn [List.filter].
    destruct (kept s); [|by intros []]. intros [E|[]]. by apply traversal_dots in Et. }
  apply IH; destruct rel as [|c rel].
  - unfold path_push. rewrite (no_slash_start s Hs). cbn [is_empty_str orb].
    change (EmptyString +:+ s) with s. by apply no_slash_start.
  - unfold path_push. rewrite (no_slash_start s Hs). cbn [is_empty_str orb].
    destruct (ends_with _ _); by rewrite starts_slash_app.
  - unfold path_push. rewrite (no_slash_start s Hs). cbn [is_empty_str orb].
    by change (EmptyString +:+ s) with s.
  - rewrite below_push by (done || by apply no_slash_start). intros [?|?]%in_app_iff; tauto.
Qed.

Lemma push_inside dir s :
  dir <> EmptyString -> starts_with s "/" = false -> ~ In ".."%string (below s) ->
  inside dir (path_push dir s).
Proof. intros Hd Hs Hn. exists (below s). split; [by apply components_push|done]. Qed.

Lemma push_starts_with dir s :
  dir <> EmptyString -> starts_with s "/" = false -> path_starts_with (path_push dir s) dir = true.
Proof.
  intros Hd Hs. unfold path_starts_with. apply bool_decide_eq_true.
  by rewrite components_push, take_app_length.
Qed.

(** C10.  The file handler reads nothing outside the directory of the web interface: two file
    systems that agree on the paths below it give the same answer to every request.  The
    second check of the handler never fires. *)
Theorem webui_confined dir fs fs' path :
  dir <> EmptyString ->
  (forall p, inside dir p -> ft_is_file fs p = ft_is_file fs' p /\ ft_read fs p = ft_read fs' p) ->
  webui_fallback (Some dir) fs path = webui_fallback (Some dir) fs' path /\
  (rs_status (webui_fallback (Some dir) fs path) = 400 <->
   exists s, In s (split_on "/" path) /\ traversal s = true).
Proof.
  intros Hd Hfs. unfold webui_fallback.
  assert (Hidx : inside dir (path_push dir "index.html")).
  { apply push_inside; [done..|]. vm_compute. intros [?|[]]. discriminate. }
  destruct (relative_path _ _) as [rel|] eqn:E.
  - destruct (relative_path_safe _ EmptyString _ (split_on_parts "/" path) eq_refl (fun H => H) E) as [Hs Hn].
    pose proof (push_inside dir rel Hd Hs Hn) as Hin.
    rewrite (push_starts_with dir rel Hd Hs). cbn [negb]. unfold serve_file.
    rewrite (proj1 (Hfs _ Hin)).
    set (p := if ft_is_file fs' (path_push dir rel) then _ else _).
    assert (Hp : inside dir p) by (unfold p; by destruct (ft_is_file fs' _)).
    split; [by rewrite (proj2 (Hfs _ Hp))|]. split.
    + by destruct (ft_read fs p).
    + intros (s & Hin' & Ht). exfalso. clear -E Hin' Ht. revert E. generalize EmptyString.
      induction (split_on "/" path) as [|x l IH]; [done|]. intros rel0. cbn [relative_path].
      destruct Hin' as [->|Hin'].
      * destruct s as [|c s]; [done|]. cbn [is_empty_str]. by rewrite Ht.
      * destruct (is_empty_str x); [by apply IH|]. destruct (traversal x); [done|]. by apply IH.
  - split; [done|]. split; [|done]. intros _. revert E. generalize EmptyString.
    induction (split_on "/" path) as [|x l IH]; [done|]. intros rel0. cbn [relative_path].
    destruct (is_empty_str x).
    + intros H. destruct (IH _ H) as (s & ? & ?). exists s. split; [by right|done].
    + destruct (traversal x) eqn:Et; [intros _; exists x; split; [by left|done]|].
      intros H. destruct (IH _ H) as (s & ? & ?). exists s. split; [by right|done].
Qed.

(** ** A reload through the API *)

(** No rule is on a domain. *)
Definition domain_free (d : DesiredState) : Prop :=
  forall r f, In r (rules d) -> dr_flow r = Some f -> fc_dst_domain f = None.

(** A flow compiler leaves no domain and does not touch rules without one. *)
Class FlowCompilerSpec (f : DesiredState -> DesiredState) : Prop := {
  fcs_free d : domain_free (f d);
  fcs_id d : domain_free d -> f d = d;
}.

Lemma compile_rules_free r clock n l x f :
  In x (compile_rules r clock n l).2 -> dr_flow x = Some f -> fc_dst_domain f = None.
Proof.
  revert r n. induction l as [|rule l IH]; intros r n; [by intros []|]. cbn [compile_rules].
  unfold compile_rule. destruct (dr_flow rule) as [fl|] eqn:Ef.
  - destruct (fc_dst_domain fl) as [dom|] eqn:Ed.
    + destruct (DnsFlow.resolve r dom (clock n)) as [r1 [ips|]].
      * specialize (IH r1 (S n)). destruct (compile_rules r1 clock (S n) l) as [r2 out]. cbn [snd] in *.
        intros [(ip & <- & _)%in_map_iff|Hin]%in_app_iff Hf; [|by apply IH].
        cbn in Hf. by injection Hf as <-.
      * specialize (IH r1 (S n)). by destruct (compile_rules r1 clock (S n) l) as [r2 out].
    + specialize (IH r (S n)). destruct (compile_rules r clock (S n) l) as [r2 out]. cbn [snd] in *.
      intros [[<-|[]]|Hin]%in_app_iff Hf; [congruence|by apply IH].
  - specialize (IH r (S n)). destruct (compile_rules r clock (S n) l) as [r2 out]. cbn [snd] in *.
    intros [[<-|[]]|Hin]%in_app_iff Hf; [congruence|by apply IH].
Qed.

Lemma compile_rules_id r clock n l :
  (forall x f, In x l -> dr_flow x = Some f -> fc_dst_domain f = None) ->
  (compile_rules r clock n l).2 = l.
Proof.
  revert n. induction l as [|rule l IH]; intros n H; [done|]. cbn [compile_rules].
  assert (E : compile_rule r (clock n) rule = (r, [rule])).
  { unfold compile_rule. destruct (dr_flow rule) as [f|] eqn:Ef; [|done].
    by rewrite (H rule f (or_introl eq_refl) Ef). }
  rewrite E. specialize (IH (S n) (fun x f Hx => H x f (or_intror Hx))).
  destruct (compile_rules r clock (S n) l) as [r2 out]. cbn in *. by rewrite IH.
Qed.

(** The daemon's compiler, whatever it has observed and whenever it runs. *)
#[export] Instance flow_compile_spec registry clock :
  FlowCompilerSpec (fun d => (DnsFlow.flow_compile registry clock d).2).
Proof.
  split; intros d; unfold DnsFlow.flow_compile.
  - pose proof (fun x f => compile_rules_free registry clock 0 (rules d) x f) as H.
    destruct (compile_rules registry clock 0 (rules d)) as [r out]. exact H.
  - intros Hd. pose proof (compile_rules_id registry clock 0 (rules d) Hd) as H.
    destruct (compile_rules registry clock 0 (rules d)) as [r out]. cbn in *. subst. by destruct d.
Qed.

Section ApiReload.
Context {K : Type} {mech : Mechanism K} {pc_desired : Postcard DesiredState}
  (compiler : DesiredState -> DesiredState) {spec : FlowCompilerSpec compiler}.

End ApiReload.

(** ** Vectors *)

Module Demo.
#[local] Existing Instance ConfigPlane.Demo.state_codec.

Definition demo_serve : request -> api_state (gmap Z ActionRequest) () -> api_state (gmap Z ActionRequest) () * response :=
  serve None (fun _ => (7, mkDraws 1 2 3)) (fun _ => inr (mkDesired [] [])) id
    (fun _ _ u => (u, mkResponse 200 BEmpty)) (fun _ => mkResponse 404 BEmpty).

Definition demo_state : api_state (gmap Z ActionRequest) () :=
  mkApi (Some "secret"%string) (Some ConfigPlane.Demo.serving) ().

(** A reload that would remove every rule, with the wrong token and with the right one. *)
Definition wipe (token : string) : request :=
  mkHttp Post "/reload" [("Authorization"%string, bytes_of_string ("Bearer " +:+ token))] [].

Lemma token_guards_routes_witness : demo_serve (wipe "secre") demo_state = (demo_state, unauthorized).
Proof.
  unfold demo_serve. rewrite (token_guards_routes None (fun _ => (7, mkDraws 1 2 3))
    (fun _ => inr (mkDesired [] [])) id (fun _ _ u => (u, mkResponse 200 BEmpty))
    (fun _ => mkResponse 404 BEmpty) "secret" (wipe "secre") demo_state).
  - rewrite decide_False; [reflexivity|]. vm_compute. discriminate.
  - reflexivity.
  - vm_compute. discriminate.
Defined.

Example right_token_accepted :
  rs_status (demo_serve (wipe "secret") demo_state).2 = 200 /\
  match ap_control (demo_serve (wipe "secret") demo_state).1 with
  | Some s => map_to_list (d_kernel (r_daemon (cs_reconciler s))) = []
  | None => False
  end.
Proof. vm_compute. split; reflexivity. Qed.

(** A pending change of a flow is not drift. *)
Example flow_change_not_reported :
  let flow := Some (mkFlowCriteria None None None (Some 443) (Some 6) None) in
  let desired := mkDesired [mkRule 1 Block 10 flow] [] in
  let actual := mkActual [mkActualRule 1 Block (Some 1) None] in
  drift desired actual = [] /\ operations (build_plan desired actual 1) = [UpdatePolicy (mkRule 1 Block 10 flow)].
Proof. split; vm_compute; reflexivity. Qed.

(** The web interface in [/srv/ui], and a file outside it. *)
Definition tree (secret : list Z) : file_tree :=
  let contents p :=
    if String.eqb p "/srv/ui/index.html" then Some [60]
    else if String.eqb p "/srv/secret.txt" then Some secret else None in
  mkTree (fun p => bool_decide (is_Some (contents p))) contents.

Lemma tree_inside secret secret' p :
  inside "/srv/ui" p ->
  ft_is_file (tree secret) p = ft_is_file (tree secret') p /\ ft_read (tree secret) p = ft_read (tree secret') p.
Proof.
  intros (l & E & _). cbn [tree ft_is_file ft_read].
  destruct (String.eqb_spec p "/srv/ui/index.html"); [done|].
  destruct (String.eqb_spec p "/srv/secret.txt") as [->|]; [|done].
  vm_compute in E. discriminate.
Qed.

Lemma webui_confined_witness :
  webui_fallback (Some "/srv/ui"%string) (tree [1]) "/../secret.txt" =
    webui_fallback (Some "/srv/ui"%string) (tree [2]) "/../secret.txt" /\
  rs_status (webui_fallback (Some "/srv/ui"%string) (tree [1]) "/../secret.txt") = 400.
Proof.
  destruct (webui_confined "/srv/ui" (tree [1]) (tree [2]) "/../secret.txt") as [H1 H2].
  - discriminate.
  - apply tree_inside.
  - split; [exact H1|]. apply H2. exists ".."%string. split; [right; by left|reflexivity].
Defined.

(** One address is known for the blocked site; the candidate has a rule the executor
    refuses. *)
Definition observed : DnsRegistry := reg_insert ∅ "ads.example" [V4 0x01020304].
Definition observed_later : DnsRegistry := reg_insert ∅ "ads.example" [V4 0x05060708].
Definition compiler (registry : DnsRegistry) (d : DesiredState) : DesiredState :=
  (DnsFlow.flow_compile registry (fun _ => 0) d).2.

Definition on_site : Reconciler (gmap Z ActionRequest) :=
  set_desired (Some (compiler observed)) to_allocvec
    (Reconciler_new (mkDesired [] []) ∅) ConfigPlane.Demo.site_state.

Definition refused : DesiredState := mkDesired [log3] [].

End Demo.
