(* ===== verification/NetTools.v ===== *)
(** * External network tools (balansir-executor: tailscale.rs, wifi.rs, mptcp.rs;
      balansir-daemon: wifi_manager.rs, mptcp_manager.rs)

    The executor's drivers that run [tailscale], [iw], [wpa_cli], [wpa_supplicant] and
    [ip mptcp], and the daemon's managers over them.  The host (processes and files) is a
    record of operations on its state; the JSON decoder of [tailscale status] and the date
    parser are parameters.  Program output is text, already decoded.

    The theorems bound the command lines that requests can produce, follow a Wi-Fi request
    into the supplicant's configuration, read scan output back, and show what the reported
    results do and do not say. *)

From stdpp Require Import pretty.
From S2P Require Import Prelude F64 Types IpText Text Errors Nftables ExecutorService B4Control DnsPlane NetTypes.
#[local] Open Scope Z_scope.

(** ** The host *)

Record tool_host (N : Type) := mkHost {
  h_spawn : string -> list string -> string -> N -> N * (string + output);
  h_create_dir_all : string -> N -> N * (string + ());
  h_write : string -> string -> N -> N * (string + ());
  h_set_mode : string -> Z -> N -> N * (string + ());
  h_remove_file : string -> N -> N * (string + ());
  h_read : string -> N -> option string;
  h_exists : string -> N -> bool;
}.
Arguments h_spawn {N}. Arguments h_create_dir_all {N}. Arguments h_write {N}.
Arguments h_set_mode {N}. Arguments h_remove_file {N}. Arguments h_read {N}. Arguments h_exists {N}.

(** ** Tailscale *)

(** [validate_route] *)
Definition validate_route (route : string) : bool :=
  match split_once "/" route with
  | None => false
  | Some (addr, prefix) =>
      match parse_radix 10 255 prefix with
      | None => false
      | Some prefix =>
          match parse_ip addr with
          | None => false
          | Some (V4 a) => (prefix <=? 32) && negb (a =? 0)
          | Some (V6 a) => (prefix <=? 128) && negb (a =? 0)
          end
      end
  end.

Definition not_control (c : ascii) : bool :=
  let n := N_of_ascii c in ((32 <=? n) && (n <=? 126))%N.

Definition valid_auth_key (key : string) : bool :=
  negb (is_empty_str key) && (Z.of_nat (String.length key) <=? 512) && all_chars not_control key.

Record RawNode := mkRawNode {
  rn_host_name : option string;
  rn_dns_name : option string;
  rn_tailscale_ips : option (list string);
  rn_online : option bool;
  rn_active : option bool;
  rn_exit_node : option bool;
  rn_last_seen : option string;
  rn_relay : option string;
  rn_rx_bytes : option Z;
  rn_tx_bytes : option Z;
}.

(** The peers are in the iteration order of the map. *)
Record RawStatus := mkRawStatus {
  rw_backend_state : option string;
  rw_self_info : option RawNode;
  rw_peers : option (list RawNode);
  rw_exit_node_online : option (option bool);
  rw_health : option (list string);
}.

Definition status_default (installed : bool) (backend_state summary : string) : TailscaleStatus :=
  mkTailscale installed backend_state false None None [] [] [] None [] None summary.

Section Status.
Context (from_slice : string -> option RawStatus) (parse_from_rfc3339 : string -> option Z) (now : Z).

(** Seconds since the peer was seen; a time in the future is dropped. *)
Definition last_seen (ts : string) : option Z :=
  match parse_from_rfc3339 ts with
  | Some t => let t := Z.max t 0 in if t <=? now then Some (now - t) else None
  | None => None
  end.

Definition peer_view (peer : RawNode) : TailscalePeer :=
  mkPeer (default (default EmptyString (rn_dns_name peer)) (rn_host_name peer))
    (default [] (rn_tailscale_ips peer)) (default false (rn_online peer)) (default false (rn_active peer))
    (rn_last_seen peer ≫= last_seen) (default false (rn_exit_node peer)) (rn_relay peer)
    (rn_rx_bytes peer) (rn_tx_bytes peer).

Definition status_summary (backend_state : string) (ip : option string) (peers : Z) (health : list string) :
    string :=
  match backend_state with
  | "Running" =>
      match health with
      | [] => "Running · " +:+ default "?" ip +:+ " · " +:+ pretty peers +:+ " peer(s)"
      | _ => "Running · " +:+ pretty (len health) +:+ " warning(s): " +:+ join_with "; " health
      end
  | "NeedsLogin" => "Needs login — open the login URL from `tailscale up`"
  | "Stopped" => "Daemon stopped"
  | other => other
  end%string.

Definition parse_status (raw : string) : TailscaleStatus :=
  match from_slice raw with
  | None => status_default true "ParseError" "tailscale returned unparseable status"
  | Some status =>
      let backend_state := default "Unknown"%string (rw_backend_state status) in
      let self := rw_self_info status in
      let ips := default [] (self ≫= rn_tailscale_ips) in
      let is_v6 ip := contains ip ":" in
      let peers := map peer_view (default [] (rw_peers status)) in
      let exit_node :=
        match rw_exit_node_online status with
        | Some (Some true) => Some "exit node active"%string
        | _ => None
        end in
      let hostname :=
        match self ≫= rn_host_name with Some h => Some h | None => self ≫= rn_dns_name end in
      let tailscale_ip := head ips in
      mkTailscale true backend_state (default false (self ≫= rn_online)) hostname tailscale_ip
        (List.filter (fun ip => negb (is_v6 ip)) ips) (List.filter is_v6 ips) peers exit_node [] None
        (status_summary backend_state tailscale_ip (len peers) (default [] (rw_health status)))
  end.
End Status.

Section Tailscale.
Context {N : Type} (host : tool_host N) (binary : string).

Definition ts_run (args : list string) (stdin : string) : N -> N * (string + output) :=
  h_spawn host binary args stdin.

(** The result of a command: what it is called, and the text of its success. *)
Definition ts_result (what done : string) (r : N * (string + output)) : N * TailscaleResult :=
  match r with
  | (n, inr out) =>
      if out_success out then (n, mkTsResult true done) else (n, mkTsResult false (trim (out_stderr out)))
  | (n, inl e) => (n, mkTsResult false (what +:+ " failed: " +:+ e))
  end.

Definition tailscale_up (auth_key : option string) (n : N) : N * TailscaleResult :=
  match auth_key with
  | Some key =>
      if negb (valid_auth_key key) then (n, mkTsResult false "invalid auth key")
      else ts_result "tailscale up" "tailscale up"
             (ts_run ["up"; "--auth-key"; "-"] (key +:+ String "010" EmptyString) n)
  | None => ts_result "tailscale up" "tailscale up" (ts_run ["up"] EmptyString n)
  end.

Definition tailscale_down (n : N) : N * TailscaleResult :=
  ts_result "tailscale down" "tailscale down" (ts_run ["down"] EmptyString n).

Definition tailscale_reconnect (n : N) : N * TailscaleResult :=
  ts_result "tailscale reconnect" "tailscale reconnect" (ts_run ["reconnect"] EmptyString n).

Definition route_args (routes : list string) (exit_node : bool) : list string :=
  "up"%string :: flat_map (fun r => ["--advertise-routes"; r]%string) routes ++
  (if exit_node then ["--advertise-exit-node"]%string else []).

Definition tailscale_set_routes (routes : list string) (exit_node : bool) (n : N) : N * TailscaleResult :=
  if existsb (fun r => negb (validate_route r)) routes
  then (n, mkTsResult false "invalid subnet route (expected CIDR like 10.0.0.0/24)")
  else ts_result "tailscale set-routes" "routes advertised"
         (ts_run (route_args routes exit_node) EmptyString n).

Context (from_slice : string -> option RawStatus) (parse_from_rfc3339 : string -> option Z) (now : Z).

Definition tailscale_status (n : N) : N * TailscaleStatus :=
  match ts_run ["status"; "--json"]%string EmptyString n with
  | (n, inr out) =>
      if out_success out then (n, parse_status from_slice parse_from_rfc3339 now (out_stdout out))
      else (n, status_default true "Error" ("tailscale status failed: " +:+ trim (out_stderr out)))
  | (n, inl e) => (n, status_default true "Unavailable" ("tailscale status failed: " +:+ e))
  end.
End Tailscale.

(** ** Decimal numbers *)

Fixpoint span_digits (s : string) : string * string :=
  match s with
  | String c s' =>
      match digit_val 10 c with
      | Some _ => let '(d, r) := span_digits s' in (String c d, r)
      | None => (EmptyString, s)
      end
  | EmptyString => (EmptyString, EmptyString)
  end.

Definition digits_z (s : string) : Z := default 0 (digits_value 10 0 s).

(** The binary64 number nearest to [± n * 10^e]. *)
Definition f64_dec (neg : bool) (n : Z) (e : Z) : f64 :=
  if n =? 0 then SpecFloat.S754_zero neg
  else if 0 <=? e then
    SpecFloat.binary_round 53 1024 neg (Z.to_pos (n * 10 ^ e)) 0
  else
    let '(m, e', l) := SpecFloat.SFdiv_core_binary 53 1024 n 0 (10 ^ (- e)) 0 in
    SpecFloat.binary_round_aux 53 1024 neg m e' l.

(** [f64::from_str] *)
Definition parse_number (neg : bool) (s : string) : option f64 :=
  let '(int, r) := span_digits s in
  let '(frac, r) :=
    match r with
    | String "." r => span_digits r
    | _ => (EmptyString, r)
    end in
  if is_empty_str int && is_empty_str frac then None
  else
    let mant := digits_z (int +:+ frac) in
    let scale := - Z.of_nat (String.length frac) in
    match r with
    | EmptyString => Some (f64_dec neg mant scale)
    | String c r =>
        if Ascii.eqb (lower_ascii c) "e" then
          let '(eneg, r) :=
            match r with
            | String "-" r => (true, r)
            | String "+" r => (false, r)
            | _ => (false, r)
            end in
          let '(ed, r) := span_digits r in
          if is_empty_str ed || negb (is_empty_str r) then None
          else Some (f64_dec neg mant (scale + (if eneg then - digits_z ed else digits_z ed)))
        else None
    end.

Definition parse_f64 (s : string) : option f64 :=
  let '(neg, r) :=
    match s with
    | String "-" r => (true, r)
    | String "+" r => (false, r)
    | _ => (false, s)
    end in
  let lower := to_ascii_lowercase r in
  if String.eqb lower "inf" || String.eqb lower "infinity" then Some (SpecFloat.S754_infinity neg)
  else if String.eqb lower "nan" then Some SpecFloat.S754_nan
  else parse_number neg r.

(** [as i32]: towards zero, saturating, [NaN] to 0 *)
Definition f64_as_i32 (x : f64) : Z :=
  match x with
  | SpecFloat.S754_finite s m e =>
      let a := if 0 <=? e then Z.pos m * 2 ^ e else Z.pos m / 2 ^ (- e) in
      Z.max (- 2 ^ 31) (Z.min (2 ^ 31 - 1) (if s then - a else a))
  | SpecFloat.S754_infinity s => if s then - 2 ^ 31 else 2 ^ 31 - 1
  | _ => 0
  end.

(** ** Wi-Fi *)

Definition valid_iface (name : string) : bool :=
  negb (is_empty_str name) && (Z.of_nat (String.length name) <=? 64) &&
  all_chars (fun c => is_identifier_char c || Ascii.eqb c ".") name.

(** [{:?}] of an argument list *)
Definition debug_args (args : list string) : string :=
  "[" +:+ join_with ", " (map debug_str args) +:+ "]".

(** [str::trim_end_matches] of a text *)
Fixpoint trim_end_str (fuel : nat) (pat s : string) : string :=
  match fuel with
  | O => s
  | S fuel =>
      if negb (is_empty_str pat) && ends_with s pat
      then trim_end_str fuel pat (String.substring 0 (String.length s - String.length pat) s)
      else s
  end.

Definition network_default : WifiNetwork := mkNetwork EmptyString EmptyString 0 0 EmptyString false.

(** One line inside a [BSS] block. *)
Definition scan_field (n : WifiNetwork) (line : string) : WifiNetwork :=
  let with_security s := mkNetwork (wn_ssid n) (wn_bssid n) (wn_signal_dbm n) (wn_freq_mhz n) s (wn_selected n) in
  match strip_prefix "SSID: " line with
  | Some rest => mkNetwork (trim rest) (wn_bssid n) (wn_signal_dbm n) (wn_freq_mhz n) (wn_security n) (wn_selected n)
  | None =>
  match strip_prefix "signal: " line with
  | Some rest =>
      match split_whitespace rest with
      | v :: _ =>
          let dbm := match parse_f64 (trim_end_str (String.length v) "dBm" v) with
                     | Some f => f64_as_i32 f | None => 0 end in
          mkNetwork (wn_ssid n) (wn_bssid n) dbm (wn_freq_mhz n) (wn_security n) (wn_selected n)
      | [] => n
      end
  | None =>
  match strip_prefix "freq: " line with
  | Some rest =>
      let freq := match split_whitespace rest with v :: _ => default 0 (parse_u32 v) | [] => 0 end in
      mkNetwork (wn_ssid n) (wn_bssid n) (wn_signal_dbm n) freq (wn_security n) (wn_selected n)
  | None =>
      if contains line "WPA2" || contains line "WPA3" then with_security "wpa2/wpa3"%string
      else if contains line "WPA" then with_security "wpa"%string
      else if contains line "RSN" || contains line "OWE" then
        if is_empty_str (wn_security n) || String.eqb (wn_security n) "open"
        then with_security "wpa2/wpa3"%string else n
      else if starts_with line "capability" && is_empty_str (wn_security n)
      then with_security "open"%string
      else n
  end end end.

Definition bss_id (line : string) : string :=
  match split_whitespace line with
  | _ :: w :: _ => match split_on "(" w with p :: _ => trim p | [] => EmptyString end
  | _ => EmptyString
  end.

Definition scan_line (s : list WifiNetwork * option WifiNetwork) (line : string) :
    list WifiNetwork * option WifiNetwork :=
  let '(networks, cur) := s in
  let line := trim line in
  if is_empty_str line then s
  else if starts_with line "BSS " then
    (networks ++ match cur with Some n => [n] | None => [] end,
     Some (mkNetwork EmptyString (bss_id line) 0 0 EmptyString false))
  else match cur with
       | Some n => (networks, Some (scan_field n line))
       | None => s
       end.

Definition parse_scan (out : string) : list WifiNetwork :=
  let '(networks, cur) := fold_left scan_line (lines out) ([], None) in
  networks ++ match cur with Some n => [n] | None => [] end.

(** [escape_ssid]: the three [replace] calls, character by character. *)
Fixpoint escape_ssid (s : string) : string :=
  match s with
  | EmptyString => EmptyString
  | String c s =>
      if Ascii.eqb c "\" || Ascii.eqb c dquote then String "\" (String c (escape_ssid s))
      else if Ascii.eqb c newline then escape_ssid s
      else String c (escape_ssid s)
  end.

Definition wpa_string (key value : string) : string :=
  "  " +:+ key +:+ "=" +:+ String dquote (escape_ssid value +:+ String dquote EmptyString).

Definition opt_line (key : string) (value : option string) : list string :=
  match value with Some v => [wpa_string key v] | None => [] end.

(** The configuration handed to the supplicant. *)
Definition wpa_lines (mode ssid : string) (password identity : option string) : list string :=
  ["ctrl_interface=/run/wpa_supplicant"; "update_config=1"; "network={"; wpa_string "ssid" ssid]%string ++
  (if String.eqb mode "eap" then
     ["  key_mgmt=WPA-EAP"]%string ++ opt_line "identity" identity ++ opt_line "password" password ++
     ["  eap=PEAP"; "  phase2=" +:+ quoted "auth=MSCHAPV2"]%string
   else if String.eqb mode "wpa3" then "  key_mgmt=SAE"%string :: opt_line "psk" password
   else "  key_mgmt=WPA-PSK"%string :: opt_line "psk" password) ++
  ["}"]%string.

Definition wpa_config (mode ssid : string) (password identity : option string) : string :=
  unlines (wpa_lines mode ssid password identity).

Section Wifi.
Context {N : Type} (host : tool_host N).

(** [run] of wifi.rs and mptcp.rs *)
Definition run_tool (program : string) (args : list string) : cmd N string := fun n =>
  match h_spawn host program args EmptyString n with
  | (n, inl e) => (n, inl (Fatal (program +:+ ": " +:+ e)))
  | (n, inr out) =>
      if out_success out then (n, inr (out_stdout out))
      else (n, inl (Fatal (program +:+ " " +:+ debug_args args +:+ " failed: " +:+ trim (out_stderr out))))
  end.

(** [let _ = run(..)] *)
Definition run_ignored (program : string) (args : list string) (n : N) : N := (run_tool program args n).1.

Definition invalid_iface : Error := Misconfiguration "wifi: invalid interface name".

Definition wifi_scan (interface : string) : cmd N WifiResult := fun n =>
  if negb (valid_iface interface) then (n, inl invalid_iface)
  else
    let '(n, out) :=
      match run_tool "iw" ["dev"; interface; "scan"]%string n with
      | (n, inr o) => (n, inr o)
      | (n, inl _) => run_tool "iw" ["dev"; interface; "scan"; "dump"]%string n
      end in
    match out with
    | inl e => (n, inl e)
    | inr out =>
        let networks := parse_scan out in
        (n, inr (mkWifiResult true ("scanned " +:+ pretty (len networks) +:+ " networks") networks))
    end.

Definition connect_mode (interface ssid : string) (security : option string) : cmd N string := fun n =>
  match security with
  | Some m => (n, inr m)
  | None =>
      match wifi_scan interface n with
      | (n, inl e) => (n, inl e)
      | (n, inr scanned) =>
          (n, inr (default "open"%string
             (wn_security <$> List.find (fun x => String.eqb (wn_ssid x) ssid) (wr_networks scanned))))
      end
  end.

Definition wpa_dir : string := "/run/balansir".
Definition wpa_path (interface : string) : string := wpa_dir +:+ "/wpa-" +:+ interface +:+ ".conf".

(** The supplicant path of [connect]. *)
Definition connect_wpa (interface mode ssid : string) (password identity : option string) : cmd N () := fun n =>
  match h_create_dir_all host wpa_dir n with
  | (n, inl e) => (n, inl (Fatal (wpa_dir +:+ ": " +:+ e)))
  | (n, inr _) =>
      let path := wpa_path interface in
      match h_write host path (wpa_config mode ssid password identity) n with
      | (n, inl e) => (n, inl (Fatal ("write " +:+ path +:+ ": " +:+ e)))
      | (n, inr _) =>
          let n := (h_set_mode host path 0x180 n).1 in
          let n := run_ignored "wpa_cli" ["-i"; interface; "reconfigure"]%string n in
          let n := run_ignored "wpa_cli" ["-i"; interface; "select_network"; "0"]%string n in
          let n := run_ignored "wpa_supplicant" ["-B"; "-i"; interface; "-c"; path; "-D"; "wext,nl80211"]%string n in
          let n := run_ignored "wpa_cli" ["-i"; interface; "reassociate"]%string n in
          ((h_remove_file host path n).1, inr ())
      end
  end.

Definition connect_args (interface ssid : string) (password : option string) : list string :=
  ["dev"; interface; "connect"; ssid]%string ++
  match password with Some pw => ["key"; pw]%string | None => [] end.

Definition wifi_connect (interface ssid : string) (password identity security : option string) :
    cmd N WifiResult := fun n =>
  let length s := Z.of_nat (String.length s) in
  if negb (valid_iface interface) then (n, inl invalid_iface)
  else if is_empty_str ssid || (64 <? length ssid) then (n, inl (Misconfiguration "wifi: invalid SSID"))
  else if match password with Some pw => is_empty_str pw || (256 <? length pw) | None => false end
  then (n, inl (Misconfiguration "wifi: invalid password"))
  else
    (mode ← connect_mode interface ssid security;
     _ ← (if String.eqb mode "open" || String.eqb mode "owe"
          then (_ ← run_tool "iw" (connect_args interface ssid password); mret ())
          else connect_wpa interface mode ssid password identity);
     mret (mkWifiResult true ("connect initiated for " +:+ ssid +:+ " (mode " +:+ mode +:+ ")") [])) n.

(** The last line with a prefix, trimmed. *)
Definition last_value (prefix : string) (ls : list string) : option string :=
  last (omap (fun l => trim <$> strip_prefix prefix l) ls).

Definition wpa_status (out : string) : string * list WifiNetwork :=
  let ls := lines out in
  let ssid := default EmptyString (last_value "ssid=" ls) in
  let selected := existsb (fun l => match strip_prefix "ssid=" l with
                                    | Some v => negb (is_empty_str (trim v)) | None => false end) ls in
  if selected then
    ("connected to " +:+ ssid,
     [mkNetwork ssid (default EmptyString (last_value "bssid=" ls)) 0
        (default 0 (last_value "freq=" ls ≫= fun v => Some (default 0 (parse_u32 v))))
        (default EmptyString (last_value "key_mgmt=" ls)) true])
  else ("not connected"%string, []).

Definition iw_status (out : string) : string * list WifiNetwork :=
  let ssids := omap (fun l => trim <$> strip_prefix "SSID:" (trim l)) (lines out) in
  match last ssids with
  | Some ssid => ("connected to " +:+ ssid,
      map (fun s => mkNetwork s EmptyString 0 0 EmptyString true) ssids)
  | None => ("not connected"%string, [])
  end.

Definition wifi_status (interface : string) : cmd N WifiResult := fun n =>
  if negb (valid_iface interface) then (n, inl invalid_iface)
  else
    match run_tool "wpa_cli" ["-i"; interface; "status"]%string n with
    | (n, inr out) => let '(detail, networks) := wpa_status out in (n, inr (mkWifiResult true detail networks))
    | (n, inl _) =>
        match run_tool "iw" ["dev"; interface; "link"]%string n with
        | (n, inr out) => let '(detail, networks) := iw_status out in (n, inr (mkWifiResult true detail networks))
        | (n, inl _) => (n, inl (Misconfiguration "wifi: neither wpa_supplicant nor iw available"))
        end
    end.

Definition wifi_disconnect (interface : string) : cmd N WifiResult := fun n =>
  if negb (valid_iface interface) then (n, inl invalid_iface)
  else
    let n := run_ignored "iw" ["dev"; interface; "disconnect"]%string n in
    let n := run_ignored "wpa_cli" ["-i"; interface; "disconnect"]%string n in
    (n, inr (mkWifiResult true "disconnected" [])).
End Wifi.

(** ** MPTCP *)

Definition MPTCP_ENABLED_SYSCTL : string := "/proc/sys/net/mptcp/enabled".

Definition valid_ip (s : string) : bool := bool_decide (is_Some (parse_ip s)).

(** The words after the address of an endpoint line. *)
Fixpoint endpoint_words (fuel : nat) (ep : MptcpEndpoint) (rest : list string) : MptcpEndpoint :=
  match fuel, rest with
  | S fuel, "dev"%string :: rest =>
      match rest with
      | dev :: rest => endpoint_words fuel (mkEndpoint (me_address ep) dev (me_local_id ep) (me_flags ep)) rest
      | [] => ep
      end
  | S fuel, "id"%string :: rest =>
      match rest with
      | id :: rest =>
          endpoint_words fuel (mkEndpoint (me_address ep) (me_iface ep)
            (default 0 (parse_u32 id)) (me_flags ep)) rest
      | [] => ep
      end
  | S fuel, f :: rest =>
      let ep :=
        if existsb (String.eqb f) ["subflow"; "signal"; "backup"; "fullmesh"]%string
        then mkEndpoint (me_address ep) (me_iface ep) (me_local_id ep) (me_flags ep ++ [f]) else ep in
      endpoint_words fuel ep rest
  | _, _ => ep
  end.

Definition parse_endpoint (line : string) : option MptcpEndpoint :=
  match split_whitespace (trim line) with
  | [] => None
  | addr :: rest =>
      if String.eqb addr "subflow" || String.eqb addr "signal" then None
      else Some (endpoint_words (length rest) (mkEndpoint addr EmptyString 0 []) rest)
  end.

Definition parse_endpoints (out : string) : list MptcpEndpoint := omap parse_endpoint (lines out).

Definition parse_subflow_line (line : string) : option MptcpSubflow :=
  let trimmed := trim line in
  if is_empty_str trimmed || contains trimmed "local_address" then None
  else
    match split_whitespace trimmed with
    | idx :: local :: remote :: _ =>
        match parse_u32 (trim_end_matches ":" idx) with
        | None => None
        | Some _ =>
            let state :=
              if contains trimmed "SYN-SENT" then "SYN-SENT"
              else if contains trimmed "ESTABLISHED" then "ESTABLISHED" else "" in
            Some (mkSubflow remote local state (contains trimmed "BACKUP" || contains trimmed "backup") 0 0)
        end
    | _ => None
    end%string.

Definition parse_subflows (out : string) : list MptcpSubflow := omap parse_subflow_line (lines out).

Section Mptcp.
Context {N : Type} (host : tool_host N).

Definition enabled_state (n : N) : option bool :=
  match h_read host MPTCP_ENABLED_SYSCTL n with
  | Some s => (fun v => v =? 1) <$> parse_radix 10 255 (trim s)
  | None => None
  end.

Definition no_mptcp : Error :=
  Misconfiguration "mptcp: kernel has no MPTCP support (CONFIG_MPTCP missing or kernel < 5.6)".

Definition mptcp_set_enabled (enabled : bool) : cmd N MptcpResult := fun n =>
  if negb (h_exists host MPTCP_ENABLED_SYSCTL n) then (n, inl no_mptcp)
  else
    let text := String (if enabled then "1" else "0") (String newline EmptyString) in
    match h_write host MPTCP_ENABLED_SYSCTL text n with
    | (n, inl e) => (n, inl (Fatal ("mptcp: write " +:+ MPTCP_ENABLED_SYSCTL +:+ ": " +:+ e)))
    | (n, inr _) =>
        (n, inr (mkMpResult true (if enabled then "MPTCP stack enabled" else "MPTCP stack disabled")%string
           (enabled_state n) [] []))
    end.

Definition endpoint_args (address interface : string) : list string :=
  ["mptcp"; "endpoint"; "add"; address]%string ++
  (if is_empty_str interface then [] else ["dev"; interface]%string) ++ ["signal"]%string.

Definition invalid_endpoint (address : string) : Error :=
  Misconfiguration ("mptcp: invalid endpoint address " +:+ address).

Definition mptcp_add_endpoint (address interface : string) : cmd N MptcpResult := fun n =>
  if negb (h_exists host MPTCP_ENABLED_SYSCTL n) then (n, inl no_mptcp)
  else if negb (valid_ip address) then (n, inl (invalid_endpoint address))
  else if negb (is_empty_str interface) && negb (valid_iface interface)
  then (n, inl (Misconfiguration "mptcp: invalid interface name"))
  else
    match run_tool host "ip" (endpoint_args address interface) n with
    | (n, inl e) => (n, inl e)
    | (n, inr _) =>
        (n, inr (mkMpResult true ("endpoint " +:+ address +:+ " added") (enabled_state n) [] []))
    end.

Definition mptcp_remove_endpoint (address : string) : cmd N MptcpResult := fun n =>
  if negb (h_exists host MPTCP_ENABLED_SYSCTL n) then (n, inl no_mptcp)
  else if negb (valid_ip address) then (n, inl (invalid_endpoint address))
  else
    match run_tool host "ip" ["mptcp"; "endpoint"; "delete"; address]%string n with
    | (n, inl e) => (n, inl e)
    | (n, inr _) =>
        (n, inr (mkMpResult true ("endpoint " +:+ address +:+ " removed") (enabled_state n) [] []))
    end.

Definition bool_text (b : bool) : string := if b then "true" else "false".

Definition mptcp_status : cmd N MptcpResult := fun n =>
  match enabled_state n with
  | None => (n, inl no_mptcp)
  | Some enabled =>
      let '(n, shown) := run_tool host "ip" ["mptcp"; "endpoint"; "show"]%string n in
      let endpoints := match shown with inr out => parse_endpoints out | inl _ => [] end in
      let subflows := match h_read host "/proc/net/mptcp" n with Some out => parse_subflows out | None => [] end in
      (n, inr (mkMpResult true ("enabled=" +:+ bool_text enabled +:+ " endpoints=" +:+ pretty (len endpoints) +:+
         " subflows=" +:+ pretty (len subflows)) (Some enabled) endpoints subflows))
  end.

(** The executor's dispatch of an operation (service.rs) *)
Definition mptcp_backend (op : MptcpOp) : cmd N MptcpResult :=
  match op with
  | MpSetEnabled enabled => mptcp_set_enabled enabled
  | MpAddEndpoint address interface => mptcp_add_endpoint address (default EmptyString interface)
  | MpRemoveEndpoint address => mptcp_remove_endpoint address
  | MpStatus => mptcp_status
  end.

Definition wifi_backend (op : WifiOp) : cmd N WifiResult :=
  match op with
  | WifiScan interface => wifi_scan host interface
  | WifiConnect interface ssid password identity security =>
      wifi_connect host interface ssid password identity security
  | WifiStatus interface => wifi_status host interface
  | WifiDisconnect interface => wifi_disconnect host interface
  end.
End Mptcp.

(** ** The daemon's managers *)

Section Managers.
Context {W : Type} (wifi_op : WifiOp -> W -> W * (string + WifiResult))
  (mptcp_op : MptcpOp -> W -> W * (string + MptcpResult)).

Record WifiSnapshot := mkWifiSnapshot {
  ws_interfaces : list string;
  ws_networks : list WifiNetwork;
  ws_states : list (string * string);
  ws_last_error : option string;
  ws_busy : bool;
}.

Definition detect_wifi_interfaces (l : list InterfaceInfo) : list string :=
  map if_name (List.filter (fun i =>
    match match if_if_type i with Some k => Some k | None => if_kind i end with
    | Some k => contains k "wlan" || String.eqb k "wifi"
    | None => false
    end) l).

(** One status probe per interface. *)
Fixpoint wifi_probe (ifaces : list string) (w : W) : W * list (string * string) * option string :=
  match ifaces with
  | [] => (w, [], None)
  | iface :: ifaces =>
      let '(w, r) := wifi_op (WifiStatus iface) w in
      let '(w, states, last_error) := wifi_probe ifaces w in
      match r with
      | inr result =>
          let connected := existsb (fun n => wn_selected n && negb (is_empty_str (wn_ssid n))) (wr_networks result) in
          (w, (iface, if connected then "connected" else "disconnected")%string :: states, last_error)
      | inl e =>
          (w, (iface, "error"%string) :: states, match last_error with Some e' => Some e' | None => Some e end)
      end
  end.

Definition wifi_refresh (ifaces : list string) (w : W) (s : WifiSnapshot) : W * WifiSnapshot :=
  let '(w, states, last_error) := wifi_probe ifaces w in
  (w, mkWifiSnapshot ifaces (ws_networks s) states last_error (ws_busy s)).

Definition manager_scan (interface : string) (w : W) (s : WifiSnapshot) :
    W * WifiSnapshot * (string + WifiResult) :=
  let '(w, r) := wifi_op (WifiScan interface) w in
  let networks := match r with inr r => wr_networks r | inl _ => ws_networks s end in
  (w, mkWifiSnapshot (ws_interfaces s) networks (ws_states s) (ws_last_error s) false, r).

(** [connect] and [disconnect] *)
Definition manager_request (op : WifiOp) (w : W) (s : WifiSnapshot) : W * WifiSnapshot * (string + WifiResult) :=
  let '(w, r) := wifi_op op w in
  (w, mkWifiSnapshot (ws_interfaces s) (ws_networks s) (ws_states s) (ws_last_error s) false, r).

Definition manager_connect (interface ssid : string) (password identity security : option string) :=
  manager_request (WifiConnect interface ssid password identity security).

Definition manager_disconnect (interface : string) := manager_request (WifiDisconnect interface).

Record MptcpSnapshot := mkMptcpSnapshot {
  mp_enabled : bool;
  mp_endpoints : list MptcpEndpoint;
  mp_subflows : list MptcpSubflow;
  mp_flow_health : list (string * string);
  mp_throughput_mbps : list (string * Z);
  mp_last_error : option string;
  mp_busy : bool;
}.

Record mptcp_manager := mkMptcp {
  mm_snapshot : MptcpSnapshot;
  mm_want_enabled : bool;
  mm_want_endpoints : list (string * string);
}.

Definition manager_set_enabled (enabled : bool) (w : W) (m : mptcp_manager) :
    W * mptcp_manager * (string + MptcpResult) :=
  let '(w, r) := mptcp_op (MpSetEnabled enabled) w in
  (w, mkMptcp (mm_snapshot m) enabled (mm_want_endpoints m), r).

Fixpoint add_endpoints (l : list (string * string)) (last : MptcpResult) (w : W) : W * MptcpResult :=
  match l with
  | [] => (w, last)
  | (address, interface) :: l =>
      match mptcp_op (MpAddEndpoint address (if is_empty_str interface then None else Some interface)) w with
      | (w, inr r) => add_endpoints l r w
      | (w, inl e) =>
          add_endpoints l (mkMpResult false ("add endpoint " +:+ address +:+ ": " +:+ e)
            (mr_enabled last) (mr_endpoints last) (mr_subflows last)) w
      end
  end.

Definition manager_set_endpoints (endpoints : list (string * string)) (w : W) (m : mptcp_manager) :
    W * mptcp_manager * MptcpResult :=
  let '(w, r) := add_endpoints endpoints (mkMpResult true "endpoints converged" None [] []) w in
  (w, mkMptcp (mm_snapshot m) (mm_want_enabled m) endpoints, r).

Definition flow_state (s : MptcpSubflow) : string :=
  match ms_state s with
  | "ESTABLISHED" => "established" | "SYN-SENT" => "syn-sent" | _ => "failing"
  end%string.

Definition mptcp_refresh (w : W) (m : mptcp_manager) : W * mptcp_manager :=
  let '(w, r) := mptcp_op MpStatus w in
  let old := mm_snapshot m in
  let snap :=
    match r with
    | inr status =>
        mkMptcpSnapshot (default false (mr_enabled status)) (mr_endpoints status) (mr_subflows status)
          (imap (fun i s => (pretty (Z.of_nat i), flow_state s)) (mr_subflows status))
          (map (fun s => (ms_remote s, 0)) (mr_subflows status)) None (mp_busy old)
    | inl e =>
        mkMptcpSnapshot (mp_enabled old) (mp_endpoints old) (mp_subflows old) (mp_flow_health old)
          (mp_throughput_mbps old) (Some e) (mp_busy old)
    end in
  (w, mkMptcp snap (mm_want_enabled m) (mm_want_endpoints m)).
End Managers.

(** ** The command lines a request can produce *)

Inductive tool_op := OpTailscale (op : TailscaleOp) | OpWifi (op : WifiOp) | OpMptcp (op : MptcpOp).

(** The same host, with a log of the programs it starts. *)
Definition with_log {N} (host : tool_host N) : tool_host (N * list (string * list string)) :=
  let lift {A} (f : N -> N * A) (s : N * list (string * list string)) := ((f s.1).1, s.2, (f s.1).2) in
  mkHost _
    (fun p a i s => ((h_spawn host p a i s.1).1, s.2 ++ [(p, a)], (h_spawn host p a i s.1).2))
    (fun p => lift (h_create_dir_all host p)) (fun p t => lift (h_write host p t))
    (fun p m => lift (h_set_mode host p m)) (fun p => lift (h_remove_file host p))
    (fun p s => h_read host p s.1) (fun p s => h_exists host p s.1).

Section Argv.
Context {N : Type} (host : tool_host N) (binary : string)
  (from_slice : string -> option RawStatus) (parse_from_rfc3339 : string -> option Z) (now : Z).

Definition tool_step {N'} (host : tool_host N') (op : tool_op) (n : N') : N' :=
  match op with
  | OpTailscale TsStatus => (tailscale_status host binary from_slice parse_from_rfc3339 now n).1
  | OpTailscale (TsUp key) => (tailscale_up host binary key n).1
  | OpTailscale TsDown => (tailscale_down host binary n).1
  | OpTailscale TsReconnect => (tailscale_reconnect host binary n).1
  | OpTailscale (TsSetRoutes routes exit_node) => (tailscale_set_routes host binary routes exit_node n).1
  | OpWifi op => (wifi_backend host op n).1
  | OpMptcp op => (mptcp_backend host op n).1
  end.

(** A route is an address and a prefix length. *)
Definition is_route (r : string) : Prop :=
  exists addr prefix ip p, r = addr +:+ "/" +:+ prefix /\ parse_ip addr = Some ip /\
    parse_radix 10 255 prefix = Some p.

(** What may be started: fixed words around interface names, addresses and routes that have
    been checked; the name and the key of a Wi-Fi network are whole arguments after
    [connect]; a Tailscale key is on no command line. *)
Inductive allowed : string * list string -> Prop :=
| al_status : allowed (binary, ["status"; "--json"]%string)
| al_up : allowed (binary, ["up"]%string)
| al_up_key : allowed (binary, ["up"; "--auth-key"; "-"]%string)
| al_down : allowed (binary, ["down"]%string)
| al_reconnect : allowed (binary, ["reconnect"]%string)
| al_routes routes exit_node : Forall is_route routes -> allowed (binary, route_args routes exit_node)
| al_iw i words : valid_iface i = true ->
    In words [["scan"]; ["scan"; "dump"]; ["disconnect"]; ["link"]]%string ->
    allowed ("iw"%string, "dev"%string :: i :: words)
| al_connect i ssid pw : valid_iface i = true -> allowed ("iw"%string, connect_args i ssid pw)
| al_wpa_cli i words : valid_iface i = true ->
    In words [["reconfigure"]; ["select_network"; "0"]; ["reassociate"]; ["status"]; ["disconnect"]]%string ->
    allowed ("wpa_cli"%string, "-i"%string :: i :: words)
| al_supplicant i : valid_iface i = true ->
    allowed ("wpa_supplicant"%string, ["-B"; "-i"; i; "-c"; wpa_path i; "-D"; "wext,nl80211"]%string)
| al_add address i ip : parse_ip address = Some ip -> i = EmptyString \/ valid_iface i = true ->
    allowed ("ip"%string, endpoint_args address i)
| al_delete address ip : parse_ip address = Some ip ->
    allowed ("ip"%string, ["mptcp"; "endpoint"; "delete"; address]%string)
| al_show : allowed ("ip"%string, ["mptcp"; "endpoint"; "show"]%string).

Abbreviation lhost := (with_log host).
Abbreviation ok s := (Forall allowed (snd s)).

Lemma split_once_some pat s a b : split_once pat s = Some (a, b) -> s = a +:+ pat +:+ b.
Proof.
  revert a. induction s as [|c s IH]; intros a; cbn [split_once].
  - destruct (strip_prefix pat EmptyString) eqn:E; [|done]. intros [= <- <-].
    by apply strip_prefix_spec in E.
  - destruct (strip_prefix pat (String c s)) eqn:E.
    + intros [= <- <-]. by apply strip_prefix_spec in E.
    + destruct (split_once pat s) as [[a' b']|] eqn:E'; [|done]. intros [= <- <-].
      by rewrite (IH a' eq_refl).
Qed.

Lemma validate_route_spec r : validate_route r = true -> is_route r.
Proof.
  unfold validate_route. destruct (split_once "/" r) as [[addr prefix]|] eqn:E; [|done].
  destruct (parse_radix 10 255 prefix) as [p|] eqn:Ep; [|done].
  destruct (parse_ip addr) as [ip|] eqn:Ei; [|done]. intros _.
  apply split_once_some in E. by exists addr, prefix, ip, p.
Qed.

Lemma log_spawn p a i s : ok s -> allowed (p, a) -> ok (h_spawn lhost p a i s).1.
Proof. intros Hs Ha. cbn. apply Forall_app. by split; [|constructor]. Qed.

Lemma log_run p a s : ok s -> allowed (p, a) -> ok (run_tool lhost p a s).1.
Proof.
  intros Hs Ha. pose proof (log_spawn p a EmptyString s Hs Ha) as H. unfold run_tool.
  destruct (h_spawn lhost p a EmptyString s) as [s' [e|out]]; [done|]. by destruct (out_success out).
Qed.

Lemma log_ts what text args stdin s :
  ok s -> allowed (binary, args) -> ok (ts_result what text (ts_run lhost binary args stdin s)).1.
Proof.
  intros Hs Ha. pose proof (log_spawn binary args stdin s Hs Ha) as H. unfold ts_result, ts_run.
  destruct (h_spawn lhost binary args stdin s) as [s' [e|out]]; [done|]. by destruct (out_success out).
Qed.

Lemma log_scan i s : ok s -> ok (wifi_scan lhost i s).1.
Proof.
  intros Hs. unfold wifi_scan. destruct (valid_iface i) eqn:Hi; cbn [negb]; [|done].
  assert (H1 : ok (run_tool lhost "iw" ["dev"; i; "scan"]%string s).1)
    by (apply log_run; [done|apply al_iw; [done|by left]]).
  destruct (run_tool lhost "iw" _ s) as [s1 [e|o]]; cbn [fst] in H1; [|done].
  assert (H2 : ok (run_tool lhost "iw" ["dev"; i; "scan"; "dump"]%string s1).1)
    by (apply log_run; [done|apply al_iw; [done|right; by left]]).
  by destruct (run_tool lhost "iw" _ s1) as [s2 [e2|o2]].
Qed.

Lemma log_connect_wpa i mode ssid pw id s :
  valid_iface i = true -> ok s -> ok (connect_wpa lhost i mode ssid pw id s).1.
Proof.
  intros Hi Hs. unfold connect_wpa, run_ignored.
  cbn [with_log h_create_dir_all h_write h_set_mode h_remove_file].
  destruct (h_create_dir_all host wpa_dir s.1) as [n1 [e|[]]]; [done|]. cbn [fst snd].
  destruct (h_write host (wpa_path i) _ n1) as [n2 [e|[]]]; [done|]. cbn [fst snd].
  repeat first [done | apply log_run |
    apply al_wpa_cli; [done|cbn; tauto] | apply al_supplicant; done].
Qed.

Lemma log_wifi op s : ok s -> ok (wifi_backend lhost op s).1.
Proof.
  intros Hs. destruct op as [i|i ssid pw id sec|i|i]; cbn [wifi_backend].
  - by apply log_scan.
  - unfold wifi_connect. destruct (valid_iface i) eqn:Hi; cbn [negb]; [|done].
    destruct (is_empty_str ssid || _); [done|]. destruct (match pw with Some _ => _ | None => _ end); [done|].
    unfold mbind, cmd_bind.
    assert (Hm : ok (connect_mode lhost i ssid sec s).1).
    { unfold connect_mode. destruct sec; [done|]. pose proof (log_scan i s Hs).
      by destruct (wifi_scan lhost i s) as [s' [e|r]]. }
    destruct (connect_mode lhost i ssid sec s) as [s1 [e|mode]]; cbn [fst] in Hm; [done|].
    destruct (String.eqb mode "open" || _).
    + pose proof (log_run "iw" (connect_args i ssid pw) s1 Hm (al_connect i ssid pw Hi)) as Hr.
      by destruct (run_tool lhost "iw" _ s1) as [s2 [e|o]].
    + pose proof (log_connect_wpa i mode ssid pw id s1 Hi Hm) as Hr.
      by destruct (connect_wpa lhost i mode ssid pw id s1) as [s2 [e|o]].
  - unfold wifi_status. destruct (valid_iface i) eqn:Hi; cbn [negb]; [|done].
    assert (H1 : ok (run_tool lhost "wpa_cli" ["-i"; i; "status"]%string s).1)
      by (apply log_run; [done|apply al_wpa_cli; [done|cbn; tauto]]).
    destruct (run_tool lhost "wpa_cli" _ s) as [s1 [e|o]]; cbn [fst] in H1.
    + assert (H2 : ok (run_tool lhost "iw" ["dev"; i; "link"]%string s1).1)
        by (apply log_run; [done|apply al_iw; [done|cbn; tauto]]).
      destruct (run_tool lhost "iw" _ s1) as [s2 [e2|o2]]; [done|]. by destruct (iw_status o2).
    + by destruct (wpa_status o).
  - unfold wifi_disconnect. destruct (valid_iface i) eqn:Hi; cbn [negb]; [|done].
    unfold run_ignored. apply log_run; [|apply al_wpa_cli; [done|cbn; tauto]].
    apply log_run; [done|apply al_iw; [done|cbn; tauto]].
Qed.

Lemma log_mptcp op s : ok s -> ok (mptcp_backend lhost op s).1.
Proof.
  intros Hs. destruct op as [enabled|address i|address|]; cbn [mptcp_backend].
  - unfold mptcp_set_enabled. destruct (h_exists lhost _ s); cbn [negb]; [|done].
    cbn [with_log h_write]. by destruct (h_write host _ _ s.1) as [n [e|[]]].
  - unfold mptcp_add_endpoint. destruct (h_exists lhost _ s); cbn [negb]; [|done].
    unfold valid_ip. case_bool_decide as Hip; cbn [negb]; [|done]. destruct Hip as [ip Hip].
    destruct (negb (is_empty_str (default EmptyString i)) && _) eqn:Ev; [done|].
    assert (Hi : default EmptyString i = EmptyString \/ valid_iface (default EmptyString i) = true).
    { destruct (default EmptyString i) as [|c r]; [by left|]. right. cbn [is_empty_str negb andb] in Ev.
      by apply negb_false_iff in Ev. }
    pose proof (log_run "ip" _ s Hs (al_add address _ ip Hip Hi)) as Hr.
    by destruct (run_tool lhost "ip" _ s) as [s1 [e|o]].
  - unfold mptcp_remove_endpoint. destruct (h_exists lhost _ s); cbn [negb]; [|done].
    unfold valid_ip. case_bool_decide as Hip; cbn [negb]; [|done]. destruct Hip as [ip Hip].
    pose proof (log_run "ip" _ s Hs (al_delete address ip Hip)) as Hr.
    by destruct (run_tool lhost "ip" _ s) as [s1 [e|o]].
  - unfold mptcp_status. destruct (enabled_state lhost s); [|done].
    pose proof (log_run "ip" _ s Hs al_show) as Hr. by destruct (run_tool lhost "ip" _ s) as [s1 r].
Qed.

(** C27.  Whatever requests arrive, and whatever the programs answer, every command line is
    one of the fixed shapes, with checked interface names, addresses and routes in place of
    the parameters; no Tailscale key is ever on a command line. *)
Theorem tool_commands_fixed ops n :
  Forall allowed (fold_left (fun s op => tool_step lhost op s) ops (n, [])).2.
Proof.
  assert (Hstep : forall op s, ok s -> ok (tool_step lhost op s)).
  { intros op s Hs. destruct op as [[|key| | |routes exit_node]|op|op]; cbn [tool_step].
    - unfold tailscale_status, ts_run.
      pose proof (log_spawn binary _ EmptyString s Hs al_status) as H.
      destruct (h_spawn lhost binary _ EmptyString s) as [s' [e|out]]; [done|]. by destruct (out_success out).
    - unfold tailscale_up. destruct key as [key|]; [destruct (valid_auth_key key); cbn [negb]; [|done]|];
        apply log_ts; try done; constructor.
    - apply log_ts; [done|constructor].
    - apply log_ts; [done|constructor].
    - unfold tailscale_set_routes. destruct (existsb _ routes) eqn:E; [done|].
      apply log_ts; [done|]. apply al_routes, List.Forall_forall. intros r Hr.
      apply validate_route_spec, not_false_is_true. intros Hf.
      assert (existsb (fun r => negb (validate_route r)) routes = true); [|congruence].
      apply existsb_exists. exists r. by rewrite Hf.
    - by apply log_wifi.
    - by apply log_mptcp. }
  assert (H : forall s, ok s -> ok (fold_left (fun s op => tool_step lhost op s) ops s)); [|by apply H].
  induction ops as [|op ops IH]; intros s Hs; [done|]. cbn [fold_left]. by apply IH, Hstep.
Qed.
End Argv.

(** An address or a route is never taken for an option. *)
Lemma parse_ip_no_option s : parse_ip (String "-" s) = None.
Proof. reflexivity. Qed.

Lemma is_route_no_option r : is_route r -> starts_with r "-" = false.
Proof.
  intros (addr & prefix & ip & p & -> & Hip & _). destruct addr as [|c addr]; [done|].
  unfold starts_with. rewrite string_app_cons. cbn [strip_prefix].
  destruct (Ascii.eqb_spec "-" c) as [<-|]; [|done]. by rewrite parse_ip_no_option in Hip.
Qed.

(** ** The supplicant's configuration *)

(** A quoted value as the supplicant reads it: the text up to the last quote of the line,
    taken literally. *)
Definition wpa_read (key config : string) : option string :=
  match omap (fun l => strip_prefix (key +:+ "=" +:+ String dquote EmptyString) (trim_start l)) (lines config) with
  | v :: _ => match rsplit_once dquote v with Some (value, EmptyString) => Some value | _ => None end
  | [] => None
  end.

Definition plain_value (s : string) : bool :=
  no_char "\" s && no_char dquote s && no_char newline s.

Lemma escape_no_newline s : no_char newline (escape_ssid s) = true.
Proof.
  induction s as [|c s IH]; [done|]. cbn [escape_ssid].
  destruct (Ascii.eqb_spec c "\") as [->|H1]; [cbn [orb no_char]; by rewrite IH|].
  destruct (Ascii.eqb_spec c dquote) as [->|H2]; [cbn [orb no_char]; by rewrite IH|]. cbn [orb].
  destruct (Ascii.eqb c newline) eqn:E; [done|]. cbn [no_char]. by rewrite E.
Qed.

Lemma escape_length s :
  (String.length s <= String.length (escape_ssid s) + (if no_char newline s then 0 else String.length s))%nat /\
  (plain_value s = true -> escape_ssid s = s).
Proof.
  split.
  - induction s as [|c s IH]; [done|]. cbn [escape_ssid no_char].
    destruct (Ascii.eqb c newline) eqn:E; cbn [negb andb]; [lia|].
    destruct (Ascii.eqb c "\" || Ascii.eqb c dquote); cbn [String.length];
      destruct (no_char newline s); lia.
  - unfold plain_value. induction s as [|c s IH]; [done|]. cbn [escape_ssid no_char].
    rewrite !andb_true_iff. intros [[[H1 H1'] [H2 H2']] [H3 H3']].
    apply negb_true_iff in H1, H2, H3. rewrite H1, H2, H3. cbn [orb]. f_equal. apply IH.
    by rewrite H1', H2', H3'.
Qed.

(** The value reaches the supplicant unchanged exactly when nothing in it is escaped. *)
Lemma escape_id s : escape_ssid s = s <-> plain_value s = true.
Proof.
  split; [|apply escape_length].
  intros E. assert (Hn : no_char newline s = true) by (rewrite <- E; apply escape_no_newline).
  unfold plain_value. rewrite Hn, andb_true_r. induction s as [|c s IH]; [done|].
  cbn [escape_ssid] in E. cbn [no_char] in Hn |- *. apply andb_true_iff in Hn as [Hc Hn].
  apply negb_true_iff in Hc. rewrite Hc in E.
  destruct (Ascii.eqb c "\" || Ascii.eqb c dquote) eqn:Eo.
  - exfalso. apply (f_equal String.length) in E. cbn [String.length] in E.
    pose proof (proj1 (escape_length s)) as Hl. rewrite Hn in Hl. lia.
  - apply orb_false_iff in Eo as [-> ->]. injection E as E. cbn [negb andb]. by apply IH.
Qed.

Lemma wpa_string_line key value :
  no_char newline key = true -> no_char newline (wpa_string key value) = true.
Proof.
  intros Hk. unfold wpa_string. rewrite !no_char_app, Hk. cbn [no_char]. rewrite no_char_app.
  by rewrite escape_no_newline.
Qed.

Lemma opt_line_line key value :
  no_char newline key = true -> Forall (fun l => no_char newline l = true) (opt_line key value).
Proof. intros Hk. destruct value; [|constructor]. constructor; [by apply wpa_string_line|constructor]. Qed.

Lemma wpa_lines_line mode ssid pw id :
  Forall (fun l => no_char newline l = true) (wpa_lines mode ssid pw id).
Proof.
  unfold wpa_lines. apply Forall_app. split; [repeat constructor; by apply wpa_string_line|].
  apply Forall_app. split; [|by repeat constructor].
  destruct (String.eqb mode "eap").
  - apply Forall_app. split; [by repeat constructor|]. apply Forall_app. split; [by apply opt_line_line|].
    apply Forall_app. split; [by apply opt_line_line|]. by repeat constructor.
  - destruct (String.eqb mode "wpa3"); constructor; try done; by apply opt_line_line.
Qed.

Lemma strip_wpa_string c key value :
  is_space c = false ->
  strip_prefix (String c key +:+ "=" +:+ String dquote EmptyString) (trim_start (wpa_string (String c key) value)) =
    Some (escape_ssid value +:+ String dquote EmptyString).
Proof.
  intros Hc. unfold wpa_string.
  change ("  " +:+ String c key +:+ "=" +:+ String dquote (escape_ssid value +:+ String dquote EmptyString))
    with (String " " (String " " (String c (key +:+ "=" +:+ String dquote (escape_ssid value +:+ String dquote EmptyString))))).
  cbn [trim_start is_space]. change (is_space " ") with true. cbn iota. rewrite Hc.
  change (String c (key +:+ "=" +:+ String dquote (escape_ssid value +:+ String dquote EmptyString)))
    with (String c key +:+ ("=" +:+ String dquote EmptyString) +:+ (escape_ssid value +:+ String dquote EmptyString)).
  rewrite <- (string_app_assoc (String c key) ("=" +:+ String dquote EmptyString)).
  apply strip_prefix_app.
Qed.

Lemma read_value value :
  match rsplit_once dquote (escape_ssid value +:+ String dquote EmptyString) with
  | Some (v, EmptyString) => Some v | _ => None end = Some (escape_ssid value).
Proof. by rewrite rsplit_once_sep. Qed.

(** C28.  A Wi-Fi request cannot add anything to the configuration of the supplicant: its
    lines are exactly the intended ones, whatever the name, the key and the identity are,
    and the supplicant reads back the escaped values.  A value arrives unchanged exactly
    when it has no quote, backslash or newline. *)
Theorem wpa_config_contained mode ssid password identity :
  let config := wpa_config mode ssid password identity in
  lines config = wpa_lines mode ssid password identity /\
  wpa_read "ssid" config = Some (escape_ssid ssid) /\
  (mode <> "eap"%string -> wpa_read "psk" config = escape_ssid <$> password) /\
  (mode = "eap"%string -> wpa_read "password" config = escape_ssid <$> password /\
     wpa_read "identity" config = escape_ssid <$> identity) /\
  forall s, escape_ssid s = s <-> plain_value s = true.
Proof.
  intros config. assert (Hl : lines config = wpa_lines mode ssid password identity)
    by apply lines_unlines, wpa_lines_line.
  assert (Hother : forall key value key', String.eqb key key' = false ->
    (key, key') ∈ [("ssid", "psk"); ("ssid", "password"); ("ssid", "identity"); ("identity", "password")]%string ->
    strip_prefix (key' +:+ "=" +:+ String dquote EmptyString) (trim_start (wpa_string key value)) = None).
  { intros key value key' _ Hin. repeat (apply elem_of_cons in Hin as [[= -> ->]|Hin]; [reflexivity|]).
    by apply elem_of_nil in Hin. }
  split; [done|]. unfold wpa_read. rewrite Hl. unfold wpa_lines. split; [|split; [|split]].
  - cbn [app omap list_omap]. rewrite strip_wpa_string by done. cbn. apply read_value.
  - intros Hm. rewrite (proj2 (String.eqb_neq _ _) Hm). cbn [app omap list_omap].
    rewrite (Hother "ssid"%string ssid "psk"%string) by (done || set_solver).
    destruct (String.eqb mode "wpa3"), password as [pw|]; cbn [app omap list_omap opt_line];
      try rewrite strip_wpa_string by done; try done; apply read_value.
  - intros ->. cbn [String.eqb Ascii.eqb Bool.eqb]. cbn [app omap list_omap].
    rewrite (Hother "ssid"%string ssid "password"%string) by (done || set_solver).
    rewrite (Hother "ssid"%string ssid "identity"%string) by (done || set_solver).
    destruct identity as [i|], password as [pw|]; cbn [app omap list_omap opt_line];
      try rewrite (Hother "identity"%string i "password"%string) by (done || set_solver);
      try rewrite !strip_wpa_string by done; split; try done; apply read_value.
  - apply escape_id.
Qed.

(** ** Scan output *)

Definition no_space (s : string) : bool := all_chars (fun c => negb (is_space c)) s.

Lemma no_space_app a b : no_space (a +:+ b) = no_space a && no_space b.
Proof.
  unfold no_space. induction a as [|c a IH]; [done|]. rewrite string_app_cons.
  cbn [all_chars]. by rewrite IH, andb_assoc.
Qed.

(** Text without white space at its ends. *)
Definition tight (s : string) : Prop := trim_start s = s /\ trim_end s = s.

Lemma trim_tight s : tight s -> trim s = s.
Proof. intros [H1 H2]. unfold trim. by rewrite H2. Qed.

Lemma trim_end_nonempty s t : trim_end t <> EmptyString -> trim_end (s +:+ t) = s +:+ trim_end t.
Proof.
  intros H. induction s as [|c s IH]; [done|]. rewrite !string_app_cons. cbn [trim_end]. rewrite IH.
  destruct (s +:+ trim_end t) eqn:E; [|done]. destruct s; [|done].
  change (EmptyString +:+ trim_end t) with (trim_end t) in E. done.
Qed.

Lemma tight_prefix a s : trim_start a = a -> a <> EmptyString -> tight s -> s <> EmptyString -> tight (a +:+ s).
Proof.
  intros Ha Hne [_ H2] Hs. split.
  - destruct a as [|c a]; [done|]. rewrite string_app_cons. cbn [trim_start] in *.
    destruct (is_space c) eqn:E; [|done]. exfalso. clear -Ha.
    assert (forall s, (String.length (trim_start s) <= String.length s)%nat) as Hl.
    { intros s. induction s as [|d s IH]; [done|]. cbn [trim_start]. destruct (is_space d); cbn in *; lia. }
    specialize (Hl a). rewrite Ha in Hl. cbn in Hl. lia.
  - rewrite trim_end_nonempty; by rewrite H2.
Qed.

Lemma no_space_tight s : no_space s = true -> tight s.
Proof.
  intros H. split.
  - destruct s as [|c s]; [done|]. cbn in H. apply andb_true_iff in H as [Hc _].
    apply negb_true_iff in Hc. cbn [trim_start]. by rewrite Hc.
  - induction s as [|c s IH]; [done|]. cbn in H. apply andb_true_iff in H as [Hc H].
    apply negb_true_iff in Hc. cbn [trim_end]. rewrite (IH H). destruct s; [by rewrite Hc|done].
Qed.

Lemma trim_tab s : tight s -> s <> EmptyString -> trim (String "009" s) = s.
Proof.
  intros [H1 H2] Hs. unfold trim. cbn [trim_end]. rewrite H2. destruct s as [|c s]; [done|].
  change (trim_start (String "009" (String c s))) with (trim_start (String c s)). done.
Qed.

Lemma split_ws_word cur w rest :
  no_space w = true -> cur +:+ w <> EmptyString ->
  split_ws_aux cur (w +:+ String " " rest) = (cur +:+ w) :: split_ws_aux EmptyString rest.
Proof.
  revert cur. induction w as [|c w IH]; intros cur H Hne.
  - change (EmptyString +:+ String " " rest) with (String " " rest). cbn [split_ws_aux].
    change (is_space " ") with true. cbn iota. rewrite string_app_nil_r in *. by destruct cur.
  - cbn in H. apply andb_true_iff in H as [Hc H]. apply negb_true_iff in Hc.
    rewrite string_app_cons. cbn [split_ws_aux]. rewrite Hc, IH, string_app_assoc; [done|done|].
    rewrite string_app_assoc. by destruct cur.
Qed.

Lemma split_ws_last cur w :
  no_space w = true -> cur +:+ w <> EmptyString -> split_ws_aux cur w = [cur +:+ w].
Proof.
  revert cur. induction w as [|c w IH]; intros cur H Hne.
  - rewrite string_app_nil_r in *. by destruct cur.
  - cbn in H. apply andb_true_iff in H as [Hc H]. apply negb_true_iff in Hc.
    cbn [split_ws_aux]. rewrite Hc, IH, string_app_assoc; [done|done|].
    rewrite string_app_assoc. by destruct cur.
Qed.

(** A network as [iw] prints it. *)
Definition print_network (iface : string) (n : WifiNetwork) : list string :=
  let field s := String "009" s in
  ["BSS " +:+ wn_bssid n +:+ "(on " +:+ iface +:+ ")";
   field ("signal: " +:+ pretty (wn_signal_dbm n) +:+ ".00 dBm");
   field ("freq: " +:+ pretty (wn_freq_mhz n));
   field (if String.eqb (wn_security n) "open" then "capability: ESS ShortPreamble"
          else "capability: ESS Privacy ShortPreamble");
   field ("SSID: " +:+ wn_ssid n)]%string ++
  match wn_security n with
  | "open" => []
  | "wpa" => [field ("WPA:" +:+ field " * Version: 1")]
  | _ => [field ("RSN:" +:+ field " * Version: 1")]
  end%string.

Record good_network (n : WifiNetwork) : Prop := {
  gn_bssid : wn_bssid n <> EmptyString /\ no_space (wn_bssid n) = true /\ no_char "(" (wn_bssid n) = true;
  gn_ssid : wn_ssid n <> EmptyString /\ tight (wn_ssid n) /\ no_char newline (wn_ssid n) = true;
  gn_signal : -200 <= wn_signal_dbm n <= 0;
  gn_freq : 0 <= wn_freq_mhz n <= u32_max;
  gn_security : In (wn_security n) ["open"; "wpa"; "wpa2/wpa3"]%string;
  gn_selected : wn_selected n = false;
}.

Definition read_dbm (rest : string) : option Z :=
  match split_whitespace rest with
  | v :: _ => Some (match parse_f64 (trim_end_str (String.length v) "dBm" v) with
                    | Some f => f64_as_i32 f | None => 0 end)
  | [] => None
  end.

Lemma signal_checked :
  forallb (fun z => bool_decide (read_dbm (pretty z +:+ ".00 dBm") = Some z))
    (map (fun i => Z.of_nat i - 200) (seq 0 201)) = true.
Proof. vm_compute. reflexivity. Qed.

(** Every level from -200 to 0 dBm is read as printed. *)
Lemma read_dbm_print z : -200 <= z <= 0 -> read_dbm (pretty z +:+ ".00 dBm") = Some z.
Proof.
  intros Hz. pose proof signal_checked as H. rewrite forallb_forall in H.
  apply (bool_decide_eq_true (read_dbm (pretty z +:+ ".00 dBm") = Some z)). apply H, in_map_iff.
  exists (Z.to_nat (z + 200)). split; [lia|]. apply in_seq. lia.
Qed.

Lemma pretty_tight z : 0 <= z -> no_space (pretty z) = true /\ pretty z <> EmptyString.
Proof.
  intros Hz. split; [|by apply pretty_nonempty].
  pose proof (pretty_all_digits z Hz) as H. revert H. generalize (pretty z). intros s.
  unfold no_space. induction s as [|c s IH]; [done|]. cbn [all_digits all_chars].
  intros [Hc H]%andb_true_iff. by rewrite (IH H), (digit_not_space c Hc).
Qed.

Lemma pretty_no_newline (z : Z) : no_char newline (pretty z) = true.
Proof.
  destruct z as [|p|p]; [done|by apply no_char_digits, pretty_all_digits|].
  change (pretty (Z.neg p)) with ("-" +:+ pretty (Z.pos p)). rewrite no_char_app.
  by apply no_char_digits, pretty_all_digits.
Qed.

Lemma no_space_no_newline s : no_space s = true -> no_char newline s = true.
Proof.
  unfold no_space. induction s as [|c s IH]; [done|]. cbn [all_chars no_char].
  intros [Hc H]%andb_true_iff. rewrite (IH H), andb_true_r.
  destruct (Ascii.eqb_spec c newline) as [->|]; done.
Qed.

Lemma print_network_lines iface n :
  no_char newline iface = true -> good_network n ->
  Forall (fun l => no_char newline l = true) (print_network iface n).
Proof.
  intros Hi [Hb Hs _ Hf Hsec _]. unfold print_network.
  pose proof (no_space_no_newline _ (proj1 (proj2 Hb))) as Hbn.
  apply Forall_app. split; [|by destruct Hsec as [<-|[<-|[<-|[]]]]; repeat constructor].
  assert (Hc : forall a b, no_char newline a = true -> no_char newline b = true ->
    no_char newline (if String.eqb (wn_security n) "open" then a else b) = true)
    by (intros; by destruct (String.eqb _ _)).
  repeat constructor; cbn [no_char]; rewrite ?no_char_app, ?Hbn, ?Hi, ?(proj2 (proj2 Hs)); try done.
  - change newline with "010"%char. cbn [Ascii.eqb Bool.eqb negb andb].
    rewrite andb_true_r. cbn [no_char]. apply pretty_no_newline.
  - cbn [Ascii.eqb Bool.eqb negb andb no_char]. apply pretty_no_newline.
  - by apply Hc.
Qed.

(** A field line of the current network. *)
Lemma scan_field_line nets m x :
  tight x -> x <> EmptyString -> starts_with x "BSS " = false ->
  scan_line (nets, Some m) (String "009" x) = (nets, Some (scan_field m x)).
Proof.
  intros Ht Hx Hb. unfold scan_line. rewrite (trim_tab x Ht Hx). destruct x as [|c x]; [done|].
  cbn [is_empty_str]. by rewrite Hb.
Qed.

Lemma scan_bss_line nets cur iface n :
  good_network n -> no_space iface = true ->
  scan_line (nets, cur) ("BSS " +:+ wn_bssid n +:+ "(on " +:+ iface +:+ ")") =
    (nets ++ match cur with Some m => [m] | None => [] end,
     Some (mkNetwork EmptyString (wn_bssid n) 0 0 EmptyString false)).
Proof.
  intros [(Hb & Hbs & Hbp) _ _ _ _ _] Hi. unfold scan_line.
  assert (Ht : tight ("BSS " +:+ wn_bssid n +:+ "(on " +:+ iface +:+ ")")).
  { rewrite <- string_app_assoc, <- string_app_assoc, <- string_app_assoc.
    apply tight_prefix; [|done|by apply no_space_tight|done].
    rewrite !string_app_assoc. by destruct (wn_bssid n). }
  rewrite (trim_tight _ Ht). cbn [is_empty_str].
  assert (Hs : starts_with ("BSS " +:+ wn_bssid n +:+ "(on " +:+ iface +:+ ")") "BSS " = true)
    by (unfold starts_with; by rewrite strip_prefix_app).
  rewrite Hs. f_equal. f_equal. f_equal. unfold bss_id.
  assert (Hw : split_whitespace ("BSS " +:+ wn_bssid n +:+ "(on " +:+ iface +:+ ")") =
    ["BSS"%string; wn_bssid n +:+ "(on"; iface +:+ ")"]).
  { unfold split_whitespace.
    change ("BSS " +:+ wn_bssid n +:+ "(on " +:+ iface +:+ ")")
      with ("BSS" +:+ String " " (wn_bssid n +:+ "(on " +:+ iface +:+ ")")).
    rewrite split_ws_word by done. f_equal.
    replace (wn_bssid n +:+ "(on " +:+ iface +:+ ")")
      with ((wn_bssid n +:+ "(on") +:+ String " " (iface +:+ ")")) by (by rewrite string_app_assoc).
    rewrite split_ws_word; [|by rewrite no_space_app, Hbs|by destruct (wn_bssid n)].
    rewrite split_ws_last; [done|by rewrite no_space_app, Hi|by destruct iface]. }
  rewrite Hw. change (wn_bssid n +:+ "(on") with (wn_bssid n +:+ String "(" "on").
  rewrite split_on_app by done. by apply trim_tight, no_space_tight.
Qed.

Lemma scan_network nets cur iface n :
  good_network n -> no_space iface = true ->
  fold_left scan_line (print_network iface n) (nets, cur) =
    (nets ++ match cur with Some m => [m] | None => [] end, Some n).
Proof.
  intros Hg Hi. unfold print_network. rewrite fold_left_app. cbn [fold_left].
  rewrite (scan_bss_line nets cur iface n Hg Hi). destruct Hg as [Hb Hs Hsig Hf Hsec Hsel].
  set (nets' := nets ++ _).
  assert (Hsg : forall m, scan_field m ("signal: " +:+ pretty (wn_signal_dbm n) +:+ ".00 dBm") =
    mkNetwork (wn_ssid m) (wn_bssid m) (wn_signal_dbm n) (wn_freq_mhz m) (wn_security m) (wn_selected m)).
  { intros m. pose proof (read_dbm_print _ Hsig) as H. unfold read_dbm in H. unfold scan_field.
    replace (strip_prefix "SSID: " _) with (@None string) by done. rewrite strip_prefix_app.
    destruct (split_whitespace _) as [|v l]; [done|]. by injection H as ->. }
  rewrite scan_field_line; [|apply tight_prefix; [done|done| |] |done|done].
  2: { split; [|by rewrite trim_end_nonempty]. destruct (wn_signal_dbm n) as [|p|p]; [done|lia|done]. }
  2: { by destruct (pretty (wn_signal_dbm n)). }
  rewrite Hsg. cbn [wn_ssid wn_bssid wn_freq_mhz wn_security wn_selected].
  destruct (pretty_tight _ (proj1 Hf)) as [Hp1 Hp2].
  rewrite scan_field_line; [|apply tight_prefix; [done|done|by apply no_space_tight|done]|done|done].
  replace (scan_field _ ("freq: " +:+ pretty (wn_freq_mhz n)))
    with (mkNetwork EmptyString (wn_bssid n) (wn_signal_dbm n) (wn_freq_mhz n) EmptyString false).
  2: { unfold scan_field. replace (strip_prefix "SSID: " _) with (@None string) by done.
       replace (strip_prefix "signal: " _) with (@None string) by done. rewrite strip_prefix_app.
       unfold split_whitespace. rewrite split_ws_last by done. cbn [wn_ssid wn_bssid wn_signal_dbm wn_security wn_selected].
       change (EmptyString +:+ ?t) with t. unfold parse_u32. by rewrite parse_radix_pretty. }
  rewrite scan_field_line by (by destruct (String.eqb (wn_security n) "open")).
  replace (scan_field _ (if String.eqb (wn_security n) "open" then _ else _)%string)
    with (mkNetwork EmptyString (wn_bssid n) (wn_signal_dbm n) (wn_freq_mhz n) "open" false)
    by (by destruct (String.eqb (wn_security n) "open")).
  rewrite scan_field_line; [|apply tight_prefix; [done|done|apply Hs|apply Hs]|done|done].
  replace (scan_field _ ("SSID: " +:+ wn_ssid n))
    with (mkNetwork (wn_ssid n) (wn_bssid n) (wn_signal_dbm n) (wn_freq_mhz n) "open" false).
  2: { unfold scan_field. rewrite strip_prefix_app. by rewrite (trim_tight _ (proj1 (proj2 Hs))). }
  destruct n as [ssid bssid dbm freq sec sel]. cbn in Hsec, Hsel |- *. subst sel.
  destruct Hsec as [<-|[<-|[<-|[]]]]; reflexivity.
Qed.

(** Reading a scan: for any networks printed the way [iw] prints them, the parser
    returns exactly those networks, in order, with their names, levels, frequencies and
    security. *)
Theorem parse_scan_print iface ns :
  no_space iface = true -> Forall good_network ns ->
  parse_scan (unlines (flat_map (print_network iface) ns)) = ns.
Proof.
  intros Hi Hns. pose proof (no_space_no_newline _ Hi) as Hin.
  assert (Hl : Forall (fun l => no_char newline l = true) (flat_map (print_network iface) ns)).
  { apply List.Forall_forall. intros l (n & Hn & Hl)%in_flat_map.
    rewrite List.Forall_forall in Hns. pose proof (print_network_lines iface n Hin (Hns n Hn)) as H.
    rewrite List.Forall_forall in H. by apply H. }
  unfold parse_scan. rewrite lines_unlines by done.
  assert (H : forall nets cur, fold_left scan_line (flat_map (print_network iface) ns) (nets, cur) =
    match rev ns with
    | [] => (nets, cur)
    | n :: before => (nets ++ match cur with Some m => [m] | None => [] end ++ rev before, Some n)
    end).
  { clear Hl. induction Hns as [|n ns Hn _ IH]; intros nets cur; [done|].
    cbn [flat_map]. rewrite fold_left_app, (scan_network _ _ _ _ Hn Hi), IH. cbn [rev].
    destruct (rev ns) as [|m before] eqn:E; cbn [app rev]; [by rewrite app_nil_r|].
    f_equal. rewrite rev_app_distr. cbn [rev app]. by rewrite <- app_assoc. }
  rewrite H. destruct (rev ns) as [|n before] eqn:E; [|].
  { rewrite <- (rev_involutive ns), E. done. }
  cbn [app]. by rewrite <- (rev_involutive ns), E.
Qed.

(** ** Requests that report more than they did *)

(** Joining a protected network reports success whatever the supplicant did: once the
    configuration is written, only the interface name and the SSID decide the answer. *)
Lemma connect_ignores_supplicant {N} (host : tool_host N) i ssid pw identity mode n :
  valid_iface i = true -> ssid <> EmptyString -> (String.length ssid <= 64)%nat ->
  match pw with Some p => p <> EmptyString /\ (String.length p <= 256)%nat | None => True end ->
  mode <> "open"%string -> mode <> "owe"%string ->
  (forall d n, (h_create_dir_all host d n).2 = inr ()) -> (forall f t n, (h_write host f t n).2 = inr ()) ->
  (wifi_connect host i ssid pw identity (Some mode) n).2 =
    inr (mkWifiResult true ("connect initiated for " +:+ ssid +:+ " (mode " +:+ mode +:+ ")") []).
Proof.
  intros Hi Hs Hl Hp Hm1 Hm2 Hd Hw. unfold wifi_connect. rewrite Hi. cbn [negb].
  destruct ssid as [|c ssid]; [done|]. cbn [is_empty_str orb].
  rewrite (proj2 (Z.ltb_ge 64 _)) by lia. cbn [orb].
  assert (Hpw : match pw with Some pw => is_empty_str pw || (256 <? Z.of_nat (String.length pw)) | None => false end
    = false).
  { destruct pw as [[|d p]|]; [by destruct Hp| |done]. destruct Hp as [_ Hp]. cbn [is_empty_str orb].
    apply Z.ltb_ge. lia. }
  rewrite Hpw. cbn [connect_mode]. unfold mbind, cmd_bind. cbn.
  apply String.eqb_neq in Hm1, Hm2. rewrite Hm1, Hm2. cbn [orb]. unfold connect_wpa.
  destruct (h_create_dir_all host wpa_dir n) as [n1 r1] eqn:E1.
  pose proof (Hd wpa_dir n) as H1. rewrite E1 in H1. cbn in H1. subst r1.
  destruct (h_write host (wpa_path i) _ n1) as [n2 r2] eqn:E2.
  pose proof (Hw (wpa_path i) (wpa_config mode (String c ssid) pw identity) n1) as H2.
  rewrite E2 in H2. cbn in H2. by subst r2.
Qed.

(** Adding endpoints reports the last answer only: an address the kernel refused is not
    reported when a later one is accepted. *)
Lemma set_endpoints_last_wins {W} (mptcp_op : MptcpOp -> W -> W * (string + MptcpResult)) l a i r w m :
  (forall op w, op = MpAddEndpoint a (if is_empty_str i then None else Some i) -> (mptcp_op op w).2 = inr r) ->
  (manager_set_endpoints mptcp_op (l ++ [(a, i)]) w m).2 = r.
Proof.
  intros H. unfold manager_set_endpoints. generalize (mkMpResult true "endpoints converged" None [] []).
  enough (Ha : forall last, (add_endpoints mptcp_op (l ++ [(a, i)]) last w).2 = r).
  { intros last. specialize (Ha last). by destruct (add_endpoints _ _ _ _). }
  revert w. induction l as [|[b j] l IH]; intros w last; cbn [app add_endpoints].
  - pose proof (H _ w eq_refl) as Hr. destruct (mptcp_op _ w) as [w' [e|r']]; cbn in Hr; [done|].
    by injection Hr as ->.
  - destruct (mptcp_op _ w) as [w' [e|r']]; apply IH.
Qed.

(** A device the kernel gives no link kind, as it does for wireless cards, is never listed
    as a Wi-Fi interface. *)
Lemma kindless_not_detected l i :
  NoDup (map if_name l) -> In i l -> if_kind i = None -> if_if_type i = None ->
  ~ In (if_name i) (detect_wifi_interfaces l).
Proof.
  intros Hnd Hi Hk Ht (j & Hn & [Hj Hm]%filter_In)%in_map_iff.
  assert (j = i) as ->; [|by rewrite Ht, Hk in Hm].
  clear Hm Hk Ht. induction l as [|x l IH]; [done|]. cbn [map] in Hnd. apply NoDup_cons in Hnd as [Hx Hnd].
  destruct Hi as [->|Hi], Hj as [->|Hj]; [done| | |by apply IH].
  - destruct Hx. rewrite <- Hn. apply list_elem_of_In. by apply in_map.
  - destruct Hx. rewrite Hn. apply list_elem_of_In. by apply in_map.
Qed.

Module Demo.

Definition cafe : WifiNetwork := mkNetwork "cafe guest" "aa:bb:cc:dd:ee:ff" (-61) 2437 "open" false.
Definition indoor : WifiNetwork := mkNetwork "indoor" "11:22:33:44:55:66" (-38) 5180 "wpa2/wpa3" false.
Definition attic : WifiNetwork := mkNetwork "attic" "66:55:44:33:22:11" (-90) 2412 "wpa" false.

Lemma demo_networks : Forall good_network [cafe; indoor; attic].
Proof. repeat constructor; try done; cbn; try lia; tauto. Qed.

Lemma parse_scan_print_witness :
  parse_scan (unlines (flat_map (print_network "wlan0") [cafe; indoor; attic])) = [cafe; indoor; attic].
Proof. exact (parse_scan_print "wlan0" _ eq_refl demo_networks). Defined.

(** A refused connection to an open network names its key in the error. *)
Definition refusing : tool_host () :=
  mkHost () (fun _ _ _ n => (n, inr (mkOutput false EmptyString "denied"))) (fun _ n => (n, inr ()))
    (fun _ _ n => (n, inr ())) (fun _ _ n => (n, inr ())) (fun _ n => (n, inr ())) (fun _ _ => None) (fun _ _ => false).

Lemma failed_connect_shows_key :
  match (wifi_connect refusing "wlan0" "cafe" (Some "hunter2") None (Some "open") ()).2 with
  | inl (Fatal text) => contains text "hunter2" = true
  | _ => False
  end.
Proof. vm_compute. reflexivity. Qed.

(** The configuration of a network whose name holds a quote names another network to a
    reader that takes quoted values literally. *)
Lemma quoted_name_changes : escape_ssid (String dquote "x") <> String dquote "x".
Proof. done. Qed.
End Demo.
