(* ===== verification/Discovery.v ===== *)
(** * Strategy discovery (balansir-daemon: b4_discovery.rs)

    The search for a bypass strategy per domain: a fixed ladder of strategy sets, one probe
    per pass, a selection that stays fresh for a day, and the manager that writes the
    selected sets into the packet engine.  The connectivity probe is a parameter of the
    search; the probe the daemon uses is modelled down to the TCP connection attempt.

    The theorems bound the number of probes, tell what a selection rests on, and follow the
    selected sets into the interception loop of [B4Engine]. *)

From stdpp Require Import pretty gmap.
From S2P Require Import Prelude F64 Types IpText Packet Tls Reassembly B4Set Strategies Geosite B4Engine XrayRecovery.
#[local] Open Scope Z_scope.

(** ** Data *)

Record DiscoveryConfig := mkDiscoveryConfig {
  strategy_ttl_secs : Z;
  max_candidates_per_domain : Z;
  trial_window_secs : Z;
  max_concurrent_trials : Z;
  better_threshold_pct : f64;
}.

Definition DiscoveryConfig_default : DiscoveryConfig :=
  mkDiscoveryConfig (24 * 3600) 5 45 4 (f64_of 20).

Record CandidateState := mkCandidate {
  cs_name : string;
  cs_status : string;
  cs_quality : f64;
  cs_rejected_reason : option string;
  cs_trial_ends_ms : Z;
}.

Record DomainDiscoveryState := mkDomain {
  ds_domain : string;
  ds_active : option string;
  ds_candidates : list CandidateState;
  ds_selected_ms : Z;
  ds_validated_ms : Z;
  ds_observed_blocked : bool;
  ds_last_event : option string;
}.

Record B4Discovery := mkDiscovery {
  bd_config : DiscoveryConfig;
  bd_store : gmap string DomainDiscoveryState;
  bd_candidate_sets : list B4Set;
  bd_active_trials : Z;
}.

(** ** The ladder *)

(** [B4Set::default] *)
Definition TcpPlane_default : TcpPlane :=
  mkTcpPlane 0 0 0 false 0 0 false (mkIncoming EmptyString 0 0 0 0 EmptyString)
    (mkDesync EmptyString 0 0 false) (mkWin EmptyString []) (mkDuplicate false 0).
Definition UdpPlane_default : UdpPlane :=
  mkUdpPlane EmptyString 0 0 EmptyString EmptyString EmptyString false 0 0 0.
Definition Combo_default : ComboPlane := mkCombo false false EmptyString 0 0 false [].
Definition Fragmentation_default : FragmentationPlane :=
  mkFragmentation EmptyString false 0 false 0 0 0 [] Combo_default (mkDisorder EmptyString 0 0).
Definition Faking_default : FakingPlane :=
  mkFaking false 0 EmptyString 0 0 0 EmptyString EmptyString [] 0
    (mkSniMutation EmptyString 0 0 0 []) false.
Definition no_targets : Targets := mkTargets [] [] [] [].

(** The sets of the ladder differ in name, UDP plane, fragmentation and faking; they share
    the TCP plane with the SYN time-to-live and name no target. *)
Definition ladder_set (name : string) (udp : UdpPlane) (frag : FragmentationPlane) (faking : FakingPlane) : B4Set :=
  mkB4Set None name
    (mkTcpPlane 0 0 0 false 0 7 false (mkIncoming EmptyString 0 0 0 0 EmptyString)
       (mkDesync EmptyString 0 0 false) (mkWin EmptyString []) (mkDuplicate false 0))
    udp frag faking no_targets true (mkDnsPlane false EmptyString false).

Definition combo_frag (middle : bool) (combo : ComboPlane) : FragmentationPlane :=
  mkFragmentation "combo" false 0 middle 0 0 0 [] combo (mkDisorder EmptyString 0 0).
Definition pastseq_faking : FakingPlane :=
  mkFaking true 0 "pastseq" 10000 0 0 EmptyString EmptyString [] 0 (mkSniMutation EmptyString 0 0 0 []) false.

Definition build_candidate_sets : list B4Set :=
  let split first mode := mkCombo first true mode 0 0 false [] in
  [ladder_set "mss" UdpPlane_default (combo_frag false (split false EmptyString)) Faking_default;
   ladder_set "pastseq" UdpPlane_default (combo_frag false (split true EmptyString)) pastseq_faking;
   ladder_set "combo" UdpPlane_default (combo_frag true (split true "full"%string)) pastseq_faking;
   ladder_set "combo+quic"
     (mkUdpPlane "fake" 0 64 EmptyString EmptyString "parse" false 0 0 0)
     (combo_frag true (split true "full"%string)) pastseq_faking]%string.

Definition with_probe : B4Discovery := mkDiscovery DiscoveryConfig_default ∅ build_candidate_sets 0.

(** ** Texts *)

(** [{:.2}]: two decimals, ties to even. *)
Definition round_half_even (a b : Z) : Z :=
  let q := a / b in
  let r := a mod b in
  if 2 * r <? b then q else if b <? 2 * r then q + 1 else if Z.even q then q else q + 1.

Definition two_decimals (neg : bool) (cents : Z) : string :=
  (if neg then "-" else EmptyString) +:+ pretty (cents / 100) +:+ "." +:+
  (if cents mod 100 <? 10 then "0" else EmptyString) +:+ pretty (cents mod 100).

Definition fixed2 (x : f64) : string :=
  match x with
  | SpecFloat.S754_nan => "NaN"
  | SpecFloat.S754_infinity s => if s then "-inf" else "inf"
  | SpecFloat.S754_zero s => two_decimals s 0
  | SpecFloat.S754_finite s m e =>
      two_decimals s (if 0 <=? e then Z.pos m * 100 * 2 ^ e else round_half_even (Z.pos m * 100) (2 ^ (- e)))
  end.

(** ** The search *)

Definition set_store (d : B4Discovery) (domain : string) (s : DomainDiscoveryState) : B4Discovery :=
  mkDiscovery (bd_config d) (<[domain := s]> (bd_store d)) (bd_candidate_sets d) (bd_active_trials d).

Definition untried (s : B4Set) : CandidateState := mkCandidate (set_name s) "untried" f0 None 0.

Definition observe_blocked (d : B4Discovery) (domain : string) (now_ms : Z) : B4Discovery :=
  let state := default (mkDomain domain None (map untried (bd_candidate_sets d)) 0 0 true None)
                 (bd_store d !! domain) in
  set_store d domain
    (if negb (ds_observed_blocked state) then
       mkDomain (ds_domain state) (ds_active state) (ds_candidates state) (ds_selected_ms state)
         (ds_validated_ms state) true (Some "observed blocked → starting discovery"%string)
     else state).

Definition ttl_ms (c : DiscoveryConfig) : Z := i64 (u64 (strategy_ttl_secs c * 1000)).

Definition is_fresh (c : DiscoveryConfig) (s : DomainDiscoveryState) (now_ms : Z) : bool :=
  sat64_sub now_ms (ds_validated_ms s) <? ttl_ms c.

Definition has_status (status : string) (c : CandidateState) : bool := String.eqb (cs_status c) status.

Definition lapsed (c : DiscoveryConfig) (now_ms : Z) (k : CandidateState) : bool :=
  has_status "measured" k && (ttl_ms c <? sat64_sub now_ms (cs_trial_ends_ms k)).

(** [iter().position(..)] *)
Fixpoint position {A} (f : A -> bool) (l : list A) : option nat :=
  match l with
  | [] => None
  | x :: l => if f x then Some O else S <$> position f l
  end.

Definition next_candidate (c : DiscoveryConfig) (s : DomainDiscoveryState) (now_ms : Z) : option nat :=
  match position (has_status "untried") (ds_candidates s) with
  | Some i => Some i
  | None => position (lapsed c now_ms) (ds_candidates s)
  end.

Definition tried (s : DomainDiscoveryState) : Z :=
  len (List.filter (has_status "measured") (ds_candidates s)).

(** The quality a candidate has to exceed to replace the active one. *)
Definition threshold (c : DiscoveryConfig) (cur_q : f64) : f64 :=
  fmul cur_q (fadd f1 (fdiv (better_threshold_pct c) (f64_of 100))).

Definition should_select (c : DiscoveryConfig) (s : DomainDiscoveryState) (quality : f64) : bool :=
  match ds_active s with
  | None => true
  | Some cur =>
      let cur_q := match List.find (fun k => String.eqb (cs_name k) cur) (ds_candidates s) with
                   | Some k => cs_quality k | None => f0 end in
      flt (threshold c cur_q) quality
  end.

(** What a probe result does to the state of the domain: the new state and the answer. *)
Definition conclude (c : DiscoveryConfig) (s : DomainDiscoveryState) (i : nat) (k : CandidateState)
    (quality : f64) (now_ms : Z) : DomainDiscoveryState * option string :=
  let name := cs_name k in
  let ends := i64 (now_ms + i64 (i64 (trial_window_secs c) * 1000)) in
  let measured reason := mkCandidate name "measured" quality reason ends in
  let put reason := <[i := measured reason]> (ds_candidates s) in
  let event cands t := mkDomain (ds_domain s) (ds_active s) cands (ds_selected_ms s) (ds_validated_ms s)
                         (ds_observed_blocked s) (Some t) in
  if flt quality (f64_lit 1 2) then
    (event (put (Some "connectivity probe failed"%string))
       ("candidate " +:+ name +:+ " rejected (quality " +:+ fixed2 quality +:+ ")"), ds_active s)
  else
    let cands := put (cs_rejected_reason k) in
    let s' := mkDomain (ds_domain s) (ds_active s) cands (ds_selected_ms s) (ds_validated_ms s)
                (ds_observed_blocked s) (ds_last_event s) in
    if should_select c s' quality then
      (mkDomain (ds_domain s) (Some name) cands now_ms now_ms false
         (Some ("selected " +:+ name +:+ " (quality " +:+ fixed2 quality +:+ ")")), Some name)
    else
      (event cands ("candidate " +:+ name +:+ " measured " +:+ fixed2 quality +:+ ", below threshold"),
       ds_active s).

Section Search.
Context {W : Type} (probe : string -> W -> W * f64).

(** The pass once no fresh strategy is known. *)
Definition trial (d : B4Discovery) (domain : string) (s : DomainDiscoveryState) (now_ms : Z) (w : W) :
    W * B4Discovery * option string :=
  let c := bd_config d in
  if max_candidates_per_domain c <=? tried s then (w, d, ds_active s)
  else
    match next_candidate c s now_ms with
    | None => (w, d, None)
    | Some i =>
        if max_concurrent_trials c <=? bd_active_trials d then (w, d, ds_active s)
        else
          match ds_candidates s !! i with
          | None => (w, d, None)
          | Some k =>
              let '(w, quality) := probe domain w in
              let '(s, answer) := conclude c s i k quality now_ms in
              (w, set_store d domain s, answer)
          end
    end.

Definition discover (d : B4Discovery) (domain : string) (now_ms : Z) (w : W) :
    W * B4Discovery * option string :=
  let d := match bd_store d !! domain with Some _ => d | None => observe_blocked d domain now_ms end in
  match bd_store d !! domain with
  | None => (w, d, None)
  | Some s =>
      match ds_active s with
      | Some active => if is_fresh (bd_config d) s now_ms then (w, d, Some active) else trial d domain s now_ms w
      | None => trial d domain s now_ms w
      end
  end.
End Search.

Definition active_for (d : B4Discovery) (domain : string) : option string :=
  s ← bd_store d !! domain; ds_active s.

(** ** The manager *)

Record DiscoveryManager := mkDiscoveryManager {
  dv_inner : B4Discovery;
  dv_engine : option (list B4Set);
  dv_enabled : bool;
}.

(** The set list of the attached engine is the component [dv_engine]. *)
Definition DiscoveryManager_new (engine : option (list B4Set)) : DiscoveryManager :=
  mkDiscoveryManager with_probe engine true.

(** [active_names.contains(&s.name)] *)
Definition is_active (d : B4Discovery) (name : string) : bool :=
  existsb (fun p => bool_decide (ds_active p.2 = Some name)) (map_to_list (bd_store d)).

Definition merged (d : B4Discovery) : list B4Set :=
  List.filter (fun s => is_active d (set_name s)) (bd_candidate_sets d).

Definition on_blocked {W} (probe : string -> W -> W * f64) (domain : string) (now_ms : Z)
    (m : DiscoveryManager) (w : W) : W * DiscoveryManager * option string :=
  if negb (dv_enabled m) then (w, m, None)
  else
    let inner := observe_blocked (dv_inner m) domain now_ms in
    let '(w, inner, selected) := discover probe inner domain now_ms w in
    (w, mkDiscoveryManager inner (match dv_engine m with Some _ => Some (merged inner) | None => None end)
          (dv_enabled m), selected).

(** [state], sorted by domain *)
Definition domain_states (d : B4Discovery) : list DomainDiscoveryState :=
  sort_by (fun a b => String.compare (ds_domain a) (ds_domain b)) (map snd (map_to_list (bd_store d))).

(** ** The probe *)

(** [str::parse::<SocketAddr>], the address part *)
Definition read_port (s : string) : bool :=
  match read_number 10 (Z.of_nat (String.length s)) 65535 true s with
  | Some (_, EmptyString) => true
  | _ => false
  end.

Definition read_scope (s : string) : string :=
  match s with
  | String "%" r => match read_number 10 (Z.of_nat (String.length r)) u32_max true r with
                    | Some (_, r) => r | None => s end
  | _ => s
  end.

Definition parse_socket_ip (s : string) : option IpAddr :=
  match read_ipv4 s with
  | Some (a, String ":" port) => if read_port port then Some (V4 a) else None
  | _ =>
      match s with
      | String "[" r =>
          match read_ipv6 r with
          | Some (a, r) =>
              match read_scope r with
              | String "]" (String ":" port) => if read_port port then Some (V6 a) else None
              | _ => None
              end
          | None => None
          end
      | _ => None
      end
  end.

(** The address [TcpTlsProbe::probe] connects to. *)
Definition probe_target (host : string) : IpAddr :=
  match parse_socket_ip host with
  | Some ip => ip
  | None => default (V4 0) (parse_ip host)
  end.

Definition TcpTlsProbe_probe {W} (connect_timeout : IpAddr -> Z -> W -> W * bool) (port : Z)
    (host : string) (w : W) : W * f64 :=
  let '(w, ok) := connect_timeout (probe_target host) port w in
  (w, if ok then f1 else f0).

(** ** Runs *)

(** A probe that logs what it measured. *)
Definition counting {W} (probe : string -> W -> W * f64) (host : string) (s : W * list (string * f64)) :
    W * list (string * f64) * f64 :=
  let '(w, q) := probe host s.1 in (w, s.2 ++ [(host, q)], q).

Fixpoint notify_all {W} (probe : string -> W -> W * f64) (calls : list (string * Z)) (m : DiscoveryManager) (w : W) :
    W * DiscoveryManager :=
  match calls with
  | [] => (w, m)
  | (domain, now_ms) :: calls =>
      let '(w, m, _) := on_blocked probe domain now_ms m w in notify_all probe calls m w
  end.

Definition ladder_names : list string := map set_name build_candidate_sets.

(** The probes of a domain in a log. *)
Definition probes_of (domain : string) (log : list (string * f64)) : list f64 :=
  map snd (List.filter (fun p => String.eqb p.1 domain) log).

Definition time_ok (now_ms : Z) : Prop := 0 <= now_ms <= 2 ^ 62.

(** ** Invariant *)

Record candidate_wf (k : CandidateState) : Prop := {
  cw_status : cs_status k = "untried"%string /\ cs_trial_ends_ms k = 0 \/ cs_status k = "measured"%string;
  cw_ends : 0 <= cs_trial_ends_ms k <= 2 ^ 62 + 45000;
}.

Record domain_wf (log : list (string * f64)) (domain : string) (s : DomainDiscoveryState) : Prop := {
  dw_names : map cs_name (ds_candidates s) = ladder_names;
  dw_candidates : Forall candidate_wf (ds_candidates s);
  dw_active : forall name, ds_active s = Some name ->
    In name ladder_names /\ exists q, In (domain, q) log /\ flt q (f64_lit 1 2) = false;
}.

Record discovery_wf (log : list (string * f64)) (d : B4Discovery) : Prop := {
  vw_config : bd_config d = DiscoveryConfig_default;
  vw_sets : bd_candidate_sets d = build_candidate_sets;
  vw_trials : bd_active_trials d = 0;
  vw_store : map_Forall (domain_wf log) (bd_store d);
}.

Lemma position_some {A} (f : A -> bool) l i :
  position f l = Some i -> exists x, l !! i = Some x /\ f x = true.
Proof.
  revert i. induction l as [|y l IH]; intros i; cbn [position]; [done|]. destruct (f y) eqn:E.
  - intros [= <-]. by exists y.
  - destruct (position f l) as [j|] eqn:Ej; [|done]. intros [= <-]. by apply IH.
Qed.

Lemma ttl_ms_default : ttl_ms DiscoveryConfig_default = 86400000.
Proof. reflexivity. Qed.

Lemma domain_wf_log log log' domain s : domain_wf log domain s -> domain_wf (log ++ log') domain s.
Proof.
  intros [H1 H2 H3]. split; [done|done|]. intros name Hn. destruct (H3 name Hn) as (Hin & q & Hq & Hf).
  split; [done|]. exists q. split; [apply in_app_iff; by left|done].
Qed.

Lemma discovery_wf_log log log' d : discovery_wf log d -> discovery_wf (log ++ log') d.
Proof.
  intros [H1 H2 H3 H4]. split; [done|done|done|]. intros k s Hs. by apply domain_wf_log, H4.
Qed.

Lemma observe_wf log d domain now_ms :
  discovery_wf log d -> discovery_wf log (observe_blocked d domain now_ms).
Proof.
  intros [H1 H2 H3 H4]. split; [done|done|done|]. unfold observe_blocked. cbn.
  apply map_Forall_insert_2; [|done].
  assert (Hs : domain_wf log domain
    (default (mkDomain domain None (map untried (bd_candidate_sets d)) 0 0 true None) (bd_store d !! domain))).
  { destruct (bd_store d !! domain) as [s|] eqn:E; [by apply H4|]. rewrite H2. split; [done| |done].
    cbn [ds_candidates default]. apply List.Forall_forall. intros k (x & <- & _)%in_map_iff.
    split; cbn; [by left|lia]. }
  destruct Hs as [Hn Hc Ha]. by destruct (negb _).
Qed.

(** Candidates whose trial ended in the window that starts at [t0]. *)
Definition recent (t0 : Z) (l : list CandidateState) : Z :=
  len (List.filter (fun k => t0 + 45000 <=? cs_trial_ends_ms k) l).

Definition recent_of (t0 : Z) (d : B4Discovery) (domain : string) : Z :=
  match bd_store d !! domain with Some s => recent t0 (ds_candidates s) | None => 0 end.

Lemma recent_insert t0 l i k k' :
  l !! i = Some k -> cs_trial_ends_ms k < t0 + 45000 -> t0 + 45000 <= cs_trial_ends_ms k' ->
  recent t0 (<[i := k']> l) = recent t0 l + 1.
Proof.
  intros Hi Hk Hk'. revert i Hi. unfold recent. induction l as [|x l IH]; intros i Hi; [done|].
  destruct i as [|i]; cbn in Hi.
  - injection Hi as ->. cbn. rewrite (proj2 (Z.leb_gt _ (cs_trial_ends_ms k))) by lia.
    rewrite (proj2 (Z.leb_le _ (cs_trial_ends_ms k'))) by lia.
    rewrite len_cons. lia.
  - specialize (IH i Hi). change (<[S i := k']> (x :: l)) with (x :: <[i := k']> l). cbn [List.filter].
    destruct (_ <=? cs_trial_ends_ms x); rewrite ?len_cons; lia.
Qed.

Lemma conclude_spec s i k q now_ms s' answer :
  time_ok now_ms -> conclude DiscoveryConfig_default s i k q now_ms = (s', answer) ->
  (exists reason, ds_candidates s' =
     <[i := mkCandidate (cs_name k) "measured" q reason (now_ms + 45000)]> (ds_candidates s)) /\
  answer = ds_active s' /\
  (ds_active s' = ds_active s \/ ds_active s' = Some (cs_name k) /\ flt q (f64_lit 1 2) = false).
Proof.
  intros Hn. unfold time_ok in Hn. unfold conclude.
  assert (He : i64 (now_ms + i64 (i64 (trial_window_secs DiscoveryConfig_default) * 1000)) = now_ms + 45000).
  { change (i64 (i64 (trial_window_secs DiscoveryConfig_default) * 1000)) with 45000.
    change (2 ^ 62) with 4611686018427387904 in Hn.
    unfold i64. rewrite wrap_small by (change (2 ^ 64) with 18446744073709551616; lia).
    rewrite (proj2 (Z.ltb_lt _ _)); [done|]. change (2 ^ 63) with 9223372036854775808. lia. }
  rewrite He. destruct (flt q (f64_lit 1 2)) eqn:Eq.
  - intros [= <- <-]. cbn. split; [by eexists|]. split; [done|by left].
  - destruct (should_select _ _ _); intros [= <- <-]; cbn; (split; [by eexists|]); (split; [done|]);
      [by right|by left].
Qed.

Section Steps.
Context {W : Type} (probe : string -> W -> W * f64).

(** What a pass did: nothing but a read, or one probe of the domain. *)
Lemma trial_spec log d domain s now_ms w w' log' d' answer :
  discovery_wf log d -> bd_store d !! domain = Some s -> time_ok now_ms ->
  trial (counting probe) d domain s now_ms (w, log) = (w', log', d', answer) ->
  exists new, log' = log ++ new /\ discovery_wf log' d' /\
    (answer = active_for d' domain \/ answer = None) /\
    (d' = d /\ new = [] \/
     exists q, new = [(domain, q)] /\ (forall other, other <> domain -> bd_store d' !! other = bd_store d !! other) /\
       forall t0, t0 <= now_ms <= t0 + 86445000 -> 0 <= t0 -> recent_of t0 d' domain = recent_of t0 d domain + 1).
Proof.
  intros Hwf Hs Hn. pose proof Hwf as [Hc Hset Htr Hst]. unfold trial. rewrite Hc.
  assert (Hstay : forall a, (a = ds_active s \/ a = None) -> exists new, log = log ++ new /\ discovery_wf log d /\
    (a = active_for d domain \/ a = None) /\ (d = d /\ new = [] \/ exists q, new = [(domain, q)] /\
      (forall other, other <> domain -> bd_store d !! other = bd_store d !! other) /\
      forall t0, t0 <= now_ms <= t0 + 86445000 -> 0 <= t0 -> recent_of t0 d domain = recent_of t0 d domain + 1)).
  { intros a Ha. exists []. rewrite app_nil_r. split; [done|]. split; [done|]. split; [|by left].
    unfold active_for. rewrite Hs. exact Ha. }
  destruct (_ <=? tried s); [intros [= <- <- <- <-]; apply Hstay; by left|].
  destruct (next_candidate _ s now_ms) as [i|] eqn:Ei; [|intros [= <- <- <- <-]; apply Hstay; by right].
  destruct (_ <=? bd_active_trials d); [intros [= <- <- <- <-]; apply Hstay; by left|].
  destruct (ds_candidates s !! i) as [k|] eqn:Ek; [|intros [= <- <- <- <-]; apply Hstay; by right].
  unfold counting at 1. cbn [fst snd]. destruct (probe domain w) as [w1 q].
  destruct (conclude _ s i k q now_ms) as [s' a] eqn:Econ. intros [= <- <- <- <-].
  destruct (conclude_spec _ _ _ _ _ _ _ Hn Econ) as ((reason & Hcand) & -> & Hact).
  pose proof (Hst domain s Hs) as [Hnm Hcw Haw].
  assert (Hkin : In (cs_name k) ladder_names).
  { rewrite <- Hnm. apply in_map, list_elem_of_In. by apply list_elem_of_lookup_2 in Ek. }
  exists [(domain, q)]. split; [done|]. split; [|split].
  - split; [done|done|done|]. cbn. apply map_Forall_insert_2.
    + split.
      * rewrite Hcand, list_fmap_insert. etransitivity; [|exact Hnm]. apply list_insert_id.
        by rewrite list_lookup_fmap, Ek.
      * rewrite Hcand. apply Forall_insert; [done|]. split; cbn; [by right|]. unfold time_ok in Hn. lia.
      * intros name Hname. destruct Hact as [E|[E Eq]]; rewrite E in Hname.
        -- destruct (Haw name Hname) as (Hin & q' & Hq' & Hf). split; [done|]. exists q'.
           split; [apply in_app_iff; by left|done].
        -- injection Hname as <-. split; [done|]. exists q. split; [apply in_app_iff; right; by left|done].
    + intros o so Ho. apply domain_wf_log. by apply Hst.
  - left. unfold active_for. cbn. by rewrite lookup_insert_eq.
  - right. exists q. split; [done|]. split; [intros o Ho; cbn; by rewrite lookup_insert_ne|].
    intros t0 Ht H0. unfold recent_of. cbn. rewrite lookup_insert_eq, Hs, Hcand.
    apply recent_insert with k; [done| |cbn; lia].
    rewrite List.Forall_forall in Hcw.
    assert (Hk : candidate_wf k) by (apply Hcw, list_elem_of_In; by apply list_elem_of_lookup_2 in Ek).
    unfold next_candidate in Ei.
    destruct (position (has_status "untried") (ds_candidates s)) as [j|] eqn:Ej.
    + injection Ei as <-. apply position_some in Ej as (x & Hx & Hxs). rewrite Ek in Hx. injection Hx as <-.
      apply String.eqb_eq in Hxs. destruct Hk as [[[_ Hz]|Hm] _]; [lia|congruence].
    + apply position_some in Ei as (x & Hx & Hxs). rewrite Ek in Hx. injection Hx as <-.
      apply andb_true_iff in Hxs as [_ Hl%Z.ltb_lt]. rewrite ttl_ms_default in Hl.
      unfold sat64_sub, i64_min, i64_max in Hl. lia.
Qed.
Lemma observe_recent log d domain now_ms t0 other :
  discovery_wf log d -> 0 <= t0 ->
  recent_of t0 (observe_blocked d domain now_ms) other = recent_of t0 d other.
Proof.
  intros [_ Hset _ _] H0. unfold recent_of, observe_blocked. cbn. destruct (decide (other = domain)) as [->|Hne].
  - rewrite lookup_insert_eq. destruct (bd_store d !! domain) as [s|]; cbn [default].
    + by destruct (negb _).
    + rewrite Hset. unfold recent. cbn -[Z.add Z.leb]. by rewrite !(proj2 (Z.leb_gt _ 0)) by lia.
  - by rewrite lookup_insert_ne.
Qed.

Lemma discover_spec log d domain now_ms w w' log' d' answer :
  discovery_wf log d -> time_ok now_ms ->
  discover (counting probe) d domain now_ms (w, log) = (w', log', d', answer) ->
  exists new, log' = log ++ new /\ discovery_wf log' d' /\
    (answer = active_for d' domain \/ answer = None) /\
    forall t0 other, t0 <= now_ms <= t0 + 86445000 -> 0 <= t0 ->
      recent_of t0 d' other = recent_of t0 d other + len (probes_of other new).
Proof.
  intros Hwf Hn. unfold discover.
  set (d0 := match bd_store d !! domain with Some _ => d | None => observe_blocked d domain now_ms end).
  assert (H0 : discovery_wf log d0 /\ forall t0 other, 0 <= t0 -> recent_of t0 d0 other = recent_of t0 d other).
  { unfold d0. destruct (bd_store d !! domain); [done|]. split; [by apply observe_wf|].
    intros t0 other Ht. by apply observe_recent with log. }
  destruct H0 as [Hwf0 Hr0]. destruct (bd_store d0 !! domain) as [s|] eqn:Es.
  - destruct (ds_active s) as [a|] eqn:Ea; [destruct (is_fresh _ s now_ms)|].
    1: { intros [= <- <- <- <-]. exists []. rewrite app_nil_r. split; [done|]. split; [done|]. split.
         - left. unfold active_for. by rewrite Es.
         - intros t0 other Ht Hp. rewrite Hr0 by done. change (len (probes_of other [])) with 0. lia. }
    all: intros Ht; destruct (trial_spec _ _ _ _ _ _ _ _ _ _ Hwf0 Es Hn Ht) as (new & -> & Hwf' & Hans & Hnew);
      exists new; (split; [done|]); (split; [done|]); (split; [done|]); intros t0 other Hw Hp;
      destruct Hnew as [[-> ->]|(q & -> & Hoth & Hrec)];
      [rewrite Hr0 by done; change (len (probes_of other [])) with 0; lia|]; rewrite <- Hr0 by done; unfold probes_of; cbn [List.filter fst];
      destruct (String.eqb_spec domain other) as [<-|Hne]; cbn [map];
      [by rewrite Hrec|unfold recent_of; rewrite Hoth by congruence; unfold len; cbn [length]; lia].
  - intros [= <- <- <- <-]. exists []. rewrite app_nil_r. split; [done|]. split; [done|]. split; [by right|].
    intros t0 other Ht Hp. rewrite Hr0 by done. change (len (probes_of other [])) with 0. lia.
Qed.

Lemma on_blocked_spec log m domain now_ms w w' log' m' answer :
  discovery_wf log (dv_inner m) -> dv_enabled m = true -> time_ok now_ms ->
  on_blocked (counting probe) domain now_ms m (w, log) = (w', log', m', answer) ->
  exists new, log' = log ++ new /\ discovery_wf log' (dv_inner m') /\ dv_enabled m' = true /\
    dv_engine m' = (match dv_engine m with Some _ => Some (merged (dv_inner m')) | None => None end) /\
    (answer = active_for (dv_inner m') domain \/ answer = None) /\
    forall t0 other, t0 <= now_ms <= t0 + 86445000 -> 0 <= t0 ->
      recent_of t0 (dv_inner m') other = recent_of t0 (dv_inner m) other + len (probes_of other new).
Proof.
  intros Hwf He Hn. unfold on_blocked. rewrite He. cbn [negb].
  destruct (discover _ _ _ _ _) as [[[w1 l1] d1] a] eqn:Ed. intros [= <- <- <- <-].
  pose proof (observe_wf log _ domain now_ms Hwf) as Hwf1.
  destruct (discover_spec _ _ _ _ _ _ _ _ _ Hwf1 Hn Ed) as (new & -> & Hwf' & Ha & Hr).
  exists new. split; [done|]. split; [done|]. split; [done|]. split; [done|]. split; [done|].
  intros t0 other Ht Hp. cbn [dv_inner]. rewrite Hr by done.
  by rewrite (observe_recent log) by done.
Qed.

Lemma notify_all_spec calls log m w w' log' m' :
  discovery_wf log (dv_inner m) -> dv_enabled m = true -> Forall (fun c => time_ok c.2) calls ->
  notify_all (counting probe) calls m (w, log) = (w', log', m') ->
  exists new, log' = log ++ new /\ discovery_wf log' (dv_inner m') /\ dv_enabled m' = true /\
    (calls <> [] -> dv_engine m' = match dv_engine m with Some _ => Some (merged (dv_inner m')) | None => None end) /\
    forall t0 other, Forall (fun c => t0 <= c.2 <= t0 + 86445000) calls -> 0 <= t0 ->
      recent_of t0 (dv_inner m') other = recent_of t0 (dv_inner m) other + len (probes_of other new).
Proof.
  revert log m w. induction calls as [|[domain now_ms] calls IH]; intros log m w Hwf He Hc; cbn [notify_all].
  - intros [= <- <- <-]. exists []. rewrite app_nil_r. split; [done|]. split; [done|]. split; [done|].
    split; [done|]. intros t0 other _ _. change (len (probes_of other [])) with 0. lia.
  - inversion_clear Hc as [|? ? Hn Hcs]. cbn in Hn.
    destruct (on_blocked _ _ _ _ _) as [[[w1 l1] m1] a] eqn:Eb.
    destruct (on_blocked_spec _ _ _ _ _ _ _ _ _ Hwf He Hn Eb) as (new1 & -> & Hwf1 & He1 & Hg1 & _ & Hr1).
    intros Ha. destruct (IH _ _ _ Hwf1 He1 Hcs Ha) as (new2 & -> & Hwf2 & He2 & Hg2 & Hr2).
    exists (new1 ++ new2). split; [by rewrite app_assoc|]. split; [done|]. split; [done|]. split.
    + intros _. destruct calls as [|c calls].
      * cbn in Ha. injection Ha as _ _ <-. done.
      * rewrite Hg2 by done. rewrite Hg1. by destruct (dv_engine m).
    + intros t0 other Ht Hp. inversion_clear Ht as [|? ? Ht1 Ht2]. rewrite Hr2, Hr1 by done.
      unfold probes_of. rewrite List.filter_app, map_app, len_app. lia.
Qed.

Lemma new_wf engine : discovery_wf [] (dv_inner (DiscoveryManager_new engine)).
Proof. split; [done|done|done|]. apply map_Forall_empty. Qed.
End Steps.

Lemma recent_bound t0 log d domain : discovery_wf log d -> recent_of t0 d domain <= 4.
Proof.
  intros [_ _ _ Hst]. unfold recent_of. destruct (bd_store d !! domain) as [s|] eqn:E; [|lia].
  pose proof (Hst _ _ E) as [Hn _ _]. apply (f_equal length) in Hn. rewrite length_map in Hn.
  unfold recent, len. pose proof (List.filter_length_le (fun k => t0 + 45000 <=? cs_trial_ends_ms k) (ds_candidates s)).
  rewrite Hn in H. cbn in H. lia.
Qed.

Lemma recent_nonneg t0 d domain : 0 <= recent_of t0 d domain.
Proof. unfold recent_of. destruct (_ !! _); [unfold recent, len|]; lia. Qed.

(** C30.  The search is bounded: whatever the probe answers and however often domains are
    reported, within any span of a day and the trial window a domain is probed at most once
    per candidate of the ladder. *)
Theorem probes_bounded {W} (probe : string -> W -> W * f64) engine past calls (w : W) t0 domain :
  Forall (fun c => time_ok c.2) (past ++ calls) -> 0 <= t0 ->
  Forall (fun c => t0 <= c.2 <= t0 + 86445000) calls ->
  let '(s, m) := notify_all (counting probe) past (DiscoveryManager_new engine) (w, []) in
  let '(s', _) := notify_all (counting probe) calls m s in
  exists new, s'.2 = s.2 ++ new /\ len (probes_of domain new) <= len build_candidate_sets.
Proof.
  intros [Hp Hc]%Forall_app H0 Ht.
  destruct (notify_all _ past _ _) as [[w1 l1] m1] eqn:E1.
  destruct (notify_all_spec probe _ _ _ _ _ _ _ (new_wf engine) eq_refl Hp E1) as (n1 & -> & Hwf & He & _ & _).
  destruct (notify_all _ calls _ _) as [[w2 l2] m2] eqn:E2.
  destruct (notify_all_spec probe _ _ _ _ _ _ _ Hwf He Hc E2) as (n2 & -> & Hwf2 & _ & _ & Hr).
  exists n2. split; [done|]. specialize (Hr t0 domain Ht H0).
  pose proof (recent_bound t0 _ _ domain Hwf2). pose proof (recent_nonneg t0 (dv_inner m1) domain).
  change (len build_candidate_sets) with 4. lia.
Qed.

(** What a selection rests on: a strategy is active for a domain only when it is one
    of the ladder and a probe of that domain succeeded, and the engine is given exactly the
    ladder sets that are active for some domain. *)
Theorem selection_sound {W} (probe : string -> W -> W * f64) sets calls (w : W) :
  Forall (fun c => time_ok c.2) calls -> calls <> [] ->
  let '(s, m) := notify_all (counting probe) calls (DiscoveryManager_new (Some sets)) (w, []) in
  (forall domain name, active_for (dv_inner m) domain = Some name ->
     In name ladder_names /\ exists q, In (domain, q) s.2 /\ flt q (f64_lit 1 2) = false) /\
  exists l, dv_engine m = Some l /\
    forall b, In b l <-> In b build_candidate_sets /\
      exists domain, active_for (dv_inner m) domain = Some (set_name b).
Proof.
  intros Hc Hne. destruct (notify_all _ calls _ _) as [[w1 l1] m1] eqn:E1.
  destruct (notify_all_spec probe _ _ _ _ _ _ _ (new_wf (Some sets)) eq_refl Hc E1)
    as (new & -> & [_ Hset _ Hst] & _ & Hg & _).
  split.
  - intros domain name. unfold active_for. destruct (bd_store _ !! domain) as [s|] eqn:Es; [|done].
    apply (Hst _ _ Es).
  - exists (merged (dv_inner m1)). split; [by apply Hg|]. intros b. unfold merged. rewrite filter_In, Hset.
    unfold is_active. rewrite existsb_exists. split; intros [Hin Hb]; (split; [done|]).
    + destruct Hb as ([domain s] & Hp & Hb%bool_decide_eq_true). exists domain.
      apply list_elem_of_In, elem_of_map_to_list in Hp. unfold active_for. by rewrite Hp.
    + destruct Hb as (domain & Hb). unfold active_for in Hb.
      destruct (bd_store _ !! domain) as [s|] eqn:Es; [|done]. exists (domain, s).
      split; [by apply list_elem_of_In, elem_of_map_to_list|]. by apply bool_decide_eq_true.
Qed.

(** ** What the engine does with the selected sets *)

(** The visible part of a run: the reassembly state and the verdicts sent; the counters are
    left out. *)
Definition effect (x : exec engine_state) : exec (TcpReassembler * list verdict) :=
  st ← x; Val (reassembler st, verdicts st).

Definition same_effect (st st' : engine_state) : Prop :=
  reassembler st = reassembler st' /\ verdicts st = verdicts st'.

Definition without_sets (t : turn) : turn := mkTurn (t_recv t) (t_now t) [] (t_verdict_ok t).

Lemma effect_send ok id v pl st st' f f' :
  same_effect st st' ->
  same_effect (send_verdict ok id v pl (on_stats f st)) (send_verdict ok id v pl (on_stats f' st')).
Proof. intros [H1 H2]. unfold send_verdict. by destruct ok; split; cbn; rewrite ?H1, ?H2. Qed.

Lemma effect_accept ok id st st' :
  same_effect st st' -> same_effect (accept_untouched ok id st) (accept_untouched ok id st').
Proof. apply effect_send. Qed.

Lemma effect_Val st st' : same_effect st st' -> effect (Val st) = effect (Val st').
Proof. intros [H1 H2]. unfold effect. cbn. by rewrite H1, H2. Qed.

Lemma effect_bind {A} (x : exec A) f g :
  (forall a, effect (f a) = effect (g a)) -> effect (mbind f x) = effect (mbind g x).
Proof. intros H. destruct x as [a|]; [apply H|done]. Qed.

(** A set without targets matches no host. *)
Lemma untargeted_matches_nothing store s host :
  set_targets s = no_targets -> set_matches_host store s host = false.
Proof. intros H. unfold set_matches_host, has_geosite. rewrite H. by destruct (negb _). Qed.

Lemma ladder_untargeted s : In s build_candidate_sets -> set_targets s = no_targets.
Proof. intros [<-|[<-|[<-|[<-|[]]]]]; reflexivity. Qed.

Section Inert.
Context (env : engine_env).

Definition untargeted (t : turn) : Prop := Forall (fun s => set_targets s = no_targets) (t_sets t).

Lemma no_set_found t host :
  untargeted t -> List.find (fun s => set_matches_host (env_store env) s host) (t_sets t) = None.
Proof.
  unfold untargeted. induction (t_sets t) as [|s l IH]; intros Ht; [done|].
  inversion_clear Ht as [|? ? Hs Hl]. cbn [List.find]. rewrite untargeted_matches_nothing by done. by apply IH.
Qed.

Lemma finish_inert t tcp flags host id st st' :
  untargeted t -> same_effect st st' ->
  effect (finish_tcp env t tcp flags host id st) = effect (finish_tcp env (without_sets t) tcp flags host id st').
Proof.
  intros Ht Hst. unfold finish_tcp. cbn [t_sets without_sets t_verdict_ok].
  assert (Hs : (h ← host; List.find (fun s => set_matches_host (env_store env) s h) (t_sets t)) = None).
  { destruct host; [by apply no_set_found|done]. }
  assert (Hs' : (h ← host; List.find (fun s => set_matches_host (env_store env) s h) []) = None) by (by destruct host).
  rewrite Hs, Hs'.
  assert (Hst' : same_effect (match host with Some _ => on_stats add_tls st | None => st end)
    (match host with Some _ => on_stats add_tls st' | None => st' end)) by (by destruct host).
  destruct (choose_profile _ _ _) as [profile|]; [|by apply effect_Val, effect_accept].
  apply effect_bind. intros [m changed]. destruct changed; [|by apply effect_Val, effect_accept].
  apply effect_bind. intros m'. apply effect_bind. intros m''. by apply effect_Val, effect_send.
Qed.

Lemma handle_inert t p st st' :
  untargeted t -> same_effect st st' ->
  effect (handle_packet env t p st) = effect (handle_packet env (without_sets t) p st').
Proof.
  intros Ht Hst. unfold handle_packet. cbn [t_verdict_ok without_sets t_sets].
  assert (Hseen : same_effect (on_stats add_seen st) (on_stats add_seen st')) by done.
  destruct (payload p) as [pl|]; [|by apply effect_Val, effect_accept].
  apply effect_bind. intros proto. destruct (proto =? 17).
  - unfold handle_udp_packet. apply effect_bind. intros [udp|].
    + apply effect_bind. intros port. destruct Hst as [H1 H2].
      destruct (negb _); apply effect_Val; [by split; cbn; rewrite ?H1, ?H2|].
      destruct (existsb udp_interested (t_sets t)); split; cbn; by rewrite ?H1, ?H2.
    + apply effect_Val. destruct Hst as [H1 H2]. split; cbn; by rewrite ?H1, ?H2.
  - apply effect_bind. intros [tcp|]; [|by apply effect_Val, effect_accept].
    apply effect_bind. intros port. destruct (negb _); [by apply effect_Val, effect_accept|].
    unfold handle_tcp_packet. apply effect_bind. intros tcp_pl. apply effect_bind. intros key.
    apply effect_bind. intros seq. apply effect_bind. intros flags. destruct Hst as [H1 H2].
    cbn [t_now without_sets reassembler on_stats]. rewrite H1. apply effect_bind. intros [r reassembled].
    apply effect_bind. intros host. by apply finish_inert.
Qed.

Lemma loop_inert ts st st' :
  Forall untargeted ts -> same_effect st st' ->
  effect (interception_loop env ts st) = effect (interception_loop env (map without_sets ts) st').
Proof.
  intros Hts. revert st st'. induction Hts as [|t ts Ht _ IH]; intros st st' Hst; [by apply effect_Val|].
  cbn [interception_loop map].
  assert (Hb : effect (loop_body env t st) = effect (loop_body env (without_sets t) st')).
  { unfold loop_body. cbn [t_recv without_sets]. destruct (t_recv t) as [p| |]; [by apply handle_inert| |];
      by apply effect_Val. }
  destruct (loop_body env t st) as [s1|], (loop_body env (without_sets t) st') as [s2|]; try done.
  apply IH. unfold effect in Hb. cbn in Hb. by injection Hb as H1 H2.
Qed.
End Inert.

(** C29.  Reporting a domain disarms the engine: from then on every packet gets the verdict
    and the content it would get if no strategy set were configured, because the sets that
    were configured are replaced and the sets of the ladder name no target. *)
Theorem discovery_disarms_engine {W} (probe : string -> W -> W * f64) configured calls (w : W) :
  Forall (fun c => time_ok c.2) calls -> calls <> [] ->
  let '(_, m) := notify_all (counting probe) calls (DiscoveryManager_new (Some configured)) (w, []) in
  exists sets, dv_engine m = Some sets /\
    forall env ts st, Forall (fun t => t_sets t = sets) ts ->
      effect (interception_loop env ts st) = effect (interception_loop env (map without_sets ts) st).
Proof.
  intros Hc Hne. destruct (notify_all _ calls _ _) as [[w1 l1] m1] eqn:E1.
  destruct (notify_all_spec probe _ _ _ _ _ _ _ (new_wf (Some configured)) eq_refl Hc E1)
    as (new & -> & [_ Hset _ _] & _ & Hg & _).
  exists (merged (dv_inner m1)). split; [by apply Hg|]. intros env ts st Hts. apply loop_inert; [|done].
  eapply Forall_impl; [exact Hts|]. intros t Ht. unfold untargeted. rewrite Ht.
  apply List.Forall_forall. intros s [Hs _]%filter_In. apply ladder_untargeted. by rewrite <- Hset.
Qed.

(** ** What the probe measures *)

(** A name is not an address: the probe of any domain name connects to the unspecified
    address, which is the machine itself, so it measures the same for every name. *)
Lemma probe_of_name_is_local {W} (connect : IpAddr -> Z -> W -> W * bool) port a b w :
  parse_ip a = None -> parse_socket_ip a = None -> parse_ip b = None -> parse_socket_ip b = None ->
  probe_target a = V4 0 /\ TcpTlsProbe_probe connect port a w = TcpTlsProbe_probe connect port b w.
Proof.
  intros Ha Ha' Hb Hb'. unfold TcpTlsProbe_probe, probe_target. by rewrite Ha, Ha', Hb, Hb'.
Qed.

Module Demo.

(** A host where every connection succeeds. *)
Definition all_reachable (_ : IpAddr) (_ : Z) (n : nat) : nat * bool := (S n, true).

Definition site : string := "a.b".
Definition day : Z := 86400000.

Lemma probes_bounded_witness :
  exists new,
    (notify_all (counting (TcpTlsProbe_probe all_reachable 443)) [(site, day); (site, day + 1)]
      (notify_all (counting (TcpTlsProbe_probe all_reachable 443)) [(site, 0)] (DiscoveryManager_new None) (0%nat, [])).2
      (notify_all (counting (TcpTlsProbe_probe all_reachable 443)) [(site, 0)] (DiscoveryManager_new None) (0%nat, [])).1).1.2
    = [(site, f1)] ++ new /\ len (probes_of site new) <= 4.
Proof.
  pose proof (probes_bounded (TcpTlsProbe_probe all_reachable 443) None [(site, 0)] [(site, day); (site, day + 1)]
    0%nat day site) as H.
  assert (H1 : Forall (fun c : string * Z => time_ok c.2) [(site, 0); (site, day); (site, day + 1)])
    by (repeat constructor; vm_compute; intros [=]).
  assert (H2 : Forall (fun c : string * Z => day <= c.2 <= day + 86445000) [(site, day); (site, day + 1)])
    by (repeat constructor; vm_compute; intros [=]).
  specialize (H H1 ltac:(done) H2). vm_compute in H. vm_compute. exact H.
Defined.

Lemma selection_sound_witness :
  exists l, dv_engine (notify_all (counting (TcpTlsProbe_probe all_reachable 443)) [(site, 0)]
      (DiscoveryManager_new (Some [])) (0%nat, [])).2 = Some l /\
    forall b, In b l <-> In b build_candidate_sets /\
      exists domain, active_for (dv_inner (notify_all (counting (TcpTlsProbe_probe all_reachable 443)) [(site, 0)]
        (DiscoveryManager_new (Some [])) (0%nat, [])).2) domain = Some (set_name b).
Proof.
  assert (H1 : Forall (fun c : string * Z => time_ok c.2) [(site, 0)])
    by (repeat constructor; vm_compute; intros [=]).
  pose proof (selection_sound (TcpTlsProbe_probe all_reachable 443) [] [(site, 0)] 0%nat H1 ltac:(done)) as H.
  destruct (notify_all _ _ _ _) as [s m]. exact (proj2 H).
Defined.

(** A configured set for the site, and a packet of a connection to it. *)
Definition site_set : B4Set :=
  mkB4Set None "site" (set_tcp (ladder_set "site" UdpPlane_default (combo_frag true Combo_default) Faking_default))
    UdpPlane_default (combo_frag true (mkCombo true true "full" 0 0 false [])) Faking_default
    (mkTargets [site] [] [] []) true (mkDnsPlane false EmptyString false).

Definition hello_packet : list Z :=
  [0x45; 0; 0; 40 + len (client_hello example_hello); 0; 1; 0x40; 0; 64; 6; 0; 0; 10; 0; 0; 1; 10; 0; 0; 2;
   195; 80; 1; 187; 0; 0; 0; 7; 0; 0; 0; 9; 0x50; 0x18; 1; 0; 0; 0; 0; 0] ++ client_hello example_hello.

Definition hello_turn (sets : list B4Set) : turn :=
  mkTurn (RecvPacket (mkNfPacket 1 (Some hello_packet))) 0 sets true.
Definition plain_env : engine_env := mkEnv (mkEngineConfig []) [443] [443] empty_store.

(** The configured set changes the packet. *)
Lemma configured_set_applies :
  effect (interception_loop plain_env [hello_turn [site_set]] engine_start) <>
  effect (interception_loop plain_env [hello_turn []] engine_start).
Proof. vm_compute. intros [=]. Qed.

(** After one report of another domain it no longer does. *)
Lemma discovery_disarms_engine_witness :
  exists sets,
    dv_engine (notify_all (counting (TcpTlsProbe_probe all_reachable 443)) [("other.example"%string, 0)]
      (DiscoveryManager_new (Some [site_set])) (0%nat, [])).2 = Some sets /\
    effect (interception_loop plain_env [hello_turn sets] engine_start) =
    effect (interception_loop plain_env [hello_turn []] engine_start).
Proof.
  assert (H1 : Forall (fun c : string * Z => time_ok c.2) [("other.example"%string, 0)])
    by (repeat constructor; vm_compute; intros [=]).
  pose proof (discovery_disarms_engine (TcpTlsProbe_probe all_reachable 443) [site_set] [("other.example"%string, 0)]
    0%nat H1 ltac:(done)) as H.
  destruct (notify_all _ _ _ _) as [s m]. destruct H as (sets & Hm & H). exists sets. split; [exact Hm|].
  exact (H plain_env [hello_turn sets] engine_start ltac:(by repeat constructor)).
Defined.

(** Once the ladder is measured and the selection a day old, a report is answered with no
    strategy although one is active; no successful probe renews the selection. *)
Lemma active_strategy_not_reported :
  let calls := [(site, 0); (site, day); (site, day + 1); (site, day + 2)] in
  let m := (notify_all (TcpTlsProbe_probe all_reachable 443) calls (DiscoveryManager_new None) 0%nat).2 in
  active_for (dv_inner m) site = Some "mss"%string /\
  (on_blocked (TcpTlsProbe_probe all_reachable 443) site (day + 3) m 4%nat).2 = None /\
  (ds_validated_ms <$> bd_store (dv_inner m) !! site) = Some 0.
Proof. vm_compute. done. Qed.

(** Both reports of a name and of another name measure the same connection. *)
Lemma names_probe_locally :
  probe_target "youtube.com" = V4 0 /\ probe_target "10.1.2.3" = V4 0x0a010203 /\
  probe_target "10.1.2.3:8443" = V4 0x0a010203 /\ probe_target "[::1]:53" = V6 1.
Proof. vm_compute. done. Qed.

Example fixed2_vectors :
  fixed2 f1 = "1.00"%string /\ fixed2 f0 = "0.00"%string /\ fixed2 (f64_lit 1 8) = "0.12"%string /\
  fixed2 (f64_lit 5 1000) = "0.01"%string.
Proof. vm_compute. done. Qed.
End Demo.
