(* ===== verification/DpiManager.v ===== *)
(** * The manager of the DPI-bypass engine (balansir-daemon: b4_dpi.rs; the life cycle part
      of balansir-b4: engine.rs)

    Starting and stopping the packet engine together with its queue rules, the worker
    thread that reads the queue, and the pause of the API.  The threads are the steps of a
    transition system: the worker tests the running flag, waits in a blocking receive for
    the next packet, and may panic; requests of the daemon come in between.  The kernel and
    the executor are parameters; opening the queue is the configuration of [Nfqueue].

    The theorems: there is never a second worker, and an engine that was paused while its
    worker waited for a packet cannot be resumed before a packet arrives. *)

From stdpp Require Import relations.
From S2P Require Import Prelude F64 Nftables ExecutorService B4Set Geosite B4Engine Nfqueue Discovery.
#[local] Open Scope Z_scope.

(** ** Data *)

(** Where a worker thread is: before the test of the flag, or in the blocking receive. *)
Inductive worker := AtTest | InRecv.

#[export] Instance worker_eq_dec : EqDecision worker.
Proof. solve_decision. Defined.

(** The shared state of the engine: the two flags, and the threads that hold its queue. *)
Record engine_rt := mkEngineRt {
  er_running : bool;
  er_dead : bool;
  er_workers : list worker;
}.

Record DpiInner := mkDpiInner {
  di_queue_num : Z;
  di_ports : list Z;
  di_profiles : list string;
  di_config_path : option string;
  di_engine : engine_rt;
}.

Record DpiManager := mkDpiManager {
  dp_inner : option DpiInner;
  dp_running : bool;
  dp_executor : bool;
  dp_last_error : option string;
  dp_discovery : DiscoveryManager;
}.

(** The kernel's answers while a queue is configured: whether a socket can be opened, and
    the code of the [n]-th request, which depends on whether another socket holds the queue. *)
Record bind_env := mkBindEnv {
  be_socket : bool;
  be_code : bool -> nat -> Z;
}.

(** A queue has one owner: the bind request for a queue held by another socket is refused. *)
Record kernel_rules (env : bind_env) : Prop := {
  kr_range : forall held n, - 2 ^ 31 <= be_code env held n < 2 ^ 31;
  kr_held : be_code env true 2%nat <> 0;
}.

(** ** Operations *)

Section Manager.
Context {W : Type} (dpi_call : DpiOp -> W -> W * (string + DpiOpResult)) (sock_text : sock_error -> string).

(** [DpiManager::new_with_executor] on a configuration that was read *)
Definition new_with_executor (config_path : string) (cfg : B4Config) (wired : bool) : DpiManager :=
  mkDpiManager
    (Some (mkDpiInner (queue_num cfg) (ports cfg) (map pt_name (cfg_profiles cfg)) (Some config_path)
       (mkEngineRt false false [])))
    false wired None (DiscoveryManager_new (Some (all_sets cfg))).

(** [NfQueue::new] *)
Definition nfqueue_new (env : bind_env) (held : bool) (q : Z) : exec (option sock_error) :=
  if negb (be_socket env) then Val (Some SocketError)
  else
    '(_, e) ← configure (fun sent _ => Reply (error_reply (be_code env held (length sent)))) q (64 * 1024) [];
    Val e.

(** [B4Engine::run]; the new worker starts with the test of the flag. *)
Definition engine_run (env : bind_env) (q : Z) (e : engine_rt) : exec (engine_rt * (string + ())) :=
  if er_running e then Val (e, inl "b4 engine already running"%string)
  else
    let held := match er_workers e with [] => false | _ => true end in
    r ← nfqueue_new env held q;
    match r with
    | Some err => Val (mkEngineRt (er_running e) false (er_workers e), inl ("NFQUEUE bind failed: " +:+ sock_text err))
    | None => Val (mkEngineRt true false (AtTest :: er_workers e), inr ())
    end.

(** [B4Engine::stop] *)
Definition engine_stop (e : engine_rt) : engine_rt := mkEngineRt false (er_dead e) (er_workers e).

Definition with_engine (m : DpiManager) (i : DpiInner) (e : engine_rt) (running : bool) : DpiManager :=
  mkDpiManager (Some (mkDpiInner (di_queue_num i) (di_ports i) (di_profiles i) (di_config_path i) e))
    running (dp_executor m) (dp_last_error m) (dp_discovery m).

Definition with_error (m : DpiManager) (e : string) : DpiManager :=
  mkDpiManager (dp_inner m) (dp_running m) (dp_executor m) (Some e) (dp_discovery m).

Definition install_queue_rules (m : DpiManager) (w : W) : W * DpiManager :=
  if negb (dp_executor m) then (w, m)
  else
    match dp_inner m with
    | None => (w, m)
    | Some i =>
        match dpi_call (InstallQueue (di_queue_num i) (di_ports i)) w with
        | (w, inr _) => (w, m)
        | (w, inl e) => (w, with_error m ("queue rule install: " +:+ e))
        end
    end.

Definition remove_queue_rules (m : DpiManager) (w : W) : W * DpiManager :=
  if negb (dp_executor m) then (w, m)
  else
    match dpi_call RemoveQueue w with
    | (w, inr _) => (w, m)
    | (w, inl e) => (w, with_error m ("queue rule removal: " +:+ e))
    end.

Definition set_running (m : DpiManager) (running : bool) : DpiManager :=
  mkDpiManager (dp_inner m) running (dp_executor m) (dp_last_error m) (dp_discovery m).

Definition dpi_start (env : bind_env) (m : DpiManager) (w : W) : exec (W * DpiManager * (string + ())) :=
  match dp_inner m with
  | None => Val (w, m, inr ())
  | Some i =>
      if dp_running m then Val (w, m, inl "DPI engine already running"%string)
      else
        '(e, r) ← engine_run env (di_queue_num i) (di_engine i);
        let m := with_engine m i e (dp_running m) in
        match r with
        | inl err => Val (w, m, inl err)
        | inr _ => let '(w, m) := install_queue_rules m w in Val (w, set_running m true, inr ())
        end
  end.

Definition dpi_stop (m : DpiManager) (w : W) : W * DpiManager :=
  let m := match dp_inner m with
           | Some i => with_engine m i (engine_stop (di_engine i)) (dp_running m)
           | None => m
           end in
  let '(w, m) := remove_queue_rules m w in (w, set_running m false).

Definition dpi_set_enabled (env : bind_env) (enabled : bool) (m : DpiManager) (w : W) :
    exec (W * DpiManager * (string + ())) :=
  if enabled then dpi_start env m w else let '(w, m) := dpi_stop m w in Val (w, m, inr ()).

Definition engine_dead (m : DpiManager) : bool :=
  match dp_inner m with Some i => er_dead (di_engine i) | None => false end.

Record DpiStatus := mkDpiStatus {
  ds_enabled : bool;
  ds_config_path : option string;
  ds_queue_num : Z;
  ds_ports : list Z;
  ds_profiles : list string;
  ds_stats : B4Stats;
  ds_engine_dead : bool;
  ds_queue_rules : Z;
  ds_last_error : option string;
  ds_discovery_enabled : bool;
  ds_discovery : list DomainDiscoveryState;
}.

(** [status], with the counters of the engine *)
Definition dpi_status (st : B4Stats) (m : DpiManager) : DpiStatus :=
  let '(q, ports, profiles, path, st) :=
    match dp_inner m with
    | Some i => (di_queue_num i, di_ports i, di_profiles i, di_config_path i, st)
    | None => (0, [443], [], None, zero_stats)
    end in
  mkDpiStatus (dp_running m) path q ports profiles st (engine_dead m) 0 (dp_last_error m)
    (dv_enabled (dp_discovery m)) (domain_states (dv_inner (dp_discovery m))).

(** ** Threads *)

Definition workers (m : DpiManager) : list worker :=
  match dp_inner m with Some i => er_workers (di_engine i) | None => [] end.
Definition flag (m : DpiManager) : bool :=
  match dp_inner m with Some i => er_running (di_engine i) | None => false end.

Inductive step_kind := Request | Quiet | Packet.

(** [Request]: a call of the daemon; [Quiet]: a worker moves without a packet; [Packet]: a
    packet reaches a worker that waits for one. *)
Inductive dpi_step : step_kind -> W * DpiManager -> W * DpiManager -> Prop :=
| ds_set_enabled env enabled m w m' w' r :
    kernel_rules env -> dpi_set_enabled env enabled m w = Val (w', m', r) ->
    dpi_step Request (w, m) (w', m')
| ds_notify m w d :
    dpi_step Request (w, m) (w, mkDpiManager (dp_inner m) (dp_running m) (dp_executor m) (dp_last_error m) d)
| ds_other m w w' : dpi_step Request (w, m) (w', m)
| ds_wait m w i l r :
    dp_inner m = Some i -> er_workers (di_engine i) = l ++ AtTest :: r -> er_running (di_engine i) = true ->
    dpi_step Quiet (w, m)
      (w, with_engine m i (mkEngineRt true (er_dead (di_engine i)) (l ++ InRecv :: r)) (dp_running m))
| ds_exit m w i l r :
    dp_inner m = Some i -> er_workers (di_engine i) = l ++ AtTest :: r -> er_running (di_engine i) = false ->
    dpi_step Quiet (w, m) (w, with_engine m i (mkEngineRt false (er_dead (di_engine i)) (l ++ r)) (dp_running m))
| ds_packet m w i l r :
    dp_inner m = Some i -> er_workers (di_engine i) = l ++ InRecv :: r ->
    dpi_step Packet (w, m)
      (w, with_engine m i (mkEngineRt (er_running (di_engine i)) (er_dead (di_engine i)) (l ++ AtTest :: r))
            (dp_running m))
| ds_panic m w i l r :
    dp_inner m = Some i -> er_workers (di_engine i) = l ++ InRecv :: r ->
    dpi_step Packet (w, m)
      (w, with_engine m i (mkEngineRt false (er_running (di_engine i) || er_dead (di_engine i)) (l ++ r))
            (dp_running m)).

Definition any_step (s s' : W * DpiManager) : Prop := exists k, dpi_step k s s'.
Definition idle_step (s s' : W * DpiManager) : Prop := exists k, k <> Packet /\ dpi_step k s s'.

(** ** Opening the queue *)

Lemma nfqueue_new_total env held q :
  kernel_rules env -> exists r, nfqueue_new env held q = Val r /\ (held = true -> r <> None).
Proof.
  intros [Hr Hh]. unfold nfqueue_new. destruct (negb (be_socket env)); [by eexists|].
  destruct (configure_complete_or_refused _ (be_code env held) q (64 * 1024) (Hr held)
    (fun _ _ => eq_refl)) as [[Hz ->]|(n & Hn & Hnz & ->)]; eexists; (split; [reflexivity|]); [|done].
  intros ->. by specialize (Hz 2%nat ltac:(lia)).
Qed.

(** A start is refused while a worker holds the queue, and adds one worker otherwise. *)
Lemma engine_run_spec env q e :
  kernel_rules env ->
  exists e' r, engine_run env q e = Val (e', r) /\
    ((exists t, r = inl t) /\ er_workers e' = er_workers e /\ er_running e' = er_running e /\
       (er_dead e' = false \/ er_dead e' = er_dead e) \/
     r = inr () /\ er_workers e = [] /\ e' = mkEngineRt true false [AtTest]).
Proof.
  intros Hk. unfold engine_run. destruct (er_running e) eqn:Er.
  { do 2 eexists. split; [done|]. left. split; [by eexists|]. split; [done|]. split; [done|by right]. }
  destruct (nfqueue_new_total env (match er_workers e with [] => false | _ => true end) q Hk) as (r & -> & Hh).
  rewrite bind_Val_l. destruct r as [err|].
  - do 2 eexists. split; [done|]. left. split; [by eexists|]. split; [done|]. split; [done|by left].
  - do 2 eexists. split; [done|]. right. destruct (er_workers e) as [|x l]; [done|]. by destruct (Hh eq_refl).
Qed.

(** ** Safety *)

Record dpi_inv (m : DpiManager) : Prop := {
  iv_one : (length (workers m) <= 1)%nat;
  iv_flag : flag m = true -> length (workers m) = 1%nat /\ dp_running m = true;
  iv_dead : engine_dead m = true -> flag m = false;
}.

Lemma install_frame m w w' m' :
  install_queue_rules m w = (w', m') -> dp_inner m' = dp_inner m /\ dp_running m' = dp_running m.
Proof.
  unfold install_queue_rules. destruct (negb _); [by intros [= <- <-]|].
  destruct (dp_inner m) as [i|] eqn:E; [|by intros [= <- <-]].
  destruct (dpi_call _ w) as [w1 [e|r]]; by intros [= <- <-].
Qed.

Lemma remove_frame m w w' m' :
  remove_queue_rules m w = (w', m') -> dp_inner m' = dp_inner m /\ dp_running m' = dp_running m.
Proof.
  unfold remove_queue_rules. destruct (negb _); [by intros [= <- <-]|].
  destruct (dpi_call _ w) as [w1 [e|r]]; by intros [= <- <-].
Qed.

(** What a start does to the threads. *)
Lemma dpi_start_spec env m w w' m' r :
  kernel_rules env -> dpi_start env m w = Val (w', m', r) ->
  (exists t, r = inl t) /\ w' = w /\ workers m' = workers m /\ flag m' = flag m /\ dp_running m' = dp_running m /\
    (engine_dead m' = false \/ engine_dead m' = engine_dead m) \/
  dp_inner m = None /\ m' = m /\ w' = w /\ r = inr () \/
  r = inr () /\ dp_running m = false /\ workers m = [] /\ workers m' = [AtTest] /\ flag m' = true /\
    dp_running m' = true /\ engine_dead m' = false.
Proof.
  intros Hk. unfold dpi_start. destruct (dp_inner m) as [i|] eqn:Ei; [|intros [= <- <- <-]; by right; left].
  destruct (dp_running m) eqn:Er.
  { intros [= <- <- <-]. left. split; [by eexists|]. split; [done|]. split; [done|]. split; [done|].
    split; [done|by right]. }
  destruct (engine_run_spec env (di_queue_num i) (di_engine i) Hk) as (e & a & -> & Hcase).
  rewrite bind_Val_l. unfold workers, flag, engine_dead. rewrite Ei.
  destruct Hcase as [((t & ->) & Hw & Hf & Hd)|(-> & Hw & ->)].
  - intros [= <- <- <-]. left. cbn. split; [by eexists|]. do 4 (split; [done|]). exact Hd.
  - destruct (install_queue_rules _ w) as [w1 m1] eqn:E1. apply install_frame in E1 as [E1 _].
    intros [= <- <- <-]. right. right. cbn. rewrite E1. by do 6 (split; [done|]).
Qed.

Lemma dpi_stop_spec m w w' m' :
  dpi_stop m w = (w', m') ->
  workers m' = workers m /\ flag m' = false /\ dp_running m' = false /\ engine_dead m' = engine_dead m.
Proof.
  unfold dpi_stop. destruct (remove_queue_rules _ w) as [w1 m1] eqn:E. apply remove_frame in E as [E _].
  intros [= <- <-]. unfold workers, flag, engine_dead. cbn. rewrite E.
  destruct (dp_inner m) as [i|] eqn:Ei; cbn; [done|]. by rewrite Ei.
Qed.

Lemma inv_step k s s' : dpi_step k s s' -> dpi_inv s.2 -> dpi_inv s'.2.
Proof.
  intros H [H1 H2 H3]. destruct H as [env enabled m w m' w' r Hk He| | |m w i l r Hi Hw Hf|m w i l r Hi Hw Hf
    |m w i l r Hi Hw|m w i l r Hi Hw]; cbn [snd] in *; [|by split|by split|..].
  - unfold dpi_set_enabled in He. destruct enabled.
    + destruct (dpi_start_spec _ _ _ _ _ _ Hk He)
        as [(_ & _ & Hw & Hf & Hr & Hd)|[(Ei & -> & _)|(_ & _ & _ & Hw & Hf & Hr & Hd)]].
      * split; rewrite ?Hw, ?Hf, ?Hr; [done|done|]. destruct Hd as [Hd|Hd]; rewrite Hd; [done|apply H3].
      * by split.
      * split; rewrite ?Hw, ?Hr, ?Hd; [cbn; lia|done|done].
    + destruct (dpi_stop m w) as [w1 m1] eqn:E. injection He as <- <- _.
      destruct (dpi_stop_spec _ _ _ _ E) as (Hw & Hf & Hr & Hd).
      split; rewrite ?Hw, ?Hf; done.
  - unfold workers, flag, engine_dead in *. cbn in *. rewrite Hi in *. rewrite Hw in *.
    rewrite length_app in *. cbn in *. split; unfold workers, flag, engine_dead; cbn.
    + rewrite length_app. cbn. lia.
    + intros _. rewrite length_app. cbn. by apply H2.
    + intros Hd. rewrite (H3 Hd) in Hf. done.
  - unfold workers, flag, engine_dead in *. cbn in *. rewrite Hi in *. rewrite Hw in *.
    rewrite length_app in *. cbn in *. split; unfold workers, flag, engine_dead; cbn; [rewrite length_app; lia|done|done].
  - unfold workers, flag, engine_dead in *. cbn in *. rewrite Hi in *. rewrite Hw in *.
    rewrite length_app in *. cbn in *. split; unfold workers, flag, engine_dead; cbn.
    + rewrite length_app. cbn. lia.
    + rewrite length_app. cbn. apply H2.
    + apply H3.
  - unfold workers, flag, engine_dead in *. cbn in *. rewrite Hi in *. rewrite Hw in *.
    rewrite length_app in *. cbn in *. split; unfold workers, flag, engine_dead; cbn; [rewrite length_app; lia|done|done].
Qed.

Lemma inv_run s s' : rtc any_step s s' -> dpi_inv s.2 -> dpi_inv s'.2.
Proof. induction 1 as [|s1 s2 s3 [k Hk] _ IH]; [done|]. intros Hi. by eapply IH, inv_step. Qed.

Lemma new_inv config_path cfg wired : dpi_inv (new_with_executor config_path cfg wired).
Proof. split; cbn; [lia|done|done]. Qed.


(** ** Pausing *)

Definition stuck (m : DpiManager) : Prop := workers m = [InRecv] /\ flag m = false /\ dp_running m = false.

Lemma stuck_step k s s' : k <> Packet -> dpi_step k s s' -> stuck s.2 -> stuck s'.2.
Proof.
  intros Hk H (Hw & Hf & Hr). destruct H as [env enabled m w m' w' r Hkr He| | |m w i l r Hi Hwk _|m w i l r Hi Hwk _
    |m w i l r _ _|m w i l r _ _]; cbn [snd] in *; [|done|done| | |done|done].
  - unfold dpi_set_enabled in He. destruct enabled.
    + destruct (dpi_start_spec _ _ _ _ _ _ Hkr He)
        as [(_ & _ & Hw' & Hf' & Hr' & _)|[(Ei & -> & _)|(_ & _ & Hw' & _)]].
      * unfold stuck. by rewrite Hw', Hf', Hr'.
      * done.
      * by rewrite Hw in Hw'.
    + destruct (dpi_stop m w) as [w1 m1] eqn:E. injection He as <- <- _.
      destruct (dpi_stop_spec _ _ _ _ E) as (Hw' & Hf' & Hr' & _). unfold stuck. by rewrite Hw', Hf', Hr'.
  - unfold workers in Hw. rewrite Hi, Hwk in Hw. destruct l as [|x [|y l]]; done.
  - unfold workers in Hw. rewrite Hi, Hwk in Hw. destruct l as [|x [|y l]]; done.
Qed.

(** An engine paused while its worker waits for a packet cannot be resumed: until a
    packet reaches that worker, every start fails, whatever else happens. *)
Theorem paused_engine_not_resumed m w s :
  workers m = [InRecv] -> rtc idle_step (dpi_stop m w) s ->
  dp_running s.2 = false /\
  forall env, kernel_rules env -> exists t m', dpi_set_enabled env true s.2 s.1 = Val (s.1, m', inl t).
Proof.
  intros Hw Hrun. assert (Hs : stuck s.2).
  { destruct (dpi_stop m w) as [w1 m1] eqn:E. destruct (dpi_stop_spec _ _ _ _ E) as (Hw' & Hf & Hr & _).
    assert (H0 : stuck m1) by (unfold stuck; by rewrite Hw').
    clear -Hrun H0. remember (w1, m1) as s0 eqn:E0. change m1 with (w1, m1).2 in H0. rewrite <- E0 in H0.
    clear E0. induction Hrun as [|a b c (k & Hk & Hab) _ IH]; [done|]. by eapply IH, stuck_step. }
  destruct s as [w1 m1]. destruct Hs as (Hw1 & Hf1 & Hr1). cbn [fst snd] in *. split; [done|].
  intros env Hk. unfold dpi_set_enabled, dpi_start. unfold workers in Hw1.
  destruct (dp_inner m1) as [i|]; [|done]. rewrite Hr1.
  destruct (engine_run_spec env (di_queue_num i) (di_engine i) Hk) as (e & r & -> & [((t & ->) & _)|(_ & H & _)]).
  - rewrite bind_Val_l. by do 2 eexists.
  - by rewrite H in Hw1.
Qed.

(** An engine that died stays enabled for the manager, which refuses to start it again. *)
Lemma dead_engine_not_restarted env m w i l r :
  dp_inner m = Some i -> er_workers (di_engine i) = l ++ InRecv :: r -> dp_running m = true ->
  let m' := with_engine m i (mkEngineRt false true (l ++ r)) (dp_running m) in
  (forall st, ds_enabled (dpi_status st m') = true /\ ds_engine_dead (dpi_status st m') = true) /\
  dpi_start env m' w = Val (w, m', inl "DPI engine already running"%string).
Proof. intros Hi Hw Hr. unfold dpi_start. cbn. by rewrite Hr. Qed.

(** A pause reports success also when the queue rules could not be removed. *)
Lemma pause_ignores_executor env m w e w1 :
  dp_executor m = true -> dpi_call RemoveQueue w = (w1, inl e) ->
  exists m', dpi_set_enabled env false m w = Val (w1, m', inr ()) /\
    dp_last_error m' = Some ("queue rule removal: " +:+ e).
Proof.
  intros He Hc. unfold dpi_set_enabled, dpi_stop, remove_queue_rules.
  destruct (dp_inner m) as [i|]; cbn; rewrite He; cbn; rewrite Hc; by eexists.
Qed.
End Manager.

Module Demo.
Definition cfg : B4Config := mkB4Config 200 [443] [] [] [].
Definition demo_executor (op : DpiOp) (n : nat) : nat * (string + DpiOpResult) := (S n, inr (mkDpiOpResult 1 EmptyString)).
Definition text (_ : sock_error) : string := "busy".
Definition kernel : bind_env := mkBindEnv true (fun held n => if held && (n =? 2)%nat then -16 else 0).

Lemma kernel_ok : kernel_rules kernel.
Proof. split; [|done]. intros held n. cbn. destruct (held && (n =? 2)%nat); lia. Qed.

Definition fresh : DpiManager := new_with_executor "dpi.toml" cfg true.

Definition started : nat * DpiManager :=
  match dpi_set_enabled demo_executor text kernel true fresh 0%nat with Val (w, m, _) => (w, m) | Panic => (0%nat, fresh) end.


(** The started engine, its worker waiting for a packet. *)
Definition waiting : DpiManager :=
  mkDpiManager (Some (mkDpiInner 200 [443] [] (Some "dpi.toml"%string) (mkEngineRt true false [InRecv])))
    true true None (DiscoveryManager_new (Some [])).

Lemma paused_engine_not_resumed_witness :
  exists t m', dpi_set_enabled demo_executor text kernel true (dpi_stop demo_executor waiting 1%nat).2 2%nat =
    Val (2%nat, m', inl t).
Proof.
  exact (proj2 (paused_engine_not_resumed demo_executor text waiting 1%nat (dpi_stop demo_executor waiting 1%nat)
    eq_refl (rtc_refl _ _)) kernel kernel_ok).
Defined.
End Demo.
