(* ===== verification/SystemStats.v ===== *)
(** * System statistics and capability profile (balansir-daemon: system_stats.rs,
      capability.rs)

    CPU, memory, load and file system figures read from /proc, and the resource profile of
    the machine.  The files of /proc and /sys are a function from paths to texts, [statfs]
    is a function from mount points; both are arguments.

    The lemmas bound the figures that are published and show which processor lists are
    counted wrongly. *)

From stdpp Require Import pretty.
From S2P Require Import Prelude F64 IpText Text B4Control NetTools.
#[local] Open Scope Z_scope.

(** ** Data *)

Record FilesystemInfo := mkFilesystem {
  fi_mount_point : string;
  fi_total_mb : Z;
  fi_used_mb : Z;
  fi_available_mb : Z;
  fi_usage_percent : f64;
  fi_fstype : string;
}.

Record SystemStats := mkSystemStats {
  sy_cpu_percent : f64;
  sy_mem_used_mb : Z;
  sy_mem_total_mb : Z;
  sy_load1 : f64;
  sy_load5 : f64;
  sy_load15 : f64;
  sy_uptime_secs : Z;
  sy_filesystems : list FilesystemInfo;
}.

Record CpuSample := mkCpuSample { cpu_idle : Z; cpu_total : Z }.

(** Block size, blocks and available blocks. *)
Record statfs := mkStatfs { sf_bsize : Z; sf_blocks : Z; sf_bavail : Z }.

Definition parse_u64 : string -> option Z := parse_radix 10 u64_max.

(** [as u64]: towards zero, saturating, [NaN] to 0 *)
Definition f64_as_u64 (x : f64) : Z :=
  match x with
  | SpecFloat.S754_finite false m e =>
      Z.min u64_max (if 0 <=? e then Z.pos m * 2 ^ e else Z.pos m / 2 ^ (- e))
  | SpecFloat.S754_infinity false => u64_max
  | _ => 0
  end.

(** [f64::round]: to the nearest integer, halves away from zero *)
Definition f64_round (x : f64) : f64 :=
  match x with
  | SpecFloat.S754_finite s m e =>
      if 0 <=? e then x
      else
        let r := (Z.pos m + 2 ^ (- e - 1)) / 2 ^ (- e) in
        if r =? 0 then SpecFloat.S754_zero s
        else SpecFloat.binary_normalize 53 1024 (if s then - r else r) 0 s
  | _ => x
  end.

(** ** The readers *)

Section Readers.
Context (file : string -> option string) (stat : string -> option statfs).

Definition read_cpu_sample : option CpuSample :=
  raw ← file "/proc/stat"%string;
  line ← head (lines raw);
  match B4Control.split_whitespace line with
  | "cpu"%string :: fields =>
      let values := take 8 (omap parse_u64 fields) in
      if (length values <? 8)%nat then None
      else Some (mkCpuSample (u64 (nth 3 values 0 + nth 4 values 0)) (u64 (fold_left Z.add values 0)))
  | _ => None
  end.

Definition cpu_percent (prev cur : CpuSample) : f64 :=
  let total := sat_sub (cpu_total cur) (cpu_total prev) in
  if total =? 0 then f0
  else
    let idle := sat_sub (cpu_idle cur) (cpu_idle prev) in
    let used := sat_sub total idle in
    fmul (fdiv (f64_of used) (f64_of total)) (f64_of 100).

(** The value after the label of a line. *)
Definition meminfo_value (fields : list string) : Z :=
  default 0 (head fields ≫= parse_u64).

Definition meminfo_line (acc : Z * Z) (line : string) : Z * Z :=
  match B4Control.split_whitespace line with
  | "MemTotal:"%string :: r => (meminfo_value r, acc.2)
  | "MemAvailable:"%string :: r => (acc.1, meminfo_value r)
  | _ => acc
  end.

Definition mem_used_mb : option (Z * Z) :=
  raw ← file "/proc/meminfo"%string;
  let '(total, available) := fold_left meminfo_line (lines raw) (0, 0) in
  if total =? 0 then None
  else Some (sat_sub (total / 1024) (available / 1024), total / 1024).

Definition load_averages : option (f64 * f64 * f64) :=
  raw ← file "/proc/loadavg"%string;
  match B4Control.split_whitespace raw with
  | a :: b :: c :: _ => l1 ← parse_f64 a; l5 ← parse_f64 b; l15 ← parse_f64 c; Some (l1, l5, l15)
  | _ => None
  end.

Definition uptime_secs : option Z :=
  raw ← file "/proc/uptime"%string;
  first ← head (B4Control.split_whitespace raw);
  secs ← parse_f64 first;
  Some (f64_as_u64 secs).

Definition skip_fstypes : list string :=
  ["proc"; "sysfs"; "devtmpfs"; "devpts"; "tmpfs"; "cgroup"; "cgroup2"; "autofs"; "pstore"; "efivarfs"; "hugetlbfs";
   "mqueue"; "debugfs"; "tracefs"; "configfs"; "fusectl"; "rpc_pipefs"; "nfsd"; "binfmt_misc"; "nsfs"; "overlay";
   "squashfs"]%string.

Definition skipped_mount (mount_point : string) : bool :=
  starts_with mount_point "/sys" || starts_with mount_point "/proc" ||
  starts_with mount_point "/run" && negb (starts_with mount_point "/run/media") ||
  starts_with mount_point "/dev" && negb (String.eqb mount_point "/dev").

(** The figures of one file system. *)
Definition filesystem_info (mount_point fstype : string) (s : statfs) : FilesystemInfo :=
  let mb blocks := Z.min u64_max (blocks * sf_bsize s) / 1048576 in
  let total := mb (sf_blocks s) in
  let free := mb (sf_bavail s) in
  mkFilesystem mount_point total (sat_sub total free) free
    (if 0 <? total then fmul (fdiv (f64_of (u64 (total - free))) (f64_of total)) (f64_of 100) else f0) fstype.

(** The loop over /proc/mounts; a mount point with a NUL byte ends it without a result. *)
Fixpoint filesystem_lines (ls : list string) (acc : list FilesystemInfo) : option (list FilesystemInfo) :=
  match ls with
  | [] => Some acc
  | line :: ls =>
      match B4Control.split_whitespace line with
      | _ :: mount_point :: fstype :: _ =>
          if existsb (String.eqb fstype) skip_fstypes || skipped_mount mount_point then filesystem_lines ls acc
          else if contains mount_point (String "000" EmptyString) then None
          else
            match stat mount_point with
            | None => filesystem_lines ls acc
            | Some s => filesystem_lines ls (acc ++ [filesystem_info mount_point fstype s])
            end
      | _ => filesystem_lines ls acc
      end
  end.

Definition read_filesystems : option (list FilesystemInfo) :=
  raw ← file "/proc/mounts"%string; filesystem_lines (lines raw) [].

Definition system_stats (prev_cpu : option CpuSample) : option (SystemStats * CpuSample) :=
  cur ← read_cpu_sample;
  '(mem_used, mem_total) ← mem_used_mb;
  '(l1, l5, l15) ← load_averages;
  let up := default 0 uptime_secs in
  let cpu := match prev_cpu with Some prev => cpu_percent prev cur | None => f0 end in
  Some (mkSystemStats (f64_round cpu) mem_used mem_total l1 l5 l15 up (default [] read_filesystems), cur).
End Readers.

(** ** The capability profile *)

Record FeatureAvailability := mkFeature {
  fe_name : string; fe_available : bool; fe_limited : bool; fe_reason : option string }.

Record CapabilityProfile := mkCapability {
  ca_tier : string; ca_ram_mb : Z; ca_cores : Z; ca_features : list FeatureAvailability }.

Definition feature_available (name : string) : FeatureAvailability := mkFeature name true false None.
Definition feature_limited (name reason : string) : FeatureAvailability := mkFeature name true true (Some reason).
Definition feature_unavailable (name reason : string) : FeatureAvailability := mkFeature name false false (Some reason).

Definition MINIMAL_RAM_MB : Z := 768.
Definition STANDARD_RAM_MB : Z := 4096.

(** [find_map] over the lines of /proc/meminfo *)
Fixpoint mem_total_kb (ls : list string) : option Z :=
  match ls with
  | [] => None
  | line :: ls =>
      match B4Control.split_whitespace line with
      | "MemTotal:"%string :: r =>
          match head r ≫= parse_u64 with Some v => Some v | None => mem_total_kb ls end
      | _ => mem_total_kb ls
      end
  end.

Definition total_ram_mb (file : string -> option string) : Z :=
  default 0 (raw ← file "/proc/meminfo"%string; kb ← mem_total_kb (lines raw); Some (kb / 1024)).

Definition cpu_count (file : string -> option string) : Z :=
  default 1
    (raw ← file "/sys/devices/system/cpu/possible"%string;
     let s := trim raw in
     match match split_once "-" s with
           | Some (lo, hi) => (parse_u32 lo, parse_u32 hi)
           | None => (parse_u32 s, None)
           end with
     | (Some lo, Some hi) => Some (u32 (hi - lo + 1))
     | (Some lo, None) => Some (u32 (lo + 1))
     | _ => None
     end).

Definition tier_for (ram_mb : Z) : string :=
  if ram_mb =? 0 then "Unknown"
  else if ram_mb <? MINIMAL_RAM_MB then "Minimal"
  else if ram_mb <? STANDARD_RAM_MB then "Standard"
  else "Performance".

Definition features_for (tier : string) : list FeatureAvailability :=
  map feature_available
    ["Policy engine"; "Firewall / nftables"; "DNS policy plane"; "B4 connectivity adaptation"; "QoS / qdisc shaping"]%string ++
  (if String.eqb tier "Minimal" then
     [feature_limited "Xray transport" "Limited resources — one endpoint, modest memory footprint";
      feature_limited "Tailscale" "Limited resources — expect reduced throughput";
      feature_unavailable "Advanced telemetry" "Disabled by resource profile (retention/collectors too heavy)";
      feature_unavailable "Multiple simultaneous paths" "Disabled by resource profile";
      feature_unavailable "ML / BTP" "Not available on Minimal profile"]
   else if String.eqb tier "Standard" then
     [feature_available "Xray transport"; feature_available "Tailscale";
      feature_limited "Advanced telemetry" "Bounded retention on Standard profile";
      feature_available "Multiple simultaneous paths";
      feature_unavailable "ML / BTP" "Not available on Standard profile"]
   else
     [feature_available "Xray transport"; feature_available "Tailscale"; feature_available "Advanced telemetry";
      feature_available "Multiple simultaneous paths"; feature_unavailable "ML / BTP" "Not yet implemented"])%string.

Definition detect (file : string -> option string) : CapabilityProfile :=
  let ram_mb := total_ram_mb file in
  let tier := tier_for ram_mb in
  mkCapability tier ram_mb (cpu_count file) (features_for tier).

(** ** What is published *)

(** The memory in use is never above the memory there is. *)
Lemma mem_used_bounded file used total :
  mem_used_mb file = Some (used, total) -> 0 <= used <= total.
Proof.
  assert (Hv : forall r, 0 <= meminfo_value r).
  { intros r. unfold meminfo_value. destruct r as [|v r]; [done|]. cbn.
    destruct (parse_u64 v) as [z|] eqn:Ev; [|done]. cbn. apply parse_radix_range in Ev; lia. }
  assert (H : forall ls acc, 0 <= acc.1 /\ 0 <= acc.2 ->
    0 <= (fold_left meminfo_line ls acc).1 /\ 0 <= (fold_left meminfo_line ls acc).2).
  { intros ls. induction ls as [|l ls IH]; intros acc Ha; [done|]. cbn [fold_left]. apply IH.
    unfold meminfo_line. repeat case_match; cbn; try done; (split; [apply Hv || apply Ha|apply Hv || apply Ha]). }
  unfold mem_used_mb. destruct (file _) as [raw|]; [|done]. cbn [mbind option_bind].
  specialize (H (lines raw) (0, 0) ltac:(done)).
  destruct (fold_left meminfo_line (lines raw) (0, 0)) as [t a]. destruct (t =? 0); [done|].
  intros [= <- <-]. cbn in H. unfold sat_sub. pose proof (Z.div_pos a 1024). pose proof (Z.div_pos t 1024). lia.
Qed.

(** Every tier lists the same features. *)
Lemma features_same_names tier tier' : map fe_name (features_for tier) = map fe_name (features_for tier').
Proof. unfold features_for. by repeat destruct (String.eqb _ _). Qed.

(** A profile with more memory has every feature of one with less, once the memory is known. *)
Lemma tier_monotone a b f :
  0 < a <= b -> In f (features_for (tier_for a)) -> fe_available f = true ->
  exists g, In g (features_for (tier_for b)) /\ fe_name g = fe_name f /\ fe_available g = true.
Proof.
  intros Hab. unfold tier_for, MINIMAL_RAM_MB, STANDARD_RAM_MB.
  rewrite !(proj2 (Z.eqb_neq _ 0)) by lia.
  assert (Hall : forall t t', In (t, t') [("Minimal", "Minimal"); ("Minimal", "Standard"); ("Minimal", "Performance");
      ("Standard", "Standard"); ("Standard", "Performance"); ("Performance", "Performance")]%string ->
    In f (features_for t) -> fe_available f = true ->
    exists g, In g (features_for t') /\ fe_name g = fe_name f /\ fe_available g = true).
  { intros t t' Ht Hf Ha.
    assert (Hb : forallb (fun f => negb (fe_available f) ||
        existsb (fun g => String.eqb (fe_name g) (fe_name f) && fe_available g) (features_for t')) (features_for t) = true).
    { repeat (destruct Ht as [[= <- <-]|Ht]; [reflexivity|]). destruct Ht. }
    rewrite forallb_forall in Hb. specialize (Hb f Hf). rewrite Ha in Hb. cbn [negb orb] in Hb.
    apply existsb_exists in Hb as (g & Hg & [Hn%String.eqb_eq Hga]%andb_true_iff). by exists g. }
  destruct (Z.ltb_spec a 768), (Z.ltb_spec b 768), (Z.ltb_spec a 4096), (Z.ltb_spec b 4096); try lia;
    apply Hall; cbn; tauto.
Qed.

Module Demo.
Definition possible (text : string) (path : string) : option string :=
  if String.eqb path "/sys/devices/system/cpu/possible" then Some text else None.

(** A range is counted, a list of ranges is not: the second bound does not parse, and the
    first processor number is taken for the last one. *)
Lemma cpu_lists_counted :
  cpu_count (possible "0-3") = 4 /\ cpu_count (possible "0") = 1 /\ cpu_count (possible "0-3,8-11") = 1.
Proof. vm_compute. done. Qed.

Example round_vectors :
  f64_round (f64_lit 5 2) = f64_of 3 /\ f64_round (f64_lit 1 4) = f0 /\ f64_round (f64_of 17) = f64_of 17 /\
  f64_as_u64 (f64_lit 7 2) = 3.
Proof. vm_compute. done. Qed.

Definition proc (path : string) : option string :=
  let nl := String newline EmptyString in
  if String.eqb path "/proc/stat" then Some ("cpu  10 0 10 70 10 0 0 0 5 0" +:+ nl +:+ "cpu0 1 2" +:+ nl)
  else if String.eqb path "/proc/meminfo" then Some ("MemTotal: 2048000 kB" +:+ nl +:+ "MemAvailable: 1024000 kB" +:+ nl)
  else if String.eqb path "/proc/loadavg" then Some "0.50 1.00 2.00 1/100 5"%string
  else if String.eqb path "/proc/uptime" then Some "3661.75 100.00"%string
  else if String.eqb path "/proc/mounts" then Some ("/dev/root / ext4 rw 0 0" +:+ nl +:+ "proc /proc proc rw 0 0")
  else None.

Example stats_of_proc :
  system_stats proc (fun _ => Some (mkStatfs 4096 512000 256000)) (Some (mkCpuSample 30 50)) =
  Some (mkSystemStats f0 1000 2000 (f64_lit 1 2) f1 (f64_of 2) 3661
          [mkFilesystem "/" 2000 1000 1000 (f64_of 50) "ext4"], mkCpuSample 80 100).
Proof. vm_compute. reflexivity. Qed.
End Demo.
