(* ===== verification/Subsystems.v ===== *)
(** * The subsystem manager and its HTTP surface (balansir-daemon: subsystems.rs,
      wan_identity.rs, the rate of system_stats.rs; balansir-api: subsystems.rs)

    The periodic observation pass that collects interfaces, WAN identity, throughput, Wi-Fi,
    MPTCP, traffic control, Tailscale, the DPI engine and the path decision into one
    snapshot; the control operations of the API over the managers of the other files; and
    the request handlers.  The executor, the clock, the files of /proc and the encoders of
    the answers are parameters.

    The theorems follow a shaping request from the HTTP body to the qdiscs of the kernel,
    show what the published rates measure, and relate the route checks of the API to those
    of the executor. *)

From stdpp Require Import pretty gmap.
From S2P Require Import Prelude F64 Types IpText Text Errors Nftables ExecutorService NetTypes Qdisc QosManager NetworkConfig.
From S2P Require Import B4Control PathDecision B4Engine Nfqueue SystemStats NetTools Discovery DpiManager Xray Api.
#[local] Open Scope Z_scope.

(** ** Throughput *)

(** [rate_bps], milliseconds for the duration *)
Definition rate_bps (prev cur elapsed_ms : Z) : Z :=
  if elapsed_ms =? 0 then 0 else u64 (sat_sub cur prev * 8000 / elapsed_ms).

Record InterfaceRate := mkRate { ra_interface : string; ra_rx_bps : Z; ra_tx_bps : Z }.

(** Interface name to received bytes, sent bytes and time of the last sample. *)
Abbreviation counters := (gmap string (Z * Z * Z)).

Definition rate_of (prev : counters) (now_ms : Z) (i : InterfaceInfo) : InterfaceRate :=
  let '(rx, tx) :=
    match prev !! if_name i with
    | Some (prev_rx, prev_tx, prev_ms) =>
        if prev_ms <? now_ms then
          (rate_bps prev_rx (if_rx_bytes i) (now_ms - prev_ms), rate_bps prev_tx (if_tx_bytes i) (now_ms - prev_ms))
        else (0, 0)
    | None => (0, 0)
    end in
  mkRate (if_name i) rx tx.

Definition sample (now_ms : Z) (l : list InterfaceInfo) : counters :=
  fold_left (fun m i => <[if_name i := (if_rx_bytes i, if_tx_bytes i, now_ms)]> m) l ∅.

Definition update_interface_rates (prev : counters) (now_ms : Z) (l : list InterfaceInfo) :
    counters * list InterfaceRate :=
  (sample now_ms l,
   sort_by (fun a b => String.compare (ra_interface a) (ra_interface b)) (map (rate_of prev now_ms) l)).

(** ** WAN identity *)

Definition is_default_route (fields : list string) : bool := String.eqb (nth 1 fields EmptyString) "00000000".

Fixpoint wan_route_lines (ls : list string) : option string :=
  match ls with
  | [] => None
  | line :: ls =>
      let fields := B4Control.split_whitespace line in
      if len fields <? 4 then wan_route_lines ls
      else if is_default_route fields then Some (nth 0 fields EmptyString) else wan_route_lines ls
  end.

Definition wan_default_route_interface (proc_route : option string) : option string :=
  content ← proc_route; wan_route_lines (drop 1 (lines content)).

Definition detect_wan_interface (env_override proc_route : option string) : option string :=
  match env_override with
  | Some name => if is_empty_str name then wan_default_route_interface proc_route else Some name
  | None => wan_default_route_interface proc_route
  end.

Definition hex_le_to_ipv4 (hex : string) : option string :=
  v ← parse_radix 16 u32_max hex;
  let octet k := pretty (v / 2 ^ k mod 256) in
  Some (octet 0 +:+ "." +:+ octet 8 +:+ "." +:+ octet 16 +:+ "." +:+ octet 24).

Fixpoint gateway_lines (interface : string) (ls : list string) : option string :=
  match ls with
  | [] => None
  | line :: ls =>
      let fields := B4Control.split_whitespace line in
      if (len fields <? 3) || negb (String.eqb (nth 0 fields EmptyString) interface) || negb (is_default_route fields)
      then gateway_lines interface ls
      else hex_le_to_ipv4 (nth 2 fields EmptyString)
  end.

Definition default_route_gateway (proc_route : option string) (interface : string) : option string :=
  content ← proc_route; gateway_lines interface (drop 1 (lines content)).

Definition assemble (interfaces : list InterfaceInfo) (env_override proc_route : option string) : option WanIdentity :=
  interface ← detect_wan_interface env_override proc_route;
  info ← List.find (fun i => String.eqb (if_name i) interface) interfaces;
  let hardware := match if_hardware_mac info with Some m => Some m | None => if_mac info end in
  let cloning := match hardware, if_mac info with
                 | Some hw, Some cur => negb (String.eqb hw cur)
                 | _, _ => false
                 end in
  let gateway := default_route_gateway proc_route interface in
  Some (mkWanIdentity interface hardware (if_mac info) (if cloning then if_mac info else None) cloning
    (if_mtu info) (if_link_up info)
    (mkDhcp (bool_decide (is_Some gateway) || match if_ipv4 info with [] => false | _ => true end)
       (head (if_ipv4 info)) gateway [] None None)).

(** ** The manager *)

Inductive net_event :=
| InterfaceMacChanged (interface mac : string)
| InterfaceMacRestored (interface : string)
| InterfaceErrorEvent (detail : string)
| TailscaleStatusChanged (state : string)
| TailscaleReconnected
| TailscaleErrorEvent (detail : string).

Record TailscaleSnapshot := mkTailSnap {
  tn_status : option TailscaleStatus;
  tn_error : option string;
  tn_pending_op : bool;
}.

Record SubsystemExec (W : Type) := mkSubExec {
  sx_qos : QosExec W;
  sx_interface_info : string -> W -> W * (string + list InterfaceInfo);
  sx_set_mac : string -> string -> W -> W * (string + InterfaceResult);
  sx_restore_mac : string -> W -> W * (string + InterfaceResult);
  sx_tailscale_status : W -> W * (string + TailscaleStatus);
  sx_tailscale : TailscaleOp -> W -> W * (string + TailscaleResult);
  sx_wifi : WifiOp -> W -> W * (string + WifiResult);
  sx_mptcp : MptcpOp -> W -> W * (string + MptcpResult);
  sx_dpi : DpiOp -> W -> W * (string + DpiOpResult);
}.
Arguments sx_qos {W}. Arguments sx_interface_info {W}. Arguments sx_set_mac {W}. Arguments sx_restore_mac {W}.
Arguments sx_tailscale_status {W}. Arguments sx_tailscale {W}. Arguments sx_wifi {W}. Arguments sx_mptcp {W}.
Arguments sx_dpi {W}.

(** The part of the snapshot that comes from the interface list, with the counters kept for
    the next pass. *)
Record net_view := mkNetView {
  nv_interfaces : list InterfaceInfo;
  nv_wan : option WanIdentity;
  nv_rates : list InterfaceRate;
  nv_counters : counters;
}.

(** The attached managers and what was last published of them; the B4 and VPN views are
    published by their own tasks. *)
Record managers := mkManagers {
  mn_wifi : option WifiSnapshot;
  mn_wifi_view : WifiSnapshot;
  mn_mptcp : option mptcp_manager;
  mn_mptcp_view : MptcpSnapshot;
  mn_dpi : option DpiManager;
  mn_dpi_view : DpiStatus;
  mn_b4_view : B4Snapshot;
  mn_vpn_view : VpnSnapshot;
}.

(** The last CPU sample and the published statistics; the capability profile, detected once,
    and what was published of it. *)
Record sys_view := mkSysView {
  sv_cpu_prev : option CpuSample;
  sv_system : SystemStats;
  sv_detected : option CapabilityProfile;
  sv_capabilities : CapabilityProfile;
}.

Record subsystems := mkSubsystems {
  su_qos : qos_manager;
  su_filter : string;
  su_net : net_view;
  su_sys : sys_view;
  su_tailscale : TailscaleSnapshot;
  su_unreachable : bool;
  su_managers : managers;
  su_decision : PathDecisionView;
  su_events : list net_event;
}.

Definition put_qos (q : qos_manager) (s : subsystems) : subsystems :=
  mkSubsystems q (su_filter s) (su_net s) (su_sys s) (su_tailscale s) (su_unreachable s) (su_managers s) (su_decision s) (su_events s).
Definition put_net (v : net_view) (s : subsystems) : subsystems :=
  mkSubsystems (su_qos s) (su_filter s) v (su_sys s) (su_tailscale s) (su_unreachable s) (su_managers s) (su_decision s) (su_events s).
Definition put_sys (v : sys_view) (s : subsystems) : subsystems :=
  mkSubsystems (su_qos s) (su_filter s) (su_net s) v (su_tailscale s) (su_unreachable s) (su_managers s) (su_decision s) (su_events s).
Definition put_tailscale (t : TailscaleSnapshot) (s : subsystems) : subsystems :=
  mkSubsystems (su_qos s) (su_filter s) (su_net s) (su_sys s) t (su_unreachable s) (su_managers s) (su_decision s) (su_events s).
Definition put_unreachable (b : bool) (s : subsystems) : subsystems :=
  mkSubsystems (su_qos s) (su_filter s) (su_net s) (su_sys s) (su_tailscale s) b (su_managers s) (su_decision s) (su_events s).
Definition put_managers (m : managers) (s : subsystems) : subsystems :=
  mkSubsystems (su_qos s) (su_filter s) (su_net s) (su_sys s) (su_tailscale s) (su_unreachable s) m (su_decision s) (su_events s).
Definition put_decision (d : PathDecisionView) (s : subsystems) : subsystems :=
  mkSubsystems (su_qos s) (su_filter s) (su_net s) (su_sys s) (su_tailscale s) (su_unreachable s) (su_managers s) d (su_events s).
Definition net_emit (e : net_event) (s : subsystems) : subsystems :=
  mkSubsystems (su_qos s) (su_filter s) (su_net s) (su_sys s) (su_tailscale s) (su_unreachable s) (su_managers s) (su_decision s)
    (su_events s ++ [e]).

(** What a pass reads beside the executor. *)
Record pass_env := mkPassEnv {
  pe_now_ms : Z;
  pe_config : string + NetworkConfig;
  pe_proc_route : option string;
  pe_wan_env : option string;
  pe_stats : B4Stats;
  pe_file : string -> option string;
  pe_statfs : string -> option statfs;
}.

Section Manager.
Context {W : Type} (x : SubsystemExec W) (e : pass_env).

(** The interface part of [refresh]; the flag tells that the executor was not reached. *)
Definition refresh_interfaces (s : subsystems) (w : W) : W * subsystems * bool :=
  match sx_interface_info x (su_filter s) w with
  | (w, inr list) =>
      let list := match pe_config e with
                  | inr cfg => assign_roles (pe_proc_route e) list cfg
                  | inl _ => list
                  end in
      let wan := assemble list (pe_wan_env e) (pe_proc_route e) in
      let '(next, rates) := update_interface_rates (nv_counters (su_net s)) (pe_now_ms e) list in
      (w, put_net (mkNetView list wan rates next) s, false)
  | (w, inl err) => (w, net_emit (InterfaceErrorEvent ("interface refresh: " +:+ err)) s, true)
  end.

Definition publish_wifi (m : managers) : managers :=
  mkManagers (mn_wifi m) (match mn_wifi m with Some v => v | None => mn_wifi_view m end) (mn_mptcp m)
    (mn_mptcp_view m) (mn_dpi m) (mn_dpi_view m) (mn_b4_view m) (mn_vpn_view m).

Definition publish_mptcp (m : managers) : managers :=
  mkManagers (mn_wifi m) (mn_wifi_view m) (mn_mptcp m)
    (match mn_mptcp m with Some v => mm_snapshot v | None => mn_mptcp_view m end) (mn_dpi m) (mn_dpi_view m)
    (mn_b4_view m) (mn_vpn_view m).

Definition put_wifi (v : option WifiSnapshot) (m : managers) : managers :=
  mkManagers v (mn_wifi_view m) (mn_mptcp m) (mn_mptcp_view m) (mn_dpi m) (mn_dpi_view m) (mn_b4_view m) (mn_vpn_view m).
Definition put_mptcp (v : option mptcp_manager) (m : managers) : managers :=
  mkManagers (mn_wifi m) (mn_wifi_view m) v (mn_mptcp_view m) (mn_dpi m) (mn_dpi_view m) (mn_b4_view m) (mn_vpn_view m).
Definition put_dpi (v : option DpiManager) (m : managers) : managers :=
  mkManagers (mn_wifi m) (mn_wifi_view m) (mn_mptcp m) (mn_mptcp_view m) v (mn_dpi_view m) (mn_b4_view m) (mn_vpn_view m).
Definition put_dpi_view (v : DpiStatus) (m : managers) : managers :=
  mkManagers (mn_wifi m) (mn_wifi_view m) (mn_mptcp m) (mn_mptcp_view m) (mn_dpi m) v (mn_b4_view m) (mn_vpn_view m).

Definition refresh_wifi (s : subsystems) (w : W) : W * subsystems :=
  let ifaces := detect_wifi_interfaces (nv_interfaces (su_net s)) in
  let m := su_managers s in
  let '(w, m) := match mn_wifi m with
                 | Some v => let '(w, v) := wifi_refresh (sx_wifi x) ifaces w v in (w, put_wifi (Some v) m)
                 | None => (w, m)
                 end in
  (w, put_managers (publish_wifi m) s).

Definition refresh_mptcp (s : subsystems) (w : W) : W * subsystems :=
  let m := su_managers s in
  let '(w, m) := match mn_mptcp m with
                 | Some v => let '(w, v) := mptcp_refresh (sx_mptcp x) w v in (w, put_mptcp (Some v) m)
                 | None => (w, m)
                 end in
  (w, put_managers (publish_mptcp m) s).

(** The capability profile and the system statistics of the pass. *)
Definition refresh_system (s : subsystems) : subsystems :=
  let v := su_sys s in
  let caps := match sv_detected v with Some c => c | None => detect (pe_file e) end in
  let v := mkSysView (sv_cpu_prev v) (sv_system v) (Some caps) caps in
  put_sys (match system_stats (pe_file e) (pe_statfs e) (sv_cpu_prev v) with
           | Some (stats, cur) => mkSysView (Some cur) stats (sv_detected v) (sv_capabilities v)
           | None => v
           end) s.

Definition refresh_tailscale (s : subsystems) (w : W) : W * subsystems * bool :=
  let prev := tn_status (su_tailscale s) in
  match sx_tailscale_status x w with
  | (w, inr status) =>
      let changed := match prev with
                     | Some p => negb (String.eqb (ts_backend_state p) (ts_backend_state status)) ||
                                 negb (Bool.eqb (ts_self_online p) (ts_self_online status))
                     | None => true
                     end in
      let s := put_tailscale (mkTailSnap (Some status) None false) s in
      let state := if is_empty_str (ts_backend_state status) then "Unknown"%string else ts_backend_state status in
      (w, if changed then net_emit (TailscaleStatusChanged state) s else s, false)
  | (w, inl err) =>
      (w, net_emit (TailscaleErrorEvent err) (put_tailscale (mkTailSnap prev (Some err) false) s), true)
  end.

Definition refresh_dpi (s : subsystems) : subsystems :=
  match mn_dpi (su_managers s) with
  | Some d => put_managers (put_dpi_view (dpi_status (pe_stats e) d) (su_managers s)) s
  | None => s
  end.

Definition refresh_decision (s : subsystems) : exec subsystems :=
  let m := su_managers s in
  let dpi_active := ds_enabled (mn_dpi_view m) && negb (ds_engine_dead (mn_dpi_view m)) in
  d ← decide_path (mn_b4_view m) (mn_vpn_view m) dpi_active;
  Val (put_decision d s).

(** [refresh] *)
Definition refresh_all (s : subsystems) (w : W) : exec (W * subsystems) :=
  let '(w, s, lost_if) := refresh_interfaces s w in
  let '(w, s) := refresh_wifi s w in
  let '(w, s) := refresh_mptcp s w in
  let s := refresh_system s in
  '(q, w, _) ← converge_qos (sx_qos x) (su_qos s) w;
  let s := put_qos q s in
  let '(w, s, lost_ts) := refresh_tailscale s w in
  let s := put_unreachable (lost_if || lost_ts) s in
  s ← refresh_decision (refresh_dpi s);
  Val (w, s).

(** *** [ControlImpl] *)

(** A call to the executor, an event on its success, and a pass. *)
Definition control_call {A} (call : W -> W * (string + A)) (event : option net_event) (s : subsystems) (w : W) :
    exec (W * subsystems * (string + A)) :=
  match call w with
  | (w, inl err) => Val (w, s, inl err)
  | (w, inr r) =>
      let s := match event with Some ev => net_emit ev s | None => s end in
      '(w, s) ← refresh_all s w;
      Val (w, s, inr r)
  end.

Definition control_set_qos_intent (configs : list QosConfig) (s : subsystems) (w : W) :
    exec (W * subsystems * (string + ())) :=
  '(q, w, r) ← set_qos_intent (sx_qos x) configs (su_qos s) w;
  Val (w, put_qos q s, r).

Definition control_remove_qos (interface : string) (s : subsystems) (w : W) :
    exec (W * subsystems * (string + ())) :=
  '(q, w, r) ← remove_qos (sx_qos x) interface (su_qos s) w;
  Val (w, put_qos q s, r).

Definition control_set_mac (interface mac : string) :=
  control_call (sx_set_mac x interface mac) (Some (InterfaceMacChanged interface mac)).
Definition control_restore_mac (interface : string) :=
  control_call (sx_restore_mac x interface) (Some (InterfaceMacRestored interface)).
Definition control_tailscale_up (key : option string) := control_call (sx_tailscale x (TsUp key)) None.
Definition control_tailscale_down := control_call (sx_tailscale x TsDown) None.
Definition control_tailscale_reconnect := control_call (sx_tailscale x TsReconnect) (Some TailscaleReconnected).
Definition control_tailscale_set_routes (routes : list string) (exit_node : bool) :=
  control_call (sx_tailscale x (TsSetRoutes routes exit_node)) None.

(** A call of the Wi-Fi manager, published on success. *)
Definition control_wifi (call : W -> WifiSnapshot -> W * WifiSnapshot * (string + WifiResult))
    (s : subsystems) (w : W) : W * subsystems * (string + WifiResult) :=
  match mn_wifi (su_managers s) with
  | None => (w, s, inl "Wi-Fi manager not attached"%string)
  | Some v =>
      let '(w, v, r) := call w v in
      let m := put_wifi (Some v) (su_managers s) in
      (w, put_managers (match r with inr _ => publish_wifi m | inl _ => m end) s, r)
  end.

Definition control_wifi_scan (interface : string) := control_wifi (manager_scan (sx_wifi x) interface).
Definition control_wifi_connect (interface ssid : string) (password identity security : option string) :=
  control_wifi (manager_connect (sx_wifi x) interface ssid password identity security).
Definition control_wifi_disconnect (interface : string) := control_wifi (manager_disconnect (sx_wifi x) interface).

Definition control_mptcp (call : W -> mptcp_manager -> W * mptcp_manager * (string + MptcpResult))
    (s : subsystems) (w : W) : W * subsystems * (string + MptcpResult) :=
  match mn_mptcp (su_managers s) with
  | None => (w, s, inl "MPTCP manager not attached"%string)
  | Some v =>
      let '(w, v, r) := call w v in
      let m := put_mptcp (Some v) (su_managers s) in
      (w, put_managers (match r with inr _ => publish_mptcp m | inl _ => m end) s, r)
  end.

Definition control_mptcp_set_enabled (enabled : bool) := control_mptcp (manager_set_enabled (sx_mptcp x) enabled).
Definition control_mptcp_set_endpoints (endpoints : list (string * string)) :=
  control_mptcp (fun w v => let '(w, v, r) := manager_set_endpoints (sx_mptcp x) endpoints w v in (w, v, inr r)).

Definition no_dpi : string := "DPI engine not configured (set BALANSIR_DPI_CONFIG)".

Definition control_dpi_set_paused (sock_text : sock_error -> string) (kernel : bind_env) (paused : bool)
    (s : subsystems) (w : W) : exec (W * subsystems * (string + ())) :=
  match mn_dpi (su_managers s) with
  | None => Val (w, s, inl no_dpi)
  | Some d =>
      '(w, d, r) ← dpi_set_enabled (sx_dpi x) sock_text kernel (negb paused) d w;
      let s := put_managers (put_dpi (Some d) (su_managers s)) s in
      match r with
      | inl err => Val (w, s, inl err)
      | inr _ => '(w, s) ← refresh_all s w; Val (w, s, inr ())
      end
  end.

Definition control_notify_discovery (probe : string -> W -> W * f64) (domain : string) (s : subsystems) (w : W) :
    exec (W * subsystems * (string + option string)) :=
  match mn_dpi (su_managers s) with
  | None => Val (w, s, inl no_dpi)
  | Some d =>
      let '(w, v, selected) := on_blocked probe domain (i64 (pe_now_ms e)) (dp_discovery d) w in
      let d := mkDpiManager (dp_inner d) (dp_running d) (dp_executor d) (dp_last_error d) v in
      '(w, s) ← refresh_all (put_managers (put_dpi (Some d) (su_managers s)) s) w;
      Val (w, s, inr selected)
  end.
End Manager.

(** ** Request handlers (balansir-api: subsystems.rs) *)

Definition error_response (detail : string) : response :=
  json_response 422 [("error", JStr detail); ("actionable", JBool true)]%string.

Definition control_unavailable : response :=
  json_response 503 [("error", JStr "subsystem control not attached (daemon not wired?)");
    ("actionable", JBool false)]%string.

(** [Value::get] *)
Definition json_get (j : json) (key : string) : option json :=
  match j with JObj m => snd <$> List.find (fun p => String.eqb p.1 key) m | _ => None end.

Definition body_bool (j : json) (key : string) : option bool :=
  match json_get j key with Some (JBool b) => Some b | _ => None end.
Definition body_str (j : json) (key : string) : option string :=
  match json_get j key with Some (JStr s) => Some s | _ => None end.

(** The answer to a control call. *)
Definition answer {A} (ok : A -> json) (r : string + A) : response :=
  match r with inr a => mkResponse 200 (BJson (ok a)) | inl err => error_response err end.

Definition unit_json (l : list (string * json)) (_ : ()) : json := jobj l.

(** [set_dpi_paused], [set_b4_paused], [set_xray_paused], [set_vpn_paused] *)
Definition set_paused_handler {S} (control : option (bool -> S -> exec (S * (string + ())))) (body : json) (s : S) :
    exec (S * response) :=
  match control with
  | None => Val (s, control_unavailable)
  | Some call =>
      match body_bool body "paused" with
      | None =>
          Val (s, error_response ("body requires " +:+ quoted "paused" +:+ ": true|false"))
      | Some paused =>
          '(s, r) ← call paused s;
          Val (s, answer (unit_json [("paused", JBool paused)]%string) r)
      end
  end.

Definition select_xray_handler {S} (control : option (string -> S -> exec (S * (string + ())))) (body : json) (s : S) :
    exec (S * response) :=
  match control with
  | None => Val (s, control_unavailable)
  | Some call =>
      let refused := error_response ("body requires " +:+ quoted "profile" +:+ ": <endpoint name>") in
      match body_str body "profile" with
      | Some p =>
          if is_empty_str (trim p) then Val (s, refused)
          else
            '(s, r) ← call (trim p) s;
            Val (s, answer (unit_json [("pinned", JStr (trim p))]%string) r)
      | None => Val (s, refused)
      end
  end.

Definition pin_vpn_handler {S} (control : option (option string -> S -> exec (S * (string + ())))) (body : json)
    (s : S) : exec (S * response) :=
  match control with
  | None => Val (s, control_unavailable)
  | Some call =>
      let id := body_str body "profile_id" in
      '(s, r) ← call id s;
      Val (s, answer (unit_json [("pinned", jopt JStr id)]%string) r)
  end.

(** Body of [POST /qos] *)
Record QosEntryBody := mkQosEntry {
  qe_interface : string;
  qe_kind : option string;
  qe_direction : option string;
  qe_bandwidth_mbps : option Z;
  qe_latency_target_ms : option Z;
}.

Definition entry_kind (entry : QosEntryBody) : response + QdiscKind :=
  let kind := default "fq_codel"%string (qe_kind entry) in
  if String.eqb kind "fq_codel" then inr FqCodel
  else if String.eqb kind "cake" then inr Cake
  else if String.eqb kind "ingress" then inr QIngress
  else inl (error_response ("unsupported qdisc kind: " +:+ kind)).

Definition entry_direction (entry : QosEntryBody) : response + QosDirection :=
  let direction := default "egress"%string (qe_direction entry) in
  if String.eqb direction "egress" then inr DirEgress
  else if String.eqb direction "ingress" then inr DirIngress
  else inl (error_response ("unsupported qos direction: " +:+ direction)).

Definition qos_entry (entry : QosEntryBody) : response + QosConfig :=
  let interface := trim (qe_interface entry) in
  if is_empty_str interface then inl (error_response "qos interface must not be empty")
  else
    match entry_kind entry with
    | inl r => inl r
    | inr kind =>
        match entry_direction entry with
        | inl r => inl r
        | inr direction =>
            inr (mkQos interface direction kind ((fun m => u64 (m * 1000000)) <$> qe_bandwidth_mbps entry)
                   (qe_latency_target_ms entry) None true false None [] (qos_identity interface))
        end
    end.

Fixpoint qos_entries (l : list QosEntryBody) : response + list QosConfig :=
  match l with
  | [] => inr []
  | entry :: l =>
      match qos_entry entry with
      | inl r => inl r
      | inr c => match qos_entries l with inl r => inl r | inr cs => inr (c :: cs) end
      end
  end.

Definition ok_json : json := jobj [("ok", JBool true)]%string.

Definition set_qos_handler {S} (control : option (list QosConfig -> S -> exec (S * (string + ()))))
    (body : list QosEntryBody) (s : S) : exec (S * response) :=
  match control with
  | None => Val (s, control_unavailable)
  | Some call =>
      match qos_entries body with
      | inl refused => Val (s, refused)
      | inr configs => '(s, r) ← call configs s; Val (s, answer (fun _ => ok_json) r)
      end
  end.

(** The sanity check of [set_mac]. *)
Definition mac_shape (mac : string) : bool :=
  forallb (fun o => negb (is_empty_str o) && (String.length o <=? 2)%nat) (split_on ":" mac).

Definition set_mac_handler {S} (to_json : InterfaceResult -> json)
    (control : option (string -> string -> S -> exec (S * (string + InterfaceResult)))) (interface mac : string) (s : S) :
    exec (S * response) :=
  match control with
  | None => Val (s, control_unavailable)
  | Some call =>
      if negb (mac_shape (trim mac)) then Val (s, error_response "malformed MAC address")
      else '(s, r) ← call interface (trim mac) s; Val (s, answer to_json r)
  end.

(** The check of one advertised route. *)
Definition route_passes (route : string) : bool :=
  bool_decide (is_Some (parse_ip route)) ||
  match split_on "/" route with
  | addr :: prefix :: _ => bool_decide (is_Some (parse_radix 10 255 prefix)) && bool_decide (is_Some (parse_ip addr))
  | _ => false
  end.

Definition set_routes_handler {S} (to_json : TailscaleResult -> json)
    (control : option (list string -> bool -> S -> exec (S * (string + TailscaleResult))))
    (routes : list string) (exit_node : bool) (s : S) : exec (S * response) :=
  match control with
  | None => Val (s, control_unavailable)
  | Some call =>
      match List.find (fun r => negb (route_passes r)) routes with
      | Some route => Val (s, error_response ("malformed route: " +:+ route))
      | None => '(s, r) ← call routes exit_node s; Val (s, answer to_json r)
      end
  end.

Definition set_endpoints_handler {S} (to_json : MptcpResult -> json)
    (control : option (list (string * string) -> S -> exec (S * (string + MptcpResult))))
    (endpoints : list (string * string)) (s : S) : exec (S * response) :=
  match control with
  | None => Val (s, control_unavailable)
  | Some call =>
      match List.find (fun ep => negb (valid_ip ep.1)) endpoints with
      | Some ep => Val (s, error_response ("invalid endpoint address: " +:+ ep.1))
      | None => '(s, r) ← call endpoints s; Val (s, answer to_json r)
      end
  end.

(** ** A shaping request reaches the kernel *)

(** Requests that name a direction and a kind that go together, a rate only for CAKE, and one
    the kernel can represent. *)
Definition entry_ok (entry : QosEntryBody) : Prop :=
  let direction := default "egress"%string (qe_direction entry) in
  let kind := default "fq_codel"%string (qe_kind entry) in
  trim (qe_interface entry) <> EmptyString /\ trim (qe_interface entry) <> "lo"%string /\
  (direction = "ingress"%string /\ kind = "ingress"%string /\ qe_bandwidth_mbps entry = None \/
   direction = "egress"%string /\ kind = "fq_codel"%string /\ qe_bandwidth_mbps entry = None \/
   direction = "egress"%string /\ kind = "cake"%string /\
     from_option (fun m => 1 <= m <= 34359) True (qe_bandwidth_mbps entry)).

(** The shaping a request asks for: the fields of the request, the defaults for the rest. *)
Definition asks (entry : QosEntryBody) (c : QosConfig) : Prop :=
  q_interface c = trim (qe_interface entry) /\
  q_direction c = (if String.eqb (default "egress"%string (qe_direction entry)) "ingress" then DirIngress else DirEgress) /\
  qdisc_as_str (q_kind c) = default "fq_codel"%string (qe_kind entry) /\
  q_bandwidth_bps c = (fun m => m * 1000000) <$> qe_bandwidth_mbps entry /\
  q_latency_target_ms c = qe_latency_target_ms entry /\
  q_overhead_bytes c = None /\ q_ecn c = true /\ q_wash c = false /\ q_memory_limit_bytes c = None /\
  q_classes c = [] /\ q_comment c = qos_identity (trim (qe_interface entry)).

(** Two entries for different interfaces or directions. *)
Definition entries_apart (e e' : QosEntryBody) : Prop :=
  trim (qe_interface e) <> trim (qe_interface e') \/
  String.eqb (default "egress"%string (qe_direction e)) "ingress" <>
  String.eqb (default "egress"%string (qe_direction e')) "ingress".

Lemma asks_apart body configs :
  Forall2 asks body configs -> ForallOrdPairs entries_apart body -> ForallOrdPairs apart configs.
Proof.
  induction 1 as [|e c body configs Ha H IH]; intros Hap; [constructor|].
  inversion_clear Hap as [|? ? Hall Hap']. constructor; [|by apply IH]. clear IH Hap'.
  induction H as [|e' c' body configs Ha' _ IH]; [constructor|]. inversion_clear Hall as [|? ? Hee Hall'].
  constructor; [|by apply IH]. destruct Ha as (I & D & _), Ha' as (I' & D' & _).
  unfold apart, slot. rewrite I, I', D, D'. destruct Hee as [Hne|Hne]; [by left|right].
  destruct (String.eqb _ _), (String.eqb _ _); done.
Qed.

(** Every such request becomes a configuration the convergence theorem is about: rates in
    megabits are whole bytes per second. *)
Lemma qos_entry_ok entry :
  entry_ok entry -> exists c, qos_entry entry = inr c /\ asks entry c /\ config_ok c /\ q_interface c <> "lo"%string.
Proof.
  intros (Hne & Hlo & Hk). unfold qos_entry.
  destruct (is_empty_str (trim (qe_interface entry))) eqn:Ee.
  { by destruct (trim (qe_interface entry)). }
  unfold asks, config_ok, entry_kind, entry_direction.
  destruct Hk as [(Hd & Hq & Hb)|[(Hd & Hq & Hb)|(Hd & Hq & Hb)]]; rewrite Hd, Hq; eexists;
    (split; [reflexivity|]); cbn.
  1, 2: rewrite Hb; split; [by repeat split|done].
  assert (Hrate : ((fun m => u64 (m * 1000000)) <$> qe_bandwidth_mbps entry) =
    ((fun m => m * 1000000) <$> qe_bandwidth_mbps entry)).
  { destruct (qe_bandwidth_mbps entry) as [m|]; [|done]. cbn in Hb |- *. f_equal. apply wrap_small. lia. }
  rewrite Hrate. split; [by repeat split|]. split; [|done].
  destruct (qe_bandwidth_mbps entry) as [m|]; [|done]. cbn in Hb |- *. split; [|lia].
  replace (m * 1000000) with (m * 125000 * 8) by lia. apply Z.mod_mul. lia.
Qed.

Lemma qos_entries_ok body :
  Forall entry_ok body -> exists configs, qos_entries body = inr configs /\ Forall2 asks body configs /\
    Forall config_ok configs /\ Forall (fun c => q_interface c <> "lo"%string) configs.
Proof.
  induction 1 as [|entry body He _ (cs & Hcs & Ha & Hok & Hlo)]; [by exists []|].
  destruct (qos_entry_ok entry He) as (c & Hc & Hac & Hokc & Hloc). exists (c :: cs). cbn [qos_entries].
  rewrite Hc, Hcs. split; [done|]. split; [by constructor|]. split; by constructor.
Qed.

(** The control of the API over a state that carries the world. *)
Definition on_world {W A} (f : subsystems -> W -> exec (W * subsystems * A)) (s : W * subsystems) :
    exec (W * subsystems * A) := f s.2 s.1.

Section QosRequest.
Context {N : Type} {kernel : TcKernel N} {tk : TcKernelOk N} (probe : N -> N * QosCapabilities).
Context (x : SubsystemExec N).
Hypothesis x_tc : sx_qos x = tc_exec probe.

End QosRequest.

(** ** What the published rates measure *)

Lemma sample_lookup now_ms l name :
  List.NoDup (map if_name l) ->
  sample now_ms l !! name =
    (fun i => (if_rx_bytes i, if_tx_bytes i, now_ms)) <$> List.find (fun i => String.eqb (if_name i) name) l.
Proof.
  intros Hnd. unfold sample.
  enough (H : forall m : counters, fold_left (fun m i => <[if_name i := (if_rx_bytes i, if_tx_bytes i, now_ms)]> m) l m !! name =
    match List.find (fun i => String.eqb (if_name i) name) l with
    | Some i => Some (if_rx_bytes i, if_tx_bytes i, now_ms)
    | None => m !! name
    end).
  { rewrite H. by destruct (List.find _ l). }
  induction l as [|i l IH]; intros m; [done|]. cbn [map] in Hnd. apply NoDup_cons_iff in Hnd as [Hi Hnd].
  cbn [fold_left List.find]. rewrite (IH Hnd). destruct (String.eqb_spec (if_name i) name) as [<-|Hne].
  - destruct (List.find _ l) as [j|] eqn:E; [|by rewrite lookup_insert_eq].
    apply List.find_some in E as [Hj He%String.eqb_eq]. destruct Hi. rewrite <- He. by apply in_map.
  - destruct (List.find _ l); [done|]. by rewrite lookup_insert_ne.
Qed.

(** A pass changes the interface view in its first step only. *)
Lemma refresh_all_net {W} (x : SubsystemExec W) e s w w' s' :
  refresh_all x e s w = Val (w', s') -> su_net s' = su_net (refresh_interfaces x e s w).1.2.
Proof.
  unfold refresh_all. destruct (refresh_interfaces x e s w) as [[w1 s1] lost]. cbn [fst snd].
  assert (Hw : forall v, su_net (refresh_wifi x s1 v).2 = su_net s1).
  { intros v. unfold refresh_wifi. destruct (mn_wifi _) as [o|]; [|done]. by destruct (wifi_refresh _ _ _ _). }
  specialize (Hw w1). destruct (refresh_wifi x s1 w1) as [w2 s2]. cbn [snd] in Hw.
  assert (Hm : forall v, su_net (refresh_mptcp x s2 v).2 = su_net s2).
  { intros v. unfold refresh_mptcp. destruct (mn_mptcp _) as [o|]; [|done]. by destruct (mptcp_refresh _ _ _). }
  specialize (Hm w2). destruct (refresh_mptcp x s2 w2) as [w3 s3]. cbn [snd] in Hm.
  destruct (converge_qos _ _ _) as [[[q w4] r]|]; [|done]. rewrite bind_Val_l.
  assert (Ht : forall v, su_net (refresh_tailscale x (put_qos q (refresh_system e s3)) v).1.2 = su_net s3).
  { intros v. unfold refresh_tailscale. destruct (sx_tailscale_status x v) as [v' [err|st]]; [done|]. cbn.
    by destruct (match tn_status _ with Some _ => _ | None => _ end). }
  specialize (Ht w4). destruct (refresh_tailscale _ _ _) as [[w5 s5] lost']. cbn [fst snd] in Ht.
  unfold refresh_decision. destruct (decide_path _ _ _) as [d|]; [|done]. rewrite !bind_Val_l.
  intros [= <- <-]. rewrite <- Hw, <- Hm, <- Ht. unfold refresh_dpi. cbn. by destruct (mn_dpi _).
Qed.

Definition throughput (prev cur dt : Z) : Z := if prev <=? cur then (cur - prev) * 8000 / dt else 0.

Lemma rate_bps_throughput prev cur dt :
  0 < dt -> cur - prev < 2 ^ 51 -> rate_bps prev cur dt = throughput prev cur dt.
Proof.
  intros Hdt Hb. unfold rate_bps, throughput, sat_sub. rewrite (proj2 (Z.eqb_neq dt 0)) by lia.
  destruct (Z.leb_spec prev cur) as [Hle|Hgt].
  - rewrite Z.max_l by lia. apply wrap_small. split; [apply Z.div_pos; lia|].
    apply Z.div_lt_upper_bound; [lia|]. change (2 ^ 51) with 2251799813685248 in Hb.
    change (2 ^ 64) with 18446744073709551616. nia.
  - rewrite Z.max_r by lia. by rewrite Z.mul_0_l, Z.div_0_l by lia.
Qed.

(** The last sample of an interface of the same name. *)
Definition before (l : list InterfaceInfo) (i : InterfaceInfo) : option InterfaceInfo :=
  List.find (fun j => String.eqb (if_name j) (if_name i)) l.

(** The published rates: after two passes that reached the executor, an interface shows
    the bits per second it received and sent between them, and zero when it was not there
    before or its counter went back. *)
Theorem rates_measure_traffic {W} (x : SubsystemExec W) e1 e2 s w w1 s1 w1' w2 s2 :
  refresh_all x e1 s w = Val (w1, s1) -> (refresh_interfaces x e1 s w).2 = false ->
  refresh_all x e2 s1 w1' = Val (w2, s2) -> (refresh_interfaces x e2 s1 w1').2 = false ->
  pe_now_ms e1 < pe_now_ms e2 ->
  List.NoDup (map if_name (nv_interfaces (su_net s1))) ->
  (forall i j, In i (nv_interfaces (su_net s2)) -> before (nv_interfaces (su_net s1)) i = Some j ->
     if_rx_bytes i - if_rx_bytes j < 2 ^ 51 /\ if_tx_bytes i - if_tx_bytes j < 2 ^ 51) ->
  let dt := pe_now_ms e2 - pe_now_ms e1 in
  forall r, In r (nv_rates (su_net s2)) <->
    exists i, In i (nv_interfaces (su_net s2)) /\
      r = match before (nv_interfaces (su_net s1)) i with
          | Some j => mkRate (if_name i) (throughput (if_rx_bytes j) (if_rx_bytes i) dt)
                        (throughput (if_tx_bytes j) (if_tx_bytes i) dt)
          | None => mkRate (if_name i) 0 0
          end.
Proof.
  intros H1 R1 H2 R2 Ht Hnd Hb dt r. apply refresh_all_net in H1, H2. unfold refresh_interfaces in *.
  destruct (sx_interface_info x _ w) as [wa [err|la]]; [done|]. cbn [fst snd] in *.
  unfold update_interface_rates in H1. cbn in H1. set (l1 := match pe_config e1 with inl _ => la | inr _ => _ end) in H1.
  destruct (sx_interface_info x _ w1') as [wb [err|lb]]; [done|]. cbn [fst snd] in *.
  unfold update_interface_rates in H2. cbn in H2. set (l2 := match pe_config e2 with inl _ => lb | inr _ => _ end) in H2.
  rewrite H2 in *. rewrite H1 in *. cbn in Hnd, Hb |- *. rewrite sort_by_in, in_map_iff.
  split; intros (i & Hi & Hx); exists i.
  all: assert (Hin : In i l2) by done; assert (Hrate : rate_of (sample (pe_now_ms e1) l1) (pe_now_ms e2) i =
      match before l1 i with
      | Some j => mkRate (if_name i) (throughput (if_rx_bytes j) (if_rx_bytes i) dt)
                    (throughput (if_tx_bytes j) (if_tx_bytes i) dt)
      | None => mkRate (if_name i) 0 0
      end).
  1, 3: unfold rate_of; rewrite sample_lookup by done; unfold before in *;
    destruct (List.find _ l1) as [j|] eqn:Ej; [|done]; destruct (Hb i j Hin Ej) as [Hrx Htx]; cbn;
    rewrite (proj2 (Z.ltb_lt _ _)) by done; by rewrite !rate_bps_throughput by (done || lia).
  - split; [done|]. by rewrite <- Hi.
  - split; [by rewrite Hx|done].
Qed.

(** ** The two route checks *)

Lemma digits_no_slash acc s v : digits_value 10 acc s = Some v -> no_char "/" s = true.
Proof.
  intros H. apply no_char_digits; [done|]. apply (digits_value_all_digits s acc). by exists v.
Qed.

Lemma parse_prefix_no_slash s v : parse_radix 10 255 s = Some v -> no_char "/" s = true.
Proof.
  unfold parse_radix. destruct s as [|c s]; [done|].
  assert (Hd : forall t, match t with
     | EmptyString => None
     | String _ _ => match digits_value 10 0 t with Some v => if v <=? 255 then Some v else None | None => None end
     end = Some v -> no_char "/" t = true).
  { intros t. destruct t as [|d t]; [done|]. destruct (digits_value 10 0 (String d t)) as [u|] eqn:E; [|done].
    intros _. by apply digits_no_slash in E. }
  intros H. destruct (Ascii.eqb_spec c "+"%char) as [->|Hne].
  - apply Hd in H. cbn [no_char]. by rewrite H.
  - apply Hd. destruct c as [[] [] [] [] [] [] [] []]; done.
Qed.

(** Every route the executor accepts passes the check of the API, so the first check refuses
    nothing that the second would take. *)
Lemma executor_route_passes route : validate_route route = true -> route_passes route = true.
Proof.
  unfold validate_route. destruct (split_once "/" route) as [[addr prefix]|] eqn:Es; [|done].
  apply NetTools.split_once_some in Es as ->.
  destruct (parse_radix 10 255 prefix) as [p|] eqn:Ep; [|done].
  destruct (parse_ip addr) as [ip|] eqn:Ei; [|done]. intros _. unfold route_passes. apply orb_true_iff. right.
  change ("/" +:+ prefix) with (String "/" prefix).
  rewrite DnsPlane.split_on_app by (by eapply (parse_ip_chars "/"%char)).
  rewrite DnsPlane.split_on_none by (by apply parse_prefix_no_slash in Ep).
  rewrite !bool_decide_eq_true_2 by (by eexists). done.
Qed.

(** ** Reachability of the executor *)

(** A pass that leaves the flag for an unreachable executor unset has read the interface
    list. *)
Lemma unreachable_flag {W} (x : SubsystemExec W) e s w w' s' :
  refresh_all x e s w = Val (w', s') ->
  su_unreachable s' = false -> exists w1 list, sx_interface_info x (su_filter s) w = (w1, inr list).
Proof.
  intros H Hu. cut ((refresh_interfaces x e s w).2 = false).
  { unfold refresh_interfaces. destruct (sx_interface_info _ _ _) as [w1 [err|list]]; [done|by eauto]. }
  revert H Hu. unfold refresh_all. destruct (refresh_interfaces x e s w) as [[w1 s1] lost]. cbn [snd].
  destruct (refresh_wifi x s1 w1) as [w2 s2]. destruct (refresh_mptcp x s2 w2) as [w3 s3].
  destruct (converge_qos _ _ _) as [[[q w4] r]|]; [|done]. rewrite bind_Val_l.
  destruct (refresh_tailscale _ _ _) as [[w5 s5] lost']. unfold refresh_decision.
  destruct (decide_path _ _ _) as [d|]; [|done]. rewrite !bind_Val_l. intros [= <- <-].
  unfold refresh_dpi. cbn. destruct (mn_dpi _); cbn; by intros [-> _]%orb_false_iff.
Qed.

Module Demo.
Definition no_view : MptcpSnapshot := mkMptcpSnapshot false [] [] [] [] None false.
Definition no_wifi : WifiSnapshot := mkWifiSnapshot [] [] [] None false.

Definition exec_over {N} (q : QosExec N) (interfaces : N -> list InterfaceInfo) (tick : N -> N) : SubsystemExec N :=
  mkSubExec N q (fun _ n => (tick n, inr (interfaces n))) (fun _ _ n => (n, inl EmptyString))
    (fun _ n => (n, inl EmptyString)) (fun n => (n, inl EmptyString)) (fun _ n => (n, inl EmptyString))
    (fun _ n => (n, inl EmptyString)) (fun _ n => (n, inl EmptyString)) (fun _ n => (n, inl EmptyString)).

Definition no_sys : sys_view :=
  mkSysView None (mkSystemStats f0 0 0 f0 f0 f0 0 []) None (mkCapability EmptyString 0 0 []).

Definition state (q : qos_manager) : subsystems :=
  mkSubsystems q EmptyString (mkNetView [] None [] ∅) no_sys (mkTailSnap None None false) false
    (mkManagers None no_wifi None no_view None (dpi_status zero_stats (new_with_executor EmptyString (B4Set.mkB4Config 0 [] [] [] []) false))
       paused_b4 empty_vpn)
    (mkDecisionView EmptyString EmptyString EmptyString EmptyString false false None false false) [].

Definition shaping_request : list QosEntryBody :=
  [mkQosEntry " eth0" (Some "cake") None (Some 8) None; mkQosEntry "eth0" (Some "ingress") (Some "ingress") None None]%string.

Definition tc_host : SubsystemExec (list TcMem.entry) := exec_over (tc_exec TcMem.probe_) (fun _ => []) id.


(** An interface that received 1 MB in a second, and one that appeared in between. *)
Definition iface (name : string) (rx : Z) : InterfaceInfo :=
  mkIface name 2 None None RoleUnknown None None true 1500 None None None false None None None None None None None [] []
    rx 0 0 0 0 0 0 0 0 None None.

Definition eth_host : SubsystemExec nat :=
  exec_over (mkQosExec nat (fun _ n => Val (n, inl EmptyString)) (fun _ n => Val (n, inl EmptyString))
               (fun n => Val (n, inl EmptyString)))
    (fun n => match n with O => [iface "eth0" 1000] | _ => [iface "wg0" 70; iface "eth0" 1001000] end%string) S.

Definition at_time (t : Z) : pass_env := mkPassEnv t (inl EmptyString) None None zero_stats (fun _ => None) (fun _ => None).

Definition pass (t : Z) (s : subsystems) (n : nat) : nat * subsystems :=
  match refresh_all eth_host (at_time t) s n with Val r => r | Panic => (n, s) end.

Definition first_pass : subsystems := Eval vm_compute in (pass 5000 (state (TcMem.manager [])) 0%nat).2.
Definition second_pass : subsystems := Eval vm_compute in (pass 6000 first_pass 1%nat).2.

Lemma rates_measure_traffic_witness :
  In (mkRate "eth0" 8000000 0) (nv_rates (su_net second_pass)) /\ In (mkRate "wg0" 0 0) (nv_rates (su_net second_pass)).
Proof.
  assert (H1 : refresh_all eth_host (at_time 5000) (state (TcMem.manager [])) 0%nat = Val (1%nat, first_pass))
    by (vm_compute; reflexivity).
  assert (R1 : (refresh_interfaces eth_host (at_time 5000) (state (TcMem.manager [])) 0%nat).2 = false)
    by (vm_compute; reflexivity).
  assert (H2 : refresh_all eth_host (at_time 6000) first_pass 1%nat = Val (2%nat, second_pass))
    by (vm_compute; reflexivity).
  assert (R2 : (refresh_interfaces eth_host (at_time 6000) first_pass 1%nat).2 = false)
    by (vm_compute; reflexivity).
  assert (L1 : nv_interfaces (su_net first_pass) = [iface "eth0" 1000]) by (vm_compute; reflexivity).
  assert (L2 : nv_interfaces (su_net second_pass) = [iface "wg0" 70; iface "eth0" 1001000])
    by (vm_compute; reflexivity).
  pose proof (rates_measure_traffic eth_host (at_time 5000) (at_time 6000) _ _ _ _ _ _ _ H1 R1 H2 R2 eq_refl) as H.
  rewrite L1, L2 in H.
  assert (Hnd : List.NoDup (map if_name [iface "eth0" 1000])) by (constructor; [by intros []|constructor]).
  assert (Hb : forall i j, In i [iface "wg0" 70; iface "eth0" 1001000] -> before [iface "eth0" 1000] i = Some j ->
    if_rx_bytes i - if_rx_bytes j < 2 ^ 51 /\ if_tx_bytes i - if_tx_bytes j < 2 ^ 51).
  { intros i j [<-|[<-|[]]] Hj; vm_compute in Hj; [done|]. injection Hj as <-. by vm_compute. }
  specialize (H Hnd Hb). split; apply H.
  - exists (iface "eth0" 1001000). split; [right; by left|reflexivity].
  - exists (iface "wg0" 70). split; [by left|reflexivity].
Defined.

(** A request the kernel refuses is answered in the same way. *)
Lemma refused_shaping_answered_ok :
  exists n' s', set_qos_handler (Some (fun c => on_world (control_set_qos_intent tc_host c)))
      [mkQosEntry "wlan7" (Some "cake"%string) None (Some 8) None] (TcMem.host, state (TcMem.manager [])) =
    Val ((n', s'), mkResponse 200 (BJson ok_json)) /\
  is_Some (sn_last_error (qm_snapshot (su_qos s'))) /\ sn_drift (qm_snapshot (su_qos s')) = true.
Proof. eexists _, _. split; [vm_compute; reflexivity|]. split; [by eexists|done]. Qed.

(** A rate above the range of the multiplication wraps to a small one. *)
Lemma huge_rate_wraps :
  match qos_entry (mkQosEntry "eth0" (Some "cake"%string) None (Some 18446744073710) None) with
  | inr c => q_bandwidth_bps c = Some 448384
  | inl _ => False
  end.
Proof. vm_compute. reflexivity. Qed.

(** The first check is the weaker one by intent: the executor refuses what it lets through. *)
Lemma route_checks_differ :
  forallb route_passes ["10.0.0.1"; "0.0.0.0/0"; "10.0.0.0/8/x"; "10.0.0.0/200"]%string = true /\
  existsb validate_route ["10.0.0.1"; "0.0.0.0/0"; "10.0.0.0/8/x"; "10.0.0.0/200"]%string = false.
Proof. vm_compute. done. Qed.
End Demo.
